(* ===== verification/_CoqProject ===== *)
-Q . S2P
Prelude.v
UserProgs.v
CList.v
BitMap.v
Stats.v
Interrupt.v
TimerDev.v
HostFile.v
Thread.v
Machine.v
CmdLine.v
Boot.v
Synch.v
Mutex.v
Elevator.v
ConsoleDev.v
Network.v
Post.v
NetTest.v
Disk.v
Sectors.v
SynchDisk.v
FileHdr.v
OpenFile.v
Volume.v
Directory.v
FileSys.v
Extend.v
FsTermination.v
FsTest.v
Shell.v
Paging.v
Mips.v
Cpu.v
Interp.v
Disasm.v
AddrSpace.v
UserSwitch.v
Coff.v
