(* ===== verification/Prelude.v ===== *)
(** * A verification of Nachos

    Nachos is an instructional operating system whose hardware is simulated in
    the same process: a MIPS processor with paged memory, a disk, a timer, a
    console, a network and a bank of elevators raise interrupts that are queued
    by simulated time; on top of them run threads, synchronisation, a file
    system with directories, user programs with demand paging and a post
    office.  This library models the C++ code of [src/] as executable functions
    on explicit state and proves what makes each part correct, or what it does
    wrong.

    ** The parts and their files

    Every file opens with what it models; operations keep the names of the
    source, with the class as prefix where two classes use the same name.

    - [Prelude]: outcomes, the state monad [M] with its rules, [ASSERT], loops,
      32-bit arithmetic, little-endian storage, blocks of arrays.
    - [CList] (threads/list): the linked list on a heap of cells, and its
      contract as functions on sequences.  Everything above uses the contract.
    - [BitMap] (userprog/bitmap), [Stats] (machine/stats).
    - [Interrupt] (machine/interrupt): levels, clock, pending interrupts.  Its
      clients are given by the class [Hardware], what it expects of their
      handlers by [HardwareLaws].  [TimerDev] (machine/timer and the handler in
      threads/system.cc) is the simplest such client.
    - [HostFile] (the files of machine/sysdep.cc; the stub OpenFile).
    - [Thread] (threads/thread, threads/scheduler), [Synch] (threads/synch,
      threads/synchlist), [Mutex] (interleavings of P, V and Yield).
    - [CmdLine] (the options of threads/system.cc, the commands of
      threads/main.cc, the flags of threads/utility.cc), [Boot] (Initialize, the
      kernel of the threads build with its timer, threads/threadtest.cc) and
      [Shell] (the file system build, from the command line to the disk).  What
      Initialize and main call are records of operations ([Boot], [Commands]);
      the two builds implement them.
    - [Elevator] (machine/elevator), [ConsoleDev] (machine/console),
      [Network] (machine/network), [Post] (network/post): devices with the
      callbacks of their clients as a class with laws; the semaphores of
      elevatortest.cc and of the post office are instances.  [NetTest]
      (network/nettest.cc) runs the mail test on two machines.
    - [Disk] (machine/disk), [SynchDisk] (filesys/synchdisk): a sector transfer
      through lock, request, interrupt and semaphore.  [Sectors] is the
      contract that the file system above it uses.
    - [FileHdr] (filesys/filehdr), [OpenFile] (filesys/openfile and the file
      routines of bitmap.cc), [Volume] (the disk as disjoint files),
      [Directory] (filesys/directory), [FileSys] and [FsTermination]
      (filesys/filesys), [Extend] (a write behind the end of a file), [FsTest]
      (Copy and Print of filesys/fstest.cc).
    - [Machine] (machine/machine, machine/translate, userprog/exception.cc),
      [Paging] (what they give to a program), [Mips] and [Cpu]
      (machine/mipssim), [Interp] (the older stand-alone interpreter of bin/:
      execute.c, system.c and their headers), [Disasm] (its disassembler d.c
      with opstrings.c, the programs disasm.c and out.c).
    - [AddrSpace] (userprog/addrspace, StartProcess of userprog/progtest.cc,
      bin/noff.h), [UserSwitch] (the registers of user programs in a context
      switch) and [Coff] (bin/coff.h, bin/coff2noff.c, bin/coff2flat.c):
      from a linked object file to a program in virtual memory.  [UserProgs]
      is what test/sort.c and test/matmult.c compute.

    ** State, errors and what is left open

    A routine is a function in [M S A]: it returns a value and a state or stops
    with a [failure]: a false ASSERT, an access outside memory, a wait that
    nobody can end, the Halt of the machine, or a loop cut by its fuel.
    Pointers are keys of a finite map or [option]; arrays are lists with
    checked bounds; an int is a [Z] whose wrap-around is written out ([i32],
    [u32]).  The host is little-endian with 32-bit int, long and pointers, as
    the Makefiles assume.

    What is not in [src/] is a parameter: the allocator, the contents of
    uninitialised memory, the random numbers, the host's clock and network, and
    SWITCH (assembly), which stands for what other threads do until this one
    runs again.  Their laws are classes ([ContextSwitchLaws], [HardwareLaws],
    [ConsoleClientLaws], ...) whose instances are given with the witnesses.

    ** What the theorems show

    - The list, the directory, the console and the synchronous disk refine
      their specifications (a sequence, a finite map, two queues, an array of
      sectors).
    - Every command line has the effect that its words spell out; Initialize
      establishes the invariants of scheduler and thread ids; a file that the
      command line copies in is printed back, from any disk, and the run of the
      file system build that does so halts.
    - Interrupts are delivered when due and in order; an idle machine goes to
      its next interrupt and handles it; with the timer no thread keeps the
      processor;
      threads are dispatched in turn; semaphores let at most their number of
      units in, in every interleaving, and forget no waiter.
    - A file's header, data and index sectors are allocated, extended, read,
      written and released exactly; Create and Remove keep the disk a set of
      disjoint files with an exact free map; path lookup resolves and ends;
      formatting gives a consistent file system; a host file copied in is
      printed back; a write behind the end makes a file longer.
    - Translation stays in memory; page faults are transparent to the program;
      processor steps keep the registers well formed; multiplication and
      decoding are exact; the stand-alone interpreter computes as the simulator
      does on the operands that a predicate lists, with examples outside it
      where they differ, and goes where its disassembler says, which leaves out
      the target of two branches.
    - A converted and loaded program sees its text from address 0 on and its
      data right behind, wherever it was linked; context switches keep the registers of every program.
    - Packets and mail arrive as they were sent, from the call of Send to the
      return of Receive, and Send returns, with interrupts on or off; two machines
      that run the mail test finish it in every order of their calls; elevators
      arrive and keep their invariant.
    - Some theorems state a defect of the code precisely: Open of a missing
      file, sectors of a longer file that stay free on disk, an elevator below
      the ground floor, refused .bss sections, operands run as commands; more
      are given as unlisted theorems in the component's file.

    ** Fuel and bounds

    The idle loop of Sleep and the retry loop of P take [fuel]; the theorems on
    SynchDisk and Post give the amount (two or three rounds) that is enough, the
    others hold for every fuel or say what one round does.  CheckIfDue runs at
    most once per pending interrupt.  The loops over the command line have one
    round per word, which is proved to be enough; [depth] in Boot bounds the
    yields nested in ticks, and no theorem needs more than one.  Path lookup has the length of the path
    plus one, Remove the length of its buffer plus one (101): FsTermination
    proves that neither is ever used up.  PostalDelivery never returns in the
    code; its rounds are counted.  [ClockLimit] (2^30 ticks) keeps sums of
    clock and delay inside an int.

    ** Not modelled

    Debugging output and statistics printing; Cleanup of threads/system.cc,
    which deletes the objects and exits; the other test drivers; host calls
    without logic (sockets' names, signals, mprotect); switch.s; halt.c, shell.c
    and start.s of test/; the main programs of bin/ that read headers with a
    library of the host (main.c, and those of disasm.c and out.c).
    machine->Run is the endless loop around [OneInstruction]. *)
From Stdlib Require Import ZArith Lia Sorted.
From stdpp Require Import base option list list_numbers gmap.

Local Open Scope Z_scope.

(** * Outcomes

    A C++ routine either returns a value with the updated state, or stops. *)
Inductive failure :=
  | AssertFailed   (* ASSERT(condition) with a false condition: Abort() *)
  | BadAccess      (* null or wild pointer, index outside an array, integer trap *)
  | WouldBlock     (* a semaphore wait with nobody left to signal it *)
  | Halted         (* Interrupt::Halt: the simulation exits cleanly *)
  | OutOfFuel.     (* a loop was cut by its fuel; excluded by the theorems *)

#[global] Instance failure_eq_dec : EqDecision failure.
Proof. solve_decision. Defined.

Inductive res (A : Type) :=
  | Ok (a : A)
  | Err (f : failure).
Arguments Ok {A} a.
Arguments Err {A} f.

#[global] Instance res_eq_dec {A} `{EqDecision A} : EqDecision (res A).
Proof. solve_decision. Defined.

(** Stateful routines: explicit state passing over [res]. *)
Definition M (S A : Type) : Type := S -> res (A * S).

Definition mreturn {S A} (a : A) : M S A := fun s => Ok (a, s).
Definition mthen {S A B} (m : M S A) (k : A -> M S B) : M S B :=
  fun s => match m s with
           | Ok (a, s') => k a s'
           | Err f => Err f
           end.
Definition mfail {S A} (f : failure) : M S A := fun _ => Err f.
Definition mget {S} : M S S := fun s => Ok (s, s).
Definition mput {S} (s : S) : M S unit := fun _ => Ok (tt, s).
Definition mmodify {S} (f : S -> S) : M S unit := fun s => Ok (tt, f s).
Definition mlift {S A} (o : option A) : M S A :=
  fun s => match o with Some a => Ok (a, s) | None => Err BadAccess end.

(** The ASSERT macro of threads/utility.h. *)
Definition ASSERT {S} (condition : bool) : M S unit :=
  fun s => if condition then Ok (tt, s) else Err AssertFailed.

Declare Scope nachos_scope.
Delimit Scope nachos_scope with nachos.
Notation "'let!' x ':=' m 'in' k" := (mthen m (fun x => k))
  (at level 10, x binder, m at level 99, k at level 200) : nachos_scope.
Notation "m '>>>' k" := (mthen m (fun _ => k))
  (at level 100, k at level 200, right associativity) : nachos_scope.
Open Scope nachos_scope.

(** Loops: [mfor] runs a body for each element in turn; [mfirst] is a loop
    whose body may return from the routine; [mwhile] is [while (body ());]
    cut after [fuel] iterations. *)
Fixpoint mfor {S X} (l : list X) (body : X -> M S unit) : M S unit :=
  match l with
  | [] => mreturn tt
  | x :: r => body x >>> mfor r body
  end.

Fixpoint mfirst {S X R} (l : list X) (body : X -> M S (option R)) : M S (option R) :=
  match l with
  | [] => mreturn None
  | x :: r =>
      let! o := body x in
      match o with
      | Some v => mreturn (Some v)
      | None => mfirst r body
      end
  end.

Fixpoint mwhile {S} (fuel : nat) (body : M S bool) : M S unit :=
  match fuel with
  | O => mfail OutOfFuel
  | Datatypes.S n => let! b := body in if b then mwhile n body else mreturn tt
  end.

(** A loop that carries local variables [a]. *)
Fixpoint mfold {S X A} (l : list X) (a : A) (body : A -> X -> M S A) : M S A :=
  match l with
  | [] => mreturn a
  | x :: r => let! a' := body a x in mfold r a' body
  end.

(** * Arrays indexed by C integers *)
Definition zlookup {A} (l : list A) (i : Z) : option A :=
  if 0 <=? i then l !! Z.to_nat i else None.
Definition zupd {A} (l : list A) (i : Z) (x : A) : option (list A) :=
  if (0 <=? i) && (i <? Z.of_nat (length l))
  then Some (<[Z.to_nat i := x]> l) else None.

Notation "l '.[' i ']'" := (zlookup l i) (at level 1) : nachos_scope.

(** * Machine integers (32-bit two's complement host) *)
Definition i32 (z : Z) : Z := (z + 2 ^ 31) mod 2 ^ 32 - 2 ^ 31.
Definition u32 (z : Z) : Z := z mod 2 ^ 32.
Definition is_i32 (z : Z) : Prop := - 2 ^ 31 <= z < 2 ^ 31.
Definition is_byte (z : Z) : Prop := 0 <= z < 256.

(** divRoundDown and divRoundUp of threads/utility.h: C division truncates. *)
Definition divRoundDown (n s : Z) : Z := Z.quot n s.
Definition divRoundUp (n s : Z) : Z :=
  Z.quot n s + (if 0 <? Z.rem n s then 1 else 0).

(** * Little-endian storage of integers *)
Fixpoint le_split (n : nat) (z : Z) : list Z :=
  match n with
  | O => []
  | S m => z mod 256 :: le_split m (z / 256)
  end.
Fixpoint le_join (bs : list Z) : Z :=
  match bs with
  | [] => 0
  | b :: r => b + 256 * le_join r
  end.

(** * Lemmas on the monad *)
Create HintDb nachos.

Section monad_lemmas.
Context {S : Type}.
Implicit Types s : S.

Lemma mthen_Ok {A B} (m : M S A) (k : A -> M S B) s r :
  mthen m k s = Ok r <-> exists a s', m s = Ok (a, s') /\ k a s' = Ok r.
Proof.
  unfold mthen. destruct (m s) as [[a s']|f]; split.
  - intros H. eauto.
  - intros (a' & s'' & [= <- <-] & H). exact H.
  - discriminate.
  - intros (a' & s'' & H & _). discriminate H.
Qed.

Lemma mthen_step {A B} (m : M S A) (k : A -> M S B) s a s' :
  m s = Ok (a, s') -> mthen m k s = k a s'.
Proof. intros H. unfold mthen. now rewrite H. Qed.

Lemma mthen_fail {A B} (m : M S A) (k : A -> M S B) s f :
  m s = Err f -> mthen m k s = Err f.
Proof. intros H. unfold mthen. now rewrite H. Qed.

Lemma ASSERT_Ok b s r : ASSERT b s = Ok r <-> b = true /\ r = (tt, s).
Proof.
  unfold ASSERT. destruct b; split.
  - intros [= <-]. auto.
  - intros [_ ->]. reflexivity.
  - discriminate.
  - intros [H _]. discriminate H.
Qed.

Lemma mlift_Ok {A} (o : option A) s a s' :
  mlift o s = Ok (a, s') <-> o = Some a /\ s' = s.
Proof.
  unfold mlift. destruct o; split.
  - intros [= <- <-]. auto.
  - intros [[= <-] ->]. reflexivity.
  - discriminate.
  - intros [H _]. discriminate H.
Qed.

(** Loop rule: an invariant indexed by the elements still to do. *)
Lemma mfor_rule {X} (I : list X -> S -> Prop) (body : X -> M S unit) :
  (forall x r s, I (x :: r) s -> exists s', body x s = Ok (tt, s') /\ I r s') ->
  forall l s, I l s -> exists s', mfor l body s = Ok (tt, s') /\ I [] s'.
Proof.
  intros Hstep l. induction l as [|x r IH]; intros s HI; simpl.
  - eauto.
  - destruct (Hstep x r s HI) as (s' & E & HI').
    rewrite (mthen_step _ _ _ _ _ E). now apply IH.
Qed.

Lemma mfold_rule {X A} (I : list X -> A -> S -> Prop) (body : A -> X -> M S A) :
  (forall x r a s, I (x :: r) a s -> exists a' s', body a x s = Ok (a', s') /\ I r a' s') ->
  forall l a s, I l a s -> exists a' s', mfold l a body s = Ok (a', s') /\ I [] a' s'.
Proof.
  intros Hstep l. induction l as [|x r IH]; intros a s HI; simpl.
  - eauto.
  - destruct (Hstep x r a s HI) as (a' & s' & E & HI').
    rewrite (mthen_step _ _ _ _ _ E). now apply IH.
Qed.

Lemma mfold_app {X A} (l1 l2 : list X) (a : A) (body : A -> X -> M S A) s :
  mfold (l1 ++ l2) a body s = (let! a' := mfold l1 a body in mfold l2 a' body) s.
Proof.
  revert a s. induction l1 as [|x r IH]; intros a s; simpl; [reflexivity|].
  unfold mthen. destruct (body a x s) as [[a' s']|f]; [|reflexivity]. apply IH.
Qed.

Lemma mfor_app {X} (l1 l2 : list X) (body : X -> M S unit) s :
  mfor (l1 ++ l2) body s = (mfor l1 body >>> mfor l2 body) s.
Proof.
  revert s. induction l1 as [|x r IH]; intros s; simpl; [reflexivity|].
  unfold mthen. destruct (body x s) as [[[] s']|f]; [|reflexivity].
  apply IH.
Qed.

(** Elements at which the body neither returns nor changes anything. *)
Lemma mfirst_skip {X R} (l1 l2 : list X) (body : X -> M S (option R)) s :
  Forall (fun x => body x s = Ok (None, s)) l1 ->
  mfirst (l1 ++ l2) body s = mfirst l2 body s.
Proof.
  induction 1 as [|x l1 Hx _ IH]; [reflexivity|].
  cbn [app mfirst]. rewrite (mthen_step _ _ _ _ _ Hx). exact IH.
Qed.

Lemma mfor_ext {X} (l : list X) (f g : X -> M S unit) s :
  (forall x s, x ∈ l -> f x s = g x s) -> mfor l f s = mfor l g s.
Proof.
  revert s. induction l as [|x r IH]; intros s H; simpl; [reflexivity|].
  unfold mthen. rewrite H by set_solver.
  destruct (g x s) as [[[] s']|e]; [|reflexivity]. apply IH. set_solver.
Qed.
End monad_lemmas.

(** * Partial correctness

    [triple P m Q]: a run of [m] that returns, from a state where [P] holds,
    gives a value and a state related by [Q]. *)
Definition triple {S A} (P : S -> Prop) (m : M S A) (Q : A -> S -> Prop) : Prop :=
  forall s a s', P s -> m s = Ok (a, s') -> Q a s'.

Section triple_rules.
Context {S : Type}.

Lemma triple_return {A} (P : S -> Prop) (a : A) (Q : A -> S -> Prop) :
  (forall s, P s -> Q a s) -> triple P (mreturn a) Q.
Proof. intros H s a' s' HP [= <- <-]. auto. Qed.

Lemma triple_then {A B} (P : S -> Prop) (R : A -> S -> Prop) (m : M S A) (k : A -> M S B)
  (Q : B -> S -> Prop) :
  triple P m R -> (forall a, triple (R a) (k a) Q) -> triple P (mthen m k) Q.
Proof.
  intros Hm Hk s b s' HP E. apply mthen_Ok in E as (a & s1 & E1 & E2).
  eapply Hk; [eapply Hm; eassumption|exact E2].
Qed.

Lemma triple_conseq {A} (P P' : S -> Prop) (m : M S A) (Q Q' : A -> S -> Prop) :
  triple P' m Q' -> (forall s, P s -> P' s) -> (forall a s, Q' a s -> Q a s) -> triple P m Q.
Proof. intros H H1 H2 s a s' HP E. eapply H2, H; eauto. Qed.

Lemma triple_fail {A} (P : S -> Prop) f (Q : A -> S -> Prop) : triple P (mfail f) Q.
Proof. intros s a s' _ [=]. Qed.

Lemma triple_get (P : S -> Prop) : triple P mget (fun a s => a = s /\ P s).
Proof. intros s a s' HP [= <- <-]. auto. Qed.

Lemma triple_modify (P : S -> Prop) f (Q : unit -> S -> Prop) :
  (forall s, P s -> Q tt (f s)) -> triple P (mmodify f) Q.
Proof. intros H s a s' HP [= <- <-]. auto. Qed.

Lemma triple_lift {A} (P : S -> Prop) (o : option A) (Q : A -> S -> Prop) :
  (forall a s, o = Some a -> P s -> Q a s) -> triple P (mlift o) Q.
Proof. intros H s a s' HP E. apply mlift_Ok in E as [-> ->]. auto. Qed.

Lemma triple_ASSERT (P : S -> Prop) b (Q : unit -> S -> Prop) :
  (forall s, b = true -> P s -> Q tt s) -> triple P (ASSERT b) Q.
Proof. intros H s [] s' HP E. apply ASSERT_Ok in E as [-> [= ->]]. auto. Qed.

Lemma triple_first {X R} (P : S -> Prop) (Q : option R -> S -> Prop) (l : list X)
  (body : X -> M S (option R)) :
  (forall s, P s -> Q None s) ->
  (forall x, x ∈ l -> triple P (body x) (fun o s => match o with Some v => Q (Some v) s | None => P s end)) ->
  triple P (mfirst l body) Q.
Proof.
  intros H0. induction l as [|x l IH]; intros Hb; [now apply triple_return|].
  cbn [mfirst]. eapply triple_then; [apply Hb; left|].
  intros [v|]; cbn; [apply triple_return; auto|]. apply IH. intros y Hy. apply Hb. now right.
Qed.
End triple_rules.

(** * Termination

    [total m]: no run of [m] is cut by the fuel of a loop. *)
Definition total {S A} (m : M S A) : Prop := forall s, m s <> Err OutOfFuel.

Section total_rules.
Context {S : Type}.

Lemma total_return {A} (a : A) : total (S := S) (mreturn a).
Proof. intros s [=]. Qed.
Lemma total_then {A B} (m : M S A) (k : A -> M S B) : total m -> (forall a, total (k a)) -> total (mthen m k).
Proof. intros Hm Hk s. unfold mthen. specialize (Hm s). destruct (m s) as [[a s']|f]; [apply Hk|congruence]. Qed.
(** The continuation, knowing that the first statement returned. *)
Lemma total_guard {A B} (m : M S A) (k : A -> M S B) :
  total m -> (forall a s s', m s = Ok (a, s') -> k a s' <> Err OutOfFuel) -> total (mthen m k).
Proof. intros Hm Hk s. unfold mthen. specialize (Hm s). destruct (m s) as [[a s']|f] eqn:E; [eapply Hk, E|congruence]. Qed.
Lemma total_fail {A} f : f <> OutOfFuel -> total (S := S) (A := A) (mfail f).
Proof. intros Hf s [= E]. auto. Qed.
Lemma total_get : total (S := S) mget.
Proof. intros s [=]. Qed.
Lemma total_put (s0 : S) : total (mput s0).
Proof. intros s [=]. Qed.
Lemma total_modify (f : S -> S) : total (mmodify f).
Proof. intros s [=]. Qed.
Lemma total_lift {A} (o : option A) : total (S := S) (mlift o).
Proof. intros s. unfold mlift. destruct o; discriminate. Qed.
Lemma total_ASSERT b : total (S := S) (ASSERT b).
Proof. intros s. unfold ASSERT. destruct b; discriminate. Qed.
Lemma total_mfor {X} (l : list X) (body : X -> M S unit) : (forall x, total (body x)) -> total (mfor l body).
Proof. intros Hb. induction l as [|x l IH]; [apply total_return|]. apply total_then; auto. Qed.
Lemma total_mfold {X A} (l : list X) (body : A -> X -> M S A) :
  (forall a x, total (body a x)) -> forall a, total (mfold l a body).
Proof. intros Hb. induction l as [|x l IH]; intros a; [apply total_return|]. apply total_then; auto. Qed.
Lemma total_mfirst {X R} (l : list X) (body : X -> M S (option R)) :
  (forall x, total (body x)) -> total (mfirst l body).
Proof.
  intros Hb. induction l as [|x l IH]; [apply total_return|]. apply total_then; [apply Hb|].
  intros [v|]; [apply total_return|exact IH].
Qed.
End total_rules.

#[export] Hint Resolve total_return total_get total_put total_modify total_lift total_ASSERT : nachos.

(** [total_tac]: a straight-line program with loops over lists. *)
Ltac total_tac :=
  repeat first
    [ solve [auto with nachos]
    | apply total_then; [|intros]
    | apply total_mfor; intros
    | apply total_mfold; intros
    | apply total_mfirst; intros
    | apply total_fail; discriminate
    | match goal with |- total (if ?b then _ else _) => destruct b end
    | match goal with |- total (match ?x with _ => _ end) => destruct x end
    | match goal with |- total (let '(_, _) := ?x in _) => destruct x end ].

(** [mon_inv]: decompose every successful run found in the context. *)
Ltac mon_inv :=
  repeat match goal with
    | H : mthen _ _ _ = Ok _ |- _ =>
        let a := fresh "a" in let s := fresh "s" in
        let H1 := fresh "H" in let H2 := fresh "H" in
        apply mthen_Ok in H; destruct H as (a & s & H1 & H2); cbn beta in H2
    | H : ASSERT _ _ = Ok _ |- _ => apply ASSERT_Ok in H; destruct H as [? H]
    | H : mlift _ _ = Ok (_, _) |- _ => apply mlift_Ok in H; destruct H as [? H]
    | H : mreturn _ _ = Ok _ |- _ => unfold mreturn in H
    | H : mget _ = Ok _ |- _ => unfold mget in H
    | H : mput _ _ = Ok _ |- _ => unfold mput in H
    | H : mmodify _ _ = Ok _ |- _ => unfold mmodify in H
    | H : mfail _ _ = Ok _ |- _ => discriminate H
    | H : Ok _ = Ok _ |- _ => injection H; clear H; intros; subst
    | H : (_, _) = (_, _) |- _ => injection H; clear H; intros; subst
    | u : unit |- _ => destruct u
  end.

(** [mstep_by E]: run the first statement of a sequence, by [E : m s = Ok (a, s')]. *)
Tactic Notation "mstep_by" uconstr(E) := rewrite (mthen_step _ _ _ _ _ E); cbn beta.
(** [mstep_to a s']: run it when it computes to [Ok (a, s')]. *)
Tactic Notation "mstep_to" uconstr(a) uconstr(s') :=
  rewrite (mthen_step _ _ _ a s') by reflexivity; cbn beta.

(** [bool_hyps]: turn boolean tests of the code into propositions. *)
Ltac bool_hyps :=
  repeat match goal with
    | H : (_ && _)%bool = true |- _ => apply andb_prop in H; destruct H
    | H : (_ <? _) = true |- _ => apply Z.ltb_lt in H
    | H : (_ <? _) = false |- _ => apply Z.ltb_ge in H
    | H : (_ <=? _) = true |- _ => apply Z.leb_le in H
    | H : (_ <=? _) = false |- _ => apply Z.leb_gt in H
    | H : (_ =? _) = true |- _ => apply Z.eqb_eq in H
    | H : (_ =? _) = false |- _ => apply Z.eqb_neq in H
    | H : negb _ = true |- _ => apply negb_true_iff in H
    | H : negb _ = false |- _ => apply negb_false_iff in H
  end.

(** * Lemmas on arrays *)
Section array_lemmas.
Context {A : Type}.
Implicit Types l : list A.

Lemma zlookup_nat l (n : nat) : l.[Z.of_nat n] = l !! n.
Proof. unfold zlookup. destruct (Z.leb_spec 0 (Z.of_nat n)); [|lia]. now rewrite Nat2Z.id. Qed.

Lemma zlookup_Some l i x :
  l.[i] = Some x <-> 0 <= i < Z.of_nat (length l) /\ l !! Z.to_nat i = Some x.
Proof.
  unfold zlookup. destruct (Z.leb_spec 0 i); split.
  - intros H'. split; [|exact H']. apply lookup_lt_Some in H'. lia.
  - tauto.
  - discriminate.
  - lia.
Qed.

Lemma zlookup_lt l i : 0 <= i < Z.of_nat (length l) -> exists x, l.[i] = Some x.
Proof.
  intros H. destruct (lookup_lt_is_Some_2 l (Z.to_nat i)) as [x Hx]; [lia|].
  exists x. apply zlookup_Some. auto.
Qed.

Lemma zlookup_In l i x : l.[i] = Some x -> x ∈ l.
Proof. rewrite zlookup_Some. intros [_ H]. eapply list_elem_of_lookup_2, H. Qed.

Lemma zlookup_ge l i : Z.of_nat (length l) <= i -> l.[i] = None.
Proof.
  intros H. unfold zlookup. destruct (Z.leb_spec 0 i); [|reflexivity].
  apply lookup_ge_None. lia.
Qed.

Lemma zlookup_neg l i : i < 0 -> l.[i] = None.
Proof. intros H. unfold zlookup. destruct (Z.leb_spec 0 i); [lia|reflexivity]. Qed.

Lemma zupd_Some l i x l' :
  zupd l i x = Some l' <->
  0 <= i < Z.of_nat (length l) /\ l' = <[Z.to_nat i := x]> l.
Proof.
  unfold zupd. destruct ((0 <=? i) && (i <? Z.of_nat (length l)))%bool eqn:E; bool_hyps; split.
  - intros [= <-]. repeat split; lia.
  - intros [_ ->]. reflexivity.
  - discriminate.
  - intros [H _]. exfalso. apply andb_false_iff in E as [E|E]; bool_hyps; lia.
Qed.

Lemma zupd_lt l i x :
  0 <= i < Z.of_nat (length l) -> zupd l i x = Some (<[Z.to_nat i := x]> l).
Proof. intros H. apply zupd_Some. auto. Qed.

Lemma zlookup_insert l i j x :
  0 <= i < Z.of_nat (length l) ->
  (<[Z.to_nat i := x]> l).[j] = if decide (i = j) then Some x else l.[j].
Proof.
  intros H. unfold zlookup. destruct (Z.leb_spec 0 j).
  - case_decide as E.
    + subst j. apply list_lookup_insert_eq. lia.
    + apply list_lookup_insert_ne. lia.
  - case_decide; [lia|reflexivity].
Qed.

Lemma zlookup_insert_eq l i x :
  0 <= i < Z.of_nat (length l) -> (<[Z.to_nat i := x]> l).[i] = Some x.
Proof. intros H. rewrite zlookup_insert by exact H. now rewrite decide_True. Qed.

Lemma zlookup_insert_ne l i j x :
  0 <= i -> i <> j -> (<[Z.to_nat i := x]> l).[j] = l.[j].
Proof.
  intros Hi H. unfold zlookup. destruct (Z.leb_spec 0 j); [|reflexivity].
  apply list_lookup_insert_ne. lia.
Qed.

Lemma zlookup_ext l1 l2 :
  length l1 = length l2 ->
  (forall i, 0 <= i < Z.of_nat (length l1) -> l1.[i] = l2.[i]) -> l1 = l2.
Proof.
  intros Hlen H. apply list_eq. intros n.
  destruct (decide (n < length l1)%nat).
  - rewrite <- !zlookup_nat. apply H. lia.
  - rewrite !lookup_ge_None_2 by lia. reflexivity.
Qed.

Lemma zlookup_cons_S (x : A) l i : 0 <= i -> (x :: l).[i + 1] = l.[i].
Proof.
  intros Hi. unfold zlookup. destruct (Z.leb_spec 0 (i + 1)), (Z.leb_spec 0 i); try lia.
  replace (Z.to_nat (i + 1)) with (S (Z.to_nat i)) by lia. reflexivity.
Qed.

Lemma Forall_insert_Z (P : A -> Prop) l i x :
  Forall P l -> P x -> Forall P (<[i := x]> l).
Proof. intros Hl Hx. now apply Forall_insert. Qed.

Lemma zlookup_Forall (P : A -> Prop) l i x : Forall P l -> l.[i] = Some x -> P x.
Proof.
  rewrite zlookup_Some. intros Hl [_ H]. eapply Forall_lookup_1 in Hl; eauto.
Qed.
End array_lemmas.

(** The first element that passes a test. *)
Lemma first_split {A} (P : A -> bool) (l : list A) :
  (exists l1 x l2, l = l1 ++ x :: l2 /\ P x = true /\ Forall (fun y => P y = false) l1) \/
  Forall (fun y => P y = false) l.
Proof.
  induction l as [|x l IH]; [right; constructor|].
  destruct (P x) eqn:E.
  - left. exists [], x, l. auto.
  - destruct IH as [(l1 & y & l2 & -> & Hy & Hl1)|IH].
    + left. exists (x :: l1), y, l2. auto.
    + right. auto.
Qed.

(** A search loop over the indices of a table skips a part where it finds nothing. *)
Lemma mfirst_prefix {S X R} (l1 l2 : list X) (body : Z -> M S (option R)) s :
  (forall i, 0 <= i < Z.of_nat (length l1) -> body i s = Ok (None, s)) ->
  mfirst (seqZ 0 (Z.of_nat (length (l1 ++ l2)))) body s =
  mfirst (seqZ (Z.of_nat (length l1)) (Z.of_nat (length l2))) body s.
Proof.
  intros Hb. rewrite length_app, Nat2Z.inj_add, seqZ_app by lia.
  rewrite mfirst_skip; [now rewrite Z.add_0_l|].
  apply Forall_forall. intros i Hi. apply elem_of_seqZ in Hi. apply Hb. lia.
Qed.

Lemma zlookup_middle {A} (l1 l2 : list A) x : (l1 ++ x :: l2).[Z.of_nat (length l1)] = Some x.
Proof. rewrite zlookup_nat. now rewrite list_lookup_middle. Qed.

Lemma zupd_middle {A} (l1 l2 : list A) x y :
  zupd (l1 ++ x :: l2) (Z.of_nat (length l1)) y = Some (l1 ++ y :: l2).
Proof.
  rewrite zupd_lt by (rewrite length_app; cbn; lia). rewrite Nat2Z.id.
  f_equal. rewrite <- (Nat.add_0_r (length l1)), insert_app_r. reflexivity.
Qed.

Lemma zlookup_app_l {A} (l1 l2 : list A) i :
  0 <= i < Z.of_nat (length l1) -> (l1 ++ l2).[i] = l1.[i].
Proof.
  intros Hi. unfold zlookup. destruct (Z.leb_spec 0 i); [|lia]. apply lookup_app_l. lia.
Qed.

Lemma zlookup_app_r {A} (l1 l2 : list A) i :
  0 <= i -> (l1 ++ l2).[Z.of_nat (length l1) + i] = l2.[i].
Proof.
  intros Hi. unfold zlookup. destruct (Z.leb_spec 0 i), (Z.leb_spec 0 (Z.of_nat (length l1) + i)); try lia.
  rewrite lookup_app_r by lia. f_equal. lia.
Qed.

Lemma filter_none {A} (P : A -> Prop) `{forall x, Decision (P x)} (l : list A) :
  Forall (fun x => ~ P x) l -> filter P l = [].
Proof. induction 1; [reflexivity|]. now rewrite filter_cons_False. Qed.

Lemma filter_all {A} (P : A -> Prop) `{forall x, Decision (P x)} (l : list A) :
  Forall P l -> filter P l = l.
Proof. induction 1 as [|x l Hx _ IH]; [reflexivity|]. now rewrite filter_cons_True, IH. Qed.

Lemma filter_ext_in {A} (P Q : A -> Prop) `{forall x, Decision (P x), forall x, Decision (Q x)}
  (l : list A) :
  (forall x, x ∈ l -> P x <-> Q x) -> filter P l = filter Q l.
Proof.
  induction l as [|x l IH]; intros HPQ; [reflexivity|].
  rewrite !filter_cons, IH by (intros y Hy; apply HPQ; now right).
  specialize (HPQ x ltac:(left)). repeat case_decide; tauto.
Qed.

Lemma StronglySorted_filter {A} (R : A -> A -> Prop) (P : A -> Prop)
  `{forall x, Decision (P x)} (l : list A) :
  StronglySorted R l -> StronglySorted R (filter P l).
Proof.
  induction 1 as [|x l _ IH Hx]; [constructor|]. rewrite filter_cons.
  case_decide; [|exact IH]. constructor; [exact IH|].
  apply Forall_forall. intros y Hy. apply list_elem_of_filter in Hy as [_ Hy].
  eapply Forall_forall in Hx; eauto.
Qed.

Lemma StronglySorted_seqZ m n : StronglySorted Z.lt (seqZ m n).
Proof.
  destruct (Z_le_gt_dec 0 n) as [Hn|]; [|rewrite seqZ_nil by lia; constructor].
  revert n Hn m. refine (natlike_ind _ _ _); [constructor|].
  intros n Hn IH m. rewrite seqZ_cons, Z.pred_succ by lia.
  constructor; [apply IH|]. apply Forall_forall. intros j Hj. apply elem_of_seqZ in Hj. lia.
Qed.

#[export] Hint Resolve zlookup_In Forall_insert_Z : nachos.

(** * Lemmas on machine integers *)
Lemma i32_range z : is_i32 (i32 z).
Proof. unfold is_i32, i32. pose proof (Z.mod_pos_bound (z + 2 ^ 31) (2 ^ 32)). lia. Qed.

Lemma i32_id z : is_i32 z -> i32 z = z.
Proof. unfold is_i32, i32. intros H. rewrite Z.mod_small; lia. Qed.

Lemma u32_range z : 0 <= u32 z < 2 ^ 32.
Proof. apply Z.mod_pos_bound. lia. Qed.

Lemma u32_id z : 0 <= z < 2 ^ 32 -> u32 z = z.
Proof. apply Z.mod_small. Qed.

Lemma i32_mod z : exists k, i32 z = z + k * 2 ^ 32.
Proof.
  exists (- ((z + 2 ^ 31) / 2 ^ 32)). unfold i32.
  pose proof (Z.div_mod (z + 2 ^ 31) (2 ^ 32)). lia.
Qed.

Lemma u32_i32 z : u32 (i32 z) = u32 z.
Proof. destruct (i32_mod z) as [k ->]. unfold u32. apply Z.mod_add. lia. Qed.

Lemma i32_u32 z : i32 (u32 z) = i32 z.
Proof.
  unfold i32, u32. rewrite (Z.add_mod (z mod 2 ^ 32)), Z.mod_mod, <- Z.add_mod by lia.
  reflexivity.
Qed.

Lemma i32_congr x y : x mod 2 ^ 32 = y mod 2 ^ 32 -> i32 x = i32 y.
Proof. intros H. rewrite <- (i32_u32 x), <- (i32_u32 y). unfold u32. now rewrite H. Qed.

Lemma i32_nonneg_u32 z : is_i32 z -> 0 <= z -> u32 z = z.
Proof. unfold is_i32. intros. apply u32_id. lia. Qed.

Lemma i32_neg_u32 z : is_i32 z -> z < 0 -> u32 z = z + 2 ^ 32.
Proof.
  unfold is_i32, u32. intros H Hn.
  rewrite <- (Z.mod_add z 1 (2 ^ 32)) by lia. rewrite Z.mod_small; lia.
Qed.

(** The bitwise operations stay within an int. *)
Lemma is_i32_shiftr z : is_i32 z <-> Z.shiftr z 31 = 0 \/ Z.shiftr z 31 = -1.
Proof.
  rewrite Z.shiftr_div_pow2 by lia. unfold is_i32.
  pose proof (Z.div_mod z (2 ^ 31)). pose proof (Z.mod_pos_bound z (2 ^ 31)). split; [|lia].
  intros Hz. destruct (Z_lt_le_dec z 0); [right|left]; lia.
Qed.

Lemma is_i32_land a b : is_i32 a -> is_i32 b -> is_i32 (Z.land a b).
Proof. rewrite !is_i32_shiftr, Z.shiftr_land. intros [-> | ->] [-> | ->]; cbn; auto. Qed.
Lemma is_i32_lor a b : is_i32 a -> is_i32 b -> is_i32 (Z.lor a b).
Proof. rewrite !is_i32_shiftr, Z.shiftr_lor. intros [-> | ->] [-> | ->]; cbn; auto. Qed.
Lemma is_i32_lxor a b : is_i32 a -> is_i32 b -> is_i32 (Z.lxor a b).
Proof. rewrite !is_i32_shiftr, Z.shiftr_lxor. intros [-> | ->] [-> | ->]; cbn; auto. Qed.
Lemma is_i32_lnot a : is_i32 a -> is_i32 (Z.lnot a).
Proof. unfold is_i32, Z.lnot. lia. Qed.
Lemma is_i32_land_mask a n : 0 <= n < 31 -> is_i32 (Z.land a (Z.ones n)).
Proof.
  intros Hn. rewrite Z.land_ones by lia. pose proof (Z.mod_pos_bound a (2 ^ n)).
  assert (2 ^ n < 2 ^ 31) by (apply Z.pow_lt_mono_r; lia).
  assert (0 < 2 ^ n) by (apply Z.pow_pos_nonneg; lia). unfold is_i32. lia.
Qed.
Lemma is_i32_asr a k : is_i32 a -> 0 <= k -> is_i32 (Z.shiftr a k).
Proof.
  intros Ha Hk. rewrite is_i32_shiftr in *. rewrite Z.shiftr_shiftr by lia.
  rewrite Z.add_comm, <- Z.shiftr_shiftr by lia. destruct Ha as [-> | ->].
  - left. apply Z.shiftr_0_l.
  - right. rewrite Z.shiftr_div_pow2 by lia. symmetry.
    assert (0 < 2 ^ k) by (apply Z.pow_pos_nonneg; lia).
    apply (Z.div_unique_pos _ _ _ (2 ^ k - 1)); lia.
Qed.

(** Testing one bit with a mask. *)
Lemma land_pow2_testbit w k : 0 <= k -> negb (Z.land w (2 ^ k) =? 0) = Z.testbit w k.
Proof.
  intros Hk. destruct (Z.testbit w k) eqn:Ek.
  - destruct (Z.eqb_spec (Z.land w (2 ^ k)) 0) as [E|]; [|reflexivity].
    assert (Z.testbit (Z.land w (2 ^ k)) k = false) as H by (rewrite E; apply Z.bits_0).
    rewrite Z.land_spec, Z.pow2_bits_true, Ek in H by lia. discriminate.
  - destruct (Z.eqb_spec (Z.land w (2 ^ k)) 0) as [|E]; [reflexivity|].
    exfalso. apply E. apply Z.bits_inj'. intros n Hn.
    rewrite Z.land_spec, Z.pow2_bits_eqb, Z.bits_0 by lia.
    destruct (Z.eqb_spec k n) as [<-|]; [now rewrite Ek|apply andb_false_r].
Qed.

#[export] Hint Resolve i32_range i32_id u32_range : nachos.

(** * Lemmas on rounding division *)
Lemma divRoundUp_spec n s :
  0 <= n -> 0 < s ->
  (divRoundUp n s - 1) * s < n <= divRoundUp n s * s \/ (n = 0 /\ divRoundUp n s = 0).
Proof.
  intros Hn Hs. unfold divRoundUp.
  rewrite Z.quot_div_nonneg, Z.rem_mod_nonneg by lia.
  pose proof (Z.div_mod n s). pose proof (Z.mod_pos_bound n s).
  destruct (Z.ltb_spec 0 (n mod s)); nia.
Qed.

Lemma divRoundUp_nonneg n s : 0 <= n -> 0 < s -> 0 <= divRoundUp n s.
Proof. intros Hn Hs. destruct (divRoundUp_spec n s Hn Hs) as [H|[_ H]]; nia. Qed.

Lemma divRoundUp_enough n s : 0 <= n -> 0 < s -> n <= divRoundUp n s * s.
Proof. intros Hn Hs. destruct (divRoundUp_spec n s Hn Hs) as [H|[-> ->]]; nia. Qed.

(** [divRoundUp n s] is the least number of blocks of [s] that hold [n]. *)
Lemma divRoundUp_least n s k : 0 <= n -> 0 < s -> n <= k * s -> divRoundUp n s <= k.
Proof. intros Hn Hs Hk. destruct (divRoundUp_spec n s Hn Hs) as [H|[-> ->]]; nia. Qed.

Lemma divRoundUp_mono n m s : 0 <= n <= m -> 0 < s -> divRoundUp n s <= divRoundUp m s.
Proof.
  intros Hn Hs. apply divRoundUp_least; [lia..|].
  transitivity m; [lia|]. apply divRoundUp_enough; lia.
Qed.

#[export] Hint Resolve divRoundUp_nonneg divRoundUp_enough : nachos.

(** * Lemmas on little-endian storage *)
Lemma length_le_split n z : length (le_split n z) = n.
Proof. revert z. induction n; simpl; auto. Qed.

Lemma le_split_bytes n z : Forall is_byte (le_split n z).
Proof.
  revert z. induction n; simpl; intros z; constructor; auto.
  unfold is_byte. apply Z.mod_pos_bound. lia.
Qed.

Lemma le_join_split n z : le_join (le_split n z) = z mod 256 ^ Z.of_nat n.
Proof.
  revert z. induction n as [|n IH]; intros z.
  - simpl. now rewrite Z.mod_1_r.
  - cbn [le_split le_join]. rewrite IH, Nat2Z.inj_succ, Z.pow_succ_r by lia.
    rewrite Z.rem_mul_r by lia. lia.
Qed.

Lemma le_split_mod n z : le_split n (z mod 256 ^ Z.of_nat n) = le_split n z.
Proof.
  revert z. induction n as [|n IH]; intros z; [reflexivity|].
  cbn [le_split]. rewrite Nat2Z.inj_succ, Z.pow_succ_r by lia.
  rewrite Z.rem_mul_r by lia. rewrite (Z.mul_comm 256), Z.mod_add, Z.div_add by lia.
  rewrite Z.mod_mod, (Z.div_small (z mod 256)) by (try lia; apply Z.mod_pos_bound; lia).
  now rewrite Z.add_0_l, IH.
Qed.

Lemma le_join_range bs :
  Forall is_byte bs -> 0 <= le_join bs < 256 ^ Z.of_nat (length bs).
Proof.
  induction 1 as [|b r Hb _ IH]; cbn [le_join length].
  - simpl. lia.
  - rewrite Nat2Z.inj_succ, Z.pow_succ_r by lia. unfold is_byte in Hb. lia.
Qed.

Lemma le_split_join bs : Forall is_byte bs -> le_split (length bs) (le_join bs) = bs.
Proof.
  induction 1 as [|b r Hb _ IH]; [reflexivity|].
  cbn [le_split le_join length]. unfold is_byte in Hb.
  rewrite (Z.mul_comm 256), Z.mod_add, Z.div_add by lia.
  rewrite Z.mod_small, (Z.div_small b) by lia. now rewrite Z.add_0_l, IH.
Qed.

(** * Blocks of an array

    [slice l p n] is the block of [n] elements at [p]; [splice l p bs] is [l]
    with the block at [p] replaced by [bs].  [load] and [store] are the same
    with the bounds of the array checked. *)
Definition slice {A} (l : list A) (p n : Z) : list A :=
  take (Z.to_nat n) (drop (Z.to_nat p) l).
Definition splice {A} (l : list A) (p : Z) (bs : list A) : list A :=
  take (Z.to_nat p) l ++ bs ++ drop (Z.to_nat p + length bs) l.

Definition in_block {A} (l : list A) (p n : Z) : bool :=
  (0 <=? p) && (0 <=? n) && (p + n <=? Z.of_nat (length l)).
Definition load {A} (l : list A) (p n : Z) : option (list A) :=
  if in_block l p n then Some (slice l p n) else None.
Definition store {A} (l : list A) (p : Z) (bs : list A) : option (list A) :=
  if in_block l p (Z.of_nat (length bs)) then Some (splice l p bs) else None.

Section block_lemmas.
Context {A : Type}.
Implicit Types l bs : list A.

Lemma in_block_spec l p n :
  in_block l p n = true <-> 0 <= p /\ 0 <= n /\ p + n <= Z.of_nat (length l).
Proof. unfold in_block. rewrite !andb_true_iff, !Z.leb_le. lia. Qed.

Lemma length_slice l p n :
  0 <= p -> 0 <= n -> p + n <= Z.of_nat (length l) -> Z.of_nat (length (slice l p n)) = n.
Proof. intros. unfold slice. rewrite length_take, length_drop. lia. Qed.

Lemma zlookup_slice l p n i :
  0 <= p -> 0 <= n -> (slice l p n).[i] = if decide (0 <= i < n) then l.[p + i] else None.
Proof.
  intros Hp Hn. unfold slice, zlookup. destruct (Z.leb_spec 0 i).
  - case_decide as Hi.
    + rewrite lookup_take_lt, lookup_drop by lia.
      destruct (Z.leb_spec 0 (p + i)); [|lia]. f_equal. lia.
    + apply lookup_take_ge. lia.
  - case_decide; [lia|reflexivity].
Qed.

Lemma length_splice l p bs :
  0 <= p -> p + Z.of_nat (length bs) <= Z.of_nat (length l) ->
  length (splice l p bs) = length l.
Proof. intros. unfold splice. rewrite !length_app, length_take, length_drop. lia. Qed.

Lemma splice_nil l p : splice l p [] = l.
Proof. unfold splice. cbn [length app]. rewrite Nat.add_0_r. apply take_drop. Qed.

Lemma zlookup_splice l p bs i :
  0 <= p -> p + Z.of_nat (length bs) <= Z.of_nat (length l) ->
  (splice l p bs).[i] =
    if decide (p <= i < p + Z.of_nat (length bs)) then bs.[i - p] else l.[i].
Proof.
  intros Hp Hl. unfold splice, zlookup. destruct (Z.leb_spec 0 i); [|case_decide; [lia|reflexivity]].
  assert (Ht : length (take (Z.to_nat p) l) = Z.to_nat p) by (rewrite length_take; lia).
  case_decide as Hi.
  - destruct (Z.leb_spec 0 (i - p)); [|lia].
    rewrite lookup_app_r, Ht, lookup_app_l by lia. f_equal. lia.
  - destruct (Z_lt_le_dec i p).
    + rewrite lookup_app_l by lia. apply lookup_take_lt. lia.
    + rewrite !lookup_app_r by lia. rewrite lookup_drop, Ht. f_equal. lia.
Qed.

Lemma load_Some l p n bs :
  load l p n = Some bs <->
  (0 <= p /\ 0 <= n /\ p + n <= Z.of_nat (length l)) /\ bs = slice l p n.
Proof.
  unfold load. rewrite <- in_block_spec. destruct (in_block l p n); split.
  - intros [= <-]. auto.
  - intros [_ ->]. reflexivity.
  - discriminate.
  - intros [H _]. discriminate H.
Qed.

Lemma store_Some l p bs l' :
  store l p bs = Some l' <->
  (0 <= p /\ p + Z.of_nat (length bs) <= Z.of_nat (length l)) /\ l' = splice l p bs.
Proof.
  unfold store. destruct (in_block l p _) eqn:E; split.
  - intros [= <-]. apply in_block_spec in E. split; [lia|reflexivity].
  - intros [_ ->]. reflexivity.
  - discriminate.
  - intros [H _]. enough (in_block l p (Z.of_nat (length bs)) = true) by congruence.
    apply in_block_spec. lia.
Qed.

Lemma load_ok l p n :
  0 <= p -> 0 <= n -> p + n <= Z.of_nat (length l) -> load l p n = Some (slice l p n).
Proof. intros. apply load_Some. auto. Qed.

Lemma store_ok l p bs :
  0 <= p -> p + Z.of_nat (length bs) <= Z.of_nat (length l) ->
  store l p bs = Some (splice l p bs).
Proof. intros. apply store_Some. auto. Qed.

(** Writing element by element is writing a block. *)
Lemma splice_cons l a (x : A) xs :
  0 <= a -> a + 1 + Z.of_nat (length xs) <= Z.of_nat (length l) ->
  splice (<[Z.to_nat a := x]> l) (a + 1) xs = splice l a (x :: xs).
Proof.
  intros Ha Hl.
  assert (Hi : length (<[Z.to_nat a := x]> l) = length l) by apply length_insert.
  assert (H1 : length (splice (<[Z.to_nat a := x]> l) (a + 1) xs) = length l) by (rewrite length_splice; lia).
  assert (H2 : length (splice l a (x :: xs)) = length l) by (rewrite length_splice; cbn [length]; lia).
  apply zlookup_ext; [congruence|].
  intros i Hr. rewrite H1 in Hr. rewrite !zlookup_splice by (cbn [length]; lia).
  cbn [length]. rewrite zlookup_insert by lia. repeat case_decide; try lia; try reflexivity.
  - unfold zlookup. destruct (Z.leb_spec 0 (i - (a + 1))), (Z.leb_spec 0 (i - a)); try lia.
    replace (Z.to_nat (i - a)) with (S (Z.to_nat (i - (a + 1)))) by lia. reflexivity.
  - subst i. rewrite Z.sub_diag. reflexivity.
Qed.

(** Reading back a block that was written, and one that was not. *)
Lemma slice_splice_eq l p bs :
  0 <= p -> p + Z.of_nat (length bs) <= Z.of_nat (length l) ->
  slice (splice l p bs) p (Z.of_nat (length bs)) = bs.
Proof.
  intros Hp Hl. unfold slice, splice.
  rewrite drop_app_length' by (rewrite length_take; lia).
  apply take_app_length'. lia.
Qed.

Lemma slice_splice_ne l p bs q n :
  0 <= p -> p + Z.of_nat (length bs) <= Z.of_nat (length l) ->
  0 <= q -> 0 <= n -> q + n <= Z.of_nat (length l) ->
  q + n <= p \/ p + Z.of_nat (length bs) <= q ->
  slice (splice l p bs) q n = slice l q n.
Proof.
  intros Hp Hl Hq Hn Hql Hd.
  assert (Hlen : length (splice l p bs) = length l) by now apply length_splice.
  apply zlookup_ext.
  - apply Nat2Z.inj. now rewrite !length_slice by (rewrite ?Hlen; lia).
  - intros i Hi. rewrite length_slice in Hi by (rewrite ?Hlen; lia).
    rewrite !zlookup_slice by lia. rewrite !decide_True by lia.
    rewrite zlookup_splice by lia. rewrite decide_False by lia. reflexivity.
Qed.

Lemma Forall_slice (P : A -> Prop) l p n : Forall P l -> Forall P (slice l p n).
Proof. intros. now apply Forall_take, Forall_drop. Qed.

Lemma Forall_splice (P : A -> Prop) l p bs :
  Forall P l -> Forall P bs -> Forall P (splice l p bs).
Proof. intros. unfold splice. rewrite !Forall_app. auto using Forall_take, Forall_drop. Qed.
End block_lemmas.

#[export] Hint Resolve Forall_slice Forall_splice : nachos.
