(* ===== verification/UserProgs.v ===== *)
(** The user programs test/sort.c and test/matmult.c, as the C code says.

    The globals are arrays of ints ([list Z], [list (list Z)]) with checked
    indices; an int wraps around.  Their system calls end them: the result of
    [sort_main] is the array at Halt, that of [matmult_main] the argument of
    Exit. *)
From Stdlib Require Import ZArith Lia.
From stdpp Require Import base option list list_numbers sets.
From S2P Require Import Prelude.

Local Open Scope Z_scope.

(** * sort.c *)
Definition sort_size : Z := 300.

Definition get_elem (i : Z) : M (list Z) Z := let! A := mget in mlift (A.[i]).
Definition put_elem (i v : Z) : M (list Z) unit := let! A := mget in let! A := mlift (zupd A i v) in mput A.

(** A[i] = 300 - i *)
Definition fill_reversed : M (list Z) unit :=
  mfor (seqZ 0 sort_size) (fun i => put_elem i (i32 (sort_size - i))).

(** if (A[j] > A[j + 1]) swap *)
Definition order_pair (j : Z) : M (list Z) unit :=
  let! x := get_elem j in
  let! y := get_elem (j + 1) in
  if y <? x then
    let! tmp := get_elem j in
    let! y := get_elem (j + 1) in
    put_elem j y >>>
    put_elem (j + 1) tmp
  else mreturn tt.

Definition sort_loops : M (list Z) unit :=
  mfor (seqZ 0 (sort_size - 1)) (fun i =>
    mfor (seqZ i (sort_size - 1 - i - i)) order_pair).

Definition sort_main : M (list Z) unit := fill_reversed >>> sort_loops.

(** * matmult.c *)
Definition Dim : Z := 20.

Record Matrices := mkMatrices {
  mat_A : list (list Z);
  mat_B : list (list Z);
  mat_C : list (list Z)
}.

Definition entry (m : list (list Z)) (i j : Z) : option Z := row ← m.[i]; row.[j].
Definition set_entry (m : list (list Z)) (i j v : Z) : option (list (list Z)) :=
  row ← m.[i]; row' ← zupd row j v; zupd m i row'.

Definition init_cell (i j : Z) : M Matrices unit :=
  let! s := mget in
  let! A := mlift (set_entry (mat_A s) i j i) in
  let! B := mlift (set_entry (mat_B s) i j j) in
  let! C := mlift (set_entry (mat_C s) i j 0) in
  mput (mkMatrices A B C).

(** C[i][j] += A[i][k] * B[k][j] *)
Definition add_product (i j k : Z) : M Matrices unit :=
  let! s := mget in
  let! a := mlift (entry (mat_A s) i k) in
  let! b := mlift (entry (mat_B s) k j) in
  let! c := mlift (entry (mat_C s) i j) in
  let! C := mlift (set_entry (mat_C s) i j (i32 (c + i32 (a * b)))) in
  mput (mkMatrices (mat_A s) (mat_B s) C).

Definition matmult_main : M Matrices Z :=
  mfor (seqZ 0 Dim) (fun i => mfor (seqZ 0 Dim) (fun j => init_cell i j)) >>>
  mfor (seqZ 0 Dim) (fun i => mfor (seqZ 0 Dim) (fun j => mfor (seqZ 0 Dim) (fun k => add_product i j k))) >>>
  let! s := mget in
  mlift (entry (mat_C s) (Dim - 1) (Dim - 1)).

(** The globals of matmult.c at the start: C fills them with zeros. *)
Definition zero_matrix : list (list Z) := replicate 20 (replicate 20 0).

(** * Lemmas *)
Lemma put_elem_Ok A i v :
  0 <= i < Z.of_nat (length A) -> put_elem i v A = Ok (tt, <[Z.to_nat i := v]> A).
Proof. intros Hi. unfold put_elem, mthen, mget, mlift, mput. now rewrite zupd_lt by exact Hi. Qed.

Lemma get_elem_Ok A i x : A.[i] = Some x -> get_elem i A = Ok (x, A).
Proof. intros Hx. unfold get_elem, mthen, mget, mlift. now rewrite Hx. Qed.

(** One comparison permutes the array, and never leaves it. *)
Lemma order_pair_perm (j : Z) (A : list Z) :
  0 <= j < Z.of_nat (length A) - 1 -> exists A', order_pair j A = Ok (tt, A') /\ A' ≡ₚ A.
Proof.
  intros Hj. destruct (zlookup_lt A j) as [x Hx]; [lia|]. destruct (zlookup_lt A (j + 1)) as [y Hy]; [lia|].
  pose proof (get_elem_Ok _ _ _ Hx) as Gx. pose proof (get_elem_Ok _ _ _ Hy) as Gy.
  unfold order_pair, mthen. rewrite Gx, Gy. destruct (y <? x); [|now exists A].
  rewrite Gx, Gy, put_elem_Ok by lia. rewrite put_elem_Ok by (rewrite length_insert; lia).
  eexists; split; [reflexivity|]. apply zlookup_Some in Hx as [_ Hx], Hy as [_ Hy].
  now apply Permutation_insert_swap.
Qed.

(** A loop whose rounds permute the array permutes it. *)
Lemma mfor_permutes {X} (A : list Z) (l : list X) (body : X -> M (list Z) unit) (A0 : list Z) :
  (forall x A1, A1 ≡ₚ A -> x ∈ l -> exists A2, body x A1 = Ok (tt, A2) /\ A2 ≡ₚ A1) ->
  A0 ≡ₚ A -> exists A', mfor l body A0 = Ok (tt, A') /\ A' ≡ₚ A0.
Proof.
  intros Hbody H0.
  destruct (mfor_rule (fun r A1 => A1 ≡ₚ A0 /\ r ⊆ l) body) with (l := l) (s := A0) as (A' & E & HA' & _);
    [|by split|by exists A'].
  intros x r A1 [HA1 Hr]. destruct (Hbody x A1) as (A2 & E & HA2); [by rewrite HA1|set_solver|].
  exists A2. split; [exact E|]. split; [by rewrite HA2|set_solver].
Qed.

(** * Theorems *)

(** The loops of sort.c stay inside an array of 300 ints, whatever it holds,
    and only rearrange it. *)
Theorem sort_loops_permute (A : list Z) :
  Z.of_nat (length A) = sort_size -> exists A', sort_loops A = Ok (tt, A') /\ A' ≡ₚ A.
Proof.
  intros HA. unfold sort_loops. apply (mfor_permutes A); [|done].
  intros i A1 HA1 Hi%elem_of_seqZ. apply (mfor_permutes A); [|done].
  intros j A2 HA2 Hj%elem_of_seqZ. apply order_pair_perm.
  rewrite (Permutation_length HA2). lia.
Qed.

(** They do not sort it: the inner loop starts at i and not at 0, so the small
    ints stop where they meet the start of the loop.  From the reversed array
    the odd ints come out first, in falling order, and then the even ones. *)
Theorem sort_main_result :
  sort_main (replicate 300 0) =
  Ok (tt, ((fun i => 299 - 2 * i) <$> seqZ 0 150) ++ ((fun i => 2 + 2 * i) <$> seqZ 0 150)).
Proof. vm_compute. reflexivity. Qed.

(** matmult.c exits with the last entry of the product, 20 * 19 * 19. *)
Theorem matmult_main_exits :
  exists s, matmult_main (mkMatrices zero_matrix zero_matrix zero_matrix) = Ok (7220, s).
Proof. eexists. vm_compute. reflexivity. Qed.
