(* ===== verification/CList.v ===== *)
(** threads/list.h and threads/list.cc: the singly linked list used for every
    queue of the kernel (ready list, semaphore queues, pending interrupts,
    elevator events).

    The class is modelled at the level of its pointers.  [lheap] holds the
    ListElements that are allocated; [lobj] is the List object.  A pointer is
    [option loc], [None] being NULL; an item is the [void *] as an integer, 0
    being NULL.  [new] takes any unused location ([Allocator]).

    The second part gives the contract of the class as pure functions on
    sequences of (key, item) pairs ([q_append], [q_sorted_insert], ...); the
    third proves that each method implements its function, on every branch,
    without touching cells outside the list, freeing what it removes. *)
From Stdlib Require Import ZArith Lia.
From stdpp Require Import base option list gmap sorting.
From S2P Require Import Prelude.

Local Open Scope Z_scope.

Definition loc := positive.
Definition ptr := option loc.

Record ListElement := mkListElement {
  le_next : ptr;
  le_key  : Z;
  le_item : Z
}.

Record List := mkList {
  first     : ptr;
  last_elt  : ptr;
  numInList : Z
}.

Record lstate := mkLstate {
  lheap : gmap loc ListElement;
  lobj  : List
}.

(** [operator new]: some location that is not in use. *)
Class Allocator := {
  alloc : gmap loc ListElement -> loc;
  alloc_fresh : forall h, h !! alloc h = None
}.

(** One allocator: the location after the greatest one in use. *)
Definition bump (h : gmap loc ListElement) : loc :=
  Pos.succ (foldr Pos.max 1%positive (map_to_list h).*1).

Lemma foldr_max_ge l (ls : list loc) : l ∈ ls -> (l <= foldr Pos.max 1 ls)%positive.
Proof.
  induction ls as [|x r IH]; simpl; [set_solver|].
  intros [->|H]%elem_of_cons; [lia|]. specialize (IH H). lia.
Qed.

Lemma bump_fresh h : h !! bump h = None.
Proof.
  destruct (h !! bump h) as [e|] eqn:E; [|reflexivity]. exfalso.
  apply elem_of_map_to_list, (list_elem_of_fmap_2 fst), foldr_max_ge in E.
  apply (Pos.lt_irrefl (bump h)). eapply Pos.le_lt_trans; [exact E|]. apply Pos.lt_succ_diag_r.
Qed.

#[export] Instance bump_allocator : Allocator :=
  {| alloc := bump; alloc_fresh := bump_fresh |}.

(** * The methods *)
Section methods.
Context `{Allocator}.

(** [p->...] for a ListElement pointer. *)
Definition deref (p : ptr) : M lstate ListElement := fun s =>
  match p with
  | Some l => match lheap s !! l with Some e => Ok (e, s) | None => Err BadAccess end
  | None => Err BadAccess
  end.

(** [p->next = n] *)
Definition set_next (p n : ptr) : M lstate unit :=
  let! e := deref p in
  fun s => match p with
           | Some l => Ok (tt, mkLstate (<[l := mkListElement n (le_key e) (le_item e)]> (lheap s)) (lobj s))
           | None => Err BadAccess
           end.

Definition set_obj (L : List) : M lstate unit :=
  mmodify (fun s => mkLstate (lheap s) L).
Definition set_first (p : ptr) : M lstate unit :=
  mmodify (fun s => mkLstate (lheap s) (mkList p (last_elt (lobj s)) (numInList (lobj s)))).
Definition set_last (p : ptr) : M lstate unit :=
  mmodify (fun s => mkLstate (lheap s) (mkList (first (lobj s)) p (numInList (lobj s)))).
Definition add_numInList (d : Z) : M lstate unit :=
  mmodify (fun s => mkLstate (lheap s)
    (mkList (first (lobj s)) (last_elt (lobj s)) (numInList (lobj s) + d))).
Definition get_first : M lstate ptr := fun s => Ok (first (lobj s), s).
Definition get_last : M lstate ptr := fun s => Ok (last_elt (lobj s), s).

(** ListElement::ListElement, called through [new]. *)
Definition new_ListElement (itemPtr sortKey : Z) : M lstate ptr := fun s =>
  let l := alloc (lheap s) in
  Ok (Some l, mkLstate (<[l := mkListElement None sortKey itemPtr]> (lheap s)) (lobj s)).

Definition delete_ListElement (p : ptr) : M lstate unit := fun s =>
  match p with
  | Some l => match lheap s !! l with
              | Some _ => Ok (tt, mkLstate (delete l (lheap s)) (lobj s))
              | None => Err BadAccess
              end
  | None => Ok (tt, s)
  end.

(** List::List *)
Definition List_List : M lstate unit := set_obj (mkList None None 0).

Definition List_IsEmpty : M lstate bool :=
  let! f := get_first in
  mreturn (match f with None => true | Some _ => false end).

Definition List_NumInList : M lstate Z := fun s => Ok (numInList (lobj s), s).

Definition List_Append (item : Z) : M lstate unit :=
  let! element := new_ListElement item 0 in
  let! empty := List_IsEmpty in
  (if empty
   then set_first element >>> set_last element
   else let! l := get_last in
        set_next l element >>> set_last element) >>>
  add_numInList 1.

Definition List_Prepend (item : Z) : M lstate unit :=
  let! element := new_ListElement item 0 in
  let! empty := List_IsEmpty in
  (if empty
   then set_first element >>> set_last element
   else let! f := get_first in
        set_next element f >>> set_first element) >>>
  add_numInList 1.

(** The search loop of SortedInsert; [true] when it inserted and returned.
    It visits at most as many elements as there are cells. *)
Fixpoint List_SortedInsert_loop (fuel : nat) (element : ptr) (sortKey : Z)
    (p : ptr) : M lstate bool :=
  match fuel with
  | O => mfail OutOfFuel
  | S n =>
      let! e := deref p in
      match le_next e with
      | None => mreturn false
      | Some _ =>
          let! e' := deref (le_next e) in
          if sortKey <? le_key e'
          then set_next element (le_next e) >>> set_next p element >>>
               add_numInList 1 >>> mreturn true
          else List_SortedInsert_loop n element sortKey (le_next e)
      end
  end.

Definition List_SortedInsert (item sortKey : Z) : M lstate unit :=
  let! element := new_ListElement item sortKey in
  let! empty := List_IsEmpty in
  if empty
  then set_first element >>> set_last element >>> add_numInList 1
  else
    let! f := get_first in
    let! fe := deref f in
    if sortKey <? le_key fe
    then set_next element f >>> set_first element >>> add_numInList 1
    else
      let! s := mget in
      let! returned := List_SortedInsert_loop (size (lheap s)) element sortKey f in
      if returned then mreturn tt
      else let! l := get_last in
           set_next l element >>> set_last element >>> add_numInList 1.

(** SortedRemove: the removed item, with its key (what [*keyPtr] is set to
    when keyPtr is not NULL); [None] stands for the NULL result of an empty
    list, which leaves [*keyPtr] alone. *)
Definition List_SortedRemove : M lstate (option (Z * Z)) :=
  let! element := get_first in
  let! empty := List_IsEmpty in
  if empty then mreturn None
  else
    let! e := deref element in
    let! l := get_last in
    (if decide (element = l)
     then set_first None >>> set_last None
     else set_first (le_next e)) >>>
    delete_ListElement element >>>
    add_numInList (-1) >>>
    mreturn (Some (le_key e, le_item e)).

(** List::Remove(): the item pointer, NULL (0) on an empty list. *)
Definition List_Remove : M lstate Z :=
  let! r := List_SortedRemove in
  mreturn (match r with Some (_, item) => item | None => 0 end).

Fixpoint List_Remove_item_loop (fuel : nat) (item : Z) (prev p : ptr) : M lstate ptr :=
  match fuel with
  | O => mfail OutOfFuel
  | S n =>
      match p with
      | None => mreturn None
      | Some _ =>
          let! e := deref p in
          if item =? le_item e
          then set_next prev (le_next e) >>>
               (match le_next e with None => set_last prev | Some _ => mreturn tt end) >>>
               delete_ListElement p >>> add_numInList (-1) >>> mreturn p
          else List_Remove_item_loop n item p (le_next e)
      end
  end.

(** List::Remove(void *item) *)
Definition List_Remove_item (item : Z) : M lstate unit :=
  let! f := get_first in
  let! fe := deref f in
  if item =? le_item fe
  then let! removed := List_Remove in ASSERT (item =? removed)
  else
    let! s := mget in
    let! found := List_Remove_item_loop (S (size (lheap s))) item f (le_next fe) in
    ASSERT (match found with Some _ => true | None => false end).

(** Mapcar: [func] is called on each item in list order; [A] is what the
    calls act on. *)
Fixpoint List_Mapcar_loop {A} (fuel : nat) (func : A -> Z -> A) (p : ptr) (a : A)
    : M lstate A :=
  match fuel with
  | O => mfail OutOfFuel
  | S n => match p with
           | None => mreturn a
           | Some _ => let! e := deref p in
                       List_Mapcar_loop n func (le_next e) (func a (le_item e))
           end
  end.
Definition List_Mapcar {A} (func : A -> Z -> A) (a : A) : M lstate A :=
  let! s := mget in
  let! f := get_first in
  List_Mapcar_loop (S (size (lheap s))) func f a.

(** List::~List: [while (Remove() != NULL);] *)
Definition List_destroy : M lstate unit :=
  let! s := mget in
  mwhile (S (size (lheap s)))
    (let! r := List_Remove in mreturn (negb (r =? 0))).
End methods.

(** * The contract: pure functions on (key, item) sequences *)
Section contract.
Context {A : Type}.
Implicit Types q : list (Z * A).

Definition q_append q (x : A) : list (Z * A) := q ++ [(0, x)].
Definition q_prepend q (x : A) : list (Z * A) := (0, x) :: q.
Fixpoint q_sorted_insert q (x : A) (k : Z) : list (Z * A) :=
  match q with
  | [] => [(k, x)]
  | (k', y) :: r => if k <? k' then (k, x) :: (k', y) :: r
                    else (k', y) :: q_sorted_insert r x k
  end.
Definition q_remove q : option (Z * A) * list (Z * A) :=
  match q with [] => (None, []) | e :: r => (Some e, r) end.
Fixpoint q_remove_item `{EqDecision A} q (x : A) : option (list (Z * A)) :=
  match q with
  | [] => None
  | (k, y) :: r => if decide (x = y) then Some r
                   else cons (k, y) <$> q_remove_item r x
  end.

Definition key_sorted q : Prop := Sorted Z.le (fst <$> q).
End contract.

(** * Representation and refinement *)
Record cell := mkCell { c_loc : loc; c_key : Z; c_item : Z }.

Definition kv (c : cell) : Z * Z := (c_key c, c_item c).
Definition locs (cs : list cell) : list loc := c_loc <$> cs.
Definition kvs (cs : list cell) : list (Z * Z) := kv <$> cs.

(** [chain h p cs q]: following [next] from [p] visits exactly the cells
    [cs] and then is [q]. *)
Fixpoint chain (h : gmap loc ListElement) (p : ptr) (cs : list cell) (q : ptr) : Prop :=
  match cs with
  | [] => p = q
  | c :: r => p = Some (c_loc c) /\
              exists n, h !! c_loc c = Some (mkListElement n (c_key c) (c_item c)) /\
                        chain h n r q
  end.

Record list_rep (s : lstate) (cs : list cell) : Prop := {
  rep_chain : chain (lheap s) (first (lobj s)) cs None;
  rep_nodup : NoDup (locs cs);
  rep_last  : last_elt (lobj s) = c_loc <$> last cs;
  rep_num   : numInList (lobj s) = Z.of_nat (length cs)
}.

(** A method takes a list with cells [cs] to one with cells [cs'], leaves the
    rest of the heap alone, allocates only unused cells and frees the cells
    it unlinks. *)
Record list_step (s : lstate) (cs : list cell) (s' : lstate) (cs' : list cell) : Prop := {
  step_rep   : list_rep s' cs';
  step_frame : forall l, l ∉ locs cs -> l ∉ locs cs' -> lheap s' !! l = lheap s !! l;
  step_fresh : forall l, l ∈ locs cs' -> l ∉ locs cs -> lheap s !! l = None;
  step_freed : forall l, l ∈ locs cs -> l ∉ locs cs' -> lheap s' !! l = None
}.

Section chain_lemmas.
Implicit Types (h : gmap loc ListElement) (cs : list cell).

Lemma chain_app h p cs1 cs2 q :
  chain h p (cs1 ++ cs2) q <-> exists m, chain h p cs1 m /\ chain h m cs2 q.
Proof.
  revert p. induction cs1 as [|c r IH]; intros p; simpl.
  - split; [eauto|]. intros (m & -> & ?). assumption.
  - split.
    + intros (-> & n & Hn & (m & H1 & H2)%IH). eauto 8.
    + intros (m & (-> & n & Hn & H1) & H2). split; [reflexivity|].
      exists n. split; [assumption|]. apply IH. eauto.
Qed.

Lemma chain_frame h h' p cs q :
  (forall l, l ∈ locs cs -> h' !! l = h !! l) -> chain h p cs q -> chain h' p cs q.
Proof.
  revert p. induction cs as [|c r IH]; intros p Hf; simpl; [auto|].
  intros (-> & n & Hn & Hr). split; [reflexivity|]. exists n. split.
  - rewrite Hf by (simpl; set_solver). exact Hn.
  - apply IH; [|exact Hr]. intros l Hl. apply Hf. set_solver.
Qed.

Lemma chain_insert_other h p cs q l e :
  l ∉ locs cs -> chain h p cs q -> chain (<[l := e]> h) p cs q.
Proof.
  intros Hl. apply chain_frame. intros l' Hl'. apply lookup_insert_ne. set_solver.
Qed.

Lemma chain_delete_other h p cs q l :
  l ∉ locs cs -> chain h p cs q -> chain (delete l h) p cs q.
Proof.
  intros Hl. apply chain_frame. intros l' Hl'. apply lookup_delete_ne. set_solver.
Qed.

Lemma chain_lookup h p cs q c :
  chain h p cs q -> c ∈ cs ->
  exists n, h !! c_loc c = Some (mkListElement n (c_key c) (c_item c)).
Proof.
  revert p. induction cs as [|c' r IH]; intros p; [set_solver|].
  intros (_ & n & Hn & Hr) [->|Hc]%elem_of_cons; eauto.
Qed.

Lemma chain_allocated h p cs q l :
  chain h p cs q -> l ∈ locs cs -> is_Some (h !! l).
Proof.
  intros Hc (c & -> & Hin)%list_elem_of_fmap_1.
  destruct (chain_lookup _ _ _ _ _ Hc Hin) as [n ->]. eauto.
Qed.

(** Linking [new] after the last cell of a segment. *)
Lemma chain_relink h p cs c n n' q :
  c_loc c ∉ locs cs ->
  chain h p (cs ++ [c]) n -> chain (<[c_loc c := mkListElement n' (c_key c) (c_item c)]> h) n' q None ->
  chain (<[c_loc c := mkListElement n' (c_key c) (c_item c)]> h) p (cs ++ c :: q) None.
Proof.
  intros Hc (m & H1 & (-> & k & _ & _))%chain_app Hq.
  apply chain_app. exists (Some (c_loc c)). split.
  - now apply chain_insert_other.
  - simpl. split; [reflexivity|]. exists n'. split; [apply lookup_insert_eq|exact Hq].
Qed.

(** A chain without repeated cells is no longer than the heap. *)
Lemma chain_length h p cs q :
  NoDup (locs cs) -> chain h p cs q -> (length cs <= size h)%nat.
Proof.
  intros Hnd Hc. replace (length cs) with (size (list_to_set (locs cs) : gset loc)).
  - rewrite <- size_dom. apply subseteq_size. intros l Hl%elem_of_list_to_set.
    apply elem_of_dom. eapply chain_allocated; eauto.
  - rewrite size_list_to_set by exact Hnd. unfold locs. now rewrite length_fmap.
Qed.
End chain_lemmas.

Lemma locs_app cs1 cs2 : locs (cs1 ++ cs2) = locs cs1 ++ locs cs2.
Proof. apply fmap_app. Qed.

Lemma elem_of_locs_cons l c cs : l ∈ locs (c :: cs) <-> l = c_loc c \/ l ∈ locs cs.
Proof. unfold locs. rewrite fmap_cons. apply elem_of_cons. Qed.

Lemma NoDup_locs_cons c cs : NoDup (locs (c :: cs)) <-> (c_loc c ∉ locs cs) /\ NoDup (locs cs).
Proof. unfold locs. rewrite fmap_cons. apply NoDup_cons. Qed.

Section refinement.
Context `{Allocator}.

(** A location the allocator returns is not a cell of any list. *)
Lemma alloc_not_in s cs : list_rep s cs -> alloc (lheap s) ∉ locs cs.
Proof.
  intros Hr Hin. destruct (chain_allocated _ _ _ _ _ (rep_chain _ _ Hr) Hin) as [e He].
  rewrite alloc_fresh in He. discriminate.
Qed.

Lemma rep_empty s cs : list_rep s cs -> first (lobj s) = None <-> cs = [].
Proof.
  intros Hr. pose proof (rep_chain _ _ Hr) as Hc. destruct cs as [|c r]; simpl in Hc.
  - tauto.
  - destruct Hc as (-> & _). split; discriminate.
Qed.

Lemma rep_first s c r : list_rep s (c :: r) -> first (lobj s) = Some (c_loc c).
Proof. intros Hr. apply (rep_chain _ _ Hr). Qed.

Lemma rep_last_snoc s cs c : list_rep s (cs ++ [c]) -> last_elt (lobj s) = Some (c_loc c).
Proof. intros Hr. rewrite (rep_last _ _ Hr), last_snoc. reflexivity. Qed.

(** Adding one fresh cell anywhere in the list. *)
Lemma list_step_add s cs s' cs1 c cs2 :
  cs = cs1 ++ cs2 -> c_loc c = alloc (lheap s) ->
  list_rep s cs -> list_rep s' (cs1 ++ c :: cs2) ->
  (forall l, l ∉ locs cs -> l <> c_loc c -> lheap s' !! l = lheap s !! l) ->
  list_step s cs s' (cs1 ++ c :: cs2).
Proof.
  intros -> Hl Hr Hr' Hf. split; [exact Hr'|..].
  - intros l H1 H2. apply Hf; [exact H1|].
    rewrite locs_app, elem_of_app, elem_of_locs_cons in H2. tauto.
  - intros l. rewrite !locs_app, !elem_of_app, elem_of_locs_cons.
    intros Hin Hout. assert (l = c_loc c) as -> by tauto. rewrite Hl. apply alloc_fresh.
  - intros l. rewrite !locs_app, !elem_of_app, elem_of_locs_cons. tauto.
Qed.

Lemma NoDup_locs_add cs1 c cs2 :
  NoDup (locs (cs1 ++ cs2)) -> c_loc c ∉ locs (cs1 ++ cs2) ->
  NoDup (locs (cs1 ++ c :: cs2)).
Proof.
  intros Hnd Hc. unfold locs in *. rewrite <- Permutation_middle. simpl.
  now apply NoDup_cons.
Qed.

(** Only element: the branch of Append, Prepend and SortedInsert on an
    empty list. *)
Lemma list_rep_singleton h l k x :
  h !! l = Some (mkListElement None k x) ->
  list_rep (mkLstate h (mkList (Some l) (Some l) 1)) [mkCell l k x].
Proof.
  intros Hl. split; simpl; [|repeat constructor; set_solver|reflexivity|reflexivity].
  eauto.
Qed.

(** The three places a fresh cell is linked in: in front, after the last
    cell, between two cells. *)
Lemma list_step_front s cs k x n :
  list_rep s cs -> cs <> [] ->
  let l := alloc (lheap s) in
  list_step s cs
    (mkLstate (<[l := mkListElement (first (lobj s)) k x]> (<[l := n]> (lheap s)))
              (mkList (Some l) (last_elt (lobj s)) (numInList (lobj s) + 1)))
    (mkCell l k x :: cs).
Proof.
  intros Hr Hne l. pose proof (alloc_not_in _ _ Hr) as Hnew.
  apply (list_step_add s _ _ [] (mkCell l k x) cs); auto; simpl.
  - split; simpl.
    + split; [reflexivity|]. exists (first (lobj s)). split; [apply lookup_insert_eq|].
      do 2 (apply chain_insert_other; [exact Hnew|]). apply (rep_chain _ _ Hr).
    + apply (NoDup_locs_add [] (mkCell l k x) cs); [apply (rep_nodup _ _ Hr)|exact Hnew].
    + rewrite (rep_last _ _ Hr). destruct cs; [congruence|reflexivity].
    + rewrite (rep_num _ _ Hr). lia.
  - intros l' _ Hl'. now rewrite !lookup_insert_ne by congruence.
Qed.

Lemma list_step_link s cs1 cp cs2 k x n last' :
  list_rep s (cs1 ++ cp :: cs2) ->
  let l := alloc (lheap s) in
  chain (lheap s) n cs2 None ->
  last' = c_loc <$> last (mkCell l k x :: cs2) ->
  list_step s (cs1 ++ cp :: cs2)
    (mkLstate (<[c_loc cp := mkListElement (Some l) (c_key cp) (c_item cp)]>
                 (<[l := mkListElement n k x]> (lheap s)))
              (mkList (first (lobj s)) last' (numInList (lobj s) + 1)))
    ((cs1 ++ [cp]) ++ mkCell l k x :: cs2).
Proof.
  intros Hr l Hn ->. pose proof (alloc_not_in _ _ Hr) as Hnew.
  pose proof (rep_nodup _ _ Hr) as Hnd. pose proof (rep_chain _ _ Hr) as Hc.
  rewrite (cons_middle cp cs1 cs2), (app_assoc cs1) in Hnew, Hnd, Hc.
  assert (Hdis := Hnd). rewrite locs_app in Hdis. apply NoDup_app in Hdis as (Hd1 & Hd2 & Hd3).
  rewrite locs_app in Hd1. apply NoDup_app in Hd1 as (_ & Hd4 & _).
  rewrite locs_app, elem_of_app in Hnew.
  assert (Hcp1 : c_loc cp ∉ locs cs1) by (intros ?; eapply Hd4; [eassumption|simpl; set_solver]).
  assert (Hcp2 : c_loc cp ∉ locs cs2)
    by (apply Hd2; rewrite locs_app; simpl; set_solver).
  apply (list_step_add s _ _ (cs1 ++ [cp]) (mkCell l k x) cs2); auto.
  - now rewrite <- app_assoc.
  - split; simpl.
    + rewrite <- app_assoc. simpl.
      apply chain_app in Hc as (m & Hc1 & Hc2).
      apply (chain_relink _ _ _ cp m); [exact Hcp1|apply chain_insert_other; tauto|].
      simpl. split; [reflexivity|]. exists n. split.
      * rewrite lookup_insert_ne, lookup_insert_eq; [reflexivity|].
        intros E. apply Hnew. left. rewrite locs_app, elem_of_app. right. fold l. simpl in E. rewrite <- E. simpl. set_solver.
      * do 2 (apply chain_insert_other; [tauto|]). exact Hn.
    + apply NoDup_locs_add; [exact Hnd|]. rewrite locs_app, elem_of_app. exact Hnew.
    + now rewrite last_app_cons.
    + rewrite (rep_num _ _ Hr), !length_app. simpl. lia.
  - intros l' Hl' Hne'. rewrite locs_app, elem_of_app, elem_of_locs_cons in Hl'.
    simpl in *. rewrite !lookup_insert_ne; [reflexivity|congruence|].
    intros <-. tauto.
Qed.

Lemma deref_cell s p cs q c :
  chain (lheap s) p cs q -> c ∈ cs ->
  exists n, deref (Some (c_loc c)) s = Ok (mkListElement n (c_key c) (c_item c), s).
Proof.
  intros Hc Hin. destruct (chain_lookup _ _ _ _ _ Hc Hin) as [n Hn].
  exists n. simpl. now rewrite Hn.
Qed.

Lemma set_next_eq l n s e :
  lheap s !! l = Some e ->
  set_next (Some l) n s =
  Ok (tt, mkLstate (<[l := mkListElement n (le_key e) (le_item e)]> (lheap s)) (lobj s)).
Proof. intros He. unfold set_next, mthen, deref. now rewrite He. Qed.

Lemma List_IsEmpty_nil s : first (lobj s) = None -> List_IsEmpty s = Ok (true, s).
Proof. intros Hf. unfold List_IsEmpty, mthen, get_first. now rewrite Hf. Qed.

Lemma List_IsEmpty_cons s l : first (lobj s) = Some l -> List_IsEmpty s = Ok (false, s).
Proof. intros Hf. unfold List_IsEmpty, mthen, get_first. now rewrite Hf. Qed.

(** Linking after the last cell ([last->next = element; last = element]). *)
Lemma link_last_spec s cs k x :
  list_rep s cs -> cs <> [] ->
  let l := alloc (lheap s) in
  let s1 := mkLstate (<[l := mkListElement None k x]> (lheap s)) (lobj s) in
  exists s', (let! p := get_last in
              set_next p (Some l) >>> set_last (Some l) >>> add_numInList 1) s1 = Ok (tt, s') /\
             list_step s cs s' (cs ++ [mkCell l k x]).
Proof.
  intros Hr Hne l s1. destruct (exists_last Hne) as (cs0 & cl & ->).
  pose proof (alloc_not_in _ _ Hr) as Hnew.
  mstep_to (last_elt (lobj s)) s1. rewrite (rep_last_snoc _ _ _ Hr).
  destruct (chain_lookup (lheap s1) (first (lobj s)) (cs0 ++ [cl]) None cl) as [n Hn].
  { apply chain_insert_other; [exact Hnew|apply (rep_chain _ _ Hr)]. }
  { set_solver. }
  mstep_by (set_next_eq _ _ _ _ Hn). eexists. split; [reflexivity|].
  apply (list_step_link s cs0 cl [] k x None); [exact Hr|reflexivity|reflexivity].
Qed.

(** [first = element; last = element] on an empty list. *)
Lemma link_empty_spec s k x :
  list_rep s [] ->
  let l := alloc (lheap s) in
  let s1 := mkLstate (<[l := mkListElement None k x]> (lheap s)) (lobj s) in
  exists s', (set_first (Some l) >>> set_last (Some l) >>> add_numInList 1) s1 = Ok (tt, s') /\
             list_step s [] s' [mkCell l k x].
Proof.
  intros Hr l s1. eexists. split; [reflexivity|]. simpl. rewrite (rep_num _ _ Hr).
  apply (list_step_add s [] _ [] (mkCell l k x) []); auto; simpl.
  - apply list_rep_singleton, lookup_insert_eq.
  - intros l' _ Hl'. now apply lookup_insert_ne.
Qed.

Lemma mthen_assoc {A B C} (m : M lstate A) (f : A -> M lstate B) (g : B -> M lstate C) s :
  mthen (mthen m f) g s = mthen m (fun a => mthen (f a) g) s.
Proof. unfold mthen. destruct (m s) as [[a s']|]; reflexivity. Qed.

Lemma List_Append_spec s cs item :
  list_rep s cs ->
  exists s' c, List_Append item s = Ok (tt, s') /\
               list_step s cs s' (cs ++ [c]) /\ kv c = (0, item).
Proof.
  intros Hr. set (l := alloc (lheap s)).
  set (s1 := mkLstate (<[l := mkListElement None 0 item]> (lheap s)) (lobj s)).
  unfold List_Append. mstep_to (Some l) s1. destruct cs as [|c0 r].
  - mstep_by (List_IsEmpty_nil s1 (proj2 (rep_empty _ _ Hr) eq_refl)).
    destruct (link_empty_spec s 0 item Hr) as (s' & E & Hs).
    exists s', (mkCell l 0 item). rewrite mthen_assoc. auto.
  - mstep_by (List_IsEmpty_cons s1 _ (rep_first _ _ _ Hr)).
    destruct (link_last_spec s (c0 :: r) 0 item Hr) as (s' & E & Hs); [discriminate|].
    exists s', (mkCell l 0 item). rewrite mthen_assoc. split; [|auto].
    rewrite (mthen_step _ _ _ (last_elt (lobj s)) s1) in E by reflexivity.
    mstep_to (last_elt (lobj s)) s1. rewrite mthen_assoc. exact E.
Qed.

Lemma List_Prepend_spec s cs item :
  list_rep s cs ->
  exists s' c, List_Prepend item s = Ok (tt, s') /\
               list_step s cs s' (c :: cs) /\ kv c = (0, item).
Proof.
  intros Hr. set (l := alloc (lheap s)).
  set (s1 := mkLstate (<[l := mkListElement None 0 item]> (lheap s)) (lobj s)).
  unfold List_Prepend. mstep_to (Some l) s1. destruct cs as [|c0 r].
  - mstep_by (List_IsEmpty_nil s1 (proj2 (rep_empty _ _ Hr) eq_refl)).
    destruct (link_empty_spec s 0 item Hr) as (s' & E & Hs).
    exists s', (mkCell l 0 item). rewrite mthen_assoc. auto.
  - mstep_by (List_IsEmpty_cons s1 _ (rep_first _ _ _ Hr)).
    rewrite mthen_assoc. mstep_to (first (lobj s)) s1. rewrite mthen_assoc.
    mstep_by (set_next_eq l _ s1 _ (lookup_insert_eq _ _ _)).
    eexists _, (mkCell l 0 item). split; [reflexivity|split; [|reflexivity]].
    apply (list_step_front s (c0 :: r) 0 item (mkListElement None 0 item) Hr). discriminate.
Qed.

Lemma List_SortedRemove_empty s :
  list_rep s [] -> List_SortedRemove s = Ok (None, s).
Proof.
  intros Hr. unfold List_SortedRemove, mthen, List_IsEmpty, get_first, mthen; simpl.
  rewrite (proj2 (rep_empty _ _ Hr) eq_refl). reflexivity.
Qed.

Lemma List_SortedRemove_spec s c cs :
  list_rep s (c :: cs) ->
  exists s', List_SortedRemove s = Ok (Some (kv c), s') /\ list_step s (c :: cs) s' cs.
Proof.
  intros Hr. pose proof (rep_chain _ _ Hr) as (_ & n & Hcl & Hn).
  pose proof (rep_nodup _ _ Hr) as (Hnin & Hnd)%NoDup_locs_cons.
  unfold List_SortedRemove, mthen, List_IsEmpty, get_first, get_last, mthen, deref; simpl.
  rewrite (rep_first _ _ _ Hr). simpl. rewrite Hcl. simpl.
  assert (Hother : forall s', lheap s' = delete (c_loc c) (lheap s) ->
            list_rep s' cs -> list_step s (c :: cs) s' cs).
  { intros s' Hh Hr'. split; [exact Hr'|..]; rewrite ?Hh.
    - intros l. rewrite elem_of_locs_cons. intros Hl _. apply lookup_delete_ne. intros <-. tauto.
    - intros l Hl. rewrite elem_of_locs_cons. tauto.
    - intros l. rewrite elem_of_locs_cons. intros [->|?] ?; [apply lookup_delete_eq|tauto]. }
  rewrite (rep_last _ _ Hr). case_decide as Hd; simpl.
  - (* a single element *)
    assert (cs = []) as ->.
    { destruct cs as [|c' r]; [reflexivity|exfalso]. simpl in Hd.
      destruct (last (c' :: r)) as [c''|] eqn:El; [|now apply last_None in El].
      injection Hd as Hd. apply Hnin. rewrite Hd. unfold locs. apply list_elem_of_fmap_2.
      now apply last_Some_elem_of. }
    rewrite Hcl. simpl. rewrite (rep_num _ _ Hr). eexists. split; [reflexivity|].
    apply Hother; [reflexivity|]. split; simpl; auto.
  - rewrite Hcl. simpl. eexists. split; [reflexivity|]. apply Hother; [reflexivity|].
    destruct cs as [|c' r]; [exfalso; apply Hd; reflexivity|]. split; simpl.
    + apply (chain_delete_other _ _ (c' :: r)); assumption.
    + assumption.
    + rewrite (rep_last _ _ Hr). reflexivity.
    + rewrite (rep_num _ _ Hr). simpl. lia.
Qed.

(** The search loop of SortedInsert, from a cell whose key is not above the
    new key, through the cells [post] that follow it. *)
Lemma SortedInsert_loop_spec k lnew x post : forall fuel c s,
  chain (lheap s) (Some (c_loc c)) (c :: post) None ->
  lnew ∉ locs (c :: post) ->
  lheap s !! lnew = Some (mkListElement None k x) ->
  (length post < fuel)%nat ->
  (Forall (fun c' => c_key c' <= k) post /\
   List_SortedInsert_loop fuel (Some lnew) k (Some (c_loc c)) s = Ok (false, s)) \/
  exists p1 cp c2 p2,
    c :: post = p1 ++ cp :: c2 :: p2 /\
    Forall (fun c' => c_key c' <= k) (tail (p1 ++ [cp])) /\ k < c_key c2 /\
    List_SortedInsert_loop fuel (Some lnew) k (Some (c_loc c)) s =
    Ok (true, mkLstate (<[c_loc cp := mkListElement (Some lnew) (c_key cp) (c_item cp)]>
                         (<[lnew := mkListElement (Some (c_loc c2)) k x]> (lheap s)))
                (mkList (first (lobj s)) (last_elt (lobj s)) (numInList (lobj s) + 1))).
Proof.
  induction post as [|c2 p2 IH]; intros [|fuel] c s Hc Hnew Hl Hlen; try (simpl in Hlen; lia).
  - left. split; [constructor|]. destruct Hc as (_ & n & Hcl & Hn). simpl in Hn. subst n.
    cbn [List_SortedInsert_loop]. unfold mthen, deref. rewrite Hcl. reflexivity.
  - destruct Hc as (_ & n & Hcl & Hn). pose proof Hn as (-> & n' & Hcl2 & _).
    rewrite elem_of_locs_cons in Hnew.
    assert (Hlc : lnew <> c_loc c) by tauto.
    assert (E : List_SortedInsert_loop (S fuel) (Some lnew) k (Some (c_loc c)) s =
                (if k <? c_key c2
                 then set_next (Some lnew) (Some (c_loc c2)) >>>
                      set_next (Some (c_loc c)) (Some lnew) >>>
                      add_numInList 1 >>> mreturn true
                 else List_SortedInsert_loop fuel (Some lnew) k (Some (c_loc c2))) s).
    { cbn [List_SortedInsert_loop]. unfold mthen at 1, deref at 1. rewrite Hcl. cbn [le_next].
      unfold mthen at 1, deref at 1. rewrite Hcl2. reflexivity. }
    rewrite E. clear E. destruct (Z.ltb_spec k (c_key c2)) as [Hk|Hk].
    + right. exists [], c, c2, p2. repeat split; [constructor|exact Hk|].
      unfold mthen, set_next, mthen, deref. simpl. rewrite Hl. simpl.
      rewrite lookup_insert_ne, Hcl by exact Hlc. reflexivity.
    + destruct (IH fuel c2 s Hn) as [[Hall E]|(p1 & cp & c3 & p3 & Heq & Hall & Hk3 & E)];
        [tauto|exact Hl|simpl in Hlen; lia|..].
      * left. split; [constructor; auto|exact E].
      * right. exists (c :: p1), cp, c3, p3. rewrite Heq. repeat split; auto.
        simpl. destruct p1 as [|c0 p1]; simpl in *; injection Heq as -> _; constructor; auto.
Qed.

(** SortedInsert on a non-empty list, after the new element is allocated. *)
Lemma List_SortedInsert_nonempty s c0 r x k :
  list_rep s (c0 :: r) ->
  let l := alloc (lheap s) in
  let s1 := mkLstate (<[l := mkListElement None k x]> (lheap s)) (lobj s) in
  List_SortedInsert x k s =
  (if k <? c_key c0
   then set_next (Some l) (Some (c_loc c0)) >>> set_first (Some l) >>> add_numInList 1
   else
     let! returned := List_SortedInsert_loop (size (lheap s1)) (Some l) k (Some (c_loc c0)) in
     if returned then mreturn tt
     else let! p := get_last in
          set_next p (Some l) >>> set_last (Some l) >>> add_numInList 1) s1.
Proof.
  intros Hr l s1. pose proof (alloc_not_in _ _ Hr) as Hnew.
  assert (Hc1 : chain (lheap s1) (Some (c_loc c0)) (c0 :: r) None).
  { apply chain_insert_other; [exact Hnew|].
    rewrite <- (rep_first _ _ _ Hr). apply (rep_chain _ _ Hr). }
  destruct (deref_cell s1 _ _ _ c0 Hc1) as [n Hn]; [set_solver|].
  assert (Hf : first (lobj s) = Some (c_loc c0)) by apply (rep_first _ _ _ Hr).
  unfold List_SortedInsert. mstep_to (Some l) s1.
  rewrite (mthen_step _ _ _ false s1) by (unfold List_IsEmpty, mthen, get_first; simpl; now rewrite Hf).
  rewrite (mthen_step _ _ _ (Some (c_loc c0)) s1) by (unfold get_first; simpl; now rewrite Hf).
  mstep_by Hn. cbn [le_key]. destruct (k <? c_key c0); reflexivity.
Qed.

(** Where SortedInsert puts the new cell: after every leading cell whose
    key is not above the new one. *)
Lemma List_SortedInsert_spec s cs x k :
  list_rep s cs ->
  exists s' cs1 c cs2,
    List_SortedInsert x k s = Ok (tt, s') /\ cs = cs1 ++ cs2 /\
    list_step s cs s' (cs1 ++ c :: cs2) /\ kv c = (k, x) /\
    Forall (fun c' => c_key c' <= k) cs1 /\
    (forall c', head cs2 = Some c' -> k < c_key c').
Proof.
  intros Hr. pose proof (alloc_not_in _ _ Hr) as Hnew.
  pose proof (rep_chain _ _ Hr) as Hc. pose proof (rep_nodup _ _ Hr) as Hnd.
  set (l := alloc (lheap s)) in *. set (c := mkCell l k x).
  destruct cs as [|c0 r].
  { destruct (link_empty_spec s k x Hr) as (s' & E & Hs).
    exists s', [], c, []. split_and!; try reflexivity; [|exact Hs|constructor|discriminate].
    unfold List_SortedInsert.
    mstep_to (Some l) (mkLstate (<[l := mkListElement None k x]> (lheap s)) (lobj s)).
    mstep_by (List_IsEmpty_nil (mkLstate _ (lobj s)) (proj2 (rep_empty _ _ Hr) eq_refl)).
    exact E. }
  rewrite (List_SortedInsert_nonempty _ _ _ _ _ Hr). fold l.
  set (s1 := mkLstate (<[l := mkListElement None k x]> (lheap s)) (lobj s)).
  pose proof (rep_first _ _ _ Hr) as Hf. rewrite Hf in Hc.
  assert (Hc1 : chain (lheap s1) (Some (c_loc c0)) (c0 :: r) None)
    by (apply chain_insert_other; assumption).
  assert (Hl1 : lheap s1 !! l = Some (mkListElement None k x)) by apply lookup_insert_eq.
  destruct (Z.ltb_spec k (c_key c0)) as [Hk|Hk].
  { (* in front *)
    mstep_by (set_next_eq _ _ _ _ Hl1). rewrite <- Hf.
    eexists _, [], c, (c0 :: r). split_and!; try reflexivity; [|constructor|simpl; congruence].
    apply (list_step_front s (c0 :: r) k x (mkListElement None k x) Hr). discriminate. }
  assert (Hfuel : (length r < size (lheap s1))%nat).
  { pose proof (chain_length _ _ _ _ Hnd Hc) as Hlen. unfold s1. simpl in *.
    rewrite map_size_insert_None by apply alloc_fresh. lia. }
  destruct (SortedInsert_loop_spec k l x r _ c0 s1 Hc1 Hnew Hl1 Hfuel)
    as [[Hall E]|(p1 & cp & c2 & p2 & Heq & Hall & Hk2 & E)]; mstep_by E; clear E.
  - (* at the end *)
    destruct (link_last_spec s (c0 :: r) k x Hr) as (s' & E & Hs); [discriminate|].
    exists s', (c0 :: r), c, []. split_and!; auto; [now rewrite app_nil_r|discriminate].
  - (* between cp and c2 *)
    rewrite Heq in *. eexists _, (p1 ++ [cp]), c, (c2 :: p2).
    split_and!; [reflexivity|now rewrite <- app_assoc| |reflexivity|..].
    + simpl. rewrite insert_insert_eq.
      apply (list_step_link s p1 cp (c2 :: p2) k x (Some (c_loc c2))); [exact Hr|..].
      * rewrite Hf, Heq in Hc || idtac.
        apply chain_app in Hc as (m & _ & (-> & n & _ & Hc2)).
        pose proof Hc2 as (-> & _). exact Hc2.
      * now rewrite (rep_last _ _ Hr), last_app_cons.
    + destruct p1 as [|c0' p1]; simpl in *; injection Heq as -> ->; constructor; auto.
    + simpl. congruence.
Qed.

(** Unlinking the cell [c] that follows [cp]. *)
Lemma list_step_unlink s pre cp c post n :
  list_rep s (pre ++ cp :: c :: post) ->
  chain (lheap s) n post None ->
  list_step s (pre ++ cp :: c :: post)
    (mkLstate (delete (c_loc c)
                (<[c_loc cp := mkListElement n (c_key cp) (c_item cp)]> (lheap s)))
              (mkList (first (lobj s))
                 (match n with None => Some (c_loc cp) | Some _ => last_elt (lobj s) end)
                 (numInList (lobj s) - 1)))
    (pre ++ cp :: post).
Proof.
  intros Hr Hn. pose proof (rep_nodup _ _ Hr) as Hnd. pose proof (rep_chain _ _ Hr) as Hc.
  assert (Hp : locs (pre ++ cp :: c :: post) ≡ₚ c_loc c :: locs (pre ++ cp :: post)).
  { rewrite (cons_middle cp), app_assoc. unfold locs. rewrite <- Permutation_middle.
    rewrite <- app_assoc. reflexivity. }
  rewrite Hp in Hnd. apply NoDup_cons in Hnd as (Hcn & Hnd).
  assert (Hcp : ~ c_loc cp ∈ locs pre /\ ~ c_loc cp ∈ locs post).
  { clear -Hnd. rewrite locs_app in Hnd. apply NoDup_app in Hnd as (_ & Hd & Hnd).
    apply NoDup_locs_cons in Hnd as (Hcp & _). split; [|exact Hcp].
    intros Hin. apply (Hd _ Hin). apply elem_of_locs_cons. auto. }
  split; simpl.
  - split; simpl; [| exact Hnd | |].
    + apply chain_delete_other; [exact Hcn|].
      apply chain_app in Hc as (m & Hc1 & (-> & n0 & _)).
      apply chain_app. exists (Some (c_loc cp)). split; [apply chain_insert_other; tauto|].
      simpl. split; [reflexivity|]. exists n. split; [apply lookup_insert_eq|].
      apply chain_insert_other; tauto.
    + rewrite last_app_cons. destruct post as [|c2 r]; simpl in Hn.
      * now subst n.
      * destruct Hn as (-> & _). rewrite (rep_last _ _ Hr), last_app_cons. reflexivity.
    + rewrite (rep_num _ _ Hr), !length_app. simpl. lia.
  - intros l. rewrite Hp, elem_of_cons. intros Hl Hl'.
    rewrite lookup_delete_ne by (intros <-; tauto). apply lookup_insert_ne. intros <-.
    apply Hl'. rewrite locs_app, elem_of_app, elem_of_locs_cons. tauto.
  - intros l Hl. rewrite Hp, elem_of_cons. tauto.
  - intros l. rewrite Hp, elem_of_cons. intros [->|Hl] Hl'; [|tauto]. apply lookup_delete_eq.
Qed.

Lemma Remove_item_loop_spec item post : forall fuel pre cp s n,
  list_rep s (pre ++ cp :: post) -> chain (lheap s) n post None ->
  (length post < fuel)%nat ->
  (~ item ∈ (c_item <$> post) /\
   List_Remove_item_loop fuel item (Some (c_loc cp)) n s = Ok (None, s)) \/
  exists p1 c p2 s',
    post = p1 ++ c :: p2 /\ ~ item ∈ (c_item <$> p1) /\ c_item c = item /\
    List_Remove_item_loop fuel item (Some (c_loc cp)) n s = Ok (Some (c_loc c), s') /\
    list_step s (pre ++ cp :: post) s' (pre ++ cp :: p1 ++ p2).
Proof.
  induction post as [|c p2 IH]; intros [|fuel] pre cp s n Hr Hn Hlen;
    try (simpl in Hlen; lia).
  { left. simpl in Hn. subst n. split; [set_solver|reflexivity]. }
  pose proof Hn as (-> & n2 & Hcl & Hn2).
  assert (E : List_Remove_item_loop (S fuel) item (Some (c_loc cp)) (Some (c_loc c)) s =
              (if item =? c_item c
               then set_next (Some (c_loc cp)) n2 >>>
                    (match n2 with None => set_last (Some (c_loc cp)) | Some _ => mreturn tt end) >>>
                    delete_ListElement (Some (c_loc c)) >>> add_numInList (-1) >>>
                    mreturn (Some (c_loc c))
               else List_Remove_item_loop fuel item (Some (c_loc c)) n2) s).
  { cbn [List_Remove_item_loop]. unfold mthen at 1, deref at 1. rewrite Hcl. reflexivity. }
  rewrite E. clear E. destruct (Z.eqb_spec item (c_item c)) as [He|He].
  - right. exists [], c, p2.
    destruct (chain_lookup _ _ _ _ cp (rep_chain _ _ Hr)) as [n0 Hcp]; [set_solver|].
    assert (Hne : c_loc cp <> c_loc c).
    { pose proof (rep_nodup _ _ Hr) as Hnd. rewrite locs_app in Hnd.
      apply NoDup_app in Hnd as (_ & _ & Hnd). apply NoDup_locs_cons in Hnd as (Hnd & _).
      rewrite elem_of_locs_cons in Hnd. tauto. }
    mstep_by (set_next_eq _ n2 _ _ Hcp). cbn [le_key le_item].
    eexists. split_and!; [reflexivity|set_solver|congruence| |apply (list_step_unlink _ _ _ _ _ n2 Hr Hn2)].
    unfold mthen. destruct n2; simpl; rewrite lookup_insert_ne, Hcl by exact Hne; reflexivity.
  - rewrite (cons_middle cp), app_assoc in Hr.
    destruct (IH fuel (pre ++ [cp]) c s n2 Hr Hn2) as
      [[Hni E]|(p1 & c' & p3 & s' & -> & Hni & Hi & E & Hs)]; [simpl in Hlen; lia|..].
    + left. split; [set_solver|exact E].
    + right. exists (c :: p1), c', p3, s'. split_and!; auto; [set_solver|].
      rewrite <- !app_assoc in Hs. exact Hs.
Qed.

Lemma List_Remove_item_spec s cs item :
  list_rep s cs -> item ∈ (c_item <$> cs) ->
  exists s' cs1 c cs2,
    List_Remove_item item s = Ok (tt, s') /\ cs = cs1 ++ c :: cs2 /\
    ~ item ∈ (c_item <$> cs1) /\ c_item c = item /\ list_step s cs s' (cs1 ++ cs2).
Proof.
  intros Hr Hin. destruct cs as [|c0 r]; [set_solver|].
  pose proof (rep_chain _ _ Hr) as Hc.
  rewrite (rep_first _ _ _ Hr) in Hc. pose proof Hc as (_ & n & Hcl & Hn).
  unfold List_Remove_item. mstep_to (first (lobj s)) s. rewrite (rep_first _ _ _ Hr).
  rewrite (mthen_step _ _ _ (mkListElement n (c_key c0) (c_item c0)) s) by (simpl; now rewrite Hcl).
  cbn [le_item le_next]. destruct (Z.eqb_spec item (c_item c0)) as [He|He].
  - destruct (List_SortedRemove_spec _ _ _ Hr) as (s' & E & Hs).
    exists s', [], c0, r. split_and!; [|reflexivity|set_solver|congruence|exact Hs].
    unfold List_Remove. rewrite mthen_assoc. mstep_by E. simpl.
    unfold mthen, mreturn. unfold ASSERT. now rewrite He, Z.eqb_refl.
  - mstep_to s s.
    destruct (Remove_item_loop_spec item r (S (size (lheap s))) [] c0 s n Hr Hn)
      as [[Hni E]|(p1 & c & p2 & s' & -> & Hni & Hi & E & Hs)].
    + pose proof (chain_length _ _ _ _ (rep_nodup _ _ Hr) Hc). simpl in *. lia.
    + exfalso. set_solver.
    + exists s', (c0 :: p1), c, p2. split_and!; auto; [|set_solver]. mstep_by E. reflexivity.
Qed.

(** Remove(item) of an item that is not on the list stops the kernel: the
    final ASSERT fails, or [first] is NULL. *)
Lemma List_Remove_item_absent s cs item :
  list_rep s cs -> item ∉ (c_item <$> cs) ->
  List_Remove_item item s = Err (if decide (cs = []) then BadAccess else AssertFailed).
Proof.
  intros Hr Hin. unfold List_Remove_item. mstep_to (first (lobj s)) s.
  destruct cs as [|c0 r]; simpl.
  { unfold mthen. now rewrite (proj2 (rep_empty _ _ Hr) eq_refl). }
  pose proof (rep_chain _ _ Hr) as Hc.
  rewrite (rep_first _ _ _ Hr) in Hc |- *. pose proof Hc as (_ & n & Hcl & Hn).
  rewrite (mthen_step _ _ _ (mkListElement n (c_key c0) (c_item c0)) s) by (simpl; now rewrite Hcl).
  cbn [le_item le_next]. destruct (Z.eqb_spec item (c_item c0)) as [He|He]; [set_solver|].
  mstep_to s s.
  destruct (Remove_item_loop_spec item r (S (size (lheap s))) [] c0 s n Hr Hn)
    as [[Hni E]|(p1 & c & p2 & s' & -> & Hni & Hi & E & Hs)].
  + pose proof (chain_length _ _ _ _ (rep_nodup _ _ Hr) Hc). simpl in *. lia.
  + mstep_by E. reflexivity.
  + exfalso. set_solver.
Qed.

Lemma List_Mapcar_spec {A} (func : A -> Z -> A) a s cs :
  list_rep s cs -> List_Mapcar func a s = Ok (foldl func a (c_item <$> cs), s).
Proof.
  intros Hr. unfold List_Mapcar. mstep_to s s. mstep_to (first (lobj s)) s.
  assert (Hlen : (length cs < S (size (lheap s)))%nat).
  { apply Nat.lt_succ_r. eapply chain_length; [apply (rep_nodup _ _ Hr)|apply (rep_chain _ _ Hr)]. }
  revert Hlen. generalize (S (size (lheap s))). pose proof (rep_chain _ _ Hr) as Hc.
  revert Hc. generalize (first (lobj s)). clear Hr. revert a.
  induction cs as [|c r IH]; intros a p Hc [|fuel] Hlen; simpl in Hlen; try lia.
  - simpl in Hc. subst p. reflexivity.
  - destruct Hc as (-> & n & Hcl & Hn). simpl.
    rewrite (mthen_step _ _ _ (mkListElement n (c_key c) (c_item c)) s) by (simpl; now rewrite Hcl).
    apply IH; [exact Hn|lia].
Qed.

Lemma list_step_trans s0 cs0 s1 cs1 s2 cs2 :
  list_step s0 cs0 s1 cs1 -> list_step s1 cs1 s2 cs2 -> list_step s0 cs0 s2 cs2.
Proof.
  intros [R1 F1 N1 D1] [R2 F2 N2 D2]. split; [exact R2|..].
  - intros l H0 H2. destruct (decide (l ∈ locs cs1)) as [H1|H1].
    + rewrite (D2 l H1 H2). symmetry. auto.
    + rewrite F2, F1 by assumption. reflexivity.
  - intros l H2 H0. destruct (decide (l ∈ locs cs1)) as [H1|H1]; [auto|].
    rewrite <- F1 by assumption. auto.
  - intros l H0 H2. destruct (decide (l ∈ locs cs1)) as [H1|H1]; [auto|].
    rewrite F2 by assumption. auto.
Qed.

Lemma list_step_refl s cs : list_rep s cs -> list_step s cs s cs.
Proof. intros Hr. split; auto; tauto. Qed.

(** The loop of the destructor stops after the first NULL item. *)
Fixpoint after_null (cs : list cell) : list cell :=
  match cs with
  | [] => []
  | c :: r => if c_item c =? 0 then r else after_null r
  end.

Lemma List_destroy_loop cs : forall fuel s,
  list_rep s cs -> (length cs < fuel)%nat ->
  exists s', mwhile fuel (let! r := List_Remove in mreturn (negb (r =? 0))) s = Ok (tt, s') /\
             list_step s cs s' (after_null cs).
Proof.
  induction cs as [|c r IH]; intros [|fuel] s Hr Hlen; simpl in Hlen; try lia.
  - exists s. split; [|now apply list_step_refl]. simpl. unfold List_Remove, mthen.
    now rewrite (List_SortedRemove_empty _ Hr).
  - destruct (List_SortedRemove_spec _ _ _ Hr) as (s1 & E & Hs).
    cbn [mwhile after_null].
    rewrite (mthen_step _ _ _ (negb (c_item c =? 0)) s1)
      by (unfold List_Remove, mthen; now rewrite E).
    destruct (c_item c =? 0); simpl; [eauto|].
    destruct (IH fuel s1 (step_rep _ _ _ _ Hs)) as (s' & E' & Hs'); [lia|].
    exists s'. split; [exact E'|]. eapply list_step_trans; eauto.
Qed.

Lemma List_destroy_spec s cs :
  list_rep s cs ->
  exists s', List_destroy s = Ok (tt, s') /\ list_step s cs s' (after_null cs).
Proof.
  intros Hr. unfold List_destroy. mstep_to s s. apply List_destroy_loop; [exact Hr|].
  apply Nat.lt_succ_r. eapply chain_length; [apply (rep_nodup _ _ Hr)|apply (rep_chain _ _ Hr)].
Qed.

Lemma after_null_nonnull cs : Forall (fun c => c_item c <> 0) cs -> after_null cs = [].
Proof.
  induction 1 as [|c r Hc _ IH]; simpl; [reflexivity|].
  destruct (Z.eqb_spec (c_item c) 0); [contradiction|exact IH].
Qed.
End refinement.

(** * Facts about the contract *)
Section contract_facts.
Context {A : Type}.
Implicit Types (q : list (Z * A)) (x : A).

Lemma q_sorted_insert_split q1 q2 x k :
  Forall (fun e => e.1 <= k) q1 -> (forall e, head q2 = Some e -> k < e.1) ->
  q_sorted_insert (q1 ++ q2) x k = q1 ++ (k, x) :: q2.
Proof.
  induction 1 as [|[k1 y] r Hk _ IH]; intros H2; simpl.
  - destruct q2 as [|[k2 z] r2]; simpl; [reflexivity|].
    specialize (H2 _ eq_refl). simpl in H2.
    destruct (Z.ltb_spec k k2); [reflexivity|lia].
  - simpl in Hk. destruct (Z.ltb_spec k k1); [lia|]. now rewrite IH.
Qed.

Lemma q_sorted_insert_perm q x k : q_sorted_insert q x k ≡ₚ (k, x) :: q.
Proof.
  induction q as [|[k' y] r IH]; simpl; [reflexivity|].
  destruct (k <? k'); [reflexivity|]. rewrite IH. apply Permutation_swap.
Qed.

Lemma q_sorted_insert_length q x k : length (q_sorted_insert q x k) = S (length q).
Proof. now rewrite q_sorted_insert_perm. Qed.

Lemma key_sorted_cons e q :
  key_sorted (e :: q) <-> Forall (fun e' => e.1 <= e'.1) q /\ key_sorted q.
Proof.
  unfold key_sorted. rewrite fmap_cons. split.
  - intros Hs%Sorted_StronglySorted; [|intros ???; lia].
    apply StronglySorted_cons in Hs as [Hall Hs].
    split; [now rewrite Forall_fmap in Hall|now apply StronglySorted_Sorted].
  - intros [Hall Hs]. constructor; [exact Hs|].
    destruct q as [|e' r]; simpl; constructor. now apply Forall_cons in Hall as [? _].
Qed.

Lemma q_sorted_insert_sorted q x k : key_sorted q -> key_sorted (q_sorted_insert q x k).
Proof.
  induction q as [|[k' y] r IH]; intros Hs; simpl; [repeat constructor|].
  pose proof Hs as (Hall & Hr)%key_sorted_cons. simpl in Hall.
  destruct (Z.ltb_spec k k') as [Hk|Hk]; apply key_sorted_cons; simpl; split; auto.
  - constructor; simpl; [lia|]. eapply Forall_impl; [exact Hall|]. simpl. intros. lia.
  - rewrite q_sorted_insert_perm. constructor; auto.
Qed.

(** A sorted queue serves its entries by key, and equal keys in the order
    they were inserted. *)
Lemma q_sorted_insert_filter q x k k' :
  key_sorted q ->
  filter (fun e => e.1 = k') (q_sorted_insert q x k) =
  filter (fun e => e.1 = k') q ++ (if decide (k = k') then [(k, x)] else []).
Proof.
  induction q as [|[k1 y] r IH]; intros Hs.
  - simpl. rewrite filter_cons, filter_nil. simpl. case_decide; reflexivity.
  - apply key_sorted_cons in Hs as (Hall & Hr). simpl in Hall. simpl.
    destruct (Z.ltb_spec k k1) as [Hk|Hk].
    + rewrite (filter_cons _ (k, x)). simpl. case_decide as E; [|now rewrite app_nil_r].
      subst k'. replace (filter (fun e => e.1 = k) ((k1, y) :: r)) with (@nil (Z * A)); [reflexivity|].
      symmetry. apply filter_none. constructor; simpl; [lia|].
      eapply Forall_impl; [exact Hall|]. simpl. intros. lia.
    + rewrite !filter_cons. simpl. rewrite IH by exact Hr.
      destruct (decide (k1 = k')); reflexivity.
Qed.
End contract_facts.

(** * What the rest of the kernel relies on

    The promises of the class to its clients, which are modelled with the pure
    queue functions: every method, started on a list that represents a queue,
    returns (no fuel is exhausted, no pointer is invalid), leaves a list that
    represents the queue the function gives, and touches nothing else. *)
Class ListContract `{Allocator} : Prop := {
  contract_append : forall s cs item, list_rep s cs ->
    exists s' cs', List_Append item s = Ok (tt, s') /\ list_step s cs s' cs' /\
                   kvs cs' = q_append (kvs cs) item;
  contract_prepend : forall s cs item, list_rep s cs ->
    exists s' cs', List_Prepend item s = Ok (tt, s') /\ list_step s cs s' cs' /\
                   kvs cs' = q_prepend (kvs cs) item;
  contract_sorted_insert : forall s cs item k, list_rep s cs ->
    exists s' cs', List_SortedInsert item k s = Ok (tt, s') /\ list_step s cs s' cs' /\
                   kvs cs' = q_sorted_insert (kvs cs) item k;
  contract_sorted_remove : forall s cs, list_rep s cs ->
    exists s' cs', List_SortedRemove s = Ok ((q_remove (kvs cs)).1, s') /\
                   list_step s cs s' cs' /\ kvs cs' = (q_remove (kvs cs)).2;
  contract_remove_item : forall s cs item q', list_rep s cs ->
    q_remove_item (kvs cs) item = Some q' ->
    exists s' cs', List_Remove_item item s = Ok (tt, s') /\ list_step s cs s' cs' /\ kvs cs' = q';
  contract_is_empty : forall s cs, list_rep s cs ->
    List_IsEmpty s = Ok (match kvs cs with [] => true | _ => false end, s);
  contract_num : forall s cs, list_rep s cs ->
    List_NumInList s = Ok (Z.of_nat (length (kvs cs)), s);
  contract_mapcar : forall A (func : A -> Z -> A) a s cs, list_rep s cs ->
    List_Mapcar func a s = Ok (foldl func a (snd <$> kvs cs), s)
}.

Lemma q_remove_item_Some cs item q' :
  q_remove_item (kvs cs) item = Some q' -> item ∈ (c_item <$> cs).
Proof.
  revert q'. induction cs as [|c r IH]; intros q'; simpl; [discriminate|].
  case_decide as E; [intros _; set_solver|].
  destruct (q_remove_item (kvs r) item) eqn:Er; [|discriminate].
  intros _. apply elem_of_cons. right. eapply IH. reflexivity.
Qed.

Lemma q_remove_item_app cs1 c cs2 :
  ~ c_item c ∈ (c_item <$> cs1) ->
  q_remove_item (kvs (cs1 ++ c :: cs2)) (c_item c) = Some (kvs (cs1 ++ cs2)).
Proof.
  induction cs1 as [|c0 r IH]; intros Hni; simpl.
  - now rewrite decide_True.
  - rewrite decide_False by (intros E; apply Hni; rewrite E; set_solver).
    fold (kvs (r ++ c :: cs2)). rewrite IH by set_solver. reflexivity.
Qed.

Lemma kvs_items cs : snd <$> kvs cs = c_item <$> cs.
Proof. unfold kvs. rewrite <- list_fmap_compose. reflexivity. Qed.

(** C1: Every method of List implements its queue function on the pointer
    structure: Append, Prepend, SortedInsert, SortedRemove/Remove, Remove(item),
    IsEmpty, NumInList and Mapcar return on every list, the cells they leave
    represent the new queue, no other cell changes, what is unlinked is freed
    and what is linked was unused. *)
Theorem List_implements_contract `{Allocator} : ListContract.
Proof.
  split.
  - intros s cs item Hr. destruct (List_Append_spec s cs item Hr) as (s' & c & E & Hs & Hk).
    exists s', (cs ++ [c]). split_and!; auto.
    unfold kvs, q_append. rewrite fmap_app. simpl. now rewrite Hk.
  - intros s cs item Hr. destruct (List_Prepend_spec s cs item Hr) as (s' & c & E & Hs & Hk).
    exists s', (c :: cs). split_and!; auto. unfold kvs, q_prepend. simpl. now rewrite Hk.
  - intros s cs x k Hr.
    destruct (List_SortedInsert_spec s cs x k Hr) as (s' & cs1 & c & cs2 & E & -> & Hs & Hk & H1 & H2).
    exists s', (cs1 ++ c :: cs2). split_and!; auto.
    unfold kvs. rewrite !fmap_app, fmap_cons, Hk. symmetry. apply q_sorted_insert_split.
    + rewrite Forall_fmap. exact H1.
    + destruct cs2 as [|c2 r]; simpl; [discriminate|]. intros e [= <-]. simpl. apply H2. reflexivity.
  - intros s [|c r] Hr.
    + exists s, []. split_and!; auto using List_SortedRemove_empty, list_step_refl.
    + destruct (List_SortedRemove_spec _ _ _ Hr) as (s' & E & Hs). exists s', r. auto.
  - intros s cs item q' Hr Hq.
    destruct (List_Remove_item_spec s cs item Hr) as (s' & cs1 & c & cs2 & E & -> & Hni & <- & Hs).
    { eapply q_remove_item_Some, Hq. }
    exists s', (cs1 ++ cs2). split_and!; auto. rewrite q_remove_item_app in Hq by exact Hni. congruence.
  - intros s [|c r] Hr; simpl.
    + apply List_IsEmpty_nil, (rep_empty _ _ Hr). reflexivity.
    + eapply List_IsEmpty_cons, (rep_first _ _ _ Hr).
  - intros s cs Hr. unfold List_NumInList, kvs. now rewrite (rep_num _ _ Hr), length_fmap.
  - intros A func a s cs Hr. rewrite kvs_items. now apply List_Mapcar_spec.
Qed.

(** SortedInsert keeps a sorted list sorted by key, adds exactly the new
    entry, and serves entries of equal key in the order of insertion, so the
    pending-interrupt list is a stable priority queue. *)
Theorem List_SortedInsert_stable `{Allocator} s cs item k :
  list_rep s cs -> key_sorted (kvs cs) ->
  exists s' cs', List_SortedInsert item k s = Ok (tt, s') /\ list_rep s' cs' /\
    key_sorted (kvs cs') /\ kvs cs' ≡ₚ (k, item) :: kvs cs /\
    (forall k', filter (fun e => e.1 = k') (kvs cs') =
                filter (fun e => e.1 = k') (kvs cs) ++ (if decide (k = k') then [(k, item)] else [])).
Proof.
  intros Hr Hs.
  destruct (List_SortedInsert_spec s cs item k Hr) as (s' & cs1 & c & cs2 & E & -> & Hst & Hk & H1 & H2).
  assert (Hkv : kvs (cs1 ++ c :: cs2) = q_sorted_insert (kvs (cs1 ++ cs2)) item k).
  { unfold kvs. rewrite !fmap_app, fmap_cons, Hk. symmetry. apply q_sorted_insert_split.
    - rewrite Forall_fmap. exact H1.
    - destruct cs2; simpl; [discriminate|]. intros e [= <-]. simpl. auto. }
  exists s', (cs1 ++ c :: cs2). rewrite Hkv. split_and!; auto.
  - apply (step_rep _ _ _ _ Hst).
  - now apply q_sorted_insert_sorted.
  - apply q_sorted_insert_perm.
  - intros k'. now apply q_sorted_insert_filter.
Qed.

(** A list object with no elements, and one with the keys 1 and 3. *)
Definition empty_lstate : lstate := mkLstate ∅ (mkList None None 0).
Definition two_lstate : lstate :=
  mkLstate {[ 1%positive := mkListElement (Some 2%positive) 1 11;
              2%positive := mkListElement None 3 33 ]}
           (mkList (Some 1%positive) (Some 2%positive) 2).
Definition two_cells : list cell := [mkCell 1%positive 1 11; mkCell 2%positive 3 33].

Lemma two_lstate_rep : list_rep two_lstate two_cells.
Proof.
  split; simpl; [|apply (bool_decide_unpack _); reflexivity|reflexivity|reflexivity].
  split; [reflexivity|]. exists (Some 2%positive). split; [reflexivity|].
  split; [reflexivity|]. exists None. split; reflexivity.
Qed.

Lemma List_SortedInsert_stable_witness :
  exists s' cs', List_SortedInsert 22 1 two_lstate = Ok (tt, s') /\ list_rep s' cs' /\
    kvs cs' ≡ₚ (1, 22) :: kvs two_cells.
Proof.
  destruct (List_SortedInsert_stable two_lstate two_cells 22 1 two_lstate_rep)
    as (s' & cs' & E & Hr & _ & Hp & _).
  - apply (bool_decide_unpack _). reflexivity.
  - exists s', cs'. auto.
Defined.

(** Remove(item) of an item that is not on the list never returns: the
    closing ASSERT aborts, or, on an empty list, NULL is dereferenced. *)
Theorem List_Remove_item_missing `{Allocator} s cs item :
  list_rep s cs -> item ∉ (snd <$> kvs cs) ->
  List_Remove_item item s = Err (if decide (cs = []) then BadAccess else AssertFailed).
Proof. rewrite kvs_items. apply List_Remove_item_absent. Qed.

Lemma List_Remove_item_missing_witness :
  List_Remove_item 5 two_lstate = Err AssertFailed.
Proof.
  apply (List_Remove_item_missing two_lstate two_cells 5 two_lstate_rep).
  apply (bool_decide_unpack _). reflexivity.
Defined.

(** ~List frees every element of a list of non-NULL items and stops,
    leaving the rest of the heap as it was. *)
Theorem List_destroy_frees `{Allocator} s cs :
  list_rep s cs -> Forall (fun e => e.2 <> 0) (kvs cs) ->
  exists s', List_destroy s = Ok (tt, s') /\ list_rep s' [] /\
    (forall l, lheap s' !! l = if decide (l ∈ locs cs) then None else lheap s !! l).
Proof.
  intros Hr Hnn. destruct (List_destroy_spec s cs Hr) as (s' & E & [Hr' Hf _ Hd]).
  rewrite after_null_nonnull in * by (unfold kvs in Hnn; rewrite Forall_fmap in Hnn; exact Hnn).
  exists s'. split_and!; auto. intros l. case_decide; [apply Hd|apply Hf]; set_solver.
Qed.

Lemma List_destroy_frees_witness :
  exists s', List_destroy two_lstate = Ok (tt, s') /\ list_rep s' [].
Proof.
  destruct (List_destroy_frees two_lstate two_cells two_lstate_rep) as (s' & E & Hr & _).
  - repeat constructor; discriminate.
  - exists s'. auto.
Defined.
