(* ===== verification/BitMap.v ===== *)
(** userprog/bitmap.h and userprog/bitmap.cc: a bitmap packed into 32-bit
    words, used for disk sectors (filesys) and physical pages (userprog).

    [BitMap] has the fields of the class; the methods are run in [M BitMap].
    The abstraction is [bit b i], the value of the i-th bit; [free_bits b]
    lists the clear bits.  FetchFrom and WriteBack move the word array through
    [map_bytes] / [words_of_bytes], its image in memory on a little-endian
    host. *)
From Stdlib Require Import ZArith Lia Sorted.
From stdpp Require Import base option list list_numbers.
From S2P Require Import Prelude.

Local Open Scope Z_scope.

Definition BitsInByte : Z := 8.
Definition BitsInWord : Z := 32.

Record BitMap := mkBitMap {
  numBits  : Z;
  numWords : Z;
  map      : list Z
}.

Definition set_map (m : list Z) : M BitMap unit :=
  mmodify (fun b => mkBitMap (numBits b) (numWords b) m).

(** [1 << k] of type int, converted to unsigned. *)
Definition bit_mask (k : Z) : Z := u32 (Z.shiftl 1 k).

Definition BitMap_Mark (which : Z) : M BitMap unit :=
  let! b := mget in
  ASSERT ((0 <=? which) && (which <? numBits b)) >>>
  let! w := mlift ((map b).[Z.quot which BitsInWord]) in
  let! m := mlift (zupd (map b) (Z.quot which BitsInWord)
                     (Z.lor w (bit_mask (Z.rem which BitsInWord)))) in
  set_map m.

Definition BitMap_Clear (which : Z) : M BitMap unit :=
  let! b := mget in
  ASSERT ((0 <=? which) && (which <? numBits b)) >>>
  let! w := mlift ((map b).[Z.quot which BitsInWord]) in
  let! m := mlift (zupd (map b) (Z.quot which BitsInWord)
                     (Z.land w (u32 (Z.lnot (Z.shiftl 1 (Z.rem which BitsInWord)))))) in
  set_map m.

Definition BitMap_Test (which : Z) : M BitMap bool :=
  let! b := mget in
  ASSERT ((0 <=? which) && (which <? numBits b)) >>>
  let! w := mlift ((map b).[Z.quot which BitsInWord]) in
  mreturn (negb (Z.land w (bit_mask (Z.rem which BitsInWord)) =? 0)).

(** [new unsigned int[numWords]] leaves whatever was in memory, [junk]; the
    constructor then clears the [nitems] bits. *)
Definition BitMap_BitMap (nitems : Z) (junk : list Z) : res BitMap :=
  match mfor (seqZ 0 nitems) BitMap_Clear
          (mkBitMap nitems (divRoundUp nitems BitsInWord) junk) with
  | Ok (_, b) => Ok b
  | Err f => Err f
  end.

Definition BitMap_Find : M BitMap Z :=
  let! b := mget in
  let! r := mfirst (seqZ 0 (numBits b)) (fun i =>
              let! t := BitMap_Test i in
              if negb t then BitMap_Mark i >>> mreturn (Some i) else mreturn None) in
  mreturn (match r with Some i => i | None => -1 end).

Fixpoint BitMap_NumClear_loop (l : list Z) (count : Z) : M BitMap Z :=
  match l with
  | [] => mreturn count
  | i :: r =>
      let! t := BitMap_Test i in
      BitMap_NumClear_loop r (if negb t then count + 1 else count)
  end.
Definition BitMap_NumClear : M BitMap Z :=
  let! b := mget in BitMap_NumClear_loop (seqZ 0 (numBits b)) 0.

(** Print: the numbers of the bits that are set, in order. *)
Fixpoint BitMap_Print_loop (l : list Z) (out : list Z) : M BitMap (list Z) :=
  match l with
  | [] => mreturn out
  | i :: r => let! t := BitMap_Test i in BitMap_Print_loop r (if t then out ++ [i] else out)
  end.
Definition BitMap_Print : M BitMap (list Z) :=
  let! b := mget in BitMap_Print_loop (seqZ 0 (numBits b)) [].

(** The word array as bytes of memory, and back. *)
Definition map_bytes (ws : list Z) : list Z := ws ≫= le_split 4.
Fixpoint words_of_bytes (n : nat) (bs : list Z) : list Z :=
  match n with
  | O => []
  | S m => le_join (take 4 bs) :: words_of_bytes m (drop 4 bs)
  end.

(** * Invariant and abstraction *)
Definition is_word (w : Z) : Prop := 0 <= w < 2 ^ 32.

Record bitmap_wf (b : BitMap) : Prop := {
  wf_numBits  : 0 <= numBits b;
  wf_numWords : numWords b = divRoundUp (numBits b) BitsInWord;
  wf_length   : Z.of_nat (length (map b)) = numWords b;
  wf_words    : Forall is_word (map b)
}.

Definition bit (b : BitMap) (i : Z) : bool :=
  match (map b).[i / 32] with
  | Some w => Z.testbit w (i mod 32)
  | None => false
  end.

Definition free_bits (b : BitMap) : list Z :=
  filter (fun i => bit b i = false) (seqZ 0 (numBits b)).

Section word_lemmas.
Lemma bit_mask_pow k : 0 <= k < 32 -> bit_mask k = 2 ^ k.
Proof.
  intros Hk. unfold bit_mask. rewrite Z.shiftl_1_l. apply u32_id. split; [lia|].
  apply Z.pow_lt_mono_r; lia.
Qed.

Lemma is_word_testbit w : is_word w <-> 0 <= w /\ forall k, 32 <= k -> Z.testbit w k = false.
Proof.
  unfold is_word. split.
  - intros [H0 H1]. split; [exact H0|]. intros k Hk.
    destruct (Z.eq_dec w 0) as [->|]; [apply Z.bits_0|].
    apply Z.bits_above_log2; [lia|]. apply Z.log2_lt_pow2; [lia|].
    eapply Z.lt_le_trans; [exact H1|]. apply Z.pow_le_mono_r; lia.
  - intros [H0 Hb]. split; [exact H0|].
    destruct (Z_lt_le_dec w (2 ^ 32)) as [|Hge]; [assumption|exfalso].
    assert (Hl : 32 <= Z.log2 w) by (apply Z.log2_le_pow2; lia).
    specialize (Hb _ Hl). rewrite Z.bit_log2 in Hb by lia. discriminate.
Qed.

Lemma is_word_lor w v : is_word w -> is_word v -> is_word (Z.lor w v).
Proof.
  rewrite !is_word_testbit. intros [H0 Hw] [H1 Hv]. split; [now apply Z.lor_nonneg|].
  intros k Hk. rewrite Z.lor_spec, Hw, Hv; auto.
Qed.

Lemma is_word_land w v : is_word w -> is_word v -> is_word (Z.land w v).
Proof.
  rewrite !is_word_testbit. intros [H0 Hw] [H1 Hv]. split; [apply Z.land_nonneg; auto|].
  intros k Hk. rewrite Z.land_spec, Hw; auto.
Qed.

Lemma testbit_mark w k j :
  0 <= k < 32 -> 0 <= j -> Z.testbit (Z.lor w (bit_mask k)) j = ((k =? j) || Z.testbit w j)%bool.
Proof.
  intros Hk Hj. rewrite bit_mask_pow, Z.lor_spec by lia.
  rewrite Z.pow2_bits_eqb by lia. apply orb_comm.
Qed.

Lemma testbit_clear w k j :
  0 <= k < 32 -> 0 <= j < 32 ->
  Z.testbit (Z.land w (u32 (Z.lnot (Z.shiftl 1 k)))) j = (negb (k =? j) && Z.testbit w j)%bool.
Proof.
  intros Hk Hj. unfold u32. rewrite Z.land_spec, Z.mod_pow2_bits_low by lia.
  rewrite Z.lnot_spec, Z.shiftl_1_l, Z.pow2_bits_eqb by lia. apply andb_comm.
Qed.

Lemma testbit_test w k :
  is_word w -> 0 <= k < 32 -> negb (Z.land w (bit_mask k) =? 0) = Z.testbit w k.
Proof.
  intros _ Hk. rewrite bit_mask_pow by lia. apply land_pow2_testbit. lia.
Qed.
End word_lemmas.

(** * The methods, one by one *)
Section bitmap_lemmas.
Implicit Types b : BitMap.

(** [bit] tells two bitmaps of the same shape apart. *)
Definition same_shape b b' : Prop := numBits b' = numBits b /\ numWords b' = numWords b.

Lemma word_index b i :
  bitmap_wf b -> 0 <= i < numBits b -> 0 <= i / 32 < Z.of_nat (length (map b)).
Proof.
  intros [H0 Hn Hl _] Hi. rewrite Hl, Hn. split; [apply Z.div_pos; lia|].
  pose proof (divRoundUp_enough (numBits b) BitsInWord) as Hd. unfold BitsInWord in *.
  apply Z.div_lt_upper_bound; lia.
Qed.

Lemma word_at b i :
  bitmap_wf b -> 0 <= i < numBits b ->
  exists w, (map b).[i / 32] = Some w /\ is_word w /\ bit b i = Z.testbit w (i mod 32).
Proof.
  intros Hwf Hi. destruct (zlookup_lt (map b) (i / 32)) as [w Hw]; [now apply word_index|].
  exists w. split; [exact Hw|]. split; [|unfold bit; now rewrite Hw].
  eapply zlookup_Forall; [apply Hwf|exact Hw].
Qed.

(** One word is replaced: the shape stays and the other words are kept. *)
Lemma store_word b i w (f : Z -> bool) :
  bitmap_wf b -> 0 <= i < numBits b -> is_word w ->
  (forall j, 0 <= j < 32 -> Z.testbit w j = f (32 * (i / 32) + j)) ->
  let b' := mkBitMap (numBits b) (numWords b) (<[Z.to_nat (i / 32) := w]> (map b)) in
  bitmap_wf b' /\
  forall j, 0 <= j -> bit b' j = if i / 32 =? j / 32 then f j else bit b j.
Proof.
  intros Hwf Hi Hw Hf b'. pose proof (word_index b i Hwf Hi) as Hx. split.
  - destruct Hwf. split; cbn; auto; [now rewrite length_insert|now apply Forall_insert_Z].
  - intros j Hj. unfold bit, b'. cbn [map]. rewrite zlookup_insert by exact Hx.
    destruct (Z.eqb_spec (i / 32) (j / 32)) as [E|E]; [|now rewrite decide_False].
    rewrite decide_True by exact E. rewrite Hf by (apply Z.mod_pos_bound; lia).
    f_equal. rewrite E. symmetry. apply Z.div_mod. lia.
Qed.

Lemma rem_quot_32 i : 0 <= i -> Z.quot i BitsInWord = i / 32 /\ Z.rem i BitsInWord = i mod 32.
Proof. intros. unfold BitsInWord. now rewrite Z.quot_div_nonneg, Z.rem_mod_nonneg by lia. Qed.

Lemma in_word_eqb i j :
  0 <= j < 32 -> (i mod 32 =? j) = (i =? 32 * (i / 32) + j).
Proof.
  intros Hj. pose proof (Z.div_mod i 32).
  destruct (Z.eqb_spec (i mod 32) j), (Z.eqb_spec i (32 * (i / 32) + j)); lia.
Qed.

Lemma word_bit b i w j :
  0 <= j < 32 -> (map b).[i / 32] = Some w -> Z.testbit w j = bit b (32 * (i / 32) + j).
Proof.
  intros Hj Hw. unfold bit. rewrite (Z.mul_comm 32), Z.add_comm, Z.div_add, Z.mod_add by lia.
  rewrite (Z.div_small j), (Z.mod_small j), Z.add_0_l by lia. now rewrite Hw.
Qed.

Lemma range_check b i :
  0 <= i < numBits b -> ((0 <=? i) && (i <? numBits b))%bool = true.
Proof. intros. apply andb_true_intro. split; [apply Z.leb_le|apply Z.ltb_lt]; lia. Qed.

(** Mark sets one bit, and only that one. *)
Lemma BitMap_Mark_spec b i :
  bitmap_wf b -> 0 <= i < numBits b ->
  exists b', BitMap_Mark i b = Ok (tt, b') /\ bitmap_wf b' /\ same_shape b b' /\
    forall j, 0 <= j -> bit b' j = ((i =? j) || bit b j)%bool.
Proof.
  intros Hwf Hi. destruct (word_at b i Hwf Hi) as (w & Hw & Hword & _).
  unfold BitMap_Mark. destruct (rem_quot_32 i) as [-> ->]; [lia|].
  pose proof (Z.mod_pos_bound i 32) as Hm.
  destruct (store_word b i (Z.lor w (bit_mask (i mod 32)))
              (fun j => (i =? j) || bit b j)%bool Hwf Hi) as [Hwf' Hb].
  - apply is_word_lor; [exact Hword|]. apply u32_range.
  - intros j Hj. rewrite testbit_mark, in_word_eqb by lia.
    now rewrite <- (word_bit b i w j).
  - mstep_to b b. rewrite (range_check b i Hi). mstep_to tt b.
    rewrite Hw. mstep_to w b. rewrite zupd_lt by now apply word_index.
    mstep_to _ b. eexists. split; [reflexivity|]. split; [exact Hwf'|]. split; [now split|].
    intros j Hj. rewrite Hb by exact Hj.
    destruct (Z.eqb_spec (i / 32) (j / 32)); [reflexivity|].
    destruct (Z.eqb_spec i j); [congruence|reflexivity].
Qed.

(** Clear resets one bit, and only that one. *)
Lemma BitMap_Clear_spec b i :
  bitmap_wf b -> 0 <= i < numBits b ->
  exists b', BitMap_Clear i b = Ok (tt, b') /\ bitmap_wf b' /\ same_shape b b' /\
    forall j, 0 <= j -> bit b' j = (negb (i =? j) && bit b j)%bool.
Proof.
  intros Hwf Hi. destruct (word_at b i Hwf Hi) as (w & Hw & Hword & _).
  unfold BitMap_Clear. destruct (rem_quot_32 i) as [-> ->]; [lia|].
  pose proof (Z.mod_pos_bound i 32) as Hm.
  destruct (store_word b i (Z.land w (u32 (Z.lnot (Z.shiftl 1 (i mod 32)))))
              (fun j => negb (i =? j) && bit b j)%bool Hwf Hi) as [Hwf' Hb].
  - apply is_word_land; [exact Hword|]. apply u32_range.
  - intros j Hj. rewrite testbit_clear, in_word_eqb by lia.
    now rewrite <- (word_bit b i w j).
  - mstep_to b b. rewrite (range_check b i Hi). mstep_to tt b.
    rewrite Hw. mstep_to w b. rewrite zupd_lt by now apply word_index.
    mstep_to _ b. eexists. split; [reflexivity|]. split; [exact Hwf'|]. split; [now split|].
    intros j Hj. rewrite Hb by exact Hj.
    destruct (Z.eqb_spec (i / 32) (j / 32)); [reflexivity|].
    destruct (Z.eqb_spec i j); [congruence|reflexivity].
Qed.

(** Test reads one bit. *)
Lemma BitMap_Test_spec b i :
  bitmap_wf b -> 0 <= i < numBits b -> BitMap_Test i b = Ok (bit b i, b).
Proof.
  intros Hwf Hi. destruct (word_at b i Hwf Hi) as (w & Hw & Hword & ->).
  unfold BitMap_Test. destruct (rem_quot_32 i) as [-> ->]; [lia|].
  mstep_to b b. rewrite (range_check b i Hi). mstep_to tt b.
  rewrite Hw. mstep_to w b. unfold mreturn.
  rewrite testbit_test; [reflexivity|exact Hword|apply Z.mod_pos_bound; lia].
Qed.

(** Outside the bitmap each of the three stops at its ASSERT. *)
Lemma BitMap_range_error b i :
  ~ (0 <= i < numBits b) ->
  BitMap_Mark i b = Err AssertFailed /\ BitMap_Clear i b = Err AssertFailed /\
  BitMap_Test i b = Err AssertFailed.
Proof.
  intros Hi. assert (((0 <=? i) && (i <? numBits b))%bool = false) as E.
  { apply not_true_is_false. intros E. bool_hyps. lia. }
  unfold BitMap_Mark, BitMap_Clear, BitMap_Test, mthen, mget, ASSERT. now rewrite E.
Qed.
End bitmap_lemmas.

(** * Scanning: Find, NumClear, Print and the constructor *)
Section scan_lemmas.
Implicit Types b : BitMap.

Lemma elem_of_free_bits b i : i ∈ free_bits b <-> bit b i = false /\ 0 <= i < numBits b.
Proof. unfold free_bits. rewrite list_elem_of_filter, elem_of_seqZ, Z.add_0_l. tauto. Qed.

Lemma free_bits_sorted b : StronglySorted Z.lt (free_bits b).
Proof. apply StronglySorted_filter, StronglySorted_seqZ. Qed.

Lemma NoDup_free_bits b : NoDup (free_bits b).
Proof. apply NoDup_filter, NoDup_seqZ. Qed.

Lemma Mark_free_bits b b' i :
  same_shape b b' -> (forall j, 0 <= j -> bit b' j = ((i =? j) || bit b j)%bool) ->
  free_bits b' = filter (fun j => j <> i) (free_bits b).
Proof.
  intros [Hn _] Hb. unfold free_bits. rewrite Hn, list_filter_filter.
  apply filter_ext_in. intros j Hj. apply elem_of_seqZ in Hj.
  rewrite Hb by lia. destruct (Z.eqb_spec i j); simpl; intuition congruence.
Qed.

Lemma Clear_free_bits b b' i :
  0 <= i < numBits b -> bit b i = true -> same_shape b b' ->
  (forall j, 0 <= j -> bit b' j = (negb (i =? j) && bit b j)%bool) ->
  free_bits b' ≡ₚ i :: free_bits b.
Proof.
  intros Hi Hset [Hn _] Hb. apply NoDup_Permutation; [apply NoDup_free_bits| |].
  - constructor; [|apply NoDup_free_bits]. rewrite elem_of_free_bits, Hset. intros [? _]. congruence.
  - intros j. rewrite elem_of_cons, !elem_of_free_bits, Hn. split.
    + intros [Hj Hr]. rewrite Hb in Hj by lia. destruct (Z.eqb_spec i j); simpl in Hj; auto.
    + intros [->|[Hj Hr]].
      * split; [|lia]. rewrite Hb by lia. now rewrite Z.eqb_refl.
      * split; [|lia]. rewrite Hb by lia. rewrite Hj. apply andb_false_r.
Qed.

Definition find_body (i : Z) : M BitMap (option Z) :=
  let! t := BitMap_Test i in
  if negb t then BitMap_Mark i >>> mreturn (Some i) else mreturn None.

Lemma find_loop b l :
  bitmap_wf b -> Forall (fun i => 0 <= i < numBits b) l ->
  mfirst l find_body b =
    match filter (fun i => bit b i = false) l with
    | [] => Ok (None, b)
    | i :: _ => (BitMap_Mark i >>> mreturn (Some i)) b
    end.
Proof.
  intros Hwf. induction 1 as [|i r Hi _ IH]; [reflexivity|].
  cbn [mfirst]. unfold find_body at 1. unfold mthen at 1 2.
  rewrite BitMap_Test_spec by assumption. destruct (bit b i) eqn:Eb; cbn [negb].
  - rewrite filter_cons_False by congruence. exact IH.
  - rewrite filter_cons_True by exact Eb.
    destruct (BitMap_Mark_spec b i Hwf Hi) as (b' & E & _).
    unfold mthen. rewrite E. reflexivity.
Qed.

Lemma seqZ_in_range b : Forall (fun i => 0 <= i < numBits b) (seqZ 0 (numBits b)).
Proof. apply Forall_forall. intros i Hi. apply elem_of_seqZ in Hi. lia. Qed.

(** Find takes the head of the free list, or reports that there is none. *)
Lemma BitMap_Find_nil b :
  bitmap_wf b -> free_bits b = [] -> BitMap_Find b = Ok (-1, b).
Proof.
  intros Hwf Hf. unfold BitMap_Find. mstep_to b b. fold find_body.
  unfold mthen. rewrite find_loop; [|exact Hwf|apply seqZ_in_range].
  fold (free_bits b). now rewrite Hf.
Qed.

Lemma BitMap_Find_cons b i r :
  bitmap_wf b -> free_bits b = i :: r ->
  exists b', BitMap_Find b = Ok (i, b') /\ bitmap_wf b' /\ same_shape b b' /\
    free_bits b' = r /\ 0 <= i < numBits b /\
    forall j, 0 <= j -> bit b' j = ((i =? j) || bit b j)%bool.
Proof.
  intros Hwf Hf.
  assert (Hi : bit b i = false /\ 0 <= i < numBits b).
  { apply elem_of_free_bits. rewrite Hf. left. }
  destruct (BitMap_Mark_spec b i Hwf) as (b' & E & Hwf' & Hs & Hb); [tauto|].
  exists b'. split; [|split; [exact Hwf'|split; [exact Hs|split; [|split; [tauto|exact Hb]]]]].
  - unfold BitMap_Find. mstep_to b b. fold find_body.
    unfold mthen at 1. rewrite find_loop; [|exact Hwf|apply seqZ_in_range].
    fold (free_bits b). rewrite Hf. unfold mthen. rewrite E. reflexivity.
  - rewrite (Mark_free_bits _ _ _ Hs Hb), Hf, filter_cons_False by (intros H; now apply H).
    pose proof (NoDup_free_bits b) as Hnd. rewrite Hf in Hnd. apply NoDup_cons in Hnd as [Hin _].
    apply filter_all. apply Forall_forall. intros j Hj ->. contradiction.
Qed.

Lemma NumClear_loop_spec b l count :
  bitmap_wf b -> Forall (fun i => 0 <= i < numBits b) l ->
  BitMap_NumClear_loop l count b =
    Ok (count + Z.of_nat (length (filter (fun i => bit b i = false) l)), b).
Proof.
  intros Hwf Hl. revert count. induction Hl as [|i l Hi _ IH]; intros count.
  - simpl. unfold mreturn. now rewrite Z.add_0_r.
  - cbn [BitMap_NumClear_loop]. unfold mthen. rewrite BitMap_Test_spec, IH by assumption.
    destruct (bit b i) eqn:Eb; cbn [negb].
    + now rewrite filter_cons_False by congruence.
    + rewrite filter_cons_True by exact Eb. do 2 f_equal. simpl length. lia.
Qed.

Lemma BitMap_NumClear_spec b :
  bitmap_wf b -> BitMap_NumClear b = Ok (Z.of_nat (length (free_bits b)), b).
Proof.
  intros Hwf. unfold BitMap_NumClear. mstep_to b b.
  rewrite NumClear_loop_spec; [reflexivity|exact Hwf|apply seqZ_in_range].
Qed.

Lemma Print_loop_spec b l out :
  bitmap_wf b -> Forall (fun i => 0 <= i < numBits b) l ->
  BitMap_Print_loop l out b = Ok (out ++ filter (fun i => bit b i = true) l, b).
Proof.
  intros Hwf Hl. revert out. induction Hl as [|i l Hi _ IH]; intros out.
  - simpl. unfold mreturn. now rewrite app_nil_r.
  - cbn [BitMap_Print_loop]. unfold mthen. rewrite BitMap_Test_spec, IH by assumption.
    destruct (bit b i) eqn:Eb.
    + rewrite filter_cons_True by exact Eb. now rewrite <- app_assoc.
    + now rewrite filter_cons_False by congruence.
Qed.

Lemma BitMap_Print_spec b :
  bitmap_wf b -> BitMap_Print b = Ok (filter (fun i => bit b i = true) (seqZ 0 (numBits b)), b).
Proof.
  intros Hwf. unfold BitMap_Print. mstep_to b b.
  rewrite Print_loop_spec; [reflexivity|exact Hwf|apply seqZ_in_range].
Qed.

(** The constructor clears every bit whatever the memory held. *)
Lemma BitMap_ctor n junk :
  0 <= n -> Z.of_nat (length junk) = divRoundUp n BitsInWord -> Forall is_word junk ->
  exists b, BitMap_BitMap n junk = Ok b /\ bitmap_wf b /\ numBits b = n /\
            forall i, 0 <= i < n -> bit b i = false.
Proof.
  intros Hn Hlen Hj. unfold BitMap_BitMap.
  destruct (mfor_rule (fun rest b => exists k, rest = seqZ k (n - k) /\ 0 <= k <= n /\
     bitmap_wf b /\ numBits b = n /\ forall i, 0 <= i < k -> bit b i = false) BitMap_Clear)
    with (l := seqZ 0 n) (s := mkBitMap n (divRoundUp n BitsInWord) junk)
    as (b & E & (k & Ek & Hk & Hwf & Hb & Hz)).
  - intros x r b (k & Ek & Hk & Hwf & Hb & Hz).
    destruct (decide (k = n)) as [->|Hne]; [now rewrite Z.sub_diag in Ek|].
    rewrite seqZ_cons in Ek by lia. injection Ek as -> ->.
    destruct (BitMap_Clear_spec b k) as (b' & E & Hwf' & [Hs _] & Hb'); [exact Hwf|lia|].
    exists b'. split; [exact E|]. exists (Z.succ k).
    split; [f_equal; lia|]. split; [lia|]. split; [exact Hwf'|]. split; [congruence|].
    intros i Hi. rewrite Hb' by lia. destruct (Z.eqb_spec k i); [reflexivity|].
    simpl. apply Hz. lia.
  - exists 0. rewrite Z.sub_0_r. repeat split; cbn; auto; lia.
  - rewrite E. exists b. split; [reflexivity|]. split; [exact Hwf|]. split; [exact Hb|].
    intros i Hi. apply Hz. destruct (decide (k = n)); [lia|].
    rewrite seqZ_cons in Ek by lia. discriminate.
Qed.
End scan_lemmas.

(** * The word array in memory *)
Lemma length_map_bytes ws : length (map_bytes ws) = (4 * length ws)%nat.
Proof.
  unfold map_bytes. induction ws as [|w ws IH]; [reflexivity|].
  rewrite bind_cons, length_app, length_le_split, IH. simpl. lia.
Qed.

Lemma map_bytes_bytes ws : Forall is_byte (map_bytes ws).
Proof.
  unfold map_bytes. induction ws as [|w ws IH]; [constructor|].
  rewrite bind_cons. apply Forall_app. split; [apply le_split_bytes|exact IH].
Qed.

Lemma words_of_map_bytes ws :
  Forall is_word ws -> words_of_bytes (length ws) (map_bytes ws) = ws.
Proof.
  induction 1 as [|w ws Hw _ IH]; [reflexivity|].
  unfold map_bytes in *. rewrite bind_cons. cbn [words_of_bytes length].
  rewrite take_app_length', drop_app_length' by (symmetry; apply length_le_split).
  rewrite IH, le_join_split. f_equal. apply Z.mod_small. unfold is_word in Hw. simpl. lia.
Qed.

Lemma words_of_bytes_wf n bs :
  Forall is_byte bs -> length bs = (4 * n)%nat ->
  length (words_of_bytes n bs) = n /\ Forall is_word (words_of_bytes n bs).
Proof.
  revert bs. induction n as [|n IH]; intros bs Hb Hl; [split; [reflexivity|constructor]|].
  cbn [words_of_bytes length].
  destruct (IH (drop 4 bs)) as [IHl IHw]; [now apply Forall_drop|rewrite length_drop; lia|].
  split; [now rewrite IHl|]. constructor; [|exact IHw].
  pose proof (le_join_range (take 4 bs) ltac:(now apply Forall_take)) as H.
  rewrite length_take_le in H by lia. exact H.
Qed.

(** * Properties *)

(** [Find] hands out the smallest clear bit and marks it and nothing else,
    so that the free list loses exactly its head; on a full map it answers -1
    and leaves the map as it was.  The map stays well formed. *)
Theorem BitMap_Find_smallest (b : BitMap) :
  bitmap_wf b ->
  match free_bits b with
  | [] => BitMap_Find b = Ok (-1, b)
  | i :: r =>
      exists b', BitMap_Find b = Ok (i, b') /\ bitmap_wf b' /\ same_shape b b' /\
        free_bits b' = r /\
        (forall j, 0 <= j < i -> bit b j = true) /\
        (forall j, 0 <= j -> bit b' j = ((i =? j) || bit b j)%bool)
  end.
Proof.
  intros Hwf. destruct (free_bits b) as [|i r] eqn:Hf; [now apply BitMap_Find_nil|].
  destruct (BitMap_Find_cons b i r Hwf Hf) as (b' & E & Hwf' & Hs & Hr & Hi & Hb).
  exists b'. do 4 (split; [assumption|]). split; [|exact Hb].
  intros j Hj. destruct (bit b j) eqn:Ej; [reflexivity|exfalso].
  assert (Hin : j ∈ free_bits b) by (apply elem_of_free_bits; split; [exact Ej|lia]).
  assert (Hord : StronglySorted Z.lt (free_bits b)) by apply free_bits_sorted.
  rewrite Hf in Hin, Hord. apply elem_of_cons in Hin as [->|Hin]; [lia|].
  inversion_clear Hord as [|? ? _ Hall]. eapply Forall_forall in Hall; [|exact Hin]. lia.
Qed.

(** The constructor yields a well-formed map with every bit clear whatever
    the freshly allocated memory held; [NumClear] then counts all of them,
    and in every well-formed map [NumClear] counts the clear bits. *)
Theorem BitMap_BitMap_clear (n : Z) (junk : list Z) :
  0 <= n -> Z.of_nat (length junk) = divRoundUp n BitsInWord -> Forall is_word junk ->
  exists b, BitMap_BitMap n junk = Ok b /\ bitmap_wf b /\
            free_bits b = seqZ 0 n /\ BitMap_NumClear b = Ok (n, b).
Proof.
  intros Hn Hl Hj. destruct (BitMap_ctor n junk Hn Hl Hj) as (b & E & Hwf & Hnb & Hz).
  assert (Hf : free_bits b = seqZ 0 n).
  { unfold free_bits. rewrite Hnb. apply filter_all, Forall_forall. intros i Hi.
    apply elem_of_seqZ in Hi. apply Hz. lia. }
  exists b. do 3 (split; [assumption|]).
  rewrite BitMap_NumClear_spec, Hf, length_seqZ by exact Hwf. do 2 f_equal. lia.
Qed.

(** [Clear] of a bit that is set gives it back: the free list gains that
    number and nothing else, [NumClear] grows by one, and a later [Test] of
    the bit answers false; outside the map all three methods stop at ASSERT. *)
Theorem BitMap_Clear_releases (b : BitMap) (i : Z) :
  bitmap_wf b ->
  if decide (0 <= i < numBits b) then
    exists b', BitMap_Clear i b = Ok (tt, b') /\ bitmap_wf b' /\ same_shape b b' /\
      BitMap_Test i b' = Ok (false, b') /\
      (bit b i = true ->
       free_bits b' ≡ₚ i :: free_bits b /\
       exists k, BitMap_NumClear b = Ok (k, b) /\ BitMap_NumClear b' = Ok (k + 1, b'))
  else BitMap_Mark i b = Err AssertFailed /\ BitMap_Clear i b = Err AssertFailed /\
       BitMap_Test i b = Err AssertFailed.
Proof.
  intros Hwf. case_decide as Hi; [|now apply BitMap_range_error].
  destruct (BitMap_Clear_spec b i Hwf Hi) as (b' & E & Hwf' & Hs & Hb).
  exists b'. do 3 (split; [assumption|]). split.
  - rewrite BitMap_Test_spec; [|exact Hwf'|destruct Hs; lia].
    rewrite Hb, Z.eqb_refl by lia. reflexivity.
  - intros Hset. pose proof (Clear_free_bits b b' i Hi Hset Hs Hb) as Hp.
    split; [exact Hp|]. eexists. rewrite !BitMap_NumClear_spec by assumption.
    split; [reflexivity|]. rewrite Hp. cbn [length]. do 2 f_equal. lia.
Qed.

(** A bitmap of 40 bits with the bits 0, 1 and 33 set. *)
Definition bitmap_sample : BitMap := mkBitMap 40 2 [3; 2].

Lemma bitmap_sample_wf : bitmap_wf bitmap_sample.
Proof. split; cbn; [lia|reflexivity..|]. repeat constructor; unfold is_word; lia. Defined.

Lemma BitMap_Find_smallest_witness :
  exists b', BitMap_Find bitmap_sample = Ok (2, b') /\ bit b' 2 = true.
Proof.
  destruct (BitMap_Find_smallest bitmap_sample bitmap_sample_wf) as (b' & E & _ & _ & _ & _ & Hb).
  exists b'. split; [exact E|]. rewrite Hb by lia. reflexivity.
Defined.

Lemma BitMap_BitMap_clear_witness :
  exists b, BitMap_BitMap 40 [7; 2 ^ 32 - 1] = Ok b /\ BitMap_NumClear b = Ok (40, b).
Proof.
  destruct (BitMap_BitMap_clear 40 [7; 2 ^ 32 - 1]) as (b & E & _ & _ & H).
  - lia.
  - reflexivity.
  - repeat constructor; unfold is_word; lia.
  - exists b. split; assumption.
Defined.

Lemma BitMap_Clear_releases_witness :
  exists b', BitMap_Clear 33 bitmap_sample = Ok (tt, b') /\ BitMap_Test 33 b' = Ok (false, b').
Proof.
  pose proof (BitMap_Clear_releases bitmap_sample 33 bitmap_sample_wf) as H.
  rewrite decide_True in H by (cbn; lia).
  destruct H as (b' & E & _ & _ & Ht & _). exists b'. split; assumption.
Defined.
