(* ===== verification/Stats.v ===== *)
(** machine/stats.h and machine/stats.cc: the simulated clock and the counters,
    with the time constants of the devices; and the machine status of
    machine/interrupt.h, which the clock depends on. *)
From Stdlib Require Import ZArith Lia.
From stdpp Require Import base decidable list.
From S2P Require Import Prelude.

Local Open Scope Z_scope.

Inductive MachineStatus := IdleMode | SystemMode | UserMode.

#[global] Instance MachineStatus_eq_dec : EqDecision MachineStatus.
Proof. solve_decision. Defined.

Record Statistics := mkStatistics {
  totalTicks             : Z;
  idleTicks              : Z;
  systemTicks            : Z;
  userTicks              : Z;
  numDiskReads           : Z;
  numDiskWrites          : Z;
  numConsoleCharsRead    : Z;
  numConsoleCharsWritten : Z;
  numPageFaults          : Z;
  numPacketsSent         : Z;
  numPacketsRecvd        : Z
}.

Definition Statistics_Statistics : Statistics := mkStatistics 0 0 0 0 0 0 0 0 0 0 0.

Definition UserTick : Z := 1.
Definition SystemTick : Z := 10.
Definition RotationTime : Z := 500.
Definition SeekTime : Z := 500.
Definition ConsoleTime : Z := 100.
Definition NetworkTime : Z := 100.
Definition TimerTicks : Z := 30.

(** The updates of the counters made by the devices and the interrupt code. *)
Definition add_systemTicks (n : Z) (s : Statistics) : Statistics :=
  mkStatistics (i32 (totalTicks s + n)) (idleTicks s) (i32 (systemTicks s + n)) (userTicks s)
    (numDiskReads s) (numDiskWrites s) (numConsoleCharsRead s) (numConsoleCharsWritten s)
    (numPageFaults s) (numPacketsSent s) (numPacketsRecvd s).
Definition add_userTicks (n : Z) (s : Statistics) : Statistics :=
  mkStatistics (i32 (totalTicks s + n)) (idleTicks s) (systemTicks s) (i32 (userTicks s + n))
    (numDiskReads s) (numDiskWrites s) (numConsoleCharsRead s) (numConsoleCharsWritten s)
    (numPageFaults s) (numPacketsSent s) (numPacketsRecvd s).
Definition idle_until (t : Z) (s : Statistics) : Statistics :=
  mkStatistics t (i32 (idleTicks s + (t - totalTicks s))) (systemTicks s) (userTicks s)
    (numDiskReads s) (numDiskWrites s) (numConsoleCharsRead s) (numConsoleCharsWritten s)
    (numPageFaults s) (numPacketsSent s) (numPacketsRecvd s).
Definition incr_numDiskReads (s : Statistics) : Statistics :=
  mkStatistics (totalTicks s) (idleTicks s) (systemTicks s) (userTicks s)
    (i32 (numDiskReads s + 1)) (numDiskWrites s) (numConsoleCharsRead s) (numConsoleCharsWritten s)
    (numPageFaults s) (numPacketsSent s) (numPacketsRecvd s).
Definition incr_numDiskWrites (s : Statistics) : Statistics :=
  mkStatistics (totalTicks s) (idleTicks s) (systemTicks s) (userTicks s)
    (numDiskReads s) (i32 (numDiskWrites s + 1)) (numConsoleCharsRead s) (numConsoleCharsWritten s)
    (numPageFaults s) (numPacketsSent s) (numPacketsRecvd s).
Definition incr_numConsoleCharsRead (s : Statistics) : Statistics :=
  mkStatistics (totalTicks s) (idleTicks s) (systemTicks s) (userTicks s)
    (numDiskReads s) (numDiskWrites s) (i32 (numConsoleCharsRead s + 1)) (numConsoleCharsWritten s)
    (numPageFaults s) (numPacketsSent s) (numPacketsRecvd s).
Definition incr_numConsoleCharsWritten (s : Statistics) : Statistics :=
  mkStatistics (totalTicks s) (idleTicks s) (systemTicks s) (userTicks s)
    (numDiskReads s) (numDiskWrites s) (numConsoleCharsRead s) (i32 (numConsoleCharsWritten s + 1))
    (numPageFaults s) (numPacketsSent s) (numPacketsRecvd s).
Definition incr_numPacketsSent (s : Statistics) : Statistics :=
  mkStatistics (totalTicks s) (idleTicks s) (systemTicks s) (userTicks s)
    (numDiskReads s) (numDiskWrites s) (numConsoleCharsRead s) (numConsoleCharsWritten s)
    (numPageFaults s) (i32 (numPacketsSent s + 1)) (numPacketsRecvd s).
Definition incr_numPacketsRecvd (s : Statistics) : Statistics :=
  mkStatistics (totalTicks s) (idleTicks s) (systemTicks s) (userTicks s)
    (numDiskReads s) (numDiskWrites s) (numConsoleCharsRead s) (numConsoleCharsWritten s)
    (numPageFaults s) (numPacketsSent s) (i32 (numPacketsRecvd s + 1)).
