(* ===== verification/Interrupt.v ===== *)
(** machine/interrupt.h and machine/interrupt.cc: the interrupt hardware.

    [Interrupt] has the fields of the class; [pending] is the sorted list of
    CList.v's contract, keyed by the time at which each interrupt is due.  The
    rest of the system is a parameter: [D] is the state of the devices and of
    the kernel, [H] names the handlers, and [Hardware] gives what the interrupt
    code calls (the handler, machine->DelayedLoad, currentThread->Yield and the
    page counters of machine that Halt prints).
    [HardwareLaws] is what it expects of them: a handler returns, leaves
    interrupts off and the clock alone, and only schedules interrupts in the
    future.  TimerDev.v discharges the laws for the timer.

    Halt reads the counters of machine and ends the simulation ([Halted]); what
    it prints and Cleanup are left out. *)
From Stdlib Require Import ZArith Lia.
From stdpp Require Import base option list.
From S2P Require Import Prelude CList Stats.

Local Open Scope Z_scope.

Inductive IntStatus := IntOff | IntOn.
Inductive IntType :=
  | TimerInt | DiskInt | ConsoleWriteInt | ConsoleReadInt | ElevatorInt
  | NetworkSendInt | NetworkRecvInt.

#[global] Instance IntStatus_eq_dec : EqDecision IntStatus.
Proof. solve_decision. Defined.
#[global] Instance IntType_eq_dec : EqDecision IntType.
Proof. solve_decision. Defined.

Record PendingInterrupt (H : Type) := mkPendingInterrupt {
  pi_handler : H;
  pi_arg     : Z;
  pi_when    : Z;
  pi_type    : IntType
}.
Arguments mkPendingInterrupt {H}.
Arguments pi_handler {H}.
Arguments pi_arg {H}.
Arguments pi_when {H}.
Arguments pi_type {H}.

Record Interrupt (H : Type) := mkInterrupt {
  level         : IntStatus;
  pending       : list (Z * PendingInterrupt H);
  inHandler     : bool;
  yieldOnReturn : bool;
  int_status    : MachineStatus
}.
Arguments mkInterrupt {H}.
Arguments level {H}.
Arguments pending {H}.
Arguments inHandler {H}.
Arguments yieldOnReturn {H}.
Arguments int_status {H}.

(** The globals interrupt and stats, with the rest of the system. *)
Record isys (D H : Type) := mkIsys {
  interrupt : Interrupt H;
  stats     : Statistics;
  dev       : D
}.
Arguments mkIsys {D H}.
Arguments interrupt {D H}.
Arguments stats {D H}.
Arguments dev {D H}.

Class Hardware (D H : Type) := {
  call_handler : H -> Z -> M (isys D H) unit;
  machine_DelayedLoad : Z -> Z -> M (isys D H) unit;
  thread_Yield : M (isys D H) unit;
  machine_counters : M (isys D H) (Z * Z)   (* machine->pagehit, machine->pagemiss *)
}.

Section interrupt.
Context {D H : Type}.
Implicit Types s : isys D H.

Definition set_interrupt (i : Interrupt H) s : isys D H := mkIsys i (stats s) (dev s).
Definition set_stats (t : Statistics) s : isys D H := mkIsys (interrupt s) t (dev s).
Definition set_dev (d : D) s : isys D H := mkIsys (interrupt s) (stats s) d.
Definition set_level (l : IntStatus) s : isys D H :=
  let i := interrupt s in
  set_interrupt (mkInterrupt l (pending i) (inHandler i) (yieldOnReturn i) (int_status i)) s.
Definition set_pending (q : list (Z * PendingInterrupt H)) s : isys D H :=
  let i := interrupt s in
  set_interrupt (mkInterrupt (level i) q (inHandler i) (yieldOnReturn i) (int_status i)) s.
Definition set_inHandler (b : bool) s : isys D H :=
  let i := interrupt s in
  set_interrupt (mkInterrupt (level i) (pending i) b (yieldOnReturn i) (int_status i)) s.
Definition set_yieldOnReturn (b : bool) s : isys D H :=
  let i := interrupt s in
  set_interrupt (mkInterrupt (level i) (pending i) (inHandler i) b (int_status i)) s.
Definition setStatus (st : MachineStatus) s : isys D H :=
  let i := interrupt s in
  set_interrupt (mkInterrupt (level i) (pending i) (inHandler i) (yieldOnReturn i) st) s.

Definition now s : Z := totalTicks (stats s).

Definition Interrupt_Interrupt : Interrupt H := mkInterrupt IntOff [] false false SystemMode.

Definition getLevel : M (isys D H) IntStatus :=
  let! s := mget in mreturn (level (interrupt s)).
Definition getStatus : M (isys D H) MachineStatus :=
  let! s := mget in mreturn (int_status (interrupt s)).

Definition ChangeLevel (old now : IntStatus) : M (isys D H) unit := mmodify (set_level now).
Definition TurnOffInterrupt : M (isys D H) unit := ChangeLevel IntOn IntOff.
Definition TurnOnInterrupt : M (isys D H) unit := ChangeLevel IntOff IntOn.

Definition YieldOnReturn : M (isys D H) unit :=
  let! s := mget in
  ASSERT (inHandler (interrupt s)) >>> mmodify (set_yieldOnReturn true).

(** pending->SortedInsert *)
Definition insert_pending (toOccur : PendingInterrupt H) (when : Z) : M (isys D H) unit :=
  mmodify (fun s => set_pending (q_sorted_insert (pending (interrupt s)) toOccur when) s).

Definition Schedule (handler : H) (arg fromNow : Z) (type : IntType) : M (isys D H) unit :=
  let! s := mget in
  let when := i32 (totalTicks (stats s) + fromNow) in
  let toOccur := mkPendingInterrupt handler arg when type in
  ASSERT (0 <? fromNow) >>> insert_pending toOccur when.

Context `{!Hardware D H}.

Definition Halt : M (isys D H) unit := let! pages := machine_counters in mfail Halted.

(** The call of the handler, with the code around it. *)
Definition fire (toOccur : PendingInterrupt H) (old : MachineStatus) : M (isys D H) unit :=
  machine_DelayedLoad 0 0 >>>
  mmodify (set_inHandler true) >>>
  mmodify (setStatus SystemMode) >>>
  call_handler (pi_handler toOccur) (pi_arg toOccur) >>>
  mmodify (setStatus old) >>>
  mmodify (set_inHandler false).

Definition CheckIfDue (advanceClock : bool) : M (isys D H) bool :=
  let! s := mget in
  let old := int_status (interrupt s) in
  ASSERT (bool_decide (level (interrupt s) = IntOff)) >>>
  match q_remove (pending (interrupt s)) with
  | (None, _) => mreturn false
  | (Some (when, toOccur), rest) =>
      mmodify (set_pending rest) >>>
      if negb advanceClock && (totalTicks (stats s) <? when) then
        insert_pending toOccur when >>> mreturn false
      else
        (if advanceClock && (totalTicks (stats s) <? when)
         then mmodify (fun s => set_stats (idle_until when (stats s)) s)
         else mreturn tt) >>>
        if bool_decide (int_status (interrupt s) = IdleMode) &&
           bool_decide (pi_type toOccur = TimerInt) && match rest with [] => true | _ => false end
        then insert_pending toOccur when >>> mreturn false
        else fire toOccur old >>> mreturn true
  end.

(** [while (CheckIfDue(FALSE));] with as many rounds as there are interrupts. *)
Definition check_all : M (isys D H) unit :=
  let! s := mget in mwhile (S (length (pending (interrupt s)))) (CheckIfDue false).

Definition advance_clock : M (isys D H) unit :=
  let! s := mget in
  if bool_decide (int_status (interrupt s) = SystemMode)
  then mmodify (fun s => set_stats (add_systemTicks SystemTick (stats s)) s)
  else mmodify (fun s => set_stats (add_userTicks UserTick (stats s)) s).

Definition OneTick : M (isys D H) unit :=
  let! s := mget in
  let old := int_status (interrupt s) in
  advance_clock >>>
  ChangeLevel IntOn IntOff >>>
  check_all >>>
  ChangeLevel IntOff IntOn >>>
  let! s := mget in
  if yieldOnReturn (interrupt s) then
    mmodify (set_yieldOnReturn false) >>>
    mmodify (setStatus SystemMode) >>>
    thread_Yield >>>
    mmodify (setStatus old)
  else mreturn tt.

Definition SetLevel (now : IntStatus) : M (isys D H) IntStatus :=
  let! s := mget in
  let old := level (interrupt s) in
  ASSERT (bool_decide (now = IntOff) || negb (inHandler (interrupt s))) >>>
  ChangeLevel old now >>>
  (if bool_decide (now = IntOn) && bool_decide (old = IntOff) then OneTick else mreturn tt) >>>
  mreturn old.

Definition Enable : M (isys D H) unit := let! _ := SetLevel IntOn in mreturn tt.

Definition Idle : M (isys D H) unit :=
  mmodify (setStatus IdleMode) >>>
  let! b := CheckIfDue true in
  if b then
    check_all >>>
    mmodify (set_yieldOnReturn false) >>>
    mmodify (setStatus SystemMode)
  else Halt.

(** The destructor: every pending interrupt is deleted. *)
Definition Interrupt_destroy : M (isys D H) unit := mmodify (set_pending []).
End interrupt.

(** * What is expected of the handlers *)

(** Ticks below this leave room for every device delay in an int. *)
Definition ClockLimit : Z := 2 ^ 30.

Section laws.
Context {D H : Type}.
Implicit Types s : isys D H.

Definition insert_all (new q : list (Z * PendingInterrupt H)) : list (Z * PendingInterrupt H) :=
  fold_left (fun q e => q_sorted_insert q e.2 e.1) new q.

(** The pending list is sorted and keyed by the due times. *)
Record int_inv (q : list (Z * PendingInterrupt H)) : Prop := {
  inv_sorted : key_sorted q;
  inv_keys   : Forall (fun e => pi_when e.2 = e.1) q
}.

(** A step of a handler at time [t]: only future interrupts are added. *)
Record handler_step (s s' : isys D H) (new : list (Z * PendingInterrupt H)) : Prop := {
  hs_level   : level (interrupt s') = level (interrupt s);
  hs_in      : inHandler (interrupt s') = inHandler (interrupt s);
  hs_status  : int_status (interrupt s') = int_status (interrupt s);
  hs_now     : now s' = now s;
  hs_pending : pending (interrupt s') = insert_all new (pending (interrupt s));
  hs_future  : Forall (fun e => now s < e.1 /\ pi_when e.2 = e.1) new
}.

Class HardwareLaws `{!Hardware D H} : Prop := {
  handler_law : forall h a s,
    level (interrupt s) = IntOff -> inHandler (interrupt s) = true ->
    int_status (interrupt s) = SystemMode -> 0 <= now s < ClockLimit ->
    exists s' new, call_handler h a s = Ok (tt, s') /\ handler_step s s' new;
  DelayedLoad_law : forall s, exists d, machine_DelayedLoad 0 0 s = Ok (tt, set_dev d s);
  counters_law : forall s, exists c, machine_counters s = Ok (c, s)
}.
End laws.

(** * Lemmas *)
Section pending_lemmas.
Context {H : Type}.
Implicit Types q new : list (Z * PendingInterrupt H).

Lemma int_inv_insert q x k : int_inv q -> pi_when x = k -> int_inv (q_sorted_insert q x k).
Proof.
  intros [Hs Hk] Hx. split; [now apply q_sorted_insert_sorted|].
  rewrite q_sorted_insert_perm. now constructor.
Qed.

Lemma int_inv_tail e q : int_inv (e :: q) -> int_inv q.
Proof. intros [Hs Hk]. apply key_sorted_cons in Hs as [_ Hs]. inversion_clear Hk. now split. Qed.

Lemma int_inv_insert_all new q t :
  int_inv q -> Forall (fun e => t < e.1 /\ pi_when e.2 = e.1) new -> int_inv (insert_all new q).
Proof.
  intros Hq Hn. revert q Hq. induction Hn as [|e new [_ He] _ IH]; intros q Hq; [exact Hq|].
  apply IH. now apply int_inv_insert.
Qed.

(** The interrupts due at time [t], earliest first. *)
Definition due (t : Z) q : list (Z * PendingInterrupt H) := filter (fun e => e.1 <= t) q.

Lemma due_insert t q x k : t < k -> due t (q_sorted_insert q x k) = due t q.
Proof.
  intros Hk. unfold due. induction q as [|[k' y] q IH]; simpl.
  - rewrite filter_cons_False by (simpl; lia). reflexivity.
  - destruct (k <? k').
    + now rewrite filter_cons_False by (simpl; lia).
    + rewrite !filter_cons. case_decide; now rewrite IH.
Qed.

Lemma due_insert_all t new q :
  Forall (fun e => t < e.1 /\ pi_when e.2 = e.1) new -> due t (insert_all new q) = due t q.
Proof.
  intros Hn. revert q. induction Hn as [|e new [He _] _ IH]; intros q; [reflexivity|].
  simpl. rewrite IH. now apply due_insert.
Qed.

Lemma due_nil_head t e q : key_sorted (e :: q) -> t < e.1 -> due t (e :: q) = [].
Proof.
  intros Hs He. apply key_sorted_cons in Hs as [Hall _]. apply filter_none.
  constructor; [lia|]. eapply Forall_impl; [exact Hall|]. simpl. intros. lia.
Qed.

Lemma due_length t q : (length (due t q) <= length q)%nat.
Proof. apply length_filter. Qed.
End pending_lemmas.

Section check_lemmas.
Context {D H : Type} `{!Hardware D H} `{!HardwareLaws (D := D) (H := H)}.
Implicit Types s : isys D H.

(** The handlers of [l], one after the other, as CheckIfDue calls them. *)
Fixpoint fire_all (l : list (Z * PendingInterrupt H)) (old : MachineStatus) : M (isys D H) unit :=
  match l with
  | [] => mreturn tt
  | e :: r =>
      mmodify (fun s => set_pending (tail (pending (interrupt s))) s) >>>
      fire e.2 old >>> fire_all r old
  end.

(** The last round of the loop: the first interrupt, not due yet, is taken off
    and put back behind those of the same time. *)
Definition put_back s : isys D H :=
  match pending (interrupt s) with
  | [] => s
  | e :: r => set_pending (q_sorted_insert r e.2 e.1) s
  end.

(** The handler of [x] is called from [s], as a handler and in system mode, and
    leaves [s'] when the old status is back. *)
Definition handled (x : PendingInterrupt H) (old : MachineStatus) s s' : Prop :=
  exists d s1, machine_DelayedLoad 0 0 s = Ok (tt, set_dev d s) /\
    call_handler (pi_handler x) (pi_arg x) (setStatus SystemMode (set_inHandler true (set_dev d s))) = Ok (tt, s1) /\
    s' = set_inHandler false (setStatus old s1).

(** The interrupts of [l], taken off the pending list one by one. *)
Inductive handled_all (old : MachineStatus) : list (Z * PendingInterrupt H) -> isys D H -> isys D H -> Prop :=
  | handled_none s : handled_all old [] s s
  | handled_next e l s s1 s2 :
      handled e.2 old (set_pending (tail (pending (interrupt s))) s) s1 ->
      handled_all old l s1 s2 -> handled_all old (e :: l) s s2.

Lemma fire_spec x old s :
  level (interrupt s) = IntOff -> 0 <= now s < ClockLimit ->
  exists s' new, fire x old s = Ok (tt, s') /\ handled x old s s' /\
    level (interrupt s') = IntOff /\ inHandler (interrupt s') = false /\
    int_status (interrupt s') = old /\ now s' = now s /\
    pending (interrupt s') = insert_all new (pending (interrupt s)) /\
    Forall (fun e => now s < e.1 /\ pi_when e.2 = e.1) new.
Proof.
  intros Hl Hn. unfold fire. destruct (DelayedLoad_law s) as [d E0]. mstep_by E0.
  mstep_to tt (set_inHandler true (set_dev d s)).
  set (s1 := setStatus SystemMode (set_inHandler true (set_dev d s))). mstep_to tt s1.
  destruct (handler_law (pi_handler x) (pi_arg x) s1) as (s2 & new & E & [H1 H2 H3 H4 H5 H6]); auto.
  mstep_by E. mstep_to tt (setStatus old s2).
  exists (set_inHandler false (setStatus old s2)), new. split; [reflexivity|].
  split; [exists d, s2; auto|]. cbn. split; [rewrite H1; exact Hl|]. split; [reflexivity|]. split; [reflexivity|].
  split; [exact H4|]. split; [exact H5|exact H6].
Qed.

Lemma CheckIfDue_fire s e q :
  level (interrupt s) = IntOff -> pending (interrupt s) = e :: q -> e.1 <= now s ->
  int_status (interrupt s) <> IdleMode ->
  CheckIfDue false s =
    (fire e.2 (int_status (interrupt s)) >>> mreturn true) (set_pending q s).
Proof.
  intros Hl Hq He Hst. unfold CheckIfDue. mstep_to s s. rewrite Hl, Hq. destruct e as [w x].
  cbn [q_remove]. rewrite bool_decide_eq_true_2 by reflexivity. mstep_to tt s.
  mstep_to tt (set_pending q s). unfold now in He. cbn [negb andb fst] in *.
  destruct (Z.ltb_spec (totalTicks (stats s)) w); [lia|].
  mstep_to tt (set_pending q s). now rewrite bool_decide_eq_false_2.
Qed.

Lemma CheckIfDue_wait s :
  level (interrupt s) = IntOff -> due (now s) (pending (interrupt s)) = [] ->
  CheckIfDue false s = Ok (false, put_back s).
Proof.
  intros Hl Hd. unfold CheckIfDue, put_back. mstep_to s s. rewrite Hl.
  rewrite bool_decide_eq_true_2 by reflexivity. mstep_to tt s.
  destruct (pending (interrupt s)) as [|[w x] q] eqn:Hq; [reflexivity|].
  cbn [q_remove fst snd]. mstep_to tt (set_pending q s). unfold now in Hd. cbn [negb andb].
  destruct (Z.ltb_spec (totalTicks (stats s)) w) as [|Hge]; [reflexivity|].
  unfold due in Hd. rewrite filter_cons_True in Hd by exact Hge. discriminate.
Qed.

(** The loop fires exactly the interrupts that are due, in order, and stops. *)
Lemma check_loop l s n :
  level (interrupt s) = IntOff -> int_status (interrupt s) <> IdleMode ->
  int_inv (pending (interrupt s)) -> 0 <= now s < ClockLimit ->
  due (now s) (pending (interrupt s)) = l -> (length l < n)%nat ->
  exists s', fire_all l (int_status (interrupt s)) s = Ok (tt, s') /\
    mwhile n (CheckIfDue false) s = Ok (tt, put_back s') /\
    level (interrupt s') = IntOff /\ int_status (interrupt s') = int_status (interrupt s) /\
    now s' = now s /\ int_inv (pending (interrupt s')) /\
    due (now s) (pending (interrupt s')) = [].
Proof.
  revert s n. induction l as [|e l IH]; intros s n Hl Hst Hinv Hn Hd Hlen.
  - destruct n as [|n]; [inversion Hlen|]. exists s. split; [reflexivity|].
    cbn [mwhile]. mstep_by (CheckIfDue_wait s Hl Hd). split; [reflexivity|]. auto.
  - destruct n as [|n]; [inversion Hlen|].
    destruct (pending (interrupt s)) as [|e' q] eqn:Hq; [discriminate|].
    assert (He : e' = e /\ e.1 <= now s /\ due (now s) q = l).
    { destruct (Z_lt_le_dec (now s) e'.1) as [Hlt|Hle].
      - rewrite due_nil_head in Hd; [discriminate|apply Hinv|exact Hlt].
      - unfold due in Hd. rewrite filter_cons_True in Hd by exact Hle. injection Hd as -> Hd. auto. }
    destruct He as (-> & He & Hdq). cbn [fire_all mwhile].
    destruct (fire_spec e.2 (int_status (interrupt s)) (set_pending q s)) as
      (s1 & new & E & _ & L1 & I1 & S1 & N1 & P1 & F1); [exact Hl|exact Hn|].
    cbn in P1. change (now (set_pending q s)) with (now s) in N1, F1.
    assert (Hinv1 : int_inv (pending (interrupt s1))).
    { rewrite P1. eapply int_inv_insert_all; [eapply int_inv_tail, Hinv|exact F1]. }
    destruct (IH s1 n) as (s2 & E1 & E2 & L2 & S2 & N2 & I2 & D2).
    + exact L1.
    + now rewrite S1.
    + exact Hinv1.
    + now rewrite N1.
    + rewrite N1, P1, due_insert_all by exact F1. exact Hdq.
    + simpl in Hlen. lia.
    + exists s2. split; [|split].
      * assert (E0 : mmodify (fun s => set_pending (tail (pending (interrupt s))) s) s = Ok (tt, set_pending q s)).
        { unfold mmodify. now rewrite Hq. }
        mstep_by E0. mstep_by E. now rewrite S1 in E1.
      * assert (E0 : CheckIfDue false s = Ok (true, s1)).
        { rewrite (CheckIfDue_fire s e q) by assumption. now mstep_by E. }
        mstep_by E0. exact E2.
      * rewrite N1 in N2, D2. rewrite S1 in S2. auto.
Qed.

Lemma put_back_pending s :
  int_inv (pending (interrupt s)) ->
  int_inv (pending (interrupt (put_back s))) /\
  pending (interrupt (put_back s)) ≡ₚ pending (interrupt s).
Proof.
  intros Hi. unfold put_back. destruct (pending (interrupt s)) as [|[w x] q] eqn:E; [now rewrite E|].
  cbn. split; [|apply q_sorted_insert_perm].
  apply int_inv_insert; [eapply int_inv_tail, Hi|]. destruct Hi as [_ Hk]. now inversion_clear Hk.
Qed.
End check_lemmas.

(** * Idle mode *)
Section idle_lemmas.
Context {D H : Type} `{!Hardware D H} `{!HardwareLaws (D := D) (H := H)}.
Implicit Types s : isys D H.

Definition lone_timer (q : list (Z * PendingInterrupt H)) : bool :=
  match q with
  | [e] => bool_decide (pi_type e.2 = TimerInt)
  | _ => false
  end.

Lemma Halt_halts s : Halt s = Err Halted.
Proof. unfold Halt. destruct (counters_law s) as [c E]. now mstep_by E. Qed.

Lemma CheckIfDue_idle_stop adv s e :
  level (interrupt s) = IntOff -> int_status (interrupt s) = IdleMode ->
  pending (interrupt s) = [e] -> pi_type e.2 = TimerInt ->
  exists s', CheckIfDue adv s = Ok (false, s') /\ dev s' = dev s /\ (adv = false -> s' = put_back s).
Proof.
  intros Hl Hst Hq Ht. unfold CheckIfDue. mstep_to s s. rewrite Hl, Hst, Hq. destruct e as [w x].
  cbn [q_remove fst snd] in *. rewrite !bool_decide_eq_true_2 by (exact Ht || reflexivity).
  mstep_to tt s. mstep_to tt (set_pending [] s). cbn [andb].
  destruct (negb adv && (totalTicks (stats s) <? w)) eqn:E1.
  - eexists. do 2 (split; [reflexivity|]). intros _. unfold put_back. now rewrite Hq.
  - destruct (adv && (totalTicks (stats s) <? w))%bool eqn:E2; eexists; do 2 (split; [reflexivity|]); intros ->;
      [discriminate|]. unfold put_back. now rewrite Hq.
Qed.

(** The clock of an idle machine at the time of its first interrupt. *)
Definition advanced (w : Z) s : isys D H :=
  set_stats (if now s <? w then idle_until w (stats s) else stats s) s.

Lemma CheckIfDue_idle_fire (adv : bool) s e q :
  level (interrupt s) = IntOff -> int_status (interrupt s) = IdleMode ->
  pending (interrupt s) = e :: q -> lone_timer (e :: q) = false ->
  0 <= now s -> e.1 < ClockLimit -> now s < ClockLimit -> int_inv (e :: q) ->
  (adv = true \/ e.1 <= now s) ->
  exists s' new, CheckIfDue adv s = Ok (true, s') /\
    handled e.2 IdleMode (advanced e.1 (set_pending q s)) s' /\
    level (interrupt s') = IntOff /\ int_status (interrupt s') = IdleMode /\
    now s' = Z.max (now s) e.1 /\ pending (interrupt s') = insert_all new q /\
    Forall (fun x => now s' < x.1 /\ pi_when x.2 = x.1) new.
Proof.
  intros Hl Hst Hq Hlt H0 He Hn Hinv Hadv. unfold CheckIfDue. mstep_to s s. rewrite Hl, Hst, Hq.
  destruct e as [w x]. cbn [q_remove fst snd] in *. rewrite !bool_decide_eq_true_2 by reflexivity.
  mstep_to tt s. mstep_to tt (set_pending q s).
  assert (E1 : (negb adv && (totalTicks (stats s) <? w))%bool = false).
  { destruct Hadv as [->|Hle]; [reflexivity|]. unfold now in Hle.
    rewrite (proj2 (Z.ltb_ge _ _)) by exact Hle. apply andb_false_r. }
  rewrite E1.
  assert (E2 : (bool_decide (pi_type x = TimerInt) && match q with [] => true | _ => false end)%bool = false).
  { destruct q; [|apply andb_false_r]. cbn in Hlt. now rewrite Hlt. }
  cbn [andb]. rewrite E2.
  set (s1 := if (adv && (totalTicks (stats s) <? w))%bool
             then set_stats (idle_until w (stats s)) (set_pending q s) else set_pending q s).
  assert (Es : (if adv && (totalTicks (stats s) <? w)
                then mmodify (fun s0 : isys D H => set_stats (idle_until w (stats s0)) s0)
                else mreturn tt) (set_pending q s) = Ok (tt, s1)).
  { unfold s1. now destruct (adv && (totalTicks (stats s) <? w))%bool. }
  mstep_by Es.
  assert (N1 : now s1 = Z.max (now s) w).
  { unfold s1, now in *. destruct adv; cbn [andb negb] in *.
    - destruct (Z.ltb_spec (totalTicks (stats s)) w); cbn; lia.
    - bool_hyps. cbn. lia. }
  assert (P1 : pending (interrupt s1) = q) by (unfold s1; now destruct (adv && _)%bool).
  assert (A1 : advanced w (set_pending q s) = s1).
  { unfold s1, advanced, now in *. destruct adv; cbn [andb negb] in *.
    - destruct (totalTicks (stats s) <? w) eqn:Ew; cbn; rewrite Ew; now destruct s.
    - cbn. rewrite E1. now destruct s. }
  destruct (fire_spec x IdleMode s1) as (s2 & new & E & Hh & L2 & _ & S2 & N2 & P2 & F2).
  { unfold s1. now destruct (adv && _)%bool. }
  { rewrite N1. lia. }
  exists s2, new. split; [now mstep_by E|]. split; [now rewrite A1|]. split; [exact L2|]. split; [exact S2|].
  split; [congruence|]. split; [now rewrite P2, P1|]. now rewrite N2.
Qed.

(** In idle mode the loop handles what is due and stops too, at the latest when
    the timer is alone: [l] has been handled, in the order of the list. *)
Lemma check_loop_idle s n :
  level (interrupt s) = IntOff -> int_status (interrupt s) = IdleMode ->
  int_inv (pending (interrupt s)) -> 0 <= now s < ClockLimit ->
  (length (due (now s) (pending (interrupt s))) < n)%nat ->
  exists l s', mwhile n (CheckIfDue false) s = Ok (tt, put_back s') /\
    handled_all IdleMode l s s' /\
    level (interrupt s') = IntOff /\ now s' = now s /\ int_inv (pending (interrupt s')) /\
    due (now s) (pending (interrupt s)) = l ++ due (now s) (pending (interrupt s')) /\
    (due (now s) (pending (interrupt s')) = [] \/ lone_timer (pending (interrupt s')) = true).
Proof.
  revert s. induction n as [|n IH]; intros s Hl Hst Hinv Hn Hlen; [inversion Hlen|]. cbn [mwhile].
  destruct (due (now s) (pending (interrupt s))) as [|e0 l0] eqn:Hd.
  { exists [], s. mstep_by (CheckIfDue_wait s Hl Hd). rewrite Hd.
    split; [reflexivity|]. split; [constructor|]. auto 6. }
  destruct (pending (interrupt s)) as [|e q] eqn:Hq; [discriminate|].
  assert (He : e.1 <= now s).
  { destruct (Z_lt_le_dec (now s) e.1) as [Hlt|Hle]; [|exact Hle].
    rewrite due_nil_head in Hd; [discriminate|apply Hinv|exact Hlt]. }
  destruct (lone_timer (e :: q)) eqn:Hlt.
  - destruct q as [|]; [|discriminate]. pose proof Hlt as Ht. cbn in Ht. apply bool_decide_eq_true_1 in Ht.
    destruct (CheckIfDue_idle_stop false s e Hl Hst Hq Ht) as (s' & E & _ & P).
    exists [], s. mstep_by E. rewrite P, Hq, Hd by reflexivity. split; [reflexivity|]. split; [constructor|]. auto 6.
  - destruct (CheckIfDue_idle_fire false s e q Hl Hst Hq Hlt) as (s1 & new & E & Hh & L & S & N & P & F);
      auto; try lia. rewrite Z.max_l in N by lia. rewrite N in F.
    unfold due in Hd. rewrite filter_cons_True in Hd by exact He. injection Hd as <- Hd.
    assert (Hd1 : due (now s) (pending (interrupt s1)) = l0) by (rewrite P, due_insert_all by exact F; exact Hd).
    assert (A1 : advanced e.1 (set_pending q s) = set_pending q s).
    { unfold advanced. rewrite (proj2 (Z.ltb_ge _ _)) by exact He. reflexivity. }
    mstep_by E. destruct (IH s1) as (l & s' & E' & Ha & L' & N' & I' & D' & T'); auto.
    + rewrite P. eapply int_inv_insert_all; [eapply int_inv_tail, Hinv|exact F].
    + now rewrite N.
    + rewrite N, Hd1. simpl in Hlen. lia.
    + exists (e :: l), s'. rewrite N in *. split; [exact E'|]. split; [|rewrite <- app_comm_cons, <- D', Hd1; auto].
      econstructor; [|exact Ha]. rewrite Hq. cbn [tail]. now rewrite <- A1.
Qed.
End idle_lemmas.

(** The loop of due interrupts when the pending list is known, whatever the
    handlers do. *)
Section idle_lemmas.
Context {D H : Type} `{!Hardware D H}.
Hypothesis no_delayed_load : forall s : isys D H, machine_DelayedLoad 0 0 s = Ok (tt, s).

(** The next interrupt lies ahead and stays first when it is put back. *)
Definition next_ahead (s : isys D H) : Prop :=
  match pending (interrupt s) with
  | [] => True
  | e :: q => now s < e.1 /\ q_sorted_insert q e.2 e.1 = e :: q
  end.

Lemma check_none n (s : isys D H) :
  level (interrupt s) = IntOff -> next_ahead s -> mwhile (S n) (CheckIfDue false) s = Ok (tt, s).
Proof.
  destruct s as [[lv pe ih yr st] u d]. unfold next_ahead, now. cbn [interrupt stats level pending]. intros -> Hp.
  cbn [mwhile]. rewrite (mthen_step _ _ _ false (mkIsys (mkInterrupt IntOff pe ih yr st) u d)); [reflexivity|].
  unfold CheckIfDue, mthen, mget. cbn. destruct pe as [|[w x] q]; [reflexivity|]. destruct Hp as [Hw Hq].
  cbn in Hw, Hq |- *. unfold mthen, mmodify. cbn. rewrite (proj2 (Z.ltb_lt _ _) Hw).
  unfold insert_pending, mmodify, set_pending. cbn. now rewrite Hq.
Qed.

(** The system as the handler of a pending interrupt finds it. *)
Definition at_handler (q : list (Z * PendingInterrupt H)) (s : isys D H) : isys D H :=
  mkIsys (mkInterrupt (level (interrupt s)) q true (yieldOnReturn (interrupt s)) SystemMode) (stats s) (dev s).

(** The first interrupt [x] is due: its handler is called. *)
Lemma CheckIfDue_fires adv (s s2 : isys D H) w x q :
  level (interrupt s) = IntOff -> pending (interrupt s) = (w, x) :: q -> pi_type x <> TimerInt -> w <= now s ->
  call_handler (pi_handler x) (pi_arg x) (at_handler q s) = Ok (tt, s2) ->
  CheckIfDue adv s = Ok (true, set_inHandler false (setStatus (int_status (interrupt s)) s2)).
Proof.
  destruct s as [[lv pe ih yr st] u d]. unfold now, at_handler.
  cbn [interrupt stats dev level pending yieldOnReturn int_status]. intros -> -> Ht Hw EH.
  set (s0 := mkIsys (mkInterrupt IntOff q ih yr st) u d : isys D H).
  transitivity ((fire x st >>> mreturn true) s0).
  - unfold CheckIfDue. unfold mthen at 1, mget. cbn. unfold mthen at 1 2, mmodify. cbn.
    rewrite (proj2 (Z.ltb_ge _ _) Hw), !andb_false_r. unfold mthen at 1, mreturn.
    rewrite (bool_decide_eq_false_2 (pi_type x = TimerInt) Ht), andb_false_r. reflexivity.
  - rewrite (mthen_step _ _ _ tt (set_inHandler false (setStatus st s2))); [reflexivity|]. unfold fire.
    mstep_by (no_delayed_load s0). mstep_to tt (set_inHandler true s0).
    mstep_to tt (setStatus SystemMode (set_inHandler true s0)). mstep_by EH. reflexivity.
Qed.

(** Idle moves the clock to the first interrupt [x], due at [w], calls its
    handler and then those that are due by now. *)
Lemma Idle_fires (s s2 s3 : isys D H) w x q :
  level (interrupt s) = IntOff -> pending (interrupt s) = (w, x) :: q -> pi_type x <> TimerInt -> now s < w ->
  call_handler (pi_handler x) (pi_arg x)
    (mkIsys (mkInterrupt IntOff q true (yieldOnReturn (interrupt s)) SystemMode)
       (idle_until w (stats s)) (dev s)) = Ok (tt, s2) ->
  mwhile (S (length (pending (interrupt s2)))) (CheckIfDue false) (set_inHandler false (setStatus IdleMode s2)) = Ok (tt, s3) ->
  Idle s = Ok (tt, setStatus SystemMode (set_yieldOnReturn false s3)).
Proof.
  destruct s as [[lv pe ih yr st] u d]. unfold now. cbn [interrupt stats dev level pending yieldOnReturn].
  intros -> -> Ht Hw EH EC.
  set (s0 := setStatus IdleMode (mkIsys (mkInterrupt IntOff ((w, x) :: q) ih yr st) u d)).
  set (s0' := mkIsys (mkInterrupt IntOff q ih yr IdleMode) (idle_until w u) d : isys D H).
  assert (EF : CheckIfDue true s0 = Ok (true, set_inHandler false (setStatus IdleMode s2))).
  { assert (E1 : CheckIfDue true s0 = (fire x IdleMode >>> mreturn true) s0').
    { unfold CheckIfDue. unfold mthen at 1, mget. cbn. unfold mthen at 1. cbn.
      rewrite (proj2 (Z.ltb_lt _ _) Hw). destruct x as [h a wh ty]. cbn in Ht. now destruct ty. }
    rewrite E1. rewrite (mthen_step _ _ _ tt (set_inHandler false (setStatus IdleMode s2))); [reflexivity|]. unfold fire.
    mstep_by (no_delayed_load s0'). mstep_to tt (set_inHandler true s0').
    mstep_to tt (setStatus SystemMode (set_inHandler true s0')). mstep_by EH. reflexivity. }
  unfold Idle. mstep_to tt s0. mstep_by EF.
  assert (EC' : check_all (set_inHandler false (setStatus IdleMode s2)) = Ok (tt, s3)) by exact EC.
  now mstep_by EC'.
Qed.

Lemma Idle_first (s s2 : isys D H) w x q :
  level (interrupt s) = IntOff -> pending (interrupt s) = (w, x) :: q -> pi_type x <> TimerInt -> now s < w ->
  call_handler (pi_handler x) (pi_arg x)
    (mkIsys (mkInterrupt IntOff q true (yieldOnReturn (interrupt s)) SystemMode)
       (idle_until w (stats s)) (dev s)) = Ok (tt, s2) ->
  level (interrupt s2) = IntOff -> next_ahead s2 ->
  Idle s = Ok (tt, mkIsys (mkInterrupt IntOff (pending (interrupt s2)) false false SystemMode)
                     (stats s2) (dev s2)).
Proof.
  intros Hl Hp Ht Hw EH Hl2 Hp2. rewrite (Idle_fires s s2 _ w x q Hl Hp Ht Hw EH (check_none _ (set_inHandler false (setStatus IdleMode s2)) Hl2 Hp2)).
  destruct s2 as [[lv2 pe2 ih2 yr2 st2] u2 d2]. cbn in Hl2 |- *. now subst lv2.
Qed.
End idle_lemmas.

(** [SetLevel] returns the old level; it stops when a handler tries to
    enable interrupts, and time advances (by [OneTick]) exactly when it
    turns interrupts from off to on. *)
Theorem SetLevel_cases {D H : Type} `{!Hardware D H} (s : isys D H) (new : IntStatus) :
  let old := level (interrupt s) in
  SetLevel new s =
    if bool_decide (new = IntOn) && inHandler (interrupt s) then Err AssertFailed
    else if bool_decide (new = IntOn) && bool_decide (old = IntOff)
    then (OneTick >>> mreturn old) (set_level IntOn s)
    else Ok (old, set_level new s).
Proof.
  cbv zeta. unfold SetLevel. mstep_to s s.
  destruct new; cbn; [now mstep_to tt s|].
  destruct (inHandler (interrupt s)); cbn; [reflexivity|]. mstep_to tt s. mstep_to tt (set_level IntOn s).
  destruct (level (interrupt s)); reflexivity.
Qed.

(** * Lemmas: a tick of a system with at most one pending interrupt *)
Section tick_lemmas.
Context {D H : Type} `{!Hardware D H}.
Hypothesis no_delayed_load : forall s : isys D H, machine_DelayedLoad 0 0 s = Ok (tt, s).
Implicit Types s : isys D H.

(** The clock after a tick in the kernel. *)
Definition kernel_ticked s : Statistics := add_systemTicks SystemTick (stats s).

Definition none_due s : Prop :=
  match pending (interrupt s) with
  | [] => True
  | [e] => totalTicks (kernel_ticked s) < e.1
  | _ => False
  end.

(** What OneTick does once the due handlers have run. *)
Definition after_handlers s : res (unit * isys D H) :=
  if yieldOnReturn (interrupt s)
  then (thread_Yield >>> mmodify (setStatus SystemMode)) (set_yieldOnReturn false s)
  else Ok (tt, s).

Lemma CheckIfDue_none n s :
  level (interrupt s) = IntOff ->
  match pending (interrupt s) with [] => True | [e] => now s < e.1 | _ => False end ->
  mwhile (S n) (CheckIfDue false) s = Ok (tt, s).
Proof.
  intros Hl Hp. apply check_none; [exact Hl|]. unfold next_ahead.
  destruct (pending (interrupt s)) as [|[w x] [|]]; [exact I|now split|contradiction].
Qed.

Lemma OneTick_quiet s :
  int_status (interrupt s) = SystemMode -> yieldOnReturn (interrupt s) = false -> none_due s ->
  OneTick s = Ok (tt, set_level IntOn (set_stats (kernel_ticked s) s)).
Proof.
  intros Hst Hy Hq. unfold OneTick. mstep_to s s.
  set (s1 := set_stats (kernel_ticked s) s).
  assert (Ea : advance_clock s = Ok (tt, s1)) by (unfold advance_clock; mstep_to s s; now rewrite Hst).
  mstep_by Ea. mstep_to tt (set_level IntOff s1).
  assert (Ec : check_all (set_level IntOff s1) = Ok (tt, set_level IntOff s1)).
  { unfold check_all. mstep_to (set_level IntOff s1) (set_level IntOff s1). apply CheckIfDue_none; [reflexivity|].
    unfold none_due in Hq. cbn. destruct (pending (interrupt s)) as [|e [|]]; auto. }
  mstep_by Ec. change (ChangeLevel IntOff IntOn (set_level IntOff s1)) with (Ok (tt, set_level IntOn s1)).
  rewrite (mthen_step _ _ _ tt (set_level IntOn s1)) by reflexivity.
  mstep_to (set_level IntOn s1) (set_level IntOn s1).
  change (yieldOnReturn (interrupt (set_level IntOn s1))) with (yieldOnReturn (interrupt s)). now rewrite Hy.
Qed.

Lemma OneTick_due s s2 w x :
  int_status (interrupt s) = SystemMode -> pending (interrupt s) = [(w, x)] -> w <= totalTicks (kernel_ticked s) ->
  call_handler (pi_handler x) (pi_arg x)
    (mkIsys (mkInterrupt IntOff [] true (yieldOnReturn (interrupt s)) SystemMode) (kernel_ticked s) (dev s)) = Ok (tt, s2) ->
  level (interrupt s2) = IntOff ->
  match pending (interrupt s2) with [] => True | [e] => now s2 < e.1 | _ => False end ->
  OneTick s = after_handlers (mkIsys (mkInterrupt IntOn (pending (interrupt s2)) false (yieldOnReturn (interrupt s2)) SystemMode)
                                (stats s2) (dev s2)).
Proof.
  destruct s as [[lv pe ih yr st] u d]. cbn [interrupt stats dev level pending yieldOnReturn int_status].
  unfold kernel_ticked. cbn [stats]. intros -> -> Hw EH Hl2 Hp2.
  set (s0 := mkIsys (mkInterrupt IntOff [(w, x)] ih yr SystemMode) (add_systemTicks SystemTick u) d : isys D H).
  set (s0' := mkIsys (mkInterrupt IntOff [] ih yr SystemMode) (add_systemTicks SystemTick u) d : isys D H).
  set (s3 := set_inHandler false (setStatus SystemMode s2)).
  assert (EF : CheckIfDue false s0 = Ok (true, s3)).
  { assert (E1 : CheckIfDue false s0 = (fire x SystemMode >>> mreturn true) s0').
    { unfold CheckIfDue, mthen at 1, mget. cbn. unfold mthen at 1 2, mmodify. cbn [s0 set_pending interrupt pending].
      cbn in Hw |- *. now rewrite (proj2 (Z.ltb_ge _ _) Hw). }
    rewrite E1. rewrite (mthen_step _ _ _ tt s3); [reflexivity|]. unfold fire.
    mstep_by (no_delayed_load s0'). mstep_to tt (set_inHandler true s0').
    mstep_to tt (setStatus SystemMode (set_inHandler true s0')). mstep_by EH. reflexivity. }
  assert (EC : check_all s0 = Ok (tt, s3)).
  { unfold check_all. mstep_to s0 s0. cbn [length s0 interrupt pending]. cbn [mwhile]. mstep_by EF.
    apply (CheckIfDue_none 0 s3 Hl2 Hp2). }
  unfold OneTick, mthen at 1, mget. rewrite (mthen_step _ _ _ tt (mkIsys (mkInterrupt lv [(w, x)] ih yr SystemMode) (add_systemTicks SystemTick u) d)) by reflexivity.
  mstep_to tt s0. mstep_by EC. mstep_to tt (set_level IntOn s3). mstep_to (set_level IntOn s3) (set_level IntOn s3).
  unfold after_handlers. destruct s2 as [[lv2 pe2 ih2 yr2 st2] u2 d2]. cbn in Hl2 |- *. destruct yr2; reflexivity.
Qed.

(** Interrupts are switched on again in a none_due system. *)
Lemma SetLevel_quiet s l :
  int_status (interrupt s) = SystemMode -> yieldOnReturn (interrupt s) = false -> inHandler (interrupt s) = false ->
  none_due s ->
  SetLevel l (set_level IntOff s) =
    Ok (IntOff, match l with IntOn => set_level IntOn (set_stats (kernel_ticked s) s) | IntOff => set_level IntOff s end).
Proof.
  intros Hst Hy Hi Hq. rewrite SetLevel_cases. destruct l; [reflexivity|].
  change (inHandler (interrupt (set_level IntOff s))) with (inHandler (interrupt s)). rewrite Hi. cbn [andb bool_decide decide_rel].
  change (bool_decide (IntOn = IntOn)) with true. change (bool_decide (level (interrupt (set_level IntOff s)) = IntOff)) with true.
  cbn [andb]. rewrite (mthen_step _ _ _ tt (set_level IntOn (set_stats (kernel_ticked s) s))); [reflexivity|].
  rewrite OneTick_quiet; auto.
Qed.
End tick_lemmas.

(** * Properties *)

(** C26: One tick advances the clock by its step (10 in the kernel, 1 in user
    mode) and calls the handlers of exactly the interrupts that are then due,
    in order of time, with interrupts off; the loop ends, nothing that is
    left is due, the pending list stays sorted, and interrupts are on again.
    If a handler asked for it, the thread then yields in system mode and the
    old status comes back. *)
Theorem OneTick_fires_due {D H : Type} `{!Hardware D H} `{!HardwareLaws (D := D) (H := H)}
    (s : isys D H) :
  int_inv (pending (interrupt s)) -> int_status (interrupt s) <> IdleMode ->
  0 <= now s < ClockLimit - SystemTick ->
  let st := int_status (interrupt s) in
  let t := now s + (if bool_decide (st = SystemMode) then SystemTick else UserTick) in
  exists s0 s1,
    advance_clock s = Ok (tt, s0) /\ now s0 = t /\
    fire_all (due t (pending (interrupt s))) st (set_level IntOff s0) = Ok (tt, s1) /\
    now s1 = t /\ int_inv (pending (interrupt s1)) /\
    Forall (fun e => t < e.1) (pending (interrupt s1)) /\
    let s2 := set_level IntOn (put_back s1) in
    OneTick s =
      if yieldOnReturn (interrupt s2)
      then (thread_Yield >>> mmodify (setStatus st)) (setStatus SystemMode (set_yieldOnReturn false s2))
      else Ok (tt, s2).
Proof.
  intros Hinv Hst Hn st t. unfold ClockLimit in Hn.
  assert (Ea : exists s0, advance_clock s = Ok (tt, s0) /\ now s0 = t /\ interrupt s0 = interrupt s).
  { unfold advance_clock, mthen, mget, t, now, SystemTick, UserTick in *. fold st.
    destruct (bool_decide (st = SystemMode)); eexists; (split; [reflexivity|]); cbn;
      (split; [apply i32_id; unfold is_i32, SystemTick, UserTick; lia|reflexivity]). }
  destruct Ea as (s0 & Ea & Nt & Ei). exists s0.
  assert (Hl : level (interrupt (set_level IntOff s0)) = IntOff) by reflexivity.
  destruct (check_loop (due t (pending (interrupt s))) (set_level IntOff s0)
              (S (length (pending (interrupt s))))) as (s1 & E1 & E2 & L1 & S1 & N1 & I1 & D1); auto.
  - cbn. now rewrite Ei.
  - cbn. now rewrite Ei.
  - change (now (set_level IntOff s0)) with (now s0). rewrite Nt. subst t.
    unfold ClockLimit, SystemTick, UserTick in *. destruct (bool_decide _); lia.
  - change (now (set_level IntOff s0)) with (now s0). rewrite Nt. cbn. now rewrite Ei.
  - pose proof (due_length t (pending (interrupt s))). lia.
  - cbn in E1, S1. rewrite Ei in E1, S1. fold st in E1, S1.
    change (now (set_level IntOff s0)) with (now s0) in N1, D1. rewrite Nt in N1, D1.
    exists s1. do 5 (split; [assumption|]). split.
    + apply Forall_forall. intros e He. destruct (Z_lt_le_dec t e.1); [assumption|exfalso].
      assert (e ∈ due t (pending (interrupt s1))) as Hin by (apply list_elem_of_filter; auto).
      rewrite D1 in Hin. inversion Hin.
    + cbv zeta. unfold OneTick. mstep_to s s. mstep_by Ea. mstep_to tt (set_level IntOff s0).
      assert (Ec : check_all (set_level IntOff s0) = Ok (tt, put_back s1)).
      { unfold check_all. mstep_to (set_level IntOff s0) (set_level IntOff s0). cbn [interrupt set_level set_interrupt pending].
        rewrite Ei. exact E2. }
      mstep_by Ec. mstep_to tt (set_level IntOn (put_back s1)).
      mstep_to (set_level IntOn (put_back s1)) (set_level IntOn (put_back s1)).
      destruct (yieldOnReturn _); reflexivity.
Qed.


(** * A concrete run: a disk and a console interrupt, and handlers that count *)
#[local] Instance counting_hardware : Hardware Z Z := {
  call_handler h a := mmodify (fun s => set_dev (dev s + h) s);
  machine_DelayedLoad _ _ := mreturn tt;
  thread_Yield := mreturn tt;
  machine_counters := mreturn (0, 0)
}.
#[local] Instance counting_laws : HardwareLaws (D := Z) (H := Z).
Proof.
  split.
  - intros h a s _ _ _ _. eexists _, []. split; [reflexivity|]. split; reflexivity || constructor.
  - intros s. exists (dev s). now destruct s.
  - intros s. now exists (0, 0).
Defined.

Definition waiting_isys : isys Z Z :=
  mkIsys (mkInterrupt IntOff [(30, mkPendingInterrupt 1 0 30 DiskInt); (30, mkPendingInterrupt 10 0 30 ConsoleReadInt);
                              (50, mkPendingInterrupt 100 0 50 TimerInt)] false false SystemMode)
    Statistics_Statistics 0.


Example Idle_counts : match Idle waiting_isys with Ok (_, s) => dev s | Err _ => 0 end = 11.
Proof. reflexivity. Qed.
