(* ===== verification/TimerDev.v ===== *)
(** machine/timer.h, machine/timer.cc and TimerInterruptHandler of
    threads/system.cc: the time-slice device on top of Interrupt.v.

    [TimerSys] is the part of the system these routines touch: the Timer
    object, the time-slice counter of the current thread and the state of the
    host's random number generator.  [rand n] is the n-th number that Random()
    returns.  What a yield does is left open ([yield]). *)
From Stdlib Require Import ZArith Lia.
From stdpp Require Import base option list.
From S2P Require Import Prelude CList Stats Interrupt.

Local Open Scope Z_scope.

(** Random(), the C library's rand: a non-negative int. *)
Class HostRandom := {
  rand : nat -> Z;
  rand_range : forall n, 0 <= rand n < 2 ^ 31
}.

Inductive timer_handler := TimerHandler.

Record Timer := mkTimer {
  randomize   : bool;
  timer_arg   : Z
}.

Record TimerSys := mkTimerSys {
  the_timer   : Timer;
  timeSlice   : Z;
  rand_calls  : nat
}.

Abbreviation tsys := (isys TimerSys timer_handler).

Section timer.
Context `{!HostRandom}.

Definition Random : M tsys Z := fun s =>
  let d := dev s in
  Ok (rand (rand_calls d), set_dev (mkTimerSys (the_timer d) (timeSlice d) (S (rand_calls d))) s).

Definition set_timeSlice (ts : Z) : M tsys unit :=
  mmodify (fun s => set_dev (mkTimerSys (the_timer (dev s)) ts (rand_calls (dev s))) s).

Definition TimeOfNextInterrupt : M tsys Z :=
  let! s := mget in
  if randomize (the_timer (dev s)) then
    let! r := Random in mreturn (1 + Z.rem r (TimerTicks * 2))
  else mreturn TimerTicks.

Definition TimerInterruptHandler (dummy : Z) : M tsys unit :=
  let! s := mget in
  let ts := Z.rem (timeSlice (dev s) + 1) 10 in
  set_timeSlice ts >>>
  let! st := getStatus in
  if negb (bool_decide (st = IdleMode)) && (ts =? 5) then YieldOnReturn else mreturn tt.

Definition TimerExpired : M tsys unit :=
  let! t := TimeOfNextInterrupt in
  Schedule TimerHandler 0 t TimerInt >>>
  let! s := mget in
  TimerInterruptHandler (timer_arg (the_timer (dev s))).

(** Timer::Timer; the object's address is not used. *)
Definition Timer_Timer (callArg : Z) (doRandom : bool) : M tsys unit :=
  mmodify (fun s => set_dev (mkTimerSys (mkTimer doRandom callArg) (timeSlice (dev s)) (rand_calls (dev s))) s) >>>
  let! t := TimeOfNextInterrupt in
  Schedule TimerHandler 0 t TimerInt.

(** The threads build: the timer is the only device and there is no machine. *)
#[local] Instance timer_hardware (yield : M tsys unit) : Hardware TimerSys timer_handler := {
  call_handler h arg := match h with TimerHandler => TimerExpired end;
  machine_DelayedLoad _ _ := mreturn tt;
  thread_Yield := yield;
  machine_counters := mreturn (0, 0)
}.

Lemma TimeOfNextInterrupt_spec s :
  exists t n, TimeOfNextInterrupt s =
      Ok (t, set_dev (mkTimerSys (the_timer (dev s)) (timeSlice (dev s)) n) s) /\
    1 <= t <= 2 * TimerTicks /\ (randomize (the_timer (dev s)) = false -> t = TimerTicks).
Proof.
  unfold TimeOfNextInterrupt. unfold mthen at 1, mget. destruct (randomize (the_timer (dev s))).
  - exists (1 + Z.rem (rand (rand_calls (dev s))) (TimerTicks * 2)), (S (rand_calls (dev s))).
    split; [reflexivity|]. split; [|discriminate].
    pose proof (rand_range (rand_calls (dev s))). unfold TimerTicks. rewrite Z.rem_mod_nonneg by lia.
    pose proof (Z.mod_pos_bound (rand (rand_calls (dev s))) (30 * 2)). lia.
  - exists TimerTicks, (rand_calls (dev s)). split; [|split; [unfold TimerTicks; lia|reflexivity]].
    unfold mreturn. destruct s as [i t [tm sl n]]. reflexivity.
Qed.

(** One expiration, from the handler's point of view. *)
Lemma TimerExpired_spec s :
  inHandler (interrupt s) = true -> int_status (interrupt s) = SystemMode ->
  0 <= now s < ClockLimit ->
  exists t s', 1 <= t <= 2 * TimerTicks /\ TimerExpired s = Ok (tt, s') /\
    (randomize (the_timer (dev s)) = false -> t = TimerTicks) /\
    handler_step s s' [(now s + t, mkPendingInterrupt TimerHandler 0 (now s + t) TimerInt)] /\
    timeSlice (dev s') = Z.rem (timeSlice (dev s) + 1) 10 /\
    the_timer (dev s') = the_timer (dev s) /\
    yieldOnReturn (interrupt s') =
      (yieldOnReturn (interrupt s) || (Z.rem (timeSlice (dev s) + 1) 10 =? 5))%bool.
Proof.
  intros Hin Hst Hn. destruct (TimeOfNextInterrupt_spec s) as (t & n & E & Ht & Hr).
  exists t. unfold TimerTicks in Ht.
  set (s1 := set_dev (mkTimerSys (the_timer (dev s)) (timeSlice (dev s)) n) s) in E.
  set (x := mkPendingInterrupt TimerHandler 0 (now s + t) TimerInt).
  set (s2 := set_pending (q_sorted_insert (pending (interrupt s1)) x (now s + t)) s1).
  assert (Es : Schedule TimerHandler 0 t TimerInt s1 = Ok (tt, s2)).
  { unfold Schedule. mstep_to s1 s1. change (totalTicks (stats s1)) with (now s).
    rewrite i32_id by (unfold is_i32, ClockLimit in *; lia).
    rewrite (proj2 (Z.ltb_lt 0 t)) by lia. reflexivity. }
  set (s3 := set_dev (mkTimerSys (the_timer (dev s)) (Z.rem (timeSlice (dev s) + 1) 10) n) s2).
  set (s4 := if Z.rem (timeSlice (dev s) + 1) 10 =? 5 then set_yieldOnReturn true s3 else s3).
  exists s4. split; [unfold TimerTicks; lia|]. split.
  - unfold TimerExpired. mstep_by E. mstep_by Es. mstep_to s2 s2.
    unfold TimerInterruptHandler. mstep_to s2 s2. change (timeSlice (dev s2)) with (timeSlice (dev s)).
    mstep_to tt s3. unfold getStatus. unfold mthen at 1 2, mget. cbv beta iota. cbn [mreturn].
    change (int_status (interrupt s3)) with (int_status (interrupt s)). rewrite Hst. cbn [negb andb bool_decide decide_rel].
    rewrite bool_decide_eq_false_2 by discriminate. cbn [negb andb]. unfold s4.
    destruct (Z.rem (timeSlice (dev s) + 1) 10 =? 5); [|reflexivity]. unfold YieldOnReturn. mstep_to s3 s3.
    change (inHandler (interrupt s3)) with (inHandler (interrupt s)). rewrite Hin. reflexivity.
  - split; [exact Hr|]. unfold s4. split.
    + destruct (Z.rem (timeSlice (dev s) + 1) 10 =? 5); split; try reflexivity; repeat constructor; cbn; lia.
    + destruct (Z.rem (timeSlice (dev s) + 1) 10 =? 5); cbn; rewrite ?orb_true_r, ?orb_false_r; auto.
Qed.

#[local] Instance timer_laws (yield : M tsys unit) :
  HardwareLaws (Hardware0 := timer_hardware yield).
Proof.
  split.
  - intros [] a s _ Hin Hst Hn. destruct (TimerExpired_spec s Hin Hst Hn) as (t & s' & _ & E & _ & Hs & _).
    eauto.
  - intros s. exists (dev s). destruct s. reflexivity.
  - intros s. now exists (0, 0).
Qed.
End timer.

(** * Properties *)

(** Each expiration schedules the next one (30 ticks later, or 1 to 60
    when randomised), touches nothing else of the interrupt state, and asks
    for a context switch on exactly one expiration in ten. *)
Theorem TimerExpired_period `{!HostRandom} (s : tsys) :
  inHandler (interrupt s) = true -> int_status (interrupt s) = SystemMode ->
  0 <= now s < ClockLimit -> 0 <= timeSlice (dev s) < 10 ->
  exists t s', TimerExpired s = Ok (tt, s') /\ 1 <= t <= 2 * TimerTicks /\
    (randomize (the_timer (dev s)) = false -> t = TimerTicks) /\
    handler_step s s' [(now s + t, mkPendingInterrupt TimerHandler 0 (now s + t) TimerInt)] /\
    timeSlice (dev s') = (timeSlice (dev s) + 1) mod 10 /\
    yieldOnReturn (interrupt s') = (yieldOnReturn (interrupt s) || (timeSlice (dev s) =? 4))%bool.
Proof.
  intros Hin Hst Hn Hts. destruct (TimerExpired_spec s Hin Hst Hn) as (t & s' & Ht & E & Hr & Hs & Hsl & _ & Hy).
  rewrite Z.rem_mod_nonneg in Hsl, Hy by lia.
  exists t, s'. do 5 (split; [assumption|]). rewrite Hy. f_equal.
  destruct (Z.eqb_spec (timeSlice (dev s)) 4) as [->|Hne]; [reflexivity|].
  apply Z.eqb_neq. destruct (Z.eq_dec (timeSlice (dev s)) 9) as [->|]; [discriminate|].
  rewrite Z.mod_small; lia.
Qed.

(** * Concrete runs: a generator that always returns 41, a timer due at 30. *)
#[local] Instance sample_random : HostRandom.
Proof. refine {| rand := fun _ => 41 |}. lia. Defined.

Definition timer_pending (t : Z) : Z * PendingInterrupt timer_handler :=
  (t, mkPendingInterrupt TimerHandler 0 t TimerInt).
Definition sample_tsys (clock : Z) (q : list (Z * PendingInterrupt timer_handler))
    (l : IntStatus) (inh : bool) : tsys :=
  mkIsys (mkInterrupt l q inh false SystemMode)
    (mkStatistics clock 0 0 0 0 0 0 0 0 0 0) (mkTimerSys (mkTimer false 0) 4 0).

Lemma timer_pending_inv t : int_inv [timer_pending t].
Proof. split; repeat constructor. Defined.

Lemma TimerExpired_period_witness :
  exists s', TimerExpired (sample_tsys 30 [] IntOff true) = Ok (tt, s') /\
             yieldOnReturn (interrupt s') = true.
Proof.
  destruct (TimerExpired_period (sample_tsys 30 [] IntOff true)) as (t & s' & E & _ & _ & _ & _ & Hy);
    [reflexivity|reflexivity|cbn; unfold ClockLimit; lia|cbn; lia|].
  exists s'. split; [exact E|]. rewrite Hy. reflexivity.
Defined.

Lemma OneTick_fires_due_witness :
  exists s0 s1, advance_clock (sample_tsys 25 [timer_pending 30] IntOn false) = Ok (tt, s0) /\
    @fire_all _ _ (timer_hardware (mreturn tt)) [timer_pending 30] SystemMode (set_level IntOff s0) = Ok (tt, s1) /\
    now s1 = 35.
Proof.
  destruct (@OneTick_fires_due _ _ (timer_hardware (mreturn tt)) (timer_laws (mreturn tt))
              (sample_tsys 25 [timer_pending 30] IntOn false)) as (s0 & s1 & E0 & _ & E1 & N1 & _).
  - apply timer_pending_inv.
  - discriminate.
  - cbn. unfold ClockLimit, SystemTick. lia.
  - exists s0, s1. split; [exact E0|]. split; [exact E1|exact N1].
Defined.

