(* ===== verification/HostFile.v ===== *)
(** machine/sysdep.cc (file routines) and the FILESYS_STUB half of
    filesys/openfile.h: a file of the host system.

    A [UnixFile] is an open descriptor on a regular file: its bytes and the
    read/write position, with read, write and lseek as POSIX documents them
    for a regular file that is not full (a short read only at end of file, a
    hole read as zeroes).  The wrappers add the ASSERTs of sysdep.cc. *)
From Stdlib Require Import ZArith Lia.
From stdpp Require Import base option list.
From S2P Require Import Prelude.

Local Open Scope Z_scope.

Record UnixFile := mkUnixFile {
  contents : list Z;
  position : Z
}.

Definition file_size (f : UnixFile) : Z := Z.of_nat (length (contents f)).

(** What the host calls return: the bytes read, at most up to end of file. *)
Definition unix_read (nBytes : Z) : M UnixFile (list Z) := fun f =>
  let bs := slice (contents f) (position f) nBytes in
  Ok (bs, mkUnixFile (contents f) (position f + Z.of_nat (length bs))).

(** A write past the end first fills the hole with zeroes; an empty write
    does nothing. *)
Definition fill_to (l : list Z) (p : Z) : list Z :=
  l ++ replicate (Z.to_nat p - length l) 0.
Definition written (l : list Z) (p : Z) (bs : list Z) : list Z :=
  match bs with
  | [] => l
  | _ => splice (fill_to l p) p bs
  end.
Definition unix_write (bs : list Z) : M UnixFile Z := fun f =>
  Ok (Z.of_nat (length bs),
      mkUnixFile (written (contents f) (position f) bs)
                 (position f + Z.of_nat (length bs))).

(** lseek: whence 0 from the start, 1 from the position, 2 from the end;
    -1 and no move when the result would be negative. *)
Definition unix_lseek (offset whence : Z) : M UnixFile Z := fun f =>
  let base := if whence =? 0 then 0 else if whence =? 1 then position f else file_size f in
  if base + offset <? 0 then Ok (-1, f)
  else Ok (base + offset, mkUnixFile (contents f) (base + offset)).

Definition Read (nBytes : Z) : M UnixFile (list Z) :=
  let! bs := unix_read nBytes in
  ASSERT (Z.of_nat (length bs) =? nBytes) >>> mreturn bs.

Definition ReadPartial (nBytes : Z) : M UnixFile (list Z) := unix_read nBytes.

Definition WriteFile (buffer : list Z) : M UnixFile unit :=
  let! retVal := unix_write buffer in
  ASSERT (retVal =? Z.of_nat (length buffer)).

Definition Lseek (offset whence : Z) : M UnixFile unit :=
  let! retVal := unix_lseek offset whence in
  ASSERT (0 <=? retVal).

Definition Tell : M UnixFile Z := unix_lseek 0 1.

(** * class OpenFile over a host file (FILESYS_STUB) *)
Record StubOpenFile := mkStubOpenFile {
  stub_file          : UnixFile;
  stub_currentOffset : Z
}.

Definition on_file {A} (m : M UnixFile A) : M StubOpenFile A := fun o =>
  match m (stub_file o) with
  | Ok (a, f) => Ok (a, mkStubOpenFile f (stub_currentOffset o))
  | Err e => Err e
  end.

Definition add_currentOffset (n : Z) : M StubOpenFile unit :=
  mmodify (fun o => mkStubOpenFile (stub_file o) (stub_currentOffset o + n)).

Definition Stub_OpenFile (f : UnixFile) : StubOpenFile := mkStubOpenFile f 0.

(** The bytes read and, as their number, the value returned. *)
Definition Stub_ReadAt (numBytes position : Z) : M StubOpenFile (list Z) :=
  on_file (Lseek position 0) >>> on_file (ReadPartial numBytes).

Definition Stub_WriteAt (from : list Z) (position : Z) : M StubOpenFile Z :=
  on_file (Lseek position 0) >>> on_file (WriteFile from) >>>
  mreturn (Z.of_nat (length from)).

Definition Stub_Read (numBytes : Z) : M StubOpenFile (list Z) :=
  let! o := mget in
  let! bs := Stub_ReadAt numBytes (stub_currentOffset o) in
  add_currentOffset (Z.of_nat (length bs)) >>> mreturn bs.

Definition Stub_Write (from : list Z) : M StubOpenFile Z :=
  let! o := mget in
  let! numWritten := Stub_WriteAt from (stub_currentOffset o) in
  add_currentOffset numWritten >>> mreturn numWritten.

Definition Stub_Length : M StubOpenFile Z :=
  on_file (Lseek 0 2) >>> on_file Tell.

(** * Lemmas *)
Section file_lemmas.
Implicit Types f : UnixFile.

Lemma length_fill_to l p : 0 <= p -> Z.of_nat (length (fill_to l p)) = Z.max (Z.of_nat (length l)) p.
Proof. intros. unfold fill_to. rewrite length_app, length_replicate. lia. Qed.

Lemma zlookup_fill_to l p i :
  0 <= i -> (fill_to l p).[i] =
    if decide (i < Z.of_nat (length l)) then l.[i]
    else if decide (i < p) then Some 0 else None.
Proof.
  intros Hi. unfold fill_to, zlookup. destruct (Z.leb_spec 0 i); [|lia].
  repeat case_decide.
  - apply lookup_app_l. lia.
  - rewrite lookup_app_r by lia. apply lookup_replicate_2. lia.
  - apply lookup_ge_None. rewrite length_app, length_replicate. lia.
Qed.

Lemma Lseek_set p f :
  0 <= p -> Lseek p 0 f = Ok (tt, mkUnixFile (contents f) p).
Proof.
  intros Hp. unfold Lseek, unix_lseek, mthen. simpl Z.eqb. cbv iota zeta.
  destruct (Z.ltb_spec (0 + p) 0); [lia|]. rewrite Z.add_0_l. unfold ASSERT.
  now rewrite (proj2 (Z.leb_le 0 p) Hp).
Qed.

Lemma Lseek_negative p f : p < 0 -> Lseek p 0 f = Err AssertFailed.
Proof.
  intros Hp. unfold Lseek, unix_lseek, mthen. simpl Z.eqb. cbv iota zeta.
  destruct (Z.ltb_spec (0 + p) 0); [reflexivity|lia].
Qed.

Lemma WriteFile_ok bs f :
  WriteFile bs f =
    Ok (tt, mkUnixFile (written (contents f) (position f) bs)
                       (position f + Z.of_nat (length bs))).
Proof. unfold WriteFile, unix_write, mthen, ASSERT. now rewrite Z.eqb_refl. Qed.

Lemma Read_ok n f :
  0 <= position f -> 0 <= n -> position f + n <= file_size f ->
  Read n f = Ok (slice (contents f) (position f) n, mkUnixFile (contents f) (position f + n)).
Proof.
  intros Hp Hn Hl. unfold Read, unix_read, mthen, ASSERT, file_size in *.
  rewrite length_slice by lia. now rewrite Z.eqb_refl.
Qed.

(** The contents after a write at [p], byte by byte. *)
Lemma zlookup_written l p bs i :
  0 <= p -> 0 <= i -> bs <> [] ->
  (written l p bs).[i] =
    if decide (p <= i < p + Z.of_nat (length bs)) then bs.[i - p]
    else if decide (i < Z.of_nat (length l)) then l.[i]
    else if decide (i < p) then Some 0 else None.
Proof.
  intros Hp Hi Hne.
  replace (written l p bs) with (splice (fill_to l p) p bs) by (destruct bs; [contradiction|reflexivity]).
  unfold splice, zlookup.
  assert (Ht : length (take (Z.to_nat p) (fill_to l p)) = Z.to_nat p).
  { rewrite length_take. pose proof (length_fill_to l p Hp). lia. }
  destruct (Z.leb_spec 0 i); [|lia].
  assert (Hf : forall j, fill_to l p !! j = (fill_to l p).[Z.of_nat j]) by (intros; now rewrite zlookup_nat).
  case_decide as Hd.
  - destruct (Z.leb_spec 0 (i - p)); [|lia].
    rewrite lookup_app_r, Ht, lookup_app_l by lia. f_equal. lia.
  - destruct (Z_lt_le_dec i p).
    + rewrite lookup_app_l, lookup_take_lt, Hf, zlookup_fill_to by lia.
      rewrite Z2Nat.id by lia. case_decide; [|now rewrite !decide_True by lia].
      unfold zlookup. destruct (Z.leb_spec 0 i); [reflexivity|lia].
    + rewrite !lookup_app_r, lookup_drop, Hf, zlookup_fill_to by lia.
      replace (Z.of_nat (Z.to_nat p + length bs + (Z.to_nat i - length (take (Z.to_nat p) (fill_to l p)) - length bs))) with i by lia.
      case_decide; [|now rewrite !decide_False by lia].
      unfold zlookup. destruct (Z.leb_spec 0 i); [reflexivity|lia].
Qed.

Lemma length_written l p bs :
  0 <= p -> bs <> [] ->
  Z.of_nat (length (written l p bs)) = Z.max (Z.of_nat (length l)) (p + Z.of_nat (length bs)).
Proof.
  intros Hp Hne. destruct bs as [|b bs]; [contradiction|]. unfold written, splice.
  pose proof (length_fill_to l p Hp). rewrite !length_app, length_take, length_drop. lia.
Qed.

Lemma Forall_written (P : Z -> Prop) l p bs :
  P 0 -> Forall P l -> Forall P bs -> Forall P (written l p bs).
Proof.
  intros H0 Hl Hb. destruct bs; [exact Hl|]. apply Forall_splice; [|exact Hb].
  unfold fill_to. apply Forall_app. split; [exact Hl|]. now apply Forall_replicate.
Qed.

(** A write that stays inside the file is a plain block replacement. *)
Lemma written_inside l p bs :
  0 <= p -> p + Z.of_nat (length bs) <= Z.of_nat (length l) -> written l p bs = splice l p bs.
Proof.
  intros Hp Hl. destruct bs as [|b bs].
  - unfold written, splice. simpl. rewrite Nat.add_0_r. symmetry. apply take_drop.
  - unfold written, fill_to. replace (Z.to_nat p - length l)%nat with 0%nat by lia.
    simpl replicate. now rewrite app_nil_r.
Qed.

(** Blocks of a file after a write: the one written, and one it does not touch. *)
Lemma slice_written l p bs :
  0 <= p -> slice (written l p bs) p (Z.of_nat (length bs)) = bs.
Proof.
  intros Hp. destruct bs as [|b bs]; [reflexivity|]. unfold written, slice, splice.
  pose proof (length_fill_to l p Hp). rewrite drop_app_length' by (rewrite length_take; lia).
  apply take_app_length'. lia.
Qed.

Lemma slice_written_other l p bs q n :
  0 <= p -> 0 <= q -> 0 <= n -> q + n <= Z.of_nat (length l) ->
  q + n <= p \/ p + Z.of_nat (length bs) <= q ->
  slice (written l p bs) q n = slice l q n.
Proof.
  intros Hp Hq Hn Hl Hd. destruct bs as [|b bs]; [reflexivity|].
  pose proof (length_written l p (b :: bs) Hp ltac:(discriminate)).
  apply zlookup_ext.
  - apply Nat2Z.inj. now rewrite !length_slice by lia.
  - intros i Hi. rewrite length_slice in Hi by lia. rewrite !zlookup_slice, !decide_True by lia.
    rewrite zlookup_written by (try discriminate; lia).
    now rewrite decide_False, decide_True by lia.
Qed.

Lemma Stub_ReadAt_ok n p (o : StubOpenFile) :
  0 <= p ->
  exists o', Stub_ReadAt n p o = Ok (slice (contents (stub_file o)) p n, o') /\
    contents (stub_file o') = contents (stub_file o) /\
    stub_currentOffset o' = stub_currentOffset o.
Proof.
  intros Hp. unfold Stub_ReadAt, on_file, mthen. rewrite Lseek_set by exact Hp.
  eexists. split; [reflexivity|]. split; reflexivity.
Qed.

Lemma Stub_WriteAt_ok bs p (o : StubOpenFile) :
  0 <= p ->
  exists o', Stub_WriteAt bs p o = Ok (Z.of_nat (length bs), o') /\
    contents (stub_file o') = written (contents (stub_file o)) p bs /\
    stub_currentOffset o' = stub_currentOffset o.
Proof.
  intros Hp. unfold Stub_WriteAt, on_file, mthen. rewrite Lseek_set by exact Hp.
  cbn [stub_file]. rewrite WriteFile_ok. eexists. split; [reflexivity|]. split; reflexivity.
Qed.
End file_lemmas.
