(* ===== verification/Thread.v ===== *)
(** threads/thread.h, thread.cc, scheduler.h and scheduler.cc: threads and the
    scheduler.

    A [Thread*] is an address; [Kernel] holds the Thread objects by address,
    the ready and blocked lists (CList.v's contract, without keys), the
    currentThread and threadToBeDestroyed globals of system.cc and the map of
    thread ids.  The routines run in the interrupt system of Interrupt.v,
    whose device state contains the kernel ([HasKernel]).

    [SWITCH] is assembly (switch.s): a parameter.  Seen from the thread that
    calls it, it returns when the thread is dispatched again, after whatever
    the other threads did; [SWITCH_self] is the one documented fact used, that
    a thread switched to itself just goes on.  SaveUserState and
    RestoreUserState need the simulated machine: UserSwitch.v gives them.  The
    stack of i386 hosts is modelled. *)
From Stdlib Require Import ZArith Lia String Sorted.
From stdpp Require Import base option list list_numbers gmap.
From S2P Require Import Prelude CList Stats Interrupt.

Local Open Scope Z_scope.

Definition MachineStateSize : Z := 18.
Definition StackSize : Z := 4 * 1024.
Definition STACK_FENCEPOST : Z := 0xdeadbeef.
Definition MaxThreads : Z := 128.

Definition PCState : Z := 7.
Definition InitialPCState : Z := 5.
Definition InitialArgState : Z := 3.
Definition WhenDonePCState : Z := 6.
Definition StartupPCState : Z := 2.

Inductive ThreadStatus := JUST_CREATED | RUNNING | READY | BLOCKED.

#[global] Instance ThreadStatus_eq_dec : EqDecision ThreadStatus.
Proof. solve_decision. Defined.

(** A word of a stack or of the saved registers: a number or a code address. *)
Inductive word :=
  | Int (z : Z)
  | ThreadRoot | InterruptEnable | ThreadFinish
  | Func (f : Z).

Record Thread := mkThread {
  stackTop     : option Z;              (* index into the stack *)
  machineState : gmap Z word;
  tid          : Z;
  uid          : Z;
  priority     : Z;
  th_timeSlice : Z;
  stack        : option (gmap Z word);  (* NULL for the main thread *)
  status       : ThreadStatus;
  name         : string;
  space        : option Z
}.

Record Kernel := mkKernel {
  threads             : gmap Z Thread;
  readyList           : list Z;
  blockedList         : list Z;
  currentThread       : Z;
  threadToBeDestroyed : option Z;
  threadMap           : list bool
}.

Class HasKernel (D : Type) := {
  kernel     : D -> Kernel;
  set_kernel : Kernel -> D -> D
}.
Class HasKernelLaws D `{!HasKernel D} : Prop := {
  kernel_set : forall k d, kernel (set_kernel k d) = k;
  set_set_kernel : forall k k' d, set_kernel k (set_kernel k' d) = set_kernel k d;
  set_kernel_id : forall d, set_kernel (kernel d) d = d
}.

Class ContextSwitch (D H : Type) := {
  SWITCH : Z -> Z -> M (isys D H) unit;
  SaveUserState : Z -> M (isys D H) unit;
  RestoreUserState : Z -> M (isys D H) unit
}.
Class ContextSwitchLaws D H `{!ContextSwitch D H} : Prop := {
  SWITCH_self : forall t s, SWITCH t t s = Ok (tt, s)
}.

(** * Updates of the kernel's fields *)
Definition k_threads (f : gmap Z Thread -> gmap Z Thread) (k : Kernel) : Kernel :=
  mkKernel (f (threads k)) (readyList k) (blockedList k) (currentThread k)
    (threadToBeDestroyed k) (threadMap k).
Definition k_readyList (f : list Z -> list Z) (k : Kernel) : Kernel :=
  mkKernel (threads k) (f (readyList k)) (blockedList k) (currentThread k)
    (threadToBeDestroyed k) (threadMap k).
Definition k_blockedList (f : list Z -> list Z) (k : Kernel) : Kernel :=
  mkKernel (threads k) (readyList k) (f (blockedList k)) (currentThread k)
    (threadToBeDestroyed k) (threadMap k).
Definition k_currentThread (t : Z) (k : Kernel) : Kernel :=
  mkKernel (threads k) (readyList k) (blockedList k) t (threadToBeDestroyed k) (threadMap k).
Definition k_threadToBeDestroyed (o : option Z) (k : Kernel) : Kernel :=
  mkKernel (threads k) (readyList k) (blockedList k) (currentThread k) o (threadMap k).
Definition k_threadMap (m : list bool) (k : Kernel) : Kernel :=
  mkKernel (threads k) (readyList k) (blockedList k) (currentThread k) (threadToBeDestroyed k) m.

Definition th_set_status (st : ThreadStatus) (t : Thread) : Thread :=
  mkThread (stackTop t) (machineState t) (tid t) (uid t) (priority t) (th_timeSlice t)
    (stack t) st (name t) (space t).
Definition th_set_stack (top : option Z) (stk : option (gmap Z word)) (ms : gmap Z word)
    (t : Thread) : Thread :=
  mkThread top ms (tid t) (uid t) (priority t) (th_timeSlice t) stk (status t) (name t) (space t).

Section threads.
Context {D H : Type} `{!Hardware D H, !HasKernel D, !ContextSwitch D H}.
Implicit Types s : isys D H.

Definition ker s : Kernel := kernel (dev s).
Definition set_ker (k : Kernel) s : isys D H := set_dev (set_kernel k (dev s)) s.

Definition get_kernel : M (isys D H) Kernel := let! s := mget in mreturn (ker s).
Definition mod_kernel (f : Kernel -> Kernel) : M (isys D H) unit :=
  mmodify (fun s => set_ker (f (ker s)) s).

(** A member of the object at address [p]. *)
Definition thread_at (p : Z) : M (isys D H) Thread :=
  let! k := get_kernel in mlift (threads k !! p).
Definition mod_thread (p : Z) (f : Thread -> Thread) : M (isys D H) unit :=
  let! t := thread_at p in mod_kernel (k_threads <[p := f t]>).

Definition Thread_setStatus (p : Z) (st : ThreadStatus) : M (isys D H) unit :=
  mod_thread p (th_set_status st).

Definition setPriority (p pri : Z) : M (isys D H) unit :=
  mod_thread p (fun t => mkThread (stackTop t) (machineState t) (tid t) (uid t) pri (th_timeSlice t)
    (stack t) (status t) (name t) (space t)).
Definition setTimeSlice (p ts : Z) : M (isys D H) unit :=
  mod_thread p (fun t => mkThread (stackTop t) (machineState t) (tid t) (uid t) (priority t) ts
    (stack t) (status t) (name t) (space t)).

(** The search for a free thread id; -1 when all are taken. *)
Definition allocate_tid : M (isys D H) Z :=
  let! o := mfirst (seqZ 0 MaxThreads) (fun i =>
    let! k := get_kernel in
    let! used := mlift (threadMap k).[i] in
    if negb used then
      let! m := mlift (zupd (threadMap k) i true) in
      mod_kernel (k_threadMap m) >>> mreturn (Some i)
    else mreturn None) in
  mreturn (default (-1) o).

(** new Thread(debugName, pri), at the address [p]. *)
Definition Thread_Thread (p : Z) (debugName : string) (pri : Z) : M (isys D H) unit :=
  let! i := allocate_tid in
  mod_kernel (k_threads <[p := mkThread None ∅ i 1 pri 0 None JUST_CREATED debugName None]>).

Definition Thread_destroy (p : Z) : M (isys D H) unit :=
  let! k := get_kernel in
  ASSERT (negb (p =? currentThread k)) >>>
  let! t := thread_at p in
  let! m := mlift (zupd (threadMap k) (tid t) false) in
  mod_kernel (k_threadMap m) >>>
  mod_kernel (k_threads (delete p)).

Definition CheckOverflow (p : Z) : M (isys D H) unit :=
  let! t := thread_at p in
  match stack t with
  | Some stk =>
      ASSERT (match stk !! 0 with Some (Int z) => i32 z =? i32 STACK_FENCEPOST | _ => false end)
  | None => mreturn tt
  end.

Definition StackAllocate (p : Z) (func : Z) (arg : word) : M (isys D H) unit :=
  let! t := thread_at p in
  let top := StackSize - 4 - 1 in
  let stk := <[0 := Int STACK_FENCEPOST]> (<[top := ThreadRoot]> ∅) in
  let ms := <[WhenDonePCState := ThreadFinish]> (<[InitialArgState := arg]>
              (<[InitialPCState := Func func]> (<[StartupPCState := InterruptEnable]>
                (<[PCState := ThreadRoot]> (machineState t))))) in
  mod_thread p (th_set_stack (Some top) (Some stk) ms).

(** * Scheduler *)
Definition ReadyToRun (p : Z) : M (isys D H) unit :=
  Thread_setStatus p READY >>> mod_kernel (k_readyList (fun l => l ++ [p])).

Definition FindNextToRun : M (isys D H) (option Z) :=
  let! k := get_kernel in
  match readyList k with
  | [] => mreturn None
  | t :: r => mod_kernel (k_readyList (fun _ => r)) >>> mreturn (Some t)
  end.

(** The rest of Run, when the thread is dispatched again. *)
Definition Run_return : M (isys D H) unit :=
  let! k := get_kernel in
  (match threadToBeDestroyed k with
   | Some d => Thread_destroy d >>> mod_kernel (k_threadToBeDestroyed None)
   | None => mreturn tt
   end) >>>
  let! k := get_kernel in
  let! t := thread_at (currentThread k) in
  match space t with Some sp => RestoreUserState sp | None => mreturn tt end.

Definition Run (nextThread : Z) : M (isys D H) unit :=
  let! k := get_kernel in
  let oldThread := currentThread k in
  let! t := thread_at oldThread in
  (match space t with Some sp => SaveUserState sp | None => mreturn tt end) >>>
  CheckOverflow oldThread >>>
  mod_kernel (k_currentThread nextThread) >>>
  Thread_setStatus nextThread RUNNING >>>
  SWITCH oldThread nextThread >>>
  Run_return.

(** * Thread operations that give up the processor *)
Definition Yield (this : Z) : M (isys D H) unit :=
  let! oldLevel := SetLevel IntOff in
  let! k := get_kernel in
  ASSERT (this =? currentThread k) >>>
  let! next := FindNextToRun in
  (match next with
   | Some nextThread => ReadyToRun this >>> Run nextThread
   | None => mreturn tt
   end) >>>
  let! _ := SetLevel oldLevel in mreturn tt.

(** [while ((nextThread = FindNextToRun()) == NULL) interrupt->Idle();] *)
Fixpoint wait_for_thread (fuel : nat) : M (isys D H) Z :=
  match fuel with
  | O => mfail OutOfFuel
  | S n =>
      let! next := FindNextToRun in
      match next with
      | Some nextThread => mreturn nextThread
      | None => Idle >>> wait_for_thread n
      end
  end.

Definition Sleep (fuel : nat) (this : Z) : M (isys D H) unit :=
  let! k := get_kernel in
  ASSERT (this =? currentThread k) >>>
  let! l := getLevel in
  ASSERT (bool_decide (l = IntOff)) >>>
  Thread_setStatus this BLOCKED >>>
  mod_kernel (k_blockedList (fun l => l ++ [this])) >>>
  let! nextThread := wait_for_thread fuel in
  Run nextThread.

Definition Finish (fuel : nat) (this : Z) : M (isys D H) unit :=
  let! _ := SetLevel IntOff in
  let! k := get_kernel in
  ASSERT (this =? currentThread k) >>>
  mod_kernel (k_threadToBeDestroyed (Some (currentThread k))) >>>
  Sleep fuel this.

Definition Fork (this : Z) (func : Z) (arg : word) : M (isys D H) unit :=
  StackAllocate this func arg >>>
  let! oldLevel := SetLevel IntOff in
  ReadyToRun this >>>
  let! _ := SetLevel oldLevel in mreturn tt.
End threads.

(** * The invariant of the scheduler *)

(** A stack that has not overflowed, or none. *)
Definition stack_ok (t : Thread) : Prop :=
  match stack t with
  | Some stk => stk !! 0 = Some (Int STACK_FENCEPOST)
  | None => True
  end.

(** Thread ids: marked as used, and unique. *)
Record tid_inv (k : Kernel) : Prop := {
  ti_length : Z.of_nat (length (threadMap k)) = MaxThreads;
  ti_used   : forall p t, threads k !! p = Some t -> tid t <> -1 ->
                (threadMap k).[tid t] = Some true;
  ti_unique : forall p q t u, threads k !! p = Some t -> threads k !! q = Some u ->
                tid t = tid u -> tid t <> -1 -> p = q
}.

(** The lists agree with the statuses. *)
Record sched_inv (k : Kernel) : Prop := {
  si_nodup   : NoDup (readyList k);
  si_ready   : forall p, p ∈ readyList k -> exists t, threads k !! p = Some t /\ status t = READY;
  si_current : exists t, threads k !! currentThread k = Some t /\ status t = RUNNING;
  si_stacks  : forall p t, threads k !! p = Some t -> stack_ok t
}.

(** * Lemmas *)
Section kernel_lemmas.
Context {D H : Type} `{!Hardware D H, !HasKernel D, !HasKernelLaws D}.
Implicit Types s : isys D H.

Lemma ker_set_ker k s : ker (set_ker k s) = k.
Proof. apply kernel_set. Qed.
Lemma set_ker_twice k k' s : set_ker k (set_ker k' s) = set_ker k s.
Proof. unfold set_ker, set_dev. cbn. now rewrite set_set_kernel. Qed.
Lemma ker_set_level l s : ker (set_level l s) = ker s.
Proof. reflexivity. Qed.
Lemma set_ker_id s : set_ker (ker s) s = s.
Proof. unfold set_ker, set_dev, ker. rewrite set_kernel_id. now destruct s. Qed.

Lemma mod_kernel_run f s : mod_kernel f s = Ok (tt, set_ker (f (ker s)) s).
Proof. reflexivity. Qed.
Lemma thread_at_run p s t : threads (ker s) !! p = Some t -> thread_at p s = Ok (t, s).
Proof. intros E. unfold thread_at, get_kernel, mthen, mget, mreturn, mlift. now rewrite E. Qed.
Lemma mod_thread_run p f s t :
  threads (ker s) !! p = Some t ->
  mod_thread p f s = Ok (tt, set_ker (k_threads <[p := f t]> (ker s)) s).
Proof. intros E. unfold mod_thread. mstep_by (thread_at_run p s t E). apply mod_kernel_run. Qed.

Lemma FindNextToRun_run s :
  FindNextToRun s = match readyList (ker s) with
                    | [] => Ok (None, s)
                    | t :: r => Ok (Some t, set_ker (k_readyList (fun _ => r) (ker s)) s)
                    end.
Proof.
  unfold FindNextToRun. mstep_to (ker s) s. destruct (readyList (ker s)); reflexivity.
Qed.

Lemma ReadyToRun_run p s t :
  threads (ker s) !! p = Some t ->
  ReadyToRun p s = Ok (tt, set_ker (k_readyList (fun l => l ++ [p])
                              (k_threads <[p := th_set_status READY t]> (ker s))) s).
Proof.
  intros E. unfold ReadyToRun, Thread_setStatus. mstep_by (mod_thread_run p _ s t E).
  rewrite mod_kernel_run. now rewrite set_ker_twice, ker_set_ker.
Qed.

Lemma CheckOverflow_ok p s t :
  threads (ker s) !! p = Some t -> stack_ok t -> CheckOverflow p s = Ok (tt, s).
Proof.
  intros E Hs. unfold CheckOverflow. mstep_by (thread_at_run p s t E). unfold stack_ok in Hs.
  destruct (stack t) as [stk|]; [|reflexivity]. rewrite Hs. reflexivity.
Qed.

(** Run, up to the switch: the kernel just before it. *)
Definition dispatched (next : Z) (n : Thread) (k : Kernel) : Kernel :=
  k_threads <[next := th_set_status RUNNING n]> (k_currentThread next k).

Context `{!ContextSwitch D H}.

Lemma Run_run s next t n :
  threads (ker s) !! currentThread (ker s) = Some t -> space t = None -> stack_ok t ->
  threads (ker s) !! next = Some n ->
  Run next s = (SWITCH (currentThread (ker s)) next >>> Run_return)
                 (set_ker (dispatched next n (ker s)) s).
Proof.
  intros Et Hsp Hst En. unfold Run. mstep_to (ker s) s. mstep_by (thread_at_run _ s t Et).
  rewrite Hsp. mstep_to tt s. mstep_by (CheckOverflow_ok _ s t Et Hst).
  mstep_by (mod_kernel_run _ s).
  assert (En' : threads (ker (set_ker (k_currentThread next (ker s)) s)) !! next = Some n)
    by now rewrite ker_set_ker.
  unfold Thread_setStatus. mstep_by (mod_thread_run next _ _ n En').
  now rewrite set_ker_twice, ker_set_ker.
Qed.

Lemma Run_return_run s t :
  threads (ker s) !! currentThread (ker s) = Some t -> space t = None ->
  threadToBeDestroyed (ker s) = None -> Run_return s = Ok (tt, s).
Proof.
  intros Et Hsp Hd. unfold Run_return. mstep_to (ker s) s. rewrite Hd. mstep_to tt s.
  mstep_to (ker s) s. mstep_by (thread_at_run _ s t Et). now rewrite Hsp.
Qed.
End kernel_lemmas.

Section sched_lemmas.
Implicit Types k : Kernel.

(** The first ready thread takes over and the old one goes to the back. *)
Lemma sched_inv_rotate k t n next r :
  sched_inv k -> readyList k = next :: r ->
  threads k !! currentThread k = Some t -> threads k !! next = Some n ->
  status t = RUNNING ->
  sched_inv (dispatched next n (k_readyList (fun _ => r ++ [currentThread k])
               (k_threads <[currentThread k := th_set_status READY t]> k))).
Proof.
  intros [Hnd Hrd _ Hst] Er Et En Est. rewrite Er in Hnd, Hrd.
  apply NoDup_cons in Hnd as [Hnext Hnd].
  assert (Hcur : currentThread k ∉ next :: r).
  { intros Hin. destruct (Hrd _ Hin) as (t' & Et' & Hs'). simplify_eq. congruence. }
  apply not_elem_of_cons in Hcur as [Hne Hcur].
  split; cbn.
  - apply NoDup_app. split; [exact Hnd|]. split; [set_solver|]. apply NoDup_singleton.
  - intros p Hp. apply elem_of_app in Hp as [Hp|Hp].
    + assert (p <> next) by (intros ->; contradiction).
      assert (p <> currentThread k) by (intros ->; contradiction).
      rewrite !lookup_insert_ne by auto. apply Hrd. now right.
    + apply list_elem_of_singleton in Hp as ->. rewrite lookup_insert_ne, lookup_insert_eq by auto.
      eexists. split; reflexivity.
  - rewrite lookup_insert_eq. eexists. split; reflexivity.
  - intros p u. destruct (decide (p = next)) as [->|]; [|destruct (decide (p = currentThread k)) as [->|]].
    + rewrite lookup_insert_eq. intros [= <-]. apply (Hst next n En).
    + rewrite lookup_insert_ne, lookup_insert_eq by auto. intros [= <-]. apply (Hst _ t Et).
    + rewrite !lookup_insert_ne by auto. apply Hst.
Qed.

(** The first ready thread takes over from one that blocks. *)
Lemma sched_inv_block k t n next r :
  sched_inv k -> readyList k = next :: r ->
  threads k !! currentThread k = Some t -> threads k !! next = Some n ->
  currentThread k <> next ->
  sched_inv (dispatched next n (k_readyList (fun _ => r) (k_blockedList (fun l => l ++ [currentThread k])
               (k_threads <[currentThread k := th_set_status BLOCKED t]> k)))).
Proof.
  intros [Hnd Hrd (t' & Et' & Hrun) Hst] Er Et En Hne. rewrite Er in Hnd, Hrd.
  apply NoDup_cons in Hnd as [Hnext Hnd]. split; cbn.
  - exact Hnd.
  - intros p Hp. destruct (Hrd p ltac:(now right)) as (u & Eu & Hu).
    assert (p <> currentThread k) by (intros ->; congruence).
    rewrite !lookup_insert_ne by (auto; intros ->; contradiction). eauto.
  - rewrite lookup_insert_eq. eexists. split; reflexivity.
  - intros p u. destruct (decide (p = next)) as [->|]; [|destruct (decide (p = currentThread k)) as [->|]].
    + rewrite lookup_insert_eq. intros [= <-]. apply (Hst next n En).
    + rewrite lookup_insert_ne, lookup_insert_eq by auto. intros [= <-]. apply (Hst _ t Et).
    + rewrite !lookup_insert_ne by auto. apply Hst.
Qed.

(** A thread that is neither running nor ready is made ready. *)
Lemma sched_inv_ready k p t :
  sched_inv k -> threads k !! p = Some t -> p ∉ readyList k -> p <> currentThread k -> stack_ok t ->
  sched_inv (k_readyList (fun l => l ++ [p]) (k_threads <[p := th_set_status READY t]> k)).
Proof.
  intros [Hnd Hrd (c & Ec & Hc) Hst] Et Hnin Hne Hok. split; cbn.
  - apply NoDup_app. split; [exact Hnd|]. split; [set_solver|]. apply NoDup_singleton.
  - intros q Hq. apply elem_of_app in Hq as [Hq|Hq].
    + assert (q <> p) by (intros ->; contradiction). rewrite lookup_insert_ne by auto. now apply Hrd.
    + apply list_elem_of_singleton in Hq as ->. rewrite lookup_insert_eq. eexists. split; reflexivity.
  - rewrite lookup_insert_ne by auto. eauto.
  - intros q u. destruct (decide (q = p)) as [->|].
    + rewrite lookup_insert_eq. intros [= <-]. exact Hok.
    + rewrite lookup_insert_ne by auto. apply Hst.
Qed.
End sched_lemmas.

Section tid_lemmas.
Context {D H : Type} `{!HasKernel D, !HasKernelLaws D}.
Implicit Types s : isys D H.

(** The ids not in use, smallest first. *)
Definition free_tids (m : list bool) : list Z :=
  filter (fun i => m.[i] = Some false) (seqZ 0 MaxThreads).

Lemma zlookup_bool_cases (m : list bool) i :
  0 <= i < Z.of_nat (length m) -> m.[i] = Some true \/ m.[i] = Some false.
Proof. intros Hi. destruct (zlookup_lt m i Hi) as [[] ->]; auto. Qed.

Lemma allocate_tid_run s :
  Z.of_nat (length (threadMap (ker s))) = MaxThreads ->
  allocate_tid s =
    match free_tids (threadMap (ker s)) with
    | [] => Ok (-1, s)
    | i :: _ => Ok (i, set_ker (k_threadMap (<[Z.to_nat i := true]> (threadMap (ker s))) (ker s)) s)
    end.
Proof.
  intros Hl. unfold allocate_tid, free_tids. set (m := threadMap (ker s)) in *.
  assert (Hin : forall i, i ∈ seqZ 0 MaxThreads -> 0 <= i < Z.of_nat (length m))
    by (intros i; rewrite elem_of_seqZ, Hl; lia).
  set (body := fun i : Z => _).
  induction (seqZ 0 MaxThreads) as [|i l IH]; [reflexivity|].
  cbn [mfirst]. rewrite filter_cons.
  destruct (zlookup_bool_cases m i (Hin i ltac:(left))) as [E|E].
  - assert (Eb : body i s = Ok (None, s)).
    { unfold body. mstep_to (ker s) s. fold m. rewrite E. now mstep_to true s. }
    rewrite decide_False by congruence. rewrite <- IH by (intros j Hj; apply Hin; now right).
    unfold mthen. now rewrite Eb.
  - assert (Eb : body i s = Ok (Some i, set_ker (k_threadMap (<[Z.to_nat i := true]> m) (ker s)) s)).
    { unfold body. mstep_to (ker s) s. fold m. rewrite E. mstep_to false s. cbn [negb].
      rewrite zupd_lt by (apply Hin; left). reflexivity. }
    rewrite decide_True by exact E. unfold mthen. now rewrite Eb.
Qed.

Lemma free_tids_range m i : i ∈ free_tids m -> m.[i] = Some false /\ 0 <= i < MaxThreads.
Proof. unfold free_tids. rewrite list_elem_of_filter, elem_of_seqZ. lia || intuition lia. Qed.
(** A thread with an id that was free, or none, keeps the ids unique. *)
Lemma tid_inv_new k p i m' debugName pri :
  let m := threadMap k in
  tid_inv k ->
  (i = -1 /\ m' = m) \/
    (m.[i] = Some false /\ 0 <= i < MaxThreads /\ m' = <[Z.to_nat i := true]> m) ->
  tid_inv (k_threads <[p := mkThread None ∅ i 1 pri 0 None JUST_CREATED debugName None]>
           (k_threadMap m' k)).
Proof.
  intros m [Hl Hu Hq] Hi. subst m. split; cbn.
  - destruct Hi as [[_ ->]|(_ & _ & ->)]; rewrite ?length_insert; exact Hl.
  - intros q u. destruct (decide (q = p)) as [->|].
    + rewrite lookup_insert_eq. intros [= <-]. cbn. intros Hne.
      destruct Hi as [[? _]|(_ & Hr & ->)]; [contradiction|]. apply zlookup_insert_eq. now rewrite Hl.
    + rewrite lookup_insert_ne by auto. intros E Hne. specialize (Hu q u E Hne).
      destruct Hi as [[_ ->]|(Hf & Hr & ->)]; [exact Hu|].
      rewrite zlookup_insert_ne; [exact Hu|lia|]. intros Ei. rewrite <- Ei in Hu. congruence.
  - intros q q' u u'. destruct (decide (q = p)) as [->|], (decide (q' = p)) as [->|];
      rewrite ?lookup_insert_eq, ?lookup_insert_ne by auto; [reflexivity| | |now apply Hq].
    + intros [= <-] E'. cbn [tid]. intros Htid Hne. rewrite Htid in Hne.
      pose proof (Hu _ _ E' Hne) as Hm. destruct Hi as [[? _]|(Hf & _)]; congruence.
    + intros E [= <-]. cbn [tid]. intros Htid Hne. pose proof (Hu _ _ E Hne) as Hm.
      destruct Hi as [[? _]|(Hf & _)]; congruence.
Qed.

Lemma free_tids_low m i :
  Z.of_nat (length m) = MaxThreads -> 0 <= i < hd (-1) (free_tids m) -> m.[i] = Some true.
Proof.
  intros Hl Hi. destruct (free_tids m) as [|j l] eqn:Ef; cbn in Hi; [lia|].
  assert (Hj : j ∈ free_tids m) by (rewrite Ef; left). apply free_tids_range in Hj as [_ Hj].
  destruct (zlookup_bool_cases m i) as [E|E]; [lia|exact E|exfalso].
  assert (Hi' : i ∈ free_tids m) by (apply list_elem_of_filter; rewrite elem_of_seqZ; split; [exact E|lia]).
  assert (Hs : StronglySorted Z.lt (free_tids m)).
  { apply StronglySorted_filter, StronglySorted_seqZ. }
  rewrite Ef in Hs, Hi'. apply StronglySorted_inv in Hs as [_ Hs].
  apply elem_of_cons in Hi' as [->|Hi']; [lia|]. eapply Forall_forall in Hs; [|exact Hi']. lia.
Qed.
End tid_lemmas.

(** The thread that Fork makes ready. *)
Definition fork_stack : gmap Z word :=
  <[0 := Int STACK_FENCEPOST]> (<[StackSize - 4 - 1 := ThreadRoot]> ∅).
Definition forked_thread (func : Z) (arg : word) (t : Thread) : Thread :=
  th_set_status READY (th_set_stack (Some (StackSize - 4 - 1)) (Some fork_stack)
    (<[WhenDonePCState := ThreadFinish]> (<[InitialArgState := arg]>
      (<[InitialPCState := Func func]> (<[StartupPCState := InterruptEnable]>
        (<[PCState := ThreadRoot]> (machineState t)))))) t).
Definition forked_kernel (p : Z) (t' : Thread) (k : Kernel) : Kernel :=
  k_readyList (fun l => l ++ [p]) (k_threads <[p := t']> k).

Lemma sched_inv_forked k p func arg t :
  sched_inv k -> threads k !! p = Some t -> p ∉ readyList k -> p <> currentThread k ->
  sched_inv (forked_kernel p (forked_thread func arg t) k).
Proof.
  intros [Hnd Hrd (c & Ec & Hc) Hst] Et Hnin Hne. split; cbn.
  - apply NoDup_app. split; [exact Hnd|]. split; [set_solver|]. apply NoDup_singleton.
  - intros q Hq. apply elem_of_app in Hq as [Hq|Hq].
    + assert (q <> p) by (intros ->; contradiction). rewrite lookup_insert_ne by auto. now apply Hrd.
    + apply list_elem_of_singleton in Hq as ->. rewrite lookup_insert_eq. eexists. split; reflexivity.
  - rewrite lookup_insert_ne by auto. eauto.
  - intros q u. destruct (decide (q = p)) as [->|].
    + rewrite lookup_insert_eq. intros [= <-]. reflexivity.
    + rewrite lookup_insert_ne by auto. apply Hst.
Qed.

Lemma Fork_run {D H : Type} `{!Hardware D H, !HasKernel D, !HasKernelLaws D} (s : isys D H) p t func arg :
  threads (ker s) !! p = Some t ->
  Fork p func arg s = (let! _ := SetLevel (level (interrupt s)) in mreturn tt)
    (set_ker (forked_kernel p (forked_thread func arg t) (ker s)) (set_level IntOff s)).
Proof.
  intros Et. unfold Fork.
  set (f := th_set_stack (Some (StackSize - 4 - 1)) (Some fork_stack)
    (<[WhenDonePCState := ThreadFinish]> (<[InitialArgState := arg]>
      (<[InitialPCState := Func func]> (<[StartupPCState := InterruptEnable]>
        (<[PCState := ThreadRoot]> (machineState t))))))).
  set (k1 := k_threads <[p := f t]> (ker s)).
  assert (E1 : StackAllocate p func arg s = Ok (tt, set_ker k1 s)).
  { unfold StackAllocate. mstep_by (thread_at_run p s t Et). exact (mod_thread_run p f s t Et). }
  mstep_by E1. mstep_to (level (interrupt s)) (set_level IntOff (set_ker k1 s)).
  assert (Et2 : threads (ker (set_level IntOff (set_ker k1 s))) !! p = Some (f t))
    by (rewrite ker_set_level, ker_set_ker; apply lookup_insert_eq).
  mstep_by (ReadyToRun_run p _ (f t) Et2). rewrite ker_set_level, ker_set_ker.
  change (set_level IntOff (set_ker k1 s)) with (set_ker k1 (set_level IntOff s)). rewrite set_ker_twice.
  do 2 f_equal. unfold forked_kernel, k1, k_readyList, k_threads. cbn. now rewrite insert_insert_eq.
Qed.

(** Yield, up to the switch. *)
Section yield_lemmas.
Context {D H : Type} `{!Hardware D H, !HasKernel D, !HasKernelLaws D, !ContextSwitch D H}.
Implicit Types s : isys D H.

Lemma Yield_alone s :
  readyList (ker s) = [] ->
  Yield (currentThread (ker s)) s =
    (let! _ := SetLevel (level (interrupt s)) in mreturn tt) (set_level IntOff s).
Proof.
  intros Er. unfold Yield. mstep_to (level (interrupt s)) (set_level IntOff s).
  mstep_to (ker s) (set_level IntOff s). rewrite Z.eqb_refl. mstep_to tt (set_level IntOff s).
  pose proof (FindNextToRun_run (set_level IntOff s)) as EF. rewrite ker_set_level, Er in EF.
  mstep_by EF. now mstep_to tt (set_level IntOff s).
Qed.

Lemma Yield_run s t next n r :
  let cur := currentThread (ker s) in
  sched_inv (ker s) -> threads (ker s) !! cur = Some t -> space t = None ->
  readyList (ker s) = next :: r -> threads (ker s) !! next = Some n ->
  Yield cur s =
    ((SWITCH cur next >>> Run_return) >>> (let! _ := SetLevel (level (interrupt s)) in mreturn tt))
      (set_ker (dispatched next n (k_readyList (fun _ => r ++ [cur])
                  (k_threads <[cur := th_set_status READY t]> (ker s)))) (set_level IntOff s)).
Proof.
  intros cur Hinv Et Hsp Er En. set (s0 := set_level IntOff s).
  assert (Hrun : status t = RUNNING) by (destruct (si_current _ Hinv) as (t' & ? & ?); unfold cur in Et; congruence).
  assert (Hn : status n = READY).
  { destruct (si_ready _ Hinv next) as (n' & ? & ?); [rewrite Er; left|congruence]. }
  assert (cur <> next) by (intros E; rewrite <- E in En; congruence).
  unfold Yield. mstep_to (level (interrupt s)) s0. mstep_to (ker s) s0. fold cur. rewrite Z.eqb_refl. mstep_to tt s0.
  pose proof (FindNextToRun_run s0) as EF. change (ker s0) with (ker s) in EF. rewrite Er in EF. mstep_by EF.
  cbn match. set (s1 := set_ker (k_readyList (fun _ => r) (ker s)) s0).
  assert (Et1 : threads (ker s1) !! cur = Some t) by (unfold s1; now rewrite ker_set_ker).
  unfold mthen at 1. mstep_by (ReadyToRun_run cur s1 t Et1).
  unfold s1. rewrite ker_set_ker, set_ker_twice.
  rewrite (Run_run _ next (th_set_status READY t) n); rewrite ?ker_set_ker; cbn.
  - rewrite set_ker_twice. reflexivity.
  - apply lookup_insert_eq.
  - exact Hsp.
  - apply (si_stacks _ Hinv cur t Et).
  - now rewrite lookup_insert_ne.
Qed.
End yield_lemmas.

(** * Properties *)
Section properties.
Context {D H : Type} `{!Hardware D H, !HasKernel D, !HasKernelLaws D, !ContextSwitch D H}.
Implicit Types s : isys D H.

(** C28: Round-robin scheduling.  A kernel thread that yields keeps the
    processor when nobody else is ready; otherwise, with interrupts off, the
    thread that has been ready for longest is dispatched, the caller goes to
    the end of the ready list, everybody else keeps his place, and the
    scheduler's invariant holds at the switch.  The interrupt level comes back
    when the caller runs again. *)
Theorem Yield_round_robin s t :
  sched_inv (ker s) ->
  threads (ker s) !! currentThread (ker s) = Some t -> space t = None ->
  let cur := currentThread (ker s) in
  let back := (let! _ := SetLevel (level (interrupt s)) in mreturn tt) in
  match readyList (ker s) with
  | [] => Yield cur s = back (set_level IntOff s)
  | next :: r => exists k,
      sched_inv k /\ currentThread k = next /\ readyList k = r ++ [cur] /\
      blockedList k = blockedList (ker s) /\
      Yield cur s = ((SWITCH cur next >>> Run_return) >>> back) (set_ker k (set_level IntOff s))
  end.
Proof.
  intros Hinv Et Hsp cur back. destruct (readyList (ker s)) as [|next r] eqn:Er; [now apply Yield_alone|].
  destruct (si_ready _ Hinv next) as (n & En & _); [rewrite Er; left|].
  assert (Hrun : status t = RUNNING) by (destruct (si_current _ Hinv) as (t' & ? & ?); congruence).
  eexists. split; [apply (sched_inv_rotate (ker s) t n next r); auto|]. do 3 (split; [reflexivity|]).
  now apply Yield_run.
Qed.

(** Fork gives a new thread a stack whose first frame runs ThreadRoot
    (which enables interrupts, calls the function and then Finish), with the
    overflow mark in place, and puts the thread at the end of the ready list;
    the running thread and the others are not touched. *)
Theorem Fork_ready s p t func arg :
  sched_inv (ker s) -> threads (ker s) !! p = Some t ->
  p ∉ readyList (ker s) -> p <> currentThread (ker s) ->
  exists k t', sched_inv k /\ readyList k = readyList (ker s) ++ [p] /\
    currentThread k = currentThread (ker s) /\ threads k = <[p := t']> (threads (ker s)) /\
    status t' = READY /\ tid t' = tid t /\
    machineState t' !! PCState = Some ThreadRoot /\
    machineState t' !! StartupPCState = Some InterruptEnable /\
    machineState t' !! InitialPCState = Some (Func func) /\
    machineState t' !! InitialArgState = Some arg /\
    machineState t' !! WhenDonePCState = Some ThreadFinish /\
    (exists stk top, stack t' = Some stk /\ stackTop t' = Some top /\
       0 < top < StackSize /\ stk !! top = Some ThreadRoot /\
       stk !! 0 = Some (Int STACK_FENCEPOST)) /\
    Fork p func arg s =
      (let! _ := SetLevel (level (interrupt s)) in mreturn tt) (set_ker k (set_level IntOff s)).
Proof.
  intros Hinv Et Hnin Hne. set (t' := forked_thread func arg t).
  exists (forked_kernel p t' (ker s)), t'. split; [now apply sched_inv_forked|]. do 5 (split; [reflexivity|]).
  do 5 (split; [cbn; now simplify_map_eq|]). split.
  { exists (fork_stack), (StackSize - 4 - 1). do 2 (split; [reflexivity|]). split; [unfold StackSize; lia|].
    split; reflexivity. }
  now apply Fork_run.
Qed.

(** A new thread gets the smallest id not in use (or -1, with no id taken,
    when all 128 are); ids stay unique among the live threads. *)
Theorem Thread_Thread_tid s p debugName pri :
  tid_inv (ker s) -> threads (ker s) !! p = None ->
  exists s' t, Thread_Thread p debugName pri s = Ok (tt, s') /\
    threads (ker s') = <[p := t]> (threads (ker s)) /\ status t = JUST_CREATED /\
    tid t = hd (-1) (free_tids (threadMap (ker s))) /\
    (forall i, 0 <= i < tid t -> (threadMap (ker s)).[i] = Some true) /\
    tid_inv (ker s').
Proof.
  intros Hinv Hp. pose proof (ti_length _ Hinv) as Hl. pose proof (allocate_tid_run s Hl) as EA.
  set (m := threadMap (ker s)) in *.
  pose proof (fun i => free_tids_low m i Hl) as Hlow.
  unfold Thread_Thread. destruct (free_tids m) as [|i l] eqn:Ef; mstep_by EA; do 2 eexists; (split; [reflexivity|]).
  - rewrite ker_set_ker. split; [reflexivity|]. do 2 (split; [reflexivity|]). split; [exact Hlow|].
    pose proof (tid_inv_new (ker s) p (-1) m debugName pri Hinv (or_introl (conj eq_refl eq_refl))) as Hn. now destruct (ker s).
  - rewrite !ker_set_ker. split; [reflexivity|]. do 2 (split; [reflexivity|]). split; [exact Hlow|].
    apply tid_inv_new; [exact Hinv|]. right. assert (Hi : i ∈ free_tids m) by (rewrite Ef; left).
    apply free_tids_range in Hi as [? ?]. auto.
Qed.
End properties.

(** * Concrete kernels: a main thread at 1, a ready thread at 2, a new one at 3. *)
#[local] Instance sample_has_kernel : HasKernel Kernel := { kernel d := d; set_kernel k _ := k }.
#[local] Instance sample_has_kernel_laws : HasKernelLaws Kernel.
Proof. now split. Defined.
#[local] Instance sample_hardware : Hardware Kernel unit :=
  { call_handler _ _ := mreturn tt; machine_DelayedLoad _ _ := mreturn tt; thread_Yield := mreturn tt; machine_counters := mreturn (0, 0) }.
#[local] Instance sample_switch : ContextSwitch Kernel unit :=
  { SWITCH _ _ := mreturn tt; SaveUserState _ := mreturn tt; RestoreUserState _ := mreturn tt }.

Definition sample_thread (i : Z) (st : ThreadStatus) : Thread :=
  mkThread None ∅ i 1 1000 0 None st "t" None.
Definition sample_kernel : Kernel :=
  mkKernel (<[1 := sample_thread 0 RUNNING]> (<[2 := sample_thread 1 READY]> (<[3 := sample_thread 2 JUST_CREATED]> ∅)))
    [2] [] 1 None (replicate 3 true ++ replicate 125 false).
Definition sample_ksys : isys Kernel unit :=
  mkIsys Interrupt_Interrupt Statistics_Statistics sample_kernel.

Lemma sample_sched_inv : sched_inv (ker sample_ksys).
Proof.
  split.
  - repeat constructor; set_solver.
  - intros p Hp. apply list_elem_of_singleton in Hp as ->. eexists. split; reflexivity.
  - eexists. split; reflexivity.
  - intros p t Hp. cbn in Hp.
    rewrite !lookup_insert_Some in Hp. set_solver.
Defined.

Lemma Yield_round_robin_witness :
  exists k, currentThread k = 2 /\ readyList k = [1] /\
    Yield 1 sample_ksys =
      ((SWITCH 1 2 >>> Run_return) >>> (let! _ := SetLevel IntOff in mreturn tt)) (set_ker k sample_ksys).
Proof.
  destruct (Yield_round_robin sample_ksys (sample_thread 0 RUNNING) sample_sched_inv eq_refl eq_refl)
    as (k & _ & Hc & Hr & _ & E).
  exists k. split; [exact Hc|]. split; [exact Hr|exact E].
Defined.

Lemma Fork_ready_witness :
  exists k, readyList k = [2; 3] /\
    Fork 3 77 (Int 5) sample_ksys =
      (let! _ := SetLevel IntOff in mreturn tt) (set_ker k sample_ksys).
Proof.
  destruct (Fork_ready sample_ksys 3 (sample_thread 2 JUST_CREATED) 77 (Int 5) sample_sched_inv eq_refl)
    as (k & t' & _ & Hr & _ & _ & _ & _ & _ & _ & _ & _ & _ & _ & E); [set_solver|discriminate|].
  exists k. split; [exact Hr|exact E].
Defined.

Lemma Thread_Thread_tid_witness :
  exists s' t, Thread_Thread 4 "x" 7 sample_ksys = Ok (tt, s') /\ threads (ker s') !! 4 = Some t /\ tid t = 3.
Proof.
  destruct (Thread_Thread_tid sample_ksys 4 "x" 7) as (s' & t & E & Et & _ & Hi & _).
  - split; [reflexivity| |].
    + intros p t Hp Hne. cbn in Hp. rewrite !lookup_insert_Some in Hp.
      destruct Hp as [[<- <-]|[? [[<- <-]|[? [[<- <-]|[? Hp]]]]]]; [reflexivity..|]. now rewrite lookup_empty in Hp.
    + intros p q t u Hp Hq. cbn in Hp, Hq. rewrite !lookup_insert_Some, lookup_empty in Hp, Hq.
      naive_solver.
  - reflexivity.
  - exists s', t. split; [exact E|]. rewrite Et. split; [apply lookup_insert_eq|]. rewrite Hi. reflexivity.
Defined.
