(* ===== verification/Machine.v ===== *)
(** The simulated machine as the kernel sees it: machine/machine.h,
    machine/machine.cc, machine/translate.h, machine/translate.cc and the
    page-fault path of userprog/exception.cc.

    [Machine] has the fields of class Machine together with the globals these
    routines use: memBitMap, the id of currentThread, stats->totalTicks and
    the interrupt status.  A pointer that was never set is [None]
    ([disk], [tlb]); a null page table is the empty table.  [Translate] gives
    [Phys a] for NoException with physAddr set to [a], [Fault e] otherwise.
    The host is a little-endian 32-bit machine whose int arithmetic wraps. *)
From Stdlib Require Import ZArith Lia.
From stdpp Require Import base option list list_numbers.
From S2P Require Import Prelude Stats BitMap HostFile.

Local Open Scope Z_scope.

Definition PageSize : Z := 128.
Definition NumPhysPages : Z := 32.
Definition MemorySize : Z := NumPhysPages * PageSize.
Definition TLBSize : Z := 4.

Definition StackReg : Z := 29.
Definition RetAddrReg : Z := 31.
Definition NumGPRegs : Z := 32.
Definition HiReg : Z := 32.
Definition LoReg : Z := 33.
Definition PCReg : Z := 34.
Definition NextPCReg : Z := 35.
Definition PrevPCReg : Z := 36.
Definition LoadReg : Z := 37.
Definition LoadValueReg : Z := 38.
Definition BadVAddrReg : Z := 39.
Definition NumTotalRegs : Z := 40.

Inductive ExceptionType :=
  | NoException | SyscallException | PageFaultException | ReadOnlyException
  | BusErrorException | AddressErrorException | OverflowException
  | IllegalInstrException.

Record TranslationEntry := mkTranslationEntry {
  virtualPage  : Z;
  physicalPage : Z;
  valid        : bool;
  readOnly     : bool;
  use          : bool;
  dirty        : bool;
  tid          : Z
}.

Record Machine := mkMachine {
  registers    : list Z;
  mainMemory   : list Z;
  tlb          : option (list TranslationEntry);
  pageTable    : list TranslationEntry;
  tlbmiss      : Z;
  tlbhit       : Z;
  pagemiss     : Z;
  pagehit      : Z;
  lasttime     : list Z;
  pageLasttime : list Z;
  disk         : option StubOpenFile;
  memBitMap    : BitMap;
  current_tid  : Z;
  now_ticks   : Z;
  status       : MachineStatus
}.

Section setters.
Implicit Types s : Machine.
Definition set_registers r s := mkMachine r (mainMemory s) (tlb s) (pageTable s)
  (tlbmiss s) (tlbhit s) (pagemiss s) (pagehit s) (lasttime s) (pageLasttime s)
  (disk s) (memBitMap s) (current_tid s) (now_ticks s) (status s).
Definition set_mainMemory m s := mkMachine (registers s) m (tlb s) (pageTable s)
  (tlbmiss s) (tlbhit s) (pagemiss s) (pagehit s) (lasttime s) (pageLasttime s)
  (disk s) (memBitMap s) (current_tid s) (now_ticks s) (status s).
Definition set_tlb t s := mkMachine (registers s) (mainMemory s) t (pageTable s)
  (tlbmiss s) (tlbhit s) (pagemiss s) (pagehit s) (lasttime s) (pageLasttime s)
  (disk s) (memBitMap s) (current_tid s) (now_ticks s) (status s).
Definition set_pageTable t s := mkMachine (registers s) (mainMemory s) (tlb s) t
  (tlbmiss s) (tlbhit s) (pagemiss s) (pagehit s) (lasttime s) (pageLasttime s)
  (disk s) (memBitMap s) (current_tid s) (now_ticks s) (status s).
Definition incr_tlbhit s := mkMachine (registers s) (mainMemory s) (tlb s) (pageTable s)
  (tlbmiss s) (i32 (tlbhit s + 1)) (pagemiss s) (pagehit s) (lasttime s) (pageLasttime s)
  (disk s) (memBitMap s) (current_tid s) (now_ticks s) (status s).
Definition incr_pagemiss s := mkMachine (registers s) (mainMemory s) (tlb s) (pageTable s)
  (tlbmiss s) (tlbhit s) (i32 (pagemiss s + 1)) (pagehit s) (lasttime s) (pageLasttime s)
  (disk s) (memBitMap s) (current_tid s) (now_ticks s) (status s).
Definition incr_pagehit s := mkMachine (registers s) (mainMemory s) (tlb s) (pageTable s)
  (tlbmiss s) (tlbhit s) (pagemiss s) (i32 (pagehit s + 1)) (lasttime s) (pageLasttime s)
  (disk s) (memBitMap s) (current_tid s) (now_ticks s) (status s).
Definition set_lasttime l s := mkMachine (registers s) (mainMemory s) (tlb s) (pageTable s)
  (tlbmiss s) (tlbhit s) (pagemiss s) (pagehit s) l (pageLasttime s)
  (disk s) (memBitMap s) (current_tid s) (now_ticks s) (status s).
Definition set_pageLasttime l s := mkMachine (registers s) (mainMemory s) (tlb s) (pageTable s)
  (tlbmiss s) (tlbhit s) (pagemiss s) (pagehit s) (lasttime s) l
  (disk s) (memBitMap s) (current_tid s) (now_ticks s) (status s).
Definition set_disk d s := mkMachine (registers s) (mainMemory s) (tlb s) (pageTable s)
  (tlbmiss s) (tlbhit s) (pagemiss s) (pagehit s) (lasttime s) (pageLasttime s)
  d (memBitMap s) (current_tid s) (now_ticks s) (status s).
Definition set_memBitMap b s := mkMachine (registers s) (mainMemory s) (tlb s) (pageTable s)
  (tlbmiss s) (tlbhit s) (pagemiss s) (pagehit s) (lasttime s) (pageLasttime s)
  (disk s) b (current_tid s) (now_ticks s) (status s).
Definition set_status st s := mkMachine (registers s) (mainMemory s) (tlb s) (pageTable s)
  (tlbmiss s) (tlbhit s) (pagemiss s) (pagehit s) (lasttime s) (pageLasttime s)
  (disk s) (memBitMap s) (current_tid s) (now_ticks s) st.
End setters.

(** Run an operation of a component on the field that holds it. *)
Definition with_memBitMap {A} (m : M BitMap A) : M Machine A := fun s =>
  match m (memBitMap s) with
  | Ok (a, b) => Ok (a, set_memBitMap b s)
  | Err f => Err f
  end.
Definition with_disk {A} (m : M StubOpenFile A) : M Machine A := fun s =>
  match disk s with
  | None => Err BadAccess
  | Some d => match m d with
              | Ok (a, d') => Ok (a, set_disk (Some d') s)
              | Err f => Err f
              end
  end.

(** registers[i] and registers[i] = v *)
Definition reg (i : Z) : M Machine Z :=
  let! s := mget in mlift ((registers s).[i]).
Definition set_reg (i v : Z) : M Machine unit :=
  let! s := mget in
  let! r := mlift (zupd (registers s) i v) in
  mmodify (set_registers r).

(** Machine::Machine, without a TLB (the default) and with one (USE_TLB).
    The page-table times and the disk pointer are not initialised. *)
Definition empty_entry : TranslationEntry :=
  mkTranslationEntry (-1) (-1) false false false false (-1).
Definition Machine_Machine (use_tlb : bool) (junk_tlb : list TranslationEntry)
    (junk_time : list Z) (bm : BitMap) (thread ticks : Z) (st : MachineStatus) : Machine :=
  mkMachine (replicate (Z.to_nat NumTotalRegs) 0) (replicate (Z.to_nat MemorySize) 0)
    (if use_tlb
     then Some ((fun e => mkTranslationEntry (virtualPage e) (physicalPage e) false
                            (readOnly e) (use e) (dirty e) (tid e)) <$> junk_tlb)
     else None)
    (if use_tlb then [] else replicate (Z.to_nat NumPhysPages) empty_entry)
    0 0 0 0 (replicate 4 ticks) junk_time None bm thread ticks st.

Definition ReadRegister (num : Z) : M Machine Z :=
  ASSERT ((0 <=? num) && (num <? NumTotalRegs)) >>> reg num.
Definition WriteRegister (num value : Z) : M Machine unit :=
  ASSERT ((0 <=? num) && (num <? NumTotalRegs)) >>> set_reg num value.

Definition DelayedLoad (nextReg nextValue : Z) : M Machine unit :=
  let! r := reg LoadReg in
  let! v := reg LoadValueReg in
  set_reg r v >>>
  set_reg LoadReg nextReg >>>
  set_reg LoadValueReg nextValue >>>
  set_reg 0 0.

(** * Byte order: a little-endian host *)
Definition WordToHost (word : Z) : Z := word.
Definition ShortToHost (shortword : Z) : Z := shortword.
Definition WordToMachine (word : Z) : Z := WordToHost word.
Definition ShortToMachine (shortword : Z) : Z := ShortToHost shortword.

(** * Translation *)
Inductive translation :=
  | Fault (e : ExceptionType)
  | Phys (physAddr : Z).

(** [entry] points into the TLB or into the page table. *)
Inductive entry_ptr := InTlb (i : Z) | InTable (i : Z).

Definition read_entry (p : entry_ptr) : M Machine TranslationEntry :=
  let! s := mget in
  match p with
  | InTlb i => match tlb s with
               | Some t => mlift (t.[i])
               | None => mfail BadAccess
               end
  | InTable i => mlift ((pageTable s).[i])
  end.
Definition write_entry (p : entry_ptr) (e : TranslationEntry) : M Machine unit :=
  let! s := mget in
  match p with
  | InTlb i => match tlb s with
               | Some t => let! t' := mlift (zupd t i e) in mmodify (set_tlb (Some t'))
               | None => mfail BadAccess
               end
  | InTable i => let! t := mlift (zupd (pageTable s) i e) in mmodify (set_pageTable t)
  end.

(** The scan of the page table: no break, so the last match is kept. *)
Fixpoint Translate_table (l : list Z) (vpn : Z) (entry : option Z) : M Machine (option Z) :=
  match l with
  | [] => mreturn entry
  | i :: r =>
      let! s := mget in
      let! e := mlift ((pageTable s).[i]) in
      if (current_tid s =? tid e) && valid e && (u32 (virtualPage e) =? vpn) then
        mmodify incr_pagehit >>>
        let! t := mlift (zupd (pageLasttime s) (physicalPage e) (now_ticks s)) in
        mmodify (set_pageLasttime t) >>>
        Translate_table r vpn (Some i)
      else Translate_table r vpn entry
  end.

(** The scan of the TLB stops at the first match. *)
Definition Translate_tlb (t : list TranslationEntry) (vpn : Z) : M Machine (option Z) :=
  mfirst (seqZ 0 TLBSize) (fun i =>
    let! e := mlift (t.[i]) in
    if valid e && (u32 (virtualPage e) =? vpn) then
      let! s := mget in
      let! l := mlift (zupd (lasttime s) i (now_ticks s)) in
      mmodify (set_lasttime l) >>> mmodify incr_tlbhit >>> mreturn (Some i)
    else mreturn None).

Definition set_use (writing : bool) (e : TranslationEntry) : TranslationEntry :=
  mkTranslationEntry (virtualPage e) (physicalPage e) (valid e) (readOnly e) true
    (if writing then true else dirty e) (tid e).

Definition misaligned (virtAddr size : Z) : bool :=
  ((size =? 4) && negb (Z.land virtAddr 3 =? 0)) ||
  ((size =? 2) && negb (Z.land virtAddr 1 =? 0)).

Definition Translate (virtAddr size : Z) (writing : bool) : M Machine translation :=
  if misaligned virtAddr size then mreturn (Fault AddressErrorException)
  else
    let vpn := u32 virtAddr / PageSize in
    let offset := u32 virtAddr mod PageSize in
    let! s := mget in
    let! entry :=
      match tlb s with
      | None =>
          let! r := Translate_table (seqZ 0 NumPhysPages) vpn None in
          match r with
          | None => mmodify incr_pagemiss >>> mreturn None
          | Some i => mreturn (Some (InTable i))
          end
      | Some t =>
          let! r := Translate_tlb t vpn in mreturn (InTlb <$> r)
      end in
    match entry with
    | None => mreturn (Fault PageFaultException)
    | Some p =>
        let! e := read_entry p in
        if readOnly e && writing then mreturn (Fault ReadOnlyException)
        else
          let pageFrame := u32 (physicalPage e) in
          if NumPhysPages <=? pageFrame then mreturn (Fault BusErrorException)
          else
            write_entry p (set_use writing e) >>>
            let physAddr := i32 (pageFrame * PageSize + offset) in
            ASSERT ((0 <=? physAddr) && (physAddr + size <=? MemorySize)) >>>
            mreturn (Phys physAddr)
    end.

(** * Page faults *)

(** First part of LRU: take the first entry never used, if any. *)
Definition LRU_free_at (vpn i : Z) : M Machine (option Z) :=
  let! s := mget in
  let! e := mlift ((pageTable s).[i]) in
  if negb (use e) then
    let! f := with_memBitMap BitMap_Find in
    let! s := mget in
    write_entry (InTable i)
      (mkTranslationEntry (i32 vpn) f true (readOnly e) (use e) (dirty e) (current_tid s)) >>>
    mreturn (Some i)
  else mreturn None.
Definition LRU_free (vpn : Z) : M Machine (option Z) :=
  mfirst (seqZ 0 NumPhysPages) (LRU_free_at vpn).

(** The scan for the smallest time. *)
Fixpoint LRU_scan (l : list Z) (temp temp_i : Z) : M Machine Z :=
  match l with
  | [] => mreturn temp_i
  | i :: r =>
      let! s := mget in
      let! t := mlift ((pageLasttime s).[i]) in
      if t <? temp then LRU_scan r t i else LRU_scan r temp temp_i
  end.

Definition LRU_evict (vpn : Z) : M Machine Z :=
  let! temp_i := LRU_scan (seqZ 0 NumPhysPages) 2147483644 0 in
  let! e := read_entry (InTable temp_i) in
  let! s := mget in
  let! bs := mlift (load (mainMemory s) (i32 (physicalPage e * PageSize)) 128) in
  with_disk (Stub_WriteAt bs (i32 (virtualPage e * PageSize))) >>>
  write_entry (InTable temp_i)
    (mkTranslationEntry (i32 vpn) (physicalPage e) true (readOnly e) (use e) (dirty e)
       (current_tid s)) >>>
  mreturn temp_i.

Definition LRU : M Machine unit :=
  let! virtAddr := reg BadVAddrReg in
  let vpn := u32 virtAddr / PageSize in
  let! free := LRU_free vpn in
  let! temp_i := match free with
                 | Some i => mreturn i
                 | None => LRU_evict vpn
                 end in
  let! e := read_entry (InTable temp_i) in
  let! bs := with_disk (Stub_ReadAt 128 (i32 (u32 (vpn * PageSize)))) in
  let! s := mget in
  let! m := mlift (store (mainMemory s) (i32 (physicalPage e * PageSize)) bs) in
  mmodify (set_mainMemory m).

Definition SC_Halt : Z := 0.

Definition ExceptionHandler (which : ExceptionType) : M Machine unit :=
  let! type := ReadRegister 2 in
  match which with
  | SyscallException => if type =? SC_Halt then mfail Halted else ASSERT false
  | PageFaultException => LRU
  | _ => ASSERT false
  end.

Definition RaiseException (which : ExceptionType) (badVAddr : Z) : M Machine unit :=
  set_reg BadVAddrReg badVAddr >>>
  DelayedLoad 0 0 >>>
  mmodify (set_status SystemMode) >>>
  ExceptionHandler which >>>
  mmodify (set_status UserMode).

(** * Memory accesses: [None] when the code returns FALSE *)
Definition sign_extend_char (b : Z) : Z := if b <? 128 then b else b - 256.

Definition ReadMem (addr size : Z) : M Machine (option Z) :=
  let! t := Translate addr size false in
  match t with
  | Fault e => RaiseException e addr >>> mreturn None
  | Phys physicalAddress =>
      let! s := mget in
      if size =? 1 then
        let! bs := mlift (load (mainMemory s) physicalAddress 1) in
        mreturn (Some (sign_extend_char (le_join bs)))
      else if size =? 2 then
        let! bs := mlift (load (mainMemory s) physicalAddress 2) in
        mreturn (Some (ShortToHost (le_join bs)))
      else if size =? 4 then
        let! bs := mlift (load (mainMemory s) physicalAddress 4) in
        mreturn (Some (i32 (WordToHost (le_join bs))))
      else mfail AssertFailed
  end.

Definition WriteMem (addr size value : Z) : M Machine bool :=
  let! t := Translate addr size true in
  match t with
  | Fault e => RaiseException e addr >>> mreturn false
  | Phys physicalAddress =>
      let! s := mget in
      let! m :=
        (if size =? 1 then
           mlift (store (mainMemory s) physicalAddress (le_split 1 (Z.land value 255)))
         else if size =? 2 then
           mlift (store (mainMemory s) physicalAddress
                    (le_split 2 (ShortToMachine (Z.land value 65535))))
         else if size =? 4 then
           mlift (store (mainMemory s) physicalAddress (le_split 4 (WordToMachine (u32 value))))
         else mfail AssertFailed) in
      mmodify (set_mainMemory m) >>> mreturn true
  end.

(** * Invariant *)
Record entry_ok (e : TranslationEntry) : Prop := {
  ok_frame : valid e = true -> 0 <= physicalPage e < NumPhysPages;
  ok_page  : is_i32 (virtualPage e)
}.

(** Forty 32-bit registers; the target of a delayed load is a general one. *)
Record regs_wf (rs : list Z) : Prop := {
  rw_length : Z.of_nat (length rs) = NumTotalRegs;
  rw_i32    : Forall is_i32 rs;
  rw_load   : forall r, rs.[LoadReg] = Some r -> 0 <= r < NumGPRegs
}.

(** Sizes of the arrays, ranges of their elements, and frames within memory. *)
Record machine_wf (s : Machine) : Prop := {
  wf_regs      : regs_wf (registers s);
  wf_memory    : Z.of_nat (length (mainMemory s)) = MemorySize;
  wf_bytes     : Forall is_byte (mainMemory s);
  wf_tlb       : tlb s = None;
  wf_table     : Z.of_nat (length (pageTable s)) = NumPhysPages;
  wf_entries   : Forall entry_ok (pageTable s);
  wf_ptimes    : Z.of_nat (length (pageLasttime s)) = NumPhysPages
}.

(** What a translation may change besides the entry it uses: the hit and miss
    counters and the times of last use. *)
Record times_step (s s' : Machine) : Prop := {
  ts_registers  : registers s' = registers s;
  ts_memory     : mainMemory s' = mainMemory s;
  ts_tlb        : tlb s' = tlb s;
  ts_table      : pageTable s' = pageTable s;
  ts_disk       : disk s' = disk s;
  ts_bitmap     : memBitMap s' = memBitMap s;
  ts_tid        : current_tid s' = current_tid s;
  ts_ticks      : now_ticks s' = now_ticks s;
  ts_status     : status s' = status s;
  ts_ptimes     : length (pageLasttime s') = length (pageLasttime s)
}.

#[global] Instance times_step_refl : Reflexive times_step.
Proof. split; reflexivity. Qed.
#[global] Instance times_step_trans : Transitive times_step.
Proof. intros s1 s2 s3 [] []. split; congruence. Qed.

(** The page [vpn] of the running thread is mapped by entry [e]. *)
Definition maps (s : Machine) (vpn : Z) (e : TranslationEntry) : bool :=
  (current_tid s =? tid e) && valid e && (u32 (virtualPage e) =? vpn).
Definition maps_at (s : Machine) (vpn i : Z) : bool :=
  match (pageTable s).[i] with Some e => maps s vpn e | None => false end.
Definition hits (s : Machine) (vpn : Z) (l : list Z) : list Z :=
  filter (fun i => maps_at s vpn i = true) l.
Definition lookup_page (s : Machine) (vpn : Z) : option Z :=
  last (hits s vpn (seqZ 0 NumPhysPages)).

Section register_lemmas.
Implicit Types s : Machine.

Lemma reg_ok s i : regs_wf (registers s) -> 0 <= i < NumTotalRegs ->
  exists v, reg i s = Ok (v, s) /\ (registers s).[i] = Some v /\ is_i32 v.
Proof.
  intros [Hl H32 _] Hi. destruct (zlookup_lt (registers s) i) as [v Hv]; [lia|].
  exists v. split; [unfold reg; mstep_to s s; now rewrite Hv|]. split; [exact Hv|].
  eapply zlookup_Forall; eassumption.
Qed.

Lemma set_reg_ok s i v :
  regs_wf (registers s) -> 0 <= i < NumTotalRegs ->
  set_reg i v s = Ok (tt, set_registers (<[Z.to_nat i := v]> (registers s)) s).
Proof.
  intros [Hl _ _] Hi. unfold set_reg. mstep_to s s. rewrite zupd_lt by lia. reflexivity.
Qed.

Lemma regs_wf_insert rs i v :
  regs_wf rs -> 0 <= i < NumTotalRegs -> is_i32 v ->
  (i = LoadReg -> 0 <= v < NumGPRegs) -> regs_wf (<[Z.to_nat i := v]> rs).
Proof.
  intros [Hl H32 Hr] Hi Hv Hload. split; [now rewrite length_insert|now apply Forall_insert_Z|].
  intros r. rewrite zlookup_insert by lia. case_decide; [intros [= <-]; auto|apply Hr].
Qed.

Definition delayed (rs : list Z) (lr lv r v : Z) : list Z :=
  <[Z.to_nat 0 := 0]> (<[Z.to_nat LoadValueReg := v]> (<[Z.to_nat LoadReg := r]>
    (<[Z.to_nat lr := lv]> rs))).

Lemma DelayedLoad_ok s r v :
  regs_wf (registers s) -> 0 <= r < NumGPRegs -> is_i32 v ->
  exists lr lv, (registers s).[LoadReg] = Some lr /\ (registers s).[LoadValueReg] = Some lv /\
    0 <= lr < NumGPRegs /\ regs_wf (delayed (registers s) lr lv r v) /\
    DelayedLoad r v s = Ok (tt, set_registers (delayed (registers s) lr lv r v) s).
Proof.
  intros Hwf Hr Hv.
  destruct (reg_ok s LoadReg Hwf) as (lr & E1 & Hlr & _); [split; [discriminate|reflexivity]|].
  destruct (reg_ok s LoadValueReg Hwf) as (lv & E2 & Hlv & H32); [split; [discriminate|reflexivity]|].
  pose proof (rw_load _ Hwf _ Hlr) as Hrange. exists lr, lv. do 3 (split; [assumption|]).
  unfold NumGPRegs, LoadReg, LoadValueReg in *.
  assert (W1 : regs_wf (<[Z.to_nat lr := lv]> (registers s)))
    by (apply regs_wf_insert; unfold LoadReg, NumTotalRegs in *; auto; lia).
  assert (W2 : regs_wf (<[Z.to_nat 37 := r]> (<[Z.to_nat lr := lv]> (registers s)))).
  { apply regs_wf_insert; auto; unfold LoadReg, NumTotalRegs, NumGPRegs, is_i32 in *; lia. }
  assert (W3 : regs_wf (<[Z.to_nat 38 := v]> (<[Z.to_nat 37 := r]> (<[Z.to_nat lr := lv]> (registers s)))))
    by (apply regs_wf_insert; auto; unfold LoadReg, NumTotalRegs in *; lia).
  split.
  - apply regs_wf_insert; auto; unfold LoadReg, NumTotalRegs, is_i32; lia.
  - unfold DelayedLoad. mstep_by E1. mstep_by E2.
    unfold NumTotalRegs in *.
    mstep_by (set_reg_ok s lr lv Hwf ltac:(unfold NumTotalRegs; lia)).
    mstep_by (set_reg_ok (set_registers _ s) 37 r W1 ltac:(unfold NumTotalRegs; lia)).
    mstep_by (set_reg_ok (set_registers _ s) 38 v W2 ltac:(unfold NumTotalRegs; lia)).
    exact (set_reg_ok (set_registers _ s) 0 0 W3 ltac:(unfold NumTotalRegs; lia)).
Qed.

Lemma delayed_lookup rs lr lv r v i :
  Z.of_nat (length rs) = NumTotalRegs -> 0 <= lr < NumGPRegs ->
  (delayed rs lr lv r v).[i] =
    if decide (i = 0) then Some 0
    else if decide (i = LoadValueReg) then Some v
    else if decide (i = LoadReg) then Some r
    else if decide (i = lr) then Some lv else rs.[i].
Proof.
  intros Hl Hr. unfold delayed, NumTotalRegs, NumGPRegs, LoadReg, LoadValueReg in *.
  rewrite !zlookup_insert by (rewrite ?length_insert; lia). repeat case_decide; congruence.
Qed.
End register_lemmas.

Section translate_lemmas.
Implicit Types s : Machine.

Lemma seqZ_bound n : Forall (fun i => 0 <= i < n) (seqZ 0 n).
Proof. apply Forall_forall. intros i Hi. apply elem_of_seqZ in Hi. lia. Qed.

Lemma hits_times s s' vpn l : times_step s s' -> hits s' vpn l = hits s vpn l.
Proof. intros [_ _ _ Ht _ _ Hc _ _ _]. unfold hits, maps_at, maps. now rewrite Ht, Hc. Qed.

Lemma Translate_table_spec s vpn l entry :
  machine_wf s -> Forall (fun i => 0 <= i < NumPhysPages) l ->
  exists s', times_step s s' /\
    Translate_table l vpn entry s =
      Ok (match last (hits s vpn l) with Some i => Some i | None => entry end, s').
Proof.
  intros Hwf Hl. revert s Hwf entry.
  induction Hl as [|i l Hi _ IH]; intros s Hwf entry; [exists s; split; reflexivity|].
  destruct (zlookup_lt (pageTable s) i) as [e He]; [rewrite wf_table; auto|].
  cbn [Translate_table]. mstep_to s s. rewrite He. mstep_to e s.
  assert (Hma : maps_at s vpn i = maps s vpn e) by (unfold maps_at; now rewrite He).
  unfold hits. rewrite filter_cons. fold (hits s vpn l) (maps s vpn e).
  destruct (maps s vpn e) eqn:Em; case_decide as Hd; try congruence.
  - assert (Hok : entry_ok e) by (eapply zlookup_Forall; [apply Hwf|exact He]).
    assert (valid e = true) as Hv by (unfold maps in Em; bool_hyps; assumption).
    mstep_to tt (incr_pagehit s).
    rewrite zupd_lt by (rewrite wf_ptimes by exact Hwf; now apply Hok).
    set (t := <[Z.to_nat (physicalPage e) := now_ticks s]> (pageLasttime s)).
    mstep_to t (incr_pagehit s). set (s1 := set_pageLasttime t (incr_pagehit s)).
    mstep_to tt s1.
    assert (Hs1 : times_step s s1) by (split; try reflexivity; apply length_insert).
    assert (Hwf1 : machine_wf s1).
    { destruct Hwf. split; try assumption. cbn. unfold t. now rewrite length_insert. }
    destruct (IH s1 Hwf1 (Some i)) as (s' & Hs' & E). rewrite E.
    exists s'. split; [now transitivity s1|]. rewrite (hits_times s s1) by exact Hs1.
    rewrite last_cons. destruct (last (hits s vpn l)); reflexivity.
  - destruct (IH s Hwf entry) as (s' & Hs' & E). exists s'. now split.
Qed.

Lemma misaligned_page va size :
  size = 1 \/ size = 2 \/ size = 4 -> misaligned va size = false ->
  0 <= u32 va mod PageSize /\ u32 va mod PageSize + size <= PageSize.
Proof.
  unfold misaligned, PageSize, u32. intros Hs Ha. apply orb_false_iff in Ha as [H4 H2].
  pose proof (Z.mod_pos_bound (va mod 2 ^ 32) 128).
  split; [lia|]. destruct Hs as [->|[->| ->]]; [lia|..].
  - change (2 =? 2) with true in H2. cbn [andb] in H2. bool_hyps.
    change 1 with (Z.ones 1) in H2. rewrite Z.land_ones in H2 by lia. change (2 ^ 1) with 2 in H2.
    pose proof (Z.div_mod va (2 ^ 32)). pose proof (Z.div_mod (va mod 2 ^ 32) 128).
    pose proof (Z.div_mod va 2). lia.
  - change (4 =? 4) with true in H4. cbn [andb] in H4. bool_hyps.
    change 3 with (Z.ones 2) in H4. rewrite Z.land_ones in H4 by lia. change (2 ^ 2) with 4 in H4.
    pose proof (Z.div_mod va (2 ^ 32)). pose proof (Z.div_mod (va mod 2 ^ 32) 128).
    pose proof (Z.div_mod va 4). lia.
Qed.

Definition vpn_of (va : Z) : Z := u32 va / PageSize.
Definition offset_of (va : Z) : Z := u32 va mod PageSize.

(** No entry: a page fault, whatever the access. *)
Lemma Translate_miss s va size wr :
  machine_wf s -> misaligned va size = false -> lookup_page s (vpn_of va) = None ->
  exists s', times_step s s' /\ Translate va size wr s = Ok (Fault PageFaultException, s').
Proof.
  intros Hwf Ha Hm. unfold Translate. rewrite Ha. mstep_to s s. rewrite (wf_tlb s Hwf).
  destruct (Translate_table_spec s (vpn_of va) (seqZ 0 NumPhysPages) None Hwf)
    as (s1 & Hs1 & E); [apply seqZ_bound|].
  unfold lookup_page in Hm. rewrite Hm in E.
  exists (incr_pagemiss s1). split; [destruct Hs1; split; assumption|].
  unfold vpn_of in E. unfold mthen at 1 2. rewrite E. reflexivity.
Qed.

Lemma lookup_page_entry s vpn i :
  machine_wf s -> lookup_page s vpn = Some i ->
  0 <= i < NumPhysPages /\ exists e, (pageTable s).[i] = Some e /\ maps s vpn e = true /\ entry_ok e.
Proof.
  intros Hwf H. apply last_Some_elem_of in H. unfold hits in H.
  apply list_elem_of_filter in H as [H Hi]. apply elem_of_seqZ in Hi.
  unfold maps_at in H. split; [lia|]. destruct ((pageTable s).[i]) as [e|] eqn:Ee; [|discriminate].
  exists e. split; [reflexivity|]. split; [exact H|].
  eapply zlookup_Forall; [apply Hwf|exact Ee].
Qed.

(** An entry: the frame is in memory, the ASSERT holds, and only the use and
    dirty bits of that entry (and the times) change. *)
Lemma Translate_hit s va size wr i e :
  machine_wf s -> size = 1 \/ size = 2 \/ size = 4 -> misaligned va size = false ->
  lookup_page s (vpn_of va) = Some i -> (pageTable s).[i] = Some e ->
  exists s1, times_step s s1 /\
    Translate va size wr s =
      if readOnly e && wr then Ok (Fault ReadOnlyException, s1)
      else Ok (Phys (physicalPage e * PageSize + offset_of va),
               set_pageTable (<[Z.to_nat i := set_use wr e]> (pageTable s)) s1).
Proof.
  intros Hwf Hsz Ha Hl He.
  destruct (lookup_page_entry s _ i Hwf Hl) as (Hi & e' & He' & Hm & Hok).
  rewrite He in He'. injection He' as <-.
  assert (Hv : valid e = true) by (unfold maps in Hm; bool_hyps; assumption).
  pose proof (ok_frame e Hok Hv) as Hf. unfold NumPhysPages in Hf.
  pose proof (misaligned_page va size Hsz Ha) as [Ho Hoff].
  unfold Translate. rewrite Ha. mstep_to s s. rewrite (wf_tlb s Hwf).
  destruct (Translate_table_spec s (vpn_of va) (seqZ 0 NumPhysPages) None Hwf)
    as (s1 & Hs1 & E); [apply seqZ_bound|].
  unfold lookup_page in Hl. rewrite Hl in E. exists s1. split; [exact Hs1|].
  unfold vpn_of in E. unfold mthen at 1 2. rewrite E. cbv beta iota. cbn [mreturn].
  assert (He1 : read_entry (InTable i) s1 = Ok (e, s1)).
  { unfold read_entry. mstep_to s1 s1. rewrite (ts_table _ _ Hs1), He. reflexivity. }
  mstep_by He1. destruct (readOnly e && wr)%bool; [reflexivity|].
  rewrite (u32_id (physicalPage e)) by lia.
  destruct (Z.leb_spec NumPhysPages (physicalPage e)); [unfold NumPhysPages in *; lia|].
  assert (Hw : write_entry (InTable i) (set_use wr e) s1 =
               Ok (tt, set_pageTable (<[Z.to_nat i := set_use wr e]> (pageTable s)) s1)).
  { unfold write_entry. mstep_to s1 s1. rewrite (ts_table _ _ Hs1).
    rewrite zupd_lt by (rewrite wf_table; auto). reflexivity. }
  mstep_by Hw. unfold PageSize in *. rewrite i32_id by (unfold is_i32; lia).
  rewrite (proj2 (andb_true_iff _ _)); [reflexivity|].
  split; [apply Z.leb_le; lia|apply Z.leb_le; unfold MemorySize, NumPhysPages, PageSize; lia].
Qed.
End translate_lemmas.

(** * Memory accesses to a mapped page *)
Section access_lemmas.
Implicit Types s : Machine.

(** The value a load of [size] bytes gives for those bytes. *)
Definition of_bytes (size : Z) (bs : list Z) : Z :=
  if size =? 1 then sign_extend_char (le_join bs)
  else if size =? 2 then le_join bs else i32 (le_join bs).
Definition to_bytes (size v : Z) : list Z := le_split (Z.to_nat size) v.
(** ... and for a value that was stored. *)
Definition truncate (size v : Z) : Z :=
  if size =? 1 then sign_extend_char (v mod 256)
  else if size =? 2 then v mod 65536 else i32 v.

Definition access_size (size : Z) : Prop := size = 1 \/ size = 2 \/ size = 4.

Lemma of_to_bytes size v : access_size size -> of_bytes size (to_bytes size v) = truncate size v.
Proof.
  unfold of_bytes, to_bytes, truncate. intros [->|[->| ->]]; simpl Z.eqb; cbv iota;
    rewrite le_join_split; try reflexivity.
  change (256 ^ Z.of_nat (Z.to_nat 4)) with (2 ^ 32). apply (i32_u32 v).
Qed.

Lemma length_to_bytes size v : access_size size -> Z.of_nat (length (to_bytes size v)) = size.
Proof. unfold to_bytes. rewrite length_le_split. unfold access_size. lia. Qed.

Lemma ReadMem_hit s va size i e :
  machine_wf s -> access_size size -> misaligned va size = false ->
  lookup_page s (vpn_of va) = Some i -> (pageTable s).[i] = Some e ->
  let pa := physicalPage e * PageSize + offset_of va in
  exists s1, times_step s s1 /\
    ReadMem va size s =
      Ok (Some (of_bytes size (slice (mainMemory s) pa size)),
          set_pageTable (<[Z.to_nat i := set_use false e]> (pageTable s)) s1).
Proof.
  intros Hwf Hsz Ha Hl He pa.
  destruct (Translate_hit s va size false i e Hwf Hsz Ha Hl He) as (s1 & Hs1 & E).
  rewrite andb_false_r in E. exists s1. split; [exact Hs1|].
  destruct (lookup_page_entry s _ i Hwf Hl) as (Hi & e' & He' & Hm & Hok).
  rewrite He in He'. injection He' as <-.
  assert (Hv : valid e = true) by (unfold maps in Hm; bool_hyps; assumption).
  pose proof (ok_frame e Hok Hv) as Hf. pose proof (misaligned_page va size Hsz Ha) as Ho.
  fold (offset_of va) in Ho. unfold ReadMem. mstep_by E. unfold mthen at 1, mget. cbv beta iota.
  cbn [mainMemory set_pageTable]. rewrite (ts_memory _ _ Hs1).
  assert (Hld : load (mainMemory s) pa size = Some (slice (mainMemory s) pa size)).
  { pose proof (wf_memory s Hwf) as Hm'. unfold MemorySize, NumPhysPages, PageSize in *.
    apply load_ok; subst pa; destruct Hsz as [->|[->| ->]]; lia. }
  destruct Hsz as [->|[->| ->]]; simpl Z.eqb; cbv iota; fold pa; rewrite Hld; reflexivity.
Qed.

Lemma WriteMem_hit s va size v i e :
  machine_wf s -> access_size size -> misaligned va size = false ->
  lookup_page s (vpn_of va) = Some i -> (pageTable s).[i] = Some e -> readOnly e = false ->
  let pa := physicalPage e * PageSize + offset_of va in
  exists s1, times_step s s1 /\ 0 <= pa /\ pa + size <= MemorySize /\
    WriteMem va size v s =
      Ok (true, set_mainMemory (splice (mainMemory s) pa (to_bytes size v))
                  (set_pageTable (<[Z.to_nat i := set_use true e]> (pageTable s)) s1)).
Proof.
  intros Hwf Hsz Ha Hl He Hro pa.
  destruct (Translate_hit s va size true i e Hwf Hsz Ha Hl He) as (s1 & Hs1 & E).
  rewrite Hro in E. cbn [andb] in E. exists s1. split; [exact Hs1|].
  destruct (lookup_page_entry s _ i Hwf Hl) as (Hi & e' & He' & Hm & Hok).
  rewrite He in He'. injection He' as <-.
  assert (Hv : valid e = true) by (unfold maps in Hm; bool_hyps; assumption).
  pose proof (ok_frame e Hok Hv) as Hf. pose proof (misaligned_page va size Hsz Ha) as Ho.
  fold (offset_of va) in Ho.
  assert (Hpa : 0 <= pa /\ pa + size <= MemorySize).
  { unfold MemorySize, NumPhysPages, PageSize in *. subst pa. unfold PageSize. lia. }
  split; [apply Hpa|]. split; [apply Hpa|].
  unfold WriteMem. mstep_by E. unfold mthen at 1, mget. cbv beta iota.
  cbn [mainMemory set_pageTable]. rewrite (ts_memory _ _ Hs1).
  assert (Hst : store (mainMemory s) pa (to_bytes size v)
                = Some (splice (mainMemory s) pa (to_bytes size v))).
  { apply store_ok; [lia|]. rewrite length_to_bytes by exact Hsz. rewrite (wf_memory s Hwf). lia. }
  assert (Hb : to_bytes size v = le_split (Z.to_nat size) (v mod 256 ^ size)).
  { unfold to_bytes. rewrite <- le_split_mod. f_equal. f_equal. f_equal.
    rewrite Z2Nat.id; [reflexivity|]. unfold access_size in Hsz. lia. }
  rewrite Hb in Hst |- *.
  destruct Hsz as [->|[->| ->]]; simpl Z.eqb; cbv iota; fold pa.
  - change 255 with (Z.ones 8). rewrite Z.land_ones by lia.
    change (2 ^ 8) with (256 ^ 1). change 1%nat with (Z.to_nat 1). rewrite Hst. reflexivity.
  - change 65535 with (Z.ones 16). rewrite Z.land_ones by lia.
    change (2 ^ 16) with (256 ^ 2). change 2%nat with (Z.to_nat 2).
    unfold ShortToMachine, ShortToHost. rewrite Hst. reflexivity.
  - unfold WordToMachine, WordToHost, u32. change (2 ^ 32) with (256 ^ 4).
    change 4%nat with (Z.to_nat 4). rewrite Hst. reflexivity.
Qed.

(** Setting use and dirty bits changes neither the mapping nor the invariant. *)
Lemma maps_set_use s wr e s' vpn :
  current_tid s' = current_tid s -> maps s' vpn (set_use wr e) = maps s vpn e.
Proof. intros Hc. unfold maps, set_use. cbn. now rewrite Hc. Qed.

Lemma maps_at_set_use s s' i e wr vpn j :
  current_tid s' = current_tid s -> pageTable s' = <[Z.to_nat i := set_use wr e]> (pageTable s) ->
  0 <= i < Z.of_nat (length (pageTable s)) -> (pageTable s).[i] = Some e ->
  maps_at s' vpn j = maps_at s vpn j.
Proof.
  intros Hc Ht Hi He. unfold maps_at. rewrite Ht, zlookup_insert by exact Hi.
  case_decide as E; [subst j; rewrite He; now apply maps_set_use|].
  destruct ((pageTable s).[j]); [|reflexivity]. unfold maps. now rewrite Hc.
Qed.

Lemma lookup_page_ext s s' vpn :
  (forall j, maps_at s' vpn j = maps_at s vpn j) -> lookup_page s' vpn = lookup_page s vpn.
Proof.
  intros H. unfold lookup_page, hits. f_equal. apply filter_ext_in. intros j _. now rewrite H.
Qed.

Lemma entry_ok_set_use wr e : entry_ok e -> entry_ok (set_use wr e).
Proof. intros []. split; assumption. Qed.

Lemma machine_wf_access s s1 s' i e wr m :
  machine_wf s -> times_step s s1 -> (pageTable s).[i] = Some e ->
  length m = length (mainMemory s) -> Forall is_byte m ->
  s' = set_mainMemory m (set_pageTable (<[Z.to_nat i := set_use wr e]> (pageTable s)) s1) ->
  machine_wf s'.
Proof.
  intros [] [] He Hl Hb ->. split; cbn; try congruence.
  - now rewrite length_insert.
  - apply Forall_insert_Z; [assumption|]. apply entry_ok_set_use.
    eapply zlookup_Forall; eassumption.
Qed.
End access_lemmas.

(** * Properties *)

(** C37: On a well-formed machine [Translate] always returns and its ASSERT
    never fails.  An unaligned access is an address error and changes
    nothing; an unmapped page is a page fault that only counts a miss; a
    write to a read-only page is refused; every other access yields
    frame * PageSize + offset, with all [size] bytes inside memory, and sets
    the use bit (and the dirty bit of a write) of the entry it went through. *)
Theorem Translate_total (s : Machine) (va size : Z) (writing : bool) :
  machine_wf s -> access_size size ->
  if misaligned va size then Translate va size writing s = Ok (Fault AddressErrorException, s)
  else match lookup_page s (vpn_of va) with
  | None => exists s1, times_step s s1 /\
              Translate va size writing s = Ok (Fault PageFaultException, s1)
  | Some i =>
      exists e s1, (pageTable s).[i] = Some e /\ times_step s s1 /\
        if readOnly e && writing
        then Translate va size writing s = Ok (Fault ReadOnlyException, s1)
        else let pa := physicalPage e * PageSize + offset_of va in
             0 <= pa /\ pa + size <= MemorySize /\
             Translate va size writing s =
               Ok (Phys pa, set_pageTable (<[Z.to_nat i := set_use writing e]> (pageTable s)) s1)
  end.
Proof.
  intros Hwf Hsz. destruct (misaligned va size) eqn:Ha.
  { unfold Translate. now rewrite Ha. }
  destruct (lookup_page s (vpn_of va)) as [i|] eqn:El; [|now apply Translate_miss].
  destruct (lookup_page_entry s _ i Hwf El) as (Hi & e & He & Hm & Hok).
  destruct (Translate_hit s va size writing i e Hwf Hsz Ha El He) as (s1 & Hs1 & E).
  exists e, s1. split; [exact He|]. split; [exact Hs1|].
  destruct (readOnly e && writing)%bool; [exact E|]. split; [|split; [|exact E]].
  all: assert (Hv : valid e = true) by (unfold maps in Hm; bool_hyps; assumption).
  all: pose proof (ok_frame e Hok Hv) as Hf; pose proof (misaligned_page va size Hsz Ha) as Ho.
  all: unfold offset_of, MemorySize, NumPhysPages, PageSize in *; lia.
Qed.

(** * Concrete machines *)

(** The machine at start-up with a swap file attached. *)
Definition start_machine (program : list Z) : Machine :=
  set_disk (Some (Stub_OpenFile (mkUnixFile program 0)))
    (Machine_Machine false [] (replicate 32 0) (mkBitMap 32 1 [0]) 5 0 UserMode).

Lemma zlookup_replicate {A} n (x y : A) i : (replicate n x).[i] = Some y -> y = x.
Proof. rewrite zlookup_Some. intros [_ H]. now apply lookup_replicate in H as [? _]. Qed.

Lemma start_wf program : machine_wf (start_machine program).
Proof.
  split; cbn [registers mainMemory tlb pageTable pageLasttime start_machine set_disk Machine_Machine];
    rewrite ?length_replicate; try reflexivity.
  - split; [reflexivity|repeat constructor; unfold is_i32; lia|].
    intros r Hr. vm_compute in Hr. injection Hr as <-. unfold NumGPRegs. lia.
  - apply Forall_replicate. unfold is_byte. lia.
  - apply Forall_replicate. split; cbn; [discriminate|unfold is_i32; lia].
Qed.

Lemma Translate_total_witness :
  Translate 3 4 false (start_machine [1; 2]) = Ok (Fault AddressErrorException, start_machine [1; 2]) /\
  exists s1, Translate 384 4 true (start_machine [1; 2]) = Ok (Fault PageFaultException, s1).
Proof.
  split.
  - exact (Translate_total (start_machine [1; 2]) 3 4 false (start_wf _) (or_intror (or_intror eq_refl))).
  - destruct (Translate_total (start_machine [1; 2]) 384 4 true (start_wf _)
                (or_intror (or_intror eq_refl))) as (s1 & _ & H).
    exists s1. exact H.
Defined.
