(* ===== verification/CmdLine.v ===== *)
(** threads/main.cc, the command line of threads/system.cc and the debugging
    flags of threads/utility.cc.

    The arguments of a Nachos command are read twice: Initialize (system.cc)
    takes the options of the kernel out of them, and the loop of main
    (main.cc) then goes over the same arguments and runs the commands it
    finds.  [Build] has the macros of the Makefiles that decide which flags are
    known.  What main calls is an interface, [Commands]: main is proved against
    it, and Shell.v gives the file system's commands.

    [argv] is the list of the words that are left, without the name of the
    program at its head once the loop has started; both loops have as much
    fuel as there are words, and every round takes one to three of them.
    strcmp, strchr and atoi are those of the C library; a number that does not
    fit an int is left as it is (C leaves it undefined).  The reliability is
    the word that atof is applied to, [None] for the default 1. *)
From Stdlib Require Import ZArith Lia String Ascii.
From stdpp Require Import base option list.
From S2P Require Import Prelude.

Local Open Scope Z_scope.
Local Open Scope string_scope.

(** * The C library *)
Definition is_digit (c : ascii) : bool :=
  let n := nat_of_ascii c in (48 <=? n)%nat && (n <=? 57)%nat.
Definition is_space (c : ascii) : bool :=
  let n := nat_of_ascii c in (n =? 32)%nat || ((9 <=? n)%nat && (n <=? 13)%nat).

Fixpoint atoi_digits (acc : Z) (s : string) : Z :=
  match s with
  | String c r =>
      if is_digit c then atoi_digits (10 * acc + (Z.of_nat (nat_of_ascii c) - 48)) r else acc
  | EmptyString => acc
  end.
Fixpoint atoi (s : string) : Z :=
  match s with
  | String c r =>
      if is_space c then atoi r
      else if Ascii.eqb c "-"%char then - atoi_digits 0 r
      else if Ascii.eqb c "+"%char then atoi_digits 0 r
      else atoi_digits 0 s
  | EmptyString => 0
  end.

Fixpoint has_char (s : string) (c : ascii) : bool :=
  match s with
  | String d r => Ascii.eqb d c || has_char r c
  | EmptyString => false
  end.
(** strchr also finds the NUL at the end. *)
Definition strchr (s : string) (c : ascii) : bool := has_char s c || Ascii.eqb c zero.

(** * utility.cc *)

(** [enableFlags] is the static variable, NULL before DebugInit. *)
Definition DebugInit (flagList : string) : option string := Some flagList.
Definition DebugIsEnabled (enableFlags : option string) (flag : ascii) : bool :=
  match enableFlags with
  | Some fs => strchr fs flag || strchr fs "+"%char
  | None => false
  end.

(** * The options of Initialize *)
Record Build := mkBuild {
  USER_PROGRAM   : bool;
  FILESYS_NEEDED : bool;
  FILESYS        : bool;
  NETWORK        : bool
}.

Record Options := mkOptions {
  debugArgs     : string;
  randomYield   : bool;
  seeds         : list Z;          (* the calls of RandomInit *)
  debugUserProg : bool;
  format        : bool;
  rely          : option string;
  netname       : Z
}.

Definition default_options : Options := mkOptions "" false [] false false None 0.

Definition set_debugArgs (x : string) (o : Options) : Options :=
  mkOptions x (randomYield o) (seeds o) (debugUserProg o) (format o) (rely o) (netname o).
Definition set_random (seed : Z) (o : Options) : Options :=
  mkOptions (debugArgs o) true (seeds o ++ [seed]) (debugUserProg o) (format o) (rely o) (netname o).
Definition set_debugUserProg (o : Options) : Options :=
  mkOptions (debugArgs o) (randomYield o) (seeds o) true (format o) (rely o) (netname o).
Definition set_format (o : Options) : Options :=
  mkOptions (debugArgs o) (randomYield o) (seeds o) (debugUserProg o) true (rely o) (netname o).
Definition set_rely (x : string) (o : Options) : Options :=
  mkOptions (debugArgs o) (randomYield o) (seeds o) (debugUserProg o) (format o) (Some x) (netname o).
Definition set_netname (n : Z) (o : Options) : Options :=
  mkOptions (debugArgs o) (randomYield o) (seeds o) (debugUserProg o) (format o) (rely o) n.

(** [( *argv, argc)], and [*(argv + i)]. *)
Definition arg {S} (argv : list string) (i : nat) : M S string := mlift (argv !! i).
Definition when {S} (b : bool) (m : M S unit) : M S unit := if b then m else mreturn tt.

(** One round of Initialize's loop; the result is argCount. *)
Definition option_round (b : Build) (argv : list string) : M Options nat :=
  let argc := Z.of_nat (length argv) in
  let! a := arg argv 0 in
  let! argCount :=
    (if a =? "-d" then
       if (argc =? 1)%Z then mmodify (set_debugArgs "+") >>> mreturn 1%nat
       else let! x := arg argv 1 in mmodify (set_debugArgs x) >>> mreturn 2%nat
     else if a =? "-rs" then
       ASSERT (1 <? argc)%Z >>>
       let! x := arg argv 1 in
       mmodify (set_random (u32 (atoi x))) >>> mreturn 2%nat
     else mreturn 1%nat) in
  when (USER_PROGRAM b && (a =? "-s")) (mmodify set_debugUserProg) >>>
  when (FILESYS_NEEDED b && (a =? "-f")) (mmodify set_format) >>>
  if NETWORK b then
    if a =? "-l" then
      ASSERT (1 <? argc)%Z >>>
      let! x := arg argv 1 in mmodify (set_rely x) >>> mreturn 2%nat
    else if a =? "-m" then
      ASSERT (1 <? argc)%Z >>>
      let! x := arg argv 1 in mmodify (set_netname (atoi x)) >>> mreturn 2%nat
    else mreturn argCount
  else mreturn argCount.

(** The loop of both routines: a round says how many words it has used. *)
Fixpoint arg_loop {S} (round : list string -> M S nat) (fuel : nat) (argv : list string) : M S unit :=
  match argv with
  | [] => mreturn tt
  | _ =>
      match fuel with
      | O => mfail OutOfFuel
      | Datatypes.S n => let! argCount := round argv in arg_loop round n (drop argCount argv)
      end
  end.

(** argc--, argv++ and the loop. *)
Definition read_args {S} (round : list string -> M S nat) (argv : list string) : M S unit :=
  arg_loop round (length (tail argv)) (tail argv).

Definition Initialize_options (b : Build) (argv : list string) : M Options unit :=
  read_args (option_round b) argv.

(** * main *)
Record Commands (S : Type) := mkCommands {
  print_copyright  : M S unit;
  do_StartProcess  : string -> M S unit;
  do_ConsoleTest   : option (string * string) -> M S unit;
  do_Halt          : M S unit;
  do_Copy          : string -> string -> M S unit;
  do_Print         : string -> M S unit;
  do_Remove        : string -> M S unit;
  do_List          : M S unit;
  do_FsPrint       : M S unit;
  do_PerformanceTest : M S unit;
  do_Delay         : Z -> M S unit;
  do_MailTest      : Z -> M S unit
}.
Arguments mkCommands {S}.
Arguments print_copyright {S}.
Arguments do_StartProcess {S}.
Arguments do_ConsoleTest {S}.
Arguments do_Halt {S}.
Arguments do_Copy {S}.
Arguments do_Print {S}.
Arguments do_Remove {S}.
Arguments do_List {S}.
Arguments do_FsPrint {S}.
Arguments do_PerformanceTest {S}.
Arguments do_Delay {S}.
Arguments do_MailTest {S}.

Section main.
Context {S : Type}.
Variable b : Build.
Variable c : Commands S.

(** #ifdef USER_PROGRAM *)
Definition user_command (argv : list string) (argCount : nat) : M S nat :=
  let argc := Z.of_nat (length argv) in
  let! a := arg argv 0 in
  if a =? "-x" then
    ASSERT (1 <? argc)%Z >>>
    let! f := arg argv 1 in do_StartProcess c f >>> mreturn 2%nat
  else if a =? "-c" then
    let! n :=
      (if (argc =? 1)%Z then do_ConsoleTest c None >>> mreturn argCount
       else
         ASSERT (2 <? argc)%Z >>>
         let! i := arg argv 1 in let! o := arg argv 2 in
         do_ConsoleTest c (Some (i, o)) >>> mreturn 3%nat) in
    do_Halt c >>> mreturn n
  else mreturn argCount.

(** #ifdef FILESYS *)
Definition file_command (argv : list string) (argCount : nat) : M S nat :=
  let argc := Z.of_nat (length argv) in
  let! a := arg argv 0 in
  if a =? "-cp" then
    ASSERT (2 <? argc)%Z >>>
    let! f := arg argv 1 in let! t := arg argv 2 in
    do_Copy c f t >>> mreturn 3%nat
  else if a =? "-p" then
    ASSERT (1 <? argc)%Z >>>
    let! f := arg argv 1 in do_Print c f >>> mreturn 2%nat
  else if a =? "-r" then
    ASSERT (1 <? argc)%Z >>>
    let! f := arg argv 1 in do_Remove c f >>> mreturn 2%nat
  else if a =? "-l" then do_List c >>> mreturn argCount
  else if a =? "-D" then do_FsPrint c >>> mreturn argCount
  else if a =? "-t" then do_PerformanceTest c >>> mreturn argCount
  else mreturn argCount.

(** #ifdef NETWORK *)
Definition network_command (argv : list string) (argCount : nat) : M S nat :=
  let argc := Z.of_nat (length argv) in
  let! a := arg argv 0 in
  if a =? "-o" then
    ASSERT (1 <? argc)%Z >>>
    do_Delay c 2 >>>
    let! n := arg argv 1 in do_MailTest c (atoi n) >>> mreturn 2%nat
  else mreturn argCount.

Definition command_round (argv : list string) : M S nat :=
  let! a := arg argv 0 in
  when (a =? "-z") (print_copyright c) >>>
  let! n := (if USER_PROGRAM b then user_command argv 1 else mreturn 1%nat) in
  let! n := (if FILESYS b then file_command argv n else mreturn n) in
  if NETWORK b then network_command argv n else mreturn n.

(** main, with the start of the kernel and the end of the main thread. *)
Definition main (Initialize : list string -> M S unit) (Printhello Finish : M S unit)
    (argv : list string) : M S unit :=
  Initialize argv >>>
  Printhello >>>
  read_args command_round argv >>>
  Finish.
End main.

(** * What the words mean *)

(** The options: a flag with its operand, or a word that is no flag of this build. *)
Inductive option_words :=
  | OptDebug (x : string) | OptRandom (x : string) | OptStep | OptFormat
  | OptRely (x : string) | OptName (x : string) | OptOther (a : string).

Definition option_text (w : option_words) : list string :=
  match w with
  | OptDebug x => ["-d"; x] | OptRandom x => ["-rs"; x] | OptStep => ["-s"] | OptFormat => ["-f"]
  | OptRely x => ["-l"; x] | OptName x => ["-m"; x] | OptOther a => [a]
  end.

Definition is_option (b : Build) (a : string) : bool :=
  (a =? "-d") || (a =? "-rs") || (USER_PROGRAM b && (a =? "-s")) ||
  (FILESYS_NEEDED b && (a =? "-f")) || (NETWORK b && ((a =? "-l") || (a =? "-m"))).

Definition option_in (b : Build) (w : option_words) : bool :=
  match w with
  | OptDebug _ | OptRandom _ => true
  | OptStep => USER_PROGRAM b
  | OptFormat => FILESYS_NEEDED b
  | OptRely _ | OptName _ => NETWORK b
  | OptOther a => negb (is_option b a)
  end.

Definition option_effect (o : Options) (w : option_words) : Options :=
  match w with
  | OptDebug x => set_debugArgs x o
  | OptRandom x => set_random (u32 (atoi x)) o
  | OptStep => set_debugUserProg o
  | OptFormat => set_format o
  | OptRely x => set_rely x o
  | OptName x => set_netname (atoi x) o
  | OptOther _ => o
  end.

(** How a command line can end: after a whole option, with a last -d, or
    with a flag whose operand is missing. *)
Inductive option_end := OptDone | OptDebugAll | OptMissing (a : string).

Definition end_text (e : option_end) : list string :=
  match e with OptDone => [] | OptDebugAll => ["-d"] | OptMissing a => [a] end.
Definition end_in (b : Build) (e : option_end) : bool :=
  match e with
  | OptDone | OptDebugAll => true
  | OptMissing a => (a =? "-rs") || (NETWORK b && ((a =? "-l") || (a =? "-m")))
  end.
Definition end_result (e : option_end) (o : Options) : res (unit * Options) :=
  match e with
  | OptDone => Ok (tt, o)
  | OptDebugAll => Ok (tt, set_debugArgs "+" o)
  | OptMissing _ => Err AssertFailed
  end.

(** The commands. *)
Inductive command :=
  | CmdCopyright | CmdStart (f : string) | CmdConsole (i o : string) | CmdCopy (f t : string)
  | CmdPrint (f : string) | CmdRemove (f : string) | CmdList | CmdFsPrint | CmdTest
  | CmdMail (n : string) | CmdOther (a : string).

Definition command_text (w : command) : list string :=
  match w with
  | CmdCopyright => ["-z"] | CmdStart f => ["-x"; f] | CmdConsole i o => ["-c"; i; o]
  | CmdCopy f t => ["-cp"; f; t] | CmdPrint f => ["-p"; f] | CmdRemove f => ["-r"; f]
  | CmdList => ["-l"] | CmdFsPrint => ["-D"] | CmdTest => ["-t"] | CmdMail n => ["-o"; n]
  | CmdOther a => [a]
  end.

Definition is_command (b : Build) (a : string) : bool :=
  (a =? "-z") || (USER_PROGRAM b && ((a =? "-x") || (a =? "-c"))) ||
  (FILESYS b && ((a =? "-cp") || (a =? "-p") || (a =? "-r") || (a =? "-l") || (a =? "-D") || (a =? "-t"))) ||
  (NETWORK b && (a =? "-o")).

Definition command_in (b : Build) (w : command) : bool :=
  match w with
  | CmdCopyright => true
  | CmdStart _ | CmdConsole _ _ => USER_PROGRAM b
  | CmdCopy _ _ | CmdPrint _ | CmdRemove _ | CmdList | CmdFsPrint | CmdTest => FILESYS b
  | CmdMail _ => NETWORK b
  | CmdOther a => negb (is_command b a)
  end.

Definition run_command {S} (c : Commands S) (w : command) : M S unit :=
  match w with
  | CmdCopyright => print_copyright c
  | CmdStart f => do_StartProcess c f
  | CmdConsole i o => do_ConsoleTest c (Some (i, o)) >>> do_Halt c
  | CmdCopy f t => do_Copy c f t
  | CmdPrint f => do_Print c f
  | CmdRemove f => do_Remove c f
  | CmdList => do_List c
  | CmdFsPrint => do_FsPrint c
  | CmdTest => do_PerformanceTest c
  | CmdMail n => do_Delay c 2 >>> do_MailTest c (atoi n)
  | CmdOther _ => mreturn tt
  end.

(** The end: nothing is left, a last -c, or a command with too few operands. *)
Inductive command_end := CmdDone | CmdConsoleAll | CmdMissing (argv : list string).

Definition cend_text (e : command_end) : list string :=
  match e with CmdDone => [] | CmdConsoleAll => ["-c"] | CmdMissing argv => argv end.
Definition cend_in (b : Build) (e : command_end) : bool :=
  match e with
  | CmdDone => true
  | CmdConsoleAll => USER_PROGRAM b
  | CmdMissing [a] =>
      (USER_PROGRAM b && (a =? "-x")) || (FILESYS b && ((a =? "-cp") || (a =? "-p") || (a =? "-r"))) ||
      (NETWORK b && (a =? "-o"))
  | CmdMissing [a; _] => (USER_PROGRAM b && (a =? "-c")) || (FILESYS b && (a =? "-cp"))
  | CmdMissing _ => false
  end.
Definition run_end {S} (c : Commands S) (e : command_end) : M S unit :=
  match e with
  | CmdDone => mreturn tt
  | CmdConsoleAll => do_ConsoleTest c None >>> do_Halt c
  | CmdMissing _ => mfail AssertFailed
  end.

(** * Lemmas *)

(** [run_cases]: go on with every outcome of the calls. *)
Ltac run_cases :=
  unfold mreturn;
  repeat match goal with
    | |- context [match ?x ?y with Ok _ => _ | Err _ => _ end] => destruct (x y) as [[? ?]|]; cbn
  end.

(** [arg_cases]: compare the word at hand with every flag and compute. *)
Ltac arg_cases :=
  repeat match goal with
    | |- context [String.eqb ?a ?f] => is_var a; destruct (String.eqb_spec a f) as [->|]; cbn
    | H : context [String.eqb ?a ?f] |- _ => is_var a; destruct (String.eqb_spec a f) as [->|]; cbn in H
  end.

(** Tests of argc when enough words are left. *)
Ltac argc_tests :=
  repeat (rewrite (proj2 (Z.eqb_neq _ _)) by (cbn [length]; lia));
  repeat (rewrite (proj2 (Z.ltb_lt _ _)) by (cbn [length]; lia)).

Lemma option_round_run b w argv o :
  option_in b w = true ->
  option_round b (option_text w ++ argv) o = Ok (length (option_text w), option_effect o w).
Proof.
  destruct b as [u f g n]. unfold option_round.
  destruct w as [x|x| | |x|x|a]; cbn [option_in option_text app]; intros H; argc_tests;
    [destruct u, f, n; reflexivity| destruct u, f, n; reflexivity | cbn in H; subst; destruct f, n; reflexivity
    | cbn in H; subst; destruct u, n; reflexivity| cbn in H; subst; destruct u, f; reflexivity
    | cbn in H; subst; destruct u, f; reflexivity|].
  unfold is_option in H. cbn in H. unfold mthen, arg, mlift. cbn.
  arg_cases; destruct u, f, n; cbn in H |- *; try discriminate; reflexivity.
Qed.

Lemma option_end_run b e fuel o :
  end_in b e = true -> (length (end_text e) <= fuel)%nat ->
  arg_loop (option_round b) fuel (end_text e) o = end_result e o.
Proof.
  destruct b as [u f g n]. destruct e as [| |a]; cbn [end_in end_text length]; intros H Hf;
    [now destruct fuel|destruct fuel as [|fuel]; [lia|]..].
  - cbn [arg_loop]. unfold mthen at 1. destruct u, f, n; cbn; destruct fuel; reflexivity.
  - cbn in H. cbn [arg_loop]. unfold mthen at 1, option_round, mthen at 1, arg, mlift. cbn.
    arg_cases; destruct u, f, n; cbn in H |- *; try discriminate; reflexivity.
Qed.

Lemma command_round_run {S} b (c : Commands S) w argv s :
  command_in b w = true ->
  command_round b c (command_text w ++ argv) s = (run_command c w >>> mreturn (length (command_text w))) s.
Proof.
  destruct b as [u f g n]. unfold command_round, user_command, file_command, network_command.
  destruct w; cbn [command_in command_text run_command app]; intros H; argc_tests; cbn in H;
    try (subst; unfold mthen, arg, mlift, ASSERT, mreturn, when; cbn;
         repeat match goal with x : bool |- _ => destruct x; cbn end;
         run_cases;
         reflexivity).
  unfold is_command in H. cbn in H. unfold mthen, arg, mlift. cbn.
  arg_cases; destruct u, g, n; cbn in H |- *; try discriminate; reflexivity.
Qed.

Lemma command_end_run {S} b (c : Commands S) e fuel s :
  cend_in b e = true -> (length (cend_text e) <= fuel)%nat ->
  arg_loop (command_round b c) fuel (cend_text e) s = run_end c e s.
Proof.
  destruct b as [u f g n]. destruct e as [| |argv]; cbn [cend_in cend_text length]; intros H Hf;
    [now destruct fuel|destruct fuel as [|fuel]; [lia|]|].
  - cbn in H. subst. cbn [arg_loop].
    unfold run_end, command_round, user_command, file_command, network_command, mthen, arg, mlift, when; cbn.
    change (Z.of_nat 1 =? 1)%Z with true. destruct g, n; cbn; destruct (do_ConsoleTest c None s) as [[[] s1]|]; cbn; try reflexivity;
      destruct (do_Halt c s1) as [[[] s2]|]; cbn; try reflexivity; destruct fuel; reflexivity.
  - destruct argv as [|a [|x [|]]]; try discriminate; cbn in H, Hf; (destruct fuel as [|fuel]; [lia|]); cbn [arg_loop];
      unfold command_round, user_command, file_command, network_command, mthen, arg, mlift, when; cbn;
      arg_cases; destruct u, g, n; cbn in H |- *; try discriminate; reflexivity.
Qed.

(** A loop whose rounds each use up the text of one item of a list. *)
Section arg_loop_lemmas.
Context {S W E : Type}.
Variables (round : list string -> M S nat) (text : W -> list string) (ok : W -> bool).
Variables (run : W -> M S unit) (etext : E -> list string) (eok : E -> bool) (erun : E -> M S unit).
Hypothesis text_nonempty : forall w, text w <> [].
Hypothesis round_run : forall w argv s,
  ok w = true -> round (text w ++ argv) s = (run w >>> mreturn (length (text w))) s.
Hypothesis end_run : forall e fuel s,
  eok e = true -> (length (etext e) <= fuel)%nat -> arg_loop round fuel (etext e) s = erun e s.

Lemma arg_loop_words fuel ws e s :
  forallb ok ws = true -> eok e = true ->
  (length (concat (text <$> ws) ++ etext e) <= fuel)%nat ->
  arg_loop round fuel (concat (text <$> ws) ++ etext e) s = (mfor ws run >>> erun e) s.
Proof.
  intros Hws He. revert fuel s Hws. induction ws as [|w ws IH]; intros fuel s Hws Hl; cbn [fmap list_fmap concat app mfor] in *.
  - now rewrite end_run.
  - cbn in Hws. apply andb_prop in Hws as [Hw Hws]. rewrite <- app_assoc in *.
    pose proof (text_nonempty w). destruct fuel as [|fuel].
    { destruct (text w); [contradiction|cbn in Hl; lia]. }
    assert (Hr : arg_loop round (Datatypes.S fuel) (text w ++ concat (text <$> ws) ++ etext e) s =
      (let! n := round (text w ++ concat (text <$> ws) ++ etext e) in
       arg_loop round fuel (drop n (text w ++ concat (text <$> ws) ++ etext e))) s)
      by (destruct (text w); [contradiction|reflexivity]).
    rewrite Hr. unfold mthen at 1. rewrite round_run by exact Hw. unfold mthen, mreturn.
    destruct (run w s) as [[[] s']|]; [|reflexivity]. rewrite drop_app_length.
    rewrite IH; [reflexivity|exact Hws|]. rewrite length_app in Hl.
    destruct (text w); [contradiction|cbn in Hl; lia].
Qed.
End arg_loop_lemmas.

(** Every command line can be read as options, and as commands. *)
Lemma is_option_cases b a :
  is_option b a = true ->
  a = "-d" \/ a = "-rs" \/ (a = "-s" /\ USER_PROGRAM b = true) \/ (a = "-f" /\ FILESYS_NEEDED b = true) \/
  ((a = "-l" \/ a = "-m") /\ NETWORK b = true).
Proof. unfold is_option. rewrite !orb_true_iff, !andb_true_iff, !orb_true_iff, !String.eqb_eq. tauto. Qed.

Lemma is_command_cases b a :
  is_command b a = true ->
  a = "-z" \/ ((a = "-x" \/ a = "-c") /\ USER_PROGRAM b = true) \/
  ((a = "-cp" \/ a = "-p" \/ a = "-r" \/ a = "-l" \/ a = "-D" \/ a = "-t") /\ FILESYS b = true) \/
  (a = "-o" /\ NETWORK b = true).
Proof. unfold is_command. rewrite !orb_true_iff, !andb_true_iff, !orb_true_iff, !String.eqb_eq. tauto. Qed.

(** A text that can be cut at its front, until an end is left, is read whole. *)
Lemma words_read {W E} (text : W -> list string) (ok : W -> bool) (etext : E -> list string) (eok : E -> bool) :
  (forall w, text w <> []) ->
  (forall argv, (exists w r, ok w = true /\ argv = (text w ++ r)%list) \/ (exists e, eok e = true /\ argv = etext e)) ->
  forall argv, exists ws e, forallb ok ws = true /\ eok e = true /\ argv = (concat (text <$> ws) ++ etext e)%list.
Proof.
  intros Hne Hcut argv. induction argv as [argv IH] using (induction_ltof1 _ (@length string)). unfold ltof in IH.
  destruct (Hcut argv) as [(w & r & Hw & ->)|(e & He & ->)]; [|now exists [], e].
  destruct (IH r) as (ws & e & H1 & H2 & ->).
  { rewrite length_app. pose proof (Hne w). destruct (text w); [contradiction|cbn; lia]. }
  exists (w :: ws), e. cbn. rewrite Hw, <- app_assoc. auto.
Qed.

Lemma options_read b argv :
  exists ws e, forallb (option_in b) ws = true /\ end_in b e = true /\
    argv = (concat (option_text <$> ws) ++ end_text e)%list.
Proof.
  apply words_read; [now destruct w|]. clear argv. intros [|a argv]; [right; now exists OptDone|].
  destruct (is_option b a) eqn:Ho; [|left; exists (OptOther a), argv; cbn; now rewrite Ho].
  apply is_option_cases in Ho as [->|[->|[[-> Hb]|[[-> Hb]|[[->| ->] Hb]]]]];
    [destruct argv as [|x r]; [right; now exists OptDebugAll|left; now exists (OptDebug x), r]
    |destruct argv as [|x r]; [right; now exists (OptMissing "-rs")|left; now exists (OptRandom x), r]
    |left; now exists OptStep, argv|left; now exists OptFormat, argv
    |destruct argv as [|x r]; [right; exists (OptMissing "-l"); cbn; now rewrite Hb|left; now exists (OptRely x), r]
    |destruct argv as [|x r]; [right; exists (OptMissing "-m"); cbn; now rewrite Hb|left; now exists (OptName x), r]].
Qed.

Lemma commands_read b argv :
  exists ws e, forallb (command_in b) ws = true /\ cend_in b e = true /\
    argv = (concat (command_text <$> ws) ++ cend_text e)%list.
Proof.
  apply words_read; [now destruct w|]. clear argv. intros [|a argv]; [right; now exists CmdDone|].
  destruct (is_command b a) eqn:Ho; [|left; exists (CmdOther a), argv; cbn; now rewrite Ho].
  assert (Hmiss : forall r, cend_in b (CmdMissing r) = true -> exists e, cend_in b e = true /\ r = cend_text e)
    by (intros r Hr; now exists (CmdMissing r)).
  apply is_command_cases in Ho as [->|[[[->| ->] Hb]|[[[->|[->|[->|[->|[->| ->]]]]] Hb]|[-> Hb]]]];
    destruct argv as [|x [|y r]];
    first [ left; now exists CmdCopyright, [] | left; now exists CmdCopyright, [x] | left; now exists CmdCopyright, (x :: y :: r)
          | right; now exists CmdConsoleAll
          | right; apply Hmiss; cbn; rewrite Hb, ?orb_true_r; reflexivity
          | left; now exists (CmdStart x), [] | left; now exists (CmdStart x), (y :: r)
          | left; now exists (CmdConsole x y), r | left; now exists (CmdCopy x y), r
          | left; now exists (CmdPrint x), [] | left; now exists (CmdPrint x), (y :: r)
          | left; now exists (CmdRemove x), [] | left; now exists (CmdRemove x), (y :: r)
          | left; now exists CmdList, [] | left; now exists CmdList, [x] | left; now exists CmdList, (x :: y :: r)
          | left; now exists CmdFsPrint, [] | left; now exists CmdFsPrint, [x] | left; now exists CmdFsPrint, (x :: y :: r)
          | left; now exists CmdTest, [] | left; now exists CmdTest, [x] | left; now exists CmdTest, (x :: y :: r)
          | left; now exists (CmdMail x), [] | left; now exists (CmdMail x), (y :: r) ].
Qed.

Lemma mfor_modify {S X} (f : S -> X -> S) (l : list X) (s : S) :
  mfor l (fun x => mmodify (fun s => f s x)) s = Ok (tt, fold_left f l s).
Proof. revert s. induction l as [|x l IH]; intros s; [reflexivity|]. cbn. unfold mthen, mmodify at 1. apply IH. Qed.

(** A command line read as options [ws] with the end [e]. *)
Definition options_of (b : Build) (argv : list string) (ws : list option_words) (e : option_end) : Prop :=
  forallb (option_in b) ws = true /\ end_in b e = true /\ argv = (concat (option_text <$> ws) ++ end_text e)%list.
Definition commands_of (b : Build) (argv : list string) (ws : list command) (e : command_end) : Prop :=
  forallb (command_in b) ws = true /\ cend_in b e = true /\ argv = (concat (command_text <$> ws) ++ cend_text e)%list.

Lemma Initialize_options_run b prog argv ws e o :
  options_of b argv ws e -> Initialize_options b (prog :: argv) o = end_result e (fold_left option_effect ws o).
Proof.
  intros (Hws & He & ->). unfold Initialize_options, read_args. cbn [tail].
  rewrite (arg_loop_words (option_round b) option_text (option_in b) (fun w => mmodify (fun o => option_effect o w))
    end_text (end_in b) end_result).
  - unfold mthen. now rewrite mfor_modify.
  - now destruct w.
  - intros w r s Hw. now rewrite option_round_run.
  - intros e' n s. apply option_end_run.
  - exact Hws.
  - exact He.
  - lia.
Qed.

Lemma commands_loop {S} b (c : Commands S) prog argv ws e s :
  commands_of b argv ws e ->
  read_args (command_round b c) (prog :: argv) s = (mfor ws (run_command c) >>> run_end c e) s.
Proof.
  intros (Hws & He & ->). unfold read_args. cbn [tail].
  apply (arg_loop_words (command_round b c) command_text (command_in b) (run_command c) cend_text (cend_in b) (run_end c)).
  - now destruct w.
  - intros w r s' Hw. now apply command_round_run.
  - intros e' n s' He' Hn. now apply command_end_run.
  - exact Hws.
  - exact He.
  - lia.
Qed.

Lemma main_run {S} b (c : Commands S) Initialize Printhello Finish prog argv ws e s :
  commands_of b argv ws e ->
  main b c Initialize Printhello Finish (prog :: argv) s =
    (Initialize (prog :: argv) >>> Printhello >>> (mfor ws (run_command c) >>> run_end c e) >>> Finish) s.
Proof.
  intros H. unfold main, mthen at 1 2 4 5.
  destruct (Initialize _ s) as [[[] s1]|]; [|reflexivity]. destruct (Printhello s1) as [[[] s2]|]; [|reflexivity].
  unfold mthen at 1. now rewrite (commands_loop b c prog argv ws e).
Qed.

(** * Properties *)

(** C30: The options of the kernel.  Every command line is a sequence of
    options of the build (a flag with its operand, or a word without meaning
    here), possibly with a last -d or a flag without its operand at the end.
    Initialize reads it to the end, takes the operands along with their flags,
    whatever they look like, and sets the options in order, later ones over
    earlier ones; a last -d enables every message, and a missing operand fails
    an assertion. *)
Theorem Initialize_options_meaning b prog argv o :
  (exists ws e, options_of b argv ws e) /\
  (forall ws e, options_of b argv ws e ->
     Initialize_options b (prog :: argv) o = end_result e (fold_left option_effect ws o)).
Proof.
  split; [|intros ws e; apply Initialize_options_run].
  destruct (options_read b argv) as (ws & e & H). now exists ws, e.
Qed.

(** C29: The commands of main.  After the start of the kernel, main runs the
    commands of the command line in order, each with its operands, and skips
    the words that are no commands of the build; then the main thread finishes.
    A failure of a command ends the run there, and a command with too few
    operands fails an assertion after those before it have run. *)
Theorem main_runs_commands {S} b (c : Commands S) Initialize Printhello Finish prog argv s :
  (exists ws e, commands_of b argv ws e) /\
  (forall ws e, commands_of b argv ws e ->
     main b c Initialize Printhello Finish (prog :: argv) s =
       (Initialize (prog :: argv) >>> Printhello >>> (mfor ws (run_command c) >>> run_end c e) >>> Finish) s).
Proof.
  split; [|intros ws e; apply main_run].
  destruct (commands_read b argv) as (ws & e & H). now exists ws, e.
Qed.

(** The two loops disagree about operands: main goes into the operands of the
    kernel's options.  With -d before a command of the file system, the kernel
    takes the command for debugging flags and main runs it. *)
Theorem debug_operand_runs {S} b (c : Commands S) prog f s :
  FILESYS b = true ->
  Initialize_options b [prog; "-d"; f] default_options = Ok (tt, set_debugArgs f default_options) /\
  (f = "-t" -> read_args (command_round b c) [prog; "-d"; f] s = (do_PerformanceTest c >>> mreturn tt) s).
Proof.
  intros Hb. split.
  - apply (Initialize_options_run b prog ["-d"; f] [OptDebug f] OptDone). now repeat split.
  - intros ->. rewrite (commands_loop b c prog _ [CmdOther "-d"; CmdTest] CmdDone).
    + cbn. unfold mthen, mreturn. destruct (do_PerformanceTest c s) as [[[] s']|]; reflexivity.
    + destruct b as [u fn g n]. cbn in Hb. subst. now destruct u, n.
Qed.

(** In a build with the file system and the network, the reliability of the
    network is set by the flag that lists the directory. *)
Theorem reliability_lists {S} b (c : Commands S) prog x s :
  FILESYS b = true -> NETWORK b = true -> is_command b x = false ->
  Initialize_options b [prog; "-l"; x] default_options = Ok (tt, set_rely x default_options) /\
  read_args (command_round b c) [prog; "-l"; x] s = (do_List c >>> mreturn tt) s.
Proof.
  intros Hf Hn Hx. split.
  - apply (Initialize_options_run b prog ["-l"; x] [OptRely x] OptDone). split; [cbn; now rewrite Hn|]. now split.
  - rewrite (commands_loop b c prog _ [CmdList; CmdOther x] CmdDone).
    + cbn. unfold mthen, mreturn. destruct (do_List c s) as [[[] s']|]; reflexivity.
    + split; [cbn; now rewrite Hf, Hx|]. now split.
Qed.

(** A message with flag [c] is printed when [c] or + is among the flags;
    before DebugInit none is. *)
Theorem DebugIsEnabled_iff fs c :
  DebugIsEnabled None c = false /\
  (c <> zero -> DebugIsEnabled (DebugInit fs) c = (has_char fs c || has_char fs "+"%char)%bool).
Proof.
  split; [reflexivity|]. intros Hc. unfold DebugIsEnabled, DebugInit, strchr.
  apply Ascii.eqb_neq in Hc. rewrite Hc. cbn. now rewrite !orb_false_r.
Qed.

(** * Concrete command lines, in the build of filesys/Makefile *)
Definition filesys_build : Build := mkBuild true true true false.

Lemma Initialize_options_meaning_witness :
  Initialize_options filesys_build ["nachos"; "-f"; "-d"; "tf"; "-rs"; "17"; "-d"] default_options =
    Ok (tt, mkOptions "+" true [17%Z] false true None 0).
Proof.
  apply (proj2 (Initialize_options_meaning filesys_build "nachos" _ default_options)
           [OptFormat; OptDebug "tf"; OptRandom "17"] OptDebugAll).
  now repeat split.
Defined.

(** Commands that write their names down. *)
Definition logging : Commands (list string) :=
  let say w := mmodify (fun l => (l ++ [w])%list) in
  mkCommands (say "copyright") (fun _ => say "start") (fun _ => say "console") (mfail Halted)
    (fun _ _ => say "copy") (fun _ => say "print") (fun _ => say "remove") (say "list") (say "fsprint")
    (say "test") (fun _ => say "delay") (fun _ => say "mail").

Lemma main_runs_commands_witness :
  main filesys_build logging (fun _ => mreturn tt) (mreturn tt) (mreturn tt) ["nachos"; "-f"; "-cp"; "u"; "n"; "-l"] [] =
    Ok (tt, ["copy"; "list"]).
Proof.
  rewrite (proj2 (main_runs_commands filesys_build logging (fun _ => mreturn tt) (mreturn tt) (mreturn tt) "nachos"
             ["-f"; "-cp"; "u"; "n"; "-l"] []) [CmdOther "-f"; CmdCopy "u" "n"; CmdList] CmdDone); [reflexivity|].
  now repeat split.
Defined.
