(* ===== verification/Boot.v ===== *)
(** Initialize of threads/system.cc, the threads build of Nachos and
    threads/threadtest.cc.

    [Initialize] reads the options (CmdLine.v) and creates the global objects in
    the order of the code; what it calls is the interface [Boot].  The threads
    build (threads/Makefile: no user programs, no file system, no network) is
    its first implementation and the place where the kernel's parts come
    together: [KDev] has the scheduler of Thread.v and the timer of TimerDev.v,
    the timer's handler counts the slices of the current thread, and a tick that
    asks for a switch calls Yield of Thread.v.  The threads build itself does not
    compile, since Halt uses machine without an #ifdef; its kernel is that of
    the builds with user programs, which Shell.v puts together.  [kd_machine] is
    the pointer that Halt reads.  machine->DelayedLoad(0, 0) changes nothing as
    long as no user program has run, and has no effect here.

    [new] gives addresses: that of the main thread, and those of the threads of
    threadtest.cc, are parameters.  The numbers of the host's generator after
    RandomInit are a stream (TimerDev.v), whatever the seed. *)
From Stdlib Require Import ZArith Lia String.
From stdpp Require Import base option list list_numbers gmap.
From S2P Require Import Prelude Machine CList Stats Interrupt TimerDev Thread CmdLine.

Local Open Scope Z_scope.
Local Open Scope list_scope.

(** * Initialize *)
Record Boot (S : Type) := mkBoot {
  boot_DebugInit   : string -> M S unit;
  new_Statistics   : M S unit;
  new_Interrupt    : M S unit;
  new_Scheduler    : M S unit;
  new_Timer        : bool -> M S unit;
  no_threadToBeDestroyed : M S unit;
  new_main_thread  : M S unit;          (* currentThread = new Thread("main") *)
  main_running     : M S unit;
  boot_Enable      : M S unit;
  boot_CallOnUserAbort : M S unit;
  new_memBitMap    : Z -> M S unit;
  new_Machine      : bool -> M S unit;
  new_SynchDisk    : string -> M S unit;
  new_FileSystem   : bool -> M S unit;
  new_PostOffice   : Z -> option string -> Z -> M S unit
}.
Arguments mkBoot {S}.
Arguments boot_DebugInit {S}.
Arguments new_Statistics {S}.
Arguments new_Interrupt {S}.
Arguments new_Scheduler {S}.
Arguments new_Timer {S}.
Arguments no_threadToBeDestroyed {S}.
Arguments new_main_thread {S}.
Arguments main_running {S}.
Arguments boot_Enable {S}.
Arguments boot_CallOnUserAbort {S}.
Arguments new_memBitMap {S}.
Arguments new_Machine {S}.
Arguments new_SynchDisk {S}.
Arguments new_FileSystem {S}.
Arguments new_PostOffice {S}.

Section initialize.
Context {S : Type}.
Variable B : Boot S.
Variable b : Build.

(** The objects every build has. *)
Definition boot_kernel (o : Options) : M S unit :=
  boot_DebugInit B (debugArgs o) >>>
  new_Statistics B >>>
  new_Interrupt B >>>
  new_Scheduler B >>>
  when (randomYield o) (new_Timer B (randomYield o)) >>>
  no_threadToBeDestroyed B >>>
  new_main_thread B >>>
  main_running B >>>
  boot_Enable B >>>
  boot_CallOnUserAbort B.

(** The objects behind #ifdef. *)
Definition boot_devices (o : Options) : M S unit :=
  when (USER_PROGRAM b) (new_memBitMap B 32 >>> new_Machine B (debugUserProg o)) >>>
  when (FILESYS b) (new_SynchDisk B "DISK") >>>
  when (FILESYS_NEEDED b) (new_FileSystem B (format o)) >>>
  when (NETWORK b) (new_PostOffice B (netname o) (rely o) 10).

Definition Initialize (argv : list string) : M S unit :=
  match Initialize_options b argv default_options with
  | Err e => mfail e
  | Ok (_, o) => boot_kernel o >>> boot_devices o
  end.
End initialize.

(** * The threads build *)
Record KDev := mkKDev {
  kd_kernel : Kernel;
  kd_timer  : Timer;
  kd_rand   : nat;
  kd_flags  : option string;     (* enableFlags of utility.cc *)
  kd_machine : option Machine    (* the pointer machine, with USER_PROGRAM *)
}.

Abbreviation ksys := (isys KDev timer_handler).

#[global] Instance kdev_kernel : HasKernel KDev := {
  kernel d := kd_kernel d;
  set_kernel k d := mkKDev k (kd_timer d) (kd_rand d) (kd_flags d) (kd_machine d)
}.
#[global] Instance kdev_kernel_laws : HasKernelLaws KDev.
Proof. split; intros; [reflexivity..|]. now destruct d. Qed.

Definition th_set_timeSlice (ts : Z) (t : Thread) : Thread :=
  mkThread (stackTop t) (machineState t) (tid t) (uid t) (priority t) ts
    (stack t) (status t) (name t) (space t).

(** The timer's view of the system: the time slice is the current thread's. *)
Definition current_slice (k : Kernel) : Z :=
  default 0 (th_timeSlice <$> threads k !! currentThread k).
Definition timer_view (d : KDev) : TimerSys :=
  mkTimerSys (kd_timer d) (current_slice (kd_kernel d)) (kd_rand d).
Definition timer_put (t : TimerSys) (d : KDev) : KDev :=
  mkKDev (k_threads (alter (th_set_timeSlice (timeSlice t)) (currentThread (kd_kernel d))) (kd_kernel d))
    (the_timer t) (rand_calls t) (kd_flags d) (kd_machine d).
Definition on_timer {A} (m : M tsys A) : M ksys A := fun s =>
  match m (mkIsys (interrupt s) (stats s) (timer_view (dev s))) with
  | Ok (a, t) => Ok (a, mkIsys (interrupt t) (stats t) (timer_put (dev t) (dev s)))
  | Err e => Err e
  end.

Section threads_build.
Context `{!HostRandom} (switch : Z -> Z -> M ksys unit).

(** switch.s; there are no user registers in this build. *)
#[global] Instance threads_switch : ContextSwitch KDev timer_handler := {
  SWITCH := switch;
  SaveUserState _ := mreturn tt;
  RestoreUserState _ := mreturn tt
}.

(** The timer's handler dereferences currentThread. *)
Definition timer_interrupt : M ksys unit :=
  let! k := get_kernel in
  let! _ := thread_at (currentThread k) in
  on_timer TimerExpired.

(** Halt dereferences machine. *)
Definition read_counters : M ksys (Z * Z) :=
  let! s := mget in
  let! m := mlift (kd_machine (dev s)) in
  mreturn (pagehit m, pagemiss m).

(** OneTick calls currentThread->Yield(), and Yield enables interrupts at its
    end, which is a tick again: [depth] bounds how many yields are nested. *)
Fixpoint threads_hardware (depth : nat) : Hardware KDev timer_handler :=
  {| call_handler h _ := match h with TimerHandler => timer_interrupt end;
     machine_DelayedLoad _ _ := mreturn tt;
     thread_Yield :=
       match depth with
       | O => mfail OutOfFuel
       | S n => let! k := get_kernel in @Yield _ _ (threads_hardware n) _ _ (currentThread k)
       end;
     machine_counters := read_counters |}.

(** Scheduler::Scheduler *)
Definition Scheduler_Scheduler : M ksys unit :=
  mod_kernel (fun k => k_blockedList (fun _ => []) (k_readyList (fun _ => []) k)).

(** What Initialize calls; the main thread is at the address [p].  Objects of
    the other builds do not exist here. *)
Definition threads_boot (depth : nat) (p : Z) : Boot ksys :=
  {| boot_DebugInit fs := mmodify (fun s => set_dev (mkKDev (kd_kernel (dev s)) (kd_timer (dev s)) (kd_rand (dev s))
                                                       (DebugInit fs) (kd_machine (dev s))) s);
     new_Statistics := mmodify (set_stats Statistics_Statistics);
     new_Interrupt := mmodify (set_interrupt Interrupt_Interrupt);
     new_Scheduler := Scheduler_Scheduler;
     new_Timer doRandom := on_timer (Timer_Timer 0 doRandom);
     no_threadToBeDestroyed := mod_kernel (k_threadToBeDestroyed None);
     new_main_thread := Thread_Thread p "main" 1000 >>> mod_kernel (k_currentThread p);
     main_running := let! k := get_kernel in Thread_setStatus (currentThread k) RUNNING;
     boot_Enable := @Enable _ _ (threads_hardware depth);
     boot_CallOnUserAbort := mreturn tt;
     new_memBitMap _ := mfail BadAccess;
     new_Machine _ := mfail BadAccess;
     new_SynchDisk _ := mfail BadAccess;
     new_FileSystem _ := mfail BadAccess;
     new_PostOffice _ _ _ := mfail BadAccess |}.

(** * threadtest.cc *)

(** The address of SimpleThread. *)
Definition SimpleThread_code : Z := 0.

Definition SimpleThread (depth : nat) (which : Z) : M ksys unit :=
  mfor (seqZ 0 3) (fun i => @OneTick _ _ (threads_hardware depth)).

Definition ThreadTest1 (depth : nat) (t : Z) : M ksys unit :=
  Thread_Thread t "forked thread" 1000 >>>
  @Fork _ _ (threads_hardware depth) _ t SimpleThread_code (Int 1) >>>
  SimpleThread depth 0.

(** [addr i] is what the i-th new returns. *)
Definition VectorTest (depth : nat) (addr : Z -> Z) : M ksys unit :=
  mfor (seqZ 1 120) (fun i =>
    Thread_Thread (addr i) "thread" i >>>
    @Fork _ _ (threads_hardware depth) _ (addr i) SimpleThread_code (Int i)).

Definition ThreadTest (depth : nat) (addr : Z -> Z) (testnum : Z) : M ksys unit :=
  if testnum =? 1 then ThreadTest1 depth (addr 1)
  else if testnum =? 2 then VectorTest depth addr
  else mreturn tt.
End threads_build.

(** * Lemmas: threads *)
Section thread_lemmas.
Implicit Types k : Kernel.

(** A change of a thread that the scheduler does not look at. *)
Lemma sched_inv_alter k p f :
  (forall t, status (f t) = status t /\ stack (f t) = stack t) ->
  sched_inv k -> sched_inv (k_threads (alter f p) k).
Proof.
  intros Hf [Hnd Hrd Hcur Hst].
  assert (Hsome : forall q (st : ThreadStatus), (exists t, threads k !! q = Some t /\ status t = st) ->
    exists t, alter f p (threads k) !! q = Some t /\ status t = st).
  { intros q st (t & Et & Es). destruct (decide (p = q)) as [<-|Hne].
    - exists (f t). rewrite lookup_alter_eq, Et. split; [reflexivity|]. now rewrite (proj1 (Hf t)).
    - exists t. now rewrite lookup_alter_ne. }
  split; cbn; [exact Hnd|auto|auto|]. intros q t. rewrite lookup_alter. case_decide as Hq; [|apply Hst].
  subst p. destruct (threads k !! q) as [u|] eqn:E; cbn; [|discriminate]. intros [= <-]. unfold stack_ok.
  rewrite (proj2 (Hf u)). apply (Hst q u E).
Qed.

Lemma tid_inv_alter k p f :
  (forall t, tid (f t) = tid t) -> tid_inv k -> tid_inv (k_threads (alter f p) k).
Proof.
  intros Hf [Hl Hu Hq].
  assert (Hold : forall q t, alter f p (threads k) !! q = Some t -> exists u, threads k !! q = Some u /\ tid t = tid u).
  { intros q t. rewrite lookup_alter. case_decide; [|eauto]. subst p. destruct (threads k !! q) as [u|]; cbn; [|discriminate].
    intros [= <-]. exists u. now rewrite Hf. }
  split; cbn; [exact Hl| |].
  - intros q t Ht Hne. destruct (Hold q t Ht) as (u & Eu & E). rewrite E in *. eauto.
  - intros q r t t' Ht Ht' E Hne. destruct (Hold q t Ht) as (u & Eu & E1). destruct (Hold r t' Ht') as (u' & Eu' & E2).
    apply (Hq q r u u'); congruence.
Qed.

Lemma free_tids_rest (m : list bool) i r :
  Z.of_nat (length m) = MaxThreads -> free_tids m = i :: r -> free_tids (<[Z.to_nat i := true]> m) = r.
Proof.
  intros Hl. assert (Hi : free_tids m = i :: r -> 0 <= i < Z.of_nat (length m)).
  { intros E. destruct (free_tids_range m i) as [_ Hr]; [rewrite E; left|lia]. }
  intros E. specialize (Hi E). unfold free_tids in *.
  pose proof (NoDup_seqZ 0 MaxThreads) as Hnd.
  assert (Hpos : Forall (fun x => 0 <= x) (seqZ 0 MaxThreads)) by (apply Forall_forall; intros x; rewrite elem_of_seqZ; lia).
  induction (seqZ 0 MaxThreads) as [|x l IH]; [discriminate|]. inversion_clear Hpos as [|? ? Hx Hpos'].
  apply NoDup_cons in Hnd as [Hnin Hnd]. rewrite filter_cons in E |- *.
  destruct (decide (x = i)) as [->|Hne].
  - rewrite (decide_False (P := (<[Z.to_nat i:=true]> m).[i] = Some false)) by (rewrite zlookup_insert_eq by lia; discriminate).
    assert (Hsame : filter (fun j => (<[Z.to_nat i := true]> m).[j] = Some false) l = filter (fun j => m.[j] = Some false) l).
    { clear -Hnin Hpos' Hi. induction l as [|y l IHl]; [reflexivity|]. inversion_clear Hpos' as [|? ? Hy Hp].
      apply not_elem_of_cons in Hnin as [Hny Hnin]. rewrite !filter_cons, zlookup_insert_ne by (lia || congruence).
      rewrite IHl by assumption. reflexivity. }
    rewrite Hsame. case_decide as Hc; [now injection E|].
    exfalso. apply Hnin. assert (Hin : i ∈ filter (fun j => m.[j] = Some false) l) by (rewrite E; left).
    now apply list_elem_of_filter in Hin as [_ Hin].
  - rewrite zlookup_insert_ne by (lia || congruence). case_decide as Hc; [injection E; congruence|]. now apply IH.
Qed.
End thread_lemmas.

Lemma Thread_Thread_run {D H} `{!HasKernel D, !HasKernelLaws D} (s : isys D H) p nm pri i r :
  Z.of_nat (length (threadMap (ker s))) = MaxThreads -> free_tids (threadMap (ker s)) = i :: r ->
  Thread_Thread p nm pri s =
    Ok (tt, set_ker (k_threads <[p := mkThread None ∅ i 1 pri 0 None JUST_CREATED nm None]>
                       (k_threadMap (<[Z.to_nat i := true]> (threadMap (ker s))) (ker s))) s).
Proof.
  intros Hl Hf. pose proof (allocate_tid_run s Hl) as E. rewrite Hf in E. unfold Thread_Thread. mstep_by E.
  rewrite mod_kernel_run. now rewrite set_ker_twice, ker_set_ker.
Qed.

(** * Lemmas: the timer of the threads build *)
Definition kernel_timer (w : Z) : Z * PendingInterrupt timer_handler :=
  (w, mkPendingInterrupt TimerHandler 0 w TimerInt).

(** The kernel with the time slice of its current thread advanced. *)
Definition next_slice (k : Kernel) : Z := Z.rem (current_slice k + 1) 10.
Definition slice_counted (k : Kernel) : Kernel :=
  k_threads (alter (th_set_timeSlice (next_slice k)) (currentThread k)) k.

Lemma slice_counted_inv k :
  (sched_inv k -> sched_inv (slice_counted k)) /\ (tid_inv k -> tid_inv (slice_counted k)).
Proof. split; [apply sched_inv_alter|apply tid_inv_alter]; now intros. Qed.

Section timer_lemmas.
Context `{!HostRandom} (switch : Z -> Z -> M ksys unit).
Implicit Types s : ksys.

Lemma timer_interrupt_run s t :
  threads (ker s) !! currentThread (ker s) = Some t ->
  inHandler (interrupt s) = true -> int_status (interrupt s) = SystemMode -> level (interrupt s) = IntOff ->
  pending (interrupt s) = [] -> 0 <= now s < ClockLimit ->
  exists w s', timer_interrupt s = Ok (tt, s') /\ now s < w <= now s + 2 * TimerTicks /\
    level (interrupt s') = IntOff /\ pending (interrupt s') = [kernel_timer w] /\ now s' = now s /\
    yieldOnReturn (interrupt s') = (yieldOnReturn (interrupt s) || (next_slice (ker s) =? 5))%bool /\
    ker s' = slice_counted (ker s) /\ kd_flags (dev s') = kd_flags (dev s).
Proof.
  intros Et Hin Hst Hl Hp Hn. set (v := mkIsys (interrupt s) (stats s) (timer_view (dev s))).
  destruct (TimerExpired_spec v Hin Hst Hn) as (d & v' & Hd & E & _ & [H1 _ _ H4 H5 _] & Hts & _ & Hy).
  change (now v) with (now s) in *.
  exists (now s + d), (mkIsys (interrupt v') (stats v') (timer_put (dev v') (dev s))). split.
  - unfold timer_interrupt. mstep_to (ker s) s. mstep_by (thread_at_run _ s t Et). unfold on_timer. fold v. now rewrite E.
  - split; [lia|]. split; [cbn; now rewrite H1|]. split; [cbn; rewrite H5; cbn; now rewrite Hp|].
    split; [exact H4|]. split; [exact Hy|]. split; [|reflexivity].
    unfold ker, slice_counted, timer_put. cbn. now rewrite Hts.
Qed.

Lemma threads_no_load depth s : @machine_DelayedLoad _ _ (threads_hardware switch depth) 0 0 s = Ok (tt, s).
Proof. now destruct depth. Qed.
Lemma threads_handler depth w :
  @call_handler _ _ (threads_hardware switch depth) (pi_handler (kernel_timer w).2) (pi_arg (kernel_timer w).2) = timer_interrupt.
Proof. now destruct depth. Qed.

(** new Timer(TimerInterruptHandler, 0, randomYield) before there is a thread. *)
Lemma new_Timer_run s doRandom :
  threads (ker s) = ∅ -> pending (interrupt s) = [] -> now s = 0 ->
  exists w n, 0 < w <= 2 * TimerTicks /\
    on_timer (Timer_Timer 0 doRandom) s =
      Ok (tt, mkIsys (interrupt (set_pending [kernel_timer w] s)) (stats s)
                (mkKDev (ker s) (mkTimer doRandom 0) n (kd_flags (dev s)) (kd_machine (dev s)))).
Proof.
  intros Ht Hp Hn. unfold on_timer, Timer_Timer.
  set (v := mkIsys (interrupt s) (stats s) (timer_view (dev s))).
  set (v1 := set_dev (mkTimerSys (mkTimer doRandom 0) (timeSlice (dev v)) (rand_calls (dev v))) v).
  destruct (TimeOfNextInterrupt_spec v1) as (d & n & E & Hd & _).
  exists d, n. split; [unfold TimerTicks in *; lia|]. unfold mthen at 1, mmodify. cbv beta iota. fold v1.
  mstep_by E. unfold Schedule. cbn [mget mthen]. unfold mthen at 1, mget. cbn [stats set_dev v1 v].
  unfold now in Hn. rewrite Hn, (proj2 (Z.ltb_lt 0 d)) by lia. unfold TimerTicks in Hd. rewrite i32_id by (unfold is_i32; lia).
  unfold mthen, ASSERT, insert_pending, mmodify. cbn. rewrite Hp. cbn. unfold timer_put. cbn.
  unfold ker in Ht. cbn in Ht.
  assert (Ek : forall f p, k_threads (alter f p) (kd_kernel (dev s)) = kd_kernel (dev s)).
  { intros f p. unfold k_threads. rewrite Ht.
    replace (alter f p ∅) with (∅ : gmap Z Thread) by (apply map_eq; intros q; rewrite lookup_alter, lookup_empty; now case_decide).
    rewrite <- Ht. now destruct (kd_kernel (dev s)). }
  now rewrite Ek.
Qed.
End timer_lemmas.

(** * Start of the threads build *)

(** Before main: static data is zero. *)
Record unbooted (s : ksys) : Prop := {
  ub_threads : threads (ker s) = ∅;
  ub_map     : threadMap (ker s) = replicate 128 false
}.

(** After Initialize with the options [o]. *)
Record booted (p : Z) (o : Options) (s : ksys) : Prop := {
  bt_sched   : sched_inv (ker s);
  bt_tid     : tid_inv (ker s);
  bt_current : currentThread (ker s) = p;
  bt_main    : exists t, threads (ker s) = {[p := t]} /\ name t = "main"%string /\ tid t = 0 /\ space t = None;
  bt_ready   : readyList (ker s) = [];
  bt_destroy : threadToBeDestroyed (ker s) = None;
  bt_ids     : free_tids (threadMap (ker s)) = seqZ 1 127;
  bt_on      : level (interrupt s) = IntOn;
  bt_mode    : int_status (interrupt s) = SystemMode;
  bt_handler : inHandler (interrupt s) = false;
  bt_yield   : yieldOnReturn (interrupt s) = false;
  bt_now     : now s = SystemTick;
  bt_flags   : kd_flags (dev s) = Some (debugArgs o);
  bt_pending : if randomYield o
               then exists w, SystemTick < w <= SystemTick + 2 * TimerTicks /\ pending (interrupt s) = [kernel_timer w]
               else pending (interrupt s) = []
}.

Definition main_thread (p : Z) : Thread := mkThread None ∅ 0 1 1000 0 None RUNNING "main" None.
Definition main_kernel (p : Z) : Kernel :=
  mkKernel {[p := main_thread p]} [] [] p None (true :: replicate 127 false).

Lemma main_kernel_inv p : sched_inv (main_kernel p) /\ tid_inv (main_kernel p).
Proof.
  split; split; cbn.
  - constructor.
  - intros q Hq. inversion Hq.
  - exists (main_thread p). now rewrite lookup_singleton_eq.
  - intros q t. rewrite lookup_singleton_Some. intros [_ <-]. exact I.
  - reflexivity.
  - intros q t. rewrite lookup_singleton_Some. intros [_ <-] _. reflexivity.
  - intros q r t u. rewrite !lookup_singleton_Some. intros [<- _] [<- _]. reflexivity.
Qed.

Section boot_lemmas.
Context `{!HostRandom} (switch : Z -> Z -> M ksys unit) (depth : nat) (p : Z).
Implicit Types s : ksys.
Let hw : Hardware KDev timer_handler := threads_hardware switch depth.
Let B : Boot ksys := threads_boot switch depth p.

(** The state just before interrupts are enabled, with [q] pending. *)
Definition before_enable (o : Options) (q : list (Z * PendingInterrupt timer_handler)) (tm : Timer) (n : nat) (m : option Machine) : ksys :=
  mkIsys (mkInterrupt IntOff q false false SystemMode) Statistics_Statistics
    (mkKDev (main_kernel p) tm n (Some (debugArgs o)) m).

Lemma Enable_booted o q tm n m :
  (if randomYield o then exists w, 0 < w <= 2 * TimerTicks /\ q = [kernel_timer w] else q = []) ->
  exists s', boot_Enable B (before_enable o q tm n m) = Ok (tt, s') /\ booted p o s'.
Proof.
  intros Hq. destruct (main_kernel_inv p) as [Hs Ht]. set (s := before_enable o q tm n m).
  assert (EE : forall s', @OneTick _ _ hw (set_level IntOn s) = Ok (tt, s') -> boot_Enable B s = Ok (tt, s')).
  { intros s' E. unfold B. cbn [boot_Enable threads_boot]. unfold Enable. unfold mthen. rewrite SetLevel_cases. cbn -[OneTick].
    unfold mthen. fold hw. now rewrite E. }
  assert (Hcase : none_due (set_level IntOn s) \/ exists w, q = [kernel_timer w] /\ w <= SystemTick /\ randomYield o = true).
  { destruct (randomYield o) eqn:Er; [|left; subst q; exact I]. destruct Hq as (w & Hw & ->).
    destruct (Z_lt_le_dec SystemTick w); [left; exact l|right; exists w; auto]. }
  destruct Hcase as [Hquiet|(w & Eq & Hw & Hr)].
  - exists (set_level IntOn (set_stats (kernel_ticked (set_level IntOn s)) (set_level IntOn s))). split.
    + apply EE. now apply OneTick_quiet.
    + split; try reflexivity; try assumption; [eexists; repeat split|].
      destruct (randomYield o); [|exact Hq]. destruct Hq as (w & Hw & ->). exists w. split; [|reflexivity].
      assert (SystemTick < w) by exact Hquiet. unfold SystemTick, TimerTicks in *. lia.
  - set (s1 := mkIsys (mkInterrupt IntOff [] true false SystemMode) (kernel_ticked s) (dev s) : ksys).
    destruct (timer_interrupt_run s1 (main_thread p)) as (w' & s2 & E & Hw' & Hl & Hp & Hn & Hy & Hk & Hf);
      try reflexivity; [cbn; apply lookup_singleton_eq|split; [discriminate|reflexivity]|].
    change (now s1) with SystemTick in *.
    assert (Hns : next_slice (ker s1) = 1).
    { unfold next_slice, current_slice. cbn. now rewrite lookup_singleton_eq. }
    rewrite Hns in Hy. cbn in Hy.
    set (s3 := mkIsys (mkInterrupt IntOn (pending (interrupt s2)) false (yieldOnReturn (interrupt s2)) SystemMode) (stats s2) (dev s2) : ksys).
    assert (E3 : @OneTick _ _ hw (set_level IntOn s) = Ok (tt, s3)).
    { unfold hw. rewrite (OneTick_due (threads_no_load switch depth) (set_level IntOn s) s2 w (snd (kernel_timer w))); auto.
      - fold s3. unfold after_handlers. now replace (yieldOnReturn (interrupt s3)) with false.
      - rewrite threads_handler. exact E.
      - rewrite Hp, Hn. cbn. lia. }
    exists s3. split; [now apply EE|].
    assert (Ek : ker s3 = slice_counted (main_kernel p)) by exact Hk.
    split; try reflexivity; rewrite ?Ek; try assumption; try reflexivity.
    + now apply slice_counted_inv.
    + now apply slice_counted_inv.
    + eexists. cbn. rewrite <- insert_empty, alter_insert_eq. split; [reflexivity|]. now repeat split.
    + rewrite Hr. exists w'. split; [exact Hw'|]. exact Hp.
Qed.

Lemma boot_kernel_run o s :
  unbooted s -> exists s', boot_kernel B o s = Ok (tt, s') /\ booted p o s'.
Proof.
  intros [Ht Hm]. unfold boot_kernel.
  set (s1 := set_ker (k_blockedList (fun _ => []) (k_readyList (fun _ => []) (ker s)))
    (mkIsys Interrupt_Interrupt Statistics_Statistics (mkKDev (ker s) (kd_timer (dev s)) (kd_rand (dev s)) (Some (debugArgs o)) (kd_machine (dev s)))) : ksys).
  do 3 (rewrite (mthen_step _ _ _ tt _) by reflexivity). mstep_to tt s1.
  assert (Hq : exists q tm n, when (randomYield o) (new_Timer B (randomYield o)) s1 =
      Ok (tt, mkIsys (mkInterrupt IntOff q false false SystemMode) Statistics_Statistics (mkKDev (ker s1) tm n (Some (debugArgs o)) (kd_machine (dev s)))) /\
      (if randomYield o then exists w, 0 < w <= 2 * TimerTicks /\ q = [kernel_timer w] else q = [])).
  { destruct (randomYield o); [|exists [], (kd_timer (dev s)), (kd_rand (dev s)); split; reflexivity].
    destruct (new_Timer_run s1 true Ht eq_refl eq_refl) as (w & n & Hw & E).
    exists [kernel_timer w], (mkTimer true 0), n. split; [exact E|eauto]. }
  destruct Hq as (q & tm & n & E & Hq). mstep_by E.
  set (s2 := mkIsys _ _ _). set (s3 := set_ker (k_threadToBeDestroyed None (ker s2)) s2). mstep_to tt s3.
  assert (Hm3 : threadMap (ker s3) = replicate 128 false) by exact Hm.
  assert (E4 : new_main_thread B s3 = Ok (tt, set_ker (k_currentThread p (k_threads <[p := mkThread None ∅ 0 1 1000 0 None JUST_CREATED "main" None]>
      (k_threadMap (<[Z.to_nat 0 := true]> (threadMap (ker s3))) (ker s3)))) s3)).
  { unfold B. cbn [new_main_thread threads_boot]. rewrite (mthen_step _ _ _ _ _ (Thread_Thread_run s3 p "main" 1000 0 (seqZ 1 127)
      ltac:(rewrite Hm3; reflexivity) ltac:(rewrite Hm3; vm_compute; reflexivity))). reflexivity. }
  mstep_by E4. set (s4 := set_ker _ s3).
  assert (E5 : main_running B s4 = Ok (tt, before_enable o q tm n (kd_machine (dev s)))).
  { unfold B. cbn [main_running threads_boot]. mstep_to (ker s4) s4. unfold Thread_setStatus.
    erewrite mod_thread_run by (cbn; apply lookup_insert_eq). unfold before_enable, set_ker, set_dev. cbn. do 4 f_equal.
    unfold main_kernel, k_threads. cbn. f_equal.
    - change (threads (ker s)) with (threads (kernel (dev s))). cbn in Ht. unfold ker in Ht. cbn in Ht. rewrite Ht.
      rewrite insert_insert_eq. reflexivity.
    - unfold ker in Hm. cbn in Hm. now rewrite Hm. }
  mstep_by E5. destruct (Enable_booted o q tm n (kd_machine (dev s)) Hq) as (s' & E6 & Hb). mstep_by E6. exists s'. split; [reflexivity|exact Hb].
Qed.
End boot_lemmas.

(** * Lemmas: the end of the last thread *)
Section finish_lemmas.
Context {D H : Type} `{!Hardware D H, !HasKernel D, !HasKernelLaws D, !ContextSwitch D H}.
Implicit Types s : isys D H.

(** Nothing but the timer is pending. *)
Definition only_timer s : Prop :=
  match pending (interrupt s) with
  | [] => True
  | [e] => pi_type e.2 = TimerInt
  | _ => False
  end.

(** Halt can read the counters of the machine, whatever the kernel does. *)
Variable readable : D -> Prop.
Hypothesis readable_counters : forall s, readable (dev s) -> exists c, machine_counters s = Ok (c, s).
Hypothesis readable_kernel : forall k d, readable d -> readable (set_kernel k d).

Lemma Idle_halts s : readable (dev s) -> level (interrupt s) = IntOff -> only_timer s -> Idle s = Err Halted.
Proof.
  intros Hr Hl Ht. unfold only_timer in Ht. unfold Idle. mstep_to tt (setStatus IdleMode s).
  assert (HH : forall s', dev s' = dev s -> Halt s' = Err Halted).
  { intros s' Hd. destruct (readable_counters s') as [c E]; [now rewrite Hd|]. unfold Halt. now mstep_by E. }
  destruct (pending (interrupt s)) as [|e [|]] eqn:Hp; [| |contradiction].
  - rewrite (mthen_step _ _ _ false (setStatus IdleMode s)); [now apply HH|].
    unfold CheckIfDue, mthen, mget, ASSERT. cbn. rewrite Hl, Hp. reflexivity.
  - destruct (CheckIfDue_idle_stop true (setStatus IdleMode s) e Hl eq_refl Hp Ht) as (s2 & E & Hd & _).
    mstep_by E. now apply HH.
Qed.

(** The last thread finishes: the machine halts. *)
Lemma Finish_alone s t n :
  readable (dev s) -> threads (ker s) !! currentThread (ker s) = Some t -> readyList (ker s) = [] -> only_timer s ->
  Finish (S n) (currentThread (ker s)) s = Err Halted.
Proof.
  intros Hrd Et Er Ho. set (cur := currentThread (ker s)). unfold Finish.
  mstep_to (level (interrupt s)) (set_level IntOff s). mstep_to (ker s) (set_level IntOff s). fold cur.
  rewrite Z.eqb_refl. mstep_to tt (set_level IntOff s).
  set (s1 := set_ker (k_threadToBeDestroyed (Some cur) (ker s)) (set_level IntOff s)). mstep_to tt s1.
  assert (Ek : ker s1 = k_threadToBeDestroyed (Some cur) (ker s)) by apply ker_set_ker.
  unfold Sleep. mstep_to (ker s1) s1. rewrite Ek. cbn [currentThread k_threadToBeDestroyed]. fold cur. rewrite Z.eqb_refl.
  mstep_to tt s1. mstep_to IntOff s1. mstep_to tt s1.
  assert (Et1 : threads (ker s1) !! cur = Some t) by now rewrite Ek.
  unfold Thread_setStatus. mstep_by (mod_thread_run cur (th_set_status BLOCKED) s1 t Et1).
  rewrite (mthen_step _ _ _ _ _ (mod_kernel_run _ _)). rewrite set_ker_twice, ker_set_ker. cbn [wait_for_thread].
  set (s2 := set_ker _ s1).
  assert (EF : FindNextToRun s2 = Ok (None, s2)).
  { rewrite FindNextToRun_run. unfold s2. rewrite ker_set_ker. cbn. rewrite Ek. cbn. now rewrite Er. }
  unfold mthen at 1 2. rewrite EF. cbv beta iota. unfold mthen at 1. rewrite Idle_halts; auto. unfold s2, s1, set_ker. cbn. auto.
Qed.
End finish_lemmas.

Definition threads_build : Build := mkBuild false false false false.

(** * Lemmas: preemption *)

(** A kernel thread runs with the timer set, and others are ready. *)
Record sliced (cur : Z) (ready : list Z) (slice w : Z) (s : ksys) : Prop := {
  sl_inv     : sched_inv (ker s);
  sl_current : currentThread (ker s) = cur;
  sl_thread  : exists t, threads (ker s) !! cur = Some t /\ space t = None /\ th_timeSlice t = slice;
  sl_ready   : readyList (ker s) = ready;
  sl_mode    : int_status (interrupt s) = SystemMode;
  sl_yield   : yieldOnReturn (interrupt s) = false;
  sl_pending : pending (interrupt s) = [kernel_timer w];
  sl_ahead   : now s < w <= now s + 2 * TimerTicks
}.

Section preempt_lemmas.
Context `{!HostRandom} (switch : Z -> Z -> M ksys unit) (depth : nat).
Implicit Types s : ksys.

(** What is left of a tick that switches from [cur] to [next]. *)
Definition switch_away (cur next : Z) : M ksys unit :=
  ((switch cur next >>> @Run_return _ _ _ (threads_switch switch)) >>>
   (let! _ := @SetLevel _ _ (threads_hardware switch depth) IntOn in mreturn tt)) >>>
  mmodify (setStatus SystemMode).

Lemma kernel_ticked_now s : 0 <= now s < ClockLimit - SystemTick -> totalTicks (kernel_ticked s) = now s + SystemTick.
Proof. intros Hn. cbn. apply i32_id. unfold is_i32, ClockLimit, SystemTick, now in *. lia. Qed.

Lemma tick_waits cur ready slice w s :
  sliced cur ready slice w s -> 0 <= now s < ClockLimit - SystemTick -> now s + SystemTick < w ->
  exists s', @OneTick _ _ (threads_hardware switch (S depth)) s = Ok (tt, s') /\ now s' = now s + SystemTick /\
    sliced cur ready slice w s'.
Proof.
  intros [H1 H2 H3 H4 H5 H6 H7 H8] Hn Hw. pose proof (kernel_ticked_now s Hn) as Ht.
  exists (set_level IntOn (set_stats (kernel_ticked s) s)). split; [|split; [exact Ht|]].
  - apply OneTick_quiet; auto. unfold none_due. rewrite H7, Ht. exact Hw.
  - split; auto. change (now (set_level _ _)) with (totalTicks (kernel_ticked s)). rewrite Ht. unfold SystemTick in *. lia.
Qed.

(** The system in the timer's handler. *)
Definition in_handler s : ksys :=
  mkIsys (mkInterrupt IntOff [] true (yieldOnReturn (interrupt s)) SystemMode) (kernel_ticked s) (dev s).

Lemma tick_expires cur ready slice w s :
  sliced cur ready slice w s -> 0 <= now s < ClockLimit - SystemTick -> w <= now s + SystemTick -> 0 <= slice < 10 ->
  exists w' s2, sliced cur ready ((slice + 1) mod 10) w' s2 /\ now s2 = now s + SystemTick /\ level (interrupt s2) = IntOn /\
    @OneTick _ _ (threads_hardware switch (S depth)) s =
      if (slice + 1) mod 10 =? 5
      then (@thread_Yield _ _ (threads_hardware switch (S depth)) >>> mmodify (setStatus SystemMode)) s2
      else Ok (tt, s2).
Proof.
  intros [H1 H2 (t & Et & Hsp & Hsl) H4 H5 H6 H7 H8] Hn Hw Hs. pose proof (kernel_ticked_now s Hn) as Ht. subst cur.
  destruct (timer_interrupt_run (in_handler s) t Et) as (w' & s1 & E & Hw' & Hl & Hp & Hn1 & Hy & Hk & _); try reflexivity.
  { unfold now. cbn [stats in_handler]. rewrite Ht. unfold ClockLimit, SystemTick in *. lia. }
  change (now (in_handler s)) with (totalTicks (kernel_ticked s)) in *. rewrite Ht in Hw', Hn1.
  change (ker (in_handler s)) with (ker s) in Hk, Hy.
  change (yieldOnReturn (interrupt (in_handler s))) with (yieldOnReturn (interrupt s)) in Hy. rewrite H6 in Hy.
  assert (Hns : next_slice (ker s) = (slice + 1) mod 10).
  { unfold next_slice, current_slice. rewrite Et. cbn. rewrite Hsl. apply Z.rem_mod_nonneg; lia. }
  rewrite Hns in Hy. cbn in Hy.
  set (s2 := mkIsys (mkInterrupt IntOn (pending (interrupt s1)) false false SystemMode) (stats s1) (dev s1) : ksys).
  exists w', s2. split; [|split; [exact Hn1|split; [reflexivity|]]].
  - assert (Ek : ker s2 = slice_counted (ker s)) by exact Hk. split; try reflexivity.
    + rewrite Ek. now apply slice_counted_inv.
    + now rewrite Ek.
    + exists (th_set_timeSlice ((slice + 1) mod 10) t). rewrite Ek. unfold slice_counted. rewrite Hns.
      cbn [threads k_threads]. rewrite lookup_alter_eq, Et. auto.
    + now rewrite Ek.
    + exact Hp.
    + change (now s2) with (now s1). rewrite Hn1. exact Hw'.
  - rewrite (OneTick_due (threads_no_load switch (S depth)) s s1 w (snd (kernel_timer w)) H5 H7); auto.
    + unfold after_handlers. cbn [yieldOnReturn interrupt]. rewrite Hy. now destruct (_ =? 5).
    + rewrite Ht. exact Hw.
    + rewrite Hp, Hn1. cbn. lia.
Qed.

Lemma tick_preempts cur next r w s :
  sliced cur (next :: r) 4 w s -> 0 <= now s < ClockLimit - SystemTick -> w <= now s + SystemTick ->
  exists s', sched_inv (ker s') /\ currentThread (ker s') = next /\ readyList (ker s') = r ++ [cur] /\
    level (interrupt s') = IntOff /\
    @OneTick _ _ (threads_hardware switch (S depth)) s = switch_away cur next s'.
Proof.
  intros Hs Hn Hw. destruct (tick_expires cur _ 4 w s Hs Hn Hw ltac:(lia)) as (w' & s2 & [H1 H2 (t & Et & Hsp & _) H4 _ _ _ _] & _ & Hl & E).
  change ((4 + 1) mod 10 =? 5) with true in E. cbv iota in E. rewrite E. clear E. subst cur. destruct (si_ready _ H1 next) as (n & En & _); [rewrite H4; left|].
  assert (Hrun : status t = RUNNING) by (destruct (si_current _ H1) as (t' & ? & ?); congruence).
  exists (set_ker (dispatched next n (k_readyList (fun _ => r ++ [currentThread (ker s2)])
            (k_threads <[currentThread (ker s2) := th_set_status READY t]> (ker s2)))) (set_level IntOff s2)).
  rewrite ker_set_ker. split; [now apply (sched_inv_rotate (ker s2) t n next r)|]. do 3 (split; [reflexivity|]).
  cbn [threads_hardware thread_Yield]. unfold switch_away, mthen at 1 2. cbn [get_kernel mthen].
  change (get_kernel s2) with (Ok (ker s2, s2)). cbv beta iota.
  unfold mthen at 3. erewrite (@Yield_run _ _ (threads_hardware switch depth) _ _ (threads_switch switch) s2 t next n r); auto.
  rewrite Hl. reflexivity.
Qed.

(** Ticks until the time slice is over, at most. *)
Definition patience (slice w s_now : Z) : Z := 7 * ((4 - slice) mod 10) + (w - s_now - 1) / SystemTick.

Lemma ticks_preempt cur next r m : forall slice w s,
  sliced cur (next :: r) slice w s -> 0 <= slice < 10 -> 0 <= now s -> now s + SystemTick * (Z.of_nat m + 1) < ClockLimit ->
  patience slice w (now s) <= Z.of_nat m ->
  exists n s1 s2, (n <= m)%nat /\ mfor (seq 0 n) (fun _ => @OneTick _ _ (threads_hardware switch (S depth))) s = Ok (tt, s1) /\
    @OneTick _ _ (threads_hardware switch (S depth)) s1 = switch_away cur next s2 /\
    sched_inv (ker s2) /\ currentThread (ker s2) = next /\ readyList (ker s2) = r ++ [cur] /\ level (interrupt s2) = IntOff.
Proof.
  assert (Hcons : forall n s s', @OneTick _ _ (threads_hardware switch (S depth)) s = Ok (tt, s') ->
    mfor (seq 0 (S n)) (fun _ => @OneTick _ _ (threads_hardware switch (S depth))) s =
    mfor (seq 0 n) (fun _ => @OneTick _ _ (threads_hardware switch (S depth))) s').
  { intros n s s' E. cbn [seq mfor]. mstep_by E. generalize 0%nat 1%nat. revert s' E. clear. intros s' _ a b. revert a b s'.
    induction n as [|n IH]; intros a b s'; [reflexivity|]. cbn [seq mfor]. unfold mthen.
    destruct (OneTick s') as [[[] s2]|]; [apply IH|reflexivity]. }
  induction m as [|m IH]; intros slice w s Hs Hsl Hn0 Hn Hp; pose proof (sl_ahead _ _ _ _ _ Hs) as Hw;
    unfold patience, TimerTicks, SystemTick, ClockLimit in *.
  - pose proof (Z.mod_pos_bound (4 - slice) 10 ltac:(lia)). pose proof (Z.div_pos (w - now s - 1) 10 ltac:(lia) ltac:(lia)).
    assert ((4 - slice) mod 10 = 0) by lia. assert (slice = 4) by (pose proof (Z.div_mod (4 - slice) 10); lia). subst slice.
    assert (w <= now s + 10) by (pose proof (Z.div_mod (w - now s - 1) 10); pose proof (Z.mod_pos_bound (w - now s - 1) 10); lia).
    destruct (tick_preempts cur next r w s Hs) as (s2 & ? & ? & ? & ? & E); [unfold ClockLimit, SystemTick; lia..|].
    exists 0%nat, s, s2. auto 10.
  - destruct (Z_lt_le_dec (now s + 10) w) as [Hlt|Hle].
    + destruct (tick_waits cur _ slice w s Hs) as (s' & E & Hn' & Hs'); [unfold ClockLimit, SystemTick; lia..|].
      unfold SystemTick in Hn'. destruct (IH slice w s' Hs' Hsl) as (n & s1 & s2 & Hnm & E1 & H2); [rewrite Hn'; lia..| |].
      { rewrite Hn'. replace (w - (now s + 10) - 1) with (w - now s - 1 + (-1) * 10) by lia. rewrite Z.div_add by lia. lia. }
      exists (S n), s1, s2. split; [lia|]. rewrite (Hcons n s s' E). auto.
    + destruct (Z.eq_dec slice 4) as [->|Hne].
      { destruct (tick_preempts cur next r w s Hs) as (s2 & ? & ? & ? & ? & E); [unfold ClockLimit, SystemTick; lia..|].
        exists 0%nat, s, s2. split; [lia|]. auto 10. }
      destruct (tick_expires cur _ slice w s Hs) as (w' & s' & Hs' & Hn' & _ & E); [unfold ClockLimit, SystemTick; lia..|].
      assert (Hm : (slice + 1) mod 10 <> 5 /\ (4 - (slice + 1) mod 10) mod 10 = (4 - slice) mod 10 - 1 /\ 0 <= (slice + 1) mod 10 < 10).
      { assert (Hc : slice ∈ [0;1;2;3;5;6;7;8;9]) by (rewrite !elem_of_cons; lia).
        repeat (apply elem_of_cons in Hc as [->|Hc]; [vm_compute; intuition congruence|]). inversion Hc. }
      destruct Hm as (Hm5 & Hm4 & Hmr). rewrite (proj2 (Z.eqb_neq _ _) Hm5) in E.
      pose proof (sl_ahead _ _ _ _ _ Hs') as Hw'. unfold TimerTicks, SystemTick in *.
      pose proof (Z.div_pos (w - now s - 1) 10 ltac:(lia) ltac:(lia)).
      assert ((w' - now s' - 1) / 10 <= 5) by (apply Z.lt_succ_r, Z.div_lt_upper_bound; lia).
      destruct (IH ((slice + 1) mod 10) w' s' Hs' Hmr) as (n & s1 & s2 & Hnm & E1 & H2); [rewrite ?Hn'; lia..| |].
      { rewrite Hm4. lia. }
      exists (S n), s1, s2. split; [lia|]. rewrite (Hcons n s s' E). auto.
Qed.
End preempt_lemmas.

(** * Properties *)
Section properties.
Context `{!HostRandom} (switch : Z -> Z -> M ksys unit) (depth : nat) (p : Z).
Implicit Types s : ksys.

Lemma Initialize_threads_run prog argv ws e s :
  options_of threads_build argv ws e -> unbooted s ->
  match end_result e (fold_left option_effect ws default_options) with
  | Ok (_, o) => exists s', Initialize (threads_boot switch depth p) threads_build (prog :: argv) s = Ok (tt, s') /\ booted p o s'
  | Err f => Initialize (threads_boot switch depth p) threads_build (prog :: argv) s = Err f
  end.
Proof.
  intros Ho Hs. unfold Initialize. rewrite (Initialize_options_run threads_build prog argv ws e default_options Ho).
  destruct (end_result e _) as [[[] o]|f]; [|reflexivity].
  destruct (boot_kernel_run switch depth p o s Hs) as (s' & E & Hb). exists s'. split; [now mstep_by E|exact Hb].
Qed.

(** C13: The kernel starts in its invariant.  Initialize of the threads build,
    on a command line with all its operands, comes back with the main thread
    alone and running under the first thread id, an empty ready list, interrupts
    on, the clock one tick old and the debugging flags set; with -rs the timer
    is pending in the future, otherwise nothing is.  A missing operand fails the
    assertion before anything is created. *)
Theorem Initialize_boots prog argv ws e s :
  options_of threads_build argv ws e -> unbooted s ->
  match end_result e (fold_left option_effect ws default_options) with
  | Ok (_, o) => exists s', Initialize (threads_boot switch depth p) threads_build (prog :: argv) s = Ok (tt, s') /\ booted p o s'
  | Err f => Initialize (threads_boot switch depth p) threads_build (prog :: argv) s = Err f
  end.
Proof. apply Initialize_threads_run. Qed.

End properties.

Section properties.
Context `{!HostRandom} (switch : Z -> Z -> M ksys unit) (depth : nat).
Implicit Types s : ksys.

(** C12: No thread keeps the processor.  With the timer running, a kernel
    thread that does nothing but let time pass is interrupted after at most 68
    ticks (ten expirations of at most 60 units each): the tick after them
    switches, with interrupts off, to the thread that has been ready for
    longest, the old one goes to the end of the ready list and the scheduler's
    invariant holds at the switch. *)
Theorem timer_preempts cur next r slice w s :
  sliced cur (next :: r) slice w s -> 0 <= slice < 10 -> 0 <= now s < ClockLimit - 1000 ->
  exists n s1 s2, (n <= 68)%nat /\
    mfor (seq 0 n) (fun _ => @OneTick _ _ (threads_hardware switch (S depth))) s = Ok (tt, s1) /\
    @OneTick _ _ (threads_hardware switch (S depth)) s1 = switch_away switch depth cur next s2 /\
    sched_inv (ker s2) /\ currentThread (ker s2) = next /\ readyList (ker s2) = r ++ [cur] /\
    level (interrupt s2) = IntOff.
Proof.
  intros Hs Hsl Hn. pose proof (sl_ahead _ _ _ _ _ Hs) as Hw. unfold TimerTicks, ClockLimit in *.
  apply (ticks_preempt switch depth cur next r 68 slice w s Hs Hsl); unfold SystemTick, ClockLimit; [lia..|].
  unfold patience, SystemTick. pose proof (Z.mod_pos_bound (4 - slice) 10 ltac:(lia)).
  assert ((w - now s - 1) / 10 <= 5) by (apply Z.lt_succ_r, Z.div_lt_upper_bound; lia). lia.
Qed.

(** The state in the loop of VectorTest, with the threads [done] created. *)
Record vector_inv (addr : Z -> Z) (s0 s : ksys) (done : list Z) : Prop := {
  vi_sched   : sched_inv (ker s);
  vi_tid     : tid_inv (ker s);
  vi_current : currentThread (ker s) = currentThread (ker s0);
  vi_ready   : readyList (ker s) = readyList (ker s0) ++ (addr <$> done);
  vi_made    : forall i, i ∈ done -> exists t, threads (ker s) !! addr i = Some t /\ status t = READY /\
                 tid t = i /\ priority t = i /\ machineState t !! InitialPCState = Some (Func SimpleThread_code) /\
                 machineState t !! InitialArgState = Some (Int i);
  vi_others  : forall q, q ∉ (addr <$> done) -> threads (ker s) !! q = threads (ker s0) !! q;
  vi_clock   : now s = now s0 + SystemTick * Z.of_nat (length done);
  vi_free    : free_tids (threadMap (ker s)) = drop (length done) (free_tids (threadMap (ker s0)));
  vi_int     : interrupt s = interrupt s0
}.

(** A new thread is not known to the scheduler yet. *)
Lemma sched_inv_new k q t m :
  sched_inv k -> threads k !! q = None -> stack t = None -> sched_inv (k_threads <[q := t]> (k_threadMap m k)).
Proof.
  intros [Hnd Hrd (c & Ec & Hc) Hst] Hq Ht. split; cbn.
  - exact Hnd.
  - intros a Ha. destruct (Hrd a Ha) as (u & Eu & Hu). rewrite lookup_insert_ne by congruence. eauto.
  - rewrite lookup_insert_ne by congruence. eauto.
  - intros a u. destruct (decide (q = a)) as [<-|].
    + rewrite lookup_insert_eq. intros [= <-]. unfold stack_ok. now rewrite Ht.
    + rewrite lookup_insert_ne by auto. apply Hst.
Qed.

Lemma vector_step (addr : Z -> Z) s0 s done i :
  vector_inv addr s0 s done -> interrupt s0 = mkInterrupt IntOn [] false false SystemMode ->
  0 <= now s < ClockLimit - SystemTick -> (exists r, free_tids (threadMap (ker s)) = i :: r) ->
  threads (ker s0) !! addr i = None -> addr i ∉ (addr <$> done) ->
  exists s', (Thread_Thread (addr i) "thread" i >>>
              @Fork _ _ (threads_hardware switch depth) _ (addr i) SimpleThread_code (Int i)) s = Ok (tt, s') /\
    vector_inv addr s0 s' (done ++ [i]).
Proof.
  intros [H1 H2 H3 H4 H5 H6 H7 H8 H9] Hi Hn (r & Hr) Hfresh Hnin.
  pose proof (ti_length _ H2) as Hlen.
  set (k1 := k_threads <[addr i := mkThread None ∅ i 1 i 0 None JUST_CREATED "thread" None]>
               (k_threadMap (<[Z.to_nat i := true]> (threadMap (ker s))) (ker s))).
  mstep_by (Thread_Thread_run s (addr i) "thread" i i r Hlen Hr). fold k1. set (s1 := set_ker k1 s).
  assert (Hir : (threadMap (ker s)).[i] = Some false /\ 0 <= i < MaxThreads) by (apply free_tids_range; rewrite Hr; left).
  assert (Hnone : threads (ker s) !! addr i = None) by (rewrite H6; assumption).
  assert (Hs1 : sched_inv k1) by now apply sched_inv_new.
  assert (Hnr : addr i ∉ readyList k1) by (intros Hin; destruct (si_ready _ H1 _ Hin) as (u & ? & _); congruence).
  assert (Hnc : addr i <> currentThread k1) by (intros E; destruct (si_current _ H1) as (u & Eu & _); change (currentThread k1) with (currentThread (ker s)) in E; congruence).
  assert (Ht1 : tid_inv k1) by (apply tid_inv_new; [exact H2|right; tauto]).
  set (t1 := mkThread None ∅ i 1 i 0 None JUST_CREATED "thread" None) in *.
  set (k2 := forked_kernel (addr i) (forked_thread SimpleThread_code (Int i) t1) k1).
  rewrite (@Fork_run _ _ (threads_hardware switch depth) _ _ s1 (addr i) t1) by apply lookup_insert_eq.
  change (interrupt s1) with (interrupt s). change (ker s1) with k1. fold k2.
  set (s2 := set_ker k2 s1). change (set_ker k2 (set_level IntOff s1)) with (set_level IntOff s2).
  assert (Hi2 : interrupt s2 = mkInterrupt IntOn [] false false SystemMode) by (change (interrupt s2) with (interrupt s); congruence).
  rewrite H9, Hi. cbn [level].
  pose proof (SetLevel_quiet (Hardware0 := threads_hardware switch depth) s2 IntOn) as EL. rewrite Hi2 in EL.
  unfold none_due in EL. rewrite Hi2 in EL. specialize (EL eq_refl eq_refl eq_refl I). cbv iota in EL.
  rewrite (mthen_step _ _ _ _ _ EL). eexists. split; [reflexivity|].
  assert (Hold : forall q, q <> addr i -> threads k2 !! q = threads (ker s) !! q).
  { intros q Hq. cbn. now rewrite !lookup_insert_ne by congruence. }
  split; try assumption.
  - change (sched_inv k2). now apply sched_inv_forked; [|apply lookup_insert_eq|..].
  - change (tid_inv k2).
    replace k2 with (k_readyList (fun l => l ++ [addr i]) (k_threads (alter (forked_thread SimpleThread_code (Int i)) (addr i)) k1)).
    + destruct (tid_inv_alter k1 (addr i) (forked_thread SimpleThread_code (Int i)) (fun _ => eq_refl) Ht1). split; assumption.
    + unfold k2, forked_kernel, k_readyList, k_threads. cbn. f_equal. now rewrite alter_insert_eq, insert_insert_eq.
  - change (readyList (ker s) ++ [addr i] = readyList (ker s0) ++ (addr <$> done ++ [i])). rewrite H4, fmap_app. now rewrite app_assoc.
  - intros j Hj. change (exists t, threads k2 !! addr j = Some t /\ status t = READY /\
      tid t = j /\ priority t = j /\ machineState t !! InitialPCState = Some (Func SimpleThread_code) /\
      machineState t !! InitialArgState = Some (Int j)). apply elem_of_app in Hj as [Hj|Hj].
    + rewrite Hold; [now apply H5|]. intros E. apply Hnin. rewrite <- E. now apply list_elem_of_fmap_2.
    + apply list_elem_of_singleton in Hj as ->. eexists. split; [cbn; apply lookup_insert_eq|].
      do 3 (split; [reflexivity|]). split; cbn; now simplify_map_eq.
  - intros q Hq. change (threads k2 !! q = threads (ker s0) !! q). rewrite fmap_app, not_elem_of_app in Hq. destruct Hq as [Hq Hqi].
    rewrite Hold; [now apply H6|]. intros ->. apply Hqi. cbn. left.
  - change (totalTicks (kernel_ticked s) = now s0 + SystemTick * Z.of_nat (length (done ++ [i]))). rewrite (kernel_ticked_now s Hn), H7, length_app. cbn [length]. unfold SystemTick. lia.
  - change (free_tids (<[Z.to_nat i := true]> (threadMap (ker s))) = drop (length (done ++ [i])) (free_tids (threadMap (ker s0)))). rewrite (free_tids_rest _ i r Hlen Hr).
    rewrite length_app, <- drop_drop, <- H8, Hr. reflexivity.
  - change (interrupt (set_level IntOn s2) = interrupt s0). rewrite Hi. unfold set_level. cbn [interrupt set_interrupt]. now rewrite Hi2.
Qed.

(** VectorTest fills the ready list.  With interrupts on and no device
    running, on a kernel whose next free thread ids are 1, 2, ..., the test
    creates 120 threads with the ids 1 to 120 and their number as priority and
    argument, and puts them on the ready list in this order; one tick goes by
    for each, nobody is switched to, and the invariants of scheduler and ids
    hold. *)
Theorem VectorTest_ready (addr : Z -> Z) s :
  sched_inv (ker s) -> tid_inv (ker s) -> free_tids (threadMap (ker s)) = seqZ 1 127 ->
  interrupt s = mkInterrupt IntOn [] false false SystemMode -> 0 <= now s < ClockLimit - 1200 ->
  (forall i, 1 <= i <= 120 -> threads (ker s) !! addr i = None) ->
  (forall i j, 1 <= i <= 120 -> 1 <= j <= 120 -> addr i = addr j -> i = j) ->
  exists s', VectorTest switch depth addr s = Ok (tt, s') /\ vector_inv addr s s' (seqZ 1 120).
Proof.
  intros Hs Ht Hf Hi Hn Hfresh Hinj. unfold VectorTest.
  assert (H0 : vector_inv addr s s []).
  { split; auto; [now rewrite app_nil_r|intros i He; inversion He|cbn; lia]. }
  destruct (mfor_rule (fun todo s' => exists n, 0 <= n /\ n <= 120 /\ todo = seqZ (1 + n) (120 - n) /\ vector_inv addr s s' (seqZ 1 n))
    (fun i => Thread_Thread (addr i) "thread" i >>>
       @Fork _ _ (threads_hardware switch depth) _ (addr i) SimpleThread_code (Int i))) with (l := seqZ 1 120) (s := s)
    as (s' & E & n & Hn0 & Hn1 & Htodo & Hv).
  - intros i r s' (n & Hn0 & Hn1 & Htodo & Hv).
    destruct (Z.eq_dec n 120) as [->|Hne]; [discriminate|]. rewrite seqZ_cons in Htodo by lia. injection Htodo as -> ->.
    pose proof (vi_clock _ _ _ _ Hv) as Hc. rewrite length_seqZ, Z2Nat.id in Hc by lia. unfold SystemTick, ClockLimit in *.
    destruct (vector_step addr s s' (seqZ 1 n) (1 + n) Hv Hi) as (s2 & E2 & Hv2).
    + unfold ClockLimit, SystemTick. lia.
    + rewrite (vi_free _ _ _ _ Hv), Hf, length_seqZ. exists (seqZ (2 + n) (126 - n)).
      replace (seqZ 1 127) with (seqZ 1 n ++ (1 + n) :: seqZ (2 + n) (126 - n)).
      * rewrite drop_app_ge by (rewrite length_seqZ; lia). now rewrite length_seqZ, Nat.sub_diag.
      * replace 127 with (n + (127 - n)) by lia. rewrite seqZ_app by lia. f_equal. rewrite (seqZ_cons (1 + n)) by lia. f_equal. f_equal; lia.
    + apply Hfresh. lia.
    + intros Hin. apply list_elem_of_fmap in Hin as (j & Ej & Hj). apply elem_of_seqZ in Hj. apply Hinj in Ej; lia.
    + exists s2. split; [exact E2|]. exists (1 + n). split; [lia|]. split; [lia|]. split; [f_equal; lia|].
      replace (seqZ 1 (1 + n)) with (seqZ 1 n ++ [1 + n]); [exact Hv2|].
      replace (1 + n) with (n + 1) at 2 by lia. rewrite seqZ_app by lia. reflexivity.
  - exists 0. do 2 (split; [lia|]). now split.
  - exists s'. split; [exact E|]. assert (n = 120) as ->; [|exact Hv].
    destruct (Z.eq_dec n 120); [assumption|]. rewrite seqZ_cons in Htodo by lia. discriminate.
Qed.
End properties.

(** * Concrete runs *)
#[local] Existing Instance sample_random.

Definition no_switch : Z -> Z -> M ksys unit := fun _ _ => mreturn tt.
Definition blank_ksys : ksys :=
  mkIsys Interrupt_Interrupt Statistics_Statistics
    (mkKDev (mkKernel ∅ [] [] 0 None (replicate 128 false)) (mkTimer false 0) 0 None None).
Definition running_ksys (k : Kernel) (q : list (Z * PendingInterrupt timer_handler)) : ksys :=
  mkIsys (mkInterrupt IntOn q false false SystemMode) Statistics_Statistics (mkKDev k (mkTimer true 0) 0 None None).

Lemma blank_unbooted : unbooted blank_ksys.
Proof. now split. Defined.

Lemma Initialize_boots_witness : exists s',
  Initialize (threads_boot no_switch 1 7) threads_build ["nachos"; "-rs"; "1"; "-d"]%string blank_ksys = Ok (tt, s') /\
  currentThread (ker s') = 7 /\ pending (interrupt s') <> [].
Proof.
  destruct (Initialize_boots no_switch 1 7 "nachos" ["-rs"; "1"; "-d"]%string [OptRandom "1"] OptDebugAll blank_ksys)
    as (s' & E & Hb); [now repeat split|exact blank_unbooted|].
  exists s'. split; [exact E|]. split; [apply (bt_current _ _ _ Hb)|].
  destruct (bt_pending _ _ _ Hb) as (w & _ & ->). discriminate.
Defined.

Lemma sample_sliced : sliced 1 [2] 0 42 (running_ksys sample_kernel [kernel_timer 42]).
Proof.
  split; try reflexivity; [exact sample_sched_inv|eexists; repeat split|].
  change (0 < 42 <= 0 + 2 * TimerTicks). unfold TimerTicks. lia.
Defined.

Lemma timer_preempts_witness : exists n s1 s2, (n <= 68)%nat /\
  mfor (seq 0 n) (fun _ => @OneTick _ _ (threads_hardware no_switch 1)) (running_ksys sample_kernel [kernel_timer 42]) = Ok (tt, s1) /\
  @OneTick _ _ (threads_hardware no_switch 1) s1 = switch_away no_switch 0 1 2 s2 /\ readyList (ker s2) = [1].
Proof.
  destruct (timer_preempts no_switch 0 1 2 [] 0 42 _ sample_sliced) as (n & s1 & s2 & Hn & E1 & E2 & _ & _ & Hr & _).
  - lia.
  - change (0 <= 0 < ClockLimit - 1000). unfold ClockLimit. lia.
  - exists n, s1, s2. auto.
Defined.

Lemma VectorTest_ready_witness : exists s',
  VectorTest no_switch 1 (fun i => i) (running_ksys (main_kernel 0) []) = Ok (tt, s') /\
  readyList (ker s') = (fun i => i) <$> seqZ 1 120.
Proof.
  destruct (main_kernel_inv 0) as [Hs Ht].
  destruct (VectorTest_ready no_switch 1 (fun i => i) (running_ksys (main_kernel 0) []) Hs Ht) as (s' & E & Hv).
  - vm_compute. reflexivity.
  - reflexivity.
  - change (0 <= 0 < ClockLimit - 1200). unfold ClockLimit. lia.
  - intros i Hi. apply lookup_singleton_ne. lia.
  - auto.
  - exists s'. split; [exact E|]. exact (vi_ready _ _ _ _ Hv).
Defined.
