(* ===== verification/Synch.v ===== *)
(** threads/synch.h, synch.cc, synchlist.h and synchlist.cc: semaphores, locks,
    condition variables, read/write locks and synchronized lists.

    The objects live in the device state; a reference ([SemRef], [LockRef], ...)
    says where.  The code is that of one thread of control: what the others do
    while it sleeps is inside the [SWITCH] of Thread.v.  Both loops that may
    wait for ever, the idle loop of Sleep and the retry loop of P, have the fuel
    [fuel]; a run that uses it up ends in [OutOfFuel]. *)
From Stdlib Require Import ZArith Lia.
From stdpp Require Import base option list gmap.
From S2P Require Import Prelude CList Stats Interrupt Thread.

Local Open Scope Z_scope.

Record Semaphore := mkSemaphore {
  value : Z;
  queue : list Z
}.

Record Lock := mkLock {
  lock_semaphore    : Semaphore;
  threadHoldTheLock : option Z
}.

Record Condition := mkCondition {
  cond_queue : list Z
}.

Record RWLock := mkRWLock {
  rdlock  : Lock;
  wrlock  : Semaphore;
  readers : Z
}.

Record SynchList := mkSynchList {
  sl_list      : list Z;
  sl_lock      : Lock;
  sl_listEmpty : Condition
}.

Definition Semaphore_Semaphore (initialValue : Z) : Semaphore := mkSemaphore initialValue [].
Definition Lock_Lock : Lock := mkLock (Semaphore_Semaphore 1) None.
Definition Condition_Condition : Condition := mkCondition [].
Definition RWLock_RWLock : RWLock := mkRWLock Lock_Lock (Semaphore_Semaphore 1) 0.
Definition SynchList_SynchList : SynchList := mkSynchList [] Lock_Lock Condition_Condition.

(** * Where the objects are: [None] when the pointer does not point to one *)
Record ref (D X : Type) := mkRef {
  ref_get : D -> option X;
  ref_set : X -> D -> D
}.
Arguments mkRef {D X}.
Arguments ref_get {D X}.
Arguments ref_set {D X}.

Class RefLaws {D X : Type} `{!HasKernel D} (r : ref D X) : Prop := {
  ref_get_set : forall x d, is_Some (ref_get r d) -> ref_get r (ref_set r x d) = Some x;
  ref_set_set : forall x y d, ref_set r x (ref_set r y d) = ref_set r x d;
  ref_get_kernel : forall k d, ref_get r (set_kernel k d) = ref_get r d;
  kernel_ref_set : forall x d, kernel (ref_set r x d) = kernel d;
  ref_set_kernel : forall x k d, ref_set r x (set_kernel k d) = set_kernel k (ref_set r x d)
}.

(** A member of the object that [r] refers to. *)
Definition member {D X Y} (r : ref D X) (get : X -> Y) (set : Y -> X -> X) : ref D Y :=
  mkRef (fun d => get <$> ref_get r d)
        (fun y d => match ref_get r d with Some x => ref_set r (set y x) d | None => d end).

Definition lock_sem {D} (r : ref D Lock) : ref D Semaphore :=
  member r lock_semaphore (fun y x => mkLock y (threadHoldTheLock x)).
Definition rw_rdlock {D} (r : ref D RWLock) : ref D Lock :=
  member r rdlock (fun y x => mkRWLock y (wrlock x) (readers x)).
Definition rw_wrlock {D} (r : ref D RWLock) : ref D Semaphore :=
  member r wrlock (fun y x => mkRWLock (rdlock x) y (readers x)).
Definition list_lock {D} (r : ref D SynchList) : ref D Lock :=
  member r sl_lock (fun y x => mkSynchList (sl_list x) y (sl_listEmpty x)).
Definition list_listEmpty {D} (r : ref D SynchList) : ref D Condition :=
  member r sl_listEmpty (fun y x => mkSynchList (sl_list x) (sl_lock x) y).

Section synch.
Context {D H : Type} `{!Hardware D H, !HasKernel D, !ContextSwitch D H}.
Variable fuel : nat.
Implicit Types s : isys D H.

Definition deref {X} (r : ref D X) : M (isys D H) X :=
  let! s := mget in mlift (ref_get r (dev s)).
Definition assign {X} (r : ref D X) (x : X) : M (isys D H) unit :=
  mmodify (fun s => set_dev (ref_set r x (dev s)) s).
Definition this_thread : M (isys D H) Z := let! k := get_kernel in mreturn (currentThread k).

(** * Semaphores *)
Definition Semaphore_wait_body (r : ref D Semaphore) : M (isys D H) bool :=
  let! x := deref r in
  if value x =? 0 then
    let! t := this_thread in
    assign r (mkSemaphore (value x) (queue x ++ [t])) >>>
    Sleep fuel t >>>
    mreturn true
  else mreturn false.

Definition Semaphore_take (r : ref D Semaphore) (oldLevel : IntStatus) : M (isys D H) unit :=
  let! x := deref r in
  assign r (mkSemaphore (value x - 1) (queue x)) >>>
  let! _ := SetLevel oldLevel in mreturn tt.

(** P from the test of the value on, with [n] more rounds of its loop; a
    thread that is dispatched again after its Sleep goes on here. *)
Definition Semaphore_wait (n : nat) (r : ref D Semaphore) (oldLevel : IntStatus) : M (isys D H) unit :=
  mwhile n (Semaphore_wait_body r) >>>
  Semaphore_take r oldLevel.

Definition Semaphore_P (r : ref D Semaphore) : M (isys D H) unit :=
  let! oldLevel := SetLevel IntOff in
  Semaphore_wait fuel r oldLevel.

(** queue->Remove() and the ReadyToRun of what it returned. *)
Definition wake_first (q : list Z) : M (isys D H) unit :=
  match q with
  | [] => mreturn tt
  | thread :: _ => ReadyToRun thread
  end.

Definition Semaphore_V (r : ref D Semaphore) : M (isys D H) unit :=
  let! oldLevel := SetLevel IntOff in
  let! x := deref r in
  assign r (mkSemaphore (value x) (tail (queue x))) >>>
  wake_first (queue x) >>>
  let! x := deref r in
  assign r (mkSemaphore (value x + 1) (queue x)) >>>
  let! _ := SetLevel oldLevel in mreturn tt.

(** * Locks *)
Definition isHeldByCurrentThread (r : ref D Lock) : M (isys D H) bool :=
  let! l := deref r in
  let! t := this_thread in
  mreturn (bool_decide (threadHoldTheLock l = Some t)).

Definition set_holder (r : ref D Lock) (o : option Z) : M (isys D H) unit :=
  let! l := deref r in assign r (mkLock (lock_semaphore l) o).

Definition Lock_Acquire (r : ref D Lock) : M (isys D H) unit :=
  Semaphore_P (lock_sem r) >>>
  let! t := this_thread in
  set_holder r (Some t).

Definition Lock_Release (r : ref D Lock) : M (isys D H) unit :=
  let! b := isHeldByCurrentThread r in
  if b then Semaphore_V (lock_sem r) >>> set_holder r None else mreturn tt.

(** * Condition variables *)
Definition Condition_Wait (r : ref D Condition) (conditionLock : ref D Lock) : M (isys D H) unit :=
  Lock_Release conditionLock >>>
  let! oldLevel := SetLevel IntOff in
  let! c := deref r in
  let! t := this_thread in
  assign r (mkCondition (cond_queue c ++ [t])) >>>
  Sleep fuel t >>>
  let! _ := SetLevel oldLevel in
  Lock_Acquire conditionLock.

Definition Condition_Signal (r : ref D Condition) (conditionLock : ref D Lock) : M (isys D H) unit :=
  let! oldLevel := SetLevel IntOff in
  let! c := deref r in
  assign r (mkCondition (tail (cond_queue c))) >>>
  wake_first (cond_queue c) >>>
  let! _ := SetLevel oldLevel in mreturn tt.

(** Broadcast empties the queue; nothing else runs meanwhile, so the rounds are
    those of the queue it starts with. *)
Definition Condition_Broadcast (r : ref D Condition) (conditionLock : ref D Lock) : M (isys D H) unit :=
  let! c := deref r in
  mfor (cond_queue c) (fun _ =>
    let! c := deref r in
    assign r (mkCondition (tail (cond_queue c))) >>>
    wake_first (cond_queue c)).

(** * Read/write locks *)
Definition set_readers (r : ref D RWLock) (n : Z) : M (isys D H) unit :=
  let! x := deref r in assign r (mkRWLock (rdlock x) (wrlock x) n).

Definition rdLock (r : ref D RWLock) : M (isys D H) unit :=
  Lock_Acquire (rw_rdlock r) >>>
  let! x := deref r in
  (if readers x =? 0 then Semaphore_P (rw_wrlock r) else mreturn tt) >>>
  let! x := deref r in
  set_readers r (readers x + 1) >>>
  Lock_Release (rw_rdlock r).

Definition wrLock (r : ref D RWLock) : M (isys D H) unit := Semaphore_P (rw_wrlock r).

Definition rdUnlock (r : ref D RWLock) : M (isys D H) unit :=
  Lock_Acquire (rw_rdlock r) >>>
  let! x := deref r in
  set_readers r (readers x - 1) >>>
  let! x := deref r in
  (if readers x =? 0 then Semaphore_V (rw_wrlock r) else mreturn tt) >>>
  Lock_Release (rw_rdlock r).

Definition wrUnlock (r : ref D RWLock) : M (isys D H) unit := Semaphore_V (rw_wrlock r).

(** * Synchronized lists *)
Definition set_sl_list (r : ref D SynchList) (l : list Z) : M (isys D H) unit :=
  let! x := deref r in assign r (mkSynchList l (sl_lock x) (sl_listEmpty x)).

Definition SynchList_Append (r : ref D SynchList) (item : Z) : M (isys D H) unit :=
  Lock_Acquire (list_lock r) >>>
  let! x := deref r in
  set_sl_list r (sl_list x ++ [item]) >>>
  Condition_Signal (list_listEmpty r) (list_lock r) >>>
  Lock_Release (list_lock r).

Definition SynchList_Remove (r : ref D SynchList) : M (isys D H) Z :=
  Lock_Acquire (list_lock r) >>>
  mwhile fuel (
    let! x := deref r in
    match sl_list x with
    | [] => Condition_Wait (list_listEmpty r) (list_lock r) >>> mreturn true
    | _ => mreturn false
    end) >>>
  let! x := deref r in
  match sl_list x with
  | [] => mfail AssertFailed
  | item :: rest =>
      set_sl_list r rest >>>
      ASSERT (negb (item =? 0)) >>>
      Lock_Release (list_lock r) >>>
      mreturn item
  end.

Definition SynchList_Mapcar (r : ref D SynchList) (func : Z -> M (isys D H) unit) : M (isys D H) unit :=
  Lock_Acquire (list_lock r) >>>
  let! x := deref r in
  mfor (sl_list x) func >>>
  Lock_Release (list_lock r).
End synch.

(** * Lemmas *)
Section ref_lemmas.
Context {D H : Type} `{!HasKernel D, !HasKernelLaws D}.
Implicit Types s : isys D H.

Lemma deref_run {X} (r : ref D X) s x : ref_get r (dev s) = Some x -> deref r s = Ok (x, s).
Proof. intros E. unfold deref, mthen, mget, mlift. now rewrite E. Qed.

Lemma assign_run {X} (r : ref D X) x s : assign r x s = Ok (tt, set_dev (ref_set r x (dev s)) s).
Proof. reflexivity. Qed.

Lemma member_laws {X Y} (r : ref D X) (get : X -> Y) set :
  RefLaws r -> (forall y x, get (set y x) = y) -> (forall y y' x, set y (set y' x) = set y x) ->
  RefLaws (member r get set).
Proof.
  intros L Hg Hs. split; cbn.
  - intros y d Hd. destruct (ref_get r d) as [x|] eqn:E; [|now destruct Hd].
    rewrite ref_get_set by eauto. cbn. now rewrite Hg.
  - intros y y' d. destruct (ref_get r d) as [x|] eqn:E; [|now rewrite E].
    rewrite ref_get_set by eauto. now rewrite Hs, ref_set_set.
  - intros k d. now rewrite ref_get_kernel.
  - intros y d. destruct (ref_get r d); [apply kernel_ref_set|reflexivity].
  - intros y k d. rewrite ref_get_kernel. destruct (ref_get r d); [apply ref_set_kernel|reflexivity].
Qed.

Lemma lock_sem_laws (r : ref D Lock) : RefLaws r -> RefLaws (lock_sem r).
Proof. intros L. now apply member_laws. Qed.
Lemma rw_wrlock_laws (r : ref D RWLock) : RefLaws r -> RefLaws (rw_wrlock r).
Proof. intros L. now apply member_laws. Qed.

Lemma ker_set_ref {X} (r : ref D X) `{!RefLaws r} x s :
  ker (set_dev (ref_set r x (dev s)) s) = ker s.
Proof. apply kernel_ref_set. Qed.

(** What a wake-up does to the kernel. *)
Definition woken (q : list Z) (k : Kernel) : Kernel :=
  match q with
  | [] => k
  | t :: _ =>
      match threads k !! t with
      | Some th => k_readyList (fun l => l ++ [t]) (k_threads <[t := th_set_status READY th]> k)
      | None => k
      end
  end.

(** Every waiter is a thread. *)
Definition waiters_exist (q : list Z) (k : Kernel) : Prop :=
  Forall (fun t => is_Some (threads k !! t)) q.

Lemma wake_first_run q s :
  waiters_exist q (ker s) -> wake_first q s = Ok (tt, set_ker (woken q (ker s)) s).
Proof.
  intros Hq. destruct Hq as [|t q [th Et] _]; cbn [wake_first woken].
  - now rewrite set_ker_id.
  - rewrite Et. now apply ReadyToRun_run.
Qed.
End ref_lemmas.

Section semaphore_lemmas.
Context {D H : Type} `{!Hardware D H, !HasKernel D, !HasKernelLaws D, !ContextSwitch D H}.
Variable fuel : nat.
Implicit Types s : isys D H.

(** The state of V when it puts the interrupt level back. *)
Definition after_V (r : ref D Semaphore) (x : Semaphore) s : isys D H :=
  set_dev (ref_set r (mkSemaphore (value x + 1) (tail (queue x)))
             (set_kernel (woken (queue x) (ker s)) (dev s))) (set_level IntOff s).

Lemma Semaphore_V_run (r : ref D Semaphore) `{!RefLaws r} s x :
  ref_get r (dev s) = Some x -> waiters_exist (queue x) (ker s) ->
  Semaphore_V r s = (let! _ := SetLevel (level (interrupt s)) in mreturn tt) (after_V r x s).
Proof.
  intros Ex Hq. unfold Semaphore_V. mstep_to (level (interrupt s)) (set_level IntOff s).
  mstep_by (deref_run r (set_level IntOff s) x Ex).
  set (x1 := mkSemaphore (value x) (tail (queue x))).
  set (s1 := set_dev (ref_set r x1 (dev s)) (set_level IntOff s)). mstep_to tt s1.
  assert (Ek : ker s1 = ker s) by apply kernel_ref_set.
  assert (Hq1 : waiters_exist (queue x) (ker s1)) by now rewrite Ek.
  mstep_by (wake_first_run (queue x) s1 Hq1). rewrite Ek.
  set (s2 := set_ker (woken (queue x) (ker s)) s1).
  assert (Ex2 : ref_get r (dev s2) = Some x1).
  { unfold s2. cbn. rewrite ref_get_kernel. apply ref_get_set. eauto. }
  mstep_by (deref_run r s2 x1 Ex2). cbn [value queue x1].
  assert (E3 : assign r (mkSemaphore (value x + 1) (tail (queue x))) s2 = Ok (tt, after_V r x s)).
  { rewrite assign_run. unfold after_V, s2, s1. cbn. now rewrite !ref_set_kernel, ref_set_set. }
  now mstep_by E3.
Qed.

Definition after_P (r : ref D Semaphore) (x : Semaphore) s : isys D H :=
  set_dev (ref_set r (mkSemaphore (value x - 1) (queue x)) (dev s)) (set_level IntOff s).

Lemma Semaphore_P_enter (r : ref D Semaphore) s :
  Semaphore_P fuel r s =
    (mwhile fuel (Semaphore_wait_body fuel r) >>> Semaphore_take r (level (interrupt s))) (set_level IntOff s).
Proof. reflexivity. Qed.

Lemma wait_loop_done (r : ref D Semaphore) s x n :
  ref_get r (dev s) = Some x -> value x <> 0 ->
  mwhile (S n) (Semaphore_wait_body fuel r) s = Ok (tt, s).
Proof.
  intros Ex Hv. cbn [mwhile]. rewrite (mthen_step _ _ _ false s); [reflexivity|].
  unfold Semaphore_wait_body. mstep_by (deref_run r s x Ex). now rewrite (proj2 (Z.eqb_neq _ _) Hv).
Qed.

Lemma Semaphore_P_run (r : ref D Semaphore) `{!RefLaws r} s x :
  ref_get r (dev s) = Some x -> value x <> 0 -> fuel <> O ->
  Semaphore_P fuel r s = (let! _ := SetLevel (level (interrupt s)) in mreturn tt) (after_P r x s).
Proof.
  intros Ex Hv Hf. rewrite Semaphore_P_enter.
  pose proof (wait_loop_done r (set_level IntOff s) x (pred fuel) Ex Hv) as W.
  replace (S (pred fuel)) with fuel in W by lia. mstep_by W. unfold Semaphore_take.
  mstep_by (deref_run r (set_level IntOff s) x Ex). reflexivity.
Qed.

(** Sleep, up to the choice of the next thread. *)
Definition blocked (cur : Z) (t : Thread) (k : Kernel) : Kernel :=
  k_blockedList (fun l => l ++ [cur]) (k_threads <[cur := th_set_status BLOCKED t]> k).

Lemma Sleep_run s t :
  let cur := currentThread (ker s) in
  threads (ker s) !! cur = Some t -> level (interrupt s) = IntOff ->
  Sleep fuel cur s = (let! next := wait_for_thread fuel in Run next)
                       (set_ker (blocked cur t (ker s)) s).
Proof.
  intros cur Et Hl. unfold Sleep. mstep_to (ker s) s. fold cur. rewrite Z.eqb_refl. mstep_to tt s.
  mstep_to (level (interrupt s)) s. rewrite Hl. mstep_to tt s.
  unfold Thread_setStatus. mstep_by (mod_thread_run cur _ s t Et). mstep_by (mod_kernel_run _ _).
  now rewrite set_ker_twice, ker_set_ker.
Qed.

Lemma wait_for_thread_ready n s next rest :
  readyList (ker s) = next :: rest ->
  wait_for_thread (S n) s = Ok (next, set_ker (k_readyList (fun _ => rest) (ker s)) s).
Proof.
  intros Er. cbn [wait_for_thread]. pose proof (FindNextToRun_run s) as E. rewrite Er in E. now mstep_by E.
Qed.

(** A P that finds the semaphore at zero, up to its first sleep. *)
Lemma wait_loop_block (r : ref D Semaphore) `{!RefLaws r} s x t n :
  let cur := currentThread (ker s) in
  ref_get r (dev s) = Some x -> value x = 0 ->
  threads (ker s) !! cur = Some t -> level (interrupt s) = IntOff ->
  mwhile (S n) (Semaphore_wait_body fuel r) s =
    ((let! next := wait_for_thread fuel in Run next) >>> mwhile n (Semaphore_wait_body fuel r))
      (set_dev (ref_set r (mkSemaphore (value x) (queue x ++ [cur]))
                 (set_kernel (blocked cur t (ker s)) (dev s))) s).
Proof.
  intros cur Ex Hv Et Hl. cbn [mwhile].
  set (s1 := set_dev (ref_set r (mkSemaphore (value x) (queue x ++ [cur])) (dev s)) s).
  assert (Ek : ker s1 = ker s) by apply kernel_ref_set.
  assert (Eb : Semaphore_wait_body fuel r s = (Sleep fuel cur >>> mreturn true) s1).
  { unfold Semaphore_wait_body. mstep_by (deref_run r s x Ex). rewrite Hv, Z.eqb_refl. mstep_to cur s.
    unfold s1. rewrite Hv. reflexivity. }
  assert (Es : Sleep fuel cur s1 = (let! next := wait_for_thread fuel in Run next) (set_ker (blocked cur t (ker s)) s1)).
  { replace cur with (currentThread (ker s1)) by now rewrite Ek.
    rewrite <- Ek. apply Sleep_run; [now rewrite Ek|exact Hl]. }
  unfold mthen at 1. rewrite Eb. unfold mthen at 1. rewrite Es.
  unfold s1, set_ker. cbn. rewrite ref_set_kernel. unfold mthen at 2.
  destruct ((let! next := wait_for_thread fuel in Run next) _) as [[[] s']|e]; reflexivity.
Qed.
End semaphore_lemmas.

Lemma waiters_woken q q' k : waiters_exist q k -> waiters_exist q' k -> waiters_exist q' (woken q k).
Proof.
  intros Hq Hq'. destruct Hq as [|t q [th Et] _]; [exact Hq'|]. cbn [woken]. rewrite Et.
  eapply Forall_impl; [exact Hq'|]. intros u Hu. cbn. rewrite lookup_insert_is_Some'. auto.
Qed.
Lemma waiters_tail q k : waiters_exist q k -> waiters_exist (tail q) k.
Proof. intros Hq. now destruct Hq; [constructor|]. Qed.

(** * A thread that sleeps, is woken up and runs again *)

(** The calling thread can be dispatched and owns the processor. *)
Record alone (k : Kernel) : Prop := {
  al_ready   : readyList k = [];
  al_current : exists t, threads k !! currentThread k = Some t /\ space t = None /\ stack_ok t;
  al_destroy : threadToBeDestroyed k = None
}.

(** Asleep, woken by the handler, dispatched again. *)
Definition slept (cur : Z) (t : Thread) (k : Kernel) : Kernel :=
  dispatched cur (th_set_status READY (th_set_status BLOCKED t))
    (k_readyList (fun _ => []) (woken [cur] (blocked cur t k))).

Lemma woken_blocked cur t k :
  woken [cur] (blocked cur t k) =
    k_readyList (fun l => l ++ [cur])
      (k_threads <[cur := th_set_status READY (th_set_status BLOCKED t)]> (blocked cur t k)).
Proof. unfold woken. cbn [threads blocked k_blockedList k_threads]. now rewrite lookup_insert_eq. Qed.

Lemma slept_alone t k :
  let cur := currentThread k in
  alone k -> threads k !! cur = Some t -> alone (slept cur t k) /\ currentThread (slept cur t k) = cur.
Proof.
  intros cur [Hr (t' & Et' & Hsp & Hst) Hd] Et. unfold cur in *. rewrite Et in Et'. injection Et' as <-.
  unfold slept. rewrite woken_blocked. split; [|reflexivity]. split; cbn.
  - reflexivity.
  - rewrite lookup_insert_eq. eexists. split; [reflexivity|]. split; [exact Hsp|exact Hst].
  - exact Hd.
Qed.

Lemma slept_threads cur t k u : is_Some (threads k !! u) -> is_Some (threads (slept cur t k) !! u).
Proof. intros Hu. unfold slept. rewrite woken_blocked. cbn. rewrite !lookup_insert_is_Some'. auto. Qed.

Lemma dispatch_woken {D H : Type} `{!Hardware D H, !HasKernel D, !HasKernelLaws D, !ContextSwitch D H, !ContextSwitchLaws D H}
    n (s2 : isys D H) t k :
  let cur := currentThread k in
  alone k -> threads k !! cur = Some t -> ker s2 = woken [cur] (blocked cur t k) ->
  (let! next := wait_for_thread (S n) in Run next) s2 = Ok (tt, set_ker (slept cur t k) s2).
Proof.
  intros cur Hal Et Ek2. pose proof Ek2 as Ek2'. rewrite woken_blocked in Ek2'.
  assert (Er2 : readyList (ker s2) = [cur]).
  { rewrite Ek2'. cbn [readyList k_readyList k_threads blocked k_blockedList]. now rewrite (al_ready _ Hal). }
  mstep_by (wait_for_thread_ready n s2 cur [] Er2). set (s3 := set_ker _ s2).
  destruct (slept_alone t k Hal Et) as [Hal' Hc]. fold cur in Hal', Hc.
  destruct (al_current _ Hal) as (t' & Et' & Hsp & Hst). fold cur in Et'. rewrite Et in Et'. injection Et' as <-.
  assert (Et3 : threads (ker s3) !! cur = Some (th_set_status READY (th_set_status BLOCKED t))).
  { unfold s3. rewrite ker_set_ker, Ek2'. apply lookup_insert_eq. }
  assert (Ec3 : currentThread (ker s3) = cur).
  { unfold s3. rewrite ker_set_ker, Ek2'. reflexivity. }
  rewrite (Run_run s3 cur (th_set_status READY (th_set_status BLOCKED t)) (th_set_status READY (th_set_status BLOCKED t))); auto; [|now rewrite Ec3].
  rewrite Ec3. unfold s3. rewrite ker_set_ker, set_ker_twice, Ek2', <- woken_blocked.
  mstep_by (SWITCH_self cur _).
  destruct (al_current _ Hal') as (t4 & Et4 & Hsp4 & _).
  rewrite (Run_return_run _ t4); rewrite ?ker_set_ker; [reflexivity|exact Et4|exact Hsp4|apply Hal'].
Qed.

(** * Semaphores, locks and lists that nobody else uses, at either level *)
Section level_lemmas.
Context {D H : Type} `{!Hardware D H, !HasKernel D}.
Implicit Types s : isys D H.

Lemma SetLevel_off s : level (interrupt s) = IntOff -> SetLevel IntOff s = Ok (IntOff, s).
Proof. destruct s as [[lv pe ih yr st] u d]. cbn. intros ->. reflexivity. Qed.

Lemma set_level_off s : level (interrupt s) = IntOff -> set_level IntOff s = s.
Proof. destruct s as [[lv pe ih yr st] u d]. cbn. now intros ->. Qed.
End level_lemmas.

Definition held (cur : Z) : Lock := mkLock (mkSemaphore 0 []) (Some cur).

(** A list whose monitor nobody is in. *)
Definition free_list (x : SynchList) : Prop := sl_lock x = Lock_Lock.

(** Each operation below switches interrupts off and puts the level back, and
    time advances then if interrupts were on.  [Q n s] says that the system can
    bear [n] such ticks: they leave the device state as it is, as long as that
    has the property [J]. *)
Class Ticks {D H : Type} `{!Hardware D H, !HasKernel D} (J : D -> Prop) (Q : nat -> isys D H -> Prop) : Prop := {
  ticks_restore : forall n l s, level (interrupt s) = IntOff -> Q (S n) s ->
    exists s', (let! _ := SetLevel l in mreturn tt) s = Ok (tt, s') /\ dev s' = dev s /\
               level (interrupt s') = l /\ Q n s';
  ticks_dev    : forall n d s, Q n s -> J d -> Q n (set_dev d s);
  ticks_level  : forall n l s, Q n s -> Q n (set_level l s);
  ticks_inv    : forall n s, Q n s -> J (dev s);
  ticks_kernel : forall k d, J d -> J (set_kernel k d)
}.
Class Keeps {D X : Type} (J : D -> Prop) (r : ref D X) : Prop :=
  ref_keeps : forall x d, J d -> J (ref_set r x d).

#[export] Instance member_keeps {D X Y} (J : D -> Prop) (r : ref D X) `{!Keeps J r} (get : X -> Y) set :
  Keeps J (member r get set).
Proof. intros y d Hd. cbn. destruct (ref_get r d); [now apply ref_keeps|exact Hd]. Qed.

Section tick_lemmas.
Context {D H : Type} `{!Hardware D H, !HasKernel D, !HasKernelLaws D, !ContextSwitch D H}.
Context (J : D -> Prop) (Q : nat -> isys D H -> Prop) `{!Ticks J Q}.
Variable fuel : nat.
Hypothesis fuel_pos : fuel <> O.
Implicit Types s : isys D H.

(** The routine [m] returns [a], at the level it was called, and leaves the
    device state [d] and [n] ticks to bear. *)
Definition gives {A} (m : M (isys D H) A) (n : nat) s (a : A) (d : D) : Prop :=
  exists s', m s = Ok (a, s') /\ dev s' = d /\ level (interrupt s') = level (interrupt s) /\ Q n s'.

Lemma gives_then {A B} (m : M (isys D H) A) (f : A -> M (isys D H) B) n n' s a d b d' :
  gives m n s a d ->
  (forall s', dev s' = d -> Q n s' -> gives (f a) n' s' b d') ->
  gives (mthen m f) n' s b d'.
Proof.
  intros (s1 & E1 & D1 & L1 & Q1) Hf. destruct (Hf s1 D1 Q1) as (s2 & E2 & D2 & L2 & Q2).
  exists s2. split; [mstep_by E1; exact E2|]. split; [exact D2|]. split; [congruence|exact Q2].
Qed.

Lemma gives_pure {A} (m : M (isys D H) A) n s a : m s = Ok (a, s) -> Q n s -> gives m n s a (dev s).
Proof. intros E HQ. now exists s. Qed.

Lemma gives_dev {A} (m : M (isys D H) A) n s a d :
  m s = Ok (a, set_dev d s) -> J d -> Q n s -> gives m n s a d.
Proof. intros E HJ HQ. exists (set_dev d s). split_and!; auto. now apply (ticks_dev (J := J)). Qed.

Lemma restores n s d :
  J d -> Q (S n) s ->
  exists s', (let! _ := SetLevel (level (interrupt s)) in mreturn tt) (set_dev d (set_level IntOff s)) = Ok (tt, s') /\
    dev s' = d /\ level (interrupt s') = level (interrupt s) /\ Q n s'.
Proof.
  intros HJ HQ. apply (ticks_restore (J := J) n _ (set_dev d (set_level IntOff s))); [reflexivity|].
  apply (ticks_dev (J := J)); [|exact HJ]. now apply (ticks_level (J := J)).
Qed.

Lemma P_gives (r : ref D Semaphore) `{!RefLaws r, !Keeps J r} n s x :
  ref_get r (dev s) = Some x -> value x <> 0 -> Q (S n) s ->
  gives (Semaphore_P fuel r) n s tt (ref_set r (mkSemaphore (value x - 1) (queue x)) (dev s)).
Proof.
  intros Ex Hv HQ. unfold gives. rewrite (Semaphore_P_run fuel r s x Ex Hv fuel_pos). apply restores; [|exact HQ].
  eapply ref_keeps, ticks_inv, HQ.
Qed.

Lemma V_gives (r : ref D Semaphore) `{!RefLaws r, !Keeps J r} n s x :
  ref_get r (dev s) = Some x -> waiters_exist (queue x) (ker s) -> Q (S n) s ->
  gives (Semaphore_V r) n s tt
    (ref_set r (mkSemaphore (value x + 1) (tail (queue x))) (set_kernel (woken (queue x) (ker s)) (dev s))).
Proof.
  intros Ex Hw HQ. unfold gives. rewrite (Semaphore_V_run r s x Ex Hw). apply restores; [|exact HQ].
  eapply ref_keeps, (ticks_kernel (Q := Q)), ticks_inv, HQ.
Qed.

(** A member assigned to is the object assigned to. *)
Lemma set_member {X Y} (r : ref D X) (get : X -> Y) set x y d :
  ref_get r d = Some x -> ref_set (member r get set) y d = ref_set r (set y x) d.
Proof. intros E. cbn. now rewrite E. Qed.

Lemma get_member {X Y} (r : ref D X) (get : X -> Y) set x d :
  ref_get r d = Some x -> ref_get (member r get set) d = Some (get x).
Proof. intros E. cbn. now rewrite E. Qed.

Lemma assign_gives {X} (r : ref D X) `{!Keeps J r} n s x :
  Q n s -> gives (assign r x) n s tt (ref_set r x (dev s)).
Proof. intros HQ. apply gives_dev; [reflexivity| |exact HQ]. eapply ref_keeps, ticks_inv, HQ. Qed.

Lemma set_holder_gives (l : ref D Lock) `{!Keeps J l} n s x o :
  ref_get l (dev s) = Some x -> Q n s ->
  gives (set_holder l o) n s tt (ref_set l (mkLock (lock_semaphore x) o) (dev s)).
Proof. intros Ex HQ. unfold gives, set_holder. rewrite (mthen_step _ _ _ _ _ (deref_run l s x Ex)). now apply assign_gives. Qed.

Lemma Acquire_gives (l : ref D Lock) `{!RefLaws l, !Keeps J l} n s :
  ref_get l (dev s) = Some Lock_Lock -> Q (S n) s ->
  gives (Lock_Acquire fuel l) n s tt (ref_set l (held (currentThread (ker s))) (dev s)).
Proof.
  intros Ex HQ. pose proof (lock_sem_laws l RefLaws0) as L. pose proof (get_member l lock_semaphore (fun y x => mkLock y (threadHoldTheLock x)) _ _ Ex) as Es.
  eapply gives_then; [now apply (P_gives (lock_sem l) n s _ Es)|]. unfold lock_sem. rewrite (set_member l _ _ _ _ _ Ex).
  set (x1 := mkLock _ _). intros s1 D1 Q1. unfold gives, this_thread.
  rewrite (mthen_step _ _ _ (currentThread (ker s1)) s1) by reflexivity.
  assert (E1 : ref_get l (dev s1) = Some x1) by (rewrite D1; apply ref_get_set; eauto).
  destruct (set_holder_gives l n s1 x1 (Some (currentThread (ker s1))) E1 Q1) as (s2 & E2 & D2 & R). exists s2.
  split; [exact E2|]. split; [|exact R]. rewrite D2, D1, ref_set_set. unfold ker. now rewrite D1, kernel_ref_set.
Qed.

Lemma Release_gives (l : ref D Lock) `{!RefLaws l, !Keeps J l} n s :
  ref_get l (dev s) = Some (held (currentThread (ker s))) -> Q (S n) s ->
  gives (Lock_Release l) n s tt (ref_set l Lock_Lock (dev s)).
Proof.
  intros Ex HQ. pose proof (lock_sem_laws l RefLaws0) as L. pose proof (get_member l lock_semaphore (fun y x => mkLock y (threadHoldTheLock x)) _ _ Ex) as Es.
  unfold gives, Lock_Release.
  assert (EH : isHeldByCurrentThread l s = Ok (true, s)).
  { unfold isHeldByCurrentThread. mstep_by (deref_run l s _ Ex). mstep_to (currentThread (ker s)) s.
    now rewrite bool_decide_eq_true_2. }
  rewrite (mthen_step _ _ _ _ _ EH). cbn iota.
  apply (gives_then (Semaphore_V (lock_sem l)) _ n n s tt _ tt _ (V_gives (lock_sem l) n s _ Es ltac:(constructor) HQ)).
  cbn [woken queue lock_semaphore held value]. change (ker s) with (kernel (dev s)). rewrite set_kernel_id. unfold lock_sem. rewrite (set_member l _ _ _ _ _ Ex).
  set (x1 := mkLock _ _). intros s1 D1 Q1.
  assert (E1 : ref_get l (dev s1) = Some x1) by (rewrite D1; apply ref_get_set; eauto).
  destruct (set_holder_gives l n s1 x1 None E1 Q1) as (s2 & E2 & D2 & R). exists s2.
  split; [exact E2|]. split; [|exact R]. now rewrite D2, D1, ref_set_set.
Qed.

Lemma Signal_gives (r : ref D Condition) `{!RefLaws r, !Keeps J r} (l : ref D Lock) n s c :
  ref_get r (dev s) = Some c -> waiters_exist (cond_queue c) (ker s) -> Q (S n) s ->
  gives (Condition_Signal r l) n s tt
    (ref_set r (mkCondition (tail (cond_queue c))) (set_kernel (woken (cond_queue c) (ker s)) (dev s))).
Proof.
  intros Ec Hw HQ. set (d := ref_set r (mkCondition (tail (cond_queue c))) (set_kernel (woken (cond_queue c) (ker s)) (dev s))).
  assert (E : Condition_Signal r l s =
      (let! _ := SetLevel (level (interrupt s)) in mreturn tt) (set_dev d (set_level IntOff s))).
  { unfold Condition_Signal. mstep_to (level (interrupt s)) (set_level IntOff s).
    mstep_by (deref_run r (set_level IntOff s) c Ec).
    set (s1 := set_dev (ref_set r (mkCondition (tail (cond_queue c))) (dev s)) (set_level IntOff s)). mstep_to tt s1.
    assert (Ek : ker s1 = ker s) by apply kernel_ref_set.
    assert (Hw1 : waiters_exist (cond_queue c) (ker s1)) by now rewrite Ek.
    mstep_by (wake_first_run (cond_queue c) s1 Hw1). rewrite Ek. unfold set_ker, d. now rewrite ref_set_kernel. }
  unfold gives. rewrite E. apply restores; [|exact HQ].
  unfold d. eapply ref_keeps, (ticks_kernel (Q := Q)), ticks_inv, HQ.
Qed.

Lemma list_lock_laws (r : ref D SynchList) : RefLaws r -> RefLaws (list_lock r).
Proof. intros L. now apply member_laws. Qed.
Lemma list_listEmpty_laws (r : ref D SynchList) : RefLaws r -> RefLaws (list_listEmpty r).
Proof. intros L. now apply member_laws. Qed.

Section synchlist.
Variable r : ref D SynchList.
Context `{!RefLaws r, !Keeps J r}.

Lemma list_Acquire n s x :
  ref_get r (dev s) = Some x -> free_list x -> Q (S n) s ->
  gives (Lock_Acquire fuel (list_lock r)) n s tt
    (ref_set r (mkSynchList (sl_list x) (held (currentThread (ker s))) (sl_listEmpty x)) (dev s)).
Proof.
  intros Ex Hf HQ. pose proof (list_lock_laws r RefLaws0) as L.
  rewrite <- (set_member r sl_lock (fun y x => mkSynchList (sl_list x) y (sl_listEmpty x)) x) by exact Ex.
  apply (Acquire_gives (list_lock r) n s); [|exact HQ]. unfold list_lock. rewrite (get_member r _ _ x) by exact Ex. now rewrite Hf.
Qed.

Lemma list_Release n s x :
  ref_get r (dev s) = Some x -> sl_lock x = held (currentThread (ker s)) -> Q (S n) s ->
  gives (Lock_Release (list_lock r)) n s tt (ref_set r (mkSynchList (sl_list x) Lock_Lock (sl_listEmpty x)) (dev s)).
Proof.
  intros Ex Hh HQ. pose proof (list_lock_laws r RefLaws0) as L.
  rewrite <- (set_member r sl_lock (fun y x => mkSynchList (sl_list x) y (sl_listEmpty x)) x) by exact Ex.
  apply (Release_gives (list_lock r) n s); [|exact HQ]. unfold list_lock. rewrite (get_member r _ _ x) by exact Ex. now rewrite Hh.
Qed.

Lemma set_sl_list_gives n s x l :
  ref_get r (dev s) = Some x -> Q n s ->
  gives (set_sl_list r l) n s tt (ref_set r (mkSynchList l (sl_lock x) (sl_listEmpty x)) (dev s)).
Proof.
  intros Ex HQ. unfold gives, set_sl_list. rewrite (mthen_step _ _ _ _ _ (deref_run r s x Ex)). now apply assign_gives.
Qed.

(** What [woken] leaves as it is. *)
Lemma woken_current q k : currentThread (woken q k) = currentThread k.
Proof. unfold woken. destruct q as [|t q']; [reflexivity|]. now destruct (threads k !! t). Qed.

(** Three ticks at most: Acquire, Signal, Release. *)
Lemma Append_gives n s x item :
  ref_get r (dev s) = Some x -> free_list x -> waiters_exist (cond_queue (sl_listEmpty x)) (ker s) -> Q (S (S (S n))) s ->
  let q := cond_queue (sl_listEmpty x) in
  gives (SynchList_Append fuel r item) n s tt
    (ref_set r (mkSynchList (sl_list x ++ [item]) Lock_Lock (mkCondition (tail q))) (set_kernel (woken q (ker s)) (dev s))).
Proof.
  intros Ex Hf Hw HQ q. pose proof (list_listEmpty_laws r RefLaws0) as L. set (cur := currentThread (ker s)).
  eapply gives_then; [exact (list_Acquire _ s x Ex Hf HQ)|]. fold cur. set (x1 := mkSynchList _ _ _). intros s1 D1 Q1.
  assert (E1 : ref_get r (dev s1) = Some x1) by (rewrite D1; apply ref_get_set; eauto).
  eapply gives_then; [exact (gives_pure _ _ s1 x1 (deref_run r s1 x1 E1) Q1)|]. intros s1' D1' Q1'. rewrite D1 in D1'.
  assert (E1' : ref_get r (dev s1') = Some x1) by (rewrite D1'; apply ref_get_set; eauto).
  eapply gives_then; [exact (set_sl_list_gives _ s1' x1 _ E1' Q1')|]. rewrite D1', ref_set_set.
  set (x2 := mkSynchList _ _ _). intros s2 D2 Q2.
  assert (E2 : ref_get r (dev s2) = Some x2) by (rewrite D2; apply ref_get_set; eauto).
  assert (K2 : ker s2 = ker s) by (unfold ker; rewrite D2; apply kernel_ref_set).
  assert (E2' : ref_get (list_listEmpty r) (dev s2) = Some (sl_listEmpty x)) by (unfold list_listEmpty; now rewrite (get_member r _ _ x2)).
  eapply gives_then; [eapply (Signal_gives (list_listEmpty r) (list_lock r) _ s2 _ E2'); [now rewrite K2|exact Q2]|]. fold q.
  unfold list_listEmpty. rewrite (set_member r _ _ x2) by (now rewrite ref_get_kernel).
  rewrite K2, D2, <- ref_set_kernel, ref_set_set. set (x3 := mkSynchList _ _ _). intros s3 D3 Q3.
  assert (E3 : ref_get r (dev s3) = Some x3) by (rewrite D3; apply ref_get_set; rewrite ref_get_kernel; eauto).
  assert (K3 : currentThread (ker s3) = cur) by (unfold ker; rewrite D3, kernel_ref_set, kernel_set; apply woken_current).
  destruct (list_Release n s3 x3 E3) as (s4 & E4 & D4 & R4); [now rewrite K3|exact Q3|].
  exists s4. split; [exact E4|]. split; [|exact R4]. now rewrite D4, D3, ref_set_set.
Qed.

(** Two ticks at most. *)
Lemma Remove_gives n s x item rest :
  ref_get r (dev s) = Some x -> free_list x -> sl_list x = item :: rest -> item <> 0 -> Q (S (S n)) s ->
  gives (SynchList_Remove fuel r) n s item (ref_set r (mkSynchList rest Lock_Lock (sl_listEmpty x)) (dev s)).
Proof.
  intros Ex Hf El Hi HQ. set (cur := currentThread (ker s)). unfold SynchList_Remove.
  eapply gives_then; [exact (list_Acquire _ s x Ex Hf HQ)|]. fold cur. set (x1 := mkSynchList _ _ _). intros s1 D1 Q1.
  assert (E1 : ref_get r (dev s1) = Some x1) by (rewrite D1; apply ref_get_set; eauto).
  set (body := (let! y := deref r in match sl_list y with [] => _ | _ => _ end)).
  assert (EW : mwhile fuel body s1 = Ok (tt, s1)).
  { destruct fuel as [|m]; [now destruct fuel_pos|]. cbn [mwhile]. rewrite (mthen_step _ _ _ false s1); [reflexivity|].
    unfold body. mstep_by (deref_run r s1 x1 E1). cbn [sl_list x1]. now rewrite El. }
  unfold gives. rewrite (mthen_step _ _ _ _ _ EW), (mthen_step _ _ _ _ _ (deref_run r s1 x1 E1)).
  cbn [sl_list x1]. rewrite El. pose proof (set_sl_list_gives _ s1 x1 rest E1 Q1) as HS. rewrite D1, ref_set_set in HS.
  eapply gives_then; [exact HS|]. set (x2 := mkSynchList _ _ _). intros s2 D2 Q2.
  assert (E2 : ref_get r (dev s2) = Some x2) by (rewrite D2; apply ref_get_set; eauto).
  assert (K2 : currentThread (ker s2) = cur) by (unfold ker; now rewrite D2, kernel_ref_set).
  unfold gives. rewrite (proj2 (Z.eqb_neq _ _) Hi). rewrite (mthen_step _ _ _ tt s2) by reflexivity.
  destruct (list_Release n s2 x2 E2) as (s3 & E3 & D3 & R3); [now rewrite K2|exact Q2|].
  exists s3. split; [now mstep_by E3|]. split; [|exact R3]. now rewrite D3, D2, ref_set_set.
Qed.
End synchlist.
End tick_lemmas.

(** * Properties *)
Section properties.
Context {D H : Type} `{!Hardware D H, !HasKernel D, !HasKernelLaws D, !ContextSwitch D H}.
Implicit Types s : isys D H.

(** V adds one to the semaphore and makes the longest waiter, if any,
    ready behind the threads that are; the scheduler's invariant is kept.  All
    of it is done with interrupts off.  The waiter is not taken off
    blockedList. *)
Theorem Semaphore_V_wakes (r : ref D Semaphore) `{!RefLaws r} s x :
  ref_get r (dev s) = Some x -> waiters_exist (queue x) (ker s) ->
  exists s1,
    Semaphore_V r s = (let! _ := SetLevel (level (interrupt s)) in mreturn tt) s1 /\
    level (interrupt s1) = IntOff /\ stats s1 = stats s /\
    ref_get r (dev s1) = Some (mkSemaphore (value x + 1) (tail (queue x))) /\
    readyList (ker s1) = readyList (ker s) ++ match queue x with [] => [] | t :: _ => [t] end /\
    blockedList (ker s1) = blockedList (ker s) /\
    (sched_inv (ker s) ->
     (forall t, t ∈ queue x -> (t ∉ readyList (ker s)) /\ t <> currentThread (ker s)) ->
     sched_inv (ker s1)).
Proof.
  intros Ex Hq. exists (after_V r x s). split; [now apply Semaphore_V_run|].
  do 2 (split; [reflexivity|]).
  assert (Ek : ker (after_V r x s) = woken (queue x) (ker s)).
  { unfold after_V, ker. cbn. rewrite kernel_ref_set. apply kernel_set. }
  split; [unfold after_V; cbn; apply ref_get_set; rewrite ref_get_kernel; eauto|].
  rewrite Ek. destruct Hq as [|t q [th Et] _]; cbn [woken].
  - rewrite app_nil_r. auto.
  - rewrite Et. do 2 (split; [reflexivity|]). intros Hinv Hn.
    destruct (Hn t ltac:(left)) as [Hr Hc]. apply sched_inv_ready; auto. apply (si_stacks _ Hinv t th Et).
Qed.

(** P takes one unit of a semaphore that is not at zero and touches
    nothing else; at zero it puts the caller last in the semaphore's queue,
    marks it blocked and hands the processor to the first ready thread, all
    with interrupts off, and tries again when it is dispatched. *)
Theorem Semaphore_P_waits (r : ref D Semaphore) `{!RefLaws r} (fuel : nat) s x t :
  let cur := currentThread (ker s) in
  sched_inv (ker s) -> threads (ker s) !! cur = Some t -> space t = None ->
  ref_get r (dev s) = Some x ->
  if value x =? 0 then
    forall next rest, readyList (ker s) = next :: rest ->
    exists s1,
      Semaphore_P (S fuel) r s =
        (((SWITCH cur next >>> Run_return) >>> mwhile fuel (Semaphore_wait_body (S fuel) r)) >>>
         Semaphore_take r (level (interrupt s))) s1 /\
      level (interrupt s1) = IntOff /\
      ref_get r (dev s1) = Some (mkSemaphore 0 (queue x ++ [cur])) /\
      (exists t', threads (ker s1) !! cur = Some t' /\ status t' = BLOCKED) /\
      currentThread (ker s1) = next /\ readyList (ker s1) = rest /\ sched_inv (ker s1)
  else
    Semaphore_P (S fuel) r s = (let! _ := SetLevel (level (interrupt s)) in mreturn tt) (after_P r x s).
Proof.
  intros cur Hinv Et Hsp Ex. destruct (Z.eqb_spec (value x) 0) as [Hv|Hv]; [|now apply Semaphore_P_run].
  intros next rest Er. rewrite Semaphore_P_enter.
  unfold mthen at 1. rewrite (wait_loop_block _ r (set_level IntOff s) x t fuel Ex Hv Et eq_refl).
  change (ker (set_level IntOff s)) with (ker s). fold cur.
  set (d1 := set_kernel (blocked cur t (ker s)) (dev s)).
  set (s1 := set_dev _ (set_level IntOff s)).
  assert (Ek : ker s1 = blocked cur t (ker s)).
  { unfold s1, ker, d1. cbn. rewrite kernel_ref_set. apply kernel_set. }
  assert (Er1 : readyList (ker s1) = next :: rest) by (rewrite Ek; exact Er).
  destruct (si_ready _ Hinv next) as (n & En & Hn); [rewrite Er; left|].
  assert (Hrun : status t = RUNNING) by (destruct (si_current _ Hinv) as (t' & E' & ?); unfold cur in Et; congruence).
  assert (Hne : cur <> next) by (intros E; rewrite <- E in En; congruence).
  set (k2 := k_readyList (fun _ => rest) (blocked cur t (ker s))).
  assert (En2 : threads k2 !! next = Some n) by (cbn; now rewrite lookup_insert_ne).
  assert (Ec2 : threads k2 !! cur = Some (th_set_status BLOCKED t)) by apply lookup_insert_eq.
  exists (set_ker (dispatched next n k2) s1). split.
  - assert (EW : (let! nx := wait_for_thread (S fuel) in Run nx) s1
                 = (SWITCH cur next >>> Run_return) (set_ker (dispatched next n k2) s1)).
    { mstep_by (wait_for_thread_ready fuel s1 next rest Er1). rewrite Ek. fold k2.
      rewrite (Run_run _ next (th_set_status BLOCKED t) n); rewrite ?ker_set_ker; auto.
      - now rewrite set_ker_twice.
      - apply (si_stacks _ Hinv cur t Et). }
    unfold mthen at 1 2. unfold mthen at 1 in EW. rewrite EW. reflexivity.
  - rewrite ker_set_ker. split; [reflexivity|]. split.
    { unfold s1, set_ker. cbn. rewrite ref_get_kernel, Hv. apply ref_get_set. unfold d1. rewrite ref_get_kernel. eauto. }
    split; [exists (th_set_status BLOCKED t); cbn; rewrite lookup_insert_ne, lookup_insert_eq by auto; auto|].
    do 2 (split; [reflexivity|]). now apply (sched_inv_block (ker s) t n next rest).
Qed.
End properties.

(** * Concrete runs: a semaphore beside a kernel with a main thread at 1 and a
    thread at 2 *)
Definition sample_world : Type := Semaphore * Kernel.
#[local] Instance sample_world_kernel : HasKernel sample_world :=
  { kernel d := d.2; set_kernel k d := (d.1, k) }.
#[local] Instance sample_world_laws : HasKernelLaws sample_world.
Proof. split; [reflexivity..|now intros []]. Defined.
#[local] Instance sample_world_hardware : Hardware sample_world unit :=
  { call_handler _ _ := mreturn tt; machine_DelayedLoad _ _ := mreturn tt; thread_Yield := mreturn tt; machine_counters := mreturn (0, 0) }.
#[local] Instance sample_world_switch : ContextSwitch sample_world unit :=
  { SWITCH _ _ := mreturn tt; SaveUserState _ := mreturn tt; RestoreUserState _ := mreturn tt }.
Definition sample_sem : ref sample_world Semaphore := mkRef (fun d => Some d.1) (fun x d => (x, d.2)).
#[local] Instance sample_sem_laws : RefLaws sample_sem.
Proof. now split. Defined.

Definition sample_sem_sys (v : Z) (waiting : list Z) (st2 : ThreadStatus) (ready : list Z) : isys sample_world unit :=
  mkIsys Interrupt_Interrupt Statistics_Statistics
    (mkSemaphore v waiting,
     mkKernel (<[1 := sample_thread 0 RUNNING]> {[2 := sample_thread 1 st2]}) ready [] 1 None []).

Lemma sample_sem_inv v w :
  sched_inv (ker (sample_sem_sys v w READY [2])).
Proof.
  split.
  - apply NoDup_singleton.
  - intros p Hp. apply list_elem_of_singleton in Hp as ->. eexists. split; reflexivity.
  - eexists. split; reflexivity.
  - intros p t Hp. cbn in Hp. rewrite lookup_insert_Some, lookup_singleton_Some in Hp.
    destruct Hp as [[_ <-]|[_ [_ <-]]]; exact I.
Defined.

Lemma Semaphore_V_wakes_witness :
  exists s1, Semaphore_V sample_sem (sample_sem_sys 0 [2] BLOCKED []) =
      (let! _ := SetLevel IntOff in mreturn tt) s1 /\
    ref_get sample_sem (dev s1) = Some (mkSemaphore 1 []) /\ readyList (ker s1) = [2].
Proof.
  destruct (Semaphore_V_wakes sample_sem (sample_sem_sys 0 [2] BLOCKED []) (mkSemaphore 0 [2]) eq_refl)
    as (s1 & E & _ & _ & Er & Erl & _); [constructor; [eexists; reflexivity|constructor]|].
  exists s1. split; [exact E|]. split; [exact Er|exact Erl].
Defined.

Lemma Semaphore_P_waits_witness :
  exists s1, Semaphore_P 3 sample_sem (sample_sem_sys 0 [] READY [2]) =
      (((SWITCH 1 2 >>> Run_return) >>> mwhile 2 (Semaphore_wait_body 3 sample_sem)) >>>
         Semaphore_take sample_sem IntOff) s1 /\
    ref_get sample_sem (dev s1) = Some (mkSemaphore 0 [1]) /\ currentThread (ker s1) = 2.
Proof.
  destruct (Semaphore_P_waits sample_sem 2 (sample_sem_sys 0 [] READY [2]) (mkSemaphore 0 [])
              (sample_thread 0 RUNNING) (sample_sem_inv 0 []) eq_refl eq_refl eq_refl 2 [] eq_refl)
    as (s1 & E & _ & Er & _ & Ec & _).
  exists s1. split; [exact E|]. split; [exact Er|exact Ec].
Defined.
