(* ===== verification/Mutex.v ===== *)
(** threads/synch.cc and threads/thread.cc seen from outside: any number of
    threads that guard a section with one semaphore.

    P and V run with interrupts off, so that on one processor a thread keeps it
    from one point of control transfer to the next: the switch inside Sleep, the
    switch inside Yield, and the ticks when interrupts are on.  [step] is the
    interleaving of these pieces; [Semaphore_follows_steps] shows that the code
    of Synch.v and Thread.v moves by them, from any state, and
    [mutual_exclusion] is proved by induction on the steps. *)
From Stdlib Require Import ZArith Lia.
From stdpp Require Import base option list gmap sets relations.
From S2P Require Import Prelude CList Stats Interrupt Thread Synch.

Local Open Scope Z_scope.

(** Where a thread is: before P, asleep in P or dispatched again and about to
    test the value, or between P and V. *)
Inductive pc := Outside | Trying | Inside.

#[global] Instance pc_eq_dec : EqDecision pc.
Proof. solve_decision. Defined.

Record csys := mkCsys {
  c_sem : Semaphore;
  c_ker : Kernel;
  c_pc  : gmap Z pc
}.

(** The kernel when a thread has gone to sleep, or has gone_last, and [next] runs. *)
Definition gone_to_sleep (cur : Z) (t : Thread) (next : Z) (n : Thread) (rest : list Z) (k : Kernel) : Kernel :=
  dispatched next n (k_readyList (fun _ => rest) (blocked cur t k)).
Definition gone_last (cur : Z) (t : Thread) (next : Z) (n : Thread) (rest : list Z) (k : Kernel) : Kernel :=
  dispatched next n (k_readyList (fun _ => rest ++ [cur]) (k_threads <[cur := th_set_status READY t]> k)).

(** What the running thread can do.  A sleeping P with nobody ready leaves the
    machine idle: no step. *)
Inductive step : csys -> csys -> Prop :=
  | step_take x k m q :
      m !! currentThread k = Some q -> q <> Inside -> value x <> 0 ->
      step (mkCsys x k m)
           (mkCsys (mkSemaphore (value x - 1) (queue x)) k (<[currentThread k := Inside]> m))
  | step_block x k m q t next n rest :
      m !! currentThread k = Some q -> q <> Inside -> value x = 0 ->
      threads k !! currentThread k = Some t -> readyList k = next :: rest -> threads k !! next = Some n ->
      step (mkCsys x k m)
           (mkCsys (mkSemaphore (value x) (queue x ++ [currentThread k]))
              (gone_to_sleep (currentThread k) t next n rest k) (<[currentThread k := Trying]> m))
  | step_release x k m :
      m !! currentThread k = Some Inside ->
      step (mkCsys x k m)
           (mkCsys (mkSemaphore (value x + 1) (tail (queue x))) (woken (queue x) k)
              (<[currentThread k := Outside]> m))
  | step_yield x k m q t next n rest :
      m !! currentThread k = Some q -> q <> Trying ->
      threads k !! currentThread k = Some t -> readyList k = next :: rest -> threads k !! next = Some n ->
      step (mkCsys x k m) (mkCsys x (gone_last (currentThread k) t next n rest k) m).

(** A semaphore of [n] units that nobody has touched yet. *)
Record initial (n : Z) (c : csys) : Prop := {
  in_value   : c_sem c = Semaphore_Semaphore n;
  in_outside : map_Forall (fun _ p => p = Outside) (c_pc c);
  in_threads : forall t, t ∈ dom (c_pc c) <-> t = currentThread (c_ker c) \/ t ∈ readyList (c_ker c);
  in_sched   : sched_inv (c_ker c)
}.

(** * Counting threads *)
Definition at_pc (p : pc) (m : gmap Z pc) : gmap Z pc := filter (fun e => e.2 = p) m.
Definition count (p : pc) (m : gmap Z pc) : Z := Z.of_nat (size (at_pc p m)).
Definition is_at (p q : pc) : Z := if decide (p = q) then 1 else 0.

Lemma lookup_at_pc p m t q : at_pc p m !! t = Some q <-> m !! t = Some p /\ q = p.
Proof. unfold at_pc. rewrite map_lookup_filter_Some. cbn. naive_solver. Qed.

Lemma count_insert p m t q q' :
  m !! t = Some q -> count p (<[t := q']> m) = count p m - is_at p q + is_at p q'.
Proof.
  intros Et. unfold count, is_at, at_pc.
  assert (Ed : size (filter (fun e => e.2 = p) m) =
    ((if decide (p = q) then 1 else 0) + size (filter (fun e : Z * pc => e.2 = p) (delete t m)))%nat).
  { rewrite <- (insert_delete_id m t q Et) at 1. rewrite map_filter_insert. cbn.
    rewrite map_filter_delete, delete_delete_eq, <- map_filter_delete.
    repeat case_decide; try congruence; [|reflexivity].
    rewrite map_size_insert_None; [reflexivity|]. rewrite map_filter_delete. apply lookup_delete_eq. }
  rewrite Ed, <- insert_delete_eq, map_filter_insert. cbn.
  rewrite map_filter_delete, delete_delete_eq, <- map_filter_delete.
  repeat case_decide; try congruence; try lia.
  all: rewrite map_size_insert_None; [lia|rewrite map_filter_delete; apply lookup_delete_eq].
Qed.

(** More threads at [p] than in a list: one of them is not in it. *)
Lemma count_outside_list p m (l : list Z) :
  NoDup l -> Z.of_nat (length l) < count p m -> exists t, m !! t = Some p /\ t ∉ l.
Proof.
  intros Hnd Hl. destruct (decide (dom (at_pc p m) ∖ list_to_set (C := gset Z) l = ∅)) as [He|He].
  - exfalso. assert (Hs : dom (at_pc p m) ⊆ list_to_set l) by set_solver.
    apply subseteq_size in Hs. rewrite size_dom, size_list_to_set in Hs by exact Hnd. unfold count in Hl. lia.
  - apply set_choose_L in He as [t Ht]. apply elem_of_difference in Ht as [Ht Hn].
    apply elem_of_dom in Ht as [q Ht]. apply lookup_at_pc in Ht as [Ht _]. exists t. set_solver.
Qed.

Lemma count_nonneg p m : 0 <= count p m.
Proof. unfold count. lia. Qed.

(** * The invariant *)
Record mutex_inv (n : Z) (c : csys) : Prop := {
  mi_units   : value (c_sem c) + count Inside (c_pc c) = n;
  mi_value   : 0 <= value (c_sem c);
  mi_nodup   : NoDup (queue (c_sem c));
  mi_queued  : forall t, t ∈ queue (c_sem c) ->
                 c_pc c !! t = Some Trying /\ t <> currentThread (c_ker c) /\ (t ∉ readyList (c_ker c)) /\
                 is_Some (threads (c_ker c) !! t);
  mi_awake   : forall t p, c_pc c !! t = Some p -> t ∉ queue (c_sem c) ->
                 t = currentThread (c_ker c) \/ t ∈ readyList (c_ker c);
  mi_known   : forall t, t = currentThread (c_ker c) \/ t ∈ readyList (c_ker c) -> is_Some (c_pc c !! t);
  mi_wakeups : queue (c_sem c) <> [] ->
                 value (c_sem c) <= count Trying (c_pc c) - Z.of_nat (length (queue (c_sem c)));
  mi_sched   : sched_inv (c_ker c)
}.

Lemma initial_inv n c : 0 <= n -> initial n c -> mutex_inv n c.
Proof.
  intros Hn [Ev Ho Ht Hs]. rewrite map_Forall_lookup in Ho.
  assert (E0 : count Inside (c_pc c) = 0).
  { unfold count. rewrite (proj2 (map_empty (at_pc Inside (c_pc c)))); [reflexivity|].
    intros t. apply eq_None_not_Some. intros [q Hq]. apply lookup_at_pc in Hq as [Hq _].
    apply Ho in Hq. discriminate. }
  split; rewrite ?Ev; cbn; auto.
  - lia.
  - constructor.
  - intros t Hin. inversion Hin.
  - intros t p Hp _. apply Ht. apply elem_of_dom. eauto.
  - intros t Hin. apply Ht in Hin. now apply elem_of_dom.
  - intros Hne. now destruct Hne.
Qed.

Lemma current_not_ready k : sched_inv k -> currentThread k ∉ readyList k.
Proof.
  intros [_ Hr (t & Et & Hs) _] Hin. destruct (Hr _ Hin) as (t' & Et' & Hs'). simplify_eq. congruence.
Qed.

(** Facts about the statuses [q] that the code tests for. *)
Lemma is_at_Inside q : q <> Inside -> is_at Inside q = 0.
Proof. intros Hq. unfold is_at. now rewrite decide_False by congruence. Qed.
Lemma is_at_Trying q : 0 <= is_at Trying q <= 1.
Proof. unfold is_at. case_decide; lia. Qed.
Lemma is_at_same p : is_at p p = 1.
Proof. unfold is_at. now rewrite decide_True. Qed.
Lemma is_at_other p q : p <> q -> is_at p q = 0.
Proof. intros Hq. unfold is_at. now rewrite decide_False. Qed.

Section steps.
Variables (n : Z) (x : Semaphore) (k : Kernel) (m : gmap Z pc) (q : pc).
Let cur := currentThread k.
Hypothesis HI : mutex_inv n (mkCsys x k m).
Hypothesis Hcur : m !! cur = Some q.

Lemma current_not_queued : cur ∉ queue x.
Proof. intros Hin. now apply (mi_queued _ _ HI) in Hin as (_ & Hne & _). Qed.

Lemma mutex_inv_take :
  q <> Inside -> value x <> 0 ->
  mutex_inv n (mkCsys (mkSemaphore (value x - 1) (queue x)) k (<[cur := Inside]> m)).
Proof.
  intros Hq Hv. pose proof current_not_queued as Hcq.
  destruct HI as [Hu Hp Hnd Hqd Ha Hk Hw Hs]. cbn in *. split; cbn; auto.
  - rewrite (count_insert _ _ _ _ _ Hcur), is_at_same, is_at_Inside by exact Hq. lia.
  - lia.
  - intros t Ht. destruct (Hqd t Ht) as (Em & Hne & Hr). split; [|auto].
    rewrite lookup_insert_ne by (intros ->; contradiction). exact Em.
  - intros t p. rewrite lookup_insert_Some. intros [[<- _]|[_ Ht]]; [now left|]. now apply (Ha t p).
  - intros t Ht. rewrite lookup_insert_is_Some'. right. now apply Hk.
  - intros Hne. specialize (Hw Hne). rewrite (count_insert _ _ _ _ _ Hcur).
    rewrite (is_at_other Trying Inside) by discriminate. pose proof (is_at_Trying q). lia.
Qed.

Lemma mutex_inv_block t next nt rest :
  q <> Inside -> value x = 0 ->
  threads k !! cur = Some t -> readyList k = next :: rest -> threads k !! next = Some nt ->
  mutex_inv n (mkCsys (mkSemaphore (value x) (queue x ++ [cur])) (gone_to_sleep cur t next nt rest k)
                 (<[cur := Trying]> m)).
Proof.
  intros Hq Hv Et Er En. pose proof current_not_queued as Hcq.
  pose proof (current_not_ready _ (mi_sched _ _ HI)) as Hnr. cbn in Hnr.
  destruct HI as [Hu Hp Hnd Hqd Ha Hk Hw Hs]. cbn in *. fold cur in Hqd, Ha, Hk, Hnr.
  rewrite Er in Hqd, Ha, Hk, Hnr. apply not_elem_of_cons in Hnr as [Hne Hnr].
  pose proof (si_nodup _ Hs) as Hndr. rewrite Er in Hndr. apply NoDup_cons in Hndr as [Hnext _].
  split; cbn; auto.
  - rewrite (count_insert _ _ _ _ _ Hcur), is_at_Inside, (is_at_other Inside Trying) by (auto; discriminate). lia.
  - apply NoDup_app. split; [exact Hnd|]. split; [|apply NoDup_singleton].
    intros u Hu' Hu''. apply list_elem_of_singleton in Hu'' as ->. contradiction.
  - intros u Hin. apply elem_of_app in Hin as [Hin|Hin].
    + destruct (Hqd u Hin) as (Em & Huc & Hur & [tu Eu]). apply not_elem_of_cons in Hur as [Hun Hur].
      split_and!; auto.
      * now rewrite lookup_insert_ne.
      * rewrite !lookup_insert_ne by auto. eauto.
    + apply list_elem_of_singleton in Hin as ->. split_and!; auto.
      * apply lookup_insert_eq.
      * rewrite lookup_insert_ne, lookup_insert_eq by auto. eauto.
  - intros u p Hup Hnq. apply not_elem_of_app in Hnq as [Hnq Huc]. apply not_elem_of_cons in Huc as [Huc _].
    rewrite lookup_insert_ne in Hup by auto. destruct (Ha u p Hup Hnq) as [->|Hin]; [contradiction|].
    apply elem_of_cons in Hin. exact Hin.
  - intros u Hin. rewrite lookup_insert_is_Some'. right. apply Hk. right. apply elem_of_cons. exact Hin.
  - intros _. rewrite length_app. cbn [length]. rewrite (count_insert _ _ _ _ _ Hcur), is_at_same, Hv.
    pose proof (is_at_Trying q). destruct (queue x) as [|q0 qr] eqn:Eq.
    + cbn [length]. assert (Hc : is_at Trying q <= count Trying m).
      { unfold is_at. case_decide as E; [|apply count_nonneg]. unfold count.
        assert (at_pc Trying m !! cur = Some Trying) as Hl by (apply lookup_at_pc; subst; auto).
        destruct (size (at_pc Trying m)) eqn:Es; [|lia]. apply map_size_empty_iff in Es. rewrite Es in Hl. discriminate. }
      lia.
    + rewrite <- Eq in *. assert (Hc : Z.of_nat (length (queue x)) + is_at Trying q <= count Trying m).
      { unfold is_at. case_decide as E; [|specialize (Hw ltac:(rewrite Eq; discriminate)); lia].
        assert (Hsub : list_to_set (C := gset Z) (cur :: queue x) ⊆ dom (at_pc Trying m)).
        { intros u Hin. apply elem_of_dom. apply elem_of_list_to_set, elem_of_cons in Hin as [->|Hin].
          - exists Trying. apply lookup_at_pc. subst. auto.
          - exists Trying. apply lookup_at_pc. split; [apply Hqd, Hin|reflexivity]. }
        apply subseteq_size in Hsub. rewrite size_dom, size_list_to_set in Hsub by (now constructor).
        unfold count. cbn [length] in Hsub. lia. }
      lia.
  - now apply sched_inv_block.
Qed.

Lemma mutex_inv_release :
  q = Inside ->
  mutex_inv n (mkCsys (mkSemaphore (value x + 1) (tail (queue x))) (woken (queue x) k)
                 (<[cur := Outside]> m)).
Proof.
  intros Hq. pose proof current_not_queued as Hcq. subst q.
  destruct HI as [Hu Hp Hnd Hqd Ha Hk Hw Hs]. cbn in *. fold cur in Hqd, Ha, Hk.
  assert (Eu : count Inside (<[cur := Outside]> m) = count Inside m - 1).
  { rewrite (count_insert _ _ _ _ _ Hcur), is_at_same, (is_at_other Inside Outside) by discriminate. lia. }
  assert (Et : count Trying (<[cur := Outside]> m) = count Trying m).
  { rewrite (count_insert _ _ _ _ _ Hcur), !(is_at_other Trying) by discriminate. lia. }
  destruct (queue x) as [|w qr] eqn:Eqx; cbn [woken tail].
  - split; cbn; auto; try lia.
    + intros u Hin. inversion Hin.
    + intros u p. rewrite lookup_insert_Some. intros [[<- _]|[_ Hp']] _; [now left|]. now apply (Ha u p); [|apply not_elem_of_nil].
    + intros u Hin. rewrite lookup_insert_is_Some'. right. now apply Hk.
    + intros Hne. now destruct Hne.
  - destruct (Hqd w ltac:(left)) as (Ew & Hwc & Hwr & [tw Etw]). rewrite Etw.
    apply NoDup_cons in Hnd as [Hwq Hnd]. split; cbn; auto; try lia.
    + intros u Hin. destruct (Hqd u ltac:(now right)) as (Em & Huc & Hur & [tu Eut]).
      assert (u <> w) by (intros ->; contradiction). split_and!; auto.
      * now rewrite lookup_insert_ne.
      * rewrite elem_of_app, list_elem_of_singleton. tauto.
      * rewrite lookup_insert_ne by auto. eauto.
    + intros u p. rewrite lookup_insert_Some, elem_of_app, list_elem_of_singleton.
      intros [[<- _]|[_ Hup]] Hnq; [now left|]. destruct (decide (u = w)) as [->|Huw]; [tauto|].
      destruct (Ha u p Hup) as [?|?]; [|tauto..]. apply not_elem_of_cons. auto.
    + intros u. rewrite elem_of_app, list_elem_of_singleton, lookup_insert_is_Some'. intros [Hc|[Hc| ->]]; right; eauto.
    + intros Hne. specialize (Hw ltac:(discriminate)). rewrite Et. cbn [length] in Hw. lia.
    + apply sched_inv_ready; auto. apply (si_stacks _ Hs w tw Etw).
Qed.

Lemma mutex_inv_yield t next nt rest :
  threads k !! cur = Some t -> readyList k = next :: rest -> threads k !! next = Some nt ->
  mutex_inv n (mkCsys x (gone_last cur t next nt rest k) m).
Proof.
  intros Et Er En. pose proof current_not_queued as Hcq.
  destruct HI as [Hu Hp Hnd Hqd Ha Hk Hw Hs]. cbn in *. fold cur in Hqd, Ha, Hk. rewrite Er in Hqd, Ha, Hk.
  split; cbn; auto.
  - intros u Hin. destruct (Hqd u Hin) as (Em & Huc & Hur & [tu Eu]). apply not_elem_of_cons in Hur as [Hun Hur].
    split_and!; auto.
    + rewrite elem_of_app, list_elem_of_singleton. tauto.
    + rewrite !lookup_insert_ne by auto. eauto.
  - intros u p Hup Hnq. rewrite elem_of_app, list_elem_of_singleton.
    destruct (Ha u p Hup Hnq) as [->|Hin]; [tauto|]. apply elem_of_cons in Hin. tauto.
  - intros u. rewrite elem_of_app, list_elem_of_singleton. intros Hin. apply Hk. rewrite elem_of_cons. tauto.
  - apply sched_inv_rotate; auto. destruct (si_current _ Hs) as (t' & Et' & ?). unfold cur in Et. congruence.
Qed.
End steps.

Lemma mutex_inv_step n c c' : mutex_inv n c -> step c c' -> mutex_inv n c'.
Proof.
  intros HI Hst. destruct Hst.
  - eapply mutex_inv_take; eauto.
  - eapply mutex_inv_block; eauto.
  - eapply mutex_inv_release; eauto.
  - eapply mutex_inv_yield; eauto.
Qed.

Lemma mutex_inv_reachable n c0 c : 0 <= n -> initial n c0 -> rtc step c0 c -> mutex_inv n c.
Proof.
  intros Hn H0. apply rtc_ind_r; [now apply initial_inv|]. intros c1 c2 _ Hs HI. now apply mutex_inv_step with c1.
Qed.

(** * The code *)
Section code.
Context {D H : Type} `{!Hardware D H, !HasKernel D, !HasKernelLaws D, !ContextSwitch D H}.
Implicit Types s : isys D H.

(** The part of a state that the steps speak about. *)
Definition view (r : ref D Semaphore) (m : gmap Z pc) s (c : csys) : Prop :=
  ref_get r (dev s) = Some (c_sem c) /\ ker s = c_ker c /\ m = c_pc c.

(** P from the test of the value on: the call got there, or a switch back into
    Sleep. *)
Lemma wait_takes fuel n (r : ref D Semaphore) `{!RefLaws r} s x k m q old :
  view r m s (mkCsys x k m) -> m !! currentThread k = Some q -> q <> Inside -> value x <> 0 ->
  level (interrupt s) = IntOff ->
  exists c, step (mkCsys x k m) c /\ view r (<[currentThread k := Inside]> m) (after_P r x s) c /\
    Semaphore_wait (S fuel) (S n) r old s = (let! _ := SetLevel old in mreturn tt) (after_P r x s).
Proof.
  intros (Ex & Ek & _) Hm Hq Hv Hl. cbn in Ex, Ek. eexists. split; [now apply step_take with q|]. split.
  - split_and!; cbn; [apply ref_get_set; eauto| |reflexivity].
    rewrite <- Ek. apply kernel_ref_set.
  - unfold Semaphore_wait. mstep_by (wait_loop_done _ r s x n Ex Hv). unfold Semaphore_take. mstep_by (deref_run r s x Ex).
    mstep_by (assign_run r _ s). f_equal. unfold after_P. destruct s as [[] ? ?]. cbn in *. now subst.
Qed.

Lemma wait_sleeps fuel n (r : ref D Semaphore) `{!RefLaws r} s x k m q t next rest old :
  view r m s (mkCsys x k m) -> m !! currentThread k = Some q -> q <> Inside -> value x = 0 ->
  sched_inv k -> threads k !! currentThread k = Some t -> space t = None ->
  readyList k = next :: rest -> level (interrupt s) = IntOff ->
  exists c s1, step (mkCsys x k m) c /\
    view r (<[currentThread k := Trying]> m) s1 c /\ level (interrupt s1) = IntOff /\
    Semaphore_wait (S fuel) (S n) r old s =
    ((SWITCH (currentThread k) next >>> Run_return) >>> Semaphore_wait (S fuel) n r old) s1.
Proof.
  intros (Ex & Ek & _) Hm Hq Hv Hinv Et Hsp Er Hl. cbn in Ex, Ek. set (cur := currentThread k) in *.
  destruct (si_ready _ Hinv next) as (nt & En & Hn); [rewrite Er; left|].
  assert (Hne : cur <> next).
  { intros E. apply (current_not_ready k Hinv). rewrite Er. fold cur. rewrite E. left. }
  set (d1 := set_kernel (blocked cur t k) (dev s)).
  set (s1 := set_dev (ref_set r (mkSemaphore (value x) (queue x ++ [cur])) d1) s).
  assert (Ek1 : ker s1 = blocked cur t k) by (unfold s1, ker, d1; cbn; rewrite kernel_ref_set; apply kernel_set).
  assert (EL : mwhile (S n) (Semaphore_wait_body (S fuel) r) s =
    ((let! nx := wait_for_thread (S fuel) in Run nx) >>> mwhile n (Semaphore_wait_body (S fuel) r)) s1).
  { assert (Et' : threads (ker s) !! currentThread (ker s) = Some t) by now rewrite Ek.
    rewrite (wait_loop_block _ r s x t n Ex Hv Et' Hl). now rewrite Ek. }
  assert (EW : (let! nx := wait_for_thread (S fuel) in Run nx) s1 =
    (SWITCH cur next >>> Run_return) (set_ker (gone_to_sleep cur t next nt rest k) s1)).
  { mstep_by (wait_for_thread_ready fuel s1 next rest ltac:(rewrite Ek1; exact Er)). rewrite Ek1.
    rewrite (Run_run _ next (th_set_status BLOCKED t) nt); rewrite ?ker_set_ker.
    - now rewrite set_ker_twice.
    - apply lookup_insert_eq.
    - exact Hsp.
    - apply (si_stacks _ Hinv cur t Et).
    - cbn. now rewrite lookup_insert_ne. }
  eexists _, (set_ker (gone_to_sleep cur t next nt rest k) s1). split; [now eapply step_block; eauto|].
  split; [|split].
  - split_and!; cbn; [| |reflexivity].
    + rewrite ref_get_kernel. apply ref_get_set. unfold d1. rewrite ref_get_kernel. eauto.
    + apply ker_set_ker.
  - exact Hl.
  - unfold Semaphore_wait at 1. unfold mthen at 1. rewrite EL. unfold mthen at 1 3. rewrite EW.
    unfold Semaphore_wait. unfold mthen at 3. now destruct ((SWITCH cur next >>> Run_return) _) as [[[] ?]|].
Qed.

(** Either way; [c] and [s] are as the thread finds them. *)
Lemma wait_steps fuel n (r : ref D Semaphore) `{!RefLaws r} s u x k m q t old :
  let c := mkCsys x k m in
  let cur := currentThread k in
  mutex_inv u c -> view r m s c -> m !! cur = Some q -> q <> Inside ->
  threads k !! cur = Some t -> space t = None -> level (interrupt s) = IntOff ->
  if value x =? 0 then
    forall next rest, readyList k = next :: rest ->
    exists c' s1, step c c' /\ view r (<[cur := Trying]> m) s1 c' /\ level (interrupt s1) = IntOff /\
      Semaphore_wait (S fuel) (S n) r old s =
      ((SWITCH cur next >>> Run_return) >>> Semaphore_wait (S fuel) n r old) s1
  else
    exists c', step c c' /\ view r (<[cur := Inside]> m) (after_P r x s) c' /\
      Semaphore_wait (S fuel) (S n) r old s = (let! _ := SetLevel old in mreturn tt) (after_P r x s).
Proof.
  intros c cur HI Hv Hm Hq Et Hsp Hl. pose proof (mi_sched _ _ HI) as Hs. cbn in Hs.
  destruct (Z.eqb_spec (value x) 0) as [E0|E0].
  - intros next rest Er. now apply (wait_sleeps fuel n r s x k m q t next rest old).
  - now apply (wait_takes fuel n r s x k m q old).
Qed.

Lemma V_release (r : ref D Semaphore) `{!RefLaws r} s x k m :
  view r m s (mkCsys x k m) -> m !! currentThread k = Some Inside -> waiters_exist (queue x) k ->
  exists c, step (mkCsys x k m) c /\ view r (<[currentThread k := Outside]> m) (after_V r x s) c /\
    Semaphore_V r s = (let! _ := SetLevel (level (interrupt s)) in mreturn tt) (after_V r x s).
Proof.
  intros (Ex & Ek & _) Hm Hw. cbn in Ex, Ek. subst k. eexists. split; [now apply step_release|]. split.
  - split_and!; cbn; [| |reflexivity].
    + apply ref_get_set. rewrite ref_get_kernel. eauto.
    + unfold ker. cbn. rewrite kernel_ref_set. apply kernel_set.
  - now apply Semaphore_V_run.
Qed.
End code.

(** * Properties *)

(** C9: Mutual exclusion.  However any number of threads, guarding a section
    with P and V on a semaphore of [n] units, are interleaved: the units that
    are left and the threads inside always add up to [n], so at most [n] threads
    are inside and the value is never negative.  Nobody is forgotten: a thread
    that is not waiting in the queue runs or is ready, and when units are left
    while threads wait, a thread that was woken up is on its way to take one. *)
Theorem mutual_exclusion n c0 c :
  0 <= n -> initial n c0 -> rtc step c0 c ->
  value (c_sem c) + count Inside (c_pc c) = n /\
  0 <= count Inside (c_pc c) <= n /\
  sched_inv (c_ker c) /\
  (forall t p, c_pc c !! t = Some p ->
     t ∈ queue (c_sem c) \/ t = currentThread (c_ker c) \/ t ∈ readyList (c_ker c)) /\
  (queue (c_sem c) <> [] -> 0 < value (c_sem c) ->
   exists t, c_pc c !! t = Some Trying /\
     (t = currentThread (c_ker c) \/ t ∈ readyList (c_ker c))).
Proof.
  intros Hn H0 Hr. destruct (mutex_inv_reachable n c0 c Hn H0 Hr) as [Hu Hp Hnd Hqd Ha Hk Hw Hs].
  pose proof (count_nonneg Inside (c_pc c)). split_and!; try assumption; try lia.
  - intros t p Et. destruct (decide (t ∈ queue (c_sem c))); [now left|right; eauto].
  - intros Hne Hv. specialize (Hw Hne).
    destruct (count_outside_list Trying (c_pc c) _ Hnd ltac:(lia)) as (t & Et & Hnq). eauto.
Qed.

(** C10: The code moves by the steps.  Seen from a running kernel thread of such
    a system, at whatever interrupt level: a call of P that finds a unit is one
    step, up to the return of the old level; one that finds none goes in one
    step to the switch inside Sleep; a thread that is dispatched again goes on
    in P's loop ([Semaphore_wait], with interrupts off) in the same two ways; V
    is one step; and Yield, which the clock interrupt calls too, is one step up
    to its switch. *)
Theorem Semaphore_follows_steps {D H : Type} `{!Hardware D H, !HasKernel D, !HasKernelLaws D, !ContextSwitch D H}
    (r : ref D Semaphore) `{!RefLaws r} (fuel n : nat) (s : isys D H) u x k m q t :
  let c := mkCsys x k m in
  let cur := currentThread k in
  let restore := fun old => let! _ := SetLevel old in mreturn tt in
  mutex_inv u c -> view r m s c -> m !! cur = Some q ->
  threads k !! cur = Some t -> space t = None ->
  (q = Outside ->
     if value x =? 0 then
       forall next rest, readyList k = next :: rest ->
       exists c' s1, step c c' /\ view r (<[cur := Trying]> m) s1 c' /\ level (interrupt s1) = IntOff /\
         Semaphore_P (S fuel) r s =
         ((SWITCH cur next >>> Run_return) >>> Semaphore_wait (S fuel) fuel r (level (interrupt s))) s1
     else
       exists c', step c c' /\ view r (<[cur := Inside]> m) (after_P r x s) c' /\
         Semaphore_P (S fuel) r s = restore (level (interrupt s)) (after_P r x s)) /\
  (q = Trying -> level (interrupt s) = IntOff -> forall old,
     if value x =? 0 then
       forall next rest, readyList k = next :: rest ->
       exists c' s1, step c c' /\ view r (<[cur := Trying]> m) s1 c' /\ level (interrupt s1) = IntOff /\
         Semaphore_wait (S fuel) (S n) r old s =
         ((SWITCH cur next >>> Run_return) >>> Semaphore_wait (S fuel) n r old) s1
     else
       exists c', step c c' /\ view r (<[cur := Inside]> m) (after_P r x s) c' /\
         Semaphore_wait (S fuel) (S n) r old s = restore old (after_P r x s)) /\
  (q = Inside ->
     exists c', step c c' /\ view r (<[cur := Outside]> m) (after_V r x s) c' /\
       Semaphore_V r s = restore (level (interrupt s)) (after_V r x s)) /\
  (q <> Trying -> forall next rest, readyList k = next :: rest ->
     exists c' s1, step c c' /\ view r m s1 c' /\ level (interrupt s1) = IntOff /\
       Yield cur s = ((SWITCH cur next >>> Run_return) >>> restore (level (interrupt s))) s1).
Proof.
  intros c cur restore HI Hv Hm Et Hsp. pose proof (mi_sched _ _ HI) as Hs. cbn in Hs. split_and!.
  - intros ->. exact (wait_steps fuel fuel r (set_level IntOff s) u x k m Outside t (level (interrupt s)) HI Hv Hm
      ltac:(discriminate) Et Hsp eq_refl).
  - intros -> Hl old. exact (wait_steps fuel n r s u x k m Trying t old HI Hv Hm ltac:(discriminate) Et Hsp Hl).
  - intros ->. apply V_release; auto. apply Forall_forall. intros w Hw. apply (mi_queued _ _ HI w Hw).
  - intros Hq next rest Er. destruct (si_ready _ Hs next) as (nt & En & _); [rewrite Er; left|].
    destruct Hv as (Ex & Ek & _). cbn in Ex, Ek.
    eexists _, (set_ker (gone_last cur t next nt rest k) (set_level IntOff s)).
    split; [now eapply step_yield; eauto|]. split_and!; cbn.
    + split_and!; cbn; [|apply ker_set_ker|reflexivity]. rewrite ref_get_kernel. exact Ex.
    + reflexivity.
    + unfold cur in *. subst k. now apply Yield_run.
Qed.

(** * Concrete runs: the main thread at 1, a second thread at 2 *)
#[local] Existing Instance sample_world_kernel.
#[local] Existing Instance sample_world_laws.
#[local] Existing Instance sample_world_hardware.
#[local] Existing Instance sample_world_switch.
#[local] Existing Instance sample_sem_laws.

Definition sample_csys : csys :=
  mkCsys (mkSemaphore 1 []) (ker (sample_sem_sys 1 [] READY [2])) (<[1 := Outside]> {[2 := Outside]}).

Lemma sample_initial : initial 1 sample_csys.
Proof.
  split; cbn.
  - reflexivity.
  - apply map_Forall_insert_2; [reflexivity|]. now apply map_Forall_singleton.
  - intros t. rewrite dom_insert, dom_singleton. set_solver.
  - exact (sample_sem_inv 1 []).
Defined.

(** Thread 1 goes inside and yields, and thread 2 has to wait. *)
Lemma mutual_exclusion_witness :
  exists c, rtc step sample_csys c /\ count Inside (c_pc c) = 1 /\ queue (c_sem c) = [2] /\
    value (c_sem c) + count Inside (c_pc c) = 1 /\ 0 <= count Inside (c_pc c) <= 1.
Proof.
  assert (exists c, rtc step sample_csys c /\ count Inside (c_pc c) = 1 /\ queue (c_sem c) = [2]) as (c & Hr & H1 & H2).
  { eexists. split.
    - eapply rtc_l; [apply (step_take _ _ _ Outside); [reflexivity|discriminate|discriminate]|].
      eapply rtc_l; [eapply (step_yield _ _ _ Inside); [reflexivity|discriminate|reflexivity..]|].
      eapply rtc_l; [eapply (step_block _ _ _ Outside); [reflexivity|discriminate|reflexivity..]|].
      apply rtc_refl.
    - split; reflexivity. }
  destruct (mutual_exclusion 1 sample_csys c ltac:(lia) sample_initial Hr) as (H3 & H4 & _).
  exists c. split_and!; [exact Hr|exact H1|exact H2|exact H3|apply H4|apply H4].
Defined.

(** Thread 1 calls P and takes the unit; it could also yield. *)
Lemma Semaphore_follows_steps_witness :
  let s := sample_sem_sys 1 [] READY [2] in
  (exists c', step sample_csys c' /\ view sample_sem (<[1 := Inside]> (c_pc sample_csys)) (after_P sample_sem (mkSemaphore 1 []) s) c' /\
     Semaphore_P 3 sample_sem s = (let! _ := SetLevel IntOff in mreturn tt) (after_P sample_sem (mkSemaphore 1 []) s)) /\
  exists c' s1, step sample_csys c' /\ view sample_sem (c_pc sample_csys) s1 c' /\
    Yield 1 s = ((SWITCH 1 2 >>> Run_return) >>> (let! _ := SetLevel IntOff in mreturn tt)) s1.
Proof.
  destruct (Semaphore_follows_steps sample_sem 2 2 (sample_sem_sys 1 [] READY [2]) 1 (mkSemaphore 1 [])
              (ker (sample_sem_sys 1 [] READY [2])) (<[1 := Outside]> {[2 := Outside]}) Outside
              (sample_thread 0 RUNNING)) as (HP & _ & _ & HY).
  - apply (initial_inv 1 sample_csys); [lia|apply sample_initial].
  - split_and!; reflexivity.
  - reflexivity.
  - reflexivity.
  - reflexivity.
  - split; [exact (HP eq_refl)|].
    destruct (HY ltac:(discriminate) 2 [] eq_refl) as (c' & s1 & Hst & Hv & _ & E).
    exists c', s1. split; [exact Hst|]. split; [exact Hv|exact E].
Defined.
