(* ===== verification/Elevator.v ===== *)
(** machine/elevator.h and machine/elevator.cc: the bank of elevators.

    [ElevatorInfo] is the state of one elevator, [ElevatorBank] the device with
    its two event lists.  The two callbacks given to the constructor are what
    the device expects of its client: [ElevatorClient], with the law that a
    callback returns and leaves the device and the interrupt state alone.  The
    callbacks of machine/elevatortest.cc, which signal a semaphore each,
    discharge it below. *)
From Stdlib Require Import ZArith Lia.
From stdpp Require Import base option list list_numbers gmap.
From S2P Require Import Prelude CList Stats Interrupt Thread Synch.

Local Open Scope Z_scope.

Inductive Direction := Down | Up | Neither.
Inductive ElevatorEvent :=
  | NoEvent | DoorsOpened | UpButtonPressed | DownButtonPressed | FloorButtonPressed | ElevatorArrived.
#[global] Instance Direction_eq_dec : EqDecision Direction.
Proof. solve_decision. Defined.
#[global] Instance ElevatorEvent_eq_dec : EqDecision ElevatorEvent.
Proof. solve_decision. Defined.

Definition MaxRiders : Z := 4.
Definition DelayPerFloor : Z := 100.

Record PendingElevatorEvent := mkPendingElevatorEvent {
  ev_event    : ElevatorEvent;
  ev_floor    : Z;
  ev_elevator : Z
}.

Record ElevatorInfo := mkElevatorInfo {
  display    : Direction;
  doorsOpen  : bool;
  inMotion   : bool;
  lastFloor  : Z;
  willArrive : Z;
  goingTo    : Z;
  riders     : list Z
}.

Record ElevatorBank := mkElevatorBank {
  numElevators     : Z;
  numFloors        : Z;
  argRiders        : Z;
  argControllers   : Z;
  riderEvents      : list PendingElevatorEvent;
  controllerEvents : list PendingElevatorEvent;
  elevators        : list ElevatorInfo
}.

Definition new_ElevatorInfo : ElevatorInfo := mkElevatorInfo Neither false false 0 0 0 [].

Definition ElevatorBank_ElevatorBank (numElvtr numFlr ridersArg controllersArg : Z) : ElevatorBank :=
  mkElevatorBank numElvtr numFlr ridersArg controllersArg [] []
    (replicate (Z.to_nat numElvtr) new_ElevatorInfo).

(** Updates of the members. *)
Definition e_display (x : Direction) (e : ElevatorInfo) : ElevatorInfo :=
  mkElevatorInfo x (doorsOpen e) (inMotion e) (lastFloor e) (willArrive e) (goingTo e) (riders e).
Definition e_doorsOpen (x : bool) (e : ElevatorInfo) : ElevatorInfo :=
  mkElevatorInfo (display e) x (inMotion e) (lastFloor e) (willArrive e) (goingTo e) (riders e).
Definition e_inMotion (x : bool) (e : ElevatorInfo) : ElevatorInfo :=
  mkElevatorInfo (display e) (doorsOpen e) x (lastFloor e) (willArrive e) (goingTo e) (riders e).
Definition e_lastFloor (x : Z) (e : ElevatorInfo) : ElevatorInfo :=
  mkElevatorInfo (display e) (doorsOpen e) (inMotion e) x (willArrive e) (goingTo e) (riders e).
Definition e_willArrive (x : Z) (e : ElevatorInfo) : ElevatorInfo :=
  mkElevatorInfo (display e) (doorsOpen e) (inMotion e) (lastFloor e) x (goingTo e) (riders e).
Definition e_goingTo (x : Z) (e : ElevatorInfo) : ElevatorInfo :=
  mkElevatorInfo (display e) (doorsOpen e) (inMotion e) (lastFloor e) (willArrive e) x (riders e).
Definition e_riders (x : list Z) (e : ElevatorInfo) : ElevatorInfo :=
  mkElevatorInfo (display e) (doorsOpen e) (inMotion e) (lastFloor e) (willArrive e) (goingTo e) x.

Inductive elevator_handler := ElevatorDone.

(** The device beside the world [W] of its client. *)
Record ElevSys (W : Type) := mkElevSys {
  el_bank  : ElevatorBank;
  el_world : W
}.
Arguments mkElevSys {W}.
Arguments el_bank {W}.
Arguments el_world {W}.

Abbreviation esys W := (isys (ElevSys W) elevator_handler).

Class ElevatorClient (W : Type) := {
  client_thread      : W -> Z;   (* currentThread *)
  handlerRiders      : Z -> M (esys W) unit;
  handlerControllers : Z -> M (esys W) unit
}.

Section elevator.
Context {W : Type} `{!ElevatorClient W}.
Implicit Types s : esys W.

Definition bank s : ElevatorBank := el_bank (dev s).
Definition set_bank (b : ElevatorBank) s : esys W := set_dev (mkElevSys b (el_world (dev s))) s.

Definition b_elevators (l : list ElevatorInfo) (b : ElevatorBank) : ElevatorBank :=
  mkElevatorBank (numElevators b) (numFloors b) (argRiders b) (argControllers b)
    (riderEvents b) (controllerEvents b) l.
Definition b_riderEvents (l : list PendingElevatorEvent) (b : ElevatorBank) : ElevatorBank :=
  mkElevatorBank (numElevators b) (numFloors b) (argRiders b) (argControllers b)
    l (controllerEvents b) (elevators b).
Definition b_controllerEvents (l : list PendingElevatorEvent) (b : ElevatorBank) : ElevatorBank :=
  mkElevatorBank (numElevators b) (numFloors b) (argRiders b) (argControllers b)
    (riderEvents b) l (elevators b).

Definition get_bank : M (esys W) ElevatorBank := let! s := mget in mreturn (bank s).
Definition mod_bank (f : ElevatorBank -> ElevatorBank) : M (esys W) unit :=
  mmodify (fun s => set_bank (f (bank s)) s).

(** elevators[i], and an assignment to its members. *)
Definition elevator_at (i : Z) : M (esys W) ElevatorInfo :=
  let! b := get_bank in mlift (elevators b).[i].
Definition mod_elevator (i : Z) (f : ElevatorInfo -> ElevatorInfo) : M (esys W) unit :=
  let! e := elevator_at i in
  let! b := get_bank in
  let! l := mlift (zupd (elevators b) i (f e)) in
  mod_bank (b_elevators l).

Definition time_now : M (esys W) Z := let! s := mget in mreturn (totalTicks (stats s)).

(** * One elevator *)
Definition Info_OpenDoors (i : Z) : M (esys W) Z :=
  let! e := elevator_at i in
  ASSERT (negb (doorsOpen e) && negb (inMotion e)) >>>
  mod_elevator i (e_doorsOpen true) >>>
  mreturn (lastFloor e).

Definition Info_CloseDoors (i : Z) : M (esys W) unit :=
  let! e := elevator_at i in
  ASSERT (doorsOpen e) >>> mod_elevator i (e_doorsOpen false).

Definition Info_MoveTo (i goingToFloor : Z) : M (esys W) bool :=
  let! e := elevator_at i in
  ASSERT (negb (doorsOpen e) && (inMotion e || negb (lastFloor e =? goingToFloor))) >>>
  mod_elevator i (e_goingTo goingToFloor) >>>
  if negb (inMotion e) then
    let! t := time_now in
    mod_elevator i (e_willArrive (i32 (t + DelayPerFloor))) >>>
    mod_elevator i (e_inMotion true) >>>
    mreturn true
  else mreturn false.

Definition Info_Enter (i onFloor : Z) : M (esys W) bool :=
  let! e := elevator_at i in
  if negb (doorsOpen e) || negb (lastFloor e =? onFloor) then mreturn false
  else
    ASSERT (negb (inMotion e)) >>>
    ASSERT (Z.of_nat (length (riders e)) <? MaxRiders) >>>
    let! s := mget in
    mod_elevator i (fun e => e_riders (riders e ++ [client_thread (el_world (dev s))]) e) >>>
    mreturn true.

(** riders->Remove(item): on an empty list it dereferences first; a thread that
    is not on the list fails the ASSERT. *)
Fixpoint without (t : Z) (l : list Z) : option (list Z) :=
  match l with
  | [] => None
  | x :: r => if x =? t then Some r else cons x <$> without t r
  end.
Definition remove_rider (i t : Z) : M (esys W) unit :=
  let! e := elevator_at i in
  match riders e with
  | [] => mfail BadAccess
  | _ =>
      match without t (riders e) with
      | Some l => mod_elevator i (e_riders l)
      | None => mfail AssertFailed
      end
  end.

Definition Info_Exit (i onFloor : Z) : M (esys W) bool :=
  let! e := elevator_at i in
  if negb (doorsOpen e) || negb (lastFloor e =? onFloor) then mreturn false
  else
    ASSERT (negb (inMotion e)) >>>
    let! s := mget in
    remove_rider i (client_thread (el_world (dev s))) >>>
    mreturn true.

Definition ReachedNextFloor (i : Z) : M (esys W) bool :=
  let! e := elevator_at i in
  let! t := time_now in
  if inMotion e && (willArrive e <=? t) then
    mod_elevator i (e_lastFloor (i32 (lastFloor e + (if lastFloor e <? goingTo e then 1 else -1)))) >>>
    mreturn true
  else mreturn false.

Definition CheckArrived (i : Z) : M (esys W) bool :=
  let! e := elevator_at i in
  if inMotion e && (lastFloor e =? goingTo e) then
    mod_elevator i (e_inMotion false) >>> mreturn true
  else mreturn false.

(** * The bank *)

(** Which list an event goes to. *)
Inductive events := ToRiders | ToControllers.

Definition append_event (l : events) (ev : PendingElevatorEvent) (b : ElevatorBank) : ElevatorBank :=
  match l with
  | ToRiders => b_riderEvents (riderEvents b ++ [ev]) b
  | ToControllers => b_controllerEvents (controllerEvents b ++ [ev]) b
  end.

Definition PostEvent (l : events) (ev : ElevatorEvent) (floor elevator : Z) (inHandler : bool) : M (esys W) unit :=
  mod_bank (append_event l (mkPendingElevatorEvent ev floor elevator)) >>>
  if negb inHandler then Schedule ElevatorDone 0 1 ElevatorInt else mreturn tt.

Definition check_elevator (elevator : Z) : M (esys W) unit :=
  let! b := get_bank in ASSERT ((0 <=? elevator) && (elevator <? numElevators b)).
Definition check_floor (floor : Z) : M (esys W) unit :=
  let! b := get_bank in ASSERT ((0 <=? floor) && (floor <? numFloors b)).

Definition OpenDoors (elevator : Z) : M (esys W) unit :=
  check_elevator elevator >>>
  let! floor := Info_OpenDoors elevator in
  PostEvent ToRiders DoorsOpened floor elevator false.

Definition CloseDoors (elevator : Z) : M (esys W) unit :=
  check_elevator elevator >>> Info_CloseDoors elevator.

Definition MoveTo (goingToFloor elevator : Z) : M (esys W) unit :=
  check_elevator elevator >>>
  check_floor goingToFloor >>>
  let! b := Info_MoveTo elevator goingToFloor in
  if b then Schedule ElevatorDone 0 DelayPerFloor ElevatorInt else mreturn tt.

Definition WhereIsElevator (elevator : Z) : M (esys W) Z :=
  check_elevator elevator >>>
  let! e := elevator_at elevator in mreturn (lastFloor e).

Definition MarkDirection (elevator : Z) (dir : Direction) : M (esys W) unit :=
  check_elevator elevator >>> mod_elevator elevator (e_display dir).

Definition PressButton (onFloor : Z) (dir : Direction) : M (esys W) unit :=
  let! b := get_bank in
  ASSERT ((0 <=? onFloor) && (onFloor <? numFloors b) && negb (bool_decide (dir = Neither))) >>>
  PostEvent ToControllers (if bool_decide (dir = Up) then UpButtonPressed else DownButtonPressed)
    onFloor 0 false.

Definition getDirection (elevator : Z) : M (esys W) Direction :=
  check_elevator elevator >>>
  let! e := elevator_at elevator in mreturn (display e).

Definition EnterElevator (onFloor elevator : Z) : M (esys W) bool :=
  check_floor onFloor >>> check_elevator elevator >>> Info_Enter elevator onFloor.

Definition PressFloor (goingToFloor elevator : Z) : M (esys W) unit :=
  check_floor goingToFloor >>> check_elevator elevator >>>
  PostEvent ToControllers FloorButtonPressed goingToFloor elevator false.

Definition ExitElevator (onFloor elevator : Z) : M (esys W) bool :=
  check_floor onFloor >>> check_elevator elevator >>> Info_Exit elevator onFloor.

(** One round of the loop; the value is intSched. *)
Definition check_one (intSched : bool) (i : Z) : M (esys W) bool :=
  let! r := ReachedNextFloor i in
  if r then
    let! a := CheckArrived i in
    if a then
      let! e := elevator_at i in
      PostEvent ToControllers ElevatorArrived (goingTo e) i true >>> mreturn intSched
    else if negb intSched then
      mod_elevator i (fun e => e_willArrive (i32 (willArrive e + DelayPerFloor)) e) >>>
      Schedule ElevatorDone 0 DelayPerFloor ElevatorInt >>>
      mreturn true
    else mreturn intSched
  else mreturn intSched.

Definition HandleInterrupt : M (esys W) unit :=
  let! b := get_bank in
  let! _ := mfold (seqZ 0 (numElevators b)) false check_one in
  let! b := get_bank in
  (match riderEvents b with [] => mreturn tt | _ => handlerRiders (argRiders b) end) >>>
  let! b := get_bank in
  match controllerEvents b with [] => mreturn tt | _ => handlerControllers (argControllers b) end.

(** An empty list leaves *floor and *elevator alone. *)
Definition getNextEvent (l : events) : M (esys W) (ElevatorEvent * option (Z * Z)) :=
  let! b := get_bank in
  match (match l with ToRiders => riderEvents b | ToControllers => controllerEvents b end) with
  | [] => mreturn (NoEvent, None)
  | ev :: rest =>
      mod_bank (match l with ToRiders => b_riderEvents rest | ToControllers => b_controllerEvents rest end) >>>
      mreturn (ev_event ev, Some (ev_floor ev, ev_elevator ev))
  end.
Definition getNextRiderEvent : M (esys W) (ElevatorEvent * option (Z * Z)) := getNextEvent ToRiders.
Definition getNextControllerEvent : M (esys W) (ElevatorEvent * option (Z * Z)) := getNextEvent ToControllers.

(** The elevators are the only device of the machine. *)
Definition elevator_hardware (yield : M (esys W) unit) : Hardware (ElevSys W) elevator_handler := {|
  call_handler h arg := match h with ElevatorDone => HandleInterrupt end;
  machine_DelayedLoad _ _ := mreturn tt;
  thread_Yield := yield;
  machine_counters := mreturn (0, 0)
|}.
End elevator.

(** What the device expects of the callbacks, in a world that is [client_ok]. *)
Class ElevatorClientLaws (W : Type) `{!ElevatorClient W} := {
  client_ok : W -> Prop;
  riders_law : forall a (s : esys W), level (interrupt s) = IntOff -> client_ok (el_world (dev s)) ->
    exists w, handlerRiders a s = Ok (tt, set_dev (mkElevSys (el_bank (dev s)) w) s) /\ client_ok w;
  controllers_law : forall a (s : esys W), level (interrupt s) = IntOff -> client_ok (el_world (dev s)) ->
    exists w, handlerControllers a s = Ok (tt, set_dev (mkElevSys (el_bank (dev s)) w) s) /\ client_ok w
}.

(** * The invariant of the device *)
Record elevator_ok (floors : Z) (e : ElevatorInfo) : Prop := {
  eo_last   : -1 <= lastFloor e < floors;
  eo_still  : inMotion e = false -> 0 <= lastFloor e;
  eo_going  : 0 <= goingTo e < floors;
  eo_doors  : doorsOpen e = true -> inMotion e = false;
  eo_riders : Z.of_nat (length (riders e)) <= MaxRiders
}.
Definition event_ok (floors : Z) (ev : PendingElevatorEvent) : Prop := 0 <= ev_floor ev < floors.
Record bank_ok (b : ElevatorBank) : Prop := {
  bo_floors      : 1 <= numFloors b < 2 ^ 31;
  bo_length      : Z.of_nat (length (elevators b)) = numElevators b;
  bo_elevators   : Forall (elevator_ok (numFloors b)) (elevators b);
  bo_riders      : Forall (event_ok (numFloors b)) (riderEvents b);
  bo_controllers : Forall (event_ok (numFloors b)) (controllerEvents b)
}.

Lemma bank_ok_new n f a c : 0 <= n -> 1 <= f < 2 ^ 31 -> bank_ok (ElevatorBank_ElevatorBank n f a c).
Proof.
  intros Hn Hf. split; cbn; auto.
  - rewrite length_replicate. lia.
  - apply Forall_replicate. split; cbn; unfold MaxRiders; lia || discriminate.
Qed.

Section elevator_lemmas.
Context {W : Type} `{!ElevatorClient W}.
Implicit Types s : esys W.

(** The bank with elevator [i] changed to [e]. *)
Definition with_elevator (i : Z) (e : ElevatorInfo) s : esys W :=
  set_bank (b_elevators (<[Z.to_nat i := e]> (elevators (bank s))) (bank s)) s.

Lemma elevator_at_Ok i s e s' : elevator_at i s = Ok (e, s') <-> (elevators (bank s)).[i] = Some e /\ s' = s.
Proof. unfold elevator_at, get_bank, mthen, mget, mreturn. apply mlift_Ok. Qed.

Lemma elevator_at_run i s e : (elevators (bank s)).[i] = Some e -> elevator_at i s = Ok (e, s).
Proof. intros E. now apply elevator_at_Ok. Qed.

Lemma mod_elevator_run i f s e :
  (elevators (bank s)).[i] = Some e -> mod_elevator i f s = Ok (tt, with_elevator i (f e) s).
Proof.
  intros E. unfold mod_elevator. mstep_by (elevator_at_run i s e E). mstep_to (bank s) s.
  apply zlookup_Some in E as [Hi _]. rewrite zupd_lt by exact Hi. reflexivity.
Qed.

Lemma mod_elevator_Ok i f s s' :
  mod_elevator i f s = Ok (tt, s') <->
  exists e, (elevators (bank s)).[i] = Some e /\ s' = with_elevator i (f e) s.
Proof.
  split.
  - intros E. unfold mod_elevator in E. apply mthen_Ok in E as (e & s1 & E1 & E2).
    apply elevator_at_Ok in E1 as [E1 ->]. exists e. split; [exact E1|].
    pose proof (mod_elevator_run i f s e E1) as E. unfold mod_elevator in E.
    rewrite (mthen_step _ _ _ _ _ (elevator_at_run i s e E1)) in E. congruence.
  - intros (e & E & ->). now apply mod_elevator_run.
Qed.

Lemma with_elevator_lookup i e s j :
  0 <= i < Z.of_nat (length (elevators (bank s))) ->
  (elevators (bank (with_elevator i e s))).[j] = if decide (i = j) then Some e else (elevators (bank s)).[j].
Proof. intros Hi. cbn. now apply zlookup_insert. Qed.

Lemma with_elevator_eq i e e' s :
  (elevators (bank s)).[i] = Some e' -> (elevators (bank (with_elevator i e s))).[i] = Some e.
Proof. intros E. apply zlookup_Some in E as [Hi _]. rewrite with_elevator_lookup by exact Hi. now rewrite decide_True. Qed.

Lemma with_elevator_twice i e e' s : with_elevator i e (with_elevator i e' s) = with_elevator i e s.
Proof. unfold with_elevator, set_bank, set_dev, bank. cbn. now rewrite list_insert_insert_eq. Qed.

Lemma bank_ok_with i e s :
  bank_ok (bank s) -> elevator_ok (numFloors (bank s)) e -> bank_ok (bank (with_elevator i e s)).
Proof.
  intros [H1 H2 H3 H4 H5] He. split; cbn; auto.
  - now rewrite length_insert.
  - now apply Forall_insert.
Qed.

Lemma elevator_ok_at i e s : bank_ok (bank s) -> (elevators (bank s)).[i] = Some e -> elevator_ok (numFloors (bank s)) e.
Proof. intros Hb E. eapply zlookup_Forall; [apply Hb|exact E]. Qed.

(** A statement that keeps [bank_ok]. *)
Definition keeps {A} (m : M (esys W) A) : Prop :=
  triple (fun s => bank_ok (bank s)) m (fun _ s => bank_ok (bank s)).

Lemma keeps_mod i f :
  (forall n e, elevator_ok n e -> elevator_ok n (f e)) -> keeps (mod_elevator i f).
Proof.
  intros Hf s [] s' Hb E. apply mod_elevator_Ok in E as (e & Ee & ->).
  apply bank_ok_with; [exact Hb|]. now apply Hf, (elevator_ok_at i).
Qed.

Lemma keeps_PostEvent l ev floor i inh s s' :
  bank_ok (bank s) -> 0 <= floor < numFloors (bank s) ->
  PostEvent l ev floor i inh s = Ok (tt, s') -> bank_ok (bank s').
Proof.
  intros [H1 H2 H3 H4 H5] Hf E. unfold PostEvent, mod_bank in E. mon_inv.
  assert (Hb : bank_ok (append_event l (mkPendingElevatorEvent ev floor i) (bank s))).
  { destruct l; split; cbn; auto; apply Forall_app; split; auto. }
  destruct (negb inh); [|mon_inv; exact Hb].
  unfold Schedule, insert_pending in *. mon_inv. exact Hb.
Qed.

Lemma check_floor_Ok f s s' : check_floor f s = Ok (tt, s') -> 0 <= f < numFloors (bank s) /\ s' = s.
Proof. intros E. unfold check_floor, get_bank in E. mon_inv. bool_hyps. split; [lia|reflexivity]. Qed.
Lemma check_elevator_Ok i s s' : check_elevator i s = Ok (tt, s') -> 0 <= i < numElevators (bank s) /\ s' = s.
Proof. intros E. unfold check_elevator, get_bank in E. mon_inv. bool_hyps. split; [lia|reflexivity]. Qed.

Lemma length_without t l l' : without t l = Some l' -> length l = S (length l').
Proof.
  revert l'. induction l as [|x l IH]; intros l'; cbn; [discriminate|].
  destruct (x =? t); [intros [= <-]; reflexivity|].
  destruct (without t l) as [l0|]; [|discriminate]. intros [= <-]. cbn. now rewrite (IH l0).
Qed.
End elevator_lemmas.

(** [elev_inv]: [mon_inv] for the statements of this file. *)
Ltac elev_inv :=
  repeat (mon_inv; match goal with
    | H : elevator_at _ _ = Ok (_, _) |- _ => apply elevator_at_Ok in H; destruct H as [? H]; try subst
    | H : mod_elevator _ _ _ = Ok (_, _) |- _ => apply mod_elevator_Ok in H; destruct H as (? & ? & H); try subst
    | H : check_floor _ _ = Ok (_, _) |- _ => apply check_floor_Ok in H; destruct H as [? H]; try subst
    | H : check_elevator _ _ = Ok (_, _) |- _ => apply check_elevator_Ok in H; destruct H as [? H]; try subst
    | H : Schedule _ _ _ _ _ = Ok _ |- _ => unfold Schedule, insert_pending in H
    end); mon_inv; bool_hyps.

(** * The operations keep the invariant *)
Section elevator_ops.
Context {W : Type} `{!ElevatorClient W}.
Implicit Types s : esys W.

Lemma ok_moved n e : 1 <= n < 2 ^ 31 -> elevator_ok n e -> inMotion e = true ->
  elevator_ok n (e_lastFloor (i32 (lastFloor e + (if lastFloor e <? goingTo e then 1 else -1))) e).
Proof.
  intros Hn [H1 H2 H3 H4 H5] Hm.
  assert (Hl : -1 <= lastFloor e + (if lastFloor e <? goingTo e then 1 else -1) < n) by (destruct (Z.ltb_spec (lastFloor e) (goingTo e)); lia).
  split; cbn; auto.
  - rewrite i32_id by (unfold is_i32; lia). exact Hl.
  - congruence.
Qed.

Lemma keeps_ReachedNextFloor i : keeps (W := W) (ReachedNextFloor i).
Proof.
  intros s b s' Hb E. unfold ReachedNextFloor, time_now in E. elev_inv.
  destruct (inMotion a && _)%bool eqn:Em; elev_inv; [|exact Hb].
  apply bank_ok_with; [exact Hb|]. simplify_eq. apply ok_moved; [apply Hb|now apply (elevator_ok_at i)|assumption].
Qed.

Lemma keeps_CheckArrived i : keeps (W := W) (CheckArrived i).
Proof.
  intros s b s' Hb E. unfold CheckArrived in E. elev_inv.
  destruct (inMotion a && _)%bool eqn:Em; elev_inv; [|exact Hb].
  apply bank_ok_with; [exact Hb|]. simplify_eq.
  destruct (elevator_ok_at i _ s Hb ltac:(eassumption)) as [H1' H2' H3' H4' H5']. split; cbn; auto; lia.
Qed.

Lemma keeps_check_one b i : keeps (W := W) (check_one b i).
Proof.
  intros s b' s' Hb E. unfold check_one in E. apply mthen_Ok in E as (r & s1 & E1 & E).
  apply keeps_ReachedNextFloor in E1; [|exact Hb]. destruct r; [|elev_inv; exact E1].
  apply mthen_Ok in E as (a & s2 & E2 & E). apply keeps_CheckArrived in E2; [|exact E1].
  destruct a; [|destruct (negb b)]; elev_inv; try exact E2.
  - eapply keeps_PostEvent; [exact E2| |eassumption]. now apply (elevator_ok_at i _ _ E2) in H0 as [].
  - apply (bank_ok_with i); [exact E2|]. apply (elevator_ok_at i) in H0; [|exact E2].
    destruct H0 as [H1' H2' H3' H4' H5']. now split.
Qed.

Lemma keeps_fold l b : keeps (W := W) (mfold l b check_one).
Proof.
  revert b. induction l as [|i l IH]; intros b s a s' Hb E; cbn [mfold] in E; elev_inv; [exact Hb|].
  eapply IH; [|eassumption]. eapply keeps_check_one; eassumption.
Qed.

(** The loop touches the device and the pending interrupts only. *)
Definition same_rest s s' : Prop :=
  level (interrupt s') = level (interrupt s) /\ el_world (dev s') = el_world (dev s) /\
  stats s' = stats s /\ numFloors (bank s') = numFloors (bank s) /\ numElevators (bank s') = numElevators (bank s).

Lemma same_rest_trans s1 s2 s3 : same_rest s1 s2 -> same_rest s2 s3 -> same_rest s1 s3.
Proof. unfold same_rest. intuition congruence. Qed.

Lemma frame_PostEvent l ev floor i inh s s' : PostEvent l ev floor i inh s = Ok (tt, s') -> same_rest s s'.
Proof. intros E. unfold PostEvent, mod_bank in E. destruct l, (negb inh) eqn:En; elev_inv; now split_and!. Qed.

Lemma frame_check_one b i s a s' : check_one b i s = Ok (a, s') -> same_rest s s'.
Proof.
  intros E. unfold check_one, ReachedNextFloor, CheckArrived, time_now in E. elev_inv.
  destruct (inMotion _ && _)%bool; elev_inv; [|now split_and!].
  destruct (inMotion _ && _)%bool; elev_inv.
  - match goal with H : PostEvent _ _ _ _ _ _ = _ |- _ => apply frame_PostEvent in H as (? & ? & ? & ? & ?) end.
    split_and!; assumption.
  - destruct (negb b); elev_inv; now split_and!.
Qed.

Lemma frame_fold l b s a s' : mfold l b check_one s = Ok (a, s') -> same_rest s s'.
Proof.
  revert b s. induction l as [|i l IH]; intros b s E; cbn [mfold] in E; elev_inv; [now split_and!|].
  eapply same_rest_trans; [eapply frame_check_one; eassumption|eapply IH; eassumption].
Qed.
End elevator_ops.

(** The calls of controllers and riders, and the interrupt. *)
Inductive elevator_op :=
  | OpOpenDoors (i : Z) | OpCloseDoors (i : Z) | OpMoveTo (f i : Z) | OpWhere (i : Z)
  | OpMark (i : Z) (d : Direction) | OpNext (l : events)
  | OpPressButton (f : Z) (d : Direction) | OpDirection (i : Z) | OpEnter (f i : Z)
  | OpPressFloor (f i : Z) | OpExit (f i : Z) | OpInterrupt.

Section ops.
Context {W : Type} `{!ElevatorClient W}.
Implicit Types s : esys W.

Definition discard {A} (m : M (esys W) A) : M (esys W) unit := let! _ := m in mreturn tt.

Definition run_op (o : elevator_op) : M (esys W) unit :=
  match o with
  | OpOpenDoors i => OpenDoors i
  | OpCloseDoors i => CloseDoors i
  | OpMoveTo f i => MoveTo f i
  | OpWhere i => discard (WhereIsElevator i)
  | OpMark i d => MarkDirection i d
  | OpNext l => discard (getNextEvent l)
  | OpPressButton f d => PressButton f d
  | OpDirection i => discard (getDirection i)
  | OpEnter f i => discard (EnterElevator f i)
  | OpPressFloor f i => PressFloor f i
  | OpExit f i => discard (ExitElevator f i)
  | OpInterrupt => HandleInterrupt
  end.

Context `{!ElevatorClientLaws W}.

Definition quiet_client s : Prop := level (interrupt s) = IntOff /\ client_ok (el_world (dev s)).

Lemma keeps_HandleInterrupt s s' :
  quiet_client s -> bank_ok (bank s) -> HandleInterrupt s = Ok (tt, s') -> bank_ok (bank s') /\ quiet_client s'.
Proof.
  intros [Hl Hc] Hb E. unfold HandleInterrupt, get_bank in E. mon_inv.
  match goal with H : mfold _ _ _ _ = Ok (_, ?x) |- _ =>
    pose proof (frame_fold _ _ _ _ _ H) as (El & Ew & _); apply keeps_fold in H as Hb1; [|exact Hb]; set (s1 := x) in * end.
  assert (Hl1 : level (interrupt s1) = IntOff) by congruence.
  assert (Hc1 : client_ok (el_world (dev s1))) by now rewrite Ew.
  match goal with H : match riderEvents _ with _ => _ end _ = Ok (_, ?x) |- _ =>
    assert (bank_ok (bank x) /\ quiet_client x) as [Hb2 [Hl2 Hc2]] end.
  { destruct (riderEvents (bank s1)); mon_inv; [split; [exact Hb1|now split]|].
    destruct (riders_law (argRiders (bank s1)) s1 Hl1 Hc1) as (w & Ew2 & Hw). assert (E1 := eq_trans (eq_sym Ew2) H2). mon_inv. split; [exact Hb1|now split]. }
  destruct (controllerEvents _); mon_inv; [split; [exact Hb2|now split]|].
  match goal with H : handlerControllers _ ?x = _ |- _ =>
    destruct (controllers_law (argControllers (bank x)) x Hl2 Hc2) as (w & Ew2 & Hw) end.
  assert (E1 := eq_trans (eq_sym Ew2) H5). mon_inv. split; [exact Hb2|now split].
Qed.

(** [one_elevator]: everything known about an elevator, in one place. *)
Ltac one_elevator :=
  repeat match goal with
    | E : (elevators (bank (with_elevator ?i ?e ?s))).[?i] = Some ?x, E0 : (elevators (bank ?s)).[?i] = Some _ |- _ =>
        rewrite (with_elevator_eq i e _ s E0) in E; injection E as <-
    | E1 : ?l.[?i] = Some ?x, E2 : ?l.[?i] = Some ?y |- _ => rewrite E1 in E2; injection E2 as <-
    end;
  repeat match goal with
    | Hb : bank_ok (bank ?s), E : (elevators (bank ?s)).[?i] = Some ?x |- _ =>
        lazymatch goal with
        | _ : elevator_ok _ x |- _ => fail
        | _ => pose proof (elevator_ok_at i x s Hb E)
        end
    end.

Lemma keeps_OpenDoors i : keeps (W := W) (OpenDoors i).
Proof.
  intros s [] s' Hb E. unfold OpenDoors, Info_OpenDoors in E. elev_inv. one_elevator.
  match goal with H : elevator_ok _ _ |- _ => destruct H as [H1' H2' H3' H4' H5'] end.
  eapply keeps_PostEvent; [|..|eassumption]; [|cbn; lia || (split; [auto|lia])].
  apply bank_ok_with; [exact Hb|]. now split.
Qed.

Lemma keeps_MoveTo f i : keeps (W := W) (MoveTo f i).
Proof.
  intros s [] s' Hb E. unfold MoveTo, Info_MoveTo, time_now in E. elev_inv. one_elevator.
  match goal with H : elevator_ok _ _ |- _ => destruct H as [H1' H2' H3' H4' H5'] end.
  destruct (inMotion a2) eqn:Em; cbn [negb] in *; elev_inv.
  - apply bank_ok_with; [exact Hb|]. split; cbn; auto; congruence.
  - one_elevator. rewrite !with_elevator_twice. elev_inv. apply (bank_ok_with i); [exact Hb|].
    split; cbn; auto; congruence.
Qed.

Lemma keeps_EnterElevator f i : keeps (W := W) (EnterElevator f i).
Proof.
  intros s b s' Hb E. unfold EnterElevator, Info_Enter in E. elev_inv. one_elevator.
  destruct (negb _ || _)%bool; elev_inv; [exact Hb|]. one_elevator.
  apply bank_ok_with; [exact Hb|]. match goal with H : elevator_ok _ _ |- _ => destruct H as [H1' H2' H3' H4' H5'] end.
  split; cbn; auto. rewrite length_app. cbn [length]. unfold MaxRiders in *. lia.
Qed.

Lemma keeps_ExitElevator f i : keeps (W := W) (ExitElevator f i).
Proof.
  intros s b s' Hb E. unfold ExitElevator, Info_Exit, remove_rider in E. elev_inv. one_elevator.
  destruct (negb _ || _)%bool; elev_inv; [exact Hb|]. one_elevator.
  destruct (riders _) as [|r0 rr] eqn:Er; [discriminate|]. rewrite <- Er in *.
  destruct (without _ _) as [l|] eqn:Ew; [|discriminate]. elev_inv. one_elevator.
  apply length_without in Ew. match goal with H : elevator_ok _ _ |- _ => destruct H as [H1' H2' H3' H4' H5'] end.
  apply bank_ok_with; [exact Hb|]. split; cbn; auto. lia.
Qed.

Lemma keeps_getNextEvent l : keeps (W := W) (getNextEvent l).
Proof.
  intros s x s' Hb E. pose proof Hb as [H1 H2 H3 H4 H5]. unfold getNextEvent, mod_bank, get_bank in E. mon_inv.
  destruct l.
  - destruct (riderEvents (bank _)) as [|ev rest] eqn:El; mon_inv; [exact Hb|].
    inversion_clear H4. split; cbn; auto.
  - destruct (controllerEvents (bank _)) as [|ev rest] eqn:El; mon_inv; [exact Hb|].
    inversion_clear H5. split; cbn; auto.
Qed.

Lemma keeps_PressButton f d : keeps (W := W) (PressButton f d).
Proof.
  intros s [] s' Hb E. unfold PressButton, get_bank in E. mon_inv. bool_hyps.
  eapply keeps_PostEvent; [exact Hb| |eassumption]. lia.
Qed.

Lemma keeps_PressFloor f i : keeps (W := W) (PressFloor f i).
Proof.
  intros s [] s' Hb E. unfold PressFloor in E. elev_inv. eapply keeps_PostEvent; [exact Hb|eassumption..].
Qed.

Lemma keeps_discard {A} (m : M (esys W) A) : keeps m -> keeps (discard m).
Proof. intros Hm s [] s' Hb E. unfold discard in E. mon_inv. eapply Hm; eassumption. Qed.

Lemma keeps_op o : o <> OpInterrupt -> keeps (W := W) (run_op o).
Proof.
  intros Ho. destruct o; cbn [run_op]; try apply keeps_discard; [apply keeps_OpenDoors| |apply keeps_MoveTo| | |
    apply keeps_getNextEvent|apply keeps_PressButton| |apply keeps_EnterElevator|apply keeps_PressFloor|
    apply keeps_ExitElevator|now destruct Ho];
    intros s a s' Hb E; unfold CloseDoors, Info_CloseDoors, WhereIsElevator, MarkDirection, getDirection in E;
    elev_inv; try exact Hb; one_elevator; apply bank_ok_with; auto;
    match goal with H : elevator_ok _ _ |- _ => destruct H as [H1' H2' H3' H4' H5'] end; split; cbn; auto; discriminate.
Qed.
End ops.

(** * One elevator in motion *)
Section arrival.
Context {W : Type} `{!ElevatorClient W} `{!ElevatorClientLaws W}.
Implicit Types s : esys W.

Definition still s (j : Z) : Prop := exists e, (elevators (bank s)).[j] = Some e /\ inMotion e = false.

Lemma ReachedNextFloor_still j s : still s j -> ReachedNextFloor j s = Ok (false, s).
Proof.
  intros (e & Ee & Hm). unfold ReachedNextFloor. mstep_by (elevator_at_run j s e Ee).
  mstep_to (totalTicks (stats s)) s. now rewrite Hm.
Qed.

Lemma fold_still l b s : Forall (still s) l -> mfold l b check_one s = Ok (b, s).
Proof.
  induction 1 as [|j l Hj _ IH]; [reflexivity|]. cbn [mfold].
  rewrite (mthen_step _ _ _ b s); [exact IH|]. unfold check_one. now mstep_by (ReachedNextFloor_still j s Hj).
Qed.

(** Elevator [i] a floor further. *)
Definition next_floor (e : ElevatorInfo) : Z := lastFloor e + (if lastFloor e <? goingTo e then 1 else -1).
Definition at_next (e : ElevatorInfo) : ElevatorInfo := e_lastFloor (next_floor e) e.
Definition announce (i : Z) (e : ElevatorInfo) s : esys W :=
  set_bank (append_event ToControllers (mkPendingElevatorEvent ElevatorArrived (goingTo e) i) (bank s)) s.
(** The device after the round of [i]. *)
Definition moved (i : Z) (e : ElevatorInfo) s : esys W :=
  if next_floor e =? goingTo e then announce i e (with_elevator i (e_inMotion false (at_next e)) s)
  else
    let w := willArrive e + DelayPerFloor in
    set_pending (q_sorted_insert (pending (interrupt s)) (mkPendingInterrupt ElevatorDone 0 (now s + DelayPerFloor) ElevatorInt)
                   (now s + DelayPerFloor))
      (with_elevator i (e_willArrive w (at_next e)) s).

Lemma next_floor_range n e : 1 <= n < 2 ^ 31 -> elevator_ok n e -> is_i32 (next_floor e).
Proof. intros Hn [H1 _ H3 _ _]. unfold next_floor, is_i32. destruct (_ <? _); lia. Qed.

Lemma check_one_moves i e s :
  bank_ok (bank s) -> (elevators (bank s)).[i] = Some e -> inMotion e = true ->
  willArrive e <= now s -> 0 <= willArrive e -> now s < ClockLimit ->
  exists b, check_one false i s = Ok (b, moved i e s).
Proof.
  intros Hb Ee Hm Hw Hw0 Hc. pose proof (elevator_ok_at i e s Hb Ee) as Ho.
  pose proof (next_floor_range _ e (bo_floors _ Hb) Ho) as Hn. unfold check_one, moved.
  assert (E1 : ReachedNextFloor i s = Ok (true, with_elevator i (at_next e) s)).
  { unfold ReachedNextFloor. mstep_by (elevator_at_run i s e Ee). mstep_to (totalTicks (stats s)) s.
    change (totalTicks (stats s)) with (now s). rewrite Hm, (proj2 (Z.leb_le _ _) Hw). cbn [andb]. mstep_by (mod_elevator_run i _ s e Ee).
    fold (next_floor e). now rewrite i32_id by exact Hn. }
  mstep_by E1. set (s1 := with_elevator i (at_next e) s).
  assert (Ee1 : (elevators (bank s1)).[i] = Some (at_next e)) by now apply with_elevator_eq with e.
  assert (EA : CheckArrived i s1 = Ok (next_floor e =? goingTo e,
    if next_floor e =? goingTo e then with_elevator i (e_inMotion false (at_next e)) s1 else s1)).
  { unfold CheckArrived. mstep_by (elevator_at_run i s1 _ Ee1). cbn [inMotion at_next e_lastFloor lastFloor goingTo].
    rewrite Hm. cbn [andb]. destruct (next_floor e =? goingTo e); [|reflexivity].
    now mstep_by (mod_elevator_run i _ s1 _ Ee1). }
  mstep_by EA. destruct (next_floor e =? goingTo e) eqn:Eg.
  - exists false. unfold s1. rewrite with_elevator_twice. set (s2 := with_elevator i (e_inMotion false (at_next e)) s).
    assert (Ee2 : (elevators (bank s2)).[i] = Some (e_inMotion false (at_next e))) by now apply with_elevator_eq with e.
    mstep_by (elevator_at_run i s2 _ Ee2). reflexivity.
  - exists true. cbn [negb]. mstep_by (mod_elevator_run i _ s1 _ Ee1). unfold s1. rewrite with_elevator_twice.
    unfold ClockLimit, DelayPerFloor in *. rewrite i32_id by (cbn; unfold is_i32; lia).
    set (s2 := with_elevator i _ s).
    assert (ES : Schedule ElevatorDone 0 100 ElevatorInt s2 = Ok (tt, set_pending (q_sorted_insert (pending (interrupt s))
      (mkPendingInterrupt ElevatorDone 0 (now s + 100) ElevatorInt) (now s + 100)) s2)).
    { unfold Schedule. mstep_to s2 s2. change (totalTicks (stats s2)) with (now s).
      now rewrite i32_id by (unfold is_i32; lia). }
    mstep_by ES. reflexivity.
Qed.

(** The callbacks, at the end of the handler. *)
Definition callbacks : M (esys W) unit :=
  let! b := get_bank in
  (match riderEvents b with [] => mreturn tt | _ => handlerRiders (argRiders b) end) >>>
  let! b := get_bank in
  match controllerEvents b with [] => mreturn tt | _ => handlerControllers (argControllers b) end.

Lemma callbacks_run s :
  quiet_client s ->
  exists w, callbacks s = Ok (tt, set_dev (mkElevSys (bank s) w) s) /\ client_ok w.
Proof.
  intros [Hl Hc]. unfold callbacks. mstep_to (bank s) s.
  assert (exists w, match riderEvents (bank s) with [] => mreturn tt | _ => handlerRiders (argRiders (bank s)) end s
    = Ok (tt, set_dev (mkElevSys (bank s) w) s) /\ client_ok w) as (w & E & Hw).
  { destruct (riderEvents (bank s)); [|now apply riders_law].
    exists (el_world (dev s)). split; [|exact Hc]. destruct s as [? ? []]. reflexivity. }
  mstep_by E. set (s1 := set_dev _ s). mstep_to (bank s1) s1.
  destruct (controllerEvents (bank s1)); [now exists w|].
  destruct (controllers_law (argControllers (bank s1)) s1 Hl Hw) as (w' & E' & Hw'). exists w'. split; [exact E'|exact Hw'].
Qed.

Definition only_moving s (i : Z) : Prop :=
  forall j, 0 <= j < numElevators (bank s) -> j <> i -> still s j.

Lemma moved_lookup i e e0 s j :
  (elevators (bank s)).[i] = Some e0 -> j <> i -> (elevators (bank (moved i e s))).[j] = (elevators (bank s)).[j].
Proof.
  intros Ee Hj. apply zlookup_Some in Ee as [Hi _]. unfold moved.
  destruct (next_floor e =? goingTo e); cbn; apply zlookup_insert_ne; lia.
Qed.

Lemma numElevators_moved i e s : numElevators (bank (moved i e s)) = numElevators (bank s).
Proof. unfold moved. now destruct (next_floor e =? goingTo e). Qed.

Lemma only_moving_moved i e e0 s :
  (elevators (bank s)).[i] = Some e0 -> only_moving s i -> only_moving (moved i e s) i.
Proof.
  intros Ee Ho j Hj Hne. rewrite numElevators_moved in Hj. destruct (Ho j Hj Hne) as (x & Ex & Hx).
  exists x. now rewrite (moved_lookup i e e0 s j Ee Hne).
Qed.

Lemma HandleInterrupt_moves i e s :
  quiet_client s -> bank_ok (bank s) -> (elevators (bank s)).[i] = Some e -> inMotion e = true ->
  only_moving s i -> 0 <= willArrive e <= now s -> now s < ClockLimit ->
  exists w, HandleInterrupt s = Ok (tt, set_dev (mkElevSys (bank (moved i e s)) w) (moved i e s)) /\ client_ok w.
Proof.
  intros Hq Hb Ee Hm Ho Hw Hc. pose proof Ee as Hi. apply zlookup_Some in Hi as [Hi _]. rewrite (bo_length _ Hb) in Hi.
  destruct (check_one_moves i e s Hb Ee Hm ltac:(lia) ltac:(lia) Hc) as [b Eb].
  assert (EF : mfold (seqZ 0 (numElevators (bank s))) false check_one s = Ok (b, moved i e s)).
  { replace (numElevators (bank s)) with (i + (1 + (numElevators (bank s) - i - 1))) by lia.
    rewrite seqZ_app, Z.add_0_l, mfold_app by lia.
    rewrite (mthen_step _ _ _ false s).
    2:{ apply fold_still, Forall_forall. intros j Hj. apply elem_of_seqZ in Hj. apply Ho; lia. }
    rewrite seqZ_cons by lia. cbn [mfold]. mstep_by Eb. apply fold_still, Forall_forall.
    intros j Hj. apply elem_of_seqZ in Hj. apply (only_moving_moved i e e s Ee Ho); [rewrite numElevators_moved|]; lia. }
  unfold HandleInterrupt. mstep_to (bank s) s. mstep_by EF.
  apply (callbacks_run (moved i e s)). destruct Hq as [Hl Hcl]. unfold moved.
  now destruct (next_floor e =? goingTo e).
Qed.

Definition floors_to_go (e : ElevatorInfo) : Z := Z.abs (goingTo e - lastFloor e).

(** Elevator [i] is moving, alone, and its interrupt is the only pending one. *)
Record under_way s (i : Z) (e : ElevatorInfo) : Prop := {
  uw_client  : quiet_client s;
  uw_bank    : bank_ok (bank s);
  uw_at      : (elevators (bank s)).[i] = Some e;
  uw_motion  : inMotion e = true;
  uw_only    : only_moving s i;
  uw_pending : pending (interrupt s) =
                 [(willArrive e, mkPendingInterrupt ElevatorDone 0 (willArrive e) ElevatorInt)];
  uw_future  : 0 <= now s < willArrive e;
  uw_clock   : willArrive e + DelayPerFloor * floors_to_go e < ClockLimit
}.

Variable yield : M (esys W) unit.
#[local] Instance hw : Hardware (ElevSys W) elevator_handler := elevator_hardware yield.

(** The idle machine waits [n] times for the next interrupt. *)
Fixpoint idle_times (n : nat) : M (esys W) unit :=
  match n with
  | O => mreturn tt
  | S n => Idle >>> idle_times n
  end.

Lemma moved_bank_ok i e s :
  bank_ok (bank s) -> (elevators (bank s)).[i] = Some e -> inMotion e = true -> bank_ok (bank (moved i e s)).
Proof.
  intros Hb Ee Hm. pose proof (elevator_ok_at i e s Hb Ee) as Ho.
  pose proof (ok_moved _ e (bo_floors _ Hb) Ho Hm) as Hn. fold (next_floor e) in Hn.
  rewrite i32_id in Hn by (eapply next_floor_range; [apply (bo_floors _ Hb)|exact Ho]). fold (at_next e) in Hn.
  destruct Hn as [H1 H2 H3 H4 H5]. unfold moved. destruct (Z.eqb_spec (next_floor e) (goingTo e)) as [Eg|_].
  - assert (Hb1 : bank_ok (bank (with_elevator i (e_inMotion false (at_next e)) s))).
    { apply bank_ok_with; [exact Hb|]. split; cbn in *; auto. intros _. lia. }
    destruct Hb1 as [B1 B2 B3 B4 B5]. split; auto. cbn in *. apply Forall_app. split; [exact B5|].
    constructor; [exact H3|constructor].
  - apply (bank_ok_with i); [exact Hb|]. now split.
Qed.

(** One interrupt on the way. *)
Lemma Idle_moves s i e :
  under_way s i e ->
  exists s', Idle s = Ok (tt, s') /\ now s' = willArrive e /\ quiet_client s' /\ bank_ok (bank s') /\
    only_moving s' i /\ (forall j, j <> i -> (elevators (bank s')).[j] = (elevators (bank s)).[j]) /\
    if next_floor e =? goingTo e then
      pending (interrupt s') = [] /\ (elevators (bank s')).[i] = Some (e_inMotion false (at_next e)) /\
      controllerEvents (bank s') = controllerEvents (bank s) ++ [mkPendingElevatorEvent ElevatorArrived (goingTo e) i]
    else
      let w := willArrive e + DelayPerFloor in
      pending (interrupt s') = [(w, mkPendingInterrupt ElevatorDone 0 w ElevatorInt)] /\
      (elevators (bank s')).[i] = Some (e_willArrive w (at_next e)) /\
      controllerEvents (bank s') = controllerEvents (bank s).
Proof.
  intros [Hq Hb Ee Hm Ho Hp Hf Hck].
  assert (Hgo : 0 <= floors_to_go e) by (unfold floors_to_go; lia). unfold DelayPerFloor in Hck.
  set (s1 := mkIsys (mkInterrupt IntOff [] true (yieldOnReturn (interrupt s)) SystemMode)
               (idle_until (willArrive e) (stats s)) (dev s) : esys W).
  destruct (HandleInterrupt_moves i e s1) as (w & EH & Hw); auto.
  { split; [reflexivity|apply Hq]. }
  { cbn. lia. }
  { cbn. lia. }
  set (s2 := set_dev (mkElevSys (bank (moved i e s1)) w) (moved i e s1)) in EH.
  assert (Hl2 : level (interrupt s2) = IntOff) by (unfold s2, moved; now destruct (next_floor e =? goingTo e)).
  assert (Hst : stats s2 = idle_until (willArrive e) (stats s)) by (unfold s2, moved; now destruct (next_floor e =? goingTo e)).
  pose proof (Idle_first (fun _ => eq_refl) s s2 (willArrive e) _ [] (proj1 Hq) Hp ltac:(discriminate) ltac:(lia) EH Hl2) as EI.
  eexists. split; [apply EI|]; unfold now; rewrite ?Hst.
  { unfold next_ahead, s2, moved. destruct (next_floor e =? goingTo e); cbn; [exact I|]. unfold now, DelayPerFloor. cbn. split; [lia|reflexivity]. }
  split; [reflexivity|]. split; [now split|]. split; [now apply (moved_bank_ok i e s1)|].
  split; [exact (only_moving_moved i e e s1 Ee Ho)|]. split; [intros j Hj; exact (moved_lookup i e e s1 j Ee Hj)|].
  unfold bank. cbn [dev interrupt pending s2 set_dev el_bank]. unfold moved.
  destruct (next_floor e =? goingTo e); cbn; split_and!; auto; now apply (with_elevator_eq i _ e s1).
Qed.

Lemma floors_next e :
  lastFloor e <> goingTo e -> floors_to_go (at_next e) = floors_to_go e - 1.
Proof. intros Hne. unfold floors_to_go, at_next, next_floor. cbn. destruct (Z.ltb_spec (lastFloor e) (goingTo e)); lia. Qed.

(** The elevator stands at the floor it was sent to. *)
Definition arrived (e : ElevatorInfo) (w : Z) : ElevatorInfo :=
  e_willArrive w (e_inMotion false (e_lastFloor (goingTo e) e)).

Lemma travel n : forall s i e,
  under_way s i e -> lastFloor e <> goingTo e -> Z.of_nat n = floors_to_go e ->
  let last := willArrive e + DelayPerFloor * (floors_to_go e - 1) in
  exists s', idle_times n s = Ok (tt, s') /\ now s' = last /\ quiet_client s' /\ bank_ok (bank s') /\
    pending (interrupt s') = [] /\
    (elevators (bank s')).[i] = Some (arrived e last) /\
    (forall j, j <> i -> (elevators (bank s')).[j] = (elevators (bank s)).[j]) /\
    controllerEvents (bank s') = controllerEvents (bank s) ++ [mkPendingElevatorEvent ElevatorArrived (goingTo e) i].
Proof.
  induction n as [|n IH]; intros s i e Hu Hne Hn last; [unfold floors_to_go in Hn; lia|].
  destruct (Idle_moves s i e Hu) as (s1 & E1 & N1 & Q1 & B1 & O1 & F1 & R1). cbn [idle_times]. mstep_by E1.
  pose proof (floors_next e Hne) as Hf.
  destruct (Z.eqb_spec (next_floor e) (goingTo e)) as [Eg|Eg].
  - destruct R1 as (P1 & A1 & C1).
    assert (floors_to_go (at_next e) = 0) by (unfold floors_to_go, at_next; cbn; lia).
    assert (n = O) as -> by lia. exists s1. split; [reflexivity|].
    assert (last = willArrive e) as -> by (unfold last; lia). split_and!; auto; try apply Q1.
    rewrite A1. unfold arrived, at_next. rewrite Eg. reflexivity.
  - destruct R1 as (P1 & A1 & C1). set (e1 := e_willArrive (willArrive e + DelayPerFloor) (at_next e)) in *.
    assert (Hf1 : floors_to_go e1 = floors_to_go e - 1) by exact Hf.
    destruct (IH s1 i e1) as (s2 & E2 & N2 & Q2 & B2 & P2 & A2 & F2 & C2).
    + destruct Hu as [Uc Ub Ua Um Uo Up Uf Uk]. split; auto.
      * rewrite N1. cbn. unfold DelayPerFloor. lia.
      * rewrite Hf1. cbn. unfold DelayPerFloor in *. lia.
    + exact Eg.
    + rewrite Hf1. lia.
    + rewrite Hf1 in *. cbn [willArrive e1 e_willArrive] in *. exists s2. split; [exact E2|].
      assert (El : willArrive e + DelayPerFloor + DelayPerFloor * (floors_to_go e - 1 - 1) = last) by (unfold last; lia).
      rewrite El in *. split_and!; auto; try apply Q2.
      * intros j Hj. rewrite F2, F1 by exact Hj. reflexivity.
      * rewrite C2, C1. reflexivity.
Qed.

(** MoveTo on an elevator that stands still. *)
Lemma MoveTo_starts s i e f :
  quiet_client s -> bank_ok (bank s) -> (elevators (bank s)).[i] = Some e ->
  (forall j, 0 <= j < numElevators (bank s) -> still s j) -> doorsOpen e = false ->
  0 <= f < numFloors (bank s) -> lastFloor e <> f -> pending (interrupt s) = [] ->
  0 <= now s -> now s + DelayPerFloor * (Z.abs (f - lastFloor e) + 1) < ClockLimit ->
  let e1 := mkElevatorInfo (display e) false true (lastFloor e) (now s + DelayPerFloor) f (riders e) in
  exists s1, MoveTo f i s = Ok (tt, s1) /\ under_way s1 i e1 /\
    now s1 = now s /\ (forall j, j <> i -> (elevators (bank s1)).[j] = (elevators (bank s)).[j]) /\
    controllerEvents (bank s1) = controllerEvents (bank s).
Proof.
  intros Hq Hb Ee Hs Hd Hf Hne Hp Hn Hck e1. unfold ClockLimit, DelayPerFloor in *.
  pose proof Ee as Hi. apply zlookup_Some in Hi as [Hi _]. rewrite (bo_length _ Hb) in Hi.
  assert (Hm : inMotion e = false) by (destruct (Hs i Hi) as (x & Ex & Hx); congruence).
  set (s1 := with_elevator i e1 s).
  assert (EM : Info_MoveTo i f s = Ok (true, s1)).
  { unfold Info_MoveTo. mstep_by (elevator_at_run i s e Ee). rewrite Hd, Hm, (proj2 (Z.eqb_neq _ _) Hne).
    mstep_to tt s. mstep_by (mod_elevator_run i _ s e Ee). cbn [negb].
    match goal with |- mthen _ _ ?x = _ => set (s2 := x) end. mstep_to (now s) s2.
    assert (E2 : (elevators (bank s2)).[i] = Some (e_goingTo f e)) by now apply with_elevator_eq with e.
    mstep_by (mod_elevator_run i _ s2 _ E2).
    match goal with |- mthen _ _ ?x = _ => set (s3 := x) end.
    assert (E3 : (elevators (bank s3)).[i] = Some (e_willArrive (i32 (now s + 100)) (e_goingTo f e)))
      by now apply with_elevator_eq with (e_goingTo f e).
    mstep_by (mod_elevator_run i _ s3 _ E3). unfold s3, s2. rewrite !with_elevator_twice.
    rewrite i32_id by (unfold is_i32; lia). unfold s1, e1, DelayPerFloor. destruct e. cbn in *. now subst. }
  set (x := mkPendingInterrupt ElevatorDone 0 (now s + 100) ElevatorInt).
  exists (set_pending [(now s + 100, x)] s1). split.
  - unfold MoveTo, check_elevator, check_floor.
    rewrite (mthen_step _ _ _ tt s).
    2:{ mstep_to (bank s) s. now rewrite (proj2 (Z.leb_le _ _) (proj1 Hi)), (proj2 (Z.ltb_lt _ _) (proj2 Hi)). }
    rewrite (mthen_step _ _ _ tt s).
    2:{ mstep_to (bank s) s. now rewrite (proj2 (Z.leb_le _ _) (proj1 Hf)), (proj2 (Z.ltb_lt _ _) (proj2 Hf)). }
    mstep_by EM. unfold Schedule. mstep_to s1 s1. change (totalTicks (stats s1)) with (now s).
    unfold DelayPerFloor. rewrite i32_id by (unfold is_i32; lia). mstep_to tt s1. unfold insert_pending, mmodify.
    change (pending (interrupt s1)) with (pending (interrupt s)). rewrite Hp. reflexivity.
  - pose proof (elevator_ok_at i e s Hb Ee) as [H1 H2 H3 H4 H5].
    assert (Hlk : forall j, j <> i -> (elevators (bank s1)).[j] = (elevators (bank s)).[j]).
    { intros j Hj. cbn. apply zlookup_insert_ne; lia. }
    split_and!; auto. split; auto.
    + apply (bank_ok_with i e1 s Hb). split; cbn; auto; discriminate || congruence.
    + now apply (with_elevator_eq i e1 e s).
    + intros j Hj Hji. destruct (Hs j Hj) as (y & Ey & Hy). exists y. split; [|exact Hy].
      change (bank (set_pending _ s1)) with (bank s1). now rewrite Hlk.
    + cbn. unfold DelayPerFloor. change (now (set_pending _ s1)) with (now s). lia.
    + unfold floors_to_go. cbn. unfold DelayPerFloor, ClockLimit. lia.
Qed.
End arrival.

(** * The client of machine/elevatortest.cc *)
Record InspectorWorld := mkInspectorWorld {
  riderWakeup      : Semaphore;
  controllerWakeup : Semaphore;
  in_kernel        : Kernel
}.

#[export] Instance inspector_kernel : HasKernel (ElevSys InspectorWorld) := {
  kernel d := in_kernel (el_world d);
  set_kernel k d := mkElevSys (el_bank d) (mkInspectorWorld (riderWakeup (el_world d)) (controllerWakeup (el_world d)) k)
}.
#[export] Instance inspector_kernel_laws : HasKernelLaws (ElevSys InspectorWorld).
Proof. split; [reflexivity..|now intros [? []]]. Qed.

Definition rider_ref : ref (ElevSys InspectorWorld) Semaphore :=
  mkRef (fun d => Some (riderWakeup (el_world d)))
        (fun x d => mkElevSys (el_bank d) (mkInspectorWorld x (controllerWakeup (el_world d)) (in_kernel (el_world d)))).
Definition controller_ref : ref (ElevSys InspectorWorld) Semaphore :=
  mkRef (fun d => Some (controllerWakeup (el_world d)))
        (fun x d => mkElevSys (el_bank d) (mkInspectorWorld (riderWakeup (el_world d)) x (in_kernel (el_world d)))).
#[export] Instance rider_ref_laws : RefLaws rider_ref.
Proof. now split. Qed.
#[export] Instance controller_ref_laws : RefLaws controller_ref.
Proof. now split. Qed.

(** A callback runs inside a handler, where SetLevel never ticks. *)
#[local] Instance no_hardware : Hardware (ElevSys InspectorWorld) elevator_handler := {
  call_handler _ _ := mfail BadAccess;
  machine_DelayedLoad _ _ := mfail BadAccess;
  thread_Yield := mfail BadAccess;
  machine_counters := mfail BadAccess
}.

Definition riders_callback (arg : Z) : M (esys InspectorWorld) unit := Semaphore_V rider_ref.
Definition controllers_callback (arg : Z) : M (esys InspectorWorld) unit := Semaphore_V controller_ref.

#[export] Instance inspector_client : ElevatorClient InspectorWorld := {
  client_thread w := currentThread (in_kernel w);
  handlerRiders := riders_callback;
  handlerControllers := controllers_callback
}.

Definition inspector_ok (w : InspectorWorld) : Prop :=
  waiters_exist (queue (riderWakeup w)) (in_kernel w) /\ waiters_exist (queue (controllerWakeup w)) (in_kernel w).

#[export] Instance inspector_laws : ElevatorClientLaws InspectorWorld.
Proof.
  refine {| client_ok := inspector_ok |}.
  - intros a s Hl [Hr Hc]. set (x := riderWakeup (el_world (dev s))) in *.
    eexists. split.
    + change (handlerRiders a) with (Semaphore_V rider_ref). rewrite (Semaphore_V_run rider_ref s x); [|reflexivity|exact Hr].
      rewrite Hl. destruct s as [[lv pe ih yr st] u d]. cbn in Hl. subst lv. reflexivity.
    + split; [apply waiters_tail|]; now apply waiters_woken.
  - intros a s Hl [Hr Hc]. set (x := controllerWakeup (el_world (dev s))) in *.
    eexists. split.
    + change (handlerControllers a) with (Semaphore_V controller_ref).
      rewrite (Semaphore_V_run controller_ref s x); [|reflexivity|exact Hc].
      rewrite Hl. destruct s as [[lv pe ih yr st] u d]. cbn in Hl. subst lv. reflexivity.
    + split; [|apply waiters_tail]; now apply waiters_woken.
Defined.

(** * Properties *)

(** C21: The device keeps its invariant: through any sequence of calls and
    interrupts every elevator stays on floors -1 to the top one, stands at a
    real floor whenever it does not move, has its doors closed while it moves,
    carries at most four riders and is sent to real floors only, and every
    event names a real floor. *)
Theorem ElevatorBank_invariant {W : Type} `{!ElevatorClient W} `{!ElevatorClientLaws W} (o : elevator_op)
    (s s' : esys W) :
  quiet_client s -> bank_ok (bank s) -> run_op o s = Ok (tt, s') -> bank_ok (bank s').
Proof.
  intros Hq Hb E. destruct o; try now refine (keeps_op _ _ s tt s' Hb E).
  now apply (keeps_HandleInterrupt s s' Hq Hb E).
Qed.

(** C20: An elevator arrives.  Sent to another floor while nothing else moves and
    nothing is pending, an elevator gets there after one interrupt per floor,
    [DelayPerFloor] ticks each: it stands at that floor, exactly one
    ElevatorArrived event is posted, the other elevators have not moved, and no
    interrupt is left. *)
Theorem MoveTo_arrives {W : Type} `{!ElevatorClient W} `{!ElevatorClientLaws W} (yield : M (esys W) unit)
    (s : esys W) i e f :
  quiet_client s -> bank_ok (bank s) -> (elevators (bank s)).[i] = Some e ->
  (forall j, 0 <= j < numElevators (bank s) -> still s j) -> doorsOpen e = false ->
  0 <= f < numFloors (bank s) -> lastFloor e <> f -> pending (interrupt s) = [] ->
  0 <= now s -> now s + DelayPerFloor * (Z.abs (f - lastFloor e) + 1) < ClockLimit ->
  let floors := Z.abs (f - lastFloor e) in
  exists s', (MoveTo f i >>> idle_times yield (Z.to_nat floors)) s = Ok (tt, s') /\
    now s' = now s + DelayPerFloor * floors /\
    pending (interrupt s') = [] /\ bank_ok (bank s') /\
    (exists e', (elevators (bank s')).[i] = Some e' /\ lastFloor e' = f /\ inMotion e' = false /\
                doorsOpen e' = false /\ riders e' = riders e) /\
    (forall j, j <> i -> (elevators (bank s')).[j] = (elevators (bank s)).[j]) /\
    controllerEvents (bank s') = controllerEvents (bank s) ++ [mkPendingElevatorEvent ElevatorArrived f i].
Proof.
  intros Hq Hb Ee Hs Hd Hf Hne Hp Hn Hck floors.
  destruct (MoveTo_starts s i e f Hq Hb Ee Hs Hd Hf Hne Hp Hn Hck) as (s1 & E1 & U1 & N1 & F1 & C1).
  destruct (travel yield (Z.to_nat floors) s1 i _ U1) as (s2 & E2 & N2 & _ & B2 & P2 & A2 & F2 & C2);
    [exact Hne|unfold floors_to_go; cbn; lia|].
  unfold floors_to_go in N2. cbn [willArrive goingTo lastFloor] in *. exists s2. mstep_by E1. split_and!; auto.
  - rewrite N2. unfold DelayPerFloor. lia.
  - eexists. split; [exact A2|]. now split_and!.
  - intros j Hj. now rewrite F2, F1.
  - now rewrite C2, C1.
Qed.

(** Below the ground floor.  While an elevator is on its way up from floor 0,
    MoveTo accepts floor 0 as its new destination; at the next interrupt the
    elevator, already at the floor it goes to, moves down, and WhereIsElevator
    answers -1. *)
Theorem MoveTo_below_ground {W : Type} `{!ElevatorClient W} `{!ElevatorClientLaws W} (s : esys W) i e :
  quiet_client s -> bank_ok (bank s) -> (elevators (bank s)).[i] = Some e -> inMotion e = true ->
  lastFloor e = 0 -> only_moving s i -> 0 <= willArrive e <= now s -> now s < ClockLimit ->
  exists s', (MoveTo 0 i >>> HandleInterrupt >>> WhereIsElevator i) s = Ok (-1, s').
Proof.
  intros Hq Hb Ee Hm Hl Ho Hw Hc. pose proof Ee as Hi. apply zlookup_Some in Hi as [Hi _]. rewrite (bo_length _ Hb) in Hi.
  pose proof (elevator_ok_at i e s Hb Ee) as [H1 H2 H3 H4 H5]. set (e1 := e_goingTo 0 e).
  assert (Hd : doorsOpen e = false) by (destruct (doorsOpen e); [specialize (H4 eq_refl); congruence|reflexivity]).
  set (s1 := with_elevator i e1 s).
  assert (Ec : check_elevator i s = Ok (tt, s)).
  { unfold check_elevator. mstep_to (bank s) s. now rewrite (proj2 (Z.leb_le _ _) (proj1 Hi)), (proj2 (Z.ltb_lt _ _) (proj2 Hi)). }
  assert (EM : MoveTo 0 i s = Ok (tt, s1)).
  { unfold MoveTo. mstep_by Ec. rewrite (mthen_step _ _ _ tt s).
    2:{ unfold check_floor. mstep_to (bank s) s. rewrite (proj2 (Z.ltb_lt 0 _)) by lia. reflexivity. }
    rewrite (mthen_step _ _ _ false s1); [reflexivity|]. unfold Info_MoveTo.
    mstep_by (elevator_at_run i s e Ee). rewrite Hd, Hm. mstep_to tt s. now mstep_by (mod_elevator_run i _ s e Ee). }
  mstep_by EM. assert (Ee1 : (elevators (bank s1)).[i] = Some e1) by now apply with_elevator_eq with e.
  assert (Hb1 : bank_ok (bank s1)) by (apply (bank_ok_with i e1 s Hb); split; cbn; auto; lia).
  assert (Ho1 : only_moving s1 i).
  { intros j Hj Hne. destruct (Ho j Hj Hne) as (x & Ex & Hx). exists x. split; [|exact Hx].
    unfold s1. rewrite with_elevator_lookup by (rewrite (bo_length _ Hb); exact Hi). now rewrite decide_False. }
  destruct (HandleInterrupt_moves i e1 s1 Hq Hb1 Ee1 Hm Ho1 Hw Hc) as (w & EH & _). mstep_by EH.
  set (s2 := set_dev _ _). exists s2.
  assert (Hmv : next_floor e1 = -1) by (unfold next_floor; cbn; now rewrite Hl).
  assert (E2 : (elevators (bank s2)).[i] = Some (e_willArrive (willArrive e + DelayPerFloor) (at_next e1)) /\ numElevators (bank s2) = numElevators (bank s)).
  { unfold s2, moved. rewrite Hmv. cbn. split; [|reflexivity]. apply zlookup_insert_eq.
    rewrite length_insert, (bo_length _ Hb). exact Hi. }
  destruct E2 as [E2 En]. unfold WhereIsElevator. rewrite (mthen_step _ _ _ tt s2).
  - mstep_by (elevator_at_run i s2 _ E2). cbn [lastFloor e_willArrive at_next e_lastFloor]. now rewrite Hmv.
  - unfold check_elevator. mstep_to (bank s2) s2. rewrite En.
    now rewrite (proj2 (Z.leb_le _ _) (proj1 Hi)), (proj2 (Z.ltb_lt _ _) (proj2 Hi)).
Qed.

(** * Concrete runs: two elevators, five floors *)
Definition sample_bank : ElevatorBank := ElevatorBank_ElevatorBank 2 5 0 0.
Definition sample_world : InspectorWorld :=
  mkInspectorWorld (mkSemaphore 0 []) (mkSemaphore 0 [2])
    (mkKernel {[2 := sample_thread 1 BLOCKED]} [] [] 1 None []).
Definition sample_esys (b : ElevatorBank) (clock : Z) : esys InspectorWorld :=
  mkIsys Interrupt_Interrupt (mkStatistics clock 0 0 0 0 0 0 0 0 0 0) (mkElevSys b sample_world).

Lemma sample_quiet b clock : quiet_client (sample_esys b clock).
Proof. split; [reflexivity|]. split; [constructor|]. constructor; [eexists; reflexivity|constructor]. Defined.

Definition sample_result : esys InspectorWorld :=
  match run_op (OpMoveTo 3 1) (sample_esys sample_bank 50) with
  | Ok (_, s') => s'
  | Err _ => sample_esys sample_bank 50
  end.

Lemma ElevatorBank_invariant_witness :
  run_op (OpMoveTo 3 1) (sample_esys sample_bank 50) = Ok (tt, sample_result) /\ bank_ok (bank sample_result).
Proof.
  split; [vm_compute; reflexivity|].
  apply (ElevatorBank_invariant (OpMoveTo 3 1) (sample_esys sample_bank 50)).
  - apply sample_quiet.
  - now apply bank_ok_new.
  - vm_compute. reflexivity.
Defined.

Lemma MoveTo_arrives_witness :
  exists s', (MoveTo 3 1 >>> idle_times (mreturn tt) 3) (sample_esys sample_bank 50) = Ok (tt, s') /\
    now s' = 350 /\ controllerEvents (bank s') = [mkPendingElevatorEvent ElevatorArrived 3 1].
Proof.
  destruct (MoveTo_arrives (mreturn tt) (sample_esys sample_bank 50) 1 new_ElevatorInfo 3)
    as (s' & E & N & _ & _ & _ & _ & C).
  - apply sample_quiet.
  - now apply bank_ok_new.
  - reflexivity.
  - intros j Hj. cbn in Hj. exists new_ElevatorInfo. split; [|reflexivity].
    assert (j = 0 \/ j = 1) as [-> | ->] by lia; reflexivity.
  - reflexivity.
  - cbn. lia.
  - discriminate.
  - reflexivity.
  - cbn. lia.
  - now vm_compute.
  - exists s'. split; [exact E|]. split; [exact N|exact C].
Defined.

(** Elevator 0 left the ground floor for floor 3 and passes floor 1 at 100. *)
Definition sample_moving : ElevatorBank :=
  b_elevators [mkElevatorInfo Up false true 0 100 3 []; new_ElevatorInfo] sample_bank.

Lemma MoveTo_below_ground_witness :
  exists s', (MoveTo 0 0 >>> HandleInterrupt >>> WhereIsElevator 0) (sample_esys sample_moving 100) = Ok (-1, s').
Proof.
  apply (MoveTo_below_ground (sample_esys sample_moving 100) 0 (mkElevatorInfo Up false true 0 100 3 [])).
  - apply sample_quiet.
  - split; cbn; try lia; repeat constructor; cbn; lia || discriminate || (unfold MaxRiders; lia).
  - reflexivity.
  - reflexivity.
  - reflexivity.
  - intros j Hj Hne. cbn in Hj. exists new_ElevatorInfo. assert (j = 1) as -> by lia. split; reflexivity.
  - cbn. lia.
  - cbn. unfold ClockLimit. lia.
Defined.
