(* ===== verification/ConsoleDev.v ===== *)
(** machine/console.h and machine/console.cc: the terminal, Console and the
    repository's SynchConsole.

    The keyboard is a host file of which PollFile (sysdep.cc) asks select
    whether a read would return at once: when bytes are waiting, or at end of
    file.  The display is what WriteFile has appended to it.  A char is signed
    on the host; EOF is -1.  The handlers given to the constructor are the
    client's ([ConsoleClient]): they return and leave the device and the
    interrupt state alone, as a V on a semaphore does. *)
From Stdlib Require Import ZArith Lia.
From stdpp Require Import base option list gmap.
From S2P Require Import Prelude CList Stats Interrupt Thread Synch.

Local Open Scope Z_scope.

Definition EOF : Z := -1.
(** The conversion to char, a signed byte. *)
Definition to_char (b : Z) : Z := if b <? 128 then b else b - 256.
(** The byte that is stored for a char. *)
Definition of_char (c : Z) : Z := c mod 256.

Record Keyboard := mkKeyboard {
  typed  : list Z;
  at_eof : bool
}.

Record Console := mkConsole {
  keyboard   : Keyboard;
  shown      : list Z;
  handlerArg : Z;
  putBusy    : bool;
  incoming   : Z
}.

Inductive console_handler := ConsoleReadPoll | ConsoleWriteDone.

(** The device, the lock of the SynchConsole object and the client's world. *)
Record ConSys (W : Type) := mkConSys {
  con       : Console;
  con_lock  : Lock;
  con_world : W
}.
Arguments mkConSys {W}.
Arguments con {W}.
Arguments con_lock {W}.
Arguments con_world {W}.

Abbreviation csys W := (isys (ConSys W) console_handler).

Class ConsoleClient (W : Type) := {
  readHandler  : Z -> M (csys W) unit;
  writeHandler : Z -> M (csys W) unit
}.

Section console.
Context {W : Type} `{!ConsoleClient W}.
Implicit Types s : csys W.

Definition the_console s : Console := con (dev s).
Definition set_console (c : Console) s : csys W := set_dev (mkConSys c (con_lock (dev s)) (con_world (dev s))) s.
Definition get_console : M (csys W) Console := let! s := mget in mreturn (the_console s).

Definition c_keyboard (k : Keyboard) (c : Console) : Console :=
  mkConsole k (shown c) (handlerArg c) (putBusy c) (incoming c).
Definition c_shown (l : list Z) (c : Console) : Console :=
  mkConsole (keyboard c) l (handlerArg c) (putBusy c) (incoming c).
Definition c_putBusy (b : bool) (c : Console) : Console :=
  mkConsole (keyboard c) (shown c) (handlerArg c) b (incoming c).
Definition c_incoming (x : Z) (c : Console) : Console :=
  mkConsole (keyboard c) (shown c) (handlerArg c) (putBusy c) x.
Definition mod_console (f : Console -> Console) : M (csys W) unit :=
  mmodify (fun s => set_console (f (the_console s)) s).

(** PollFile(readFileNo) *)
Definition PollFile : M (csys W) bool :=
  let! c := get_console in
  mreturn (match typed (keyboard c) with [] => at_eof (keyboard c) | _ => true end).

(** Read(readFileNo, &c, 1): the ASSERT of Read fails at end of file. *)
Definition read_char : M (csys W) Z :=
  let! c := get_console in
  match typed (keyboard c) with
  | [] => mfail AssertFailed
  | b :: rest => mod_console (c_keyboard (mkKeyboard rest (at_eof (keyboard c)))) >>> mreturn (to_char b)
  end.

(** new Console, on the files that were opened for it. *)
Definition Console_Console (k : Keyboard) (callArg : Z) : M (csys W) unit :=
  mmodify (set_console (mkConsole k [] callArg false EOF)) >>>
  Schedule ConsoleReadPoll 0 ConsoleTime ConsoleReadInt.

Definition CheckCharAvail : M (csys W) unit :=
  Schedule ConsoleReadPoll 0 ConsoleTime ConsoleReadInt >>>
  let! c := get_console in
  if negb (incoming c =? EOF) then mreturn tt
  else
    let! p := PollFile in
    if negb p then mreturn tt
    else
      let! ch := read_char in
      mod_console (c_incoming ch) >>>
      mmodify (fun s => set_stats (incr_numConsoleCharsRead (stats s)) s) >>>
      readHandler (handlerArg c).

Definition WriteDone : M (csys W) unit :=
  mod_console (c_putBusy false) >>>
  mmodify (fun s => set_stats (incr_numConsoleCharsWritten (stats s)) s) >>>
  let! c := get_console in writeHandler (handlerArg c).

Definition GetChar : M (csys W) Z :=
  let! c := get_console in
  mod_console (c_incoming EOF) >>> mreturn (incoming c).

Definition PutChar (ch : Z) : M (csys W) unit :=
  let! c := get_console in
  ASSERT (negb (putBusy c)) >>>
  mod_console (fun c => c_shown (shown c ++ [of_char ch]) c) >>>
  mod_console (c_putBusy true) >>>
  Schedule ConsoleWriteDone 0 ConsoleTime ConsoleWriteInt.

Definition console_hardware (yield : M (csys W) unit) : Hardware (ConSys W) console_handler := {|
  call_handler h arg := match h with ConsoleReadPoll => CheckCharAvail | ConsoleWriteDone => WriteDone end;
  machine_DelayedLoad _ _ := mreturn tt;
  thread_Yield := yield;
  machine_counters := mreturn (0, 0)
|}.
End console.

(** * SynchConsole *)
Section synchconsole.
Context {W : Type} `{!ConsoleClient W, !Hardware (ConSys W) console_handler, !HasKernel (ConSys W),
  !ContextSwitch (ConSys W) console_handler}.
Variable fuel : nat.

Definition con_lock_ref : ref (ConSys W) Lock :=
  mkRef (fun d => Some (con_lock d)) (fun l d => mkConSys (con d) l (con_world d)).

Definition SynchConsole_SynchConsole (k : Keyboard) (callArg : Z) : M (csys W) unit :=
  Console_Console k callArg >>>
  mmodify (fun s => set_dev (ref_set con_lock_ref Lock_Lock (dev s)) s).
Definition SynchConsole_CheckCharAvail : M (csys W) unit := CheckCharAvail.
Definition SynchConsole_WriteDone : M (csys W) unit := WriteDone.

Definition SynchConsole_GetChar : M (csys W) Z :=
  Lock_Acquire fuel con_lock_ref >>>
  let! ch := GetChar in
  Lock_Release con_lock_ref >>>
  mreturn ch.

Definition SynchConsole_PutChar (ch : Z) : M (csys W) unit :=
  Lock_Acquire fuel con_lock_ref >>>
  PutChar ch >>>
  Lock_Release con_lock_ref.
End synchconsole.

Class ConsoleClientLaws (W : Type) `{!ConsoleClient W} := {
  console_ok : W -> Prop;
  read_law : forall a (s : csys W), level (interrupt s) = IntOff -> console_ok (con_world (dev s)) ->
    exists w, readHandler a s = Ok (tt, set_dev (mkConSys (con (dev s)) (con_lock (dev s)) w) s) /\ console_ok w;
  write_law : forall a (s : csys W), level (interrupt s) = IntOff -> console_ok (con_world (dev s)) ->
    exists w, writeHandler a s = Ok (tt, set_dev (mkConSys (con (dev s)) (con_lock (dev s)) w) s) /\ console_ok w
}.

(** * What happens at a terminal, one event after the other *)
Inductive con_event :=
  | EvType (bs : list Z)   (* somebody types *)
  | EvPoll                 (* the polling interrupt *)
  | EvGet                  (* GetChar *)
  | EvPut (ch : Z)         (* PutChar *)
  | EvDone.                (* the completion interrupt *)

Definition typed_by (e : con_event) : list Z := match e with EvType bs => bs | _ => [] end.
Definition put_by (e : con_event) : list Z := match e with EvPut ch => [of_char ch] | _ => [] end.

Section events.
Context {W : Type} `{!ConsoleClient W}.
Implicit Types s : csys W.

(** The bytes that GetChar returned. *)
Definition con_step (e : con_event) : M (csys W) (list Z) :=
  match e with
  | EvType bs =>
      mod_console (fun c => c_keyboard (mkKeyboard (typed (keyboard c) ++ bs) (at_eof (keyboard c))) c) >>> mreturn []
  | EvPoll => CheckCharAvail >>> mreturn []
  | EvGet => let! c := GetChar in mreturn (if c =? EOF then [] else [of_char c])
  | EvPut ch => PutChar ch >>> mreturn []
  | EvDone => WriteDone >>> mreturn []
  end.

Fixpoint con_run (l : list con_event) : M (csys W) (list Z) :=
  match l with
  | [] => mreturn []
  | e :: r => let! x := con_step e in let! y := con_run r in mreturn (x ++ y)
  end.

(** The bytes that have a char of their own: 255 is the char of EOF. *)
Definition readable (bs : list Z) : list Z := filter (fun b => b <> 255) bs.

(** The input that has not been handed over: the buffered character and what is
    still at the host, as far as it can be read. *)
Definition unread s : list Z :=
  let c := the_console s in
  (if incoming c =? EOF then [] else [of_char (incoming c)]) ++ readable (typed (keyboard c)).

Record console_inv `{!ConsoleClientLaws W} s : Prop := {
  ci_level : level (interrupt s) = IntOff;
  ci_world : console_ok (con_world (dev s));
  ci_bytes : Forall is_byte (typed (keyboard (the_console s)))
}.
End events.

Lemma to_char_readable b : is_byte b -> b <> 255 -> to_char b <> EOF /\ of_char (to_char b) = b.
Proof.
  unfold is_byte, to_char, of_char, EOF. intros Hb Hn. destruct (Z.ltb_spec b 128).
  - split; [lia|]. apply Z.mod_small. lia.
  - split; [lia|]. rewrite <- (Z.mod_add _ 1) by lia. rewrite Z.mod_small; lia.
Qed.

Section console_lemmas.
Context {W : Type} `{!ConsoleClient W} `{!ConsoleClientLaws W}.
Implicit Types s : csys W.

Definition polled s : csys W :=
  let when := i32 (now s + ConsoleTime) in
  set_pending (q_sorted_insert (pending (interrupt s)) (mkPendingInterrupt ConsoleReadPoll 0 when ConsoleReadInt) when) s.

(** The next poll, and the whole of what a poll can do. *)
Lemma CheckCharAvail_run s :
  console_inv s ->
  match typed (keyboard (the_console s)) with
  | [] => incoming (the_console s) = EOF -> at_eof (keyboard (the_console s)) = false -> CheckCharAvail s = Ok (tt, polled s)
  | b :: rest =>
      incoming (the_console s) = EOF ->
      exists w, console_ok w /\
        CheckCharAvail s =
          Ok (tt, set_dev (mkConSys (c_incoming (to_char b) (c_keyboard (mkKeyboard rest (at_eof (keyboard (the_console s)))) (the_console s)))
                             (con_lock (dev s)) w)
                    (set_stats (incr_numConsoleCharsRead (stats s)) (polled s)))
  end /\
  (incoming (the_console s) <> EOF -> CheckCharAvail s = Ok (tt, polled s)).
Proof.
  intros [Hl Hw Hp].
  assert (E0 : CheckCharAvail s = (let! c := get_console in
    if negb (incoming c =? EOF) then mreturn tt
    else let! p := PollFile in
      if negb p then mreturn tt
      else let! ch := read_char in
        mod_console (c_incoming ch) >>>
        mmodify (fun s => set_stats (incr_numConsoleCharsRead (stats s)) s) >>> readHandler (handlerArg c)) (polled s))
    by reflexivity.
  rewrite E0. clear E0. mstep_to (the_console s) (polled s). split.
  - destruct (typed (keyboard (the_console s))) as [|b rest] eqn:Et.
    + intros -> Hf. change (negb (EOF =? EOF)) with false. cbn match.
      assert (EP : PollFile (polled s) = Ok (false, polled s)).
      { unfold PollFile. mstep_to (the_console s) (polled s). now rewrite Et, Hf. }
      now mstep_by EP.
    + intros ->. change (negb (EOF =? EOF)) with false. cbn match.
      assert (EP : PollFile (polled s) = Ok (true, polled s)).
      { unfold PollFile. mstep_to (the_console s) (polled s). now rewrite Et. }
      mstep_by EP. cbn [negb].
      set (c1 := c_keyboard (mkKeyboard rest (at_eof (keyboard (the_console s)))) (the_console s)).
      assert (ER : read_char (polled s) = Ok (to_char b, set_console c1 (polled s))).
      { unfold read_char. mstep_to (the_console s) (polled s). now rewrite Et. }
      mstep_by ER. set (s2 := set_stats (incr_numConsoleCharsRead (stats s)) (set_console (c_incoming (to_char b) c1) (polled s))).
      mstep_to tt (set_console (c_incoming (to_char b) c1) (polled s)). mstep_to tt s2.
      destruct (read_law (handlerArg (the_console s)) s2 Hl Hw) as (w & E & Hw'). exists w. split; [exact Hw'|exact E].
  - intros Hne. rewrite (proj2 (Z.eqb_neq _ _) Hne). reflexivity.
Qed.

(** One event: where the characters go. *)
Lemma con_step_io e s got s' :
  console_inv s -> Forall is_byte (typed_by e) -> con_step e s = Ok (got, s') ->
  console_inv s' /\ got ++ unread s' = unread s ++ readable (typed_by e) /\ shown (the_console s') = shown (the_console s) ++ put_by e.
Proof.
  intros HI Hpl E. pose proof HI as [Hl Hw Hp]. destruct e as [bs| | |ch|]; cbn [con_step typed_by put_by] in *.
  - unfold mod_console in E. mon_inv. split; [|split].
    + split; auto. cbn. now apply Forall_app.
    + unfold unread, readable. cbn. now rewrite filter_app, app_assoc.
    + cbn. now rewrite app_nil_r.
  - rewrite !app_nil_r. apply mthen_Ok in E as ([] & s1 & E & E1). mon_inv. cbn [app].
    destruct (CheckCharAvail_run s HI) as [Hr Hi]. destruct (Z.eqb_spec (incoming (the_console s)) EOF) as [He|He].
    + destruct (typed (keyboard (the_console s))) as [|b rest] eqn:Et.
      * destruct (at_eof (keyboard (the_console s))) eqn:Ef; [|specialize (Hr He eq_refl)].
        { exfalso. unfold CheckCharAvail in E. apply mthen_Ok in E as (? & s2 & E1 & E2).
          assert (s2 = polled s) as -> by (unfold Schedule, insert_pending in E1; mon_inv; reflexivity).
          revert E2. mstep_to (the_console s) (polled s). rewrite He. change (negb (EOF =? EOF)) with false. cbn match.
          assert (EP : PollFile (polled s) = Ok (true, polled s)).
          { unfold PollFile. mstep_to (the_console s) (polled s). now rewrite Et, Ef. }
          mstep_by EP. cbn [negb]. unfold read_char. unfold mthen at 1. mstep_to (the_console s) (polled s).
          now rewrite Et. }
        rewrite Hr in E. injection E as <-. split; [|now split]. split; auto. change (Forall is_byte (typed (keyboard (the_console s)))). rewrite Et. constructor.
      * destruct (Hr He) as (w & Hw' & Er). rewrite Er in E. injection E as <-.
        inversion_clear Hp as [|? ? Hb Hp']. split; [|split].
        -- split; auto.
        -- unfold unread, readable. cbn [the_console set_dev dev con c_incoming incoming keyboard typed]. rewrite He, Et.
           destruct (Z.eq_dec b 255) as [->|H255].
           ++ rewrite filter_cons_False by (intros Hf; now apply Hf). reflexivity.
           ++ destruct (to_char_readable b Hb H255) as [Hb1 Hb2]. rewrite filter_cons_True by exact H255.
              cbn. now rewrite (proj2 (Z.eqb_neq _ _) Hb1), Hb2.
        -- reflexivity.
    + rewrite (Hi He) in E. injection E as <-. split; [now split|]. now split.
  - rewrite !app_nil_r. unfold GetChar, get_console, mod_console in E. mon_inv. split; [now split|]. split; [|reflexivity].
    unfold unread. cbn. reflexivity.
  - unfold PutChar, get_console, mod_console, Schedule, insert_pending in E. mon_inv. rewrite app_nil_r. split; [now split|].
    split; reflexivity.
  - rewrite !app_nil_r. unfold WriteDone, mod_console, get_console in E. mon_inv.
    match goal with H : writeHandler ?a ?x = _ |- _ =>
      destruct (write_law a x Hl Hw) as (w & Ew & Hw'); rewrite Ew in H; injection H as <- end.
    split; [now split|]. now split.
Qed.
End console_lemmas.

(** * Properties *)

(** C22: The terminal is a pair of queues.  However typing, polls, GetChar, PutChar
    and completions alternate, what GetChar has returned and what is still
    unread are together what was typed less the bytes 255, in order and once;
    a byte 255 is always lost, because its char equals EOF.  The display shows
    what was put, in order.  And the device always
    goes on: every event returns, except a PutChar while one is in progress,
    which stops at the ASSERT, and a poll of a closed keyboard. *)
Theorem Console_queues {W : Type} `{!ConsoleClient W} `{!ConsoleClientLaws W} (l : list con_event) (s : csys W) got s' :
  console_inv s -> Forall is_byte (concat (typed_by <$> l)) -> con_run l s = Ok (got, s') ->
  got ++ unread s' = unread s ++ readable (concat (typed_by <$> l)) /\
  shown (the_console s') = shown (the_console s) ++ concat (put_by <$> l) /\
  (forall e, match e with
             | EvPut _ => putBusy (the_console s') = false
             | EvPoll => at_eof (keyboard (the_console s')) = false
             | _ => True
             end -> exists r s'', con_step e s' = Ok (r, s'')) /\
  (forall ch, putBusy (the_console s') = true -> con_step (EvPut ch) s' = Err AssertFailed).
Proof.
  intros HI Hp E.
  assert (HR : console_inv s' /\ got ++ unread s' = unread s ++ readable (concat (typed_by <$> l)) /\
    shown (the_console s') = shown (the_console s) ++ concat (put_by <$> l)).
  { revert s got HI Hp E. induction l as [|e l IH]; intros s got HI Hp E; cbn [con_run] in E.
    - mon_inv. cbn. now rewrite !app_nil_r.
    - mon_inv. rewrite fmap_cons in Hp. cbn [concat] in Hp. apply Forall_app in Hp as [Hp1 Hp2].
      match goal with H1 : con_step e _ = _, H2 : con_run l _ = _ |- _ =>
        destruct (con_step_io e _ _ _ HI Hp1 H1) as (HI1 & A1 & B1); destruct (IH _ _ HI1 Hp2 H2) as (HI2 & A2 & B2) end.
      rewrite !fmap_cons. cbn [concat]. split; [exact HI2|]. split.
      + unfold readable in *. rewrite filter_app, <- app_assoc, A2, !app_assoc, A1. reflexivity.
      + now rewrite B2, B1, app_assoc. }
  destruct HR as (HI' & A & B). split; [exact A|]. split; [exact B|]. split.
  - intros [bs| | |ch|] He; cbn [con_step].
    + eexists _, _. reflexivity.
    + destruct (CheckCharAvail_run s' HI') as [Hr Hi].
      destruct (Z.eqb_spec (incoming (the_console s')) EOF) as [E0|E0].
      * destruct (typed (keyboard (the_console s'))); [rewrite (mthen_step _ _ _ _ _ (Hr E0 He)); now eexists _, _|].
        destruct (Hr E0) as (w & _ & Ew). rewrite (mthen_step _ _ _ _ _ Ew). now eexists _, _.
      * rewrite (mthen_step _ _ _ _ _ (Hi E0)). now eexists _, _.
    + eexists _, _. reflexivity.
    + unfold PutChar. rewrite (mthen_step _ _ _ tt (set_pending (q_sorted_insert (pending (interrupt s'))
        (mkPendingInterrupt ConsoleWriteDone 0 (i32 (now s' + ConsoleTime)) ConsoleWriteInt) (i32 (now s' + ConsoleTime)))
        (set_console (c_putBusy true (c_shown (shown (the_console s') ++ [of_char ch]) (the_console s'))) s'))).
      * eexists _, _. reflexivity.
      * mstep_to (the_console s') s'. rewrite He. reflexivity.
    + unfold WriteDone. set (s1 := set_stats (incr_numConsoleCharsWritten (stats s')) (set_console (c_putBusy false (the_console s')) s')).
      destruct (write_law (handlerArg (the_console s')) s1) as (w & Ew & _); [apply HI'..|].
      rewrite (mthen_step _ _ _ tt (set_dev (mkConSys (con (dev s1)) (con_lock (dev s1)) w) s1)); [now eexists _, _|].
      mstep_to tt (set_console (c_putBusy false (the_console s')) s'). mstep_to tt s1. mstep_to (the_console s1) s1. exact Ew.
  - intros ch Hb. cbn [con_step]. apply mthen_fail. unfold PutChar. mstep_to (the_console s') s'. rewrite Hb. reflexivity.
Qed.

(** A byte 255 is lost: as a char it equals EOF, so the poll that reads it
    announces a character and leaves the buffer empty. *)
Theorem Console_loses_255 {W : Type} `{!ConsoleClient W} `{!ConsoleClientLaws W} (s : csys W) rest :
  level (interrupt s) = IntOff -> console_ok (con_world (dev s)) ->
  incoming (the_console s) = EOF -> typed (keyboard (the_console s)) = 255 :: rest ->
  exists s', CheckCharAvail s = Ok (tt, s') /\ incoming (the_console s') = EOF /\ typed (keyboard (the_console s')) = rest /\
    numConsoleCharsRead (stats s') = i32 (numConsoleCharsRead (stats s) + 1).
Proof.
  intros Hl Hw He Et.
  set (c1 := c_incoming (-1) (c_keyboard (mkKeyboard rest (at_eof (keyboard (the_console s)))) (the_console s))).
  set (s1 := set_stats (incr_numConsoleCharsRead (stats s)) (set_console c1 (polled s))).
  destruct (read_law (handlerArg (the_console s)) s1 Hl Hw) as (w & Ew & _).
  exists (set_dev (mkConSys (con (dev s1)) (con_lock (dev s1)) w) s1). split; [|now repeat split].
  transitivity (readHandler (handlerArg (the_console s)) s1); [|exact Ew].
  unfold CheckCharAvail. mstep_to tt (polled s). mstep_to (the_console s) (polled s). rewrite He.
  change (negb (EOF =? EOF)) with false. cbn match.
  assert (EP : PollFile (polled s) = Ok (true, polled s)).
  { unfold PollFile. mstep_to (the_console s) (polled s). now rewrite Et. }
  mstep_by EP. cbn [negb].
  assert (ER : read_char (polled s) = Ok (-1, set_console (c_keyboard (mkKeyboard rest (at_eof (keyboard (the_console s)))) (the_console s)) (polled s))).
  { unfold read_char. mstep_to (the_console s) (polled s). now rewrite Et. }
  mstep_by ER. reflexivity.
Qed.

(** * A concrete run: a client that counts its interrupts *)
#[local] Instance sample_client : ConsoleClient (Z * Z) := {
  readHandler _ := mmodify (fun s => set_dev (mkConSys (con (dev s)) (con_lock (dev s)) ((con_world (dev s)).1 + 1, (con_world (dev s)).2)) s);
  writeHandler _ := mmodify (fun s => set_dev (mkConSys (con (dev s)) (con_lock (dev s)) ((con_world (dev s)).1, (con_world (dev s)).2 + 1)) s)
}.
#[local] Instance sample_client_laws : ConsoleClientLaws (Z * Z).
Proof. refine {| console_ok _ := True |}; intros a s _ _; eexists; split; reflexivity || exact I. Defined.

Definition sample_csys : csys (Z * Z) :=
  mkIsys Interrupt_Interrupt Statistics_Statistics
    (mkConSys (mkConsole (mkKeyboard [104] false) [] 0 false EOF) Lock_Lock (0, 0)).
Definition sample_events : list con_event := [EvPoll; EvType [105; 255; 200]; EvPoll; EvGet; EvPut 104; EvPoll; EvDone; EvGet; EvPoll].
Definition sample_final : csys (Z * Z) :=
  match con_run sample_events sample_csys with Ok (_, s') => s' | Err _ => sample_csys end.

Lemma Console_queues_witness :
  con_run sample_events sample_csys = Ok ([104; 105], sample_final) /\
  [104; 105] ++ unread sample_final = [104; 105; 200] /\ shown (the_console sample_final) = [104].
Proof.
  assert (E : con_run sample_events sample_csys = Ok ([104; 105], sample_final)) by (vm_compute; reflexivity).
  destruct (Console_queues sample_events sample_csys [104; 105] sample_final) as (A & B & _).
  - split; [reflexivity|exact I|]. repeat constructor; unfold is_byte; lia.
  - repeat constructor; unfold is_byte; lia.
  - exact E.
  - split; [exact E|]. split; [exact A|exact B].
Defined.
