(* ===== verification/Network.v ===== *)
(** machine/network.h and machine/network.cc: the network device.

    A packet is a datagram of 64 bytes: a header of three words, then the data.
    The host's sockets are modelled by the datagrams waiting at this machine's
    socket and by those handed to the host for others, by destination; a send
    to an address nobody has opened fails in the host ([HostNetwork]).  The
    reliability is a C++ double: SpecFloat's binary64, with its rounding.  The
    handlers given to the constructor are the client's ([NetworkClient]). *)
From Stdlib Require Import ZArith Lia SpecFloat.
From stdpp Require Import base option list list_numbers gmap.
From S2P Require Import Prelude CList Stats Interrupt TimerDev.

Local Open Scope Z_scope.

Record PacketHeader := mkPacketHeader {
  to         : Z;
  from       : Z;
  pkt_length : Z
}.

Definition MaxWireSize : Z := 64.
Definition PacketHeaderSize : Z := 12.
Definition MaxPacketSize : Z := MaxWireSize - PacketHeaderSize.

(** A header as the compiler lays it out. *)
Definition header_bytes (h : PacketHeader) : list Z :=
  le_split 4 (to h) ++ le_split 4 (from h) ++ le_split 4 (pkt_length h).
Definition header_of (bs : list Z) : PacketHeader :=
  mkPacketHeader (i32 (le_join (slice bs 0 4))) (i32 (le_join (slice bs 4 4))) (le_join (slice bs 8 4)).

(** double *)
Abbreviation double := spec_float.
Definition double_of (z : Z) : double := binary_normalize 53 1024 z 0 false.
Definition double_mul (x y : double) : double := SFmul 53 1024 x y.

Record Network := mkNetwork {
  ident        : Z;
  chanceToWork : double;
  net_arg      : Z;
  sendBusy     : bool;
  inHdr        : PacketHeader;
  inbox        : list Z
}.

Inductive network_handler := NetworkReadPoll | NetworkSendDone.

Class HostNetwork := { reachable : Z -> bool }.

Record NetSys (W : Type) := mkNetSys {
  net       : Network;
  arrived   : list (list Z);        (* datagrams waiting at sock *)
  sent      : list (Z * list Z);    (* datagrams given to the host *)
  rand_used : nat;
  net_world : W
}.
Arguments mkNetSys {W}.
Arguments net {W}.
Arguments arrived {W}.
Arguments sent {W}.
Arguments rand_used {W}.
Arguments net_world {W}.

Abbreviation nsys W := (isys (NetSys W) network_handler).

Class NetworkClient (W : Type) := {
  net_readHandler  : Z -> M (nsys W) unit;
  net_writeHandler : Z -> M (nsys W) unit
}.

Section network.
Context {W : Type} `{!HostRandom, !HostNetwork, !NetworkClient W}.
Implicit Types s : nsys W.

Definition the_net s : Network := net (dev s).
Definition set_net (n : Network) s : nsys W :=
  let d := dev s in set_dev (mkNetSys n (arrived d) (sent d) (rand_used d) (net_world d)) s.
Definition set_arrived (l : list (list Z)) s : nsys W :=
  let d := dev s in set_dev (mkNetSys (net d) l (sent d) (rand_used d) (net_world d)) s.
Definition set_sent (l : list (Z * list Z)) s : nsys W :=
  let d := dev s in set_dev (mkNetSys (net d) (arrived d) l (rand_used d) (net_world d)) s.
Definition set_net_world (w : W) s : nsys W :=
  let d := dev s in set_dev (mkNetSys (net d) (arrived d) (sent d) (rand_used d) w) s.
Definition get_net : M (nsys W) Network := let! s := mget in mreturn (the_net s).

Definition n_sendBusy (b : bool) (n : Network) : Network :=
  mkNetwork (ident n) (chanceToWork n) (net_arg n) b (inHdr n) (inbox n).
Definition n_inHdr (h : PacketHeader) (n : Network) : Network :=
  mkNetwork (ident n) (chanceToWork n) (net_arg n) (sendBusy n) h (inbox n).
Definition n_inbox (bs : list Z) (n : Network) : Network :=
  mkNetwork (ident n) (chanceToWork n) (net_arg n) (sendBusy n) (inHdr n) bs.
Definition mod_net (f : Network -> Network) : M (nsys W) unit := mmodify (fun s => set_net (f (the_net s)) s).

Definition net_Random : M (nsys W) Z := fun s =>
  let d := dev s in
  Ok (rand (rand_used d), set_dev (mkNetSys (net d) (arrived d) (sent d) (S (rand_used d)) (net_world d)) s).

(** ReadFromSocket(sock, buffer, MaxWireSize): recvfrom cuts a longer datagram. *)
Definition ReadFromSocket : M (nsys W) (list Z) :=
  let! s := mget in
  match arrived (dev s) with
  | [] => mfail WouldBlock
  | d :: rest =>
      mmodify (set_arrived rest) >>>
      let bs := take (Z.to_nat MaxWireSize) d in
      ASSERT (Z.of_nat (length bs) =? MaxWireSize) >>> mreturn bs
  end.

Definition SendToSocket (buffer : list Z) (toName : Z) : M (nsys W) unit :=
  ASSERT (reachable toName) >>>
  mmodify (fun s => set_sent (sent (dev s) ++ [(toName, buffer)]) s).

Definition PollSocket : M (nsys W) bool :=
  let! s := mget in mreturn (match arrived (dev s) with [] => false | _ => true end).

Definition chance (reliability : double) : double :=
  if SFltb reliability (double_of 0) then double_of 0
  else if SFltb (double_of 1) reliability then double_of 1
  else reliability.

(** new Network(addr, reliability, ...); [box] and [h] are what inbox and the
    first two members of inHdr hold before anything is assigned to them. *)
Definition Network_Network (addr : Z) (reliability : double) (callArg : Z) (h : PacketHeader) (box : list Z) : M (nsys W) unit :=
  mmodify (set_net (mkNetwork addr (chance reliability) callArg false (mkPacketHeader (to h) (from h) 0) box)) >>>
  Schedule NetworkReadPoll 0 NetworkTime NetworkRecvInt.

Definition CheckPktAvail : M (nsys W) unit :=
  Schedule NetworkReadPoll 0 NetworkTime NetworkRecvInt >>>
  let! n := get_net in
  if negb (pkt_length (inHdr n) =? 0) then mreturn tt
  else
    let! p := PollSocket in
    if negb p then mreturn tt
    else
      let! buffer := ReadFromSocket in
      let h := header_of buffer in
      mod_net (n_inHdr h) >>>
      ASSERT ((to h =? ident n) && (pkt_length h <=? MaxPacketSize)) >>>
      let! bs := mlift (load buffer PacketHeaderSize (pkt_length h)) in
      let! box := mlift (store (inbox n) 0 bs) in
      mod_net (n_inbox box) >>>
      mmodify (fun s => set_stats (incr_numPacketsRecvd (stats s)) s) >>>
      net_readHandler (net_arg n).

Definition SendDone : M (nsys W) unit :=
  mod_net (n_sendBusy false) >>>
  mmodify (fun s => set_stats (incr_numPacketsSent (stats s)) s) >>>
  let! n := get_net in net_writeHandler (net_arg n).

(** [Random() % 100 >= chanceToWork * 100] *)
Definition lost (r : Z) (c : double) : bool :=
  SFleb (double_mul c (double_of 100)) (double_of (Z.rem r 100)).

(** [fresh] is what the 64 bytes of the new buffer hold. *)
Definition Network_Send (fresh : list Z) (hdr : PacketHeader) (data : list Z) : M (nsys W) unit :=
  let! n := get_net in
  ASSERT (negb (sendBusy n) && (0 <? pkt_length hdr) && (pkt_length hdr <=? MaxPacketSize) && (from hdr =? ident n)) >>>
  Schedule NetworkSendDone 0 NetworkTime NetworkSendInt >>>
  let! r := net_Random in
  if lost r (chanceToWork n) then mreturn tt
  else
    let! buffer := mlift (store fresh 0 (header_bytes hdr)) in
    let! bs := mlift (load data 0 (pkt_length hdr)) in
    let! buffer := mlift (store buffer PacketHeaderSize bs) in
    SendToSocket buffer (to hdr).

(** The header and the bytes copied to data. *)
Definition Network_Receive : M (nsys W) (PacketHeader * list Z) :=
  let! n := get_net in
  let hdr := inHdr n in
  mod_net (n_inHdr (mkPacketHeader (to hdr) (from hdr) 0)) >>>
  if negb (pkt_length hdr =? 0) then
    let! bs := mlift (load (inbox n) 0 (pkt_length hdr)) in mreturn (hdr, bs)
  else mreturn (hdr, []).

Definition network_hardware (yield : M (nsys W) unit) : Hardware (NetSys W) network_handler := {|
  call_handler h arg := match h with NetworkReadPoll => CheckPktAvail | NetworkSendDone => SendDone end;
  machine_DelayedLoad _ _ := mreturn tt;
  thread_Yield := yield;
  machine_counters := mreturn (0, 0)
|}.
End network.

Class NetworkClientLaws (W : Type) `{!NetworkClient W} := {
  net_ok : W -> Prop;
  net_read_law : forall a (s : nsys W), level (interrupt s) = IntOff -> net_ok (net_world (dev s)) ->
    exists w, net_readHandler a s = Ok (tt, set_net_world w s) /\ net_ok w;
  net_write_law : forall a (s : nsys W), level (interrupt s) = IntOff -> net_ok (net_world (dev s)) ->
    exists w, net_writeHandler a s = Ok (tt, set_net_world w s) /\ net_ok w
}.

(** * Lemmas *)

(** Headers with the values their C++ types allow. *)
Record header_ok (h : PacketHeader) : Prop := {
  ho_to     : is_i32 (to h);
  ho_from   : is_i32 (from h);
  ho_length : 0 <= pkt_length h < 2 ^ 32
}.

Lemma length_header_bytes h : length (header_bytes h) = 12%nat.
Proof. unfold header_bytes. rewrite !length_app, !length_le_split. reflexivity. Qed.

Lemma word_roundtrip z : le_join (le_split 4 z) = u32 z.
Proof. rewrite le_join_split. reflexivity. Qed.

Lemma slice_middle {A} (l1 l2 l3 : list A) p n :
  Z.of_nat (length l1) = p -> Z.of_nat (length l2) = n -> slice (l1 ++ l2 ++ l3) p n = l2.
Proof. intros <- <-. unfold slice. rewrite !Nat2Z.id, drop_app_length, take_app_length. reflexivity. Qed.

(** What is laid out is read back, whatever follows. *)
Lemma header_roundtrip h rest : header_ok h -> header_of (header_bytes h ++ rest) = h.
Proof.
  intros [H1 H2 H3]. destruct h as [t f n]. cbn [to from pkt_length] in *. unfold header_of, header_bytes. cbn [to from pkt_length].
  assert (E1 : slice ((le_split 4 t ++ le_split 4 f ++ le_split 4 n) ++ rest) 0 4 = le_split 4 t).
  { rewrite <- !app_assoc. now apply (slice_middle [] (le_split 4 t)); rewrite ?length_le_split. }
  assert (E2 : slice ((le_split 4 t ++ le_split 4 f ++ le_split 4 n) ++ rest) 4 4 = le_split 4 f).
  { rewrite <- !app_assoc. now apply (slice_middle (le_split 4 t)); rewrite ?length_le_split. }
  assert (E3 : slice ((le_split 4 t ++ le_split 4 f ++ le_split 4 n) ++ rest) 8 4 = le_split 4 n).
  { rewrite <- !app_assoc, (app_assoc (le_split 4 t)). now apply slice_middle; rewrite ?length_app, ?length_le_split. }
  rewrite E1, E2, E3.
  rewrite !word_roundtrip, !i32_u32, !i32_id, u32_id by assumption. reflexivity.
Qed.

(** Whether a packet is lost depends on the random number modulo 100 only. *)
Lemma lost_finite (P : bool -> Prop) c :
  Forall (fun r => P (SFleb (double_mul c (double_of 100)) (double_of r))) (seqZ 0 100) ->
  forall r, 0 <= r -> P (lost r c).
Proof.
  intros HF r Hr. unfold lost. eapply Forall_forall in HF; [exact HF|]. apply elem_of_seqZ.
  rewrite Z.rem_mod_nonneg by lia. pose proof (Z.mod_pos_bound r 100). lia.
Qed.

Lemma lost_never r : 0 <= r -> lost r (double_of 1) = false.
Proof. apply (lost_finite (fun b => b = false)). repeat constructor. Qed.
Lemma lost_always r : 0 <= r -> lost r (double_of 0) = true.
Proof. apply (lost_finite (fun b => b = true)). repeat constructor. Qed.

Section network_lemmas.
Context {W : Type} `{!HostRandom, !HostNetwork, !NetworkClient W}.
Implicit Types s : nsys W.

(** The datagram of a packet. *)
Definition datagram (fresh : list Z) (hdr : PacketHeader) (data : list Z) : list Z :=
  header_bytes hdr ++ take (Z.to_nat (pkt_length hdr)) data ++ drop (12 + Z.to_nat (pkt_length hdr)) fresh.

(** A packet that the ASSERT lets through. *)
Record sendable (hdr : PacketHeader) (data : list Z) s : Prop := {
  sn_header : header_ok hdr;
  sn_length : 0 < pkt_length hdr <= MaxPacketSize;
  sn_data   : pkt_length hdr <= Z.of_nat (length data);
  sn_from   : from hdr = ident (the_net s);
  sn_idle   : sendBusy (the_net s) = false
}.

(** The random number is drawn and the completion interrupt is under way. *)
Definition scheduled s : nsys W :=
  let when := i32 (now s + NetworkTime) in
  let d := dev s in
  set_dev (mkNetSys (net d) (arrived d) (sent d) (S (rand_used d)) (net_world d))
    (set_pending (q_sorted_insert (pending (interrupt s)) (mkPendingInterrupt NetworkSendDone 0 when NetworkSendInt) when) s).

Lemma length_datagram fresh hdr data :
  0 <= pkt_length hdr <= MaxPacketSize -> pkt_length hdr <= Z.of_nat (length data) ->
  Z.of_nat (length fresh) = MaxWireSize -> Z.of_nat (length (datagram fresh hdr data)) = MaxWireSize.
Proof.
  unfold datagram, MaxPacketSize, MaxWireSize, PacketHeaderSize. intros Hl Hd Hf.
  rewrite !length_app, length_header_bytes, length_take, length_drop. lia.
Qed.

Lemma Network_Send_run fresh hdr data s :
  sendable hdr data s -> Z.of_nat (length fresh) = MaxWireSize -> reachable (to hdr) = true ->
  Network_Send fresh hdr data s =
    Ok (tt, if lost (rand (rand_used (dev s))) (chanceToWork (the_net s)) then scheduled s
            else set_sent (sent (dev s) ++ [(to hdr, datagram fresh hdr data)]) (scheduled s)).
Proof.
  intros [Hh Hl Hd Hfr Hb] Hf Hr. unfold Network_Send. mstep_to (the_net s) s.
  rewrite Hb, Hfr, Z.eqb_refl, (proj2 (Z.ltb_lt _ _) (proj1 Hl)), (proj2 (Z.leb_le _ _) (proj2 Hl)). mstep_to tt s.
  unfold Schedule. unfold mthen at 1. mstep_to s s. cbn [mmodify insert_pending].
  rewrite (mthen_step _ _ _ tt s) by reflexivity. cbn beta. unfold insert_pending, mmodify.
  mstep_to (rand (rand_used (dev s))) (scheduled s).
  destruct (lost _ _); [reflexivity|]. unfold MaxPacketSize, MaxWireSize, PacketHeaderSize in *.
  rewrite store_ok by (rewrite ?length_header_bytes; lia).
  mstep_to (splice fresh 0 (header_bytes hdr)) (scheduled s). rewrite load_ok by lia.
  mstep_to (slice data 0 (pkt_length hdr)) (scheduled s).
  assert (Hl1 : length (splice fresh 0 (header_bytes hdr)) = length fresh)
    by (apply length_splice; rewrite ?length_header_bytes; lia).
  assert (Hl2 : Z.of_nat (length (slice data 0 (pkt_length hdr))) = pkt_length hdr) by (apply length_slice; lia).
  rewrite store_ok by lia. unfold SendToSocket. rewrite Hr.
  assert (Ed : splice (splice fresh 0 (header_bytes hdr)) 12 (slice data 0 (pkt_length hdr)) = datagram fresh hdr data).
  { unfold datagram, splice, slice. change (Z.to_nat 0) with O. change (Z.to_nat 12) with 12%nat.
    rewrite Nat.add_0_l, take_0, drop_0, app_nil_l, length_header_bytes.
    rewrite (take_app_length' (header_bytes hdr)), (drop_app_ge (header_bytes hdr)) by (rewrite length_header_bytes; lia).
    rewrite length_header_bytes, drop_drop, length_take. do 3 f_equal. lia. }
  rewrite Ed. reflexivity.
Qed.

(** The packet in a datagram. *)
Lemma datagram_header fresh hdr data : header_ok hdr -> header_of (datagram fresh hdr data) = hdr.
Proof. intros Hh. now apply header_roundtrip. Qed.

Lemma datagram_data fresh hdr data :
  0 <= pkt_length hdr -> pkt_length hdr <= Z.of_nat (length data) ->
  slice (datagram fresh hdr data) 12 (pkt_length hdr) = take (Z.to_nat (pkt_length hdr)) data.
Proof.
  intros Hl Hd. apply slice_middle; [now rewrite length_header_bytes|]. rewrite length_take. lia.
Qed.
End network_lemmas.

Section receive_lemmas.
Context {W : Type} `{!HostRandom, !HostNetwork, !NetworkClient W} `{!NetworkClientLaws W}.
Implicit Types s : nsys W.

(** The machine can take a packet. *)
Record receptive s : Prop := {
  rc_level : level (interrupt s) = IntOff;
  rc_world : net_ok (net_world (dev s));
  rc_empty : pkt_length (inHdr (the_net s)) = 0;
  rc_inbox : Z.of_nat (length (inbox (the_net s))) = MaxPacketSize
}.

Definition net_polled s : nsys W :=
  let when := i32 (now s + NetworkTime) in
  set_pending (q_sorted_insert (pending (interrupt s)) (mkPendingInterrupt NetworkReadPoll 0 when NetworkRecvInt) when) s.

(** The state in which the client is told about the packet. *)
Definition buffered (hdr : PacketHeader) (bs : list Z) (rest : list (list Z)) s : nsys W :=
  set_stats (incr_numPacketsRecvd (stats s))
    (set_net (n_inbox (splice (inbox (the_net s)) 0 bs) (n_inHdr hdr (the_net s))) (set_arrived rest (net_polled s))).

Lemma CheckPktAvail_run s fresh hdr data rest :
  receptive s -> arrived (dev s) = datagram fresh hdr data :: rest ->
  header_ok hdr -> pkt_length hdr <= MaxPacketSize -> pkt_length hdr <= Z.of_nat (length data) ->
  Z.of_nat (length fresh) = MaxWireSize -> to hdr = ident (the_net s) ->
  CheckPktAvail s = net_readHandler (net_arg (the_net s)) (buffered hdr (take (Z.to_nat (pkt_length hdr)) data) rest s).
Proof.
  intros [Hl Hw He Hi] Ea Hh Hl1 Hd Hf Ht. pose proof (ho_length _ Hh) as Hl0.
  pose proof (length_datagram fresh hdr data ltac:(lia) Hd Hf) as HL.
  unfold CheckPktAvail. mstep_to tt (net_polled s). mstep_to (the_net s) (net_polled s). rewrite He. cbn [Z.eqb negb].
  assert (EP : PollSocket (net_polled s) = Ok (true, net_polled s)).
  { unfold PollSocket. mstep_to (net_polled s) (net_polled s). cbn [net_polled dev set_pending set_interrupt]. now rewrite Ea. }
  mstep_by EP. cbn [negb]. set (s1 := set_arrived rest (net_polled s)).
  assert (ER : ReadFromSocket (net_polled s) = Ok (datagram fresh hdr data, s1)).
  { unfold ReadFromSocket. mstep_to (net_polled s) (net_polled s). cbn [net_polled dev set_pending set_interrupt]. rewrite Ea.
    mstep_to tt s1. rewrite take_ge by (unfold MaxWireSize in *; lia). rewrite HL, Z.eqb_refl. reflexivity. }
  mstep_by ER. rewrite datagram_header by exact Hh. set (s2 := set_net (n_inHdr hdr (the_net s)) s1). mstep_to tt s2.
  rewrite Ht, Z.eqb_refl, (proj2 (Z.leb_le _ _) Hl1). mstep_to tt s2.
  unfold PacketHeaderSize. unfold MaxPacketSize, MaxWireSize, PacketHeaderSize in *. rewrite load_ok, datagram_data by lia.
  mstep_to (take (Z.to_nat (pkt_length hdr)) data) s2. rewrite store_ok by (rewrite ?length_take; lia).
  mstep_to (splice (inbox (the_net s)) 0 (take (Z.to_nat (pkt_length hdr)) data)) s2. reflexivity.
Qed.

Lemma Network_Receive_run s hdr bs rest w :
  Z.of_nat (length bs) = pkt_length hdr -> 0 < pkt_length hdr <= Z.of_nat (length (inbox (the_net s))) ->
  let s1 := set_net_world w (buffered hdr bs rest s) in
  Network_Receive s1 =
    Ok ((hdr, bs), set_net (n_inHdr (mkPacketHeader (to hdr) (from hdr) 0) (the_net s1)) s1).
Proof.
  intros Hb Hl s1. unfold Network_Receive. mstep_to (the_net s1) s1.
  set (s2 := set_net _ s1). mstep_to tt s2. change (inHdr (the_net s1)) with hdr.
  rewrite (proj2 (Z.eqb_neq (pkt_length hdr) 0)) by lia. cbn [negb].
  change (inbox (the_net s1)) with (splice (inbox (the_net s)) 0 bs).
  rewrite load_ok by (rewrite ?length_splice; lia). rewrite <- Hb, slice_splice_eq by lia. reflexivity.
Qed.
End receive_lemmas.

(** * Properties *)

(** A packet arrives as it was sent.  A packet that the checks of Send admit
    and the network does not lose goes out as one datagram of 64 bytes to its
    destination, with the completion interrupt scheduled; a machine of that
    address polls it, tells its client, and Receive returns the same header
    and exactly the bytes of the packet, whatever the rest of the buffer held. *)
Theorem Network_delivers {W : Type} `{!HostRandom, !HostNetwork, !NetworkClient W} `{!NetworkClientLaws W}
    (s : nsys W) fresh hdr data :
  sendable hdr data s -> Z.of_nat (length fresh) = MaxWireSize -> reachable (to hdr) = true ->
  lost (rand (rand_used (dev s))) (chanceToWork (the_net s)) = false ->
  exists d s', Network_Send fresh hdr data s = Ok (tt, s') /\
    sent (dev s') = sent (dev s) ++ [(to hdr, d)] /\ Z.of_nat (length d) = MaxWireSize /\
    (let when := i32 (now s + NetworkTime) in
     (when, mkPendingInterrupt NetworkSendDone 0 when NetworkSendInt) ∈ pending (interrupt s')) /\
    forall (r : nsys W) rest, receptive r -> arrived (dev r) = d :: rest -> ident (the_net r) = to hdr ->
    exists r1 r2, CheckPktAvail r = Ok (tt, r1) /\
      Network_Receive r1 = Ok ((hdr, take (Z.to_nat (pkt_length hdr)) data), r2) /\
      arrived (dev r2) = rest /\ receptive r2.
Proof.
  intros Hs Hf Hr Hlost. pose proof Hs as [Hh Hl Hd Hfr Hb].
  exists (datagram fresh hdr data), (set_sent (sent (dev s) ++ [(to hdr, datagram fresh hdr data)]) (scheduled s)).
  split; [rewrite (Network_Send_run fresh hdr data s Hs Hf Hr); now rewrite Hlost|].
  split; [reflexivity|]. split; [apply length_datagram; auto; lia|]. split.
  { cbn. rewrite q_sorted_insert_perm. left. }
  intros r rest Hrc Ea Ht. set (bs := take (Z.to_nat (pkt_length hdr)) data).
  pose proof (CheckPktAvail_run r fresh hdr data rest Hrc Ea Hh ltac:(lia) Hd Hf (eq_sym Ht)) as EC. fold bs in EC.
  pose proof Hrc as [R1 R2 R3 R4].
  destruct (net_read_law (net_arg (the_net r)) (buffered hdr bs rest r) R1 R2) as (w & Ew & Hw).
  assert (Hbs : Z.of_nat (length bs) = pkt_length hdr) by (unfold bs; rewrite length_take; lia).
  pose proof (Network_Receive_run r hdr bs rest w Hbs ltac:(lia)) as ER. cbv zeta in ER.
  eexists _, _. split; [rewrite EC; exact Ew|]. split; [exact ER|]. split; [reflexivity|].
  split; cbn; auto. rewrite length_splice; lia.
Qed.

(** The reliability.  A network of reliability 1 or more loses no packet, one
    of negative reliability loses them all; lost or not, Send returns and the
    completion interrupt is scheduled; and sendBusy stays as it was, so nothing
    stops a second Send before the completion of the first. *)
Theorem Network_reliability {W : Type} `{!HostRandom, !HostNetwork, !NetworkClient W}
    (s : nsys W) fresh hdr data reliability :
  sendable hdr data s -> Z.of_nat (length fresh) = MaxWireSize -> reachable (to hdr) = true ->
  chanceToWork (the_net s) = chance reliability ->
  exists s', Network_Send fresh hdr data s = Ok (tt, s') /\
    sendBusy (the_net s') = false /\
    (let when := i32 (now s + NetworkTime) in
     (when, mkPendingInterrupt NetworkSendDone 0 when NetworkSendInt) ∈ pending (interrupt s')) /\
    (SFltb (double_of 1) reliability = true \/ reliability = double_of 1 ->
     sent (dev s') = sent (dev s) ++ [(to hdr, datagram fresh hdr data)]) /\
    (SFltb reliability (double_of 0) = true -> sent (dev s') = sent (dev s)).
Proof.
  intros Hs Hf Hr Hc. rewrite (Network_Send_run fresh hdr data s Hs Hf Hr), Hc. eexists. split; [reflexivity|].
  pose proof (proj1 (rand_range (rand_used (dev s)))) as Hr0.
  split; [destruct (lost _ _); apply Hs|]. split.
  { destruct (lost _ _); cbn; rewrite q_sorted_insert_perm; left. }
  split.
  - intros H1. assert (Ec : chance reliability = double_of 1).
    { unfold chance. destruct H1 as [H1| ->]; [|reflexivity]. rewrite H1.
      destruct (SFltb reliability (double_of 0)) eqn:E0; [exfalso|reflexivity].
      destruct reliability as [[]|[]| |[] m e]; try discriminate. }
    now rewrite Ec, lost_never.
  - intros Hneg. unfold chance. now rewrite Hneg, lost_always.
Qed.

(** * A concrete run: machine 3 sends three bytes to machine 7 *)
#[local] Existing Instance sample_random.
#[local] Instance sample_host : HostNetwork := { reachable _ := true }.
#[local] Instance sample_net_client : NetworkClient Z := {
  net_readHandler _ := mmodify (fun s => set_net_world (net_world (dev s) + 1) s);
  net_writeHandler _ := mmodify (fun s => set_net_world (net_world (dev s) + 1) s)
}.
#[local] Instance sample_net_laws : NetworkClientLaws Z.
Proof. refine {| net_ok _ := True |}; intros a s _ _; eexists; split; reflexivity || exact I. Defined.

Definition sample_net (addr : Z) (waiting : list (list Z)) : nsys Z :=
  mkIsys Interrupt_Interrupt Statistics_Statistics
    (mkNetSys (mkNetwork addr (double_of 1) 0 false (mkPacketHeader 0 0 0) (replicate 52 0)) waiting [] 0 0).
Definition sample_hdr : PacketHeader := mkPacketHeader 7 3 3.

Lemma sample_sendable : sendable sample_hdr [10; 20; 30; 40] (sample_net 3 []).
Proof. split; try reflexivity; [split; cbn; unfold is_i32; lia|now vm_compute|now vm_compute]. Defined.

Lemma Network_delivers_witness :
  exists d s', Network_Send (replicate 64 99) sample_hdr [10; 20; 30; 40] (sample_net 3 []) = Ok (tt, s') /\
    sent (dev s') = [(7, d)] /\
    exists r1 r2, CheckPktAvail (sample_net 7 [d]) = Ok (tt, r1) /\
      Network_Receive r1 = Ok ((sample_hdr, [10; 20; 30]), r2).
Proof.
  destruct (Network_delivers (sample_net 3 []) (replicate 64 99) sample_hdr [10; 20; 30; 40])
    as (d & s' & E & Es & _ & _ & Hr); [apply sample_sendable|reflexivity|reflexivity|reflexivity|].
  exists d, s'. split; [exact E|]. split; [exact Es|].
  destruct (Hr (sample_net 7 [d]) []) as (r1 & r2 & E1 & E2 & _);
    [split; try reflexivity; exact I|reflexivity|reflexivity|].
  exists r1, r2. split; [exact E1|exact E2].
Defined.
