(* ===== verification/Post.v ===== *)
(** network/post.h and network/post.cc: mailboxes and the post office.

    The post office is the client of the network device of Network.v: its two
    interrupt handlers signal a semaphore each.  A mailbox is a SynchList of
    pointers to Mail objects, which live in [mails] by address.  The bytes that
    a new buffer happens to hold are parameters ([fresh_packet], [fresh_mail],
    [fresh_wire]).  PostalDelivery never returns; [deliver] is one round of
    its loop. *)
From Stdlib Require Import ZArith Lia String.
From stdpp Require Import base option list list_numbers gmap.
From S2P Require Import Prelude CList Stats Interrupt TimerDev Thread Synch Network.

Local Open Scope Z_scope.

Record MailHeader := mkMailHeader {
  mail_to     : Z;
  mail_from   : Z;
  mail_length : Z
}.
Definition MailHeaderSize : Z := 12.
Definition MaxMailSize : Z := MaxPacketSize - MailHeaderSize.

Definition mail_header_bytes (h : MailHeader) : list Z :=
  le_split 4 (mail_to h) ++ le_split 4 (mail_from h) ++ le_split 4 (mail_length h).
Definition mail_header_of (bs : list Z) : MailHeader :=
  mkMailHeader (i32 (le_join (slice bs 0 4))) (i32 (le_join (slice bs 4 4))) (le_join (slice bs 8 4)).

Record Mail := mkMail {
  m_pktHdr  : PacketHeader;
  m_mailHdr : MailHeader;
  m_data    : list Z
}.

Record PostOffice := mkPostOffice {
  netAddr          : Z;
  boxes            : list SynchList;
  numBoxes         : Z;
  messageAvailable : Semaphore;
  messageSent      : Semaphore;
  sendLock         : Lock
}.

(** The post office, the Mail objects and the kernel. *)
Record PostWorld := mkPostWorld {
  po        : PostOffice;
  mails     : gmap Z Mail;
  po_kernel : Kernel
}.

Abbreviation psys := (nsys PostWorld).

#[export] Instance post_kernel : HasKernel (NetSys PostWorld) := {
  kernel d := po_kernel (net_world d);
  set_kernel k d := mkNetSys (net d) (arrived d) (sent d) (rand_used d)
                      (mkPostWorld (po (net_world d)) (mails (net_world d)) k)
}.
#[export] Instance post_kernel_laws : HasKernelLaws (NetSys PostWorld).
Proof. split; [reflexivity..|now intros [? ? ? ? []]]. Qed.

(** * The members of the PostOffice object *)
Definition d_po (f : PostOffice -> PostOffice) (d : NetSys PostWorld) : NetSys PostWorld :=
  mkNetSys (net d) (arrived d) (sent d) (rand_used d)
    (mkPostWorld (f (po (net_world d))) (mails (net_world d)) (po_kernel (net_world d))).
Definition d_mails (f : gmap Z Mail -> gmap Z Mail) (d : NetSys PostWorld) : NetSys PostWorld :=
  mkNetSys (net d) (arrived d) (sent d) (rand_used d)
    (mkPostWorld (po (net_world d)) (f (mails (net_world d))) (po_kernel (net_world d))).

Definition po_boxes (b : list SynchList) (p : PostOffice) : PostOffice :=
  mkPostOffice (netAddr p) b (numBoxes p) (messageAvailable p) (messageSent p) (sendLock p).
Definition po_messageAvailable (x : Semaphore) (p : PostOffice) : PostOffice :=
  mkPostOffice (netAddr p) (boxes p) (numBoxes p) x (messageSent p) (sendLock p).
Definition po_messageSent (x : Semaphore) (p : PostOffice) : PostOffice :=
  mkPostOffice (netAddr p) (boxes p) (numBoxes p) (messageAvailable p) x (sendLock p).
Definition po_sendLock (x : Lock) (p : PostOffice) : PostOffice :=
  mkPostOffice (netAddr p) (boxes p) (numBoxes p) (messageAvailable p) (messageSent p) x.

Definition messageAvailable_ref : ref (NetSys PostWorld) Semaphore :=
  mkRef (fun d => Some (messageAvailable (po (net_world d)))) (fun x => d_po (po_messageAvailable x)).
Definition messageSent_ref : ref (NetSys PostWorld) Semaphore :=
  mkRef (fun d => Some (messageSent (po (net_world d)))) (fun x => d_po (po_messageSent x)).
Definition sendLock_ref : ref (NetSys PostWorld) Lock :=
  mkRef (fun d => Some (sendLock (po (net_world d)))) (fun x => d_po (po_sendLock x)).
Definition box_ref (i : Z) : ref (NetSys PostWorld) SynchList :=
  mkRef (fun d => (boxes (po (net_world d))).[i])
        (fun x => d_po (fun p => po_boxes (<[Z.to_nat i := x]> (boxes p)) p)).

#[export] Instance messageAvailable_laws : RefLaws messageAvailable_ref.
Proof. now split. Qed.
#[export] Instance messageSent_laws : RefLaws messageSent_ref.
Proof. now split. Qed.
#[export] Instance sendLock_laws : RefLaws sendLock_ref.
Proof. now split. Qed.
#[export] Instance box_laws i : RefLaws (box_ref i).
Proof.
  split; try reflexivity.
  - intros x d [y Ey]. cbn in *. apply zlookup_Some in Ey as [Hi _]. now apply zlookup_insert_eq.
  - intros x y d. cbn. unfold d_po, po_boxes. cbn. now rewrite list_insert_insert_eq.
Qed.

(** * The interrupt handlers *)
Section handlers.
(** Inside a handler SetLevel never ticks. *)
#[local] Instance no_hardware : Hardware (NetSys PostWorld) network_handler := {
  call_handler _ _ := mfail BadAccess;
  machine_DelayedLoad _ _ := mfail BadAccess;
  thread_Yield := mfail BadAccess;
  machine_counters := mfail BadAccess
}.
Definition IncomingPacket : M psys unit := Semaphore_V messageAvailable_ref.
Definition PacketSent : M psys unit := Semaphore_V messageSent_ref.
End handlers.
Definition ReadAvail (arg : Z) : M psys unit := IncomingPacket.
Definition post_WriteDone (arg : Z) : M psys unit := PacketSent.

#[export] Instance post_client : NetworkClient PostWorld := {
  net_readHandler := ReadAvail;
  net_writeHandler := post_WriteDone
}.

Section post.
Context `{!HostRandom, !HostNetwork}.
Context `{!Hardware (NetSys PostWorld) network_handler, !ContextSwitch (NetSys PostWorld) network_handler}.
Variable fuel : nat.
Variables fresh_packet fresh_mail fresh_wire : list Z.

Definition get_po : M psys PostOffice := let! s := mget in mreturn (po (net_world (dev s))).

(** new Mail(...), at the address [p]. *)
Definition Mail_Mail (p : Z) (pktH : PacketHeader) (mailH : MailHeader) (msgData : list Z) : M psys unit :=
  ASSERT (mail_length mailH <=? MaxMailSize) >>>
  let! bs := mlift (load msgData 0 (mail_length mailH)) in
  let! data := mlift (store fresh_mail 0 bs) in
  mmodify (fun s => set_dev (d_mails <[p := mkMail pktH mailH data]> (dev s)) s).

(** The host's allocator: not the null pointer, and an address that no Mail has. *)
Definition new_address : M psys Z :=
  let! s := mget in mreturn (fresh ({[0]} ∪ dom (mails (net_world (dev s))) : gset Z)).

Definition MailBox_Put (box : Z) (pktHdr : PacketHeader) (mailHdr : MailHeader) (data : list Z) : M psys unit :=
  let! mail := new_address in
  Mail_Mail mail pktHdr mailHdr data >>>
  SynchList_Append fuel (box_ref box) mail.

(** The headers and the bytes copied to data. *)
Definition MailBox_Get (box : Z) : M psys (PacketHeader * MailHeader * list Z) :=
  let! mail := SynchList_Remove fuel (box_ref box) in
  let! s := mget in
  let! m := mlift (mails (net_world (dev s)) !! mail) in
  let! data := mlift (load (m_data m) 0 (mail_length (m_mailHdr m))) in
  mmodify (fun s => set_dev (d_mails (delete mail) (dev s)) s) >>>
  mreturn (m_pktHdr m, m_mailHdr m, data).

(** new PostOffice(addr, reliability, nBoxes); [worker] is the address of the
    postal worker's Thread object and [helper] the code of PostalHelper. *)
Definition PostOffice_PostOffice (addr : Z) (reliability : double) (nBoxes worker helper : Z)
    (h : PacketHeader) (box : list Z) : M psys unit :=
  mmodify (fun s => set_dev (d_po (fun _ =>
    mkPostOffice addr (replicate (Z.to_nat nBoxes) SynchList_SynchList) nBoxes
      (Semaphore_Semaphore 0) (Semaphore_Semaphore 0) Lock_Lock) (dev s)) s) >>>
  Network_Network addr reliability 0 h box >>>
  Thread_Thread worker "postal worker" 1000 >>>
  Fork worker helper (Int 0).

(** One round of PostalDelivery; [buffer] is the buffer of the routine. *)
Definition deliver (buffer : list Z) : M psys (list Z) :=
  Semaphore_P fuel messageAvailable_ref >>>
  let! r := Network_Receive in
  let pktHdr := r.1 in
  let! buffer := mlift (store buffer 0 r.2) in
  let mailHdr := mail_header_of buffer in
  let! p := get_po in
  ASSERT ((0 <=? mail_to mailHdr) && (mail_to mailHdr <? numBoxes p)) >>>
  ASSERT (mail_length mailHdr <=? MaxMailSize) >>>
  MailBox_Put (mail_to mailHdr) pktHdr mailHdr (drop (Z.to_nat MailHeaderSize) buffer) >>>
  mreturn buffer.

Fixpoint PostalDelivery (rounds : nat) (buffer : list Z) : M psys unit :=
  match rounds with
  | O => mfail OutOfFuel
  | S n => let! buffer := deliver buffer in PostalDelivery n buffer
  end.

(** The packet that PostOffice::Send hands to the network. *)
Definition mail_packet (addr : Z) (pktHdr : PacketHeader) (mailHdr : MailHeader) : PacketHeader :=
  mkPacketHeader (to pktHdr) addr (u32 (mail_length mailHdr + MailHeaderSize)).

Definition PostOffice_Send (pktHdr : PacketHeader) (mailHdr : MailHeader) (data : list Z) : M psys unit :=
  let! p := get_po in
  ASSERT (mail_length mailHdr <=? MaxMailSize) >>>
  ASSERT ((0 <=? mail_to mailHdr) && (mail_to mailHdr <? numBoxes p)) >>>
  let pktHdr := mail_packet (netAddr p) pktHdr mailHdr in
  let! buffer := mlift (store fresh_packet 0 (mail_header_bytes mailHdr)) in
  let! bs := mlift (load data 0 (mail_length mailHdr)) in
  let! buffer := mlift (store buffer MailHeaderSize bs) in
  Lock_Acquire fuel sendLock_ref >>>
  Network_Send fresh_wire pktHdr buffer >>>
  Semaphore_P fuel messageSent_ref >>>
  Lock_Release sendLock_ref.

Definition PostOffice_Receive (box : Z) : M psys (PacketHeader * MailHeader * list Z) :=
  let! p := get_po in
  ASSERT ((0 <=? box) && (box <? numBoxes p)) >>>
  let! r := MailBox_Get box in
  ASSERT (mail_length r.1.2 <=? MaxMailSize) >>>
  mreturn r.
End post.

(** * The post office as a client of the network *)
Definition post_ok (w : PostWorld) : Prop :=
  waiters_exist (queue (messageAvailable (po w))) (po_kernel w) /\
  waiters_exist (queue (messageSent (po w))) (po_kernel w).

Section client_laws.
#[local] Existing Instance no_hardware.

Lemma IncomingPacket_run s :
  level (interrupt s) = IntOff -> post_ok (net_world (dev s)) ->
  let w := net_world (dev s) in
  let x := messageAvailable (po w) in
  IncomingPacket s =
    Ok (tt, set_net_world (mkPostWorld (po_messageAvailable (mkSemaphore (value x + 1) (tail (queue x))) (po w))
                             (mails w) (woken (queue x) (po_kernel w))) s).
Proof.
  intros Hl [Ha Hb] w x. unfold IncomingPacket. rewrite (Semaphore_V_run messageAvailable_ref s x); [|reflexivity|exact Ha].
  rewrite Hl. destruct s as [[lv pe ih yr st] u d]. cbn in Hl. subst lv. reflexivity.
Qed.

Lemma PacketSent_run s :
  level (interrupt s) = IntOff -> post_ok (net_world (dev s)) ->
  let w := net_world (dev s) in
  let x := messageSent (po w) in
  PacketSent s =
    Ok (tt, set_net_world (mkPostWorld (po_messageSent (mkSemaphore (value x + 1) (tail (queue x))) (po w))
                             (mails w) (woken (queue x) (po_kernel w))) s).
Proof.
  intros Hl [Ha Hb] w x. unfold PacketSent. rewrite (Semaphore_V_run messageSent_ref s x); [|reflexivity|exact Hb].
  rewrite Hl. destruct s as [[lv pe ih yr st] u d]. cbn in Hl. subst lv. reflexivity.
Qed.
End client_laws.

#[export] Instance post_laws : NetworkClientLaws PostWorld.
Proof.
  refine {| net_ok := post_ok |}; intros a s Hl [Ha Hb].
  - eexists. split; [apply IncomingPacket_run; [exact Hl|now split]|].
    split; [apply waiters_tail|]; now apply waiters_woken.
  - eexists. split; [apply PacketSent_run; [exact Hl|now split]|].
    split; [|apply waiters_tail]; now apply waiters_woken.
Defined.

(** * Sending *)
Record mail_ok (h : MailHeader) : Prop := {
  mo_to     : is_i32 (mail_to h);
  mo_from   : is_i32 (mail_from h);
  mo_length : 0 <= mail_length h <= MaxMailSize
}.

Lemma mail_header_bytes_eq h : mail_header_bytes h = header_bytes (mkPacketHeader (mail_to h) (mail_from h) (mail_length h)).
Proof. reflexivity. Qed.

Lemma mail_header_roundtrip h rest : mail_ok h -> mail_header_of (mail_header_bytes h ++ rest) = h.
Proof.
  intros [H1 H2 H3]. unfold MaxMailSize, MaxPacketSize, MaxWireSize, PacketHeaderSize, MailHeaderSize in H3.
  pose proof (header_roundtrip (mkPacketHeader (mail_to h) (mail_from h) (mail_length h)) rest) as E.
  rewrite mail_header_bytes_eq. unfold header_of in E. unfold mail_header_of.
  specialize (E ltac:(split; cbn; auto; lia)). pose proof (f_equal to E) as E1. pose proof (f_equal from E) as E2.
  pose proof (f_equal pkt_length E) as E3. cbn [to from pkt_length] in E1, E2, E3. rewrite E1, E2, E3. now destruct h.
Qed.

(** The payload of the packet: the mail header, the message, and what was in
    the buffer. *)
Definition mail_bytes (fresh_packet : list Z) (mailHdr : MailHeader) (data : list Z) : list Z :=
  mail_header_bytes mailHdr ++ take (Z.to_nat (mail_length mailHdr)) data ++
  drop (12 + Z.to_nat (mail_length mailHdr)) fresh_packet.

Lemma length_mail_header_bytes h : length (mail_header_bytes h) = 12%nat.
Proof. exact (length_header_bytes (mkPacketHeader (mail_to h) (mail_from h) (mail_length h))). Qed.

Lemma fill_buffer fresh_packet mailHdr data :
  0 <= mail_length mailHdr <= MaxMailSize -> mail_length mailHdr <= Z.of_nat (length data) ->
  Z.of_nat (length fresh_packet) = MaxPacketSize ->
  exists b1, store fresh_packet 0 (mail_header_bytes mailHdr) = Some b1 /\
    load data 0 (mail_length mailHdr) = Some (take (Z.to_nat (mail_length mailHdr)) data) /\
    store b1 MailHeaderSize (take (Z.to_nat (mail_length mailHdr)) data) = Some (mail_bytes fresh_packet mailHdr data).
Proof.
  unfold MaxMailSize, MaxPacketSize, MaxWireSize, PacketHeaderSize, MailHeaderSize. intros Hl Hd Hf.
  exists (splice fresh_packet 0 (mail_header_bytes mailHdr)).
  assert (Hs : length (splice fresh_packet 0 (mail_header_bytes mailHdr)) = length fresh_packet)
    by (apply length_splice; rewrite ?length_mail_header_bytes; lia).
  split; [apply store_ok; rewrite ?length_mail_header_bytes; lia|]. split; [rewrite load_ok by lia; reflexivity|].
  rewrite store_ok by (rewrite ?length_take; lia). f_equal. unfold mail_bytes, splice.
  change (Z.to_nat 0) with O. change (Z.to_nat 12) with 12%nat.
  rewrite Nat.add_0_l, take_0, app_nil_l, length_mail_header_bytes.
  rewrite (take_app_length' (mail_header_bytes mailHdr)), (drop_app_ge (mail_header_bytes mailHdr))
    by (rewrite length_mail_header_bytes; lia).
  rewrite length_mail_header_bytes, drop_drop, length_take. do 3 f_equal. lia.
Qed.

(** The two interrupts of the network device. *)
Definition poll_at (t : Z) : Z * PendingInterrupt network_handler :=
  (t, mkPendingInterrupt NetworkReadPoll 0 t NetworkRecvInt).
Definition done_at (t : Z) : Z * PendingInterrupt network_handler :=
  (t, mkPendingInterrupt NetworkSendDone 0 t NetworkSendInt).

Section sending.
Context `{!HostRandom, !HostNetwork}.
Variable yield : M psys unit.
#[local] Instance hw : Hardware (NetSys PostWorld) network_handler := network_hardware yield.
Context `{!ContextSwitch (NetSys PostWorld) network_handler, !ContextSwitchLaws (NetSys PostWorld) network_handler}.
Implicit Types s : psys.

Lemma no_load : forall s, machine_DelayedLoad 0 0 s = Ok (tt, s).
Proof. reflexivity. Qed.

Lemma poll_nothing s : arrived (dev s) = [] -> CheckPktAvail s = Ok (tt, net_polled s).
Proof.
  intros Ea. unfold CheckPktAvail. mstep_to tt (net_polled s). mstep_to (the_net s) (net_polled s).
  destruct (negb _); [reflexivity|].
  assert (EP : PollSocket (net_polled s) = Ok (false, net_polled s)).
  { unfold PollSocket. mstep_to (net_polled s) (net_polled s). cbn [net_polled dev set_pending set_interrupt]. now rewrite Ea. }
  now mstep_by EP.
Qed.

(** Nothing is going on in the machine but the polling, at [t0] next, and no
    packet waits. *)
Record calm s (t0 : Z) : Prop := {
  cm_pending : pending (interrupt s) = [poll_at t0];
  cm_time    : 0 <= now s < t0;
  cm_next    : t0 <= now s + NetworkTime;
  cm_handler : inHandler (interrupt s) = false;
  cm_yield   : yieldOnReturn (interrupt s) = false;
  cm_status  : int_status (interrupt s) = SystemMode;
  cm_arrived : arrived (dev s) = []
}.

(** A calm system between [lo] and [hi], with [n] ticks to go. *)
Definition calm_for (lo hi : Z) (n : nat) s : Prop :=
  exists t0, calm s t0 /\ lo <= now s /\ now s + Z.of_nat n * SystemTick <= hi.

(** Interrupts switched on again: a poll that is due by then finds nothing. *)
Lemma calm_tick s t0 :
  calm s t0 -> now s + SystemTick + NetworkTime < ClockLimit ->
  exists s' t1, OneTick (set_level IntOn s) = Ok (tt, s') /\ dev s' = dev s /\ level (interrupt s') = IntOn /\
    calm s' t1 /\ now s' = now s + SystemTick.
Proof.
  intros [C1 C2 C2' C3 C4 C5 C6] Hc. set (s0 := set_level IntOn s).
  assert (Ht : totalTicks (kernel_ticked s0) = now s + SystemTick).
  { cbn. unfold now, SystemTick, NetworkTime, ClockLimit in *. apply i32_id. unfold is_i32. lia. }
  destruct (Z_lt_le_dec (now s + SystemTick) t0) as [Hd|Hd].
  - exists (set_level IntOn (set_stats (kernel_ticked s0) s0)), t0.
    split; [apply OneTick_quiet; auto; unfold none_due; cbn [s0 interrupt set_level set_interrupt pending]; rewrite C1, Ht; exact Hd|].
    split_and!; auto. split; auto; change (now (set_level _ _)) with (totalTicks (kernel_ticked s0)); rewrite Ht; unfold SystemTick in *; lia.
  - set (s1 := mkIsys (mkInterrupt IntOff [] true (yieldOnReturn (interrupt s)) SystemMode) (kernel_ticked s0) (dev s) : psys).
    assert (Ep : pending (interrupt (net_polled s1)) = [poll_at (now s + SystemTick + NetworkTime)]).
    { unfold net_polled. change (now s1) with (totalTicks (kernel_ticked s0)). rewrite Ht.
      unfold SystemTick, NetworkTime, ClockLimit in *. now rewrite i32_id by (unfold is_i32; lia). }
    assert (Hn1 : now (net_polled s1) = now s + SystemTick) by exact Ht.
    eexists _, (now s + SystemTick + NetworkTime). split; [|split_and!].
    + rewrite (OneTick_due no_load s0 (net_polled s1) t0 (snd (poll_at t0))); auto.
      * unfold after_handlers. change (yieldOnReturn (interrupt (net_polled s1))) with (yieldOnReturn (interrupt s)). rewrite C4. reflexivity.
      * rewrite Ht. exact Hd.
      * exact (poll_nothing s1 C6).
      * rewrite Ep, Hn1. cbn. unfold NetworkTime. lia.
    + reflexivity.
    + reflexivity.
    + split; try exact Ep; try reflexivity; auto; change (now (mkIsys _ _ _)) with (now (net_polled s1)); rewrite Hn1;
        unfold SystemTick, NetworkTime in *; lia.
    + exact Ht.
Qed.

Lemma calm_ticks lo hi : hi + NetworkTime < ClockLimit -> Ticks (fun d => arrived d = []) (calm_for lo hi).
Proof.
  intros Hhi. split.
  - intros n l s Hl (t0 & Hc & Hlo & Hn). unfold SystemTick in Hn. destruct l.
    + exists s. rewrite (mthen_step _ _ _ IntOff s) by now apply SetLevel_off. split_and!; auto.
      exists t0. unfold SystemTick. split_and!; auto. lia.
    + destruct (calm_tick s t0 Hc) as (s' & t1 & E & D1 & L1 & C1 & N1); [unfold SystemTick in *; lia|].
      exists s'. split_and!; auto; [|exists t1; unfold SystemTick in *; rewrite N1; split_and!; auto; lia].
      rewrite (mthen_step _ _ _ IntOff s'); [reflexivity|]. rewrite SetLevel_cases, (cm_handler _ _ Hc), Hl. cbn.
      now rewrite (mthen_step _ _ _ tt s').
  - intros n d s (t0 & [] & Hlo & Hn) Hd. exists t0. split_and!; auto. now split.
  - intros n l s (t0 & [] & Hlo & Hn). exists t0. split_and!; auto. now split.
  - intros n s (t0 & [] & _). assumption.
  - intros k d Hd. exact Hd.
Qed.

(** The idle machine polls in vain while the packet is under way. *)
Lemma Idle_poll s t0 t1 :
  level (interrupt s) = IntOff -> pending (interrupt s) = [poll_at t0; done_at t1] -> arrived (dev s) = [] ->
  now s < t0 -> t0 < t1 < t0 + NetworkTime -> 0 <= t0 -> t1 < ClockLimit ->
  Idle s = Ok (tt, mkIsys (mkInterrupt IntOff [done_at t1; poll_at (t0 + NetworkTime)] false false SystemMode)
                     (idle_until t0 (stats s)) (dev s)).
Proof.
  unfold ClockLimit, NetworkTime. intros Hl Hp Ha Hn Ht Hz Hc.
  set (s1 := mkIsys (mkInterrupt IntOff [done_at t1] true (yieldOnReturn (interrupt s)) SystemMode) (idle_until t0 (stats s)) (dev s) : psys).
  assert (Ep : pending (interrupt (net_polled s1)) = [done_at t1; poll_at (t0 + 100)]).
  { cbn. unfold NetworkTime. rewrite i32_id by (cbn; unfold is_i32; lia).
    rewrite (proj2 (Z.ltb_ge _ _)) by (cbn; lia). reflexivity. }
  rewrite (Idle_first no_load s (net_polled s1) t0 _ [done_at t1] Hl Hp ltac:(discriminate) Hn).
  - now rewrite Ep.
  - exact (poll_nothing s1 Ha).
  - reflexivity.
  - unfold next_ahead. rewrite Ep. split; [cbn; lia|]. cbn. now rewrite (proj2 (Z.ltb_lt t1 (t0 + 100))) by lia.
Qed.

(** The completion interrupt wakes the sender. *)
Definition sent_done s : psys :=
  let w := net_world (dev s) in
  let x := messageSent (po w) in
  set_net_world (mkPostWorld (po_messageSent (mkSemaphore (value x + 1) (tail (queue x))) (po w)) (mails w)
                   (woken (queue x) (po_kernel w)))
    (set_stats (incr_numPacketsSent (stats s)) (set_net (n_sendBusy false (the_net s)) s)).

Lemma SendDone_run s :
  level (interrupt s) = IntOff -> post_ok (net_world (dev s)) -> SendDone s = Ok (tt, sent_done s).
Proof.
  intros Hl Hok. set (s2 := set_stats (incr_numPacketsSent (stats s)) (set_net (n_sendBusy false (the_net s)) s)).
  unfold SendDone. mstep_to tt (set_net (n_sendBusy false (the_net s)) s). mstep_to tt s2. mstep_to (the_net s2) s2.
  change (net_writeHandler (net_arg (the_net s2))) with PacketSent. rewrite (PacketSent_run s2); [reflexivity|exact Hl|exact Hok].
Qed.

Lemma Idle_done s t1 t2 :
  level (interrupt s) = IntOff -> pending (interrupt s) = [done_at t1; poll_at t2] -> post_ok (net_world (dev s)) ->
  now s < t1 < t2 ->
  Idle s = Ok (tt, let s' := sent_done (set_stats (idle_until t1 (stats s)) s) in
                   mkIsys (mkInterrupt IntOff [poll_at t2] false false SystemMode) (stats s') (dev s')).
Proof.
  intros Hl Hp Hok Hn.
  set (s1 := mkIsys (mkInterrupt IntOff [poll_at t2] true (yieldOnReturn (interrupt s)) SystemMode) (idle_until t1 (stats s)) (dev s) : psys).
  rewrite (Idle_first no_load s (sent_done s1) t1 _ [poll_at t2] Hl Hp ltac:(discriminate) (proj1 Hn) (SendDone_run s1 eq_refl Hok)).
  - reflexivity.
  - reflexivity.
  - split; [cbn; lia|reflexivity].
Qed.

(** A poll and the completion at the same time: one Idle handles both. *)
Lemma Idle_both s t1 :
  level (interrupt s) = IntOff -> pending (interrupt s) = [poll_at t1; done_at t1] -> arrived (dev s) = [] ->
  post_ok (net_world (dev s)) -> 0 <= now s < t1 -> t1 < ClockLimit ->
  Idle s = Ok (tt, let s' := sent_done (set_stats (idle_until t1 (stats s)) s) in
                   mkIsys (mkInterrupt IntOff [poll_at (t1 + NetworkTime)] false false SystemMode) (stats s') (dev s')).
Proof.
  unfold ClockLimit, NetworkTime. intros Hl Hp Ha Hok Hn Hc.
  set (s1 := mkIsys (mkInterrupt IntOff [done_at t1] true (yieldOnReturn (interrupt s)) SystemMode) (idle_until t1 (stats s)) (dev s) : psys).
  assert (Ep : pending (interrupt (net_polled s1)) = [done_at t1; poll_at (t1 + 100)]).
  { cbn. unfold NetworkTime. rewrite i32_id by (cbn; unfold is_i32; lia).
    rewrite (proj2 (Z.ltb_ge _ _)) by (cbn; lia). reflexivity. }
  set (s2 := set_inHandler false (setStatus IdleMode (net_polled s1))).
  set (s3 := sent_done (at_handler [poll_at (t1 + 100)] s2)).
  assert (E3 : CheckIfDue false s2 = Ok (true, set_inHandler false (setStatus IdleMode s3))).
  { apply (CheckIfDue_fires no_load false s2 s3 t1 (snd (done_at t1)) [poll_at (t1 + 100)]);
      [reflexivity|exact Ep|discriminate|cbn; lia|]. now apply SendDone_run. }
  rewrite (Idle_fires no_load s (net_polled s1) (set_inHandler false (setStatus IdleMode s3)) t1 _ [done_at t1] Hl Hp ltac:(discriminate) (proj2 Hn)).
  - reflexivity.
  - exact (poll_nothing s1 Ha).
  - fold s2. rewrite Ep. cbn [length]. cbn [mwhile]. mstep_by E3. apply (check_none 1); [reflexivity|].
    split; [cbn; lia|reflexivity].
Qed.

(** Idle twice, or once when both interrupts fall together: the packet is out. *)
Lemma wait_until_sent n s t0 t1 :
  level (interrupt s) = IntOff -> readyList (ker s) = [] -> pending (interrupt s) = [poll_at t0; done_at t1] ->
  arrived (dev s) = [] -> post_ok (net_world (dev s)) ->
  0 <= now s < t0 -> t0 <= t1 < t0 + NetworkTime -> t1 < ClockLimit ->
  exists u m, totalTicks u = t1 /\ wait_for_thread (S (S (S n))) s =
    wait_for_thread (S m) (mkIsys (mkInterrupt IntOff [poll_at (t0 + NetworkTime)] false false SystemMode) u (dev (sent_done s))).
Proof.
  intros Hl Hr Hp Ha Hok Hn Ht Hc.
  assert (EN : forall s', ker s' = ker s -> FindNextToRun s' = Ok (None, s')).
  { intros s' E'. pose proof (FindNextToRun_run s') as EN. now rewrite E', Hr in EN. }
  assert (EW : forall m s', ker s' = ker s -> wait_for_thread (S m) s' = (Idle >>> wait_for_thread m) s').
  { intros m s' E'. change (wait_for_thread (S m)) with (let! next := FindNextToRun in
      match next with Some nextThread => mreturn nextThread | None => Idle >>> wait_for_thread m end).
    now mstep_by (EN s' E'). }
  destruct (Z.eq_dec t0 t1) as [<-|Hne].
  - pose proof (Idle_both s t0 Hl Hp Ha Hok Hn Hc) as E1. eexists _, _. split; cycle 1.
    + rewrite (EW _ s eq_refl). mstep_by E1. reflexivity.
    + reflexivity.
  - pose proof (Idle_poll s t0 t1 Hl Hp Ha (proj2 Hn) ltac:(lia) ltac:(lia) Hc) as E1.
    match type of E1 with _ = Ok (_, ?x) => set (s1 := x) in E1 end.
    pose proof (Idle_done s1 t1 (t0 + NetworkTime) eq_refl eq_refl Hok ltac:(cbn; lia)) as E2.
    eexists _, _. split; cycle 1.
    + rewrite (EW _ s eq_refl). mstep_by E1. rewrite (EW _ s1 eq_refl). mstep_by E2. reflexivity.
    + reflexivity.
Qed.

(** Asleep in P until the packet is out. *)
Lemma sleep_until_sent n s k t t0 t1 :
  let cur := currentThread k in
  level (interrupt s) = IntOff -> alone k -> threads k !! cur = Some t -> ker s = blocked cur t k ->
  pending (interrupt s) = [poll_at t0; done_at t1] -> arrived (dev s) = [] ->
  0 <= now s < t0 -> t0 <= t1 < t0 + NetworkTime -> t1 < ClockLimit ->
  messageSent (po (net_world (dev s))) = mkSemaphore 0 [cur] ->
  waiters_exist (queue (messageAvailable (po (net_world (dev s))))) (ker s) ->
  exists u, totalTicks u = t1 /\
    (let! next := wait_for_thread (S (S (S n))) in Run next) s =
    Ok (tt, mkIsys (mkInterrupt IntOff [poll_at (t0 + NetworkTime)] false false SystemMode) u
              (ref_set messageSent_ref (mkSemaphore 1 [])
                 (set_kernel (slept cur t k) (dev (set_net (n_sendBusy false (the_net s)) s))))).
Proof.
  intros cur Hl Hal Et Ek Hp Ha Hn Ht Hc Hm Hw.
  assert (Hok : post_ok (net_world (dev s))).
  { split; [exact Hw|]. rewrite Hm. constructor; [|constructor]. change (po_kernel (net_world (dev s))) with (ker s).
    rewrite Ek. cbn. rewrite lookup_insert_eq. eauto. }
  assert (Hr : readyList (ker s) = []) by (rewrite Ek; apply (al_ready _ Hal)).
  assert (Ek2 : kernel (dev (sent_done s)) = woken [cur] (blocked cur t k)).
  { unfold sent_done. cbn. rewrite Hm. change (po_kernel (net_world (dev s))) with (ker s). now rewrite Ek. }
  assert (Ed : set_kernel (slept cur t k) (dev (sent_done s)) =
    ref_set messageSent_ref (mkSemaphore 1 []) (set_kernel (slept cur t k) (dev (set_net (n_sendBusy false (the_net s)) s)))).
  { unfold sent_done. cbn. now rewrite Hm. }
  destruct (wait_until_sent n s t0 t1 Hl Hr Hp Ha Hok Hn Ht Hc) as (u & m & Hu & EW). exists u. split; [exact Hu|].
  unfold mthen. rewrite EW. match goal with |- context [wait_for_thread (S m) ?x] => pose proof (dispatch_woken m x t k Hal Et Ek2) as ED end.
  unfold mthen in ED. rewrite ED, <- Ed. reflexivity.
Qed.

(** P on messageSent, with the packet under way. *)
Lemma P_messageSent n s t t0 t1 lo hi m :
  let cur := currentThread (ker s) in
  alone (ker s) -> threads (ker s) !! cur = Some t ->
  pending (interrupt s) = [poll_at t0; done_at t1] -> arrived (dev s) = [] ->
  0 <= now s < t0 -> t0 <= t1 < t0 + NetworkTime ->
  lo <= t1 -> t1 + Z.of_nat (S m) * SystemTick <= hi -> hi + NetworkTime < ClockLimit ->
  messageSent (po (net_world (dev s))) = mkSemaphore 0 [] ->
  waiters_exist (queue (messageAvailable (po (net_world (dev s))))) (ker s) ->
  gives (calm_for lo hi) (Semaphore_P (S (S (S n))) messageSent_ref) m s tt
    (ref_set messageSent_ref (mkSemaphore 0 [])
       (set_kernel (slept cur t (ker s)) (dev (set_net (n_sendBusy false (the_net s)) s)))).
Proof.
  intros cur Hal Et Hp Ha Hn Ht Hlo Hhi Hc Hm Hw. unfold gives. rewrite Semaphore_P_enter. unfold mthen at 1.
  assert (Hc1 : t1 < ClockLimit) by (unfold SystemTick, NetworkTime in *; lia).
  rewrite (wait_loop_block _ messageSent_ref (set_level IntOff s) (mkSemaphore 0 []) t (S (S n))); auto; [|cbn; now rewrite Hm].
  change (ker (set_level IntOff s)) with (ker s). fold cur. match goal with |- context [mthen _ _ ?x] => set (s1 := x) end.
  assert (Hw1 : waiters_exist (queue (messageAvailable (po (net_world (dev s1))))) (ker s1)).
  { eapply Forall_impl; [exact Hw|]. intros u Hu. cbn. rewrite lookup_insert_is_Some'. auto. }
  destruct (sleep_until_sent n s1 (ker s) t t0 t1 eq_refl Hal Et eq_refl Hp Ha Hn Ht Hc1 eq_refl Hw1) as (u & Hu & ES).
  unfold mthen at 1. rewrite ES. fold cur. match goal with |- context [mwhile _ _ ?x] => set (s2 := x) end.
  assert (E2 : ref_get messageSent_ref (dev s2) = Some (mkSemaphore 1 [])) by reflexivity.
  rewrite (wait_loop_done _ messageSent_ref s2 _ (S n) E2) by discriminate. unfold Semaphore_take.
  rewrite (mthen_step _ _ _ _ _ (deref_run messageSent_ref s2 _ E2)), (mthen_step _ _ _ _ _ (assign_run messageSent_ref _ s2)).
  match goal with |- context [mthen _ _ ?x] => set (s3 := x) end.
  assert (H3 : calm_for lo hi (S m) s3).
  { exists (t0 + NetworkTime). split; [split; auto|]; change (now s3) with (totalTicks u); rewrite Hu; lia || auto. }
  destruct (ticks_restore (Ticks := calm_ticks lo hi Hc) m (level (interrupt s)) s3 eq_refl H3) as (s4 & E4 & D4 & R4).
  exists s4. split; [exact E4|]. split; [|exact R4]. rewrite D4. reflexivity.
Qed.

(** Nothing else is going on: the next poll is at [t0], nobody is sending, and
    the calling thread is the only one that can run.  Interrupts are on or off. *)
Record post_quiet s (t0 : Z) : Prop := {
  pq_calm    : calm s t0;
  pq_lock    : sendLock (po (net_world (dev s))) = Lock_Lock;
  pq_sent    : messageSent (po (net_world (dev s))) = mkSemaphore 0 [];
  pq_avail   : waiters_exist (queue (messageAvailable (po (net_world (dev s))))) (ker s);
  pq_alone   : alone (ker s);
  pq_addr    : netAddr (po (net_world (dev s))) = ident (the_net s);
  pq_ident   : is_i32 (ident (the_net s));
  pq_idle    : sendBusy (the_net s) = false
}.

(** A message that Send accepts. *)
Record postable (pktHdr : PacketHeader) (mailHdr : MailHeader) (data : list Z) s : Prop := {
  pb_mail  : mail_ok mailHdr;
  pb_box   : 0 <= mail_to mailHdr < numBoxes (po (net_world (dev s)));
  pb_data  : mail_length mailHdr <= Z.of_nat (length data);
  pb_to    : is_i32 (to pktHdr);
  pb_reach : reachable (to pktHdr) = true
}.

Lemma mail_packet_length addr pktHdr mailHdr :
  mail_ok mailHdr -> pkt_length (mail_packet addr pktHdr mailHdr) = mail_length mailHdr + 12.
Proof.
  intros [_ _ Hl]. cbn. unfold MaxMailSize, MaxPacketSize, MaxWireSize, PacketHeaderSize, MailHeaderSize in *.
  apply u32_id. lia.
Qed.

Lemma length_mail_bytes fresh_packet mailHdr data :
  mail_ok mailHdr -> mail_length mailHdr <= Z.of_nat (length data) ->
  Z.of_nat (length fresh_packet) = MaxPacketSize -> Z.of_nat (length (mail_bytes fresh_packet mailHdr data)) = MaxPacketSize.
Proof.
  intros [_ _ Hl] Hd Hf. unfold mail_bytes. rewrite !length_app, length_mail_header_bytes, length_take, length_drop.
  unfold MaxMailSize, MaxPacketSize, MaxWireSize, PacketHeaderSize, MailHeaderSize in *. lia.
Qed.

(** What a Send puts on the wire. *)
Definition mail_datagram (fresh_packet fresh_wire : list Z) (pktHdr : PacketHeader) (mailHdr : MailHeader) (data : list Z) s : list Z :=
  datagram fresh_wire (mail_packet (ident (the_net s)) pktHdr mailHdr) (mail_bytes fresh_packet mailHdr data).
Definition on_wire (fresh_packet fresh_wire : list Z) (pktHdr : PacketHeader) (mailHdr : MailHeader) (data : list Z) s : list (Z * list Z) :=
  if lost (rand (rand_used (dev s))) (chanceToWork (the_net s)) then []
  else [(to pktHdr, mail_datagram fresh_packet fresh_wire pktHdr mailHdr data s)].

Lemma mail_sendable fresh_packet pktHdr mailHdr data s :
  postable pktHdr mailHdr data s -> is_i32 (ident (the_net s)) -> sendBusy (the_net s) = false ->
  Z.of_nat (length fresh_packet) = MaxPacketSize ->
  sendable (mail_packet (ident (the_net s)) pktHdr mailHdr) (mail_bytes fresh_packet mailHdr data) s.
Proof.
  intros [Hm Hb Hd Ht Hr] Hi Hbusy Hf. pose proof (mail_packet_length (ident (the_net s)) pktHdr mailHdr Hm) as El.
  pose proof (length_mail_bytes fresh_packet mailHdr data Hm Hd Hf) as Elb. destruct Hm as [_ _ Hl].
  unfold MaxMailSize, MaxPacketSize, MaxWireSize, PacketHeaderSize, MailHeaderSize in *.
  split; [split; [exact Ht|exact Hi|rewrite El; lia]|rewrite El; unfold MaxPacketSize, MaxWireSize, PacketHeaderSize; lia|rewrite El; lia|reflexivity|exact Hbusy].
Qed.

Lemma PostOffice_Send_run n fresh_packet fresh_wire pktHdr mailHdr data s t0 t :
  let cur := currentThread (ker s) in
  post_quiet s t0 -> postable pktHdr mailHdr data s -> threads (ker s) !! cur = Some t ->
  now s + 2 * NetworkTime + 3 * SystemTick < ClockLimit ->
  Z.of_nat (length fresh_packet) = MaxPacketSize -> Z.of_nat (length fresh_wire) = MaxWireSize ->
  exists s', PostOffice_Send (S (S (S n))) fresh_packet fresh_wire pktHdr mailHdr data s = Ok (tt, s') /\
    dev s' = mkNetSys (the_net s) [] (sent (dev s) ++ on_wire fresh_packet fresh_wire pktHdr mailHdr data s)
               (S (rand_used (dev s)))
               (mkPostWorld (po (net_world (dev s))) (mails (net_world (dev s))) (slept cur t (ker s))) /\
    level (interrupt s') = level (interrupt s) /\
    calm_for (now s + NetworkTime) (now s + NetworkTime + 3 * SystemTick) 0 s'.
Proof.
  intros cur Hq Hpb Et Hlim Hfp Hfw. pose proof Hq as [Q1 Q2 Q3 Q4 Q5 Q6 Q7 Q8]. pose proof Hpb as [Hm Hb Hd Ht Hr].
  pose proof (cm_time _ _ Q1) as Hnow. unfold SystemTick, NetworkTime in Hlim. set (p := po (net_world (dev s))) in *.
  destruct (fill_buffer fresh_packet mailHdr data (mo_length _ Hm) Hd Hfp) as (b1 & E1 & E2 & E3).
  assert (T1 : Ticks (fun d => arrived d = []) (calm_for (now s) (now s + SystemTick))) by (apply calm_ticks; unfold SystemTick, NetworkTime; lia).
  assert (T2 : Ticks (fun d => arrived d = []) (calm_for (now s + NetworkTime) (now s + NetworkTime + 3 * SystemTick))) by (apply calm_ticks; unfold SystemTick, NetworkTime; lia).
  assert (K : Keeps (fun d => arrived d = []) sendLock_ref) by (intros x d Ed; exact Ed).
  destruct (Acquire_gives (fun d => arrived d = []) (calm_for (now s) (now s + SystemTick)) (S (S (S n))) ltac:(discriminate) sendLock_ref 0 s)
    as (s1 & EA & D1 & L1 & t1 & C1 & N1 & N1').
  { cbn. fold p. now rewrite Q2. }
  { exists t0. split; [exact Q1|]. lia. }
  pose proof C1 as [P1 B1 B1' _ _ _ A1]. unfold SystemTick, NetworkTime in N1', B1'.
  assert (I1 : the_net s1 = the_net s) by (unfold the_net; now rewrite D1).
  assert (Hs1 : sendable (mail_packet (ident (the_net s)) pktHdr mailHdr) (mail_bytes fresh_packet mailHdr data) s1).
  { destruct (mail_sendable fresh_packet pktHdr mailHdr data s Hpb Q7 Q8 Hfp). now split; rewrite ?I1. }
  pose proof (Network_Send_run fresh_wire _ _ s1 Hs1 Hfw Hr) as ES.
  match type of ES with _ = Ok (_, ?x) => set (s2 := x) in ES end.
  assert (D2 : dev s2 = mkNetSys (the_net s) [] (sent (dev s) ++ on_wire fresh_packet fresh_wire pktHdr mailHdr data s)
    (S (rand_used (dev s))) (mkPostWorld (po_sendLock (held cur) p) (mails (net_world (dev s))) (ker s))).
  { assert (R1 : rand_used (dev s1) = rand_used (dev s)) by now rewrite D1.
    unfold s2, on_wire. rewrite I1, R1, <- (cm_arrived _ _ Q1).
    destruct (lost (rand (rand_used (dev s))) _); unfold scheduled, set_sent; cbn [dev set_dev set_pending set_interrupt net arrived sent rand_used net_world];
      rewrite D1, ?app_nil_r; reflexivity. }
  assert (F2 : interrupt s2 = interrupt (scheduled s1) /\ stats s2 = stats s1) by (unfold s2; destruct (lost _ _); split; reflexivity).
  destruct F2 as [F1 F2].
  assert (Ep2 : pending (interrupt s2) = [poll_at t1; done_at (now s1 + NetworkTime)]).
  { rewrite F1. cbn. unfold NetworkTime, ClockLimit in *. rewrite i32_id by (unfold is_i32; lia).
    rewrite P1. cbn. now rewrite (proj2 (Z.ltb_ge (now s1 + 100) t1)) by lia. }
  assert (Hn2 : now s2 = now s1) by (unfold now; now rewrite F2).
  assert (L2 : level (interrupt s2) = level (interrupt s)) by (rewrite F1; exact L1).
  pose proof (P_messageSent n s2 t t1 (now s1 + NetworkTime) (now s + NetworkTime) (now s + NetworkTime + 3 * SystemTick) 1) as EP.
  cbv zeta in EP. unfold ker, the_net in EP. rewrite D2, Hn2 in EP.
  destruct (EP Q5 Et Ep2 eq_refl B1) as (s3 & E3' & D3 & L3 & H3);
    try (cbn; unfold SystemTick, NetworkTime; lia); auto.
  cbn in D3. rewrite D2 in D3. cbn in D3.
  destruct (Release_gives (fun d => arrived d = []) (calm_for (now s + NetworkTime) (now s + NetworkTime + 3 * SystemTick)) sendLock_ref 0 s3)
    as (s4 & ER & D4 & L4 & H4).
  { unfold ker. rewrite D3. reflexivity. }
  { exact H3. }
  exists s4. split; [|split; [|split; [congruence|exact H4]]].
  - unfold PostOffice_Send. mstep_to p s.
    rewrite (proj2 (Z.leb_le _ _) (proj2 (mo_length _ Hm))). mstep_to tt s.
    rewrite (proj2 (Z.leb_le _ _) (proj1 Hb)), (proj2 (Z.ltb_lt _ _) (proj2 Hb)). mstep_to tt s.
    rewrite Q6, E1. mstep_to b1 s. rewrite E2. mstep_to (take (Z.to_nat (mail_length mailHdr)) data) s.
    rewrite E3. mstep_to (mail_bytes fresh_packet mailHdr data) s. mstep_by EA. mstep_by ES. mstep_by E3'. exact ER.
  - rewrite D4, D3. unfold cur. cbn. fold p. destruct (the_net s) as [? ? ? ? ? ?] eqn:En. destruct p as [? ? ? ? ? ?] eqn:Epp.
    cbn in Q2, Q3, Q8. subst. reflexivity.
Qed.
End sending.

(** * Receiving *)
(** The bytes of a mail packet, in a buffer that held something else. *)
Lemma mail_in_buffer mailHdr msg buffer :
  mail_ok mailHdr -> Z.of_nat (length msg) = mail_length mailHdr -> Z.of_nat (length buffer) = MaxPacketSize ->
  exists b, store buffer 0 (mail_header_bytes mailHdr ++ msg) = Some b /\ mail_header_of b = mailHdr /\
    load (drop (Z.to_nat MailHeaderSize) b) 0 (mail_length mailHdr) = Some msg.
Proof.
  intros Hm Hl Hb. pose proof (mo_length _ Hm) as Hn.
  assert (Hlen : length (mail_header_bytes mailHdr ++ msg) = (12 + length msg)%nat) by now rewrite length_app, length_mail_header_bytes.
  unfold MaxMailSize, MaxPacketSize, MaxWireSize, PacketHeaderSize, MailHeaderSize in *.
  exists (mail_header_bytes mailHdr ++ msg ++ drop (12 + length msg) buffer).
  assert (Es : splice buffer 0 (mail_header_bytes mailHdr ++ msg) = mail_header_bytes mailHdr ++ msg ++ drop (12 + length msg) buffer).
  { unfold splice. change (Z.to_nat 0) with O. rewrite take_0, app_nil_l, Nat.add_0_l, Hlen. now rewrite <- app_assoc. }
  split; [rewrite <- Es; apply store_ok; lia|]. split; [now apply mail_header_roundtrip|].
  change (Z.to_nat 12) with 12%nat. rewrite drop_app_length' by (now rewrite length_mail_header_bytes).
  rewrite load_ok by (rewrite ?length_app; lia). f_equal. unfold slice. rewrite drop_0, <- Hl, Nat2Z.id. apply take_app_length.
Qed.

(** The next [n] ticks bring no interrupt. *)
Definition undisturbed (n : nat) (s : psys) : Prop :=
  inHandler (interrupt s) = false /\ yieldOnReturn (interrupt s) = false /\ int_status (interrupt s) = SystemMode /\
  0 <= now s /\ now s + Z.of_nat n * SystemTick < ClockLimit /\
  match pending (interrupt s) with
  | [] => True
  | [e] => now s + Z.of_nat n * SystemTick < e.1
  | _ => False
  end.

Lemma undisturbed_ticks `{!Hardware (NetSys PostWorld) network_handler} : Ticks (fun _ => True) undisturbed.
Proof.
  split; auto. intros n l s Hl (Hi & Hy & Hst & Hz & Hc & Hp). rewrite Nat2Z.inj_succ in Hc, Hp. unfold SystemTick, ClockLimit in *.
  assert (Ht : totalTicks (kernel_ticked s) = now s + 10).
  { cbn. unfold now, SystemTick in *. apply i32_id. unfold is_i32. lia. }
  pose proof (SetLevel_quiet s l Hst Hy Hi) as E. rewrite (set_level_off s Hl) in E. unfold none_due in E. rewrite Ht in E.
  specialize (E ltac:(destruct (pending (interrupt s)) as [|? []]; auto; lia)).
  eexists. split; [now rewrite (mthen_step _ _ _ _ _ E)|].
  destruct l; (split; [reflexivity|]); (split; [exact Hl || reflexivity|]); split_and!; auto;
    change (now (set_level IntOn _)) with (totalTicks (kernel_ticked s)); rewrite ?Ht; unfold SystemTick, ClockLimit; try lia;
    cbn; destruct (pending (interrupt s)) as [|? []]; auto; lia.
Qed.

Section polling.
Context `{!HostRandom, !HostNetwork}.
Implicit Types r : psys.

(** The packet of a mail, taken in by the poll. *)
Lemma mail_polled r fresh_packet fresh_wire pktHdr mailHdr data addr rest :
  receptive r -> mail_ok mailHdr -> mail_length mailHdr <= Z.of_nat (length data) -> is_i32 (to pktHdr) -> is_i32 addr ->
  Z.of_nat (length fresh_packet) = MaxPacketSize -> Z.of_nat (length fresh_wire) = MaxWireSize ->
  ident (the_net r) = to pktHdr ->
  arrived (dev r) = datagram fresh_wire (mail_packet addr pktHdr mailHdr) (mail_bytes fresh_packet mailHdr data) :: rest ->
  let w := net_world (dev r) in
  let av := messageAvailable (po w) in
  let bs := mail_header_bytes mailHdr ++ take (Z.to_nat (mail_length mailHdr)) data in
  exists r1, CheckPktAvail r = Ok (tt, r1) /\
    dev r1 = mkNetSys (n_inbox (splice (inbox (the_net r)) 0 bs) (n_inHdr (mail_packet addr pktHdr mailHdr) (the_net r)))
               rest (sent (dev r)) (rand_used (dev r))
               (mkPostWorld (po_messageAvailable (mkSemaphore (value av + 1) (tail (queue av))) (po w)) (mails w)
                  (woken (queue av) (po_kernel w))).
Proof.
  intros Hrc Hm Hd Ht Hi Hfp Hfw Hid Ea w av bs. set (hdr := mail_packet addr pktHdr mailHdr) in *.
  pose proof (mail_packet_length addr pktHdr mailHdr Hm) as El. fold hdr in El. pose proof (mo_length _ Hm) as Hml.
  pose proof (length_mail_bytes fresh_packet mailHdr data Hm Hd Hfp) as Elb. pose proof Hrc as [R1 R2 R3 R4].
  assert (Hsizes : MaxPacketSize = 52 /\ MaxMailSize = 40) by (split; reflexivity).
  assert (Ebs : take (Z.to_nat (pkt_length hdr)) (mail_bytes fresh_packet mailHdr data) = bs).
  { assert (Hbs : length bs = Z.to_nat (pkt_length hdr)) by (unfold bs; rewrite length_app, length_mail_header_bytes, length_take; lia).
    unfold mail_bytes. rewrite app_assoc, <- Hbs. apply take_app_length. }
  pose proof (CheckPktAvail_run r fresh_wire hdr (mail_bytes fresh_packet mailHdr data) rest Hrc Ea) as EC.
  specialize (EC ltac:(split; [exact Ht|exact Hi|lia]) ltac:(lia) ltac:(lia) Hfw (eq_sym Hid)). rewrite Ebs in EC.
  change (net_readHandler (net_arg (the_net r))) with IncomingPacket in EC.
  rewrite (IncomingPacket_run (buffered hdr bs rest r) R1 R2) in EC. eexists. split; [exact EC|]. reflexivity.
Qed.

End polling.

Section receiving.
Context `{!HostRandom, !HostNetwork}.
Context `{!Hardware (NetSys PostWorld) network_handler, !ContextSwitch (NetSys PostWorld) network_handler}.
Variable fuel : nat.
Hypothesis fuel_pos : fuel <> O.
Variable fresh_mail : list Z.
Hypothesis fresh_mail_length : Z.of_nat (length fresh_mail) = MaxMailSize.
Implicit Types s : psys.

#[local] Existing Instance undisturbed_ticks.
#[local] Instance any_keeps {X} (r : ref (NetSys PostWorld) X) : Keeps (fun _ => True) r.
Proof. now intros ? ?. Qed.

Lemma fresh_address s : exists a, new_address s = Ok (a, s) /\ a <> 0 /\ mails (net_world (dev s)) !! a = None.
Proof.
  set (X := {[0]} ∪ dom (mails (net_world (dev s))) : gset Z). exists (fresh X). split; [reflexivity|].
  pose proof (is_fresh X) as Hf. split; [set_solver|]. apply not_elem_of_dom. set_solver.
Qed.

(** A mail put into an empty mailbox. *)
Lemma MailBox_Put_gives n s box x pktHdr mailHdr msg data :
  (boxes (po (net_world (dev s)))).[box] = Some x -> free_list x -> sl_list x = [] ->
  waiters_exist (cond_queue (sl_listEmpty x)) (ker s) -> mail_ok mailHdr -> load data 0 (mail_length mailHdr) = Some msg ->
  undisturbed (S (S (S n))) s ->
  let q := cond_queue (sl_listEmpty x) in
  exists a, a <> 0 /\ mails (net_world (dev s)) !! a = None /\
    gives undisturbed (MailBox_Put fuel fresh_mail box pktHdr mailHdr data) n s tt
      (ref_set (box_ref box) (mkSynchList [a] Lock_Lock (mkCondition (tail q)))
         (set_kernel (woken q (ker s)) (d_mails <[a := mkMail pktHdr mailHdr (splice fresh_mail 0 msg)]> (dev s)))).
Proof.
  intros Ex Hf He Hw Hm Ed HQ q. destruct (fresh_address s) as (a & Ea & Ha & Hna). exists a. do 2 (split; [assumption|]).
  pose proof Ed as Ed'. apply load_Some in Ed' as [(_ & Hn & Hd) Emsg].
  assert (Hmsg : Z.of_nat (length msg) = mail_length mailHdr) by (rewrite Emsg; apply length_slice; lia).
  pose proof (mo_length _ Hm) as Hml. set (m := mkMail pktHdr mailHdr (splice fresh_mail 0 msg)).
  set (s0 := set_dev (d_mails <[a := m]> (dev s)) s).
  assert (EM : Mail_Mail fresh_mail a pktHdr mailHdr data s = Ok (tt, s0)).
  { unfold Mail_Mail. rewrite (proj2 (Z.leb_le _ _) (proj2 Hml)). mstep_to tt s. rewrite Ed. mstep_to msg s.
    rewrite store_ok by lia. reflexivity. }
  unfold gives, MailBox_Put. rewrite (mthen_step _ _ _ _ _ Ea), (mthen_step _ _ _ _ _ EM).
  pose proof (Append_gives (fun _ => True) undisturbed fuel fuel_pos (box_ref box) n s0 x a Ex Hf Hw HQ) as HA.
  cbv zeta in HA. rewrite He in HA. exact HA.
Qed.

(** The only mail of a mailbox taken out. *)
Lemma MailBox_Get_gives n s box x a m msg :
  (boxes (po (net_world (dev s)))).[box] = Some x -> free_list x -> sl_list x = [a] -> a <> 0 ->
  mails (net_world (dev s)) !! a = Some m -> load (m_data m) 0 (mail_length (m_mailHdr m)) = Some msg ->
  undisturbed (S (S n)) s ->
  gives undisturbed (MailBox_Get fuel box) n s (m_pktHdr m, m_mailHdr m, msg)
    (d_mails (delete a) (ref_set (box_ref box) (mkSynchList [] Lock_Lock (sl_listEmpty x)) (dev s))).
Proof.
  intros Ex Hf El Ha Em Ed HQ. eapply gives_then.
  { exact (Remove_gives (fun _ => True) undisturbed fuel fuel_pos (box_ref box) n s x a [] Ex Hf El Ha HQ). }
  intros s1 D1 Q1. unfold gives. rewrite (mthen_step _ _ _ s1 s1) by reflexivity. rewrite D1.
  change (mails (net_world (ref_set (box_ref box) ?y (dev s)))) with (mails (net_world (dev s))). rewrite Em.
  rewrite (mthen_step _ _ _ m s1) by reflexivity. rewrite Ed. rewrite (mthen_step _ _ _ msg s1) by reflexivity.
  eexists. split; [reflexivity|]. cbn [dev set_dev]. rewrite D1. split_and!; auto.
Qed.

(** One round of the postal worker, with a packet in the inbox: at most four ticks. *)
Lemma deliver_run n r hdr mailHdr msg buffer x :
  let box := mail_to mailHdr in
  let w := net_world (dev r) in
  mail_ok mailHdr -> Z.of_nat (length msg) = mail_length mailHdr -> Z.of_nat (length buffer) = MaxPacketSize ->
  inHdr (the_net r) = hdr -> pkt_length hdr <> 0 ->
  load (inbox (the_net r)) 0 (pkt_length hdr) = Some (mail_header_bytes mailHdr ++ msg) ->
  value (messageAvailable (po w)) <> 0 ->
  0 <= box < numBoxes (po w) -> (boxes (po w)).[box] = Some x -> free_list x -> sl_list x = [] ->
  waiters_exist (cond_queue (sl_listEmpty x)) (ker r) -> undisturbed (S (S (S (S n)))) r ->
  exists b r' a, deliver fuel fresh_mail buffer r = Ok (b, r') /\
    level (interrupt r') = level (interrupt r) /\ undisturbed n r' /\
    arrived (dev r') = arrived (dev r) /\ a <> 0 /\ mails w !! a = None /\
    mails (net_world (dev r')) = <[a := mkMail hdr mailHdr (splice fresh_mail 0 msg)]> (mails w) /\
    numBoxes (po (net_world (dev r'))) = numBoxes (po w) /\
    (boxes (po (net_world (dev r')))).[box] = Some (mkSynchList [a] Lock_Lock (mkCondition (tail (cond_queue (sl_listEmpty x))))).
Proof.
  intros box w Hm Hmsg Hbuf Eh Hl Eld Hv Hbx Ex Hf He Hw HQ.
  destruct (P_gives (fun _ => True) undisturbed fuel fuel_pos messageAvailable_ref (S (S (S n))) r (messageAvailable (po w)) eq_refl Hv HQ)
    as (r1 & E1 & D1 & L1 & Q1).
  assert (I1 : the_net r1 = the_net r) by (unfold the_net; now rewrite D1).
  set (r2 := set_net (n_inHdr (mkPacketHeader (to hdr) (from hdr) 0) (the_net r1)) r1).
  assert (E2 : Network_Receive r1 = Ok ((hdr, mail_header_bytes mailHdr ++ msg), r2)).
  { unfold Network_Receive. mstep_to (the_net r1) r1. rewrite I1, Eh, <- I1. mstep_to tt r2.
    rewrite (proj2 (Z.eqb_neq _ _) Hl), I1, Eld. reflexivity. }
  destruct (mail_in_buffer mailHdr msg buffer Hm Hmsg Hbuf) as (b & Eb & Ehd & Eld2).
  assert (B2 : boxes (po (net_world (dev r2))) = boxes (po w) /\ numBoxes (po (net_world (dev r2))) = numBoxes (po w) /\
               mails (net_world (dev r2)) = mails w /\ ker r2 = ker r /\ arrived (dev r2) = arrived (dev r)).
  { unfold ker, r2. cbn. rewrite D1. split_and!; reflexivity. }
  destruct B2 as (B2 & N2 & M2 & K2 & A2).
  destruct (MailBox_Put_gives n r2 box x hdr mailHdr msg (drop (Z.to_nat MailHeaderSize) b)) as (a & Ha & Hna & r3 & E3 & D3 & L3 & Q3);
    rewrite ?B2, ?K2; auto.
  exists b, r3, a. split; [|rewrite D3; split_and!; auto; [exact (eq_trans L3 L1)|now rewrite <- M2|now rewrite <- M2|]].
  - unfold deliver. mstep_by E1. mstep_by E2. cbn [fst snd]. rewrite Eb. mstep_to b r2. rewrite Ehd.
    mstep_to (po (net_world (dev r2))) r2. rewrite N2. fold box.
    rewrite (proj2 (Z.leb_le _ _) (proj1 Hbx)), (proj2 (Z.ltb_lt _ _) (proj2 Hbx)). mstep_to tt r2.
    rewrite (proj2 (Z.leb_le _ _) (proj2 (mo_length _ Hm))). mstep_to tt r2. mstep_by E3. reflexivity.
  - change (ref_get (box_ref box) (ref_set (box_ref box) (mkSynchList [a] Lock_Lock (mkCondition (tail (cond_queue (sl_listEmpty x)))))
      (set_kernel (woken (cond_queue (sl_listEmpty x)) (ker r2)) (d_mails <[a := mkMail hdr mailHdr (splice fresh_mail 0 msg)]> (dev r2)))) =
      Some (mkSynchList [a] Lock_Lock (mkCondition (tail (cond_queue (sl_listEmpty x)))))).
    apply ref_get_set. exists x. cbn. rewrite <- B2 in Ex. exact Ex.
Qed.

(** Receive on the mailbox: at most two ticks. *)
Lemma Receive_run n r box hdr mailHdr msg a c :
  mail_ok mailHdr -> Z.of_nat (length msg) = mail_length mailHdr -> 0 <= box < numBoxes (po (net_world (dev r))) ->
  (boxes (po (net_world (dev r)))).[box] = Some (mkSynchList [a] Lock_Lock c) -> a <> 0 ->
  mails (net_world (dev r)) !! a = Some (mkMail hdr mailHdr (splice fresh_mail 0 msg)) -> undisturbed (S (S n)) r ->
  exists r', PostOffice_Receive fuel box r = Ok ((hdr, mailHdr, msg), r') /\
    mails (net_world (dev r')) = delete a (mails (net_world (dev r))).
Proof.
  intros Hm Hmsg Hbx Ex Ha Em HQ. pose proof (mo_length _ Hm) as Hml.
  destruct (MailBox_Get_gives n r box _ a _ msg Ex eq_refl eq_refl Ha Em) as (r1 & E1 & D1 & _); [|exact HQ|].
  { cbn [m_data m_mailHdr]. rewrite load_ok by (rewrite ?length_splice; lia). rewrite <- Hmsg. now rewrite slice_splice_eq by lia. }
  exists r1. split; [|now rewrite D1]. unfold PostOffice_Receive. mstep_to (po (net_world (dev r))) r.
  rewrite (proj2 (Z.leb_le _ _) (proj1 Hbx)), (proj2 (Z.ltb_lt _ _) (proj2 Hbx)). mstep_to tt r. mstep_by E1.
  cbn [fst snd m_mailHdr]. rewrite (proj2 (Z.leb_le _ _) (proj2 Hml)). reflexivity.
Qed.
End receiving.

(** * Properties *)
Section properties.
Context `{!HostRandom, !HostNetwork}.
Variable yield : M psys unit.
#[local] Instance machine : Hardware (NetSys PostWorld) network_handler := network_hardware yield.
Context `{!ContextSwitch (NetSys PostWorld) network_handler, !ContextSwitchLaws (NetSys PostWorld) network_handler}.
Implicit Types s r : psys.

(** C19: A Send comes back, called with interrupts on or off.  With the network
    idle and the calling thread the only one that can run, PostOffice::Send takes
    the lock, hands the packet to the device, sleeps, lets the idle machine poll
    in vain, is woken by the completion interrupt one network delay after the
    request, and returns at the level it was called, with the lock, the semaphore
    and the polling as they were, at most three ticks later; the packet is on the
    wire unless the network lost it. *)
Theorem PostOffice_Send_returns n fresh_packet fresh_wire pktHdr mailHdr data s t0 :
  post_quiet s t0 -> postable pktHdr mailHdr data s -> now s + 2 * NetworkTime + 3 * SystemTick < ClockLimit ->
  Z.of_nat (length fresh_packet) = MaxPacketSize -> Z.of_nat (length fresh_wire) = MaxWireSize ->
  exists s' t1, PostOffice_Send (S (S (S n))) fresh_packet fresh_wire pktHdr mailHdr data s = Ok (tt, s') /\
    sent (dev s') = sent (dev s) ++ on_wire fresh_packet fresh_wire pktHdr mailHdr data s /\
    now s + NetworkTime <= now s' <= now s + NetworkTime + 3 * SystemTick /\
    level (interrupt s') = level (interrupt s) /\ post_quiet s' t1 /\
    currentThread (ker s') = currentThread (ker s) /\ po (net_world (dev s')) = po (net_world (dev s)).
Proof.
  intros Hq Hp Hc Hfp Hfw. destruct (al_current _ (pq_alone _ _ Hq)) as (t & Et & _).
  destruct (PostOffice_Send_run yield n fresh_packet fresh_wire pktHdr mailHdr data s t0 t Hq Hp Et Hc Hfp Hfw)
    as (s' & E & Ed & El & t1 & Hcalm & Hlo & Hhi).
  destruct (slept_alone t (ker s) (pq_alone _ _ Hq) Et) as [Hal Hcur].
  exists s', t1. split; [exact E|]. unfold ker, the_net in *. rewrite Ed. cbn in Hhi |- *. split_and!; auto; [lia|].
  destruct Hq as [_ ? ? Hw _ ? ? ?]. split; unfold ker, the_net; rewrite ?Ed; auto.
  eapply Forall_impl; [exact Hw|]. intros u Hu. now apply slept_threads.
Qed.

(** C15: Mail arrives.  PostOffice::Send, called as above, puts one datagram on
    the wire, addressed to the machine of the packet header, or none when the
    network loses the packet.  A machine of that address takes the datagram in
    with its polling interrupt; then, whichever thread runs and whether
    interrupts are on or off, one round of the postal worker delivers it to the
    mailbox it names, free and empty, and Receive on that box returns the message
    byte for byte, with the mail header and with the sender's address in the
    packet header, and frees the Mail object.  [k] and [k'] are the kernels after
    the switches to the worker and to the receiver; no further interrupt falls
    due while the two run. *)
Theorem mail_delivered n fresh_packet fresh_wire pktHdr mailHdr data s t0 :
  post_quiet s t0 -> postable pktHdr mailHdr data s -> now s + 2 * NetworkTime + 3 * SystemTick < ClockLimit ->
  Z.of_nat (length fresh_packet) = MaxPacketSize -> Z.of_nat (length fresh_wire) = MaxWireSize ->
  exists s' wire, PostOffice_Send (S (S (S n))) fresh_packet fresh_wire pktHdr mailHdr data s = Ok (tt, s') /\
    sent (dev s') = sent (dev s) ++ wire /\
    length wire = (if lost (rand (rand_used (dev s))) (chanceToWork (the_net s)) then 0 else 1)%nat /\
    forall dest d, (dest, d) ∈ wire -> dest = to pktHdr /\
    forall m fresh_mail buffer r x rest,
      let box := mail_to mailHdr in
      let w := net_world (dev r) in
      Z.of_nat (length fresh_mail) = MaxMailSize -> Z.of_nat (length buffer) = MaxPacketSize ->
      receptive r -> ident (the_net r) = dest -> arrived (dev r) = d :: rest ->
      box < numBoxes (po w) -> (boxes (po w)).[box] = Some x -> free_list x -> sl_list x = [] ->
      0 <= value (messageAvailable (po w)) ->
      exists r1, CheckPktAvail r = Ok (tt, r1) /\
      forall k r1', dev r1' = set_kernel k (dev r1) -> waiters_exist (cond_queue (sl_listEmpty x)) k -> undisturbed 4 r1' ->
      exists b r2, deliver (S m) fresh_mail buffer r1' = Ok (b, r2) /\
        level (interrupt r2) = level (interrupt r1') /\ arrived (dev r2) = rest /\
      forall k' r2', dev r2' = set_kernel k' (dev r2) -> undisturbed 2 r2' ->
      exists r3, PostOffice_Receive (S m) box r2' =
          Ok ((mkPacketHeader (to pktHdr) (ident (the_net s)) (mail_length mailHdr + MailHeaderSize), mailHdr,
               take (Z.to_nat (mail_length mailHdr)) data), r3) /\
        mails (net_world (dev r3)) = mails w.
Proof.
  intros Hq Hp Hc Hfp Hfw. destruct (al_current _ (pq_alone _ _ Hq)) as (t & Et & _).
  destruct (PostOffice_Send_run yield n fresh_packet fresh_wire pktHdr mailHdr data s t0 t Hq Hp Et Hc Hfp Hfw) as (s' & E & Ed & _).
  exists s', (on_wire fresh_packet fresh_wire pktHdr mailHdr data s). split; [exact E|]. split; [now rewrite Ed|].
  split; [unfold on_wire; now destruct (lost _ _)|]. intros dest d Hin.
  assert (Hdd : dest = to pktHdr /\ d = mail_datagram fresh_packet fresh_wire pktHdr mailHdr data s).
  { unfold on_wire in Hin. destruct (lost _ _); [now apply elem_of_nil in Hin|]. apply list_elem_of_singleton in Hin. now injection Hin. }
  destruct Hdd as [-> ->]. split; [reflexivity|]. intros m fresh_mail buffer r x rest box w Hfm Hbuf Hrc Hid Ea Hnb Ex Hf He Hv.
  pose proof Hp as [Hm Hb Hd Ht _]. pose proof (mo_length _ Hm) as Hml. set (msg := take (Z.to_nat (mail_length mailHdr)) data).
  assert (Hmsg : Z.of_nat (length msg) = mail_length mailHdr) by (unfold msg; rewrite length_take; lia).
  destruct (mail_polled r fresh_packet fresh_wire pktHdr mailHdr data (ident (the_net s)) rest Hrc Hm Hd Ht (pq_ident _ _ Hq) Hfp Hfw Hid Ea)
    as (r1 & E1 & D1). fold msg w in D1.
  pose proof (mail_packet_length (ident (the_net s)) pktHdr mailHdr Hm) as El.
  assert (Eh : mail_packet (ident (the_net s)) pktHdr mailHdr =
    mkPacketHeader (to pktHdr) (ident (the_net s)) (mail_length mailHdr + MailHeaderSize)).
  { unfold mail_packet. f_equal. exact El. }
  set (hdr := mail_packet (ident (the_net s)) pktHdr mailHdr) in *. rewrite <- Eh.
  pose proof (rc_inbox _ Hrc) as Hin'. unfold MaxMailSize, MaxPacketSize, MaxWireSize, PacketHeaderSize, MailHeaderSize in Hml, Hin'.
  exists r1. split; [exact E1|]. intros k r1' D1' Hw HQ. rewrite D1 in D1'.
  destruct (deliver_run (S m) ltac:(discriminate) fresh_mail Hfm 0 r1' hdr mailHdr msg buffer x) as
    (b & r2 & a & E2 & L2 & _ & A2 & Ha & Hna & M2 & N2 & B2); unfold ker, the_net; rewrite ?D1'; auto.
  { lia. }
  { cbn [set_kernel post_kernel net n_inbox n_inHdr inbox]. assert (Hbs : Z.of_nat (length (mail_header_bytes mailHdr ++ msg)) = pkt_length hdr) by (rewrite length_app, length_mail_header_bytes; lia).
    rewrite load_ok by (rewrite ?length_splice; lia). rewrite <- Hbs. now rewrite slice_splice_eq by lia. }
  { cbn. fold w. lia. }
  { cbn. split; [apply Hb|exact Hnb]. }
  rewrite D1' in A2, Hna, M2, N2. exists b, r2. split; [exact E2|]. split; [exact L2|]. split; [exact A2|].
  intros k' r2' D2' HQ2.
  destruct (Receive_run (S m) ltac:(discriminate) fresh_mail Hfm 0 r2' box hdr mailHdr msg a (mkCondition (tail (cond_queue (sl_listEmpty x)))))
    as (r3 & E3 & M3); rewrite ?D2'; auto.
  { cbn. rewrite N2. split; [apply Hb|exact Hnb]. }
  { cbn. rewrite M2. apply lookup_insert_eq. }
  exists r3. split; [exact E3|]. rewrite M3, D2'. cbn. rewrite M2. now apply delete_insert_id.
Qed.
End properties.

(** * A concrete run: a message of three bytes from machine 3 to box 1 of machine 7 *)
#[local] Existing Instance sample_random.
#[local] Existing Instance sample_host.
#[local] Instance sample_switch : ContextSwitch (NetSys PostWorld) network_handler := {
  SWITCH _ _ := mreturn tt; SaveUserState _ := mreturn tt; RestoreUserState _ := mreturn tt
}.
#[local] Instance sample_switch_laws : ContextSwitchLaws (NetSys PostWorld) network_handler.
Proof. split. reflexivity. Defined.

Definition sample_post (l : IntStatus) (addr clock : Z) (waiting : list (list Z)) : psys :=
  mkIsys (mkInterrupt l [poll_at 100] false false SystemMode) (mkStatistics clock 0 0 0 0 0 0 0 0 0 0)
    (mkNetSys (mkNetwork addr (double_of 1) 0 false (mkPacketHeader 0 0 0) (replicate 52 0)) waiting [] 0
       (mkPostWorld (mkPostOffice addr (replicate 10 SynchList_SynchList) 10 (mkSemaphore 0 []) (mkSemaphore 0 []) Lock_Lock)
          ∅ (mkKernel {[1 := sample_thread 0 RUNNING]} [] [] 1 None []))).
Definition sample_pkt : PacketHeader := mkPacketHeader 7 0 0.
Definition sample_mail : MailHeader := mkMailHeader 1 0 3.

Lemma sample_postable l clock : postable sample_pkt sample_mail [10; 20; 30] (sample_post l 3 clock []).
Proof. split; [split|..]; cbn; unfold is_i32, MaxMailSize, MaxPacketSize, MaxWireSize, PacketHeaderSize, MailHeaderSize; lia || reflexivity. Defined.

Lemma sample_post_quiet l : post_quiet (sample_post l 3 40 []) 100.
Proof.
  split; try reflexivity.
  - split; cbn; unfold NetworkTime; lia || reflexivity.
  - constructor.
  - split; [reflexivity|exists (sample_thread 0 RUNNING); split; [reflexivity|split; [reflexivity|exact I]]|reflexivity].
  - cbn. unfold is_i32. lia.
Defined.

#[local] Instance sample_hardware : Hardware (NetSys PostWorld) network_handler := network_hardware (mreturn tt).

(** With interrupts on. *)
Lemma PostOffice_Send_returns_witness :
  exists s', PostOffice_Send 3 (replicate 52 77) (replicate 64 99) sample_pkt sample_mail [10; 20; 30] (sample_post IntOn 3 40 []) = Ok (tt, s') /\
    sent (dev s') = on_wire (replicate 52 77) (replicate 64 99) sample_pkt sample_mail [10; 20; 30] (sample_post IntOn 3 40 []) /\
    140 <= now s' <= 170 /\ level (interrupt s') = IntOn.
Proof.
  destruct (PostOffice_Send_returns (mreturn tt) 0 (replicate 52 77) (replicate 64 99) sample_pkt sample_mail [10; 20; 30]
              (sample_post IntOn 3 40 []) 100) as (s' & t1 & E & E1 & E2 & E3 & _).
  - apply sample_post_quiet.
  - apply sample_postable.
  - cbn. unfold NetworkTime, SystemTick, ClockLimit. lia.
  - reflexivity.
  - reflexivity.
  - exists s'. split; [exact E|]. split; [exact E1|]. split; [exact E2|exact E3].
Defined.

(** The run comes back at time 170: the poll at 100 falls into the idle time. *)
Example PostOffice_Send_time :
  match PostOffice_Send 3 (replicate 52 77) (replicate 64 99) sample_pkt sample_mail [10; 20; 30] (sample_post IntOn 3 40 []) with
  | Ok (_, s') => (now s', fst <$> pending (interrupt s'), length (sent (dev s'))) = (170, [200], 1%nat)
  | Err _ => False
  end.
Proof. vm_compute. reflexivity. Qed.

(** The machine of address 7 after its poll at time 140, interrupts on. *)
Definition running (d : NetSys PostWorld) : psys :=
  mkIsys (mkInterrupt IntOn [poll_at 240] false false SystemMode) (mkStatistics 140 0 0 0 0 0 0 0 0 0 0) d.

Lemma mail_delivered_witness :
  exists s' d, PostOffice_Send 3 (replicate 52 77) (replicate 64 99) sample_pkt sample_mail [10; 20; 30] (sample_post IntOn 3 40 []) = Ok (tt, s') /\
    sent (dev s') = [(7, d)] /\
  exists r1 b r2 r3, CheckPktAvail (sample_post IntOff 7 40 [d]) = Ok (tt, r1) /\
    deliver 1 (replicate 40 55) (replicate 52 0) (running (dev r1)) = Ok (b, r2) /\
    PostOffice_Receive 1 1 (running (dev r2)) = Ok ((mkPacketHeader 7 3 15, sample_mail, [10; 20; 30]), r3).
Proof.
  destruct (mail_delivered (mreturn tt) 0 (replicate 52 77) (replicate 64 99) sample_pkt sample_mail [10; 20; 30]
              (sample_post IntOn 3 40 []) 100) as (s' & wire & E & Es & El & Hw).
  - apply sample_post_quiet.
  - apply sample_postable.
  - cbn. unfold NetworkTime, SystemTick, ClockLimit. lia.
  - reflexivity.
  - reflexivity.
  - assert (El' : length wire = 1%nat) by (rewrite El; vm_compute; reflexivity).
    destruct wire as [|[dest d] [|]]; try discriminate El'. exists s', d.
    destruct (Hw dest d ltac:(left)) as [-> Hr]. split; [exact E|]. split; [exact Es|].
    destruct (Hr 0%nat (replicate 40 55) (replicate 52 0) (sample_post IntOff 7 40 [d]) SynchList_SynchList [])
      as (r1 & E1 & H1); try reflexivity; [split; try reflexivity; split; exact (List.Forall_nil _)|].
    destruct (H1 (ker r1) (running (dev r1))) as (b & r2 & E2 & _ & _ & H2).
    + symmetry. apply set_kernel_id.
    + constructor.
    + unfold undisturbed, ClockLimit, SystemTick. cbn. split_and!; lia || reflexivity.
    + destruct (H2 (ker r2) (running (dev r2))) as (r3 & E3 & _).
      * symmetry. apply set_kernel_id.
      * unfold undisturbed, ClockLimit, SystemTick. cbn. split_and!; lia || reflexivity.
      * exists r1, b, r2, r3. split; [exact E1|]. split; [exact E2|exact E3].
Defined.
