(* ===== verification/NetTest.v ===== *)
(** network/nettest.cc: MailTest, run by two machines at the same time.

    [prog] is a routine cut at its calls of the post office, so that the two
    machines can take turns at every call; [MailTest] is the routine of the
    source.  [Station] is a machine with its ten mail boxes and what it has
    printed.  What a call does is the contract of Post.v: a message that is sent
    arrives at the end of the box it is addressed to, with the sender's address,
    and Receive waits for the first message of a box.  No packet is lost here. *)
From Stdlib Require Import ZArith Lia String.
From stdpp Require Import base option list.
From S2P Require Import Prelude CList Stats Interrupt TimerDev Thread Synch Network Post.

Local Open Scope Z_scope.

Inductive prog :=
  | DoSend (pkt_to : Z) (mailHdr : MailHeader) (data : string) (next : prog)
  | DoReceive (box : Z) (next : Z -> MailHeader -> string -> prog)
  | DoPrint (text : string) (from box : Z) (next : prog)
  | DoHalt.

Definition MailTest (farAddr : Z) : prog :=
  let data := "Hello there!"%string in
  let ack := "Got it!"%string in
  DoSend farAddr (mkMailHeader 0 1 (Z.of_nat (String.length data) + 1)) data
  (DoReceive 0 (fun inFrom inMailHdr buffer =>
   DoPrint buffer inFrom (mail_from inMailHdr)
   (DoSend inFrom (mkMailHeader (mail_from inMailHdr) 1 (Z.of_nat (String.length ack) + 1)) ack
    (DoReceive 1 (fun inFrom inMailHdr buffer =>
     DoPrint buffer inFrom (mail_from inMailHdr) DoHalt))))).

(** * Two machines *)
Record message := mkMessage {
  msg_from : Z;
  msg_hdr  : MailHeader;
  msg_text : string
}.

Record Station := mkStation {
  address : Z;
  running : prog;
  boxes   : list (list message);
  printed : list (string * Z * Z)
}.

Definition start (addr far : Z) : Station := mkStation addr (MailTest far) (replicate 10 []) [].

(** One call of a machine: the machine after it, and a message on its way. *)
Definition act (s : Station) : option (Station * option (Z * message)) :=
  match running s with
  | DoSend to h d k => Some (mkStation (address s) k (boxes s) (printed s), Some (to, mkMessage (address s) h d))
  | DoReceive b k =>
      match (boxes s).[b] with
      | Some (m :: r) =>
          Some (mkStation (address s) (k (msg_from m) (msg_hdr m) (msg_text m))
                  (<[Z.to_nat b := r]> (boxes s)) (printed s), None)
      | _ => None
      end
  | DoPrint t f b k => Some (mkStation (address s) k (boxes s) (printed s ++ [(t, f, b)]), None)
  | DoHalt => None
  end.

(** The postal worker of the machine that is addressed. *)
Definition deliver_to (m : option (Z * message)) (s : Station) : Station :=
  match m with
  | Some (to, msg) =>
      if to =? address s then
        mkStation (address s) (running s)
          (alter (fun q => q ++ [msg]) (Z.to_nat (mail_to (msg_hdr msg))) (boxes s)) (printed s)
      else s
  | None => s
  end.

Inductive step : Station * Station -> Station * Station -> Prop :=
  | step_first s t s' m : act s = Some (s', m) -> step (s, t) (deliver_to m s', deliver_to m t)
  | step_second s t t' m : act t = Some (t', m) -> step (s, t) (deliver_to m s, deliver_to m t').

(** [n] steps *)
Inductive steps : nat -> Station * Station -> Station * Station -> Prop :=
  | steps_none w : steps 0 w w
  | steps_more n w w' w'' : step w w' -> steps n w' w'' -> steps (S n) w w''.

(** * Lemmas *)
Section two_machines.
Variables a b : Z.
Hypothesis distinct : a <> b.

Definition hello (from : Z) : message := mkMessage from (mkMailHeader 0 1 13) "Hello there!".
Definition got_it (from : Z) : message := mkMessage from (mkMailHeader 1 1 8) "Got it!".

(** The rest of MailTest after [i] calls. *)
Definition rest (far : Z) (i : nat) : prog :=
  match i with
  | 0 => MailTest far
  | 1 => DoReceive 0 (fun f h t => DoPrint t f (mail_from h)
           (DoSend f (mkMailHeader (mail_from h) 1 8) "Got it!"
             (DoReceive 1 (fun f h t => DoPrint t f (mail_from h) DoHalt))))
  | 2 => DoPrint "Hello there!" far 1 (DoSend far (mkMailHeader 1 1 8) "Got it!"
           (DoReceive 1 (fun f h t => DoPrint t f (mail_from h) DoHalt)))
  | 3 => DoSend far (mkMailHeader 1 1 8) "Got it!" (DoReceive 1 (fun f h t => DoPrint t f (mail_from h) DoHalt))
  | 4 => DoReceive 1 (fun f h t => DoPrint t f (mail_from h) DoHalt)
  | 5 => DoPrint "Got it!" far 1 DoHalt
  | _ => DoHalt
  end%nat.

(** A machine after [i] calls of its own and [j] of the other. *)
Definition station (me far : Z) (i j : nat) : Station :=
  mkStation me (rest far i)
    ((if (1 <=? j)%nat && (i <? 2)%nat then [hello far] else []) ::
     (if (4 <=? j)%nat && (i <? 5)%nat then [got_it far] else []) :: replicate 8 [])
    ((if (3 <=? i)%nat then [("Hello there!"%string, far, 1)] else []) ++
     (if (6 <=? i)%nat then [("Got it!"%string, far, 1)] else [])).

(** The pairs of positions that occur. *)
Definition possible (i j : nat) : bool :=
  (i <=? 6)%nat && (j <=? 6)%nat && implb (2 <=? i)%nat (1 <=? j)%nat && implb (5 <=? i)%nat (4 <=? j)%nat &&
  implb (2 <=? j)%nat (1 <=? i)%nat && implb (5 <=? j)%nat (4 <=? i)%nat.
Definition enabled (i j : nat) : bool :=
  (i <? 6)%nat && implb (i =? 1)%nat (1 <=? j)%nat && implb (i =? 4)%nat (4 <=? j)%nat.

Lemma act_station me far i j :
  me <> far -> possible i j = true ->
  match act (station me far i j) with
  | Some (s', m) => enabled i j = true /\ deliver_to m s' = station me far (S i) j /\
      deliver_to m (station far me j i) = station far me j (S i)
  | None => enabled i j = false
  end.
Proof.
  intros Hd Hp. apply Z.eqb_neq in Hd as Hd'. assert (Hd2 : (far =? me) = false) by now rewrite Z.eqb_sym.
  do 7 (destruct i as [|i]; [do 7 (destruct j as [|j];
    [first [discriminate Hp | solve [cbn; rewrite ?Hd', ?Hd2, ?Z.eqb_refl; repeat split; reflexivity]]|]); discriminate Hp|]).
  discriminate Hp.
Qed.
End two_machines.

Lemma possible_next i j : possible i j = true ->
  (enabled i j = true -> possible (S i) j = true) /\ (enabled j i = true -> possible i (S j) = true) /\
  ((i + j < 12)%nat -> enabled i j || enabled j i = true).
Proof.
  do 7 (destruct i as [|i]; [do 7 (destruct j as [|j];
    [first [discriminate | solve [intros _; repeat split; first [reflexivity | discriminate | cbn; lia]]]|]); discriminate|]).
  discriminate.
Qed.

Lemma possible_sym i j : possible i j = possible j i.
Proof. unfold possible. destruct (i <=? 6)%nat, (j <=? 6)%nat, (implb _ _), (implb _ _), (implb _ _), (implb _ _); reflexivity. Qed.

Definition worlds (a b : Z) (i j : nat) : Station * Station := (station a b i j, station b a j i).

Lemma step_worlds a b i j w :
  a <> b -> possible i j = true -> step (worlds a b i j) w ->
  exists i' j', w = worlds a b i' j' /\ possible i' j' = true /\ (i' + j' = S (i + j))%nat.
Proof.
  intros Hd Hp Hs. unfold worlds in Hs. destruct (possible_next i j Hp) as (H1 & H2 & _).
  inversion Hs as [s t s' m E|s t t' m E]; subst.
  - pose proof (act_station a b i j Hd Hp) as HA. rewrite E in HA. destruct HA as (He & E1 & E2).
    exists (S i), j. unfold worlds. rewrite E1, E2. auto.
  - assert (Hp' : possible j i = true) by now rewrite possible_sym.
    pose proof (act_station b a j i (not_eq_sym Hd) Hp') as HA. rewrite E in HA. destruct HA as (He & E1 & E2).
    exists i, (S j). unfold worlds. rewrite E1, E2. split; [reflexivity|]. split; [auto|lia].
Qed.

Lemma steps_worlds a b n : forall i j w,
  a <> b -> possible i j = true -> steps n (worlds a b i j) w ->
  exists i' j', w = worlds a b i' j' /\ possible i' j' = true /\ (i' + j' = n + (i + j))%nat.
Proof.
  induction n as [|n IH]; intros i j w Hd Hp Hs; inversion Hs as [|? ? w' ? H1 H2]; subst.
  - exists i, j. auto.
  - destruct (step_worlds a b i j w' Hd Hp H1) as (i1 & j1 & -> & Hp1 & Hn1).
    destruct (IH i1 j1 w Hd Hp1 H2) as (i2 & j2 & -> & Hp2 & Hn2). exists i2, j2. split; [reflexivity|]. split; [exact Hp2|lia].
Qed.

(** The mail test comes to its end.  Two machines that run MailTest with each
    other's address, in any order of their calls, never wait for each other in a
    circle, are done after twelve calls, and then each has printed the other's
    message and its acknowledgement. *)
Theorem MailTest_completes a b n w :
  a <> b -> steps n (start a b, start b a) w ->
  (n <= 12)%nat /\
  ((n < 12)%nat -> exists w', step w w') /\
  (n = 12%nat -> running w.1 = DoHalt /\ running w.2 = DoHalt /\
     printed w.1 = [("Hello there!"%string, b, 1); ("Got it!"%string, b, 1)] /\
     printed w.2 = [("Hello there!"%string, a, 1); ("Got it!"%string, a, 1)]).
Proof.
  intros Hd Hs. destruct (steps_worlds a b n 0 0 w Hd eq_refl Hs) as (i & j & -> & Hp & Hn).
  assert (Hb : (i <= 6)%nat /\ (j <= 6)%nat).
  { pose proof Hp as Hq. rewrite possible_sym in Hq. unfold possible in Hp, Hq.
    split; apply Nat.leb_le; [|clear Hp; rename Hq into Hp]; do 5 (apply andb_prop in Hp as [Hp _]); exact Hp. }
  split; [lia|]. split.
  - intros Hlt. destruct (possible_next i j Hp) as (_ & _ & Hen). specialize (Hen ltac:(lia)).
    apply orb_prop in Hen as [He|He].
    + pose proof (act_station a b i j Hd Hp) as HA. destruct (act (station a b i j)) as [[s' m]|] eqn:E; [|congruence].
      eexists. now apply (step_first _ _ s' m).
    + pose proof (act_station b a j i (not_eq_sym Hd) ltac:(now rewrite possible_sym)) as HA.
      destruct (act (station b a j i)) as [[s' m]|] eqn:E; [|congruence]. eexists. now apply (step_second _ _ s' m).
  - intros ->. assert (i = 6%nat /\ j = 6%nat) as [-> ->] by lia. auto.
Qed.

(** Every order of calls is one of these runs; one that alternates. *)
Lemma MailTest_completes_witness : exists w, step (start 0 1, start 1 0) w.
Proof.
  apply (proj1 (proj2 (MailTest_completes 0 1 0 (start 0 1, start 1 0) ltac:(discriminate) (steps_none _)))). lia.
Defined.
