(* ===== verification/Disk.v ===== *)
(** machine/disk.h and machine/disk.cc: the simulated disk.

    The disk's storage is a host file: four bytes of magic number followed by
    the sectors.  [dsys] is the interrupt hardware of Interrupt.v over
    [DiskWorld], the part of the kernel that the disk and the synchronous disk
    (SynchDisk.v) use.  A request transfers the data at once and schedules the
    DiskDone interrupt after the latency that ComputeLatency works out from
    the head position and the track buffer. *)
From Stdlib Require Import ZArith Lia.
From stdpp Require Import base option list list_numbers.
From S2P Require Import Prelude CList Stats Interrupt HostFile Thread Synch.

Local Open Scope Z_scope.

Definition SectorSize : Z := 128.
Definition SectorsPerTrack : Z := 32.
Definition NumTracks : Z := 32.
Definition NumSectors : Z := SectorsPerTrack * NumTracks.
Definition MagicNumber : Z := 0x456789ab.
Definition MagicSize : Z := 4.
Definition DiskSize : Z := MagicSize + NumSectors * SectorSize.

Record Disk := mkDisk {
  disk_file  : UnixFile;
  active     : bool;
  lastSector : Z;
  bufferInit : Z
}.

(** The disk, the members of the SynchDisk object on top of it, and the kernel. *)
Record DiskWorld := mkDiskWorld {
  w_disk        : Disk;
  w_semaphore   : Semaphore;
  w_lock        : Lock;
  w_mutex       : list Semaphore;
  w_array_mutex : Semaphore;
  w_kernel      : Kernel
}.

Inductive disk_handler := DiskDone.

Abbreviation dsys := (isys DiskWorld disk_handler).

Definition the_disk (s : dsys) : Disk := w_disk (dev s).
Definition set_the_disk (d : Disk) (s : dsys) : dsys :=
  let w := dev s in
  set_dev (mkDiskWorld d (w_semaphore w) (w_lock w) (w_mutex w) (w_array_mutex w)
             (w_kernel w)) s.

(** Disk::Disk on the file [name], [None] when it does not exist. *)
Definition Disk_Disk (existing : option (list Z)) : res Disk :=
  match existing with
  | Some bytes =>
      match Read MagicSize (mkUnixFile bytes 0) with
      | Ok (bs, f) => if i32 (le_join bs) =? MagicNumber
                      then Ok (mkDisk f false 0 0) else Err AssertFailed
      | Err e => Err e
      end
  | None =>
      match (WriteFile (le_split 4 MagicNumber) >>>
             Lseek (DiskSize - 4) 0 >>> WriteFile (le_split 4 0)) (mkUnixFile [] 0) with
      | Ok (_, f) => Ok (mkDisk f false 0 0)
      | Err e => Err e
      end
  end.

(** seek time, and what is left of the sector under the head *)
Definition TimeToSeek (d : Disk) (ticks newSector : Z) : Z * Z :=
  let newTrack := Z.quot newSector SectorsPerTrack in
  let oldTrack := Z.quot (lastSector d) SectorsPerTrack in
  let seek := Z.abs (newTrack - oldTrack) * SeekTime in
  let over := Z.rem (i32 (ticks + seek)) RotationTime in
  (seek, if 0 <? over then RotationTime - over else 0).

Definition ModuloDiff (to from : Z) : Z :=
  let toOffset := Z.rem to SectorsPerTrack in
  let fromOffset := Z.rem from SectorsPerTrack in
  Z.rem ((toOffset - fromOffset) + SectorsPerTrack) SectorsPerTrack.

Definition ComputeLatency (d : Disk) (ticks newSector : Z) (writing : bool) : Z :=
  let '(seek, rotation) := TimeToSeek d ticks newSector in
  let timeAfter := i32 (ticks + seek + rotation) in
  if negb writing && (seek =? 0) &&
     (ModuloDiff newSector (Z.quot (bufferInit d) RotationTime) <?
      Z.quot (i32 (timeAfter - bufferInit d)) RotationTime)
  then RotationTime
  else seek + (rotation + ModuloDiff newSector (Z.quot timeAfter RotationTime) * RotationTime)
       + RotationTime.

Definition UpdateLast (newSector : Z) : M dsys unit :=
  let! s := mget in
  let d := the_disk s in
  let '(seek, rotate) := TimeToSeek d (totalTicks (stats s)) newSector in
  mmodify (set_the_disk (mkDisk (disk_file d) (active d) newSector
    (if seek =? 0 then bufferInit d else i32 (totalTicks (stats s) + seek + rotate)))).

(** An operation on the host file of the disk. *)
Definition on_disk_file {A} (m : M UnixFile A) : M dsys A := fun s =>
  let d := the_disk s in
  match m (disk_file d) with
  | Ok (a, f) => Ok (a, set_the_disk (mkDisk f (active d) (lastSector d) (bufferInit d)) s)
  | Err e => Err e
  end.
Definition set_active (b : bool) : M dsys unit :=
  mmodify (fun s => let d := the_disk s in
    set_the_disk (mkDisk (disk_file d) b (lastSector d) (bufferInit d)) s).

Definition ReadRequest (sectorNumber : Z) : M dsys (list Z) :=
  let! s := mget in
  let ticks := ComputeLatency (the_disk s) (totalTicks (stats s)) sectorNumber false in
  ASSERT (negb (active (the_disk s))) >>>
  ASSERT ((0 <=? sectorNumber) && (sectorNumber <? NumSectors)) >>>
  on_disk_file (Lseek (SectorSize * sectorNumber + MagicSize) 0) >>>
  let! data := on_disk_file (Read SectorSize) in
  set_active true >>>
  UpdateLast sectorNumber >>>
  mmodify (fun s => set_stats (incr_numDiskReads (stats s)) s) >>>
  Schedule DiskDone 0 ticks DiskInt >>>
  mreturn data.

Definition WriteRequest (sectorNumber : Z) (data : list Z) : M dsys unit :=
  let! s := mget in
  let ticks := ComputeLatency (the_disk s) (totalTicks (stats s)) sectorNumber true in
  ASSERT (negb (active (the_disk s))) >>>
  ASSERT ((0 <=? sectorNumber) && (sectorNumber <? NumSectors)) >>>
  on_disk_file (Lseek (SectorSize * sectorNumber + MagicSize) 0) >>>
  on_disk_file (WriteFile data) >>>
  set_active true >>>
  UpdateLast sectorNumber >>>
  mmodify (fun s => set_stats (incr_numDiskWrites (stats s)) s) >>>
  Schedule DiskDone 0 ticks DiskInt.

(** HandleInterrupt calls the handler given to the constructor, [done]. *)
Definition HandleInterrupt (done : M dsys unit) : M dsys unit := set_active false >>> done.

(** * The sectors *)
Definition sector_of (f : UnixFile) (n : Z) : list Z :=
  slice (contents f) (SectorSize * n + MagicSize) SectorSize.

(** The host file holds the magic number and every sector. *)
Record disk_wf (d : Disk) : Prop := {
  dw_size  : DiskSize <= file_size (disk_file d);
  dw_bytes : Forall is_byte (contents (disk_file d));
  dw_magic : le_join (slice (contents (disk_file d)) 0 4) = MagicNumber;
  dw_last  : 0 <= lastSector d < NumSectors;
  dw_init  : 0 <= bufferInit d < 2 ^ 31
}.

(** Longest latency: across the disk, then a whole turn of the track. *)
Definition MaxLatency : Z := 31 * SeekTime + RotationTime + 31 * RotationTime + RotationTime.

(** * Latency *)
Section latency.
Variables (d : Disk) (ticks newSector : Z).
Hypothesis Hwf : disk_wf d.
Hypothesis Hticks : 0 <= ticks < ClockLimit.
Hypothesis Hnew : 0 <= newSector < NumSectors.

Lemma track_range n : 0 <= n < NumSectors -> 0 <= Z.quot n SectorsPerTrack <= 31.
Proof.
  unfold NumSectors, SectorsPerTrack, NumTracks. intros Hn. rewrite Z.quot_div_nonneg by lia.
  pose proof (Z.div_mod n 32). pose proof (Z.mod_pos_bound n 32). lia.
Qed.

Lemma TimeToSeek_spec :
  let '(seek, rotation) := TimeToSeek d ticks newSector in
  0 <= seek <= 31 * SeekTime /\ 0 <= rotation < RotationTime /\
  (ticks + seek + rotation) mod RotationTime = 0.
Proof.
  unfold TimeToSeek. pose proof (track_range newSector Hnew). pose proof (track_range _ (dw_last d Hwf)).
  unfold ClockLimit in Hticks. set (seek := _ * SeekTime).
  assert (Hs : 0 <= seek <= 31 * SeekTime) by (unfold seek, SeekTime; lia).
  split; [exact Hs|]. unfold SeekTime, RotationTime in *.
  rewrite i32_id by (unfold is_i32; lia). rewrite Z.rem_mod_nonneg by lia.
  pose proof (Z.div_mod (ticks + seek) 500). pose proof (Z.mod_pos_bound (ticks + seek) 500).
  destruct (Z.ltb_spec 0 ((ticks + seek) mod 500)); split; try lia.
  - apply Z.mod_divide; [lia|]. exists ((ticks + seek) / 500 + 1). lia.
  - rewrite Z.add_0_r. lia.
Qed.

Lemma ModuloDiff_spec to from :
  0 <= to -> 0 <= from -> ModuloDiff to from = (to - from) mod SectorsPerTrack.
Proof.
  intros Ht Hf. unfold ModuloDiff, SectorsPerTrack. rewrite (Z.rem_mod_nonneg to), (Z.rem_mod_nonneg from) by lia.
  pose proof (Z.mod_pos_bound to 32). pose proof (Z.mod_pos_bound from 32).
  rewrite Z.rem_mod_nonneg by lia.
  replace (to mod 32 - from mod 32 + 32) with (to mod 32 - from mod 32 + 1 * 32) by lia.
  rewrite Z.mod_add by lia. symmetry. apply Zminus_mod.
Qed.

(** The whole wait, when the track buffer does not help. *)
Lemma ComputeLatency_unbuffered seek rotation :
  TimeToSeek d ticks newSector = (seek, rotation) ->
  let latency := seek + (rotation + ModuloDiff newSector
                   (Z.quot (i32 (ticks + seek + rotation)) RotationTime) * RotationTime) + RotationTime in
  RotationTime <= latency <= MaxLatency /\
  (ticks + latency) mod RotationTime = 0 /\
  ((ticks + latency) / RotationTime - 1) mod SectorsPerTrack = newSector mod SectorsPerTrack.
Proof.
  intros E. pose proof TimeToSeek_spec as H. rewrite E in H. destruct H as (Hs & Hr & Hm).
  unfold MaxLatency, SeekTime, RotationTime, SectorsPerTrack, ClockLimit in *. cbv zeta.
  rewrite i32_id by (unfold is_i32; lia). rewrite Z.quot_div_nonneg by lia.
  set (q := (ticks + seek + rotation) / 500).
  assert (Hq : ticks + seek + rotation = 500 * q) by (pose proof (Z.div_mod (ticks + seek + rotation) 500); lia).
  rewrite ModuloDiff_spec by lia. unfold SectorsPerTrack. set (md := (newSector - q) mod 32).
  assert (Hmd : 0 <= md < 32) by (apply Z.mod_pos_bound; lia).
  split; [lia|].
  replace (ticks + (seek + (rotation + md * 500) + 500)) with ((q + md + 1) * 500) by lia.
  split; [apply Z.mod_mul; lia|]. rewrite Z.div_mul by lia.
  replace (q + md + 1 - 1) with (q + md) by lia. unfold md.
  rewrite Zplus_mod_idemp_r. f_equal. lia.
Qed.

Lemma ComputeLatency_range writing :
  RotationTime <= ComputeLatency d ticks newSector writing <= MaxLatency.
Proof.
  unfold ComputeLatency. destruct (TimeToSeek d ticks newSector) as [seek rotation] eqn:E.
  destruct (_ && _ && _); [unfold MaxLatency, RotationTime, SeekTime; lia|].
  apply (ComputeLatency_unbuffered seek rotation E).
Qed.
End latency.

(** * Requests *)
Section requests.
Implicit Types s : dsys.

(** The state after a request: the disk is [d'], the interrupt is scheduled. *)
Definition requested (d' : Disk) (lat : Z) (t : Statistics) s : dsys :=
  set_pending (q_sorted_insert (pending (interrupt s))
                 (mkPendingInterrupt DiskDone 0 (now s + lat) DiskInt) (now s + lat))
    (set_stats t (set_the_disk d' s)).

Lemma the_disk_set d s : the_disk (set_the_disk d s) = d.
Proof. reflexivity. Qed.

Lemma UpdateLast_run n s :
  disk_wf (the_disk s) -> 0 <= n < NumSectors -> 0 <= now s < ClockLimit ->
  exists d', UpdateLast n s = Ok (tt, set_the_disk d' s) /\
    disk_file d' = disk_file (the_disk s) /\ active d' = active (the_disk s) /\ disk_wf d'.
Proof.
  intros Hwf Hn Ht. unfold UpdateLast. mstep_to s s.
  pose proof (TimeToSeek_spec _ _ _ Hwf Ht Hn) as Hs. unfold now in *.
  destruct (TimeToSeek _ _ _) as [seek rotate]. eexists. split; [reflexivity|].
  do 2 (split; [reflexivity|]). destruct Hwf as [H1 H2 H3 H4 H5].
  unfold SeekTime, RotationTime, ClockLimit in *. split; try assumption. cbn.
  destruct (seek =? 0); [exact H5|]. rewrite i32_id; unfold is_i32; lia.
Qed.

Lemma Schedule_run s lat :
  0 < lat <= MaxLatency -> 0 <= now s < ClockLimit ->
  Schedule DiskDone 0 lat DiskInt s =
    Ok (tt, set_pending (q_sorted_insert (pending (interrupt s))
                 (mkPendingInterrupt DiskDone 0 (now s + lat) DiskInt) (now s + lat)) s).
Proof.
  intros Hl Hn. unfold Schedule. mstep_to s s. fold (now s).
  unfold MaxLatency, SeekTime, RotationTime, ClockLimit in *.
  rewrite i32_id by (unfold is_i32; lia). now rewrite (proj2 (Z.ltb_lt 0 lat)) by lia.
Qed.

(** Writing a sector inside the host file. *)
Lemma disk_wf_write d n data p :
  disk_wf d -> 0 <= n < NumSectors -> Z.of_nat (length data) = SectorSize -> Forall is_byte data ->
  let f := mkUnixFile (splice (contents (disk_file d)) (SectorSize * n + MagicSize) data) p in
  disk_wf (mkDisk f true (lastSector d) (bufferInit d)) /\
  sector_of f n = data /\
  (forall m, 0 <= m < NumSectors -> m <> n -> sector_of f m = sector_of (disk_file d) m).
Proof.
  intros [H1 H2 H3 H4 H5] Hn Hl Hb f. unfold DiskSize, file_size in *.
  unfold sector_of, f. cbn [contents]. unfold SectorSize, MagicSize, NumSectors, SectorsPerTrack, NumTracks in *.
  split; [split; cbn; auto|split].
  - unfold DiskSize, file_size, NumSectors, SectorsPerTrack, NumTracks, SectorSize, MagicSize. cbn [contents].
    rewrite length_splice by lia. lia.
  - now apply Forall_splice.
  - rewrite slice_splice_ne by lia. exact H3.
  - pose proof (slice_splice_eq (contents (disk_file d)) (128 * n + 4) data) as Hs.
    rewrite Hl in Hs. apply Hs; lia.
  - intros m Hm Hne. apply slice_splice_ne; lia.
Qed.

(** The arguments every request checks. *)
Definition request_ok (n : Z) s : Prop :=
  active (the_disk s) = false /\ 0 <= n < NumSectors.

Lemma request_checks {A} n s (m : M dsys A) :
  request_ok n s ->
  (ASSERT (negb (active (the_disk s))) >>> ASSERT ((0 <=? n) && (n <? NumSectors)) >>> m) s = m s.
Proof.
  intros [Ha Hn]. rewrite Ha. mstep_to tt s.
  rewrite (proj2 (Z.leb_le 0 n)), (proj2 (Z.ltb_lt n NumSectors)) by lia. now mstep_to tt s.
Qed.

Lemma request_refused {A} n s (m : M dsys A) :
  ~ request_ok n s ->
  (ASSERT (negb (active (the_disk s))) >>> ASSERT ((0 <=? n) && (n <? NumSectors)) >>> m) s = Err AssertFailed.
Proof.
  intros Hnot. unfold request_ok in Hnot. destruct (active (the_disk s)); [reflexivity|]. mstep_to tt s.
  destruct ((0 <=? n) && (n <? NumSectors))%bool eqn:E; [|reflexivity]. bool_hyps. exfalso. apply Hnot. lia.
Qed.

(** What both requests do once the data is transferred. *)
Definition start_request (n ticks : Z) (count : Statistics -> Statistics) : M dsys unit :=
  set_active true >>>
  UpdateLast n >>>
  mmodify (fun s => set_stats (count (stats s)) s) >>>
  Schedule DiskDone 0 ticks DiskInt.

Lemma start_request_run n lat count s :
  disk_wf (the_disk s) -> 0 <= n < NumSectors -> 0 <= now s < ClockLimit -> 0 < lat <= MaxLatency ->
  (forall t, totalTicks (count t) = totalTicks t) ->
  exists d', start_request n lat count s = Ok (tt, requested d' lat (count (stats s)) s) /\
    disk_file d' = disk_file (the_disk s) /\ active d' = true /\ disk_wf d'.
Proof.
  intros Hwf Hn Ht Hl Hc. unfold start_request.
  set (d1 := mkDisk (disk_file (the_disk s)) true (lastSector (the_disk s)) (bufferInit (the_disk s))).
  mstep_to tt (set_the_disk d1 s).
  destruct (UpdateLast_run n (set_the_disk d1 s)) as (d' & E & Ef & Ea & Hwf'); auto.
  { destruct Hwf. now split. }
  exists d'. mstep_by E. set (s2 := set_stats (count (stats s)) (set_the_disk d' (set_the_disk d1 s))). mstep_to tt s2.
  assert (En : now s2 = now s) by apply Hc.
  rewrite Schedule_run by (rewrite ?En; assumption). rewrite En. auto.
Qed.

Lemma ReadRequest_run n s :
  disk_wf (the_disk s) -> request_ok n s -> 0 <= now s < ClockLimit ->
  exists d' lat, ReadRequest n s =
      Ok (sector_of (disk_file (the_disk s)) n, requested d' lat (incr_numDiskReads (stats s)) s) /\
    contents (disk_file d') = contents (disk_file (the_disk s)) /\ active d' = true /\ disk_wf d' /\
    RotationTime <= lat <= MaxLatency.
Proof.
  intros Hwf Hok Ht. pose proof Hok as [_ Hn]. set (d := the_disk s) in *.
  set (lat := ComputeLatency d (now s) n false).
  pose proof (ComputeLatency_range d (now s) n Hwf Ht Hn false) as Hlat. fold lat in Hlat.
  set (p := SectorSize * n + MagicSize).
  set (f1 := mkUnixFile (contents (disk_file d)) p).
  set (f2 := mkUnixFile (contents (disk_file d)) (p + SectorSize)).
  set (up := fun f => mkDisk f (active d) (lastSector d) (bufferInit d)).
  destruct (start_request_run n lat incr_numDiskReads (set_the_disk (up f2) s)) as (d' & E & Ef & Ea & Hwf'); auto.
  { destruct Hwf. now split. }
  { unfold RotationTime in Hlat. lia. }
  exists d', lat. split; [|rewrite Ef; auto].
  unfold ReadRequest. mstep_to s s. fold (now s). rewrite (request_checks n s) by exact Hok.
  assert (Hp : 0 <= p /\ p + SectorSize <= file_size (disk_file d)).
  { pose proof (dw_size d Hwf) as Hs. unfold p, DiskSize, NumSectors, SectorsPerTrack, NumTracks, SectorSize, MagicSize in *. lia. }
  assert (E1 : on_disk_file (Lseek p 0) s = Ok (tt, set_the_disk (up f1) s)).
  { unfold on_disk_file. now rewrite Lseek_set by apply Hp. }
  mstep_by E1.
  assert (E2 : on_disk_file (Read SectorSize) (set_the_disk (up f1) s)
             = Ok (sector_of (disk_file d) n, set_the_disk (up f2) s)).
  { unfold on_disk_file. rewrite the_disk_set. unfold up at 1. cbn [disk_file].
    rewrite Read_ok; [reflexivity|cbn; lia|unfold SectorSize; lia|apply Hp]. }
  mstep_by E2. change (the_disk s) with d. fold lat. unfold start_request in E.
  apply mthen_Ok in E as ([] & sa & Ea1 & E). apply mthen_Ok in E as ([] & sb & Eb & E).
  apply mthen_Ok in E as ([] & sc & Ec & E). mstep_by Ea1. mstep_by Eb. mstep_by Ec. now mstep_by E.
Qed.

Lemma WriteRequest_run n data s :
  disk_wf (the_disk s) -> request_ok n s -> 0 <= now s < ClockLimit ->
  Z.of_nat (length data) = SectorSize -> Forall is_byte data ->
  exists d' lat, WriteRequest n data s = Ok (tt, requested d' lat (incr_numDiskWrites (stats s)) s) /\
    sector_of (disk_file d') n = data /\
    (forall m, 0 <= m < NumSectors -> m <> n ->
       sector_of (disk_file d') m = sector_of (disk_file (the_disk s)) m) /\
    active d' = true /\ disk_wf d' /\ RotationTime <= lat <= MaxLatency.
Proof.
  intros Hwf Hok Ht Hdl Hdb. pose proof Hok as [_ Hn]. set (d := the_disk s) in *.
  set (lat := ComputeLatency d (now s) n true).
  pose proof (ComputeLatency_range d (now s) n Hwf Ht Hn true) as Hlat. fold lat in Hlat.
  set (p := SectorSize * n + MagicSize).
  set (f1 := mkUnixFile (contents (disk_file d)) p).
  destruct (disk_wf_write d n data (p + Z.of_nat (length data)) Hwf Hn Hdl Hdb) as (Hw & Hs & Ho). fold p in Hw, Hs, Ho.
  set (f2 := mkUnixFile (splice _ p data) _) in *.
  set (up := fun f => mkDisk f (active d) (lastSector d) (bufferInit d)).
  destruct (start_request_run n lat incr_numDiskWrites (set_the_disk (up f2) s)) as (d' & E & Ef & Ea & Hwf'); auto.
  { destruct Hw. now split. }
  { unfold RotationTime in Hlat. lia. }
  exists d', lat. split; [|rewrite Ef; auto 6].
  unfold WriteRequest. mstep_to s s. fold (now s). rewrite (request_checks n s) by exact Hok.
  assert (Hp : 0 <= p /\ p + SectorSize <= file_size (disk_file d)).
  { pose proof (dw_size d Hwf) as Hz. unfold p, DiskSize, NumSectors, SectorsPerTrack, NumTracks, SectorSize, MagicSize in *. lia. }
  assert (E1 : on_disk_file (Lseek p 0) s = Ok (tt, set_the_disk (up f1) s)).
  { unfold on_disk_file. now rewrite Lseek_set by apply Hp. }
  mstep_by E1.
  assert (E2 : on_disk_file (WriteFile data) (set_the_disk (up f1) s) = Ok (tt, set_the_disk (up f2) s)).
  { unfold on_disk_file. rewrite the_disk_set. unfold up at 1. cbn [disk_file]. rewrite WriteFile_ok. cbn [contents f1 position].
    rewrite written_inside; [reflexivity|lia|]. unfold file_size in Hp. lia. }
  mstep_by E2. exact E.
Qed.
End requests.

(** * Initialisation *)
Lemma le_split_magic : le_split 4 MagicNumber = [171; 137; 103; 69].
Proof. reflexivity. Qed.

Definition fresh_contents : list Z :=
  written (written [] 0 (le_split 4 MagicNumber)) (DiskSize - 4) (le_split 4 0).

Lemma zlookup_fresh i :
  0 <= i -> fresh_contents.[i] =
    if decide (i < 4) then [171; 137; 103; 69].[i]
    else if decide (i < DiskSize) then Some 0 else None.
Proof.
  intros Hi. unfold fresh_contents, DiskSize, NumSectors, SectorsPerTrack, NumTracks, SectorSize, MagicSize.
  rewrite zlookup_written by (discriminate || lia). rewrite le_split_magic.
  change (written [] 0 [171; 137; 103; 69]) with [171; 137; 103; 69]. cbn [length le_split].
  repeat case_decide; try lia; try reflexivity.
  assert (0 <= i - (4 + 32 * 32 * 128 - 4) < 4) as Hj by lia.
  revert Hj. generalize (i - (4 + 32 * 32 * 128 - 4)). intros j Hj.
  assert (j = 0 \/ j = 1 \/ j = 2 \/ j = 3) as [->|[->|[->| ->]]] by lia; reflexivity.
Qed.

Lemma length_fresh : Z.of_nat (length fresh_contents) = DiskSize.
Proof.
  unfold fresh_contents. rewrite length_written by (discriminate || (unfold DiskSize, NumSectors, SectorsPerTrack, NumTracks, SectorSize, MagicSize; lia)).
  rewrite le_split_magic. change (written [] 0 [171; 137; 103; 69]) with [171; 137; 103; 69].
  reflexivity.
Qed.

Lemma fresh_sector n :
  0 <= n < NumSectors ->
  slice fresh_contents (SectorSize * n + MagicSize) SectorSize = replicate (Z.to_nat SectorSize) 0.
Proof.
  intros Hn. pose proof length_fresh as Hl.
  unfold DiskSize, NumSectors, SectorsPerTrack, NumTracks, SectorSize, MagicSize in *.
  apply zlookup_ext.
  - apply Nat2Z.inj. rewrite length_slice by lia. reflexivity.
  - intros i Hi. rewrite length_slice in Hi by lia. rewrite zlookup_slice, decide_True by lia.
    rewrite zlookup_fresh by lia. rewrite decide_False, decide_True by (unfold DiskSize, NumSectors, SectorsPerTrack, NumTracks, SectorSize, MagicSize; lia).
    unfold zlookup. destruct (Z.leb_spec 0 i); [|lia]. symmetry. apply lookup_replicate_2. lia.
Qed.

Lemma fresh_wf p : disk_wf (mkDisk (mkUnixFile fresh_contents p) false 0 0).
Proof.
  split; cbn [disk_file contents lastSector bufferInit].
  - unfold file_size. cbn [contents]. now rewrite length_fresh.
  - unfold fresh_contents. apply Forall_written; [unfold is_byte; lia| |apply le_split_bytes].
    apply Forall_written; [unfold is_byte; lia|constructor|apply le_split_bytes].
  - assert (E : slice fresh_contents 0 4 = [171; 137; 103; 69]).
    { pose proof length_fresh as Hl. unfold DiskSize, NumSectors, SectorsPerTrack, NumTracks, SectorSize, MagicSize in Hl.
      apply zlookup_ext; [apply Nat2Z.inj; now rewrite length_slice by lia|].
      intros i Hi. rewrite length_slice in Hi by lia. rewrite zlookup_slice, decide_True, zlookup_fresh, decide_True by lia.
      reflexivity. }
    now rewrite E.
  - unfold NumSectors, SectorsPerTrack, NumTracks. lia.
  - lia.
Qed.

Lemma Disk_Disk_fresh :
  exists p, Disk_Disk None = Ok (mkDisk (mkUnixFile fresh_contents p) false 0 0).
Proof.
  eexists. unfold Disk_Disk. mstep_by (WriteFile_ok _ _).
  assert (Hp : 0 <= DiskSize - 4) by (unfold DiskSize, NumSectors, SectorsPerTrack, NumTracks, SectorSize, MagicSize; lia).
  mstep_by (Lseek_set _ _ Hp). rewrite WriteFile_ok. cbn [contents position]. unfold fresh_contents. reflexivity.
Qed.

(** * Properties *)

(** The simulated geometry is consistent.  Every request takes between one
    sector time and the longest seek plus a whole turn, so the completion
    interrupt lies in the future and fits an int; a request that is not served
    from the track buffer ends exactly when the wanted sector has passed under
    the head. *)
Theorem ComputeLatency_geometry (d : Disk) (ticks newSector : Z) (writing : bool) :
  disk_wf d -> 0 <= ticks < ClockLimit -> 0 <= newSector < NumSectors ->
  let latency := ComputeLatency d ticks newSector writing in
  RotationTime <= latency <= MaxLatency /\
  (latency = RotationTime \/
   (ticks + latency) mod RotationTime = 0 /\
   ((ticks + latency) / RotationTime - 1) mod SectorsPerTrack = newSector mod SectorsPerTrack).
Proof.
  intros Hwf Ht Hn latency. split; [now apply ComputeLatency_range|].
  unfold latency, ComputeLatency. destruct (TimeToSeek d ticks newSector) as [seek rotation] eqn:E.
  destruct (_ && _ && _); [now left|right].
  apply (ComputeLatency_unbuffered d ticks newSector Hwf Ht Hn seek rotation E).
Qed.

(** A disk keeps its sectors across restarts.  Without a host file the
    constructor makes a disk of 1024 zeroed sectors; with one it accepts
    exactly the files that start with the magic number, with their contents,
    and stops on all others. *)
Theorem Disk_Disk_persistent :
  (exists d, Disk_Disk None = Ok d /\ disk_wf d /\ active d = false /\
     forall n, 0 <= n < NumSectors -> sector_of (disk_file d) n = replicate (Z.to_nat SectorSize) 0) /\
  (forall d, disk_wf d -> exists d', Disk_Disk (Some (contents (disk_file d))) = Ok d' /\ disk_wf d' /\
     active d' = false /\ forall n, sector_of (disk_file d') n = sector_of (disk_file d) n) /\
  (forall bytes, Forall is_byte bytes -> le_join (slice bytes 0 4) <> MagicNumber ->
     Disk_Disk (Some bytes) = Err AssertFailed).
Proof.
  split; [|split].
  - destruct Disk_Disk_fresh as [p E]. eexists. split; [exact E|].
    split; [apply fresh_wf|]. split; [reflexivity|]. exact fresh_sector.
  - intros d [H1 H2 H3 H4 H5]. pose proof H1 as Hs. unfold DiskSize, file_size, NumSectors, SectorsPerTrack, NumTracks, SectorSize, MagicSize in Hs.
    exists (mkDisk (mkUnixFile (contents (disk_file d)) 4) false 0 0). unfold Disk_Disk, MagicSize.
    rewrite Read_ok by (cbn; unfold file_size; cbn; lia). cbn [contents position]. rewrite H3. split; [reflexivity|].
    split; [split; cbn; auto; unfold NumSectors, SectorsPerTrack, NumTracks; lia|]. split; reflexivity.
  - intros bytes Hb Hne. unfold Disk_Disk, Read, unix_read, mthen, ASSERT, mreturn. cbn [contents position].
    destruct (Z.of_nat (length (slice bytes 0 MagicSize)) =? MagicSize) eqn:El; [|reflexivity]. bool_hyps.
    destruct (i32 (le_join (slice bytes 0 MagicSize)) =? MagicNumber) eqn:E; [|reflexivity]. bool_hyps.
    exfalso. apply Hne. unfold MagicSize in *.
    assert (Hr : 0 <= le_join (slice bytes 0 4) < 2 ^ 32).
    { pose proof (le_join_range (slice bytes 0 4) (Forall_slice _ _ _ _ Hb)) as Hr. rewrite El in Hr. exact Hr. }
    destruct (Z_lt_le_dec (le_join (slice bytes 0 4)) (2 ^ 31)).
    + rewrite i32_id in E by (unfold is_i32; lia). exact E.
    + exfalso. unfold i32, MagicNumber in E.
      pose proof (Z.mod_small (le_join (slice bytes 0 4) + 2 ^ 31 - 2 ^ 32) (2 ^ 32) ltac:(lia)) as Em.
      rewrite <- (Z.mod_add _ 1) in Em by lia. replace (le_join (slice bytes 0 4) + 2 ^ 31 - 2 ^ 32 + 1 * 2 ^ 32) with (le_join (slice bytes 0 4) + 2 ^ 31) in Em by lia.
      rewrite Em in E. lia.
Qed.

(** The controller accepts one request at a time, for a sector that
    exists: any other request stops before it reads or writes anything. *)
Theorem requests_refused (s : dsys) (n : Z) (data : list Z) :
  active (the_disk s) = true \/ n < 0 \/ NumSectors <= n ->
  ReadRequest n s = Err AssertFailed /\ WriteRequest n data s = Err AssertFailed.
Proof.
  intros Hbad. assert (Hnot : ~ request_ok n s) by (unfold request_ok; intuition (congruence || lia)).
  split; [unfold ReadRequest|unfold WriteRequest]; mstep_to s s; now apply request_refused.
Qed.

(** * Concrete runs *)
Definition sample_disk : Disk := mkDisk (mkUnixFile fresh_contents 0) false 40 0.

Lemma ComputeLatency_geometry_witness :
  RotationTime <= ComputeLatency sample_disk 1234 700 true <= MaxLatency /\
  ComputeLatency sample_disk 1234 700 true = 13266.
Proof.
  split; [|reflexivity].
  apply (ComputeLatency_geometry sample_disk 1234 700 true).
  - destruct (fresh_wf 0). split; auto. cbn. unfold NumSectors, SectorsPerTrack, NumTracks. lia.
  - unfold ClockLimit. lia.
  - unfold NumSectors, SectorsPerTrack, NumTracks. lia.
Defined.

Definition sample_dsys (busy : bool) : dsys :=
  mkIsys Interrupt_Interrupt Statistics_Statistics
    (mkDiskWorld (mkDisk (mkUnixFile fresh_contents 0) busy 0 0) (Semaphore_Semaphore 0) Lock_Lock [] (Semaphore_Semaphore 1)
       sample_kernel).

Lemma requests_refused_witness :
  ReadRequest 5 (sample_dsys true) = Err AssertFailed /\ ReadRequest 1024 (sample_dsys false) = Err AssertFailed.
Proof.
  split.
  - apply (requests_refused (sample_dsys true) 5 []). now left.
  - apply (requests_refused (sample_dsys false) 1024 []). right. right. unfold NumSectors, SectorsPerTrack, NumTracks. lia.
Defined.
