(* ===== verification/Sectors.v ===== *)
(** The disk as the file system sees it.

    Above SynchDisk.v the file system only reads and writes whole sectors and
    takes the sector mutexes.  [FsState] is that view: the sectors, the values
    of SynchDisk's semaphores, and the host's clock for time stamps.  The
    operations are the contract that ReadSector_reads and WriteSector_writes of
    SynchDisk.v establish for the calling thread; a P on a semaphore at zero,
    which nobody is left to raise, is [WouldBlock]. *)
From Stdlib Require Import ZArith Lia.
From stdpp Require Import base option list list_numbers.
From S2P Require Import Prelude Disk BitMap.

Local Open Scope Z_scope.

(** time() of the C library: the n-th call returns [time_at n]. *)
Class HostTime := {
  time_at : nat -> Z;
  time_at_int : forall n, is_i32 (time_at n)
}.

Record FsState := mkFsState {
  fs_sectors     : list (list Z);
  fs_mutex       : list Z;
  fs_array_mutex : Z;
  fs_time_calls  : nat
}.

Definition fs_ReadSector (sectorNumber : Z) : M FsState (list Z) :=
  let! s := mget in
  ASSERT ((0 <=? sectorNumber) && (sectorNumber <? NumSectors)) >>>
  mlift (fs_sectors s).[sectorNumber].

(** [data] points to at least a sector's worth of bytes. *)
Definition fs_WriteSector (sectorNumber : Z) (data : list Z) : M FsState unit :=
  let! s := mget in
  ASSERT ((0 <=? sectorNumber) && (sectorNumber <? NumSectors)) >>>
  let! l := mlift (zupd (fs_sectors s) sectorNumber data) in
  mput (mkFsState l (fs_mutex s) (fs_array_mutex s) (fs_time_calls s)).

Definition set_mutex (sector v : Z) : M FsState unit :=
  let! s := mget in
  let! m := mlift (zupd (fs_mutex s) sector v) in
  mput (mkFsState (fs_sectors s) m (fs_array_mutex s) (fs_time_calls s)).

Definition fs_rw_P (sector : Z) : M FsState unit :=
  let! s := mget in
  let! v := mlift (fs_mutex s).[sector] in
  if v =? 0 then mfail WouldBlock else set_mutex sector (v - 1).
Definition fs_rw_V (sector : Z) : M FsState unit :=
  let! s := mget in
  let! v := mlift (fs_mutex s).[sector] in
  set_mutex sector (v + 1).

Definition set_array_mutex (v : Z) : M FsState unit :=
  mmodify (fun s => mkFsState (fs_sectors s) (fs_mutex s) v (fs_time_calls s)).
Definition fs_arr_P : M FsState unit :=
  let! s := mget in
  if fs_array_mutex s =? 0 then mfail WouldBlock else set_array_mutex (fs_array_mutex s - 1).
Definition fs_arr_V : M FsState unit :=
  let! s := mget in set_array_mutex (fs_array_mutex s + 1).

Definition time `{!HostTime} : M FsState Z := fun s =>
  Ok (time_at (fs_time_calls s),
      mkFsState (fs_sectors s) (fs_mutex s) (fs_array_mutex s) (S (fs_time_calls s))).

(** * Invariant: every sector is 128 bytes, every mutex is free *)
Definition is_sector (bs : list Z) : Prop :=
  Z.of_nat (length bs) = SectorSize /\ Forall is_byte bs.

Record fs_wf (s : FsState) : Prop := {
  fw_length : Z.of_nat (length (fs_sectors s)) = NumSectors;
  fw_bytes  : Forall is_sector (fs_sectors s);
  fw_mutex  : fs_mutex s = replicate (Z.to_nat NumSectors) 1;
  fw_array  : fs_array_mutex s = 1
}.

(** Two states with the same sectors, up to time stamps taken. *)
Definition with_sectors (l : list (list Z)) (s : FsState) : FsState :=
  mkFsState l (fs_mutex s) (fs_array_mutex s) (fs_time_calls s).

(** * Arrays of ints in a sector *)
Definition ints_of_bytes (n : nat) (bs : list Z) : list Z := i32 <$> words_of_bytes n bs.
Definition IndexEntries : Z := 32.

Section int_lemmas.
Lemma u32_words l : map_bytes (u32 <$> l) = map_bytes l.
Proof.
  unfold map_bytes. induction l as [|z l IH]; [reflexivity|].
  rewrite fmap_cons, !bind_cons, IH. f_equal. apply (le_split_mod 4).
Qed.

Lemma ints_of_map_bytes l :
  Forall is_i32 l -> ints_of_bytes (length l) (map_bytes l) = l.
Proof.
  intros Hl. unfold ints_of_bytes. rewrite <- u32_words.
  rewrite <- (length_fmap u32 l), words_of_map_bytes.
  - rewrite <- list_fmap_compose. rewrite <- (list_fmap_id l) at 2. apply Forall_fmap_ext_1.
    eapply Forall_impl; [exact Hl|]. intros z Hz. cbn. now rewrite i32_u32, i32_id.
  - apply Forall_fmap, Forall_true. intros z. apply u32_range.
Qed.

Lemma is_sector_ints l : length l = 32%nat -> is_sector (map_bytes l).
Proof. intros Hl. split; [rewrite length_map_bytes, Hl; reflexivity|apply map_bytes_bytes]. Qed.
End int_lemmas.

Section store_lemmas.
Implicit Types s : FsState.

Lemma sector_range n : 0 <= n < NumSectors -> ((0 <=? n) && (n <? NumSectors))%bool = true.
Proof. intros Hn. now rewrite (proj2 (Z.leb_le 0 n)), (proj2 (Z.ltb_lt n NumSectors)) by lia. Qed.

Lemma fs_ReadSector_run n s bs :
  0 <= n < NumSectors -> (fs_sectors s).[n] = Some bs -> fs_ReadSector n s = Ok (bs, s).
Proof.
  intros Hn E. unfold fs_ReadSector. mstep_to s s. rewrite sector_range by exact Hn.
  mstep_to tt s. now rewrite E.
Qed.

Lemma fs_WriteSector_run n data s :
  fs_wf s -> 0 <= n < NumSectors ->
  fs_WriteSector n data s = Ok (tt, with_sectors (<[Z.to_nat n := data]> (fs_sectors s)) s).
Proof.
  intros Hwf Hn. unfold fs_WriteSector. mstep_to s s. rewrite sector_range by exact Hn.
  mstep_to tt s. rewrite zupd_lt by (rewrite (fw_length _ Hwf); exact Hn). reflexivity.
Qed.

Lemma fs_wf_write n data s :
  fs_wf s -> is_sector data -> fs_wf (with_sectors (<[Z.to_nat n := data]> (fs_sectors s)) s).
Proof.
  intros [H1 H2 H3 H4] Hd. split; cbn; auto; [now rewrite length_insert|now apply Forall_insert].
Qed.

Lemma fs_sector_exists s n : fs_wf s -> 0 <= n < NumSectors -> exists bs, (fs_sectors s).[n] = Some bs /\ is_sector bs.
Proof.
  intros Hwf Hn. destruct (zlookup_lt (fs_sectors s) n) as [bs E]; [rewrite (fw_length _ Hwf); exact Hn|].
  exists bs. split; [exact E|]. eapply zlookup_Forall; [apply Hwf|exact E].
Qed.

Lemma fs_wf_time `{!HostTime} s s' t : fs_wf s -> time s = Ok (t, s') -> fs_wf s' /\ fs_sectors s' = fs_sectors s.
Proof. intros [H1 H2 H3 H4] [= _ <-]. split; [now split|reflexivity]. Qed.
End store_lemmas.
