(* ===== verification/SynchDisk.v ===== *)
(** filesys/synchdisk.h and synchdisk.cc: the synchronous disk.

    SynchDisk ties the disk of Disk.v, the semaphore and the lock of Synch.v
    and the interrupt hardware of Interrupt.v into routines that return when
    the transfer is over.  The theorems are about a kernel in which the calling
    thread is the only one that can run and the disk the only device in use
    ([quiet]): from the request on, the thread sleeps, the idle machine moves
    the clock to the completion interrupt, whose handler wakes the thread. *)
From Stdlib Require Import ZArith Lia.
From stdpp Require Import base option list list_numbers gmap.
From S2P Require Import Prelude CList Stats Interrupt HostFile Thread Synch Disk Sectors.

Local Open Scope Z_scope.

#[export] Instance disk_world_kernel : HasKernel DiskWorld := {
  kernel := w_kernel;
  set_kernel k w := mkDiskWorld (w_disk w) (w_semaphore w) (w_lock w) (w_mutex w) (w_array_mutex w) k
}.
#[export] Instance disk_world_laws : HasKernelLaws DiskWorld.
Proof. split; [reflexivity..|now intros []]. Qed.

(** * The members of the SynchDisk object *)
Definition semaphore_ref : ref DiskWorld Semaphore :=
  mkRef (fun w => Some (w_semaphore w))
        (fun x w => mkDiskWorld (w_disk w) x (w_lock w) (w_mutex w) (w_array_mutex w) (w_kernel w)).
Definition lock_ref : ref DiskWorld Lock :=
  mkRef (fun w => Some (w_lock w))
        (fun x w => mkDiskWorld (w_disk w) (w_semaphore w) x (w_mutex w) (w_array_mutex w) (w_kernel w)).
Definition mutex_ref (sector : Z) : ref DiskWorld Semaphore :=
  mkRef (fun w => (w_mutex w).[sector])
        (fun x w => mkDiskWorld (w_disk w) (w_semaphore w) (w_lock w)
                      (<[Z.to_nat sector := x]> (w_mutex w)) (w_array_mutex w) (w_kernel w)).
Definition array_mutex_ref : ref DiskWorld Semaphore :=
  mkRef (fun w => Some (w_array_mutex w))
        (fun x w => mkDiskWorld (w_disk w) (w_semaphore w) (w_lock w) (w_mutex w) x (w_kernel w)).

#[export] Instance semaphore_ref_laws : RefLaws semaphore_ref.
Proof. now split. Qed.
#[export] Instance lock_ref_laws : RefLaws lock_ref.
Proof. now split. Qed.

(** new SynchDisk(name) *)
Definition SynchDisk_SynchDisk (existing : option (list Z)) (k : Kernel) : res DiskWorld :=
  match Disk_Disk existing with
  | Ok d => Ok (mkDiskWorld d (Semaphore_Semaphore 0) Lock_Lock
                  (replicate 1024 (Semaphore_Semaphore 1)) (Semaphore_Semaphore 1) k)
  | Err e => Err e
  end.

Section synchdisk.
Context `{!ContextSwitch DiskWorld disk_handler}.

Definition RequestDone `{!Hardware DiskWorld disk_handler} : M dsys unit := Semaphore_V semaphore_ref.
Definition DiskRequestDone `{!Hardware DiskWorld disk_handler} (arg : Z) : M dsys unit := RequestDone.

(** Inside a handler SetLevel never ticks, so it needs no hardware; see
    [handler_no_tick] below. *)
#[local] Instance no_hardware : Hardware DiskWorld disk_handler := {
  call_handler _ _ := mfail BadAccess;
  machine_DelayedLoad _ _ := mfail BadAccess;
  thread_Yield := mfail BadAccess;
  machine_counters := mfail BadAccess
}.

(** The machine with the disk; no user program is running. *)
Definition disk_hardware (yield : M dsys unit) : Hardware DiskWorld disk_handler := {|
  call_handler h arg := match h with DiskDone => HandleInterrupt (DiskRequestDone 0) end;
  machine_DelayedLoad _ _ := mreturn tt;
  thread_Yield := yield;
  machine_counters := mreturn (0, 0)
|}.
End synchdisk.

Section sectors.
Context `{!Hardware DiskWorld disk_handler, !ContextSwitch DiskWorld disk_handler}.
Variable fuel : nat.

Definition ReadSector (sectorNumber : Z) : M dsys (list Z) :=
  Lock_Acquire fuel lock_ref >>>
  let! data := ReadRequest sectorNumber in
  Semaphore_P fuel semaphore_ref >>>
  Lock_Release lock_ref >>>
  mreturn data.

Definition WriteSector (sectorNumber : Z) (data : list Z) : M dsys unit :=
  Lock_Acquire fuel lock_ref >>>
  WriteRequest sectorNumber data >>>
  Semaphore_P fuel semaphore_ref >>>
  Lock_Release lock_ref.

Definition rw_P (sector : Z) : M dsys unit := Semaphore_P fuel (mutex_ref sector).
Definition rw_V (sector : Z) : M dsys unit := Semaphore_V (mutex_ref sector).
Definition arr_P : M dsys unit := Semaphore_P fuel array_mutex_ref.
Definition arr_V : M dsys unit := Semaphore_V array_mutex_ref.
End sectors.

(** * The abstract disk: 1024 sectors of 128 bytes *)
Definition sectors (w : DiskWorld) : list (list Z) :=
  (fun n => sector_of (disk_file (w_disk w)) n) <$> seqZ 0 NumSectors.

(** The view of Sectors.v; [c] counts the calls of the host's clock. *)
Definition fs_view (c : nat) (w : DiskWorld) : FsState :=
  mkFsState (sectors w) (value <$> w_mutex w) (value (w_array_mutex w)) c.

(** Nothing else is going on in the kernel. *)
Record quiet (s : dsys) : Prop := {
  q_pending   : pending (interrupt s) = [];
  q_inHandler : inHandler (interrupt s) = false;
  q_yield     : yieldOnReturn (interrupt s) = false;
  q_status    : int_status (interrupt s) = SystemMode;
  q_semaphore : w_semaphore (dev s) = mkSemaphore 0 [];
  q_lock      : w_lock (dev s) = mkLock (mkSemaphore 1 []) None;
  q_active    : active (w_disk (dev s)) = false;
  q_wf        : disk_wf (w_disk (dev s));
  q_ready     : readyList (ker s) = [];
  q_current   : exists t, threads (ker s) !! currentThread (ker s) = Some t /\
                          space t = None /\ stack_ok t;
  q_destroy   : threadToBeDestroyed (ker s) = None
}.

(** The longest that one operation takes. *)
Definition MaxSectorTime : Z := MaxLatency + 3 * SystemTick.

Section synchdisk_lemmas.
Variable yield : M dsys unit.
#[local] Instance hw : Hardware DiskWorld disk_handler := disk_hardware yield.
Context `{!ContextSwitch DiskWorld disk_handler, !ContextSwitchLaws DiskWorld disk_handler}.
Implicit Types s : dsys.

(** The clock when interrupts are enabled again. *)
Definition ticked (l : IntStatus) (t : Statistics) : Statistics :=
  match l with IntOn => add_systemTicks SystemTick t | IntOff => t end.
Definition with_level (l : IntStatus) (i : Interrupt disk_handler) : Interrupt disk_handler :=
  mkInterrupt l (pending i) (inHandler i) (yieldOnReturn i) (int_status i).

Lemma restore_level l s :
  level (interrupt s) = IntOff -> pending (interrupt s) = [] -> inHandler (interrupt s) = false ->
  yieldOnReturn (interrupt s) = false -> int_status (interrupt s) = SystemMode ->
  (let! _ := SetLevel l in mreturn tt) s =
    Ok (tt, mkIsys (with_level l (interrupt s)) (ticked l (stats s)) (dev s)).
Proof.
  destruct s as [[lv pe ih yr st] t d]. cbn. intros -> -> -> -> ->. destruct l; reflexivity.
Qed.

Lemma with_level_id i : with_level (level i) i = i.
Proof. now destruct i. Qed.

(** The completion handler: the disk is idle, the waiting thread is ready. *)
Lemma DiskDone_run s arg cur t :
  level (interrupt s) = IntOff -> w_semaphore (dev s) = mkSemaphore 0 [cur] ->
  threads (ker s) !! cur = Some t ->
  let d := w_disk (dev s) in
  call_handler DiskDone arg s =
    Ok (tt, mkIsys (interrupt s) (stats s)
       (mkDiskWorld (mkDisk (disk_file d) false (lastSector d) (bufferInit d)) (mkSemaphore 1 [])
          (w_lock (dev s)) (w_mutex (dev s)) (w_array_mutex (dev s)) (woken [cur] (ker s)))).
Proof.
  intros Hl Hs Et d. cbn [call_handler hw disk_hardware]. unfold HandleInterrupt, DiskRequestDone, RequestDone.
  set (s1 := set_the_disk (mkDisk (disk_file d) false (lastSector d) (bufferInit d)) s). mstep_to tt s1.
  rewrite (Semaphore_V_run semaphore_ref s1 (mkSemaphore 0 [cur])).
  - change (level (interrupt s1)) with (level (interrupt s)). rewrite Hl.
    destruct s as [[lv pe ih yr st] u w]. cbn in Hl. subst lv. reflexivity.
  - cbn. now rewrite Hs.
  - constructor; [|constructor]. exists t. exact Et.
Qed.

(** The idle machine with the disk interrupt as the only pending one. *)
Lemma Idle_disk s when cur t :
  level (interrupt s) = IntOff ->
  pending (interrupt s) = [(when, mkPendingInterrupt DiskDone 0 when DiskInt)] ->
  now s < when -> w_semaphore (dev s) = mkSemaphore 0 [cur] -> threads (ker s) !! cur = Some t ->
  let d := w_disk (dev s) in
  Idle s = Ok (tt, mkIsys (mkInterrupt IntOff [] false false SystemMode) (idle_until when (stats s))
       (mkDiskWorld (mkDisk (disk_file d) false (lastSector d) (bufferInit d)) (mkSemaphore 1 [])
          (w_lock (dev s)) (w_mutex (dev s)) (w_array_mutex (dev s)) (woken [cur] (ker s)))).
Proof.
  destruct s as [[lv pe ih yr st] u w]. unfold now, ker. cbn [interrupt stats dev level pending].
  intros -> -> Hw Hs Et.
  set (s1 := mkIsys (mkInterrupt IntOff [] true yr SystemMode) (idle_until when u) w : dsys).
  pose proof (DiskDone_run s1 0 cur t eq_refl Hs Et) as EH.
  set (x := mkPendingInterrupt DiskDone 0 when DiskInt).
  set (s0 := setStatus IdleMode (mkIsys (mkInterrupt IntOff [(when, x)] ih yr st) u w) : dsys).
  set (s0' := mkIsys (mkInterrupt IntOff [] ih yr IdleMode) (idle_until when u) w : dsys).
  assert (EF : CheckIfDue true s0 = (fire x IdleMode >>> mreturn true) s0').
  { unfold CheckIfDue. unfold mthen at 1, mget. cbn. unfold mthen at 1. cbn.
    rewrite (proj2 (Z.ltb_lt _ _) Hw). reflexivity. }
  unfold Idle. mstep_to tt s0. unfold mthen at 1. rewrite EF. unfold mthen at 1, fire.
  mstep_to tt s0'. mstep_to tt (set_inHandler true s0'). mstep_to tt s1. mstep_by EH. reflexivity.
Qed.

Lemma sleep_until_disk n s when t :
  let cur := currentThread (ker s) in
  level (interrupt s) = IntOff -> alone (ker s) -> threads (ker s) !! cur = Some t ->
  pending (interrupt s) = [(when, mkPendingInterrupt DiskDone 0 when DiskInt)] ->
  now s < when -> w_semaphore (dev s) = mkSemaphore 0 [cur] ->
  let d := w_disk (dev s) in
  let t1 := th_set_status BLOCKED t in
  (let! next := wait_for_thread (S (S n)) in Run next) (set_ker (blocked cur t (ker s)) s) =
    Ok (tt, mkIsys (mkInterrupt IntOff [] false false SystemMode) (idle_until when (stats s))
       (mkDiskWorld (mkDisk (disk_file d) false (lastSector d) (bufferInit d)) (mkSemaphore 1 [])
          (w_lock (dev s)) (w_mutex (dev s)) (w_array_mutex (dev s)) (slept cur t (ker s)))).
Proof.
  intros cur Hl Hal Et Hp Hw Hs d t1. set (s1 := set_ker (blocked cur t (ker s)) s).
  assert (Et1 : threads (ker s1) !! cur = Some t1) by apply lookup_insert_eq.
  pose proof (Idle_disk s1 when cur t1 Hl Hp Hw Hs Et1) as EI.
  cbv zeta in EI. match type of EI with _ = Ok (_, ?x) => set (s2 := x) in EI end.
  assert (Ek2 : ker s2 = woken [cur] (blocked cur t (ker s))) by reflexivity.
  pose proof (dispatch_woken n s2 t (ker s) Hal Et Ek2) as ED.
  assert (EN : FindNextToRun s1 = Ok (None, s1)).
  { pose proof (FindNextToRun_run s1) as EN. unfold s1 at 2 in EN. rewrite ker_set_ker in EN.
    cbn [readyList blocked k_blockedList k_threads] in EN. now rewrite (al_ready _ Hal) in EN. }
  assert (EW : wait_for_thread (S (S n)) s1 = wait_for_thread (S n) s2).
  { change (wait_for_thread (S (S n))) with (let! next := FindNextToRun in
      match next with Some nextThread => mreturn nextThread | None => Idle >>> wait_for_thread (S n) end).
    mstep_by EN. now mstep_by EI. }
  unfold mthen at 1. rewrite EW. exact ED.
Qed.

(** P on the disk's semaphore, with the request on its way. *)
Lemma Semaphore_P_disk n s when t :
  let cur := currentThread (ker s) in
  alone (ker s) -> threads (ker s) !! cur = Some t ->
  pending (interrupt s) = [(when, mkPendingInterrupt DiskDone 0 when DiskInt)] ->
  now s < when -> w_semaphore (dev s) = mkSemaphore 0 [] ->
  let d := w_disk (dev s) in
  Semaphore_P (S (S n)) semaphore_ref s =
    Ok (tt, mkIsys (mkInterrupt (level (interrupt s)) [] false false SystemMode)
       (ticked (level (interrupt s)) (idle_until when (stats s)))
       (mkDiskWorld (mkDisk (disk_file d) false (lastSector d) (bufferInit d)) (mkSemaphore 0 [])
          (w_lock (dev s)) (w_mutex (dev s)) (w_array_mutex (dev s)) (slept cur t (ker s)))).
Proof.
  intros cur Hal Et Hp Hw Hs d. rewrite Semaphore_P_enter. unfold mthen at 1.
  rewrite (wait_loop_block _ semaphore_ref (set_level IntOff s) (mkSemaphore 0 []) t); auto; [|cbn; now rewrite Hs].
  change (ker (set_level IntOff s)) with (ker s). fold cur.
  set (s1 := set_dev (ref_set semaphore_ref (mkSemaphore 0 [cur]) (dev s)) (set_level IntOff s)).
  pose proof (sleep_until_disk n s1 when t eq_refl Hal Et Hp Hw eq_refl) as ES.
  unfold mthen at 1. change (set_dev _ (set_level IntOff s)) with (set_ker (blocked cur t (ker s)) s1).
  change (currentThread (ker s1)) with cur in ES. change (ker s1) with (ker s) in ES. rewrite ES. clear ES.
  rewrite (wait_loop_done _ semaphore_ref _ (mkSemaphore 1 []) n); [|reflexivity|discriminate].
  unfold Semaphore_take. match goal with |- mthen _ _ ?x = _ => set (s2 := x) end.
  assert (E2 : ref_get semaphore_ref (dev s2) = Some (mkSemaphore 1 [])) by reflexivity.
  mstep_by (deref_run semaphore_ref s2 _ E2). mstep_by (assign_run _ _ _). rewrite restore_level by reflexivity. reflexivity.
Qed.

Definition set_w_lock (l : Lock) (w : DiskWorld) : DiskWorld := ref_set lock_ref l w.

Lemma Lock_Acquire_free n s :
  pending (interrupt s) = [] -> inHandler (interrupt s) = false ->
  yieldOnReturn (interrupt s) = false -> int_status (interrupt s) = SystemMode ->
  w_lock (dev s) = mkLock (mkSemaphore 1 []) None ->
  Lock_Acquire (S n) lock_ref s =
    Ok (tt, mkIsys (interrupt s) (ticked (level (interrupt s)) (stats s))
              (set_w_lock (mkLock (mkSemaphore 0 []) (Some (currentThread (ker s)))) (dev s))).
Proof.
  intros Hp Hi Hy Hs Hl. unfold Lock_Acquire.
  assert (L : RefLaws (lock_sem lock_ref)) by (apply lock_sem_laws; apply lock_ref_laws).
  assert (E : Semaphore_P (S n) (lock_sem lock_ref) s =
    Ok (tt, mkIsys (interrupt s) (ticked (level (interrupt s)) (stats s))
              (set_w_lock (mkLock (mkSemaphore 0 []) None) (dev s)))).
  { rewrite (Semaphore_P_run _ (lock_sem lock_ref) s (mkSemaphore 1 [])); [|cbn; now rewrite Hl|discriminate..].
    rewrite restore_level by (cbn; assumption || reflexivity). f_equal. f_equal. f_equal.
    - now destruct s as [[]].
    - cbn. now rewrite Hl. }
  mstep_by E. reflexivity.
Qed.

Lemma Lock_Release_held s :
  pending (interrupt s) = [] -> inHandler (interrupt s) = false ->
  yieldOnReturn (interrupt s) = false -> int_status (interrupt s) = SystemMode ->
  w_lock (dev s) = mkLock (mkSemaphore 0 []) (Some (currentThread (ker s))) ->
  Lock_Release lock_ref s =
    Ok (tt, mkIsys (interrupt s) (ticked (level (interrupt s)) (stats s))
              (set_w_lock (mkLock (mkSemaphore 1 []) None) (dev s))).
Proof.
  intros Hp Hi Hy Hs Hl. unfold Lock_Release.
  assert (L : RefLaws (lock_sem lock_ref)) by (apply lock_sem_laws; apply lock_ref_laws).
  assert (Eh : isHeldByCurrentThread lock_ref s = Ok (true, s)).
  { unfold isHeldByCurrentThread. mstep_to (w_lock (dev s)) s. mstep_to (currentThread (ker s)) s.
    rewrite Hl. now rewrite bool_decide_eq_true_2 by reflexivity. }
  mstep_by Eh.
  assert (E : Semaphore_V (lock_sem lock_ref) s =
    Ok (tt, mkIsys (interrupt s) (ticked (level (interrupt s)) (stats s))
              (set_w_lock (mkLock (mkSemaphore 1 []) (Some (currentThread (ker s)))) (dev s)))).
  { rewrite (Semaphore_V_run (lock_sem lock_ref) s (mkSemaphore 0 [])); [|cbn; now rewrite Hl|constructor].
    rewrite restore_level by (cbn; assumption || reflexivity). f_equal. f_equal. f_equal.
    - now destruct s as [[]].
    - cbn. now rewrite Hl. }
  mstep_by E. reflexivity.
Qed.

Lemma ticked_now l (t : Statistics) :
  0 <= totalTicks t < ClockLimit ->
  totalTicks t <= totalTicks (ticked l t) <= totalTicks t + SystemTick.
Proof.
  unfold ClockLimit. intros Ht. destruct l; cbn; [unfold SystemTick; lia|].
  rewrite i32_id by (unfold is_i32, SystemTick; lia). unfold SystemTick. lia.
Qed.

(** The second half of a transfer: wait for the disk, give the lock back. *)
Lemma finish_transfer n s d' lat (st : Statistics) :
  pending (interrupt s) = [] -> inHandler (interrupt s) = false ->
  yieldOnReturn (interrupt s) = false -> int_status (interrupt s) = SystemMode ->
  alone (ker s) -> w_semaphore (dev s) = mkSemaphore 0 [] ->
  w_lock (dev s) = mkLock (mkSemaphore 0 []) (Some (currentThread (ker s))) ->
  disk_wf d' -> totalTicks st = now s -> 0 <= now s -> now s + lat + 2 * SystemTick < ClockLimit ->
  0 < lat ->
  exists s', (Semaphore_P (S (S n)) semaphore_ref >>> Lock_Release lock_ref) (requested d' lat st s) = Ok (tt, s') /\
    quiet s' /\ disk_file (w_disk (dev s')) = disk_file d' /\
    w_mutex (dev s') = w_mutex (dev s) /\ w_array_mutex (dev s') = w_array_mutex (dev s) /\
    now s + lat <= now s' <= now s + lat + 2 * SystemTick /\
    level (interrupt s') = level (interrupt s).
Proof.
  intros Hp Hi Hy Hs Hal Hsem Hlk Hwf Hst H0 Hlim Hlat.
  set (s2 := requested d' lat st s). set (when := now s + lat).
  destruct (al_current _ Hal) as (t & Et & Hsp & Hok).
  assert (Hp2 : pending (interrupt s2) = [(when, mkPendingInterrupt DiskDone 0 when DiskInt)]).
  { unfold s2, requested. cbn. now rewrite Hp. }
  assert (Hn2 : now s2 = now s) by exact Hst.
  pose proof (Semaphore_P_disk n s2 when t Hal Et Hp2 ltac:(rewrite Hn2; unfold when; lia) Hsem) as EP.
  cbv zeta in EP. match type of EP with _ = Ok (_, ?x) => set (s3 := x) in EP end.
  mstep_by EP.
  destruct (slept_alone t (ker s) Hal Et) as [Hal' Hc].
  assert (Hlk3 : w_lock (dev s3) = mkLock (mkSemaphore 0 []) (Some (currentThread (ker s3)))).
  { cbn. rewrite Hlk. reflexivity. }
  rewrite (Lock_Release_held s3) by (reflexivity || exact Hlk3).
  eexists. split; [reflexivity|]. split; [|do 3 (split; [reflexivity|]); split; [|reflexivity]].
  - destruct Hal' as [A B C]. split; try reflexivity; try assumption. cbn. destruct Hwf. now split.
  - unfold now. cbn [stats]. unfold SystemTick, ClockLimit in *.
    pose proof (ticked_now (level (interrupt s)) (idle_until when st)) as T1.
    pose proof (ticked_now (level (interrupt s)) (stats s3)) as T2.
    change (totalTicks (idle_until when st)) with when in T1. unfold when, SystemTick, ClockLimit in *.
    change (stats s3) with (ticked (level (interrupt s)) (idle_until when st)) in *.
    change (level (interrupt s3)) with (level (interrupt s)). unfold when in *. lia.
Qed.

Lemma sectors_lookup w n :
  0 <= n < NumSectors -> (sectors w).[n] = Some (sector_of (disk_file (w_disk w)) n).
Proof.
  intros Hn. unfold sectors, zlookup. destruct (Z.leb_spec 0 n); [|lia].
  rewrite list_lookup_fmap, lookup_seqZ_lt by lia. cbn. do 2 f_equal. lia.
Qed.

Lemma length_sectors w : Z.of_nat (length (sectors w)) = NumSectors.
Proof. unfold sectors. rewrite length_fmap, length_seqZ. reflexivity. Qed.

Lemma sectors_ext w w' :
  (forall n, 0 <= n < NumSectors -> sector_of (disk_file (w_disk w')) n = sector_of (disk_file (w_disk w)) n) ->
  sectors w' = sectors w.
Proof.
  intros Hs. apply zlookup_ext.
  - apply Nat2Z.inj. now rewrite !length_sectors.
  - intros i Hi. rewrite length_sectors in Hi. rewrite !sectors_lookup by exact Hi. f_equal. now apply Hs.
Qed.

Lemma sectors_written w w' n data :
  0 <= n < NumSectors -> sector_of (disk_file (w_disk w')) n = data ->
  (forall m, 0 <= m < NumSectors -> m <> n ->
     sector_of (disk_file (w_disk w')) m = sector_of (disk_file (w_disk w)) m) ->
  sectors w' = <[Z.to_nat n := data]> (sectors w).
Proof.
  intros Hn Es Eo. apply zlookup_ext.
  - rewrite length_insert. apply Nat2Z.inj. now rewrite !length_sectors.
  - intros i Hi. rewrite length_sectors in Hi. rewrite zlookup_insert by now rewrite length_sectors.
    rewrite sectors_lookup by exact Hi. case_decide as E; [subst i; now rewrite Es|].
    rewrite sectors_lookup by exact Hi. f_equal. apply Eo; auto.
Qed.

#[export] Instance mutex_ref_laws n : RefLaws (mutex_ref n).
Proof.
  split; try reflexivity.
  - intros x d [y Hy]. cbn in *. apply zlookup_insert_eq. now apply zlookup_Some in Hy.
  - intros x y d. cbn. now rewrite list_insert_insert_eq.
Qed.
End synchdisk_lemmas.

(** In a handler, [SetLevel] is the same whatever the rest of the hardware. *)
Lemma handler_no_tick (hw1 hw2 : Hardware DiskWorld disk_handler) (s : dsys) :
  level (interrupt s) = IntOff ->
  @Semaphore_V _ _ hw1 _ semaphore_ref s = @Semaphore_V _ _ hw2 _ semaphore_ref s.
Proof.
  intros Hl. unfold Semaphore_V. mstep_to (level (interrupt s)) (set_level IntOff s).
  symmetry. mstep_to (level (interrupt s)) (set_level IntOff s). rewrite Hl.
  reflexivity.
Qed.

(** * Properties *)
Section properties.
Variable yield : M dsys unit.
#[local] Instance the_hardware : Hardware DiskWorld disk_handler := disk_hardware yield.
Context `{!ContextSwitch DiskWorld disk_handler, !ContextSwitchLaws DiskWorld disk_handler}.
Implicit Types s : dsys.

Lemma alone_quiet s : quiet s -> alone (ker s).
Proof. intros []. now split. Qed.

(** The state with the lock taken, from which the request is made. *)
Definition locked s : dsys :=
  mkIsys (interrupt s) (ticked (level (interrupt s)) (stats s))
    (set_w_lock (mkLock (mkSemaphore 0 []) (Some (currentThread (ker s)))) (dev s)).

Lemma locked_now s :
  0 <= now s < ClockLimit -> now s <= now (locked s) <= now s + SystemTick.
Proof. apply ticked_now. Qed.

(** C7: ReadSector refines a read of the sector array.  Called in a quiet
    kernel, with room left on the clock, it comes back: the caller has slept
    through the transfer, the interrupt has been handled, data and sectors are
    those of the contract [fs_ReadSector], and the lock, the semaphore and the
    controller are free again. *)
Theorem ReadSector_refines (fuel c : nat) s (n : Z) :
  quiet s -> 0 <= n < NumSectors -> 0 <= now s -> now s + MaxSectorTime < ClockLimit ->
  exists data s', ReadSector (S (S fuel)) n s = Ok (data, s') /\
    fs_ReadSector n (fs_view c (dev s)) = Ok (data, fs_view c (dev s')) /\
    quiet s' /\ now s < now s' <= now s + MaxSectorTime /\
    level (interrupt s') = level (interrupt s).
Proof.
  intros Hq Hn H0 Hlim. unfold MaxSectorTime in *.
  assert (HM : MaxLatency = 32000) by reflexivity. assert (HT : SystemTick = 10) by reflexivity.
  assert (HR : RotationTime = 500) by reflexivity.
  pose proof (locked_now s ltac:(lia)) as Hln.
  pose proof (Lock_Acquire_free yield (S fuel) s (q_pending _ Hq) (q_inHandler _ Hq) (q_yield _ Hq) (q_status _ Hq) (q_lock _ Hq)) as EA.
  destruct (ReadRequest_run n (locked s)) as (d' & lat & ER & Ec & Ea & Hwf' & Hlat);
    [apply Hq|split; [apply Hq|exact Hn]|lia|].
  destruct (finish_transfer yield fuel (locked s) d' lat (incr_numDiskReads (stats (locked s))))
    as (s' & EF & Hq' & Ef & Em & Eam & Ht & Hl);
    [apply (q_pending _ Hq)|apply (q_inHandler _ Hq)|apply (q_yield _ Hq)|apply (q_status _ Hq)
    |apply (alone_quiet _ Hq)|apply (q_semaphore _ Hq)|reflexivity|exact Hwf'|reflexivity|lia|lia|lia|].
  exists (sector_of (disk_file (w_disk (dev s))) n), s'. split.
  - unfold ReadSector. mstep_by EA. mstep_by ER. apply mthen_Ok in EF as ([] & sa & E1 & E2).
    mstep_by E1. now mstep_by E2.
  - split; [|split; [exact Hq'|]; split; [lia|exact Hl]].
    assert (Es : sectors (dev s') = sectors (dev s)).
    { apply sectors_ext. intros m Hm. unfold sector_of. rewrite Ef, Ec. reflexivity. }
    unfold fs_view. rewrite Es, Em, Eam. now apply fs_ReadSector_run, sectors_lookup.
Qed.

(** C8: WriteSector refines an update of the sector array: it comes back, the
    sector holds the data, every other sector is as it was, and everything is
    free for the next operation. *)
Theorem WriteSector_refines (fuel c : nat) s (n : Z) (data : list Z) :
  quiet s -> 0 <= n < NumSectors -> is_sector data ->
  0 <= now s -> now s + MaxSectorTime < ClockLimit ->
  exists s', WriteSector (S (S fuel)) n data s = Ok (tt, s') /\
    fs_WriteSector n data (fs_view c (dev s)) = Ok (tt, fs_view c (dev s')) /\
    quiet s' /\ now s < now s' <= now s + MaxSectorTime /\
    level (interrupt s') = level (interrupt s).
Proof.
  intros Hq Hn [Hdl Hdb] H0 Hlim. unfold MaxSectorTime in *.
  assert (HM : MaxLatency = 32000) by reflexivity. assert (HT : SystemTick = 10) by reflexivity.
  assert (HR : RotationTime = 500) by reflexivity.
  pose proof (locked_now s ltac:(lia)) as Hln.
  pose proof (Lock_Acquire_free yield (S fuel) s (q_pending _ Hq) (q_inHandler _ Hq) (q_yield _ Hq) (q_status _ Hq) (q_lock _ Hq)) as EA.
  destruct (WriteRequest_run n data (locked s)) as (d' & lat & ER & Es & Eo & Ea & Hwf' & Hlat);
    [apply Hq|split; [apply Hq|exact Hn]|lia|exact Hdl|exact Hdb|].
  destruct (finish_transfer yield fuel (locked s) d' lat (incr_numDiskWrites (stats (locked s))))
    as (s' & EF & Hq' & Ef & Em & Eam & Ht & Hl);
    [apply (q_pending _ Hq)|apply (q_inHandler _ Hq)|apply (q_yield _ Hq)|apply (q_status _ Hq)
    |apply (alone_quiet _ Hq)|apply (q_semaphore _ Hq)|reflexivity|exact Hwf'|reflexivity|lia|lia|lia|].
  exists s'. split; [unfold WriteSector; mstep_by EA; mstep_by ER; exact EF|].
  split; [|split; [exact Hq'|]; split; [lia|exact Hl]].
  assert (Eq : sectors (dev s') = <[Z.to_nat n := data]> (sectors (dev s))).
  { apply sectors_written; [exact Hn|now rewrite Ef|]. intros m Hm Hne. rewrite Ef. now apply Eo. }
  unfold fs_view. rewrite Eq, Em, Eam. unfold fs_WriteSector. unfold mthen at 1, mget.
  rewrite sector_range by exact Hn. unfold mthen, ASSERT, mlift. cbn [fs_sectors].
  now rewrite zupd_lt by (rewrite length_sectors; exact Hn).
Qed.

(** The sector mutexes are those of the contract: rw_P takes one unit of a
    mutex that is free, rw_V gives it back, and nothing else changes but the
    clock. *)
Theorem rw_P_rw_V_refine (fuel c : nat) s (n v : Z) :
  quiet s -> 0 <= now s < ClockLimit -> (w_mutex (dev s)).[n] = Some (mkSemaphore v []) ->
  (v <> 0 -> exists s', rw_P (S fuel) n s = Ok (tt, s') /\
     fs_rw_P n (fs_view c (dev s)) = Ok (tt, fs_view c (dev s')) /\ quiet s') /\
  (exists s', rw_V n s = Ok (tt, s') /\
     fs_rw_V n (fs_view c (dev s)) = Ok (tt, fs_view c (dev s')) /\ quiet s').
Proof.
  intros Hq Ht En. assert (Hn : 0 <= n < Z.of_nat (length (w_mutex (dev s)))) by (now apply zlookup_Some in En).
  assert (Ev : (value <$> w_mutex (dev s)).[n] = Some v).
  { unfold zlookup in *. destruct (0 <=? n); [|discriminate]. rewrite list_lookup_fmap, En. reflexivity. }
  assert (Hset : forall x, set_mutex n (value x) (fs_view c (dev s)) = Ok (tt, fs_view c (ref_set (mutex_ref n) x (dev s)))).
  { intros x. unfold set_mutex. unfold mthen at 1, mget. cbn [fs_mutex fs_view].
    rewrite zupd_lt by (rewrite length_fmap; exact Hn). unfold fs_view, mthen, mlift, mput. cbn.
    now rewrite list_fmap_insert. }
  assert (Hread : forall (k : Z -> M FsState unit),
    (let! w := mget in let! x := mlift (fs_mutex w).[n] in k x) (fs_view c (dev s)) = k v (fs_view c (dev s))).
  { intros k. unfold mthen at 1, mget. cbn [fs_mutex fs_view]. rewrite Ev. reflexivity. }
  destruct Hq as [Q1 Q2 Q3 Q4 Q5 Q6 Q7 Q8 Q9 Q10 Q11]. split.
  - intros Hv. eexists. split.
    + unfold rw_P. rewrite (Semaphore_P_run _ (mutex_ref n) s (mkSemaphore v [])); [|exact En|exact Hv|discriminate].
      apply restore_level; auto.
    + unfold fs_rw_P. rewrite Hread, (proj2 (Z.eqb_neq v 0) Hv).
      pose proof (Hset (mkSemaphore (v - 1) [])) as HS. cbn [value] in HS. rewrite HS.
      split; [reflexivity|]. split; auto.
  - eexists. split.
    + unfold rw_V. rewrite (Semaphore_V_run (mutex_ref n) s (mkSemaphore v [])); [|exact En|constructor].
      apply restore_level; auto.
    + unfold fs_rw_V. rewrite Hread.
      pose proof (Hset (mkSemaphore (v + 1) [])) as HS. cbn [value] in HS. rewrite HS.
      split; [reflexivity|]. split; auto.
Qed.
End properties.

(** * Concrete runs: a new disk, one kernel thread at address 1 *)
#[local] Instance self_switch : ContextSwitch DiskWorld disk_handler :=
  { SWITCH _ _ := mreturn tt; SaveUserState _ := mreturn tt; RestoreUserState _ := mreturn tt }.
#[local] Instance self_switch_laws : ContextSwitchLaws DiskWorld disk_handler.
Proof. now split. Defined.

Definition booted : dsys :=
  mkIsys (mkInterrupt IntOn [] false false SystemMode) Statistics_Statistics
    (mkDiskWorld (mkDisk (mkUnixFile fresh_contents 0) false 0 0) (Semaphore_Semaphore 0) Lock_Lock
       (replicate 1024 (Semaphore_Semaphore 1)) (Semaphore_Semaphore 1)
       (mkKernel {[1 := sample_thread 0 RUNNING]} [] [] 1 None [])).

Lemma booted_quiet : quiet booted.
Proof.
  split; try reflexivity.
  - apply fresh_wf.
  - exists (sample_thread 0 RUNNING). repeat split.
Defined.

Lemma ReadSector_refines_witness :
  exists data s', @ReadSector (disk_hardware (mreturn tt)) _ 2 7 booted = Ok (data, s') /\ quiet s' /\
    fs_ReadSector 7 (fs_view 0 (dev booted)) = Ok (data, fs_view 0 (dev s')).
Proof.
  destruct (ReadSector_refines (mreturn tt) 0 0 booted 7 booted_quiet) as (data & s' & E & El & Hq & _).
  - unfold NumSectors, SectorsPerTrack, NumTracks. lia.
  - unfold now. cbn. lia.
  - unfold now, MaxSectorTime, MaxLatency, SeekTime, RotationTime, SystemTick, ClockLimit. cbn. lia.
  - exists data, s'. split; [exact E|]. split; [exact Hq|exact El].
Defined.

Lemma WriteSector_refines_witness :
  exists s', @WriteSector (disk_hardware (mreturn tt)) _ 2 7 (replicate 128 9) booted = Ok (tt, s') /\
    quiet s' /\ fs_WriteSector 7 (replicate 128 9) (fs_view 0 (dev booted)) = Ok (tt, fs_view 0 (dev s')).
Proof.
  destruct (WriteSector_refines (mreturn tt) 0 0 booted 7 (replicate 128 9) booted_quiet) as (s' & E & Es & Hq & _).
  - unfold NumSectors, SectorsPerTrack, NumTracks. lia.
  - split; [reflexivity|]. apply Forall_replicate. unfold is_byte. lia.
  - unfold now. cbn. lia.
  - unfold now, MaxSectorTime, MaxLatency, SeekTime, RotationTime, SystemTick, ClockLimit. cbn. lia.
  - exists s'. split; [exact E|]. split; [exact Hq|exact Es].
Defined.

Lemma rw_P_rw_V_refine_witness :
  exists s', @rw_P (disk_hardware (mreturn tt)) _ 1 7 booted = Ok (tt, s') /\
    fs_rw_P 7 (fs_view 0 (dev booted)) = Ok (tt, fs_view 0 (dev s')) /\ quiet s'.
Proof.
  destruct (rw_P_rw_V_refine (mreturn tt) 0 0 booted 7 1 booted_quiet) as [HP _].
  - unfold now, ClockLimit. cbn. lia.
  - reflexivity.
  - apply HP. lia.
Defined.
