(* ===== verification/FileHdr.v ===== *)
(** filesys/filehdr.h and filehdr.cc: the file header (i-node).

    A [FileHeader] fills one sector: time stamps, the type, a table of 25 index
    sectors and the sizes.  An index sector holds the numbers of up to 32 data
    sectors.  The methods run in [M FhState]: the header itself, the bitmap
    passed as argument and the disk.  [junk] is what the uninitialised local
    array tempDataSectors contains.

    [layout fs h blocks] says which sectors make up a file: one pair per index
    sector, with the data sectors it lists; [data_of blocks] are the file's
    data sectors in order. *)
From Stdlib Require Import ZArith Lia.
From stdpp Require Import base option list list_numbers.
From S2P Require Import Prelude Disk BitMap Sectors.

Local Open Scope Z_scope.

Definition NumDirect : Z := Z.quot (SectorSize - 7 * 4) 4.
Definition MaxFileSize : Z := NumDirect * SectorSize.

Record FileHeader := mkFileHeader {
  createTime        : Z;
  lastVisitTime     : Z;
  lastWriteTime     : Z;
  fileType          : Z;
  primaryIndexTable : list Z;
  numVisits         : Z;
  numBytes          : Z;
  numSectors        : Z
}.

Record FhState := mkFhState {
  fh_hdr : FileHeader;
  fh_map : BitMap;
  fh_fs  : FsState
}.

(** * The header in memory: thirty-two ints *)
Definition hdr_ints (h : FileHeader) : list Z :=
  [createTime h; lastVisitTime h; lastWriteTime h; fileType h] ++ primaryIndexTable h
  ++ [numVisits h; numBytes h; numSectors h].
Definition hdr_of_ints (l : list Z) : FileHeader :=
  let at_ i := default 0 l.[i] in
  mkFileHeader (at_ 0) (at_ 1) (at_ 2) (at_ 3) (slice l 4 NumDirect)
    (at_ (4 + NumDirect)) (at_ (5 + NumDirect)) (at_ (6 + NumDirect)).
Definition hdr_bytes (h : FileHeader) : list Z := map_bytes (hdr_ints h).
Definition hdr_of_bytes (bs : list Z) : FileHeader := hdr_of_ints (ints_of_bytes 32 bs).

(** * Assignments to members *)
Definition h_sizes (bytes sectors : Z) (h : FileHeader) : FileHeader :=
  mkFileHeader (createTime h) (lastVisitTime h) (lastWriteTime h) (fileType h)
    (primaryIndexTable h) (numVisits h) bytes sectors.
Definition h_table (t : list Z) (h : FileHeader) : FileHeader :=
  mkFileHeader (createTime h) (lastVisitTime h) (lastWriteTime h) (fileType h)
    t (numVisits h) (numBytes h) (numSectors h).
Definition h_created (type t : Z) (h : FileHeader) : FileHeader :=
  mkFileHeader t (lastVisitTime h) (lastWriteTime h) type
    (primaryIndexTable h) (numVisits h) (numBytes h) (numSectors h).
Definition h_visited (t : Z) (h : FileHeader) : FileHeader :=
  mkFileHeader (createTime h) t (lastWriteTime h) (fileType h)
    (primaryIndexTable h) (numVisits h) (numBytes h) (numSectors h).
Definition h_written (t : Z) (h : FileHeader) : FileHeader :=
  mkFileHeader (createTime h) (lastVisitTime h) t (fileType h)
    (primaryIndexTable h) (numVisits h) (numBytes h) (numSectors h).

Definition on_fs {A} (m : M FsState A) : M FhState A := fun s =>
  match m (fh_fs s) with
  | Ok (a, f) => Ok (a, mkFhState (fh_hdr s) (fh_map s) f)
  | Err e => Err e
  end.
Definition on_map {A} (m : M BitMap A) : M FhState A := fun s =>
  match m (fh_map s) with
  | Ok (a, b) => Ok (a, mkFhState (fh_hdr s) b (fh_fs s))
  | Err e => Err e
  end.
Definition mod_hdr (f : FileHeader -> FileHeader) : M FhState unit :=
  mmodify (fun s => mkFhState (f (fh_hdr s)) (fh_map s) (fh_fs s)).

(** primaryIndexTable[i], read and written. *)
Definition index_entry (i : Z) : M FhState Z :=
  let! s := mget in mlift (primaryIndexTable (fh_hdr s)).[i].
Definition set_index_entry (i v : Z) : M FhState unit :=
  let! s := mget in
  let! t := mlift (zupd (primaryIndexTable (fh_hdr s)) i v) in
  mod_hdr (h_table t).

(** [for (j in js) tempDataSectors[j] = freeMap->Find();] *)
Definition fill_index (js : list Z) (tempDataSectors : list Z) : M FhState (list Z) :=
  mfold js tempDataSectors (fun t j =>
    let! d := on_map BitMap_Find in mlift (zupd t j d)).

Section filehdr.
Context `{!HostTime}.
Variable junk : list Z.

(** One round of the loops of Allocate and ExtendAllocate: a new index sector. *)
Definition new_index_block (tempNumSectors i : Z) : M FhState Z :=
  let! p := on_map BitMap_Find in
  set_index_entry i p >>>
  let! t := fill_index (seqZ 0 (if tempNumSectors <? 32 then tempNumSectors else 32)) junk in
  let! p := index_entry i in
  on_fs (fs_WriteSector p (map_bytes t)) >>>
  mreturn (if tempNumSectors <? 32 then tempNumSectors else tempNumSectors - 32).

Definition Allocate (fileSize _fileType : Z) : M FhState bool :=
  mod_hdr (h_sizes fileSize (divRoundUp fileSize SectorSize)) >>>
  let! t := on_fs time in
  mod_hdr (h_created _fileType t) >>>
  let! s := mget in
  let ns := numSectors (fh_hdr s) in
  let! c := on_map BitMap_NumClear in
  if c <? ns then mreturn false
  else
    let! _ := mfold (seqZ 0 (divRoundUp ns 32)) ns new_index_block in
    mreturn true.

(** ExtendAllocate first fills up the last index sector; what is left to do. *)
Definition extend_last_block (ns extraSectors : Z) : M FhState Z :=
  let initial := divRoundUp ns 32 in
  let used := Z.rem ns 32 in
  if used =? 0 then mreturn extraSectors
  else
    let! p := index_entry (initial - 1) in
    let! bs := on_fs (fs_ReadSector p) in
    let fits := 32 - used <=? extraSectors in
    let! t := fill_index (if fits then seqZ used (32 - used) else seqZ used extraSectors)
                (ints_of_bytes 32 bs) in
    let! p := index_entry (initial - 1) in
    on_fs (fs_WriteSector p (map_bytes t)) >>>
    mreturn (if fits then extraSectors - (32 - used) else extraSectors).

Definition ExtendAllocate (extraFileSize : Z) : M FhState bool :=
  let! s := mget in
  let nb := numBytes (fh_hdr s) in
  let ns := numSectors (fh_hdr s) in
  if divRoundUp (i32 (nb + extraFileSize)) SectorSize <=? ns then
    mod_hdr (h_sizes (i32 (nb + extraFileSize)) ns) >>> mreturn true
  else
    mod_hdr (h_sizes (i32 (nb + extraFileSize)) ns) >>>
    let extraSectors := divRoundUp extraFileSize SectorSize in
    let! c := on_map BitMap_NumClear in
    if c <? extraSectors then mreturn false
    else
      let initial := divRoundUp ns 32 in
      let entries := divRoundUp (extraSectors + ns) 32 in
      let! tempNumSectors := extend_last_block ns extraSectors in
      let! _ := mfold (seqZ initial (entries - initial)) tempNumSectors new_index_block in
      mod_hdr (fun h => h_sizes (numBytes h) (ns + extraSectors) h) >>>
      mreturn true.
End filehdr.

(** One round of Deallocate: the data sectors of an index sector, then itself. *)
Definition free_index_block (tempNumSectors i : Z) : M FhState Z :=
  let! p := index_entry i in
  let! b := on_map (BitMap_Test p) in
  ASSERT b >>>
  let! bs := on_fs (fs_ReadSector p) in
  let t := ints_of_bytes 32 bs in
  mfor (seqZ 0 (if tempNumSectors <? 32 then tempNumSectors else 32))
    (fun j => let! d := mlift t.[j] in on_map (BitMap_Clear d)) >>>
  let! p := index_entry i in
  on_map (BitMap_Clear p) >>>
  mreturn (if tempNumSectors <? 32 then tempNumSectors else tempNumSectors - 32).

Definition Deallocate : M FhState unit :=
  let! s := mget in
  let ns := numSectors (fh_hdr s) in
  let! _ := mfold (seqZ 0 (divRoundUp ns 32)) ns free_index_block in
  mreturn tt.

(** FetchFrom and WriteBack move the object as it is in memory. *)
Definition FetchFrom (sector : Z) : M FsState FileHeader :=
  let! bs := fs_ReadSector sector in mreturn (hdr_of_bytes bs).
Definition WriteBack (h : FileHeader) (sector : Z) : M FsState unit :=
  fs_WriteSector sector (hdr_bytes h).

Definition ByteToSector (h : FileHeader) (offset : Z) : M FsState Z :=
  let i := Z.quot offset (SectorSize * 32) in
  let i_offset := Z.quot (Z.rem offset (SectorSize * 32)) SectorSize in
  let! p := mlift (primaryIndexTable h).[i] in
  let! bs := fs_ReadSector p in
  mlift (ints_of_bytes 32 bs).[i_offset].

Definition FileLength (h : FileHeader) : Z := numBytes h.

(** * Printing a file

    What Print writes to the terminal: the fields of the header, then the text
    of the contents. *)
Record Printed := mkPrinted {
  pr_fileType : Z;
  pr_times    : list Z;
  pr_size     : Z;
  pr_blocks   : list Z;
  pr_contents : list Z
}.

(** printf of "%c" for a printable character, of "\%x" for the others. *)
Definition hex_digit (d : Z) : Z := if d <? 10 then 48 + d else 87 + d.
Definition print_char (c : Z) : list Z :=
  if (32 <=? c) && (c <=? 126) then [c]
  else 92 :: (if c <? 16 then [hex_digit c] else [hex_digit (c / 16); hex_digit (c mod 16)]).

(** A sector of [data], when [k] bytes of the file were shown before: the new
    [k] and the text. *)
Definition Print_sector (nb k : Z) (data : list Z) : Z * list Z :=
  let shown := slice data 0 (Z.min SectorSize (nb - k)) in
  (k + Z.of_nat (length shown), shown ≫= print_char).

(** The sectors that one index sector lists; the number of sectors left is the
    same in every round. *)
Definition Print_block (h : FileHeader) (kt : Z * list Z) (i : Z) : M FsState (Z * list Z) :=
  let! p := mlift (primaryIndexTable h).[i] in
  let! bs := fs_ReadSector p in
  let! kt := mfold (seqZ 0 (if numSectors h <? 32 then numSectors h else 32)) kt (fun kt m =>
    let! d := mlift (ints_of_bytes 32 bs).[m] in
    let! data := fs_ReadSector d in
    let r := Print_sector (numBytes h) kt.1 data in
    mreturn (r.1, kt.2 ++ r.2)) in
  mreturn (kt.1, kt.2 ++ [10]).
Definition Print (h : FileHeader) : M FsState Printed :=
  let entries := divRoundUp (numSectors h) 32 in
  let! blocks := mfold (seqZ 0 entries) [] (fun l i =>
    let! p := mlift (primaryIndexTable h).[i] in mreturn (l ++ [p])) in
  let! kt := mfold (seqZ 0 entries) (0, []) (Print_block h) in
  mreturn (mkPrinted (fileType h) [createTime h; lastVisitTime h; lastWriteTime h] (numBytes h)
             blocks kt.2).

(** * The sectors of a file *)
Abbreviation block := (Z * list Z)%type.

Definition data_of (blocks : list block) : list Z := blocks ≫= snd.
Definition sectors_of (blocks : list block) : list Z := blocks ≫= (fun b => b.1 :: b.2).

(** An index sector on disk that lists the data sectors [ds] first. *)
Definition index_block (fs : FsState) (b : block) : Prop :=
  exists bs, (fs_sectors fs).[b.1] = Some bs /\ take (length b.2) (ints_of_bytes 32 bs) = b.2.

(** Full index sectors, but for the last one: [n] data sectors in all. *)
Fixpoint shaped (blocks : list block) (n : Z) : Prop :=
  match blocks with
  | [] => n = 0
  | b :: r => 0 < n /\ Z.of_nat (length b.2) = Z.min 32 n /\ shaped r (n - Z.min 32 n)
  end.

Record layout (fs : FsState) (h : FileHeader) (blocks : list block) : Prop := {
  lay_shape : shaped blocks (numSectors h);
  lay_table : Z.of_nat (length (primaryIndexTable h)) = NumDirect;
  lay_index : forall i b, blocks.[i] = Some b -> (primaryIndexTable h).[i] = Some b.1;
  lay_disk  : Forall (index_block fs) blocks;
  lay_nodup : NoDup (sectors_of blocks);
  lay_range : Forall (fun n => 0 <= n < NumSectors) (sectors_of blocks)
}.

Section block_lemmas.
Implicit Types (blocks : list block) (b : block).

Lemma data_of_cons b blocks : data_of (b :: blocks) = b.2 ++ data_of blocks.
Proof. reflexivity. Qed.
Lemma sectors_of_cons b blocks : sectors_of (b :: blocks) = b.1 :: b.2 ++ sectors_of blocks.
Proof. reflexivity. Qed.
Lemma data_of_app l1 l2 : data_of (l1 ++ l2) = data_of l1 ++ data_of l2.
Proof. apply bind_app. Qed.
Lemma sectors_of_app l1 l2 : sectors_of (l1 ++ l2) = sectors_of l1 ++ sectors_of l2.
Proof. apply bind_app. Qed.

Lemma shaped_nonneg blocks n : shaped blocks n -> 0 <= n.
Proof. destruct blocks; cbn; lia. Qed.

Lemma shaped_length blocks n :
  shaped blocks n -> Z.of_nat (length blocks) = divRoundUp n 32 /\ Z.of_nat (length (data_of blocks)) = n.
Proof.
  revert n. induction blocks as [|b r IH]; cbn [shaped]; intros n.
  - intros ->. split; reflexivity.
  - intros (Hn & Hb & Hr). pose proof (shaped_nonneg _ _ Hr). destruct (IH _ Hr) as [IH1 IH2].
    rewrite data_of_cons, length_app. split; [|lia]. cbn [length]. rewrite Nat2Z.inj_succ, IH1.
    destruct (Z_le_gt_dec 32 n).
    + rewrite Z.min_l by lia. unfold divRoundUp. rewrite !Z.quot_div_nonneg, !Z.rem_mod_nonneg by lia.
      replace n with (n - 32 + 1 * 32) at 3 4 by lia. rewrite Z.div_add, Z.mod_add by lia. lia.
    + rewrite Z.min_r, Z.sub_diag by lia. unfold divRoundUp.
      rewrite !Z.quot_div_nonneg, !Z.rem_mod_nonneg by lia.
      rewrite (Z.div_small n), (Z.mod_small n) by lia. destruct (Z.ltb_spec 0 n); [reflexivity|lia].
Qed.

(** The data sector with number [l] is entry [l mod 32] of block [l / 32]. *)
Lemma data_of_lookup blocks n l :
  shaped blocks n -> 0 <= l < n ->
  exists b d, blocks.[l / 32] = Some b /\ b.2.[l mod 32] = Some d /\ (data_of blocks).[l] = Some d.
Proof.
  revert n l. induction blocks as [|b r IH]; cbn [shaped]; intros n l; [lia|].
  intros (Hn & Hb & Hr) Hl. rewrite data_of_cons. destruct (Z_lt_le_dec l 32).
  - rewrite Z.div_small, Z.mod_small by lia.
    destruct (zlookup_lt b.2 l) as [d Ed]; [lia|]. exists b, d. split; [reflexivity|]. split; [exact Ed|].
    unfold zlookup in *. destruct (0 <=? l); [|discriminate]. rewrite lookup_app_l; [exact Ed|].
    now apply lookup_lt_Some in Ed.
  - rewrite Z.min_l in Hb, Hr by lia. destruct (IH (n - 32) (l - 32) Hr) as (b' & d & E1 & E2 & E3); [lia|].
    replace ((l - 32) / 32) with (l / 32 - 1) in E1 by (replace (l - 32) with (l + (-1) * 32) by lia; rewrite Z.div_add by lia; lia).
    replace ((l - 32) mod 32) with (l mod 32) in E2 by (replace (l - 32) with (l + (-1) * 32) by lia; now rewrite Z.mod_add by lia).
    exists b', d. split; [|split; [exact E2|]].
    + apply zlookup_Some in E1 as [Hr1 E1]. unfold zlookup. destruct (Z.leb_spec 0 (l / 32)); [|lia].
      replace (Z.to_nat (l / 32)) with (S (Z.to_nat (l / 32 - 1))) by lia. exact E1.
    + apply zlookup_Some in E3 as [Hr3 E3]. unfold zlookup. destruct (Z.leb_spec 0 l); [|lia].
      rewrite lookup_app_r by lia. rewrite <- E3. f_equal. lia.
Qed.

Lemma index_block_lookup fs b bs l d :
  (fs_sectors fs).[b.1] = Some bs -> index_block fs b -> b.2.[l] = Some d ->
  (ints_of_bytes 32 bs).[l] = Some d.
Proof.
  intros E (bs' & E' & Ht) Hd. rewrite E in E'. injection E' as <-.
  apply zlookup_Some in Hd as [Hr Hd]. unfold zlookup. destruct (Z.leb_spec 0 l); [|lia].
  rewrite <- Ht in Hd. apply lookup_take_Some in Hd as [Hd _]. exact Hd.
Qed.

Lemma data_sector_range fs h blocks l d :
  layout fs h blocks -> (data_of blocks).[l] = Some d -> 0 <= d < NumSectors.
Proof.
  intros Hl Hd. apply zlookup_In in Hd. pose proof (lay_range _ _ _ Hl) as Hr.
  eapply Forall_forall in Hr; [exact Hr|]. unfold data_of, sectors_of in *.
  apply list_elem_of_bind in Hd as (b & Hd & Hb). apply list_elem_of_bind. exists b. split; [now right|exact Hb].
Qed.

Lemma index_sector_range fs h blocks i b :
  layout fs h blocks -> blocks.[i] = Some b -> 0 <= b.1 < NumSectors.
Proof.
  intros Hl Hb. apply zlookup_In in Hb. pose proof (lay_range _ _ _ Hl) as Hr.
  eapply Forall_forall in Hr; [exact Hr|]. apply list_elem_of_bind. exists b. split; [left|exact Hb].
Qed.
End block_lemmas.

Lemma length_sectors_of blocks n :
  shaped blocks n -> Z.of_nat (length (sectors_of blocks)) = n + divRoundUp n 32.
Proof.
  intros Hs. destruct (shaped_length _ _ Hs) as [H1 H2].
  assert (H3 : length (sectors_of blocks) = (length blocks + length (data_of blocks))%nat).
  { clear. induction blocks as [|b r IH]; [reflexivity|]. rewrite sectors_of_cons, data_of_cons. cbn [length].
    rewrite !length_app, IH. lia. }
  lia.
Qed.

(** ByteToSector finds the data sector that holds a byte of the file. *)
Lemma ByteToSector_run fs h blocks off :
  layout fs h blocks -> 0 <= off < SectorSize * numSectors h ->
  exists d, (data_of blocks).[off / SectorSize] = Some d /\ ByteToSector h off fs = Ok (d, fs).
Proof.
  intros Hl Hoff. unfold SectorSize in Hoff.
  destruct (data_of_lookup blocks (numSectors h) (off / 128)) as (b & d & Eb & Ed & E);
    [apply Hl|split; [apply Z.div_pos; lia|apply Z.div_lt_upper_bound; lia]|].
  exists d. split; [exact E|].
  pose proof (lay_index _ _ _ Hl _ _ Eb) as Et. pose proof (index_sector_range _ _ _ _ _ Hl Eb) as Hr.
  assert (Hb : index_block fs b) by (eapply zlookup_Forall; [apply Hl|exact Eb]).
  pose proof Hb as (bs & Es & _).
  unfold ByteToSector, SectorSize. rewrite Z.quot_div_nonneg, Z.rem_mod_nonneg by lia.
  rewrite Z.quot_div_nonneg by (try lia; apply Z.mod_pos_bound; lia).
  rewrite <- Z.div_div by lia.
  replace (off mod (128 * 32) / 128) with ((off / 128) mod 32).
  2:{ rewrite Z.rem_mul_r by lia. rewrite (Z.mul_comm 128 (_ mod 32)), Z.div_add by lia.
      rewrite (Z.div_small (off mod 128)) by (apply Z.mod_pos_bound; lia). lia. }
  rewrite Et. mstep_to b.1 fs. mstep_by (fs_ReadSector_run b.1 fs bs Hr Es).
  now rewrite (index_block_lookup fs b bs _ d Es Hb Ed).
Qed.

(** * Allocation *)
Section alloc_lemmas.
Implicit Types st : FhState.

Lemma find_run st p F :
  bitmap_wf (fh_map st) -> free_bits (fh_map st) = p :: F ->
  exists b', on_map BitMap_Find st = Ok (p, mkFhState (fh_hdr st) b' (fh_fs st)) /\
    bitmap_wf b' /\ same_shape (fh_map st) b' /\ free_bits b' = F /\ 0 <= p < numBits (fh_map st).
Proof.
  intros Hwf Hf. destruct (BitMap_Find_cons _ _ _ Hwf Hf) as (b' & E & Hwf' & Hs & Hf' & Hp & _).
  exists b'. unfold on_map. rewrite E. auto.
Qed.

Lemma same_shape_trans b1 b2 b3 : same_shape b1 b2 -> same_shape b2 b3 -> same_shape b1 b3.
Proof. unfold same_shape. intuition congruence. Qed.

Lemma fill_index_run (m : nat) : forall a t st,
  bitmap_wf (fh_map st) -> (m <= length (free_bits (fh_map st)))%nat ->
  0 <= a -> a + Z.of_nat m <= Z.of_nat (length t) ->
  exists b', fill_index (seqZ a (Z.of_nat m)) t st =
      Ok (splice t a (take m (free_bits (fh_map st))), mkFhState (fh_hdr st) b' (fh_fs st)) /\
    bitmap_wf b' /\ same_shape (fh_map st) b' /\ free_bits b' = drop m (free_bits (fh_map st)).
Proof.
  induction m as [|m IH]; intros a t st Hwf Hm Ha Hl.
  - exists (fh_map st). split; [|split; [exact Hwf|split; [now split|reflexivity]]].
    rewrite take_0, splice_nil. now destruct st.
  - destruct (free_bits (fh_map st)) as [|p F] eqn:Ef; [cbn in Hm; lia|].
    destruct (find_run st p F Hwf Ef) as (b1 & E1 & Hwf1 & Hs1 & Hf1 & _).
    rewrite seqZ_cons by lia. unfold fill_index. cbn [mfold].
    set (st1 := mkFhState (fh_hdr st) b1 (fh_fs st)) in *.
    rewrite (mthen_step _ _ _ (<[Z.to_nat a := p]> t) st1).
    2:{ mstep_by E1. now rewrite zupd_lt by lia. }
    destruct (IH (Z.succ a) (<[Z.to_nat a := p]> t) st1) as (b' & E & Hwf' & Hs' & Hf');
      [exact Hwf1|cbn in Hm |- *; rewrite Hf1; lia|lia|rewrite length_insert; lia|].
    replace (Z.pred (Z.of_nat (S m))) with (Z.of_nat m) by lia.
    exists b'. split; [|split; [exact Hwf'|split; [exact (same_shape_trans _ _ _ Hs1 Hs')|]]].
    + unfold fill_index in E. cbn beta. rewrite E. cbn [fh_map st1 fh_hdr fh_fs]. rewrite Hf1. cbn [firstn].
      rewrite <- Z.add_1_r, splice_cons; [reflexivity|lia|]. rewrite length_take. lia.
    + cbn [fh_map st1] in Hf'. now rewrite Hf', Hf1.
Qed.

(** What the bitmap knows: taking the first [k] free sectors. *)
Record took (b b' : BitMap) (k : nat) : Prop := {
  tk_wf    : bitmap_wf b';
  tk_shape : same_shape b b';
  tk_free  : free_bits b' = drop k (free_bits b)
}.

Lemma took_trans b1 b2 b3 j k : took b1 b2 j -> took b2 b3 k -> took b1 b3 (j + k).
Proof.
  intros [A1 A2 A3] [B1 B2 B3]. split; [exact B1|exact (same_shape_trans _ _ _ A2 B2)|].
  now rewrite B3, A3, drop_drop.
Qed.

Lemma new_index_block_run junk temp i st p F :
  bitmap_wf (fh_map st) -> free_bits (fh_map st) = p :: F -> numBits (fh_map st) = NumSectors ->
  0 < temp -> Z.min 32 temp <= Z.of_nat (length F) -> fs_wf (fh_fs st) -> length junk = 32%nat ->
  Z.of_nat (length (primaryIndexTable (fh_hdr st))) = NumDirect -> 0 <= i < NumDirect ->
  let ds := take (Z.to_nat (Z.min 32 temp)) F in
  exists b', new_index_block junk temp i st =
      Ok (if temp <? 32 then temp else temp - 32,
          mkFhState (h_table (<[Z.to_nat i := p]> (primaryIndexTable (fh_hdr st))) (fh_hdr st)) b'
            (with_sectors (<[Z.to_nat p := map_bytes (splice junk 0 ds)]> (fs_sectors (fh_fs st))) (fh_fs st))) /\
    took (fh_map st) b' (S (Z.to_nat (Z.min 32 temp))).
Proof.
  intros Hwf Hf Hnb Ht HF Hfs Hj Htab Hi ds.
  destruct (find_run st p F Hwf Hf) as (b1 & E1 & Hwf1 & Hs1 & Hf1 & Hp). rewrite Hnb in Hp.
  set (t1 := <[Z.to_nat i := p]> (primaryIndexTable (fh_hdr st))).
  set (st1 := mkFhState (fh_hdr st) b1 (fh_fs st)) in *.
  set (st2 := mkFhState (h_table t1 (fh_hdr st)) b1 (fh_fs st)).
  unfold new_index_block. mstep_by E1.
  rewrite (mthen_step _ _ _ tt st2).
  2:{ unfold set_index_entry. mstep_to st1 st1. cbn [fh_hdr st1]. now rewrite zupd_lt by lia. }
  replace (if temp <? 32 then temp else 32) with (Z.of_nat (Z.to_nat (Z.min 32 temp)))
    by (destruct (Z.ltb_spec temp 32); lia).
  destruct (fill_index_run (Z.to_nat (Z.min 32 temp)) 0 junk st2) as (b2 & E2 & Hwf2 & Hs2 & Hf2);
    [exact Hwf1|cbn [fh_map st2]; rewrite Hf1; lia|lia|lia|].
  mstep_by E2. cbn [fh_map st2 fh_hdr fh_fs] in *. rewrite Hf1 in *. fold ds.
  set (st3 := mkFhState (h_table t1 (fh_hdr st)) b2 (fh_fs st)).
  rewrite (mthen_step _ _ _ p st3).
  2:{ unfold index_entry. mstep_to st3 st3. cbn [fh_hdr st3 h_table primaryIndexTable].
      unfold t1. now rewrite zlookup_insert_eq by lia. }
  exists b2. split.
  - unfold on_fs at 1, mthen. cbn [fh_fs st3 fh_hdr fh_map].
    rewrite fs_WriteSector_run by assumption. reflexivity.
  - split; [exact Hwf2|exact (same_shape_trans _ _ _ Hs1 Hs2)|]. rewrite Hf2, Hf. reflexivity.
Qed.

Lemma sector_number_i32 n : 0 <= n < NumSectors -> is_i32 n.
Proof. unfold is_i32, NumSectors, SectorsPerTrack, NumTracks. lia. Qed.

Lemma divRoundUp_32 n :
  0 <= n -> divRoundUp n 32 = if decide (n = 0) then 0 else 1 + divRoundUp (n - Z.min 32 n) 32.
Proof.
  intros Hn. case_decide as E; [subst; reflexivity|]. unfold divRoundUp.
  rewrite !Z.quot_div_nonneg, !Z.rem_mod_nonneg by lia.
  destruct (Z_le_gt_dec 32 n).
  - rewrite Z.min_l by lia. replace n with (n - 32 + 1 * 32) at 1 2 by lia. rewrite Z.div_add, Z.mod_add by lia. lia.
  - rewrite Z.min_r, Z.sub_diag, (Z.div_small n), (Z.mod_small n) by lia. destruct (Z.ltb_spec 0 n); [reflexivity|lia].
Qed.

Lemma free_bits_range b n : free_bits b = n -> numBits b = NumSectors -> Forall (fun i => 0 <= i < NumSectors) n.
Proof. intros <- Hn. apply Forall_forall. intros i Hi. apply elem_of_free_bits in Hi. now rewrite Hn in Hi. Qed.
End alloc_lemmas.

Section loop_lemmas.
Context {junk : list Z}.
Hypothesis junk_length : length junk = 32%nat.
Hypothesis junk_ints : Forall is_i32 junk.
Implicit Types st : FhState.

Lemma index_block_written fs p ds :
  fs_wf fs -> 0 <= p < NumSectors -> (length ds <= 32)%nat -> Forall (fun n => 0 <= n < NumSectors) ds ->
  index_block (with_sectors (<[Z.to_nat p := map_bytes (splice junk 0 ds)]> (fs_sectors fs)) fs) (p, ds).
Proof.
  intros Hfs Hp Hl Hr. exists (map_bytes (splice junk 0 ds)). cbn [fs_sectors with_sectors fst snd]. split.
  - apply zlookup_insert_eq. now rewrite (fw_length _ Hfs).
  - assert (Hlen : length (splice junk 0 ds) = 32%nat) by (rewrite length_splice by lia; exact junk_length).
    rewrite <- Hlen at 1. rewrite ints_of_map_bytes.
    + pose proof (slice_splice_eq junk 0 ds) as Hs. unfold slice in Hs. rewrite Nat2Z.id in Hs. apply Hs; lia.
    + apply Forall_splice; [exact junk_ints|]. eapply Forall_impl; [exact Hr|]. apply sector_number_i32.
Qed.

Lemma index_block_frame fs l' b :
  index_block fs b -> l'.[b.1] = (fs_sectors fs).[b.1] -> index_block (with_sectors l' fs) b.
Proof. intros (bs & E & Ht) He. exists bs. split; [cbn; congruence|exact Ht]. Qed.

(** The effect of the loop: [blocks] come from the front of the free list. *)
Record allocated st (i : Z) (temp : Z) (blocks : list block) (t' : list Z) (b' : BitMap)
    (l' : list (list Z)) : Prop := {
  al_shape : shaped blocks temp;
  al_order : sectors_of blocks = take (Z.to_nat temp + length blocks) (free_bits (fh_map st));
  al_took  : took (fh_map st) b' (Z.to_nat temp + length blocks);
  al_tlen  : length t' = length (primaryIndexTable (fh_hdr st));
  al_new   : forall k b, blocks.[k] = Some b -> t'.[i + k] = Some b.1;
  al_old   : forall j, j < i -> t'.[j] = (primaryIndexTable (fh_hdr st)).[j];
  al_fs    : fs_wf (with_sectors l' (fh_fs st));
  al_disk  : Forall (index_block (with_sectors l' (fh_fs st))) blocks;
  al_other : forall q, 0 <= q -> (q ∉ sectors_of blocks) -> l'.[q] = (fs_sectors (fh_fs st)).[q];
  al_ints  : Forall is_i32 (primaryIndexTable (fh_hdr st)) -> Forall is_i32 t'
}.

Lemma allocated_nil st i : bitmap_wf (fh_map st) -> fs_wf (fh_fs st) ->
  allocated st i 0 [] (primaryIndexTable (fh_hdr st)) (fh_map st) (fs_sectors (fh_fs st)).
Proof.
  intros Hwf Hfs. split; try reflexivity.
  - split; [exact Hwf|now split|reflexivity].
  - intros k b Hk. unfold zlookup in Hk. destruct (0 <=? k); discriminate.
  - destruct (fh_fs st); exact Hfs.
  - constructor.
  - auto.
Qed.

(** One more block in front. *)
Lemma allocated_cons st i temp p F b1 blocks t' b' l' :
  bitmap_wf (fh_map st) -> numBits (fh_map st) = NumSectors -> fs_wf (fh_fs st) ->
  0 < temp -> Z.min 32 temp <= Z.of_nat (length F) -> free_bits (fh_map st) = p :: F ->
  0 <= i < Z.of_nat (length (primaryIndexTable (fh_hdr st))) ->
  let c := Z.to_nat (Z.min 32 temp) in
  let st1 := mkFhState (h_table (<[Z.to_nat i := p]> (primaryIndexTable (fh_hdr st))) (fh_hdr st)) b1
            (with_sectors (<[Z.to_nat p := map_bytes (splice junk 0 (take c F))]> (fs_sectors (fh_fs st))) (fh_fs st)) in
  took (fh_map st) b1 (S c) ->
  allocated st1 (i + 1) (temp - Z.min 32 temp) blocks t' b' l' ->
  allocated st i temp ((p, take c F) :: blocks) t' b' l'.
Proof.
  intros Hwf Hnb Hfs Ht HF Hf Hi c st1 Htk [A1 A2 A3 A4 A5 A6 A7 A8 A9 A10].
  pose proof (free_bits_range _ _ Hf Hnb) as Hr. pose proof (NoDup_free_bits (fh_map st)) as Hnd. rewrite Hf in Hnd.
  apply NoDup_cons in Hnd as [HpF HndF]. apply Forall_cons in Hr as [Hp HrF].
  assert (Hc : length (take c F) = c) by (rewrite length_take; lia).
  assert (Hfree1 : free_bits b1 = drop c F) by (rewrite (tk_free _ _ _ Htk), Hf; reflexivity).
  cbn [fh_map st1] in A2, A3. rewrite Hfree1 in A2.
  assert (Hpn : p ∉ sectors_of blocks).
  { rewrite A2. intros Hin. apply HpF. apply elem_of_take in Hin as (k & Hk & _). rewrite lookup_drop in Hk. eapply list_elem_of_lookup_2, Hk. }
  split.
  - cbn [shaped snd]. rewrite Hc. split; [exact Ht|]. split; [lia|exact A1].
  - rewrite sectors_of_cons, A2, Hf. cbn [fst snd length].
    replace (Z.to_nat temp + S (length blocks))%nat with (S (c + (Z.to_nat (temp - Z.min 32 temp) + length blocks))) by lia.
    cbn [firstn]. f_equal. apply take_take_drop.
  - replace (Z.to_nat temp + length ((p, take c F) :: blocks))%nat
      with (S c + (Z.to_nat (temp - Z.min 32 temp) + length blocks))%nat by (cbn [length]; lia).
    eapply took_trans; eauto.
  - rewrite A4. cbn. apply length_insert.
  - intros k b Hk. destruct (decide (k = 0)) as [->|Hk0].
    + injection Hk as <-. rewrite Z.add_0_r, A6 by lia. cbn [st1 fh_hdr h_table primaryIndexTable]. now apply zlookup_insert_eq.
    + assert (0 <= k) by (apply zlookup_Some in Hk; lia). replace (i + k) with (i + 1 + (k - 1)) by lia. apply A5.
      rewrite <- Hk. replace k with (k - 1 + 1) at 2 by lia. symmetry. apply zlookup_cons_S. lia.
  - intros j Hj. rewrite A6 by lia. cbn [st1 fh_hdr h_table primaryIndexTable]. apply zlookup_insert_ne; lia.
  - exact A7.
  - constructor; [|exact A8].
    apply (index_block_frame (with_sectors (<[Z.to_nat p := map_bytes (splice junk 0 (take c F))]> (fs_sectors (fh_fs st))) (fh_fs st))).
    + apply index_block_written; [exact Hfs|exact Hp|lia|now apply Forall_take].
    + apply A9; [cbn; lia|exact Hpn].
  - intros q Hq0 Hq. rewrite sectors_of_cons in Hq. apply not_elem_of_cons in Hq as [Hqp Hq]. apply not_elem_of_app in Hq as [_ Hq].
    rewrite A9 by assumption. cbn [st1 fh_fs with_sectors fs_sectors]. apply zlookup_insert_ne; [lia|intros <-; now apply Hqp].
  - intros Ht'. apply A10. cbn [st1 fh_hdr h_table primaryIndexTable]. apply Forall_insert; [exact Ht'|now apply sector_number_i32].
Qed.

Lemma alloc_loop (n : nat) : forall i temp st,
  Z.of_nat n = divRoundUp temp 32 -> 0 <= temp ->
  bitmap_wf (fh_map st) -> numBits (fh_map st) = NumSectors -> fs_wf (fh_fs st) ->
  (Z.to_nat temp + n <= length (free_bits (fh_map st)))%nat ->
  Z.of_nat (length (primaryIndexTable (fh_hdr st))) = NumDirect -> 0 <= i -> i + Z.of_nat n <= NumDirect ->
  exists a blocks t' b' l',
    mfold (seqZ i (Z.of_nat n)) temp (new_index_block junk) st =
      Ok (a, mkFhState (h_table t' (fh_hdr st)) b' (with_sectors l' (fh_fs st))) /\
    allocated st i temp blocks t' b' l'.
Proof.
  induction n as [|n IH]; intros i temp st Hn Ht Hwf Hnb Hfs HF Htab Hi Hin; rewrite divRoundUp_32 in Hn by exact Ht;
    case_decide as E0; try (pose proof (divRoundUp_nonneg (temp - Z.min 32 temp) 32); lia).
  - subst temp. exists 0, [], (primaryIndexTable (fh_hdr st)), (fh_map st), (fs_sectors (fh_fs st)).
    split; [|now apply allocated_nil]. cbn. unfold mreturn. destruct st as [[] ? []]. reflexivity.
  - destruct (free_bits (fh_map st)) as [|p F] eqn:Ef; [cbn in HF; lia|]. cbn [length] in HF.
    destruct (new_index_block_run junk temp i st p F) as (b1 & E1 & Htk); auto; try lia.
    set (c := Z.to_nat (Z.min 32 temp)) in *. set (st1 := mkFhState _ b1 _) in E1.
    assert (Hrest : exists a blocks t' b' l',
      mfold (seqZ (i + 1) (Z.of_nat n)) (if temp <? 32 then temp else temp - 32) (new_index_block junk) st1 =
        Ok (a, mkFhState (h_table t' (fh_hdr st1)) b' (with_sectors l' (fh_fs st1))) /\
      allocated st1 (i + 1) (temp - Z.min 32 temp) blocks t' b' l').
    { assert (Hfs1 : fs_wf (fh_fs st1)).
      { apply fs_wf_write; [exact Hfs|]. apply is_sector_ints. rewrite length_splice; [exact junk_length|lia|].
        rewrite length_take. lia. }
      destruct (Z.ltb_spec temp 32).
      - assert (n = 0%nat) as -> by (rewrite Z.min_r, Z.sub_diag in Hn by lia; change (divRoundUp 0 32) with 0 in Hn; lia).
        exists temp, [], (primaryIndexTable (fh_hdr st1)), (fh_map st1), (fs_sectors (fh_fs st1)). split; [reflexivity|].
        rewrite Z.min_r, Z.sub_diag by lia. apply allocated_nil; [apply Htk|exact Hfs1].
      - rewrite Z.min_l in * by lia. apply IH; try lia; try apply Htk; try exact Hfs1.
        + cbn [fh_map st1]. destruct (tk_shape _ _ _ Htk) as [Hsn _]. congruence.
        + cbn [fh_map st1]. rewrite (tk_free _ _ _ Htk), Ef. cbn [skipn]. rewrite length_drop. lia.
        + cbn [st1 fh_hdr h_table primaryIndexTable]. rewrite length_insert. exact Htab. }
    destruct Hrest as (a & blocks & t' & b' & l' & E & Hal).
    exists a, ((p, take c F) :: blocks), t', b', l'. split.
    + rewrite seqZ_cons by lia. cbn [mfold]. mstep_by E1.
      replace (Z.pred (Z.of_nat (S n))) with (Z.of_nat n) by lia. rewrite <- Z.add_1_r. exact E.
    + eapply allocated_cons; eauto; lia.
Qed.
End loop_lemmas.

(** * Deallocation *)
Section dealloc_lemmas.
Implicit Types st : FhState.

(** Bits given back: all of [l] were in use. *)
Record freed (b b' : BitMap) (l : list Z) : Prop := {
  fr_wf    : bitmap_wf b';
  fr_shape : same_shape b b';
  fr_free  : free_bits b' ≡ₚ l ++ free_bits b
}.

Lemma freed_trans b1 b2 b3 l1 l2 : freed b1 b2 l1 -> freed b2 b3 l2 -> freed b1 b3 (l1 ++ l2).
Proof.
  intros [A1 A2 A3] [B1 B2 B3]. split; [exact B1|exact (same_shape_trans _ _ _ A2 B2)|].
  rewrite B3, A3, !app_assoc. f_equiv. apply Permutation_app_comm.
Qed.

Lemma bit_freed b b' l d :
  bitmap_wf b -> freed b b' l -> (d ∉ l) -> 0 <= d < numBits b -> bit b d = true -> bit b' d = true.
Proof.
  intros Hwf [_ [Hn _] Hf] Hd Hr Hb. destruct (bit b' d) eqn:E; [reflexivity|exfalso].
  assert (Hin : d ∈ free_bits b') by (apply elem_of_free_bits; split; [exact E|lia]).
  rewrite Hf in Hin. apply elem_of_app in Hin as [Hin|Hin]; [contradiction|].
  apply elem_of_free_bits in Hin as [Hin _]. congruence.
Qed.

Lemma Clear_run st d :
  bitmap_wf (fh_map st) -> 0 <= d < numBits (fh_map st) -> bit (fh_map st) d = true ->
  exists b', on_map (BitMap_Clear d) st = Ok (tt, mkFhState (fh_hdr st) b' (fh_fs st)) /\ freed (fh_map st) b' [d].
Proof.
  intros Hwf Hd Hb. destruct (BitMap_Clear_spec _ d Hwf Hd) as (b' & E & Hwf' & Hs & Hbit).
  exists b'. unfold on_map. rewrite E. split; [reflexivity|]. split; [exact Hwf'|exact Hs|].
  now apply Clear_free_bits.
Qed.

Lemma clear_run t ds : forall a st,
  0 <= a -> bitmap_wf (fh_map st) -> NoDup ds ->
  Forall (fun d => 0 <= d < numBits (fh_map st) /\ bit (fh_map st) d = true) ds ->
  (forall k d, ds.[k] = Some d -> t.[a + k] = Some d) ->
  exists b', mfor (seqZ a (Z.of_nat (length ds))) (fun j => let! d := mlift t.[j] in on_map (BitMap_Clear d)) st
      = Ok (tt, mkFhState (fh_hdr st) b' (fh_fs st)) /\ freed (fh_map st) b' ds.
Proof.
  induction ds as [|d ds IH]; intros a st Ha Hwf Hnd Hb Ht.
  - exists (fh_map st). split; [now destruct st|]. split; [exact Hwf|now split|reflexivity].
  - apply NoDup_cons in Hnd as [Hd Hnd]. apply Forall_cons in Hb as [[Hd1 Hd2] Hb].
    destruct (Clear_run st d Hwf Hd1 Hd2) as (b1 & E1 & F1).
    set (st1 := mkFhState (fh_hdr st) b1 (fh_fs st)) in E1.
    destruct (IH (a + 1) st1) as (b' & E' & F'); [lia|apply F1|exact Hnd| |intros k e Hk|].
    { cbn [fh_map st1]. destruct (fr_shape _ _ _ F1) as [Hn _].
      apply Forall_forall. intros e He. eapply Forall_forall in Hb as [Hr Hbit]; [|exact He].
      rewrite Hn. split; [exact Hr|]. eapply bit_freed; eauto. intros Hin.
      apply list_elem_of_singleton in Hin as ->. contradiction. }
    { assert (0 <= k) by (apply zlookup_Some in Hk; lia). rewrite <- Z.add_assoc, (Z.add_comm 1).
      apply Ht. now rewrite zlookup_cons_S. }
    exists b'. cbn [length]. rewrite seqZ_cons by lia. cbn [mfor].
    assert (Et : t.[a] = Some d) by (rewrite <- (Z.add_0_r a); now apply Ht).
    rewrite (mthen_step _ _ _ tt st1); [|rewrite Et; exact E1]. cbn beta.
    replace (Z.pred (Z.of_nat (S (length ds)))) with (Z.of_nat (length ds)) by lia. rewrite <- Z.add_1_r.
    split; [exact E'|]. exact (freed_trans _ _ _ _ _ F1 F').
Qed.

(** The bits of a file that is in use. *)
Definition in_use (b : BitMap) (l : list Z) : Prop := Forall (fun d => bit b d = true) l.

Lemma free_index_block_run st i temp b :
  bitmap_wf (fh_map st) -> numBits (fh_map st) = NumSectors ->
  (primaryIndexTable (fh_hdr st)).[i] = Some b.1 -> index_block (fh_fs st) b ->
  0 < temp -> Z.of_nat (length b.2) = Z.min 32 temp ->
  NoDup (b.1 :: b.2) -> Forall (fun d => 0 <= d < NumSectors) (b.1 :: b.2) -> in_use (fh_map st) (b.1 :: b.2) ->
  exists b', free_index_block temp i st =
      Ok (if temp <? 32 then temp else temp - 32, mkFhState (fh_hdr st) b' (fh_fs st)) /\
    freed (fh_map st) b' (b.1 :: b.2).
Proof.
  intros Hwf Hnb Ht Hb Htemp Hlen Hnd Hr Hu. destruct b as [p ds]. cbn [fst snd] in *.
  apply NoDup_cons in Hnd as [Hp Hnd]. apply Forall_cons in Hr as [Hpr Hr]. apply Forall_cons in Hu as [Hpu Hu].
  pose proof Hb as (bs & Es & _). cbn [fst] in Es. unfold free_index_block.
  rewrite (mthen_step _ _ _ p st) by (unfold index_entry; mstep_to st st; now rewrite Ht). cbn beta.
  rewrite (mthen_step _ _ _ true st).
  2:{ unfold on_map. rewrite BitMap_Test_spec by (auto; lia). rewrite Hpu. now destruct st. }
  mstep_to tt st.
  rewrite (mthen_step _ _ _ bs st).
  2:{ unfold on_fs. rewrite (fs_ReadSector_run p _ bs) by assumption. now destruct st. }
  replace (if temp <? 32 then temp else 32) with (Z.of_nat (length ds)) by (destruct (Z.ltb_spec temp 32); lia).
  destruct (clear_run (ints_of_bytes 32 bs) ds 0 st) as (b1 & E1 & F1); auto; [lia| |intros k d Hk|].
  { apply Forall_forall. intros d Hd. rewrite Hnb. split; [exact (proj1 (Forall_forall _ _) Hr d Hd)|exact (proj1 (Forall_forall _ _) Hu d Hd)]. }
  { rewrite Z.add_0_l. exact (index_block_lookup (fh_fs st) (p, ds) bs k d Es Hb Hk). }
  mstep_by E1. set (st1 := mkFhState (fh_hdr st) b1 (fh_fs st)).
  rewrite (mthen_step _ _ _ p st1) by (unfold index_entry; mstep_to st1 st1; cbn [fh_hdr st1]; now rewrite Ht). cbn beta.
  destruct (fr_shape _ _ _ F1) as [Hn1 _].
  destruct (Clear_run st1 p) as (b2 & E2 & F2); [apply F1|cbn [fh_map st1]; lia| |].
  { cbn [fh_map st1]. eapply bit_freed; eauto. lia. }
  mstep_by E2. exists b2. split; [reflexivity|].
  pose proof (freed_trans _ _ _ _ _ F1 F2) as [G1 G2 G3]. split; [exact G1|exact G2|].
  rewrite G3. apply Permutation_app; [|reflexivity]. symmetry. apply Permutation_cons_append.
Qed.

Lemma dealloc_loop blocks : forall i temp st,
  shaped blocks temp -> bitmap_wf (fh_map st) -> numBits (fh_map st) = NumSectors ->
  (forall k b, blocks.[k] = Some b -> (primaryIndexTable (fh_hdr st)).[i + k] = Some b.1) ->
  Forall (index_block (fh_fs st)) blocks -> NoDup (sectors_of blocks) ->
  Forall (fun d => 0 <= d < NumSectors) (sectors_of blocks) -> in_use (fh_map st) (sectors_of blocks) ->
  exists a b', mfold (seqZ i (Z.of_nat (length blocks))) temp free_index_block st =
      Ok (a, mkFhState (fh_hdr st) b' (fh_fs st)) /\ freed (fh_map st) b' (sectors_of blocks).
Proof.
  induction blocks as [|b blocks IH]; intros i temp st Hsh Hwf Hnb Ht Hd Hnd Hr Hu.
  - exists temp, (fh_map st). split; [now destruct st|]. split; [exact Hwf|now split|reflexivity].
  - rewrite sectors_of_cons in *. rewrite app_comm_cons in *. destruct Hsh as (Htemp & Hlen & Hsh).
    apply Forall_cons in Hd as [Hb Hd]. apply NoDup_app in Hnd as (Hnd1 & Hdis & Hnd2).
    apply Forall_app in Hr as [Hr1 Hr2]. apply Forall_app in Hu as [Hu1 Hu2].
    destruct (free_index_block_run st i temp b) as (b1 & E1 & F1); auto.
    { rewrite <- (Z.add_0_r i). now apply Ht. }
    set (st1 := mkFhState (fh_hdr st) b1 (fh_fs st)) in E1. destruct (fr_shape _ _ _ F1) as [Hn1 _].
    assert (Hu2' : in_use b1 (sectors_of blocks)).
    { apply Forall_forall. intros d Hin. eapply bit_freed; [exact Hwf|exact F1| | |].
      - intros Hin'. exact (Hdis d Hin' Hin).
      - eapply Forall_forall in Hr2; [|exact Hin]. lia.
      - exact (proj1 (Forall_forall _ _) Hu2 d Hin). }
    assert (Hrest : exists a b', mfold (seqZ (i + 1) (Z.of_nat (length blocks))) (if temp <? 32 then temp else temp - 32)
          free_index_block st1 = Ok (a, mkFhState (fh_hdr st1) b' (fh_fs st1)) /\ freed b1 b' (sectors_of blocks)).
    { destruct (Z.ltb_spec temp 32).
      - rewrite Z.min_r, Z.sub_diag in Hsh by lia. destruct blocks as [|? ?]; [|destruct Hsh; lia].
        exists temp, b1. split; [reflexivity|]. split; [apply F1|now split|reflexivity].
      - rewrite Z.min_l in Hsh by lia. apply IH; auto; [apply F1|cbn [fh_map st1]; lia|].
        intros k b' Hk. assert (0 <= k) by (apply zlookup_Some in Hk; lia).
        rewrite <- Z.add_assoc, (Z.add_comm 1). apply Ht. now rewrite zlookup_cons_S. }
    destruct Hrest as (a & b' & E' & F'). exists a, b'. split; [|exact (freed_trans _ _ _ _ _ F1 F')].
    cbn [length]. rewrite seqZ_cons by lia. cbn [mfold]. mstep_by E1.
    replace (Z.pred (Z.of_nat (S (length blocks)))) with (Z.of_nat (length blocks)) by lia.
    rewrite <- Z.add_1_r. exact E'.
Qed.
End dealloc_lemmas.

(** * Extension *)
Section extend_lemmas.
Implicit Types st : FhState.

Lemma shaped_app l1 l2 n1 n2 :
  shaped l1 n1 -> n1 mod 32 = 0 -> shaped l2 n2 -> shaped (l1 ++ l2) (n1 + n2).
Proof.
  revert n1. induction l1 as [|b r IH]; cbn [shaped app]; intros n1.
  - intros -> _. now rewrite Z.add_0_l.
  - intros (Hn & Hb & Hr) Hm H2. pose proof (shaped_nonneg _ _ H2).
    assert (32 <= n1) by (pose proof (Z.div_mod n1 32); lia).
    rewrite !Z.min_l in * by lia. split; [lia|]. split; [exact Hb|].
    replace (n1 + n2 - 32) with (n1 - 32 + n2) by lia. apply IH; [exact Hr| |exact H2].
    replace (n1 - 32) with (n1 + (-1) * 32) by lia. now rewrite Z.mod_add by lia.
Qed.

(** A file whose last index sector is not full. *)
Lemma shaped_last blocks n :
  shaped blocks n -> n mod 32 <> 0 ->
  exists pre b, blocks = pre ++ [b] /\ shaped pre (n - n mod 32) /\ Z.of_nat (length b.2) = n mod 32.
Proof.
  revert n. induction blocks as [|b r IH]; cbn [shaped]; intros n.
  - intros ->. contradiction.
  - intros (Hn & Hb & Hr) Hm. destruct (Z_lt_le_dec n 32).
    + rewrite Z.min_r in Hb, Hr by lia. rewrite Z.sub_diag in Hr. rewrite Z.mod_small in * by lia.
      destruct r as [|? ?]; [|destruct Hr; lia]. exists [], b. cbn. split; [reflexivity|]. split; lia.
    + rewrite Z.min_l in Hb, Hr by lia.
      assert (Hmod : (n - 32) mod 32 = n mod 32)
        by (replace (n - 32) with (n + (-1) * 32) by lia; now rewrite Z.mod_add by lia).
      destruct (IH (n - 32) Hr) as (pre & b' & -> & Hp & Hl); [lia|]. rewrite Hmod in *.
      exists (b :: pre), b'. split; [reflexivity|]. split; [|exact Hl]. cbn [shaped].
      pose proof (shaped_nonneg _ _ Hp). rewrite Z.min_l by lia. split; [lia|]. split; [exact Hb|].
      now replace (n - n mod 32 - 32) with (n - 32 - n mod 32) by lia.
Qed.

Lemma take_splice {A} (l : list A) a xs :
  0 <= a -> a + Z.of_nat (length xs) <= Z.of_nat (length l) ->
  take (Z.to_nat a + length xs) (splice l a xs) = take (Z.to_nat a) l ++ xs.
Proof.
  intros Ha Hl. unfold splice. rewrite app_assoc. apply take_app_length'.
  rewrite length_app, length_take. lia.
Qed.

Lemma ints_of_bytes_ok bs : is_sector bs -> length (ints_of_bytes 32 bs) = 32%nat /\ Forall is_i32 (ints_of_bytes 32 bs).
Proof.
  intros [Hl Hb]. unfold ints_of_bytes. unfold SectorSize in Hl.
  destruct (words_of_bytes_wf 32 bs Hb) as [H1 _]; [lia|]. rewrite length_fmap. split; [exact H1|].
  apply Forall_fmap, Forall_true. intros z. apply i32_range.
Qed.

(** More entries in an index sector that has room for them. *)
Lemma index_block_grown fs p ds bs xs :
  fs_wf fs -> 0 <= p < NumSectors -> (fs_sectors fs).[p] = Some bs ->
  take (length ds) (ints_of_bytes 32 bs) = ds -> (length ds + length xs <= 32)%nat ->
  Forall (fun n => 0 <= n < NumSectors) xs ->
  let fs' := with_sectors (<[Z.to_nat p := map_bytes (splice (ints_of_bytes 32 bs) (Z.of_nat (length ds)) xs)]> (fs_sectors fs)) fs in
  index_block fs' (p, ds ++ xs) /\ fs_wf fs'.
Proof.
  intros Hfs Hp E Ht Hl Hr fs'.
  assert (Hsec : is_sector bs) by (eapply zlookup_Forall; [apply Hfs|exact E]).
  destruct (ints_of_bytes_ok bs Hsec) as [Hi1 Hi2]. set (t := splice _ _ _) in fs'.
  assert (Htl : length t = 32%nat) by (unfold t; rewrite length_splice; lia).
  split; [|apply fs_wf_write; [exact Hfs|now apply is_sector_ints]].
  exists (map_bytes t). split; [apply zlookup_insert_eq; now rewrite (fw_length _ Hfs)|].
  rewrite <- Htl at 1. rewrite ints_of_map_bytes.
  - cbn [snd]. unfold t. rewrite length_app. pose proof (take_splice (ints_of_bytes 32 bs) (Z.of_nat (length ds)) xs) as H.
    rewrite Nat2Z.id, Ht in H. apply H; lia.
  - apply Forall_splice; [exact Hi2|]. eapply Forall_impl; [exact Hr|]. apply sector_number_i32.
Qed.

(** How many sectors the last index sector can still take. *)
Definition last_room (ns extra : Z) : Z :=
  if ns mod 32 =? 0 then 0 else Z.min (32 - ns mod 32) extra.

Lemma last_room_spec ns extra :
  0 <= ns -> 0 < extra ->
  let m := last_room ns extra in
  0 <= m <= extra /\ (extra - m = 0 \/ (ns + m) mod 32 = 0) /\
  divRoundUp (ns + m) 32 = divRoundUp ns 32 /\
  divRoundUp (extra + ns) 32 - divRoundUp ns 32 = divRoundUp (extra - m) 32.
Proof.
  intros Hns He m. unfold m, last_room, divRoundUp.
  rewrite !Z.quot_div_nonneg, !Z.rem_mod_nonneg by (try lia; destruct (ns mod 32 =? 0) eqn:E; bool_hyps;
    pose proof (Z.mod_pos_bound ns 32); lia).
  destruct (Z.eqb_spec (ns mod 32) 0) as [E|E].
  - rewrite Z.add_0_r, Z.sub_0_r. split; [lia|]. split; [now right|]. split; [reflexivity|].
    repeat match goal with |- context [?a <? ?b] => destruct (Z.ltb_spec a b) end;
      Z.to_euclidean_division_equations; lia.
  - pose proof (Z.mod_pos_bound ns 32 ltac:(lia)). split; [lia|].
    destruct (Z.min_spec (32 - ns mod 32) extra) as [[H1 ->]|[H1 ->]].
    + split; [right; Z.to_euclidean_division_equations; lia|].
      repeat match goal with |- context [?a <? ?b] => destruct (Z.ltb_spec a b) end;
        split; Z.to_euclidean_division_equations; lia.
    + split; [left; lia|].
      repeat match goal with |- context [?a <? ?b] => destruct (Z.ltb_spec a b) end;
        split; Z.to_euclidean_division_equations; lia.
Qed.

(** The effect of the first half: [m] more data sectors in the last block. *)
Record extended st (blocks : list block) (m : Z) (blocks1 : list block) (b1 : BitMap)
    (l1 : list (list Z)) : Prop := {
  ex_shape : shaped blocks1 (numSectors (fh_hdr st) + m);
  ex_index : fst <$> blocks1 = fst <$> blocks;
  ex_data  : data_of blocks1 = data_of blocks ++ take (Z.to_nat m) (free_bits (fh_map st));
  ex_perm  : sectors_of blocks1 ≡ₚ sectors_of blocks ++ take (Z.to_nat m) (free_bits (fh_map st));
  ex_took  : took (fh_map st) b1 (Z.to_nat m);
  ex_fs    : fs_wf (with_sectors l1 (fh_fs st));
  ex_disk  : Forall (index_block (with_sectors l1 (fh_fs st))) blocks1;
  ex_other : forall q, 0 <= q -> (q ∉ fst <$> blocks) -> l1.[q] = (fs_sectors (fh_fs st)).[q]
}.

Lemma extended_none st blocks :
  bitmap_wf (fh_map st) -> fs_wf (fh_fs st) -> layout (fh_fs st) (fh_hdr st) blocks ->
  extended st blocks 0 blocks (fh_map st) (fs_sectors (fh_fs st)).
Proof.
  intros Hwf Hfs L. split; try reflexivity.
  - rewrite Z.add_0_r. apply L.
  - now rewrite take_0, app_nil_r.
  - now rewrite take_0, app_nil_r.
  - split; [exact Hwf|now split|reflexivity].
  - now destruct (fh_fs st).
  - destruct (fh_fs st). apply L.
Qed.

Lemma extended_last st pre p ds bs m b1 :
  let xs := take (Z.to_nat m) (free_bits (fh_map st)) in
  let blocks := pre ++ [(p, ds)] in
  layout (fh_fs st) (fh_hdr st) blocks -> fs_wf (fh_fs st) -> numBits (fh_map st) = NumSectors ->
  shaped pre (numSectors (fh_hdr st) - Z.of_nat (length ds)) ->
  Z.of_nat (length ds) = numSectors (fh_hdr st) mod 32 -> (length ds <> 0)%nat ->
  0 <= m -> Z.of_nat (length ds) + m <= 32 -> (Z.to_nat m <= length (free_bits (fh_map st)))%nat ->
  (fs_sectors (fh_fs st)).[p] = Some bs -> took (fh_map st) b1 (Z.to_nat m) ->
  extended st blocks m (pre ++ [(p, ds ++ xs)]) b1
    (<[Z.to_nat p := map_bytes (splice (ints_of_bytes 32 bs) (Z.of_nat (length ds)) xs)]> (fs_sectors (fh_fs st))).
Proof.
  intros xs blocks L Hfs Hnb Hpre Hds Hne Hm Hroom Hfree Ebs Htk.
  assert (Hxs : length xs = Z.to_nat m) by (unfold xs; rewrite length_take; lia).
  assert (Hp : 0 <= p < NumSectors).
  { eapply (index_sector_range _ _ _ (Z.of_nat (length pre)) (p, ds) L). rewrite zlookup_nat. apply list_lookup_middle. reflexivity. }
  pose proof (lay_disk _ _ _ L) as Hd. apply Forall_app in Hd as [Hd1 Hd2].
  apply Forall_cons in Hd2 as [Hd2 _]. destruct Hd2 as (bs' & Ebs' & Ht). cbn [fst snd] in Ebs', Ht.
  rewrite Ebs in Ebs'. injection Ebs' as <-.
  assert (Hrx : Forall (fun n => 0 <= n < NumSectors) xs) by (apply Forall_take; exact (free_bits_range _ _ eq_refl Hnb)).
  destruct (index_block_grown (fh_fs st) p ds bs xs Hfs Hp Ebs Ht ltac:(lia) Hrx) as [Hg1 Hg2].
  assert (Hnp : forall b, b ∈ pre -> b.1 <> p).
  { intros b Hb E. pose proof (lay_nodup _ _ _ L) as Hnd. unfold blocks in Hnd. rewrite sectors_of_app in Hnd.
    apply NoDup_app in Hnd as (_ & Hdis & _). apply (Hdis p); [|left].
    apply list_elem_of_bind. exists b. split; [rewrite E; left|exact Hb]. }
  split.
  - replace (numSectors (fh_hdr st) + m) with (numSectors (fh_hdr st) - Z.of_nat (length ds) + (Z.of_nat (length ds) + m)) by lia.
    apply shaped_app; [exact Hpre|rewrite Hds; Z.to_euclidean_division_equations; lia|].
    cbn [shaped snd]. rewrite length_app, Hxs, Z.min_r by lia. lia.
  - unfold blocks. now rewrite !fmap_app.
  - unfold blocks. rewrite !data_of_app, !data_of_cons. cbn [snd data_of mbind list_bind]. now rewrite !app_nil_r, app_assoc.
  - unfold blocks. rewrite !sectors_of_app, !sectors_of_cons. cbn [fst snd sectors_of mbind list_bind].
    rewrite !app_nil_r, <- app_assoc. reflexivity.
  - exact Htk.
  - exact Hg2.
  - apply Forall_app. split; [|constructor; [exact Hg1|constructor]].
    apply Forall_forall. intros b Hb. apply index_block_frame; [exact (proj1 (Forall_forall _ _) Hd1 b Hb)|].
    apply zlookup_insert_ne; [lia|]. intros E. now apply (Hnp b Hb).
  - intros q Hq Hnin. apply zlookup_insert_ne; [lia|]. intros <-. apply Hnin. unfold blocks. rewrite fmap_app.
    apply elem_of_app. right. left.
Qed.

Lemma extend_last_run st blocks extra :
  let ns := numSectors (fh_hdr st) in
  let m := last_room ns extra in
  bitmap_wf (fh_map st) -> numBits (fh_map st) = NumSectors -> fs_wf (fh_fs st) ->
  layout (fh_fs st) (fh_hdr st) blocks -> 0 < extra ->
  (Z.to_nat extra <= length (free_bits (fh_map st)))%nat ->
  exists temp blocks1 b1 l1,
    extend_last_block ns extra st = Ok (temp, mkFhState (fh_hdr st) b1 (with_sectors l1 (fh_fs st))) /\
    extended st blocks m blocks1 b1 l1 /\ (temp = extra - m \/ extra - m = 0).
Proof.
  intros ns m Hwf Hnb Hfs L He Hfree.
  assert (Hns : 0 <= ns) by exact (shaped_nonneg _ _ (lay_shape _ _ _ L)).
  pose proof (Z.mod_pos_bound ns 32 ltac:(lia)) as Hmod.
  unfold extend_last_block. rewrite Z.rem_mod_nonneg by lia. unfold m, last_room.
  destruct (Z.eqb_spec (ns mod 32) 0) as [E0|E0].
  { exists extra, blocks, (fh_map st), (fs_sectors (fh_fs st)). split; [now destruct st as [? ? []]|].
    split; [now apply extended_none|]. left. lia. }
  set (used := ns mod 32) in *. set (k := Z.min (32 - used) extra).
  destruct (shaped_last blocks ns (lay_shape _ _ _ L) E0) as (pre & [p ds] & Eb & Hpre & Hds). fold used in Hpre, Hds.
  destruct (shaped_length _ _ (lay_shape _ _ _ L)) as [Hbl _]. fold ns in Hbl.
  assert (Hlast : blocks.[divRoundUp ns 32 - 1] = Some (p, ds)).
  { rewrite <- Hbl, Eb, length_app. cbn [length]. rewrite Nat.add_1_r, Nat2Z.inj_succ, Z.sub_1_r, Z.pred_succ, zlookup_nat.
    now apply list_lookup_middle. }
  pose proof (lay_index _ _ _ L _ _ Hlast) as Et. pose proof (index_sector_range _ _ _ _ _ L Hlast) as Hp. cbn [fst] in Et, Hp.
  assert (Hib : index_block (fh_fs st) (p, ds)) by (eapply zlookup_Forall; [apply L|exact Hlast]).
  pose proof Hib as (bs & Ebs & _). cbn [fst] in Ebs.
  destruct (ints_of_bytes_ok bs (zlookup_Forall _ _ _ _ (fw_bytes _ Hfs) Ebs)) as [Hil _].
  assert (Ei : index_entry (divRoundUp ns 32 - 1) st = Ok (p, st)) by (unfold index_entry; mstep_to st st; now rewrite Et).
  mstep_by Ei.
  rewrite (mthen_step _ _ _ bs st) by (unfold on_fs; rewrite (fs_ReadSector_run p _ bs Hp Ebs); now destruct st). cbn beta.
  replace (if 32 - used <=? extra then seqZ used (32 - used) else seqZ used extra) with (seqZ used (Z.of_nat (Z.to_nat k)))
    by (unfold k; destruct (Z.leb_spec (32 - used) extra); f_equal; lia).
  destruct (fill_index_run (Z.to_nat k) used (ints_of_bytes 32 bs) st) as (b1 & E1 & Hwf1 & Hs1 & Hf1); [exact Hwf|lia..|].
  mstep_by E1. set (xs := take (Z.to_nat k) (free_bits (fh_map st))). set (st1 := mkFhState (fh_hdr st) b1 (fh_fs st)).
  assert (Ei1 : index_entry (divRoundUp ns 32 - 1) st1 = Ok (p, st1)) by (unfold index_entry; mstep_to st1 st1; cbn [fh_hdr st1]; now rewrite Et).
  mstep_by Ei1.
  set (l1 := <[Z.to_nat p := map_bytes (splice (ints_of_bytes 32 bs) used xs)]> (fs_sectors (fh_fs st))).
  rewrite (mthen_step _ _ _ tt (mkFhState (fh_hdr st) b1 (with_sectors l1 (fh_fs st)))).
  2:{ unfold on_fs. cbn [fh_fs st1]. rewrite fs_WriteSector_run by assumption. reflexivity. }
  do 4 eexists. split; [reflexivity|]. split.
  - unfold l1. replace used with (Z.of_nat (length ds)) by exact Hds. rewrite Eb.
    apply extended_last; auto; try lia; try (rewrite <- Eb; exact L); try (cbn [snd] in Hds; unfold ns in *; lia).
    + cbn [snd] in Hds. rewrite Hds. exact Hpre.
    + now split.
  - unfold k. destruct (Z.leb_spec (32 - used) extra); lia.
Qed.
End extend_lemmas.

(** * Properties *)
Section alloc_properties.
Context `{!HostTime}.
Variable junk : list Z.
Hypothesis junk_length : length junk = 32%nat.
Hypothesis junk_ints : Forall is_i32 junk.
Implicit Types st : FhState.

(** The header that Allocate works on, before it takes any sector. *)
Definition alloc_start (fileSize ty : Z) st : FhState :=
  let fs := fh_fs st in
  mkFhState (h_created ty (time_at (fs_time_calls fs))
               (h_sizes fileSize (divRoundUp fileSize SectorSize) (fh_hdr st)))
    (fh_map st) (mkFsState (fs_sectors fs) (fs_mutex fs) (fs_array_mutex fs) (S (fs_time_calls fs))).

Lemma Allocate_start fileSize ty st :
  bitmap_wf (fh_map st) ->
  Allocate junk fileSize ty st =
    if Z.of_nat (length (free_bits (fh_map st))) <? divRoundUp fileSize SectorSize
    then Ok (false, alloc_start fileSize ty st)
    else (let! _ := mfold (seqZ 0 (divRoundUp (divRoundUp fileSize SectorSize) 32))
                      (divRoundUp fileSize SectorSize) (new_index_block junk) in mreturn true)
         (alloc_start fileSize ty st).
Proof.
  intros Hwf. set (s := alloc_start fileSize ty st).
  assert (En : on_map BitMap_NumClear s = Ok (Z.of_nat (length (free_bits (fh_map st))), s)).
  { unfold on_map. cbn [fh_map s alloc_start]. now rewrite BitMap_NumClear_spec. }
  assert (E : Allocate junk fileSize ty st = (let! c := on_map BitMap_NumClear in
      if c <? divRoundUp fileSize SectorSize then mreturn false
      else let! _ := mfold (seqZ 0 (divRoundUp (divRoundUp fileSize SectorSize) 32))
                       (divRoundUp fileSize SectorSize) (new_index_block junk) in mreturn true) s) by reflexivity.
  rewrite E. mstep_by En. now destruct (_ <? _).
Qed.

Lemma fs_wf_alloc_start fileSize ty st : fs_wf (fh_fs st) -> fs_wf (fh_fs (alloc_start fileSize ty st)).
Proof. intros []. now split. Qed.

(** A file laid out by the loop, with a header for its size. *)
Lemma layout_allocated st n blocks t' b' l' h :
  allocated st 0 n blocks t' b' l' ->
  Z.of_nat (length (primaryIndexTable (fh_hdr st))) = NumDirect -> numBits (fh_map st) = NumSectors ->
  primaryIndexTable h = t' -> numSectors h = n -> layout (with_sectors l' (fh_fs st)) h blocks.
Proof.
  intros [A1 A2 A3 A4 A5 A6 A7 A8 A9 A10] Ht Hn Hh Hs. split.
  - now rewrite Hs.
  - rewrite Hh, A4. exact Ht.
  - intros i b Hb. rewrite Hh. rewrite <- (Z.add_0_l i). now apply A5.
  - exact A8.
  - rewrite A2. pose proof (NoDup_free_bits (fh_map st)) as Hnd.
    rewrite <- (take_drop (Z.to_nat n + length blocks)) in Hnd. now apply NoDup_app in Hnd as [Hnd _].
  - rewrite A2. apply Forall_take. exact (free_bits_range _ _ eq_refl Hn).
Qed.

(** A file that Allocate laid out. *)
Record laid_out fileSize ty st st' blocks : Prop := {
  lo_layout : layout (fh_fs st') (fh_hdr st') blocks;
  lo_bytes  : numBytes (fh_hdr st') = fileSize;
  lo_number : numSectors (fh_hdr st') = divRoundUp fileSize SectorSize;
  lo_type   : fileType (fh_hdr st') = ty;
  lo_visits : numVisits (fh_hdr st') = numVisits (fh_hdr st);
  lo_order  : sectors_of blocks = take (length (sectors_of blocks)) (free_bits (fh_map st));
  lo_took   : took (fh_map st) (fh_map st') (length (sectors_of blocks));
  lo_fs     : fs_wf (fh_fs st');
  lo_other  : forall q, 0 <= q -> (q ∉ sectors_of blocks) ->
                (fs_sectors (fh_fs st')).[q] = (fs_sectors (fh_fs st)).[q];
  lo_hdr    : Forall is_i32 (hdr_ints (fh_hdr st)) -> is_i32 fileSize -> is_i32 ty ->
                Forall is_i32 (hdr_ints (fh_hdr st'))
}.

Lemma Allocate_success fileSize ty st :
  bitmap_wf (fh_map st) -> numBits (fh_map st) = NumSectors -> fs_wf (fh_fs st) ->
  Z.of_nat (length (primaryIndexTable (fh_hdr st))) = NumDirect -> 0 <= fileSize ->
  let n := divRoundUp fileSize SectorSize in
  n + divRoundUp n 32 <= Z.of_nat (length (free_bits (fh_map st))) -> divRoundUp n 32 <= NumDirect ->
  exists st' blocks, Allocate junk fileSize ty st = Ok (true, st') /\ laid_out fileSize ty st st' blocks.
Proof.
  intros Hwf Hnb Hfs Htab Hsz n Hroom Hidx.
  assert (Hn : 0 <= n) by (apply divRoundUp_nonneg; unfold SectorSize; lia).
  pose proof (divRoundUp_nonneg n 32 Hn ltac:(lia)) as Hn32.
  rewrite Allocate_start by exact Hwf. fold n.
  destruct (Z.ltb_spec (Z.of_nat (length (free_bits (fh_map st)))) n); [lia|].
  set (s := alloc_start fileSize ty st).
  destruct (alloc_loop junk_length junk_ints (Z.to_nat (divRoundUp n 32)) 0 n s)
    as (a & blocks & t' & b' & l' & E & Hal); try assumption; try lia.
  { now apply fs_wf_alloc_start. }
  { cbn [fh_map s alloc_start]. lia. }
  rewrite Z2Nat.id in E by lia. mstep_by E.
  pose proof (shaped_length _ _ (al_shape _ _ _ _ _ _ _ Hal)) as [Hbl _].
  pose proof (length_sectors_of _ _ (al_shape _ _ _ _ _ _ _ Hal)) as Hls.
  assert (Et : (Z.to_nat n + length blocks)%nat = length (sectors_of blocks)) by lia.
  do 2 eexists. split; [reflexivity|]. split; try reflexivity; cbn [fh_hdr fh_map fh_fs].
  - now apply (layout_allocated s n blocks t' b' l').
  - rewrite <- Et. apply Hal.
  - rewrite <- Et. apply Hal.
  - apply Hal.
  - apply Hal.
  - intros Hi Hsi Hty. pose proof (al_ints _ _ _ _ _ _ _ Hal) as Ha. destruct (fh_hdr st) as [c v w f t nv nb ns] eqn:Eh.
    unfold hdr_ints in Hi |- *. cbn [s alloc_start fh_hdr h_table h_created h_sizes createTime lastVisitTime lastWriteTime
      fileType primaryIndexTable numVisits numBytes numSectors] in Hi, Ha |- *. rewrite Eh in Ha |- *. cbn in Hi, Ha |- *.
    repeat (apply Forall_cons in Hi as [? Hi]). apply Forall_app in Hi as [Hi1 Hi2]. repeat (apply Forall_cons in Hi2 as [? Hi2]).
    repeat (apply Forall_cons; split; [assumption || apply time_at_int|]). apply Forall_app. split; [now apply Ha|].
    repeat (apply Forall_cons; split; [assumption|]). apply Forall_cons. split; [|constructor]. fold n.
    assert (n <= fileSize + 1); [|unfold is_i32 in *; change NumDirect with 25 in Hidx; pose proof (divRoundUp_enough n 32 Hn ltac:(lia)); lia].
    unfold n, divRoundUp, SectorSize. rewrite Z.quot_div_nonneg by lia.
    pose proof (Z.div_le_upper_bound fileSize 128 fileSize ltac:(lia) ltac:(lia)). destruct (0 <? _); lia.
Qed.

Lemma Allocate_refused fileSize ty st :
  bitmap_wf (fh_map st) -> Z.of_nat (length (free_bits (fh_map st))) < divRoundUp fileSize SectorSize ->
  exists st', Allocate junk fileSize ty st = Ok (false, st') /\
    fh_map st' = fh_map st /\ fs_sectors (fh_fs st') = fs_sectors (fh_fs st) /\ (fs_wf (fh_fs st) -> fs_wf (fh_fs st')).
Proof.
  intros Hwf Hlow. rewrite Allocate_start by exact Hwf.
  destruct (Z.ltb_spec (Z.of_nat (length (free_bits (fh_map st)))) (divRoundUp fileSize SectorSize)); [|lia].
  eexists. split; [reflexivity|]. split; [reflexivity|]. split; [reflexivity|apply fs_wf_alloc_start].
Qed.

(** Allocate gives a new file its sectors.  When the free map has room for
    the data and the index sectors and the index table is long enough, it
    succeeds: the file has the size and type asked for, the sectors it uses are
    the first free ones, all different, the index sectors on disk list the data
    sectors, exactly these sectors are no longer free, and no other sector of
    the disk has changed.  With fewer free sectors than data sectors it refuses
    and takes nothing. *)
Theorem Allocate_layout fileSize ty st :
  bitmap_wf (fh_map st) -> numBits (fh_map st) = NumSectors -> fs_wf (fh_fs st) ->
  Z.of_nat (length (primaryIndexTable (fh_hdr st))) = NumDirect -> 0 <= fileSize ->
  let free := free_bits (fh_map st) in
  let n := divRoundUp fileSize SectorSize in
  let total := Z.to_nat (n + divRoundUp n 32) in
  ((total <= length free)%nat -> divRoundUp n 32 <= NumDirect ->
   exists st' blocks, Allocate junk fileSize ty st = Ok (true, st') /\
     layout (fh_fs st') (fh_hdr st') blocks /\
     numBytes (fh_hdr st') = fileSize /\ numSectors (fh_hdr st') = n /\ fileType (fh_hdr st') = ty /\
     sectors_of blocks = take total free /\ took (fh_map st) (fh_map st') total /\ fs_wf (fh_fs st') /\
     (forall q, 0 <= q -> (q ∉ sectors_of blocks) ->
        (fs_sectors (fh_fs st')).[q] = (fs_sectors (fh_fs st)).[q])) /\
  (Z.of_nat (length free) < n ->
   exists st', Allocate junk fileSize ty st = Ok (false, st') /\
     fh_map st' = fh_map st /\ fs_sectors (fh_fs st') = fs_sectors (fh_fs st)).
Proof.
  intros Hwf Hnb Hfs Htab Hsz free n total. split.
  - intros Hroom Hidx. destruct (Allocate_success fileSize ty st Hwf Hnb Hfs Htab Hsz) as (st' & blocks & E & [L1 L2 L3 L4 L5 L6 L7 L8 L9 _]);
      [unfold total, free in Hroom; fold n; lia|exact Hidx|].
    pose proof (length_sectors_of _ _ (lay_shape _ _ _ L1)) as Hl. rewrite L3 in Hl. fold n in Hl.
    assert (Et : length (sectors_of blocks) = total) by (unfold total; lia). rewrite Et in *. exists st', blocks. auto 10.
  - intros Hlow. destruct (Allocate_refused fileSize ty st Hwf Hlow) as (st' & E & H1 & H2 & _). eauto.
Qed.

End alloc_properties.

Lemma Deallocate_run (st : FhState) blocks :
  bitmap_wf (fh_map st) -> numBits (fh_map st) = NumSectors ->
  layout (fh_fs st) (fh_hdr st) blocks -> in_use (fh_map st) (sectors_of blocks) ->
  exists b', Deallocate st = Ok (tt, mkFhState (fh_hdr st) b' (fh_fs st)) /\ bitmap_wf b' /\ same_shape (fh_map st) b' /\
    free_bits b' ≡ₚ sectors_of blocks ++ free_bits (fh_map st).
Proof.
  intros Hwf Hnb [L1 L2 L3 L4 L5 L6] Hu. unfold Deallocate. mstep_to st st.
  destruct (shaped_length _ _ L1) as [Hbl _]. rewrite <- Hbl.
  destruct (dealloc_loop blocks 0 (numSectors (fh_hdr st)) st) as (a & b' & E & [F1 F2 F3]); auto.
  mstep_by E. eauto.
Qed.

(** Deallocate gives back exactly the sectors of the file, data and index,
    and changes nothing on the disk; so deallocating what Allocate took
    restores the set of free sectors. *)
Theorem Deallocate_releases (st : FhState) blocks :
  bitmap_wf (fh_map st) -> numBits (fh_map st) = NumSectors ->
  layout (fh_fs st) (fh_hdr st) blocks -> in_use (fh_map st) (sectors_of blocks) ->
  exists b', Deallocate st = Ok (tt, mkFhState (fh_hdr st) b' (fh_fs st)) /\ bitmap_wf b' /\
    free_bits b' ≡ₚ sectors_of blocks ++ free_bits (fh_map st).
Proof. intros Hwf Hnb L Hu. destruct (Deallocate_run st blocks Hwf Hnb L Hu) as (b' & E & H1 & _ & H2). eauto. Qed.

(** * The header on disk *)
Record hdr_wf (h : FileHeader) : Prop := {
  hw_table : Z.of_nat (length (primaryIndexTable h)) = NumDirect;
  hw_ints  : Forall is_i32 (hdr_ints h)
}.

Lemma length_hdr_ints h : Z.of_nat (length (primaryIndexTable h)) = NumDirect -> length (hdr_ints h) = 32%nat.
Proof. intros Ht. unfold hdr_ints. rewrite !length_app. cbn [length]. change NumDirect with 25 in Ht. lia. Qed.

Lemma hdr_of_hdr_ints h : Z.of_nat (length (primaryIndexTable h)) = NumDirect -> hdr_of_ints (hdr_ints h) = h.
Proof.
  intros Ht. change NumDirect with 25 in Ht. destruct h as [c v w ty t nv nb ns].
  cbn [primaryIndexTable] in Ht.
  assert (E : forall k, 0 <= k -> ([c; v; w; ty] ++ t ++ [nv; nb; ns]).[29 + k] = [nv; nb; ns].[k]).
  { intros k Hk. unfold zlookup. destruct (Z.leb_spec 0 (29 + k)), (Z.leb_spec 0 k); try lia.
    rewrite !lookup_app_r by (cbn [length]; lia). f_equal. cbn [length]. lia. }
  unfold hdr_of_ints, hdr_ints. change NumDirect with 25.
  cbn [createTime lastVisitTime lastWriteTime fileType primaryIndexTable numVisits numBytes numSectors].
  change (4 + 25) with (29 + 0). change (5 + 25) with (29 + 1). change (6 + 25) with (29 + 2).
  rewrite !E by lia. f_equal; try reflexivity. unfold slice. cbn [app].
  change (Z.to_nat 4) with 4%nat. cbn [skipn]. apply take_app_length'. lia.
Qed.

Lemma hdr_bytes_sector h : hdr_wf h -> is_sector (hdr_bytes h).
Proof. intros [Ht _]. now apply is_sector_ints, length_hdr_ints. Qed.

Lemma hdr_of_hdr_bytes h : hdr_wf h -> hdr_of_bytes (hdr_bytes h) = h.
Proof.
  intros [Ht Hi]. unfold hdr_of_bytes, hdr_bytes. rewrite <- (length_hdr_ints h Ht) at 1.
  rewrite ints_of_map_bytes by exact Hi. now apply hdr_of_hdr_ints.
Qed.

(** A header survives the disk: WriteBack stores it in its one sector,
    FetchFrom gets back every field, and no other sector changes. *)
Theorem WriteBack_FetchFrom (fs : FsState) (h : FileHeader) (sector : Z) :
  fs_wf fs -> hdr_wf h -> 0 <= sector < NumSectors ->
  exists fs', WriteBack h sector fs = Ok (tt, fs') /\ FetchFrom sector fs' = Ok (h, fs') /\ fs_wf fs' /\
    forall q, 0 <= q -> q <> sector -> (fs_sectors fs').[q] = (fs_sectors fs).[q].
Proof.
  intros Hfs Hh Hs. unfold WriteBack. rewrite fs_WriteSector_run by assumption. eexists. split; [reflexivity|].
  split; [|split; [apply fs_wf_write; [exact Hfs|now apply hdr_bytes_sector]|]].
  - unfold FetchFrom. erewrite mthen_step; [|apply (fs_ReadSector_run sector _ (hdr_bytes h)); [exact Hs|]].
    + cbn beta. now rewrite hdr_of_hdr_bytes.
    + apply zlookup_insert_eq. now rewrite (fw_length _ Hfs).
  - intros q Hq Hne. apply zlookup_insert_ne; [lia|congruence].
Qed.

(** ByteToSector is the map from file offsets to data sectors: the byte at
    [offset] is in the [offset / 128]-th data sector of the file. *)
Theorem ByteToSector_data (fs : FsState) (h : FileHeader) blocks (offset : Z) :
  layout fs h blocks -> 0 <= offset < SectorSize * numSectors h ->
  exists d, (data_of blocks).[offset / SectorSize] = Some d /\ 0 <= d < NumSectors /\
    ByteToSector h offset fs = Ok (d, fs).
Proof.
  intros L Ho. destruct (ByteToSector_run fs h blocks offset L Ho) as (d & Ed & E).
  exists d. split; [exact Ed|]. split; [|exact E]. exact (data_sector_range _ _ _ _ _ L Ed).
Qed.

Section extend_property.
Context `{!HostTime}.
Variable junk : list Z.
Hypothesis junk_length : length junk = 32%nat.
Hypothesis junk_ints : Forall is_i32 junk.
Implicit Types st : FhState.

(** The two halves of an extension put together. *)
Lemma layout_extended st blocks blocks1 blocks2 m extra t' b1 b2 l1 l2 h :
  bitmap_wf (fh_map st) -> numBits (fh_map st) = NumSectors -> layout (fh_fs st) (fh_hdr st) blocks ->
  in_use (fh_map st) (sectors_of blocks) -> extended st blocks m blocks1 b1 l1 -> 0 <= m <= extra ->
  (extra - m = 0 \/ (numSectors (fh_hdr st) + m) mod 32 = 0) ->
  let st1 := mkFhState (fh_hdr st) b1 (with_sectors l1 (fh_fs st)) in
  allocated st1 (Z.of_nat (length blocks)) (extra - m) blocks2 t' b2 l2 ->
  primaryIndexTable h = t' -> numSectors h = numSectors (fh_hdr st) + extra ->
  let k := (Z.to_nat extra + length blocks2)%nat in
  layout (with_sectors l2 (fh_fs st)) h (blocks1 ++ blocks2) /\
  took (fh_map st) b2 k /\
  sectors_of (blocks1 ++ blocks2) ≡ₚ sectors_of blocks ++ take k (free_bits (fh_map st)) /\
  (exists new, data_of (blocks1 ++ blocks2) = data_of blocks ++ new) /\
  (forall q, 0 <= q -> (q ∉ fst <$> blocks) -> (q ∉ take k (free_bits (fh_map st))) ->
     l2.[q] = (fs_sectors (fh_fs st)).[q]).
Proof.
  intros Hwf Hnb [L1 L2 L3 L4 L5 L6] Hu [X1 X2 X3 X4 X5 X6 X7 X8] Hm Hdiv st1 [A1 A2 A3 A4 A5 A6 A7 A8 A9 A10] Hh Hs k.
  cbn [fh_map st1] in A2, A3. rewrite (tk_free _ _ _ X5) in A2.
  assert (Hk : k = (Z.to_nat m + (Z.to_nat (extra - m) + length blocks2))%nat) by (unfold k; lia).
  assert (Htake : take k (free_bits (fh_map st)) = take (Z.to_nat m) (free_bits (fh_map st)) ++ sectors_of blocks2)
    by (rewrite A2, Hk; symmetry; apply take_take_drop).
  assert (Hlen : length blocks1 = length blocks) by (apply (f_equal length) in X2; now rewrite !length_fmap in X2).
  assert (Hperm : sectors_of (blocks1 ++ blocks2) ≡ₚ sectors_of blocks ++ take k (free_bits (fh_map st)))
    by (rewrite sectors_of_app, X4, Htake, app_assoc; reflexivity).
  assert (Hdis : forall d, d ∈ sectors_of blocks -> d ∉ free_bits (fh_map st)).
  { intros d Hd Hin. eapply Forall_forall in Hu; [|exact Hd]. apply elem_of_free_bits in Hin as [Hin _]. congruence. }
  assert (Hsub : forall d, d ∈ take k (free_bits (fh_map st)) -> d ∈ free_bits (fh_map st)).
  { intros d Hd. apply elem_of_take in Hd as (i & Hi & _). eapply list_elem_of_lookup_2, Hi. }
  assert (Hidx : forall b, b ∈ blocks1 -> b.1 ∈ sectors_of blocks).
  { intros b Hb. assert (Hf : b.1 ∈ fst <$> blocks) by (rewrite <- X2; now apply list_elem_of_fmap_2).
    apply list_elem_of_fmap in Hf as (b' & -> & Hb'). apply list_elem_of_bind. exists b'. split; [left|exact Hb']. }
  split; [split|split; [|split; [exact Hperm|split]]].
  - rewrite Hs. replace (numSectors (fh_hdr st) + extra) with (numSectors (fh_hdr st) + m + (extra - m)) by lia.
    destruct Hdiv as [E0|Hd]; [|now apply shaped_app]. rewrite E0 in *. rewrite Z.add_0_r.
    destruct blocks2 as [|? ?]; [now rewrite app_nil_r|destruct A1; lia].
  - rewrite Hh, A4. exact L2.
  - intros i b Hb. rewrite Hh. destruct (Z_lt_le_dec i (Z.of_nat (length blocks))).
    + rewrite A6 by lia. cbn [st1 fh_hdr]. apply zlookup_Some in Hb as [Hr Hb]. rewrite lookup_app_l in Hb by lia.
      destruct (zlookup_lt blocks i) as [b' Hb']; [lia|]. rewrite (L3 i b' Hb').
      apply zlookup_Some in Hb' as [_ Hb']. f_equal.
      assert (E : (fst <$> blocks1) !! Z.to_nat i = (fst <$> blocks) !! Z.to_nat i) by now rewrite X2.
      rewrite !list_lookup_fmap, Hb, Hb' in E. now injection E.
    + replace i with (Z.of_nat (length blocks) + (i - Z.of_nat (length blocks))) by lia. apply A5.
      apply zlookup_Some in Hb as [Hr Hb]. rewrite lookup_app_r in Hb by lia.
      unfold zlookup. destruct (Z.leb_spec 0 (i - Z.of_nat (length blocks))); [|lia]. rewrite <- Hb. f_equal. lia.
  - apply Forall_app. split; [|exact A8]. apply Forall_forall. intros b Hb.
    assert (Hi : 0 <= b.1 < NumSectors) by (exact (proj1 (Forall_forall _ _) L6 _ (Hidx b Hb))).
    apply (index_block_frame (with_sectors l1 (fh_fs st))); [exact (proj1 (Forall_forall _ _) X7 b Hb)|].
    apply A9; [lia|]. intros Hin. apply (Hdis b.1 (Hidx b Hb)), Hsub. rewrite Htake. apply elem_of_app. now right.
  - rewrite Hperm. apply NoDup_app. split; [exact L5|]. split; [intros d Hd Hin; exact (Hdis d Hd (Hsub d Hin))|].
    pose proof (NoDup_free_bits (fh_map st)) as Hnd. rewrite <- (take_drop k) in Hnd. now apply NoDup_app in Hnd as [Hnd _].
  - rewrite Hperm. apply Forall_app. split; [exact L6|]. apply Forall_take. exact (free_bits_range _ _ eq_refl Hnb).
  - rewrite Hk. eapply took_trans; eauto.
  - exists (take (Z.to_nat m) (free_bits (fh_map st)) ++ data_of blocks2). now rewrite data_of_app, X3, app_assoc.
  - intros q Hq Hn1 Hn2. rewrite Htake in Hn2. apply not_elem_of_app in Hn2 as [_ Hn2].
    rewrite A9 by assumption. cbn [st1 fh_fs with_sectors fs_sectors]. now apply X8.
Qed.

(** A file [blocks] that ExtendAllocate made [extra] bytes longer, with [m] more
    data sectors and [k] more sectors in all. *)
Record grown (extraFileSize m : Z) (k : nat) st st' (blocks blocks' : list block) : Prop := {
  gr_layout : layout (fh_fs st') (fh_hdr st') blocks';
  gr_bytes  : numBytes (fh_hdr st') = numBytes (fh_hdr st) + extraFileSize;
  gr_number : numSectors (fh_hdr st') = numSectors (fh_hdr st) + m;
  gr_room   : numBytes (fh_hdr st) + extraFileSize <= SectorSize * (numSectors (fh_hdr st) + m);
  gr_data   : exists new, data_of blocks' = data_of blocks ++ new;
  gr_perm   : sectors_of blocks' ≡ₚ sectors_of blocks ++ take k (free_bits (fh_map st));
  gr_took   : took (fh_map st) (fh_map st') k;
  gr_other  : forall q, 0 <= q -> (q ∉ fst <$> blocks) -> (q ∉ take k (free_bits (fh_map st))) ->
                (fs_sectors (fh_fs st')).[q] = (fs_sectors (fh_fs st)).[q];
  gr_fs     : fs_wf (fh_fs st');
  gr_ints   : Forall is_i32 (primaryIndexTable (fh_hdr st)) -> Forall is_i32 (primaryIndexTable (fh_hdr st'));
  gr_same   : exists t, fh_hdr st' = h_sizes (numBytes (fh_hdr st) + extraFileSize) (numSectors (fh_hdr st) + m) (h_table t (fh_hdr st))
}.

(** The data sectors, and the sectors in all, that an extension takes. *)
Definition extra_sectors (nb ns extraFileSize : Z) : Z :=
  if divRoundUp (nb + extraFileSize) SectorSize <=? ns then 0 else divRoundUp extraFileSize SectorSize.
Definition extra_taken (nb ns extraFileSize : Z) : nat :=
  let extra := extra_sectors nb ns extraFileSize in
  Z.to_nat (extra + (divRoundUp (extra + ns) 32 - divRoundUp ns 32)).

Lemma ExtendAllocate_run (st : FhState) blocks (extraFileSize : Z) :
  bitmap_wf (fh_map st) -> numBits (fh_map st) = NumSectors -> fs_wf (fh_fs st) ->
  layout (fh_fs st) (fh_hdr st) blocks -> in_use (fh_map st) (sectors_of blocks) ->
  let nb := numBytes (fh_hdr st) in
  let ns := numSectors (fh_hdr st) in
  0 <= nb <= SectorSize * ns -> 0 < extraFileSize -> nb + extraFileSize < 2 ^ 31 ->
  let extra := extra_sectors nb ns extraFileSize in
  let k := extra_taken nb ns extraFileSize in
  (k <= length (free_bits (fh_map st)))%nat -> divRoundUp (extra + ns) 32 <= NumDirect ->
  exists st' blocks', ExtendAllocate junk extraFileSize st = Ok (true, st') /\ grown extraFileSize extra k st st' blocks blocks'.
Proof.
  intros Hwf Hnb Hfs L Hu nb ns Hnbr He Hov extra k Hfree Hidx.
  assert (Hns : 0 <= ns) by exact (shaped_nonneg _ _ (lay_shape _ _ _ L)).
  unfold ExtendAllocate. mstep_to st st. fold nb ns. rewrite i32_id by (unfold is_i32; lia).
  assert (Dk : k = Z.to_nat (extra + (divRoundUp (extra + ns) 32 - divRoundUp ns 32))) by reflexivity.
  assert (De : extra = if divRoundUp (nb + extraFileSize) SectorSize <=? ns then 0
                       else divRoundUp extraFileSize SectorSize) by reflexivity.
  clearbody k extra.
  destruct (Z.leb_spec (divRoundUp (nb + extraFileSize) SectorSize) ns) as [Hfit|Hfit]; subst extra.
  - assert (Hk : k = 0%nat) by (rewrite Dk, !Z.add_0_l, Z.sub_diag; reflexivity). rewrite Hk in *.
    do 2 eexists. split; [reflexivity|]. split; cbn [fh_fs fh_hdr fh_map]; auto.
    { destruct L; split; eauto. } { cbn. lia. }
    { rewrite Z.add_0_r. etransitivity; [apply (divRoundUp_enough (nb + extraFileSize) SectorSize); unfold SectorSize; lia|]. unfold SectorSize in *. lia. }
    { exists []. now rewrite app_nil_r. } { now rewrite take_0, app_nil_r. }
    { split; [exact Hwf|now split|reflexivity]. }
    { exists (primaryIndexTable (fh_hdr st)). rewrite Z.add_0_r. reflexivity. }
  - set (ex := divRoundUp extraFileSize SectorSize) in *.
    assert (Hex : 0 < ex).
    { pose proof (divRoundUp_enough extraFileSize SectorSize ltac:(lia) ltac:(unfold SectorSize; lia)). unfold SectorSize in *. unfold ex, SectorSize. lia. }
    destruct (last_room_spec ns ex Hns Hex) as (Hm & Hdiv & _ & Hcount). set (m := last_room ns ex) in *.
    pose proof (divRoundUp_nonneg (ex - m) 32 ltac:(lia) ltac:(lia)) as Hc0.
    rewrite Hcount in Dk.
    set (st0 := mkFhState (h_sizes (nb + extraFileSize) ns (fh_hdr st)) (fh_map st) (fh_fs st)). mstep_to tt st0.
    rewrite (mthen_step _ _ _ (Z.of_nat (length (free_bits (fh_map st)))) st0).
    2:{ unfold on_map. cbn [fh_map st0]. now rewrite BitMap_NumClear_spec. }
    destruct (Z.ltb_spec (Z.of_nat (length (free_bits (fh_map st)))) ex); [lia|].
    assert (L0 : layout (fh_fs st0) (fh_hdr st0) blocks) by (destruct L; now split).
    destruct (extend_last_run st0 blocks ex) as (temp & blocks1 & b1 & l1 & E1 & X & Htemp); auto; [cbn [fh_map st0]; lia|].
    change (numSectors (fh_hdr st0)) with ns in *. fold m in X, Htemp. mstep_by E1.
    set (st1 := mkFhState (fh_hdr st0) b1 (with_sectors l1 (fh_fs st0))).
    destruct (shaped_length _ _ (lay_shape _ _ _ L)) as [Hbl _]. fold ns in Hbl.
    destruct (alloc_loop junk_length junk_ints (Z.to_nat (divRoundUp (ex - m) 32)) (divRoundUp ns 32) (ex - m) st1)
      as (a & blocks2 & t' & b2 & l2 & E2 & Al); try lia; try apply X.
    { cbn [fh_map st1]. destruct (tk_shape _ _ _ (ex_took _ _ _ _ _ _ X)). cbn [fh_map st0] in *. congruence. }
    { cbn [fh_map st1]. rewrite (tk_free _ _ _ (ex_took _ _ _ _ _ _ X)), length_drop. cbn [fh_map st0]. lia. }
    { apply L. }
    rewrite Z2Nat.id in E2 by lia. rewrite Hcount.
    assert (E2' : exists a', mfold (seqZ (divRoundUp ns 32) (divRoundUp (ex - m) 32)) temp (new_index_block junk) st1 =
      Ok (a', mkFhState (h_table t' (fh_hdr st1)) b2 (with_sectors l2 (fh_fs st1)))).
    { destruct Htemp as [->|Hz]; [eauto|]. rewrite Hz in E2 |- *. change (divRoundUp 0 32) with 0 in *.
      rewrite seqZ_nil in E2 |- * by lia. cbn [mfold] in E2 |- *. unfold mreturn in *. match type of E2 with Ok (_, ?x) = Ok (_, ?y) => assert (Ex : x = y) by congruence end. rewrite <- Ex. eauto. }
    destruct E2' as [a' E2']. mstep_by E2'. rewrite <- Hbl in Al.
    pose proof (shaped_length _ _ (al_shape _ _ _ _ _ _ _ Al)) as [Hb2 _].
    set (h' := h_sizes (nb + extraFileSize) (ns + ex) (h_table t' (fh_hdr st))).
    destruct (layout_extended st0 blocks blocks1 blocks2 m ex t' b1 b2 l1 l2 h') as (P1 & P2 & P3 & P4 & P5); auto.
    assert (Ek : k = (Z.to_nat ex + length blocks2)%nat) by (rewrite Dk; lia). rewrite <- Ek in *.
    eexists. exists (blocks1 ++ blocks2). split; [reflexivity|].
    split; cbn [fh_fs fh_hdr fh_map]; auto; try apply Al; [|eexists; reflexivity].
    pose proof (divRoundUp_enough extraFileSize SectorSize ltac:(lia) ltac:(unfold SectorSize; lia)) as Hen. fold ex in Hen.
    unfold SectorSize in *. lia.
Qed.
(** ExtendAllocate makes a file longer.  If the new length fits the
    sectors the file has, only the length changes.  Otherwise, with room on the
    disk and in the index table, the data sectors the file had stay the first
    ones, the new ones come from the front of the free list, the last index
    sector is filled up before new ones are made, only index sectors are
    written, and the file has room for all its bytes. *)
Theorem ExtendAllocate_layout (st : FhState) blocks (extraFileSize : Z) :
  bitmap_wf (fh_map st) -> numBits (fh_map st) = NumSectors -> fs_wf (fh_fs st) ->
  layout (fh_fs st) (fh_hdr st) blocks -> in_use (fh_map st) (sectors_of blocks) ->
  let nb := numBytes (fh_hdr st) in
  let ns := numSectors (fh_hdr st) in
  0 <= nb <= SectorSize * ns -> 0 < extraFileSize -> nb + extraFileSize < 2 ^ 31 ->
  let extra := if divRoundUp (nb + extraFileSize) SectorSize <=? ns then 0
               else divRoundUp extraFileSize SectorSize in
  let k := Z.to_nat (extra + (divRoundUp (extra + ns) 32 - divRoundUp ns 32)) in
  (k <= length (free_bits (fh_map st)))%nat -> divRoundUp (extra + ns) 32 <= NumDirect ->
  exists st' blocks', ExtendAllocate junk extraFileSize st = Ok (true, st') /\
    layout (fh_fs st') (fh_hdr st') blocks' /\
    numBytes (fh_hdr st') = nb + extraFileSize /\ numSectors (fh_hdr st') = ns + extra /\
    nb + extraFileSize <= SectorSize * (ns + extra) /\
    (exists new, data_of blocks' = data_of blocks ++ new) /\
    sectors_of blocks' ≡ₚ sectors_of blocks ++ take k (free_bits (fh_map st)) /\
    took (fh_map st) (fh_map st') k /\
    (forall q, 0 <= q -> (q ∉ fst <$> blocks) -> (q ∉ take k (free_bits (fh_map st))) ->
       (fs_sectors (fh_fs st')).[q] = (fs_sectors (fh_fs st)).[q]).
Proof.
  intros Hwf Hnb Hfs L Hu nb ns Hnbr He Hov extra k Hfree Hidx.
  destruct (ExtendAllocate_run st blocks extraFileSize Hwf Hnb Hfs L Hu Hnbr He Hov Hfree Hidx)
    as (st' & blocks' & E & [G1 G2 G3 G4 G5 G6 G7 G8 _ _ _]).
  exists st', blocks'. auto 10.
Qed.
End extend_property.

(** The space check of Allocate counts the data sectors only.  On a disk
    with one free sector, a file of one data sector is accepted; the sector
    becomes its index sector and the data sector it lists is number -1, which
    stops the first access to the file. *)
Theorem Allocate_index_uncounted `{!HostTime} (junk : list Z) (st : FhState) (p fileSize ty : Z) :
  length junk = 32%nat -> Forall is_i32 junk ->
  bitmap_wf (fh_map st) -> numBits (fh_map st) = NumSectors -> fs_wf (fh_fs st) ->
  Z.of_nat (length (primaryIndexTable (fh_hdr st))) = NumDirect -> 0 < fileSize <= SectorSize ->
  free_bits (fh_map st) = [p] ->
  exists st', Allocate junk fileSize ty st = Ok (true, st') /\
    ByteToSector (fh_hdr st') 0 (fh_fs st') = Ok (-1, fh_fs st') /\
    fs_ReadSector (-1) (fh_fs st') = Err AssertFailed.
Proof.
  intros Hjl Hji Hwf Hnb Hfs Htab Hsz Hf. rewrite Allocate_start by exact Hwf.
  assert (En : divRoundUp fileSize SectorSize = 1).
  { unfold SectorSize in *. assert (divRoundUp fileSize 128 <= 1) by (apply divRoundUp_least; lia).
    pose proof (divRoundUp_enough fileSize 128). lia. }
  rewrite En, Hf. set (s := alloc_start fileSize ty st).
  destruct (find_run s p [] Hwf Hf) as (b1 & E1 & Hwf1 & _ & Hf1 & Hp). cbn [fh_map s alloc_start] in Hp. rewrite Hnb in Hp.
  set (s1 := mkFhState (fh_hdr s) b1 (fh_fs s)) in E1.
  set (t1 := <[Z.to_nat 0 := p]> (primaryIndexTable (fh_hdr s))).
  set (s2 := mkFhState (h_table t1 (fh_hdr s)) b1 (fh_fs s)).
  assert (Htab' : Z.of_nat (length (primaryIndexTable (fh_hdr s))) = 25) by exact Htab.
  assert (E2 : set_index_entry 0 p s1 = Ok (tt, s2)).
  { unfold set_index_entry. mstep_to s1 s1. cbn [fh_hdr s1]. now rewrite zupd_lt by lia. }
  assert (E3 : fill_index (seqZ 0 1) junk s2 = Ok (splice junk 0 [-1], s2)).
  { unfold fill_index. change (seqZ 0 1) with [0]. cbn [mfold]. rewrite (mthen_step _ _ _ (splice junk 0 [-1]) s2); [reflexivity|].
    rewrite (mthen_step _ _ _ (-1) s2).
    - rewrite zupd_lt by lia. rewrite <- splice_cons by (cbn [length]; lia). now rewrite splice_nil.
    - unfold on_map. cbn [fh_map s2]. now rewrite BitMap_Find_nil. }
  assert (E4 : index_entry 0 s2 = Ok (p, s2)).
  { unfold index_entry. mstep_to s2 s2. cbn [fh_hdr s2 h_table primaryIndexTable]. unfold t1. now rewrite zlookup_insert_eq by lia. }
  set (bs := map_bytes (splice junk 0 [-1])).
  set (s3 := mkFhState (h_table t1 (fh_hdr s)) b1 (with_sectors (<[Z.to_nat p := bs]> (fs_sectors (fh_fs s))) (fh_fs s))).
  assert (E5 : on_fs (fs_WriteSector p bs) s2 = Ok (tt, s3)).
  { unfold on_fs. cbn [fh_fs s2]. rewrite fs_WriteSector_run; [reflexivity|now apply fs_wf_alloc_start|exact Hp]. }
  assert (E : new_index_block junk 1 0 s = Ok (1, s3)).
  { unfold new_index_block. mstep_by E1. mstep_by E2. cbn [Z.ltb Z.compare Pos.compare Pos.compare_cont]. mstep_by E3. mstep_by E4. now mstep_by E5. }
  exists s3. split; [|split; [|reflexivity]].
  - rewrite (mthen_step _ _ _ 1 s3); [reflexivity|]. change (seqZ 0 (divRoundUp 1 32)) with [0].
    cbn [mfold]. now mstep_by E.
  - assert (Ebs : (fs_sectors (fh_fs s3)).[p] = Some bs) by (apply zlookup_insert_eq; rewrite (fw_length _ (fs_wf_alloc_start fileSize ty st Hfs)); exact Hp).
    assert (Hl : length (splice junk 0 [-1]) = 32%nat) by (rewrite length_splice by (cbn [length]; lia); exact Hjl).
    unfold ByteToSector. change (Z.quot 0 (SectorSize * 32)) with 0. change (Z.quot (Z.rem 0 (SectorSize * 32)) SectorSize) with 0.
    cbn [fh_hdr s3 h_table primaryIndexTable]. unfold t1. rewrite zlookup_insert_eq by lia. mstep_to p (fh_fs s3).
    mstep_by (fs_ReadSector_run p (fh_fs s3) bs Hp Ebs). unfold bs. rewrite <- Hl at 1.
    rewrite ints_of_map_bytes by (apply Forall_splice; [exact Hji|constructor; [unfold is_i32; lia|constructor]]).
    rewrite zlookup_splice by (cbn [length]; lia). reflexivity.
Qed.

(** * Concrete runs: an empty disk with sectors 0 and 1 in use *)
#[local] Instance sample_time : HostTime.
Proof. refine {| time_at := fun n => Z.of_nat n mod 1000 |}. intros n. pose proof (Z.mod_pos_bound (Z.of_nat n) 1000). unfold is_i32. lia. Defined.

Definition sample_junk : list Z := replicate 32 77.
Definition sample_fs : FsState := mkFsState (replicate 1024 (replicate 128 0)) (replicate 1024 1) 1 0.
Definition sample_bits (w : Z) (ws : list Z) : BitMap := mkBitMap 1024 32 (w :: ws).
Definition sample_hdr : FileHeader := mkFileHeader 0 0 0 0 (replicate 25 0) 0 0 0.
Definition sample_fh : FhState := mkFhState sample_hdr (sample_bits 3 (replicate 31 0)) sample_fs.

Lemma sample_fs_wf : fs_wf sample_fs.
Proof.
  split; try reflexivity. apply Forall_replicate. split; [reflexivity|].
  apply Forall_replicate. unfold is_byte. lia.
Defined.
Lemma sample_junk_ints : Forall is_i32 sample_junk.
Proof. apply Forall_replicate. unfold is_i32. lia. Defined.
Lemma sample_bits_wf w v : is_word w -> is_word v -> bitmap_wf (sample_bits w (replicate 31 v)).
Proof.
  intros Hw Hv. split; try reflexivity; [unfold sample_bits; cbn; lia|].
  constructor; [exact Hw|]. now apply Forall_replicate.
Defined.

Lemma Allocate_layout_witness :
  exists st' blocks, Allocate sample_junk 300 0 sample_fh = Ok (true, st') /\
    layout (fh_fs st') (fh_hdr st') blocks /\ sectors_of blocks = [2; 3; 4; 5].
Proof.
  destruct (Allocate_layout sample_junk eq_refl sample_junk_ints 300 0 sample_fh) as [HA _].
  - apply sample_bits_wf; unfold is_word; lia.
  - reflexivity.
  - exact sample_fs_wf.
  - reflexivity.
  - lia.
  - destruct HA as (st' & blocks & E & L & _ & _ & _ & Es & _).
    + vm_compute. lia.
    + vm_compute. discriminate.
    + exists st', blocks. split; [exact E|]. split; [exact L|]. rewrite Es. vm_compute. reflexivity.
Defined.

Lemma Allocate_index_uncounted_witness :
  exists st', Allocate sample_junk 100 0 (mkFhState sample_hdr (sample_bits (2 ^ 32 - 2) (replicate 31 (2 ^ 32 - 1))) sample_fs)
    = Ok (true, st') /\ ByteToSector (fh_hdr st') 0 (fh_fs st') = Ok (-1, fh_fs st').
Proof.
  destruct (Allocate_index_uncounted sample_junk (mkFhState sample_hdr (sample_bits (2 ^ 32 - 2) (replicate 31 (2 ^ 32 - 1))) sample_fs) 0 100 0)
    as (st' & E & EB & _).
  - reflexivity.
  - exact sample_junk_ints.
  - apply sample_bits_wf; unfold is_word; lia.
  - reflexivity.
  - exact sample_fs_wf.
  - reflexivity.
  - unfold SectorSize. lia.
  - vm_compute. reflexivity.
  - exists st'. split; [exact E|exact EB].
Defined.

(** A one-sector file: index sector 2, data sector 3. *)
Definition one_sector_fs : FsState :=
  with_sectors (<[2%nat := map_bytes (3 :: replicate 31 77)]> (fs_sectors sample_fs)) sample_fs.
Definition one_sector_hdr : FileHeader := mkFileHeader 0 0 0 0 (2 :: replicate 24 0) 0 100 1.
Definition one_sector_fh : FhState :=
  mkFhState one_sector_hdr (sample_bits 15 (replicate 31 0)) one_sector_fs.

Lemma one_sector_wf : fs_wf one_sector_fs.
Proof. apply (fs_wf_write 2); [exact sample_fs_wf|]. apply is_sector_ints. reflexivity. Defined.

Lemma one_sector_layout : layout one_sector_fs one_sector_hdr [(2, [3])].
Proof.
  split.
  - cbn. lia.
  - reflexivity.
  - intros i b Hb. apply zlookup_Some in Hb as [Hr Hb]. cbn [length] in Hr. assert (i = 0) as -> by lia.
    cbn in Hb. injection Hb as <-. reflexivity.
  - constructor; [|constructor]. exists (map_bytes (3 :: replicate 31 77)). split; vm_compute; reflexivity.
  - apply (bool_decide_unpack _). reflexivity.
  - apply (bool_decide_unpack _). reflexivity.
Defined.

Lemma Deallocate_releases_witness :
  exists b', Deallocate one_sector_fh = Ok (tt, mkFhState one_sector_hdr b' one_sector_fs) /\
    free_bits b' ≡ₚ [2; 3] ++ free_bits (fh_map one_sector_fh).
Proof.
  destruct (Deallocate_releases one_sector_fh [(2, [3])]) as (b' & E & _ & Hf).
  - apply sample_bits_wf; unfold is_word; lia.
  - reflexivity.
  - exact one_sector_layout.
  - repeat constructor.
  - exists b'. split; [exact E|exact Hf].
Defined.

Lemma ByteToSector_data_witness : ByteToSector one_sector_hdr 99 one_sector_fs = Ok (3, one_sector_fs).
Proof.
  destruct (ByteToSector_data one_sector_fs one_sector_hdr [(2, [3])] 99 one_sector_layout) as (d & Ed & _ & E).
  - cbn. unfold SectorSize. lia.
  - cbn in Ed. injection Ed as <-. exact E.
Defined.

Lemma WriteBack_FetchFrom_witness :
  exists fs', WriteBack one_sector_hdr 9 sample_fs = Ok (tt, fs') /\ FetchFrom 9 fs' = Ok (one_sector_hdr, fs').
Proof.
  destruct (WriteBack_FetchFrom sample_fs one_sector_hdr 9 sample_fs_wf) as (fs' & E1 & E2 & _).
  - split; [reflexivity|]. cbn. repeat (apply Forall_cons; split; [unfold is_i32; lia|]). constructor.
  - unfold NumSectors, SectorsPerTrack, NumTracks. lia.
  - exists fs'. split; [exact E1|exact E2].
Defined.

Lemma ExtendAllocate_layout_witness :
  exists st' blocks', ExtendAllocate sample_junk 200 one_sector_fh = Ok (true, st') /\
    layout (fh_fs st') (fh_hdr st') blocks' /\ numBytes (fh_hdr st') = 300.
Proof.
  destruct (ExtendAllocate_layout sample_junk eq_refl sample_junk_ints one_sector_fh [(2, [3])] 200)
    as (st' & blocks' & E & L & Hn & _).
  - apply sample_bits_wf; unfold is_word; lia.
  - reflexivity.
  - exact one_sector_wf.
  - exact one_sector_layout.
  - repeat constructor.
  - cbn. unfold SectorSize. lia.
  - lia.
  - cbn. lia.
  - vm_compute. lia.
  - vm_compute. discriminate.
  - exists st', blocks'. split; [exact E|]. split; [exact L|exact Hn].
Defined.
