(* ===== verification/OpenFile.v ===== *)
(** filesys/openfile.h and openfile.cc (the FILESYS half), and the file
    routines of userprog/bitmap.cc.

    An [OpenFile] caches the file's header; the methods run in [M OfState], the
    object and the disk of Sectors.v.  A buffer that the caller passes is the
    list of its bytes; ReadAt returns the bytes it copies out, and their number
    is the value the code returns.  [index_junk], [map_junk] and [buf_junk] are
    the contents of uninitialised memory: the local index array of
    ExtendAllocate, a new BitMap's words and a new char array of n bytes. *)
From Stdlib Require Import ZArith Lia.
From stdpp Require Import base option list list_numbers sets.
From S2P Require Import Prelude Disk BitMap Sectors FileHdr.

Local Open Scope Z_scope.

Record OpenFile := mkOpenFile {
  hdr             : FileHeader;
  hdrSectorNumber : Z;
  seekPosition    : Z
}.

Record OfState := mkOfState {
  of_file : OpenFile;
  of_fs   : FsState
}.

Definition do_fs {A} (m : M FsState A) : M OfState A := fun s =>
  match m (of_fs s) with
  | Ok (a, f) => Ok (a, mkOfState (of_file s) f)
  | Err e => Err e
  end.
Definition set_hdr (h : FileHeader) : M OfState unit :=
  mmodify (fun s => mkOfState (mkOpenFile h (hdrSectorNumber (of_file s)) (seekPosition (of_file s))) (of_fs s)).
Definition mod_of_hdr (f : FileHeader -> FileHeader) : M OfState unit :=
  let! s := mget in set_hdr (f (hdr (of_file s))).
Definition set_seek (p : Z) : M OfState unit :=
  mmodify (fun s => mkOfState (mkOpenFile (hdr (of_file s)) (hdrSectorNumber (of_file s)) p) (of_fs s)).

(** A method of another OpenFile object on the same disk. *)
Definition with_file {A} (o : OpenFile) (m : M OfState A) : M FsState (A * OpenFile) := fun f =>
  match m (mkOfState o f) with
  | Ok (a, s) => Ok ((a, of_file s), of_fs s)
  | Err e => Err e
  end.

Section openfile.
Context `{!HostTime}.

(** new OpenFile(sector) *)
Definition OpenFile_OpenFile (sector : Z) : M FsState OpenFile :=
  fs_rw_P sector >>>
  let! h := FetchFrom sector in
  let! t := time in
  let h := h_visited t h in
  WriteBack h sector >>>
  fs_rw_V sector >>>
  mreturn (mkOpenFile h sector 0).

Definition Seek (position : Z) : M OfState unit := set_seek position.

Definition Length : M OfState Z := let! s := mget in mreturn (FileLength (hdr (of_file s))).

(** hdr->ByteToSector(i * SectorSize) *)
Definition data_sector (i : Z) : M OfState Z :=
  let! s := mget in do_fs (ByteToSector (hdr (of_file s)) (i * SectorSize)).

(** Refresh the header from disk, under its mutex. *)
Definition fetch_header : M OfState unit :=
  let! s := mget in
  let n := hdrSectorNumber (of_file s) in
  do_fs (fs_rw_P n) >>>
  let! h := do_fs (FetchFrom n) in
  set_hdr h >>>
  do_fs (fs_rw_V n).

(** The mutexes of the data sectors [first..last], taken under arr_mutex. *)
Definition lock_range (firstSector lastSector : Z) : M OfState unit :=
  do_fs fs_arr_P >>>
  mfor (seqZ firstSector (lastSector - firstSector + 1)) (fun i =>
    let! d := data_sector i in do_fs (fs_rw_P d)) >>>
  do_fs fs_arr_V.

Variable index_junk : list Z.
Variable map_junk : list Z.
Variable buf_junk : Z -> list Z.

Definition ReadAt (numBytes position : Z) : M OfState (list Z) :=
  fetch_header >>>
  let! t := do_fs time in
  mod_of_hdr (h_visited t) >>>
  let! s := mget in
  let fileLength := FileLength (hdr (of_file s)) in
  if (numBytes <=? 0) || (fileLength <=? position) then mreturn []
  else
    let numBytes := if fileLength <? i32 (position + numBytes) then fileLength - position else numBytes in
    let firstSector := divRoundDown position SectorSize in
    let lastSector := divRoundDown (i32 (position + numBytes - 1)) SectorSize in
    let numSectors := 1 + lastSector - firstSector in
    lock_range firstSector lastSector >>>
    let! buf := mfold (seqZ firstSector (lastSector - firstSector + 1)) (buf_junk (numSectors * SectorSize))
      (fun buf i =>
         let! d := data_sector i in
         let! data := do_fs (fs_ReadSector d) in
         let! buf := mlift (store buf ((i - firstSector) * SectorSize) data) in
         let! d := data_sector i in
         do_fs (fs_rw_V d) >>>
         mreturn buf) in
    mlift (load buf (position - firstSector * SectorSize) numBytes).

(** BitMap::FetchFrom(file): the bytes read replace the front of the array. *)
Definition BitMap_FetchFrom (b : BitMap) : M OfState BitMap :=
  let! bs := ReadAt (numWords b * 4) 0 in
  let old := map_bytes (map b) in
  mreturn (mkBitMap (numBits b) (numWords b)
             (words_of_bytes (length (map b)) (bs ++ drop (length bs) old))).

(** The part of WriteAt that makes the file longer; false when it cannot. *)
Definition extend_file (extraFileLength : Z) : M OfState bool :=
  match BitMap_BitMap NumSectors map_junk with
  | Err e => mfail e
  | Ok b =>
      let! freeMapFile := do_fs (OpenFile_OpenFile 0) in
      let! r := do_fs (with_file freeMapFile (BitMap_FetchFrom b)) in
      let! s := mget in
      match ExtendAllocate index_junk extraFileLength (mkFhState (hdr (of_file s)) r.1 (of_fs s)) with
      | Err e => mfail e
      | Ok (ok, st) =>
          mput (mkOfState (mkOpenFile (fh_hdr st) (hdrSectorNumber (of_file s)) (seekPosition (of_file s))) (fh_fs st)) >>>
          if ok then
            do_fs (WriteBack (fh_hdr st) (hdrSectorNumber (of_file s))) >>> mreturn true
          else mreturn false
      end
  end.

(** The sectors are written back from [buf] and released one by one. *)
Definition write_range (firstSector lastSector : Z) (buf : list Z) : M OfState unit :=
  mfor (seqZ firstSector (lastSector - firstSector + 1)) (fun i =>
    let! d := data_sector i in
    let! data := mlift (load buf ((i - firstSector) * SectorSize) SectorSize) in
    do_fs (fs_WriteSector d data) >>>
    let! d := data_sector i in
    do_fs (fs_rw_V d)).

(** ReadAt(&buf[at], SectorSize, position) *)
Definition read_into (buf : list Z) (at_ position : Z) : M OfState (list Z) :=
  let! bs := ReadAt SectorSize position in mlift (store buf at_ bs).

(** The second half of WriteAt: read the partial sectors, copy, write. *)
Definition write_sectors (from : list Z) (position : Z) : M OfState Z :=
  let numBytes := Z.of_nat (length from) in
  let firstSector := divRoundDown position SectorSize in
  let lastSector := divRoundDown (i32 (position + numBytes - 1)) SectorSize in
  let numSectors := 1 + lastSector - firstSector in
  let firstAligned := position =? firstSector * SectorSize in
  let lastAligned := i32 (position + numBytes) =? (lastSector + 1) * SectorSize in
  let buf := buf_junk (numSectors * SectorSize) in
  let! buf := if negb firstAligned then read_into buf 0 (firstSector * SectorSize) else mreturn buf in
  let! buf := if negb lastAligned && (negb (firstSector =? lastSector) || firstAligned)
              then read_into buf ((lastSector - firstSector) * SectorSize) (lastSector * SectorSize)
              else mreturn buf in
  let! buf := mlift (store buf (position - firstSector * SectorSize) from) in
  lock_range firstSector lastSector >>>
  write_range firstSector lastSector buf >>>
  mreturn numBytes.

Definition WriteAt (from : list Z) (position : Z) : M OfState Z :=
  let numBytes := Z.of_nat (length from) in
  fetch_header >>>
  let! t := do_fs time in
  mod_of_hdr (h_visited t) >>>
  let! t := do_fs time in
  mod_of_hdr (h_written t) >>>
  let! s := mget in
  let fileLength := FileLength (hdr (of_file s)) in
  if numBytes <=? 0 then mreturn 0
  else
    let! ok :=
      if fileLength <? i32 (position + numBytes)
      then extend_file (i32 (numBytes + position - fileLength))
      else mreturn true in
    if ok then write_sectors from position else mreturn 0.

Definition BitMap_WriteBack (b : BitMap) : M OfState unit :=
  let! _ := WriteAt (map_bytes (map b)) 0 in mreturn tt.

Definition Read (numBytes : Z) : M OfState (list Z) :=
  let! s := mget in
  let! result := ReadAt numBytes (seekPosition (of_file s)) in
  let! s := mget in
  set_seek (seekPosition (of_file s) + Z.of_nat (length result)) >>>
  mreturn result.

Definition Write (into : list Z) : M OfState Z :=
  let! s := mget in
  let! result := WriteAt into (seekPosition (of_file s)) in
  let! s := mget in
  set_seek (seekPosition (of_file s) + result) >>>
  mreturn result.
End openfile.

(** * Which sector mutexes are taken *)
Definition m_locked (L : list Z) : list Z :=
  (fun i => if decide (i ∈ L) then 0 else 1) <$> seqZ 0 NumSectors.
Definition lk (L : list Z) (fs : FsState) : FsState :=
  mkFsState (fs_sectors fs) (m_locked L) (fs_array_mutex fs) (fs_time_calls fs).

Section lock_lemmas.
Implicit Types (L : list Z) (fs : FsState).

Lemma length_m_locked L : Z.of_nat (length (m_locked L)) = NumSectors.
Proof. unfold m_locked. rewrite length_fmap, length_seqZ. reflexivity. Qed.

Lemma m_locked_lookup L d :
  0 <= d < NumSectors -> (m_locked L).[d] = Some (if decide (d ∈ L) then 0 else 1).
Proof.
  intros Hd. unfold m_locked, zlookup. destruct (Z.leb_spec 0 d); [|lia].
  rewrite list_lookup_fmap, lookup_seqZ_lt by lia. cbn. rewrite Z2Nat.id, Z.add_0_l by lia. reflexivity.
Qed.

Lemma m_locked_upd L L' d v :
  0 <= d < NumSectors -> v = (if decide (d ∈ L') then 0 else 1) ->
  (forall x, x <> d -> x ∈ L <-> x ∈ L') -> zupd (m_locked L) d v = Some (m_locked L').
Proof.
  intros Hd Hv HL. rewrite zupd_lt by now rewrite length_m_locked. f_equal. apply zlookup_ext.
  - rewrite length_insert. apply Nat2Z.inj. now rewrite !length_m_locked.
  - intros i Hi. rewrite length_insert, length_m_locked in Hi.
    rewrite zlookup_insert by now rewrite length_m_locked. rewrite !m_locked_lookup by exact Hi.
    destruct (decide (d = i)) as [<-|E]; [now rewrite Hv|].
    f_equal. specialize (HL i ltac:(congruence)). repeat case_decide; tauto.
Qed.

Lemma m_locked_nil : m_locked [] = replicate (Z.to_nat NumSectors) 1.
Proof.
  apply zlookup_ext.
  - apply Nat2Z.inj. rewrite length_m_locked, length_replicate. reflexivity.
  - intros i Hi. rewrite length_m_locked in Hi. rewrite m_locked_lookup, decide_False by (lia || (intros H; inversion H)).
    unfold zlookup. destruct (Z.leb_spec 0 i); [|lia]. symmetry. apply lookup_replicate_2. lia.
Qed.

Lemma lk_nil fs : fs_wf fs -> lk [] fs = fs.
Proof. intros [_ _ Hm _]. destruct fs as [l m a t]. unfold lk. cbn in *. now rewrite m_locked_nil, <- Hm. Qed.

Lemma fs_rw_P_lk L L' d fs :
  0 <= d < NumSectors -> (d ∉ L) -> (forall x, x ∈ L' <-> x = d \/ x ∈ L) ->
  fs_rw_P d (lk L fs) = Ok (tt, lk L' fs).
Proof.
  intros Hd Hn HL. unfold fs_rw_P. mstep_to (lk L fs) (lk L fs). cbn [fs_mutex lk].
  rewrite m_locked_lookup, decide_False by assumption. mstep_to 1 (lk L fs). cbn [Z.eqb].
  unfold set_mutex. mstep_to (lk L fs) (lk L fs). cbn [fs_mutex lk].
  rewrite (m_locked_upd L L' d); [reflexivity|exact Hd| |].
  - rewrite decide_True by (apply HL; now left). reflexivity.
  - intros x Hx. rewrite HL. tauto.
Qed.

Lemma fs_rw_V_lk L L' d fs :
  0 <= d < NumSectors -> (d ∈ L) -> (forall x, x ∈ L' <-> x <> d /\ x ∈ L) ->
  fs_rw_V d (lk L fs) = Ok (tt, lk L' fs).
Proof.
  intros Hd Hn HL. unfold fs_rw_V. mstep_to (lk L fs) (lk L fs). cbn [fs_mutex lk].
  rewrite m_locked_lookup, decide_True by assumption. mstep_to 0 (lk L fs).
  unfold set_mutex. mstep_to (lk L fs) (lk L fs). cbn [fs_mutex lk].
  rewrite (m_locked_upd L L' d); [reflexivity|exact Hd| |].
  - rewrite decide_False by (rewrite HL; tauto). reflexivity.
  - intros x Hx. rewrite HL. tauto.
Qed.
End lock_lemmas.

(** * Files *)

(** The bytes in the data sectors of a file. *)
Definition contents_of (fs : FsState) (blocks : list block) : list Z :=
  data_of blocks ≫= (fun d => default [] (fs_sectors fs).[d]).
(** The file as its user sees it. *)
Definition file_bytes (fs : FsState) (h : FileHeader) (blocks : list block) : list Z :=
  slice (contents_of fs blocks) 0 (numBytes h).

(** A file whose header is in sector [n]. *)
Record file_at (fs : FsState) (n : Z) (h : FileHeader) (blocks : list block) : Prop := {
  fa_hdr    : hdr_wf h;
  fa_sector : (fs_sectors fs).[n] = Some (hdr_bytes h);
  fa_range  : 0 <= n < NumSectors;
  fa_layout : layout fs h blocks;
  fa_own    : n ∉ sectors_of blocks;
  fa_size   : 0 <= numBytes h <= SectorSize * numSectors h
}.

Section file_lemmas.
Implicit Types (fs : FsState) (h : FileHeader) (blocks : list block).

Lemma layout_same_sectors fs fs' h h' blocks :
  fs_sectors fs' = fs_sectors fs -> primaryIndexTable h' = primaryIndexTable h ->
  numSectors h' = numSectors h -> layout fs h blocks -> layout fs' h' blocks.
Proof.
  intros E Et En [L1 L2 L3 L4 L5 L6]. split; rewrite ?En, ?Et; auto.
  eapply Forall_impl; [exact L4|]. intros b (bs & Eb & Ht). exists bs. now rewrite E.
Qed.

Lemma file_sectors_bound fs h blocks : layout fs h blocks -> 0 <= numSectors h <= 800.
Proof.
  intros L. destruct (shaped_length _ _ (lay_shape _ _ _ L)) as [Hb _].
  pose proof (shaped_nonneg _ _ (lay_shape _ _ _ L)) as H0. split; [exact H0|].
  assert (Hl : Z.of_nat (length blocks) <= 25).
  { destruct (Z_le_gt_dec (Z.of_nat (length blocks)) 25) as [|Hg]; [assumption|exfalso].
    destruct (zlookup_lt blocks 25) as [b Hb']; [lia|]. apply (lay_index _ _ _ L) in Hb'.
    rewrite zlookup_ge in Hb'; [discriminate|]. pose proof (lay_table _ _ _ L) as Ht. change NumDirect with 25 in Ht. lia. }
  pose proof (divRoundUp_enough (numSectors h) 32 H0 ltac:(lia)). lia.
Qed.

Lemma data_lookup_bytes fs h blocks l d :
  fs_wf fs -> layout fs h blocks -> (data_of blocks).[l] = Some d ->
  exists bs, (fs_sectors fs).[d] = Some bs /\ is_sector bs /\ 0 <= d < NumSectors.
Proof.
  intros Hfs L Hd. pose proof (data_sector_range _ _ _ _ _ L Hd) as Hr.
  destruct (fs_sector_exists fs d Hfs Hr) as (bs & E & Hs). eauto.
Qed.

Lemma NoDup_data fs h blocks : layout fs h blocks -> NoDup (data_of blocks).
Proof.
  intros L. pose proof (lay_nodup _ _ _ L) as Hnd. clear L. unfold data_of, sectors_of in *.
  induction blocks as [|b r IH]; [constructor|]. rewrite bind_cons in *. cbn [app] in Hnd.
  apply NoDup_cons in Hnd as [_ Hnd]. apply NoDup_app in Hnd as (H1 & H2 & H3).
  apply NoDup_app. split; [exact H1|]. split; [|now apply IH].
  intros x Hx Hin. apply (H2 x Hx). apply list_elem_of_bind in Hin as (b' & Hx' & Hb').
  apply list_elem_of_bind. exists b'. split; [now right|exact Hb'].
Qed.

Lemma data_in_sectors blocks d : d ∈ data_of blocks -> d ∈ sectors_of blocks.
Proof.
  intros Hd. apply list_elem_of_bind in Hd as (b & Hb & Hin). apply list_elem_of_bind. exists b.
  split; [now right|exact Hin].
Qed.

Lemma index_not_data fs h blocks b d :
  layout fs h blocks -> b ∈ blocks -> d ∈ data_of blocks -> b.1 <> d.
Proof.
  intros L Hb Hd E. subst d. pose proof (lay_nodup _ _ _ L) as Hnd.
  apply list_elem_of_split in Hb as (l1 & l2 & ->). rewrite data_of_app, data_of_cons in Hd.
  rewrite sectors_of_app, sectors_of_cons in Hnd.
  apply NoDup_app in Hnd as (_ & Hd1 & Hnd). apply NoDup_cons in Hnd as [Hnd _].
  apply elem_of_app in Hd as [Hd|Hd].
  - apply (Hd1 b.1); [now apply data_in_sectors|left].
  - apply Hnd. apply elem_of_app in Hd as [Hd|Hd]; apply elem_of_app; [now left|right; now apply data_in_sectors].
Qed.
End file_lemmas.

(** * Blocks of 128 bytes in a row *)
Section chunk_lemmas.
Variable g : Z -> list Z.
Hypothesis g_length : forall d, Z.of_nat (length (g d)) = 128.

Lemma length_chunks l : Z.of_nat (length (l ≫= g)) = 128 * Z.of_nat (length l).
Proof.
  induction l as [|d l IH]; [reflexivity|]. rewrite bind_cons, length_app. cbn [length].
  specialize (g_length d). lia.
Qed.

Lemma chunks_lookup l x :
  0 <= x -> (l ≫= g).[x] = d ← l.[x / 128]; (g d).[x mod 128].
Proof.
  revert x. induction l as [|d l IH]; intros x Hx.
  - unfold zlookup. destruct (0 <=? x), (0 <=? x / 128); reflexivity.
  - rewrite bind_cons. destruct (Z_lt_le_dec x 128).
    + rewrite Z.div_small, Z.mod_small by lia.
      change ((d :: l).[0]) with (Some d). cbn. unfold zlookup. destruct (Z.leb_spec 0 x); [|lia].
      apply lookup_app_l. specialize (g_length d). lia.
    + replace (x / 128) with ((x - 128) / 128 + 1) by (replace x with (x - 128 + 1 * 128) at 2 by lia; rewrite Z.div_add; lia).
      replace (x mod 128) with ((x - 128) mod 128) by (replace x with (x - 128 + 1 * 128) at 2 by lia; now rewrite Z.mod_add by lia).
      rewrite zlookup_cons_S by (apply Z.div_pos; lia). rewrite <- IH by lia.
      unfold zlookup. destruct (Z.leb_spec 0 x), (Z.leb_spec 0 (x - 128)); try lia.
      specialize (g_length d). rewrite lookup_app_r by lia. f_equal. lia.
Qed.
End chunk_lemmas.

(** A sector's bytes; any 128 bytes where there is none. *)
Definition sector_bytes (fs : FsState) (d : Z) : list Z :=
  match (fs_sectors fs).[d] with
  | Some bs => if Z.of_nat (length bs) =? 128 then bs else replicate 128 0
  | None => replicate 128 0
  end.

Section run_lemmas.
Context `{!HostTime}.
Implicit Types (fs : FsState) (h : FileHeader) (blocks : list block) (o : OpenFile).

Lemma length_sector_bytes fs d : Z.of_nat (length (sector_bytes fs d)) = 128.
Proof.
  unfold sector_bytes. destruct ((fs_sectors fs).[d]) as [bs|]; [|reflexivity].
  destruct (Z.eqb_spec (Z.of_nat (length bs)) 128); [assumption|reflexivity].
Qed.

Lemma sector_bytes_at fs d bs : fs_wf fs -> (fs_sectors fs).[d] = Some bs -> sector_bytes fs d = bs.
Proof.
  intros Hfs E. unfold sector_bytes. rewrite E. destruct (zlookup_Forall _ _ _ _ (fw_bytes _ Hfs) E) as [Hl _].
  unfold SectorSize in Hl. now rewrite (proj2 (Z.eqb_eq _ _) Hl).
Qed.

Lemma contents_chunks fs h blocks :
  fs_wf fs -> layout fs h blocks -> contents_of fs blocks = data_of blocks ≫= sector_bytes fs.
Proof.
  intros Hfs L. unfold contents_of.
  assert (HF : Forall (fun d => default [] (fs_sectors fs).[d] = sector_bytes fs d) (data_of blocks)).
  { apply Forall_forall. intros d Hd. apply list_elem_of_lookup in Hd as [i Hi]. rewrite <- zlookup_nat in Hi.
    destruct (data_lookup_bytes _ _ _ _ _ Hfs L Hi) as (bs & E & _). rewrite E. cbn. symmetry. now apply sector_bytes_at. }
  induction HF as [|d l Hd _ IH]; [reflexivity|]. rewrite !bind_cons, Hd, IH. reflexivity.
Qed.

Lemma contents_lookup fs h blocks x :
  fs_wf fs -> layout fs h blocks -> 0 <= x < 128 * numSectors h ->
  exists d bs, (data_of blocks).[x / 128] = Some d /\ (fs_sectors fs).[d] = Some bs /\
    (contents_of fs blocks).[x] = bs.[x mod 128].
Proof.
  intros Hfs L Hx. destruct (data_of_lookup blocks (numSectors h) (x / 128)) as (b & d & _ & _ & Ed);
    [apply L|split; [apply Z.div_pos; lia|apply Z.div_lt_upper_bound; lia]|].
  destruct (data_lookup_bytes _ _ _ _ _ Hfs L Ed) as (bs & E & _ & _). exists d, bs. split; [exact Ed|]. split; [exact E|].
  rewrite (contents_chunks fs h) by assumption. rewrite (chunks_lookup _ (length_sector_bytes fs)) by lia.
  rewrite Ed. cbn. now rewrite (sector_bytes_at fs d bs Hfs E).
Qed.

Lemma length_contents fs h blocks :
  fs_wf fs -> layout fs h blocks -> Z.of_nat (length (contents_of fs blocks)) = 128 * numSectors h.
Proof.
  intros Hfs L. rewrite (contents_chunks fs h) by assumption. rewrite (length_chunks _ (length_sector_bytes fs)).
  destruct (shaped_length _ _ (lay_shape _ _ _ L)) as [_ Hl]. lia.
Qed.

Lemma data_sector_run o fs blocks i d :
  layout fs (hdr o) blocks -> 0 <= i -> (data_of blocks).[i] = Some d ->
  data_sector i (mkOfState o fs) = Ok (d, mkOfState o fs).
Proof.
  intros L Hi Hd. unfold data_sector. mstep_to (mkOfState o fs) (mkOfState o fs). cbn [of_file].
  assert (Hr : 0 <= i < numSectors (hdr o)).
  { apply zlookup_Some in Hd as [Hd _]. destruct (shaped_length _ _ (lay_shape _ _ _ L)) as [_ Hl]. lia. }
  destruct (ByteToSector_run fs (hdr o) blocks (i * SectorSize) L) as (d' & Ed & E); [unfold SectorSize; lia|].
  unfold SectorSize in Ed. rewrite Z.div_mul in Ed by lia. rewrite Hd in Ed. injection Ed as <-.
  unfold do_fs. cbn [of_fs]. now rewrite E.
Qed.

Lemma fetch_header_run o fs h blocks :
  fs_wf fs -> file_at fs (hdrSectorNumber o) h blocks ->
  fetch_header (mkOfState o fs) = Ok (tt, mkOfState (mkOpenFile h (hdrSectorNumber o) (seekPosition o)) fs).
Proof.
  intros Hfs [F1 F2 F3 F4 F5 F6]. unfold fetch_header. set (n := hdrSectorNumber o) in *.
  mstep_to (mkOfState o fs) (mkOfState o fs). cbn [of_file]. fold n.
  assert (EP : do_fs (fs_rw_P n) (mkOfState o fs) = Ok (tt, mkOfState o (lk [n] fs))).
  { unfold do_fs. cbn [of_fs of_file]. rewrite <- (lk_nil fs Hfs) at 1.
    rewrite (fs_rw_P_lk [] [n]); [reflexivity|exact F3|intros Hx; inversion Hx|]. intros x. rewrite list_elem_of_singleton. set_solver. }
  mstep_by EP.
  assert (EF : do_fs (FetchFrom n) (mkOfState o (lk [n] fs)) = Ok (h, mkOfState o (lk [n] fs))).
  { unfold do_fs, FetchFrom. cbn [of_fs of_file]. rewrite (mthen_step _ _ _ _ _ (fs_ReadSector_run n (lk [n] fs) (hdr_bytes h) F3 F2)).
    cbn beta. now rewrite hdr_of_hdr_bytes. }
  mstep_by EF. set (o' := mkOpenFile h n (seekPosition o)). mstep_to tt (mkOfState o' (lk [n] fs)).
  unfold do_fs. cbn [of_fs of_file]. rewrite (fs_rw_V_lk [n] []); [now rewrite lk_nil|exact F3|left|]. intros x. set_solver.
Qed.
End run_lemmas.

Section loop_lemmas.
Implicit Types (fs : FsState) (h : FileHeader) (blocks : list block) (o : OpenFile) (ds L : list Z).

(** [ds] are the data sectors of the file from number [i] on. *)
Definition range_at blocks (i : Z) ds : Prop := forall k d, ds.[k] = Some d -> (data_of blocks).[i + k] = Some d.

Lemma range_at_cons blocks i d ds :
  range_at blocks i (d :: ds) -> (data_of blocks).[i] = Some d /\ range_at blocks (i + 1) ds.
Proof.
  intros HR. split.
  - rewrite <- (Z.add_0_r i). now apply HR.
  - intros k e Hk. assert (0 <= k) by (apply zlookup_Some in Hk; lia).
    rewrite <- Z.add_assoc, (Z.add_comm 1). apply HR. now rewrite zlookup_cons_S.
Qed.

Lemma seqZ_length_cons {A} i (x : A) l :
  seqZ i (Z.of_nat (length (x :: l))) = i :: seqZ (i + 1) (Z.of_nat (length l)).
Proof. cbn [length]. rewrite seqZ_cons by lia. f_equal. f_equal; lia. Qed.

Lemma lock_loop o fs blocks ds : forall i L,
  layout fs (hdr o) blocks -> 0 <= i -> range_at blocks i ds -> NoDup (L ++ ds) ->
  mfor (seqZ i (Z.of_nat (length ds))) (fun i => let! d := data_sector i in do_fs (fs_rw_P d)) (mkOfState o (lk L fs))
    = Ok (tt, mkOfState o (lk (L ++ ds) fs)).
Proof.
  induction ds as [|d ds IH]; intros i L HL Hi HR Hnd.
  - now rewrite app_nil_r.
  - apply range_at_cons in HR as [Hd HR]. rewrite seqZ_length_cons. cbn [mfor].
    assert (HL' : layout (lk L fs) (hdr o) blocks) by now apply (layout_same_sectors fs _ (hdr o)).
    assert (E : (let! d := data_sector i in do_fs (fs_rw_P d)) (mkOfState o (lk L fs)) = Ok (tt, mkOfState o (lk (L ++ [d]) fs))).
    { mstep_by (data_sector_run o (lk L fs) blocks i d HL' Hi Hd). unfold do_fs. cbn [of_fs of_file].
      rewrite (fs_rw_P_lk L (L ++ [d])); [reflexivity|exact (data_sector_range _ _ _ _ _ HL Hd)| |].
      - apply NoDup_app in Hnd as (_ & Hdis & _). intros Hin. apply (Hdis d Hin). left.
      - intros x. rewrite elem_of_app, list_elem_of_singleton. tauto. }
    mstep_by E. rewrite IH; [now rewrite <- app_assoc|exact HL|lia|exact HR|now rewrite <- app_assoc].
Qed.

Lemma lock_range_run o fs blocks ds f l :
  fs_wf fs -> layout fs (hdr o) blocks -> 0 <= f -> Z.of_nat (length ds) = l - f + 1 ->
  range_at blocks f ds -> NoDup ds ->
  lock_range f l (mkOfState o fs) = Ok (tt, mkOfState o (lk ds fs)).
Proof.
  intros Hfs HL Hf Hlen HR Hnd. unfold lock_range.
  set (fs0 := mkFsState (fs_sectors fs) (fs_mutex fs) 0 (fs_time_calls fs)).
  assert (E1 : do_fs fs_arr_P (mkOfState o fs) = Ok (tt, mkOfState o (lk [] fs0))).
  { unfold do_fs, fs_arr_P. cbn [of_fs of_file]. mstep_to fs fs. rewrite (fw_array _ Hfs). cbn.
    unfold lk, fs0. cbn. rewrite m_locked_nil, <- (fw_mutex _ Hfs). reflexivity. }
  mstep_by E1. rewrite <- Hlen.
  assert (HL0 : layout fs0 (hdr o) blocks) by now apply (layout_same_sectors fs _ (hdr o)).
  mstep_by (lock_loop o fs0 blocks ds f [] HL0 Hf HR Hnd).
  unfold do_fs, fs_arr_V. cbn. unfold lk. cbn. now rewrite (fw_array _ Hfs).
Qed.

(** The loop of ReadAt, from the [i]-th data sector on. *)
Definition read_step (first : Z) (buf : list Z) (i : Z) : M OfState (list Z) :=
  let! d := data_sector i in
  let! data := do_fs (fs_ReadSector d) in
  let! buf := mlift (store buf ((i - first) * SectorSize) data) in
  let! d := data_sector i in
  do_fs (fs_rw_V d) >>>
  mreturn buf.

Lemma splice_middle {A} (l1 l2 bs : list A) p :
  p = Z.of_nat (length l1) -> splice (l1 ++ l2) p bs = l1 ++ bs ++ drop (length bs) l2.
Proof.
  intros ->. unfold splice. rewrite Nat2Z.id, take_app_length. f_equal. f_equal.
  rewrite drop_app_ge by lia. f_equal. lia.
Qed.

Lemma read_loop o fs blocks first ds : forall i done rest,
  fs_wf fs -> layout fs (hdr o) blocks -> 0 <= i -> range_at blocks i ds -> NoDup ds ->
  Z.of_nat (length done) = (i - first) * 128 -> Z.of_nat (length rest) = 128 * Z.of_nat (length ds) ->
  mfold (seqZ i (Z.of_nat (length ds))) (done ++ rest) (read_step first) (mkOfState o (lk ds fs))
    = Ok (done ++ (ds ≫= sector_bytes fs), mkOfState o (lk [] fs)).
Proof.
  induction ds as [|d ds IH]; intros i done rest Hfs HL Hi HR Hnd Hdone Hrest.
  - destruct rest; [reflexivity|cbn in Hrest; lia].
  - apply range_at_cons in HR as [Hd HR]. apply NoDup_cons in Hnd as [Hnin Hnd]. rewrite seqZ_length_cons. cbn [mfold].
    set (s0 := lk (d :: ds) fs).
    assert (HL0 : layout s0 (hdr o) blocks) by now apply (layout_same_sectors fs _ (hdr o)).
    destruct (data_lookup_bytes _ _ _ _ _ Hfs HL Hd) as (bs & Ebs & Hsec & Hr).
    assert (Hbs : sector_bytes fs d = bs) by now apply sector_bytes_at. destruct Hsec as [Hsl _]. unfold SectorSize in Hsl.
    assert (E : read_step first (done ++ rest) i (mkOfState o s0) = Ok (done ++ bs ++ drop 128 rest, mkOfState o (lk ds fs))).
    { unfold read_step. mstep_by (data_sector_run o s0 blocks i d HL0 Hi Hd).
      rewrite (mthen_step _ _ _ bs (mkOfState o s0)).
      2:{ unfold do_fs. cbn [of_fs of_file]. now rewrite (fs_ReadSector_run d s0 bs Hr Ebs). }
      cbn [length] in Hrest. rewrite store_ok by (rewrite ?length_app; unfold SectorSize; lia).
      rewrite splice_middle by (unfold SectorSize; lia). replace (length bs) with 128%nat by lia.
      rewrite (mthen_step _ _ _ (done ++ bs ++ drop 128 rest) (mkOfState o s0)) by reflexivity. cbn beta.
      mstep_by (data_sector_run o s0 blocks i d HL0 Hi Hd). unfold do_fs. unfold mthen. cbn [of_fs of_file].
      unfold s0. rewrite (fs_rw_V_lk (d :: ds) ds); [reflexivity|exact Hr|left|].
      intros x. split; [|set_solver]. intros Hx. split; [intros ->; contradiction|now right]. }
    mstep_by E. rewrite app_assoc. cbn [length] in Hrest. rewrite (IH (i + 1)); try assumption; try lia.
    + rewrite bind_cons, Hbs, app_assoc. reflexivity.
    + rewrite length_app. lia.
    + rewrite length_drop. lia.
Qed.

(** The loop of WriteAt: the sectors get the pieces of [buf]. *)
Lemma write_loop o blocks first buf ds : forall i fs,
  fs_wf fs -> layout fs (hdr o) blocks -> first <= i -> 0 <= i -> range_at blocks i ds -> NoDup ds ->
  Z.of_nat (length buf) = (i - first + Z.of_nat (length ds)) * 128 -> Forall is_byte buf ->
  exists l', mfor (seqZ i (Z.of_nat (length ds))) (fun i =>
      let! d := data_sector i in
      let! data := mlift (load buf ((i - first) * SectorSize) SectorSize) in
      do_fs (fs_WriteSector d data) >>>
      let! d := data_sector i in
      do_fs (fs_rw_V d)) (mkOfState o (lk ds fs)) = Ok (tt, mkOfState o (lk [] (with_sectors l' fs))) /\
    fs_wf (with_sectors l' fs) /\
    (forall k d, ds.[k] = Some d -> l'.[d] = Some (slice buf ((i + k - first) * 128) 128)) /\
    (forall q, 0 <= q -> (q ∉ ds) -> l'.[q] = (fs_sectors fs).[q]).
Proof.
  induction ds as [|d ds IH]; intros i fs Hfs HL Hfi Hi HR Hnd Hbuf Hby.
  - exists (fs_sectors fs). split; [now destruct fs|]. split; [now destruct fs|]. split; [|reflexivity].
    intros k d Hk. unfold zlookup in Hk. destruct (0 <=? k); discriminate.
  - pose proof HR as HR0. apply range_at_cons in HR as [Hd HR]. apply NoDup_cons in Hnd as [Hnin Hnd]. rewrite seqZ_length_cons. cbn [mfor].
    set (s0 := lk (d :: ds) fs).
    assert (HL0 : layout s0 (hdr o) blocks) by now apply (layout_same_sectors fs _ (hdr o)).
    destruct (data_lookup_bytes _ _ _ _ _ Hfs HL Hd) as (bs & Ebs & Hsec & Hr).
    cbn [length] in Hbuf.
    set (data := slice buf ((i - first) * 128) 128). set (l1 := <[Z.to_nat d := data]> (fs_sectors fs)).
    assert (Hdata : is_sector data).
    { split; [unfold data; rewrite length_slice by lia; reflexivity|now apply Forall_slice]. }
    assert (Hfs1 : fs_wf (with_sectors l1 fs)) by now apply fs_wf_write.
    assert (HL1 : layout (with_sectors l1 fs) (hdr o) blocks).
    { destruct HL as [A1 A2 A3 A4 A5 A6] eqn:EL. clear EL. split; auto. apply Forall_forall. intros b Hb.
      apply index_block_frame; [exact (proj1 (Forall_forall _ _) A4 b Hb)|]. apply zlookup_insert_ne; [lia|].
      intros E. apply (index_not_data fs (hdr o) blocks b d); [now split|exact Hb|now apply zlookup_In in Hd|congruence]. }
    assert (HL1' : layout (lk (d :: ds) (with_sectors l1 fs)) (hdr o) blocks) by now apply (layout_same_sectors (with_sectors l1 fs) _ (hdr o)).
    match goal with |- context [mthen ?m] => assert (E : m (mkOfState o s0) = Ok (tt, mkOfState o (lk ds (with_sectors l1 fs)))) end.
    { mstep_by (data_sector_run o s0 blocks i d HL0 Hi Hd). unfold SectorSize. rewrite load_ok by lia. fold data. mstep_to data (mkOfState o s0).
      rewrite (mthen_step _ _ _ tt (mkOfState o (lk (d :: ds) (with_sectors l1 fs)))).
      2:{ unfold do_fs, fs_WriteSector. cbn [of_fs of_file]. mstep_to s0 s0. rewrite sector_range by exact Hr. mstep_to tt s0.
          cbn [fs_sectors s0 lk]. now rewrite zupd_lt by (rewrite (fw_length _ Hfs); exact Hr). }
      cbn beta. mstep_by (data_sector_run o _ blocks i d HL1' Hi Hd). unfold do_fs. cbn [of_fs of_file].
      rewrite (fs_rw_V_lk (d :: ds) ds); [reflexivity|exact Hr|left|].
      intros x. split; [|set_solver]. intros Hx. split; [intros ->; contradiction|now right]. }
    mstep_by E. destruct (IH (i + 1) (with_sectors l1 fs)) as (l' & E' & Hfs' & Hin & Hout); auto; try lia.
    exists l'. split; [exact E'|]. split; [exact Hfs'|]. split.
    + intros k e Hk. destruct (decide (k = 0)) as [->|Hk0].
      * injection Hk as <-. rewrite Hout; [|lia|exact Hnin]. cbn [with_sectors fs_sectors]. unfold l1.
        rewrite zlookup_insert_eq by (rewrite (fw_length _ Hfs); exact Hr). unfold data. do 3 f_equal. lia.
      * assert (0 <= k) by (apply zlookup_Some in Hk; lia). replace (i + k - first) with (i + 1 + (k - 1) - first) by lia.
        apply Hin. rewrite <- Hk. replace k with (k - 1 + 1) at 2 by lia. symmetry. apply zlookup_cons_S. lia.
    + intros q Hq Hnq. apply not_elem_of_cons in Hnq as [Hqd Hnq]. rewrite Hout by assumption. cbn. unfold l1.
      apply zlookup_insert_ne; [lia|congruence].
Qed.
End loop_lemmas.

(** * ReadAt *)
Definition fs_tick (fs : FsState) : FsState :=
  mkFsState (fs_sectors fs) (fs_mutex fs) (fs_array_mutex fs) (S (fs_time_calls fs)).

Section read_lemmas.
Context `{!HostTime}.
Variable buf_junk : Z -> list Z.
Hypothesis buf_junk_length : forall n, 0 <= n -> Z.of_nat (length (buf_junk n)) = n.
Implicit Types (fs : FsState) (h : FileHeader) (blocks : list block) (o : OpenFile).

Lemma fs_wf_tick fs : fs_wf fs -> fs_wf (fs_tick fs).
Proof. intros []. now split. Qed.

(** The state after the header has been fetched and stamped. *)
Definition visited o fs h : OfState :=
  mkOfState (mkOpenFile (h_visited (time_at (fs_time_calls fs)) h) (hdrSectorNumber o) (seekPosition o)) (fs_tick fs).

Lemma range_at_slice blocks f n : 0 <= f -> 0 <= n -> range_at blocks f (slice (data_of blocks) f n).
Proof. intros Hf Hn k d Hk. rewrite zlookup_slice in Hk by lia. now case_decide. Qed.

Lemma NoDup_slice {A} (l : list A) f n : NoDup l -> NoDup (slice l f n).
Proof.
  intros Hl. unfold slice. assert (Hd : NoDup (drop (Z.to_nat f) l)).
  { rewrite <- (take_drop (Z.to_nat f) l) in Hl. now apply NoDup_app in Hl as (_ & _ & Hl). }
  rewrite <- (take_drop (Z.to_nat n) (drop _ l)) in Hd. now apply NoDup_app in Hd as (Hd & _).
Qed.

(** The bytes of a range of sectors. *)
Lemma range_bytes fs h blocks f n j :
  fs_wf fs -> layout fs h blocks -> 0 <= f -> 0 <= n -> f + n <= numSectors h -> 0 <= j < 128 * n ->
  (slice (data_of blocks) f n ≫= sector_bytes fs).[j] = (contents_of fs blocks).[128 * f + j].
Proof.
  intros Hfs L Hf Hn Hfn Hj. rewrite (contents_chunks fs h) by assumption.
  rewrite !(chunks_lookup _ (length_sector_bytes fs)) by lia.
  rewrite zlookup_slice by lia. rewrite decide_True by (split; [apply Z.div_pos; lia|apply Z.div_lt_upper_bound; lia]).
  replace ((128 * f + j) / 128) with (f + j / 128) by (rewrite (Z.mul_comm 128), Z.div_add_l by lia; reflexivity).
  replace ((128 * f + j) mod 128) with (j mod 128) by (rewrite Z.add_comm, (Z.mul_comm 128), Z.mod_add by lia; reflexivity).
  reflexivity.
Qed.

Lemma ReadAt_run o fs h blocks n pos :
  fs_wf fs -> file_at fs (hdrSectorNumber o) h blocks -> 0 <= pos -> pos + n < 2 ^ 31 -> - 2 ^ 31 <= n ->
  ReadAt buf_junk n pos (mkOfState o fs) = Ok (slice (file_bytes fs h blocks) pos n, visited o fs h).
Proof.
  intros Hfs HF Hpos Hov Hlow. pose proof HF as [F1 F2 F3 F4 F5 F6].
  pose proof (file_sectors_bound _ _ _ F4) as Hns. unfold SectorSize in F6.
  pose proof (length_contents fs h blocks Hfs F4) as HCl.
  unfold ReadAt. mstep_by (fetch_header_run o fs h blocks Hfs HF).
  set (o1 := mkOpenFile h (hdrSectorNumber o) (seekPosition o)).
  mstep_to (time_at (fs_time_calls fs)) (mkOfState o1 (fs_tick fs)).
  mstep_to tt (visited o fs h). mstep_to (visited o fs h) (visited o fs h).
  unfold FileLength. cbn [of_file visited hdr h_visited numBytes].
  assert (Hempty : n <= 0 \/ numBytes h <= pos -> slice (file_bytes fs h blocks) pos n = []).
  { intros [Hn|Hn]; unfold slice at 1; [now replace (Z.to_nat n) with 0%nat by lia|].
    rewrite drop_ge; [apply take_nil|]. unfold file_bytes.
    pose proof (length_slice (contents_of fs blocks) 0 (numBytes h) ltac:(lia) ltac:(lia) ltac:(lia)). lia. }
  destruct ((n <=? 0) || (numBytes h <=? pos)) eqn:Ee.
  { apply orb_prop in Ee. rewrite Hempty by (destruct Ee; bool_hyps; auto). reflexivity. }
  apply orb_false_iff in Ee as [En Ep]. bool_hyps. rewrite (i32_id (pos + n)) by (unfold is_i32; lia).
  set (n' := if numBytes h <? pos + n then numBytes h - pos else n).
  assert (Hn' : n' = Z.min n (numBytes h - pos)) by (unfold n'; destruct (Z.ltb_spec (numBytes h) (pos + n)); lia). clearbody n'.
  rewrite (i32_id (pos + n' - 1)) by (unfold is_i32; lia). unfold divRoundDown, SectorSize.
  rewrite !Z.quot_div_nonneg by lia. set (f := pos / 128). set (l := (pos + n' - 1) / 128).
  assert (Hf : 128 * f <= pos < 128 * f + 128) by (unfold f; pose proof (Z.div_mod pos 128); pose proof (Z.mod_pos_bound pos 128); lia).
  assert (Hl : 128 * l <= pos + n' - 1 < 128 * l + 128) by (unfold l; pose proof (Z.div_mod (pos + n' - 1) 128); pose proof (Z.mod_pos_bound (pos + n' - 1) 128); lia).
  clearbody f l.
  set (o2 := mkOpenFile (h_visited (time_at (fs_time_calls fs)) h) (hdrSectorNumber o) (seekPosition o)).
  set (fs2 := fs_tick fs). assert (Hfs2 : fs_wf fs2) by now apply fs_wf_tick.
  assert (L2 : layout fs2 (hdr o2) blocks) by now apply (layout_same_sectors fs _ h).
  set (ds := slice (data_of blocks) f (l - f + 1)).
  destruct (shaped_length _ _ (lay_shape _ _ _ F4)) as [_ Hdl].
  assert (Hds : Z.of_nat (length ds) = l - f + 1) by (unfold ds; rewrite length_slice; lia).
  assert (HR : range_at blocks f ds) by (apply range_at_slice; lia).
  assert (Hnd : NoDup ds) by (apply NoDup_slice, (NoDup_data _ _ _ F4)).
  change (visited o fs h) with (mkOfState o2 fs2).
  mstep_by (lock_range_run o2 fs2 blocks ds f l Hfs2 L2 ltac:(lia) Hds HR Hnd).
  assert (EL : mfold (seqZ f (l - f + 1)) (buf_junk ((1 + l - f) * 128)) (read_step f) (mkOfState o2 (lk ds fs2))
             = Ok (ds ≫= sector_bytes fs2, mkOfState o2 fs2)).
  { pose proof (read_loop o2 fs2 blocks f ds f [] (buf_junk ((1 + l - f) * 128)) Hfs2 L2 ltac:(lia) HR Hnd) as ER.
    rewrite Hds, (lk_nil fs2 Hfs2) in ER. apply ER; [cbn; lia|]. rewrite buf_junk_length; lia. }
  unfold read_step in EL. mstep_by EL.
  assert (Hbl : Z.of_nat (length (ds ≫= sector_bytes fs2)) = 128 * (l - f + 1)) by (rewrite (length_chunks _ (length_sector_bytes fs2)); lia).
  rewrite load_ok by lia. unfold mlift. do 2 f_equal. apply zlookup_ext.
  - apply Nat2Z.inj. rewrite length_slice by lia. unfold slice at 1, file_bytes. rewrite length_take, length_drop.
    pose proof (length_slice (contents_of fs blocks) 0 (numBytes h) ltac:(lia) ltac:(lia) ltac:(lia)). lia.
  - intros i Hi. rewrite length_slice in Hi by lia. rewrite !zlookup_slice by lia. rewrite !decide_True by lia.
    unfold file_bytes. rewrite zlookup_slice, decide_True by lia.
    unfold ds. rewrite (range_bytes fs2 (hdr o2)) by (try assumption; cbn; lia). unfold contents_of. cbn [fs2 fs_tick fs_sectors]. f_equal. lia.
Qed.
End read_lemmas.

(** * WriteAt inside the file *)

(** The buffer WriteAt writes back: the partial sectors of the file [FB] at the
    ends, [from] in between. *)
Definition merge_ends (FB buf : list Z) (f l : Z) (firstAligned lastAligned : bool) : list Z :=
  let b1 := if negb firstAligned then splice buf 0 (slice FB (f * 128) 128) else buf in
  if negb lastAligned && (negb (f =? l) || firstAligned)
  then splice b1 ((l - f) * 128) (slice FB (l * 128) 128) else b1.

Section merge_lemmas.
Variables (FB from buf : list Z) (f l pos : Z).
Let n := Z.of_nat (length from).
Let nb := Z.of_nat (length FB).
Hypothesis Hf : 128 * f <= pos < 128 * f + 128.
Hypothesis Hl : 128 * l <= pos + n - 1 < 128 * l + 128.
Hypothesis Hpos : 0 <= pos.
Hypothesis Hn : 0 < n.
Hypothesis Hin : pos + n <= nb.
Hypothesis Hbuf : Z.of_nat (length buf) = (1 + l - f) * 128.
Let fa := pos =? f * 128.
Let la := pos + n =? (l + 1) * 128.

Lemma length_slice_le {A} (xs : list A) p m :
  0 <= p <= Z.of_nat (length xs) -> 0 <= m -> Z.of_nat (length (slice xs p m)) = Z.min m (Z.of_nat (length xs) - p).
Proof. intros Hp Hm. unfold slice. rewrite length_take, length_drop. lia. Qed.

Lemma length_merge_ends : length (merge_ends FB buf f l fa la) = length buf.
Proof.
  unfold merge_ends. assert (H1 : length (if negb fa then splice buf 0 (slice FB (f * 128) 128) else buf) = length buf).
  { destruct fa; [reflexivity|]. cbn [negb]. apply length_splice; [lia|]. rewrite length_slice_le; unfold n, nb in *; lia. }
  destruct (_ && _); [|exact H1]. rewrite length_splice; [exact H1|lia|].
  rewrite H1, length_slice_le; unfold n, nb in *; lia.
Qed.

Lemma merge_lookup j :
  0 <= j < (1 + l - f) * 128 -> 128 * f + j < nb ->
  (splice (merge_ends FB buf f l fa la) (pos - f * 128) from).[j] = (splice FB pos from).[128 * f + j].
Proof.
  intros Hj Hjn. rewrite !zlookup_splice by (rewrite ?length_merge_ends; unfold n, nb in *; lia).
  fold n. case_decide as D1; case_decide as D2; try lia; [f_equal; lia|]. unfold merge_ends.
  set (b1 := if negb fa then _ else buf).
  assert (Hb1 : length b1 = length buf).
  { unfold b1. destruct fa; [reflexivity|]. cbn [negb]. apply length_splice; [lia|]. rewrite length_slice_le; unfold n, nb in *; lia. }
  assert (L1 : fa = false -> j < 128 -> b1.[j] = FB.[128 * f + j]).
  { intros Efa Hj1. unfold b1. rewrite Efa. cbn [negb].
    assert (Hs : Z.of_nat (length (slice FB (f * 128) 128)) = Z.min 128 (nb - f * 128)) by (rewrite length_slice_le; unfold n, nb in *; lia).
    rewrite zlookup_splice by (rewrite ?Hs; lia). rewrite Hs, decide_True, Z.sub_0_r by lia.
    rewrite zlookup_slice, decide_True by lia. f_equal. lia. }
  assert (Hs : Z.of_nat (length (slice FB (l * 128) 128)) = Z.min 128 (nb - l * 128)) by (rewrite length_slice_le; unfold n, nb in *; lia).
  destruct (Z_lt_le_dec j (pos - f * 128)) as [Hlow|Hhigh].
  - assert (Efa : fa = false) by (apply Z.eqb_neq; lia). rewrite <- (L1 Efa ltac:(lia)).
    rewrite Efa. destruct (negb la && (negb (f =? l) || false)) eqn:E; [|reflexivity].
    apply andb_prop in E as [_ E]. rewrite orb_false_r in E. bool_hyps.
    rewrite zlookup_splice by (rewrite ?Hb1, ?Hs; lia). now rewrite decide_False by lia.
  - assert (Ela : la = false) by (apply Z.eqb_neq; lia). rewrite Ela. cbn [negb andb].
    destruct (negb (f =? l) || fa) eqn:E.
    + rewrite zlookup_splice by (rewrite ?Hb1, ?Hs; lia). rewrite Hs, decide_True by lia.
      rewrite zlookup_slice, decide_True by lia. f_equal. lia.
    + apply orb_false_iff in E as [E1 E2]. bool_hyps. apply L1; [exact E2|lia].
Qed.
End merge_lemmas.

Section write_lemmas.
Context `{!HostTime}.
Variable buf_junk : Z -> list Z.
Hypothesis buf_junk_length : forall n, 0 <= n -> Z.of_nat (length (buf_junk n)) = n.
Hypothesis buf_junk_bytes : forall n, Forall is_byte (buf_junk n).
Implicit Types (fs : FsState) (h : FileHeader) (blocks : list block) (o : OpenFile).

(** An OpenFile [o] for the file with header [h] in sector [n]. *)
Record opened (n seek : Z) (S : list (list Z)) h blocks o fs : Prop := {
  op_number  : hdrSectorNumber o = n;
  op_seek    : seekPosition o = seek;
  op_sectors : fs_sectors fs = S;
  op_wf      : fs_wf fs;
  op_file    : file_at fs n h blocks;
  op_layout  : layout fs (hdr o) blocks
}.

Lemma file_at_same_sectors fs fs' n h blocks :
  fs_sectors fs' = fs_sectors fs -> file_at fs n h blocks -> file_at fs' n h blocks.
Proof.
  intros E [F1 F2 F3 F4 F5 F6]. split; auto; [now rewrite E|]. now apply (layout_same_sectors fs _ h).
Qed.

Lemma opened_visited n seek S h blocks o fs :
  opened n seek S h blocks o fs -> opened n seek S h blocks (of_file (visited o fs h)) (of_fs (visited o fs h)).
Proof.
  intros [O1 O2 O3 O4 O5 O6]. split; cbn; auto.
  - now apply fs_wf_tick.
  - now apply (file_at_same_sectors fs).
  - apply (layout_same_sectors fs _ h); auto. apply O5.
Qed.

Lemma Forall_file_bytes fs h blocks : fs_wf fs -> layout fs h blocks -> Forall is_byte (file_bytes fs h blocks).
Proof.
  intros Hfs L. apply Forall_slice. rewrite (contents_chunks fs h) by assumption.
  induction (data_of blocks) as [|d ds IH]; [constructor|]. rewrite bind_cons. apply Forall_app. split; [|exact IH].
  unfold sector_bytes. assert (Hz : Forall is_byte (replicate 128 0)) by (apply Forall_replicate; unfold is_byte; lia).
  destruct ((fs_sectors fs).[d]) as [bs|] eqn:E; [|exact Hz]. destruct (_ =? _); [|exact Hz].
  destruct (zlookup_Forall _ _ _ _ (fw_bytes _ Hfs) E) as [_ Hb]. exact Hb.
Qed.

Lemma length_file_bytes fs n h blocks :
  fs_wf fs -> file_at fs n h blocks -> Z.of_nat (length (file_bytes fs h blocks)) = numBytes h.
Proof.
  intros Hfs [F1 F2 F3 F4 F5 F6]. unfold file_bytes. pose proof (length_contents fs h blocks Hfs F4).
  unfold SectorSize in *. apply length_slice; lia.
Qed.

Lemma read_into_run n seek S h blocks o fs buf at_ p :
  opened n seek S h blocks o fs -> 0 <= p -> p + 128 < 2 ^ 31 -> 0 <= at_ -> at_ + 128 <= Z.of_nat (length buf) ->
  exists o' fs', read_into buf_junk buf at_ p (mkOfState o fs) =
      Ok (splice buf at_ (slice (file_bytes fs h blocks) p 128), mkOfState o' fs') /\
    opened n seek S h blocks o' fs'.
Proof.
  intros HO Hp Hov Ha Hb. pose proof HO as [O1 O2 O3 O4 O5 O6]. subst n.
  unfold read_into, SectorSize. mstep_by (ReadAt_run buf_junk buf_junk_length o fs h blocks 128 p O4 O5 Hp Hov ltac:(lia)).
  rewrite store_ok; [|exact Ha|].
  - exists (of_file (visited o fs h)), (of_fs (visited o fs h)). split; [reflexivity|]. now apply opened_visited.
  - unfold slice. rewrite length_take. lia.
Qed.

(** Both partial reads. *)
Lemma read_ends_run n seek S h blocks o fs buf f l (fa la : bool) :
  opened n seek S h blocks o fs -> 0 <= f <= l -> l * 128 + 128 < 2 ^ 31 -> Z.of_nat (length buf) = (1 + l - f) * 128 ->
  exists o' fs',
    (let! b := if negb fa then read_into buf_junk buf 0 (f * 128) else mreturn buf in
     if negb la && (negb (f =? l) || fa) then read_into buf_junk b ((l - f) * 128) (l * 128) else mreturn b) (mkOfState o fs)
    = Ok (merge_ends (file_bytes fs h blocks) buf f l fa la, mkOfState o' fs') /\
    opened n seek S h blocks o' fs'.
Proof.
  intros HO Hfl Hov Hb. unfold merge_ends.
  assert (E1 : exists o1 fs1, (if negb fa then read_into buf_junk buf 0 (f * 128) else mreturn buf) (mkOfState o fs)
      = Ok (if negb fa then splice buf 0 (slice (file_bytes fs h blocks) (f * 128) 128) else buf, mkOfState o1 fs1)
      /\ opened n seek S h blocks o1 fs1).
  { destruct (negb fa); [|now exists o, fs]. apply (read_into_run n seek S); try assumption; lia. }
  destruct E1 as (o1 & fs1 & E1 & HO1). mstep_by E1.
  set (b1 := if negb fa then _ else buf).
  assert (Hb1 : Z.of_nat (length b1) = (1 + l - f) * 128).
  { unfold b1. destruct (negb fa); [|exact Hb]. unfold splice. rewrite !length_app, length_take, length_drop.
    assert (length (slice (file_bytes fs h blocks) (f * 128) 128) <= 128)%nat by (unfold slice; rewrite length_take; lia). lia. }
  destruct (_ && _); [|now exists o1, fs1].
  assert (Efb : file_bytes fs1 h blocks = file_bytes fs h blocks).
  { unfold file_bytes, contents_of. now rewrite (op_sectors _ _ _ _ _ _ _ HO1), <- (op_sectors _ _ _ _ _ _ _ HO). }
  rewrite <- Efb. apply (read_into_run n seek S); try assumption; lia.
Qed.

(** A file whose data sectors only have changed. *)
Lemma layout_data fs h blocks l' :
  layout fs h blocks -> (forall q, 0 <= q -> (q ∉ data_of blocks) -> l'.[q] = (fs_sectors fs).[q]) ->
  layout (with_sectors l' fs) h blocks.
Proof.
  intros L Hout. pose proof L as [L1 L2 L3 L4 L5 L6]. split; auto. apply Forall_forall. intros b Hb.
  apply index_block_frame; [exact (proj1 (Forall_forall _ _) L4 b Hb)|]. apply Hout.
  - eapply (proj1 (Forall_forall _ _) L6 b.1). apply list_elem_of_bind. exists b. split; [left|exact Hb].
  - intros Hin. exact (index_not_data _ _ _ _ _ L Hb Hin eq_refl).
Qed.

Lemma file_at_data fs n h blocks l' :
  file_at fs n h blocks -> (forall q, 0 <= q -> (q ∉ data_of blocks) -> l'.[q] = (fs_sectors fs).[q]) ->
  file_at (with_sectors l' fs) n h blocks.
Proof.
  intros [F1 F2 F3 F4 F5 F6] Hout. split; auto; [|now apply layout_data].
  cbn. rewrite Hout; [exact F2|lia|]. intros Hin. now apply F5, data_in_sectors.
Qed.

(** The file after its sectors [f..l] have been replaced by [buf]. *)
Lemma written_bytes fs fs' n h blocks (FB' buf : list Z) f l ds :
  fs_wf fs -> fs_wf fs' -> file_at fs n h blocks -> file_at fs' n h blocks ->
  0 <= f -> range_at blocks f ds -> ds = slice (data_of blocks) f (l - f + 1) ->
  Z.of_nat (length buf) = (1 + l - f) * 128 -> f <= l ->
  (forall k d, ds.[k] = Some d -> (fs_sectors fs').[d] = Some (slice buf ((f + k - f) * 128) 128)) ->
  (forall q, 0 <= q -> (q ∉ ds) -> (fs_sectors fs').[q] = (fs_sectors fs).[q]) ->
  Z.of_nat (length FB') = numBytes h ->
  (forall j, 0 <= j < (1 + l - f) * 128 -> 128 * f + j < numBytes h -> buf.[j] = FB'.[128 * f + j]) ->
  (forall x, 0 <= x < numBytes h -> x < 128 * f \/ 128 * (l + 1) <= x -> FB'.[x] = (file_bytes fs h blocks).[x]) ->
  file_bytes fs' h blocks = FB'.
Proof.
  intros Hfs Hfs' HF HF' Hf HR Hds Hbuf Hfl Hin Hout Hlen Hb Hx.
  pose proof (fa_size _ _ _ _ HF) as Hsz. unfold SectorSize in Hsz.
  apply zlookup_ext; [apply Nat2Z.inj; now rewrite (length_file_bytes fs' n h blocks Hfs' HF')|].
  intros x Hxr. rewrite (length_file_bytes fs' n h blocks Hfs' HF') in Hxr.
  unfold file_bytes at 1. rewrite zlookup_slice, decide_True, Z.add_0_l by lia.
  destruct (contents_lookup fs' h blocks x Hfs' (fa_layout _ _ _ _ HF')) as (d & bs' & Ed & Ebs' & ->); [lia|].
  pose proof (Z.div_mod x 128 ltac:(lia)) as Hdm. pose proof (Z.mod_pos_bound x 128 ltac:(lia)) as Hmb.
  destruct (decide (f <= x / 128 <= l)) as [Hr|Hr].
  - assert (Hk : ds.[x / 128 - f] = Some d).
    { rewrite Hds, zlookup_slice, decide_True by lia. rewrite <- Ed. f_equal. lia. }
    rewrite (Hin _ _ Hk) in Ebs'. injection Ebs' as <-. rewrite zlookup_slice, decide_True by lia.
    replace ((f + (x / 128 - f) - f) * 128 + x mod 128) with (x - 128 * f) by lia.
    rewrite Hb by lia. f_equal. lia.
  - assert (Hd : d ∉ ds).
    { intros Hin'. apply list_elem_of_lookup in Hin' as [k Hk]. rewrite <- zlookup_nat in Hk. pose proof Hk as Hk'. apply HR in Hk.
      assert (E : f + Z.of_nat k = x / 128).
      { apply zlookup_Some in Hk as [R1 Hk]. apply zlookup_Some in Ed as [R2 Ed].
        pose proof (NoDup_lookup _ _ _ _ (NoDup_data _ _ _ (fa_layout _ _ _ _ HF)) Hk Ed). lia. }
      apply zlookup_Some in Hk' as [R3 _]. assert (Z.of_nat (length ds) <= l - f + 1) by (rewrite Hds; unfold slice; rewrite length_take; lia). lia. }
    rewrite (Hx x Hxr) by lia. unfold file_bytes. rewrite zlookup_slice, decide_True, Z.add_0_l by lia.
    destruct (contents_lookup fs h blocks x Hfs (fa_layout _ _ _ _ HF)) as (d0 & bs & Ed0 & Ebs & ->); [lia|].
    rewrite Ed in Ed0. injection Ed0 as <-. rewrite Hout in Ebs'; [congruence| |exact Hd].
    eapply data_sector_range; [apply (fa_layout _ _ _ _ HF)|exact Ed].
Qed.

Lemma write_sectors_run n seek S h blocks o fs from pos :
  opened n seek S h blocks o fs -> from <> [] -> Forall is_byte from ->
  0 <= pos -> pos + Z.of_nat (length from) <= numBytes h ->
  exists o' fs', write_sectors buf_junk from pos (mkOfState o fs) = Ok (Z.of_nat (length from), mkOfState o' fs') /\
    opened n seek (fs_sectors fs') h blocks o' fs' /\
    file_bytes fs' h blocks = splice (file_bytes fs h blocks) pos from /\
    (forall q, 0 <= q -> (q ∉ data_of blocks) -> (fs_sectors fs').[q] = (fs_sectors fs).[q]).
Proof.
  intros HO Hne Hby Hpos Hin. pose proof HO as [O1 O2 O3 O4 O5 O6]. pose proof (fa_layout _ _ _ _ O5) as L.
  set (m := Z.of_nat (length from)) in *. assert (Hm : 0 < m) by (destruct from; [contradiction|unfold m; cbn; lia]).
  pose proof (file_sectors_bound _ _ _ L) as Hns. pose proof (fa_size _ _ _ _ O5) as Hsz. unfold SectorSize in Hsz.
  pose proof (length_file_bytes fs n h blocks O4 O5) as HFB. set (FB := file_bytes fs h blocks) in *.
  unfold write_sectors. fold m. rewrite !i32_id by (unfold is_i32; lia). unfold divRoundDown, SectorSize.
  rewrite !Z.quot_div_nonneg by lia. set (f := pos / 128). set (l := (pos + m - 1) / 128).
  assert (Hf : 128 * f <= pos < 128 * f + 128) by (unfold f; pose proof (Z.div_mod pos 128); pose proof (Z.mod_pos_bound pos 128); lia).
  assert (Hl : 128 * l <= pos + m - 1 < 128 * l + 128) by (unfold l; pose proof (Z.div_mod (pos + m - 1) 128); pose proof (Z.mod_pos_bound (pos + m - 1) 128); lia).
  clearbody f l. set (fa := pos =? f * 128). set (la := pos + m =? (l + 1) * 128).
  set (buf := buf_junk ((1 + l - f) * 128)).
  assert (Hbuf : Z.of_nat (length buf) = (1 + l - f) * 128) by (unfold buf; rewrite buf_junk_length; lia).
  destruct (read_ends_run n seek S h blocks o fs buf f l fa la HO ltac:(lia) ltac:(lia) Hbuf) as (o1 & fs1 & E1 & HO1).
  fold FB in E1. apply mthen_Ok in E1 as (b1 & s1 & E1 & E2). mstep_by E1. mstep_by E2.
  set (b2 := merge_ends FB buf f l fa la).
  assert (Hb2 : Z.of_nat (length b2) = (1 + l - f) * 128).
  { unfold b2, fa, la, m. rewrite (length_merge_ends FB from buf f l pos); auto; lia. }
  rewrite store_ok by (fold m; lia). set (b3 := splice b2 (pos - f * 128) from). mstep_to b3 (mkOfState o1 fs1).
  assert (Hb3 : Z.of_nat (length b3) = (1 + l - f) * 128) by (unfold b3; rewrite length_splice by (fold m; lia); exact Hb2).
  assert (Hb3y : Forall is_byte b3).
  { assert (HFy : Forall is_byte FB) by now apply Forall_file_bytes. apply Forall_splice; [|exact Hby]. unfold b2, merge_ends.
    assert (Forall is_byte buf) by apply buf_junk_bytes. destruct (_ && _), (negb fa); auto using Forall_splice, Forall_slice. }
  pose proof HO1 as [P1 P2 P3 P4 P5 P6]. destruct (shaped_length _ _ (lay_shape _ _ _ L)) as [_ Hdl].
  set (ds := slice (data_of blocks) f (l - f + 1)).
  assert (Hds : Z.of_nat (length ds) = l - f + 1) by (unfold ds; rewrite length_slice; lia).
  assert (HR : range_at blocks f ds) by (apply range_at_slice; lia).
  assert (Hnd : NoDup ds) by (apply NoDup_slice, (NoDup_data _ _ _ L)).
  mstep_by (lock_range_run o1 fs1 blocks ds f l P4 P6 ltac:(lia) Hds HR Hnd).
  destruct (write_loop o1 blocks f b3 ds f fs1 P4 P6 ltac:(lia) ltac:(lia) HR Hnd ltac:(lia) Hb3y) as (l' & E3 & Hwf' & Hin' & Hout).
  rewrite Hds in E3. rewrite (lk_nil _ Hwf') in E3. unfold write_range. mstep_by E3.
  assert (Hout' : forall q, 0 <= q -> (q ∉ data_of blocks) -> l'.[q] = (fs_sectors fs1).[q]).
  { intros q Hq Hnq. apply Hout; [exact Hq|]. intros Hq'. apply Hnq. apply list_elem_of_lookup in Hq' as [k Hk].
    rewrite <- zlookup_nat in Hk. apply HR in Hk. now apply zlookup_In in Hk. }
  pose proof (file_at_data fs1 n h blocks l' P5 Hout') as HF'.
  exists o1, (with_sectors l' fs1). split; [reflexivity|]. split; [|split].
  - split; auto. now apply layout_data.
  - apply (written_bytes fs (with_sectors l' fs1) n h blocks _ b3 f l ds); auto; try lia.
    + intros q Hq Hnq. cbn. rewrite Hout, P3, O3 by assumption. reflexivity.
    + rewrite length_splice by (fold m; lia). exact HFB.
    + intros j Hj Hjn. unfold b3, b2, fa, la, m. apply merge_lookup; auto; fold m; lia.
    + intros x Hx Hxo. rewrite zlookup_splice by (fold m; lia). now rewrite decide_False by (fold m; lia).
  - intros q Hq Hnq. cbn. rewrite Hout', P3, O3 by assumption. reflexivity.
Qed.
End write_lemmas.

(** * Properties *)
Section properties.
Context `{!HostTime}.
Variables (index_junk map_junk : list Z) (buf_junk : Z -> list Z).
Hypothesis buf_junk_length : forall n, 0 <= n -> Z.of_nat (length (buf_junk n)) = n.
Hypothesis buf_junk_bytes : forall n, Forall is_byte (buf_junk n).
Implicit Types (fs : FsState) (h : FileHeader) (blocks : list block) (o : OpenFile).

Lemma opened_start o fs h blocks :
  fs_wf fs -> file_at fs (hdrSectorNumber o) h blocks ->
  opened (hdrSectorNumber o) (seekPosition o) (fs_sectors fs) h blocks
    (mkOpenFile h (hdrSectorNumber o) (seekPosition o)) fs.
Proof. intros Hfs HF. split; auto. apply HF. Qed.

(** WriteAt up to its first test: the header is fetched and stamped twice. *)
Definition stamped o fs h : OfState :=
  let t1 := time_at (fs_time_calls fs) in
  let t2 := time_at (fs_time_calls (fs_tick fs)) in
  mkOfState (mkOpenFile (h_written t2 (h_visited t1 h)) (hdrSectorNumber o) (seekPosition o)) (fs_tick (fs_tick fs)).

Lemma WriteAt_start o fs h blocks from pos :
  fs_wf fs -> file_at fs (hdrSectorNumber o) h blocks ->
  let m := Z.of_nat (length from) in
  WriteAt index_junk map_junk buf_junk from pos (mkOfState o fs) =
    (if m <=? 0 then mreturn 0
     else
       let! ok := if numBytes h <? i32 (pos + m) then extend_file index_junk map_junk buf_junk (i32 (m + pos - numBytes h))
                  else mreturn true in
       if ok then write_sectors buf_junk from pos else mreturn 0) (stamped o fs h) /\
  opened (hdrSectorNumber o) (seekPosition o) (fs_sectors fs) h blocks (of_file (stamped o fs h)) (of_fs (stamped o fs h)).
Proof.
  intros Hfs HF m. split.
  - unfold WriteAt. mstep_by (fetch_header_run o fs h blocks Hfs HF). reflexivity.
  - split; try reflexivity; [now apply fs_wf_tick, fs_wf_tick|now apply (file_at_same_sectors fs)|].
    apply (layout_same_sectors fs _ h); auto. apply HF.
Qed.

Lemma WriteAt_run o fs h blocks from pos :
  fs_wf fs -> file_at fs (hdrSectorNumber o) h blocks -> Forall is_byte from ->
  0 <= pos -> pos + Z.of_nat (length from) <= numBytes h ->
  exists o' fs', WriteAt index_junk map_junk buf_junk from pos (mkOfState o fs) = Ok (Z.of_nat (length from), mkOfState o' fs') /\
    opened (hdrSectorNumber o) (seekPosition o) (fs_sectors fs') h blocks o' fs' /\
    file_bytes fs' h blocks = splice (file_bytes fs h blocks) pos from /\
    (forall q, 0 <= q -> (q ∉ data_of blocks) -> (fs_sectors fs').[q] = (fs_sectors fs).[q]).
Proof.
  intros Hfs HF Hby Hpos Hin. destruct (WriteAt_start o fs h blocks from pos Hfs HF) as [-> HO].
  set (o2 := of_file (stamped o fs h)) in *. set (fs2 := of_fs (stamped o fs h)) in *.
  destruct from as [|b from].
  - exists o2, fs2. split; [reflexivity|]. split; [exact HO|]. split; [now rewrite splice_nil|reflexivity].
  - set (m := Z.of_nat (length (b :: from))) in *. assert (0 < m) by (unfold m; cbn; lia).
    rewrite (proj2 (Z.leb_gt m 0)) by lia.
    pose proof (file_sectors_bound _ _ _ (fa_layout _ _ _ _ HF)). pose proof (fa_size _ _ _ _ HF) as Hsz. unfold SectorSize in Hsz.
    rewrite i32_id by (unfold is_i32; lia). rewrite (proj2 (Z.ltb_ge (numBytes h) (pos + m))) by lia.
    mstep_to true (stamped o fs h). cbn match. unfold m.
    exact (write_sectors_run buf_junk buf_junk_length buf_junk_bytes _ _ _ h blocks o2 fs2 (b :: from) pos HO ltac:(discriminate) Hby Hpos Hin).
Qed.

(** C25: ReadAt returns the bytes of the file: those of the range asked for that
    lie inside the file, none past its end, and it changes no sector and leaves
    no mutex taken. *)
Theorem ReadAt_contents o fs h blocks (numBytes position : Z) :
  fs_wf fs -> file_at fs (hdrSectorNumber o) h blocks ->
  0 <= position -> position + numBytes < 2 ^ 31 -> - 2 ^ 31 <= numBytes ->
  exists o' fs', ReadAt buf_junk numBytes position (mkOfState o fs) =
      Ok (slice (file_bytes fs h blocks) position numBytes, mkOfState o' fs') /\
    fs_sectors fs' = fs_sectors fs /\ fs_wf fs' /\ file_at fs' (hdrSectorNumber o') h blocks /\
    seekPosition o' = seekPosition o.
Proof.
  intros Hfs HF Hp Hov Hlow. rewrite (ReadAt_run buf_junk buf_junk_length o fs h blocks) by assumption.
  do 2 eexists. split; [reflexivity|]. split; [reflexivity|]. split; [now apply fs_wf_tick|].
  split; [now apply (file_at_same_sectors fs)|reflexivity].
Qed.

(** C24: WriteAt inside a file replaces exactly the bytes of the range: the
    bytes around them in the first and the last sector are kept, no sector
    outside the file's data changes, and every mutex is free again. *)
Theorem WriteAt_inside o fs h blocks (from : list Z) (position : Z) :
  fs_wf fs -> file_at fs (hdrSectorNumber o) h blocks -> Forall is_byte from ->
  0 <= position -> position + Z.of_nat (length from) <= numBytes h ->
  exists o' fs', WriteAt index_junk map_junk buf_junk from position (mkOfState o fs)
      = Ok (Z.of_nat (length from), mkOfState o' fs') /\
    file_bytes fs' h blocks = splice (file_bytes fs h blocks) position from /\
    fs_wf fs' /\ file_at fs' (hdrSectorNumber o') h blocks /\
    (forall q, 0 <= q -> (q ∉ data_of blocks) -> (fs_sectors fs').[q] = (fs_sectors fs).[q]).
Proof.
  intros Hfs HF Hby Hpos Hin. destruct (WriteAt_run o fs h blocks from position Hfs HF Hby Hpos Hin)
    as (o' & fs' & E & [O1 O2 O3 O4 O5 O6] & Hfb & Hout).
  exists o', fs'. rewrite O1. auto 6.
Qed.

(** What is written is read back: Write at the current position moves it
    past the data; after a Seek back, Read returns the data and moves the
    position again. *)
Theorem Write_Seek_Read o fs h blocks (data : list Z) :
  fs_wf fs -> file_at fs (hdrSectorNumber o) h blocks -> Forall is_byte data -> 0 <= seekPosition o ->
  seekPosition o + Z.of_nat (length data) <= numBytes h ->
  let n := Z.of_nat (length data) in
  exists s1 s2 s3,
    Write index_junk map_junk buf_junk data (mkOfState o fs) = Ok (n, s1) /\ seekPosition (of_file s1) = seekPosition o + n /\
    Seek (seekPosition o) s1 = Ok (tt, s2) /\
    Read buf_junk n s2 = Ok (data, s3) /\ seekPosition (of_file s3) = seekPosition o + n.
Proof.
  intros Hfs HF Hby Hp Hin n.
  destruct (WriteAt_run o fs h blocks data (seekPosition o) Hfs HF Hby Hp Hin) as (o1 & fs1 & E1 & [O1 O2 O3 O4 O5 O6] & Hfb & _).
  fold n in E1. set (s1' := mkOfState o1 fs1) in E1.
  pose proof (file_sectors_bound _ _ _ (fa_layout _ _ _ _ HF)). pose proof (fa_size _ _ _ _ HF) as Hsz. unfold SectorSize in Hsz.
  set (s1 := mkOfState (mkOpenFile (hdr o1) (hdrSectorNumber o1) (seekPosition o1 + n)) fs1).
  set (o2 := mkOpenFile (hdr o1) (hdrSectorNumber o1) (seekPosition o)).
  assert (ER : ReadAt buf_junk n (seekPosition o) (mkOfState o2 fs1) = Ok (data, visited o2 fs1 h)).
  { rewrite (ReadAt_run buf_junk buf_junk_length o2 fs1 h blocks) by (auto; try lia; cbn; now rewrite O1).
    rewrite Hfb. unfold n. rewrite slice_splice_eq; [reflexivity|exact Hp|].
    rewrite (length_file_bytes fs _ h blocks Hfs HF). exact Hin. }
  exists s1, (mkOfState o2 fs1), (mkOfState (mkOpenFile (h_visited (time_at (fs_time_calls fs1)) h) (hdrSectorNumber o1) (seekPosition o + n)) (fs_tick fs1)).
  split; [|split; [cbn; now rewrite O2|split; [reflexivity|split; [|reflexivity]]]].
  - unfold Write. mstep_to (mkOfState o fs) (mkOfState o fs). cbn [of_file]. mstep_by E1. mstep_to s1' s1'. now mstep_to tt s1.
  - unfold Read. mstep_to (mkOfState o2 fs1) (mkOfState o2 fs1). cbn [of_file o2 seekPosition]. fold o2. mstep_by ER.
    reflexivity.
Qed.
End properties.

(** * Concrete runs: the one-sector file of FileHdr.v, with its header in sector 9 *)
Definition zero_junk (n : Z) : list Z := replicate (Z.to_nat n) 0.
Lemma zero_junk_length n : 0 <= n -> Z.of_nat (length (zero_junk n)) = n.
Proof. intros Hn. unfold zero_junk. rewrite length_replicate. lia. Defined.
Lemma zero_junk_bytes n : Forall is_byte (zero_junk n).
Proof. apply Forall_replicate. unfold is_byte. lia. Defined.

Definition one_file_fs : FsState :=
  with_sectors (<[9%nat := hdr_bytes one_sector_hdr]> (fs_sectors one_sector_fs)) one_sector_fs.
Definition one_file : OpenFile := mkOpenFile one_sector_hdr 9 0.

Lemma one_sector_hdr_wf : hdr_wf one_sector_hdr.
Proof. split; [reflexivity|]. cbn. repeat (apply Forall_cons; split; [unfold is_i32; lia|]). constructor. Defined.
Lemma one_file_wf : fs_wf one_file_fs.
Proof. apply (fs_wf_write 9); [exact one_sector_wf|]. apply hdr_bytes_sector, one_sector_hdr_wf. Defined.
Lemma one_file_at : file_at one_file_fs 9 one_sector_hdr [(2, [3])].
Proof.
  split.
  - exact one_sector_hdr_wf.
  - apply zlookup_insert_eq. rewrite (fw_length _ one_sector_wf). unfold NumSectors, SectorsPerTrack, NumTracks. lia.
  - unfold NumSectors, SectorsPerTrack, NumTracks. lia.
  - destruct one_sector_layout as [L1 L2 L3 L4 L5 L6]. split; auto. apply Forall_cons. split; [|constructor].
    apply index_block_frame; [now apply Forall_cons in L4 as [L4 _]|]. apply (zlookup_insert_ne _ 9); [lia|discriminate].
  - apply (bool_decide_unpack _). reflexivity.
  - cbn. unfold SectorSize. lia.
Defined.

Lemma ReadAt_contents_witness :
  exists o' fs', @ReadAt sample_time zero_junk 10 95 (mkOfState one_file one_file_fs)
    = Ok (slice (file_bytes one_file_fs one_sector_hdr [(2, [3])]) 95 10, mkOfState o' fs').
Proof.
  destruct (@ReadAt_contents sample_time zero_junk zero_junk_length one_file one_file_fs one_sector_hdr [(2, [3])] 10 95 one_file_wf one_file_at)
    as (o' & fs' & E & _); [lia..|].
  exists o', fs'. exact E.
Defined.

Lemma WriteAt_inside_witness :
  exists o' fs', @WriteAt sample_time sample_junk [] zero_junk [1; 2; 3] 50 (mkOfState one_file one_file_fs)
    = Ok (3, mkOfState o' fs') /\ fs_wf fs'.
Proof.
  destruct (@WriteAt_inside sample_time sample_junk [] zero_junk zero_junk_length zero_junk_bytes one_file one_file_fs
              one_sector_hdr [(2, [3])] [1; 2; 3] 50 one_file_wf one_file_at) as (o' & fs' & E & _ & Hw & _).
  - repeat (apply Forall_cons; split; [unfold is_byte; lia|]). constructor.
  - lia.
  - cbn. lia.
  - exists o', fs'. split; [exact E|exact Hw].
Defined.

Lemma Write_Seek_Read_witness :
  exists s1 s2 s3, @Write sample_time sample_junk [] zero_junk [7; 8] (mkOfState one_file one_file_fs) = Ok (2, s1) /\
    Seek 0 s1 = Ok (tt, s2) /\ @Read sample_time zero_junk 2 s2 = Ok ([7; 8], s3).
Proof.
  destruct (@Write_Seek_Read sample_time sample_junk [] zero_junk zero_junk_length zero_junk_bytes one_file one_file_fs
              one_sector_hdr [(2, [3])] [7; 8] one_file_wf one_file_at) as (s1 & s2 & s3 & E1 & _ & E2 & E3 & _).
  - repeat (apply Forall_cons; split; [unfold is_byte; lia|]). constructor.
  - cbn. lia.
  - cbn. lia.
  - exists s1, s2, s3. split; [exact E1|]. split; [exact E2|exact E3].
Defined.
