(* ===== verification/Volume.v ===== *)
(** The disk as a set of files: the contract between openfile.cc and filesys.cc.

    A [vfile] is a file without the details of its header: the sectors it is
    made of, its type, its visit count and its bytes.  [volume fs F] says that the
    disk [fs] holds the files of [F], a map from header sectors to files that
    share no sector.  Opening, reading and writing a file are then functions on
    [F]: this is what filesys.cc relies on. *)
From Stdlib Require Import ZArith Lia.
From stdpp Require Import base option list list_numbers gmap sets.
From S2P Require Import Prelude Disk BitMap Sectors FileHdr OpenFile.

Local Open Scope Z_scope.

Record vfile := mkVfile {
  vf_blocks : list block;
  vf_type   : Z;
  vf_visits : Z;
  vf_bytes  : list Z
}.

Record file_is (fs : FsState) (n : Z) (v : vfile) (h : FileHeader) : Prop := {
  fi_at     : file_at fs n h (vf_blocks v);
  fi_type   : fileType h = vf_type v;
  fi_visits : numVisits h = vf_visits v;
  fi_bytes  : file_bytes fs h (vf_blocks v) = vf_bytes v
}.

(** The sectors of a file, its header's included. *)
Definition owned (n : Z) (v : vfile) : list Z := n :: sectors_of (vf_blocks v).

Record volume (fs : FsState) (F : gmap Z vfile) : Prop := {
  vol_wf       : fs_wf fs;
  vol_file     : forall n v, F !! n = Some v -> exists h, file_is fs n v h;
  vol_disjoint : forall n m v w x, F !! n = Some v -> F !! m = Some w -> x ∈ owned n v -> x ∈ owned m w -> n = m
}.

Section frame_lemmas.
Implicit Types (fs : FsState) (v : vfile) (h : FileHeader) (F : gmap Z vfile).

Lemma layout_frame fs fs' h blocks :
  (forall x, x ∈ sectors_of blocks -> (fs_sectors fs').[x] = (fs_sectors fs).[x]) -> layout fs h blocks -> layout fs' h blocks.
Proof.
  intros Hx [L1 L2 L3 L4 L5 L6]. split; auto. apply Forall_forall. intros b Hb.
  destruct (proj1 (Forall_forall _ _) L4 b Hb) as (bs & E & Ht). exists bs. split; [|exact Ht].
  rewrite Hx; [exact E|]. apply list_elem_of_bind. exists b. split; [left|exact Hb].
Qed.

Lemma contents_frame fs fs' blocks :
  (forall x, x ∈ data_of blocks -> (fs_sectors fs').[x] = (fs_sectors fs).[x]) -> contents_of fs' blocks = contents_of fs blocks.
Proof.
  unfold contents_of. generalize (data_of blocks). intros l. induction l as [|d l IH]; intros H; [reflexivity|].
  rewrite !bind_cons, H by left. f_equal. apply IH. intros x Hx. apply H. now right.
Qed.

Lemma file_is_frame fs fs' n v h :
  (forall x, x ∈ owned n v -> (fs_sectors fs').[x] = (fs_sectors fs).[x]) -> file_is fs n v h -> file_is fs' n v h.
Proof.
  intros Hx [[F1 F2 F3 F4 F5 F6] Ht Hv Hb]. split; [|exact Ht|exact Hv|].
  - split; auto; [rewrite Hx; [exact F2|left]|]. eapply layout_frame; [|exact F4]. intros x Hin. apply Hx. now right.
  - rewrite <- Hb. unfold file_bytes. rewrite (contents_frame fs fs'); [reflexivity|].
    intros x Hin. apply Hx. right. now apply data_in_sectors.
Qed.

Lemma volume_same fs fs' F : fs_sectors fs' = fs_sectors fs -> fs_wf fs' -> volume fs F -> volume fs' F.
Proof.
  intros E Hwf [V1 V2 V3]. split; [exact Hwf| |exact V3]. intros n v Hn. destruct (V2 n v Hn) as [h Hh].
  exists h. apply (file_is_frame fs); [|exact Hh]. intros x _. now rewrite E.
Qed.

Lemma owned_range fs n v h x : file_is fs n v h -> x ∈ owned n v -> 0 <= x < NumSectors.
Proof.
  intros [[F1 F2 F3 F4 F5 F6] _ _ _] Hx. apply elem_of_cons in Hx as [->|Hx]; [exact F3|].
  exact (proj1 (Forall_forall _ _) (lay_range _ _ _ F4) x Hx).
Qed.

(** A change of one file: its sectors stay the same, the others' are kept. *)
Lemma volume_update fs fs' F n v v' h' :
  volume fs F -> F !! n = Some v -> vf_blocks v' = vf_blocks v -> fs_wf fs' -> file_is fs' n v' h' ->
  (forall x, 0 <= x -> (x ∉ owned n v) -> (fs_sectors fs').[x] = (fs_sectors fs).[x]) ->
  volume fs' (<[n := v']> F).
Proof.
  intros [V1 V2 V3] Hn Hb Hwf Hf Hout.
  assert (Ho : owned n v' = owned n v) by (unfold owned; now rewrite Hb).
  split; [exact Hwf| |].
  - intros m w Hm. destruct (decide (n = m)) as [<-|Hne].
    + rewrite lookup_insert_eq in Hm. injection Hm as <-. now exists h'.
    + rewrite lookup_insert_ne in Hm by exact Hne. destruct (V2 m w Hm) as [h Hh]. exists h.
      apply (file_is_frame fs); [|exact Hh]. intros x Hx. apply Hout; [apply (owned_range _ _ _ _ _ Hh Hx)|].
      intros Hx'. apply Hne. now apply (V3 n m v w x).
  - intros a b va vb x Ha Hb' Hxa Hxb. 
    assert (Hold : forall c vc, <[n := v']> F !! c = Some vc -> exists wc, F !! c = Some wc /\ owned c wc = owned c vc).
    { intros c vc Hc. destruct (decide (n = c)) as [<-|Hne].
      - rewrite lookup_insert_eq in Hc. injection Hc as <-. eauto.
      - rewrite lookup_insert_ne in Hc by exact Hne. eauto. }
    destruct (Hold a va Ha) as (wa & Ha' & Ea). destruct (Hold b vb Hb') as (wb & Hb'' & Eb).
    apply (V3 a b wa wb x); auto; congruence.
Qed.

(** A header that changes only in its time stamps, type and count. *)
Record same_file (h h' : FileHeader) : Prop := {
  sf_wf    : hdr_wf h';
  sf_table : primaryIndexTable h' = primaryIndexTable h;
  sf_bytes : numBytes h' = numBytes h;
  sf_count : numSectors h' = numSectors h
}.

Lemma file_is_header fs fs' n v h h' :
  fs_wf fs -> file_is fs n v h -> same_file h h' -> fs_sectors fs' = <[Z.to_nat n := hdr_bytes h']> (fs_sectors fs) ->
  file_is fs' n (mkVfile (vf_blocks v) (fileType h') (numVisits h') (vf_bytes v)) h'.
Proof.
  intros Hwf [[F1 F2 F3 F4 F5 F6] Ht Hv Hb] [S1 S2 S3 S4] E.
  assert (Hx : forall x, x ∈ sectors_of (vf_blocks v) -> (fs_sectors fs').[x] = (fs_sectors fs).[x]).
  { intros x Hx. rewrite E. apply zlookup_insert_ne; [lia|]. intros <-. now apply F5. }
  split; cbn [vf_blocks vf_type vf_visits vf_bytes]; auto.
  - split; auto.
    + rewrite E. apply zlookup_insert_eq. now rewrite (fw_length _ Hwf).
    + apply (layout_same_sectors fs' fs' h); auto. now apply (layout_frame fs).
    + now rewrite S3, S4.
  - rewrite <- Hb. unfold file_bytes. rewrite S3, (contents_frame fs fs'); [reflexivity|].
    intros x Hin. now apply Hx, data_in_sectors.
Qed.

Lemma volume_header fs fs' F n v h h' :
  volume fs F -> F !! n = Some v -> file_is fs n v h -> same_file h h' -> fs_wf fs' ->
  fs_sectors fs' = <[Z.to_nat n := hdr_bytes h']> (fs_sectors fs) ->
  volume fs' (<[n := mkVfile (vf_blocks v) (fileType h') (numVisits h') (vf_bytes v)]> F).
Proof.
  intros HV Hn Hf Hs Hwf E. apply (volume_update fs fs' F n v _ h'); auto.
  - apply (file_is_header fs fs' n v h h'); auto. apply HV.
  - intros x Hx0 Hx. rewrite E. apply zlookup_insert_ne; [apply (fa_range _ _ _ _ (fi_at _ _ _ _ Hf))|].
    intros <-. apply Hx. left.
Qed.

Lemma hdr_wf_visited t h : is_i32 t -> hdr_wf h -> hdr_wf (h_visited t h).
Proof.
  intros Ht [W1 W2]. split; [exact W1|]. unfold hdr_ints in *. cbn in *.
  repeat match goal with H : Forall _ (_ :: _) |- _ => apply Forall_cons in H as [? H] end. auto 8.
Qed.
Lemma same_file_visited t h : is_i32 t -> hdr_wf h -> same_file h (h_visited t h).
Proof. intros Ht Hw. split; try reflexivity. now apply hdr_wf_visited. Qed.
End frame_lemmas.

(** * The operations of openfile.cc on a volume *)
Section volume_ops.
Context `{!HostTime}.
Implicit Types (fs : FsState) (v : vfile) (h : FileHeader) (F : gmap Z vfile) (o : OpenFile).

Lemma volume_insert_same fs F n v blocks ty vis bs :
  F !! n = Some v -> blocks = vf_blocks v -> ty = vf_type v -> vis = vf_visits v -> bs = vf_bytes v ->
  volume fs (<[n := mkVfile blocks ty vis bs]> F) -> volume fs F.
Proof. intros Hn -> -> -> ->. destruct v. cbn. now rewrite insert_id. Qed.

Lemma FetchFrom_volume fs F n v :
  volume fs F -> F !! n = Some v -> exists h, file_is fs n v h /\ FetchFrom n fs = Ok (h, fs).
Proof.
  intros HV Hn. destruct (vol_file _ _ HV n v Hn) as [h Hh]. exists h. split; [exact Hh|].
  destruct Hh as [[F1 F2 F3 F4 F5 F6] _ _ _]. unfold FetchFrom. mstep_by (fs_ReadSector_run n fs (hdr_bytes h) F3 F2).
  now rewrite hdr_of_hdr_bytes.
Qed.

(** WriteBack of the file's own header, changed. *)
Lemma WriteBack_volume fs F n v h h' :
  volume fs F -> F !! n = Some v -> file_is fs n v h -> same_file h h' ->
  exists fs', WriteBack h' n fs = Ok (tt, fs') /\
    volume fs' (<[n := mkVfile (vf_blocks v) (fileType h') (numVisits h') (vf_bytes v)]> F).
Proof.
  intros HV Hn Hf Hs. pose proof (fa_range _ _ _ _ (fi_at _ _ _ _ Hf)) as Hr.
  eexists. split; [apply fs_WriteSector_run; [apply HV|exact Hr]|].
  apply (volume_header fs _ F n v h h'); auto. apply fs_wf_write; [apply HV|]. apply hdr_bytes_sector, Hs.
Qed.

Lemma OpenFile_volume fs F n v :
  volume fs F -> F !! n = Some v ->
  exists o fs', OpenFile_OpenFile n fs = Ok (o, fs') /\ hdrSectorNumber o = n /\ seekPosition o = 0 /\ volume fs' F.
Proof.
  intros HV Hn. destruct (vol_file _ _ HV n v Hn) as [h Hh]. pose proof (vol_wf _ _ HV) as Hwf.
  pose proof Hh as [[F1 F2 F3 F4 F5 F6] Ht Hv Hb]. set (t := time_at (fs_time_calls fs)). set (h' := h_visited t h).
  assert (Hsf : same_file h h') by (apply same_file_visited; [apply time_at_int|exact F1]).
  set (fs' := fs_tick (with_sectors (<[Z.to_nat n := hdr_bytes h']> (fs_sectors fs)) fs)).
  assert (Hwf' : fs_wf fs') by (apply fs_wf_tick, fs_wf_write; [exact Hwf|apply hdr_bytes_sector, Hsf]).
  exists (mkOpenFile h' n 0), fs'. split; [|split; [reflexivity|split; [reflexivity|]]].
  - unfold OpenFile_OpenFile. rewrite <- (lk_nil fs Hwf) at 1.
    mstep_by (fs_rw_P_lk [] [n] n fs F3 ltac:(intros Hx; inversion Hx) ltac:(intros x; rewrite list_elem_of_singleton; set_solver)).
    assert (EF : FetchFrom n (lk [n] fs) = Ok (h, lk [n] fs)).
    { unfold FetchFrom. mstep_by (fs_ReadSector_run n (lk [n] fs) (hdr_bytes h) F3 F2). now rewrite hdr_of_hdr_bytes. }
    mstep_by EF. mstep_to t (fs_tick (lk [n] fs)). fold h'.
    assert (EW : WriteBack h' n (fs_tick (lk [n] fs)) = Ok (tt, lk [n] fs')).
    { unfold WriteBack, fs_WriteSector. mstep_to (fs_tick (lk [n] fs)) (fs_tick (lk [n] fs)). rewrite sector_range by exact F3.
      mstep_to tt (fs_tick (lk [n] fs)). cbn [fs_sectors fs_tick lk]. rewrite zupd_lt by (rewrite (fw_length _ Hwf); exact F3).
      reflexivity. }
    mstep_by EW. mstep_by (fs_rw_V_lk [n] [] n fs' F3 ltac:(left) ltac:(intros x; set_solver)).
    now rewrite lk_nil.
  - apply (volume_insert_same fs' F n v (vf_blocks v) (fileType h') (numVisits h') (vf_bytes v)); auto.
    now apply (volume_header fs fs' F n v h h').
Qed.

Variables (index_junk map_junk : list Z) (buf_junk : Z -> list Z).
Hypothesis buf_junk_length : forall n, 0 <= n -> Z.of_nat (length (buf_junk n)) = n.
Hypothesis buf_junk_bytes : forall n, Forall is_byte (buf_junk n).

Lemma length_vf_bytes fs n v h : fs_wf fs -> file_is fs n v h -> Z.of_nat (length (vf_bytes v)) = numBytes h.
Proof. intros Hwf [Ha _ _ <-]. exact (length_file_bytes fs n h _ Hwf Ha). Qed.

(** Reading and writing leave the seek position to Read and Write. *)
Lemma ReadAt_handle fs F o n v k pos :
  volume fs F -> hdrSectorNumber o = n -> F !! n = Some v -> 0 <= pos -> pos + k < 2 ^ 31 -> - 2 ^ 31 <= k ->
  exists o' fs', ReadAt buf_junk k pos (mkOfState o fs) = Ok (slice (vf_bytes v) pos k, mkOfState o' fs') /\
    hdrSectorNumber o' = n /\ seekPosition o' = seekPosition o /\ volume fs' F.
Proof.
  intros HV Ho Hn Hp Hk Hl. destruct (vol_file _ _ HV n v Hn) as [h Hh]. pose proof Hh as [Ha _ _ Hb].
  rewrite (ReadAt_run buf_junk buf_junk_length o fs h (vf_blocks v)) by first [assumption|apply HV|now rewrite Ho].
  rewrite Hb. unfold visited. do 2 eexists. split; [reflexivity|]. split; [exact Ho|]. split; [reflexivity|].
  apply (volume_same fs); [reflexivity|apply fs_wf_tick, HV|exact HV].
Qed.

Lemma ReadAt_volume fs F o n v k pos :
  volume fs F -> hdrSectorNumber o = n -> F !! n = Some v -> 0 <= pos -> pos + k < 2 ^ 31 -> - 2 ^ 31 <= k ->
  exists o' fs', ReadAt buf_junk k pos (mkOfState o fs) = Ok (slice (vf_bytes v) pos k, mkOfState o' fs') /\
    hdrSectorNumber o' = n /\ volume fs' F.
Proof.
  intros HV Ho Hn Hp Hk Hl. destruct (ReadAt_handle fs F o n v k pos HV Ho Hn Hp Hk Hl) as (o' & fs' & E & H1 & _ & H2). eauto.
Qed.

(** Writing inside a file. *)
Lemma WriteAt_handle fs F o n v from pos :
  volume fs F -> hdrSectorNumber o = n -> F !! n = Some v -> Forall is_byte from ->
  0 <= pos -> pos + Z.of_nat (length from) <= Z.of_nat (length (vf_bytes v)) ->
  exists o' fs', WriteAt index_junk map_junk buf_junk from pos (mkOfState o fs) =
      Ok (Z.of_nat (length from), mkOfState o' fs') /\ hdrSectorNumber o' = n /\ seekPosition o' = seekPosition o /\
    volume fs' (<[n := mkVfile (vf_blocks v) (vf_type v) (vf_visits v) (splice (vf_bytes v) pos from)]> F).
Proof.
  intros HV Ho Hn Hby Hp Hin. destruct (vol_file _ _ HV n v Hn) as [h Hh]. pose proof Hh as [Ha Ht Hv Hb].
  rewrite (length_vf_bytes _ _ _ _ (vol_wf _ _ HV) Hh) in Hin. pose proof Ha as Ha'. rewrite <- Ho in Ha'.
  destruct (WriteAt_run index_junk map_junk buf_junk buf_junk_length buf_junk_bytes o fs h (vf_blocks v) from pos (vol_wf _ _ HV) Ha' Hby Hp Hin)
    as (o' & fs' & E & [O1 O2 O3 O4 O5 O6] & Hfb & Hout).
  exists o', fs'. split; [exact E|]. split; [congruence|]. split; [exact O2|]. rewrite Ho in O5.
  apply (volume_update fs fs' F n v _ h); auto.
  - split; cbn; auto. now rewrite Hfb, Hb.
  - intros x Hx0 Hx. apply Hout; [exact Hx0|]. intros Hd. apply Hx. right. now apply data_in_sectors.
Qed.

Lemma WriteAt_volume fs F o n v from pos :
  volume fs F -> hdrSectorNumber o = n -> F !! n = Some v -> Forall is_byte from ->
  0 <= pos -> pos + Z.of_nat (length from) <= Z.of_nat (length (vf_bytes v)) ->
  exists o' fs', WriteAt index_junk map_junk buf_junk from pos (mkOfState o fs) =
      Ok (Z.of_nat (length from), mkOfState o' fs') /\ hdrSectorNumber o' = n /\
    volume fs' (<[n := mkVfile (vf_blocks v) (vf_type v) (vf_visits v) (splice (vf_bytes v) pos from)]> F).
Proof.
  intros HV Ho Hn Hby Hp Hin. destruct (WriteAt_handle fs F o n v from pos HV Ho Hn Hby Hp Hin) as (o' & fs' & E & H1 & _ & H2). eauto.
Qed.

(** The free map: bitmap and file. *)
Definition map_of_bytes (bs : list Z) : BitMap := mkBitMap NumSectors 32 (words_of_bytes 32 bs).

Lemma BitMap_FetchFrom_volume fs F o n v b :
  volume fs F -> hdrSectorNumber o = n -> F !! n = Some v -> length (vf_bytes v) = 128%nat ->
  numBits b = NumSectors -> bitmap_wf b ->
  exists o' fs', BitMap_FetchFrom buf_junk b (mkOfState o fs) = Ok (map_of_bytes (vf_bytes v), mkOfState o' fs') /\
    hdrSectorNumber o' = n /\ volume fs' F.
Proof.
  intros HV Ho Hn Hl Hb [W1 W2 W3 W4]. rewrite Hb in W2. change (divRoundUp NumSectors BitsInWord) with 32 in W2.
  destruct (ReadAt_volume fs F o n v (32 * 4) 0 HV Ho Hn) as (o' & fs' & E & Ho' & HV'); [lia..|].
  exists o', fs'. split; [|split; [exact Ho'|exact HV']]. unfold BitMap_FetchFrom. rewrite W2. mstep_by E.
  assert (Es : slice (vf_bytes v) 0 (32 * 4) = vf_bytes v) by (unfold slice; apply take_ge; cbn; lia). rewrite Es.
  rewrite drop_ge by (rewrite length_map_bytes; lia). rewrite app_nil_r, Hb. unfold map_of_bytes, mreturn.
  do 4 f_equal. lia.
Qed.

Lemma map_of_map_bytes b : bitmap_wf b -> numBits b = NumSectors -> map_of_bytes (map_bytes (map b)) = b.
Proof.
  intros [W1 W2 W3 W4] Hb. rewrite Hb in W2. change (divRoundUp NumSectors BitsInWord) with 32 in W2.
  unfold map_of_bytes. replace 32%nat with (length (map b)) by lia. rewrite words_of_map_bytes by exact W4.
  destruct b; cbn in *. congruence.
Qed.

Lemma BitMap_WriteBack_volume fs F o n v b :
  volume fs F -> hdrSectorNumber o = n -> F !! n = Some v -> length (vf_bytes v) = 128%nat ->
  numBits b = NumSectors -> bitmap_wf b ->
  exists o' fs', BitMap_WriteBack index_junk map_junk buf_junk b (mkOfState o fs) = Ok (tt, mkOfState o' fs') /\
    hdrSectorNumber o' = n /\
    volume fs' (<[n := mkVfile (vf_blocks v) (vf_type v) (vf_visits v) (map_bytes (map b))]> F).
Proof.
  intros HV Ho Hn Hl Hb [W1 W2 W3 W4]. rewrite Hb in W2. change (divRoundUp NumSectors BitsInWord) with 32 in W2.
  assert (Hlen : length (map_bytes (map b)) = 128%nat) by (rewrite length_map_bytes; lia).
  destruct (WriteAt_volume fs F o n v (map_bytes (map b)) 0 HV Ho Hn) as (o' & fs' & E & Ho' & HV');
    [apply map_bytes_bytes|lia|lia|].
  exists o', fs'. unfold BitMap_WriteBack. mstep_by E. split; [reflexivity|]. split; [exact Ho'|].
  replace (splice (vf_bytes v) 0 (map_bytes (map b))) with (map_bytes (map b)) in HV'; [exact HV'|].
  unfold splice. cbn [Z.to_nat take app]. rewrite drop_ge by (cbn; lia). now rewrite app_nil_r.
Qed.
End volume_ops.

Section volume_files.
Implicit Types (fs : FsState) (v : vfile) (h : FileHeader) (F : gmap Z vfile).

(** A new file on sectors that no other file owns. *)
Lemma volume_add fs fs' F n v h :
  volume fs F -> F !! n = None -> fs_wf fs' -> file_is fs' n v h ->
  (forall m w x, F !! m = Some w -> x ∈ owned m w -> x ∉ owned n v) ->
  (forall x, 0 <= x -> (x ∉ owned n v) -> (fs_sectors fs').[x] = (fs_sectors fs).[x]) ->
  volume fs' (<[n := v]> F).
Proof.
  intros [V1 V2 V3] Hn Hwf Hf Hd Hout. split; [exact Hwf| |].
  - intros m w Hm. destruct (decide (n = m)) as [<-|Hne].
    + rewrite lookup_insert_eq in Hm. injection Hm as <-. now exists h.
    + rewrite lookup_insert_ne in Hm by exact Hne. destruct (V2 m w Hm) as [hm Hh]. exists hm.
      apply (file_is_frame fs); [|exact Hh]. intros x Hx. apply Hout; [apply (owned_range _ _ _ _ _ Hh Hx)|]. now apply (Hd m w).
  - intros a b va vb x Ha Hb Hxa Hxb. destruct (decide (n = a)) as [<-|Hna], (decide (n = b)) as [<-|Hnb]; [reflexivity| | |];
      rewrite ?lookup_insert_eq, ?lookup_insert_ne in * by assumption.
    + injection Ha as <-. exfalso. exact (Hd b vb x Hb Hxb Hxa).
    + injection Hb as <-. exfalso. exact (Hd a va x Ha Hxa Hxb).
    + exact (V3 a b va vb x Ha Hb Hxa Hxb).
Qed.

Lemma volume_delete fs F n : volume fs F -> volume fs (delete n F).
Proof.
  intros [V1 V2 V3]. split; [exact V1| |].
  - intros m v Hm. apply lookup_delete_Some in Hm as [_ Hm]. now apply V2.
  - intros a b va vb x Ha Hb. apply lookup_delete_Some in Ha as [_ Ha]. apply lookup_delete_Some in Hb as [_ Hb]. now apply V3.
Qed.

Lemma contents_bytes fs blocks : fs_wf fs -> Forall is_byte (contents_of fs blocks).
Proof.
  intros Hwf. apply Forall_bind, Forall_true. intros d. cbn. destruct ((fs_sectors fs).[d]) as [bs|] eqn:E; cbn; [|constructor].
  exact (proj2 (zlookup_Forall _ _ _ _ (fw_bytes _ Hwf) E)).
Qed.

Lemma vf_bytes_bytes fs F n v : volume fs F -> F !! n = Some v -> Forall is_byte (vf_bytes v).
Proof.
  intros HV Hn. destruct (vol_file _ _ HV n v Hn) as [h [_ _ _ <-]]. unfold file_bytes, slice.
  apply Forall_take, Forall_drop, contents_bytes, HV.
Qed.

(** No two files of a volume share a sector. *)
Lemma owned_elsewhere fs F n m v w x :
  volume fs F -> F !! n = Some v -> F !! m = Some w -> n <> m -> x ∈ owned n v -> x ∉ owned m w.
Proof. intros HV Hn Hm Hne Hx Hx'. apply Hne. exact (vol_disjoint _ _ HV n m v w x Hn Hm Hx Hx'). Qed.
End volume_files.
