(* ===== verification/Directory.v ===== *)
(** filesys/directory.h and directory.cc: a directory is a table of entries.

    An entry on disk is what it is in memory: the flag with its padding, the
    sector of the file header and the {i address} of the name, a string in the
    heap of the running simulator.  [DirState] is therefore the object with the
    heap's strings, a map from addresses to the characters before the NUL.  A
    name that a caller passes is [Some] string or the null pointer [None].

    [dir_map] is what a directory means: a finite map from names to sectors;
    the methods implement lookup, insertion and deletion on it. *)
From Stdlib Require Import ZArith Lia.
From stdpp Require Import base option list list_numbers gmap sets.
From S2P Require Import Prelude Disk BitMap Sectors FileHdr OpenFile.

Local Open Scope Z_scope.

Abbreviation cstring := (list Z).
Abbreviation Heap := (gmap Z cstring).

(** operator new[] of the host: a fresh, non-null block, or no memory. *)
Class HostAlloc := {
  new_chars : Heap -> Z -> option Z;
  new_chars_fresh : forall heap n p, new_chars heap n = Some p -> heap !! p = None /\ 0 < p < 2 ^ 32
}.

Record DirectoryEntry := mkDirectoryEntry {
  inUse   : Z;
  padding : Z;
  sector  : Z;
  name    : Z
}.

Record Directory := mkDirectory {
  table     : list DirectoryEntry;
  tableSize : Z
}.

Record DirState := mkDirState {
  d_dir  : Directory;
  d_heap : Heap
}.

(** * The table in memory: three words per entry *)
Definition sizeof_DirectoryEntry : Z := 12.
Definition entry_words (e : DirectoryEntry) : list Z :=
  [inUse e + 256 * padding e; u32 (sector e); name e].
Fixpoint entries_of_words (ws : list Z) : list DirectoryEntry :=
  match ws with
  | w :: s :: n :: r => mkDirectoryEntry (w mod 256) (w / 256) (i32 s) n :: entries_of_words r
  | _ => []
  end.
Definition table_bytes (t : list DirectoryEntry) : list Z := map_bytes (t ≫= entry_words).
Definition table_of_bytes (n : nat) (bs : list Z) : list DirectoryEntry :=
  entries_of_words (words_of_bytes (3 * n) bs).

Definition set_inUse (v : Z) (e : DirectoryEntry) : DirectoryEntry :=
  mkDirectoryEntry v (padding e) (sector e) (name e).
Definition set_table (t : list DirectoryEntry) : M DirState unit :=
  mmodify (fun s => mkDirState (mkDirectory t (tableSize (d_dir s))) (d_heap s)).

(** [table[i]], read and written. *)
Definition entry_at (i : Z) : M DirState DirectoryEntry :=
  let! s := mget in mlift (table (d_dir s)).[i].
Definition set_entry (i : Z) (e : DirectoryEntry) : M DirState unit :=
  let! s := mget in
  let! t := mlift (zupd (table (d_dir s)) i e) in
  set_table t.
(** The string at an address. *)
Definition string_at (p : Z) : M DirState cstring :=
  let! s := mget in mlift (d_heap s !! p).

Section constructor.
Context `{!HostTime}.
(** The contents of a new array of entries. *)
Variable table_junk : Z -> list DirectoryEntry.

Definition Directory_Directory (size : Z) : M FsState Directory :=
  let table := set_inUse 0 <$> table_junk size in
  let! dirHdr := FileHdr.FetchFrom 1 in
  let! t := time in
  FileHdr.WriteBack (h_visited t dirHdr) 1 >>>
  mreturn (mkDirectory table size).
End constructor.

Section storage.
Context `{!HostTime}.
Variables (index_junk map_junk : list Z) (buf_junk : Z -> list Z).

(** ReadAt overwrites the front of the table with the bytes it read. *)
Definition FetchFrom (d : Directory) : M OfState Directory :=
  let! bs := ReadAt buf_junk (tableSize d * sizeof_DirectoryEntry) 0 in
  let old := table_bytes (table d) in
  mreturn (mkDirectory (table_of_bytes (length (table d)) (bs ++ drop (length bs) old)) (tableSize d)).

Definition WriteBack (d : Directory) : M OfState unit :=
  let! _ := WriteAt index_junk map_junk buf_junk (table_bytes (table d)) 0 in mreturn tt.
End storage.

Definition same_name (key : option cstring) (e : DirectoryEntry) : M DirState bool :=
  if negb (inUse e =? 0) && negb (name e =? 0) then
    match key with
    | Some k => let! n := string_at (name e) in mreturn (bool_decide (n = k))
    | None => mreturn false
    end
  else mreturn false.

Definition FindIndex (key : option cstring) : M DirState Z :=
  let! s := mget in
  let! r := mfirst (seqZ 0 (tableSize (d_dir s))) (fun i =>
    let! e := entry_at i in
    let! b := same_name key e in
    mreturn (if b then Some i else None)) in
  mreturn (default (-1) r).

Definition Find (key : option cstring) : M DirState Z :=
  let! i := FindIndex key in
  if negb (i =? -1) then let! e := entry_at i in mreturn (sector e)
  else mreturn (-1).

Section operations.
Context `{!HostAlloc}.

(** new char[strlen(key) + 1] with key copied into it; strlen of the null
    pointer faults. *)
Definition copy_string (key : option cstring) : M DirState Z :=
  let! k := mlift key in
  let! s := mget in
  let! p := mlift (new_chars (d_heap s) (Z.of_nat (length k) + 1)) in
  mput (mkDirState (d_dir s) (<[p := k]> (d_heap s))) >>>
  mreturn p.

Definition Add (key : option cstring) (newSector : Z) : M DirState bool :=
  let! i := FindIndex key in
  if negb (i =? -1) then mreturn false
  else
    let! s := mget in
    let! r := mfirst (seqZ 0 (tableSize (d_dir s))) (fun i =>
      let! e := entry_at i in
      if inUse e =? 0 then
        let! p := copy_string key in
        set_entry i (mkDirectoryEntry 1 (padding e) newSector p) >>>
        mreturn (Some true)
      else mreturn None) in
    mreturn (default false r).
End operations.

Definition Remove (key : option cstring) : M DirState bool :=
  let! i := FindIndex key in
  if i =? -1 then mreturn false
  else
    let! e := entry_at i in
    set_entry i (mkDirectoryEntry 0 (padding e) (sector e) 0) >>>
    mreturn true.

(** The lines that List prints. *)
Definition List_ : M DirState (list cstring) :=
  let! s := mget in
  mfold (seqZ 0 (tableSize (d_dir s))) [] (fun out i =>
    let! e := entry_at i in
    if inUse e =? 0 then mreturn out
    else let! n := string_at (name e) in mreturn (out ++ [n])).

(** Print: name, sector and file of each entry in use. *)
Definition Print (d : Directory) (heap : Heap) : M FsState (list (cstring * Z * Printed)) :=
  mfold (seqZ 0 (tableSize d)) [] (fun out i =>
    let! e := mlift (table d).[i] in
    if inUse e =? 0 then mreturn out
    else
      let! n := mlift (heap !! name e) in
      let! h := FileHdr.FetchFrom (sector e) in
      let! p := FileHdr.Print h in
      mreturn (out ++ [(n, sector e, p)])).

(** * What a directory means *)
Definition entry_pair (heap : Heap) (e : DirectoryEntry) : option (cstring * Z) :=
  if inUse e =? 0 then None else (fun n => (n, sector e)) <$> heap !! name e.
Definition dir_list (heap : Heap) (t : list DirectoryEntry) : list (cstring * Z) :=
  omap (entry_pair heap) t.
Definition dir_map (s : DirState) : gmap cstring Z := list_to_map (dir_list (d_heap s) (table (d_dir s))).

(** An entry in use has a name; names are unique. *)
Definition entry_ok (heap : Heap) (e : DirectoryEntry) : Prop :=
  inUse e <> 0 -> name e <> 0 /\ is_Some (heap !! name e).
Record dir_wf (s : DirState) : Prop := {
  dw_size  : tableSize (d_dir s) = Z.of_nat (length (table (d_dir s)));
  dw_entry : Forall (entry_ok (d_heap s)) (table (d_dir s));
  dw_nodup : NoDup (dir_list (d_heap s) (table (d_dir s))).*1
}.

Section lookup_lemmas.
Implicit Types (heap : Heap) (t : list DirectoryEntry) (e : DirectoryEntry) (s : DirState) (k : cstring).

Lemma Forall_replace {A} (P : A -> Prop) (l1 l2 : list A) x (f : A -> A) :
  Forall P (l1 ++ x :: l2) -> (forall y, P y -> P (f y)) -> Forall P (l1 ++ f x :: l2).
Proof.
  intros HP Hf. apply Forall_app in HP as [H1 H2]. apply Forall_cons in H2 as [H2 H3]. apply Forall_app.
  split; [exact H1|]. apply Forall_cons. auto.
Qed.

Lemma dir_list_app heap t1 t2 : dir_list heap (t1 ++ t2) = dir_list heap t1 ++ dir_list heap t2.
Proof. apply omap_app. Qed.
Lemma dir_list_cons heap e t :
  dir_list heap (e :: t) = match entry_pair heap e with Some x => x :: dir_list heap t | None => dir_list heap t end.
Proof. reflexivity. Qed.

(** The entry that FindIndex looks for. *)
Definition is_named heap k e : bool := negb (inUse e =? 0) && bool_decide (heap !! name e = Some k).

Lemma is_named_pair heap k e : is_named heap k e = true <-> entry_pair heap e = Some (k, sector e).
Proof.
  unfold is_named, entry_pair. destruct (inUse e =? 0); cbn; [split; discriminate|].
  rewrite bool_decide_eq_true. destruct (heap !! name e); cbn; split; intros H; congruence.
Qed.

Lemma unnamed_list heap k t :
  Forall (fun e => is_named heap k e = false) t <-> k ∉ (dir_list heap t).*1.
Proof.
  induction t as [|e t IH]; [split; [intros _ H; inversion H|constructor]|].
  rewrite Forall_cons, IH, dir_list_cons. unfold is_named, entry_pair.
  destruct (inUse e =? 0); cbn; [tauto|]. rewrite bool_decide_eq_false.
  destruct (heap !! name e) as [n|]; cbn.
  - rewrite not_elem_of_cons. split; intros [H1 H2]; (split; [congruence|exact H2]).
  - split; [tauto|]. intros H. split; [discriminate|exact H].
Qed.

Lemma same_name_run k e s :
  entry_ok (d_heap s) e -> same_name (Some k) e s = Ok (is_named (d_heap s) k e, s).
Proof.
  intros He. unfold same_name, is_named. unfold entry_ok in He.
  destruct (Z.eqb_spec (inUse e) 0); [reflexivity|]. destruct (He n) as [Hn [x Hx]].
  rewrite (proj2 (Z.eqb_neq _ _) Hn). cbn. unfold string_at, mthen, mget, mlift. rewrite Hx. cbn.
  unfold mreturn. do 2 f_equal. apply bool_decide_ext. split; congruence.
Qed.

Lemma entry_at_run i e s : (table (d_dir s)).[i] = Some e -> entry_at i s = Ok (e, s).
Proof. intros H. unfold entry_at. mstep_to s s. now rewrite H. Qed.

Lemma FindIndex_run k s :
  dir_wf s ->
  (exists t1 e t2, table (d_dir s) = t1 ++ e :: t2 /\ is_named (d_heap s) k e = true /\
     FindIndex (Some k) s = Ok (Z.of_nat (length t1), s)) \/
  ((k ∉ (dir_list (d_heap s) (table (d_dir s))).*1) /\ FindIndex (Some k) s = Ok (-1, s)).
Proof.
  intros [Hsz Hok Hnd].
  set (body := fun i => let! e := entry_at i in let! b := same_name (Some k) e in mreturn (if b then Some i else None)).
  assert (Hb : forall i e, (table (d_dir s)).[i] = Some e ->
                 body i s = Ok (if is_named (d_heap s) k e then Some i else None, s)).
  { intros i e E. unfold body. mstep_by (entry_at_run i e s E).
    mstep_by (same_name_run k e s (zlookup_Forall _ _ _ _ Hok E)). reflexivity. }
  unfold FindIndex. mstep_to s s. fold body. rewrite Hsz.
  destruct (first_split (is_named (d_heap s) k) (table (d_dir s))) as [(t1 & e & t2 & Et & He & Ht1)|Hnone].
  - left. exists t1, e, t2. split; [exact Et|]. split; [exact He|]. rewrite Et.
    unfold mthen at 1. rewrite mfirst_prefix.
    2:{ intros i Hi. destruct (zlookup_lt t1 i Hi) as [x Hx].
        rewrite (Hb i x) by (rewrite Et, zlookup_app_l by exact Hi; exact Hx).
        now rewrite (zlookup_Forall _ _ _ _ Ht1 Hx). }
    cbn [length]. rewrite seqZ_cons by lia. cbn [mfirst]. unfold mthen at 1.
    rewrite (Hb _ e) by (rewrite Et; apply zlookup_middle). now rewrite He.
  - right. split; [now apply unnamed_list|]. rewrite <- (app_nil_r (table (d_dir s))).
    unfold mthen at 1. rewrite mfirst_prefix; [reflexivity|].
    intros i Hi. destruct (zlookup_lt _ i Hi) as [x Hx].
    rewrite (Hb i x Hx). now rewrite (zlookup_Forall _ _ _ _ Hnone Hx).
Qed.

(** The map, seen from an entry that is in the table. *)
Lemma dir_map_middle heap d t1 e t2 k v :
  table d = t1 ++ e :: t2 -> entry_pair heap e = Some (k, v) ->
  NoDup (dir_list heap (table d)).*1 ->
  (dir_map (mkDirState d heap) = <[k := v]> (list_to_map (dir_list heap (t1 ++ t2)))) /\
  (k ∉ (dir_list heap (t1 ++ t2)).*1).
Proof.
  intros Et Ee Hnd. unfold dir_map. cbn [d_dir d_heap]. rewrite Et, !dir_list_app, dir_list_cons, Ee in *.
  rewrite fmap_app, fmap_cons in Hnd. cbn [fst] in Hnd.
  assert (Hk : k ∉ (dir_list heap t1).*1).
  { apply NoDup_app in Hnd as (_ & Hd & _). intros H. apply (Hd k H). left. }
  split.
  - rewrite !list_to_map_app. cbn [list_to_map fst snd foldr]. rewrite <- insert_union_r; [reflexivity|].
    now apply not_elem_of_list_to_map_1.
  - rewrite fmap_app, elem_of_app. apply NoDup_app in Hnd as (_ & _ & Hnd). apply NoDup_cons in Hnd as [Hn _]. tauto.
Qed.
End lookup_lemmas.

Section update_lemmas.
Implicit Types (heap : Heap) (t : list DirectoryEntry) (e : DirectoryEntry) (s : DirState) (k : cstring).

Lemma dir_list_mono heap heap' t :
  Forall (entry_ok heap) t -> heap ⊆ heap' -> dir_list heap' t = dir_list heap t.
Proof.
  intros Ht Hsub. induction Ht as [|e t He _ IH]; [reflexivity|].
  rewrite !dir_list_cons, IH. unfold entry_pair. destruct (Z.eqb_spec (inUse e) 0) as [|Hu]; [reflexivity|].
  destruct (He Hu) as [_ [x Hx]]. now rewrite Hx, (lookup_weaken _ _ _ _ Hx Hsub).
Qed.

Lemma entry_ok_mono heap heap' t : Forall (entry_ok heap) t -> heap ⊆ heap' -> Forall (entry_ok heap') t.
Proof.
  intros Ht Hsub. eapply Forall_impl; [exact Ht|]. intros e He Hu. destruct (He Hu) as [Hn [x Hx]].
  split; [exact Hn|]. exists x. eapply lookup_weaken; eauto.
Qed.

Lemma dir_list_length heap t :
  (length (dir_list heap t) <= length t)%nat.
Proof.
  induction t as [|e t IH]; [reflexivity|]. rewrite dir_list_cons. destruct (entry_pair heap e); cbn; lia.
Qed.

Lemma dir_list_full heap t :
  Forall (entry_ok heap) t -> Forall (fun e => (inUse e =? 0) = false) t -> length (dir_list heap t) = length t.
Proof.
  intros Ht Hu. induction Ht as [|e t He _ IH]; [reflexivity|]. apply Forall_cons in Hu as [Hu Hr].
  rewrite dir_list_cons. unfold entry_pair. rewrite Hu. bool_hyps. destruct (He Hu) as [_ [x ->]]. cbn. now rewrite IH.
Qed.

Lemma dir_map_size s : dir_wf s -> size (dir_map s) = length (dir_list (d_heap s) (table (d_dir s))).
Proof. intros [_ _ Hnd]. unfold dir_map. now apply map_size_list_to_map. Qed.

Lemma dir_map_None s k : dir_map s !! k = None <-> k ∉ (dir_list (d_heap s) (table (d_dir s))).*1.
Proof. unfold dir_map. split; [apply not_elem_of_list_to_map_2|apply not_elem_of_list_to_map_1]. Qed.

Lemma set_entry_middle s t1 e t2 e' :
  table (d_dir s) = t1 ++ e :: t2 ->
  set_entry (Z.of_nat (length t1)) e' s =
  Ok (tt, mkDirState (mkDirectory (t1 ++ e' :: t2) (tableSize (d_dir s))) (d_heap s)).
Proof. intros Et. unfold set_entry. mstep_to s s. rewrite Et, zupd_middle. reflexivity. Qed.

Lemma Find_run k s : dir_wf s -> Find (Some k) s = Ok (default (-1) (dir_map s !! k), s).
Proof.
  intros Hwf. unfold Find. destruct (FindIndex_run k s Hwf) as [(t1 & e & t2 & Et & He & E)|[Hn E]]; mstep_by E.
  - rewrite (proj2 (Z.eqb_neq (Z.of_nat (length t1)) (-1))) by lia. cbn [negb].
    mstep_by (entry_at_run _ e s ltac:(rewrite Et; apply zlookup_middle)).
    apply is_named_pair in He. destruct s as [d heap].
    destruct (dir_map_middle heap d t1 e t2 k _ Et He (dw_nodup _ Hwf)) as [-> _].
    rewrite lookup_insert_eq. reflexivity.
  - apply dir_map_None in Hn. now rewrite Hn.
Qed.

(** The null pointer is no name. *)
Lemma FindIndex_null s : dir_wf s -> FindIndex None s = Ok (-1, s).
Proof.
  intros [Hsz _ _]. unfold FindIndex. mstep_to s s. rewrite Hsz, <- (app_nil_r (table (d_dir s))).
  unfold mthen at 1. rewrite mfirst_prefix; [reflexivity|]. intros i Hi.
  destruct (zlookup_lt _ i Hi) as [e He]. mstep_by (entry_at_run i e s He). unfold same_name. now destruct (_ && _)%bool.
Qed.
Lemma Find_null s : dir_wf s -> Find None s = Ok (-1, s).
Proof. intros Hwf. unfold Find. now mstep_by (FindIndex_null s Hwf). Qed.

Lemma Remove_run k s :
  dir_wf s -> exists s', Remove (Some k) s = Ok (bool_decide (is_Some (dir_map s !! k)), s') /\
    dir_wf s' /\ dir_map s' = delete k (dir_map s) /\ d_heap s' = d_heap s /\ tableSize (d_dir s') = tableSize (d_dir s) /\
    (forall P : DirectoryEntry -> Prop, Forall P (table (d_dir s)) ->
       (forall e, P e -> P (mkDirectoryEntry 0 (padding e) (sector e) 0)) -> Forall P (table (d_dir s'))).
Proof.
  intros Hwf. unfold Remove. destruct (FindIndex_run k s Hwf) as [(t1 & e & t2 & Et & He & E)|[Hn E]].
  - eexists. split; [|].
    + mstep_by E. rewrite (proj2 (Z.eqb_neq (Z.of_nat (length t1)) (-1))) by lia.
      mstep_by (entry_at_run _ e s ltac:(rewrite Et; apply zlookup_middle)).
      mstep_by (set_entry_middle s t1 e t2 _ Et). rewrite bool_decide_eq_true_2; [reflexivity|].
      apply is_named_pair in He. destruct s as [d heap].
      destruct (dir_map_middle heap d t1 e t2 k _ Et He (dw_nodup _ Hwf)) as [-> _]. rewrite lookup_insert_eq. eauto.
    + destruct s as [d heap]. destruct Hwf as [Hsz Hok Hnd]. cbn [d_dir d_heap] in *. apply is_named_pair in He.
      destruct (dir_map_middle heap d t1 e t2 k _ Et He Hnd) as [Hm Hk].
      set (e' := mkDirectoryEntry 0 (padding e) (sector e) 0).
      assert (El : dir_list heap (t1 ++ e' :: t2) = dir_list heap (t1 ++ t2)) by (rewrite !dir_list_app; reflexivity).
      rewrite Et in Hok, Hsz, Hnd. split; [|split; [|split; [reflexivity|split; [reflexivity|]]]].
      * split; cbn [d_dir d_heap table tableSize].
        -- rewrite Hsz, !length_app. reflexivity.
        -- apply Forall_app in Hok as [H1 H2]. apply Forall_cons in H2 as [_ H2]. apply Forall_app.
           split; [exact H1|]. apply Forall_cons. split; [intros H; now contradict H|exact H2].
        -- rewrite El, dir_list_app, fmap_app. rewrite dir_list_app, dir_list_cons, He, fmap_app, fmap_cons in Hnd.
           apply NoDup_app in Hnd as (N1 & N2 & N3). apply NoDup_cons in N3 as [_ N3]. apply NoDup_app.
           split; [exact N1|]. split; [|exact N3]. intros x Hx Hx'. apply (N2 x Hx). now right.
      * rewrite Hm, delete_insert_id by (apply not_elem_of_list_to_map_1; exact Hk). unfold dir_map. cbn [d_dir d_heap table]. now rewrite El.
      * intros P HP Hstep. rewrite Et in HP. now apply (Forall_replace P t1 t2 e (fun e => mkDirectoryEntry 0 (padding e) (sector e) 0)).
  - exists s. mstep_by E. split; [|split; [exact Hwf|split; [|split; [reflexivity|split; [reflexivity|auto]]]]].
    + apply dir_map_None in Hn. rewrite Hn. reflexivity.
    + apply dir_map_None in Hn. now rewrite delete_id.
Qed.

Lemma List_run s : dir_wf s -> List_ s = Ok ((dir_list (d_heap s) (table (d_dir s))).*1, s).
Proof.
  intros [Hsz Hok _]. unfold List_. mstep_to s s. rewrite Hsz. clear Hsz.
  set (body := fun out i => _ : M DirState (list cstring)).
  assert (H : forall t1 t2 out, t1 ++ t2 = table (d_dir s) ->
    mfold (seqZ (Z.of_nat (length t1)) (Z.of_nat (length t2))) out body s = Ok (out ++ (dir_list (d_heap s) t2).*1, s)).
  { intros t1 t2. revert t1. induction t2 as [|e t2 IH]; intros t1 out Et; [now rewrite app_nil_r|].
    cbn [length]. rewrite seqZ_cons by lia. cbn [mfold].
    assert (He : entry_ok (d_heap s) e).
    { rewrite <- Et in Hok. apply Forall_app in Hok as [_ Hok]. now apply Forall_cons in Hok as [Hok _]. }
    replace (Z.succ (Z.of_nat (length t1))) with (Z.of_nat (length (t1 ++ [e]))) by (rewrite length_app; cbn; lia).
    replace (Z.pred (Z.of_nat (S (length t2)))) with (Z.of_nat (length t2)) by lia.
    assert (Ee : entry_at (Z.of_nat (length t1)) s = Ok (e, s)) by (apply entry_at_run; rewrite <- Et; apply zlookup_middle).
    unfold body at 1. unfold mthen at 1 2. rewrite Ee, dir_list_cons. unfold entry_pair.
    destruct (Z.eqb_spec (inUse e) 0) as [Hu|Hu].
    - cbn. apply IH. now rewrite <- app_assoc.
    - destruct (He Hu) as [_ [n Hn]]. unfold string_at, mthen at 1 2, mget, mlift. rewrite Hn. cbn [fmap option_fmap option_map].
      unfold mreturn. rewrite IH by now rewrite <- app_assoc. rewrite fmap_cons, <- app_assoc. reflexivity. }
  specialize (H [] (table (d_dir s)) [] eq_refl). exact H.
Qed.
End update_lemmas.

Section add_lemmas.
Context `{!HostAlloc}.
Implicit Types (s : DirState) (k : cstring).

(** The loop of Add over a table whose entries are all in use, up to [t2]. *)
Definition add_body (key : option cstring) (newSector i : Z) : M DirState (option bool) :=
  let! e := entry_at i in
  if inUse e =? 0 then
    let! p := copy_string key in
    set_entry i (mkDirectoryEntry 1 (padding e) newSector p) >>>
    mreturn (Some true)
  else mreturn None.

Lemma add_body_used key v s t1 t2 i :
  table (d_dir s) = t1 ++ t2 -> Forall (fun e => (inUse e =? 0) = false) t1 ->
  0 <= i < Z.of_nat (length t1) -> add_body key v i s = Ok (None, s).
Proof.
  intros Et Ht Hi. destruct (zlookup_lt t1 i Hi) as [e He].
  unfold add_body. mstep_by (entry_at_run i e s ltac:(rewrite Et, zlookup_app_l by exact Hi; exact He)).
  now rewrite (zlookup_Forall _ _ _ _ Ht He).
Qed.

Lemma copy_string_run k s p :
  new_chars (d_heap s) (Z.of_nat (length k) + 1) = Some p ->
  copy_string (Some k) s = Ok (p, mkDirState (d_dir s) (<[p := k]> (d_heap s))).
Proof. intros Hp. unfold copy_string. mstep_to k s. mstep_to s s. unfold mthen, mlift. now rewrite Hp. Qed.

Lemma Add_full k v s :
  dir_wf s -> is_Some (dir_map s !! k) \/ Z.of_nat (size (dir_map s)) = tableSize (d_dir s) ->
  Add (Some k) v s = Ok (false, s).
Proof.
  intros Hwf Hcase. unfold Add. destruct (FindIndex_run k s Hwf) as [(t1 & e & t2 & _ & _ & E)|[Hn E]]; mstep_by E.
  - now rewrite (proj2 (Z.eqb_neq (Z.of_nat (length t1)) (-1))) by lia.
  - destruct Hcase as [[x Hx]|Hfull]; [apply dir_map_None in Hn; congruence|].
    change (negb (-1 =? -1)) with false. cbn match. mstep_to s s. fold (add_body (Some k) v).
    rewrite (dir_map_size s Hwf), (dw_size _ Hwf) in Hfull. rewrite (dw_size _ Hwf).
    destruct (first_split (fun e => inUse e =? 0) (table (d_dir s))) as [(t1 & e & t2 & Et & He & _)|Hall].
    + exfalso. rewrite Et, dir_list_app, dir_list_cons in Hfull. unfold entry_pair in Hfull. rewrite He in Hfull.
      rewrite !length_app in Hfull. cbn [length] in Hfull.
      pose proof (dir_list_length (d_heap s) t1). pose proof (dir_list_length (d_heap s) t2). lia.
    + rewrite <- (app_nil_r (table (d_dir s))). unfold mthen. rewrite mfirst_prefix; [reflexivity|].
      intros i Hi. apply (add_body_used _ _ s (table (d_dir s)) []); auto. now rewrite app_nil_r.
Qed.

Lemma find_unused s :
  dir_wf s -> Z.of_nat (size (dir_map s)) < tableSize (d_dir s) ->
  exists t1 e t2, table (d_dir s) = t1 ++ e :: t2 /\ inUse e = 0 /\ Forall (fun e => (inUse e =? 0) = false) t1.
Proof.
  intros Hwf Hroom. destruct (first_split (fun e => inUse e =? 0) (table (d_dir s))) as [(t1 & e & t2 & Et & He & Ht1)|Hall].
  - bool_hyps. eauto 7.
  - rewrite dir_map_size, (dw_size _ Hwf), dir_list_full in Hroom by (auto; apply Hwf). lia.
Qed.

(** Adding the null pointer to a directory with room: strlen faults. *)
Lemma Add_null v s :
  dir_wf s -> Z.of_nat (size (dir_map s)) < tableSize (d_dir s) -> Add None v s = Err BadAccess.
Proof.
  intros Hwf Hroom. destruct (find_unused s Hwf Hroom) as (t1 & e & t2 & Et & He & Ht1).
  unfold Add. mstep_by (FindIndex_null s Hwf). change (negb (-1 =? -1)) with false. cbn match. mstep_to s s. fold (add_body None v).
  rewrite (dw_size _ Hwf), Et. unfold mthen at 1. rewrite mfirst_prefix by (intros i Hi; now apply (add_body_used _ _ s t1 (e :: t2))).
  cbn [length]. rewrite seqZ_cons by lia. cbn [mfirst]. unfold mthen at 1. unfold add_body.
  unfold mthen at 1. rewrite (entry_at_run _ e) by (rewrite Et; apply zlookup_middle). rewrite He. reflexivity.
Qed.

Lemma Add_room k v s p :
  dir_wf s -> dir_map s !! k = None -> Z.of_nat (size (dir_map s)) < tableSize (d_dir s) ->
  new_chars (d_heap s) (Z.of_nat (length k) + 1) = Some p ->
  exists s', Add (Some k) v s = Ok (true, s') /\ dir_wf s' /\ dir_map s' = <[k := v]> (dir_map s) /\
    d_heap s' = <[p := k]> (d_heap s) /\ tableSize (d_dir s') = tableSize (d_dir s) /\
    (forall P : DirectoryEntry -> Prop, Forall P (table (d_dir s)) ->
       (forall e, P e -> P (mkDirectoryEntry 1 (padding e) v p)) -> Forall P (table (d_dir s'))).
Proof.
  intros Hwf Hk Hroom Hp. destruct (new_chars_fresh _ _ _ Hp) as [Hfresh Hpos].
  destruct (find_unused s Hwf Hroom) as (t1 & e & t2 & Et & He & Ht1). set (heap' := <[p := k]> (d_heap s)).
  assert (Hsub : d_heap s ⊆ heap') by now apply insert_subseteq.
  set (e' := mkDirectoryEntry 1 (padding e) v p).
  exists (mkDirState (mkDirectory (t1 ++ e' :: t2) (tableSize (d_dir s))) heap').
  assert (Ea : entry_at (Z.of_nat (length t1)) s = Ok (e, s)) by (apply entry_at_run; rewrite Et; apply zlookup_middle).
  split.
  { set (s' := mkDirState _ heap'). unfold Add. destruct (FindIndex_run k s Hwf) as [(t1' & e1 & t2' & Et' & He1 & E)|[Hn E]].
    - exfalso. apply is_named_pair in He1. destruct s as [d heap].
      destruct (dir_map_middle heap d t1' e1 t2' k _ Et' He1 (dw_nodup _ Hwf)) as [Hm _].
      rewrite Hm, lookup_insert_eq in Hk. discriminate.
    - mstep_by E. change (negb (-1 =? -1)) with false. cbn match. mstep_to s s. fold (add_body (Some k) v).
      rewrite (dw_size _ Hwf), Et. unfold mthen at 1. rewrite mfirst_prefix by (intros i Hi; now apply (add_body_used _ _ s t1 (e :: t2))).
      cbn [length]. rewrite seqZ_cons by lia. cbn [mfirst].
      assert (Eb : add_body (Some k) v (Z.of_nat (length t1)) s = Ok (Some true, s')).
      { unfold add_body. mstep_by Ea. rewrite He. cbn [Z.eqb]. mstep_by (copy_string_run k s p Hp).
        now mstep_by (set_entry_middle (mkDirState (d_dir s) heap') t1 e t2 e' Et). }
      unfold mthen at 1. rewrite Eb. reflexivity. }
  destruct s as [d heap]. destruct Hwf as [Hsz Hok Hnd]. cbn [d_dir d_heap] in *.
  assert (El : dir_list heap' (t1 ++ t2) = dir_list heap (table d)).
  { rewrite Et, !dir_list_app, dir_list_cons. unfold entry_pair. rewrite He. cbn [Z.eqb].
    rewrite Et in Hok. apply Forall_app in Hok as [H1 H2]. apply Forall_cons in H2 as [_ H2].
    now rewrite (dir_list_mono heap heap' t1 H1 Hsub), (dir_list_mono heap heap' t2 H2 Hsub). }
  assert (Ep : entry_pair heap' e' = Some (k, v)) by (unfold entry_pair, heap'; cbn; now rewrite lookup_insert_eq).
  assert (Hk' : (k ∉ (dir_list heap' t1).*1) /\ (k ∉ (dir_list heap' t2).*1)).
  { pose proof (proj1 (dir_map_None (mkDirState d heap) k) Hk) as Hk2. cbn [d_dir d_heap] in Hk2.
    rewrite <- El, dir_list_app, fmap_app, elem_of_app in Hk2. tauto. }
  assert (Hnd' : NoDup (dir_list heap' (t1 ++ e' :: t2)).*1).
  { rewrite <- El, dir_list_app, fmap_app in Hnd. rewrite dir_list_app, dir_list_cons, Ep, fmap_app, fmap_cons.
    apply NoDup_app in Hnd as (N1 & N2 & N3). apply NoDup_app. split; [exact N1|]. split.
    - intros x Hx Hx'. apply elem_of_cons in Hx' as [->|Hx']; [tauto|exact (N2 x Hx Hx')].
    - apply NoDup_cons. tauto. }
  split; [|split; [|split; [reflexivity|split; [reflexivity|]]]].
  - split; cbn [d_dir d_heap table tableSize]; [rewrite Hsz, Et, !length_app; reflexivity| |exact Hnd'].
    apply (entry_ok_mono _ _ _ Hok) in Hsub. rewrite Et in Hsub. apply Forall_app in Hsub as [H1 H2].
    apply Forall_cons in H2 as [_ H2]. apply Forall_app. split; [exact H1|]. apply Forall_cons. split; [|exact H2].
    intros _. split; [cbn; lia|]. exists k. apply lookup_insert_eq.
  - destruct (dir_map_middle heap' (mkDirectory (t1 ++ e' :: t2) (tableSize d)) t1 e' t2 k v eq_refl Ep Hnd') as [-> _].
    now rewrite El.
  - intros P HP Hstep. rewrite Et in HP. now apply (Forall_replace P t1 t2 e (fun e => mkDirectoryEntry 1 (padding e) v p)).
Qed.
End add_lemmas.

(** * On disk *)
Record entry_wf (e : DirectoryEntry) : Prop := {
  ew_inUse   : 0 <= inUse e < 256;
  ew_padding : 0 <= padding e < 2 ^ 24;
  ew_sector  : is_i32 (sector e);
  ew_name    : 0 <= name e < 2 ^ 32
}.

Section disk_lemmas.
Implicit Types (t : list DirectoryEntry) (e : DirectoryEntry).

Lemma length_table_bytes t : Z.of_nat (length (table_bytes t)) = sizeof_DirectoryEntry * Z.of_nat (length t).
Proof.
  unfold table_bytes. rewrite length_map_bytes. induction t as [|e t IH]; [reflexivity|].
  rewrite bind_cons, length_app. cbn [entry_words length]. unfold sizeof_DirectoryEntry in *. lia.
Qed.

Lemma entries_of_table_words t : Forall entry_wf t -> entries_of_words (t ≫= entry_words) = t.
Proof.
  induction 1 as [|e t [H1 H2 H3 H4] _ IH]; [reflexivity|]. rewrite bind_cons. cbn [entry_words app entries_of_words].
  rewrite IH, i32_u32, i32_id by exact H3. f_equal. destruct e as [u p s n]. cbn [inUse padding sector name] in *.
  rewrite (Z.mul_comm 256), Z.mod_add, Z.div_add, Z.mod_small, Z.div_small by lia. reflexivity.
Qed.

Lemma table_of_table_bytes t : Forall entry_wf t -> table_of_bytes (length t) (table_bytes t) = t.
Proof.
  intros Ht. unfold table_of_bytes, table_bytes.
  replace (3 * length t)%nat with (length (t ≫= entry_words)).
  - rewrite words_of_map_bytes; [now apply entries_of_table_words|].
    apply Forall_bind. eapply Forall_impl; [exact Ht|]. intros e [H1 H2 H3 H4]. cbn.
    repeat (apply Forall_cons; split); [| | |constructor].
    + unfold is_word. lia.
    + apply u32_range.
    + unfold is_word. lia.
  - clear Ht. induction t as [|e t IH]; [reflexivity|]. rewrite bind_cons, length_app, IH. cbn. lia.
Qed.
End disk_lemmas.

(** * Properties *)

(** C17: A directory is a finite map from names to header sectors.  [Find] looks a
    name up (-1 when it is absent); [Add] refuses a name that is present and a
    full table and otherwise inserts; [Remove] deletes and says whether the name
    was there; [List] shows the names.  Names stay unique and every entry in use
    keeps its name. *)
Theorem Directory_implements_map `{!HostAlloc} (s : DirState) (key : cstring) (newSector : Z) :
  dir_wf s ->
  Find (Some key) s = Ok (default (-1) (dir_map s !! key), s) /\
  (is_Some (dir_map s !! key) \/ Z.of_nat (size (dir_map s)) = tableSize (d_dir s) ->
   Add (Some key) newSector s = Ok (false, s)) /\
  (dir_map s !! key = None -> Z.of_nat (size (dir_map s)) < tableSize (d_dir s) ->
   forall p, new_chars (d_heap s) (Z.of_nat (length key) + 1) = Some p ->
   exists s', Add (Some key) newSector s = Ok (true, s') /\ dir_wf s' /\
     dir_map s' = <[key := newSector]> (dir_map s)) /\
  (exists s', Remove (Some key) s = Ok (bool_decide (is_Some (dir_map s !! key)), s') /\ dir_wf s' /\
     dir_map s' = delete key (dir_map s)) /\
  (exists names, List_ s = Ok (names, s) /\ NoDup names /\ forall n, n ∈ names <-> is_Some (dir_map s !! n)).
Proof.
  intros Hwf. split; [now apply Find_run|]. split; [now apply Add_full|]. split; [|split].
  - intros Hk Hr p Hp. destruct (Add_room key newSector s p Hwf Hk Hr Hp) as (s' & E & Hw & Hm & _). eauto.
  - destruct (Remove_run key s Hwf) as (s' & E & Hw & Hm & _). eauto.
  - exists (dir_list (d_heap s) (table (d_dir s))).*1. split; [now apply List_run|]. split; [apply Hwf|].
    intros n. rewrite <- not_eq_None_Some, dir_map_None. split; [auto|]. intros Hx. now apply dec_stable.
Qed.

(** A directory that is written to its file and fetched back has the same
    table: names (by address), sectors and free entries. *)
Theorem Directory_WriteBack_FetchFrom `{!HostTime} (index_junk map_junk : list Z) (buf_junk : Z -> list Z)
    (d other : Directory) (o : OpenFile) (fs : FsState) (h : FileHeader) (blocks : list block) :
  (forall n, 0 <= n -> Z.of_nat (length (buf_junk n)) = n) -> (forall n, Forall is_byte (buf_junk n)) ->
  fs_wf fs -> file_at fs (hdrSectorNumber o) h blocks ->
  tableSize d = Z.of_nat (length (table d)) -> Forall entry_wf (table d) ->
  tableSize other = tableSize d -> length (table other) = length (table d) ->
  sizeof_DirectoryEntry * tableSize d <= numBytes h ->
  exists s1 s2, WriteBack index_junk map_junk buf_junk d (mkOfState o fs) = Ok (tt, s1) /\
    FetchFrom buf_junk other s1 = Ok (d, s2).
Proof.
  intros Hj1 Hj2 Hfs HF Hsz Hwf Ho Hol Hlen. pose proof (length_table_bytes (table d)) as Hl. rewrite <- Hsz in Hl.
  destruct (WriteAt_run index_junk map_junk buf_junk Hj1 Hj2 o fs h blocks (table_bytes (table d)) 0 Hfs HF)
    as (o1 & fs1 & E & [O1 O2 O3 O4 O5 O6] & Hfb & _); [apply map_bytes_bytes|lia|lia|].
  rewrite Hl in E. assert (Hn : 0 <= tableSize d) by lia. unfold sizeof_DirectoryEntry in *.
  pose proof (file_sectors_bound _ _ _ (fa_layout _ _ _ _ HF)). pose proof (fa_size _ _ _ _ HF) as Hs. unfold SectorSize in Hs.
  exists (mkOfState o1 fs1). eexists. split.
  - unfold WriteBack. now mstep_by E.
  - unfold FetchFrom. rewrite Ho. unfold sizeof_DirectoryEntry.
    mstep_by (ReadAt_run buf_junk Hj1 o1 fs1 h blocks (tableSize d * 12) 0 O4
               ltac:(rewrite O1; exact O5) ltac:(lia) ltac:(lia) ltac:(lia)).
    rewrite Hfb. replace (tableSize d * 12) with (Z.of_nat (length (table_bytes (table d)))) by lia.
    rewrite slice_splice_eq; [|lia|rewrite (length_file_bytes fs _ h blocks Hfs HF); lia].
    rewrite drop_ge, app_nil_r, Hol, table_of_table_bytes by (auto; pose proof (length_table_bytes (table other)) as Hl'; rewrite Hol in Hl'; unfold sizeof_DirectoryEntry in Hl'; lia).
    unfold mreturn. now destruct d.
Qed.

(** The names of a directory do not survive the process that wrote it: an
    entry on disk holds the address of its name, and in a process whose heap has
    no string at that address the first lookup that meets the entry faults. *)
Theorem FindIndex_dangling (s : DirState) (key : cstring) (t1 t2 : list DirectoryEntry) (e : DirectoryEntry) :
  table (d_dir s) = t1 ++ e :: t2 -> tableSize (d_dir s) = Z.of_nat (length (table (d_dir s))) ->
  Forall (fun e => inUse e = 0) t1 -> inUse e <> 0 -> name e <> 0 -> d_heap s !! name e = None ->
  Find (Some key) s = Err BadAccess.
Proof.
  intros Et Hsz Ht1 Hu Hn Hd. unfold Find, FindIndex. unfold mthen at 1. unfold mthen at 1. cbn [mget]. unfold mget.
  unfold mthen at 1. rewrite Hsz, Et, mfirst_prefix.
  - cbn [length]. rewrite seqZ_cons by lia. cbn [mfirst]. unfold mthen at 1 2.
    rewrite (entry_at_run _ e) by (rewrite Et; apply zlookup_middle).
    unfold same_name. rewrite (proj2 (Z.eqb_neq _ _) Hu), (proj2 (Z.eqb_neq _ _) Hn). cbn [negb andb].
    unfold string_at, mthen, mget, mlift. now rewrite Hd.
  - intros i Hi. destruct (zlookup_lt t1 i Hi) as [x Hx].
    mstep_by (entry_at_run i x s ltac:(rewrite Et, zlookup_app_l by exact Hi; exact Hx)).
    unfold same_name. rewrite (zlookup_Forall _ _ _ _ Ht1 Hx). reflexivity.
Qed.

(** * Concrete runs *)
Definition free_addresses (heap : Heap) : list Z := filter (fun p => heap !! p = None) (seqZ 16 64).
Lemma free_addresses_fresh (heap : Heap) (n p : Z) :
  head (free_addresses heap) = Some p -> heap !! p = None /\ 0 < p < 2 ^ 32.
Proof.
  intros E. assert (Hp : p ∈ free_addresses heap).
  { destruct (free_addresses heap) as [|q r]; [discriminate|]. injection E as <-. left. }
  apply list_elem_of_filter in Hp as [H1 H2]. apply elem_of_seqZ in H2. split; [exact H1|lia].
Qed.
Definition sample_alloc : HostAlloc :=
  {| new_chars heap n := head (free_addresses heap); new_chars_fresh := free_addresses_fresh |}.
#[local] Existing Instance sample_alloc.

Definition no_entry : DirectoryEntry := mkDirectoryEntry 0 0 0 0.
(** A directory with the file "a" in sector 9. *)
Definition sample_dir : DirState :=
  mkDirState (mkDirectory (mkDirectoryEntry 1 0 9 16 :: replicate 9 no_entry) 10) {[ 16 := [97] ]}.

Lemma sample_dir_wf : dir_wf sample_dir.
Proof.
  split; [reflexivity| |apply (bool_decide_unpack _); reflexivity].
  apply Forall_cons. split; [intros _; cbn; split; [lia|eexists; reflexivity]|].
  apply Forall_replicate. intros Hu. now contradict Hu.
Defined.

Lemma Directory_implements_map_witness :
  Find (Some [97]) sample_dir = Ok (9, sample_dir) /\ Find (Some [98]) sample_dir = Ok (-1, sample_dir) /\
  exists s', Add (Some [98]) 12 sample_dir = Ok (true, s') /\ dir_map s' = <[[98] := 12]> (dir_map sample_dir).
Proof.
  split; [apply (Directory_implements_map sample_dir [97] 12 sample_dir_wf)|].
  destruct (Directory_implements_map sample_dir [98] 12 sample_dir_wf) as (H1 & _ & H3 & _). split; [exact H1|].
  destruct (H3 eq_refl ltac:(vm_compute; reflexivity) 17 eq_refl) as (s' & E & _ & Hm). exists s'. split; [exact E|exact Hm].
Defined.

(** The table of [sample_dir] without its first entry, in a 100-byte file. *)
Definition small_dir : Directory := mkDirectory (mkDirectoryEntry 1 0 9 16 :: replicate 7 no_entry) 8.
Lemma Directory_WriteBack_FetchFrom_witness :
  exists s1 s2, @WriteBack sample_time sample_junk [] zero_junk small_dir (mkOfState one_file one_file_fs) = Ok (tt, s1) /\
    @FetchFrom sample_time zero_junk (mkDirectory (replicate 8 no_entry) 8) s1 = Ok (small_dir, s2).
Proof.
  apply (@Directory_WriteBack_FetchFrom sample_time sample_junk [] zero_junk small_dir
           (mkDirectory (replicate 8 no_entry) 8) one_file one_file_fs one_sector_hdr [(2, [3])]).
  - exact zero_junk_length.
  - exact zero_junk_bytes.
  - exact one_file_wf.
  - exact one_file_at.
  - reflexivity.
  - repeat (apply Forall_cons; split; [split; cbn; unfold is_i32; lia|]). constructor.
  - reflexivity.
  - reflexivity.
  - cbn. unfold sizeof_DirectoryEntry. lia.
Defined.

Lemma FindIndex_dangling_witness :
  Find (Some [97]) (mkDirState (d_dir sample_dir) ∅) = Err BadAccess.
Proof.
  apply (FindIndex_dangling (mkDirState (d_dir sample_dir) ∅) [97] [] (replicate 9 no_entry) (mkDirectoryEntry 1 0 9 16));
    [reflexivity|reflexivity|constructor|cbn; lia|cbn; lia|reflexivity].
Defined.
