(* ===== verification/FileSys.v ===== *)
(** filesys/filesys.h and filesys.cc (the FILESYS half): the file system.

    [SysState] is the disk, the heap strings that directories point to, the two
    OpenFile objects that a FileSystem keeps, and what was printed.  Objects that
    a method creates and deletes are local values.

    Path names are copied into buffers of [strlen] characters, one too short for
    the final NUL.  Whether that write is harmless depends on how many bytes the
    host's allocator really provides: [usable n] for a request of [n].  A write
    outside the usable bytes is [BadAccess].

    A path [c0/c1/.../cn] means the entry [cn] of the directory reached from the
    root through [c1], ..., [c(n-1)]; the part before the first slash is not
    looked at.  [walk] is that meaning, getFileName the code. *)
From Stdlib Require Import ZArith Lia.
From stdpp Require Import base option list list_numbers gmap sets.
From S2P Require Import Prelude Disk BitMap Sectors FileHdr OpenFile Volume Directory.

Local Open Scope Z_scope.

Class HostMemory := {
  usable : Z -> Z;
  usable_ge : forall n, 0 <= n -> n <= usable n
}.

Definition FreeMapSector : Z := 0.
Definition DirectorySector : Z := 1.
Definition FreeMapFileSize : Z := Z.quot NumSectors BitsInByte.
Definition NumDirEntries : Z := 10.
Definition DirectoryFileSize : Z := sizeof_DirectoryEntry * NumDirEntries.

(** What the methods print. *)
Inductive message :=
  | MsgNames (names : list cstring)
  | MsgVisits (n : Z)
  | MsgRemoved (ok : bool)
  | MsgMap (bits : list Z)
  | MsgHeader (p : Printed)
  | MsgDirectory (l : list (cstring * Z * Printed)).

Record SysState := mkSysState {
  sys_fs        : FsState;
  sys_heap      : Heap;
  freeMapFile   : OpenFile;
  directoryFile : OpenFile;
  sys_log       : list message
}.

(** * Lifting the other components *)
Definition on_disk {A} (m : M FsState A) : M SysState A := fun s =>
  match m (sys_fs s) with
  | Ok (a, f) => Ok (a, mkSysState f (sys_heap s) (freeMapFile s) (directoryFile s) (sys_log s))
  | Err e => Err e
  end.
(** A method of an OpenFile object: the result and the object afterwards. *)
Definition on_file {A} (o : OpenFile) (m : M OfState A) : M SysState (A * OpenFile) := on_disk (with_file o m).
(** A method of a Directory object. *)
Definition on_dir {A} (d : Directory) (m : M DirState A) : M SysState (A * Directory) := fun s =>
  match m (mkDirState d (sys_heap s)) with
  | Ok (a, ds) => Ok ((a, d_dir ds), mkSysState (sys_fs s) (d_heap ds) (freeMapFile s) (directoryFile s) (sys_log s))
  | Err e => Err e
  end.
Definition on_bits {A} (b : BitMap) (m : M BitMap A) : M SysState (A * BitMap) := fun s =>
  match m b with Ok r => Ok (r, s) | Err e => Err e end.
(** A method of a FileHeader object that takes a bitmap. *)
Definition on_header {A} (h : FileHeader) (b : BitMap) (m : M FhState A) : M SysState (A * (FileHeader * BitMap)) := fun s =>
  match m (mkFhState h b (sys_fs s)) with
  | Ok (a, st) => Ok ((a, (fh_hdr st, fh_map st)), mkSysState (fh_fs st) (sys_heap s) (freeMapFile s) (directoryFile s) (sys_log s))
  | Err e => Err e
  end.
Definition of_res {A} (r : res A) : M SysState A := fun s =>
  match r with Ok a => Ok (a, s) | Err e => Err e end.
Definition print (m : message) : M SysState unit :=
  mmodify (fun s => mkSysState (sys_fs s) (sys_heap s) (freeMapFile s) (directoryFile s) (sys_log s ++ [m])).
Definition set_freeMapFile (o : OpenFile) : M SysState unit :=
  mmodify (fun s => mkSysState (sys_fs s) (sys_heap s) o (directoryFile s) (sys_log s)).
Definition set_directoryFile (o : OpenFile) : M SysState unit :=
  mmodify (fun s => mkSysState (sys_fs s) (sys_heap s) (freeMapFile s) o (sys_log s)).

(** A string of [len] characters and its NUL, stored in [cap] bytes. *)
Definition put_string (cap : Z) (str : cstring) : M SysState unit :=
  if Z.of_nat (length str) <? cap then mreturn tt else mfail BadAccess.

(** * Path names *)
Definition slash : Z := 47.

(** The loop that looks for the first two slashes: (fstart, sstart). *)
Fixpoint scan_loop (rest : cstring) (i tokNum fstart sstart : Z) : Z * Z :=
  match rest with
  | [] => (fstart, sstart)
  | c :: r =>
      if tokNum <? 2 then
        if c =? slash then
          let tokNum := tokNum + 1 in
          scan_loop r (i + 1) tokNum (if tokNum =? 1 then i + 1 else fstart)
            (if tokNum =? 2 then i + 1 else sstart)
        else scan_loop r (i + 1) tokNum fstart sstart
      else (fstart, sstart)
  end.
Definition scan_path (path : cstring) : Z * Z := scan_loop path 0 0 0 0.

Section filesys.
Context {HT : HostTime} {HA : HostAlloc} {HM : HostMemory}.
Variables (index_junk map_junk : list Z) (buf_junk : Z -> list Z).
Variable table_junk : Z -> list DirectoryEntry.
Variable hdr_junk : FileHeader.

Definition new_OpenFile (sector : Z) : M SysState OpenFile := on_disk (OpenFile_OpenFile sector).
Definition new_Directory : M SysState Directory := on_disk (Directory_Directory table_junk NumDirEntries).
Definition new_BitMap : M SysState BitMap := of_res (BitMap_BitMap NumSectors map_junk).

Definition fetch_directory (d : Directory) (o : OpenFile) : M SysState (Directory * OpenFile) :=
  on_file o (Directory.FetchFrom buf_junk d).
Definition write_directory (d : Directory) (o : OpenFile) : M SysState (unit * OpenFile) :=
  on_file o (Directory.WriteBack index_junk map_junk buf_junk d).
(** freeMap->FetchFrom(freeMapFile), freeMap->WriteBack(freeMapFile) *)
Definition fetch_freeMap (b : BitMap) : M SysState BitMap :=
  let! s := mget in
  let! r := on_file (freeMapFile s) (BitMap_FetchFrom buf_junk b) in
  set_freeMapFile r.2 >>> mreturn r.1.
Definition write_freeMap (b : BitMap) : M SysState unit :=
  let! s := mget in
  let! r := on_file (freeMapFile s) (BitMap_WriteBack index_junk map_junk buf_junk b) in
  set_freeMapFile r.2.

(** The loop of getFileName.  [cap] is the size of the buffers, [path] the
    contents of the caller's buffer; the result is the new [name] (a null
    pointer when a directory is missing), the directory and its file. *)
Fixpoint path_loop (fuel : nat) (cap : Z) (path : cstring) (directory : Directory) (currDirectoryFile : OpenFile)
    : M SysState (option cstring * Directory * OpenFile) :=
  match fuel with
  | O => mfail OutOfFuel
  | S fuel =>
      let! r := fetch_directory directory currDirectoryFile in
      let directory := r.1 in
      let currDirectoryFile := r.2 in
      let '(fstart, sstart) := scan_path path in
      let strlen := Z.of_nat (length path) in
      if sstart =? 0 then
        let fname := slice path fstart (strlen - fstart) in
        put_string cap fname >>>
        put_string cap fname >>>
        mreturn (Some fname, directory, currDirectoryFile)
      else
        let fname := slice path fstart (sstart - 1 - fstart) in
        let nextPath := slice path sstart (strlen - sstart) in
        let temp_name := slice path fstart (strlen - fstart) in
        put_string cap fname >>>
        put_string cap nextPath >>>
        put_string cap temp_name >>>
        let! f := on_dir directory (Find (Some fname)) in
        if f.1 =? -1 then mreturn (None, directory, currDirectoryFile)
        else
          let! f := on_dir directory (Find (Some fname)) in
          let! next := new_OpenFile f.1 in
          put_string cap temp_name >>>
          path_loop fuel cap temp_name directory next
  end.

Definition getFileName (path : cstring) : M SysState (option cstring * Directory * OpenFile) :=
  let! rootFile := new_OpenFile 1 in
  let! directory := new_Directory in
  path_loop (S (length path)) (usable (Z.of_nat (length path))) path directory rootFile.

(** The copy of the argument that the methods work on. *)
Definition copy_name (Name : cstring) : M SysState unit := put_string (usable (Z.of_nat (length Name))) Name.

Definition FileSystem_FileSystem (format debug : bool) : M SysState unit :=
  if format then
    let! freeMap := new_BitMap in
    let! directory := new_Directory in
    let! r := on_bits freeMap (BitMap_Mark FreeMapSector) in
    let! r := on_bits r.2 (BitMap_Mark DirectorySector) in
    let! m := on_header hdr_junk r.2 (Allocate index_junk FreeMapFileSize 1) in
    ASSERT m.1 >>>
    let! d := on_header hdr_junk m.2.2 (Allocate index_junk DirectoryFileSize 1) in
    ASSERT d.1 >>>
    let freeMap := d.2.2 in
    let! t1 := on_disk time in
    let! t2 := on_disk time in
    let! t3 := on_disk time in
    let! t4 := on_disk time in
    let mapHdr := h_written t3 (h_visited t1 m.2.1) in
    let dirHdr := h_written t4 (h_visited t2 d.2.1) in
    on_disk (FileHdr.WriteBack mapHdr FreeMapSector) >>>
    on_disk (FileHdr.WriteBack dirHdr DirectorySector) >>>
    let! f := new_OpenFile FreeMapSector in
    set_freeMapFile f >>>
    let! f := new_OpenFile DirectorySector in
    set_directoryFile f >>>
    write_freeMap freeMap >>>
    let! w := write_directory directory f in
    set_directoryFile w.2 >>>
    if debug then
      let! p := on_bits freeMap BitMap_Print in
      print (MsgMap p.1) >>>
      let! s := mget in
      let! l := on_disk (Directory.Print directory (sys_heap s)) in
      print (MsgDirectory l)
    else mreturn tt
  else
    let! f := new_OpenFile FreeMapSector in
    set_freeMapFile f >>>
    let! f := new_OpenFile DirectorySector in
    set_directoryFile f.

(** A new directory file gets an empty table. *)
Definition init_directory (sector : Z) : M SysState unit :=
  let! newDirectoryFile := new_OpenFile sector in
  let! newDirectory := new_Directory in
  let! _ := write_directory newDirectory newDirectoryFile in
  mreturn tt.

Definition Create (Name : cstring) (initialSize fileType : Z) : M SysState bool :=
  copy_name Name >>>
  let! r := getFileName Name in
  let '(name, directory, currDirectoryFile) := r in
  let! f := on_dir directory (Find name) in
  if negb (f.1 =? -1) then mreturn false
  else
    let! freeMap := new_BitMap in
    let! freeMap := fetch_freeMap freeMap in
    let! g := on_bits freeMap BitMap_Find in
    let sector := g.1 in
    if sector =? -1 then mreturn false
    else
      let! a := on_dir directory (Add name sector) in
      if negb a.1 then mreturn false
      else
        let! h := on_header hdr_junk g.2 (Allocate index_junk initialSize fileType) in
        if negb h.1 then mreturn false
        else
          on_disk (FileHdr.WriteBack h.2.1 sector) >>>
          (if fileType =? 1 then init_directory sector else mreturn tt) >>>
          let! w := write_directory a.2 currDirectoryFile in
          let! r := fetch_directory a.2 w.2 in
          let! l := on_dir r.1 List_ in
          print (MsgNames l.1) >>>
          write_freeMap h.2.2 >>>
          mreturn true.

(** Members of a header, changed by Open and Remove. *)
Definition h_visits (n : Z) (h : FileHeader) : FileHeader :=
  mkFileHeader (createTime h) (lastVisitTime h) (lastWriteTime h) (fileType h)
    (primaryIndexTable h) n (numBytes h) (numSectors h).

Definition Open (Name : cstring) : M SysState OpenFile :=
  copy_name Name >>>
  let! r := getFileName Name in
  let '(name, directory, openFile) := r in
  let! f := on_dir directory (Find name) in
  let sector := f.1 in
  if 0 <=? sector then
    let! fileHdr := on_disk (FileHdr.FetchFrom sector) in
    on_disk (FileHdr.WriteBack (h_visits (i32 (numVisits fileHdr + 1)) fileHdr) sector) >>>
    new_OpenFile sector
  else mreturn openFile.

(** The sectors of a file and its entry are given up. *)
Definition remove_entry (fileHdr : FileHeader) (name : option cstring) (sector : Z)
    (directory : Directory) (openFile : OpenFile) : M SysState BitMap :=
  let! freeMap := new_BitMap in
  let! freeMap := fetch_freeMap freeMap in
  let! d := on_header fileHdr freeMap Deallocate in
  let! c := on_bits d.2.2 (BitMap_Clear sector) in
  let! r := on_dir directory (Directory.Remove name) in
  write_freeMap c.2 >>>
  let! _ := write_directory r.2 openFile in
  mreturn c.2.

Definition show_map (freeMap : BitMap) : M SysState unit :=
  let! p := on_bits freeMap BitMap_Print in print (MsgMap p.1).

Definition max_path : Z := 100.

Fixpoint Remove (fuel : nat) (Name : cstring) : M SysState bool :=
  match fuel with
  | O => mfail OutOfFuel
  | S fuel =>
      copy_name Name >>>
      let! r := getFileName Name in
      let '(name, directory, openFile) := r in
      let! f := on_dir directory (Find name) in
      let sector := f.1 in
      if sector =? -1 then mreturn false
      else
        let! fileHdr := on_disk (FileHdr.FetchFrom sector) in
        if fileType fileHdr =? 0 then
          print (MsgVisits (numVisits fileHdr)) >>>
          let fewer := h_visits (i32 (numVisits fileHdr - 1)) fileHdr in
          on_disk (FileHdr.WriteBack fewer sector) >>>
          if negb (numVisits fileHdr =? 1) then
            print (MsgRemoved false) >>> mreturn false
          else
            let! m := remove_entry fewer name sector directory openFile in
            print (MsgRemoved true) >>>
            show_map m >>>
            mreturn true
        else
          let! dirFile := new_OpenFile sector in
          let! dir := new_Directory in
          let! dir := fetch_directory dir dirFile in
          mfor (table dir.1) (fun e =>
            if inUse e =? 0 then mreturn tt
            else
              let! s := mget in
              let! n := mlift (sys_heap s !! Directory.name e) in
              let newName := Name ++ [slash] ++ n in
              put_string max_path newName >>>
              let! _ := Remove fuel newName in mreturn tt) >>>
          let! m := remove_entry fileHdr name sector directory openFile in
          show_map m >>>
          mreturn true
  end.

Definition List_files : M SysState unit :=
  let! directory := new_Directory in
  let! s := mget in
  let! r := fetch_directory directory (directoryFile s) in
  set_directoryFile r.2 >>>
  let! l := on_dir r.1 List_ in
  print (MsgNames l.1).

Definition Print : M SysState unit :=
  let! freeMap := new_BitMap in
  let! directory := new_Directory in
  let! bitHdr := on_disk (FileHdr.FetchFrom FreeMapSector) in
  let! p := on_disk (FileHdr.Print bitHdr) in
  print (MsgHeader p) >>>
  let! dirHdr := on_disk (FileHdr.FetchFrom DirectorySector) in
  let! p := on_disk (FileHdr.Print dirHdr) in
  print (MsgHeader p) >>>
  let! freeMap := fetch_freeMap freeMap in
  show_map freeMap >>>
  let! s := mget in
  let! r := fetch_directory directory (directoryFile s) in
  set_directoryFile r.2 >>>
  let! s := mget in
  let! l := on_disk (Directory.Print r.1 (sys_heap s)) in
  print (MsgDirectory l).
End filesys.

(** * Scanning a path *)
Definition no_slash (c : cstring) : Prop := slash ∉ c.

(** The directories [dirs] and the entry [n], separated by slashes. *)
Fixpoint path_tail (dirs : list cstring) (n : cstring) : cstring :=
  match dirs with
  | [] => n
  | d :: r => d ++ slash :: path_tail r n
  end.

Section path_lemmas.
Implicit Types (c path : cstring).

Lemma scan_loop_skip c r i tok f s :
  no_slash c -> tok < 2 -> scan_loop (c ++ r) i tok f s = scan_loop r (i + Z.of_nat (length c)) tok f s.
Proof.
  revert i. induction c as [|x c IH]; intros i Hc Ht; [now rewrite Z.add_0_r|].
  apply not_elem_of_cons in Hc as [Hx Hc]. cbn [app scan_loop]. rewrite (proj2 (Z.ltb_lt tok 2)) by exact Ht.
  rewrite (proj2 (Z.eqb_neq x slash)) by congruence. rewrite IH by assumption. f_equal. cbn [length]. lia.
Qed.

Lemma scan_plain c : no_slash c -> scan_path c = (0, 0).
Proof. intros Hc. unfold scan_path. rewrite <- (app_nil_r c), scan_loop_skip by (assumption || lia). reflexivity. Qed.

Lemma scan_one c0 c : no_slash c0 -> no_slash c -> scan_path (c0 ++ slash :: c) = (Z.of_nat (length c0) + 1, 0).
Proof.
  intros H0 H1. unfold scan_path. rewrite scan_loop_skip by (assumption || lia). cbn [scan_loop].
  rewrite <- (app_nil_r c), scan_loop_skip by (assumption || reflexivity). reflexivity.
Qed.

Lemma scan_two c0 c r :
  no_slash c0 -> no_slash c ->
  scan_path (c0 ++ slash :: c ++ slash :: r) = (Z.of_nat (length c0) + 1, Z.of_nat (length c0) + Z.of_nat (length c) + 2).
Proof.
  intros H0 H1. unfold scan_path. rewrite scan_loop_skip by (assumption || lia). cbn [scan_loop].
  rewrite scan_loop_skip by (assumption || reflexivity). cbn [scan_loop].
  replace (0 + Z.of_nat (length c0) + 1 + Z.of_nat (length c) + 1) with (Z.of_nat (length c0) + Z.of_nat (length c) + 2) by lia.
  destruct r; reflexivity.
Qed.

Lemma slice_tail {A} (l1 l2 : list A) x n :
  n = Z.of_nat (length (l1 ++ x :: l2)) - (Z.of_nat (length l1) + 1) ->
  slice (l1 ++ x :: l2) (Z.of_nat (length l1) + 1) n = l2.
Proof.
  intros ->. unfold slice. rewrite (cons_middle x l1 l2), (app_assoc l1 [x]).
  replace (Z.to_nat (Z.of_nat (length l1) + 1)) with (length (l1 ++ [x])) by (rewrite length_app; cbn; lia). rewrite drop_app_length. apply take_ge. rewrite length_app. cbn. rewrite !length_app. cbn. lia.
Qed.

Lemma slice_component {A} (l1 l2 l3 : list A) x y :
  slice (l1 ++ x :: l2 ++ y :: l3) (Z.of_nat (length l1) + 1) (Z.of_nat (length l2)) = l2.
Proof.
  unfold slice. rewrite (cons_middle x l1), (app_assoc l1 [x]).
  replace (Z.to_nat (Z.of_nat (length l1) + 1)) with (length (l1 ++ [x])) by (rewrite length_app; cbn; lia). rewrite drop_app_length, Nat2Z.id. apply take_app_length.
Qed.
End path_lemmas.

(** * The file system on a volume *)

(** The directory in the file with header sector [n]. *)
Record is_dir (F : gmap Z vfile) (heap : Heap) (n : Z) (d : Directory) : Prop := {
  id_file : exists v, F !! n = Some v /\ DirectoryFileSize <= Z.of_nat (length (vf_bytes v)) /\
              d = mkDirectory (table_of_bytes (Z.to_nat NumDirEntries) (slice (vf_bytes v) 0 DirectoryFileSize)) NumDirEntries;
  id_wf   : dir_wf (mkDirState d heap)
}.

(** The disk, the heap and the open free map of a file system. *)
Record sys_ok (s : SysState) (F : gmap Z vfile) (heap : Heap) : Prop := {
  so_volume : volume (sys_fs s) F;
  so_heap   : sys_heap s = heap;
  so_map    : hdrSectorNumber (freeMapFile s) = FreeMapSector
}.

(** The directories [dirs] lead from directory [n] to directory [m]. *)
Inductive walk (F : gmap Z vfile) (heap : Heap) : Z -> list cstring -> Z -> Prop :=
  | walk_here n : walk F heap n [] n
  | walk_into n d c m r k :
      is_dir F heap n d -> dir_map (mkDirState d heap) !! c = Some m -> m <> -1 -> is_Some (F !! m) ->
      walk F heap m r k -> walk F heap n (c :: r) k.

Section run_lemmas.
Context {HT : HostTime} {HA : HostAlloc} {HM : HostMemory}.
Variables (index_junk map_junk : list Z) (buf_junk : Z -> list Z).
Variable table_junk : Z -> list DirectoryEntry.
Variable hdr_junk : FileHeader.
Hypothesis buf_junk_length : forall n, 0 <= n -> Z.of_nat (length (buf_junk n)) = n.
Hypothesis buf_junk_bytes : forall n, Forall is_byte (buf_junk n).
Hypothesis table_junk_length : forall n, 0 <= n -> Z.of_nat (length (table_junk n)) = n.
Implicit Types (s : SysState) (F : gmap Z vfile) (heap : Heap) (o : OpenFile) (d : Directory).

Lemma on_disk_run {A} (m : M FsState A) s F F' heap a fs' :
  sys_ok s F heap -> m (sys_fs s) = Ok (a, fs') -> volume fs' F' ->
  exists s', on_disk m s = Ok (a, s') /\ sys_ok s' F' heap.
Proof.
  intros [H1 H2 H3] E HV. unfold on_disk. rewrite E. eexists. split; [reflexivity|]. now split.
Qed.

Lemma new_OpenFile_at s F heap n v :
  sys_ok s F heap -> F !! n = Some v ->
  exists o s', new_OpenFile n s = Ok (o, s') /\ hdrSectorNumber o = n /\ seekPosition o = 0 /\ sys_ok s' F heap.
Proof.
  intros Hs Hn. destruct (OpenFile_volume (sys_fs s) F n v (so_volume _ _ _ Hs) Hn) as (o & fs' & E & Ho & Hp & HV).
  destruct (on_disk_run _ s F F heap o fs' Hs E HV) as (s' & E' & Hs'). eauto 6.
Qed.

Lemma new_OpenFile_run s F heap n v :
  sys_ok s F heap -> F !! n = Some v ->
  exists o s', new_OpenFile n s = Ok (o, s') /\ hdrSectorNumber o = n /\ sys_ok s' F heap.
Proof. intros Hs Hn. destruct (new_OpenFile_at s F heap n v Hs Hn) as (o & s' & E & Ho & _ & Hs'). eauto. Qed.

(** A new directory object is empty; the root's header gets a time stamp. *)
Definition fresh_dir : Directory := mkDirectory (set_inUse 0 <$> table_junk NumDirEntries) NumDirEntries.

Lemma new_Directory_run s F heap v :
  sys_ok s F heap -> F !! DirectorySector = Some v ->
  exists s', new_Directory table_junk s = Ok (fresh_dir, s') /\ sys_ok s' F heap.
Proof.
  intros Hs Hn. pose proof (so_volume _ _ _ Hs) as HV.
  destruct (FetchFrom_volume (sys_fs s) F 1 v HV Hn) as (h & Hh & E1). set (t := time_at (fs_time_calls (sys_fs s))).
  assert (HV1 : volume (fs_tick (sys_fs s)) F) by (apply (volume_same (sys_fs s)); [reflexivity|apply fs_wf_tick, HV|exact HV]).
  assert (Hh1 : file_is (fs_tick (sys_fs s)) 1 v h) by (apply (file_is_frame (sys_fs s)); [reflexivity|exact Hh]).
  assert (Hsf : same_file h (h_visited t h)) by (apply same_file_visited; [apply time_at_int|apply Hh]).
  destruct (WriteBack_volume (fs_tick (sys_fs s)) F 1 v h _ HV1 Hn Hh1 Hsf) as (fs' & E2 & HV2).
  destruct Hh as [Ha Ht Hv Hb].
  apply (volume_insert_same fs' F 1 v) in HV2; auto.
  apply (on_disk_run (Directory_Directory table_junk NumDirEntries) s F F heap fresh_dir fs' Hs); [|exact HV2].
  unfold Directory_Directory. mstep_by E1. mstep_to t (fs_tick (sys_fs s)). mstep_by E2. reflexivity.
Qed.

Lemma on_file_run {A} (m : M OfState A) s F F' heap o a o' fs' :
  sys_ok s F heap -> m (mkOfState o (sys_fs s)) = Ok (a, mkOfState o' fs') -> volume fs' F' ->
  exists s', on_file o m s = Ok ((a, o'), s') /\ sys_ok s' F' heap.
Proof.
  intros Hs E HV. apply (on_disk_run _ s F F' heap (a, o') fs' Hs); [|exact HV]. unfold with_file. now rewrite E.
Qed.

Lemma NumDirEntries_bytes : NumDirEntries * sizeof_DirectoryEntry = DirectoryFileSize.
Proof. reflexivity. Qed.

Lemma fetch_directory_run s F heap o n d old :
  sys_ok s F heap -> hdrSectorNumber o = n -> is_dir F heap n d ->
  tableSize old = NumDirEntries -> Z.of_nat (length (table old)) = NumDirEntries ->
  exists o' s', fetch_directory buf_junk old o s = Ok ((d, o'), s') /\ hdrSectorNumber o' = n /\ sys_ok s' F heap.
Proof.
  intros Hs Ho [(v & Hn & Hl & ->) Hwf] Hsz Hlen.
  destruct (ReadAt_volume buf_junk buf_junk_length (sys_fs s) F o n v DirectoryFileSize 0 (so_volume _ _ _ Hs) Ho Hn)
    as (o' & fs' & E & Ho' & HV); [lia|reflexivity|discriminate|].
  set (d := mkDirectory _ _). exists o'.
  destruct (on_file_run (Directory.FetchFrom buf_junk old) s F F heap o d o' fs' Hs) as (s' & E' & Hs'); [|exact HV|].
  - unfold Directory.FetchFrom. rewrite Hsz, NumDirEntries_bytes. mstep_by E.
    assert (Hsl : length (slice (vf_bytes v) 0 DirectoryFileSize) = 120%nat).
    { apply Nat2Z.inj. change DirectoryFileSize with 120 in Hl |- *. rewrite length_slice; lia. }
    rewrite drop_ge, app_nil_r.
    + unfold mreturn, d. do 5 f_equal. lia.
    + rewrite Hsl. pose proof (length_table_bytes (table old)) as Hlt. rewrite Hlen in Hlt.
      change (sizeof_DirectoryEntry * NumDirEntries) with 120 in Hlt. lia.
  - eauto.
Qed.

Lemma on_dir_run {A} (m : M DirState A) s F heap d a ds :
  sys_ok s F heap -> m (mkDirState d heap) = Ok (a, ds) ->
  exists s', on_dir d m s = Ok ((a, d_dir ds), s') /\ sys_ok s' F (d_heap ds).
Proof.
  intros [H1 H2 H3] E. unfold on_dir. rewrite H2, E. eexists. split; [reflexivity|]. now split.
Qed.

Lemma Find_in s F heap n d k :
  sys_ok s F heap -> is_dir F heap n d ->
  exists s', on_dir d (Find (Some k)) s = Ok ((default (-1) (dir_map (mkDirState d heap) !! k), d), s') /\ sys_ok s' F heap.
Proof.
  intros Hs Hd. destruct (on_dir_run (Find (Some k)) s F heap d _ _ Hs (Find_run k _ (id_wf _ _ _ _ Hd))) as (s' & E & Hs').
  eauto.
Qed.

Lemma put_string_run cap c s : Z.of_nat (length c) < cap -> put_string cap c s = Ok (tt, s).
Proof. intros H. unfold put_string. now rewrite (proj2 (Z.ltb_lt _ _) H). Qed.

(** Every directory object of the walk has ten entries. *)
Lemma is_dir_size F heap n d :
  is_dir F heap n d -> tableSize d = NumDirEntries /\ Z.of_nat (length (table d)) = NumDirEntries.
Proof. intros [(v & _ & _ & ->) [Hsz _ _]]. split; [reflexivity|]. symmetry. exact Hsz. Qed.

Definition ten_entries (d : Directory) : Prop :=
  tableSize d = NumDirEntries /\ Z.of_nat (length (table d)) = NumDirEntries.

Abbreviation loop := (path_loop buf_junk).

(** One round of the loop enters the directory named by the second component. *)
Lemma path_loop_into s F heap n d o old cap fuel c0 c m :
  sys_ok s F heap -> hdrSectorNumber o = n -> ten_entries old -> is_dir F heap n d ->
  dir_map (mkDirState d heap) !! c = Some m -> m <> -1 -> is_Some (F !! m) ->
  no_slash c0 -> no_slash c ->
  forall tail, Z.of_nat (length (c0 ++ slash :: c ++ slash :: tail)) < cap ->
  exists o' s', loop (S fuel) cap (c0 ++ slash :: c ++ slash :: tail) old o s = loop fuel cap (c ++ slash :: tail) d o' s' /\
    hdrSectorNumber o' = m /\ sys_ok s' F heap.
Proof.
  intros Hs Ho [Ho1 Ho2] Hd Hm Hm1 [v Hv] H0 Hc tail Hcap.
  destruct (fetch_directory_run s F heap o n d old Hs Ho Hd Ho1 Ho2) as (o1 & s1 & E1 & _ & Hs1).
  destruct (Find_in s1 F heap n d c Hs1 Hd) as (s2 & E2 & Hs2).
  destruct (Find_in s2 F heap n d c Hs2 Hd) as (s3 & E3 & Hs3). rewrite Hm in E2, E3.
  change (default (-1) (Some m)) with m in E2, E3.
  destruct (new_OpenFile_run s3 F heap m v Hs3 Hv) as (o' & s4 & E4 & Ho' & Hs4).
  exists o', s4. split; [|split; [exact Ho'|exact Hs4]].
  cbn [path_loop]. mstep_by E1. cbn [fst snd]. rewrite scan_two by assumption.
  rewrite (proj2 (Z.eqb_neq (Z.of_nat (length c0) + Z.of_nat (length c) + 2) 0)) by lia.
  replace (Z.of_nat (length c0) + Z.of_nat (length c) + 2 - 1 - (Z.of_nat (length c0) + 1)) with (Z.of_nat (length c)) by lia.
  rewrite slice_component, (slice_tail c0 (c ++ slash :: tail) slash) by lia.
  rewrite !length_app in Hcap. cbn [length] in Hcap. rewrite !length_app in Hcap. cbn [length] in Hcap.
  mstep_by (put_string_run cap c s1 ltac:(lia)).
  rewrite (mthen_step _ _ _ tt s1).
  2:{ apply put_string_run. unfold slice. rewrite length_take, length_drop, !length_app. cbn [length]. rewrite !length_app. cbn [length]. lia. }
  cbn beta. mstep_by (put_string_run cap (c ++ slash :: tail) s1 ltac:(rewrite length_app; cbn [length]; lia)).
  mstep_by E2. cbn [fst]. rewrite (proj2 (Z.eqb_neq m (-1)) Hm1). mstep_by E3. cbn [fst]. mstep_by E4.
  now mstep_by (put_string_run cap (c ++ slash :: tail) s4 ltac:(rewrite length_app; cbn [length]; lia)).
Qed.

(** The rounds along a walk; the first component left is never looked at. *)
Lemma path_loop_walk F heap n dirs m cap rest name :
  walk F heap n dirs m -> Forall no_slash dirs -> rest <> [] \/ no_slash name ->
  forall s o old c0 fuel, sys_ok s F heap -> hdrSectorNumber o = n -> ten_entries old -> no_slash c0 ->
  Z.of_nat (length (c0 ++ slash :: path_tail (dirs ++ rest) name)) < cap ->
  exists o' old' c0' s', loop (length dirs + fuel) cap (c0 ++ slash :: path_tail (dirs ++ rest) name) old o s =
      loop fuel cap (c0' ++ slash :: path_tail rest name) old' o' s' /\
    hdrSectorNumber o' = m /\ ten_entries old' /\ no_slash c0' /\ sys_ok s' F heap /\
    Z.of_nat (length (c0' ++ slash :: path_tail rest name)) < cap.
Proof.
  induction 1 as [n|n d c m r k Hd Hm Hm1 HF Hw IH]; intros Hdirs Hrest s o old c0 fuel Hs Ho Hold H0 Hcap.
  - exists o, old, c0, s. auto 8.
  - apply Forall_cons in Hdirs as [Hc Hr]. cbn [app path_tail length Nat.add] in *.
    destruct (path_loop_into s F heap n d o old cap (length r + fuel) c0 c m Hs Ho Hold Hd Hm Hm1 HF H0 Hc (path_tail (r ++ rest) name) Hcap)
      as (o1 & s1 & E & Ho1 & Hs1). rewrite E. apply IH; auto.
    + exact (is_dir_size _ _ _ _ Hd).
    + rewrite length_app in Hcap. cbn [length] in Hcap. lia.
Qed.

(** The last round: no directory is left in the path. *)
Lemma path_loop_last s F heap n d o old cap fuel c0 name :
  sys_ok s F heap -> hdrSectorNumber o = n -> ten_entries old -> is_dir F heap n d ->
  no_slash c0 -> no_slash name -> Z.of_nat (length (c0 ++ slash :: name)) < cap ->
  exists o' s', loop (S fuel) cap (c0 ++ slash :: name) old o s = Ok ((Some name, d, o'), s') /\
    hdrSectorNumber o' = n /\ sys_ok s' F heap.
Proof.
  intros Hs Ho [Ho1 Ho2] Hd H0 Hn Hcap.
  destruct (fetch_directory_run s F heap o n d old Hs Ho Hd Ho1 Ho2) as (o1 & s1 & E1 & Hn1 & Hs1).
  exists o1, s1. split; [|split; [exact Hn1|exact Hs1]]. cbn [path_loop]. mstep_by E1. cbn [fst snd].
  rewrite scan_one by assumption. cbn [Z.eqb]. rewrite (slice_tail c0 name slash) by lia.
  rewrite length_app in Hcap. cbn [length] in Hcap. now do 2 mstep_by (put_string_run cap name s1 ltac:(lia)).
Qed.

(** A directory of the path does not exist. *)
Lemma path_loop_missing s F heap n d o old cap fuel c0 c tail :
  sys_ok s F heap -> hdrSectorNumber o = n -> ten_entries old -> is_dir F heap n d ->
  dir_map (mkDirState d heap) !! c = None -> no_slash c0 -> no_slash c ->
  Z.of_nat (length (c0 ++ slash :: c ++ slash :: tail)) < cap ->
  exists o' s', loop (S fuel) cap (c0 ++ slash :: c ++ slash :: tail) old o s = Ok ((None, d, o'), s') /\
    hdrSectorNumber o' = n /\ sys_ok s' F heap.
Proof.
  intros Hs Ho [Ho1 Ho2] Hd Hm H0 Hc Hcap.
  destruct (fetch_directory_run s F heap o n d old Hs Ho Hd Ho1 Ho2) as (o1 & s1 & E1 & Hn1 & Hs1).
  destruct (Find_in s1 F heap n d c Hs1 Hd) as (s2 & E2 & Hs2). rewrite Hm in E2.
  exists o1, s2. split; [|split; [exact Hn1|exact Hs2]]. cbn [path_loop]. mstep_by E1. cbn [fst snd].
  rewrite scan_two by assumption.
  rewrite (proj2 (Z.eqb_neq (Z.of_nat (length c0) + Z.of_nat (length c) + 2) 0)) by lia.
  replace (Z.of_nat (length c0) + Z.of_nat (length c) + 2 - 1 - (Z.of_nat (length c0) + 1)) with (Z.of_nat (length c)) by lia.
  rewrite slice_component, (slice_tail c0 (c ++ slash :: tail) slash) by lia.
  rewrite !length_app in Hcap. cbn [length] in Hcap. rewrite !length_app in Hcap. cbn [length] in Hcap.
  mstep_by (put_string_run cap c s1 ltac:(lia)).
  rewrite (mthen_step _ _ _ tt s1).
  2:{ apply put_string_run. unfold slice. rewrite length_take, length_drop, !length_app. cbn [length]. rewrite !length_app. cbn [length]. lia. }
  cbn beta. mstep_by (put_string_run cap (c ++ slash :: tail) s1 ltac:(rewrite length_app; cbn [length]; lia)).
  now mstep_by E2.
Qed.

Lemma length_path_tail dirs name : (length dirs <= length (path_tail dirs name))%nat.
Proof. induction dirs as [|d r IH]; [cbn; lia|]. cbn [path_tail length]. rewrite length_app. cbn [length]. lia. Qed.

(** The buffers are long enough for [path]. *)
Definition fits (path : cstring) : Prop := Z.of_nat (length path) < usable (Z.of_nat (length path)).

Abbreviation lookup_path := (getFileName buf_junk table_junk).

Lemma getFileName_start s F heap path v :
  sys_ok s F heap -> F !! DirectorySector = Some v ->
  exists o s', lookup_path path s =
      loop (S (length path)) (usable (Z.of_nat (length path))) path fresh_dir o s' /\
    hdrSectorNumber o = DirectorySector /\ ten_entries fresh_dir /\ sys_ok s' F heap.
Proof.
  intros Hs Hv. destruct (new_OpenFile_run s F heap 1 v Hs Hv) as (o & s1 & E1 & Ho & Hs1).
  destruct (new_Directory_run s1 F heap v Hs1 Hv) as (s2 & E2 & Hs2). exists o, s2.
  split; [|split; [exact Ho|split; [|exact Hs2]]].
  - unfold getFileName. mstep_by E1. now mstep_by E2.
  - split; [reflexivity|]. cbn [table fresh_dir]. rewrite length_fmap. now apply table_junk_length.
Qed.

Lemma getFileName_found s F heap c0 dirs m d name v :
  sys_ok s F heap -> F !! DirectorySector = Some v -> walk F heap DirectorySector dirs m -> is_dir F heap m d ->
  no_slash c0 -> Forall no_slash dirs -> no_slash name -> fits (c0 ++ slash :: path_tail dirs name) ->
  exists o s', lookup_path (c0 ++ slash :: path_tail dirs name) s = Ok ((Some name, d, o), s') /\
    hdrSectorNumber o = m /\ sys_ok s' F heap.
Proof.
  intros Hs Hv Hw Hd H0 Hdirs Hn Hfit. destruct (getFileName_start s F heap (c0 ++ slash :: path_tail dirs name) v Hs Hv)
    as (o & s1 & E1 & Ho & Hten & Hs1). rewrite E1.
  rewrite <- (app_nil_r dirs) in Hfit |- *. set (path := c0 ++ slash :: path_tail (dirs ++ []) name) in *.
  assert (Hf : exists f, S (length path) = (length dirs + S f)%nat).
  { exists (length path - length dirs)%nat. unfold path. rewrite app_nil_r, length_app. cbn [length].
    pose proof (length_path_tail dirs name). lia. }
  destruct Hf as [f Hf]. rewrite Hf.
  destruct (path_loop_walk F heap _ dirs m _ [] name Hw Hdirs (or_intror Hn) s1 o fresh_dir c0 (S f) Hs1 Ho Hten H0 Hfit)
    as (o2 & old2 & c2 & s2 & E2 & Ho2 & Hten2 & Hc2 & Hs2 & Hcap2). fold path in E2. rewrite E2.
  now apply (path_loop_last s2 F heap m).
Qed.

Lemma getFileName_missing s F heap c0 dirs m d c rest name v :
  sys_ok s F heap -> F !! DirectorySector = Some v -> walk F heap DirectorySector dirs m -> is_dir F heap m d ->
  dir_map (mkDirState d heap) !! c = None ->
  no_slash c0 -> Forall no_slash dirs -> no_slash c -> fits (c0 ++ slash :: path_tail (dirs ++ c :: rest) name) ->
  exists o s', lookup_path (c0 ++ slash :: path_tail (dirs ++ c :: rest) name) s = Ok ((None, d, o), s') /\
    hdrSectorNumber o = m /\ sys_ok s' F heap.
Proof.
  intros Hs Hv Hw Hd Hm H0 Hdirs Hn Hfit. destruct (getFileName_start s F heap (c0 ++ slash :: path_tail (dirs ++ c :: rest) name) v Hs Hv)
    as (o & s1 & E1 & Ho & Hten & Hs1). rewrite E1. set (path := c0 ++ slash :: path_tail _ name) in *.
  assert (Hf : exists f, S (length path) = (length dirs + S f)%nat).
  { exists (length path - length dirs)%nat. unfold path. rewrite length_app. cbn [length].
    pose proof (length_path_tail (dirs ++ c :: rest) name) as Hl. rewrite length_app in Hl. lia. }
  destruct Hf as [f Hf]. rewrite Hf.
  destruct (path_loop_walk F heap _ dirs m _ (c :: rest) name Hw Hdirs ltac:(now left) s1 o fresh_dir c0 (S f) Hs1 Ho Hten H0 Hfit)
    as (o2 & old2 & c2 & s2 & E2 & Ho2 & Hten2 & Hc2 & Hs2 & Hcap2). fold path in E2. rewrite E2.
  now apply (path_loop_missing s2 F heap m).
Qed.

(** A name without a slash is an entry of the root directory. *)
Lemma getFileName_plain s F heap d name v :
  sys_ok s F heap -> F !! DirectorySector = Some v -> is_dir F heap DirectorySector d -> no_slash name -> fits name ->
  exists o s', lookup_path name s = Ok ((Some name, d, o), s') /\ hdrSectorNumber o = DirectorySector /\ sys_ok s' F heap.
Proof.
  intros Hs Hv Hd Hn Hfit. destruct (getFileName_start s F heap name v Hs Hv) as (o & s1 & E1 & Ho & [Ht1 Ht2] & Hs1). rewrite E1.
  destruct (fetch_directory_run s1 F heap o _ d fresh_dir Hs1 Ho Hd Ht1 Ht2) as (o2 & s2 & E2 & Ho2 & Hs2).
  exists o2, s2. split; [|split; [exact Ho2|exact Hs2]]. cbn [path_loop]. mstep_by E2. cbn [fst snd].
  rewrite scan_plain by assumption. cbn [Z.eqb]. rewrite Z.sub_0_r.
  assert (Es : slice name 0 (Z.of_nat (length name)) = name) by (unfold slice; apply take_ge; cbn; lia). rewrite Es.
  now do 2 mstep_by (put_string_run _ name s2 Hfit).
Qed.

(** * What a path means: a directory and, unless a directory on the way is
    missing, the name of an entry. *)
Inductive locates F heap : cstring -> Z -> option cstring -> Prop :=
  | loc_plain n : no_slash n -> locates F heap n DirectorySector (Some n)
  | loc_path c0 dirs m n :
      no_slash c0 -> Forall no_slash dirs -> no_slash n -> walk F heap DirectorySector dirs m ->
      locates F heap (c0 ++ slash :: path_tail dirs n) m (Some n)
  | loc_missing c0 dirs m d c rest n :
      no_slash c0 -> Forall no_slash dirs -> no_slash c -> walk F heap DirectorySector dirs m ->
      is_dir F heap m d -> dir_map (mkDirState d heap) !! c = None ->
      locates F heap (c0 ++ slash :: path_tail (dirs ++ c :: rest) n) m None.

Lemma is_dir_unique F heap n d d' : is_dir F heap n d -> is_dir F heap n d' -> d = d'.
Proof. intros [(v & H1 & _ & ->) _] [(v' & H2 & _ & ->) _]. congruence. Qed.

Lemma is_dir_file F heap n d : is_dir F heap n d -> is_Some (F !! n).
Proof. intros [(v & Hv & _) _]. eauto. Qed.

Lemma getFileName_locates s F heap path m d entry :
  sys_ok s F heap -> is_Some (F !! DirectorySector) -> locates F heap path m entry -> is_dir F heap m d -> fits path ->
  exists o s', lookup_path path s = Ok ((entry, d, o), s') /\ hdrSectorNumber o = m /\ sys_ok s' F heap.
Proof.
  intros Hs [v Hv] Hl Hd Hfit. destruct Hl as [n Hn|c0 dirs m n H0 Hdirs Hn Hw|c0 dirs m d' c rest n H0 Hdirs Hc Hw Hd' Hm].
  - now apply (getFileName_plain s F heap d n v).
  - now apply (getFileName_found s F heap c0 dirs m d n v).
  - pose proof (is_dir_unique _ _ _ _ _ Hd Hd') as ->. now apply (getFileName_missing s F heap c0 dirs m d' c rest n v).
Qed.

Lemma copy_name_run path s : fits path -> copy_name path s = Ok (tt, s).
Proof. intros Hf. now apply put_string_run. Qed.

(** What the directory says about an entry. *)
Definition entry_sector d heap (entry : option cstring) : option Z :=
  entry ≫= fun n => dir_map (mkDirState d heap) !! n.

Lemma Find_entry s F heap n d entry :
  sys_ok s F heap -> is_dir F heap n d ->
  exists s', on_dir d (Find entry) s = Ok ((default (-1) (entry_sector d heap entry), d), s') /\ sys_ok s' F heap.
Proof.
  intros Hs Hd. destruct entry as [k|]; [exact (Find_in s F heap n d k Hs Hd)|].
  destruct (on_dir_run (Find None) s F heap d _ _ Hs (Find_null _ (id_wf _ _ _ _ Hd))) as (s' & E & Hs'). eauto.
Qed.

Lemma same_file_visits n h : is_i32 n -> hdr_wf h -> same_file h (h_visits n h).
Proof.
  intros Hn [W1 W2]. split; try reflexivity. split; [exact W1|]. unfold hdr_ints in *. cbn in *.
  repeat match goal with H : Forall _ (_ :: _) |- _ => apply Forall_cons in H as [? H] end.
  apply Forall_app in W2 as [W2 W3]. repeat match goal with H : Forall _ (_ :: _) |- _ => apply Forall_cons in H as [? H] end.
  repeat (apply Forall_cons; split; [assumption|]). apply Forall_app. split; [exact W2|]. auto.
Qed.

Definition with_visits (n : Z) (v : vfile) : vfile := mkVfile (vf_blocks v) (vf_type v) n (vf_bytes v).

(** Fetch a header, change its count, write it back. *)
Lemma FetchFrom_run s F heap n v :
  sys_ok s F heap -> F !! n = Some v ->
  exists h s', on_disk (FileHdr.FetchFrom n) s = Ok (h, s') /\ file_is (sys_fs s') n v h /\ sys_ok s' F heap.
Proof.
  intros Hs Hn. destruct (FetchFrom_volume (sys_fs s) F n v (so_volume _ _ _ Hs) Hn) as (h & Hh & E).
  unfold on_disk. rewrite E. exists h. eexists. split; [reflexivity|]. split; [exact Hh|]. destruct Hs. now split.
Qed.

Lemma WriteBack_visits s F heap n v h k :
  sys_ok s F heap -> F !! n = Some v -> file_is (sys_fs s) n v h -> is_i32 k ->
  exists s', on_disk (FileHdr.WriteBack (h_visits k h) n) s = Ok (tt, s') /\
    sys_ok s' (<[n := with_visits k v]> F) heap.
Proof.
  intros Hs Hn Hh Hk. destruct (WriteBack_volume (sys_fs s) F n v h (h_visits k h) (so_volume _ _ _ Hs) Hn Hh) as (fs' & E & HV).
  { apply same_file_visits; [exact Hk|apply Hh]. }
  apply (on_disk_run _ s F _ heap tt fs' Hs E). destruct Hh as [_ Ht _ _].
  unfold with_visits. rewrite <- Ht. exact HV.
Qed.

Lemma Open_found_run s F heap path m d entry k v :
  sys_ok s F heap -> is_Some (F !! DirectorySector) -> fits path -> locates F heap path m entry -> is_dir F heap m d ->
  entry_sector d heap entry = Some k -> 0 <= k -> F !! k = Some v ->
  exists o s', Open buf_junk table_junk path s = Ok (o, s') /\ hdrSectorNumber o = k /\ seekPosition o = 0 /\
    sys_ok s' (<[k := with_visits (i32 (vf_visits v + 1)) v]> F) heap.
Proof.
  intros Hs Hr Hfit Hl Hd Hk Hk0 Hv.
  destruct (getFileName_locates s F heap path m d entry Hs Hr Hl Hd Hfit) as (o1 & s1 & E1 & _ & Hs1).
  destruct (Find_entry s1 F heap m d entry Hs1 Hd) as (s2 & E2 & Hs2). rewrite Hk in E2.
  destruct (FetchFrom_run s2 F heap k v Hs2 Hv) as (h & s3 & E3 & Hh & Hs3).
  destruct (WriteBack_visits s3 F heap k v h (i32 (numVisits h + 1)) Hs3 Hv Hh (i32_range _)) as (s4 & E4 & Hs4).
  rewrite (fi_visits _ _ _ _ Hh) in E4, Hs4.
  destruct (new_OpenFile_at s4 _ heap k _ Hs4 (lookup_insert_eq _ _ _)) as (o & s5 & E5 & Ho & Hp & Hs5).
  exists o, s5. split; [|split; [exact Ho|split; [exact Hp|exact Hs5]]].
  unfold Open. mstep_by (copy_name_run path s Hfit). mstep_by E1. mstep_by E2. cbn [fst].
  change (default (-1) (Some k)) with k. rewrite (proj2 (Z.leb_le 0 k)) by exact Hk0. mstep_by E3.
  rewrite (fi_visits _ _ _ _ Hh). mstep_by E4. exact E5.
Qed.

Lemma Open_missing_run s F heap path m d entry :
  sys_ok s F heap -> is_Some (F !! DirectorySector) -> fits path -> locates F heap path m entry -> is_dir F heap m d ->
  entry_sector d heap entry = None ->
  exists o s', Open buf_junk table_junk path s = Ok (o, s') /\ hdrSectorNumber o = m /\ sys_ok s' F heap.
Proof.
  intros Hs Hr Hfit Hl Hd Hk.
  destruct (getFileName_locates s F heap path m d entry Hs Hr Hl Hd Hfit) as (o1 & s1 & E1 & Ho & Hs1).
  destruct (Find_entry s1 F heap m d entry Hs1 Hd) as (s2 & E2 & Hs2). rewrite Hk in E2.
  exists o1, s2. split; [|split; [exact Ho|exact Hs2]].
  unfold Open. mstep_by (copy_name_run path s Hfit). mstep_by E1. now mstep_by E2.
Qed.

(** * Creating files *)

(** The system invariant: the free map on disk is [B], every sector that a file
    owns is marked in it, and the root is a directory. *)
Record file_system F heap (B : BitMap) : Prop := {
  fsy_map  : exists v, F !! FreeMapSector = Some v /\ vf_bytes v = map_bytes (map B);
  fsy_wf   : bitmap_wf B;
  fsy_bits : numBits B = NumSectors;
  fsy_used : forall n v x, F !! n = Some v -> x ∈ owned n v -> x ∉ free_bits B;
  fsy_root : exists d, is_dir F heap DirectorySector d
}.

Hypothesis index_junk_length : length index_junk = 32%nat.
Hypothesis index_junk_ints : Forall is_i32 index_junk.
Hypothesis map_junk_length : length map_junk = 32%nat.
Hypothesis map_junk_words : Forall is_word map_junk.
Hypothesis hdr_junk_wf : hdr_wf hdr_junk.

Lemma new_BitMap_run s :
  exists b, new_BitMap map_junk s = Ok (b, s) /\ bitmap_wf b /\ numBits b = NumSectors /\
    forall i, 0 <= i < NumSectors -> bit b i = false.
Proof.
  destruct (BitMap_ctor NumSectors map_junk) as (b & E & Hwf & Hb & Hz).
  - discriminate.
  - rewrite map_junk_length. reflexivity.
  - exact map_junk_words.
  - exists b. unfold new_BitMap, of_res. rewrite E. auto.
Qed.

Lemma map_file_length B v : bitmap_wf B -> numBits B = NumSectors -> vf_bytes v = map_bytes (map B) -> length (vf_bytes v) = 128%nat.
Proof.
  intros [W1 W2 W3 W4] Hb ->. rewrite Hb in W2. change (divRoundUp NumSectors BitsInWord) with 32 in W2.
  rewrite length_map_bytes. lia.
Qed.

Lemma fetch_freeMap_run s F heap v B b :
  sys_ok s F heap -> F !! FreeMapSector = Some v -> vf_bytes v = map_bytes (map B) -> bitmap_wf B -> numBits B = NumSectors ->
  bitmap_wf b -> numBits b = NumSectors ->
  exists s', fetch_freeMap buf_junk b s = Ok (B, s') /\ sys_ok s' F heap.
Proof.
  intros Hs Hv Hbs HB1 HB2 Hb1 Hb2. pose proof (map_file_length B v HB1 HB2 Hbs) as Hl.
  destruct (BitMap_FetchFrom_volume buf_junk buf_junk_length (sys_fs s) F (freeMapFile s) FreeMapSector v b
    (so_volume _ _ _ Hs) (so_map _ _ _ Hs) Hv Hl Hb2 Hb1) as (o & fs' & E & Ho & HV).
  rewrite Hbs, map_of_map_bytes in E by assumption.
  destruct (on_file_run _ s F F heap (freeMapFile s) B o fs' Hs E HV) as (s1 & E1 & [S1 S2 S3]).
  unfold fetch_freeMap. mstep_to s s. eexists. split; [mstep_by E1; reflexivity|]. now split.
Qed.

Lemma write_freeMap_run s F heap v B :
  sys_ok s F heap -> F !! FreeMapSector = Some v -> length (vf_bytes v) = 128%nat -> bitmap_wf B -> numBits B = NumSectors ->
  exists s', write_freeMap index_junk map_junk buf_junk B s = Ok (tt, s') /\
    sys_ok s' (<[FreeMapSector := mkVfile (vf_blocks v) (vf_type v) (vf_visits v) (map_bytes (map B))]> F) heap.
Proof.
  intros Hs Hv Hl HB1 HB2.
  destruct (BitMap_WriteBack_volume index_junk map_junk buf_junk buf_junk_length buf_junk_bytes (sys_fs s) F (freeMapFile s)
    FreeMapSector v B (so_volume _ _ _ Hs) (so_map _ _ _ Hs) Hv Hl HB2 HB1) as (o & fs' & E & Ho & HV).
  destruct (on_file_run _ s F _ heap (freeMapFile s) tt o fs' Hs E HV) as (s1 & E1 & [S1 S2 S3]).
  unfold write_freeMap. mstep_to s s. eexists. split; [mstep_by E1; reflexivity|]. now split.
Qed.

(** The file of a directory after its table was written. *)
Definition with_table (t : list DirectoryEntry) (v : vfile) : vfile :=
  mkVfile (vf_blocks v) (vf_type v) (vf_visits v) (splice (vf_bytes v) 0 (table_bytes t)).

Lemma write_directory_run s F heap o n v d :
  sys_ok s F heap -> hdrSectorNumber o = n -> F !! n = Some v -> DirectoryFileSize <= Z.of_nat (length (vf_bytes v)) ->
  ten_entries d ->
  exists o' s', write_directory index_junk map_junk buf_junk d o s = Ok ((tt, o'), s') /\ hdrSectorNumber o' = n /\
    sys_ok s' (<[n := with_table (table d) v]> F) heap.
Proof.
  intros Hs Ho Hv Hl [Ht1 Ht2]. pose proof (length_table_bytes (table d)) as Hlt. rewrite Ht2 in Hlt.
  change (sizeof_DirectoryEntry * NumDirEntries) with DirectoryFileSize in Hlt.
  destruct (WriteAt_volume index_junk map_junk buf_junk buf_junk_length buf_junk_bytes (sys_fs s) F o n v (table_bytes (table d)) 0
    (so_volume _ _ _ Hs) Ho Hv) as (o' & fs' & E & Ho' & HV); [apply map_bytes_bytes|lia|lia|].
  destruct (on_file_run (Directory.WriteBack index_junk map_junk buf_junk d) s F (<[n := with_table (table d) v]> F) heap o tt o' fs' Hs) as (s' & E' & Hs');
    [|exact HV|eauto].
  unfold Directory.WriteBack. now mstep_by E.
Qed.

Lemma is_dir_written F heap n v d :
  F !! n = Some v -> DirectoryFileSize <= Z.of_nat (length (vf_bytes v)) -> ten_entries d -> Forall entry_wf (table d) ->
  dir_wf (mkDirState d heap) -> is_dir (<[n := with_table (table d) v]> F) heap n d.
Proof.
  intros Hv Hl [Ht1 Ht2] Hwf Hd. pose proof (length_table_bytes (table d)) as Hlt. rewrite Ht2 in Hlt.
  change (sizeof_DirectoryEntry * NumDirEntries) with DirectoryFileSize in Hlt.
  split; [|exact Hd]. exists (with_table (table d) v). split; [apply lookup_insert_eq|]. cbn [with_table vf_bytes].
  split; [rewrite length_splice; lia|].
  rewrite <- Hlt, slice_splice_eq by lia. replace (Z.to_nat NumDirEntries) with (length (table d)) by lia.
  rewrite table_of_table_bytes by exact Hwf. destruct d. cbn in *. now rewrite Ht1.
Qed.

(** Directories elsewhere stay; names that were known stay known. *)
Lemma is_dir_mono F F' heap heap' n d :
  is_dir F heap n d -> F' !! n = F !! n -> heap ⊆ heap' -> is_dir F' heap' n d.
Proof.
  intros [(v & Hv & Hl & Ed) [W1 W2 W3]] HF Hsub. cbn [d_dir d_heap] in *. split; [exists v; rewrite HF; auto|].
  split; cbn [d_dir d_heap]; [exact W1|now apply (entry_ok_mono heap)|]. now rewrite (dir_list_mono heap heap').
Qed.

Lemma dir_map_mono heap heap' d :
  dir_wf (mkDirState d heap) -> heap ⊆ heap' -> dir_map (mkDirState d heap') = dir_map (mkDirState d heap).
Proof. intros [_ W2 _] Hsub. unfold dir_map. cbn [d_dir d_heap] in *. now rewrite (dir_list_mono heap heap'). Qed.

Lemma entries_of_words_wf ws : Forall is_word ws -> Forall entry_wf (entries_of_words ws).
Proof.
  remember (length ws) as n eqn:Hn. revert ws Hn. induction (lt_wf n) as [n _ IH]. intros ws Hn Hw.
  destruct ws as [|a [|b [|c r]]]; try constructor.
  - apply Forall_cons in Hw as [Ha Hw]. apply Forall_cons in Hw as [Hb Hw]. apply Forall_cons in Hw as [Hc Hw].
    unfold is_word in *. split; cbn; [apply Z.mod_pos_bound; lia| |apply i32_range|lia].
    split; [apply Z.div_pos; lia|apply Z.div_lt_upper_bound; lia].
  - do 3 apply Forall_cons in Hw as [_ Hw]. apply (IH (length r)); [subst; cbn; lia|reflexivity|exact Hw].
Qed.

Lemma is_dir_entries fs F heap n d : volume fs F -> is_dir F heap n d -> Forall entry_wf (table d).
Proof.
  intros HV [(v & Hv & Hl & ->) _]. cbn [table]. unfold table_of_bytes. apply entries_of_words_wf.
  apply words_of_bytes_wf.
  - unfold slice. apply Forall_take, Forall_drop. exact (vf_bytes_bytes fs F n v HV Hv).
  - apply Nat2Z.inj. rewrite length_slice by (change DirectoryFileSize with 120 in *; lia). reflexivity.
Qed.

Definition sectors_needed (size : Z) : Z :=
  let n := divRoundUp size SectorSize in n + divRoundUp n 32.

(** A file of [size] bytes that was just laid out from the free sectors of [B]. *)
Record new_file (B : BitMap) (size ty : Z) (v : vfile) (B' : BitMap) : Prop := {
  nf_type   : vf_type v = ty;
  nf_visits : vf_visits v = numVisits hdr_junk;
  nf_length : Z.of_nat (length (vf_bytes v)) = size;
  nf_taken  : sectors_of (vf_blocks v) = take (length (sectors_of (vf_blocks v))) (free_bits B);
  nf_count  : Z.of_nat (length (sectors_of (vf_blocks v))) = sectors_needed size;
  nf_data   : Z.of_nat (length (data_of (vf_blocks v))) = divRoundUp size SectorSize;
  nf_wf     : bitmap_wf B';
  nf_bits   : numBits B' = numBits B;
  nf_free   : free_bits B' = drop (length (sectors_of (vf_blocks v))) (free_bits B)
}.

Lemma allocate_file s F heap B n size ty :
  sys_ok s F heap -> bitmap_wf B -> numBits B = NumSectors ->
  (forall m v x, F !! m = Some v -> x ∈ owned m v -> x ∉ free_bits B) ->
  0 <= n < NumSectors -> (n ∉ free_bits B) -> (forall m v, F !! m = Some v -> n ∉ owned m v) ->
  0 <= size -> is_i32 size -> is_i32 ty ->
  sectors_needed size <= Z.of_nat (length (free_bits B)) -> divRoundUp (divRoundUp size SectorSize) 32 <= NumDirect ->
  exists h v B' s1 s2, on_header hdr_junk B (Allocate index_junk size ty) s = Ok ((true, (h, B')), s1) /\
    on_disk (FileHdr.WriteBack h n) s1 = Ok (tt, s2) /\ sys_ok s2 (<[n := v]> F) heap /\ new_file B size ty v B'.
Proof.
  intros Hs HB1 HB2 Hused Hn Hnf Hno Hsz Hszi Hty Hroom Hidx. pose proof (so_volume _ _ _ Hs) as HV.
  set (st := mkFhState hdr_junk B (sys_fs s)).
  destruct (Allocate_success index_junk index_junk_length index_junk_ints size ty st HB1 HB2 (vol_wf _ _ HV) (hw_table _ hdr_junk_wf) Hsz Hroom Hidx)
    as (st' & blocks & E & [L1 L2 L3 L4 L5 L6 L7 L8 L9 L10]).
  cbn [fh_hdr fh_map fh_fs st] in L5, L6, L7, L9, L10. specialize (L10 (hw_ints _ hdr_junk_wf) Hszi Hty).
  set (h := fh_hdr st') in *. assert (Hh : hdr_wf h) by (split; [apply L1|exact L10]).
  assert (Hblk : forall x, x ∈ sectors_of blocks -> x ∈ free_bits B).
  { intros x Hx. rewrite L6 in Hx. apply elem_of_take in Hx as (i & Hi & _). eapply list_elem_of_lookup_2, Hi. }
  assert (Hnb : n ∉ sectors_of blocks) by (intros Hx; now apply Hnf, Hblk).
  set (fs' := with_sectors (<[Z.to_nat n := hdr_bytes h]> (fs_sectors (fh_fs st'))) (fh_fs st')).
  set (v := mkVfile blocks ty (numVisits h) (file_bytes fs' h blocks)).
  assert (Hwf' : fs_wf fs') by (apply fs_wf_write; [exact L8|now apply hdr_bytes_sector]).
  assert (Hfi : file_is fs' n v h).
  { split; cbn [v vf_blocks vf_type vf_visits vf_bytes]; auto. split; auto.
    - apply zlookup_insert_eq. rewrite (fw_length _ L8). exact Hn.
    - apply (layout_frame (fh_fs st')); [|exact L1]. intros x Hx. apply zlookup_insert_ne; [lia|]. intros <-. now apply Hnb.
    - rewrite L2, L3. split; [exact Hsz|]. rewrite Z.mul_comm. apply divRoundUp_enough; [exact Hsz|reflexivity]. }
  assert (Hfresh : F !! n = None).
  { destruct (F !! n) as [w|] eqn:Ew; [|reflexivity]. exfalso. apply (Hno n w Ew). left. }
  assert (HV' : volume fs' (<[n := v]> F)).
  { apply (volume_add (sys_fs s) fs' F n v h HV Hfresh Hwf' Hfi).
    - intros m w x Hm Hx Hxn. apply elem_of_cons in Hxn as [->|Hxn]; [exact (Hno m w Hm Hx)|].
      exact (Hused m w x Hm Hx (Hblk x Hxn)).
    - intros x Hx0 Hx. apply not_elem_of_cons in Hx as [Hxn Hxb]. cbn [fs' fs_sectors with_sectors].
      rewrite zlookup_insert_ne by (lia || congruence). now apply L9. }
  destruct Hs as [S1 S2 S3]. exists h, v, (fh_map st'). do 2 eexists. split; [|split; [|split]].
  - unfold on_header. fold st. rewrite E. reflexivity.
  - unfold on_disk. cbn [sys_fs]. unfold FileHdr.WriteBack. rewrite fs_WriteSector_run by assumption. reflexivity.
  - split; cbn; [exact HV'|exact S2|exact S3].
  - split; cbn [v vf_blocks vf_type vf_bytes]; auto.
    + rewrite (length_file_bytes fs' n h blocks Hwf' (fi_at _ _ _ _ Hfi)). exact L2.
    + rewrite (length_sectors_of _ _ (lay_shape _ _ _ L1)), L3. reflexivity.
    + rewrite <- L3. apply (shaped_length _ _ (lay_shape _ _ _ L1)).
    + apply L7.
    + exact (proj1 (tk_shape _ _ _ L7)).
    + apply L7.
Qed.

Hypothesis table_junk_wf : forall n, Forall entry_wf (table_junk n).

Lemma fresh_dir_empty heap :
  ten_entries fresh_dir /\ Forall entry_wf (table fresh_dir) /\ dir_wf (mkDirState fresh_dir heap) /\
  dir_map (mkDirState fresh_dir heap) = ∅.
Proof.
  assert (Hten : ten_entries fresh_dir).
  { split; [reflexivity|]. cbn [table fresh_dir]. rewrite length_fmap. now apply table_junk_length. }
  assert (Hl : forall t, dir_list heap (set_inUse 0 <$> t) = []) by (intros t; induction t as [|e t IH]; [reflexivity|exact IH]).
  split; [exact Hten|]. split; [|split].
  - cbn [table fresh_dir]. apply Forall_fmap. eapply Forall_impl; [apply table_junk_wf|]. intros e [W1 W2 W3 W4]. split; cbn; auto. lia.
  - split; cbn [d_dir d_heap]; [now destruct Hten as [-> ->]| |].
    + apply Forall_fmap, Forall_true. intros e Hu. now contradict Hu.
    + cbn [table fresh_dir]. rewrite Hl. constructor.
  - unfold dir_map. cbn [d_dir d_heap table fresh_dir]. now rewrite Hl.
Qed.

Lemma init_directory_run s F heap n v w :
  sys_ok s F heap -> F !! DirectorySector = Some w -> F !! n = Some v -> DirectoryFileSize <= Z.of_nat (length (vf_bytes v)) ->
  exists s', init_directory index_junk map_junk buf_junk table_junk n s = Ok (tt, s') /\
    sys_ok s' (<[n := with_table (table fresh_dir) v]> F) heap.
Proof.
  intros Hs Hw Hv Hl. destruct (new_OpenFile_run s F heap n v Hs Hv) as (o & s1 & E1 & Ho & Hs1).
  destruct (new_Directory_run s1 F heap w Hs1 Hw) as (s2 & E2 & Hs2).
  destruct (write_directory_run s2 F heap o n v fresh_dir Hs2 Ho Hv Hl (proj1 (fresh_dir_empty heap))) as (o' & s3 & E3 & _ & Hs3).
  exists s3. split; [|exact Hs3]. unfold init_directory. mstep_by E1. mstep_by E2. now mstep_by E3.
Qed.

Lemma length_with_table t v :
  Z.of_nat (length t) = NumDirEntries -> DirectoryFileSize <= Z.of_nat (length (vf_bytes v)) ->
  length (vf_bytes (with_table t v)) = length (vf_bytes v).
Proof.
  intros Ht Hl. cbn. pose proof (length_table_bytes t) as Hlt. rewrite Ht in Hlt.
  change (sizeof_DirectoryEntry * NumDirEntries) with DirectoryFileSize in Hlt. apply length_splice; lia.
Qed.

(** The contents of a new file: what the disk had, or an empty directory. *)
Definition initialised (ty : Z) (v : vfile) : vfile := if ty =? 1 then with_table (table fresh_dir) v else v.

Lemma initialise_run s F heap n v ty w :
  sys_ok s F heap -> F !! DirectorySector = Some w -> F !! n = Some v -> (ty = 1 -> DirectoryFileSize <= Z.of_nat (length (vf_bytes v))) ->
  exists s', (if ty =? 1 then init_directory index_junk map_junk buf_junk table_junk n else mreturn tt) s = Ok (tt, s') /\
    sys_ok s' (<[n := initialised ty v]> F) heap.
Proof.
  intros Hs Hw Hv Hl. unfold initialised. destruct (Z.eqb_spec ty 1) as [->|Hne].
  - now apply (init_directory_run s F heap n v w); auto.
  - exists s. split; [reflexivity|]. now rewrite insert_id.
Qed.

Lemma initialised_same ty v :
  (ty = 1 -> DirectoryFileSize <= Z.of_nat (length (vf_bytes v))) ->
  vf_blocks (initialised ty v) = vf_blocks v /\ vf_type (initialised ty v) = vf_type v /\
  vf_visits (initialised ty v) = vf_visits v /\
  length (vf_bytes (initialised ty v)) = length (vf_bytes v).
Proof.
  intros Hl. unfold initialised. destruct (Z.eqb_spec ty 1) as [->|]; [|auto]. do 3 (split; [reflexivity|]).
  apply length_with_table; [apply (fresh_dir_empty ∅)|now apply Hl].
Qed.

(** Up to the point where a sector for the header is found. *)
Lemma Create_start s F heap B path m d entry size ty :
  sys_ok s F heap -> file_system F heap B -> fits path -> locates F heap path m entry -> is_dir F heap m d ->
  entry_sector d heap entry = None ->
  exists o s1, hdrSectorNumber o = m /\ sys_ok s1 F heap /\
    Create index_junk map_junk buf_junk table_junk hdr_junk path size ty s =
    (let! g := on_bits B BitMap_Find in
     let sector := g.1 in
     if sector =? -1 then mreturn false
     else
       let! a := on_dir d (Add entry sector) in
       if negb a.1 then mreturn false
       else
         let! h := on_header hdr_junk g.2 (Allocate index_junk size ty) in
         if negb h.1 then mreturn false
         else
           on_disk (FileHdr.WriteBack h.2.1 sector) >>>
           (if ty =? 1 then init_directory index_junk map_junk buf_junk table_junk sector else mreturn tt) >>>
           let! w := write_directory index_junk map_junk buf_junk a.2 o in
           let! r := fetch_directory buf_junk a.2 w.2 in
           let! l := on_dir r.1 List_ in
           print (MsgNames l.1) >>>
           write_freeMap index_junk map_junk buf_junk h.2.2 >>>
           mreturn true) s1.
Proof.
  intros Hs [(vm & Hvm & Hbm) HB1 HB2 Hused [dr Hdr]] Hfit Hl Hd Hk.
  destruct (getFileName_locates s F heap path m d entry Hs (is_dir_file _ _ _ _ Hdr) Hl Hd Hfit) as (o & s1 & E1 & Ho & Hs1).
  destruct (Find_entry s1 F heap m d entry Hs1 Hd) as (s2 & E2 & Hs2). rewrite Hk in E2.
  destruct (new_BitMap_run s2) as (b & E3 & Hb1 & Hb2 & _).
  destruct (fetch_freeMap_run s2 F heap vm B b Hs2 Hvm Hbm HB1 HB2 Hb1 Hb2) as (s4 & E4 & Hs4).
  exists o, s4. split; [exact Ho|]. split; [exact Hs4|].
  unfold Create. mstep_by (copy_name_run path s Hfit). mstep_by E1. mstep_by E2.
  cbn [fst]. change (negb (default (-1) None =? -1)) with false. cbn match. mstep_by E3. mstep_by E4. reflexivity.
Qed.

(** A sector that is free belongs to no file. *)
Lemma free_unowned F heap B n : file_system F heap B -> n ∈ free_bits B -> forall k v, F !! k = Some v -> n ∉ owned k v.
Proof. intros Hf Hn k v Hk Hx. exact (fsy_used _ _ _ Hf k v n Hk Hx Hn). Qed.

Lemma free_no_header F heap B n : file_system F heap B -> n ∈ free_bits B -> F !! n = None.
Proof.
  intros Hf Hn. destruct (F !! n) as [v|] eqn:E; [|reflexivity]. exfalso.
  apply (free_unowned F heap B n Hf Hn n v E). left.
Qed.

(** From the new directory entry on: the directory, then the map, go to disk. *)
Lemma Create_flush s F heap o m vd d vm B :
  sys_ok s F heap -> hdrSectorNumber o = m -> m <> FreeMapSector -> F !! m = Some vd ->
  DirectoryFileSize <= Z.of_nat (length (vf_bytes vd)) ->
  ten_entries d -> Forall entry_wf (table d) -> dir_wf (mkDirState d heap) ->
  F !! FreeMapSector = Some vm -> length (vf_bytes vm) = 128%nat -> bitmap_wf B -> numBits B = NumSectors ->
  exists s', (let! w := write_directory index_junk map_junk buf_junk d o in
              let! r := fetch_directory buf_junk d w.2 in
              let! l := on_dir r.1 List_ in
              print (MsgNames l.1) >>>
              write_freeMap index_junk map_junk buf_junk B >>>
              mreturn true) s = Ok (true, s') /\
    sys_ok s' (<[FreeMapSector := mkVfile (vf_blocks vm) (vf_type vm) (vf_visits vm) (map_bytes (map B))]>
                 (<[m := with_table (table d) vd]> F)) heap.
Proof.
  intros Hs Ho Hm0 Hvd Hl Hten Hew Hwf Hvm Hlm HB1 HB2.
  destruct (write_directory_run s F heap o m vd d Hs Ho Hvd Hl Hten) as (o1 & s1 & E1 & Ho1 & Hs1).
  pose proof (is_dir_written F heap m vd d Hvd Hl Hten Hew Hwf) as Hd.
  set (F1 := <[m := with_table (table d) vd]> F) in *.
  destruct (fetch_directory_run s1 F1 heap o1 m d d Hs1 Ho1 Hd (proj1 Hten) (proj2 Hten)) as (o2 & s2 & E2 & _ & Hs2).
  destruct (on_dir_run List_ s2 F1 heap d _ _ Hs2 (List_run _ Hwf)) as (s3 & E3 & Hs3).
  cbn [d_heap d_dir] in E3, Hs3. set (names := (dir_list heap (table d)).*1) in *.
  set (s4 := mkSysState (sys_fs s3) (sys_heap s3) (freeMapFile s3) (directoryFile s3) (sys_log s3 ++ [MsgNames names])).
  assert (Hs4 : sys_ok s4 F1 heap) by (destruct Hs3; now split).
  assert (Hvm' : F1 !! FreeMapSector = Some vm) by (unfold F1; now rewrite lookup_insert_ne).
  destruct (write_freeMap_run s4 F1 heap vm B Hs4 Hvm' Hlm HB1 HB2) as (s5 & E5 & Hs5).
  exists s5. split; [|exact Hs5]. mstep_by E1. cbn [snd]. mstep_by E2. cbn [fst]. mstep_by E3. cbn [fst].
  mstep_to tt s4. mstep_by E5. reflexivity.
Qed.

(** The effect of creating [name] in directory [m] with its header in sector [n]. *)
Record created F heap B m d (name : cstring) n size ty F' heap' B' : Prop := {
  cr_file  : exists v, F' !! n = Some v /\ vf_type v = ty /\ vf_visits v = numVisits hdr_junk /\ Z.of_nat (length (vf_bytes v)) = size /\
               Z.of_nat (length (data_of (vf_blocks v))) = divRoundUp size SectorSize;
  cr_dir   : exists d', is_dir F' heap' m d' /\
               dir_map (mkDirState d' heap') = <[name := n]> (dir_map (mkDirState d heap));
  cr_empty : ty = 1 -> exists e, is_dir F' heap' n e /\ dir_map (mkDirState e heap') = ∅;
  cr_other : forall k, k <> FreeMapSector -> k <> m -> k <> n -> F' !! k = F !! k;
  cr_free  : free_bits B' = drop (Z.to_nat (1 + sectors_needed size)) (free_bits B)
}.

Lemma owned_initialised ty v n :
  (ty = 1 -> DirectoryFileSize <= Z.of_nat (length (vf_bytes v))) -> owned n (initialised ty v) = owned n v.
Proof. intros Hl. unfold owned. now rewrite (proj1 (initialised_same ty v Hl)). Qed.

Lemma entry_wf_new n p : 0 <= n < NumSectors -> 0 < p < 2 ^ 32 -> forall e, entry_wf e -> entry_wf (mkDirectoryEntry 1 (padding e) n p).
Proof. intros Hn Hp e [W1 W2 W3 W4]. split; cbn; [lia|exact W2|now apply sector_number_i32|lia]. Qed.

(** The invariant after a file was added and its sectors were taken. *)
Lemma file_system_created F heap B heap' m vd vm n rest v c F' B' :
  file_system F heap B -> heap ⊆ heap' -> bitmap_wf B' -> numBits B' = NumSectors ->
  free_bits B = n :: rest -> sectors_of (vf_blocks v) = take c rest -> free_bits B' = drop c rest ->
  F !! m = Some vd -> F !! FreeMapSector = Some vm -> n <> FreeMapSector -> n <> m -> m <> FreeMapSector -> n <> DirectorySector ->
  F' !! FreeMapSector = Some (mkVfile (vf_blocks vm) (vf_type vm) (vf_visits vm) (map_bytes (map B'))) ->
  F' !! n = Some v ->
  (exists w, F' !! m = Some w /\ vf_blocks w = vf_blocks vd /\ exists d, is_dir F' heap' m d) ->
  (forall k, k <> FreeMapSector -> k <> m -> k <> n -> F' !! k = F !! k) ->
  file_system F' heap' B'.
Proof.
  intros [_ HB1 HB2 Hused [dr Hdr]] Hsub W N Hfree Htake Hdrop Hvd Hvm Hn0 Hnm Hm0 Hn1 F0 Fn (w & Fm & Ew & d & Hd) Hother.
  pose proof (NoDup_free_bits B) as Hnd. rewrite Hfree, <- (take_drop c rest), <- Htake in Hnd.
  apply NoDup_cons in Hnd as [Hnn Hnd]. apply NoDup_app in Hnd as (_ & Hdis & _).
  assert (Hin' : forall x, x ∈ drop c rest -> x ∈ free_bits B).
  { intros x Hx. rewrite Hfree, <- (take_drop c rest). right. apply elem_of_app. now right. }
  split; [eexists; split; [exact F0|reflexivity]|exact W|exact N| |].
  - intros k u x Hk Hx Hin. rewrite Hdrop in Hin. pose proof (Hin' x Hin) as HinB.
    destruct (decide (k = n)) as [->|Hkn].
    { rewrite Fn in Hk. injection Hk as <-. apply elem_of_cons in Hx as [->|Hx]; [|exact (Hdis x Hx Hin)].
      apply Hnn. apply elem_of_app. now right. }
    destruct (decide (k = FreeMapSector)) as [->|Hk0]; [rewrite F0 in Hk; injection Hk as <-; exact (Hused _ vm x Hvm Hx HinB)|].
    destruct (decide (k = m)) as [->|Hkm].
    + rewrite Fm in Hk. injection Hk as <-. unfold owned in Hx. rewrite Ew in Hx. exact (Hused m vd x Hvd Hx HinB).
    + rewrite Hother in Hk by assumption. exact (Hused k u x Hk Hx HinB).
  - destruct (decide (m = DirectorySector)) as [<-|Hm1]; [now exists d|]. exists dr.
    now apply (is_dir_mono F F' heap heap'); auto.
Qed.

Lemma Create_run s F heap B path m d name p n rest size ty :
  sys_ok s F heap -> file_system F heap B -> fits path -> locates F heap path m (Some name) -> is_dir F heap m d ->
  m <> FreeMapSector -> dir_map (mkDirState d heap) !! name = None ->
  Z.of_nat (base.size (dir_map (mkDirState d heap))) < NumDirEntries ->
  new_chars heap (Z.of_nat (length name) + 1) = Some p -> free_bits B = n :: rest ->
  0 <= size -> is_i32 size -> is_i32 ty -> (ty = 1 -> DirectoryFileSize <= size) ->
  sectors_needed size <= Z.of_nat (length rest) -> divRoundUp (divRoundUp size SectorSize) 32 <= NumDirect ->
  let heap' := <[p := name]> heap in
  exists s' F' B', Create index_junk map_junk buf_junk table_junk hdr_junk path size ty s = Ok (true, s') /\
    sys_ok s' F' heap' /\ file_system F' heap' B' /\ created F heap B m d name n size ty F' heap' B'.
Proof.
  intros Hs HFS Hfit Hl Hd Hm0 Hnone Hroom Hp Hfree Hsz Hszi Hty Hdty Hspace Hidx heap'.
  pose proof HFS as [(vm & Hvm & Hbm) HB1 HB2 Hused [dr Hdr]].
  destruct (new_chars_fresh _ _ _ Hp) as [Hpf Hpr].
  assert (Hsub : heap ⊆ heap') by now apply insert_subseteq.
  destruct (Create_start s F heap B path m d (Some name) size ty Hs HFS Hfit Hl Hd Hnone) as (o & s1 & Ho & Hs1 & E1). rewrite E1. clear E1.
  destruct (BitMap_Find_cons B n rest HB1 Hfree) as (B1 & EF & HB11 & [HB12 _] & Hfree1 & Hnr & _). rewrite HB2 in HB12, Hnr.
  assert (Hnf : n ∈ free_bits B) by (rewrite Hfree; left).
  pose proof (NoDup_free_bits B) as Hnd. rewrite Hfree in Hnd. apply NoDup_cons in Hnd as [Hnn _].
  pose proof (free_no_header F heap B n HFS Hnf) as HFn.
  destruct (Add_room name n (mkDirState d heap) p (id_wf _ _ _ _ Hd) Hnone ltac:(cbn [d_dir]; rewrite (proj1 (is_dir_size _ _ _ _ Hd)); exact Hroom) Hp)
    as (ds & EA & Hwf2 & Hmap2 & Hheap2 & Hsize2 & HP2). cbn [d_dir d_heap] in *. fold heap' in Hheap2.
  destruct (on_dir_run (Add (Some name) n) s1 F heap d true ds Hs1 EA) as (s2 & E2 & Hs2). rewrite Hheap2 in Hs2.
  destruct (allocate_file s2 F heap' B1 n size ty) as (h & v & B2 & s3 & s4 & E3 & E4 & Hs4 & [N1 Nv N2 N3 N4 Nd N5 N6 N7]); auto.
  { rewrite Hfree1. intros k w x Hk Hx Hin. apply (Hused k w x Hk Hx). rewrite Hfree. now right. }
  { now rewrite Hfree1. }
  { exact (free_unowned F heap B n HFS Hnf). }
  { now rewrite Hfree1. }
  assert (Hn1 : n <> DirectorySector) by (intros ->; destruct (is_dir_file _ _ _ _ Hdr); congruence).
  assert (Hn0 : n <> FreeMapSector) by (intros ->; congruence).
  destruct (is_dir_file _ _ _ _ Hd) as [vd Hvd]. assert (Hnm : n <> m) by (intros ->; congruence).
  destruct (is_dir_file _ _ _ _ Hdr) as [vr Hvr].
  assert (Hdl : ty = 1 -> DirectoryFileSize <= Z.of_nat (length (vf_bytes v))) by (rewrite N2; exact Hdty).
  destruct (initialise_run s4 (<[n := v]> F) heap' n v ty vr Hs4) as (s5 & E5 & Hs5);
    [now rewrite lookup_insert_ne|apply lookup_insert_eq|exact Hdl|]. rewrite insert_insert_eq in Hs5.
  set (v1 := initialised ty v) in *. destruct (initialised_same ty v Hdl) as (V1 & V2 & Vv & V3). fold v1 in V1, V2, Vv, V3.
  set (F1 := <[n := v1]> F) in *.
  assert (Hdm : is_dir F1 heap' m d) by (apply (is_dir_mono F F1 heap heap'); auto; unfold F1; now rewrite lookup_insert_ne).
  assert (Hld : DirectoryFileSize <= Z.of_nat (length (vf_bytes vd))) by (destruct (id_file _ _ _ _ Hd) as (w & Hw & Hlw & _); congruence).
  assert (Hten : ten_entries (d_dir ds)).
  { destruct (is_dir_size _ _ _ _ Hd) as [T1 T2]. split; [congruence|]. rewrite <- (dw_size _ Hwf2). congruence. }
  assert (Hew : Forall entry_wf (table (d_dir ds))).
  { apply HP2; [exact (is_dir_entries _ F heap m d (so_volume _ _ _ Hs) Hd)|]. now apply entry_wf_new. }
  assert (Hwf2' : dir_wf (mkDirState (d_dir ds) heap')) by (destruct ds; cbn in *; now rewrite <- Hheap2).
  destruct (Create_flush s5 F1 heap' o m vd (d_dir ds) vm B2 Hs5 Ho Hm0) as (s6 & E6 & Hs6); auto;
    [unfold F1; now rewrite lookup_insert_ne|unfold F1; now rewrite lookup_insert_ne|exact (map_file_length B vm HB1 HB2 Hbm)|now rewrite N6|].
  set (F2 := <[m := with_table (table (d_dir ds)) vd]> F1) in *.
  set (vm' := mkVfile (vf_blocks vm) (vf_type vm) (vf_visits vm) (map_bytes (map B2))) in *.
  set (F3 := <[FreeMapSector := vm']> F2) in *.
  assert (Hdir3 : is_dir F3 heap' m (d_dir ds)).
  { apply (is_dir_mono F2 F3 heap' heap'); [|unfold F3; now rewrite lookup_insert_ne|reflexivity].
    apply is_dir_written; auto. unfold F1. now rewrite lookup_insert_ne. }
  assert (Hother : forall k, k <> FreeMapSector -> k <> m -> k <> n -> F3 !! k = F !! k).
  { intros k H0 H1 H2. unfold F3, F2, F1. now rewrite !lookup_insert_ne by congruence. }
  assert (HF3n : F3 !! n = Some v1) by (unfold F3, F2, F1; rewrite !lookup_insert_ne by congruence; apply lookup_insert_eq).
  exists s6, F3, B2. split; [|split; [exact Hs6|split]].
  - rewrite (mthen_step _ _ s1 (n, B1) s1) by (unfold on_bits; now rewrite EF). cbn [fst snd].
    rewrite (proj2 (Z.eqb_neq n (-1))) by lia. mstep_by E2. cbn [fst snd negb]. mstep_by E3. cbn [fst snd negb].
    mstep_by E4. mstep_by E5. exact E6.
  - apply (file_system_created F heap B heap' m vd vm n rest v1 (length (sectors_of (vf_blocks v))) F3 B2); auto; try congruence.
    + apply lookup_insert_eq.
    + eexists. split; [unfold F3, F2; rewrite lookup_insert_ne, lookup_insert_eq by congruence; reflexivity|]. split; [reflexivity|eauto].
  - split.
    + exists v1. split; [exact HF3n|]. split; [congruence|]. split; [congruence|]. now rewrite V3, V1.
    + exists (d_dir ds). split; [exact Hdir3|]. rewrite <- Hmap2. unfold dir_map. cbn [d_dir d_heap]. now rewrite Hheap2.
    + intros ->. exists fresh_dir. destruct (fresh_dir_empty heap') as (T1 & T2 & T3 & T4). split; [|exact T4].
      apply (is_dir_mono (<[n := with_table (table fresh_dir) v]> (<[n := v]> F)) F3 heap' heap'); [|rewrite HF3n, lookup_insert_eq; reflexivity|reflexivity].
      apply is_dir_written; auto. apply lookup_insert_eq.
    + exact Hother.
    + rewrite N7, Hfree1, Hfree. replace (Z.to_nat (1 + sectors_needed size)) with (S (length (sectors_of (vf_blocks v)))); [reflexivity|].
      rewrite <- N4. lia.
Qed.

(** * Removing files *)
Lemma used_bit B x : numBits B = NumSectors -> 0 <= x < NumSectors -> (x ∉ free_bits B) -> bit B x = true.
Proof.
  intros Hn Hx Hf. destruct (bit B x) eqn:E; [reflexivity|]. exfalso. apply Hf. apply elem_of_free_bits. now rewrite Hn.
Qed.

Lemma free_file s F heap B k v h :
  sys_ok s F heap -> bitmap_wf B -> numBits B = NumSectors ->
  layout (sys_fs s) h (vf_blocks v) -> 0 <= k < NumSectors -> (k ∉ sectors_of (vf_blocks v)) ->
  (forall x, x ∈ owned k v -> x ∉ free_bits B) ->
  exists B1 B2, on_header h B Deallocate s = Ok ((tt, (h, B1)), s) /\ on_bits B1 (BitMap_Clear k) s = Ok ((tt, B2), s) /\
    bitmap_wf B2 /\ numBits B2 = NumSectors /\ free_bits B2 ≡ₚ owned k v ++ free_bits B.
Proof.
  intros Hs HB1 HB2 A4 A3 A5 Hused.
  destruct (Deallocate_run (mkFhState h B (sys_fs s)) (vf_blocks v) HB1 HB2 A4) as (B1 & E1 & W1 & [N1 _] & P1).
  { apply Forall_forall. intros x Hx. apply used_bit; [exact HB2| |apply Hused; now right].
    exact (proj1 (Forall_forall _ _) (lay_range _ _ _ A4) x Hx). }
  cbn [fh_map fh_hdr fh_fs] in *.
  destruct (BitMap_Clear_spec B1 k W1 ltac:(rewrite N1, HB2; exact A3)) as (B2 & E2 & W2 & S2 & Hb2).
  exists B1, B2. split; [|split; [|split; [exact W2|split; [destruct S2; congruence|]]]].
  - unfold on_header. rewrite E1. cbn. destruct s; reflexivity.
  - unfold on_bits. now rewrite E2.
  - rewrite (Clear_free_bits B1 B2 k); auto.
    + rewrite P1. reflexivity.
    + rewrite N1, HB2. exact A3.
    + apply used_bit; [congruence|exact A3|]. rewrite P1, elem_of_app. intros [Hx|Hx]; [now apply A5|].
      apply (Hused k); [left|exact Hx].
Qed.

(** The effect of removing the entry [name] of directory [m], in sector [k]. *)
Record removed F heap B m d (name : cstring) k v F' B' : Prop := {
  rm_gone  : F' !! k = None;
  rm_dir   : exists d', is_dir F' heap m d' /\
               dir_map (mkDirState d' heap) = delete name (dir_map (mkDirState d heap));
  rm_other : forall j, j <> FreeMapSector -> j <> m -> j <> k -> F' !! j = F !! j;
  rm_free  : free_bits B' ≡ₚ owned k v ++ free_bits B
}.

Lemma entry_wf_removed e : entry_wf e -> entry_wf (mkDirectoryEntry 0 (padding e) (sector e) 0).
Proof. intros [W1 W2 W3 W4]. split; cbn; auto; lia. Qed.

(** The layout of a header on a disk that still has its index sectors. *)
Lemma layout_header fs fs' h h' blocks : layout fs h blocks -> layout fs' h' blocks -> layout fs' h blocks.
Proof. intros [L1 L2 L3 L4 L5 L6] [M1 M2 M3 M4 M5 M6]. now split. Qed.

(** The invariant after sectors were given back and a file forgotten. *)
Lemma file_system_removed F heap B m vd vm k v F2 B2 :
  file_system F heap B -> bitmap_wf B2 -> numBits B2 = NumSectors -> free_bits B2 ≡ₚ owned k v ++ free_bits B ->
  F !! k = Some v -> F !! m = Some vd -> F !! FreeMapSector = Some vm -> k <> FreeMapSector -> k <> m -> k <> DirectorySector ->
  F2 !! FreeMapSector = Some (mkVfile (vf_blocks vm) (vf_type vm) (vf_visits vm) (map_bytes (map B2))) ->
  (forall j, j <> FreeMapSector -> j <> m -> F2 !! j = F !! j) ->
  (exists fs : FsState, volume fs F) -> (exists d, is_dir F heap DirectorySector d) ->
  (exists w d, F2 !! m = Some w /\ vf_blocks w = vf_blocks vd /\ is_dir (delete k F2) heap m d) ->
  file_system (delete k F2) heap B2.
Proof.
  intros HFS W2 N2 P2 Hk Hvd Hvm Hk0 Hkm Hk1 H20 H2 [fs HV] [dr Hdr] (w & d & Hw & Hwb & Hd).
  assert (Hold : forall j u, delete k F2 !! j = Some u -> j <> k /\ exists u', F !! j = Some u' /\ owned j u' = owned j u).
  { intros j u Hj. apply lookup_delete_Some in Hj as [Hjk Hj]. split; [congruence|].
    destruct (decide (j = FreeMapSector)) as [->|Hj0]; [rewrite H20 in Hj; injection Hj as <-; now exists vm|].
    destruct (decide (j = m)) as [->|Hjm]; [|rewrite H2 in Hj by assumption; now exists u].
    rewrite Hw in Hj. injection Hj as <-. exists vd. unfold owned. now rewrite Hwb. }
  split; auto.
  - eexists. split; [rewrite lookup_delete_ne by congruence; exact H20|reflexivity].
  - intros j u x Hj Hx. destruct (Hold j u Hj) as (Hjk & u' & Hj' & Eo). rewrite <- Eo in Hx. rewrite P2, elem_of_app. intros [Hin|Hin].
    + apply Hjk. exact (vol_disjoint _ _ HV j k u' v x Hj' Hk Hx Hin).
    + exact (fsy_used _ _ _ HFS j u' x Hj' Hx Hin).
  - destruct (decide (m = DirectorySector)) as [->|Hm1]; [now exists d|]. exists dr.
    apply (is_dir_mono F _ heap heap); [exact Hdr| |reflexivity]. rewrite lookup_delete_ne by congruence. apply H2; [discriminate|congruence].
Qed.

Lemma remove_entry_run s F heap B m d o name k v h :
  sys_ok s F heap -> file_system F heap B -> is_dir F heap m d -> hdrSectorNumber o = m ->
  m <> FreeMapSector -> k <> FreeMapSector -> k <> DirectorySector -> k <> m ->
  F !! k = Some v -> layout (sys_fs s) h (vf_blocks v) ->
  exists s' F' B', remove_entry index_junk map_junk buf_junk h (Some name) k d o s = Ok (B', s') /\
    sys_ok s' F' heap /\ file_system F' heap B' /\ removed F heap B m d name k v F' B'.
Proof.
  intros Hs HFS Hd Ho Hm0 Hk0 Hk1 Hkm Hk HL. pose proof HFS as [(vm & Hvm & Hbm) HB1 HB2 Hused [dr Hdr]].
  destruct (new_BitMap_run s) as (b & E1 & Hb1 & Hb2 & _).
  destruct (fetch_freeMap_run s F heap vm B b Hs Hvm Hbm HB1 HB2 Hb1 Hb2) as (s2 & E2 & Hs2).
  destruct (vol_file _ _ (so_volume _ _ _ Hs2) k v Hk) as [h2 Hh2].
  assert (Hlay : layout (sys_fs s2) h (vf_blocks v)) by exact (layout_header _ _ _ _ _ HL (fa_layout _ _ _ _ (fi_at _ _ _ _ Hh2))).
  pose proof (fi_at _ _ _ _ Hh2) as [_ _ A3 _ A5 _].
  destruct (free_file s2 F heap B k v h Hs2 HB1 HB2 Hlay A3 A5 ltac:(intros x; now apply Hused)) as (B1 & B2 & E3 & E4 & W2 & N2 & P2).
  destruct (Remove_run name (mkDirState d heap) (id_wf _ _ _ _ Hd)) as (ds & ER & Hwf5 & Hmap5 & Hheap5 & Hsize5 & HP5). cbn [d_dir d_heap] in *.
  destruct (on_dir_run (Directory.Remove (Some name)) s2 F heap d _ ds Hs2 ER) as (s5 & E5 & Hs5). rewrite Hheap5 in Hs5.
  destruct (write_freeMap_run s5 F heap vm B2 Hs5 Hvm (map_file_length B vm HB1 HB2 Hbm) W2 N2) as (s6 & E6 & Hs6).
  set (vm' := mkVfile _ _ _ (map_bytes (map B2))) in *. set (F1 := <[FreeMapSector := vm']> F) in *.
  destruct (id_file _ _ _ _ Hd) as (vd & Hvd & Hld & _).
  assert (Hvd1 : F1 !! m = Some vd) by (unfold F1; rewrite lookup_insert_ne by congruence; exact Hvd).
  assert (Hten : ten_entries (d_dir ds)).
  { destruct (is_dir_size _ _ _ _ Hd) as [T1 T2]. split; [congruence|]. rewrite <- (dw_size _ Hwf5). congruence. }
  destruct (write_directory_run s6 F1 heap o m vd (d_dir ds) Hs6 Ho Hvd1 Hld Hten) as (o7 & s7 & E7 & _ & Hs7).
  assert (Hd7 : is_dir (<[m := with_table (table (d_dir ds)) vd]> F1) heap m (d_dir ds)).
  { apply is_dir_written; auto; [|destruct ds; cbn in *; now rewrite <- Hheap5].
    apply HP5; [exact (is_dir_entries _ F heap m d (so_volume _ _ _ Hs) Hd)|exact entry_wf_removed]. }
  set (F2 := <[m := with_table (table (d_dir ds)) vd]> F1) in *.
  assert (Hother : forall j, j <> FreeMapSector -> j <> m -> j <> k -> delete k F2 !! j = F !! j).
  { intros j H0 H1 H2. unfold F2, F1. now rewrite lookup_delete_ne, !lookup_insert_ne by congruence. }
  assert (Hdm : is_dir (delete k F2) heap m (d_dir ds)).
  { apply (is_dir_mono F2 _ heap heap); [exact Hd7|now rewrite lookup_delete_ne|reflexivity]. }
  exists s7, (delete k F2), B2. split; [|split; [|split]].
  - unfold remove_entry. mstep_by E1. mstep_by E2. mstep_by E3. cbn [snd]. mstep_by E4. cbn [snd]. mstep_by E5. cbn [snd].
    mstep_by E6. now mstep_by E7.
  - destruct Hs7. split; auto. now apply volume_delete.
  - apply (file_system_removed F heap B m vd vm k v F2 B2); auto.
    + unfold F2, F1. rewrite lookup_insert_ne by congruence. apply lookup_insert_eq.
    + intros j H0 H1. unfold F2, F1. now rewrite !lookup_insert_ne by congruence.
    + exists (sys_fs s). exact (so_volume _ _ _ Hs).
    + now exists dr.
    + exists (with_table (table (d_dir ds)) vd), (d_dir ds). unfold F2 at 1. rewrite lookup_insert_eq. auto.
  - split; auto.
    + apply lookup_delete_eq.
    + exists (d_dir ds). split; [exact Hdm|]. rewrite <- Hmap5. unfold dir_map. cbn [d_dir d_heap]. now rewrite Hheap5.
Qed.

Lemma is_dir_visits F heap k v x n d : F !! k = Some v -> is_dir F heap n d -> is_dir (<[k := with_visits x v]> F) heap n d.
Proof.
  intros Hk [(w & Hw & Hl & Ed) Hwf]. split; [|exact Hwf]. destruct (decide (k = n)) as [->|Hne].
  - exists (with_visits x v). rewrite lookup_insert_eq. replace w with v in * by congruence. auto.
  - exists w. rewrite lookup_insert_ne by exact Hne. auto.
Qed.

Lemma file_system_visits F heap B k v x : F !! k = Some v -> file_system F heap B -> file_system (<[k := with_visits x v]> F) heap B.
Proof.
  intros Hk [(vm & Hvm & Hbm) HB1 HB2 Hused [dr Hdr]]. split; auto.
  - destruct (decide (k = FreeMapSector)) as [->|Hne].
    + exists (with_visits x v). rewrite lookup_insert_eq. split; [reflexivity|]. cbn. congruence.
    + exists vm. rewrite lookup_insert_ne by exact Hne. auto.
  - intros n w y Hn Hy. destruct (decide (k = n)) as [->|Hne].
    + rewrite lookup_insert_eq in Hn. injection Hn as <-. now apply (Hused n v).
    + rewrite lookup_insert_ne in Hn by exact Hne. now apply (Hused n w).
  - exists dr. now apply is_dir_visits.
Qed.

Lemma print_run s F heap x : sys_ok s F heap -> exists s', print x s = Ok (tt, s') /\ sys_ok s' F heap /\ sys_fs s' = sys_fs s.
Proof. intros [S1 S2 S3]. eexists. split; [reflexivity|]. now split. Qed.

Lemma show_map_run s F heap B : sys_ok s F heap -> bitmap_wf B -> exists s', show_map B s = Ok (tt, s') /\ sys_ok s' F heap.
Proof.
  intros Hs HB. destruct (print_run s F heap (MsgMap (filter (fun i => bit B i = true) (seqZ 0 (numBits B)))) Hs) as (s' & E & Hs' & _).
  exists s'. split; [|exact Hs']. unfold show_map. rewrite (mthen_step _ _ s (_, B) s) by (unfold on_bits; now rewrite BitMap_Print_spec). exact E.
Qed.

Abbreviation remove := (Remove index_junk map_junk buf_junk table_junk).

(** The common part: the entry's header is fetched. *)
Lemma Remove_start s F heap B path m d entry k v :
  sys_ok s F heap -> file_system F heap B -> fits path -> locates F heap path m entry -> is_dir F heap m d ->
  entry_sector d heap entry = Some k -> k <> -1 -> F !! k = Some v -> vf_type v = 0 ->
  exists o s1 h, hdrSectorNumber o = m /\ sys_ok s1 (<[k := with_visits (i32 (vf_visits v - 1)) v]> F) heap /\
    layout (sys_fs s1) (h_visits (i32 (vf_visits v - 1)) h) (vf_blocks v) /\
    forall fuel, remove (S fuel) path s =
      (if negb (vf_visits v =? 1) then print (MsgRemoved false) >>> mreturn false
       else
         let! mp := remove_entry index_junk map_junk buf_junk (h_visits (i32 (vf_visits v - 1)) h) entry k d o in
         print (MsgRemoved true) >>> show_map mp >>> mreturn true) s1.
Proof.
  intros Hs HFS Hfit Hl Hd Hk Hk1 Hv Hty. destruct (fsy_root _ _ _ HFS) as [dr Hdr].
  destruct (getFileName_locates s F heap path m d entry Hs (is_dir_file _ _ _ _ Hdr) Hl Hd Hfit) as (o & s1 & E1 & Ho & Hs1).
  destruct (Find_entry s1 F heap m d entry Hs1 Hd) as (s2 & E2 & Hs2). rewrite Hk in E2.
  destruct (FetchFrom_run s2 F heap k v Hs2 Hv) as (h & s3 & E3 & Hh & Hs3).
  destruct (print_run s3 F heap (MsgVisits (vf_visits v)) Hs3) as (s4 & E4 & Hs4 & Efs).
  assert (Hh4 : file_is (sys_fs s4) k v h) by (rewrite Efs; exact Hh).
  destruct (WriteBack_visits s4 F heap k v h (i32 (vf_visits v - 1)) Hs4 Hv Hh4 (i32_range _)) as (s5 & E5 & Hs5).
  exists o, s5, h. split; [exact Ho|]. split; [exact Hs5|]. split.
  - destruct (vol_file _ _ (so_volume _ _ _ Hs5) k _ (lookup_insert_eq _ _ _)) as [h5 Hh5].
    pose proof (fa_layout _ _ _ _ (fi_at _ _ _ _ Hh5)) as L5. cbn [with_visits vf_blocks] in L5.
    apply (layout_header (sys_fs s4) _ _ h5); [|exact L5].
    apply (layout_same_sectors (sys_fs s4) _ h); [reflexivity..|]. exact (fa_layout _ _ _ _ (fi_at _ _ _ _ Hh4)).
  - intros fuel. cbn [Remove]. mstep_by (copy_name_run path s Hfit). mstep_by E1. mstep_by E2. cbn [fst].
    change (default (-1) (Some k)) with k. rewrite (proj2 (Z.eqb_neq k (-1)) Hk1). mstep_by E3.
    rewrite (fi_type _ _ _ _ Hh), Hty. cbn [Z.eqb]. rewrite (fi_visits _ _ _ _ Hh). mstep_by E4. mstep_by E5. reflexivity.
Qed.

Lemma Remove_busy_run s F heap B path m d entry k v :
  sys_ok s F heap -> file_system F heap B -> fits path -> locates F heap path m entry -> is_dir F heap m d ->
  entry_sector d heap entry = Some k -> k <> -1 -> F !! k = Some v -> vf_type v = 0 -> vf_visits v <> 1 ->
  exists s', (forall fuel, remove (S fuel) path s = Ok (false, s')) /\
    sys_ok s' (<[k := with_visits (i32 (vf_visits v - 1)) v]> F) heap.
Proof.
  intros Hs HFS Hfit Hl Hd Hk Hk1 Hv Hty Hvis.
  destruct (Remove_start s F heap B path m d entry k v Hs HFS Hfit Hl Hd Hk Hk1 Hv Hty) as (o & s1 & h & _ & Hs1 & _ & E).
  destruct (print_run s1 _ heap (MsgRemoved false) Hs1) as (s2 & E2 & Hs2 & _).
  exists s2. split; [|exact Hs2]. intros fuel. rewrite E. rewrite (proj2 (Z.eqb_neq _ _) Hvis). cbn [negb]. now mstep_by E2.
Qed.

Lemma Remove_file_run s F heap B path m d name k v :
  sys_ok s F heap -> file_system F heap B -> fits path -> locates F heap path m (Some name) -> is_dir F heap m d ->
  dir_map (mkDirState d heap) !! name = Some k -> F !! k = Some v -> vf_type v = 0 -> vf_visits v = 1 ->
  m <> FreeMapSector -> k <> FreeMapSector -> k <> DirectorySector -> k <> m ->
  exists s' F' B', (forall fuel, remove (S fuel) path s = Ok (true, s')) /\
    sys_ok s' F' heap /\ file_system F' heap B' /\ removed F heap B m d name k v F' B'.
Proof.
  intros Hs HFS Hfit Hl Hd Hk Hv Hty Hvis Hm0 Hk0 Hk1 Hkm.
  assert (Hkr : 0 <= k < NumSectors).
  { destruct (vol_file _ _ (so_volume _ _ _ Hs) k v Hv) as [h Hh]. apply (fa_range _ _ _ _ (fi_at _ _ _ _ Hh)). }
  destruct (Remove_start s F heap B path m d (Some name) k v Hs HFS Hfit Hl Hd Hk ltac:(lia) Hv Hty) as (o & s1 & h & Ho & Hs1 & HL & E).
  set (x := i32 (vf_visits v - 1)) in *. set (F1 := <[k := with_visits x v]> F) in *.
  destruct (remove_entry_run s1 F1 heap B m d o name k (with_visits x v) (h_visits x h) Hs1) as (s2 & F2 & B2 & E2 & Hs2 & HFS2 & [R1 R2 R3 R4]); auto.
  { now apply file_system_visits. }
  { now apply is_dir_visits. }
  { apply lookup_insert_eq. }
  destruct (print_run s2 F2 heap (MsgRemoved true) Hs2) as (s3 & E3 & Hs3 & _).
  destruct (show_map_run s3 F2 heap B2 Hs3 (fsy_wf _ _ _ HFS2)) as (s4 & E4 & Hs4).
  exists s4, F2, B2. split; [|split; [exact Hs4|split; [exact HFS2|]]].
  - intros fuel. rewrite E, Hvis. change (negb (1 =? 1)) with false. cbn match. mstep_by E2. mstep_by E3. mstep_by E4. reflexivity.
  - split; auto. intros j J0 Jm Jk. rewrite R3 by assumption. unfold F1. now rewrite lookup_insert_ne by congruence.
Qed.

(** * Formatting *)
Lemma hdr_of_bytes_wf bs : is_sector bs -> hdr_wf (hdr_of_bytes bs).
Proof.
  intros Hb. destruct (ints_of_bytes_ok bs Hb) as [Hl Hi]. unfold hdr_of_bytes. set (l := ints_of_bytes 32 bs) in *.
  assert (Hd : forall i, is_i32 (default 0 l.[i])).
  { intros i. destruct (l.[i]) as [x|] eqn:E; cbn; [exact (zlookup_Forall _ _ _ _ Hi E)|unfold is_i32; lia]. }
  split; cbn [hdr_of_ints primaryIndexTable].
  - rewrite length_slice; [reflexivity|lia|discriminate|change NumDirect with 25; lia].
  - unfold hdr_ints. cbn [hdr_of_ints createTime lastVisitTime lastWriteTime fileType primaryIndexTable numVisits numBytes numSectors app].
    repeat (apply Forall_cons; split; [apply Hd|]). apply Forall_app. split.
    + unfold slice. apply Forall_take, Forall_drop, Hi.
    + repeat (apply Forall_cons; split; [apply Hd|]). constructor.
Qed.

(** Two sectors marked, the other 1022 free. *)
Lemma format_map : exists b, new_BitMap map_junk = (fun s => Ok (b, s)) /\ exists B0 B,
  (forall s, on_bits b (BitMap_Mark FreeMapSector) s = Ok ((tt, B0), s)) /\
  (forall s, on_bits B0 (BitMap_Mark DirectorySector) s = Ok ((tt, B), s)) /\
  bitmap_wf B /\ numBits B = NumSectors /\ free_bits B = seqZ 2 1022.
Proof.
  destruct (BitMap_ctor NumSectors map_junk) as (b & E & W & N & Z0); [discriminate|rewrite map_junk_length; reflexivity|exact map_junk_words|].
  exists b. split; [unfold new_BitMap, of_res; now rewrite E|].
  destruct (BitMap_Mark_spec b FreeMapSector W) as (B0 & E0 & W0 & S0 & H0); [now rewrite N|].
  destruct (BitMap_Mark_spec B0 DirectorySector W0) as (B & E1 & W1 & S1 & H1); [destruct S0; now replace (numBits B0) with NumSectors by congruence|].
  exists B0, B. split; [intros s; unfold on_bits; now rewrite E0|]. split; [intros s; unfold on_bits; now rewrite E1|].
  split; [exact W1|]. split; [destruct S0, S1; congruence|].
  rewrite (Mark_free_bits B0 B _ S1 H1), (Mark_free_bits b B0 _ S0 H0). unfold free_bits. rewrite N.
  rewrite (filter_all (fun i => bit b i = false)).
  - vm_compute. reflexivity.
  - apply Forall_forall. intros i Hi. apply elem_of_seqZ in Hi. apply Z0. lia.
Qed.

Lemma on_disk_step {A} (m : M FsState A) s a fs' :
  m (sys_fs s) = Ok (a, fs') ->
  on_disk m s = Ok (a, mkSysState fs' (sys_heap s) (freeMapFile s) (directoryFile s) (sys_log s)).
Proof. intros E. unfold on_disk. now rewrite E. Qed.

Lemma new_Directory_raw s : fs_wf (sys_fs s) -> exists s', new_Directory table_junk s = Ok (fresh_dir, s') /\ fs_wf (sys_fs s') /\ sys_heap s' = sys_heap s.
Proof.
  intros Hwf. destruct (fs_sector_exists (sys_fs s) 1 Hwf) as (bs & E & Hb); [split; [lia|reflexivity]|].
  pose proof (hdr_of_bytes_wf bs Hb) as Hh. set (t := time_at (fs_time_calls (sys_fs s))).
  set (h := h_visited t (hdr_of_bytes bs)). set (fs1 := fs_tick (sys_fs s)).
  assert (Hwf1 : fs_wf fs1) by now apply fs_wf_tick. set (fs2 := with_sectors (<[Z.to_nat 1 := hdr_bytes h]> (fs_sectors fs1)) fs1).
  assert (Hwf2 : fs_wf fs2).
  { apply fs_wf_write; [exact Hwf1|]. apply hdr_bytes_sector, hdr_wf_visited; [apply time_at_int|exact Hh]. }
  exists (mkSysState fs2 (sys_heap s) (freeMapFile s) (directoryFile s) (sys_log s)).
  split; [|split; [exact Hwf2|reflexivity]]. apply on_disk_step.
  unfold Directory_Directory. rewrite (mthen_step _ _ _ (hdr_of_bytes bs) (sys_fs s)).
  2:{ unfold FileHdr.FetchFrom. now mstep_by (fs_ReadSector_run 1 _ bs ltac:(split; [lia|reflexivity]) E). }
  mstep_to t fs1. fold h. unfold FileHdr.WriteBack.
  mstep_by (fs_WriteSector_run 1 (hdr_bytes h) fs1 Hwf1 ltac:(split; [lia|reflexivity])). reflexivity.
Qed.

(** A header written over a file that was laid out but has no header yet. *)
Lemma file_is_new fs fs' n h h' blocks bs :
  layout fs h blocks -> same_file h h' -> 0 <= numBytes h <= SectorSize * numSectors h ->
  (forall x, x ∈ sectors_of blocks -> (fs_sectors fs').[x] = (fs_sectors fs).[x]) ->
  (fs_sectors fs').[n] = Some (hdr_bytes h') -> 0 <= n < NumSectors -> (n ∉ sectors_of blocks) ->
  bs = file_bytes fs' h' blocks -> file_is fs' n (mkVfile blocks (fileType h') (numVisits h') bs) h'.
Proof.
  intros L [S1 S2 S3 S4] Hsz Hx En Hn Hnb ->. split; cbn; auto. split; auto.
  - apply (layout_same_sectors fs' fs' h); auto. now apply (layout_frame fs).
  - now rewrite S3, S4.
Qed.

Lemma same_file_stamped t t' h : is_i32 t -> is_i32 t' -> hdr_wf h -> same_file h (h_written t' (h_visited t h)).
Proof.
  intros Ht Ht' Hw. apply (hdr_wf_visited t) in Hw as [W1 W2]; [|exact Ht]. split; try reflexivity. split; [exact W1|].
  unfold hdr_ints in *. cbn in *. repeat match goal with H : Forall _ (_ :: _) |- _ => apply Forall_cons in H as [? H] end. auto 8.
Qed.

(** The two system files after their headers were written. *)
Lemma format_volume fs h1 h2 blocks1 blocks2 t1 t2 t3 t4 :
  fs_wf fs -> layout fs h1 blocks1 -> layout fs h2 blocks2 -> hdr_wf h1 -> hdr_wf h2 ->
  0 <= numBytes h1 <= SectorSize * numSectors h1 -> 0 <= numBytes h2 <= SectorSize * numSectors h2 ->
  sectors_of blocks1 = [2; 3] -> sectors_of blocks2 = [4; 5] -> is_i32 t1 -> is_i32 t2 -> is_i32 t3 -> is_i32 t4 ->
  let m := h_written t3 (h_visited t1 h1) in
  let r := h_written t4 (h_visited t2 h2) in
  exists fs' bs1 bs2, (FileHdr.WriteBack m FreeMapSector >>> FileHdr.WriteBack r DirectorySector) fs = Ok (tt, fs') /\
    volume fs' (<[FreeMapSector := mkVfile blocks1 (fileType h1) (numVisits h1) bs1]>
                 (<[DirectorySector := mkVfile blocks2 (fileType h2) (numVisits h2) bs2]> ∅)) /\
    Z.of_nat (length bs1) = numBytes h1 /\ Z.of_nat (length bs2) = numBytes h2.
Proof.
  intros Hfs L1 L2 W1 W2 Z1 Z2 O1 O2 T1 T2 T3 T4 m r.
  assert (Sm : same_file h1 m) by now apply same_file_stamped.
  assert (Sr : same_file h2 r) by now apply same_file_stamped.
  assert (R0 : 0 <= FreeMapSector < NumSectors) by (split; [discriminate|reflexivity]).
  assert (R1 : 0 <= DirectorySector < NumSectors) by (split; [discriminate|reflexivity]).
  set (fs1 := with_sectors (<[Z.to_nat FreeMapSector := hdr_bytes m]> (fs_sectors fs)) fs).
  assert (Hfs1 : fs_wf fs1) by (apply fs_wf_write; [exact Hfs|apply hdr_bytes_sector, Sm]).
  set (fs2 := with_sectors (<[Z.to_nat DirectorySector := hdr_bytes r]> (fs_sectors fs1)) fs1).
  assert (Hfs2 : fs_wf fs2) by (apply fs_wf_write; [exact Hfs1|apply hdr_bytes_sector, Sr]).
  assert (Hout : forall x, x <> FreeMapSector -> x <> DirectorySector -> (fs_sectors fs2).[x] = (fs_sectors fs).[x]).
  { intros x X0 X1. unfold fs2. cbn [fs_sectors with_sectors]. rewrite zlookup_insert_ne by (lia || congruence).
    unfold fs1. cbn [fs_sectors with_sectors]. apply zlookup_insert_ne; [lia|congruence]. }
  assert (Fm : file_is fs2 FreeMapSector (mkVfile blocks1 (fileType h1) (numVisits h1) (file_bytes fs2 m blocks1)) m).
  { apply (file_is_new fs fs2 FreeMapSector h1 m); auto.
    - intros x Hx. rewrite O1 in Hx. apply Hout; intros ->; revert Hx; apply (bool_decide_unpack _); reflexivity.
    - unfold fs2. cbn [fs_sectors with_sectors]. rewrite zlookup_insert_ne by (lia || discriminate).
      unfold fs1. cbn [fs_sectors with_sectors]. apply zlookup_insert_eq. now rewrite (fw_length _ Hfs).
    - rewrite O1. apply (bool_decide_unpack _). reflexivity. }
  assert (Fr : file_is fs2 DirectorySector (mkVfile blocks2 (fileType h2) (numVisits h2) (file_bytes fs2 r blocks2)) r).
  { apply (file_is_new fs fs2 DirectorySector h2 r); auto.
    - intros x Hx. rewrite O2 in Hx. apply Hout; intros ->; revert Hx; apply (bool_decide_unpack _); reflexivity.
    - unfold fs2. cbn [fs_sectors with_sectors]. apply zlookup_insert_eq. now rewrite (fw_length _ Hfs1).
    - rewrite O2. apply (bool_decide_unpack _). reflexivity. }
  exists fs2, (file_bytes fs2 m blocks1), (file_bytes fs2 r blocks2). split; [|split; [|split]].
  - unfold FileHdr.WriteBack. mstep_by (fs_WriteSector_run FreeMapSector (hdr_bytes m) fs Hfs R0).
    exact (fs_WriteSector_run DirectorySector (hdr_bytes r) fs1 Hfs1 R1).
  - assert (HF : forall n v, <[FreeMapSector := mkVfile blocks1 (fileType h1) (numVisits h1) (file_bytes fs2 m blocks1)]>
        (<[DirectorySector := mkVfile blocks2 (fileType h2) (numVisits h2) (file_bytes fs2 r blocks2)]> (∅ : gmap Z vfile)) !! n = Some v ->
        (n = FreeMapSector /\ v = mkVfile blocks1 (fileType h1) (numVisits h1) (file_bytes fs2 m blocks1)) \/
        (n = DirectorySector /\ v = mkVfile blocks2 (fileType h2) (numVisits h2) (file_bytes fs2 r blocks2))).
    { intros n v Hn. apply lookup_insert_Some in Hn as [[<- <-]|[_ Hn]]; [now left|].
      apply lookup_insert_Some in Hn as [[<- <-]|[_ Hn]]; [now right|]. now rewrite lookup_empty in Hn. }
    split; [exact Hfs2| |].
    + intros n v Hn. destruct (HF n v Hn) as [[-> ->]|[-> ->]]; eauto.
    + intros a b va vb x Ha Hb Hxa Hxb.
      assert (Hdis : x ∈ FreeMapSector :: [2; 3] -> x ∈ DirectorySector :: [4; 5] -> False).
      { intros X1 X2. repeat (apply elem_of_cons in X1 as [->|X1]; [revert X2; apply (bool_decide_unpack _); reflexivity|]). inversion X1. }
      rewrite <- O1, <- O2 in Hdis.
      destruct (HF a va Ha) as [[-> ->]|[-> ->]], (HF b vb Hb) as [[-> ->]|[-> ->]]; try reflexivity; exfalso; now apply Hdis.
  - exact (length_file_bytes fs2 _ m blocks1 Hfs2 (fi_at _ _ _ _ Fm)).
  - exact (length_file_bytes fs2 _ r blocks2 Hfs2 (fi_at _ _ _ _ Fr)).
Qed.

Lemma seqZ_split m n m' n' :
  n = 2 + n' -> m' = m + 2 -> 0 <= n' -> take 2 (seqZ m n) = seqZ m 2 /\ drop 2 (seqZ m n) = seqZ m' n'.
Proof.
  intros -> -> Hn. rewrite seqZ_app by lia. split; [apply take_app_length'|apply drop_app_length']; rewrite length_seqZ; reflexivity.
Qed.

(** Laying out the two system files: sectors 2 and 3, then 4 and 5. *)
Lemma format_alloc fs B :
  fs_wf fs -> bitmap_wf B -> numBits B = NumSectors -> free_bits B = seqZ 2 1022 ->
  exists st1 st2 blocks1 blocks2,
    Allocate index_junk FreeMapFileSize 1 (mkFhState hdr_junk B fs) = Ok (true, st1) /\
    Allocate index_junk DirectoryFileSize 1 (mkFhState hdr_junk (fh_map st1) (fh_fs st1)) = Ok (true, st2) /\
    fs_wf (fh_fs st2) /\ layout (fh_fs st2) (fh_hdr st1) blocks1 /\ layout (fh_fs st2) (fh_hdr st2) blocks2 /\
    hdr_wf (fh_hdr st1) /\ hdr_wf (fh_hdr st2) /\
    (numBytes (fh_hdr st1) = 128 /\ numSectors (fh_hdr st1) = 1) /\ (numBytes (fh_hdr st2) = 120 /\ numSectors (fh_hdr st2) = 1) /\
    sectors_of blocks1 = [2; 3] /\ sectors_of blocks2 = [4; 5] /\
    bitmap_wf (fh_map st2) /\ numBits (fh_map st2) = NumSectors /\ free_bits (fh_map st2) = seqZ 6 1018.
Proof.
  intros Hfs HB1 HB2 Hfree.
  destruct (Allocate_success index_junk index_junk_length index_junk_ints FreeMapFileSize 1 (mkFhState hdr_junk B fs) HB1 HB2 Hfs
    (hw_table _ hdr_junk_wf) ltac:(discriminate)) as (st1 & blocks1 & E1 & [L1 L2 L3 L4 L5 L6 L7 L8 L9 L10]);
    [cbn [fh_map]; rewrite Hfree; vm_compute; discriminate|discriminate|].
  cbn [fh_map fh_fs fh_hdr] in *. rewrite Hfree in L6.
  assert (C1 : length (sectors_of blocks1) = 2%nat) by (apply Nat2Z.inj; rewrite (length_sectors_of _ _ (lay_shape _ _ _ L1)), L3; reflexivity).
  rewrite C1 in L6, L7. destruct L7 as [M1 [M2 _] M3]. rewrite Hfree, (proj2 (seqZ_split 2 1022 4 1020 eq_refl eq_refl ltac:(lia))) in M3.
  rewrite (proj1 (seqZ_split 2 1022 4 1020 eq_refl eq_refl ltac:(lia))) in L6. change (seqZ 2 2) with [2; 3] in L6.
  destruct (Allocate_success index_junk index_junk_length index_junk_ints DirectoryFileSize 1 (mkFhState hdr_junk (fh_map st1) (fh_fs st1)) M1
    ltac:(cbn [fh_map]; congruence) L8 (hw_table _ hdr_junk_wf) ltac:(discriminate)) as (st2 & blocks2 & E2 & [K1 K2 K3 K4 K5 K6 K7 K8 K9 K10]);
    [cbn [fh_map]; rewrite M3; vm_compute; discriminate|discriminate|].
  cbn [fh_map fh_fs fh_hdr] in *. rewrite M3 in K6.
  assert (C2 : length (sectors_of blocks2) = 2%nat) by (apply Nat2Z.inj; rewrite (length_sectors_of _ _ (lay_shape _ _ _ K1)), K3; reflexivity).
  rewrite C2 in K6, K7. destruct K7 as [P1 [P2 _] P3]. rewrite M3, (proj2 (seqZ_split 4 1020 6 1018 eq_refl eq_refl ltac:(lia))) in P3.
  rewrite (proj1 (seqZ_split 4 1020 6 1018 eq_refl eq_refl ltac:(lia))) in K6. change (seqZ 4 2) with [4; 5] in K6.
  assert (Hi : is_i32 FreeMapFileSize /\ is_i32 DirectoryFileSize /\ is_i32 1) by (repeat split; discriminate || reflexivity).
  exists st1, st2, blocks1, blocks2. destruct Hi as (I1 & I2 & I3). split_and!; auto; try congruence.
  - apply (layout_frame (fh_fs st1)); [|exact L1]. intros x Hx. rewrite L6 in Hx. apply K9.
    + apply elem_of_cons in Hx as [->|Hx]; [lia|]. apply elem_of_cons in Hx as [->|Hx]; [lia|inversion Hx].
    + rewrite K6. apply elem_of_cons in Hx as [->|Hx]; [apply (bool_decide_unpack _); reflexivity|].
      apply elem_of_cons in Hx as [->|Hx]; [apply (bool_decide_unpack _); reflexivity|inversion Hx].
  - split; [apply L1|]. apply L10; auto. apply hdr_junk_wf.
  - split; [apply K1|]. apply K10; auto. apply hdr_junk_wf.
Qed.

Lemma on_header_step {A} h b (m : M FhState A) s a st :
  m (mkFhState h b (sys_fs s)) = Ok (a, st) ->
  on_header h b m s = Ok ((a, (fh_hdr st, fh_map st)), mkSysState (fh_fs st) (sys_heap s) (freeMapFile s) (directoryFile s) (sys_log s)).
Proof. intros E. unfold on_header. now rewrite E. Qed.

(** What the constructor does when nothing is printed: a map that marks the
    six sectors of the system files, and an empty root directory. *)
Definition formatted F heap B : Prop :=
  file_system F heap B /\ free_bits B = seqZ 6 1018 /\
  exists d, is_dir F heap DirectorySector d /\ dir_map (mkDirState d heap) = ∅.

(** The last part: opening the two files and writing them. *)
Lemma format_files s B vm vd :
  let F := <[FreeMapSector := vm]> (<[DirectorySector := vd]> ∅) in
  volume (sys_fs s) F -> length (vf_bytes vm) = 128%nat -> length (vf_bytes vd) = 120%nat ->
  sectors_of (vf_blocks vm) = [2; 3] -> sectors_of (vf_blocks vd) = [4; 5] ->
  bitmap_wf B -> numBits B = NumSectors -> free_bits B = seqZ 6 1018 ->
  exists s' F', (let! f := new_OpenFile FreeMapSector in
              set_freeMapFile f >>>
              let! f := new_OpenFile DirectorySector in
              set_directoryFile f >>>
              write_freeMap index_junk map_junk buf_junk B >>>
              let! w := write_directory index_junk map_junk buf_junk fresh_dir f in
              set_directoryFile w.2) s = Ok (tt, s') /\
    sys_ok s' F' (sys_heap s) /\ formatted F' (sys_heap s) B /\ hdrSectorNumber (directoryFile s') = DirectorySector.
Proof.
  intros F HV Lm Ld Om Od W N Hfree. set (heap := sys_heap s).
  assert (Hm : F !! FreeMapSector = Some vm) by apply lookup_insert_eq.
  assert (Hd : F !! DirectorySector = Some vd) by (unfold F; rewrite lookup_insert_ne by discriminate; apply lookup_insert_eq).
  destruct (OpenFile_volume (sys_fs s) F FreeMapSector vm HV Hm) as (o1 & fs1 & E1 & O1 & _ & HV1).
  set (s1 := mkSysState fs1 heap o1 (directoryFile s) (sys_log s)).
  assert (Hs1 : sys_ok s1 F heap) by now split.
  destruct (new_OpenFile_run s1 F heap DirectorySector vd Hs1 Hd) as (o2 & s2 & E2 & O2 & [V2 H2 M2]).
  set (s3 := mkSysState (sys_fs s2) (sys_heap s2) (freeMapFile s2) o2 (sys_log s2)).
  assert (Hs3 : sys_ok s3 F heap) by now split.
  destruct (write_freeMap_run s3 F heap vm B Hs3 Hm Lm W N) as (s4 & E4 & Hs4).
  set (F1 := <[FreeMapSector := _]> F) in Hs4.
  assert (Hd1 : F1 !! DirectorySector = Some vd) by (unfold F1; rewrite lookup_insert_ne by discriminate; exact Hd).
  destruct (fresh_dir_empty heap) as (T1 & T2 & T3 & T4).
  destruct (write_directory_run s4 F1 heap o2 DirectorySector vd fresh_dir Hs4 O2 Hd1 ltac:(rewrite Ld; discriminate) T1) as (o5 & s5 & E5 & O5 & Hs5).
  pose proof (is_dir_written F1 heap DirectorySector vd fresh_dir Hd1 ltac:(rewrite Ld; discriminate) T1 T2 T3) as Hdir.
  set (F2 := <[DirectorySector := _]> F1) in *.
  exists (mkSysState (sys_fs s5) (sys_heap s5) (freeMapFile s5) o5 (sys_log s5)), F2. split; [|split; [|split; [|exact O5]]].
  - unfold new_OpenFile at 1. mstep_by (on_disk_step _ s _ _ E1). mstep_to tt s1. mstep_by E2. mstep_to tt s3. mstep_by E4. mstep_by E5. reflexivity.
  - destruct Hs5. now split.
  - split; [|split; [exact Hfree|exists fresh_dir; auto]]. split; auto.
    + eexists. split; [unfold F2, F1; rewrite lookup_insert_ne by discriminate; apply lookup_insert_eq|reflexivity].
    + intros n v x Hn Hx Hin. rewrite Hfree in Hin. apply elem_of_seqZ in Hin.
      assert (Hx6 : x < 6); [|lia]. unfold F2, F1 in Hn.
      apply lookup_insert_Some in Hn as [[<- <-]|[_ Hn]]; [|apply lookup_insert_Some in Hn as [[<- <-]|[_ Hn]];
        [|unfold F in Hn; apply lookup_insert_Some in Hn as [[<- <-]|[_ Hn]]; [|apply lookup_insert_Some in Hn as [[<- <-]|[_ Hn]]; [|now rewrite lookup_empty in Hn]]]];
        unfold owned in Hx; cbn [with_table vf_blocks] in Hx; rewrite ?Om, ?Od in Hx;
        repeat (apply elem_of_cons in Hx as [->|Hx]; [unfold FreeMapSector, DirectorySector; lia|]); inversion Hx.
    + now exists fresh_dir.
Qed.

Lemma format_run s :
  fs_wf (sys_fs s) ->
  exists s' F B, FileSystem_FileSystem index_junk map_junk buf_junk table_junk hdr_junk true false s = Ok (tt, s') /\
    sys_ok s' F (sys_heap s) /\ formatted F (sys_heap s) B /\ hdrSectorNumber (directoryFile s') = DirectorySector.
Proof.
  intros Hfs. destruct format_map as (b & Eb & B0 & B & EM0 & EM1 & W & N & Hfree).
  destruct (new_Directory_raw s Hfs) as (s1 & E1 & Hfs1 & Hh1).
  destruct (format_alloc (sys_fs s1) B Hfs1 W N Hfree) as
    (st1 & st2 & blocks1 & blocks2 & A1 & A2 & Hfs2 & L1 & L2 & W1 & W2 & [Z1 Z1'] & [Z2 Z2'] & O1 & O2 & WB & NB & FB).
  set (s2 := mkSysState (fh_fs st1) (sys_heap s1) (freeMapFile s1) (directoryFile s1) (sys_log s1)).
  set (s3 := mkSysState (fh_fs st2) (sys_heap s1) (freeMapFile s1) (directoryFile s1) (sys_log s1)).
  set (t1 := time_at (fs_time_calls (fh_fs st2))). set (f1 := fs_tick (fh_fs st2)).
  set (t2 := time_at (fs_time_calls f1)). set (f2 := fs_tick f1).
  set (t3 := time_at (fs_time_calls f2)). set (f3 := fs_tick f2).
  set (t4 := time_at (fs_time_calls f3)). set (f4 := fs_tick f3).
  assert (Hf4 : fs_wf f4) by (do 4 apply fs_wf_tick; exact Hfs2).
  assert (L1' : layout f4 (fh_hdr st1) blocks1) by now apply (layout_same_sectors (fh_fs st2) _ (fh_hdr st1)).
  assert (L2' : layout f4 (fh_hdr st2) blocks2) by now apply (layout_same_sectors (fh_fs st2) _ (fh_hdr st2)).
  destruct (format_volume f4 (fh_hdr st1) (fh_hdr st2) blocks1 blocks2 t1 t2 t3 t4 Hf4 L1' L2' W1 W2) as (f5 & bs1 & bs2 & EW & HV & B1 & B2);
    try apply time_at_int; auto; [rewrite Z1, Z1'; unfold SectorSize; lia|rewrite Z2, Z2'; unfold SectorSize; lia|].
  apply mthen_Ok in EW as ([] & f4' & EW1 & EW2).
  set (st := fun f => mkSysState f (sys_heap s1) (freeMapFile s1) (directoryFile s1) (sys_log s1)).
  destruct (format_files (st f5) (fh_map st2) _ _ HV) as (s' & F' & EF & Hs' & Hform & Hdf); auto; cbn [vf_bytes]; [lia|lia|].
  exists s', F', (fh_map st2). rewrite <- Hh1. split; [|auto].
  unfold FileSystem_FileSystem. rewrite (mthen_step _ _ s b s) by now rewrite Eb. mstep_by E1. mstep_by (EM0 s1). cbn [snd]. mstep_by (EM1 s1). cbn [snd].
  mstep_by (on_header_step hdr_junk B _ s1 true st1 A1). cbn [fst snd]. mstep_to tt (st (fh_fs st1)).
  mstep_by (on_header_step hdr_junk (fh_map st1) _ (st (fh_fs st1)) true st2 A2). cbn [fst snd]. mstep_to tt (st (fh_fs st2)).
  mstep_to t1 (st f1). mstep_to t2 (st f2). mstep_to t3 (st f3). mstep_to t4 (st f4).
  mstep_by (on_disk_step _ (st f4) tt f4' EW1). mstep_by (on_disk_step _ (st f4') tt f5 EW2). fold (st f5).
  apply mthen_Ok in EF as (o1 & q1 & Q1 & EF). mstep_by Q1. apply mthen_Ok in EF as ([] & q2 & Q2 & EF). mstep_by Q2.
  apply mthen_Ok in EF as (o3 & q3 & Q3 & EF). mstep_by Q3. apply mthen_Ok in EF as ([] & q4 & Q4 & EF). mstep_by Q4.
  apply mthen_Ok in EF as ([] & q5 & Q5 & EF). mstep_by Q5. apply mthen_Ok in EF as (w & q6 & Q6 & EF). mstep_by Q6.
  now mstep_by EF.
Qed.

Lemma Create_exists_run s F heap B path m d entry k size ty :
  sys_ok s F heap -> file_system F heap B -> fits path -> locates F heap path m entry -> is_dir F heap m d ->
  entry_sector d heap entry = Some k -> k <> -1 ->
  exists s', Create index_junk map_junk buf_junk table_junk hdr_junk path size ty s = Ok (false, s') /\ sys_ok s' F heap.
Proof.
  intros Hs HFS Hfit Hl Hd Hk Hk1. destruct (fsy_root _ _ _ HFS) as [dr Hdr].
  destruct (getFileName_locates s F heap path m d entry Hs (is_dir_file _ _ _ _ Hdr) Hl Hd Hfit) as (o & s1 & E1 & Ho & Hs1).
  destruct (Find_entry s1 F heap m d entry Hs1 Hd) as (s2 & E2 & Hs2). rewrite Hk in E2.
  exists s2. split; [|exact Hs2]. unfold Create. mstep_by (copy_name_run path s Hfit). mstep_by E1. mstep_by E2.
  cbn [fst]. change (default (-1) (Some k)) with k. now rewrite (proj2 (Z.eqb_neq k (-1)) Hk1).
Qed.

(** * Properties *)

(** C32: Formatting any disk gives an empty file system: the free map on disk
    marks the six sectors of the two system files and no other, and the root
    directory has no entries. *)
Theorem FileSystem_format s :
  fs_wf (sys_fs s) ->
  exists s' F B, FileSystem_FileSystem index_junk map_junk buf_junk table_junk hdr_junk true false s = Ok (tt, s') /\
    sys_ok s' F (sys_heap s) /\ formatted F (sys_heap s) B /\ hdrSectorNumber (directoryFile s') = DirectorySector.
Proof. apply format_run. Qed.

(** C31: Path lookup.  A name without a slash is an entry of the root; in
    c0/c1/.../cn the directories c1, ..., c(n-1) are entered in turn from the root
    and cn is the name that is left, or the null pointer if one of the directories
    is missing.  The files on disk stay as they are. *)
Theorem getFileName_resolves s F heap path m d entry :
  sys_ok s F heap -> is_Some (F !! DirectorySector) -> locates F heap path m entry -> is_dir F heap m d -> fits path ->
  exists o s', getFileName buf_junk table_junk path s = Ok ((entry, d, o), s') /\ hdrSectorNumber o = m /\ sys_ok s' F heap.
Proof. apply getFileName_locates. Qed.

(** C3: Creating a file.  In a directory that has room and not the name yet, on a
    disk with enough free sectors, Create makes a file of the size and type asked
    for, with its header in the first free sector, and enters it under its name;
    a new directory is empty.  Exactly the sectors of the file are taken from the
    free map, no other file changes, and the file system stays consistent: on
    disk, every sector of a file is marked and no two files share one.  A name
    that exists is refused and nothing changes. *)
Theorem Create_adds s F heap B path m d name size ty :
  sys_ok s F heap -> file_system F heap B -> fits path -> locates F heap path m (Some name) -> is_dir F heap m d ->
  m <> FreeMapSector -> 0 <= size -> is_i32 size -> is_i32 ty -> (ty = 1 -> DirectoryFileSize <= size) ->
  divRoundUp (divRoundUp size SectorSize) 32 <= NumDirect ->
  (forall p n rest, dir_map (mkDirState d heap) !! name = None ->
     Z.of_nat (base.size (dir_map (mkDirState d heap))) < NumDirEntries ->
     new_chars heap (Z.of_nat (length name) + 1) = Some p -> free_bits B = n :: rest ->
     sectors_needed size <= Z.of_nat (length rest) ->
     exists s' F' B', Create index_junk map_junk buf_junk table_junk hdr_junk path size ty s = Ok (true, s') /\
       sys_ok s' F' (<[p := name]> heap) /\ file_system F' (<[p := name]> heap) B' /\
       created F heap B m d name n size ty F' (<[p := name]> heap) B') /\
  (forall k, dir_map (mkDirState d heap) !! name = Some k -> k <> -1 ->
     exists s', Create index_junk map_junk buf_junk table_junk hdr_junk path size ty s = Ok (false, s') /\ sys_ok s' F heap).
Proof.
  intros Hs HFS Hfit Hl Hd Hm0 Hsz Hszi Hty Hdt Hidx. split.
  - intros p n rest Hnone Hroom Hp Hfree Hspace. now apply (Create_run s F heap B path m d name p n rest size ty).
  - intros k Hk Hk1. now apply (Create_exists_run s F heap B path m d (Some name) k).
Qed.

(** Creating a file in a directory that does not exist stops the program: the
    null pointer that getFileName leaves is copied as a name. *)
Theorem Create_no_directory s F heap B path m d n rest size ty :
  sys_ok s F heap -> file_system F heap B -> fits path -> locates F heap path m None -> is_dir F heap m d ->
  Z.of_nat (base.size (dir_map (mkDirState d heap))) < NumDirEntries -> free_bits B = n :: rest ->
  Create index_junk map_junk buf_junk table_junk hdr_junk path size ty s = Err BadAccess.
Proof.
  intros Hs HFS Hfit Hl Hd Hroom Hfree. pose proof HFS as [_ HB1 HB2 _ _].
  destruct (Create_start s F heap B path m d None size ty Hs HFS Hfit Hl Hd eq_refl) as (o & s1 & Ho & [S1 S2 S3] & E1). rewrite E1.
  destruct (BitMap_Find_cons B n rest HB1 Hfree) as (B1 & EF & _ & _ & _ & Hnr & _).
  rewrite (mthen_step _ _ s1 (n, B1) s1) by (unfold on_bits; now rewrite EF). cbn [fst snd].
  rewrite (proj2 (Z.eqb_neq n (-1))) by lia. apply mthen_fail. unfold on_dir. rewrite S2.
  rewrite Add_null; [reflexivity|apply Hd|]. cbn [d_dir]. now rewrite (proj1 (is_dir_size _ _ _ _ Hd)).
Qed.

(** Opening a file returns an OpenFile on the header sector of its entry, with
    the visit count on disk one higher; nothing else changes. *)
Theorem Open_existing s F heap path m d name k v :
  sys_ok s F heap -> is_Some (F !! DirectorySector) -> fits path -> locates F heap path m (Some name) -> is_dir F heap m d ->
  dir_map (mkDirState d heap) !! name = Some k -> 0 <= k -> F !! k = Some v ->
  exists o s', Open buf_junk table_junk path s = Ok (o, s') /\ hdrSectorNumber o = k /\
    sys_ok s' (<[k := with_visits (i32 (vf_visits v + 1)) v]> F) heap.
Proof.
  intros Hs Hr Hfit Hl Hd Hk Hk0 Hv.
  destruct (Open_found_run s F heap path m d (Some name) k v Hs Hr Hfit Hl Hd Hk Hk0 Hv) as (o & s' & E & Ho & _ & Hs'). eauto.
Qed.

(** C40: Opening a file that does not exist, or in a directory that does not,
    does not return the null pointer: the caller gets the directory's own file. *)
Theorem Open_missing s F heap path m d entry :
  sys_ok s F heap -> is_Some (F !! DirectorySector) -> fits path -> locates F heap path m entry -> is_dir F heap m d ->
  (forall name, entry = Some name -> dir_map (mkDirState d heap) !! name = None) ->
  exists o s', Open buf_junk table_junk path s = Ok (o, s') /\ hdrSectorNumber o = m /\ sys_ok s' F heap.
Proof.
  intros Hs Hr Hfit Hl Hd Hk. apply (Open_missing_run s F heap path m d entry); auto.
  destruct entry as [n|]; [now apply Hk|reflexivity].
Qed.

(** C6: Removing a file.  When its visit count is one, the entry and the file are
    gone, exactly the file's sectors (header, index, data) are free again, no
    other file changes and the file system stays consistent.  With any other
    count the file stays, but its count goes down by one. *)
Theorem Remove_file s F heap B path m d name k v fuel :
  sys_ok s F heap -> file_system F heap B -> fits path -> locates F heap path m (Some name) -> is_dir F heap m d ->
  dir_map (mkDirState d heap) !! name = Some k -> F !! k = Some v -> vf_type v = 0 ->
  m <> FreeMapSector -> k <> FreeMapSector -> k <> DirectorySector -> k <> m ->
  (vf_visits v = 1 ->
   exists s' F' B', Remove index_junk map_junk buf_junk table_junk (S fuel) path s = Ok (true, s') /\
     sys_ok s' F' heap /\ file_system F' heap B' /\ removed F heap B m d name k v F' B') /\
  (vf_visits v <> 1 ->
   exists s', Remove index_junk map_junk buf_junk table_junk (S fuel) path s = Ok (false, s') /\
     sys_ok s' (<[k := with_visits (i32 (vf_visits v - 1)) v]> F) heap).
Proof.
  intros Hs HFS Hfit Hl Hd Hk Hv Hty Hm0 Hk0 Hk1 Hkm. split; intros Hvis.
  - destruct (Remove_file_run s F heap B path m d name k v Hs HFS Hfit Hl Hd Hk Hv Hty Hvis Hm0 Hk0 Hk1 Hkm) as (s' & F' & B' & E & H1 & H2 & H3).
    exists s', F', B'. auto.
  - assert (Hkr : 0 <= k < NumSectors).
    { destruct (vol_file _ _ (so_volume _ _ _ Hs) k v Hv) as [h Hh]. apply (fa_range _ _ _ _ (fi_at _ _ _ _ Hh)). }
    destruct (Remove_busy_run s F heap B path m d (Some name) k v Hs HFS Hfit Hl Hd Hk ltac:(lia) Hv Hty Hvis) as (s' & E & H1). eauto.
Qed.
End run_lemmas.

(** * Concrete runs: a blank disk is formatted, a file "a" of 200 bytes is created *)
Definition sample_memory : HostMemory.
Proof. refine {| usable n := n + 16 |}. intros n Hn. lia. Defined.
#[local] Existing Instance sample_memory.
#[local] Existing Instance sample_alloc.
#[local] Existing Instance sample_time.

Definition sample_words : list Z := replicate 32 5.
Definition sample_table (n : Z) : list DirectoryEntry := replicate (Z.to_nat n) no_entry.
Definition once_visited : FileHeader := mkFileHeader 0 0 0 0 (replicate 25 0) 1 0 0.
Definition blank_sys : SysState := mkSysState sample_fs ∅ one_file one_file [].

Lemma sample_words_ok : Forall is_word sample_words.
Proof. apply Forall_replicate. unfold is_word. lia. Defined.
Lemma sample_table_length n : 0 <= n -> Z.of_nat (length (sample_table n)) = n.
Proof. intros Hn. unfold sample_table. rewrite length_replicate. lia. Defined.
Lemma sample_table_wf n : Forall entry_wf (sample_table n).
Proof. apply Forall_replicate. split; cbn; unfold is_i32; lia. Defined.
Lemma once_visited_wf : hdr_wf once_visited.
Proof. split; [reflexivity|]. cbn. repeat (apply Forall_cons; split; [unfold is_i32; lia|]). constructor. Defined.

Lemma FileSystem_format_witness :
  exists s' F B, FileSystem_FileSystem sample_junk sample_words zero_junk sample_table once_visited true false blank_sys = Ok (tt, s') /\
    sys_ok s' F ∅ /\ formatted F ∅ B /\ hdrSectorNumber (directoryFile s') = DirectorySector.
Proof.
  exact (FileSystem_format sample_junk sample_words zero_junk sample_table once_visited zero_junk_length zero_junk_bytes
    sample_table_length eq_refl sample_junk_ints eq_refl sample_words_ok once_visited_wf sample_table_wf blank_sys sample_fs_wf).
Defined.

(** The state after formatting. *)
Lemma formatted_sys : exists s F B, sys_ok s F ∅ /\ formatted F ∅ B.
Proof.
  destruct (format_run sample_junk sample_words zero_junk sample_table once_visited zero_junk_length zero_junk_bytes
    sample_table_length eq_refl sample_junk_ints eq_refl sample_words_ok once_visited_wf sample_table_wf blank_sys sample_fs_wf)
    as (s & F & B & _ & Hs & Hf & _). eauto.
Defined.

Lemma short_name_fits (path : cstring) : fits path.
Proof. unfold fits. cbn. lia. Defined.
Lemma no_slash_a : no_slash [97].
Proof. apply (bool_decide_unpack _). reflexivity. Defined.
Lemma no_slash_b : no_slash [98].
Proof. apply (bool_decide_unpack _). reflexivity. Defined.

(** "b" is no entry of an empty root; "x/b/c" needs a directory "b". *)
Lemma missing_path F heap d :
  is_dir F heap DirectorySector d -> dir_map (mkDirState d heap) !! [98] = None ->
  locates F heap ([97] ++ slash :: path_tail ([] ++ [98] :: []) [97]) DirectorySector None.
Proof.
  intros Hd Hn. apply (loc_missing F heap [97] [] DirectorySector d [98] [] [97]); auto.
  - exact no_slash_a.
  - exact no_slash_b.
  - constructor.
Defined.

Lemma getFileName_resolves_witness : exists s F d o s', sys_ok s F ∅ /\ is_dir F ∅ DirectorySector d /\
  getFileName zero_junk sample_table [97] s = Ok ((Some [97], d, o), s') /\ hdrSectorNumber o = DirectorySector.
Proof.
  destruct formatted_sys as (s & F & B & Hs & HFS & Hfree & d & Hd & Hm).
  destruct (getFileName_resolves zero_junk sample_table zero_junk_length sample_table_length s F ∅ [97] DirectorySector d (Some [97]) Hs
    (is_dir_file _ _ _ _ Hd) (loc_plain F ∅ [97] no_slash_a) Hd (short_name_fits _)) as (o & s' & E & Ho & _).
  exists s, F, d, o, s'. auto.
Defined.

(** What is needed to create "a" on the formatted disk. *)
Lemma root_room heap d : dir_map (mkDirState d heap) = ∅ ->
  dir_map (mkDirState d heap) !! [97] = None /\ Z.of_nat (base.size (dir_map (mkDirState d heap))) < NumDirEntries.
Proof. intros ->. rewrite lookup_empty, map_size_empty. split; [reflexivity|reflexivity]. Defined.
Lemma enough_free B : free_bits B = seqZ 6 1018 ->
  free_bits B = 6 :: seqZ 7 1017 /\ sectors_needed 200 <= Z.of_nat (length (seqZ 7 1017)).
Proof.
  intros ->. rewrite length_seqZ. split; [|discriminate]. rewrite (seqZ_cons 6 1018) by lia. reflexivity.
Defined.

Lemma Create_adds_witness : exists s F B d s' F' B', sys_ok s F ∅ /\
  Create sample_junk sample_words zero_junk sample_table once_visited [97] 200 0 s = Ok (true, s') /\
  created once_visited F ∅ B DirectorySector d [97] 6 200 0 F' {[16 := [97]]} B'.
Proof.
  destruct formatted_sys as (s & F & B & Hs & HFS & Hfree & d & Hd & Hm).
  destruct (root_room ∅ d Hm) as [Hn Hr]. destruct (enough_free B Hfree) as [Hf Hsp].
  destruct (proj1 (Create_adds sample_junk sample_words zero_junk sample_table once_visited zero_junk_length zero_junk_bytes
    sample_table_length eq_refl sample_junk_ints eq_refl sample_words_ok once_visited_wf sample_table_wf s F ∅ B [97] DirectorySector d [97] 200 0
    Hs HFS (short_name_fits _) (loc_plain F ∅ [97] no_slash_a) Hd ltac:(discriminate) ltac:(discriminate) ltac:(split; [discriminate|reflexivity])
    ltac:(split; [discriminate|reflexivity]) ltac:(discriminate) ltac:(discriminate)) 16 6 (seqZ 7 1017) Hn Hr ltac:(reflexivity) Hf Hsp)
    as (s' & F' & B' & E & Hs' & HFS' & Hc).
  exists s, F, B, d, s', F', B'. auto.
Defined.

(** The state after "a" was created. *)
Lemma created_sys : exists s F B d v, sys_ok s F {[16 := [97]]} /\ file_system F {[16 := [97]]} B /\
  is_dir F {[16 := [97]]} DirectorySector d /\ dir_map (mkDirState d {[16 := [97]]}) !! [97] = Some 6 /\
  F !! 6 = Some v /\ vf_type v = 0 /\ vf_visits v = 1 /\ Z.of_nat (length (vf_bytes v)) = 200 /\
  Z.of_nat (length (data_of (vf_blocks v))) = 2 /\ length (free_bits B) = 1014%nat.
Proof.
  destruct formatted_sys as (s & F & B & Hs & HFS & Hfree & d & Hd & Hm).
  destruct (root_room ∅ d Hm) as [Hn Hr]. destruct (enough_free B Hfree) as [Hf Hsp].
  destruct (Create_run sample_junk sample_words zero_junk sample_table once_visited zero_junk_length zero_junk_bytes
    sample_table_length eq_refl sample_junk_ints eq_refl sample_words_ok once_visited_wf sample_table_wf s F ∅ B [97] DirectorySector d [97] 16 6 (seqZ 7 1017) 200 0
    Hs HFS (short_name_fits _) (loc_plain F ∅ [97] no_slash_a) Hd ltac:(discriminate) Hn Hr ltac:(reflexivity) Hf ltac:(discriminate)
    ltac:(split; [discriminate|reflexivity]) ltac:(split; [discriminate|reflexivity]) ltac:(discriminate) Hsp ltac:(discriminate))
    as (s' & F' & B' & E & Hs' & HFS' & [(v & Hv & Ht & Hvis & Hl & Hds) (d' & Hd' & Hm') _ _ Hfr]).
  assert (length (free_bits B') = 1014%nat) by (rewrite Hfr, Hfree, length_drop, length_seqZ; reflexivity).
  exists s', F', B', d', v. split; [exact Hs'|]. split; [exact HFS'|]. split; [exact Hd'|]. split; [|auto 8].
  change {[16 := [97]]} with (<[16 := [97]]> (∅ : Heap)). rewrite Hm'. apply lookup_insert_eq.
Defined.

Lemma Create_no_directory_witness : exists s F, sys_ok s F ∅ /\
  Create sample_junk sample_words zero_junk sample_table once_visited ([97] ++ slash :: path_tail ([] ++ [98] :: []) [97]) 200 0 s = Err BadAccess.
Proof.
  destruct formatted_sys as (s & F & B & Hs & HFS & Hfree & d & Hd & Hm).
  destruct (root_room ∅ d Hm) as [Hn Hr]. destruct (enough_free B Hfree) as [Hf Hsp].
  exists s, F. split; [exact Hs|].
  apply (Create_no_directory sample_junk sample_words zero_junk sample_table once_visited zero_junk_length sample_table_length eq_refl
    eq_refl sample_words_ok s F ∅ B _ DirectorySector d 6 (seqZ 7 1017) 200 0 Hs HFS (short_name_fits _)).
  - apply (missing_path F ∅ d Hd). rewrite Hm. apply lookup_empty.
  - exact Hd.
  - exact Hr.
  - exact Hf.
Defined.

Lemma Open_existing_witness : exists s F heap o s', sys_ok s F heap /\
  Open zero_junk sample_table [97] s = Ok (o, s') /\ hdrSectorNumber o = 6.
Proof.
  destruct created_sys as (s & F & B & d & v & Hs & HFS & Hd & Hm & Hv & Ht & Hvis & _).
  destruct (Open_existing zero_junk sample_table zero_junk_length sample_table_length s F {[16 := [97]]} [97] DirectorySector d [97] 6 v Hs
    (is_dir_file _ _ _ _ Hd) (short_name_fits _) (loc_plain F _ [97] no_slash_a) Hd Hm ltac:(lia) Hv) as (o & s' & E & Ho & _).
  exists s, F, {[16 := [97]]}, o, s'. auto.
Defined.

Lemma Open_missing_witness : exists s F o s', sys_ok s F ∅ /\
  Open zero_junk sample_table [97] s = Ok (o, s') /\ hdrSectorNumber o = DirectorySector.
Proof.
  destruct formatted_sys as (s & F & B & Hs & HFS & Hfree & d & Hd & Hm).
  destruct (Open_missing zero_junk sample_table zero_junk_length sample_table_length s F ∅ [97] DirectorySector d (Some [97]) Hs
    (is_dir_file _ _ _ _ Hd) (short_name_fits _) (loc_plain F _ [97] no_slash_a) Hd) as (o & s' & E & Ho & _).
  - intros n [= <-]. exact (proj1 (root_room ∅ d Hm)).
  - exists s, F, o, s'. auto.
Defined.

Lemma Remove_file_witness : exists s F B s' F' B' d v heap, sys_ok s F heap /\
  Remove sample_junk sample_words zero_junk sample_table 1 [97] s = Ok (true, s') /\
  removed F heap B DirectorySector d [97] 6 v F' B'.
Proof.
  destruct created_sys as (s & F & B & d & v & Hs & HFS & Hd & Hm & Hv & Ht & Hvis & _).
  destruct (proj1 (Remove_file sample_junk sample_words zero_junk sample_table zero_junk_length zero_junk_bytes sample_table_length eq_refl
    eq_refl sample_words_ok s F {[16 := [97]]} B [97] DirectorySector d [97] 6 v 0 Hs HFS (short_name_fits _) (loc_plain F _ [97] no_slash_a) Hd Hm Hv Ht
    ltac:(discriminate) ltac:(discriminate) ltac:(discriminate) ltac:(discriminate)) Hvis) as (s' & F' & B' & E & _ & _ & Hr).
  exists s, F, B, s', F', B', d, v, {[16 := [97]]}. auto.
Defined.
