(* ===== verification/Extend.v ===== *)
(** WriteAt behind the end of a file (filesys/openfile.cc, the branch that calls
    ExtendAllocate of filesys/filehdr.cc), on the disk as a set of files.

    The operations are those of [OpenFile] and [FileHdr]; this file follows one
    call through both: the free map is fetched from its file, sectors are taken
    in the copy, the longer header goes to disk and the bytes are written.  The
    copy of the map does not go back to disk, and the theorems say what that
    leaves behind. *)
From Stdlib Require Import ZArith Lia.
From stdpp Require Import base option list list_numbers gmap sets.
From S2P Require Import Prelude Disk BitMap Sectors FileHdr OpenFile Volume Directory FileSys.

Local Open Scope Z_scope.

Section layout_facts.
Implicit Types (fs : FsState) (v : vfile) (h : FileHeader) (F : gmap Z vfile).

(** The same tables on another disk that holds the same index sectors. *)
Lemma layout_moved fs fs' h h' blocks : layout fs h blocks -> layout fs' h' blocks -> layout fs' h blocks.
Proof. intros [L1 L2 L3 L4 L5 L6] L'. split; auto. apply L'. Qed.

Lemma hdr_wf_sizes nb ns t h :
  hdr_wf h -> is_i32 nb -> is_i32 ns -> Forall is_i32 t -> length t = length (primaryIndexTable h) ->
  hdr_wf (h_sizes nb ns (h_table t h)).
Proof.
  intros [W1 W2] Hnb Hns Ht Hl. split; [cbn; lia|]. destruct h. unfold hdr_ints in *. cbn in *.
  repeat match goal with H : Forall _ (_ :: _) |- _ => apply Forall_cons in H as [? H] end.
  apply Forall_app in W2 as [_ W2]. repeat match goal with H : Forall _ (_ :: _) |- _ => apply Forall_cons in H as [? H] end.
  repeat (apply Forall_cons; split; [assumption|]). apply Forall_app. split; [exact Ht|]. auto.
Qed.

Lemma hdr_wf_written t h : is_i32 t -> hdr_wf h -> hdr_wf (h_written t h).
Proof.
  intros Ht [W1 W2]. split; [exact W1|]. unfold hdr_ints in *. cbn in *.
  repeat match goal with H : Forall _ (_ :: _) |- _ => apply Forall_cons in H as [? H] end. auto 8.
Qed.

(** More sectors behind those a file has: its bytes come first. *)
Lemma file_bytes_extended fs fs' h h' blocks blocks' new :
  contents_of fs' blocks = contents_of fs blocks -> data_of blocks' = data_of blocks ++ new ->
  0 <= numBytes h <= numBytes h' -> numBytes h <= Z.of_nat (length (contents_of fs blocks)) ->
  exists gap, file_bytes fs' h' blocks' = file_bytes fs h blocks ++ gap.
Proof.
  intros Hc Hd Hn Hl. unfold file_bytes, slice. change (Z.to_nat 0) with 0%nat. rewrite !drop_0.
  assert (E : contents_of fs' blocks' = contents_of fs blocks ++ (new ≫= (fun d => default [] (fs_sectors fs').[d]))).
  { rewrite <- Hc. unfold contents_of. rewrite Hd. apply bind_app. }
  rewrite E. exists (drop (Z.to_nat (numBytes h)) (take (Z.to_nat (numBytes h')) (contents_of fs blocks ++ (new ≫= (fun d => default [] (fs_sectors fs').[d]))))).
  rewrite <- (take_drop (Z.to_nat (numBytes h)) (take (Z.to_nat (numBytes h')) _)) at 1. f_equal.
  rewrite take_take, Nat.min_l by lia. apply take_app_le. lia.
Qed.

Lemma index_in_sectors blocks q : q ∈ fst <$> blocks -> q ∈ sectors_of blocks.
Proof. intros Hq. apply list_elem_of_fmap in Hq as (b & -> & Hb). apply list_elem_of_bind. exists b. split; [left|exact Hb]. Qed.

Lemma index_apart_data fs h blocks d : layout fs h blocks -> d ∈ data_of blocks -> d ∉ fst <$> blocks.
Proof. intros L Hd Hi. apply list_elem_of_fmap in Hi as (b & -> & Hb). exact (index_not_data fs h blocks b b.1 L Hb Hd eq_refl). Qed.

(** One file gets more sectors, all unowned before. *)
Lemma volume_grow fs fs' F n v v' h' :
  volume fs F -> F !! n = Some v -> fs_wf fs' -> file_is fs' n v' h' ->
  (forall x, x ∈ owned n v' -> x ∈ owned n v \/ (forall m w, F !! m = Some w -> x ∉ owned m w)) ->
  (forall x, 0 <= x -> (x ∉ owned n v') -> (fs_sectors fs').[x] = (fs_sectors fs).[x]) ->
  volume fs' (<[n := v']> F).
Proof.
  intros HV Hn Hwf Hf Hnew Hout. rewrite <- insert_delete_eq.
  apply (volume_add fs fs' (delete n F) n v' h'); auto using volume_delete; [apply lookup_delete_eq|].
  intros m w x Hm Hx Hx'. apply lookup_delete_Some in Hm as [Hne Hm].
  destruct (Hnew x Hx') as [Ho|Ho]; [|exact (Ho m w Hm Hx)]. exact (owned_elsewhere _ _ _ _ _ _ _ HV Hn Hm Hne Ho Hx).
Qed.
End layout_facts.

Section extension.
Context {HT : HostTime}.
Variables (index_junk map_junk : list Z) (buf_junk : Z -> list Z).
Hypothesis buf_junk_length : forall n, 0 <= n -> Z.of_nat (length (buf_junk n)) = n.
Hypothesis buf_junk_bytes : forall n, Forall is_byte (buf_junk n).
Hypothesis index_junk_length : length index_junk = 32%nat.
Hypothesis index_junk_ints : Forall is_i32 index_junk.
Hypothesis map_junk_length : length map_junk = 32%nat.
Hypothesis map_junk_words : Forall is_word map_junk.
Implicit Types (fs : FsState) (v : vfile) (h : FileHeader) (F : gmap Z vfile) (heap : Heap) (B : BitMap) (o : OpenFile).

(** The free map as the extension reads it: a copy of the one on disk. *)
Lemma copy_map_run fs F heap B :
  volume fs F -> file_system F heap B ->
  exists b o1 fs1 o2 fs2, BitMap_BitMap NumSectors map_junk = Ok b /\
    OpenFile_OpenFile 0 fs = Ok (o1, fs1) /\ with_file o1 (BitMap_FetchFrom buf_junk b) fs1 = Ok ((B, o2), fs2) /\
    volume fs2 F.
Proof.
  intros HV [(vm & Hvm & Hbm) HB1 HB2 _ _].
  destruct (BitMap_ctor NumSectors map_junk) as (b & E & Hb1 & Hb2 & _);
    [discriminate|now rewrite map_junk_length|exact map_junk_words|].
  destruct (OpenFile_volume fs F 0 vm HV Hvm) as (o1 & fs1 & E1 & Ho1 & _ & HV1).
  destruct (BitMap_FetchFrom_volume buf_junk buf_junk_length fs1 F o1 0 vm b HV1 Ho1 Hvm (map_file_length index_junk map_junk index_junk_length map_junk_length B vm HB1 HB2 Hbm) Hb2 Hb1)
    as (o2 & fs2 & E2 & _ & HV2).
  exists b, o1, fs1, o2, fs2. split; [exact E|]. split; [exact E1|]. split; [|exact HV2].
  unfold with_file. rewrite E2, Hbm, map_of_map_bytes by assumption. reflexivity.
Qed.

Lemma sectors_in_use F heap B n v fs h :
  file_system F heap B -> F !! n = Some v -> layout fs h (vf_blocks v) -> in_use B (sectors_of (vf_blocks v)).
Proof.
  intros HFS Hn L. apply Forall_forall. intros x Hx. destruct (bit B x) eqn:E; [reflexivity|]. exfalso.
  apply (fsy_used _ _ _ HFS n v x Hn); [now right|]. apply elem_of_free_bits. split; [exact E|].
  rewrite (fsy_bits _ _ _ HFS). exact (proj1 (Forall_forall _ _) (lay_range _ _ _ L) x Hx).
Qed.

(** The size of a file in sectors. *)
Definition data_sectors v : Z := Z.of_nat (length (data_of (vf_blocks v))).

Lemma numSectors_data fs h v : layout fs h (vf_blocks v) -> numSectors h = data_sectors v.
Proof. intros L. destruct (shaped_length _ _ (lay_shape _ _ _ L)) as [_ H]. unfold data_sectors. lia. Qed.

(** The header of a file that has grown, once it is on disk. *)
Lemma grown_file fs F heap B n v h st' extra m k blocks' :
  volume fs F -> file_system F heap B -> F !! n = Some v -> hdr_wf h -> layout fs h (vf_blocks v) ->
  numBytes h = Z.of_nat (length (vf_bytes v)) -> 0 <= extra -> numBytes h + extra < 2 ^ 31 ->
  grown extra m k (mkFhState h B fs) st' (vf_blocks v) blocks' ->
  let h' := fh_hdr st' in
  let fs' := with_sectors (<[Z.to_nat n := hdr_bytes h']> (fs_sectors (fh_fs st'))) (fh_fs st') in
  fs_wf fs' /\ file_at fs' n h' blocks' /\ (exists gap, file_bytes fs' h' blocks' = vf_bytes v ++ gap) /\
  (forall x, 0 <= x -> (x ∉ n :: sectors_of blocks') -> (fs_sectors fs').[x] = (fs_sectors fs).[x]).
Proof.
  intros HV HFS Hn Hh L Hnb He Hov [G1 G2 G3 G4 [new G5] G6 G7 G8 G9 G10 [t G11]] h' fs'. cbn [fh_hdr fh_map fh_fs] in *.
  destruct (vol_file _ _ HV n v Hn) as [h0 [[F1 F2 F3 F4 F5 F6] _ _ Hb]].
  pose proof (file_sectors_bound _ _ _ G1) as Hns. fold h' in G1, G2, G3, G10, G11, Hns.
  assert (Hh' : hdr_wf h').
  { rewrite G11. apply hdr_wf_sizes; auto; try (unfold is_i32; lia).
    - destruct Hh as [_ Hi]. unfold hdr_ints in Hi. rewrite G11 in G10. cbn in G10. apply G10.
      repeat (apply Forall_cons in Hi as [_ Hi]). now apply Forall_app in Hi as [Hi _].
    - pose proof (lay_table _ _ _ G1) as Ht. rewrite G11 in Ht. cbn in Ht. destruct Hh. lia. }
  assert (Hfree : forall x, x ∈ take k (free_bits B) -> x ∈ free_bits B).
  { intros x Hx. apply elem_of_take in Hx as (i & Hi & _). eapply list_elem_of_lookup_2, Hi. }
  assert (Hown : forall x, x ∈ owned n v -> x ∉ take k (free_bits B)).
  { intros x Hx Ht. exact (fsy_used _ _ _ HFS n v x Hn Hx (Hfree x Ht)). }
  assert (Hn' : n ∉ sectors_of blocks').
  { rewrite G6. intros Hx. apply elem_of_app in Hx as [Hx|Hx]; [exact (F5 Hx)|]. apply (Hown n); [left|exact Hx]. }
  assert (Hfs' : fs_wf fs') by (apply fs_wf_write; [exact G9|now apply hdr_bytes_sector]).
  assert (Hkeep : forall x, 0 <= x -> x <> n -> (fs_sectors fs').[x] = (fs_sectors (fh_fs st')).[x])
    by (intros x Hx Hne; cbn; apply zlookup_insert_ne; [lia|congruence]).
  split; [exact Hfs'|]. split; [|split].
  - split; auto; [cbn; apply zlookup_insert_eq; now rewrite (fw_length _ G9)| |unfold SectorSize in *; lia].
    apply (layout_frame (fh_fs st')); [|exact G1]. intros x Hx. apply Hkeep; [|intros ->; contradiction].
    exact (proj1 (proj1 (Forall_forall _ _) (lay_range _ _ _ G1) x Hx)).
  - rewrite <- Hb. apply (file_bytes_extended fs fs' h0 h' (vf_blocks v) blocks' new); auto.
    + apply contents_frame. intros x Hx. pose proof (data_in_sectors _ _ Hx) as Hs.
      assert (0 <= x) by exact (proj1 (proj1 (Forall_forall _ _) (lay_range _ _ _ F4) x Hs)).
      rewrite Hkeep by (auto; intros ->; exact (F5 Hs)). apply G8; [assumption|exact (index_apart_data _ _ _ _ F4 Hx)|].
      apply Hown. now right.
    + pose proof (length_file_bytes fs n h0 (vf_blocks v) (vol_wf _ _ HV)) as Hl. rewrite Hb in Hl. rewrite Hl in Hnb; [lia|now split].
    + rewrite (length_contents fs h0) by (auto; apply HV). unfold SectorSize in F6. lia.
  - intros x Hx Hnx. apply not_elem_of_cons in Hnx as [Hne Hnx]. rewrite Hkeep by auto. rewrite G6 in Hnx.
    apply not_elem_of_app in Hnx as [Hn1 Hn2]. apply G8; [exact Hx| |exact Hn2]. intros Hi. now apply Hn1, index_in_sectors.
Qed.

(** extend_file up to the result of ExtendAllocate on the copy of the map. *)
Lemma extend_file_start fs F heap B o extra :
  volume fs F -> file_system F heap B ->
  exists fs2, volume fs2 F /\ forall ok st',
    ExtendAllocate index_junk extra (mkFhState (hdr o) B fs2) = Ok (ok, st') ->
    extend_file index_junk map_junk buf_junk extra (mkOfState o fs) =
      (if ok then do_fs (FileHdr.WriteBack (fh_hdr st') (hdrSectorNumber o)) >>> mreturn true else mreturn false)
        (mkOfState (mkOpenFile (fh_hdr st') (hdrSectorNumber o) (seekPosition o)) (fh_fs st')).
Proof.
  intros HV HFS. destruct (copy_map_run fs F heap B HV HFS) as (b & o1 & fs1 & o2 & fs2 & Eb & E1 & E2 & HV2).
  exists fs2. split; [exact HV2|]. intros ok st' E3. unfold extend_file. rewrite Eb.
  rewrite (mthen_step _ _ _ o1 (mkOfState o fs1)) by (unfold do_fs; cbn [of_fs of_file]; now rewrite E1).
  rewrite (mthen_step _ _ _ (B, o2) (mkOfState o fs2)) by (unfold do_fs; cbn [of_fs of_file]; now rewrite E2).
  mstep_to (mkOfState o fs2) (mkOfState o fs2). cbn [fst of_file of_fs]. rewrite E3. reflexivity.
Qed.

(** extend_file with room on the disk and in the index table. *)
Lemma extend_file_run fs F heap B n v h o extra :
  volume fs F -> file_system F heap B -> F !! n = Some v -> file_is fs n v h -> same_file h (hdr o) ->
  hdrSectorNumber o = n -> 0 < extra ->
  let nb := Z.of_nat (length (vf_bytes v)) in
  let ns := data_sectors v in
  let k := extra_taken nb ns extra in
  nb + extra < 2 ^ 31 -> (k <= length (free_bits B))%nat ->
  divRoundUp (extra_sectors nb ns extra + ns) 32 <= NumDirect ->
  exists fs2 h' fs' blocks' gap,
    extend_file index_junk map_junk buf_junk extra (mkOfState o fs) =
      Ok (true, mkOfState (mkOpenFile h' n (seekPosition o)) fs') /\
    volume fs2 F /\ fs_wf fs' /\ file_at fs' n h' blocks' /\ numBytes h' = nb + extra /\
    fileType h' = fileType (hdr o) /\ numVisits h' = numVisits (hdr o) /\
    file_bytes fs' h' blocks' = vf_bytes v ++ gap /\
    sectors_of blocks' ≡ₚ sectors_of (vf_blocks v) ++ take k (free_bits B) /\
    (forall x, 0 <= x -> (x ∉ n :: sectors_of blocks') -> (fs_sectors fs').[x] = (fs_sectors fs2).[x]).
Proof.
  intros HV HFS Hn Hf [S1 S2 S3 S4] Ho He nb ns k Hov Hk Hidx.
  destruct (extend_file_start fs F heap B o extra HV HFS) as (fs2 & HV2 & Estart).
  pose proof Hf as [[F1 F2 F3 F4 F5 F6] _ _ _].
  assert (Enb : numBytes (hdr o) = nb) by (rewrite S3; symmetry; exact (length_vf_bytes _ _ _ _ (vol_wf _ _ HV) Hf)).
  assert (Ens : numSectors (hdr o) = ns) by (rewrite S4; exact (numSectors_data _ _ _ F4)).
  destruct (vol_file _ _ HV2 n v Hn) as [h2 [Ha2 _ _ _]].
  assert (L : layout fs2 (hdr o) (vf_blocks v)).
  { apply (layout_moved fs fs2 _ h2); [|apply Ha2]. now apply (layout_same_sectors fs fs h). }
  destruct (ExtendAllocate_run index_junk index_junk_length index_junk_ints (mkFhState (hdr o) B fs2) (vf_blocks v) extra)
    as (st' & blocks' & E3 & G); cbn [fh_hdr fh_map fh_fs]; rewrite ?Enb, ?Ens; auto.
  { apply (fsy_wf _ _ _ HFS). } { apply (fsy_bits _ _ _ HFS). } { apply HV2. } { exact (sectors_in_use _ _ _ _ _ _ _ HFS Hn L). }
  { rewrite <- Enb, <- Ens, S3, S4. exact F6. }
  cbn [fh_hdr fh_map fh_fs] in G. rewrite Enb, Ens in G. fold k in G.
  destruct (grown_file fs2 F heap B n v (hdr o) st' extra _ k blocks' HV2 HFS Hn S1 L Enb ltac:(lia) ltac:(lia) G)
    as (Hfs' & Ha' & [gap Hgap] & Hout).
  set (h' := fh_hdr st') in *. set (fs' := with_sectors _ _) in *. destruct G as [_ G2 _ _ _ G6 _ _ G9 _ [t G11]].
  cbn [fh_hdr fh_map] in G2, G6, G11. fold h' in G2, G11.
  exists fs2, h', fs', blocks', gap. split.
  - rewrite (Estart _ _ E3), Ho. fold h'.
    rewrite (mthen_step _ _ _ tt (mkOfState (mkOpenFile h' n (seekPosition o)) fs')); [reflexivity|].
    unfold do_fs. cbn [of_fs of_file]. unfold FileHdr.WriteBack. now rewrite fs_WriteSector_run.
  - rewrite Enb in G2. do 4 (split; [assumption|]). split; [now rewrite G11|]. split; [now rewrite G11|]. auto.
Qed.

(** The bytes of a file after a write that ends behind its old end: what lies
    before the write, [gap] included where the write starts behind the old
    end, and then the write. *)
Definition appended (old gap : list Z) (pos : Z) (from : list Z) : list Z := take (Z.to_nat pos) (old ++ gap) ++ from.

Lemma splice_end {A} (l from : list A) pos :
  0 <= pos -> Z.of_nat (length l) = pos + Z.of_nat (length from) -> splice l pos from = take (Z.to_nat pos) l ++ from.
Proof. intros Hp Hl. unfold splice. rewrite drop_ge by lia. now rewrite app_nil_r. Qed.

(** WriteAt behind the end, up to the extension. *)
Lemma WriteAt_behind fs F o n v from pos :
  volume fs F -> F !! n = Some v -> hdrSectorNumber o = n -> from <> [] -> 0 <= pos ->
  let size := Z.of_nat (length (vf_bytes v)) in
  let extra := pos + Z.of_nat (length from) - size in
  0 < extra -> size + extra < 2 ^ 31 ->
  exists h o2 fs2, volume fs2 F /\ file_is fs2 n v h /\ same_file h (hdr o2) /\
    fileType (hdr o2) = vf_type v /\ numVisits (hdr o2) = vf_visits v /\
    hdrSectorNumber o2 = n /\ seekPosition o2 = seekPosition o /\
    WriteAt index_junk map_junk buf_junk from pos (mkOfState o fs) =
      (let! ok := extend_file index_junk map_junk buf_junk extra in
       if ok then write_sectors buf_junk from pos else mreturn 0) (mkOfState o2 fs2).
Proof.
  intros HV Hn Ho Hne Hp size extra He Hov.
  destruct (vol_file _ _ HV n v Hn) as [h Hh]. pose proof Hh as [Ha Ht Hvis Hb]. rewrite <- Ho in Ha.
  pose proof (length_vf_bytes _ _ _ _ (vol_wf _ _ HV) Hh) as Hnb. fold size in Hnb.
  exists h, (of_file (stamped o fs h)), (of_fs (stamped o fs h)).
  split; [apply (volume_same fs); [reflexivity|apply fs_wf_tick, fs_wf_tick, HV|exact HV]|].
  split; [apply (file_is_frame fs); [reflexivity|exact Hh]|].
  split; [split; try reflexivity; apply hdr_wf_written, hdr_wf_visited; try apply time_at_int; apply Ha|].
  split; [exact Ht|]. split; [exact Hvis|]. split; [exact Ho|]. split; [reflexivity|].
  destruct (WriteAt_start index_junk map_junk buf_junk o fs h (vf_blocks v) from pos (vol_wf _ _ HV) Ha) as [-> _].
  assert (Hlen : 0 < Z.of_nat (length from)) by (destruct from; [contradiction|cbn; lia]).
  rewrite (proj2 (Z.leb_gt _ 0)) by lia. rewrite <- Hnb.
  rewrite !i32_id by (unfold is_i32; lia). rewrite (proj2 (Z.ltb_lt size _)) by lia.
  replace (Z.of_nat (length from) + pos - size) with extra by lia. reflexivity.
Qed.

Lemma WriteAt_extends_run fs F heap B o n v from pos :
  volume fs F -> file_system F heap B -> F !! n = Some v -> hdrSectorNumber o = n ->
  from <> [] -> Forall is_byte from -> 0 <= pos ->
  let size := Z.of_nat (length (vf_bytes v)) in
  let extra := pos + Z.of_nat (length from) - size in
  let k := extra_taken size (data_sectors v) extra in
  0 < extra -> size + extra < 2 ^ 31 -> (k <= length (free_bits B))%nat ->
  divRoundUp (extra_sectors size (data_sectors v) extra + data_sectors v) 32 <= NumDirect ->
  exists o' fs' v' gap, WriteAt index_junk map_junk buf_junk from pos (mkOfState o fs) =
      Ok (Z.of_nat (length from), mkOfState o' fs') /\
    hdrSectorNumber o' = n /\ seekPosition o' = seekPosition o /\ volume fs' (<[n := v']> F) /\
    vf_type v' = vf_type v /\ vf_visits v' = vf_visits v /\
    Z.of_nat (length (vf_bytes v ++ gap)) = pos + Z.of_nat (length from) /\
    vf_bytes v' = appended (vf_bytes v) gap pos from /\
    owned n v' ≡ₚ owned n v ++ take k (free_bits B).
Proof.
  intros HV HFS Hn Ho Hne Hby Hp size extra k He Hov Hk Hidx.
  destruct (WriteAt_behind fs F o n v from pos HV Hn Ho Hne Hp He Hov) as (h & o2 & fs2 & HV2 & Hh2 & Hsf & Ht & Hvis & Ho2 & Hs2 & ->).
  destruct (extend_file_run fs2 F heap B n v h o2 extra HV2 HFS Hn Hh2 Hsf Ho2 He Hov Hk Hidx)
    as (fs3 & h' & fs4 & blocks' & gap & E & HV3 & Hwf4 & Ha4 & Hnb4 & Ht4 & Hv4 & Hgap & Hperm & Hout).
  rewrite (mthen_step _ _ _ true _ E). cbn match.
  assert (HO : opened n (seekPosition o) (fs_sectors fs4) h' blocks' (mkOpenFile h' n (seekPosition o2)) fs4) by (split; auto; apply Ha4).
  destruct (write_sectors_run buf_junk buf_junk_length buf_junk_bytes _ _ _ h' blocks' _ fs4 from pos HO Hne Hby Hp) as (o5 & fs5 & E5 & HO5 & Hfb & Hout5);
    [lia|]. pose proof HO5 as [P1 P2 _ P4 P5 _].
  pose proof (length_file_bytes fs4 n h' blocks' Hwf4 Ha4) as Hl4. rewrite Hgap, Hnb4 in Hl4.
  set (v' := mkVfile blocks' (vf_type v) (vf_visits v) (appended (vf_bytes v) gap pos from)).
  exists o5, fs5, v', gap. split; [exact E5|]. do 2 (split; [assumption|]).
  split; [|do 2 (split; [reflexivity|]); split; [lia|]; split; [reflexivity|]; unfold owned; cbn [vf_blocks v']; now rewrite Hperm].
  apply (volume_grow fs3 fs5 F n v v' h'); auto.
  - split; cbn; auto; [rewrite Ht4; exact Ht|rewrite Hv4; exact Hvis|]. rewrite Hfb, Hgap. apply splice_end; [exact Hp|lia].
  - intros x Hx. apply elem_of_cons in Hx as [->|Hx]; [left; left|]. cbn [vf_blocks v'] in Hx. rewrite Hperm in Hx.
    apply elem_of_app in Hx as [Hx|Hx]; [left; now right|]. right. intros m w Hm.
    apply (free_unowned F heap B x HFS); [|exact Hm]. apply elem_of_take in Hx as (i & Hi & _). eapply list_elem_of_lookup_2, Hi.
  - intros x Hx Hnx. unfold owned in Hnx. cbn [vf_blocks v'] in Hnx. rewrite Hout5; [now apply Hout|exact Hx|].
    intros Hd. apply Hnx. right. now apply data_in_sectors.
Qed.

(** C23: WriteAt behind the end of a file makes it longer.  The file ends with
    the bytes written; the bytes before them are kept (what lies between the
    old end and the start of the write is whatever the sectors held); the file
    owns the sectors it had and the first free ones, as many as its data and
    index need; no other file changes, and the position of the OpenFile stays. *)
Theorem WriteAt_extends fs F heap B o n v from pos :
  volume fs F -> file_system F heap B -> F !! n = Some v -> hdrSectorNumber o = n ->
  from <> [] -> Forall is_byte from -> 0 <= pos ->
  let size := Z.of_nat (length (vf_bytes v)) in
  let extra := pos + Z.of_nat (length from) - size in
  let k := extra_taken size (data_sectors v) extra in
  0 < extra -> size + extra < 2 ^ 31 -> (k <= length (free_bits B))%nat ->
  divRoundUp (extra_sectors size (data_sectors v) extra + data_sectors v) 32 <= NumDirect ->
  exists o' fs' v' gap, WriteAt index_junk map_junk buf_junk from pos (mkOfState o fs) =
      Ok (Z.of_nat (length from), mkOfState o' fs') /\
    hdrSectorNumber o' = n /\ seekPosition o' = seekPosition o /\ volume fs' (<[n := v']> F) /\
    vf_type v' = vf_type v /\ vf_visits v' = vf_visits v /\
    Z.of_nat (length (vf_bytes v ++ gap)) = pos + Z.of_nat (length from) /\
    vf_bytes v' = appended (vf_bytes v) gap pos from /\
    owned n v' ≡ₚ owned n v ++ take k (free_bits B).
Proof. exact (WriteAt_extends_run fs F heap B o n v from pos). Qed.

(** C39: The sectors taken by such a write are not recorded.  WriteAt extends an
    ordinary file with a copy of the free map that it does not write back, so
    afterwards the disk is a consistent file system only if no sector was
    taken; otherwise the map on disk still gives them as free. *)
Theorem WriteAt_extension_unrecorded fs F heap B o n v from pos :
  volume fs F -> file_system F heap B -> F !! n = Some v -> hdrSectorNumber o = n ->
  n <> FreeMapSector -> n <> DirectorySector -> from <> [] -> Forall is_byte from -> 0 <= pos ->
  let size := Z.of_nat (length (vf_bytes v)) in
  let extra := pos + Z.of_nat (length from) - size in
  let k := extra_taken size (data_sectors v) extra in
  0 < extra -> size + extra < 2 ^ 31 -> (k <= length (free_bits B))%nat ->
  divRoundUp (extra_sectors size (data_sectors v) extra + data_sectors v) 32 <= NumDirect ->
  exists o' fs' v', WriteAt index_junk map_junk buf_junk from pos (mkOfState o fs) =
      Ok (Z.of_nat (length from), mkOfState o' fs') /\
    volume fs' (<[n := v']> F) /\
    (forall x, x ∈ take k (free_bits B) -> x ∈ owned n v') /\
    ((exists B', file_system (<[n := v']> F) heap B') <-> k = 0%nat).
Proof.
  intros HV HFS Hn Ho H0 H1 Hne Hby Hp size extra k He Hov Hk Hidx.
  destruct (WriteAt_extends_run fs F heap B o n v from pos HV HFS Hn Ho Hne Hby Hp He Hov Hk Hidx)
    as (o' & fs' & v' & gap & E & _ & _ & HV' & _ & _ & _ & _ & Hown).
  exists o', fs', v'. split; [exact E|]. split; [exact HV'|].
  assert (Htk : forall x, x ∈ take k (free_bits B) -> x ∈ owned n v') by (intros x Hx; rewrite Hown; apply elem_of_app; now right).
  split; [exact Htk|]. split.
  - intros [B' HB']. destruct (fsy_map _ _ _ HFS) as (vm & Hvm & Hbm). destruct (fsy_map _ _ _ HB') as (vm' & Hvm' & Hbm').
    rewrite lookup_insert_ne in Hvm' by congruence.
    assert (EB : B' = B).
    { rewrite <- (map_of_map_bytes B), <- (map_of_map_bytes B') by first [apply HFS|apply HB']. congruence. }
    subst B'. destruct k as [|k']; [reflexivity|]. exfalso. destruct (free_bits B) as [|x l] eqn:EF; [cbn in Hk; lia|].
    apply (fsy_used _ _ _ HB' n v' x); [apply lookup_insert_eq|apply Htk; left|rewrite EF; left].
  - intros Hk0. fold size extra k in Hown. rewrite Hk0, take_0, app_nil_r in Hown. exists B. destruct HFS as [(vm & Hvm & Hbm) W N Hused [dr Hdr]]. split; auto.
    + exists vm. split; [now rewrite lookup_insert_ne|exact Hbm].
    + intros q w x Hq Hx. destruct (decide (n = q)) as [<-|Hnq].
      * rewrite lookup_insert_eq in Hq. injection Hq as <-. rewrite Hown in Hx. now apply (Hused n v).
      * rewrite lookup_insert_ne in Hq by exact Hnq. now apply (Hused q w).
    + exists dr. apply (is_dir_mono F _ heap heap); [exact Hdr|now rewrite lookup_insert_ne|reflexivity].
Qed.

(** Without room WriteAt writes nothing and returns 0, but the header in memory
    has the new length already: Length claims bytes that were never written. *)
Theorem WriteAt_no_room fs F heap B o n v from pos :
  volume fs F -> file_system F heap B -> F !! n = Some v -> hdrSectorNumber o = n -> from <> [] -> 0 <= pos ->
  let size := Z.of_nat (length (vf_bytes v)) in
  let extra := pos + Z.of_nat (length from) - size in
  0 < extra -> size + extra < 2 ^ 31 ->
  data_sectors v < divRoundUp (size + extra) SectorSize ->
  Z.of_nat (length (free_bits B)) < divRoundUp extra SectorSize ->
  exists o' fs', WriteAt index_junk map_junk buf_junk from pos (mkOfState o fs) = Ok (0, mkOfState o' fs') /\
    volume fs' F /\ Length (mkOfState o' fs') = Ok (size + extra, mkOfState o' fs').
Proof.
  intros HV HFS Hn Ho Hne Hp size extra He Hov Hbig Hroom.
  destruct (WriteAt_behind fs F o n v from pos HV Hn Ho Hne Hp He Hov) as (h & o2 & fs2 & HV2 & Hh2 & [S1 S2 S3 S4] & _ & _ & Ho2 & _ & ->).
  destruct (extend_file_start fs2 F heap B o2 extra HV2 HFS) as (fs4 & HV4 & Estart).
  pose proof (length_vf_bytes _ _ _ _ (vol_wf _ _ HV2) Hh2) as Hnb. fold size in Hnb.
  set (h' := h_sizes (size + extra) (data_sectors v) (hdr o2)).
  assert (E3 : ExtendAllocate index_junk extra (mkFhState (hdr o2) B fs4) = Ok (false, mkFhState h' B fs4)).
  { unfold ExtendAllocate. mstep_to (mkFhState (hdr o2) B fs4) (mkFhState (hdr o2) B fs4). cbn [fh_hdr].
    rewrite S3, S4, <- Hnb, (numSectors_data fs2 h v) by apply Hh2. rewrite i32_id by (unfold is_i32; lia).
    rewrite (proj2 (Z.leb_gt _ _)) by exact Hbig. mstep_to tt (mkFhState h' B fs4).
    rewrite (mthen_step _ _ _ (Z.of_nat (length (free_bits B))) (mkFhState h' B fs4))
      by (unfold on_map; cbn [fh_map]; now rewrite BitMap_NumClear_spec by apply HFS).
    now rewrite (proj2 (Z.ltb_lt _ _)) by exact Hroom. }
  specialize (Estart _ _ E3). exists (mkOpenFile h' (hdrSectorNumber o2) (seekPosition o2)), fs4.
  split; [|split; [exact HV4|reflexivity]]. rewrite (mthen_step _ _ _ _ _ Estart). reflexivity.
Qed.
End extension.

(** * A concrete run: the file of 200 bytes of the formatted disk grows by 100 *)
#[local] Existing Instance sample_time.

Definition hundred : list Z := replicate 100 7.
Lemma hundred_bytes : Forall is_byte hundred.
Proof. apply Forall_replicate. unfold is_byte. lia. Defined.

Lemma room_for_hundred size ns :
  size = 200 -> ns = 2 ->
  let extra := 200 + Z.of_nat (length hundred) - size in
  0 < extra /\ size + extra < 2 ^ 31 /\ extra_taken size ns extra = 1%nat /\ divRoundUp (extra_sectors size ns extra + ns) 32 <= NumDirect.
Proof. intros -> ->. vm_compute. repeat split; discriminate. Defined.

Lemma WriteAt_extends_witness : exists fs F v o' fs' v',
  WriteAt sample_junk sample_words zero_junk hundred 200 (mkOfState (mkOpenFile sample_hdr 6 0) fs) = Ok (100, mkOfState o' fs') /\
  volume fs' (<[6 := v']> F) /\ vf_bytes v' = vf_bytes v ++ hundred.
Proof.
  destruct created_sys as (s & F & B & d & v & Hs & HFS & Hd & Hm & Hv & Ht & Hvis & Hl & Hds & Hfr).
  destruct (room_for_hundred _ _ Hl Hds) as (R1 & R2 & R3 & R4).
  destruct (@WriteAt_extends sample_time sample_junk sample_words zero_junk zero_junk_length zero_junk_bytes eq_refl sample_junk_ints eq_refl sample_words_ok
    (sys_fs s) F _ B (mkOpenFile sample_hdr 6 0) 6 v hundred 200 (so_volume _ _ _ Hs) HFS Hv eq_refl ltac:(discriminate) hundred_bytes
    ltac:(discriminate) R1 R2 ltac:(unfold data_sectors; rewrite R3, Hfr; lia) R4)
    as (o' & fs' & v' & gap & E & _ & _ & HV & _ & _ & Hlen & Hb & _).
  exists (sys_fs s), F, v, o', fs', v'. split; [exact E|]. split; [exact HV|]. rewrite Hb. unfold appended.
  rewrite take_app_le, take_ge by lia. reflexivity.
Defined.

Lemma WriteAt_extension_unrecorded_witness : exists fs F B heap o' fs' v',
  file_system F heap B /\
  WriteAt sample_junk sample_words zero_junk hundred 200 (mkOfState (mkOpenFile sample_hdr 6 0) fs) = Ok (100, mkOfState o' fs') /\
  volume fs' (<[6 := v']> F) /\ ~ exists B', file_system (<[6 := v']> F) heap B'.
Proof.
  destruct created_sys as (s & F & B & d & v & Hs & HFS & Hd & Hm & Hv & Ht & Hvis & Hl & Hds & Hfr).
  destruct (room_for_hundred _ _ Hl Hds) as (R1 & R2 & R3 & R4).
  destruct (@WriteAt_extension_unrecorded sample_time sample_junk sample_words zero_junk zero_junk_length zero_junk_bytes eq_refl sample_junk_ints eq_refl sample_words_ok
    (sys_fs s) F _ B (mkOpenFile sample_hdr 6 0) 6 v hundred 200 (so_volume _ _ _ Hs) HFS Hv eq_refl ltac:(discriminate) ltac:(discriminate)
    ltac:(discriminate) hundred_bytes ltac:(discriminate) R1 R2 ltac:(unfold data_sectors; rewrite R3, Hfr; lia) R4)
    as (o' & fs' & v' & E & HV & _ & Hiff).
  eexists (sys_fs s), F, B, _, o', fs', v'. split; [exact HFS|]. split; [exact E|]. split; [exact HV|].
  intros HB. apply (proj1 Hiff) in HB. unfold data_sectors in HB. rewrite R3 in HB. discriminate.
Defined.
