(* ===== verification/FsTermination.v ===== *)
(** Termination of the file system: path lookup, and the recursive Remove.

    getFileName loops until at most one slash is left and drops one per round;
    Remove calls itself for the entries of a directory with a longer path, in a
    buffer of 100 characters.  The fuel of the model is therefore never used up,
    from any state of the disk, a damaged or cyclic one included. *)
From Stdlib Require Import ZArith Lia.
From stdpp Require Import base option list list_numbers gmap sets.
From S2P Require Import Prelude Disk BitMap Sectors FileHdr OpenFile Volume Directory FileSys.

Local Open Scope Z_scope.

Section termination.
Context {HT : HostTime} {HA : HostAlloc} {HM : HostMemory}.
Variables (index_junk map_junk : list Z) (buf_junk : Z -> list Z).
Variable table_junk : Z -> list DirectoryEntry.
Variable hdr_junk : FileHeader.

Lemma total_ReadSector n : total (fs_ReadSector n).
Proof. unfold fs_ReadSector. total_tac. Qed.
Lemma total_WriteSector n bs : total (fs_WriteSector n bs).
Proof. unfold fs_WriteSector. total_tac. Qed.
Lemma total_rw_P n : total (fs_rw_P n).
Proof. unfold fs_rw_P, set_mutex. total_tac. Qed.
Lemma total_rw_V n : total (fs_rw_V n).
Proof. unfold fs_rw_V, set_mutex. total_tac. Qed.
Lemma total_arr_P : total fs_arr_P.
Proof. unfold fs_arr_P, set_array_mutex. total_tac. Qed.
Lemma total_arr_V : total fs_arr_V.
Proof. unfold fs_arr_V, set_array_mutex. total_tac. Qed.
Lemma total_time : total time.
Proof. intros s [=]. Qed.
Hint Resolve total_ReadSector total_WriteSector total_rw_P total_rw_V total_arr_P total_arr_V total_time : nachos.

Lemma total_FetchFrom n : total (FileHdr.FetchFrom n).
Proof. unfold FileHdr.FetchFrom. total_tac. Qed.
Lemma total_WriteBack h n : total (FileHdr.WriteBack h n).
Proof. apply total_WriteSector. Qed.
Lemma total_ByteToSector h n : total (ByteToSector h n).
Proof. unfold ByteToSector. total_tac. Qed.
Hint Resolve total_FetchFrom total_WriteBack total_ByteToSector : nachos.

Lemma total_OpenFile n : total (OpenFile_OpenFile n).
Proof. unfold OpenFile_OpenFile. total_tac. Qed.
Lemma total_do_fs {A} (m : M FsState A) : total m -> total (do_fs m).
Proof. intros Hm s. unfold do_fs. specialize (Hm (of_fs s)). destruct (m (of_fs s)) as [[a f]|e]; congruence. Qed.
Hint Resolve total_OpenFile : nachos.
Hint Extern 2 (total (do_fs _)) => apply total_do_fs : nachos.

Lemma total_fh_bits {A} (m : M BitMap A) : total m -> total (FileHdr.on_map m).
Proof. intros Hm s. unfold on_map. specialize (Hm (fh_map s)). destruct (m (fh_map s)) as [[a f]|e]; congruence. Qed.
Lemma total_fh_fs {A} (m : M FsState A) : total m -> total (on_fs m).
Proof. intros Hm s. unfold on_fs. specialize (Hm (fh_fs s)). destruct (m (fh_fs s)) as [[a f]|e]; congruence. Qed.
Lemma total_Mark i : total (BitMap_Mark i).
Proof. unfold BitMap_Mark, set_map. total_tac. Qed.
Lemma total_Clear i : total (BitMap_Clear i).
Proof. unfold BitMap_Clear, set_map. total_tac. Qed.
Lemma total_Test i : total (BitMap_Test i).
Proof. unfold BitMap_Test. total_tac. Qed.
Hint Resolve total_Mark total_Clear total_Test : nachos.
Lemma total_Find : total BitMap_Find.
Proof. unfold BitMap_Find. total_tac. Qed.
Lemma total_NumClear : total BitMap_NumClear.
Proof.
  unfold BitMap_NumClear. apply total_then; [total_tac|]. intros b. generalize 0 at 2.
  induction (seqZ 0 (numBits b)) as [|x l IH]; intros c; cbn [BitMap_NumClear_loop]; total_tac; apply IH.
Qed.
Hint Resolve total_Find total_NumClear : nachos.
Hint Extern 2 (total (on_map _)) => apply total_fh_bits : nachos.
Hint Extern 2 (total (on_fs _)) => apply total_fh_fs : nachos.

Lemma total_index_entry i : total (index_entry i).
Proof. unfold index_entry. total_tac. Qed.
Lemma total_set_index_entry i v : total (set_index_entry i v).
Proof. unfold set_index_entry, mod_hdr. total_tac. Qed.
Hint Resolve total_index_entry total_set_index_entry : nachos.
Lemma total_fill_index js t : total (fill_index js t).
Proof. unfold fill_index. total_tac. Qed.
Hint Resolve total_fill_index : nachos.
Lemma total_new_index_block junk t i : total (new_index_block junk t i).
Proof. unfold new_index_block. total_tac. Qed.
Lemma total_extend_last_block ns e : total (extend_last_block ns e).
Proof. unfold extend_last_block. total_tac. Qed.
Hint Resolve total_new_index_block total_extend_last_block : nachos.
Lemma total_ExtendAllocate junk e : total (ExtendAllocate junk e).
Proof. unfold ExtendAllocate, mod_hdr. total_tac. Qed.
Lemma total_free_index_block t i : total (free_index_block t i).
Proof. unfold free_index_block. total_tac. Qed.
Hint Resolve total_free_index_block : nachos.
Lemma total_Deallocate : total Deallocate.
Proof. unfold Deallocate. total_tac. Qed.

Lemma total_data_sector i : total (data_sector i).
Proof. unfold data_sector. total_tac. Qed.
Hint Resolve total_data_sector : nachos.
Lemma total_fetch_header : total fetch_header.
Proof. unfold fetch_header, set_hdr. total_tac. Qed.
Lemma total_lock_range f l : total (lock_range f l).
Proof. unfold lock_range. total_tac. Qed.
Hint Resolve total_fetch_header total_lock_range : nachos.
Lemma total_ReadAt n p : total (ReadAt buf_junk n p).
Proof. unfold ReadAt, mod_of_hdr, set_hdr. total_tac. Qed.
Hint Resolve total_ReadAt : nachos.
Lemma total_BitMap_FetchFrom b : total (BitMap_FetchFrom buf_junk b).
Proof. unfold BitMap_FetchFrom. total_tac. Qed.
Lemma total_with_file {A} o (m : M OfState A) : total m -> total (with_file o m).
Proof. intros Hm s. unfold with_file. specialize (Hm (mkOfState o s)). destruct (m (mkOfState o s)) as [[a f]|e]; congruence. Qed.
Hint Resolve total_BitMap_FetchFrom : nachos.
Hint Extern 2 (total (with_file _ _)) => apply total_with_file : nachos.

Lemma BitMap_ctor_total : BitMap_BitMap NumSectors map_junk <> Err OutOfFuel.
Proof.
  unfold BitMap_BitMap. pose proof (total_mfor (seqZ 0 NumSectors) BitMap_Clear total_Clear) as Hm.
  specialize (Hm (mkBitMap NumSectors (divRoundUp NumSectors BitsInWord) map_junk)).
  destruct (mfor _ _ _) as [[a f]|e]; congruence.
Qed.

Lemma total_extend_file e : total (extend_file index_junk map_junk buf_junk e).
Proof.
  unfold extend_file. pose proof BitMap_ctor_total as Hb. destruct (BitMap_BitMap NumSectors map_junk) as [b|f]; [|apply total_fail; congruence].
  apply total_then; [total_tac|intros o]. apply total_then; [total_tac|intros r]. apply total_then; [total_tac|intros s].
  pose proof (total_ExtendAllocate index_junk e (mkFhState (hdr (of_file s)) r.1 (of_fs s))) as He.
  destruct (ExtendAllocate _ _ _) as [[ok st]|f]; [total_tac|apply total_fail; congruence].
Qed.
Lemma total_write_range f l b : total (write_range f l b).
Proof. unfold write_range. total_tac. Qed.
Lemma total_read_into b a p : total (read_into buf_junk b a p).
Proof. unfold read_into. total_tac. Qed.
Hint Resolve total_extend_file total_write_range total_read_into : nachos.
Lemma total_write_sectors bs p : total (write_sectors buf_junk bs p).
Proof. unfold write_sectors. total_tac. Qed.
Hint Resolve total_write_sectors : nachos.
Lemma total_WriteAt bs p : total (WriteAt index_junk map_junk buf_junk bs p).
Proof. unfold WriteAt, mod_of_hdr, set_hdr. total_tac. Qed.
Hint Resolve total_WriteAt : nachos.

(** * The file system's own statements *)
Lemma total_on_disk {A} (m : M FsState A) : total m -> total (on_disk m).
Proof. intros Hm s. unfold on_disk. specialize (Hm (sys_fs s)). destruct (m (sys_fs s)) as [[a f]|e]; congruence. Qed.
Lemma total_on_dir {A} d (m : M DirState A) : total m -> total (on_dir d m).
Proof. intros Hm s. unfold on_dir. specialize (Hm (mkDirState d (sys_heap s))). destruct (m _) as [[a f]|e]; congruence. Qed.
Lemma total_on_bits {A} b (m : M BitMap A) : total m -> total (on_bits b m).
Proof. intros Hm s. unfold on_bits. specialize (Hm b). destruct (m b); congruence. Qed.
Lemma total_on_header {A} h b (m : M FhState A) : total m -> total (on_header h b m).
Proof. intros Hm s. unfold on_header. specialize (Hm (mkFhState h b (sys_fs s))). destruct (m _) as [[a f]|e]; congruence. Qed.
Hint Extern 2 (total (on_disk _)) => apply total_on_disk : nachos.
Hint Extern 2 (total (on_file _ _)) => apply total_on_disk, total_with_file : nachos.
Hint Extern 2 (total (on_dir _ _)) => apply total_on_dir : nachos.
Hint Extern 2 (total (on_bits _ _)) => apply total_on_bits : nachos.
Hint Extern 2 (total (on_header _ _ _)) => apply total_on_header : nachos.

Lemma total_Dir_FetchFrom d : total (Directory.FetchFrom buf_junk d).
Proof. unfold Directory.FetchFrom. total_tac. Qed.
Lemma total_Dir_WriteBack d : total (Directory.WriteBack index_junk map_junk buf_junk d).
Proof. unfold Directory.WriteBack. total_tac. Qed.
Lemma total_FindIndex k : total (FindIndex k).
Proof. unfold FindIndex, entry_at, same_name, string_at. total_tac. Qed.
Hint Resolve total_Dir_FetchFrom total_Dir_WriteBack total_FindIndex : nachos.
Lemma total_Dir_Find k : total (Directory.Find k).
Proof. unfold Directory.Find, entry_at. total_tac. Qed.
Lemma total_Dir_Remove k : total (Directory.Remove k).
Proof. unfold Directory.Remove, entry_at, set_entry, set_table. total_tac. Qed.
Lemma total_BitMap_WriteBack b : total (BitMap_WriteBack index_junk map_junk buf_junk b).
Proof. unfold BitMap_WriteBack. total_tac. Qed.
Lemma total_new_Directory : total (new_Directory table_junk).
Proof. unfold new_Directory, Directory_Directory. apply total_on_disk. total_tac. Qed.
Lemma total_new_BitMap : total (new_BitMap map_junk).
Proof. intros s. unfold new_BitMap, of_res. pose proof BitMap_ctor_total. destruct (BitMap_BitMap _ _); congruence. Qed.
Lemma total_put_string cap c : total (put_string cap c).
Proof. unfold put_string. total_tac. Qed.
Lemma total_BitMap_Print : total BitMap_Print.
Proof.
  unfold BitMap_Print. apply total_then; [total_tac|]. intros b. generalize (@nil Z).
  induction (seqZ 0 (numBits b)) as [|x l IH]; intros c; cbn [BitMap_Print_loop]; total_tac; apply IH.
Qed.
Hint Resolve total_Dir_Find total_Dir_Remove total_BitMap_WriteBack total_new_Directory total_new_BitMap total_put_string
  total_BitMap_Print total_Deallocate : nachos.

Lemma total_fetch_directory d o : total (fetch_directory buf_junk d o).
Proof. unfold fetch_directory. total_tac. Qed.
Lemma total_new_OpenFile n : total (new_OpenFile n).
Proof. unfold new_OpenFile. total_tac. Qed.
Lemma total_remove_entry h n k d o : total (remove_entry index_junk map_junk buf_junk h n k d o).
Proof. unfold remove_entry, fetch_freeMap, write_freeMap, write_directory, set_freeMapFile. total_tac. Qed.
Lemma total_show_map b : total (show_map b).
Proof. unfold show_map, print. total_tac. Qed.
Hint Resolve total_fetch_directory total_new_OpenFile total_remove_entry total_show_map : nachos.

(** * The two recursions *)
Lemma split_slash (path : cstring) : no_slash path \/ exists c0 r, path = c0 ++ slash :: r /\ no_slash c0.
Proof.
  induction path as [|x path IH]; [left; intros H; inversion H|]. destruct (decide (x = slash)) as [->|Hx].
  - right. exists [], path. split; [reflexivity|]. intros H. inversion H.
  - destruct IH as [IH|(c0 & r & -> & Hc)].
    + left. apply not_elem_of_cons. split; [congruence|exact IH].
    + right. exists (x :: c0), r. split; [reflexivity|]. apply not_elem_of_cons. split; [congruence|exact Hc].
Qed.

Lemma path_loop_total fuel cap : forall path d o, (length path < fuel)%nat -> total (path_loop buf_junk fuel cap path d o).
Proof.
  induction fuel as [|fuel IH]; intros path d o Hl; [lia|]. cbn [path_loop]. apply total_then; [total_tac|]. intros r.
  destruct (split_slash path) as [Hp|(c0 & q & -> & H0)]; [rewrite scan_plain by exact Hp; total_tac|].
  destruct (split_slash q) as [Hq|(c & tail & -> & Hc)]; [rewrite scan_one by assumption; total_tac|].
  rewrite scan_two by assumption. rewrite (slice_tail c0 (c ++ slash :: tail) slash) by lia.
  assert (Hn : (length (c ++ slash :: tail) < fuel)%nat) by (rewrite length_app in Hl; cbn [length] in Hl; lia).
  total_tac.
Qed.

Lemma getFileName_total path : total (getFileName buf_junk table_junk path).
Proof. unfold getFileName. apply total_then; [total_tac|intros o]. apply total_then; [total_tac|intros d]. apply path_loop_total. lia. Qed.
Hint Resolve getFileName_total : nachos.

Lemma put_string_fits cap c s r : put_string cap c s = Ok r -> Z.of_nat (length c) < cap.
Proof. unfold put_string. destruct (Z.ltb_spec (Z.of_nat (length c)) cap); [auto|discriminate]. Qed.

Abbreviation rm := (Remove index_junk map_junk buf_junk table_junk).

Lemma Remove_total fuel : forall path, (0 < fuel)%nat -> (Z.to_nat max_path < fuel + length path)%nat -> total (rm fuel path).
Proof.
  induction fuel as [|fuel IH]; intros path Hf Hl; [lia|]. cbn [Remove]. unfold copy_name, print.
  apply total_then; [total_tac|intros _]. apply total_then; [total_tac|intros [[n d] o]].
  apply total_then; [total_tac|intros k]. destruct (k.1 =? -1); [total_tac|]. apply total_then; [total_tac|intros h].
  destruct (fileType h =? 0); [total_tac|].
  apply total_then; [total_tac|intros f]. apply total_then; [total_tac|intros e]. apply total_then; [total_tac|intros de].
  apply total_then; [|intros _; total_tac]. apply total_mfor. intros x. destruct (inUse x =? 0); [total_tac|].
  apply total_then; [total_tac|intros s]. apply total_then; [total_tac|intros nm].
  apply total_guard; [total_tac|]. intros [] s1 s2 E. apply put_string_fits in E.
  apply total_then; [|intros _; total_tac]. rewrite !length_app in E. cbn [length] in E. unfold max_path in *.
  apply IH; [lia|]. rewrite !length_app. cbn [length]. lia.
Qed.
End termination.

(** FileSystem::Remove with the fuel it needs: one round per character of the
    longest path that it can build. *)
Definition FileSystem_Remove `{!HostTime, !HostMemory} (index_junk map_junk : list Z) (buf_junk : Z -> list Z)
    (table_junk : Z -> list DirectoryEntry) (path : cstring) : M SysState bool :=
  FileSys.Remove index_junk map_junk buf_junk table_junk (S (Z.to_nat max_path)) path.

(** C38: Path lookup and removal always come to an end, whatever is on the disk
    and in memory: the loop of getFileName and the recursion of Remove are never
    cut short. *)
Theorem FileSystem_Remove_terminates `{!HostTime, !HostMemory} (index_junk map_junk : list Z) (buf_junk : Z -> list Z)
    (table_junk : Z -> list DirectoryEntry) (path : cstring) (s : SysState) :
  getFileName buf_junk table_junk path s <> Err OutOfFuel /\
  FileSystem_Remove index_junk map_junk buf_junk table_junk path s <> Err OutOfFuel.
Proof. split; [apply getFileName_total|]. apply Remove_total; lia. Qed.
