(* ===== verification/FsTest.v ===== *)
(** filesys/fstest.cc: Copy, which brings a host file into the Nachos file
    system, and Print, which shows a Nachos file.

    They are the clients that tie filesys.cc and openfile.cc together: a file
    is created with its final length, opened, written ten bytes at a time, and
    later opened again and read ten bytes at a time.  [Copy] gives what it
    reports instead of printing it; [Print] gives the characters printed.  The
    host file is its bytes, or [None] when fopen fails.  The reading loop of
    Print has fuel: one round for every ten bytes of the file and one more are
    enough. *)
From Stdlib Require Import ZArith Lia.
From stdpp Require Import base option list list_numbers gmap sets.
From S2P Require Import Prelude Disk BitMap Sectors FileHdr OpenFile Volume Directory FileSys.

Local Open Scope Z_scope.

Definition TransferSize : Z := 10.

Inductive copy_report := CouldntOpen | CouldntCreate | Copied.

Section fstest.
Context {HT : HostTime} {HA : HostAlloc} {HM : HostMemory}.
Variables (index_junk map_junk : list Z) (buf_junk : Z -> list Z).
Variable table_junk : Z -> list DirectoryEntry.
Variable hdr_junk : FileHeader.

(** while ((amountRead = fread(buffer, 1, TransferSize, fp)) > 0) Write(...):
    [rest] is what fread has not returned yet. *)
Fixpoint copy_loop (fuel : nat) (rest : list Z) (openFile : OpenFile) : M SysState OpenFile :=
  match fuel with
  | O => mfail OutOfFuel
  | S fuel =>
      let buffer := take (Z.to_nat TransferSize) rest in
      if 0 <? Z.of_nat (length buffer) then
        let! r := on_file openFile (Write index_junk map_junk buf_junk buffer) in
        copy_loop fuel (drop (Z.to_nat TransferSize) rest) r.2
      else mreturn openFile
  end.

Definition Copy (from : option (list Z)) (to : cstring) : M SysState copy_report :=
  match from with
  | None => mreturn CouldntOpen
  | Some bytes =>
      let fileLength := i32 (Z.of_nat (length bytes)) in
      let! created := Create index_junk map_junk buf_junk table_junk hdr_junk to fileLength 0 in
      if negb created then mreturn CouldntCreate
      else
        let! openFile := Open buf_junk table_junk to in
        let! _ := copy_loop (S (length bytes)) bytes openFile in
        mreturn Copied
  end.

Fixpoint print_loop (fuel : nat) (openFile : OpenFile) : M SysState (list Z) :=
  match fuel with
  | O => mfail OutOfFuel
  | S fuel =>
      let! r := on_file openFile (Read buf_junk TransferSize) in
      if 0 <? Z.of_nat (length r.1) then
        let! more := print_loop fuel r.2 in
        mreturn (r.1 ++ more)
      else mreturn []
  end.

Definition Print (fuel : nat) (name : cstring) : M SysState (list Z) :=
  let! openFile := Open buf_junk table_junk name in
  print_loop fuel openFile.
End fstest.

(** A name in the root directory, plain or behind the name of the root. *)
Definition root_path (path name : cstring) : Prop :=
  no_slash name /\ (path = name \/ exists c0, no_slash c0 /\ path = c0 ++ slash :: name).

Lemma root_path_locates F heap path name :
  root_path path name -> locates F heap path DirectorySector (Some name).
Proof.
  intros [Hn [-> | (c0 & Hc & ->)]]; [now constructor|].
  apply (loc_path F heap c0 [] DirectorySector name); auto. constructor.
Qed.

Definition with_bytes (bs : list Z) (v : vfile) : vfile := mkVfile (vf_blocks v) (vf_type v) (vf_visits v) bs.

Section fstest_lemmas.
Context {HT : HostTime} {HA : HostAlloc} {HM : HostMemory}.
Variables (index_junk map_junk : list Z) (buf_junk : Z -> list Z).
Variable table_junk : Z -> list DirectoryEntry.
Variable hdr_junk : FileHeader.
Hypothesis buf_junk_length : forall n, 0 <= n -> Z.of_nat (length (buf_junk n)) = n.
Hypothesis buf_junk_bytes : forall n, Forall is_byte (buf_junk n).
Hypothesis table_junk_length : forall n, 0 <= n -> Z.of_nat (length (table_junk n)) = n.
Implicit Types (s : SysState) (F : gmap Z vfile) (heap : Heap) (o : OpenFile).

(** Write inside a file: the bytes at the seek position are replaced. *)
Lemma Write_run s F heap o n v from :
  sys_ok s F heap -> F !! n = Some v -> hdrSectorNumber o = n -> Forall is_byte from -> 0 <= seekPosition o ->
  seekPosition o + Z.of_nat (length from) <= Z.of_nat (length (vf_bytes v)) ->
  exists o' s', on_file o (Write index_junk map_junk buf_junk from) s = Ok ((Z.of_nat (length from), o'), s') /\
    hdrSectorNumber o' = n /\ seekPosition o' = seekPosition o + Z.of_nat (length from) /\
    sys_ok s' (<[n := with_bytes (splice (vf_bytes v) (seekPosition o) from) v]> F) heap.
Proof.
  intros Hs Hv Ho Hb Hp Hl.
  destruct (WriteAt_handle index_junk map_junk buf_junk buf_junk_length buf_junk_bytes (sys_fs s) F o n v from (seekPosition o)
    (so_volume _ _ _ Hs) Ho Hv Hb Hp Hl) as (o1 & fs1 & E & H1 & H2 & HV).
  set (o2 := mkOpenFile (hdr o1) (hdrSectorNumber o1) (seekPosition o1 + Z.of_nat (length from))).
  destruct (on_file_run (Write index_junk map_junk buf_junk from) s F
      (<[n := with_bytes (splice (vf_bytes v) (seekPosition o) from) v]> F) heap o (Z.of_nat (length from)) o2 fs1 Hs) as (s' & E' & Hs');
    [|exact HV|].
  - unfold Write. mstep_to (mkOfState o (sys_fs s)) (mkOfState o (sys_fs s)). cbn [of_file]. mstep_by E. reflexivity.
  - exists o2, s'. split; [exact E'|]. split; [exact H1|]. split; [cbn; now rewrite H2|exact Hs'].
Qed.

Lemma Read_run s F heap o n v k :
  sys_ok s F heap -> F !! n = Some v -> hdrSectorNumber o = n -> 0 <= seekPosition o -> 0 <= k ->
  seekPosition o + k < 2 ^ 31 ->
  let bs := slice (vf_bytes v) (seekPosition o) k in
  exists o' s', on_file o (Read buf_junk k) s = Ok ((bs, o'), s') /\
    hdrSectorNumber o' = n /\ seekPosition o' = seekPosition o + Z.of_nat (length bs) /\ sys_ok s' F heap.
Proof.
  intros Hs Hv Ho Hp Hk Hl bs.
  destruct (ReadAt_handle buf_junk buf_junk_length (sys_fs s) F o n v k (seekPosition o) (so_volume _ _ _ Hs) Ho Hv Hp Hl)
    as (o1 & fs1 & E & H1 & H2 & HV); [lia|]. fold bs in E.
  set (o2 := mkOpenFile (hdr o1) (hdrSectorNumber o1) (seekPosition o1 + Z.of_nat (length bs))).
  destruct (on_file_run (Read buf_junk k) s F F heap o bs o2 fs1 Hs) as (s' & E' & Hs'); [|exact HV|].
  - unfold Read. mstep_to (mkOfState o (sys_fs s)) (mkOfState o (sys_fs s)). cbn [of_file]. mstep_by E. reflexivity.
  - exists o2, s'. split; [exact E'|]. split; [exact H1|]. split; [cbn; now rewrite H2|exact Hs'].
Qed.

Lemma splice_behind {A} (done old chunk : list A) :
  (length chunk <= length old)%nat ->
  splice (done ++ old) (Z.of_nat (length done)) chunk = (done ++ chunk) ++ drop (length chunk) old.
Proof.
  intros Hl. unfold splice. rewrite Nat2Z.id, take_app_length, <- app_assoc. do 2 f_equal.
  rewrite drop_app_ge by lia. f_equal. lia.
Qed.

Lemma copy_loop_run fuel : forall s F heap o n v done old rest,
  sys_ok s F heap -> F !! n = Some v -> hdrSectorNumber o = n -> seekPosition o = Z.of_nat (length done) ->
  vf_bytes v = done ++ old -> length old = length rest -> Forall is_byte rest -> (length rest < fuel)%nat ->
  exists o' s', copy_loop index_junk map_junk buf_junk fuel rest o s = Ok (o', s') /\
    sys_ok s' (<[n := with_bytes (done ++ rest) v]> F) heap.
Proof.
  induction fuel as [|fuel IH]; intros s F heap o n v done old rest Hs Hv Ho Hp Hby Hlen Hr Hf; [lia|].
  cbn [copy_loop]. destruct rest as [|x rest'] eqn:Er.
  { cbn. destruct old; [|discriminate]. exists o, s. split; [reflexivity|].
    replace (with_bytes (done ++ []) v) with v by (rewrite app_nil_r in *; unfold with_bytes; rewrite <- Hby; now destruct v).
    now rewrite insert_id. }
  rewrite <- Er in *. set (chunk := take (Z.to_nat TransferSize) rest).
  assert (Hc : (0 < length chunk <= length rest)%nat /\ length chunk = length (take 10 old)).
  { unfold chunk. change (Z.to_nat TransferSize) with 10%nat. rewrite !length_take, Hlen, Er. cbn [length]. lia. }
  rewrite (proj2 (Z.ltb_lt 0 (Z.of_nat (length chunk)))) by lia.
  destruct (Write_run s F heap o n v chunk Hs Hv Ho) as (o1 & s1 & E1 & Ho1 & Hp1 & Hs1).
  { unfold chunk. now apply Forall_take. } { lia. } { rewrite Hp, Hby, length_app. lia. }
  mstep_by E1. cbn [snd]. rewrite Hp, Hby, splice_behind in Hs1 by lia.
  destruct (IH s1 _ heap o1 n _ (done ++ chunk) (drop (length chunk) old) (drop (Z.to_nat TransferSize) rest) Hs1
    (lookup_insert_eq _ _ _) Ho1) as (o2 & s2 & E2 & Hs2).
  - rewrite Hp1, Hp, length_app. lia.
  - reflexivity.
  - rewrite !length_drop, Hlen. destruct Hc as [_ ->]. rewrite length_take, Hlen. change (Z.to_nat TransferSize) with 10%nat. lia.
  - now apply Forall_drop.
  - rewrite length_drop. change (Z.to_nat TransferSize) with 10%nat. lia.
  - exists o2, s2. split; [exact E2|]. rewrite insert_insert_eq in Hs2. unfold chunk in Hs2.
    rewrite <- app_assoc, take_drop in Hs2. exact Hs2.
Qed.

Lemma print_loop_run fuel : forall s F heap o n v,
  sys_ok s F heap -> F !! n = Some v -> hdrSectorNumber o = n ->
  0 <= seekPosition o <= Z.of_nat (length (vf_bytes v)) -> Z.of_nat (length (vf_bytes v)) < 2 ^ 31 - TransferSize ->
  Z.of_nat (length (vf_bytes v)) - seekPosition o <= TransferSize * (Z.of_nat fuel - 1) ->
  exists s', print_loop buf_junk fuel o s = Ok (drop (Z.to_nat (seekPosition o)) (vf_bytes v), s') /\ sys_ok s' F heap.
Proof.
  unfold TransferSize. induction fuel as [|fuel IH]; intros s F heap o n v Hs Hv Ho Hp Hb Hf; [lia|].
  cbn [print_loop]. destruct (Read_run s F heap o n v 10 Hs Hv Ho) as (o1 & s1 & E1 & Ho1 & Hp1 & Hs1); [lia..|].
  unfold TransferSize. mstep_by E1. cbn [fst snd].
  set (bs := slice (vf_bytes v) (seekPosition o) 10) in *.
  assert (Hlb : length bs = Nat.min 10 (length (vf_bytes v) - Z.to_nat (seekPosition o))%nat)
    by (unfold bs, slice; rewrite length_take, length_drop; reflexivity).
  assert (Ebs : bs = take 10 (drop (Z.to_nat (seekPosition o)) (vf_bytes v))) by reflexivity. clearbody bs.
  destruct (Z.ltb_spec 0 (Z.of_nat (length bs))).
  - destruct (IH s1 F heap o1 n v Hs1 Hv Ho1) as (s2 & E2 & Hs2); [lia..|]. exists s2. mstep_by E2. split; [|exact Hs2].
    unfold mreturn. do 2 f_equal. rewrite Hp1.
    destruct (Z.le_gt_cases (seekPosition o + 10) (Z.of_nat (length (vf_bytes v)))).
    + replace (Z.to_nat (seekPosition o + Z.of_nat (length bs))) with (Z.to_nat (seekPosition o) + 10)%nat by lia.
      rewrite Ebs, <- drop_drop. apply take_drop.
    + rewrite (drop_ge (vf_bytes v) (Z.to_nat (seekPosition o + Z.of_nat (length bs)))) by lia.
      rewrite app_nil_r, Ebs. apply take_ge. rewrite length_drop. lia.
  - exists s1. split; [|exact Hs1]. unfold mreturn. now rewrite drop_ge by lia.
Qed.

(** The invariant when the bytes of an ordinary file change. *)
Lemma file_system_bytes F heap B n v bs :
  F !! n = Some v -> n <> FreeMapSector -> n <> DirectorySector -> file_system F heap B ->
  file_system (<[n := with_bytes bs v]> F) heap B.
Proof.
  intros Hn H0 H1 [(vm & Hvm & Hbm) HB1 HB2 Hused [dr Hdr]]. split; auto.
  - exists vm. now rewrite lookup_insert_ne.
  - intros k w x Hk Hx. destruct (decide (n = k)) as [<-|Hne].
    + rewrite lookup_insert_eq in Hk. injection Hk as <-. now apply (Hused n v).
    + rewrite lookup_insert_ne in Hk by exact Hne. now apply (Hused k w).
  - exists dr. apply (is_dir_mono F _ heap heap); [exact Hdr|now rewrite lookup_insert_ne|reflexivity].
Qed.

(** Print shows the bytes of the file it finds. *)
Lemma Print_run s F heap path name d k v fuel :
  sys_ok s F heap -> fits path -> root_path path name -> is_dir F heap DirectorySector d ->
  dir_map (mkDirState d heap) !! name = Some k -> 0 <= k -> F !! k = Some v ->
  Z.of_nat (length (vf_bytes v)) < 2 ^ 31 - TransferSize ->
  Z.of_nat (length (vf_bytes v)) <= TransferSize * (Z.of_nat fuel - 1) ->
  exists s', Print buf_junk table_junk fuel path s = Ok (vf_bytes v, s') /\
    sys_ok s' (<[k := with_visits (i32 (vf_visits v + 1)) v]> F) heap.
Proof.
  intros Hs Hfit Hr Hd Hk Hk0 Hv Hb Hf.
  destruct (Open_found_run buf_junk table_junk buf_junk_length table_junk_length s F heap path DirectorySector d (Some name) k v Hs (is_dir_file _ _ _ _ Hd) Hfit (root_path_locates _ _ _ _ Hr) Hd Hk Hk0 Hv)
    as (o & s1 & E1 & Ho & Hp & Hs1).
  destruct (print_loop_run fuel s1 _ heap o k _ Hs1 (lookup_insert_eq _ _ _) Ho) as (s2 & E2 & Hs2);
    cbn [vf_bytes with_visits] in *; [lia..|].
  exists s2. unfold Print. mstep_by E1. rewrite E2, Hp. split; [reflexivity|exact Hs2].
Qed.

Hypothesis index_junk_length : length index_junk = 32%nat.
Hypothesis index_junk_ints : Forall is_i32 index_junk.
Hypothesis map_junk_length : length map_junk = 32%nat.
Hypothesis map_junk_words : Forall is_word map_junk.
Hypothesis hdr_junk_wf : hdr_wf hdr_junk.
Hypothesis table_junk_wf : forall n, Forall entry_wf (table_junk n).

Lemma Copy_Print_run s F heap B path name d p n rest from fuel :
  sys_ok s F heap -> file_system F heap B -> fits path -> root_path path name ->
  is_dir F heap DirectorySector d -> dir_map (mkDirState d heap) !! name = None ->
  Z.of_nat (base.size (dir_map (mkDirState d heap))) < NumDirEntries ->
  new_chars heap (Z.of_nat (length name) + 1) = Some p -> free_bits B = n :: rest ->
  let size := Z.of_nat (length from) in
  Forall is_byte from -> size < 2 ^ 31 - TransferSize -> sectors_needed size <= Z.of_nat (length rest) ->
  divRoundUp (divRoundUp size SectorSize) 32 <= NumDirect -> size <= TransferSize * (Z.of_nat fuel - 1) ->
  exists s1 F1 B1 v d1 s2,
    Copy index_junk map_junk buf_junk table_junk hdr_junk (Some from) path s = Ok (Copied, s1) /\
    sys_ok s1 F1 (<[p := name]> heap) /\ file_system F1 (<[p := name]> heap) B1 /\
    is_dir F1 (<[p := name]> heap) DirectorySector d1 /\
    dir_map (mkDirState d1 (<[p := name]> heap)) = <[name := n]> (dir_map (mkDirState d heap)) /\
    F1 !! n = Some v /\ vf_bytes v = from /\
    (forall k, k <> FreeMapSector -> k <> DirectorySector -> k <> n -> F1 !! k = F !! k) /\
    Print buf_junk table_junk fuel path s1 = Ok (from, s2).
Proof.
  intros Hs HFS Hfit Hr Hd Hnone Hroom Hp Hfree size Hby Hsz Hspace Hidx Hfuel. unfold TransferSize in Hsz.
  set (heap' := <[p := name]> heap).
  destruct (Create_run index_junk map_junk buf_junk table_junk hdr_junk buf_junk_length buf_junk_bytes table_junk_length
    index_junk_length index_junk_ints map_junk_length map_junk_words hdr_junk_wf table_junk_wf
    s F heap B path DirectorySector d name p n rest size 0 Hs HFS Hfit (root_path_locates _ _ _ _ Hr) Hd)
    as (s0 & F0 & B0 & E0 & Hs0 & HFS0 & [(v0 & Hv0 & _ & _ & Hl0 & _) (d0 & Hd0 & Hm0) _ Hother _]);
    try assumption; try discriminate; try (unfold is_i32, size; lia).
  fold heap' in Hs0, HFS0, Hd0, Hm0.
  assert (Hnf : n ∈ free_bits B) by (rewrite Hfree; left).
  destruct (fsy_map _ _ _ HFS) as (vm & Hvm & _). destruct (is_dir_file _ _ _ _ Hd) as [vd Hvd].
  pose proof (free_no_header F heap B n HFS Hnf) as HFn.
  assert (Hn0 : n <> FreeMapSector) by (intros ->; congruence).
  assert (Hn1 : n <> DirectorySector) by (intros ->; congruence).
  assert (Hnr : 0 <= n).
  { destruct (vol_file _ _ (so_volume _ _ _ Hs0) n v0 Hv0) as [h Hh]. apply (fa_range _ _ _ _ (fi_at _ _ _ _ Hh)). }
  assert (Hen : dir_map (mkDirState d0 heap') !! name = Some n) by (rewrite Hm0; apply lookup_insert_eq).
  destruct (Open_found_run buf_junk table_junk buf_junk_length table_junk_length s0 F0 heap' path DirectorySector d0 (Some name) n v0 Hs0
    (is_dir_file _ _ _ _ Hd0) Hfit (root_path_locates _ _ _ _ Hr) Hd0 Hen Hnr Hv0) as (o & s1 & E1 & Ho & Hpo & Hs1).
  set (v1 := with_visits (i32 (vf_visits v0 + 1)) v0) in *.
  destruct (copy_loop_run (S (length from)) s1 _ heap' o n v1 [] (vf_bytes v0) from Hs1 (lookup_insert_eq _ _ _) Ho Hpo eq_refl)
    as (o2 & s2 & E2 & Hs2); [unfold size in Hl0; lia|exact Hby|lia|].
  rewrite insert_insert_eq in Hs2. cbn [app] in Hs2. set (v2 := with_bytes from v1) in *. set (F2 := <[n := v2]> F0) in *.
  assert (HFS2 : file_system F2 heap' B0).
  { unfold F2, v2. rewrite <- (insert_insert_eq F0 n _ v1). apply file_system_bytes; auto; [apply lookup_insert_eq|].
    now apply file_system_visits. }
  assert (Hd2 : is_dir F2 heap' DirectorySector d0)
    by (apply (is_dir_mono F0 F2 heap' heap'); [exact Hd0|unfold F2; now rewrite lookup_insert_ne|reflexivity]).
  destruct (Print_run s2 F2 heap' path name d0 n v2 fuel Hs2 Hfit Hr Hd2 Hen Hnr (lookup_insert_eq _ _ _)) as (s3 & E3 & _);
    [cbn; unfold TransferSize; lia|exact Hfuel|].
  exists s2, F2, B0, v2, d0, s3. split.
  - unfold Copy. rewrite i32_id by (unfold is_i32; lia). mstep_by E0. cbn [negb]. mstep_by E1. mstep_by E2. reflexivity.
  - do 4 (split; [assumption|]). split; [apply lookup_insert_eq|]. split; [reflexivity|]. split; [|exact E3].
    intros k H1 H2 H3. unfold F2. rewrite lookup_insert_ne by congruence. now apply Hother.
Qed.
(** C4: Copy brings a file in whole.  Copying a host file to a new name of the
    root directory, with an entry, a string and enough sectors free, creates
    the Nachos file with exactly the host file's bytes; the file system stays
    consistent and no file but the root and the free map changes.  Print then
    shows the same bytes. *)
Theorem Copy_Print s F heap B path name d p n rest from fuel :
  sys_ok s F heap -> file_system F heap B -> fits path -> root_path path name ->
  is_dir F heap DirectorySector d -> dir_map (mkDirState d heap) !! name = None ->
  Z.of_nat (base.size (dir_map (mkDirState d heap))) < NumDirEntries ->
  new_chars heap (Z.of_nat (length name) + 1) = Some p -> free_bits B = n :: rest ->
  let size := Z.of_nat (length from) in
  Forall is_byte from -> size < 2 ^ 31 - TransferSize -> sectors_needed size <= Z.of_nat (length rest) ->
  divRoundUp (divRoundUp size SectorSize) 32 <= NumDirect -> size <= TransferSize * (Z.of_nat fuel - 1) ->
  exists s1 F1 B1 v d1 s2,
    Copy index_junk map_junk buf_junk table_junk hdr_junk (Some from) path s = Ok (Copied, s1) /\
    sys_ok s1 F1 (<[p := name]> heap) /\ file_system F1 (<[p := name]> heap) B1 /\
    is_dir F1 (<[p := name]> heap) DirectorySector d1 /\
    dir_map (mkDirState d1 (<[p := name]> heap)) = <[name := n]> (dir_map (mkDirState d heap)) /\
    F1 !! n = Some v /\ vf_bytes v = from /\
    (forall k, k <> FreeMapSector -> k <> DirectorySector -> k <> n -> F1 !! k = F !! k) /\
    Print buf_junk table_junk fuel path s1 = Ok (from, s2).
Proof. apply Copy_Print_run. Qed.
End fstest_lemmas.

(** * A concrete run: a file of 23 bytes is copied to the formatted disk *)
#[local] Existing Instance sample_memory.
#[local] Existing Instance sample_alloc.
#[local] Existing Instance sample_time.

Definition sample_text : list Z := seqZ 60 23.

Lemma Copy_Print_witness : exists s s1 s2,
  Copy sample_junk sample_words zero_junk sample_table once_visited (Some sample_text) [97] s = Ok (Copied, s1) /\
  Print zero_junk sample_table 4 [97] s1 = Ok (sample_text, s2).
Proof.
  destruct formatted_sys as (s & F & B & Hs & HFS & Hfree & d & Hd & Hm).
  destruct (root_room ∅ d Hm) as [Hn Hr]. destruct (enough_free B Hfree) as [Hf _].
  destruct (@Copy_Print sample_time sample_alloc sample_memory sample_junk sample_words zero_junk sample_table once_visited zero_junk_length zero_junk_bytes
    sample_table_length eq_refl sample_junk_ints eq_refl sample_words_ok once_visited_wf sample_table_wf s F ∅ B [97] [97] d 16 6 (seqZ 7 1017)
    sample_text 4 Hs HFS (short_name_fits _) (conj no_slash_a (or_introl eq_refl)) Hd Hn Hr ltac:(reflexivity) Hf)
    as (s1 & F1 & B1 & v & d1 & s2 & E1 & _ & _ & _ & _ & _ & _ & _ & E2).
  - unfold sample_text. apply Forall_forall. intros x Hx. apply elem_of_seqZ in Hx. unfold is_byte. lia.
  - vm_compute. reflexivity.
  - vm_compute. discriminate.
  - vm_compute. discriminate.
  - vm_compute. discriminate.
  - exists s, s1, s2. auto.
Defined.
