(* ===== verification/Shell.v ===== *)
(** The file system build (filesys/Makefile): main of threads/main.cc with the
    commands of filesys/fstest.cc and filesys/filesys.cc.

    [Nachos] puts the globals together: the kernel of Boot.v with the machine of
    Machine.v, the frame map, the file system of FileSys.v and the characters
    printed by Print.  [filesys_boot] and [file_commands] implement the
    interfaces of Initialize and of main on it.  The sectors in [SysState] are
    those behind synchDisk (SynchDisk.v), so that creating it has no effect here.
    The commands of user programs and tests are parameters, like the files of
    the host. *)
From Stdlib Require Import ZArith Lia String Ascii.
From stdpp Require Import base option list list_numbers gmap.
From S2P Require Import Prelude BitMap Machine Stats Interrupt TimerDev Thread CmdLine Boot Disk Sectors FileHdr OpenFile Volume Directory FileSys FsTermination FsTest.

Local Open Scope Z_scope.
Local Open Scope list_scope.

Record Nachos := mkNachos {
  n_kernel : ksys;
  n_frames : option BitMap;
  n_sys    : SysState;
  n_out    : list Z
}.

Definition on_kernel (m : M ksys unit) : M Nachos unit := fun s =>
  match m (n_kernel s) with
  | Ok (_, k) => Ok (tt, mkNachos k (n_frames s) (n_sys s) (n_out s))
  | Err e => Err e
  end.
Definition on_sys {A} (m : M SysState A) : M Nachos A := fun s =>
  match m (n_sys s) with
  | Ok (a, f) => Ok (a, mkNachos (n_kernel s) (n_frames s) f (n_out s))
  | Err e => Err e
  end.

(** machine = m *)
Definition with_machine (m : Machine) (k : ksys) : ksys :=
  set_dev (mkKDev (kd_kernel (dev k)) (kd_timer (dev k)) (kd_rand (dev k)) (kd_flags (dev k)) (Some m)) k.

(** The characters of a word of the command line. *)
Definition chars (w : string) : cstring := (fun c => Z.of_nat (nat_of_ascii c)) <$> list_ascii_of_string w.

Section shell.
Context {HT : HostTime} {HA : HostAlloc} {HM : HostMemory} `{!HostRandom}.
Variables (index_junk map_junk : list Z) (buf_junk : Z -> list Z).
Variable table_junk : Z -> list DirectoryEntry.
Variable hdr_junk : FileHeader.
Variables (frame_junk time_junk : list Z).
Variable host_file : string -> option (list Z).
Variables (switch : Z -> Z -> M ksys unit) (depth : nat) (p : Z).
Variable other : Commands Nachos.
Variable fuel : nat.

Definition new_frames (nitems : Z) : M Nachos unit := fun s =>
  match BitMap_BitMap nitems frame_junk with
  | Ok b => Ok (tt, mkNachos (n_kernel s) (Some b) (n_sys s) (n_out s))
  | Err e => Err e
  end.

(** new Machine(debugUserProg), without a TLB *)
Definition create_machine (debug : bool) : M Nachos unit := fun s =>
  match n_frames s, threads (ker (n_kernel s)) !! currentThread (ker (n_kernel s)) with
  | Some b, Some t =>
      let m := Machine_Machine false [] time_junk b (Thread.tid t) (now (n_kernel s)) (int_status (interrupt (n_kernel s))) in
      Ok (tt, mkNachos (with_machine m (n_kernel s)) (n_frames s) (n_sys s) (n_out s))
  | _, _ => Err BadAccess
  end.

Definition filesys_boot : Boot Nachos :=
  let k := threads_boot switch depth p in
  {| boot_DebugInit fs := on_kernel (boot_DebugInit k fs);
     new_Statistics := on_kernel (new_Statistics k);
     new_Interrupt := on_kernel (new_Interrupt k);
     new_Scheduler := on_kernel (new_Scheduler k);
     new_Timer b := on_kernel (new_Timer k b);
     no_threadToBeDestroyed := on_kernel (no_threadToBeDestroyed k);
     new_main_thread := on_kernel (new_main_thread k);
     main_running := on_kernel (main_running k);
     boot_Enable := on_kernel (boot_Enable k);
     boot_CallOnUserAbort := on_kernel (boot_CallOnUserAbort k);
     new_memBitMap := new_frames;
     new_Machine := create_machine;
     new_SynchDisk _ := mreturn tt;
     new_FileSystem format :=
       on_sys (FileSystem_FileSystem index_junk map_junk buf_junk table_junk hdr_junk format false);
     new_PostOffice _ _ _ := mfail BadAccess |}.

Definition file_commands : Commands Nachos :=
  mkCommands (mreturn tt) (do_StartProcess other) (do_ConsoleTest other)
    (on_kernel (@Halt _ _ (threads_hardware switch depth)))
    (fun f t => on_sys (Copy index_junk map_junk buf_junk table_junk hdr_junk (host_file f) (chars t)) >>> mreturn tt)
    (fun f => let! out := on_sys (FsTest.Print buf_junk table_junk fuel (chars f)) in
              mmodify (fun s => mkNachos (n_kernel s) (n_frames s) (n_sys s) (n_out s ++ out)))
    (fun f => on_sys (FileSystem_Remove index_junk map_junk buf_junk table_junk (chars f)) >>> mreturn tt)
    (on_sys (List_files buf_junk table_junk))
    (on_sys (FileSys.Print map_junk buf_junk table_junk))
    (do_PerformanceTest other) (do_Delay other) (do_MailTest other).

(** main of this build; the last statement is currentThread->Finish().
    [nachos_until] is main with another last statement. *)
Definition finish_main : M Nachos unit :=
  on_kernel (let! k := get_kernel in
             @Finish _ _ (threads_hardware switch depth) _ (threads_switch switch) (S fuel) (currentThread k)).
Definition nachos_until (finish : M Nachos unit) (argv : list string) : M Nachos unit :=
  main filesys_build file_commands (Initialize filesys_boot filesys_build) (mreturn tt) finish argv.
Definition nachos (argv : list string) : M Nachos unit := nachos_until finish_main argv.
End shell.

(** * Lemmas *)
Lemma on_kernel_seq m k (K1 K2 : M Nachos unit) s :
  K1 s = on_kernel m s -> (forall s, K2 s = on_kernel k s) -> (K1 >>> K2) s = on_kernel (m >>> k) s.
Proof.
  intros H1 H2. unfold mthen at 1. rewrite H1. unfold on_kernel, mthen.
  destruct (m (n_kernel s)) as [[[] k']|]; [|reflexivity]. apply H2.
Qed.

Lemma on_sys_run {A} (m : M SysState A) s a f :
  m (n_sys s) = Ok (a, f) -> on_sys m s = Ok (a, mkNachos (n_kernel s) (n_frames s) f (n_out s)).
Proof. intros E. unfold on_sys. now rewrite E. Qed.

Section shell_lemmas.
Context {HT : HostTime} {HA : HostAlloc} {HM : HostMemory} `{!HostRandom}.
Variables (index_junk map_junk : list Z) (buf_junk : Z -> list Z).
Variable table_junk : Z -> list DirectoryEntry.
Variable hdr_junk : FileHeader.
Variables (frame_junk time_junk : list Z).
Variable host_file : string -> option (list Z).
Variables (switch : Z -> Z -> M ksys unit) (depth : nat) (p : Z).
Variable other : Commands Nachos.
Variable fuel : nat.
Hypothesis buf_junk_length : forall n, 0 <= n -> Z.of_nat (length (buf_junk n)) = n.
Hypothesis buf_junk_bytes : forall n, Forall is_byte (buf_junk n).
Hypothesis table_junk_length : forall n, 0 <= n -> Z.of_nat (length (table_junk n)) = n.
Hypothesis index_junk_length : length index_junk = 32%nat.
Hypothesis index_junk_ints : Forall is_i32 index_junk.
Hypothesis map_junk_length : length map_junk = 32%nat.
Hypothesis map_junk_words : Forall is_word map_junk.
Hypothesis hdr_junk_wf : hdr_wf hdr_junk.
Hypothesis table_junk_wf : forall n, Forall entry_wf (table_junk n).
Hypothesis frame_junk_length : length frame_junk = 1%nat.
Hypothesis frame_junk_words : Forall is_word frame_junk.

Let boot : Boot Nachos := filesys_boot index_junk map_junk buf_junk table_junk hdr_junk frame_junk time_junk switch depth p.
Let shell : Commands Nachos := file_commands index_junk map_junk buf_junk table_junk hdr_junk host_file switch depth other fuel.

(** The kernel of this build starts as that of the threads build. *)
Lemma boot_kernel_lifts o s :
  boot_kernel boot o s = on_kernel (boot_kernel (threads_boot switch depth p) o) s.
Proof.
  unfold boot_kernel. do 4 (apply on_kernel_seq; [reflexivity|clear s; intros s]).
  apply on_kernel_seq; [destruct (randomYield o); [reflexivity|now destruct s]|clear s; intros s].
  do 4 (apply on_kernel_seq; [reflexivity|clear s; intros s]). reflexivity.
Qed.

(** Initialize -f: a started kernel, a machine and a formatted disk. *)
Lemma Initialize_format o s :
  unbooted (n_kernel s) -> fs_wf (sys_fs (n_sys s)) -> format o = true ->
  exists s' F B, (boot_kernel boot o >>> boot_devices boot filesys_build o) s = Ok (tt, s') /\
    booted p o (n_kernel s') /\ is_Some (kd_machine (dev (n_kernel s'))) /\ n_out s' = n_out s /\
    sys_ok (n_sys s') F (sys_heap (n_sys s)) /\ formatted F (sys_heap (n_sys s)) B.
Proof.
  intros Hk Hfs Hf. destruct (boot_kernel_run switch depth p o (n_kernel s) Hk) as (k & Ek & Hb).
  assert (E1 : boot_kernel boot o s = Ok (tt, mkNachos k (n_frames s) (n_sys s) (n_out s))).
  { rewrite boot_kernel_lifts. unfold on_kernel. now rewrite Ek. }
  destruct (BitMap_ctor 32 frame_junk) as (b & Eb & _); [discriminate|rewrite frame_junk_length; reflexivity|exact frame_junk_words|].
  destruct (format_run index_junk map_junk buf_junk table_junk hdr_junk buf_junk_length buf_junk_bytes table_junk_length
    index_junk_length index_junk_ints map_junk_length map_junk_words hdr_junk_wf table_junk_wf (n_sys s) Hfs)
    as (f & F & B & Ef & Hok & Hform & _).
  destruct (bt_main _ _ _ Hb) as (t & Et & _).
  eexists (mkNachos (with_machine _ k) (Some b) f (n_out s)), F, B. split; [|split; [destruct Hb; now split|eauto]]. mstep_by E1. unfold boot_devices. cbn [when filesys_build USER_PROGRAM FILESYS FILESYS_NEEDED NETWORK].
  assert (E2 : new_memBitMap boot 32 (mkNachos k (n_frames s) (n_sys s) (n_out s)) =
    Ok (tt, mkNachos k (Some b) (n_sys s) (n_out s))) by (cbn; unfold new_frames; now rewrite Eb).
  unfold mthen at 1. rewrite (mthen_step _ _ _ _ _ E2). cbn [new_Machine boot filesys_boot]. unfold create_machine. cbn [n_frames n_kernel].
  rewrite Et, (bt_current _ _ _ Hb), lookup_singleton_eq. cbv iota beta.
  unfold mthen at 1. cbn [new_SynchDisk boot filesys_boot mreturn]. rewrite Hf. unfold mthen, boot. cbn [new_FileSystem filesys_boot].
  erewrite on_sys_run by exact Ef. reflexivity.
Qed.

(** The main thread's Finish, on a started kernel, halts. *)
Lemma finish_halts o s :
  booted p o (n_kernel s) -> is_Some (kd_machine (dev (n_kernel s))) -> finish_main switch depth fuel s = Err Halted.
Proof.
  intros Hb Hm. unfold finish_main, on_kernel. destruct (bt_main _ _ _ Hb) as (t & Et & _).
  rewrite (mthen_step _ _ _ (ker (n_kernel s)) (n_kernel s)) by reflexivity. rewrite (Finish_alone (fun d => is_Some (kd_machine d))) with (t := t); [reflexivity|..].
  - intros s' [m E]. exists (pagehit m, pagemiss m). destruct depth; (change (read_counters s' = Ok ((pagehit m, pagemiss m), s')); unfold read_counters, mthen, mget, mlift; now rewrite E).
  - intros k d Hd. exact Hd.
  - exact Hm.
  - rewrite Et, (bt_current _ _ _ Hb). apply lookup_singleton_eq.
  - apply (bt_ready _ _ _ Hb).
  - unfold only_timer. pose proof (bt_pending _ _ _ Hb) as Hp. destruct (randomYield o); [now destruct Hp as (w & _ & ->)|now rewrite Hp].
Qed.

(** C5: From the command line to the disk and back.  [nachos -f -cp unix file
    -p file], from any disk, starts the kernel, formats the disk, copies the
    host file in and prints: main reaches its last statement, whatever that is,
    in one state [s'], in which exactly the bytes of the host file have been
    printed and the file system is consistent with the file as its one entry.
    The last statement, Finish of the main thread, halts the machine.  The file
    fits the disk, and neither name is a flag of the kernel or contains a
    slash. *)
Theorem nachos_copies prog unix file bytes q s :
  unbooted (n_kernel s) -> fs_wf (sys_fs (n_sys s)) ->
  is_option filesys_build unix = false -> is_option filesys_build file = false ->
  host_file unix = Some bytes -> Forall is_byte bytes -> no_slash (chars file) -> fits (chars file) ->
  new_chars (sys_heap (n_sys s)) (Z.of_nat (length (chars file)) + 1) = Some q ->
  let size := Z.of_nat (length bytes) in
  sectors_needed size <= 1017 -> divRoundUp (divRoundUp size SectorSize) 32 <= NumDirect ->
  size < 2 ^ 31 - TransferSize -> size <= TransferSize * (Z.of_nat fuel - 1) ->
  let argv := [prog; "-f"; "-cp"; unix; file; "-p"; file]%string in
  exists s' F B d,
    (forall finish,
       nachos_until index_junk map_junk buf_junk table_junk hdr_junk frame_junk time_junk host_file switch depth p other fuel
         finish argv s = finish s') /\
    n_out s' = n_out s ++ bytes /\
    nachos index_junk map_junk buf_junk table_junk hdr_junk frame_junk time_junk host_file switch depth p other fuel
      argv s = Err Halted /\
    let heap := <[q := chars file]> (sys_heap (n_sys s)) in
    sys_ok (n_sys s') F heap /\ file_system F heap B /\ is_dir F heap DirectorySector d /\
    dir_map (mkDirState d heap) = {[chars file := 6]}.
Proof.
  intros Hk Hfs Hu Hf Hhost Hby Hns Hfit Hq size Hsec Hidx Hmax Hfuel argv.
  set (o := set_format default_options).
  destruct (Initialize_format o s Hk Hfs eq_refl) as (s1 & F & B & E1 & Hb & Hmach & Hout & Hok & HFS & Hfree & d & Hd & Hm).
  assert (EI : Initialize boot filesys_build [prog; "-f"; "-cp"; unix; file; "-p"; file]%string s = Ok (tt, s1)).
  { unfold Initialize. rewrite (Initialize_options_run filesys_build prog _
      [OptFormat; OptOther "-cp"; OptOther unix; OptOther file; OptOther "-p"; OptOther file] OptDone); [exact E1|].
    split; [|now split]. cbn [forallb option_in]. now rewrite Hu, Hf. }
  destruct (Copy_Print_run index_junk map_junk buf_junk table_junk hdr_junk buf_junk_length buf_junk_bytes table_junk_length
    index_junk_length index_junk_ints map_junk_length map_junk_words hdr_junk_wf table_junk_wf (n_sys s1) F (sys_heap (n_sys s)) B
    (chars file) (chars file) d q 6 (seqZ 7 1017) bytes fuel Hok HFS Hfit (conj Hns (or_introl eq_refl)) Hd)
    as (f2 & F2 & B2 & v & d2 & f3 & E2 & Hok2 & HFS2 & Hd2 & Hm2 & Hv & Hvb & _ & E3); auto.
  { now rewrite Hm. } { rewrite Hm. reflexivity. }
  set (heap := <[q := chars file]> (sys_heap (n_sys s))) in *.
  assert (Hen : dir_map (mkDirState d2 heap) = {[chars file := 6]}) by (rewrite Hm2, Hm; apply insert_empty).
  destruct (Print_run buf_junk table_junk buf_junk_length table_junk_length f2 F2 heap (chars file) (chars file) d2 6 v fuel Hok2 Hfit
    (conj Hns (or_introl eq_refl)) Hd2) as (f4 & E4 & Hok4); [rewrite Hen; apply lookup_singleton_eq|lia|exact Hv|rewrite Hvb; assumption..|].
  rewrite Hvb in E4. clear E3 f3.
  set (s2 := mkNachos (n_kernel s1) (n_frames s1) f2 (n_out s1)).
  set (s3 := mkNachos (n_kernel s1) (n_frames s1) f4 (n_out s1 ++ bytes)).
  assert (Ecp : run_command shell (CmdCopy unix file) s1 = Ok (tt, s2)).
  { cbn [run_command shell file_commands do_Copy]. rewrite Hhost. now rewrite (mthen_step _ _ _ _ _ (on_sys_run _ _ _ _ E2)). }
  assert (Epr : run_command shell (CmdPrint file) s2 = Ok (tt, s3)).
  { cbn [run_command shell file_commands do_Print]. now rewrite (mthen_step _ _ _ _ _ (on_sys_run _ s2 _ _ E4)). }
  assert (Hrun : forall finish, nachos_until index_junk map_junk buf_junk table_junk hdr_junk frame_junk time_junk host_file
    switch depth p other fuel finish argv s = finish s3).
  { intros finish. unfold nachos_until, argv. erewrite main_run with (ws := [CmdOther "-f"; CmdCopy unix file; CmdPrint file]) (e := CmdDone);
      [|split; [reflexivity|now split]].
    fold shell. fold boot. mstep_by EI. mstep_to tt s1. cbn [mfor run_end].
    rewrite (mthen_step _ _ s1 tt s3); [reflexivity|]. unfold mthen at 1.
    rewrite (mthen_step _ _ s1 tt s1) by reflexivity. rewrite (mthen_step _ _ _ _ _ Ecp), (mthen_step _ _ _ _ _ Epr). reflexivity. }
  exists s3, (<[6 := with_visits (i32 (vf_visits v + 1)) v]> F2), B2, d2. split; [exact Hrun|].
  split; [cbn; now rewrite Hout|]. split; [unfold nachos; rewrite Hrun; exact (finish_halts o s3 Hb Hmach)|]. split; [exact Hok4|].
  split; [now apply file_system_visits|]. split; [|exact Hen].
  apply (is_dir_mono F2 _ heap heap); [exact Hd2|now rewrite lookup_insert_ne|reflexivity].
Qed.
End shell_lemmas.

(** * A concrete run: a file of 23 bytes, on a blank disk *)
#[local] Existing Instance sample_memory.
#[local] Existing Instance sample_alloc.
#[local] Existing Instance sample_time.
#[local] Existing Instance sample_random.

Definition blank_nachos : Nachos := mkNachos blank_ksys None blank_sys [].
Definition host_files (w : string) : option (list Z) := if String.eqb w "text" then Some sample_text else None.
Definition no_commands : Commands Nachos :=
  mkCommands (mreturn tt) (fun _ => mfail BadAccess) (fun _ => mfail BadAccess) (mfail BadAccess)
    (fun _ _ => mfail BadAccess) (fun _ => mfail BadAccess) (fun _ => mfail BadAccess) (mfail BadAccess)
    (mfail BadAccess) (mfail BadAccess) (fun _ => mfail BadAccess) (fun _ => mfail BadAccess).

Lemma nachos_copies_witness :
  let run := fun finish => nachos_until sample_junk sample_words zero_junk sample_table once_visited [5] (replicate 32 0) host_files
    no_switch 1 7 no_commands 4 finish ["nachos"; "-f"; "-cp"; "text"; "a"; "-p"; "a"]%string blank_nachos in
  exists s', run (mreturn tt) = Ok (tt, s') /\ n_out s' = sample_text /\
    run (finish_main no_switch 1 4) = Err Halted.
Proof.
  destruct (@nachos_copies sample_time sample_alloc sample_memory sample_random sample_junk sample_words zero_junk sample_table
    once_visited [5] (replicate 32 0) host_files no_switch 1 7 no_commands 4 zero_junk_length zero_junk_bytes
    sample_table_length eq_refl sample_junk_ints eq_refl sample_words_ok once_visited_wf sample_table_wf eq_refl
    ltac:(repeat constructor; discriminate)
    "nachos" "text" "a" sample_text 16 blank_nachos blank_unbooted sample_fs_wf eq_refl eq_refl eq_refl)
    as (s' & F & B & d & E & Hout & Hh & _).
  - unfold sample_text. apply Forall_forall. intros x Hx. apply elem_of_seqZ in Hx. unfold is_byte. lia.
  - exact no_slash_a.
  - exact (short_name_fits _).
  - reflexivity.
  - vm_compute. discriminate.
  - vm_compute. discriminate.
  - vm_compute. reflexivity.
  - vm_compute. discriminate.
  - exists s'. split; [exact (E (mreturn tt))|]. split; [exact Hout|exact Hh].
Defined.
