(* ===== verification/Paging.v ===== *)
(** Demand paging: what Machine.v's Translate, ReadMem, WriteMem,
    RaiseException, ExceptionHandler and LRU give to a user program.

    [vbyte s a] is the byte a program sees at virtual address [a]: in its frame
    when the page is mapped, in the swap file otherwise.  [vm_inv u k s] is the
    invariant of a machine that runs one user program: the first [k] entries
    map distinct pages, entry [i] uses frame [i], memBitMap marks exactly these
    frames, and the first [u] entries have been used ([u = k] except between a
    page fault and the retry of the faulting access). *)
From Stdlib Require Import ZArith Lia.
From stdpp Require Import base option list list_numbers.
From S2P Require Import Prelude Stats BitMap HostFile Machine.

Local Open Scope Z_scope.

Definition swap_bytes (s : Machine) : list Z :=
  match disk s with
  | Some d => contents (stub_file d)
  | None => []
  end.

Definition vbyte (s : Machine) (a : Z) : option Z :=
  match lookup_page s (a / PageSize) with
  | Some i => match (pageTable s).[i] with
              | Some e => (mainMemory s).[physicalPage e * PageSize + a mod PageSize]
              | None => None
              end
  | None => (swap_bytes s).[a]
  end.

(** Pages whose position in the swap file is a non-negative int. *)
Definition MaxPage : Z := 2 ^ 24.

Record slot_inv (s : Machine) (u k i : Z) (e : TranslationEntry) : Prop := {
  sl_use   : use e = (i <? u);
  sl_valid : valid e = (i <? k);
  sl_ro    : readOnly e = false;
  sl_page  : is_i32 (virtualPage e);
  sl_map   : i < k -> physicalPage e = i /\ tid e = current_tid s /\ 0 <= virtualPage e < MaxPage
}.

Record vm_inv (u k : Z) (s : Machine) : Prop := {
  vm_wf     : machine_wf s;
  vm_bounds : 0 <= u <= k /\ k <= NumPhysPages;
  vm_slots  : forall i e, (pageTable s).[i] = Some e -> slot_inv s u k i e;
  vm_inj    : forall i j e e', i < k -> j < k ->
                (pageTable s).[i] = Some e -> (pageTable s).[j] = Some e' ->
                virtualPage e = virtualPage e' -> i = j;
  vm_map_wf : bitmap_wf (memBitMap s);
  vm_bits   : numBits (memBitMap s) = NumPhysPages;
  vm_free   : free_bits (memBitMap s) = seqZ k (NumPhysPages - k);
  vm_disk   : is_Some (disk s);
  vm_swap   : Forall is_byte (swap_bytes s)
}.

Section lookup_lemmas.
Implicit Types s : Machine.

Lemma lookup_page_None s vpn :
  lookup_page s vpn = None <-> forall i, 0 <= i < NumPhysPages -> maps_at s vpn i = false.
Proof.
  unfold lookup_page. rewrite last_None. split.
  - intros H i Hi. apply not_true_is_false. intros Hm.
    assert (i ∈ hits s vpn (seqZ 0 NumPhysPages)) as Hin.
    { apply list_elem_of_filter. split; [exact Hm|]. apply elem_of_seqZ. lia. }
    rewrite H in Hin. inversion Hin.
  - intros H. apply filter_none, Forall_forall. intros i Hi. apply elem_of_seqZ in Hi.
    rewrite H by lia. discriminate.
Qed.

Lemma lookup_page_unique s vpn i :
  0 <= i < NumPhysPages -> maps_at s vpn i = true ->
  (forall j, 0 <= j < NumPhysPages -> maps_at s vpn j = true -> j = i) ->
  lookup_page s vpn = Some i.
Proof.
  intros Hi Hm Hu. destruct (lookup_page s vpn) as [j|] eqn:E.
  - f_equal. apply last_Some_elem_of in E. apply list_elem_of_filter in E as [Hj E].
    apply elem_of_seqZ in E. apply Hu; [lia|exact Hj].
  - rewrite lookup_page_None in E. rewrite E in Hm by lia. discriminate.
Qed.

(** With the invariant, a page is mapped exactly by the slot that holds it. *)
Lemma maps_at_slot u k s vpn i e :
  vm_inv u k s -> 0 <= vpn < MaxPage -> (pageTable s).[i] = Some e ->
  maps_at s vpn i = ((i <? k) && (virtualPage e =? vpn))%bool.
Proof.
  intros Hv Hvpn He. destruct (vm_slots u k s Hv i e He) as [_ Hval _ Hp Hm].
  unfold maps_at, maps. rewrite He, Hval. destruct (Z.ltb_spec i k) as [Hk|Hk].
  - destruct (Hm Hk) as (_ & -> & Hr). rewrite Z.eqb_refl. cbn [andb].
    unfold MaxPage in *. now rewrite u32_id by lia.
  - now rewrite andb_false_r.
Qed.

Lemma slot_exists u k s i : vm_inv u k s -> 0 <= i < NumPhysPages ->
  exists e, (pageTable s).[i] = Some e.
Proof. intros Hv Hi. apply zlookup_lt. rewrite wf_table; [exact Hi|apply Hv]. Qed.

Lemma lookup_page_slot u k s vpn i :
  vm_inv u k s -> 0 <= vpn < MaxPage ->
  lookup_page s vpn = Some i <->
  0 <= i < k /\ exists e, (pageTable s).[i] = Some e /\ virtualPage e = vpn.
Proof.
  intros Hv Hvpn. pose proof (vm_bounds u k s Hv) as Hb. split.
  - intros H. destruct (lookup_page_entry s vpn i (vm_wf _ _ _ Hv) H) as (Hi & e & He & Hm & _).
    assert (maps_at s vpn i = true) as Hma by (unfold maps_at; now rewrite He).
    rewrite (maps_at_slot u k s vpn i e Hv Hvpn He) in Hma. bool_hyps.
    split; [lia|]. exists e. auto.
  - intros (Hi & e & He & Hp). apply lookup_page_unique; [lia|..].
    + rewrite (maps_at_slot u k s vpn i e Hv Hvpn He).
      apply andb_true_intro. split; [apply Z.ltb_lt; lia|now apply Z.eqb_eq].
    + intros j Hj Hm. destruct (slot_exists u k s j Hv Hj) as [e' He'].
      rewrite (maps_at_slot u k s vpn j e' Hv Hvpn He') in Hm. bool_hyps.
      apply (vm_inj u k s Hv j i e' e); auto; lia || congruence.
Qed.

Lemma page_range a : 0 <= a < 2 ^ 31 -> 0 <= a / PageSize < MaxPage.
Proof.
  unfold MaxPage, PageSize. intros Ha. split; [apply Z.div_pos; lia|].
  apply Z.div_lt_upper_bound; lia.
Qed.

Lemma vbyte_mapped u k s i e a :
  vm_inv u k s -> 0 <= a < 2 ^ 31 -> 0 <= i < k -> (pageTable s).[i] = Some e ->
  virtualPage e = a / PageSize ->
  vbyte s a = (mainMemory s).[i * PageSize + a mod PageSize].
Proof.
  intros Hv Ha Hi He Hp. unfold vbyte.
  rewrite (proj2 (lookup_page_slot u k s (a / PageSize) i Hv (page_range a Ha))) by eauto.
  rewrite He. destruct (sl_map _ _ _ _ _ (vm_slots u k s Hv i e He)) as (-> & _); [lia|reflexivity].
Qed.
End lookup_lemmas.

(** * The page-fault handler *)
Section lru_lemmas.
Implicit Types s : Machine.

Lemma LRU_free_skip s vpn l :
  Forall (fun i => exists e, (pageTable s).[i] = Some e /\ use e = true) l ->
  forall l', mfirst (l ++ l') (LRU_free_at vpn) s = mfirst l' (LRU_free_at vpn) s.
Proof.
  intros Hl l'. apply mfirst_skip. eapply Forall_impl; [exact Hl|].
  intros i (e & He & Hu). unfold LRU_free_at. mstep_to s s. rewrite He. mstep_to e s. now rewrite Hu.
Qed.

Lemma used_slots u k s :
  vm_inv u k s -> Forall (fun i => exists e, (pageTable s).[i] = Some e /\ use e = true) (seqZ 0 u).
Proof.
  intros Hv. apply Forall_forall. intros i Hi. apply elem_of_seqZ in Hi.
  pose proof (vm_bounds u k s Hv). destruct (slot_exists u k s i Hv) as [e He]; [lia|].
  exists e. split; [exact He|]. rewrite (sl_use _ _ _ _ _ (vm_slots u k s Hv i e He)).
  apply Z.ltb_lt. lia.
Qed.

Lemma LRU_free_none s vpn :
  vm_inv NumPhysPages NumPhysPages s -> LRU_free vpn s = Ok (None, s).
Proof.
  intros Hv. unfold LRU_free. rewrite <- (app_nil_r (seqZ 0 NumPhysPages)).
  rewrite LRU_free_skip; [reflexivity|]. eapply used_slots, Hv.
Qed.

(** The slot that LRU fills: page [vpn] in frame [i]. *)
Definition filled (s : Machine) (vpn i : Z) (e : TranslationEntry) : TranslationEntry :=
  mkTranslationEntry vpn i true (readOnly e) (use e) (dirty e) (current_tid s).

Lemma LRU_free_take s vpn k e :
  vm_inv k k s -> k < NumPhysPages -> 0 <= vpn < MaxPage -> (pageTable s).[k] = Some e ->
  exists b, bitmap_wf b /\ numBits b = NumPhysPages /\
    free_bits b = seqZ (k + 1) (NumPhysPages - (k + 1)) /\
    LRU_free vpn s =
      Ok (Some k, set_pageTable (<[Z.to_nat k := filled s vpn k e]> (pageTable s))
                    (set_memBitMap b s)).
Proof.
  intros Hv Hk Hvpn He. pose proof (vm_bounds k k s Hv) as Hb.
  pose proof (vm_free k k s Hv) as Hf. rewrite seqZ_cons in Hf by lia.
  destruct (BitMap_Find_cons (memBitMap s) k _ (vm_map_wf k k s Hv) Hf)
    as (b & E & Hwf & [Hn _] & Hr & _). exists b.
  split; [exact Hwf|]. split; [now rewrite Hn, (vm_bits k k s Hv)|].
  split; [rewrite Hr; f_equal; lia|]. unfold LRU_free.
  replace (seqZ 0 NumPhysPages) with (seqZ 0 k ++ seqZ k (NumPhysPages - k)).
  2:{ pose proof (seqZ_app 0 k (NumPhysPages - k)) as Ha. rewrite Z.add_0_l in Ha.
      rewrite <- Ha by lia. f_equal. lia. }
  rewrite LRU_free_skip by (eapply used_slots, Hv). rewrite (seqZ_cons k) by lia. cbn [mfirst].
  assert (Hu : use e = false).
  { rewrite (sl_use _ _ _ _ _ (vm_slots k k s Hv k e He)). apply Z.ltb_ge. lia. }
  unfold LRU_free_at, mthen, mget at 1. cbv beta iota. rewrite He. cbn [mlift]. rewrite Hu. cbn [negb].
  unfold with_memBitMap. rewrite E. cbv beta iota. unfold mget at 1. cbv beta iota.
  unfold write_entry, mthen, mget. cbn [pageTable set_memBitMap current_tid].
  rewrite zupd_lt by (rewrite wf_table; [lia|apply Hv]). cbn [mlift mmodify mreturn].
  unfold filled. rewrite Hu, i32_id by (unfold is_i32, MaxPage in *; lia). reflexivity.
Qed.

Lemma LRU_scan_range s l temp temp_i :
  Z.of_nat (length (pageLasttime s)) = NumPhysPages ->
  Forall (fun i => 0 <= i < NumPhysPages) l -> 0 <= temp_i < NumPhysPages ->
  exists r, LRU_scan l temp temp_i s = Ok (r, s) /\ 0 <= r < NumPhysPages.
Proof.
  intros Ht Hl. revert temp temp_i. induction Hl as [|i l Hi _ IH]; intros temp temp_i Hr.
  - exists temp_i. split; [reflexivity|exact Hr].
  - cbn [LRU_scan]. destruct (zlookup_lt (pageLasttime s) i) as [t E]; [lia|].
    mstep_to s s. rewrite E. mstep_to t s. destruct (t <? temp); now apply IH.
Qed.

(** The eviction: the victim's frame goes to its place in the swap file. *)
Lemma LRU_evict_spec s vpn :
  vm_inv NumPhysPages NumPhysPages s -> 0 <= vpn < MaxPage ->
  exists i e d, 0 <= i < NumPhysPages /\ (pageTable s).[i] = Some e /\
    contents (stub_file d) = written (swap_bytes s) (virtualPage e * PageSize)
                               (slice (mainMemory s) (i * PageSize) PageSize) /\
    LRU_evict vpn s =
      Ok (i, set_pageTable (<[Z.to_nat i := filled s vpn i e]> (pageTable s))
               (set_disk (Some d) s)).
Proof.
  intros Hv Hvpn. pose proof (vm_wf _ _ _ Hv) as Hwf. unfold LRU_evict.
  destruct (LRU_scan_range s (seqZ 0 NumPhysPages) 2147483644 0) as (i & E & Hi);
    [apply Hwf|apply seqZ_bound|unfold NumPhysPages; lia|].
  destruct (slot_exists _ _ s i Hv Hi) as [e He].
  destruct (sl_map _ _ _ _ _ (vm_slots _ _ s Hv i e He)) as (Hp & Ht & Hpage); [lia|].
  destruct (vm_disk _ _ s Hv) as [d Hd].
  assert (Hpos : 0 <= virtualPage e * PageSize) by (unfold PageSize; lia).
  destruct (Stub_WriteAt_ok (slice (mainMemory s) (i * PageSize) PageSize) _ d Hpos)
    as (d' & Ew & Hc & _).
  exists i, e, d'. split; [exact Hi|]. split; [exact He|].
  split; [unfold swap_bytes; now rewrite Hd|].
  mstep_by E. assert (He1 : read_entry (InTable i) s = Ok (e, s)).
  { unfold read_entry. mstep_to s s. now rewrite He. }
  mstep_by He1. mstep_to s s. unfold PageSize, MaxPage, NumPhysPages in *.
  rewrite Hp, !i32_id by (unfold is_i32; lia).
  rewrite load_ok by (rewrite ?(wf_memory s Hwf); unfold MemorySize, NumPhysPages, PageSize; lia).
  mstep_to (slice (mainMemory s) (i * 128) 128) s.
  assert (Ed : with_disk (Stub_WriteAt (slice (mainMemory s) (i * 128) 128) (virtualPage e * 128)) s
               = Ok (Z.of_nat (length (slice (mainMemory s) (i * 128) 128)), set_disk (Some d') s)).
  { unfold with_disk. now rewrite Hd, Ew. }
  mstep_by Ed. unfold write_entry, mthen, mget. cbn [pageTable set_disk].
  rewrite zupd_lt by (rewrite wf_table; auto). cbn [mlift mmodify mreturn].
  unfold filled. reflexivity.
Qed.
End lru_lemmas.

(** * A page brought in *)

(** [s1] is [s] with page [vpn] brought into slot and frame [i]: a fresh slot
    ([k' = k + 1]), or the slot of a victim written to the swap file. *)
Record paged_in (s : Machine) (vpn i k k' : Z) (e : TranslationEntry) (s1 : Machine) : Prop := {
  pi_slot  : 0 <= i < k' /\ (pageTable s).[i] = Some e;
  pi_table : pageTable s1 = <[Z.to_nat i := filled s vpn i e]> (pageTable s);
  pi_mem   : mainMemory s1 =
               splice (mainMemory s) (i * PageSize) (slice (swap_bytes s1) (vpn * PageSize) PageSize);
  pi_swap  : (i = k /\ k' = k + 1 /\ k < NumPhysPages /\ swap_bytes s1 = swap_bytes s) \/
             (k = NumPhysPages /\ k' = NumPhysPages /\
              swap_bytes s1 = written (swap_bytes s) (virtualPage e * PageSize)
                                (slice (mainMemory s) (i * PageSize) PageSize));
  pi_map   : bitmap_wf (memBitMap s1) /\ numBits (memBitMap s1) = NumPhysPages /\
             free_bits (memBitMap s1) = seqZ k' (NumPhysPages - k');
  pi_regs  : registers s1 = registers s;
  pi_tlb   : tlb s1 = tlb s;
  pi_tid   : current_tid s1 = current_tid s;
  pi_times : pageLasttime s1 = pageLasttime s;
  pi_disk  : is_Some (disk s1)
}.

Section paged_in_lemmas.
Context (s s1 : Machine) (vpn i k k' : Z) (e : TranslationEntry).
Context (Hv : vm_inv k k s) (Hp : paged_in s vpn i k k' e s1).
Context (Hvpn : 0 <= vpn < MaxPage) (Hun : lookup_page s vpn = None).

Lemma paged_in_range : 0 <= i < NumPhysPages /\ k <= k' <= NumPhysPages /\ (i < k \/ i = k).
Proof.
  pose proof (vm_bounds _ _ _ Hv). destruct Hp as [[Hi _] _ _ Hs _ _ _ _ _ _]. lia.
Qed.

(** The frame written to the swap file has the size of a page. *)
Lemma frame_length j :
  0 <= j < NumPhysPages -> Z.of_nat (length (slice (mainMemory s) (j * PageSize) PageSize)) = PageSize.
Proof.
  intros Hj. pose proof (wf_memory s (vm_wf _ _ _ Hv)) as Hm.
  unfold MemorySize, NumPhysPages, PageSize in *. apply length_slice; lia.
Qed.

Lemma frame_nonempty j :
  0 <= j < NumPhysPages -> slice (mainMemory s) (j * PageSize) PageSize <> [].
Proof.
  intros Hj E. pose proof (frame_length j Hj) as H. rewrite E in H. discriminate H.
Qed.

Lemma paged_in_swap_bytes : Forall is_byte (swap_bytes s1).
Proof.
  destruct (pi_swap _ _ _ _ _ _ _ Hp) as [(_ & _ & _ & ->)|(_ & _ & ->)]; [apply Hv|].
  apply Forall_written; [unfold is_byte; lia|apply Hv|]. apply Forall_slice, Hv.
Qed.

(** The block read from the swap file fits the frame. *)
Lemma block_length :
  Z.of_nat (length (slice (swap_bytes s1) (vpn * PageSize) PageSize)) <= PageSize.
Proof. unfold slice. rewrite length_take. unfold PageSize. lia. Qed.

Lemma block_fits :
  0 <= i * PageSize /\
  i * PageSize + Z.of_nat (length (slice (swap_bytes s1) (vpn * PageSize) PageSize))
    <= Z.of_nat (length (mainMemory s)).
Proof.
  pose proof block_length. pose proof paged_in_range as (Hi & _).
  rewrite (wf_memory s (vm_wf _ _ _ Hv)). unfold MemorySize, NumPhysPages, PageSize in *. lia.
Qed.

Lemma paged_in_slot j e' :
  (pageTable s1).[j] = Some e' ->
  (j = i /\ e' = filled s vpn i e) \/ (j <> i /\ (pageTable s).[j] = Some e').
Proof.
  pose proof paged_in_range as (Hi & _). rewrite (pi_table _ _ _ _ _ _ _ Hp).
  rewrite zlookup_insert by (rewrite wf_table; [lia|apply Hv]).
  case_decide as E; [intros [= <-]; left; auto|right; auto].
Qed.

Lemma unmapped_elsewhere j e' :
  j < k -> (pageTable s).[j] = Some e' -> virtualPage e' <> vpn.
Proof.
  intros Hj He Hpg. assert (lookup_page s vpn = Some j) as H.
  { apply (lookup_page_slot k k s vpn j Hv Hvpn). split; [|eauto].
    apply zlookup_Some in He. lia. }
  congruence.
Qed.

Lemma paged_in_machine_wf : machine_wf s1.
Proof.
  pose proof paged_in_range as (Hi & _). pose proof (vm_wf _ _ _ Hv) as [].
  destruct Hp. split; try congruence.
  - rewrite pi_mem0, length_splice by apply block_fits. assumption.
  - rewrite pi_mem0. apply Forall_splice; [assumption|]. apply Forall_slice, paged_in_swap_bytes.
  - rewrite pi_table0, length_insert. assumption.
  - rewrite pi_table0. apply Forall_insert_Z; [assumption|].
    split; cbn; [intros _; exact Hi|unfold is_i32, MaxPage in *; lia].
Qed.

Lemma paged_in_slot_inv j e' : (pageTable s1).[j] = Some e' -> slot_inv s1 k k' j e'.
Proof.
  pose proof paged_in_range as (Hi & Hk & Hik). pose proof (pi_tid _ _ _ _ _ _ _ Hp) as Ht.
  destruct (pi_slot _ _ _ _ _ _ _ Hp) as [Hik' He].
  intros He'. destruct (paged_in_slot j e' He') as [[-> ->]|[Hne Hj]].
  - destruct (vm_slots _ _ _ Hv i e He). split; cbn; auto.
    + symmetry. apply Z.ltb_lt. lia.
    + unfold is_i32, MaxPage in *. lia.
  - destruct (vm_slots _ _ _ Hv j e' Hj). split; auto.
    + rewrite sl_valid0. destruct (pi_swap _ _ _ _ _ _ _ Hp) as [(-> & -> & _)|(-> & -> & _)];
        [|reflexivity]. destruct (Z.ltb_spec j k), (Z.ltb_spec j (k + 1)); lia || reflexivity.
    + rewrite Ht. intros Hj'. apply sl_map0.
      destruct (pi_swap _ _ _ _ _ _ _ Hp) as [(-> & -> & _)|(-> & -> & _)]; lia.
Qed.

Lemma paged_in_inv : vm_inv k k' s1.
Proof.
  pose proof paged_in_range as (Hi & Hk & Hik). destruct (pi_map _ _ _ _ _ _ _ Hp) as (Hm1 & Hm2 & Hm3).
  pose proof (vm_bounds _ _ _ Hv) as Hb.
  assert (Hlt : forall j, j <> i -> j < k' -> j < k).
  { intros j Hne Hj. destruct (pi_swap _ _ _ _ _ _ _ Hp) as [(? & ? & _)|(? & ? & _)]; lia. }
  split; auto using paged_in_machine_wf, paged_in_slot_inv, paged_in_swap_bytes.
  - lia.
  - intros j j' ej ej' Hj Hj' Ej Ej' Hpg.
    destruct (paged_in_slot _ _ Ej) as [[-> ->]|[Hne Oj]], (paged_in_slot _ _ Ej') as [[-> ->]|[Hne' Oj']];
      cbn in Hpg; [reflexivity|..].
    + exfalso. apply (unmapped_elsewhere j' ej'); auto.
    + exfalso. apply (unmapped_elsewhere j ej); auto.
    + apply (vm_inj _ _ _ Hv j j' ej ej'); auto.
  - apply (pi_disk _ _ _ _ _ _ _ Hp).
Qed.

Lemma paged_in_lookup : lookup_page s1 vpn = Some i.
Proof.
  pose proof paged_in_range as (Hi & Hk & Hik). destruct (pi_slot _ _ _ _ _ _ _ Hp) as [Hik' He].
  apply (lookup_page_slot k k' s1 vpn i paged_in_inv Hvpn). split; [lia|].
  exists (filled s vpn i e). split; [|reflexivity]. rewrite (pi_table _ _ _ _ _ _ _ Hp).
  apply zlookup_insert_eq. rewrite wf_table; [lia|apply Hv].
Qed.

(** Bytes of the swap file outside the victim's page stay. *)
Lemma paged_in_swap_other a b :
  0 <= a -> (i < k -> a / PageSize <> virtualPage e) ->
  (swap_bytes s).[a] = Some b -> (swap_bytes s1).[a] = Some b.
Proof.
  intros Ha Hne Hb. pose proof paged_in_range as (Hi & _).
  destruct (pi_slot _ _ _ _ _ _ _ Hp) as [_ He].
  destruct (pi_swap _ _ _ _ _ _ _ Hp) as [(_ & _ & _ & ->)|(Hk & _ & ->)]; [exact Hb|].
  destruct (sl_map _ _ _ _ _ (vm_slots _ _ _ Hv i e He)) as (_ & _ & Hpage); [lia|].
  specialize (Hne ltac:(lia)). rewrite zlookup_written, frame_length by
    (auto using frame_nonempty; unfold PageSize; lia).
  rewrite decide_False.
  - rewrite decide_True; [exact Hb|]. apply zlookup_Some in Hb. lia.
  - intros Hr. apply Hne. symmetry. apply (Z.div_unique_pos a PageSize _ (a - virtualPage e * PageSize));
      unfold PageSize in *; lia.
Qed.

(** ... and the victim's page is there. *)
Lemma paged_in_swap_victim a :
  0 <= a -> i < k -> a / PageSize = virtualPage e ->
  (swap_bytes s1).[a] = (mainMemory s).[i * PageSize + a mod PageSize].
Proof.
  intros Ha Hik Hpg. pose proof paged_in_range as (Hi & _).
  destruct (pi_slot _ _ _ _ _ _ _ Hp) as [_ He].
  destruct (pi_swap _ _ _ _ _ _ _ Hp) as [(? & _)|(Hk & _ & ->)]; [lia|].
  destruct (sl_map _ _ _ _ _ (vm_slots _ _ _ Hv i e He)) as (_ & _ & Hpage); [lia|].
  pose proof (Z.div_mod a PageSize ltac:(discriminate)) as Hdm.
  pose proof (Z.mod_pos_bound a PageSize ltac:(reflexivity)) as Hmp.
  rewrite zlookup_written, frame_length by (auto using frame_nonempty; unfold PageSize; lia).
  rewrite decide_True by (unfold PageSize in *; lia).
  rewrite zlookup_slice by (unfold PageSize; lia).
  rewrite decide_True by (unfold PageSize in *; lia). f_equal. unfold PageSize in *. lia.
Qed.

(** Frames other than [i] keep their bytes. *)
Lemma paged_in_mem_other j o :
  j <> i -> 0 <= o < PageSize ->
  (mainMemory s1).[j * PageSize + o] = (mainMemory s).[j * PageSize + o].
Proof.
  intros Hne Ho. rewrite (pi_mem _ _ _ _ _ _ _ Hp), zlookup_splice by apply block_fits.
  rewrite decide_False; [reflexivity|]. pose proof block_length. unfold PageSize in *. lia.
Qed.

(** The faulting page shows the swap file's bytes. *)
Lemma paged_in_mem_new o b :
  0 <= o < PageSize -> (swap_bytes s1).[vpn * PageSize + o] = Some b ->
  (mainMemory s1).[i * PageSize + o] = Some b.
Proof.
  intros Ho Hb. rewrite (pi_mem _ _ _ _ _ _ _ Hp), zlookup_splice by apply block_fits.
  assert (Hs : (slice (swap_bytes s1) (vpn * PageSize) PageSize).[o] = Some b).
  { rewrite zlookup_slice by (unfold PageSize; lia). now rewrite decide_True. }
  pose proof (proj1 (zlookup_Some _ _ _) Hs) as [Hr _].
  rewrite decide_True by lia. rewrite <- Hs. f_equal. lia.
Qed.

(** The program sees the same bytes. *)
Lemma paged_in_vbyte a b :
  0 <= a < 2 ^ 31 -> vbyte s a = Some b -> vbyte s1 a = Some b.
Proof.
  intros Ha Hb. pose proof paged_in_range as (Hi & Hk & Hik).
  pose proof (page_range a Ha) as Hpr. pose proof (Z.mod_pos_bound a PageSize eq_refl) as Hmp.
  destruct (pi_slot _ _ _ _ _ _ _ Hp) as [Hik' He].
  assert (Hnew : (pageTable s1).[i] = Some (filled s vpn i e)).
  { rewrite (pi_table _ _ _ _ _ _ _ Hp). apply zlookup_insert_eq.
    rewrite wf_table; [lia|apply Hv]. }
  destruct (lookup_page s (a / PageSize)) as [j|] eqn:El.
  - apply (lookup_page_slot k k s _ j Hv Hpr) in El as (Hj & ej & Ej & Hpg).
    rewrite (vbyte_mapped k k s j ej a Hv Ha Hj Ej Hpg) in Hb.
    destruct (decide (j = i)) as [->|Hne].
    + rewrite He in Ej. injection Ej as <-. unfold vbyte.
      destruct (lookup_page s1 (a / PageSize)) as [j|] eqn:El1.
      * exfalso. apply (lookup_page_slot k k' s1 _ j paged_in_inv Hpr) in El1 as (Hj' & ej & Ej & Hpj).
        destruct (paged_in_slot j ej Ej) as [[-> ->]|[Hne Oj]].
        -- cbn in Hpj. apply (unmapped_elsewhere i e); [lia|exact He|congruence].
        -- apply Hne. apply (vm_inj _ _ _ Hv j i ej e); auto; [|lia|congruence].
           destruct (pi_swap _ _ _ _ _ _ _ Hp) as [(? & ? & _)|(? & ? & _)]; lia.
      * rewrite paged_in_swap_victim by (lia || congruence). exact Hb.
    + assert (Ej1 : (pageTable s1).[j] = Some ej).
      { rewrite (pi_table _ _ _ _ _ _ _ Hp). rewrite zlookup_insert_ne by lia. exact Ej. }
      rewrite (vbyte_mapped k k' s1 j ej a paged_in_inv Ha ltac:(lia) Ej1 Hpg).
      rewrite paged_in_mem_other by auto. exact Hb.
  - unfold vbyte in Hb. rewrite El in Hb.
    assert (Hb1 : (swap_bytes s1).[a] = Some b).
    { apply paged_in_swap_other; [lia| |exact Hb]. intros Hlt Hpg.
      enough (lookup_page s (a / PageSize) = Some i) by congruence.
      apply (lookup_page_slot k k s _ i Hv Hpr). split; [lia|eauto]. }
    destruct (decide (a / PageSize = vpn)) as [Epg|Hne].
    + rewrite (vbyte_mapped k k' s1 i _ a paged_in_inv Ha Hik' Hnew (eq_sym Epg)).
      apply paged_in_mem_new; [exact Hmp|]. rewrite <- Hb1. f_equal.
      pose proof (Z.div_mod a PageSize ltac:(discriminate)). unfold PageSize in *. lia.
    + unfold vbyte. destruct (lookup_page s1 (a / PageSize)) as [j|] eqn:El1; [exfalso|exact Hb1].
      apply (lookup_page_slot k k' s1 _ j paged_in_inv Hpr) in El1 as (Hj' & ej & Ej & Hpj).
      destruct (paged_in_slot j ej Ej) as [[-> ->]|[Hne' Oj]]; [now apply Hne|].
      enough (lookup_page s (a / PageSize) = Some j) by congruence.
      apply (lookup_page_slot k k s _ j Hv Hpr). split; [|eauto].
      destruct (pi_swap _ _ _ _ _ _ _ Hp) as [(? & ? & _)|(? & ? & _)]; lia.
Qed.
End paged_in_lemmas.

(** * LRU, RaiseException and the retry *)
Section fault_lemmas.
Implicit Types s : Machine.

(** The routine's last part: read the page into the frame of slot [i]. *)
Lemma LRU_load s vpn i e :
  machine_wf s -> 0 <= vpn < MaxPage -> 0 <= i < NumPhysPages ->
  (pageTable s).[i] = Some e -> physicalPage e = i -> is_Some (disk s) ->
  exists d, contents (stub_file d) = swap_bytes s /\
    (let! e := read_entry (InTable i) in
     let! bs := with_disk (Stub_ReadAt 128 (i32 (u32 (vpn * PageSize)))) in
     let! s := mget in
     let! m := mlift (store (mainMemory s) (i32 (physicalPage e * PageSize)) bs) in
     mmodify (set_mainMemory m)) s =
    Ok (tt, set_mainMemory (splice (mainMemory s) (i * PageSize)
                              (slice (swap_bytes s) (vpn * PageSize) PageSize))
              (set_disk (Some d) s)).
Proof.
  intros Hwf Hvpn Hi He Hp [d Hd]. unfold MaxPage, NumPhysPages, PageSize in *.
  destruct (Stub_ReadAt_ok 128 (vpn * 128) d ltac:(lia)) as (d' & Er & Hc & _).
  exists d'. unfold swap_bytes. rewrite Hd. split; [exact Hc|].
  assert (He1 : read_entry (InTable i) s = Ok (e, s)).
  { unfold read_entry. mstep_to s s. now rewrite He. }
  mstep_by He1. rewrite u32_id, !i32_id, Hp by (unfold is_i32; lia).
  assert (Ed : with_disk (Stub_ReadAt 128 (vpn * 128)) s =
               Ok (slice (contents (stub_file d)) (vpn * 128) 128, set_disk (Some d') s)).
  { unfold with_disk. now rewrite Hd, Er. }
  mstep_by Ed. set (s1 := set_disk (Some d') s). mstep_to s1 s1.
  rewrite store_ok; [reflexivity|lia|]. pose proof (wf_memory s Hwf) as Hm.
  unfold MemorySize, NumPhysPages, PageSize in Hm. subst s1. cbn [mainMemory set_disk].
  rewrite Hm. unfold slice. rewrite length_take. lia.
Qed.

Lemma LRU_paged_in s k va :
  vm_inv k k s -> (registers s).[BadVAddrReg] = Some va -> 0 <= va < 2 ^ 31 ->
  exists i k' e s1, LRU s = Ok (tt, s1) /\ status s1 = status s /\
    paged_in s (va / PageSize) i k k' e s1.
Proof.
  intros Hv Hr Ha. pose proof (page_range va Ha) as Hpr. pose proof (vm_bounds _ _ _ Hv) as Hb.
  set (vpn := va / PageSize) in *. unfold LRU.
  assert (E0 : reg BadVAddrReg s = Ok (va, s)) by (unfold reg; mstep_to s s; now rewrite Hr).
  mstep_by E0. rewrite u32_id by lia. fold vpn.
  destruct (Z_lt_le_dec k NumPhysPages) as [Hk|Hk].
  - destruct (slot_exists k k s k Hv ltac:(lia)) as [e He].
    destruct (LRU_free_take s vpn k e Hv Hk Hpr He) as (b & Hwb & Hnb & Hfb & E).
    mstep_by E. set (s0 := set_pageTable _ (set_memBitMap b s)). mstep_to k s0.
    assert (Hwf0 : machine_wf s0).
    { destruct (vm_wf _ _ _ Hv). subst s0. split; cbn; auto; [now rewrite length_insert|].
      apply Forall_insert_Z; [assumption|].
      split; cbn; [lia|unfold is_i32, MaxPage in *; lia]. }
    destruct (LRU_load s0 vpn k (filled s vpn k e) Hwf0 Hpr ltac:(lia)) as (d & Hd & E1);
      [apply zlookup_insert_eq; rewrite wf_table; [lia|apply Hv]|reflexivity|apply Hv|].
    rewrite E1. exists k, (k + 1), e. eexists. split; [reflexivity|]. split; [reflexivity|].
    split; try reflexivity; cbn; auto.
    + split; [lia|exact He].
    + now rewrite Hd.
  - assert (k = NumPhysPages) as -> by lia.
    mstep_by (LRU_free_none s vpn Hv). destruct (LRU_evict_spec s vpn Hv Hpr) as (i & e & d & Hi & He & Hc & E).
    mstep_by E. set (s0 := set_pageTable _ (set_disk (Some d) s)).
    assert (Hwf0 : machine_wf s0).
    { destruct (vm_wf _ _ _ Hv). subst s0. split; cbn; auto; [now rewrite length_insert|].
      apply Forall_insert_Z; [assumption|].
      split; cbn; [lia|unfold is_i32, MaxPage in *; lia]. }
    destruct (LRU_load s0 vpn i (filled s vpn i e) Hwf0 Hpr ltac:(lia)) as (d' & Hd & E1);
      [apply zlookup_insert_eq; rewrite wf_table; [lia|apply Hv]|reflexivity|cbn; eauto|].
    rewrite E1. exists i, NumPhysPages, e. eexists. split; [reflexivity|]. split; [reflexivity|].
    split; try reflexivity; cbn; auto.
    + now rewrite Hd.
    + right. split; [reflexivity|]. split; [reflexivity|]. rewrite <- Hc. exact Hd.
    + split; [apply Hv|]. split; [apply Hv|]. apply (vm_free _ _ _ Hv).
Qed.

(** Registers and status are not part of the paging invariant. *)
Lemma vm_inv_regs u k s rs st :
  vm_inv u k s -> regs_wf rs -> vm_inv u k (set_status st (set_registers rs s)).
Proof.
  intros [[] ? Hs] Hr. split; auto; [split; auto|].
  intros i e He. destruct (Hs i e He). split; auto.
Qed.

Lemma vbyte_regs s rs st a : vbyte (set_status st (set_registers rs s)) a = vbyte s a.
Proof. reflexivity. Qed.

Lemma RaiseException_fault s k va :
  vm_inv k k s -> 0 <= va < 2 ^ 31 -> lookup_page s (va / PageSize) = None ->
  exists i k' s1, RaiseException PageFaultException va s = Ok (tt, s1) /\
    vm_inv k k' s1 /\ lookup_page s1 (va / PageSize) = Some i /\
    (k' = k \/ (k' = k + 1 /\ i = k)) /\
    forall a b, 0 <= a < 2 ^ 31 -> vbyte s a = Some b -> vbyte s1 a = Some b.
Proof.
  intros Hv Ha Hun. pose proof (wf_regs _ (vm_wf _ _ _ Hv)) as Hrw.
  unfold RaiseException.
  mstep_by (set_reg_ok s BadVAddrReg va Hrw ltac:(unfold BadVAddrReg, NumTotalRegs; lia)).
  set (rs1 := <[Z.to_nat BadVAddrReg := va]> (registers s)).
  assert (Hrw1 : regs_wf rs1).
  { apply regs_wf_insert; auto; unfold BadVAddrReg, LoadReg, NumTotalRegs, is_i32; lia. }
  destruct (DelayedLoad_ok (set_registers rs1 s) 0 0 Hrw1) as (lr & lv & _ & _ & Hlr & Hrw2 & E);
    [unfold NumGPRegs; lia|unfold is_i32; lia|].
  mstep_by E. set (rs2 := delayed _ _ _ _ _) in *.
  set (s2 := set_status SystemMode (set_registers rs2 s)). mstep_to tt s2.
  assert (Hv2 : vm_inv k k s2) by now apply vm_inv_regs.
  assert (Hbad : (registers s2).[BadVAddrReg] = Some va).
  { subst s2 rs2. cbn [registers set_status set_registers].
    rewrite delayed_lookup by (exact Hlr || apply (rw_length _ Hrw1)).
    unfold BadVAddrReg, LoadReg, LoadValueReg, NumGPRegs in *.
    rewrite !decide_False by lia. apply zlookup_insert_eq.
    rewrite (rw_length _ Hrw). unfold NumTotalRegs. lia. }
  destruct (reg_ok s2 2 Hrw2) as (ty & E2 & _); [unfold NumTotalRegs; lia|].
  destruct (LRU_paged_in s2 k va Hv2 Hbad Ha) as (i & k' & e & s3 & E3 & Hst & Hpi).
  assert (Eh : ExceptionHandler PageFaultException s2 = Ok (tt, s3)).
  { assert (Er : ReadRegister 2 s2 = Ok (ty, s2)) by exact E2.
    unfold ExceptionHandler. mstep_by Er. exact E3. }
  mstep_by Eh. exists i, k', (set_status UserMode s3). split; [reflexivity|].
  pose proof (page_range va Ha) as Hpr.
  pose proof (paged_in_inv s2 s3 _ i k k' e Hv2 Hpi Hpr Hun) as Hv3.
  replace (set_status UserMode s3) with (set_status UserMode (set_registers (registers s3) s3))
    by (destruct s3; reflexivity).
  split; [apply vm_inv_regs; [exact Hv3|apply Hv3]|].
  split; [exact (paged_in_lookup s2 s3 _ i k k' e Hv2 Hpi Hpr Hun)|].
  split.
  - destruct (pi_swap _ _ _ _ _ _ _ Hpi) as [(? & ? & _)|(? & ? & _)]; [right|left]; lia.
  - intros a b Hab Hb. rewrite vbyte_regs.
    apply (paged_in_vbyte s2 s3 _ i k k' e Hv2 Hpi Hpr Hun a b Hab). exact Hb.
Qed.

(** A use of slot [i], the pending one included, settles the invariant. *)
Lemma vm_inv_touch u k s s1 i e wr m :
  vm_inv u k s -> times_step s s1 -> (pageTable s).[i] = Some e -> i < k ->
  (u = k \/ (k = u + 1 /\ i = u)) ->
  length m = length (mainMemory s) -> Forall is_byte m ->
  vm_inv k k (set_mainMemory m (set_pageTable (<[Z.to_nat i := set_use wr e]> (pageTable s)) s1)).
Proof.
  intros Hv Hts He Hik Hu Hm Hmb. pose proof (vm_bounds _ _ _ Hv) as Hb.
  pose proof (proj1 (zlookup_Some _ _ _) He) as [Hi _].
  assert (Hslot : forall j ej, (<[Z.to_nat i := set_use wr e]> (pageTable s)).[j] = Some ej ->
            exists e0, (pageTable s).[j] = Some e0 /\ virtualPage ej = virtualPage e0 /\
              ej = (if decide (i = j) then set_use wr e0 else e0)).
  { intros j ej. rewrite zlookup_insert by exact Hi. case_decide as E; [|eauto].
    intros [= <-]. subst j. eauto. }
  split; cbn.
  - eapply machine_wf_access; [apply Hv|exact Hts|exact He|exact Hm|exact Hmb|reflexivity].
  - lia.
  - intros j ej Ej. destruct (Hslot j ej Ej) as (e0 & E0 & Hpg & ->).
    destruct (vm_slots _ _ _ Hv j e0 E0) as [H1 H2 H3 H4 H5].
    destruct (ts_tid _ _ Hts).
    case_decide; subst; split; cbn; auto.
    + symmetry. apply Z.ltb_lt. exact Hik.
    + rewrite H1. destruct (Z.ltb_spec j u), (Z.ltb_spec j k); auto; lia.
  - intros j j' ej ej' Hj Hj' Ej Ej' Hpg.
    destruct (Hslot j ej Ej) as (e0 & E0 & Hp0 & _), (Hslot j' ej' Ej') as (e1 & E1 & Hp1 & _).
    apply (vm_inj _ _ _ Hv j j' e0 e1); auto; congruence.
  - rewrite (ts_bitmap _ _ Hts). apply Hv.
  - rewrite (ts_bitmap _ _ Hts). apply Hv.
  - rewrite (ts_bitmap _ _ Hts). apply Hv.
  - rewrite (ts_disk _ _ Hts). apply Hv.
  - unfold swap_bytes. cbn. rewrite (ts_disk _ _ Hts). apply Hv.
Qed.

Lemma set_mainMemory_same s m : mainMemory s = m -> set_mainMemory m s = s.
Proof. intros <-. destruct s. reflexivity. Qed.

Lemma vm_inv_times u k s s' : vm_inv u k s -> times_step s s' -> vm_inv u k s'.
Proof.
  intros [[] ? Hs] [Er Em Et Etab Ed Eb Ec _ _ El].
  split; unfold swap_bytes; rewrite ?Etab, ?Eb, ?Ed; auto.
  - split; congruence.
  - intros i e He. destruct (Hs i e He). split; auto. now rewrite Ec.
Qed.

Lemma lookup_page_touch u k s s1 i e wr m vpn :
  vm_inv u k s -> times_step s s1 -> (pageTable s).[i] = Some e ->
  lookup_page (set_mainMemory m (set_pageTable (<[Z.to_nat i := set_use wr e]> (pageTable s)) s1)) vpn
  = lookup_page s vpn.
Proof.
  intros Hv Hts He. apply lookup_page_ext. intros j.
  eapply maps_at_set_use; [apply (ts_tid _ _ Hts)|reflexivity| |exact He].
  now apply zlookup_Some in He.
Qed.

Lemma vbyte_touch u k s s1 i e wr m a :
  vm_inv u k s -> times_step s s1 -> (pageTable s).[i] = Some e ->
  vbyte (set_mainMemory m (set_pageTable (<[Z.to_nat i := set_use wr e]> (pageTable s)) s1)) a =
  match lookup_page s (a / PageSize) with
  | Some j => match (pageTable s).[j] with
              | Some e => m.[physicalPage e * PageSize + a mod PageSize]
              | None => None
              end
  | None => (swap_bytes s).[a]
  end.
Proof.
  intros Hv Hts He. unfold vbyte. rewrite (lookup_page_touch u k) by assumption.
  pose proof (proj1 (zlookup_Some _ _ _) He) as [Hi _].
  destruct (lookup_page s (a / PageSize)) as [j|]; cbn.
  - rewrite zlookup_insert by exact Hi. case_decide as E; [subst; rewrite He|]; reflexivity.
  - unfold swap_bytes. cbn. now rewrite (ts_disk _ _ Hts).
Qed.
End fault_lemmas.

(** * Properties *)
Section write_lemmas.
Implicit Types s : Machine.

Lemma lookup_slot_entry u k s va i :
  vm_inv u k s -> 0 <= va < 2 ^ 31 -> lookup_page s (va / PageSize) = Some i ->
  0 <= i < k /\ exists e, (pageTable s).[i] = Some e /\ physicalPage e = i /\
    readOnly e = false /\ virtualPage e = va / PageSize.
Proof.
  intros Hv Ha Hl. apply (lookup_page_slot u k s _ i Hv (page_range va Ha)) in Hl as (Hi & e & He & Hp).
  split; [exact Hi|]. exists e. destruct (vm_slots _ _ _ Hv i e He) as [_ _ Hro _ Hm].
  destruct Hm as (Hpp & _); [lia|]. auto.
Qed.

Lemma vpn_of_pos va : 0 <= va < 2 ^ 31 -> vpn_of va = va / PageSize /\ offset_of va = va mod PageSize.
Proof. intros. unfold vpn_of, offset_of. rewrite u32_id by lia. auto. Qed.

(** The bytes after a store inside the page of slot [i]. *)
Lemma vbyte_store u k s va size a i (bs : list Z) :
  vm_inv u k s -> 0 <= va < 2 ^ 31 -> 0 <= a < 2 ^ 31 -> 0 <= i < k ->
  Z.of_nat (length bs) = size -> va mod PageSize + size <= PageSize ->
  lookup_page s (va / PageSize) = Some i ->
  match lookup_page s (a / PageSize) with
  | Some j => match (pageTable s).[j] with
              | Some e => (splice (mainMemory s) (i * PageSize + va mod PageSize) bs).[physicalPage e * PageSize + a mod PageSize]
              | None => None
              end
  | None => (swap_bytes s).[a]
  end = if decide (va <= a < va + size) then bs.[a - va] else vbyte s a.
Proof.
  intros Hv Hva Ha Hi Hl Hin Hlk. unfold vbyte.
  pose proof (Z.div_mod va PageSize ltac:(discriminate)) as D1.
  pose proof (Z.div_mod a PageSize ltac:(discriminate)) as D2.
  pose proof (Z.mod_pos_bound va PageSize eq_refl) as B1.
  pose proof (Z.mod_pos_bound a PageSize eq_refl) as B2.
  pose proof (wf_memory _ (vm_wf _ _ _ Hv)) as Hm. pose proof (vm_bounds _ _ _ Hv) as Hb.
  assert (Hpage : va <= a < va + size -> a / PageSize = va / PageSize).
  { intros Hr. symmetry. apply (Z.div_unique_pos a PageSize _ (va mod PageSize + (a - va))); unfold PageSize in *; lia. }
  destruct (lookup_page s (a / PageSize)) as [j|] eqn:Ej.
  - destruct (lookup_slot_entry u k s a j Hv Ha Ej) as (Hj & e & He & Hpj & _). rewrite He, Hpj.
    unfold MemorySize, NumPhysPages, PageSize in *.
    rewrite zlookup_splice by lia. destruct (decide (va <= a < va + size)) as [Hr|Hr].
    + rewrite (Hpage Hr), Hlk in Ej. injection Ej as <-. specialize (Hpage Hr).
      rewrite decide_True by lia. f_equal. lia.
    + rewrite decide_False; [reflexivity|]. intros Hr2. apply Hr.
      assert (j = i) as -> by lia.
      destruct (lookup_slot_entry u k s va i Hv Hva Hlk) as (_ & e' & He' & _ & _ & Hp').
      apply (lookup_page_slot u k s _ i Hv (page_range a Ha)) in Ej as (_ & e2 & He2 & Hp2).
      unfold PageSize in *. rewrite He' in He2. injection He2 as <-. lia.
  - rewrite decide_False; [reflexivity|]. intros Hr. rewrite (Hpage Hr) in Ej. congruence.
Qed.
End write_lemmas.

(** C2: Demand paging is transparent.  When the page of an aligned access is
    not mapped, [ReadMem] traps, the handler brings the page in (in a free
    frame, or in the frame of a victim written to the swap file first), and
    the retried access succeeds; every byte the program could see before is
    still the one it sees, and the paging invariant holds again. *)
Theorem page_fault_transparent (s : Machine) (k va size : Z) :
  vm_inv k k s -> 0 <= va < 2 ^ 31 -> access_size size -> misaligned va size = false ->
  lookup_page s (va / PageSize) = None ->
  exists s1 v s2 k',
    ReadMem va size s = Ok (None, s1) /\ ReadMem va size s1 = Ok (Some v, s2) /\
    vm_inv k' k' s2 /\
    forall a b, 0 <= a < 2 ^ 31 -> vbyte s a = Some b -> vbyte s2 a = Some b.
Proof.
  intros Hv Ha Hsz Hal Hun. destruct (vpn_of_pos va Ha) as [Evpn Eoff].
  destruct (Translate_miss s va size false (vm_wf _ _ _ Hv) Hal) as (s0 & Hts & Et);
    [now rewrite Evpn|].
  assert (Hv0 : vm_inv k k s0) by (eapply vm_inv_times; eauto).
  assert (Hun0 : lookup_page s0 (va / PageSize) = None).
  { unfold lookup_page in *. now rewrite (hits_times s s0). }
  destruct (RaiseException_fault s0 k va Hv0 Ha Hun0) as (i & k' & s1 & Er & Hv1 & Hl1 & Hk & Hb).
  destruct (lookup_slot_entry k k' s1 va i Hv1 Ha Hl1) as (Hi & e & He & _).
  destruct (ReadMem_hit s1 va size i e (vm_wf _ _ _ Hv1) Hsz Hal) as (s2 & Hts2 & Er2);
    [now rewrite Evpn|exact He|].
  exists s1. eexists. exists (set_mainMemory (mainMemory s1) (set_pageTable (<[Z.to_nat i := set_use false e]> (pageTable s1)) s2)), k'.
  split; [unfold ReadMem; mstep_by Et; mstep_by Er; reflexivity|].
  split; [rewrite Er2; now rewrite set_mainMemory_same by apply (ts_memory _ _ Hts2)|].
  split.
  - apply (vm_inv_touch k k' s1 s2); auto; [lia|intuition lia|apply Hv1].
  - intros a b Hab Hvb. rewrite (vbyte_touch k k') by assumption.
    apply (Hb a b Hab). rewrite <- Hvb. unfold vbyte, lookup_page. rewrite (hits_times s s0) by exact Hts.
    rewrite (ts_table _ _ Hts), (ts_memory _ _ Hts). unfold swap_bytes. now rewrite (ts_disk _ _ Hts).
Qed.

(** C36: A write to a mapped page stores exactly its [size] bytes: a read of
    the same place gives the value back (truncated to the size and extended
    the way the load does), and every other virtual byte is unchanged. *)
Theorem WriteMem_ReadMem (s : Machine) (k va size v i : Z) :
  vm_inv k k s -> 0 <= va < 2 ^ 31 -> access_size size -> misaligned va size = false ->
  lookup_page s (va / PageSize) = Some i ->
  exists s1 s2,
    WriteMem va size v s = Ok (true, s1) /\ vm_inv k k s1 /\
    ReadMem va size s1 = Ok (Some (truncate size v), s2) /\
    forall a, 0 <= a < 2 ^ 31 ->
      vbyte s1 a = if decide (va <= a < va + size) then (to_bytes size v).[a - va] else vbyte s a.
Proof.
  intros Hv Ha Hsz Hal Hl. destruct (vpn_of_pos va Ha) as [Evpn Eoff].
  destruct (lookup_slot_entry k k s va i Hv Ha Hl) as (Hi & e & He & Hpp & Hro & Hpg).
  destruct (WriteMem_hit s va size v i e (vm_wf _ _ _ Hv) Hsz Hal) as (s0 & Hts & Hp1 & Hp2 & Ew);
    [now rewrite Evpn|exact He|exact Hro|].
  rewrite Hpp, Eoff in *. set (pa := i * PageSize + va mod PageSize) in *.
  pose proof (length_to_bytes size v Hsz) as Hlen.
  pose proof (wf_memory _ (vm_wf _ _ _ Hv)) as Hm.
  assert (Hml : length (splice (mainMemory s) pa (to_bytes size v)) = length (mainMemory s)).
  { apply length_splice; lia. }
  set (s1 := set_mainMemory _ _) in Ew.
  assert (Hv1 : vm_inv k k s1).
  { apply (vm_inv_touch k k s s0); auto; [lia|]. apply Forall_splice; [apply Hv|apply le_split_bytes]. }
  assert (Hl1 : lookup_page s1 (va / PageSize) = Some i) by (unfold s1; rewrite (lookup_page_touch k k); auto).
  destruct (ReadMem_hit s1 va size i (set_use true e) (vm_wf _ _ _ Hv1) Hsz Hal) as (s2 & _ & Er);
    [now rewrite Evpn|apply zlookup_insert_eq; now apply zlookup_Some in He|].
  exists s1. eexists. split; [exact Ew|]. split; [exact Hv1|]. split.
  - rewrite Er. cbn [physicalPage set_use]. rewrite Hpp, Eoff. fold pa.
    unfold s1. cbn [mainMemory set_mainMemory].
    pose proof (slice_splice_eq (mainMemory s) pa (to_bytes size v) Hp1 ltac:(lia)) as Hss.
    rewrite Hlen in Hss. rewrite Hss, of_to_bytes by exact Hsz. reflexivity.
  - intros a Hab. unfold s1. rewrite (vbyte_touch k k) by assumption.
    apply (vbyte_store k k); auto. pose proof (misaligned_page va size Hsz Hal).
    unfold offset_of in Eoff. lia.
Qed.

(** * Concrete machines *)

(** ... and after page 3 was brought into frame 0 and used. *)
Definition one_page_machine (program : list Z) : Machine :=
  set_pageTable (<[0%nat := mkTranslationEntry 3 0 true false true false 5]>
                   (pageTable (start_machine program)))
    (set_memBitMap (mkBitMap 32 1 [1]) (start_machine program)).

Lemma start_inv program : Forall is_byte program -> vm_inv 0 0 (start_machine program).
Proof.
  intros Hp. split; cbn [memBitMap disk start_machine set_disk Machine_Machine]; eauto.
  - apply start_wf.
  - unfold NumPhysPages. lia.
  - intros i e He. pose proof (proj1 (zlookup_Some _ _ _) He) as [Hi _].
    apply zlookup_replicate in He as ->. split; cbn.
    1,2: symmetry; apply Z.ltb_ge; lia.
    1: reflexivity.
    1: unfold is_i32; lia.
    lia.
  - intros i j e e' Hi _ He. pose proof (proj1 (zlookup_Some _ _ _) He) as [Hi' _]. lia.
  - split; cbn; [lia|reflexivity..|]. repeat constructor; unfold is_word; lia.
Qed.

Lemma one_page_inv program : Forall is_byte program -> vm_inv 1 1 (one_page_machine program).
Proof.
  intros Hp. destruct (start_inv program Hp) as [Hwf _ Hs _ _ _ _ Hd Hsw].
  pose proof (wf_table _ Hwf) as Hlen.
  assert (Hslot : forall i e, (pageTable (one_page_machine program)).[i] = Some e ->
            (i = 0 /\ e = mkTranslationEntry 3 0 true false true false 5) \/
            (1 <= i /\ e = empty_entry)).
  { intros i e He. pose proof (proj1 (zlookup_Some _ _ _) He) as [Hi _].
    unfold one_page_machine in He. cbn [pageTable set_pageTable] in He.
    change 0%nat with (Z.to_nat 0) in He. rewrite zlookup_insert in He by (unfold NumPhysPages in Hlen; lia).
    case_decide; [left; split; congruence|right]. apply zlookup_replicate in He as ->. split; [lia|reflexivity]. }
  split; try assumption.
  - destruct Hwf. split; try assumption.
    apply Forall_insert_Z; [assumption|]. split; cbn; unfold NumPhysPages, is_i32; lia.
  - unfold NumPhysPages. lia.
  - intros i e He. destruct (Hslot i e He) as [[-> ->]|[Hi ->]].
    + split; cbn; unfold is_i32, MaxPage; try reflexivity; lia.
    + split; cbn; unfold is_i32; try (symmetry; apply Z.ltb_ge); try reflexivity; lia.
  - intros i j e e' Hi Hj He He' _. destruct (Hslot i e He), (Hslot j e' He'); lia.
  - split; cbn; [lia|reflexivity..|]. repeat constructor; unfold is_word; lia.
  - reflexivity.
Qed.

Lemma page_fault_transparent_witness :
  exists s1 v s2, ReadMem 0 1 (start_machine [42; 7]) = Ok (None, s1) /\
    ReadMem 0 1 s1 = Ok (Some v, s2) /\ vbyte s2 0 = Some 42.
Proof.
  destruct (page_fault_transparent (start_machine [42; 7]) 0 0 1) as (s1 & v & s2 & k' & E1 & E2 & _ & Hb).
  - apply start_inv. repeat constructor; unfold is_byte; lia.
  - lia.
  - left. reflexivity.
  - reflexivity.
  - vm_compute. reflexivity.
  - exists s1, v, s2. split; [exact E1|]. split; [exact E2|].
    apply Hb; [lia|]. vm_compute. reflexivity.
Defined.

Lemma WriteMem_ReadMem_witness :
  exists s1 s2, WriteMem 386 2 (-1) (one_page_machine [42; 7]) = Ok (true, s1) /\
    ReadMem 386 2 s1 = Ok (Some 65535, s2) /\ vbyte s1 0 = Some 42.
Proof.
  destruct (WriteMem_ReadMem (one_page_machine [42; 7]) 1 386 2 (-1) 0) as (s1 & s2 & E1 & _ & E2 & Hb).
  - apply one_page_inv. repeat constructor; unfold is_byte; lia.
  - lia.
  - right. left. reflexivity.
  - reflexivity.
  - vm_compute. reflexivity.
  - exists s1, s2. split; [exact E1|]. split; [exact E2|].
    rewrite Hb by lia. rewrite decide_False by lia. vm_compute. reflexivity.
Defined.
