(* ===== verification/Mips.v ===== *)
(** The MIPS R2/3000 simulator: machine/mipssim.h and machine/mipssim.cc.

    [OpCode] has the constructors of the #defines; [Decode] is
    Instruction::Decode; [OneInstruction] is Machine::OneInstruction, its switch
    cut in the order of the source into [exec_add_to_bne], ... (each falls
    through to the next for the opcodes it does not handle).  A case ends in
    [Break] (the code after the switch runs, with the delayed load and the next
    pc) or in [Return] (an exception was raised).  Signed arithmetic wraps, as
    the simulator relies on; a division that traps on the host is [BadAccess]. *)
From Stdlib Require Import ZArith Lia.
From stdpp Require Import base option list list_numbers.
From S2P Require Import Prelude Stats BitMap HostFile Machine.

Local Open Scope Z_scope.

Inductive OpCode :=
  | OP_ADD | OP_ADDI | OP_ADDIU | OP_ADDU | OP_AND | OP_ANDI | OP_BEQ | OP_BGEZ
  | OP_BGEZAL | OP_BGTZ | OP_BLEZ | OP_BLTZ | OP_BLTZAL | OP_BNE | OP_DIV | OP_DIVU
  | OP_J | OP_JAL | OP_JALR | OP_JR | OP_LB | OP_LBU | OP_LH | OP_LHU | OP_LUI
  | OP_LW | OP_LWL | OP_LWR | OP_MFHI | OP_MFLO | OP_MTHI | OP_MTLO | OP_MULT
  | OP_MULTU | OP_NOR | OP_OR | OP_ORI | OP_RFE | OP_SB | OP_SH | OP_SLL | OP_SLLV
  | OP_SLT | OP_SLTI | OP_SLTIU | OP_SLTU | OP_SRA | OP_SRAV | OP_SRL | OP_SRLV
  | OP_SUB | OP_SUBU | OP_SW | OP_SWL | OP_SWR | OP_XOR | OP_XORI | OP_SYSCALL
  | OP_UNIMP | OP_RES | SPECIAL | BCOND.

#[global] Instance OpCode_eq_dec : EqDecision OpCode.
Proof. solve_decision. Defined.

Inductive format := IFMT | JFMT | RFMT.

Definition IndexToAddr (x : Z) : Z := i32 (Z.shiftl x 2).
Definition SIGN_BIT : Z := 2147483648.
Definition R31 : Z := 31.

Definition opTable : list (OpCode * format) :=
  [(SPECIAL, RFMT); (BCOND, IFMT); (OP_J, JFMT); (OP_JAL, JFMT);
   (OP_BEQ, IFMT); (OP_BNE, IFMT); (OP_BLEZ, IFMT); (OP_BGTZ, IFMT);
   (OP_ADDI, IFMT); (OP_ADDIU, IFMT); (OP_SLTI, IFMT); (OP_SLTIU, IFMT);
   (OP_ANDI, IFMT); (OP_ORI, IFMT); (OP_XORI, IFMT); (OP_LUI, IFMT);
   (OP_UNIMP, IFMT); (OP_UNIMP, IFMT); (OP_UNIMP, IFMT); (OP_UNIMP, IFMT);
   (OP_RES, IFMT); (OP_RES, IFMT); (OP_RES, IFMT); (OP_RES, IFMT);
   (OP_RES, IFMT); (OP_RES, IFMT); (OP_RES, IFMT); (OP_RES, IFMT);
   (OP_RES, IFMT); (OP_RES, IFMT); (OP_RES, IFMT); (OP_RES, IFMT);
   (OP_LB, IFMT); (OP_LH, IFMT); (OP_LWL, IFMT); (OP_LW, IFMT);
   (OP_LBU, IFMT); (OP_LHU, IFMT); (OP_LWR, IFMT); (OP_RES, IFMT);
   (OP_SB, IFMT); (OP_SH, IFMT); (OP_SWL, IFMT); (OP_SW, IFMT);
   (OP_RES, IFMT); (OP_RES, IFMT); (OP_SWR, IFMT); (OP_RES, IFMT);
   (OP_UNIMP, IFMT); (OP_UNIMP, IFMT); (OP_UNIMP, IFMT); (OP_UNIMP, IFMT);
   (OP_RES, IFMT); (OP_RES, IFMT); (OP_RES, IFMT); (OP_RES, IFMT);
   (OP_UNIMP, IFMT); (OP_UNIMP, IFMT); (OP_UNIMP, IFMT); (OP_UNIMP, IFMT);
   (OP_RES, IFMT); (OP_RES, IFMT); (OP_RES, IFMT); (OP_RES, IFMT)].

Definition specialTable : list OpCode :=
  [OP_SLL; OP_RES; OP_SRL; OP_SRA; OP_SLLV; OP_RES; OP_SRLV; OP_SRAV;
   OP_JR; OP_JALR; OP_RES; OP_RES; OP_SYSCALL; OP_UNIMP; OP_RES; OP_RES;
   OP_MFHI; OP_MTHI; OP_MFLO; OP_MTLO; OP_RES; OP_RES; OP_RES; OP_RES;
   OP_MULT; OP_MULTU; OP_DIV; OP_DIVU; OP_RES; OP_RES; OP_RES; OP_RES;
   OP_ADD; OP_ADDU; OP_SUB; OP_SUBU; OP_AND; OP_OR; OP_XOR; OP_NOR;
   OP_RES; OP_RES; OP_SLT; OP_SLTU; OP_RES; OP_RES; OP_RES; OP_RES;
   OP_RES; OP_RES; OP_RES; OP_RES; OP_RES; OP_RES; OP_RES; OP_RES;
   OP_RES; OP_RES; OP_RES; OP_RES; OP_RES; OP_RES; OP_RES; OP_RES].

Record Instruction := mkInstruction {
  value  : Z;
  opCode : OpCode;
  rs     : Z;
  rt     : Z;
  rd     : Z;
  extra  : Z
}.

(** Instruction::Decode on the unsigned word [value]; [None] would be a read
    outside a table. *)
Definition Decode_extra (fmt : format) (value : Z) : Z :=
  match fmt with
  | IFMT => let extra := Z.land value 0xffff in
            if negb (Z.land extra 0x8000 =? 0) then i32 (Z.lor extra 0xffff0000) else extra
  | RFMT => Z.land (Z.shiftr value 6) 0x1f
  | JFMT => Z.land value 0x3ffffff
  end.
Definition Decode_bcond (value : Z) : OpCode :=
  let i := Z.land value 0x1f0000 in
  if i =? 0 then OP_BLTZ
  else if i =? 0x10000 then OP_BGEZ
  else if i =? 0x100000 then OP_BLTZAL
  else if i =? 0x110000 then OP_BGEZAL
  else OP_UNIMP.
Definition Decode (value : Z) : option Instruction :=
  match opTable.[Z.land (Z.shiftr value 26) 0x3f] with
  | None => None
  | Some (op, fmt) =>
      match (match op with
             | SPECIAL => specialTable.[Z.land value 0x3f]
             | BCOND => Some (Decode_bcond value)
             | _ => Some op
             end) with
      | None => None
      | Some op' =>
          Some (mkInstruction value op'
                  (Z.land (Z.shiftr value 21) 0x1f) (Z.land (Z.shiftr value 16) 0x1f)
                  (Z.land (Z.shiftr value 11) 0x1f) (Decode_extra fmt value))
      end
  end.

(** The shift-and-add loop: [a] is an int (its right shift is arithmetic), the
    other variables are unsigned. *)
Fixpoint Mult_loop (n : nat) (a bLo bHi lo hi : Z) : Z * Z :=
  match n with
  | O => (lo, hi)
  | S m =>
      let add := negb (Z.land a 1 =? 0) in
      let lo' := if add then u32 (lo + bLo) else lo in
      let hi' := if add then u32 ((if lo' <? bLo then u32 (hi + 1) else hi) + bHi) else hi in
      if add && (Z.land a 0xfffffffe =? 0) then (lo', hi')
      else
        Mult_loop m (Z.shiftr a 1) (u32 (Z.shiftl bLo 1))
          (let h := u32 (Z.shiftl bHi 1) in
           if negb (Z.land bLo 0x80000000 =? 0) then Z.lor h 1 else h)
          lo' hi'
  end.

(** Mult: the new values of the words at hiPtr and loPtr. *)
Definition Mult (a b : Z) (signedArith : bool) : Z * Z :=
  if (a =? 0) || (b =? 0) then (0, 0)
  else
    let negative := signedArith && xorb (a <? 0) (b <? 0) in
    let a' := if signedArith && (a <? 0) then i32 (- a) else a in
    let b' := if signedArith && (b <? 0) then i32 (- b) else b in
    let '(lo, hi) := Mult_loop 32 a' (u32 b') 0 0 0 in
    let '(lo, hi) :=
      if negative then
        let hi1 := u32 (Z.lnot hi) in
        let lo1 := u32 (u32 (Z.lnot lo) + 1) in
        (lo1, if lo1 =? 0 then u32 (hi1 + 1) else hi1)
      else (lo, hi) in
    (i32 hi, i32 lo).

(** * The switch of OneInstruction *)
Inductive outcome :=
  | Return
  | Break (nextLoadReg nextLoadValue pcAfter : Z).

Definition sign_bit (z : Z) : bool := negb (Z.land z SIGN_BIT =? 0).

(** [break] without a delayed load. *)
Definition mbreak (pcAfter : Z) : M Machine outcome := mreturn (Break 0 0 pcAfter).
Definition raise_and_return (which : ExceptionType) (badVAddr : Z) : M Machine outcome :=
  RaiseException which badVAddr >>> mreturn Return.
Definition assign (r v pcAfter : Z) : M Machine outcome := set_reg r v >>> mbreak pcAfter.

(** pcAfter = registers[NextPCReg] + IndexToAddr(instr->extra) when [taken] *)
Definition branch (taken : bool) (extra pcAfter : Z) : M Machine outcome :=
  if taken then
    let! npc := reg NextPCReg in mbreak (i32 (npc + IndexToAddr extra))
  else mbreak pcAfter.

Definition lwl_merge (k old value : Z) : Z :=
  if k =? 0 then value
  else if k =? 1 then i32 (Z.lor (Z.land old 0xff) (i32 (Z.shiftl value 8)))
  else if k =? 2 then i32 (Z.lor (Z.land old 0xffff) (i32 (Z.shiftl value 16)))
  else i32 (Z.lor (Z.land old 0xffffff) (i32 (Z.shiftl value 24))).
Definition lwr_merge (k old value : Z) : Z :=
  if k =? 0 then i32 (Z.lor (Z.land old 0xffffff00) (Z.land (Z.shiftr value 24) 0xff))
  else if k =? 1 then i32 (Z.lor (Z.land old 0xffff0000) (Z.land (Z.shiftr value 16) 0xffff))
  else if k =? 2 then i32 (Z.lor (Z.land old 0xff000000) (Z.land (Z.shiftr value 8) 0xffffff))
  else value.
Definition swl_merge (k r value : Z) : Z :=
  if k =? 0 then r
  else if k =? 1 then i32 (Z.lor (Z.land value 0xff000000) (Z.land (Z.shiftr r 8) 0xffffff))
  else if k =? 2 then i32 (Z.lor (Z.land value 0xffff0000) (Z.land (Z.shiftr r 16) 0xffff))
  else i32 (Z.lor (Z.land value 0xffffff00) (Z.land (Z.shiftr r 24) 0xff)).
Definition swr_merge (k r value : Z) : Z :=
  if k =? 0 then i32 (Z.lor (Z.land value 0xffffff) (i32 (Z.shiftl r 24)))
  else if k =? 1 then i32 (Z.lor (Z.land value 0xffff) (i32 (Z.shiftl r 16)))
  else if k =? 2 then i32 (Z.lor (Z.land value 0xff) (i32 (Z.shiftl r 8)))
  else r.

(** SWL and SWR: read the word, merge, write it back. *)
Definition store_merged (merge : Z -> Z -> Z -> Z) (instr : Instruction) (pcAfter : Z)
    : M Machine outcome :=
  let! a := reg (rs instr) in
  let tmp := i32 (a + extra instr) in
  ASSERT (Z.land tmp 3 =? 0) >>>
  let! v := ReadMem (Z.land tmp (Z.lnot 3)) 4 in
  match v with
  | None => mreturn Return
  | Some value =>
      let! r := reg (rt instr) in
      let! ok := WriteMem (Z.land tmp (Z.lnot 3)) 4 (merge (Z.land tmp 3) r value) in
      if ok then mbreak pcAfter else mreturn Return
  end.

Definition exec_sub_to_res (instr : Instruction) (pcAfter : Z) : M Machine outcome :=
  match opCode instr with
  | OP_SUB =>
      let! a := reg (rs instr) in
      let! b := reg (rt instr) in
      let diff := i32 (a - b) in
      if sign_bit (Z.lxor a b) && sign_bit (Z.lxor a diff)
      then raise_and_return OverflowException 0
      else assign (rd instr) diff pcAfter
  | OP_SUBU =>
      let! a := reg (rs instr) in
      let! b := reg (rt instr) in
      assign (rd instr) (i32 (a - b)) pcAfter
  | OP_SW =>
      let! a := reg (rs instr) in
      let! b := reg (rt instr) in
      let! ok := WriteMem (i32 (a + extra instr)) 4 b in
      if ok then mbreak pcAfter else mreturn Return
  | OP_SWL => store_merged swl_merge instr pcAfter
  | OP_SWR => store_merged swr_merge instr pcAfter
  | OP_SYSCALL => raise_and_return SyscallException 0
  | OP_XOR =>
      let! a := reg (rs instr) in
      let! b := reg (rt instr) in
      assign (rd instr) (Z.lxor a b) pcAfter
  | OP_XORI =>
      let! a := reg (rs instr) in
      assign (rt instr) (Z.lxor a (Z.land (extra instr) 0xffff)) pcAfter
  | OP_RES | OP_UNIMP => raise_and_return IllegalInstrException 0
  | _ => ASSERT false >>> mreturn Return
  end.

Definition exec_sll_to_srlv (instr : Instruction) (pcAfter : Z) : M Machine outcome :=
  match opCode instr with
  | OP_SLL =>
      let! b := reg (rt instr) in
      assign (rd instr) (i32 (Z.shiftl b (extra instr))) pcAfter
  | OP_SLLV =>
      let! b := reg (rt instr) in
      let! a := reg (rs instr) in
      assign (rd instr) (i32 (Z.shiftl b (Z.land a 0x1f))) pcAfter
  | OP_SLT =>
      let! a := reg (rs instr) in
      let! b := reg (rt instr) in
      assign (rd instr) (if a <? b then 1 else 0) pcAfter
  | OP_SLTI =>
      let! a := reg (rs instr) in
      assign (rt instr) (if a <? extra instr then 1 else 0) pcAfter
  | OP_SLTIU =>
      let! a := reg (rs instr) in
      assign (rt instr) (if u32 a <? u32 (extra instr) then 1 else 0) pcAfter
  | OP_SLTU =>
      let! a := reg (rs instr) in
      let! b := reg (rt instr) in
      assign (rd instr) (if u32 a <? u32 b then 1 else 0) pcAfter
  | OP_SRA | OP_SRL =>
      let! b := reg (rt instr) in
      assign (rd instr) (Z.shiftr b (extra instr)) pcAfter
  | OP_SRAV | OP_SRLV =>
      let! b := reg (rt instr) in
      let! a := reg (rs instr) in
      assign (rd instr) (Z.shiftr b (Z.land a 0x1f)) pcAfter
  | _ => exec_sub_to_res instr pcAfter
  end.

Definition exec_mfhi_to_sh (instr : Instruction) (pcAfter : Z) : M Machine outcome :=
  match opCode instr with
  | OP_MFHI => let! v := reg HiReg in assign (rd instr) v pcAfter
  | OP_MFLO => let! v := reg LoReg in assign (rd instr) v pcAfter
  | OP_MTHI => let! v := reg (rs instr) in assign HiReg v pcAfter
  | OP_MTLO => let! v := reg (rs instr) in assign LoReg v pcAfter
  | OP_MULT | OP_MULTU =>
      let! a := reg (rs instr) in
      let! b := reg (rt instr) in
      let '(hi, lo) := Mult a b (bool_decide (opCode instr = OP_MULT)) in
      set_reg HiReg hi >>> assign LoReg lo pcAfter
  | OP_NOR =>
      let! a := reg (rs instr) in
      let! b := reg (rt instr) in
      assign (rd instr) (Z.lnot (Z.lor a b)) pcAfter
  | OP_OR =>
      let! a := reg (rs instr) in
      let! b := reg (rs instr) in
      assign (rd instr) (Z.lor a b) pcAfter
  | OP_ORI =>
      let! a := reg (rs instr) in
      assign (rt instr) (Z.lor a (Z.land (extra instr) 0xffff)) pcAfter
  | OP_SB =>
      let! a := reg (rs instr) in
      let! b := reg (rt instr) in
      let! ok := WriteMem (i32 (a + extra instr)) 1 b in
      if ok then mbreak pcAfter else mreturn Return
  | OP_SH =>
      let! a := reg (rs instr) in
      let! b := reg (rt instr) in
      let! ok := WriteMem (i32 (a + extra instr)) 2 b in
      if ok then mbreak pcAfter else mreturn Return
  | _ => exec_sll_to_srlv instr pcAfter
  end.

(** LWL and LWR: merge the word with the register, or with the value on its
    way to that register. *)
Definition load_merged (merge : Z -> Z -> Z -> Z) (instr : Instruction) (pcAfter : Z)
    : M Machine outcome :=
  let! a := reg (rs instr) in
  let tmp := i32 (a + extra instr) in
  ASSERT (Z.land tmp 3 =? 0) >>>
  let! v := ReadMem tmp 4 in
  match v with
  | None => mreturn Return
  | Some value =>
      let! lr := reg LoadReg in
      let! old := reg (if lr =? rt instr then LoadValueReg else rt instr) in
      mreturn (Break (rt instr) (merge (Z.land tmp 3) old value) pcAfter)
  end.

Definition exec_lb_to_lwr (instr : Instruction) (pcAfter : Z) : M Machine outcome :=
  match opCode instr with
  | OP_LB | OP_LBU =>
      let! a := reg (rs instr) in
      let! v := ReadMem (i32 (a + extra instr)) 1 in
      match v with
      | None => mreturn Return
      | Some value =>
          mreturn (Break (rt instr)
            (if negb (Z.land value 0x80 =? 0) && bool_decide (opCode instr = OP_LB)
             then i32 (Z.lor value 0xffffff00) else Z.land value 0xff) pcAfter)
      end
  | OP_LH | OP_LHU =>
      let! a := reg (rs instr) in
      let tmp := i32 (a + extra instr) in
      if negb (Z.land tmp 1 =? 0) then raise_and_return AddressErrorException tmp
      else
        let! v := ReadMem tmp 2 in
        match v with
        | None => mreturn Return
        | Some value =>
            mreturn (Break (rt instr)
              (if negb (Z.land value 0x8000 =? 0) && bool_decide (opCode instr = OP_LH)
               then i32 (Z.lor value 0xffff0000) else Z.land value 0xffff) pcAfter)
        end
  | OP_LUI => assign (rt instr) (i32 (Z.shiftl (extra instr) 16)) pcAfter
  | OP_LW =>
      let! a := reg (rs instr) in
      let tmp := i32 (a + extra instr) in
      if negb (Z.land tmp 3 =? 0) then raise_and_return AddressErrorException tmp
      else
        let! v := ReadMem tmp 4 in
        match v with
        | None => mreturn Return
        | Some value => mreturn (Break (rt instr) value pcAfter)
        end
  | OP_LWL => load_merged lwl_merge instr pcAfter
  | OP_LWR => load_merged lwr_merge instr pcAfter
  | _ => exec_mfhi_to_sh instr pcAfter
  end.

Definition exec_div_to_jr (instr : Instruction) (pcAfter : Z) : M Machine outcome :=
  match opCode instr with
  | OP_DIV =>
      let! a := reg (rs instr) in
      let! b := reg (rt instr) in
      if b =? 0 then set_reg LoReg 0 >>> assign HiReg 0 pcAfter
      else if (a =? - 2 ^ 31) && (b =? -1) then mfail BadAccess
      else
        set_reg LoReg (Z.quot a b) >>>
        let! a := reg (rs instr) in
        let! b := reg (rt instr) in
        assign HiReg (Z.rem a b) pcAfter
  | OP_DIVU =>
      let! a := reg (rs instr) in
      let! b := reg (rt instr) in
      if u32 b =? 0 then set_reg LoReg 0 >>> assign HiReg 0 pcAfter
      else set_reg LoReg (i32 (u32 a / u32 b)) >>> assign HiReg (i32 (u32 a mod u32 b)) pcAfter
  | OP_JAL | OP_J =>
      (if bool_decide (opCode instr = OP_JAL)
       then let! npc := reg NextPCReg in set_reg R31 (i32 (npc + 4))
       else mreturn tt) >>>
      mbreak (i32 (Z.lor (Z.land pcAfter 0xf0000000) (u32 (IndexToAddr (extra instr)))))
  | OP_JALR | OP_JR =>
      (if bool_decide (opCode instr = OP_JALR)
       then let! npc := reg NextPCReg in set_reg (rd instr) (i32 (npc + 4))
       else mreturn tt) >>>
      let! a := reg (rs instr) in mbreak a
  | _ => exec_lb_to_lwr instr pcAfter
  end.

Definition exec_add_to_bne (instr : Instruction) (pcAfter : Z) : M Machine outcome :=
  match opCode instr with
  | OP_ADD =>
      let! a := reg (rs instr) in
      let! b := reg (rt instr) in
      let sum := i32 (a + b) in
      if negb (sign_bit (Z.lxor a b)) && sign_bit (Z.lxor a sum)
      then raise_and_return OverflowException 0
      else assign (rd instr) sum pcAfter
  | OP_ADDI =>
      let! a := reg (rs instr) in
      let sum := i32 (a + extra instr) in
      if negb (sign_bit (Z.lxor a (extra instr))) && sign_bit (Z.lxor (extra instr) sum)
      then raise_and_return OverflowException 0
      else assign (rt instr) sum pcAfter
  | OP_ADDIU =>
      let! a := reg (rs instr) in
      assign (rt instr) (i32 (a + extra instr)) pcAfter
  | OP_ADDU =>
      let! a := reg (rs instr) in
      let! b := reg (rt instr) in
      assign (rd instr) (i32 (a + b)) pcAfter
  | OP_AND =>
      let! a := reg (rs instr) in
      let! b := reg (rt instr) in
      assign (rd instr) (Z.land a b) pcAfter
  | OP_ANDI =>
      let! a := reg (rs instr) in
      assign (rt instr) (Z.land a (Z.land (extra instr) 0xffff)) pcAfter
  | OP_BEQ =>
      let! a := reg (rs instr) in
      let! b := reg (rt instr) in
      branch (a =? b) (extra instr) pcAfter
  | OP_BGEZAL | OP_BGEZ =>
      (if bool_decide (opCode instr = OP_BGEZAL)
       then let! npc := reg NextPCReg in set_reg R31 (i32 (npc + 4))
       else mreturn tt) >>>
      let! a := reg (rs instr) in
      branch (negb (sign_bit a)) (extra instr) pcAfter
  | OP_BGTZ => let! a := reg (rs instr) in branch (0 <? a) (extra instr) pcAfter
  | OP_BLEZ => let! a := reg (rs instr) in branch (a <=? 0) (extra instr) pcAfter
  | OP_BLTZAL | OP_BLTZ =>
      (if bool_decide (opCode instr = OP_BLTZAL)
       then let! npc := reg NextPCReg in set_reg R31 (i32 (npc + 4))
       else mreturn tt) >>>
      let! a := reg (rs instr) in
      branch (sign_bit a) (extra instr) pcAfter
  | OP_BNE =>
      let! a := reg (rs instr) in
      let! b := reg (rt instr) in
      branch (negb (a =? b)) (extra instr) pcAfter
  | _ => exec_div_to_jr instr pcAfter
  end.

(** The code after the switch: the delayed load, then the program counters. *)
Definition finish_instruction (nextLoadReg nextLoadValue pcAfter : Z) : M Machine unit :=
  DelayedLoad nextLoadReg nextLoadValue >>>
  let! pc := reg PCReg in
  set_reg PrevPCReg pc >>>
  let! npc := reg NextPCReg in
  set_reg PCReg npc >>>
  set_reg NextPCReg pcAfter.

Definition OneInstruction : M Machine unit :=
  let! pc := reg PCReg in
  let! raw := ReadMem pc 4 in
  match raw with
  | None => mreturn tt
  | Some raw =>
      let! instr := mlift (Decode (u32 raw)) in
      let! npc := reg NextPCReg in
      let! o := exec_add_to_bne instr (i32 (npc + 4)) in
      match o with
      | Return => mreturn tt
      | Break nextLoadReg nextLoadValue pcAfter =>
          finish_instruction nextLoadReg nextLoadValue pcAfter
      end
  end.

(** * Multiplication *)
Section mult_lemmas.
Definition dword (hi lo : Z) : Z := hi * 2 ^ 32 + lo.
Definition is_u32 (z : Z) : Prop := 0 <= z < 2 ^ 32.

Lemma land_1 a : negb (Z.land a 1 =? 0) = Z.odd a.
Proof.
  change 1 with (Z.ones 1). rewrite Z.land_ones by lia. change (2 ^ 1) with 2.
  rewrite Zmod_odd. now destruct (Z.odd a).
Qed.

Lemma even_land_1 x : Z.land (2 * x) 1 = 0.
Proof. change 1 with (Z.ones 1). rewrite Z.land_ones by lia. rewrite Z.mul_comm. apply Z.mod_mul. lia. Qed.

Lemma odd_only_one a : is_i32 a -> Z.odd a = true -> Z.land a 0xfffffffe = 0 -> a = 1.
Proof.
  intros Ha Ho Hl.
  assert (Hk : forall k, 1 <= k < 32 -> Z.testbit a k = false).
  { intros k Hk. assert (Z.testbit (Z.land a 0xfffffffe) k = false) as H by (rewrite Hl; apply Z.bits_0).
    rewrite Z.land_spec in H. change 0xfffffffe with (Z.shiftl (Z.ones 31) 1) in H.
    rewrite Z.shiftl_spec, Z.testbit_ones_nonneg in H by lia.
    rewrite (proj2 (Z.ltb_lt (k - 1) 31)), andb_true_r in H by lia. exact H. }
  assert (Hm : u32 a = 1).
  { unfold u32. apply Z.bits_inj'. intros n Hn. destruct (Z_lt_le_dec n 32) as [H|H].
    - rewrite Z.mod_pow2_bits_low by lia. destruct (Z.eq_dec n 0) as [->|].
      + now rewrite Z.bit0_odd.
      + rewrite Hk by lia. symmetry. apply (Z.bits_above_log2 1); simpl; lia.
    - rewrite Z.mod_pow2_bits_high by lia. symmetry. apply (Z.bits_above_log2 1); simpl; lia. }
  unfold is_i32 in Ha. destruct (Z_lt_le_dec a 0).
  - rewrite i32_neg_u32 in Hm by (assumption || lia). lia.
  - rewrite u32_id in Hm by lia. exact Hm.
Qed.

(** The 64-bit addition with its carry. *)
Lemma add_carry lo hi bLo bHi :
  is_u32 lo -> is_u32 hi -> is_u32 bLo -> is_u32 bHi ->
  let lo' := u32 (lo + bLo) in
  let hi' := u32 ((if lo' <? bLo then u32 (hi + 1) else hi) + bHi) in
  is_u32 lo' /\ is_u32 hi' /\
  dword hi' lo' = (dword hi lo + dword bHi bLo) mod 2 ^ 64.
Proof.
  intros Hlo Hhi Hbl Hbh lo' hi'. unfold is_u32 in Hlo, Hhi, Hbl, Hbh.
  split; [apply u32_range|]. split; [apply u32_range|].
  assert (Hl : lo + bLo = (if lo' <? bLo then 2 ^ 32 else 0) + lo').
  { subst lo'. unfold u32. destruct (Z_lt_le_dec (lo + bLo) (2 ^ 32)) as [H|H].
    - rewrite Z.mod_small by lia. destruct (Z.ltb_spec (lo + bLo) bLo); lia.
    - replace ((lo + bLo) mod 2 ^ 32) with (lo + bLo - 2 ^ 32) by (apply (Z.mod_unique_pos _ _ 1); lia).
      destruct (Z.ltb_spec (lo + bLo - 2 ^ 32) bLo); lia. }
  pose proof (u32_range (lo + bLo)) as Hr. fold lo' in Hr.
  assert (Hh : hi' = (hi + bHi + (if lo' <? bLo then 1 else 0)) mod 2 ^ 32).
  { subst hi'. unfold u32. destruct (lo' <? bLo).
    - rewrite Z.add_mod_idemp_l by lia. f_equal. lia.
    - f_equal. lia. }
  unfold dword. rewrite Hh.
  replace (hi * 2 ^ 32 + lo + (bHi * 2 ^ 32 + bLo))
    with ((hi + bHi + (if lo' <? bLo then 1 else 0)) * 2 ^ 32 + lo') by (destruct (lo' <? bLo); lia).
  change (2 ^ 64) with (2 ^ 32 * 2 ^ 32).
  generalize (hi + bHi + (if lo' <? bLo then 1 else 0)). intros x.
  pose proof (Z.div_mod x (2 ^ 32)). pose proof (Z.mod_pos_bound x (2 ^ 32)).
  apply (Z.mod_unique_pos _ _ (x / 2 ^ 32)); lia.
Qed.

(** The 64-bit left shift by one. *)
Lemma shift_one bLo bHi :
  is_u32 bLo -> is_u32 bHi ->
  let bLo' := u32 (Z.shiftl bLo 1) in
  let bHi' := let h := u32 (Z.shiftl bHi 1) in
              if negb (Z.land bLo 0x80000000 =? 0) then Z.lor h 1 else h in
  is_u32 bLo' /\ is_u32 bHi' /\ dword bHi' bLo' = (2 * dword bHi bLo) mod 2 ^ 64.
Proof.
  unfold is_u32. intros Hl Hh. cbv zeta. rewrite !Z.shiftl_mul_pow2 by lia. change (2 ^ 1) with 2.
  assert (Htop : negb (Z.land bLo 0x80000000 =? 0) = (2 ^ 31 <=? bLo)).
  { change 0x80000000 with (2 ^ 31). rewrite land_pow2_testbit by lia.
    rewrite Z.testbit_odd, Z.shiftr_div_pow2 by lia.
    destruct (Z.leb_spec (2 ^ 31) bLo) as [H|H].
    - replace (bLo / 2 ^ 31) with 1; [reflexivity|]. apply (Z.div_unique_pos _ _ _ (bLo - 2 ^ 31)); lia.
    - now rewrite Z.div_small by lia. }
  rewrite Htop. unfold u32.
  assert (Hhe : bHi * 2 mod 2 ^ 32 = 2 * (bHi mod 2 ^ 31)).
  { change (2 ^ 32) with (2 * 2 ^ 31). rewrite Z.mul_comm, Zmult_mod_distr_l. reflexivity. }
  assert (Hlor : Z.lor (bHi * 2 mod 2 ^ 32) 1 = bHi * 2 mod 2 ^ 32 + 1).
  { rewrite Hhe. rewrite Z.add_nocarry_lxor.
    - rewrite Z.lxor_lor; [reflexivity|]. apply even_land_1.
    - apply even_land_1. }
  pose proof (Z.mod_pos_bound bHi (2 ^ 31)) as Hm. pose proof (Z.div_mod bHi (2 ^ 31)) as Hd.
  assert (Hlow : bLo * 2 mod 2 ^ 32 = if 2 ^ 31 <=? bLo then bLo * 2 - 2 ^ 32 else bLo * 2).
  { destruct (Z.leb_spec (2 ^ 31) bLo); [|apply Z.mod_small; lia].
    symmetry. apply (Z.mod_unique_pos _ _ 1); lia. }
  split; [apply Z.mod_pos_bound; lia|]. unfold dword. rewrite Hlow.
  destruct (Z.leb_spec (2 ^ 31) bLo); rewrite ?Hlor, Hhe;
    (split; [lia|]); change (2 ^ 64) with (2 ^ 32 * 2 ^ 32);
    apply (Z.mod_unique_pos _ _ (bHi / 2 ^ 31)); lia.
Qed.

Lemma Mult_loop_spec n a bLo bHi lo hi :
  is_i32 a -> is_u32 bLo -> is_u32 bHi -> is_u32 lo -> is_u32 hi ->
  let '(lo', hi') := Mult_loop n a bLo bHi lo hi in
  is_u32 lo' /\ is_u32 hi' /\
  dword hi' lo' = (dword hi lo + dword bHi bLo * (a mod 2 ^ Z.of_nat n)) mod 2 ^ 64.
Proof.
  revert a bLo bHi lo hi. induction n as [|n IH]; intros a bLo bHi lo hi Ha Hbl Hbh Hlo Hhi.
  { cbn [Mult_loop]. split; [exact Hlo|]. split; [exact Hhi|]. rewrite Z.mod_1_r, Z.mul_0_r, Z.add_0_r.
    symmetry. apply Z.mod_small. unfold dword, is_u32 in *. lia. }
  cbn [Mult_loop]. rewrite land_1. rewrite Nat2Z.inj_succ, Z.pow_succ_r by lia.
  destruct (add_carry lo hi bLo bHi Hlo Hhi Hbl Hbh) as (Hl' & Hh' & Hs).
  destruct (shift_one bLo bHi Hbl Hbh) as (Hbl' & Hbh' & Hb). cbv zeta in *.
  assert (Hsh : is_i32 (Z.shiftr a 1)).
  { rewrite Z.shiftr_div_pow2 by lia. change (2 ^ 1) with 2. unfold is_i32 in *.
    pose proof (Z.div_mod a 2). pose proof (Z.mod_pos_bound a 2). lia. }
  assert (Hpos : 0 < 2 ^ Z.of_nat n) by (apply Z.pow_pos_nonneg; lia).
  assert (Ha2 : a mod (2 * 2 ^ Z.of_nat n) = Z.b2z (Z.odd a) + 2 * ((a / 2) mod 2 ^ Z.of_nat n)).
  { rewrite Z.rem_mul_r by lia. rewrite Zmod_odd. now destruct (Z.odd a). }
  assert (Hsd : Z.shiftr a 1 = a / 2) by now rewrite Z.shiftr_div_pow2 by lia.
  destruct (Z.odd a) eqn:Eo; cbn [andb].
  - destruct (Z.eqb_spec (Z.land a 0xfffffffe) 0) as [E|_].
    + split; [exact Hl'|]. split; [exact Hh'|]. rewrite Hs, (odd_only_one a Ha Eo E).
      rewrite (Z.mod_small 1) by lia. now rewrite Z.mul_1_r.
    + specialize (IH (Z.shiftr a 1) _ _ _ _ Hsh Hbl' Hbh' Hl' Hh').
      destruct (Mult_loop n _ _ _ _ _) as [lo' hi']. destruct IH as (H1 & H2 & H3).
      split; [exact H1|]. split; [exact H2|]. rewrite H3, Hs, Hb, Hsd, Ha2. cbn [Z.b2z].
      rewrite Z.add_mod_idemp_l, <- Z.add_mod_idemp_r, Z.mul_mod_idemp_l, Z.add_mod_idemp_r by lia.
      f_equal. ring.
  - specialize (IH (Z.shiftr a 1) _ _ _ _ Hsh Hbl' Hbh' Hlo Hhi).
    destruct (Mult_loop n _ _ _ _ _) as [lo' hi']. destruct IH as (H1 & H2 & H3).
    split; [exact H1|]. split; [exact H2|]. rewrite H3, Hb, Hsd, Ha2. cbn [Z.b2z].
    rewrite <- Z.add_mod_idemp_r, Z.mul_mod_idemp_l, Z.add_mod_idemp_r by lia.
    f_equal. ring.
Qed.
End mult_lemmas.

(** Two's complement negation of a double word. *)
Lemma negate_dword lo hi :
  is_u32 lo -> is_u32 hi ->
  let hi1 := u32 (Z.lnot hi) in
  let lo1 := u32 (u32 (Z.lnot lo) + 1) in
  let hi2 := if lo1 =? 0 then u32 (hi1 + 1) else hi1 in
  is_u32 lo1 /\ is_u32 hi2 /\ dword hi2 lo1 = (- dword hi lo) mod 2 ^ 64.
Proof.
  intros Hl Hh hi1 lo1 hi2. unfold is_u32 in Hl, Hh.
  assert (E1 : hi1 = 2 ^ 32 - 1 - hi).
  { unfold hi1, u32. symmetry. apply (Z.mod_unique_pos _ _ (-1)); unfold Z.lnot; lia. }
  assert (E2 : u32 (Z.lnot lo) = 2 ^ 32 - 1 - lo).
  { unfold u32. symmetry. apply (Z.mod_unique_pos _ _ (-1)); unfold Z.lnot; lia. }
  assert (E3 : lo1 = if lo =? 0 then 0 else 2 ^ 32 - lo).
  { unfold lo1. rewrite E2. unfold u32. destruct (Z.eqb_spec lo 0).
    - symmetry. apply (Z.mod_unique_pos _ _ 1); lia.
    - rewrite Z.mod_small; lia. }
  split; [apply u32_range|]. split; [unfold hi2; destruct (lo1 =? 0); apply u32_range|].
  unfold dword, hi2. rewrite E3. destruct (Z.eqb_spec lo 0) as [->|Hn].
  - change (0 =? 0) with true. cbv iota. rewrite E1. unfold u32. destruct (Z.eq_dec hi 0) as [->|].
    + reflexivity.
    + rewrite Z.mod_small by lia. apply (Z.mod_unique_pos _ _ (-1)); lia.
  - destruct (Z.eqb_spec (2 ^ 32 - lo) 0); [lia|]. rewrite E1.
    apply (Z.mod_unique_pos _ _ (-1)); lia.
Qed.

(** The double word that Mult stores, before it is cut in two ints. *)
Lemma Mult_dword a b sg :
  is_i32 a -> is_i32 b ->
  let '(hi, lo) := Mult a b sg in
  is_i32 hi /\ is_i32 lo /\
  dword (u32 hi) (u32 lo) = (if sg then a * b else u32 a * u32 b) mod 2 ^ 64.
Proof.
  intros Ha Hb. unfold Mult. destruct (Z.eqb_spec a 0) as [->|Ha0].
  { cbn [orb]. split; [unfold is_i32; lia|]. split; [unfold is_i32; lia|]. now destruct sg. }
  destruct (Z.eqb_spec b 0) as [->|Hb0].
  { cbn [orb]. split; [unfold is_i32; lia|]. split; [unfold is_i32; lia|].
    change (u32 0) with 0. rewrite !Z.mul_0_r. now destruct sg. }
  cbn [orb]. set (a' := if sg && (a <? 0) then i32 (- a) else a).
  set (b' := if sg && (b <? 0) then i32 (- b) else b).
  assert (Ha' : is_i32 a') by (unfold a'; destruct (sg && (a <? 0)); [apply i32_range|exact Ha]).
  pose proof (Mult_loop_spec 32 a' (u32 b') 0 0 0 Ha' (u32_range b')) as H.
  specialize (H ltac:(unfold is_u32; lia) ltac:(unfold is_u32; lia) ltac:(unfold is_u32; lia)).
  destruct (Mult_loop 32 a' (u32 b') 0 0 0) as [lo hi]. destruct H as (Hlo & Hhi & Hd).
  change (dword 0 0) with 0 in Hd. change (dword 0 (u32 b')) with (u32 b') in Hd.
  change (a' mod 2 ^ Z.of_nat 32) with (u32 a') in Hd. rewrite Z.add_0_l in Hd.
  destruct (negate_dword lo hi Hlo Hhi) as (Nl & Nh & Nd). cbv zeta in Nl, Nh, Nd.
  assert (Hnat : forall x y, is_u32 x -> is_u32 y -> is_i32 (i32 y) /\ is_i32 (i32 x) /\
            dword (u32 (i32 y)) (u32 (i32 x)) = dword y x).
  { intros x y Hx Hy. rewrite !u32_i32, !u32_id by assumption. auto using i32_range. }
  assert (Habs : forall x, is_i32 x -> x < 0 -> u32 (i32 (- x)) = - x).
  { intros x Hx Hneg. rewrite u32_i32. apply u32_id. unfold is_i32 in Hx. lia. }
  destruct sg; cbn [andb] in a', b' |- *.
  - assert (Ea : u32 a' = Z.abs a).
    { unfold a'. destruct (Z.ltb_spec a 0); [rewrite Habs by auto; lia|].
      rewrite i32_nonneg_u32 by (auto; lia). lia. }
    assert (Eb : u32 b' = Z.abs b).
    { unfold b'. destruct (Z.ltb_spec b 0); [rewrite Habs by auto; lia|].
      rewrite i32_nonneg_u32 by (auto; lia). lia. }
    rewrite Ea, Eb, <- Z.abs_mul in Hd.
    assert (Hprod : a * b mod 2 ^ 64 = if xorb (a <? 0) (b <? 0) then (- dword hi lo) mod 2 ^ 64 else dword hi lo).
    { rewrite Hd. destruct (Z.ltb_spec a 0), (Z.ltb_spec b 0); cbn [xorb].
      - f_equal. rewrite Z.abs_eq by nia. ring.
      - rewrite <- (Z.sub_0_l (_ mod _)), Zminus_mod_idemp_r. f_equal. rewrite Z.abs_neq by nia. ring.
      - rewrite <- (Z.sub_0_l (_ mod _)), Zminus_mod_idemp_r. f_equal. rewrite Z.abs_neq by nia. ring.
      - f_equal. rewrite Z.abs_eq by nia. ring. }
    rewrite Hprod. destruct (xorb (a <? 0) (b <? 0)).
    + rewrite <- Nd. now apply Hnat.
    + now apply Hnat.
  - destruct (Hnat lo hi Hlo Hhi) as (R1 & R2 & R3). split; [exact R1|]. split; [exact R2|].
    rewrite R3, Hd. unfold a', b'. f_equal. ring.
Qed.

(** * Decoding *)
Section decode_lemmas.
(** A field of [n] bits at bit [k]. *)
Lemma field_range v k n : 0 <= n -> 0 <= Z.land (Z.shiftr v k) (Z.ones n) < 2 ^ n.
Proof. intros. rewrite Z.land_ones by lia. apply Z.mod_pos_bound. lia. Qed.

Lemma field_value hi f lo k n :
  0 <= k -> 0 <= n -> 0 <= lo < 2 ^ k -> 0 <= f < 2 ^ n ->
  Z.land (Z.shiftr ((hi * 2 ^ n + f) * 2 ^ k + lo) k) (Z.ones n) = f.
Proof.
  intros Hk Hn Hlo Hf. rewrite Z.land_ones, Z.shiftr_div_pow2 by lia.
  rewrite Z.div_add_l, (Z.div_small lo), Z.add_0_r by lia.
  rewrite Z.add_comm, Z.mod_add by lia. apply Z.mod_small. lia.
Qed.

Lemma Decode_extra_range fmt v : is_i32 (Decode_extra fmt v).
Proof.
  unfold Decode_extra. destruct fmt.
  - destruct (negb _); [apply i32_range|]. change 0xffff with (Z.ones 16).
    rewrite Z.land_ones by lia. pose proof (Z.mod_pos_bound v (2 ^ 16)). unfold is_i32. lia.
  - change 0x3ffffff with (Z.ones 26). rewrite Z.land_ones by lia.
    pose proof (Z.mod_pos_bound v (2 ^ 26)). unfold is_i32. lia.
  - change 0x1f with (Z.ones 5). pose proof (field_range v 6 5). unfold is_i32. lia.
Qed.

(** Sign extension of the immediate field. *)
Lemma Decode_extra_imm v imm :
  - 2 ^ 15 <= imm < 2 ^ 15 -> v mod 2 ^ 16 = imm mod 2 ^ 16 -> Decode_extra IFMT v = imm.
Proof.
  intros Hi Hv. unfold Decode_extra. change 0xffff with (Z.ones 16). rewrite Z.land_ones by lia.
  rewrite Hv. change 0x8000 with (2 ^ 15). rewrite land_pow2_testbit by lia.
  rewrite Z.testbit_odd, Z.shiftr_div_pow2 by lia.
  destruct (Z_lt_le_dec imm 0) as [Hn|Hn].
  - replace (imm mod 2 ^ 16) with (imm + 2 ^ 16) by (apply (Z.mod_unique_pos _ _ (-1)); lia).
    replace ((imm + 2 ^ 16) / 2 ^ 15) with 1 by (apply (Z.div_unique_pos _ _ _ (imm + 2 ^ 15)); lia).
    cbn [Z.odd]. change 0xffff0000 with (Z.shiftl (Z.ones 16) 16).
    assert (Hlor : Z.lor (imm + 2 ^ 16) (Z.shiftl (Z.ones 16) 16) = imm + 2 ^ 16 + Z.shiftl (Z.ones 16) 16).
    { assert (Z.land (imm + 2 ^ 16) (Z.shiftl (Z.ones 16) 16) = 0) as Hd.
      { apply Z.bits_inj'. intros n Hn'. rewrite Z.land_spec, Z.bits_0.
        destruct (Z_lt_le_dec n 16).
        - rewrite (Z.shiftl_spec_low (Z.ones 16)) by lia. apply andb_false_r.
        - rewrite (Z.bits_above_log2 (imm + 2 ^ 16)); [reflexivity|lia|].
          apply Z.log2_lt_pow2; [lia|]. eapply Z.lt_le_trans with (2 ^ 16); [lia|]. apply Z.pow_le_mono_r; lia. }
      rewrite (Z.add_nocarry_lxor (imm + 2 ^ 16)), Z.lxor_lor by exact Hd. reflexivity. }
    rewrite Hlor. unfold i32.
    replace ((imm + 2 ^ 16 + Z.shiftl (Z.ones 16) 16 + 2 ^ 31) mod 2 ^ 32) with (imm + 2 ^ 31); [lia|].
    apply (Z.mod_unique_pos _ _ 1); [lia|]. change (Z.shiftl (Z.ones 16) 16) with (2 ^ 32 - 2 ^ 16). lia.
  - rewrite (Z.mod_small imm) by lia. now rewrite Z.div_small by lia.
Qed.

(** The opcodes a decoded instruction can have: those the switch handles. *)
Definition executable (op : OpCode) : bool :=
  match op with
  | SPECIAL | BCOND | OP_RFE => false
  | _ => true
  end.
Definition by_shamt (op : OpCode) : bool :=
  match op with OP_SLL | OP_SRA | OP_SRL => true | _ => false end.

Lemma opTable_ok : Forall (fun x : OpCode * format =>
  (executable x.1 && negb (by_shamt x.1)) = true \/ x = (SPECIAL, RFMT) \/ x = (BCOND, IFMT)) opTable.
Proof. unfold opTable. repeat (constructor; [cbn; auto|]). constructor. Qed.

Lemma specialTable_ok : Forall (fun op => executable op = true) specialTable.
Proof. unfold specialTable. repeat (constructor; [reflexivity|]). constructor. Qed.

Lemma Decode_bcond_ok v : executable (Decode_bcond v) = true /\ by_shamt (Decode_bcond v) = false.
Proof. unfold Decode_bcond. repeat case_match; auto. Qed.

Record instr_ok (i : Instruction) : Prop := {
  io_op    : executable (opCode i) = true;
  io_rs    : 0 <= rs i < NumGPRegs;
  io_rt    : 0 <= rt i < NumGPRegs;
  io_rd    : 0 <= rd i < NumGPRegs;
  io_extra : is_i32 (extra i);
  io_shamt : by_shamt (opCode i) = true -> 0 <= extra i < 32
}.

Lemma Decode_ok v : exists i, Decode v = Some i /\ instr_ok i /\ value i = v.
Proof.
  unfold Decode. change 0x3f with (Z.ones 6). change 0x1f with (Z.ones 5).
  destruct (zlookup_lt opTable (Z.land (Z.shiftr v 26) (Z.ones 6))) as [[op fmt] Hop];
    [apply (field_range v 26 6); lia|]. rewrite Hop.
  pose proof (zlookup_Forall _ _ _ _ opTable_ok Hop) as Hc. cbn in Hc.
  destruct (zlookup_lt specialTable (Z.land v (Z.ones 6))) as [op' Hs];
    [rewrite <- (Z.shiftr_0_r v); apply (field_range v 0 6); lia|].
  pose proof (zlookup_Forall _ _ _ _ specialTable_ok Hs) as Hso.
  pose proof (field_range v 21 5) as R1. pose proof (field_range v 16 5) as R2.
  pose proof (field_range v 11 5) as R3. pose proof (Decode_bcond_ok v) as [Hb1 Hb2].
  pose proof (Decode_extra_range fmt v) as He. change (2 ^ 5) with NumGPRegs in *.
  destruct Hc as [Hc|[[= -> ->]|[= -> ->]]].
  - apply andb_prop in Hc as [Hc1 Hc2]. apply negb_true_iff in Hc2.
    destruct op; try discriminate Hc1; rewrite ?Hs;
      (eexists; split; [reflexivity|]; split; [|reflexivity];
       split; cbn [opCode rs rt rd extra by_shamt executable]; auto; try lia; discriminate).
  - rewrite Hs. eexists. split; [reflexivity|]. split; [|reflexivity].
    split; cbn [opCode rs rt rd extra Decode_extra]; auto; try lia. intros _. change 0x1f with (Z.ones 5). apply (field_range v 6 5). lia.
  - eexists. split; [reflexivity|]. split; [|reflexivity].
    split; cbn [opCode rs rt rd extra]; auto; try lia. congruence.
Qed.
End decode_lemmas.

Lemma ifmt_not_special c op : opTable.[c] = Some (op, IFMT) -> op <> SPECIAL.
Proof.
  intros H ->. pose proof (zlookup_Forall _ _ _ _ opTable_ok H) as [H1|[H1|H1]]; discriminate H1.
Qed.

(** Two ints that hold the signed product modulo 2^64 hold the product. *)
Lemma dword_signed a b hi lo :
  is_i32 a -> is_i32 b -> is_i32 hi -> is_i32 lo ->
  dword (u32 hi) (u32 lo) = (a * b) mod 2 ^ 64 -> hi * 2 ^ 32 + u32 lo = a * b.
Proof.
  intros Ha Hb Hh Hl Hd. unfold dword in Hd. pose proof (u32_range lo) as Rl.
  assert (Hu : exists k, u32 hi = hi + k * 2 ^ 32).
  { destruct (Z_lt_le_dec hi 0); [exists 1; rewrite i32_neg_u32 by auto; lia|
      exists 0; rewrite i32_nonneg_u32 by auto; lia]. }
  destruct Hu as [k Hk]. rewrite Hk in Hd.
  pose proof (Z.div_mod (a * b) (2 ^ 64)) as D. unfold is_i32 in *.
  assert (- 2 ^ 62 <= a * b <= 2 ^ 62) by nia.
  assert (Hk' : hi * 2 ^ 32 + u32 lo - a * b = 2 ^ 64 * (- (a * b / 2 ^ 64) - k)) by lia.
  assert (- (a * b / 2 ^ 64) - k = 0) by nia. lia.
Qed.

(** * Properties *)

(** C33: [Mult] computes the exact 64-bit product: MULT the signed one in
    hi * 2^32 + (unsigned) lo, MULTU the unsigned one; both halves are ints,
    also for INT_MIN operands and for the early exit of the loop. *)
Theorem Mult_exact (a b : Z) :
  is_i32 a -> is_i32 b ->
  (let '(hi, lo) := Mult a b true in
   is_i32 hi /\ is_i32 lo /\ hi * 2 ^ 32 + u32 lo = a * b) /\
  (let '(hi, lo) := Mult a b false in
   is_i32 hi /\ is_i32 lo /\ u32 hi * 2 ^ 32 + u32 lo = u32 a * u32 b).
Proof.
  intros Ha Hb. split.
  - pose proof (Mult_dword a b true Ha Hb) as H. destruct (Mult a b true) as [hi lo].
    destruct H as (Hh & Hl & Hd). split; [exact Hh|]. split; [exact Hl|]. now apply dword_signed.
  - pose proof (Mult_dword a b false Ha Hb) as H. destruct (Mult a b false) as [hi lo].
    destruct H as (Hh & Hl & Hd). split; [exact Hh|]. split; [exact Hl|].
    unfold dword in Hd. rewrite Hd. apply Z.mod_small.
    pose proof (u32_range a). pose proof (u32_range b). nia.
Qed.

(** Every 32-bit word decodes, to an opcode that the switch handles (the
    final ASSERT(FALSE) is never reached), with register numbers below 32, an
    int immediate and shift amounts below 32; an R-format word and an
    I-format word give back the fields they were assembled from. *)
Theorem Decode_fields (w : Z) :
  (exists i, Decode w = Some i /\ instr_ok i) /\
  (forall s t d sh f op, w = (((s * 32 + t) * 32 + d) * 32 + sh) * 64 + f ->
     0 <= s < 32 -> 0 <= t < 32 -> 0 <= d < 32 -> 0 <= sh < 32 -> 0 <= f < 64 ->
     specialTable.[f] = Some op -> Decode w = Some (mkInstruction w op s t d sh)) /\
  (forall c s t imm op, w = ((c * 32 + s) * 32 + t) * 65536 + imm mod 65536 ->
     0 <= c < 64 -> 0 <= s < 32 -> 0 <= t < 32 -> - 2 ^ 15 <= imm < 2 ^ 15 ->
     opTable.[c] = Some (op, IFMT) -> op <> BCOND ->
     Decode w = Some (mkInstruction w op s t (imm mod 65536 / 2048) imm)).
Proof.
  split; [|split].
  - destruct (Decode_ok w) as (i & E & Hi & _). eauto.
  - intros s t d sh f op Hw Hs Ht Hd Hsh Hf Hop. unfold Decode.
    assert (F1 : Z.land (Z.shiftr w 26) 63 = 0).
    { change 63 with (Z.ones 6). rewrite <- (field_value 0 0 (((s * 32 + t) * 32 + d) * 32 * 64 + sh * 64 + f) 26 6) by lia.
      do 2 f_equal. lia. }
    assert (F2 : Z.land w 63 = f).
    { change 63 with (Z.ones 6). rewrite Z.land_ones, Hw by lia. rewrite Z.add_comm, Z.mod_add by lia. apply Z.mod_small. lia. }
    assert (F3 : Z.land (Z.shiftr w 21) 31 = s).
    { change 31 with (Z.ones 5). rewrite <- (field_value 0 s ((t * 32 + d) * 2048 + sh * 64 + f) 21 5) at 1 by lia.
      do 2 f_equal. lia. }
    assert (F4 : Z.land (Z.shiftr w 16) 31 = t).
    { change 31 with (Z.ones 5). rewrite <- (field_value s t (d * 2048 + sh * 64 + f) 16 5) by lia.
      do 2 f_equal. lia. }
    assert (F5 : Z.land (Z.shiftr w 11) 31 = d).
    { change 31 with (Z.ones 5). rewrite <- (field_value (s * 32 + t) d (sh * 64 + f) 11 5) by lia.
      do 2 f_equal. lia. }
    assert (F6 : Z.land (Z.shiftr w 6) 31 = sh).
    { change 31 with (Z.ones 5). rewrite <- (field_value ((s * 32 + t) * 32 + d) sh f 6 5) by lia.
      do 2 f_equal. lia. }
    rewrite F1. change (opTable.[0]) with (Some (SPECIAL, RFMT)). cbv beta iota.
    rewrite F2, Hop. unfold Decode_extra. now rewrite F3, F4, F5, F6.
  - intros c s t imm op Hw Hc Hs Ht Himm Hop Hnb. unfold Decode.
    pose proof (Z.mod_pos_bound imm 65536 eq_refl) as Hm.
    assert (F1 : Z.land (Z.shiftr w 26) 63 = c).
    { change 63 with (Z.ones 6). rewrite <- (field_value 0 c ((s * 32 + t) * 65536 + imm mod 65536) 26 6) at 1 by lia.
      do 2 f_equal. lia. }
    assert (F3 : Z.land (Z.shiftr w 21) 31 = s).
    { change 31 with (Z.ones 5). rewrite <- (field_value c s (t * 65536 + imm mod 65536) 21 5) by lia.
      do 2 f_equal. lia. }
    assert (F4 : Z.land (Z.shiftr w 16) 31 = t).
    { change 31 with (Z.ones 5). rewrite <- (field_value (c * 32 + s) t (imm mod 65536) 16 5) by lia.
      do 2 f_equal. lia. }
    assert (F5 : Z.land (Z.shiftr w 11) 31 = imm mod 65536 / 2048).
    { pose proof (Z.div_mod (imm mod 65536) 2048). pose proof (Z.mod_pos_bound (imm mod 65536) 2048).
      change 31 with (Z.ones 5).
      rewrite <- (field_value ((c * 32 + s) * 32 + t) (imm mod 65536 / 2048) (imm mod 65536 mod 2048) 11 5) by lia.
      do 2 f_equal. lia. }
    rewrite F1, Hop. assert (Hex : Decode_extra IFMT w = imm).
    { apply Decode_extra_imm; [exact Himm|]. rewrite Hw. change (2 ^ 16) with 65536.
      rewrite Z.add_comm, Z.mod_add, Z.mod_mod by lia. reflexivity. }
    assert (Hsp : op <> SPECIAL) by (eapply ifmt_not_special; eauto).
    destruct op; try contradiction; now rewrite F3, F4, F5, Hex.
Qed.

(** ADD r3,r1,r2 *)
Definition add_word : Z := (((1 * 32 + 2) * 32 + 3) * 32 + 0) * 64 + 32.
Definition add_instr : Instruction := mkInstruction add_word OP_ADD 1 2 3 0.

Lemma Mult_exact_witness :
  exists hi lo, Mult (- 2147483648) (-1) true = (hi, lo) /\ hi * 2 ^ 32 + u32 lo = 2147483648.
Proof.
  assert (H1 : is_i32 (- 2147483648)) by (unfold is_i32; lia).
  assert (H2 : is_i32 (-1)) by (unfold is_i32; lia).
  pose proof (Mult_exact (- 2147483648) (-1) H1 H2) as [H _].
  destruct (Mult (- 2147483648) (-1) true) as [hi lo]. exists hi, lo.
  split; [reflexivity|]. apply H.
Defined.

Lemma Decode_fields_witness : Decode add_word = Some add_instr.
Proof.
  apply (proj1 (proj2 (Decode_fields add_word)) 1 2 3 0 32 OP_ADD); lia || reflexivity.
Defined.
