(* ===== verification/Cpu.v ===== *)
(** What one step of the processor guarantees: the theorems on Mips.v.

    [cpu_inv] is what OneInstruction relies on and keeps: forty registers that
    are 32-bit ints, a delayed load that aims at a general register, and bytes
    in memory and in the swap file.  Register 0 is zero at every instruction
    boundary. *)
From Stdlib Require Import ZArith Lia.
From stdpp Require Import base option list list_numbers.
From S2P Require Import Prelude Stats BitMap HostFile Machine Paging Mips.

Local Open Scope Z_scope.

(** [p] holds PC and NextPC. *)
Record cpu_inv (p : Z * Z) (s : Machine) : Prop := {
  ci_regs : regs_wf (registers s);
  ci_mem  : Forall is_byte (mainMemory s);
  ci_swap : Forall is_byte (swap_bytes s);
  ci_pc   : (registers s).[PCReg] = Some p.1;
  ci_npc  : (registers s).[NextPCReg] = Some p.2
}.
Definition R0_zero (s : Machine) : Prop := (registers s).[0] = Some 0.

Definition boundary (p : Z * Z) (s : Machine) : Prop := cpu_inv p s /\ R0_zero s.

(** The parts of the state [cpu_inv] and [R0_zero] depend on. *)
Definition same_cpu (s s' : Machine) : Prop :=
  registers s' = registers s /\ mainMemory s' = mainMemory s /\ disk s' = disk s.

#[global] Instance same_cpu_refl : Reflexive same_cpu.
Proof. split; auto. Qed.
#[global] Instance same_cpu_trans : Transitive same_cpu.
Proof. intros s1 s2 s3 (? & ? & ?) (? & ? & ?). split; [|split]; congruence. Qed.

Lemma cpu_inv_same p s s' : same_cpu s s' -> cpu_inv p s -> cpu_inv p s'.
Proof. intros (Hr & Hm & Hd) []. split; unfold swap_bytes; rewrite ?Hr, ?Hm, ?Hd; auto. Qed.

(** An operation that leaves the processor state alone. *)
Definition cpu_neutral {A} (m : M Machine A) : Prop :=
  forall s a s', m s = Ok (a, s') -> same_cpu s s'.

Section neutral_lemmas.
Lemma neutral_return {A} (a : A) : cpu_neutral (mreturn a).
Proof. intros s a' s' [= <- <-]. reflexivity. Qed.
Lemma neutral_get : cpu_neutral mget.
Proof. intros s a s' [= <- <-]. reflexivity. Qed.
Lemma neutral_fail {A} f : cpu_neutral (mfail (A := A) f).
Proof. intros s a s' [=]. Qed.
Lemma neutral_lift {A} (o : option A) : cpu_neutral (mlift o).
Proof. intros s a s' E. apply mlift_Ok in E as [_ ->]. reflexivity. Qed.
Lemma neutral_assert b : cpu_neutral (ASSERT b).
Proof. intros s a s' E. apply ASSERT_Ok in E as [_ [= _ ->]]. reflexivity. Qed.
Lemma neutral_modify f : (forall s, same_cpu s (f s)) -> cpu_neutral (mmodify f).
Proof. intros Hf s a s' [= <- <-]. apply Hf. Qed.
Lemma neutral_then {A B} (m : M Machine A) (k : A -> M Machine B) :
  cpu_neutral m -> (forall a, cpu_neutral (k a)) -> cpu_neutral (mthen m k).
Proof.
  intros Hm Hk s b s' E. apply mthen_Ok in E as (a & s1 & E1 & E2).
  transitivity s1; [eapply Hm, E1|eapply Hk, E2].
Qed.
Lemma neutral_first {X R} (l : list X) (body : X -> M Machine (option R)) :
  (forall x, cpu_neutral (body x)) -> cpu_neutral (mfirst l body).
Proof.
  intros Hb. induction l as [|x l IH]; [apply neutral_return|]. cbn [mfirst].
  apply neutral_then; [apply Hb|]. intros [v|]; [apply neutral_return|exact IH].
Qed.
End neutral_lemmas.

Create HintDb neutral.
#[export] Hint Resolve neutral_return neutral_get neutral_fail neutral_lift neutral_assert : neutral.

Ltac neutral :=
  cbv zeta;
  repeat match goal with
    | |- cpu_neutral (mthen _ _) => apply neutral_then; [|intros]
    | |- cpu_neutral (mmodify _) => apply neutral_modify; intros ?; split; [|split]; reflexivity
    | |- cpu_neutral (mfirst _ _) => apply neutral_first; intros
    | |- cpu_neutral (match ?x with _ => _ end) => destruct x
    | |- cpu_neutral _ => solve [auto with neutral]
    end.

Section keeps_lemmas.
Lemma read_entry_neutral p : cpu_neutral (read_entry p).
Proof. unfold read_entry. neutral. Qed.
Lemma write_entry_neutral p e : cpu_neutral (write_entry p e).
Proof. unfold write_entry. neutral. Qed.
Lemma Translate_table_neutral l vpn o : cpu_neutral (Translate_table l vpn o).
Proof.
  revert o. induction l as [|i l IH]; intros o; cbn [Translate_table]; [neutral|].
  apply neutral_then; [apply neutral_get|]. intros s. apply neutral_then; [apply neutral_lift|].
  intros e. destruct (_ && _ && _)%bool; [|apply IH].
  neutral.
Qed.
Lemma with_memBitMap_neutral {A} (m : M BitMap A) : cpu_neutral (with_memBitMap m).
Proof.
  intros s a s' E. unfold with_memBitMap in E. destruct (m (memBitMap s)) as [[a' b]|]; [|discriminate].
  injection E as <- <-. split; [|split]; reflexivity.
Qed.
Lemma reg_neutral i : cpu_neutral (reg i).
Proof. unfold reg. neutral. Qed.
End keeps_lemmas.
#[export] Hint Resolve read_entry_neutral write_entry_neutral Translate_table_neutral
  with_memBitMap_neutral reg_neutral : neutral.

Lemma Translate_neutral va size wr : cpu_neutral (Translate va size wr).
Proof. unfold Translate, Translate_tlb. neutral. Qed.

Lemma LRU_free_neutral vpn : cpu_neutral (LRU_free vpn).
Proof. unfold LRU_free, LRU_free_at. neutral. Qed.

Lemma LRU_scan_neutral l t i : cpu_neutral (LRU_scan l t i).
Proof.
  revert t i. induction l as [|x l IH]; intros t i; cbn [LRU_scan]; [neutral|].
  apply neutral_then; [apply neutral_get|]. intros s. apply neutral_then; [apply neutral_lift|].
  intros v. destruct (v <? t); apply IH.
Qed.
#[export] Hint Resolve Translate_neutral LRU_free_neutral LRU_scan_neutral : neutral.

(** * Exceptions keep the invariant and leave register 0 at zero *)
Section exception_lemmas.
Context {p : Z * Z}.
Lemma boundary_same s s' : same_cpu s s' -> boundary p s -> boundary p s'.
Proof.
  intros H [Hi H0]. split; [now apply (cpu_inv_same p s)|].
  destruct H as (Hr & _). unfold R0_zero. now rewrite Hr.
Qed.

Lemma neutral_boundary {A} (m : M Machine A) :
  cpu_neutral m -> triple (boundary p) m (fun _ s => boundary p s).
Proof. intros Hm s a s' Hb E. eapply boundary_same; [eapply Hm, E|exact Hb]. Qed.

Lemma neutral_inv {A} (m : M Machine A) : cpu_neutral m -> triple (cpu_inv p) m (fun _ s => cpu_inv p s).
Proof. intros Hm s a s' Hb E. eapply cpu_inv_same; [eapply Hm, E|exact Hb]. Qed.

Lemma swap_write_boundary bs pos :
  Forall is_byte bs -> triple (boundary p) (with_disk (Stub_WriteAt bs pos)) (fun _ s => boundary p s).
Proof.
  intros Hbs s a s' [[Hr Hm Hs Hpc Hnpc] H0] E. unfold with_disk in E.
  destruct (disk s) as [d|] eqn:Ed; [|discriminate].
  destruct (Z_lt_le_dec pos 0) as [Hp|Hp].
  { unfold Stub_WriteAt, on_file, mthen in E. rewrite Lseek_negative in E by exact Hp. discriminate. }
  destruct (Stub_WriteAt_ok bs pos d Hp) as (d' & Ew & Hc & _). rewrite Ew in E. injection E as <- <-.
  split; [|exact H0]. split; auto. unfold swap_bytes in *. cbn. rewrite Hc. rewrite Ed in Hs.
  apply Forall_written; [unfold is_byte; lia|exact Hs|exact Hbs].
Qed.

Lemma swap_read_boundary n pos :
  triple (boundary p) (with_disk (Stub_ReadAt n pos)) (fun bs s => boundary p s /\ Forall is_byte bs).
Proof.
  intros s a s' [[Hr Hm Hs Hpc Hnpc] H0] E. unfold with_disk in E.
  destruct (disk s) as [d|] eqn:Ed; [|discriminate].
  destruct (Z_lt_le_dec pos 0) as [Hp|Hp].
  { unfold Stub_ReadAt, on_file, mthen in E. rewrite Lseek_negative in E by exact Hp. discriminate. }
  destruct (Stub_ReadAt_ok n pos d Hp) as (d' & Ew & Hc & _). rewrite Ew in E. injection E as <- <-.
  unfold swap_bytes in Hs. rewrite Ed in Hs. split; [|now apply Forall_slice].
  split; [|exact H0]. split; auto. unfold swap_bytes. cbn. now rewrite Hc.
Qed.

Lemma LRU_evict_boundary vpn : triple (boundary p) (LRU_evict vpn) (fun _ s => boundary p s).
Proof.
  unfold LRU_evict. eapply triple_then; [apply neutral_boundary; auto with neutral|]. intros i.
  eapply triple_then; [apply neutral_boundary; auto with neutral|]. intros e.
  eapply triple_then; [apply triple_get|]. intros s0.
  eapply triple_then with (R := fun bs s => boundary p s /\ Forall is_byte bs).
  { apply triple_lift. intros bs s Hbs [-> Hb]. split; [exact Hb|].
    apply load_Some in Hbs as [_ ->]. apply Forall_slice, Hb. }
  intros bs s a s' [Hb Hbs] E. revert s a s' Hb E.
  change (triple (boundary p) (with_disk (Stub_WriteAt bs (i32 (virtualPage e * PageSize))) >>>
    write_entry (InTable i) (mkTranslationEntry (i32 vpn) (physicalPage e) true (readOnly e)
      (use e) (dirty e) (current_tid s0)) >>> mreturn i) (fun _ s => boundary p s)).
  eapply triple_then; [now apply swap_write_boundary|]. intros ?.
  apply neutral_boundary. neutral.
Qed.

Lemma LRU_boundary : triple (boundary p) LRU (fun _ s => boundary p s).
Proof.
  unfold LRU. eapply triple_then; [apply neutral_boundary; auto with neutral|]. intros va. cbv zeta.
  eapply triple_then; [apply neutral_boundary; auto with neutral|]. intros free.
  eapply triple_then with (R := fun _ s => boundary p s).
  { destruct free; [apply neutral_boundary; auto with neutral|apply LRU_evict_boundary]. }
  intros i. eapply triple_then; [apply neutral_boundary; auto with neutral|]. intros e.
  eapply triple_then; [apply swap_read_boundary|]. intros bs.
  eapply triple_then; [apply triple_get|]. intros s0.
  eapply triple_then with (R := fun m s => boundary p s /\ Forall is_byte m).
  { apply triple_lift. intros m s Hm [-> [Hb Hbs]]. split; [exact Hb|].
    apply store_Some in Hm as [_ ->]. apply Forall_splice; [apply Hb|exact Hbs]. }
  intros m. apply triple_modify. intros s [[[] ?] ?]. split; [split; auto|auto].
Qed.

(** The registers instructions and traps write directly. *)
Definition writable (i : Z) : Prop := i < PCReg \/ i = BadVAddrReg.

Lemma set_reg_inv i v :
  0 <= i < NumTotalRegs -> writable i -> is_i32 v ->
  triple (cpu_inv p) (set_reg i v) (fun _ s => cpu_inv p s).
Proof.
  intros Hi Hl Hv s a s' [Hr Hm Hs Hpc Hnpc] E. rewrite set_reg_ok in E by assumption. injection E as <- <-.
  pose proof (rw_length _ Hr). unfold writable, PCReg, NextPCReg, LoadReg, BadVAddrReg, NumTotalRegs in *.
  split; auto; cbn [registers set_registers].
  - apply regs_wf_insert; auto. unfold LoadReg. lia.
  - unfold PCReg. rewrite zlookup_insert_ne by lia. exact Hpc.
  - unfold NextPCReg. rewrite zlookup_insert_ne by lia. exact Hnpc.
Qed.

Lemma DelayedLoad_boundary r v :
  0 <= r < NumGPRegs -> is_i32 v -> triple (cpu_inv p) (DelayedLoad r v) (fun _ s => boundary p s).
Proof.
  intros Hr Hv s a s' [Hw Hm Hs Hpc Hnpc] E.
  destruct (DelayedLoad_ok s r v Hw Hr Hv) as (lr & lv & _ & _ & Hlr & Hw' & E').
  rewrite E' in E. injection E as <- <-.
  assert (Hlk : forall i, i <> 0 -> i <> LoadValueReg -> i <> LoadReg -> i <> lr ->
            (delayed (registers s) lr lv r v).[i] = (registers s).[i]).
  { intros i H1 H2 H3 H4. rewrite delayed_lookup; [|apply Hw|exact Hlr].
    now rewrite !decide_False by assumption. }
  split; [split; auto; cbn [registers set_registers]|].
  - rewrite Hlk; auto; unfold NumGPRegs, PCReg in *; discriminate || lia.
  - rewrite Hlk; auto; unfold NumGPRegs, NextPCReg in *; discriminate || lia.
  - unfold R0_zero. cbn [registers set_registers]. rewrite delayed_lookup; [|apply Hw|exact Hlr].
    now rewrite decide_True.
Qed.

Lemma RaiseException_boundary which va :
  is_i32 va -> triple (cpu_inv p) (RaiseException which va) (fun _ s => boundary p s).
Proof.
  intros Hva. unfold RaiseException.
  eapply triple_then; [apply set_reg_inv; [split; [discriminate|reflexivity]|now right|exact Hva]|].
  intros ?. eapply triple_then.
  { apply DelayedLoad_boundary; [unfold NumGPRegs; lia|unfold is_i32; lia]. }
  intros ?. eapply triple_then with (R := fun _ s => boundary p s).
  { apply neutral_boundary. neutral. }
  intros ?. eapply triple_then with (R := fun _ s => boundary p s).
  { unfold ExceptionHandler, ReadRegister. eapply triple_then.
    - apply neutral_boundary. neutral.
    - intros ty. destruct which; try (apply neutral_boundary; solve [neutral]). apply LRU_boundary. }
  intros ?. apply neutral_boundary. neutral.
Qed.

Lemma of_bytes_range size bs :
  access_size size -> Forall is_byte bs -> Z.of_nat (length bs) = size -> is_i32 (of_bytes size bs).
Proof.
  intros Hsz Hb Hl. pose proof (le_join_range bs Hb) as Hr. rewrite Hl in Hr. unfold of_bytes.
  destruct Hsz as [->|[->| ->]]; cbn [Z.eqb Pos.eqb].
  - unfold sign_extend_char, is_i32. change (256 ^ 1) with 256 in Hr.
    destruct (Z.ltb_spec (le_join bs) 128); lia.
  - unfold is_i32. change (256 ^ 2) with 65536 in Hr. lia.
  - apply i32_range.
Qed.

Lemma ReadMem_inv va size :
  access_size size -> is_i32 va ->
  triple (cpu_inv p) (ReadMem va size)
    (fun o s => match o with Some v => cpu_inv p s /\ is_i32 v | None => boundary p s end).
Proof.
  intros Hsz Hva. unfold ReadMem.
  eapply triple_then; [apply neutral_inv; auto with neutral|]. intros [e|pa].
  - eapply triple_then; [now apply RaiseException_boundary|]. intros ?. now apply triple_return.
  - eapply triple_then; [apply triple_get|]. intros s0.
    assert (Hld : access_size size -> triple (fun s => s0 = s /\ cpu_inv p s)
               (mlift (load (mainMemory s0) pa size))
               (fun bs s => cpu_inv p s /\ is_i32 (of_bytes size bs))).
    { intros Hn. apply triple_lift. intros bs s E [-> Hi]. split; [exact Hi|].
      apply load_Some in E as [Hr ->].
      apply of_bytes_range; [exact Hn|apply Forall_slice, Hi|]. apply length_slice; lia. }
    specialize (Hld Hsz). destruct Hsz as [->|[->| ->]]; cbn [Z.eqb Pos.eqb].
    all: eapply triple_then; [exact Hld|].
    all: intros bs; apply triple_return; intros s Hs; exact Hs.
Qed.

Lemma WriteMem_inv va size v :
  is_i32 va ->
  triple (cpu_inv p) (WriteMem va size v) (fun ok s => cpu_inv p s /\ (ok = false -> boundary p s)).
Proof.
  intros Hva. unfold WriteMem.
  eapply triple_then; [apply neutral_inv; auto with neutral|]. intros [e|pa].
  - eapply triple_then; [now apply RaiseException_boundary|]. intros ?.
    apply triple_return. intros s Hb. split; [apply Hb|auto].
  - eapply triple_then; [apply triple_get|]. intros s0.
    eapply triple_then with (R := fun m s => cpu_inv p s /\ Forall is_byte m).
    { assert (Hst : forall bs, Forall is_byte bs ->
                triple (fun s => s0 = s /\ cpu_inv p s) (mlift (store (mainMemory s0) pa bs))
                  (fun m s => cpu_inv p s /\ Forall is_byte m)).
      { intros bs Hbs. apply triple_lift. intros m s E [-> Hi]. split; [exact Hi|].
        apply store_Some in E as [_ ->]. apply Forall_splice; [apply Hi|exact Hbs]. }
      repeat case_match; try apply triple_fail; apply Hst, le_split_bytes. }
    intros m. eapply triple_then with (R := fun _ s => cpu_inv p s).
    { apply triple_modify. intros s [[] Hm]. split; auto. }
    intros ?. apply triple_return. intros s Hi. split; [exact Hi|discriminate].
Qed.
End exception_lemmas.

(** * The switch *)
Definition after_switch (p : Z * Z) (o : outcome) (s : Machine) : Prop :=
  match o with
  | Return => boundary p s
  | Break r v pc => cpu_inv p s /\ 0 <= r < NumGPRegs /\ is_i32 v /\ is_i32 pc
  end.

(** One lemma per statement of the switch; the facts about values go to the
    context, the state assertion stays [cpu_inv]. *)
Section step_lemmas.
Context {A : Type} {p : Z * Z}.
Implicit Types Q : A -> Machine -> Prop.

Lemma step_reg i (k : Z -> M Machine A) Q :
  0 <= i < NumTotalRegs -> (forall v, is_i32 v -> triple (cpu_inv p) (k v) Q) ->
  triple (cpu_inv p) (mthen (reg i) k) Q.
Proof.
  intros Hi Hk s a s' Hinv E. destruct (reg_ok s i (ci_regs _ _ Hinv) Hi) as (v & Er & _ & Hv).
  rewrite (mthen_step _ _ _ _ _ Er) in E. exact (Hk v Hv s a s' Hinv E).
Qed.

Lemma step_set_reg i v (k : unit -> M Machine A) Q :
  0 <= i < NumTotalRegs -> writable i -> is_i32 v -> triple (cpu_inv p) (k tt) Q ->
  triple (cpu_inv p) (mthen (set_reg i v) k) Q.
Proof.
  intros Hi Hl Hv Hk. eapply triple_then; [now apply set_reg_inv|]. intros []. exact Hk.
Qed.

Lemma step_ReadMem va size (k : option Z -> M Machine A) Q :
  access_size size -> is_i32 va ->
  (forall v, is_i32 v -> triple (cpu_inv p) (k (Some v)) Q) -> triple (boundary p) (k None) Q ->
  triple (cpu_inv p) (mthen (ReadMem va size) k) Q.
Proof.
  intros Hs Hva H1 H2. eapply triple_then; [now apply ReadMem_inv|]. intros [v|]; [|exact H2].
  intros s a s' [Hi Hv] E. exact (H1 v Hv s a s' Hi E).
Qed.

Lemma step_WriteMem va size v (k : bool -> M Machine A) Q :
  is_i32 va -> triple (cpu_inv p) (k true) Q -> triple (boundary p) (k false) Q ->
  triple (cpu_inv p) (mthen (WriteMem va size v) k) Q.
Proof.
  intros Hva H1 H2. eapply triple_then; [now apply WriteMem_inv|].
  intros []; intros s a s' [Hi Hb] E; [exact (H1 s a s' Hi E)|exact (H2 s a s' (Hb eq_refl) E)].
Qed.

Lemma step_assert b (k : unit -> M Machine A) Q :
  (b = true -> triple (cpu_inv p) (k tt) Q) -> triple (cpu_inv p) (mthen (ASSERT b) k) Q.
Proof.
  intros Hk s a s' Hi E. apply mthen_Ok in E as ([] & s1 & E1 & E2).
  apply ASSERT_Ok in E1 as [Hb [= ->]]. exact (Hk Hb s a s' Hi E2).
Qed.

Lemma step_return {B} (b : B) (k : B -> M Machine A) P Q :
  triple P (k b) Q -> triple P (mthen (mreturn b) k) Q.
Proof. intros H s a s' HP E. exact (H s a s' HP E). Qed.

(** The link register of a jump or branch. *)
Lemma step_link r (k : unit -> M Machine A) Q :
  0 <= r < NumGPRegs -> triple (cpu_inv p) (k tt) Q ->
  triple (cpu_inv p) (mthen (let! npc := reg NextPCReg in set_reg r (i32 (npc + 4))) k) Q.
Proof.
  intros Hr Hk. eapply triple_then with (R := fun _ s => cpu_inv p s); [|intros []; exact Hk].
  eapply triple_then with (R := fun _ s => cpu_inv p s); [apply neutral_inv; auto with neutral|].
  intros npc. unfold NumGPRegs in Hr.
  apply set_reg_inv; [unfold NumTotalRegs; lia|unfold writable, PCReg; lia|apply i32_range].
Qed.
End step_lemmas.

Section end_lemmas.
Context {p : Z * Z}.
Lemma end_break pc : is_i32 pc -> triple (cpu_inv p) (mbreak pc) (after_switch p).
Proof.
  intros Hpc. apply triple_return. intros s Hi. split; [exact Hi|].
  split; [unfold NumGPRegs; lia|]. split; [unfold is_i32; lia|exact Hpc].
Qed.
Lemma end_load r v pc :
  0 <= r < NumGPRegs -> is_i32 v -> is_i32 pc ->
  triple (cpu_inv p) (mreturn (Break r v pc)) (after_switch p).
Proof. intros. apply triple_return. intros s Hi. cbn. auto. Qed.
Lemma end_return : triple (boundary p) (mreturn Return) (after_switch p).
Proof. apply triple_return. auto. Qed.
Lemma end_raise e va : is_i32 va -> triple (cpu_inv p) (raise_and_return e va) (after_switch p).
Proof.
  intros. unfold raise_and_return. eapply triple_then; [now apply RaiseException_boundary|].
  intros ?. apply end_return.
Qed.
Lemma end_assign r v pc :
  0 <= r < NumTotalRegs -> writable r -> is_i32 v -> is_i32 pc ->
  triple (cpu_inv p) (assign r v pc) (after_switch p).
Proof. intros. unfold assign. apply step_set_reg; auto. now apply end_break. Qed.
Lemma end_branch b x pc : is_i32 pc -> triple (cpu_inv p) (branch b x pc) (after_switch p).
Proof.
  intros. unfold branch. destruct b; [|now apply end_break].
  apply step_reg; [split; [discriminate|reflexivity]|]. intros. apply end_break, i32_range.
Qed.
End end_lemmas.

(** Values computed by the switch are ints, its register numbers are valid. *)
Lemma Mult_range a b sg : is_i32 a -> is_i32 b -> is_i32 (Mult a b sg).1 /\ is_i32 (Mult a b sg).2.
Proof.
  intros Ha Hb. pose proof (Mult_dword a b sg Ha Hb) as H. destruct (Mult a b sg). tauto.
Qed.

Lemma i32_bit (b : bool) : is_i32 (if b then 1 else 0).
Proof. destruct b; unfold is_i32; lia. Qed.

Lemma i32_quot a b : is_i32 a -> b <> 0 -> ((a =? - 2 ^ 31) && (b =? -1))%bool = false -> is_i32 (Z.quot a b).
Proof.
  unfold is_i32. intros Ha Hb E.
  assert (Hq : Z.abs (Z.quot a b) <= Z.abs a).
  { rewrite <- Z.quot_abs by exact Hb. rewrite Z.quot_div_nonneg by lia.
    apply Z.div_le_upper_bound; nia. }
  destruct (Z.eq_dec (Z.quot a b) (2 ^ 31)) as [Eq|]; [exfalso|lia].
  assert (a = - 2 ^ 31) as -> by lia.
  apply andb_false_iff in E as [E|E]; bool_hyps; [lia|].
  pose proof (Z.quot_rem' (- 2 ^ 31) b). pose proof (Z.rem_bound_abs (- 2 ^ 31) b Hb). nia.
Qed.

Lemma i32_rem a b : is_i32 a -> is_i32 (Z.rem a b).
Proof.
  unfold is_i32. intros Ha. destruct (Z.eq_dec b 0) as [->|Hb]; [now rewrite Z.rem_0_r_ext|].
  pose proof (Z.quot_rem' a b). pose proof (Z.rem_sign_mul a b Hb).
  assert (Z.abs (Z.rem a b) <= Z.abs a).
  { rewrite <- Z.rem_abs by exact Hb. rewrite Z.rem_mod_nonneg by lia.
    apply Z.mod_le; lia. }
  nia.
Qed.

Lemma i32_mask16 a : is_i32 (Z.land a 0xffff).
Proof. apply (is_i32_land_mask a 16). lia. Qed.
Lemma i32_mask8 a : is_i32 (Z.land a 0xff).
Proof. apply (is_i32_land_mask a 8). lia. Qed.
Lemma land_31_nonneg a : 0 <= Z.land a 0x1f.
Proof. change 0x1f with (Z.ones 5). rewrite Z.land_ones by lia. apply Z.mod_pos_bound. lia. Qed.
Lemma i32_lnot3 a : is_i32 a -> is_i32 (Z.land a (Z.lnot 3)).
Proof. intros. apply is_i32_land; [assumption|unfold is_i32, Z.lnot; lia]. Qed.
Lemma i32_merge (P : Z -> Z -> Z -> Z) k a b :
  (P = lwl_merge \/ P = lwr_merge \/ P = swl_merge \/ P = swr_merge) ->
  is_i32 a -> is_i32 b -> is_i32 (P k a b).
Proof.
  intros [->|[->|[->| ->]]] Ha Hb; unfold lwl_merge, lwr_merge, swl_merge, swr_merge;
    repeat case_match; auto using i32_range.
Qed.

Lemma eqb_false x y : (x =? y) = false -> x <> y.
Proof. apply Z.eqb_neq. Qed.

Create HintDb cpu discriminated.
#[export] Hint Constants Opaque : cpu.
#[export] Hint Resolve i32_range is_i32_land is_i32_lor is_i32_lxor is_i32_lnot is_i32_asr
  i32_mask16 i32_mask8 land_31_nonneg i32_lnot3 i32_bit i32_rem i32_quot eqb_false : cpu.

(** [cpu_side]: register numbers and int ranges. *)
Ltac cpu_side :=
  match goal with
  | |- access_size _ => unfold access_size; lia
  | |- is_i32 0 => unfold is_i32; lia
  | |- is_i32 (if ?b then _ else _) => destruct b; cpu_side
  | |- _ => solve [eauto with cpu nocore]
  | |- _ => assumption
  | |- 0 <= _ < NumTotalRegs => unfold NumTotalRegs, NumGPRegs, HiReg, LoReg, R31, NextPCReg,
        LoadReg, LoadValueReg in *; lia
  | |- writable _ => unfold writable, PCReg, NumGPRegs, HiReg, LoReg, R31 in *; lia
  end.

(** [cpu_step]: the next statement of the switch. *)
Ltac cpu_step :=
  cbv zeta;
  match goal with
  | |- triple _ (mthen (reg _) _) _ => apply step_reg; [cpu_side|intros]
  | |- triple _ (mthen (set_reg _ _) _) _ => apply step_set_reg; [cpu_side..|]
  | |- triple _ (mthen (ReadMem _ _) _) _ => apply step_ReadMem; [cpu_side|cpu_side|intros|]
  | |- triple _ (mthen (WriteMem _ _ _) _) _ => apply step_WriteMem; [cpu_side|..]
  | |- triple _ (mthen (ASSERT _) _) _ => apply step_assert; intros
  | |- triple _ (mbreak _) _ => apply end_break; cpu_side
  | |- triple _ (assign _ _ _) _ => apply end_assign; cpu_side
  | |- triple _ (branch _ _ _) _ => apply end_branch; cpu_side
  | |- triple _ (raise_and_return _ _) _ => apply end_raise; cpu_side
  | |- triple _ (mreturn Return) _ => apply end_return
  | |- triple _ (mreturn (Break _ _ _)) _ => apply end_load; cpu_side
  | |- triple _ (mfail _) _ => apply triple_fail
  | H : triple ?P ?m ?Q |- triple ?P ?m ?Q => exact H
  | |- triple _ (if ?b then _ else _) _ => destruct b eqn:?
  | |- triple _ (mthen (if ?b then _ else _) _) _ => destruct b
  | |- triple _ (mthen (mthen (reg NextPCReg) _) _) _ =>
      apply step_link; [first [assumption|unfold R31, NumGPRegs; lia]|]
  | |- triple _ (mthen (mreturn _) _) _ => apply step_return
  end.

(** The cases left to the next part of the switch. *)
Ltac fall_through := try match goal with H : ?T |- ?T => exact H end.

Section switch_lemmas.
Context (p : Z * Z) (instr : Instruction) (pc : Z) (Hi : instr_ok instr) (Hpc : is_i32 pc).

Let Hrs : 0 <= rs instr < NumGPRegs := io_rs _ Hi.
Let Hrt : 0 <= rt instr < NumGPRegs := io_rt _ Hi.
Let Hrd : 0 <= rd instr < NumGPRegs := io_rd _ Hi.
Let Hex : is_i32 (extra instr) := io_extra _ Hi.

Lemma store_merged_ok merge :
  (merge = swl_merge \/ merge = swr_merge) -> triple (cpu_inv p) (store_merged merge instr pc) (after_switch p).
Proof. intros Hm. unfold store_merged. repeat cpu_step. Qed.

Lemma load_merged_ok merge :
  (merge = lwl_merge \/ merge = lwr_merge) -> triple (cpu_inv p) (load_merged merge instr pc) (after_switch p).
Proof.
  intros Hm. unfold load_merged. do 3 cpu_step; [|cpu_step]. cpu_step.
  apply step_reg; [case_match; cpu_side|]. intros.
  apply end_load; [exact Hrt|apply i32_merge; tauto|exact Hpc].
Qed.

Lemma sub_to_res_ok : triple (cpu_inv p) (exec_sub_to_res instr pc) (after_switch p).
Proof.
  unfold exec_sub_to_res.
  pose proof (store_merged_ok swl_merge (or_introl eq_refl)).
  pose proof (store_merged_ok swr_merge (or_intror eq_refl)). destruct (opCode instr); fall_through; repeat cpu_step; discriminate.
Qed.

Lemma sll_to_srlv_ok : triple (cpu_inv p) (exec_sll_to_srlv instr pc) (after_switch p).
Proof.
  assert (Hsh : by_shamt (opCode instr) = true -> 0 <= extra instr).
  { intros E. now apply (io_shamt _ Hi). }
  unfold exec_sll_to_srlv. pose proof sub_to_res_ok.
  destruct (opCode instr); fall_through; try specialize (Hsh eq_refl); repeat cpu_step.
Qed.

Lemma mfhi_to_sh_ok : triple (cpu_inv p) (exec_mfhi_to_sh instr pc) (after_switch p).
Proof.
  unfold exec_mfhi_to_sh. pose proof sll_to_srlv_ok.
  destruct (opCode instr); fall_through; repeat cpu_step.
  all: match goal with |- context [Mult ?a ?b ?sg] =>
         pose proof (Mult_range a b sg ltac:(assumption) ltac:(assumption)) as [? ?];
         destruct (Mult a b sg) end; repeat cpu_step.
Qed.

Lemma lb_to_lwr_ok : triple (cpu_inv p) (exec_lb_to_lwr instr pc) (after_switch p).
Proof.
  unfold exec_lb_to_lwr. pose proof mfhi_to_sh_ok.
  pose proof (load_merged_ok lwl_merge (or_introl eq_refl)).
  pose proof (load_merged_ok lwr_merge (or_intror eq_refl)).
  destruct (opCode instr); fall_through; repeat cpu_step.
Qed.

Lemma div_to_jr_ok : triple (cpu_inv p) (exec_div_to_jr instr pc) (after_switch p).
Proof.
  unfold exec_div_to_jr. pose proof lb_to_lwr_ok.
  destruct (opCode instr); fall_through; repeat cpu_step.
Qed.

Lemma add_to_bne_ok : triple (cpu_inv p) (exec_add_to_bne instr pc) (after_switch p).
Proof.
  unfold exec_add_to_bne. pose proof div_to_jr_ok.
  destruct (opCode instr); fall_through; repeat cpu_step.
Qed.
End switch_lemmas.

(** * The whole instruction *)
Section instruction_lemmas.
Implicit Types s : Machine.

(** Writing a program counter. *)
Lemma regs_insert_pc rs i v :
  regs_wf rs -> i = PCReg \/ i = NextPCReg \/ i = PrevPCReg -> is_i32 v ->
  regs_wf (<[Z.to_nat i := v]> rs).
Proof.
  intros Hr Hi Hv. apply regs_wf_insert; auto; unfold PCReg, NextPCReg, PrevPCReg, LoadReg, NumTotalRegs in *; lia.
Qed.

Lemma finish_ok p s r v pc :
  cpu_inv p s -> 0 <= r < NumGPRegs -> is_i32 v -> is_i32 pc ->
  exists lr lv, (registers s).[LoadReg] = Some lr /\ (registers s).[LoadValueReg] = Some lv /\
    let rs' := <[Z.to_nat NextPCReg := pc]> (<[Z.to_nat PCReg := p.2]>
                 (<[Z.to_nat PrevPCReg := p.1]> (delayed (registers s) lr lv r v))) in
    finish_instruction r v pc s = Ok (tt, set_registers rs' s) /\
    boundary (p.2, pc) (set_registers rs' s) /\
    rs'.[PrevPCReg] = Some p.1.
Proof.
  intros Hinv Hr Hv Hpc. pose proof Hinv as [Hw Hm Hs Epc Enpc].
  destruct (DelayedLoad_ok s r v Hw Hr Hv) as (lr & lv & Elr & Elv & Hlr & Hw1 & E).
  exists lr, lv. split; [exact Elr|]. split; [exact Elv|]. cbv zeta.
  destruct (DelayedLoad_boundary r v Hr Hv s tt _ Hinv E) as [[_ _ _ Hp1 Hp2] H0]. unfold R0_zero in H0.
  cbn [registers set_registers] in Hp1, Hp2, H0. set (rs1 := delayed _ _ _ _ _) in *.
  assert (Hl1 : Z.of_nat (length rs1) = 40) by apply Hw1.
  assert (I1 : is_i32 p.1) by (eapply zlookup_Forall; [apply Hw1|exact Hp1]).
  assert (I2 : is_i32 p.2) by (eapply zlookup_Forall; [apply Hw1|exact Hp2]).
  assert (Hw2 : regs_wf (<[Z.to_nat PrevPCReg := p.1]> rs1)) by (apply regs_insert_pc; auto).
  assert (Hw3 : regs_wf (<[Z.to_nat PCReg := p.2]> (<[Z.to_nat PrevPCReg := p.1]> rs1)))
    by (apply regs_insert_pc; auto).
  unfold PCReg, NextPCReg, PrevPCReg, NumTotalRegs in *. split; [|split].
  - unfold finish_instruction. mstep_by E.
    assert (E1 : reg PCReg (set_registers rs1 s) = Ok (p.1, set_registers rs1 s)).
    { unfold reg. mstep_to (set_registers rs1 s) (set_registers rs1 s). cbn [registers set_registers].
      unfold PCReg. now rewrite Hp1. }
    mstep_by E1. unfold PrevPCReg.
    mstep_by (set_reg_ok (set_registers rs1 s) 36 p.1 Hw1 ltac:(unfold NumTotalRegs; lia)).
    set (s2 := set_registers _ _).
    assert (E2 : reg NextPCReg s2 = Ok (p.2, s2)).
    { unfold reg. mstep_to s2 s2. subst s2. cbn [registers set_registers].
      unfold NextPCReg. rewrite zlookup_insert_ne by lia. now rewrite Hp2. }
    mstep_by E2. unfold PCReg.
    mstep_by (set_reg_ok s2 34 p.2 Hw2 ltac:(unfold NumTotalRegs; lia)).
    exact (set_reg_ok (set_registers _ s2) 35 pc Hw3 ltac:(unfold NumTotalRegs; lia)).
  - split; [split; cbn [registers set_registers fst snd]; auto|].
    + apply (regs_insert_pc _ 35); unfold NextPCReg; auto.
    + unfold PCReg. rewrite zlookup_insert_ne, zlookup_insert_eq by (rewrite ?length_insert; lia). reflexivity.
    + unfold NextPCReg. rewrite zlookup_insert_eq by (rewrite ?length_insert; lia). reflexivity.
    + unfold R0_zero. cbn [registers set_registers]. rewrite !zlookup_insert_ne by lia. exact H0.
  - rewrite !zlookup_insert_ne by lia. apply zlookup_insert_eq. lia.
Qed.

Lemma ReadMem_Some_same va size s v s' : ReadMem va size s = Ok (Some v, s') -> same_cpu s s'.
Proof.
  intros E. unfold ReadMem in E. apply mthen_Ok in E as (t & s1 & E1 & E2).
  transitivity s1; [eapply Translate_neutral, E1|]. destruct t as [e|pa].
  - apply mthen_Ok in E2 as (? & ? & _ & [=]).
  - revert E2. generalize (Some v). intros o. revert s' o.
    assert (cpu_neutral (let! s := mget in
      if size =? 1 then let! bs := mlift (load (mainMemory s) pa 1) in mreturn (Some (sign_extend_char (le_join bs)))
      else if size =? 2 then let! bs := mlift (load (mainMemory s) pa 2) in mreturn (Some (ShortToHost (le_join bs)))
      else if size =? 4 then let! bs := mlift (load (mainMemory s) pa 4) in mreturn (Some (i32 (WordToHost (le_join bs))))
      else mfail AssertFailed)) as Hn by neutral.
    intros s' o E2. eapply Hn, E2.
Qed.

Lemma sign_bit_i32 a b :
  is_i32 a -> is_i32 b -> sign_bit (Z.lxor a b) = xorb (a <? 0) (b <? 0).
Proof.
  intros Ha Hb. unfold sign_bit, SIGN_BIT. change 2147483648 with (2 ^ 31).
  rewrite land_pow2_testbit, Z.lxor_spec by lia.
  assert (Hs : forall x, is_i32 x -> Z.testbit x 31 = (x <? 0)).
  { intros x Hx. rewrite Z.testbit_odd. apply is_i32_shiftr in Hx as Hs.
    rewrite Z.shiftr_div_pow2 in * by lia. pose proof (Z.div_mod x (2 ^ 31)).
    pose proof (Z.mod_pos_bound x (2 ^ 31)).
    destruct Hs as [E|E]; rewrite E; symmetry; [apply Z.ltb_ge|apply Z.ltb_lt]; lia. }
  now rewrite !Hs.
Qed.

Lemma i32_cases z : - 2 ^ 32 <= z < 2 ^ 32 ->
  i32 z = if z <? - 2 ^ 31 then z + 2 ^ 32 else if z <? 2 ^ 31 then z else z - 2 ^ 32.
Proof.
  intros Hz. unfold i32. destruct (Z.ltb_spec z (- 2 ^ 31)).
  - replace ((z + 2 ^ 31) mod 2 ^ 32) with (z + 2 ^ 31 + 2 ^ 32); [lia|].
    apply (Z.mod_unique_pos _ _ (-1)); lia.
  - destruct (Z.ltb_spec z (2 ^ 31)).
    + rewrite Z.mod_small; lia.
    + replace ((z + 2 ^ 31) mod 2 ^ 32) with (z + 2 ^ 31 - 2 ^ 32); [lia|].
      apply (Z.mod_unique_pos _ _ 1); lia.
Qed.

Definition in_i32 (z : Z) : bool := (- 2 ^ 31 <=? z) && (z <? 2 ^ 31).

Lemma add_overflow_test a b :
  is_i32 a -> is_i32 b ->
  negb (sign_bit (Z.lxor a b)) && sign_bit (Z.lxor a (i32 (a + b))) = negb (in_i32 (a + b)).
Proof.
  intros Ha Hb. rewrite !sign_bit_i32 by auto using i32_range. unfold is_i32 in *.
  rewrite i32_cases by lia. unfold in_i32.
  destruct (Z.ltb_spec (a + b) (- 2 ^ 31)), (Z.ltb_spec (a + b) (2 ^ 31)), (Z.leb_spec (- 2 ^ 31) (a + b)); try lia;
    repeat match goal with |- context [?x <? 0] => destruct (Z.ltb_spec x 0) end; cbn; reflexivity || lia.
Qed.

Lemma sub_overflow_test a b :
  is_i32 a -> is_i32 b ->
  sign_bit (Z.lxor a b) && sign_bit (Z.lxor a (i32 (a - b))) = negb (in_i32 (a - b)).
Proof.
  intros Ha Hb. rewrite !sign_bit_i32 by auto using i32_range. unfold is_i32 in *.
  rewrite i32_cases by lia. unfold in_i32.
  destruct (Z.ltb_spec (a - b) (- 2 ^ 31)), (Z.ltb_spec (a - b) (2 ^ 31)), (Z.leb_spec (- 2 ^ 31) (a - b)); try lia;
    repeat match goal with |- context [?x <? 0] => destruct (Z.ltb_spec x 0) end; cbn; reflexivity || lia.
Qed.

(** The kernel has no handler for an overflow. *)
Lemma RaiseException_unhandled s va :
  regs_wf (registers s) -> is_i32 va -> RaiseException OverflowException va s = Err AssertFailed.
Proof.
  intros Hw Hva. unfold RaiseException.
  mstep_by (set_reg_ok s BadVAddrReg va Hw ltac:(unfold BadVAddrReg, NumTotalRegs; lia)).
  assert (Hw1 : regs_wf (<[Z.to_nat BadVAddrReg := va]> (registers s))).
  { apply regs_wf_insert; auto; unfold BadVAddrReg, LoadReg, NumTotalRegs; lia. }
  destruct (DelayedLoad_ok (set_registers (<[Z.to_nat BadVAddrReg := va]> (registers s)) s) 0 0 Hw1)
    as (lr & lv & _ & _ & _ & Hw2 & E); [unfold NumGPRegs; lia|unfold is_i32; lia|].
  mstep_by E. set (rs2 := delayed _ _ _ _ _) in *.
  set (s2 := set_status SystemMode (set_registers rs2 s)). mstep_to tt s2.
  destruct (reg_ok s2 2 Hw2) as (ty & E2 & _); [unfold NumTotalRegs; lia|].
  assert (Er : ReadRegister 2 s2 = Ok (ty, s2)) by exact E2.
  apply mthen_fail. unfold ExceptionHandler. now mstep_by Er.
Qed.
End instruction_lemmas.

(** * Properties *)

(** C16: A step of the processor keeps the machine well formed (32-bit
    registers, byte memory, a valid delayed-load target) with register 0 equal
    to zero, for every instruction and every exception path; and the program
    counters either stay as they are (the instruction trapped and will be
    restarted) or advance to NextPC with PrevPC the old PC. *)
Theorem OneInstruction_step (s s' : Machine) (pc npc : Z) :
  boundary (pc, npc) s -> OneInstruction s = Ok (tt, s') ->
  boundary (pc, npc) s' \/
  exists target, boundary (npc, target) s' /\ (registers s').[PrevPCReg] = Some pc.
Proof.
  intros [Hinv H0] E. unfold OneInstruction in E. apply mthen_Ok in E as (pc' & s1 & E1 & E).
  destruct (reg_ok s PCReg (ci_regs _ _ Hinv)) as (v & Er & Ev & Hv); [split; [discriminate|reflexivity]|].
  rewrite Er in E1. injection E1 as <- <-. apply mthen_Ok in E as (raw & s2 & E1 & E).
  pose proof (ReadMem_inv v 4 (or_intror (or_intror eq_refl)) Hv s raw s2 Hinv E1) as H2.
  destruct raw as [raw|]; [|injection E as <-; left; exact H2]. destruct H2 as [H2 Hraw].
  destruct (Decode_ok (u32 raw)) as (instr & Ed & Hok & _). rewrite Ed in E.
  apply mthen_Ok in E as (i & s3 & [= <- <-] & E). apply mthen_Ok in E as (n & s4 & E3 & E).
  pose proof (reg_neutral NextPCReg s2 n s4 E3) as Hn. apply (cpu_inv_same _ _ _ Hn) in H2.
  apply mthen_Ok in E as (o & s5 & E5 & E).
  pose proof (add_to_bne_ok _ instr (i32 (n + 4)) Hok (i32_range _) s4 o s5 H2 E5) as Ho.
  destruct o as [|r w target]; cbn in Ho; [injection E as <-; left; exact Ho|].
  destruct Ho as (H5 & Hr & Hw & Ht). right. exists target.
  destruct (finish_ok _ s5 r w target H5 Hr Hw Ht) as (lr & lv & _ & _ & Ef & Hb & Hp).
  rewrite Ef in E. injection E as <-. split; [exact Hb|exact Hp].
Qed.

(** ADD traps exactly on signed overflow.  When the sum of the operands
    is an int it is written to rd, the pending delayed load is applied and
    the counters advance; otherwise the overflow exception is raised, which
    the kernel does not handle. *)
Theorem OneInstruction_add (s s1 : Machine) (pc npc raw a b : Z) (instr : Instruction) :
  boundary (pc, npc) s -> ReadMem pc 4 s = Ok (Some raw, s1) ->
  Decode (u32 raw) = Some instr -> opCode instr = OP_ADD ->
  (registers s).[rs instr] = Some a -> (registers s).[rt instr] = Some b ->
  if in_i32 (a + b) then
    exists lr lv, (registers s).[LoadReg] = Some lr /\ (registers s).[LoadValueReg] = Some lv /\
      OneInstruction s = Ok (tt, set_registers
        (<[Z.to_nat NextPCReg := i32 (npc + 4)]> (<[Z.to_nat PCReg := npc]> (<[Z.to_nat PrevPCReg := pc]>
           (delayed (<[Z.to_nat (rd instr) := a + b]> (registers s)) lr lv 0 0)))) s1)
  else OneInstruction s = Err AssertFailed.
Proof.
  intros [Hinv _] Ef Ed Eop Ha Hb. pose proof (ReadMem_Some_same _ _ _ _ _ Ef) as Hsame.
  pose proof (cpu_inv_same _ _ _ Hsame Hinv) as Hi1. destruct Hsame as (Hregs & _).
  destruct (Decode_ok (u32 raw)) as (i & Ed' & Hok & _). rewrite Ed in Ed'. injection Ed' as <-.
  assert (Ia : is_i32 a) by (eapply zlookup_Forall; [apply (ci_regs _ _ Hinv)|exact Ha]).
  assert (Ib : is_i32 b) by (eapply zlookup_Forall; [apply (ci_regs _ _ Hinv)|exact Hb]).
  assert (Hreg : forall t i v, (registers t).[i] = Some v -> reg i t = Ok (v, t)).
  { intros t i v Hv. unfold reg. mstep_to t t. now rewrite Hv. }
  assert (Epre : OneInstruction s = (let! o := exec_add_to_bne instr (i32 (npc + 4)) in
      match o with Return => mreturn tt | Break r v p => finish_instruction r v p end) s1).
  { unfold OneInstruction. mstep_by (Hreg s PCReg pc (ci_pc _ _ Hinv)). mstep_by Ef.
    rewrite Ed. mstep_to instr s1. now mstep_by (Hreg s1 NextPCReg npc (ci_npc _ _ Hi1)). }
  rewrite <- Hregs in Ha, Hb |- *.
  assert (Eexec : exec_add_to_bne instr (i32 (npc + 4)) s1 =
    if negb (in_i32 (a + b)) then raise_and_return OverflowException 0 s1
    else assign (rd instr) (i32 (a + b)) (i32 (npc + 4)) s1).
  { unfold exec_add_to_bne. rewrite Eop. mstep_by (Hreg _ _ _ Ha). mstep_by (Hreg _ _ _ Hb). cbv zeta.
    rewrite add_overflow_test by assumption. now destruct (in_i32 (a + b)). }
  destruct (in_i32 (a + b)) eqn:Ei; rewrite Epre; unfold mthen at 1; rewrite Eexec; cbn [negb].
  - assert (Is : is_i32 (a + b)) by (unfold in_i32 in Ei; bool_hyps; unfold is_i32; lia).
    rewrite (i32_id _ Is).
    assert (Hrd : 0 <= rd instr < NumTotalRegs) by (pose proof (io_rd _ Hok); unfold NumGPRegs, NumTotalRegs in *; lia).
    assert (Hwr : writable (rd instr)) by (pose proof (io_rd _ Hok); left; unfold NumGPRegs, PCReg in *; lia).
    pose proof (set_reg_ok s1 (rd instr) (a + b) (ci_regs _ _ Hi1) Hrd) as Es.
    pose proof (set_reg_inv (rd instr) (a + b) Hrd Hwr Is s1 tt _ Hi1 Es) as Hi2.
    unfold assign. unfold mthen at 1. rewrite Es. cbn [mbreak mreturn].
    destruct (finish_ok _ _ 0 0 (i32 (npc + 4)) Hi2) as (lr & lv & Elr & Elv & Efin & _);
      [unfold NumGPRegs; lia|unfold is_i32; lia|apply i32_range|].
    exists lr, lv. cbn [registers set_registers] in Elr, Elv.
    pose proof (io_rd _ Hok) as Hrd'. unfold LoadReg, LoadValueReg, NumGPRegs in *.
    rewrite zlookup_insert_ne in Elr, Elv by lia. split; [exact Elr|]. split; [exact Elv|].
    exact Efin.
  - unfold raise_and_return, mthen.
    rewrite RaiseException_unhandled; [reflexivity|apply (ci_regs _ _ Hi1)|unfold is_i32; lia].
Qed.

(** * Concrete runs *)

(** A machine about to execute the word [raw] at virtual address 384. *)
Definition cpu_machine (raw r1 r2 : Z) : Machine :=
  set_mainMemory (le_split 4 raw ++ replicate 4092 0)
    (set_registers ([0; r1; r2] ++ replicate 31 0 ++ [384; 388] ++ replicate 4 0)
       (one_page_machine [])).

Lemma cpu_machine_boundary raw r1 r2 :
  is_i32 r1 -> is_i32 r2 -> boundary (384, 388) (cpu_machine raw r1 r2).
Proof.
  intros H1 H2. assert (H0 : is_i32 0) by (unfold is_i32; lia).
  split; [split|]; try reflexivity; cbn [registers mainMemory cpu_machine set_mainMemory set_registers].
  - split; [reflexivity| |].
    + repeat (apply Forall_cons; split; [assumption || (unfold is_i32; lia)|]). constructor.
    + intros r [= <-]. unfold NumGPRegs. lia.
  - apply Forall_app. split; [apply le_split_bytes|]. apply Forall_replicate. unfold is_byte. lia.
  - constructor.
Defined.

Lemma OneInstruction_step_witness :
  exists s', OneInstruction (cpu_machine add_word 5 7) = Ok (tt, s') /\
    (boundary (384, 388) s' \/
     exists target, boundary (388, target) s' /\ (registers s').[PrevPCReg] = Some 384).
Proof.
  eexists. split; [vm_compute; reflexivity|].
  apply (OneInstruction_step (cpu_machine add_word 5 7)).
  - apply cpu_machine_boundary; unfold is_i32; lia.
  - vm_compute. reflexivity.
Defined.

Lemma OneInstruction_add_witness :
  OneInstruction (cpu_machine add_word (2 ^ 31 - 1) 1) = Err AssertFailed.
Proof.
  eapply (OneInstruction_add (cpu_machine add_word (2 ^ 31 - 1) 1) _ 384 388 add_word (2 ^ 31 - 1) 1 add_instr).
  - apply cpu_machine_boundary; unfold is_i32; lia.
  - vm_compute. reflexivity.
  - vm_compute. reflexivity.
  - reflexivity.
  - reflexivity.
  - reflexivity.
Defined.
