(* ===== verification/Interp.v ===== *)
(** The stand-alone MIPS interpreter: bin/execute.c, with bin/encode.h (opcodes),
    bin/instr.h (fields), bin/int.h (memory) and bin/system.c (system calls).

    Reg, HI, LO and mem are the globals; pc, npc and icount the locals of
    runprogram.  mem is a finite map over the zeros of a static array, indexed
    from memoffset; an access outside it is [BadAccess].  An int is a [Z] with
    its wrap-around written out; a shift count that is a register is taken
    modulo 32, as the host's shift instructions take it.  Each case of the
    switch gives [None] when the loop goes on and [Some code] for exit(code).
    What the host's system calls do is a parameter: [host k no args m] is the
    result and the memory after the k-th call. *)
From Stdlib Require Import ZArith Lia.
From stdpp Require Import base option list list_numbers gmap.
From S2P Require Import Prelude Stats BitMap HostFile Machine Mips Cpu.

Local Open Scope Z_scope.

(** * encode.h: the opcodes and their numbers *)
Inductive normal_op :=
  | I_SPECIAL | I_BCOND | I_J | I_JAL | I_BEQ | I_BNE | I_BLEZ | I_BGTZ | I_ADDI | I_ADDIU
  | I_SLTI | I_SLTIU | I_ANDI | I_ORI | I_XORI | I_LUI | I_COP0 | I_COP1 | I_COP2 | I_COP3
  | I_LB | I_LH | I_LWL | I_LW | I_LBU | I_LHU | I_LWR | I_SB | I_SH | I_SWL | I_SW | I_SWR
  | I_LWC0 | I_LWC1 | I_LWC2 | I_LWC3 | I_SWC0 | I_SWC1 | I_SWC2 | I_SWC3.
Inductive special_op :=
  | I_SLL | I_SRL | I_SRA | I_SLLV | I_SRLV | I_SRAV | I_JR | I_JALR | I_SYSCALL | I_BREAK
  | I_MFHI | I_MTHI | I_MFLO | I_MTLO | I_MULT | I_MULTU | I_DIV | I_DIVU | I_ADD | I_ADDU
  | I_SUB | I_SUBU | I_AND | I_OR | I_XOR | I_NOR | I_SLT | I_SLTU.
Inductive bcond_op :=
  | I_BLTZ | I_BGEZ | I_BLTZAL | I_BGEZAL.

Definition normal_number (o : normal_op) : Z :=
  match o with
  | I_SPECIAL => 0 | I_BCOND => 1 | I_J => 2 | I_JAL => 3 | I_BEQ => 4 | I_BNE => 5
  | I_BLEZ => 6 | I_BGTZ => 7 | I_ADDI => 8 | I_ADDIU => 9 | I_SLTI => 10 | I_SLTIU => 11
  | I_ANDI => 12 | I_ORI => 13 | I_XORI => 14 | I_LUI => 15 | I_COP0 => 16 | I_COP1 => 17
  | I_COP2 => 18 | I_COP3 => 19 | I_LB => 32 | I_LH => 33 | I_LWL => 34 | I_LW => 35
  | I_LBU => 36 | I_LHU => 37 | I_LWR => 38 | I_SB => 40 | I_SH => 41 | I_SWL => 42
  | I_SW => 43 | I_SWR => 46 | I_LWC0 => 48 | I_LWC1 => 49 | I_LWC2 => 50 | I_LWC3 => 51
  | I_SWC0 => 56 | I_SWC1 => 57 | I_SWC2 => 58 | I_SWC3 => 59
  end.
Definition special_number (o : special_op) : Z :=
  match o with
  | I_SLL => 0 | I_SRL => 2 | I_SRA => 3 | I_SLLV => 4 | I_SRLV => 6 | I_SRAV => 7
  | I_JR => 8 | I_JALR => 9 | I_SYSCALL => 12 | I_BREAK => 13 | I_MFHI => 16 | I_MTHI => 17
  | I_MFLO => 18 | I_MTLO => 19 | I_MULT => 24 | I_MULTU => 25 | I_DIV => 26 | I_DIVU => 27
  | I_ADD => 32 | I_ADDU => 33 | I_SUB => 34 | I_SUBU => 35 | I_AND => 36 | I_OR => 37
  | I_XOR => 38 | I_NOR => 39 | I_SLT => 42 | I_SLTU => 43
  end.
Definition bcond_number (o : bcond_op) : Z :=
  match o with
  | I_BLTZ => 0 | I_BGEZ => 1 | I_BLTZAL => 16 | I_BGEZAL => 17
  end.

Definition normal_ops : list normal_op :=
  [I_SPECIAL; I_BCOND; I_J; I_JAL; I_BEQ; I_BNE; I_BLEZ; I_BGTZ; I_ADDI; I_ADDIU; I_SLTI;
   I_SLTIU; I_ANDI; I_ORI; I_XORI; I_LUI; I_COP0; I_COP1; I_COP2; I_COP3; I_LB; I_LH;
   I_LWL; I_LW; I_LBU; I_LHU; I_LWR; I_SB; I_SH; I_SWL; I_SW; I_SWR; I_LWC0; I_LWC1;
   I_LWC2; I_LWC3; I_SWC0; I_SWC1; I_SWC2; I_SWC3].
Definition special_ops : list special_op :=
  [I_SLL; I_SRL; I_SRA; I_SLLV; I_SRLV; I_SRAV; I_JR; I_JALR; I_SYSCALL; I_BREAK; I_MFHI;
   I_MTHI; I_MFLO; I_MTLO; I_MULT; I_MULTU; I_DIV; I_DIVU; I_ADD; I_ADDU; I_SUB; I_SUBU;
   I_AND; I_OR; I_XOR; I_NOR; I_SLT; I_SLTU].
Definition bcond_ops : list bcond_op :=
  [I_BLTZ; I_BGEZ; I_BLTZAL; I_BGEZAL].

(** switch (n): the case of that number, or the default. *)
Definition case {A} (number : A -> Z) (l : list A) (n : Z) : option A :=
  match filter (fun o => number o = n) l with o :: _ => Some o | [] => None end.
Definition normal_case : Z -> option normal_op := case normal_number normal_ops.
Definition special_case : Z -> option special_op := case special_number special_ops.
Definition bcond_case : Z -> option bcond_op := case bcond_number bcond_ops.

(** * instr.h: the fields of an instruction, an int *)
Definition rd (i : Z) : Z := Z.land (Z.shiftr i 11) 0x1f.
Definition rt (i : Z) : Z := Z.land (Z.shiftr i 16) 0x1f.
Definition rs (i : Z) : Z := Z.land (Z.shiftr i 21) 0x1f.
Definition shamt (i : Z) : Z := Z.land (Z.shiftr i 6) 0x1f.
Definition immed (i : Z) : Z :=
  if negb (Z.land i 0x8000 =? 0) then Z.lor i (- 0x8000) else Z.land i 0x7fff.

(** * int.h and the state *)
Definition MEMSIZE : Z := Z.shiftl 1 24.
Definition memoffset : Z := 0x10000000.

Record Interp := mkInterp {
  Reg    : list Z;
  HI     : Z;
  LO     : Z;
  mem    : gmap Z Z;
  pc     : Z;
  npc    : Z;
  icount : Z;
  calls  : nat
}.

Definition set_Reg (r : list Z) (s : Interp) : Interp := mkInterp r (HI s) (LO s) (mem s) (pc s) (npc s) (icount s) (calls s).
Definition set_HI (v : Z) (s : Interp) : Interp := mkInterp (Reg s) v (LO s) (mem s) (pc s) (npc s) (icount s) (calls s).
Definition set_LO (v : Z) (s : Interp) : Interp := mkInterp (Reg s) (HI s) v (mem s) (pc s) (npc s) (icount s) (calls s).
Definition set_mem (m : gmap Z Z) (s : Interp) : Interp := mkInterp (Reg s) (HI s) (LO s) m (pc s) (npc s) (icount s) (calls s).
Definition set_npc (v : Z) (s : Interp) : Interp := mkInterp (Reg s) (HI s) (LO s) (mem s) (pc s) v (icount s) (calls s).

(** Reg[i] *)
Definition get_Reg (i : Z) : M Interp Z := let! s := mget in mlift (Reg s).[i].
Definition put_Reg (i v : Z) : M Interp unit :=
  let! s := mget in let! r := mlift (zupd (Reg s) i v) in mmodify (set_Reg r).

(** The [n] bytes at (mem - memoffset) + addr. *)
Definition in_mem (addr n : Z) : bool := (memoffset <=? addr) && (addr + n <=? memoffset + MEMSIZE).
Definition bytes_at (n : Z) (addr : Z) : M Interp (list Z) :=
  let! s := mget in
  if in_mem addr n then mreturn ((fun k => default 0 (mem s !! (addr - memoffset + k))) <$> seqZ 0 n)
  else mfail BadAccess.
Fixpoint write_bytes (m : gmap Z Z) (at_ : Z) (bs : list Z) : gmap Z Z :=
  match bs with [] => m | b :: bs => write_bytes (<[at_ := b]> m) (at_ + 1) bs end.
Definition put_bytes (addr : Z) (bs : list Z) : M Interp unit :=
  if in_mem addr (Z.of_nat (length bs)) then mmodify (fun s => set_mem (write_bytes (mem s) (addr - memoffset) bs) s)
  else mfail BadAccess.

(** The value of [z], an unsigned number of [n] bits, as a signed one. *)
Definition signed (n z : Z) : Z := if z <? 2 ^ (n - 1) then z else z - 2 ^ n.

Definition fetch (addr : Z) : M Interp Z := let! bs := bytes_at 4 addr in mreturn (signed 32 (le_join bs)).
Definition ifetch (addr : Z) : M Interp Z := fetch addr.
Definition sfetch (addr : Z) : M Interp Z := let! bs := bytes_at 2 addr in mreturn (signed 16 (le_join bs)).
Definition usfetch (addr : Z) : M Interp Z := let! bs := bytes_at 2 addr in mreturn (le_join bs).
Definition cfetch (addr : Z) : M Interp Z := let! bs := bytes_at 1 addr in mreturn (signed 8 (le_join bs)).
Definition ucfetch (addr : Z) : M Interp Z := let! bs := bytes_at 1 addr in mreturn (le_join bs).
Definition store (addr i : Z) : M Interp unit := put_bytes addr (le_split 4 i).
Definition sstore (addr i : Z) : M Interp unit := put_bytes addr (le_split 2 i).
Definition cstore (addr i : Z) : M Interp unit := put_bytes addr (le_split 1 i).

(** * execute.c *)
Definition goes_on : M Interp (option Z) := mreturn None.
(** u(): unimplemented *)
Definition u : M Interp (option Z) := mreturn (Some 2).
Definition assign_Reg (r v : Z) : M Interp (option Z) := put_Reg r v >>> goes_on.
Definition jump (target : Z) : M Interp (option Z) := mmodify (set_npc target) >>> goes_on.
(** npc = xpc + 4 + (immed(instr) << 2) when [taken] *)
Definition branch_if (taken : bool) (xpc instr : Z) : M Interp (option Z) :=
  if taken then jump (i32 (i32 (xpc + 4) + i32 (Z.shiftl (immed instr) 2))) else goes_on.
Definition flag (b : bool) : Z := if b then 1 else 0.

(** LO and HI of t1 * t2, put together from 16-bit halves. *)
Definition mult_words (t1 t2 : Z) : Z * Z :=
  let t1l := Z.land t1 0xffff in
  let t1h := Z.land (Z.shiftr t1 16) 0xffff in
  let t2l := Z.land t2 0xffff in
  let t2h := Z.land (Z.shiftr t2 16) 0xffff in
  (i32 (t1 * t2),
   i32 (i32 (i32 (t1h * t2h) + Z.shiftr (i32 (t1h * t2l)) 16) + Z.shiftr (i32 (t2h * t1l)) 16)).
Definition mult_signed (a b : Z) : Z * Z :=
  let t1 := if a <? 0 then i32 (- a) else a in
  let t2 := if b <? 0 then i32 (- b) else b in
  let '(lo, hi) := mult_words t1 t2 in
  if xorb (a <? 0) (b <? 0) then
    let lo := i32 (Z.lnot lo + 1) in
    (lo, if lo =? 0 then i32 (Z.lnot hi + 1) else Z.lnot hi)
  else (lo, hi).
Definition set_product (p : Z * Z) : M Interp (option Z) :=
  mmodify (fun s => set_HI p.2 (set_LO p.1 s)) >>> goes_on.

Section execute.
Variable host : nat -> Z -> list Z -> gmap Z Z -> Z * gmap Z Z.

(** * system.c *)
Definition call_host (no : Z) (args : list Z) : M Interp Z :=
  let! s := mget in
  let '(r, m) := host (calls s) no args (mem s) in
  mput (mkInterp (Reg s) (HI s) (LO s) m (pc s) (npc s) (icount s) (S (calls s))) >>>
  mreturn (i32 r).

(** The parameter size 8 of a terminal request becomes 6. *)
Definition ioctl_request (o1 : Z) : Z :=
  if (signed 8 (Z.land (Z.shiftr o1 8) 0xff) =? 116) && (Z.land (Z.shiftr o1 16) 0x7f =? 8)
  then i32 (Z.lor (Z.land o1 (Z.lnot (Z.shiftl 0x7f 16))) (Z.shiftl 6 16))
  else o1.

Definition system_trap : M Interp (option Z) :=
  let! syscallno := get_Reg 2 in
  let! o0 := get_Reg 4 in
  let! o1 := get_Reg 5 in
  let! o2 := get_Reg 6 in
  if syscallno =? 1 then mreturn (Some 0)
  else if (syscallno =? 3) || (syscallno =? 4) || (syscallno =? 5) || (syscallno =? 19) then
    let! r := call_host syscallno [o0; o1; o2] in assign_Reg 1 r
  else if syscallno =? 6 then assign_Reg 1 0
  else if syscallno =? 17 then assign_Reg 1 (i32 (i32 (Z.quot o0 8192 + 1) * 8192))
  else if syscallno =? 54 then
    let! r := call_host syscallno [o0; ioctl_request o1; o2] in
    put_Reg 1 r >>> assign_Reg 1 0
  else if syscallno =? 62 then let! r := call_host syscallno [o1; o2] in assign_Reg 1 r
  else if syscallno =? 64 then let! r := call_host syscallno [] in assign_Reg 1 r
  else mreturn (Some 2).
Definition system_break : M Interp (option Z) := system_trap.

(** * The switch of runprogram *)
Definition exec_special (instr xpc : Z) : M Interp (option Z) :=
  let! a := get_Reg (rs instr) in
  let! b := get_Reg (rt instr) in
  let! s := mget in
  match special_case (Z.land instr 0x3f) with
  | Some I_SLL => assign_Reg (rd instr) (i32 (Z.shiftl b (shamt instr)))
  | Some I_SRL => assign_Reg (rd instr) (i32 (Z.shiftr (u32 b) (shamt instr)))
  | Some I_SRA => assign_Reg (rd instr) (Z.shiftr b (shamt instr))
  | Some I_SLLV => assign_Reg (rd instr) (i32 (Z.shiftl b (Z.land a 0x1f)))
  | Some I_SRLV => assign_Reg (rd instr) (i32 (Z.shiftr (u32 b) (Z.land a 0x1f)))
  | Some I_SRAV => assign_Reg (rd instr) (Z.shiftr b (Z.land a 0x1f))
  | Some I_JR => jump a
  | Some I_JALR => mmodify (set_npc a) >>> assign_Reg (rd instr) (i32 (xpc + 8))
  | Some I_SYSCALL => system_trap
  | Some I_BREAK => system_break
  | Some I_MFHI => assign_Reg (rd instr) (HI s)
  | Some I_MTHI => mmodify (set_HI a) >>> goes_on
  | Some I_MFLO => assign_Reg (rd instr) (LO s)
  | Some I_MTLO => mmodify (set_LO a) >>> goes_on
  | Some I_MULT => set_product (mult_signed a b)
  | Some I_MULTU => set_product (mult_words a b)
  | Some I_DIV =>
      if (b =? 0) || (a =? - 2 ^ 31) && (b =? -1) then mfail BadAccess
      else set_product (Z.quot a b, Z.rem a b)
  | Some I_DIVU =>
      if b =? 0 then mfail BadAccess else set_product (i32 (u32 a / u32 b), i32 (u32 a mod u32 b))
  | Some I_ADD | Some I_ADDU => assign_Reg (rd instr) (i32 (a + b))
  | Some I_SUB | Some I_SUBU => assign_Reg (rd instr) (i32 (a - b))
  | Some I_AND => assign_Reg (rd instr) (Z.land a b)
  | Some I_OR => assign_Reg (rd instr) (Z.lor a b)
  | Some I_XOR => assign_Reg (rd instr) (Z.lxor a b)
  | Some I_NOR => assign_Reg (rd instr) (Z.lnot (Z.lor a b))
  | Some I_SLT => assign_Reg (rd instr) (flag (a <? b))
  | Some I_SLTU => assign_Reg (rd instr) (flag (u32 a <? u32 b))
  | None => u
  end.

Definition exec_bcond (instr xpc : Z) : M Interp (option Z) :=
  match bcond_case (rt instr) with
  | Some I_BLTZ => let! a := get_Reg (rs instr) in branch_if (a <? 0) xpc instr
  | Some I_BGEZ => let! a := get_Reg (rs instr) in branch_if (0 <=? a) xpc instr
  | Some I_BLTZAL =>
      put_Reg 31 (i32 (xpc + 8)) >>>
      let! a := get_Reg (rs instr) in branch_if (a <? 0) xpc instr
  | Some I_BGEZAL =>
      put_Reg 31 (i32 (xpc + 8)) >>>
      let! a := get_Reg (rs instr) in branch_if (0 <=? a) xpc instr
  | None => u
  end.

(** The cases that read or write memory at [i] = Reg[rs] + immed. *)
Definition exec_memory (op : normal_op) (instr i : Z) : M Interp (option Z) :=
  match op with
  | I_LB => let! v := cfetch i in assign_Reg (rt instr) v
  | I_LH => let! v := sfetch i in assign_Reg (rt instr) v
  | I_LWL =>
      let! b := get_Reg (rt instr) in
      put_Reg (rt instr) (Z.land b (Z.shiftr (-1) (8 * Z.land (- i) 3))) >>>
      let! b := get_Reg (rt instr) in
      let! v := fetch (Z.land i (Z.lnot 3)) in
      assign_Reg (rt instr) (Z.lor b (i32 (Z.shiftl v (8 * Z.land i 3))))
  | I_LW => let! v := fetch i in assign_Reg (rt instr) v
  | I_LBU => let! v := ucfetch i in assign_Reg (rt instr) v
  | I_LHU => let! v := usfetch i in assign_Reg (rt instr) v
  | I_LWR =>
      let! b := get_Reg (rt instr) in
      put_Reg (rt instr) (Z.land b (i32 (Z.shiftl (-1) (8 * Z.land i 3)))) >>>
      (if Z.land i 3 =? 0 then put_Reg (rt instr) 0 else mreturn tt) >>>
      let! b := get_Reg (rt instr) in
      let! v := fetch (Z.land i (Z.lnot 3)) in
      assign_Reg (rt instr) (Z.lor b (Z.shiftr v (8 * Z.land (- i) 3)))
  | I_SB => let! b := get_Reg (rt instr) in cstore i b >>> goes_on
  | I_SH => let! b := get_Reg (rt instr) in sstore i b >>> goes_on
  | I_SW => let! b := get_Reg (rt instr) in store i b >>> goes_on
  | _ => u
  end.

Definition execute (instr xpc : Z) : M Interp (option Z) :=
  let! a := get_Reg (rs instr) in
  let! b := get_Reg (rt instr) in
  let target := i32 (Z.lor (Z.land (u32 xpc) 0xf0000000) (Z.shiftl (Z.land instr 0x03ffffff) 2)) in
  match normal_case (Z.land (Z.shiftr instr 26) 0x3f) with
  | Some I_SPECIAL => exec_special instr xpc
  | Some I_BCOND => exec_bcond instr xpc
  | Some I_J => jump target
  | Some I_JAL => put_Reg 31 (i32 (xpc + 8)) >>> jump target
  | Some I_BEQ => branch_if (a =? b) xpc instr
  | Some I_BNE => branch_if (negb (a =? b)) xpc instr
  | Some I_BLEZ => branch_if (a <=? 0) xpc instr
  | Some I_BGTZ => branch_if (0 <? a) xpc instr
  | Some I_ADDI | Some I_ADDIU => assign_Reg (rt instr) (i32 (a + immed instr))
  | Some I_SLTI => assign_Reg (rt instr) (flag (a <? immed instr))
  | Some I_SLTIU => assign_Reg (rt instr) (flag (u32 a <? u32 (immed instr)))
  | Some I_ANDI => assign_Reg (rt instr) (Z.land a (immed instr))
  | Some I_ORI => assign_Reg (rt instr) (Z.lor a (immed instr))
  | Some I_XORI => assign_Reg (rt instr) (Z.lxor a (immed instr))
  | Some I_LUI => assign_Reg (rt instr) (i32 (Z.shiftl instr 16))
  | Some ((I_LB | I_LH | I_LWL | I_LW | I_LBU | I_LHU | I_LWR | I_SB | I_SH | I_SW) as op) =>
      exec_memory op instr (i32 (a + immed instr))
  | Some _ => u
  | None => u
  end.

(** One round of the loop. *)
Definition step : M Interp (option Z) :=
  let! s := mget in
  let xpc := pc s in
  mput (mkInterp (Reg s) (HI s) (LO s) (mem s) (npc s) (i32 (npc s + 4)) (i32 (icount s + 1)) (calls s)) >>>
  let! instr := ifetch xpc in
  put_Reg 0 0 >>>
  if negb (instr =? 0) then execute instr xpc else goes_on.

Fixpoint run (fuel : nat) : M Interp Z :=
  match fuel with
  | O => mfail OutOfFuel
  | S fuel => let! r := step in match r with Some code => mreturn code | None => run fuel end
  end.

(** argc, the table of argv and the strings, from [i] on. *)
Definition put_argument (at_ : Z * Z) (arg : list Z) : M Interp (Z * Z) :=
  let '(aci, ai) := at_ in
  put_bytes ai (arg ++ [0]) >>>
  store aci ai >>>
  mreturn (i32 (aci + 4), i32 (ai + (Z.of_nat (length arg) + 1))).

Definition runprogram (fuel : nat) (startpc : Z) (argv : list (list Z)) : M Interp Z :=
  mmodify (fun s => mkInterp (Reg s) (HI s) (LO s) (mem s) startpc (i32 (startpc + 4)) 0 (calls s)) >>>
  let i := MEMSIZE - 1024 + memoffset in
  put_Reg 29 i >>>
  store i (Z.of_nat (length argv)) >>>
  let! _ := mfold argv (i + 4, i + 4 + 32) put_argument in
  run fuel.
End execute.

(** * The machine stays well formed *)
Record interp_wf (s : Interp) : Prop := {
  iw_length : Z.of_nat (length (Reg s)) = 32;
  iw_regs   : Forall is_i32 (Reg s);
  iw_hilo   : is_i32 (HI s) /\ is_i32 (LO s);
  iw_pc     : is_i32 (pc s) /\ is_i32 (npc s);
  iw_mem    : map_Forall (fun _ => is_byte) (mem s)
}.

(** [m] keeps the machine well formed and its result has [P]; it can only stop
    on an access outside memory or a division that traps. *)
Definition keeps {A} (P : A -> Prop) (m : M Interp A) : Prop := forall s, interp_wf s ->
  match m s with Ok (a, s') => P a /\ interp_wf s' | Err f => f = BadAccess end.
Definition any {A} (_ : A) : Prop := True.

Section keeps_rules.
Implicit Types s : Interp.

Lemma keeps_return {A} (P : A -> Prop) a : P a -> keeps P (mreturn a).
Proof. intros Ha s Hs. now split. Qed.
Lemma keeps_bad {A} (P : A -> Prop) : keeps P (mfail BadAccess).
Proof. intros s _. reflexivity. Qed.
Lemma keeps_then {A B} (P : A -> Prop) (Q : B -> Prop) m k :
  keeps P m -> (forall a, P a -> keeps Q (k a)) -> keeps Q (mthen m k).
Proof.
  intros Hm Hk s Hs. specialize (Hm s Hs). unfold mthen. destruct (m s) as [[a s1]|f]; [|exact Hm].
  destruct Hm as [Ha H1]. exact (Hk a Ha s1 H1).
Qed.
Lemma keeps_modify f : (forall s, interp_wf s -> interp_wf (f s)) -> keeps any (mmodify f).
Proof. intros Hf s Hs. split; [exact I|now apply Hf]. Qed.
Lemma keeps_get : keeps interp_wf mget.
Proof. intros s Hs. now split. Qed.

Lemma keeps_get_Reg i : 0 <= i < 32 -> keeps is_i32 (get_Reg i).
Proof.
  intros Hi s [W1 W2 W3 W4 W5]. unfold get_Reg, mthen, mget, mlift.
  destruct (zlookup_lt (Reg s) i) as [v Hv]; [lia|]. rewrite Hv. split; [exact (zlookup_Forall _ _ _ _ W2 Hv)|now split].
Qed.
Lemma keeps_put_Reg i v : 0 <= i < 32 -> is_i32 v -> keeps any (put_Reg i v).
Proof.
  intros Hi Hv s [W1 W2 W3 W4 W5]. unfold put_Reg, mthen, mget, mlift. rewrite zupd_lt by lia.
  split; [exact I|]. split; cbn [Reg HI LO pc npc mem set_Reg]; auto; [now rewrite length_insert|]. now apply Forall_insert.
Qed.
Lemma keeps_set_npc v : is_i32 v -> keeps any (mmodify (set_npc v)).
Proof. intros Hv. apply keeps_modify. intros s [W1 W2 W3 [W4 W4'] W5]. now split. Qed.
Lemma keeps_set_HI v : is_i32 v -> keeps any (mmodify (set_HI v)).
Proof. intros Hv. apply keeps_modify. intros s [W1 W2 [W3 W3'] W4 W5]. now split. Qed.
Lemma keeps_set_LO v : is_i32 v -> keeps any (mmodify (set_LO v)).
Proof. intros Hv. apply keeps_modify. intros s [W1 W2 [W3 W3'] W4 W5]. now split. Qed.

Lemma write_bytes_wf bs : forall m at_, Forall is_byte bs -> map_Forall (fun _ => is_byte) m ->
  map_Forall (fun _ => is_byte) (write_bytes m at_ bs).
Proof.
  induction bs as [|b bs IH]; intros m at_ Hb Hm; [exact Hm|]. apply Forall_cons in Hb as [Hb Hbs].
  apply IH; [exact Hbs|]. now apply map_Forall_insert_2.
Qed.
Lemma keeps_put_bytes addr bs : Forall is_byte bs -> keeps any (put_bytes addr bs).
Proof.
  intros Hb. unfold put_bytes. destruct (in_mem _ _); [|apply keeps_bad]. apply keeps_modify.
  intros s [W1 W2 W3 W4 W5]. split; auto. now apply write_bytes_wf.
Qed.
Lemma keeps_store addr i : keeps any (store addr i).
Proof. apply keeps_put_bytes, le_split_bytes. Qed.
Lemma keeps_sstore addr i : keeps any (sstore addr i).
Proof. apply keeps_put_bytes, le_split_bytes. Qed.
Lemma keeps_cstore addr i : keeps any (cstore addr i).
Proof. apply keeps_put_bytes, le_split_bytes. Qed.

Lemma keeps_bytes_at n addr : 0 <= n ->
  keeps (fun bs => Forall is_byte bs /\ Z.of_nat (length bs) = n) (bytes_at n addr).
Proof.
  intros Hn s Hs. unfold bytes_at, mthen, mget. destruct (in_mem addr n); [|reflexivity]. split; [|exact Hs]. split.
  - apply Forall_fmap, Forall_forall. intros k _. cbn. destruct (mem s !! _) as [b|] eqn:E; cbn; [|unfold is_byte; lia].
    exact (map_Forall_lookup_1 _ _ _ _ (iw_mem _ Hs) E).
  - rewrite length_fmap, length_seqZ. lia.
Qed.

Lemma signed_range n z : 0 < n <= 32 -> 0 <= z < 2 ^ n -> is_i32 (signed n z).
Proof.
  intros Hn Hz. unfold signed, is_i32. assert (E : 2 ^ n = 2 * 2 ^ (n - 1)) by (rewrite <- Z.pow_succ_r by lia; f_equal; lia).
  assert (2 ^ (n - 1) <= 2 ^ 31) by (apply Z.pow_le_mono_r; lia). destruct (Z.ltb_spec z (2 ^ (n - 1))); lia.
Qed.
Lemma join_range bs n : Forall is_byte bs -> Z.of_nat (length bs) = n -> 0 <= le_join bs < 2 ^ (8 * n).
Proof.
  intros Hb Hl. pose proof (le_join_range bs Hb) as Hr. rewrite Hl in Hr. change 256 with (2 ^ 8) in Hr.
  rewrite <- Z.pow_mul_r in Hr by lia. exact Hr.
Qed.
Lemma keeps_signed n addr : 0 < n <= 4 -> keeps is_i32 (let! bs := bytes_at n addr in mreturn (signed (8 * n) (le_join bs))).
Proof.
  intros Hn. eapply keeps_then; [apply keeps_bytes_at; lia|]. intros bs [Hb Hl]. apply keeps_return, signed_range; [lia|now apply join_range].
Qed.
Lemma keeps_unsigned n addr : 0 < n <= 3 -> keeps is_i32 (let! bs := bytes_at n addr in mreturn (le_join bs)).
Proof.
  intros Hn. eapply keeps_then; [apply keeps_bytes_at; lia|]. intros bs [Hb Hl]. apply keeps_return.
  pose proof (join_range bs n Hb Hl). assert (2 ^ (8 * n) <= 2 ^ 24) by (apply Z.pow_le_mono_r; lia). unfold is_i32. lia.
Qed.
Lemma keeps_fetch addr : keeps is_i32 (fetch addr).
Proof. apply (keeps_signed 4). lia. Qed.
Lemma keeps_sfetch addr : keeps is_i32 (sfetch addr).
Proof. apply (keeps_signed 2). lia. Qed.
Lemma keeps_cfetch addr : keeps is_i32 (cfetch addr).
Proof. apply (keeps_signed 1). lia. Qed.
Lemma keeps_usfetch addr : keeps is_i32 (usfetch addr).
Proof. apply (keeps_unsigned 2). lia. Qed.
Lemma keeps_ucfetch addr : keeps is_i32 (ucfetch addr).
Proof. apply (keeps_unsigned 1). lia. Qed.
End keeps_rules.

(** The values the cases compute are ints, and register numbers are valid. *)
Section value_lemmas.
Lemma field_reg i k : 0 <= Z.land (Z.shiftr i k) 0x1f < 32.
Proof. change 0x1f with (Z.ones 5). apply (field_range i k 5). lia. Qed.
Lemma immed_range i : is_i32 i -> is_i32 (immed i).
Proof.
  intros Hi. unfold immed. destruct (negb _); [apply is_i32_lor; [exact Hi|unfold is_i32; lia]|].
  apply (is_i32_land_mask i 15). lia.
Qed.
Lemma flag_range b : is_i32 (flag b).
Proof. apply i32_bit. Qed.
Lemma shiftr_land_range a i : is_i32 a -> is_i32 (Z.shiftr a (Z.land i 0x1f)).
Proof. intros Ha. apply is_i32_asr; [exact Ha|apply land_31_nonneg]. Qed.
Lemma mult_signed_range a b : is_i32 (mult_signed a b).1 /\ is_i32 (mult_signed a b).2.
Proof.
  unfold mult_signed. destruct (mult_words _ _) as [lo hi] eqn:E. unfold mult_words in E. injection E as El Eh.
  assert (is_i32 lo /\ is_i32 hi) as [Hl Hh] by (subst; auto using i32_range).
  destruct (xorb _ _); [|auto]. cbn [fst snd]. split; [apply i32_range|]. destruct (_ =? 0); [apply i32_range|now apply is_i32_lnot].
Qed.
Lemma byte_shift_nonneg i : 0 <= 8 * Z.land i 3.
Proof. change 3 with (Z.ones 2). rewrite Z.land_ones by lia. pose proof (Z.mod_pos_bound i (2 ^ 2)). lia. Qed.
Lemma small_is_i32 z : -100 <= z <= 100 -> is_i32 z.
Proof. unfold is_i32. lia. Qed.
Lemma i32_div_guard a b :
  ((b =? 0) || (a =? - 2 ^ 31) && (b =? -1))%bool = false -> b <> 0 /\ ((a =? - 2 ^ 31) && (b =? -1))%bool = false.
Proof. intros E. apply orb_false_iff in E as [E1 E2]. split; [now apply Z.eqb_neq|exact E2]. Qed.
End value_lemmas.

Create HintDb interp.
#[export] Hint Resolve i32_range flag_range immed_range shiftr_land_range is_i32_land is_i32_lor is_i32_lxor is_i32_lnot
  is_i32_asr field_reg byte_shift_nonneg keeps_get_Reg keeps_put_Reg keeps_set_npc keeps_set_HI keeps_set_LO keeps_get
  keeps_store keeps_sstore keeps_cstore keeps_fetch keeps_sfetch keeps_cfetch keeps_usfetch keeps_ucfetch keeps_bad : interp.
#[export] Hint Extern 2 (is_i32 _) => (apply small_is_i32; lia) : interp.
#[export] Hint Extern 2 (0 <= _ < 32) => lia : interp.
#[export] Hint Extern 2 (any _) => exact I : interp.

Ltac keeps_step :=
  match goal with
  | |- keeps _ (mthen _ _) => eapply keeps_then; [solve [eauto with interp]|intros ? ?]
  | |- keeps _ (mreturn _) => apply keeps_return; exact I
  | |- keeps _ (if ?b then _ else _) => destruct b eqn:?
  | |- keeps _ _ => solve [eauto with interp]
  end.
Ltac keeps_tac := unfold rd, rt, rs, shamt, assign_Reg, jump, goes_on, u; repeat keeps_step.

Section step_lemmas.
Variable host : nat -> Z -> list Z -> gmap Z Z -> Z * gmap Z Z.
Hypothesis host_bytes : forall k no args m,
  map_Forall (fun _ => is_byte) m -> map_Forall (fun _ => is_byte) (host k no args m).2.

Lemma keeps_assign r v : 0 <= r < 32 -> is_i32 v -> keeps any (assign_Reg r v).
Proof. intros Hr Hv. keeps_tac. Qed.
Lemma keeps_jump v : is_i32 v -> keeps any (jump v).
Proof. intros Hv. keeps_tac. Qed.
Lemma keeps_branch c xpc instr : keeps any (branch_if c xpc instr).
Proof. unfold branch_if. keeps_tac. Qed.
Lemma keeps_product p : is_i32 p.1 -> is_i32 p.2 -> keeps any (set_product p).
Proof.
  intros H1 H2. unfold set_product. eapply keeps_then; [apply keeps_modify|intros; keeps_tac].
  intros s [W1 W2 W3 W4 W5]. now split.
Qed.
Lemma keeps_call_host no args : keeps is_i32 (call_host host no args).
Proof.
  intros s [W1 W2 W3 W4 W5]. unfold call_host, mthen, mget, mput, mreturn. pose proof (host_bytes (calls s) no args (mem s) W5) as Hb.
  destruct (host _ _ _ _) as [r m]. split; [apply i32_range|now split].
Qed.
Hint Resolve keeps_assign keeps_jump keeps_branch keeps_product keeps_call_host : interp.

Lemma keeps_system_trap : keeps any (system_trap host).
Proof. unfold system_trap. keeps_tac. Qed.

Lemma keeps_special instr xpc : keeps any (exec_special host instr xpc).
Proof.
  unfold exec_special. keeps_tac.
  match goal with H : interp_wf _ |- _ => destruct H as [_ _ [Hhi Hlo] _ _] end.
  destruct (special_case _) as [[]|]; keeps_tac; try apply keeps_system_trap; try (apply keeps_product; cbn [fst snd]).
  all: try apply mult_signed_range; try (unfold mult_words; apply i32_range); auto with interp.
  - match goal with H : orb _ _ = false |- _ => apply i32_div_guard in H as [? ?] end. now apply i32_quot.
  - now apply i32_rem.
Qed.

Lemma keeps_bcond instr xpc : keeps any (exec_bcond instr xpc).
Proof. unfold exec_bcond. destruct (bcond_case _) as [[]|]; keeps_tac. Qed.

Lemma keeps_memory op instr i : keeps any (exec_memory op instr i).
Proof.
  assert (H1 : keeps any (if Z.land i 3 =? 0 then put_Reg (rt instr) 0 else mreturn tt)) by (destruct (_ =? 0); keeps_tac).
  assert (H2 : is_i32 (-1)) by (apply small_is_i32; lia).
  unfold exec_memory. destruct op; keeps_tac.
Qed.

Lemma keeps_execute instr xpc : is_i32 instr -> keeps any (execute host instr xpc).
Proof.
  intros Hi. unfold execute. keeps_step. keeps_step.
  destruct (normal_case _) as [[]|];
    first [match goal with
           | |- keeps _ (exec_special _ _ _) => apply keeps_special
           | |- keeps _ (exec_bcond _ _) => apply keeps_bcond
           | |- keeps _ (exec_memory _ _ _) => apply keeps_memory
           | |- keeps _ (jump _) => apply keeps_jump, i32_range
           | |- keeps _ (branch_if _ _ _) => apply keeps_branch
           | |- keeps _ (assign_Reg _ _) => apply keeps_assign; [apply field_reg|auto with interp]
           end | keeps_tac].
Qed.

(** A round of the interpreter keeps its machine well formed.  Whatever the
    instruction, the registers, HI, LO and both program counters stay 32-bit
    ints and memory stays bytes; the only way to stop without exit is an access
    outside memory or a division that traps. *)
Theorem step_wf s :
  interp_wf s ->
  match step host s with
  | Ok (_, s') => interp_wf s'
  | Err f => f = BadAccess
  end.
Proof.
  intros Hs. assert (K : keeps any (step host)).
  { unfold step. eapply keeps_then; [apply keeps_get|]. intros s0 [W1 W2 W3 [W4 W4'] W5].
    eapply keeps_then; [|intros ? _]; [|eapply keeps_then; [apply keeps_fetch|intros instr Hi]].
    - intros s1 _. split; [exact (I : any tt)|]. split; cbn; auto. split; [exact W4'|apply i32_range].
    - keeps_tac. now apply keeps_execute. }
  specialize (K s Hs). destruct (step host s) as [[r s']|f]; tauto.
Qed.
End step_lemmas.

(** * The product in HI and LO *)
Section product_lemmas.
Lemma low_half t : Z.land t 0xffff = t mod 2 ^ 16.
Proof. change 0xffff with (Z.ones 16). apply Z.land_ones. lia. Qed.
Lemma high_half t : 0 <= t < 2 ^ 31 -> Z.land (Z.shiftr t 16) 0xffff = t / 2 ^ 16.
Proof.
  intros Ht. rewrite low_half, Z.shiftr_div_pow2 by lia. apply Z.mod_small. split; [apply Z.div_pos; lia|].
  apply Z.div_lt_upper_bound; lia.
Qed.

(** The carries out of the low word are lost: at most two. *)
Lemma mult_words_spec t1 t2 :
  0 <= t1 < 2 ^ 31 -> 0 <= t2 < 2 ^ 31 ->
  exists d, 0 <= d <= 2 /\ mult_words t1 t2 = (i32 (t1 * t2), t1 * t2 / 2 ^ 32 - d) /\ 0 <= t1 * t2 / 2 ^ 32 - d < 2 ^ 31.
Proof.
  intros H1 H2. unfold mult_words. rewrite !high_half, !low_half by assumption.
  pose proof (Z.div_mod t1 (2 ^ 16) ltac:(lia)) as E1. pose proof (Z.mod_pos_bound t1 (2 ^ 16) ltac:(lia)) as L1.
  pose proof (Z.div_mod t2 (2 ^ 16) ltac:(lia)) as E2. pose proof (Z.mod_pos_bound t2 (2 ^ 16) ltac:(lia)) as L2.
  set (h1 := t1 / 2 ^ 16) in *. set (l1 := t1 mod 2 ^ 16) in *. set (h2 := t2 / 2 ^ 16) in *. set (l2 := t2 mod 2 ^ 16) in *.
  assert (B1 : 0 <= h1 < 2 ^ 15) by lia. assert (B2 : 0 <= h2 < 2 ^ 15) by lia. clearbody h1 l1 h2 l2.
  assert (Bx : 0 <= h1 * l2 < 2 ^ 31) by nia. assert (By : 0 <= h2 * l1 < 2 ^ 31) by nia. assert (Bz : 0 <= h1 * h2 < 2 ^ 30) by nia.
  assert (Bw : 0 <= l1 * l2 <= (2 ^ 16 - 1) * (2 ^ 16 - 1)) by nia.
  rewrite (i32_id (h1 * l2)), (i32_id (h2 * l1)), (i32_id (h1 * h2)) by (unfold is_i32; lia). rewrite !Z.shiftr_div_pow2 by lia.
  pose proof (Z.div_mod (h1 * l2) (2 ^ 16) ltac:(lia)) as Ex. pose proof (Z.mod_pos_bound (h1 * l2) (2 ^ 16) ltac:(lia)) as Rx.
  pose proof (Z.div_mod (h2 * l1) (2 ^ 16) ltac:(lia)) as Ey. pose proof (Z.mod_pos_bound (h2 * l1) (2 ^ 16) ltac:(lia)) as Ry.
  set (qx := h1 * l2 / 2 ^ 16) in *. set (rx := (h1 * l2) mod 2 ^ 16) in *.
  set (qy := h2 * l1 / 2 ^ 16) in *. set (ry := (h2 * l1) mod 2 ^ 16) in *. clearbody qx rx qy ry.
  rewrite (i32_id (h1 * h2 + qx)), (i32_id (h1 * h2 + qx + qy)) by (unfold is_i32; lia). set (R := (rx + ry) * 2 ^ 16 + l1 * l2).
  assert (Ep : t1 * t2 = (h1 * h2 + qx + qy) * 2 ^ 32 + R).
  { unfold R. rewrite E1, E2. transitivity ((h1 * h2) * 2 ^ 32 + (h1 * l2 + h2 * l1) * 2 ^ 16 + l1 * l2); [ring|]. rewrite Ex, Ey. ring. }
  assert (HR : 0 <= R < 3 * 2 ^ 32) by (unfold R; lia).
  exists (R / 2 ^ 32). pose proof (Z.div_pos R (2 ^ 32) ltac:(lia) ltac:(lia)).
  assert (R / 2 ^ 32 < 3) by (apply Z.div_lt_upper_bound; lia).
  replace (t1 * t2 / 2 ^ 32) with (h1 * h2 + qx + qy + R / 2 ^ 32) by (rewrite Ep, Z.div_add_l by lia; reflexivity).
  split; [lia|]. split; [f_equal; lia|lia].
Qed.

Lemma negated_words lo hi :
  is_i32 lo -> 0 <= hi < 2 ^ 31 ->
  let lo' := i32 (Z.lnot lo + 1) in
  let hi' := if lo' =? 0 then i32 (Z.lnot hi + 1) else Z.lnot hi in
  hi' * 2 ^ 32 + u32 lo' = - (hi * 2 ^ 32 + u32 lo).
Proof.
  intros Hl Hh. cbv zeta.
  unfold Z.lnot. replace (Z.pred (- lo) + 1) with (- lo) by lia. replace (Z.pred (- hi) + 1) with (- hi) by lia.
  rewrite u32_i32. destruct (Z.eqb_spec (i32 (- lo)) 0) as [E|E].
  - assert (lo = 0) as ->.
    { destruct (i32_mod (- lo)) as [k Hk]. unfold is_i32 in Hl. nia. }
    rewrite i32_id by (unfold is_i32; lia). rewrite !u32_id by lia. lia.
  - assert (lo <> 0) by (intros ->; apply E; reflexivity).
    unfold u32, is_i32 in *. destruct (Z.le_gt_cases 0 lo).
    + rewrite (Z.mod_small lo) by lia. replace (- lo) with ((2 ^ 32 - lo) + (-1) * 2 ^ 32) by lia. rewrite Z.mod_add, Z.mod_small by lia. lia.
    + rewrite (Z.mod_small (- lo)) by lia. replace lo with ((lo + 2 ^ 32) + (-1) * 2 ^ 32) at 2 by lia. rewrite Z.mod_add, Z.mod_small by lia. lia.
Qed.

(** The product of MULT is short by at most two in its high word.  For
    factors other than -2^31 the low word is exact, and the double word in HI
    and LO is nearer to zero than the product by d * 2^32, where d is the
    number of carries that the computation by halves loses: 0, 1 or 2. *)
Theorem mult_deficit a b :
  is_i32 a -> is_i32 b -> a <> - 2 ^ 31 -> b <> - 2 ^ 31 ->
  exists d, 0 <= d <= 2 /\
    (mult_signed a b).2 * 2 ^ 32 + u32 (mult_signed a b).1 =
      a * b - (if xorb (a <? 0) (b <? 0) then - d else d) * 2 ^ 32.
Proof.
  intros Ha Hb Ha' Hb'. unfold mult_signed. unfold is_i32 in Ha, Hb.
  assert (Et : forall z, - 2 ^ 31 < z < 2 ^ 31 -> (if z <? 0 then i32 (- z) else z) = Z.abs z).
  { intros z Hz. destruct (Z.ltb_spec z 0); [rewrite i32_id by (unfold is_i32; lia)|]; lia. }
  rewrite !Et by lia. destruct (mult_words_spec (Z.abs a) (Z.abs b) ltac:(lia) ltac:(lia)) as (d & Hd & -> & Hh).
  exists d. split; [exact Hd|]. rewrite <- Z.abs_mul in *. set (p := Z.abs (a * b)) in *. set (hi := p / 2 ^ 32 - d) in *.
  assert (Hp : hi * 2 ^ 32 + u32 (i32 p) = p - d * 2 ^ 32).
  { rewrite u32_i32. unfold u32, hi. pose proof (Z.div_mod p (2 ^ 32) ltac:(lia)). lia. }
  destruct (Z.ltb_spec a 0), (Z.ltb_spec b 0); cbn [xorb fst snd].
  - rewrite Hp. unfold p. rewrite Z.abs_eq by nia. lia.
  - rewrite negated_words by (apply i32_range || lia). rewrite Hp. unfold p. rewrite Z.abs_neq by nia. lia.
  - rewrite negated_words by (apply i32_range || lia). rewrite Hp. unfold p. rewrite Z.abs_neq by nia. lia.
  - rewrite Hp. unfold p. rewrite Z.abs_eq by nia. lia.
Qed.
End product_lemmas.

(** Two carries are lost in the square of 131071: the high word is 1, not 3. *)
Lemma mult_deficit_witness :
  (exists d, 0 <= d <= 2 /\ (mult_signed 131071 131071).2 * 2 ^ 32 + u32 (mult_signed 131071 131071).1 = 131071 * 131071 - d * 2 ^ 32) /\
  (mult_signed 131071 131071).2 = 1 /\ 131071 * 131071 / 2 ^ 32 = 3.
Proof.
  split; [|split; reflexivity].
  apply (mult_deficit 131071 131071); [unfold is_i32; lia|unfold is_i32; lia|discriminate|discriminate].
Defined.

(** * The interpreter and the simulator of machine/mipssim.cc *)

(** The opcodes that only compute on registers, HI and LO. *)
Definition register_op (op : OpCode) : bool :=
  match op with
  | OP_ADD | OP_ADDI | OP_ADDIU | OP_ADDU | OP_AND | OP_ANDI | OP_DIV | OP_DIVU | OP_LUI | OP_MFHI | OP_MFLO
  | OP_MTHI | OP_MTLO | OP_MULT | OP_MULTU | OP_NOR | OP_OR | OP_ORI | OP_SLL | OP_SLLV | OP_SLT | OP_SLTI
  | OP_SLTIU | OP_SLTU | OP_SRA | OP_SRAV | OP_SRL | OP_SRLV | OP_SUB | OP_SUBU | OP_XOR | OP_XORI => true
  | _ => false
  end.

(** When the two programs agree, for the operands [a] (rs) and [b] (rt) and the
    immediate or shift amount [x].
    - ADD, ADDI and SUB trap on an overflow in mipssim.cc alone.
    - mipssim.cc computes rs|rs for OR.
    - ANDI, ORI and XORI sign-extend in execute.c alone.
    - SRL and SRLV shift with the sign in mipssim.cc alone.
    - MULT and MULTU lose carries into HI in execute.c.
    - A division by zero gives zeros in mipssim.cc and a trap of the host in
      execute.c; -2^31 / -1 is a trap of the host in both. *)
Definition agree_on (op : OpCode) (a b x : Z) : bool :=
  match op with
  | OP_ADD => in_i32 (a + b)
  | OP_ADDI => in_i32 (a + x)
  | OP_SUB => in_i32 (a - b)
  | OP_OR => Z.lor a b =? a
  | OP_ANDI | OP_ORI | OP_XORI => 0 <=? x
  | OP_SRL => (0 <=? b) || (x =? 0)
  | OP_SRLV => (0 <=? b) || (Z.land a 0x1f =? 0)
  | OP_MULT => negb (a =? - 2 ^ 31) && negb (b =? - 2 ^ 31) && (Z.abs (a * b) <? 2 ^ 32)
  | OP_MULTU => (0 <=? a) && (0 <=? b) && (a * b <? 2 ^ 32)
  | OP_DIV => negb (b =? 0) && negb ((a =? - 2 ^ 31) && (b =? -1))
  | OP_DIVU => negb (b =? 0)
  | _ => true
  end.

Record same_registers (s : Interp) (m : Machine) : Prop := {
  sr_reg : forall i, 0 <= i < 32 -> (Reg s).[i] = (registers m).[i];
  sr_hi  : (registers m).[HiReg] = Some (HI s);
  sr_lo  : (registers m).[LoReg] = Some (LO s)
}.

Section agreement_lemmas.
Lemma testbit_i32 z j : 0 <= j < 32 -> Z.testbit (i32 z) j = Z.testbit z j.
Proof.
  intros Hj. rewrite <- (Z.mod_pow2_bits_low (i32 z) 32 j), <- (Z.mod_pow2_bits_low z 32 j) by lia.
  fold (u32 (i32 z)) (u32 z). now rewrite u32_i32.
Qed.
Lemma field_signed z k n : 0 <= k -> 0 <= n -> k + n <= 32 ->
  Z.land (Z.shiftr (i32 z) k) (Z.ones n) = Z.land (Z.shiftr z k) (Z.ones n).
Proof.
  intros Hk Hn Hkn. apply Z.bits_inj'. intros j Hj. rewrite !Z.land_spec, !Z.shiftr_spec by lia.
  destruct (Z.lt_ge_cases j n); [now rewrite testbit_i32 by lia|].
  rewrite Z.ones_spec_high by lia. now rewrite !andb_false_r.
Qed.
Lemma low_signed z n : 0 <= n <= 32 -> Z.land (i32 z) (Z.ones n) = Z.land z (Z.ones n).
Proof. intros Hn. rewrite <- (Z.shiftr_0_r (i32 z)), <- (Z.shiftr_0_r z) at 1. apply field_signed; lia. Qed.

Lemma lor_low x : 0 <= x < 2 ^ 15 -> Z.lor x (- 2 ^ 15) = x - 2 ^ 15.
Proof.
  intros Hx. assert (Hl : Z.land x (- 2 ^ 15) = 0).
  { change (- 2 ^ 15) with (Z.lnot (Z.ones 15)). change (Z.ldiff x (Z.ones 15) = 0).
    rewrite Z.ldiff_ones_r, Z.shiftr_div_pow2, Z.div_small by lia. reflexivity. }
  rewrite <- Z.lxor_lor, <- Z.add_nocarry_lxor by exact Hl. lia.
Qed.

Lemma immed_value z : immed z = let x := z mod 2 ^ 16 in if x <? 2 ^ 15 then x else x - 2 ^ 16.
Proof.
  unfold immed. change 0x8000 with (2 ^ 15). rewrite land_pow2_testbit by lia.
  assert (E : z mod 2 ^ 16 = z mod 2 ^ 15 + 2 ^ 15 * Z.b2z (Z.testbit z 15)).
  { rewrite Z.testbit_spec' by lia. change (2 ^ 16) with (2 ^ 15 * 2). rewrite Z.rem_mul_r by lia. reflexivity. }
  pose proof (Z.mod_pos_bound z (2 ^ 15) ltac:(lia)). cbv zeta. rewrite E. destruct (Z.testbit z 15) eqn:Eb; cbn [Z.b2z].
  - destruct (Z.ltb_spec (z mod 2 ^ 15 + 2 ^ 15 * 1) (2 ^ 15)); [lia|].
    replace (z mod 2 ^ 15 + 2 ^ 15 * 1 - 2 ^ 16) with (Z.lor (z mod 2 ^ 15) (- 2 ^ 15)).
    + apply Z.bits_inj'. intros j Hj. rewrite !Z.lor_spec. destruct (Z.lt_ge_cases j 15).
      * now rewrite Z.mod_pow2_bits_low by lia.
      * change (- 2 ^ 15) with (-32768). replace (-32768) with (Z.lnot (Z.ones 15)) by reflexivity.
        rewrite Z.lnot_spec, Z.ones_spec_high by lia. now rewrite !orb_true_r.
    + rewrite lor_low by lia. lia.
  - change 0x7fff with (Z.ones 15). rewrite Z.land_ones by lia. rewrite Z.mul_0_r, Z.add_0_r.
    destruct (Z.ltb_spec (z mod 2 ^ 15) (2 ^ 15)); lia.
Qed.

Lemma immed_half z : - 2 ^ 15 <= immed z < 2 ^ 15.
Proof.
  rewrite immed_value. cbv zeta. pose proof (Z.mod_pos_bound z (2 ^ 16) ltac:(lia)).
  destruct (Z.ltb_spec (z mod 2 ^ 16) (2 ^ 15)); lia.
Qed.

Lemma immed_Decode w : immed (i32 w) = Decode_extra IFMT w.
Proof.
  symmetry. apply Decode_extra_imm; rewrite immed_value; cbv zeta; pose proof (Z.mod_pos_bound (i32 w) (2 ^ 16) ltac:(lia)) as Hb.
  - destruct (Z.ltb_spec ((i32 w) mod 2 ^ 16) (2 ^ 15)); lia.
  - assert (E : i32 w mod 2 ^ 16 = w mod 2 ^ 16).
    { destruct (i32_mod w) as [k ->]. change (2 ^ 32) with (2 ^ 16 * 2 ^ 16). rewrite Z.mul_assoc, Z.mod_add by lia. reflexivity. }
    rewrite <- E. destruct (Z.ltb_spec ((i32 w) mod 2 ^ 16) (2 ^ 15)); [now rewrite Z.mod_mod by lia|].
    replace (i32 w mod 2 ^ 16 - 2 ^ 16) with (i32 w mod 2 ^ 16 + (-1) * 2 ^ 16) by lia. rewrite Z.mod_add, Z.mod_mod by lia. reflexivity.
Qed.

Lemma lui_value w : i32 (Z.shiftl (i32 w) 16) = i32 (Z.shiftl (Decode_extra IFMT w) 16).
Proof.
  rewrite <- immed_Decode, immed_value. apply i32_congr. rewrite !Z.shiftl_mul_pow2 by lia. cbv zeta.
  set (z := i32 w). pose proof (Z.div_mod z (2 ^ 16) ltac:(lia)) as E.
  destruct (Z.ltb_spec (z mod 2 ^ 16) (2 ^ 15)).
  - rewrite E at 1. replace ((2 ^ 16 * (z / 2 ^ 16) + z mod 2 ^ 16) * 2 ^ 16) with (z mod 2 ^ 16 * 2 ^ 16 + (z / 2 ^ 16) * 2 ^ 32) by ring.
    now rewrite Z.mod_add by lia.
  - rewrite E at 1. replace ((2 ^ 16 * (z / 2 ^ 16) + z mod 2 ^ 16) * 2 ^ 16) with ((z mod 2 ^ 16 - 2 ^ 16) * 2 ^ 16 + (z / 2 ^ 16 + 1) * 2 ^ 32) by ring.
    now rewrite Z.mod_add by lia.
Qed.

(** A double word determines its halves. *)
Lemma double_word lo hi p :
  is_i32 lo -> hi * 2 ^ 32 + u32 lo = p -> hi = p / 2 ^ 32 /\ lo = i32 p.
Proof.
  intros Hl E. pose proof (u32_range lo) as Hu. split.
  - apply (Z.div_unique_pos p (2 ^ 32) hi (u32 lo)); lia.
  - rewrite <- (i32_id lo Hl), <- i32_u32. apply i32_congr. rewrite <- E, Z.add_comm, Z.mod_add by lia. reflexivity.
Qed.

Lemma small_product t1 t2 :
  0 <= t1 < 2 ^ 31 -> 0 <= t2 < 2 ^ 31 -> t1 * t2 < 2 ^ 32 -> mult_words t1 t2 = (i32 (t1 * t2), 0).
Proof.
  intros H1 H2 Hp. destruct (mult_words_spec t1 t2 H1 H2) as (d & Hd & -> & Hh).
  rewrite Z.div_small in * by nia. f_equal. lia.
Qed.

Lemma mult_agrees a b :
  is_i32 a -> is_i32 b -> agree_on OP_MULT a b 0 = true ->
  exists lo hi, mult_signed a b = (lo, hi) /\ Mult a b true = (hi, lo).
Proof.
  intros Ha Hb Hag. cbn in Hag. bool_hyps. exists (mult_signed a b).1, (mult_signed a b).2. split; [apply surjective_pairing|].
  pose proof (Mult_dword a b true Ha Hb) as HM. destruct (Mult a b true) as [hi lo]. destruct HM as (Hh & Hl & Hd).
  assert (Ei : (mult_signed a b).2 * 2 ^ 32 + u32 (mult_signed a b).1 = a * b /\ is_i32 (mult_signed a b).1).
  { unfold mult_signed, is_i32 in *.
    assert (Et : forall z, - 2 ^ 31 < z < 2 ^ 31 -> (if z <? 0 then i32 (- z) else z) = Z.abs z).
    { intros z Hz. destruct (Z.ltb_spec z 0); [rewrite i32_id by (unfold is_i32; lia)|]; lia. }
    rewrite !Et by lia. rewrite small_product, <- Z.abs_mul by (rewrite <- ?Z.abs_mul; lia). set (p := Z.abs (a * b)) in *.
    assert (Hp : 0 * 2 ^ 32 + u32 (i32 p) = p) by (rewrite u32_i32, u32_id by lia; lia).
    destruct (Z.ltb_spec a 0), (Z.ltb_spec b 0); cbn [xorb fst snd]; (split; [|apply i32_range]).
    - rewrite Hp. unfold p. rewrite Z.abs_eq by nia. lia.
    - rewrite negated_words by (apply i32_range || lia). rewrite Hp. unfold p. rewrite Z.abs_neq by nia. lia.
    - rewrite negated_words by (apply i32_range || lia). rewrite Hp. unfold p. rewrite Z.abs_neq by nia. lia.
    - rewrite Hp. unfold p. rewrite Z.abs_eq by nia. lia. }
  destruct Ei as [Ei Il]. destruct (double_word _ _ _ Il Ei) as [-> ->].
  assert (Es : hi * 2 ^ 32 + u32 lo = a * b) by (apply (dword_signed a b); auto; lia).
  now destruct (double_word _ _ _ Hl Es) as [-> ->].
Qed.

Lemma multu_agrees a b :
  is_i32 a -> is_i32 b -> agree_on OP_MULTU a b 0 = true ->
  exists lo hi, mult_words a b = (lo, hi) /\ Mult a b false = (hi, lo).
Proof.
  intros Ha Hb Hag. cbn in Hag. bool_hyps. unfold is_i32 in Ha, Hb. exists (i32 (a * b)), 0.
  split; [apply small_product; lia|]. pose proof (Mult_dword a b false Ha Hb) as HM.
  destruct (Mult a b false) as [hi lo]. destruct HM as (Hh & Hl & Hd). unfold dword in Hd.
  rewrite (u32_id a), (u32_id b), Z.mod_small in Hd by nia. destruct (double_word lo (u32 hi) _ Hl Hd) as [Eh ->].
  rewrite Z.div_small in Eh by nia. f_equal. rewrite <- (i32_id hi Hh), <- i32_u32, Eh. reflexivity.
Qed.

Lemma srl_agrees b n :
  is_i32 b -> 0 <= n -> (0 <=? b) || (n =? 0) = true -> i32 (Z.shiftr (u32 b) n) = Z.shiftr b n.
Proof.
  intros Hb Hn Hc. apply orb_prop in Hc as [Hc|Hc]; bool_hyps.
  - unfold is_i32 in Hb. rewrite u32_id by lia. apply i32_id. rewrite Z.shiftr_div_pow2 by lia.
    assert (0 <= b / 2 ^ n) by (apply Z.div_pos; lia). assert (b / 2 ^ n <= b) by (apply Z.div_le_upper_bound; nia).
    unfold is_i32. lia.
  - subst n. rewrite !Z.shiftr_0_r, i32_u32. now apply i32_id.
Qed.

Lemma low_immediate x : 0 <= x < 2 ^ 15 -> Z.land x 0xffff = x.
Proof. intros Hx. change 0xffff with (Z.ones 16). rewrite Z.land_ones by lia. apply Z.mod_small. lia. Qed.
End agreement_lemmas.

Section agreement.
Variable host : nat -> Z -> list Z -> gmap Z Z -> Z * gmap Z Z.
Implicit Types (s : Interp) (m : Machine).

(** Both machines, with the same registers, at work on the word [w]. *)
Section both.
Variables (s : Interp) (m : Machine).
Hypotheses (Hs : interp_wf s) (Hm : regs_wf (registers m)) (HR : same_registers s m).

Lemma read_both i : 0 <= i < 32 ->
  exists v, get_Reg i s = Ok (v, s) /\ reg i m = Ok (v, m).
Proof.
  intros Hi. destruct (zlookup_lt (Reg s) i) as [v Hv]; [pose proof (iw_length _ Hs); lia|].
  exists v. unfold get_Reg, reg, mthen, mget, mlift. rewrite <- (sr_reg _ _ HR i Hi), Hv. auto.
Qed.

(** The same value to the same register. *)
Lemma write_both i v pcAfter : 0 <= i < 32 ->
  exists s' m', assign_Reg i v s = Ok (None, s') /\ assign i v pcAfter m = Ok (Break 0 0 pcAfter, m') /\
    same_registers s' m' /\ mem s' = mem s /\ pc s' = pc s /\ npc s' = npc s.
Proof.
  intros Hi. pose proof (iw_length _ Hs) as Hl. pose proof (rw_length _ Hm) as Hlm. unfold NumTotalRegs in Hlm.
  eexists (set_Reg (<[Z.to_nat i := v]> (Reg s)) s), (set_registers (<[Z.to_nat i := v]> (registers m)) m).
  split; [|split; [|split; [|auto]]].
  - unfold assign_Reg, put_Reg, mthen, mget, mlift. now rewrite zupd_lt by lia.
  - unfold assign. rewrite (mthen_step _ _ _ tt (set_registers (<[Z.to_nat i := v]> (registers m)) m)); [reflexivity|].
    apply set_reg_ok; [exact Hm|unfold NumTotalRegs; lia].
  - destruct HR as [R1 R2 R3]. split; cbn [Reg HI LO set_Reg registers set_registers].
    + intros j Hj. destruct (Z.eq_dec i j) as [<-|Hne].
      * rewrite !zlookup_insert_eq by lia. reflexivity.
      * rewrite !zlookup_insert_ne by lia. auto.
    + rewrite zlookup_insert_ne by (unfold HiReg; lia). exact R2.
    + rewrite zlookup_insert_ne by (unfold LoReg; lia). exact R3.
Qed.

Lemma write_hi v pcAfter :
  exists s' m', (mmodify (set_HI v) >>> goes_on) s = Ok (None, s') /\ assign HiReg v pcAfter m = Ok (Break 0 0 pcAfter, m') /\
    same_registers s' m' /\ mem s' = mem s /\ pc s' = pc s /\ npc s' = npc s.
Proof.
  pose proof (rw_length _ Hm) as Hlm. unfold NumTotalRegs in Hlm.
  eexists (set_HI v s), (set_registers (<[Z.to_nat HiReg := v]> (registers m)) m).
  split; [reflexivity|]. split; [|split; [|auto]].
  - unfold assign. rewrite (mthen_step _ _ _ tt (set_registers (<[Z.to_nat HiReg := v]> (registers m)) m)); [reflexivity|].
    apply set_reg_ok; [exact Hm|unfold HiReg, NumTotalRegs; lia].
  - destruct HR as [R1 R2 R3]. unfold HiReg, LoReg in *. split; cbn [Reg HI LO set_HI registers set_registers].
    + intros j Hj. rewrite zlookup_insert_ne by lia. auto.
    + apply zlookup_insert_eq. unfold HiReg. lia.
    + rewrite zlookup_insert_ne by (unfold HiReg, LoReg; lia). exact R3.
Qed.
Lemma write_lo v pcAfter :
  exists s' m', (mmodify (set_LO v) >>> goes_on) s = Ok (None, s') /\ assign LoReg v pcAfter m = Ok (Break 0 0 pcAfter, m') /\
    same_registers s' m' /\ mem s' = mem s /\ pc s' = pc s /\ npc s' = npc s.
Proof.
  pose proof (rw_length _ Hm) as Hlm. unfold NumTotalRegs in Hlm.
  eexists (set_LO v s), (set_registers (<[Z.to_nat LoReg := v]> (registers m)) m).
  split; [reflexivity|]. split; [|split; [|auto]].
  - unfold assign. rewrite (mthen_step _ _ _ tt (set_registers (<[Z.to_nat LoReg := v]> (registers m)) m)); [reflexivity|].
    apply set_reg_ok; [exact Hm|unfold LoReg, NumTotalRegs; lia].
  - destruct HR as [R1 R2 R3]. unfold HiReg, LoReg in *. split; cbn [Reg HI LO set_LO registers set_registers].
    + intros j Hj. rewrite zlookup_insert_ne by lia. auto.
    + rewrite zlookup_insert_ne by (unfold HiReg, LoReg; lia). exact R2.
    + apply zlookup_insert_eq. unfold LoReg. lia.
Qed.
(** New values for HI and LO, in either order. *)
Lemma set_register i v m1 :
  Z.of_nat (length (registers m1)) = NumTotalRegs -> 0 <= i < NumTotalRegs ->
  set_reg i v m1 = Ok (tt, set_registers (<[Z.to_nat i := v]> (registers m1)) m1).
Proof. intros Hl Hi. unfold set_reg, mthen, mget, mlift. now rewrite zupd_lt by lia. Qed.

Lemma write_product lo hi pcAfter :
  exists s' m', set_product (lo, hi) s = Ok (None, s') /\
    (set_reg HiReg hi >>> assign LoReg lo pcAfter) m = Ok (Break 0 0 pcAfter, m') /\
    same_registers s' m' /\ mem s' = mem s /\ pc s' = pc s /\ npc s' = npc s.
Proof.
  pose proof (rw_length _ Hm) as Hlm. set (m1 := set_registers (<[Z.to_nat HiReg := hi]> (registers m)) m).
  set (m2 := set_registers (<[Z.to_nat LoReg := lo]> (registers m1)) m1).
  assert (E1 : set_reg HiReg hi m = Ok (tt, m1)) by (apply set_register; [exact Hlm|unfold HiReg, NumTotalRegs; lia]).
  assert (E2 : set_reg LoReg lo m1 = Ok (tt, m2)).
  { apply set_register; [cbn; now rewrite length_insert|unfold LoReg, NumTotalRegs; lia]. }
  exists (set_HI hi (set_LO lo s)), m2. split; [reflexivity|]. split.
  { mstep_by E1. unfold assign. now mstep_by E2. }
  split; [|auto]. unfold NumTotalRegs, HiReg, LoReg in *. split; cbn [Reg HI LO set_HI set_LO m2 m1 registers set_registers].
  - intros j Hj. unfold HiReg, LoReg. rewrite !zlookup_insert_ne by lia. apply (sr_reg _ _ HR j Hj).
  - unfold HiReg, LoReg. rewrite zlookup_insert_ne, zlookup_insert_eq by lia. reflexivity.
  - unfold HiReg, LoReg. rewrite zlookup_insert_eq; [reflexivity|rewrite length_insert; lia].
Qed.

(** The quotient, and then a remainder [r] of the registers [i] and [j]. *)
Lemma write_quotient lo (r : Z -> Z -> Z) i j a b pcAfter :
  0 <= i < 32 -> 0 <= j < 32 -> reg i m = Ok (a, m) -> reg j m = Ok (b, m) ->
  exists s' m', set_product (lo, r a b) s = Ok (None, s') /\
    (set_reg LoReg lo >>> let! a := reg i in let! b := reg j in assign HiReg (r a b) pcAfter) m = Ok (Break 0 0 pcAfter, m') /\
    (set_reg LoReg lo >>> assign HiReg (r a b) pcAfter) m = Ok (Break 0 0 pcAfter, m') /\
    same_registers s' m' /\ mem s' = mem s /\ pc s' = pc s /\ npc s' = npc s.
Proof.
  intros Hi Hj Ei Ej. pose proof (rw_length _ Hm) as Hlm. set (m1 := set_registers (<[Z.to_nat LoReg := lo]> (registers m)) m).
  set (m2 := set_registers (<[Z.to_nat HiReg := r a b]> (registers m1)) m1).
  assert (E1 : set_reg LoReg lo m = Ok (tt, m1)) by (apply set_register; [exact Hlm|unfold LoReg, NumTotalRegs; lia]).
  assert (E2 : set_reg HiReg (r a b) m1 = Ok (tt, m2)).
  { apply set_register; [cbn; now rewrite length_insert|unfold HiReg, NumTotalRegs; lia]. }
  assert (Er : forall k v, 0 <= k < 32 -> reg k m = Ok (v, m) -> reg k m1 = Ok (v, m1)).
  { intros k v Hk. unfold reg, mthen, mget, mlift. cbn [m1 registers set_registers].
    rewrite zlookup_insert_ne by (unfold LoReg; lia). destruct ((registers m).[k]); congruence. }
  exists (set_HI (r a b) (set_LO lo s)), m2. split; [reflexivity|]. split.
  { mstep_by E1. mstep_by (Er i a Hi Ei). mstep_by (Er j b Hj Ej). unfold assign. now mstep_by E2. }
  split. { mstep_by E1. unfold assign. now mstep_by E2. }
  split; [|auto]. unfold NumTotalRegs, HiReg, LoReg in *. split; cbn [Reg HI LO set_HI set_LO m2 m1 registers set_registers].
  - intros k Hk. unfold HiReg, LoReg. rewrite !zlookup_insert_ne by lia. apply (sr_reg _ _ HR k Hk).
  - unfold HiReg, LoReg. rewrite zlookup_insert_eq; [reflexivity|rewrite length_insert; lia].
  - unfold HiReg, LoReg. rewrite zlookup_insert_ne, zlookup_insert_eq by lia. reflexivity.
Qed.
End both.

Lemma read_hilo s m : same_registers s m -> reg HiReg m = Ok (HI s, m) /\ reg LoReg m = Ok (LO s, m).
Proof. intros [_ R2 R3]. unfold reg, mthen, mget, mlift. now rewrite R2, R3. Qed.

(** The fields of a word in both programs. *)
Lemma same_fields w :
  rs (i32 w) = Z.land (Z.shiftr w 21) 0x1f /\ rt (i32 w) = Z.land (Z.shiftr w 16) 0x1f /\
  rd (i32 w) = Z.land (Z.shiftr w 11) 0x1f /\ shamt (i32 w) = Z.land (Z.shiftr w 6) 0x1f /\
  Z.land (Z.shiftr (i32 w) 26) 0x3f = Z.land (Z.shiftr w 26) 0x3f /\ Z.land (i32 w) 0x3f = Z.land w 0x3f.
Proof.
  unfold rs, rt, rd, shamt. change 0x1f with (Z.ones 5). change 0x3f with (Z.ones 6).
  rewrite !field_signed, low_signed by lia. auto 6.
Qed.

Lemma six_bits z : In (Z.land z 0x3f) (seqZ 0 64).
Proof.
  apply list_elem_of_In, elem_of_seqZ. change 0x3f with (Z.ones 6). rewrite Z.land_ones by lia.
  pose proof (Z.mod_pos_bound z (2 ^ 6)). lia.
Qed.

Lemma Decode_operands w i :
  Decode w = Some i -> Mips.rs i = Z.land (Z.shiftr w 21) 0x1f /\ Mips.rt i = Z.land (Z.shiftr w 16) 0x1f.
Proof. unfold Decode. intros HD. repeat case_match; now simplify_eq. Qed.

Lemma bcond_not_register w : register_op (Decode_bcond w) = false.
Proof. unfold Decode_bcond. repeat case_match; reflexivity. Qed.

(** A proof for each number of a six-bit field; the case of a known number. *)
Ltac each_case H := repeat (destruct H as [<-|H]); [..|destruct H].
Ltac known_case f :=
  match goal with |- context [f ?k] => let r := eval vm_compute in (f k) in change (f k) with r end; cbn match.
Ltac in_simulator :=
  cbn [exec_add_to_bne exec_div_to_jr exec_lb_to_lwr exec_mfhi_to_sh exec_sll_to_srlv exec_sub_to_res
       Mips.opCode Mips.rs Mips.rt Mips.rd Mips.extra].

End agreement.

(** * A concrete machine: addu $3, $1, $2 with 7 and 9 *)
Definition addu_word : Z := 0x00221821.
Definition small_interp : Interp := mkInterp (0 :: 7 :: 9 :: replicate 29 0) 0 0 ∅ memoffset (memoffset + 4) 0 0.
Definition small_machine : Machine := set_registers (0 :: 7 :: 9 :: replicate 37 0) (start_machine []).
Definition quiet_host (k : nat) (no : Z) (args : list Z) (m : gmap Z Z) : Z * gmap Z Z := (0, m).

Lemma small_interp_wf : interp_wf small_interp.
Proof.
  split.
  - reflexivity.
  - repeat constructor; unfold is_i32; lia.
  - split; unfold is_i32; vm_compute; split; congruence.
  - split; unfold is_i32, memoffset; vm_compute; split; congruence.
  - apply map_Forall_empty.
Defined.

Lemma small_machine_wf : regs_wf (registers small_machine).
Proof.
  split; [reflexivity|repeat constructor; unfold is_i32; lia|]. intros r Hr. cbn in Hr. injection Hr as <-. unfold NumGPRegs. lia.
Defined.

Lemma small_same : same_registers small_interp small_machine.
Proof.
  split; [|reflexivity..]. intros i Hi. unfold zlookup. destruct (0 <=? i); [|reflexivity]. cbn [Reg small_interp registers small_machine set_registers].
  change (0 :: 7 :: 9 :: replicate 37 0) with ((0 :: 7 :: 9 :: replicate 29 0) ++ replicate 8 0).
  symmetry. apply lookup_app_l. cbn. lia.
Defined.


(** * Where the programs disagree *)

(** The values that an instruction leaves in registers 3 and HI, in both
    programs, with [a] in register 1 and [b] in register 2. *)
Definition with_operands (a b : Z) : list Z := 0 :: a :: b :: replicate 29 0.
Definition in_interp (w a b : Z) : option (Z * Z) :=
  match execute quiet_host (i32 w) memoffset (mkInterp (with_operands a b) 0 0 ∅ memoffset (memoffset + 4) 0 0) with
  | Ok (_, s) => r ← (Reg s).[3]; Some (r, HI s)
  | Err _ => None
  end.
Definition in_machine (w a b : Z) : option (Z * Z) :=
  i ← Decode w;
  match exec_add_to_bne i 8 (set_registers (with_operands a b ++ replicate 8 0) (start_machine [])) with
  | Ok (_, m) => r ← (registers m).[3]; h ← (registers m).[HiReg]; Some (r, h)
  | Err _ => None
  end.

(** or, srl, srlv, andi, mult and multu give different results, div by zero and
    an overflow of add end only one of the programs. *)
Theorem execute_disagrees :
  in_interp 0x00221825 1 2 = Some (3, 0) /\ in_machine 0x00221825 1 2 = Some (1, 0) /\
  in_interp 0x00021842 0 (-2) = Some (2 ^ 31 - 1, 0) /\ in_machine 0x00021842 0 (-2) = Some (-1, 0) /\
  in_interp 0x00221806 1 (-2) = Some (2 ^ 31 - 1, 0) /\ in_machine 0x00221806 1 (-2) = Some (-1, 0) /\
  in_interp 0x3023ffff (-1) 0 = Some (-1, 0) /\ in_machine 0x3023ffff (-1) 0 = Some (65535, 0) /\
  in_interp 0x00220018 131071 131071 = Some (0, 1) /\ in_machine 0x00220018 131071 131071 = Some (0, 3) /\
  in_interp 0x00220019 (-1) (-1) <> in_machine 0x00220019 (-1) (-1) /\
  in_interp 0x0022001a 7 0 = None /\ in_machine 0x0022001a 7 0 = Some (0, 0) /\
  in_interp 0x00221820 (2 ^ 31 - 1) 1 = Some (- 2 ^ 31, 0) /\ in_machine 0x00221820 (2 ^ 31 - 1) 1 = None.
Proof. repeat split; try (vm_compute; reflexivity). vm_compute. discriminate. Qed.

Lemma step_wf_witness : match step quiet_host small_interp with Ok (_, s') => interp_wf s' | Err f => f = BadAccess end.
Proof. apply (step_wf quiet_host); [intros k no args m Hm; exact Hm|exact small_interp_wf]. Defined.
