(* ===== verification/Disasm.v ===== *)
(** The disassemblers of bin/: bin/d.c with the tables of bin/opstrings.c, the
    program of bin/disasm.c with its loader, the table printer of bin/out.c, and
    the logarithm of bin/execute.c.

    What a routine prints is its result, a [string]; printf's %s, %08x, %x and
    %d are written out.  The opcodes, the fields of an instruction, the
    simulated memory and its access are those of Interp.v, which the programs
    share through encode.h, instr.h and int.h.  The headers that the host's
    library reads from an object file are [section_header] and [reloc], with the
    members that the code uses. *)
From Stdlib Require Import ZArith Lia String Ascii.
From stdpp Require Import base option list list_numbers gmap.
From S2P Require Import Prelude Stats BitMap HostFile Machine Mips Cpu Interp.

Local Open Scope string_scope.
Local Open Scope Z_scope.

(** * printf *)
Definition tab : string := String (ascii_of_nat 9) "".
Definition newline : string := String (ascii_of_nat 10) "".

Definition hex_digit (d : Z) : string := substring (Z.to_nat d) 1 "0123456789abcdef".
Fixpoint hex_fixed (k : nat) (z : Z) : string :=
  match k with
  | O => ""
  | S k => hex_fixed k (z / 16) ++ hex_digit (z mod 16)
  end.
(** %08x of an int *)
Definition hex8 (z : Z) : string := hex_fixed 8 (u32 z).
(** %x: without leading zeros *)
Fixpoint strip_zeros (s : string) : string :=
  match s with
  | String c (String _ _ as r) => if Ascii.eqb c "0"%char then strip_zeros r else s
  | _ => s
  end.
Definition hex (z : Z) : string := strip_zeros (hex8 z).

(** %d *)
Definition dec_digit (d : Z) : string := substring (Z.to_nat d) 1 "0123456789".
Fixpoint dec_fixed (k : nat) (z : Z) : string :=
  match k with
  | O => ""
  | S k => dec_fixed k (z / 10) ++ dec_digit (z mod 10)
  end.
Definition dec (z : Z) : string :=
  (if z <? 0 then "-" else "") ++ strip_zeros (dec_fixed 10 (Z.abs z)).

(** * opstrings.c *)
Definition normalops : list string :=
  ["special"; "bcond"; "j"; "jal"; "beq"; "bne"; "blez"; "bgtz"; "addi"; "addiu"; "slti"; "sltiu"; "andi";
   "ori"; "xori"; "lui"; "cop0"; "cop1"; "cop2"; "cop3"; "024"; "025"; "026"; "027"; "030"; "031"; "032";
   "033"; "034"; "035"; "036"; "037"; "lb"; "lh"; "lwl"; "lw"; "lbu"; "lhu"; "lwr"; "047"; "sb"; "sh";
   "swl"; "sw"; "054"; "055"; "swr"; "057"; "lwc0"; "lwc1"; "lwc2"; "lwc3"; "064"; "065"; "066"; "067";
   "swc0"; "swc1"; "swc2"; "swc3"; "074"; "075"; "076"; "077"].
Definition specialops : list string :=
  ["sll"; "001"; "srl"; "sra"; "sllv"; "005"; "srlv"; "srav"; "jr"; "jalr"; "012"; "013"; "syscall";
   "break"; "016"; "017"; "mfhi"; "mthi"; "mflo"; "mtlo"; "024"; "025"; "026"; "027"; "mult"; "multu";
   "div"; "divu"; "034"; "035"; "036"; "037"; "add"; "addu"; "sub"; "subu"; "and"; "or"; "xor"; "nor";
   "050"; "051"; "slt"; "sltu"; "054"; "055"; "056"; "057"; "060"; "061"; "062"; "063"; "064"; "065";
   "066"; "067"; "070"; "071"; "072"; "073"; "074"; "075"; "076"; "077"].

(** * instr.h *)
Definition off26 (i : Z) : Z := i32 (Z.shiftl (Z.land i (Z.shiftl 1 26 - 1)) 2).
Definition top4 (i : Z) : Z := Z.land i (Z.lnot (Z.shiftl 1 28 - 1)).
Definition off16 (i : Z) : Z := i32 (Z.shiftl (immed i) 2).

(** * d.c *)
Definition regstrings : list string :=
  ["0"; "r1"; "r2"; "r3"; "r4"; "r5"; "r6"; "r7"; "r8"; "r9"; "r10"; "r11"; "r12"; "r13"; "r14"; "r15";
   "r16"; "r17"; "r18"; "r19"; "r20"; "r21"; "r22"; "r23"; "r24"; "r25"; "r26"; "r27"; "gp"; "sp"; "r30"; "r31"].

Section dump.
Context {S : Type}.

Definition R (i : Z) : M S string := mlift (regstrings.[i]).
(** "%s,%s,%s" *)
Definition three (a b c : Z) : M S string :=
  let! x := R a in let! y := R b in let! z := R c in mreturn (x ++ "," ++ y ++ "," ++ z).
Definition two (a b : Z) : M S string :=
  let! x := R a in let! y := R b in mreturn (x ++ "," ++ y).

Definition special_operands (opcode i : Z) : M S string :=
  match special_case opcode with
  | Some (I_SLL | I_SRL | I_SRA) =>
      let! s := two (rd i) (rt i) in mreturn (s ++ ",0x" ++ hex (shamt i))
  | Some (I_SLLV | I_SRLV | I_SRAV) => three (rd i) (rt i) (rs i)
  | Some (I_JR | I_JALR | I_MFLO | I_MTLO) => R (rs i)
  | Some (I_SYSCALL | I_BREAK) => mreturn ""
  | Some (I_MFHI | I_MTHI) => R (rd i)
  | Some (I_MULT | I_MULTU | I_DIV | I_DIVU) => two (rs i) (rt i)
  | Some (I_ADD | I_ADDU | I_SUB | I_SUBU | I_AND | I_OR | I_XOR | I_NOR | I_SLT | I_SLTU) =>
      three (rd i) (rs i) (rt i)
  | None => mreturn ""
  end.

Definition bcond_name (i : Z) : string :=
  match bcond_case (rt i) with
  | Some I_BLTZ => "bltz"
  | Some I_BGEZ => "bgez"
  | Some I_BLTZAL => "bltzal"
  | Some I_BGEZAL => "bgezal"
  | None => "BCOND"
  end.

(** off16(instruction)+pc+4 *)
Definition branch_target (i pc : Z) : Z := i32 (i32 (off16 i + pc) + 4).
(** top4(pc)|off26(instruction) *)
Definition jump_target (i pc : Z) : Z := Z.lor (top4 pc) (off26 i).

Definition normal_operands (opcode i pc : Z) : M S string :=
  match normal_case opcode with
  | Some (I_J | I_JAL) => mreturn (hex8 (jump_target i pc))
  | Some (I_BEQ | I_BNE) =>
      let! s := two (rt i) (rs i) in mreturn (s ++ "," ++ hex8 (branch_target i pc))
  | Some (I_ADDI | I_ADDIU | I_SLTI | I_SLTIU | I_ANDI | I_ORI | I_XORI) =>
      let! s := two (rt i) (rs i) in mreturn (s ++ ",0x" ++ hex (immed i))
  | Some I_LUI => let! s := R (rt i) in mreturn (s ++ ",0x" ++ hex (immed i))
  | Some (I_COP0 | I_COP1 | I_COP2 | I_COP3) => mreturn ""
  | Some (I_LB | I_LH | I_LWL | I_LW | I_LBU | I_LHU | I_LWR | I_SB | I_SH | I_SWL | I_SW | I_SWR
         | I_LWC0 | I_LWC1 | I_LWC2 | I_LWC3 | I_SWC0 | I_SWC1 | I_SWC2 | I_SWC3) =>
      let! x := R (rt i) in let! y := R (rs i) in
      mreturn (x ++ ",0x" ++ hex (immed i) ++ "(" ++ y ++ ")")
  | _ => mreturn ""
  end.

Definition dump_ascii (longdis : bool) (instruction pc : Z) : M S string :=
  let head := (if longdis then hex8 pc ++ ": " ++ hex8 instruction ++ "  " else "") ++ tab in
  let opcode := Z.shiftr (u32 instruction) 26 in
  if instruction =? 0 then mreturn (head ++ "nop")
  else if opcode =? normal_number I_SPECIAL then
    let opcode := Z.land instruction 0x3f in
    let! name := mlift (specialops.[opcode]) in
    let! s := special_operands opcode instruction in
    mreturn (head ++ name ++ tab ++ s)
  else if opcode =? normal_number I_BCOND then
    let! r := R (rs instruction) in
    mreturn (head ++ bcond_name instruction ++ tab ++ r ++ "," ++ hex8 (branch_target instruction pc))
  else
    let! name := mlift (normalops.[opcode]) in
    let! s := normal_operands opcode instruction pc in
    mreturn (head ++ name ++ tab ++ s).
End dump.

(** * disasm.c *)
Record section_header := mkSectionHeader {
  s_vaddr  : Z;
  s_size   : Z;
  s_scnptr : Z
}.

(** load_section: [file] are the bytes behind s_scnptr, and getc gives -1 at
    their end.  [None] when the loop is done, [Some 1] for exit(1). *)
Definition load_section (hd : section_header) (file : list Z) : M Interp (option Z) :=
  if negb (s_scnptr hd =? 0) then
    mfirst (seqZ 0 (s_size hd)) (fun i =>
      let pc := i32 (s_vaddr hd + i) in
      if MEMSIZE <=? i32 (pc - memoffset) then mreturn (Some 1)
      else put_bytes pc [Z.land (default (-1) (file.[i])) 0xff] >>> mreturn None)
  else mreturn None.

(** dis1 reads and shows the instruction at the global pc. *)
Definition dis1 (pc : Z) : M Interp string :=
  let! instr := fetch pc in
  let! s := dump_ascii true instr pc in
  mreturn (s ++ newline).

(** for ( i=0; i<texthead.s_size; i += 4 ) *)
Definition disasm (texthead : section_header) : M Interp string :=
  let! r := mfold (seqZ 0 (divRoundUp (Z.max 0 (s_size texthead)) 4)) (memoffset, "") (fun a _ =>
    let '(pc, out) := a in
    let! s := dis1 pc in
    mreturn (i32 (pc + 4), out ++ s)) in
  mreturn r.2.

(** * out.c *)
Definition MAXSYMS : Z := 300.

(** The static column, and the text written to outfile. *)
Record Out := mkOut {
  column : Z;
  text   : string
}.

(** The column after a character. *)
Definition advance (col : Z) (c : ascii) : Z :=
  if Ascii.eqb c (ascii_of_nat 10) then 1
  else if Ascii.eqb c (ascii_of_nat 9) then Z.land (col + 7) (Z.lnot 7) + 1
  else col + 1.
Fixpoint column_after (col : Z) (s : string) : Z :=
  match s with
  | EmptyString => col
  | String c r => column_after (advance col c) r
  end.

Definition myprintf (s : string) : M Out unit :=
  mmodify (fun o => mkOut (column_after (column o) s) (text o ++ s)).

Definition mytab (n : Z) : M Out bool :=
  let! o := mget in
  mwhile (S (Z.to_nat (n - column o)))
    (let! o := mget in
     if column o <? n then mput (mkOut (column o + 1) (text o ++ " ")) >>> mreturn true
     else mreturn false) >>>
  let! o := mget in mreturn (column o =? n).

Record reloc := mkReloc {
  r_vaddr  : Z;
  r_symndx : Z;
  r_extern : bool;
  r_type   : Z
}.

Definition section_name : list string :=
  ["(null)"; ".text"; ".rdata"; ".data"; ".sdata"; ".sbss"; ".bss"; ".init"; ".lit8"; ".lit4"].
Definition reloc_type : list string :=
  ["abs"; "16"; "32"; "26"; "hi16"; "lo16"; "gpdata"; "gplit"].

Section out.
(** &sspace[symbols[i].asym.iss] *)
Variable symbol : Z -> option string.

Definition quote : string := String (ascii_of_nat 34) "".

Fixpoint print_reloc_loop (vaddr : Z) (relocs : list reloc) : M Out unit :=
  match relocs with
  | [] => mreturn tt
  | rp :: r =>
      if vaddr =? r_vaddr rp then
        let! _ := mytab 57 in
        (if r_extern rp then
           if MAXSYMS <=? r_symndx rp then myprintf ("sym $" ++ dec (r_symndx rp))
           else let! n := mlift (symbol (r_symndx rp)) in myprintf (quote ++ n ++ quote)
         else let! n := mlift (section_name.[r_symndx rp]) in myprintf n) >>>
        let! t := mlift (reloc_type.[r_type rp]) in
        myprintf (" " ++ t)
      else print_reloc_loop vaddr r
  end.
Definition print_reloc (vaddr : Z) (relocs : list reloc) : M Out unit :=
  print_reloc_loop vaddr relocs >>> myprintf newline.

(** A byte of the word as a character, or a dot. *)
Definition show_byte (b : Z) : string :=
  if (32 <=? b) && (b <? 127) then String (ascii_of_nat (Z.to_nat b)) "" else ".".

Definition print_word (is_text : bool) (word pc : Z) : M Out unit :=
  if is_text then let! s := dump_ascii true word pc in myprintf s
  else
    myprintf (hex8 pc ++ ": " ++ hex8 word ++ "  ") >>>
    mfor (le_split 4 (u32 word)) (fun b => myprintf (show_byte b)) >>>
    myprintf (tab ++ dec word).

Definition print_section (s_name : string) (hd : section_header) (data : list Z) (relocs : list reloc) : M Out unit :=
  myprintf ("Section: " ++ s_name ++ tab ++ dec (s_size hd) ++ "/" ++ dec (Z.of_nat (length relocs)) ++ newline) >>>
  let is_text := String.prefix ".text" s_name in
  mfor (seqZ 0 (Z.of_nat (length data))) (fun j =>
    let pc := i32 (s_vaddr hd + j * 4) in
    let! word := mlift (data.[j]) in
    print_word is_text word pc >>>
    print_reloc pc relocs).
End out.

(** * execute.c *)
Definition ilog2_step (mask k : Z) (a : Z * Z) : Z * Z :=
  let j := Z.land a.1 mask in
  if negb (j =? 0) then (j, a.2 + k) else a.

(** i and the masks as unsigned words. *)
Definition ilog2 (i : Z) : Z :=
  if i =? 0 then 0
  else
    let a := ilog2_step 0xffff0000 16 (u32 i, 1) in
    let a := ilog2_step 0xff00ff00 8 a in
    let a := ilog2_step 0xf0f0f0f0 4 a in
    let a := ilog2_step 0xcccccccc 2 a in
    (ilog2_step 0xaaaaaaaa 1 a).2.

(** * Lemmas: printing numbers *)
Definition hex_value (c : ascii) : Z :=
  let n := Z.of_nat (nat_of_ascii c) in if n <? 58 then n - 48 else n - 87.
Fixpoint unhex (acc : Z) (s : string) : Z :=
  match s with
  | EmptyString => acc
  | String c r => unhex (16 * acc + hex_value c) r
  end.

Lemma unhex_app acc s t : unhex acc (s ++ t) = unhex (unhex acc s) t.
Proof. revert acc. induction s as [|c s IH]; intros acc; [reflexivity|]. apply IH. Qed.

Lemma unhex_digit acc d : 0 <= d < 16 -> unhex acc (hex_digit d) = 16 * acc + d.
Proof.
  intros Hd. assert (Hc : d ∈ seqZ 0 16) by (apply elem_of_seqZ; lia). cbn in Hc.
  repeat (apply elem_of_cons in Hc as [->|Hc]; [reflexivity|]). inversion Hc.
Qed.

Lemma unhex_fixed k : forall acc z, 0 <= z < 16 ^ Z.of_nat k -> unhex acc (hex_fixed k z) = acc * 16 ^ Z.of_nat k + z.
Proof.
  induction k as [|k IH]; intros acc z Hz; [cbn in *; lia|].
  rewrite Nat2Z.inj_succ, Z.pow_succ_r in * by lia. cbn [hex_fixed]. pose proof (Z.mod_pos_bound z 16 ltac:(lia)).
  pose proof (Z.div_mod z 16 ltac:(lia)). rewrite unhex_app, unhex_digit by lia.
  rewrite IH by (split; [apply Z.div_pos; lia|apply Z.div_lt_upper_bound; lia]). lia.
Qed.

Lemma unhex_strip s acc : acc = 0 -> unhex acc (strip_zeros s) = unhex acc s.
Proof.
  intros ->. induction s as [|c s IH]; [reflexivity|]. destruct s as [|d s]; [reflexivity|].
  change (strip_zeros (String c (String d s))) with (if Ascii.eqb c "0"%char then strip_zeros (String d s) else String c (String d s)).
  destruct (Ascii.eqb_spec c "0"%char) as [->|]; [|reflexivity]. exact IH.
Qed.

Lemma unhex_hex8 z : unhex 0 (hex8 z) = u32 z.
Proof. unfold hex8. rewrite unhex_fixed; [reflexivity|]. apply Z.mod_pos_bound. lia. Qed.
Lemma unhex_hex z : unhex 0 (hex z) = u32 z.
Proof. unfold hex. rewrite unhex_strip by reflexivity. apply unhex_hex8. Qed.

(** * Lemmas: every word can be shown *)
Definition reg_name (i : Z) : string := default "" (regstrings.[i]).

Section dump_lemmas.
Context {S : Type}.
Implicit Types t : S.

Lemma R_run i t : 0 <= i < 32 -> R i t = Ok (reg_name i, t).
Proof.
  intros Hi. unfold R, reg_name. destruct (zlookup_lt regstrings i) as [x E]; [exact Hi|]. now rewrite E.
Qed.
Lemma two_run i j t : 0 <= i < 32 -> 0 <= j < 32 -> two i j t = Ok (reg_name i ++ "," ++ reg_name j, t).
Proof. intros Hi Hj. unfold two. mstep_by (R_run i t Hi). now mstep_by (R_run j t Hj). Qed.
Lemma three_run i j k t : 0 <= i < 32 -> 0 <= j < 32 -> 0 <= k < 32 ->
  three i j k t = Ok (reg_name i ++ "," ++ reg_name j ++ "," ++ reg_name k, t).
Proof. intros Hi Hj Hk. unfold three. mstep_by (R_run i t Hi). mstep_by (R_run j t Hj). now mstep_by (R_run k t Hk). Qed.
End dump_lemmas.

Lemma opcode_field i : Z.shiftr (u32 i) 26 = Z.land (Z.shiftr i 26) 0x3f.
Proof.
  change 0x3f with (Z.ones 6). apply Z.bits_inj'. intros j Hj.
  rewrite Z.shiftr_spec, Z.land_spec, Z.shiftr_spec, Z.testbit_ones_nonneg by lia. unfold u32.
  destruct (Z.ltb_spec j 6).
  - rewrite Z.mod_pow2_bits_low by lia. now rewrite andb_true_r.
  - rewrite Z.mod_pow2_bits_high by lia. now rewrite andb_false_r.
Qed.

Lemma opcode_range i : 0 <= Z.land (Z.shiftr i 26) 0x3f < 64.
Proof. change 0x3f with (Z.ones 6). rewrite Z.land_ones by lia. apply Z.mod_pos_bound. lia. Qed.

Ltac dump_regs :=
  unfold mthen;
  repeat first [rewrite R_run by apply field_reg | rewrite two_run by apply field_reg | rewrite three_run by apply field_reg].

Lemma special_operands_total n i : exists x, forall (S : Type) (t : S), special_operands n i t = Ok (x, t).
Proof. unfold special_operands. destruct (special_case n) as [[]|]; eexists; intros S t; dump_regs; reflexivity. Qed.

Lemma normal_operands_total n i pc : exists x, forall (S : Type) (t : S), normal_operands n i pc t = Ok (x, t).
Proof. unfold normal_operands. destruct (normal_case n) as [[]|]; eexists; intros S t; dump_regs; reflexivity. Qed.

Lemma dump_ascii_total long i pc : exists x, forall (S : Type) (t : S), dump_ascii long i pc t = Ok (x, t).
Proof.
  unfold dump_ascii. rewrite opcode_field. pose proof (opcode_range i) as Ho.
  destruct (i =? 0); [eexists; reflexivity|]. destruct (_ =? normal_number I_SPECIAL).
  { destruct (zlookup_lt specialops (Z.land i 0x3f)) as [n En].
    { change (Z.of_nat (length specialops)) with 64. change 0x3f with (Z.ones 6). rewrite Z.land_ones by lia.
      now apply (Z.mod_pos_bound i 64). }
    destruct (special_operands_total (Z.land i 0x3f) i) as [x Ex]. eexists. intros S t. rewrite En. unfold mthen, mlift.
    rewrite Ex. reflexivity. }
  destruct (_ =? normal_number I_BCOND); [eexists; intros S t; dump_regs; reflexivity|].
  destruct (zlookup_lt normalops (Z.land (Z.shiftr i 26) 0x3f)) as [n En]; [exact Ho|].
  destruct (normal_operands_total (Z.land (Z.shiftr i 26) 0x3f) i pc) as [x Ex]. eexists. intros S t. rewrite En.
  unfold mthen, mlift. rewrite Ex. reflexivity.
Qed.

(** The text of one instruction. *)
Definition dump_text (i pc : Z) : string :=
  match dump_ascii true i pc tt with Ok (x, _) => x | Err _ => "" end.

Lemma dump_text_run {S} i pc (t : S) : dump_ascii true i pc t = Ok (dump_text i pc, t).
Proof. destruct (dump_ascii_total true i pc) as [x Ex]. unfold dump_text. now rewrite !Ex. Qed.

(** * Lemmas: targets *)
Lemma branch_target_same i pc : branch_target i pc = i32 (i32 (pc + 4) + i32 (Z.shiftl (immed i) 2)).
Proof.
  unfold branch_target, off16. destruct (i32_mod (Z.shiftl (immed i) 2)) as [a ->].
  destruct (i32_mod (pc + 4)) as [b ->]. set (x := Z.shiftl (immed i) 2).
  destruct (i32_mod (x + a * 2 ^ 32 + pc)) as [c ->]. apply i32_congr.
  replace (x + a * 2 ^ 32 + pc + c * 2 ^ 32 + 4) with (x + pc + 4 + (a + c) * 2 ^ 32) by lia.
  replace (pc + 4 + b * 2 ^ 32 + (x + a * 2 ^ 32)) with (x + pc + 4 + (a + b) * 2 ^ 32) by lia.
  now rewrite !Z_mod_plus_full.
Qed.

Lemma jump_target_same i pc :
  i32 (jump_target i pc) = i32 (Z.lor (Z.land (u32 pc) 0xf0000000) (Z.shiftl (Z.land i 0x03ffffff) 2)).
Proof.
  unfold jump_target, top4, off26. change (Z.shiftl 1 26 - 1) with 0x03ffffff.
  assert (Hr : 0 <= Z.land i 0x03ffffff < 2 ^ 26).
  { change 0x03ffffff with (Z.ones 26). rewrite Z.land_ones by lia. apply Z.mod_pos_bound. lia. }
  rewrite (i32_id (Z.shiftl _ 2)) by (rewrite Z.shiftl_mul_pow2 by lia; unfold is_i32; lia).
  apply i32_congr. apply Z.bits_inj'. intros j Hj. destruct (Z.ltb_spec j 32) as [Hlt|Hge];
    [rewrite !Z.mod_pow2_bits_low by lia|rewrite !Z.mod_pow2_bits_high by lia; reflexivity].
  rewrite !Z.lor_spec. f_equal. rewrite !Z.land_spec. unfold u32. rewrite Z.mod_pow2_bits_low by lia. f_equal.
  rewrite Z.lnot_spec by lia. change (Z.shiftl 1 28 - 1) with (Z.ones 28). change 0xf0000000 with (Z.shiftl (Z.ones 4) 28).
  rewrite Z.testbit_ones_nonneg, Z.shiftl_spec by lia. destruct (Z.ltb_spec j 28).
  - rewrite Z.testbit_neg_r by lia. reflexivity.
  - rewrite Z.testbit_ones_nonneg by lia. now rewrite (proj2 (Z.ltb_lt (j - 28) 4)) by lia.
Qed.

Lemma hex8_i32 z : hex8 (i32 z) = hex8 z.
Proof. unfold hex8. now rewrite u32_i32. Qed.

(** A branch of the interpreter that moves npc goes to the target shown. *)
Lemma branch_if_moves taken xpc i s s' :
  branch_if taken xpc i s = Ok (None, s') -> npc s' <> npc s -> npc s' = branch_target i xpc.
Proof.
  unfold branch_if. destruct taken; intros [= <-] Hn; [|contradiction]. cbn. symmetry. apply branch_target_same.
Qed.

Lemma get_Reg_state i s v s' : get_Reg i s = Ok (v, s') -> s' = s.
Proof. unfold get_Reg. intros E. now mon_inv. Qed.
Lemma put_Reg_npc i v s s' : put_Reg i v s = Ok (tt, s') -> npc s' = npc s.
Proof. unfold put_Reg. intros E. mon_inv. reflexivity. Qed.

Lemma bcond_moves i xpc s s' :
  exec_bcond i xpc s = Ok (None, s') -> npc s' <> npc s -> npc s' = branch_target i xpc.
Proof.
  unfold exec_bcond. intros E Hn. destruct (bcond_case (rt i)) as [[]|]; mon_inv; try discriminate;
    repeat match goal with
      | H : put_Reg _ _ _ = Ok _ |- _ => apply put_Reg_npc in H
      | H : get_Reg _ _ = Ok _ |- _ => apply get_Reg_state in H; subst
    end; eapply branch_if_moves; eauto; congruence.
Qed.

(** Routines that leave npc alone. *)
Definition keeps_npc {A} (m : M Interp A) : Prop := forall s a s', m s = Ok (a, s') -> npc s' = npc s.

Lemma npc_then {A B} (m : M Interp A) (k : A -> M Interp B) :
  keeps_npc m -> (forall a, keeps_npc (k a)) -> keeps_npc (mthen m k).
Proof. intros Hm Hk s b s' E. apply mthen_Ok in E as (a & s1 & E1 & E2). apply Hk in E2. apply Hm in E1. congruence. Qed.
Lemma npc_return {A} (a : A) : keeps_npc (mreturn a).
Proof. now intros s b s' [= <- <-]. Qed.
Lemma npc_fail {A} f : keeps_npc (mfail f : M Interp A).
Proof. now intros s b s'. Qed.
Lemma npc_get : keeps_npc mget.
Proof. now intros s b s' [= <- <-]. Qed.
Lemma npc_lift {A} (o : option A) : keeps_npc (mlift o).
Proof. unfold mlift. intros s b s' E. destruct o; [|discriminate]. now injection E as <- <-. Qed.
Lemma npc_modify f : (forall s, npc (f s) = npc s) -> keeps_npc (mmodify f).
Proof. intros Hf s b s' [= <- <-]. apply Hf. Qed.
Lemma npc_host host no args : keeps_npc (call_host host no args).
Proof.
  unfold call_host, mthen, mget, mput, mreturn. intros s a s' E. destruct (host _ _ _ _) as [r m]. now injection E as <- <-.
Qed.
Lemma npc_goes_on : keeps_npc goes_on.
Proof. apply npc_return. Qed.
Create HintDb npc discriminated.
#[local] Hint Resolve npc_return npc_fail npc_get npc_lift npc_host npc_goes_on : npc.

Ltac keep_npc :=
  repeat first
    [ solve [auto with npc] | apply npc_then; [|intros] | apply npc_modify; reflexivity | case_match ].

Lemma npc_get_Reg i : keeps_npc (get_Reg i).
Proof. unfold get_Reg. keep_npc. Qed.
Lemma npc_assign_Reg i v : keeps_npc (assign_Reg i v).
Proof. unfold assign_Reg, put_Reg, goes_on. keep_npc. Qed.
#[local] Hint Resolve npc_get_Reg npc_assign_Reg : npc.

Lemma npc_memory op i a : keeps_npc (exec_memory op i a).
Proof.
  unfold exec_memory, fetch, sfetch, usfetch, cfetch, ucfetch, store, sstore, cstore, bytes_at, put_bytes, put_Reg, goes_on, u.
  destruct op; keep_npc.
Qed.
#[local] Hint Resolve npc_memory : npc.

(** The special instructions that leave npc alone, and the two that do not. *)
Lemma special_moves host i xpc s s' :
  exec_special host i xpc s = Ok (None, s') -> npc s' <> npc s ->
  (special_case (Z.land i 0x3f) = Some I_JR \/ special_case (Z.land i 0x3f) = Some I_JALR) /\
  (Reg s).[rs i] = Some (npc s').
Proof.
  intros E Hn. destruct (special_case (Z.land i 0x3f)) as [o|] eqn:Ho.
  - assert (Hj : o = I_JR \/ o = I_JALR \/ keeps_npc (exec_special host i xpc)).
    { destruct o; auto; right; right; unfold exec_special; rewrite Ho; unfold system_break, system_trap, set_product, goes_on; keep_npc. }
    destruct Hj as [->|[->|Hk]]; [| |now apply Hk in E].
    + split; [auto|]. unfold exec_special in E. rewrite Ho in E. unfold get_Reg, jump, goes_on in E. mon_inv. assumption.
    + split; [auto|]. unfold exec_special in E. rewrite Ho in E. unfold get_Reg, assign_Reg, put_Reg, goes_on in E. mon_inv. assumption.
  - assert (Hk : keeps_npc (exec_special host i xpc)) by (unfold exec_special; rewrite Ho; unfold u; keep_npc). now apply Hk in E.
Qed.

(** The control transfers whose target is shown as a number. *)
Definition shows_target (o : normal_op) : bool :=
  match o with I_J | I_JAL | I_BEQ | I_BNE | I_BCOND => true | _ => false end.
Definition shown_target (o : normal_op) (i pc : Z) : Z :=
  match o with I_J | I_JAL => i32 (jump_target i pc) | _ => branch_target i pc end.

Lemma execute_moves host o i pc s s' :
  normal_case (Z.land (Z.shiftr i 26) 0x3f) = Some o -> shows_target o = true ->
  execute host i pc s = Ok (None, s') -> npc s' <> npc s -> npc s' = shown_target o i pc.
Proof.
  intros Ho Hs E Hn. unfold execute in E. rewrite Ho in E. destruct o; try discriminate Hs; mon_inv;
    repeat match goal with H : get_Reg _ _ = Ok _ |- _ => apply get_Reg_state in H; subst end; cbn [shown_target].
  - eapply bcond_moves; eauto.
  - rewrite jump_target_same. match goal with H : jump _ _ = Ok _ |- _ => injection H as <- end. reflexivity.
  - rewrite jump_target_same. match goal with H : jump _ _ = Ok _ |- _ => injection H as <- end. reflexivity.
  - eapply branch_if_moves; eauto.
  - eapply branch_if_moves; eauto.
Qed.

(** Only jumps and branches move npc. *)
Lemma moves_opcode host i pc s s' :
  execute host i pc s = Ok (None, s') -> npc s' <> npc s ->
  exists o, normal_case (Z.land (Z.shiftr i 26) 0x3f) = Some o /\
    (shows_target o = true \/ o = I_BLEZ \/ o = I_BGTZ \/ o = I_SPECIAL /\ exec_special host i pc s = Ok (None, s')).
Proof.
  intros E Hn. destruct (normal_case (Z.land (Z.shiftr i 26) 0x3f)) as [o|] eqn:Ho.
  - exists o. split; [reflexivity|]. destruct (shows_target o) eqn:Hs; [auto|right].
    assert (Hj : o = I_BLEZ \/ o = I_BGTZ \/ o = I_SPECIAL \/ keeps_npc (execute host i pc)).
    { destruct o; auto; try discriminate Hs; right; right; right; unfold execute; rewrite Ho; unfold u; keep_npc. }
    destruct Hj as [->|[->|[->|Hk]]]; auto; [|now apply Hk in E].
    right. right. split; [reflexivity|]. unfold execute in E. rewrite Ho in E. mon_inv.
    repeat match goal with H : get_Reg _ _ = Ok _ |- _ => apply get_Reg_state in H; subst end. assumption.
  - assert (Hk : keeps_npc (execute host i pc)) by (unfold execute; rewrite Ho; unfold u; keep_npc). now apply Hk in E.
Qed.

Lemma case_number {A} (number : A -> Z) l n o : case number l n = Some o -> number o = n.
Proof.
  unfold case. destruct (filter _ l) as [|x r] eqn:E; [discriminate|]. intros [= <-].
  assert (Hin : x ∈ filter (fun o => number o = n) l) by (rewrite E; left). now apply list_elem_of_filter in Hin as [? _].
Qed.

Lemma str_app_assoc (a b c : string) : (a ++ b) ++ c = a ++ b ++ c.
Proof. induction a as [|x a IH]; [reflexivity|]. exact (f_equal (String x) IH). Qed.

Lemma str_app_nil (a : string) : a ++ "" = a.
Proof. induction a as [|x a IH]; [reflexivity|]. exact (f_equal (String x) IH). Qed.

Lemma dump_text_target o i pc :
  normal_case (Z.land (Z.shiftr i 26) 0x3f) = Some o -> shows_target o = true -> i <> 0 ->
  exists front, dump_text i pc = front ++ hex8 (shown_target o i pc).
Proof.
  intros Ho Hs Hi. pose proof (case_number _ _ _ _ Ho) as Hn. unfold dump_text, dump_ascii. rewrite opcode_field.
  rewrite (proj2 (Z.eqb_neq i 0) Hi), <- Hn. set (head := (_ ++ tab)).
  assert (Hno : normal_operands (normal_number o) i pc tt = normal_operands (Z.land (Z.shiftr i 26) 0x3f) i pc tt) by now rewrite Hn.
  unfold normal_operands at 2 in Hno. rewrite Ho in Hno.
  destruct o; try discriminate Hs; cbn [normal_number Z.eqb Pos.eqb] in *; unfold mthen, mlift in *; cbn [shown_target].
  - rewrite R_run by apply field_reg. cbn [mreturn]. exists (head ++ bcond_name i ++ tab ++ reg_name (rs i) ++ ",").
    unfold mreturn. now rewrite !str_app_assoc.
  - change (normalops.[2]) with (Some "j"). cbn iota. rewrite Hno. unfold mreturn.
    exists (head ++ "j" ++ tab). now rewrite hex8_i32, !str_app_assoc.
  - change (normalops.[3]) with (Some "jal"). cbn iota. rewrite Hno. unfold mreturn.
    exists (head ++ "jal" ++ tab). now rewrite hex8_i32, !str_app_assoc.
  - change (normalops.[4]) with (Some "beq"). cbn iota. rewrite Hno, two_run by apply field_reg. unfold mreturn.
    exists (head ++ "beq" ++ tab ++ reg_name (rt i) ++ "," ++ reg_name (rs i) ++ ","). now rewrite !str_app_assoc.
  - change (normalops.[5]) with (Some "bne"). cbn iota. rewrite Hno, two_run by apply field_reg. unfold mreturn.
    exists (head ++ "bne" ++ tab ++ reg_name (rt i) ++ "," ++ reg_name (rs i) ++ ","). now rewrite !str_app_assoc.
Qed.

(** BLEZ and BGTZ are shown by their names, JR and JALR by their register. *)
Lemma dump_text_name o i pc :
  normal_case (Z.land (Z.shiftr i 26) 0x3f) = Some o -> o = I_BLEZ \/ o = I_BGTZ -> i <> 0 ->
  exists front, dump_text i pc = front ++ match o with I_BLEZ => "blez" | _ => "bgtz" end ++ tab.
Proof.
  intros Ho Hs Hi. pose proof (case_number _ _ _ _ Ho) as Hn. unfold dump_text, dump_ascii. rewrite opcode_field.
  rewrite (proj2 (Z.eqb_neq i 0) Hi), <- Hn. set (head := (_ ++ tab)).
  assert (Hno : normal_operands (normal_number o) i pc tt = normal_operands (Z.land (Z.shiftr i 26) 0x3f) i pc tt) by now rewrite Hn.
  unfold normal_operands at 2 in Hno. rewrite Ho in Hno. exists head.
  destruct Hs as [->| ->]; cbn [normal_number Z.eqb Pos.eqb] in *; unfold mthen, mlift in *.
  - change (normalops.[6]) with (Some "blez"). cbn iota. rewrite Hno. unfold mreturn. now rewrite str_app_nil.
  - change (normalops.[7]) with (Some "bgtz"). cbn iota. rewrite Hno. unfold mreturn. now rewrite str_app_nil.
Qed.

Lemma dump_text_register i pc :
  normal_case (Z.land (Z.shiftr i 26) 0x3f) = Some I_SPECIAL ->
  special_case (Z.land i 0x3f) = Some I_JR \/ special_case (Z.land i 0x3f) = Some I_JALR ->
  exists front, dump_text i pc = front ++ reg_name (rs i).
Proof.
  intros Ho Hs. pose proof (case_number _ _ _ _ Ho) as Hn. unfold dump_text, dump_ascii. rewrite opcode_field.
  assert (Hi : i <> 0) by (intros ->; destruct Hs; discriminate).
  rewrite (proj2 (Z.eqb_neq i 0) Hi), <- Hn. set (head := (_ ++ tab)). cbn [normal_number Z.eqb].
  assert (En : exists name, specialops.[Z.land i 0x3f] = Some name).
  { destruct Hs as [Hs|Hs]; apply case_number in Hs; cbn in Hs; rewrite <- Hs; eexists; reflexivity. }
  destruct En as [name En]. unfold mthen, mlift. rewrite En.
  assert (Eo : special_operands (Z.land i 0x3f) i tt = Ok (reg_name (rs i), tt)).
  { unfold special_operands. destruct Hs as [-> | ->]; apply R_run, field_reg. }
  rewrite Eo. unfold mreturn. exists (head ++ name ++ tab). now rewrite !str_app_assoc.
Qed.

(** * Lemmas: loading and listing a program *)

(** Memory from memoffset on starts with [file]. *)
Definition holds_program (file : list Z) (s : Interp) : Prop :=
  forall k, 0 <= k < Z.of_nat (length file) -> mem s !! k = file.[k].

Lemma load_section_run hd file s :
  s_scnptr hd <> 0 -> s_vaddr hd = memoffset -> s_size hd = Z.of_nat (length file) ->
  Z.of_nat (length file) <= MEMSIZE -> Forall is_byte file ->
  exists m, load_section hd file s = Ok (None, set_mem m s) /\ holds_program file (set_mem m s).
Proof.
  intros Hp Hv Hz Hl Hb. unfold load_section. rewrite (proj2 (Z.eqb_neq _ _) Hp). cbn [negb]. rewrite Hz, Hv.
  set (body := fun i : Z => _).
  assert (Hloop : forall rest don m, file = (don ++ rest)%list ->
    (forall k, 0 <= k < Z.of_nat (length don) -> m !! k = file.[k]) ->
    exists m', mfirst (seqZ (Z.of_nat (length don)) (Z.of_nat (length rest))) body (set_mem m s) = Ok (None, set_mem m' s) /\
      holds_program file (set_mem m' s)).
  { induction rest as [|x rest IH]; intros don m Ef Hm.
    - exists m. split; [reflexivity|]. rewrite app_nil_r in Ef. subst don. exact Hm.
    - assert (Hlen : Z.of_nat (length file) = Z.of_nat (length don) + 1 + Z.of_nat (length rest))
        by (rewrite Ef, length_app; cbn [length]; lia).
      set (i := Z.of_nat (length don)) in *. rewrite seqZ_cons by (cbn [length]; lia). cbn [mfirst].
      assert (Ex : file.[i] = Some x).
      { rewrite Ef. apply zlookup_middle. }
      pose proof (zlookup_Forall is_byte file i x Hb Ex) as Hx.
      assert (Eb : body i (set_mem m s) = Ok (None, set_mem (<[i := x]> m) s)).
      { unfold body. unfold MEMSIZE, memoffset in *. change (Z.shiftl 1 24) with 16777216 in *.
        rewrite (i32_id (0x10000000 + i)) by (unfold is_i32; lia). rewrite i32_id by (unfold is_i32; lia).
        rewrite (proj2 (Z.leb_gt _ _)) by lia. rewrite Ex. change (default (-1) (Some x)) with x.
        replace (Z.land x 0xff) with x by (change 0xff with (Z.ones 8); rewrite Z.land_ones by lia; symmetry; apply Z.mod_small; exact Hx).
        unfold put_bytes, in_mem, MEMSIZE, memoffset. cbn [length]. change (Z.shiftl 1 24) with 16777216.
        rewrite !(proj2 (Z.leb_le _ _)) by lia. cbn [andb write_bytes].
        unfold mthen, mmodify, mreturn, set_mem. cbn [mem Reg HI LO pc npc icount calls].
        replace (0x10000000 + i - 0x10000000) with i by lia. reflexivity. }
      mstep_by Eb. replace (Z.succ i) with (Z.of_nat (length (don ++ [x])%list)) by (rewrite length_app; cbn [length]; unfold i; lia).
      replace (Z.pred (Z.of_nat (length (x :: rest)))) with (Z.of_nat (length rest)) by (cbn [length]; lia).
      apply IH; [now rewrite Ef, <- app_assoc|]. intros k Hk. rewrite length_app in Hk. cbn [length] in Hk. fold i in Hk.
      destruct (decide (k = i)) as [->|Hne]; [now rewrite lookup_insert_eq|]. rewrite lookup_insert_ne by auto. apply Hm. lia. }
  destruct (Hloop file [] (mem s) eq_refl) as (m & E & Hm); [intros k Hk; cbn in Hk; lia|].
  exists m. split; [|exact Hm]. replace (set_mem (mem s) s) with s in E by now destruct s. exact E.
Qed.

Fixpoint listing (pc : Z) (words : list Z) : string :=
  match words with
  | [] => ""
  | w :: r => (dump_text (i32 w) pc ++ newline) ++ listing (i32 (pc + 4)) r
  end.

Definition program_bytes (words : list Z) : list Z := concat (le_split 4 <$> words).

Lemma program_bytes_length words : length (program_bytes words) = (4 * length words)%nat.
Proof. induction words as [|w r IH]; [reflexivity|]. cbn [program_bytes fmap list_fmap concat length] in *. unfold program_bytes in IH. rewrite length_app, IH. cbn. lia. Qed.

Lemma signed_i32 w : signed 32 (w mod 2 ^ 32) = i32 w.
Proof.
  pose proof (Z.mod_pos_bound w (2 ^ 32) ltac:(lia)). unfold signed. change (32 - 1) with 31.
  rewrite <- (i32_u32 w). unfold u32. destruct (Z.ltb_spec (w mod 2 ^ 32) (2 ^ 31)).
  - symmetry. apply i32_id. unfold is_i32. lia.
  - rewrite <- (i32_id (w mod 2 ^ 32 - 2 ^ 32)) by (unfold is_i32; lia). apply i32_congr.
    replace (w mod 2 ^ 32 - 2 ^ 32) with (w mod 2 ^ 32 + (-1) * 2 ^ 32) by lia. apply Z_mod_plus_full.
Qed.

Lemma fetch_word file s pre w post :
  holds_program file s -> file = (pre ++ le_split 4 w ++ post)%list -> Z.of_nat (length file) <= MEMSIZE ->
  fetch (memoffset + Z.of_nat (length pre)) s = Ok (i32 w, s).
Proof.
  intros Hf Ef Hl. unfold fetch, bytes_at. set (a := Z.of_nat (length pre)).
  assert (Hlen : a + 4 <= Z.of_nat (length file)) by (rewrite Ef, !length_app; cbn; lia).
  assert (Hk : forall k, 0 <= k < 4 -> default 0 (mem s !! (memoffset + a - memoffset + k)) = default 0 ((le_split 4 w).[k])).
  { intros k Hk. replace (memoffset + a - memoffset + k) with (a + k) by lia. rewrite (Hf (a + k)) by lia.
    rewrite Ef. unfold a. rewrite zlookup_app_r by lia. f_equal. apply zlookup_app_l. cbn. lia. }
  unfold mthen at 1 2, mget. unfold in_mem. rewrite !(proj2 (Z.leb_le _ _)) by lia. cbn [andb].
  change (seqZ 0 4) with [0; 1; 2; 3]. cbn [fmap list_fmap]. rewrite !Hk by lia.
  unfold mreturn. do 2 f_equal. change (le_join _) with (le_join (le_split 4 w)). rewrite le_join_split.
  apply signed_i32.
Qed.

Lemma disasm_loop words file s : holds_program file s -> Z.of_nat (length file) <= MEMSIZE ->
  forall rest don out, words = (don ++ rest)%list -> file = program_bytes words ->
  forall l : list Z, length l = length rest ->
  mfold l (i32 (memoffset + 4 * Z.of_nat (length don)), out) (fun a _ =>
    let '(pc, out) := a in let! x := dis1 pc in mreturn (i32 (pc + 4), out ++ x)) s =
  Ok ((i32 (memoffset + 4 * Z.of_nat (length words)), out ++ listing (i32 (memoffset + 4 * Z.of_nat (length don))) rest), s).
Proof.
  intros Hf Hl. induction rest as [|w rest IH]; intros don out Ew Ef l Hlen.
  - destruct l; [|discriminate]. cbn. rewrite app_nil_r in Ew. subst don. unfold mreturn. do 3 f_equal.
    clear. induction out as [|c o IH]; [reflexivity|]. exact (f_equal (String c) IH).
  - destruct l as [|y l]; [discriminate|]. cbn [mfold]. set (pc := i32 (memoffset + 4 * Z.of_nat (length don))).
    assert (Hpl : 4 * Z.of_nat (length don) + 4 <= MEMSIZE).
    { rewrite Ef, program_bytes_length, Ew, length_app in Hl. cbn [length] in Hl. lia. }
    assert (Hpc : pc = memoffset + Z.of_nat (length (program_bytes don))).
    { unfold pc. rewrite program_bytes_length, i32_id; [lia|]. unfold is_i32, memoffset, MEMSIZE in *. change (Z.shiftl 1 24) with 16777216 in *. lia. }
    assert (E : fetch pc s = Ok (i32 w, s)).
    { rewrite Hpc. apply (fetch_word file s (program_bytes don) w (program_bytes rest) Hf); [|exact Hl].
      rewrite Ef, Ew. unfold program_bytes. now rewrite fmap_app, concat_app. }
    assert (Ed : (let! x := dis1 pc in mreturn (i32 (pc + 4), out ++ x)) s =
      Ok ((i32 (pc + 4), out ++ dump_text (i32 w) pc ++ newline), s)).
    { unfold dis1, mthen. rewrite E, dump_text_run. reflexivity. }
    mstep_by Ed. cbn [length] in Hlen. injection Hlen as Hlen.
    assert (Hnext : i32 (pc + 4) = i32 (memoffset + 4 * Z.of_nat (length (don ++ [w])%list))).
    { unfold pc. rewrite length_app. cbn [length]. destruct (i32_mod (memoffset + 4 * Z.of_nat (length don))) as [c ->]. apply i32_congr.
      replace (memoffset + 4 * Z.of_nat (length don) + c * 2 ^ 32 + 4) with (memoffset + 4 * Z.of_nat (length don + 1) + c * 2 ^ 32) by lia.
      apply Z_mod_plus_full. }
    rewrite Hnext, (IH (don ++ [w])%list (out ++ dump_text (i32 w) pc ++ newline) ltac:(now rewrite Ew, <- app_assoc) Ef l Hlen).
    do 3 f_equal. cbn [listing]. fold pc. rewrite Hnext. now rewrite !str_app_assoc.
Qed.

(** * Lemmas: columns *)
Lemma column_after_app col s t : column_after col (s ++ t) = column_after (column_after col s) t.
Proof. revert col. induction s as [|c s IH]; intros col; [reflexivity|]. apply IH. Qed.

(** The column that out.c keeps is that of the text written so far. *)
Definition aligned (o : Out) : Prop := column o = column_after 1 (text o).

Lemma aligned_print s : triple aligned (myprintf s) (fun _ => aligned).
Proof. apply triple_modify. intros o Ho. unfold aligned in *. cbn. now rewrite column_after_app, <- Ho. Qed.

Fixpoint blanks (k : nat) : string := match k with O => "" | S k => " " ++ blanks k end.

Lemma mytab_run n o :
  mytab n o = Ok (column o <=? n, mkOut (Z.max n (column o)) (text o ++ blanks (Z.to_nat (n - column o)))).
Proof.
  unfold mytab. mstep_to o o. set (body := mthen mget _).
  assert (Hstep : forall k o, mwhile (S k) body o =
    if column o <? n then mwhile k body (mkOut (column o + 1) (text o ++ " ")) else Ok (tt, o)).
  { clear o. intros k o. cbn [mwhile]. unfold body, mthen, mget. destruct (column o <? n); reflexivity. }
  assert (Happ : forall s, s ++ "" = s) by (induction s as [|c s IH]; [reflexivity|exact (f_equal (String c) IH)]).
  assert (Hloop : forall k o, k = Z.to_nat (n - column o) -> mwhile (S k) body o =
    Ok (tt, mkOut (Z.max n (column o)) (text o ++ blanks k))).
  { clear o. induction k as [|k IH]; intros o Hk; rewrite Hstep.
    - rewrite (proj2 (Z.ltb_ge _ _)), Z.max_r by lia. cbn [blanks]. rewrite Happ. now destruct o.
    - rewrite (proj2 (Z.ltb_lt _ _)) by lia. rewrite IH by (cbn; lia). cbn [column text blanks]. rewrite str_app_assoc.
      do 3 f_equal. lia. }
  rewrite (mthen_step _ _ _ _ _ (Hloop _ o eq_refl)). unfold mthen, mget, mreturn. cbn [column]. do 2 f_equal.
  destruct (Z.leb_spec (column o) n); [apply Z.eqb_eq; lia|apply Z.eqb_neq; lia].
Qed.

Lemma column_blanks k col : column_after col (blanks k) = col + Z.of_nat k.
Proof. revert col. induction k as [|k IH]; intros col; [cbn; lia|].
  change (column_after col (blanks (S k))) with (column_after (col + 1) (blanks k)). rewrite IH. lia. Qed.

Lemma aligned_tab n : triple aligned (mytab n) (fun _ => aligned).
Proof.
  intros o b o' Ho. rewrite mytab_run. intros [= _ <-]. unfold aligned in *. cbn [column text].
  rewrite column_after_app, <- Ho, column_blanks. lia.
Qed.

Lemma triple_for {S X} (P : S -> Prop) (l : list X) (body : X -> M S unit) :
  (forall x, triple P (body x) (fun _ => P)) -> triple P (mfor l body) (fun _ => P).
Proof.
  intros Hb. induction l as [|x l IH]; [now apply triple_return|]. cbn [mfor].
  apply (triple_then P (fun _ => P)); [apply Hb|intros _; exact IH].
Qed.

Ltac aligned_tac :=
  repeat first
    [ apply aligned_print | apply aligned_tab | (apply triple_return; now intros) | (apply triple_for; intros ?)
    | (apply (triple_then aligned (fun _ => aligned)); [|intros ?])
    | (apply triple_lift; now intros)
    | match goal with |- triple _ (if ?b then _ else _) _ => destruct b end ].

Lemma print_reloc_aligned symbol v rs : triple aligned (print_reloc symbol v rs) (fun _ => aligned).
Proof.
  unfold print_reloc. apply (triple_then aligned (fun _ => aligned)); [|intros _; apply aligned_print].
  induction rs as [|r rs IH]; [now apply triple_return|]. cbn [print_reloc_loop]. destruct (v =? r_vaddr r); [aligned_tac|exact IH].
Qed.

Lemma print_word_aligned b w pc : triple aligned (print_word b w pc) (fun _ => aligned).
Proof.
  unfold print_word. destruct b; [|aligned_tac].
  apply (triple_then aligned (fun _ => aligned)); [|intros x; apply aligned_print].
  intros o a o' Ho. rewrite dump_text_run. intros [= _ <-]. exact Ho.
Qed.

(** * Lemmas: the logarithm *)

(** All bits of [a] lie in the block of 2^k places that has its highest one. *)
Record top_block (a L k : Z) : Prop := {
  tb_top   : Z.testbit a L = true;
  tb_above : forall j, L < j -> Z.testbit a j = false;
  tb_block : forall j, 0 <= j -> Z.testbit a j = true -> Z.shiftr j k = Z.shiftr L k
}.

Definition mask_of (mask k : Z) : Prop := forall j, 0 <= j < 32 -> Z.testbit mask j = Z.testbit j k.

Lemma mask_check mask k :
  forallb (fun j => Bool.eqb (Z.testbit mask j) (Z.testbit j k)) (seqZ 0 32) = true -> mask_of mask k.
Proof.
  intros H j Hj. rewrite forallb_forall in H. apply Bool.eqb_prop. apply H. apply list_elem_of_In, elem_of_seqZ. lia.
Qed.

Lemma shiftr_split j k : 0 <= k -> Z.shiftr j k = 2 * Z.shiftr j (k + 1) + Z.b2z (Z.testbit j k).
Proof.
  intros Hk. rewrite <- (Z.shiftr_shiftr j k 1) by lia. rewrite <- Z.div2_spec.
  replace (Z.testbit j k) with (Z.odd (Z.shiftr j k)); [apply Z.div2_odd|].
  rewrite <- Z.bit0_odd, Z.shiftr_spec by lia. f_equal.
Qed.

Lemma ilog2_step_spec mask n k a L l :
  0 <= k -> mask_of mask k -> 0 <= L < 32 -> top_block a L (k + 1) ->
  exists a', ilog2_step mask n (a, l) = (a', l + n * Z.b2z (Z.testbit L k)) /\ top_block a' L k.
Proof.
  intros Hk Hm HL [Htop Habove Hblock]. unfold ilog2_step. cbn [fst snd].
  destruct (Z.testbit L k) eqn:EL; cbn [Z.b2z].
  - assert (Hj : Z.testbit (Z.land a mask) L = true) by (rewrite Z.land_spec, Htop, Hm by lia; exact EL).
    assert (Hne : Z.land a mask <> 0) by (intros E; rewrite E, Z.bits_0 in Hj; discriminate).
    rewrite (proj2 (Z.eqb_neq _ _) Hne). exists (Z.land a mask). split; [now rewrite Z.mul_1_r|]. split; [exact Hj| |].
    + intros j H. rewrite Z.land_spec, Habove by lia. reflexivity.
    + intros j H0 Hb. rewrite Z.land_spec in Hb. apply andb_prop in Hb as [Ha Hb].
      assert (j <= L) by (destruct (Z_lt_le_dec L j); [rewrite Habove in Ha by lia; discriminate|lia]).
      rewrite Hm in Hb by lia. rewrite (shiftr_split j), (shiftr_split L), (Hblock j H0 Ha), Hb, EL by lia. reflexivity.
  - assert (Hlow : forall j, 0 <= j -> Z.testbit a j = true -> Z.testbit j k = false).
    { intros j H0 Ha. assert (j <= L) by (destruct (Z_lt_le_dec L j); [rewrite Habove in Ha by lia; discriminate|lia]).
      destruct (Z.testbit j k) eqn:Ej; [exfalso|reflexivity].
      pose proof (shiftr_split j k Hk) as Ej'. pose proof (shiftr_split L k Hk) as EL'.
      rewrite (Hblock j H0 Ha), Ej in Ej'. rewrite EL in EL'. cbn [Z.b2z] in *.
      assert (Z.shiftr j k <= Z.shiftr L k) by (rewrite !Z.shiftr_div_pow2 by lia; apply Z.div_le_mono; lia). lia. }
    assert (Hz : Z.land a mask = 0).
    { apply Z.bits_inj'. intros j H0. rewrite Z.land_spec, Z.bits_0. destruct (Z.testbit a j) eqn:Ha; [|reflexivity].
      assert (j <= L) by (destruct (Z_lt_le_dec L j); [rewrite Habove in Ha by lia; discriminate|lia]).
      rewrite Hm by lia. now apply Hlow. }
    rewrite Hz. cbn [Z.eqb negb]. exists a. split; [now rewrite Z.mul_0_r, Z.add_0_r|]. split; [exact Htop|exact Habove|].
    intros j H0 Ha. now rewrite (shiftr_split j), (shiftr_split L), (Hblock j H0 Ha), (Hlow j H0 Ha), EL by lia.
Qed.

(** ilog2 is the number of bits of the word: the table in its comment (2 gives
    1, 9 gives 3) is another function. *)
Theorem ilog2_bits i : is_i32 i -> i <> 0 -> ilog2 i = Z.log2 (u32 i) + 1.
Proof.
  intros Hi Hne. unfold ilog2. rewrite (proj2 (Z.eqb_neq _ _) Hne). pose proof (u32_range i) as Hu.
  assert (Hpos : 0 < u32 i).
  { destruct (Z_lt_le_dec i 0) as [Hn|Hp]; [rewrite i32_neg_u32 by assumption; unfold is_i32 in Hi; lia|].
    rewrite i32_nonneg_u32 by assumption. lia. }
  set (L := Z.log2 (u32 i)). assert (HL : 0 <= L < 32).
  { split; [apply Z.log2_nonneg|]. apply Z.log2_lt_pow2; lia. }
  assert (H5 : top_block (u32 i) L (4 + 1)).
  { split.
    - now apply Z.bit_log2.
    - intros j Hj. apply Z.bits_above_log2; [lia|exact Hj].
    - intros j Hj Hb. assert (j < 32).
      { destruct (Z_lt_le_dec j 32); [assumption|]. rewrite (Z.bits_above_log2 (u32 i) j) in Hb by (fold L; lia). discriminate. }
      rewrite !Z.shiftr_div_pow2 by lia. change (2 ^ (4 + 1)) with 32. rewrite !Z.div_small by lia. reflexivity. }
  destruct (ilog2_step_spec 0xffff0000 16 4 (u32 i) L 1) as (a4 & -> & H4); [lia|now apply mask_check|exact HL|exact H5|].
  destruct (ilog2_step_spec 0xff00ff00 8 3 a4 L (1 + 16 * Z.b2z (Z.testbit L 4))) as (a3 & -> & H3); [lia|now apply mask_check|exact HL|exact H4|].
  match goal with |- context [ilog2_step 0xf0f0f0f0 4 (a3, ?l)] =>
    destruct (ilog2_step_spec 0xf0f0f0f0 4 2 a3 L l) as (a2 & -> & H2); [lia|now apply mask_check|exact HL|exact H3|] end.
  match goal with |- context [ilog2_step 0xcccccccc 2 (a2, ?l)] =>
    destruct (ilog2_step_spec 0xcccccccc 2 1 a2 L l) as (a1 & -> & H1); [lia|now apply mask_check|exact HL|exact H2|] end.
  match goal with |- context [ilog2_step 0xaaaaaaaa 1 (a1, ?l)] =>
    destruct (ilog2_step_spec 0xaaaaaaaa 1 0 a1 L l) as (a0 & -> & _); [lia|now apply mask_check|exact HL|exact H1|] end.
  cbn [snd]. assert (Hc : L ∈ seqZ 0 32) by (apply elem_of_seqZ; lia). clearbody L. clear -Hc. cbn in Hc.
  repeat (apply elem_of_cons in Hc as [->|Hc]; [reflexivity|]). inversion Hc.
Qed.

(** * Properties *)

(** What the end of a line tells of the address [dest] that the program goes to
    from [s]: the address itself, in eight hexadecimal digits that read back as
    its value; for JR and JALR the name of the register that holds it; for BLEZ
    and BGTZ, which d.c forgets, nothing but the name. *)
Definition tells (i : Z) (s : Interp) (dest : Z) (t : string) : Prop :=
  match normal_case (Z.land (Z.shiftr i 26) 0x3f) with
  | Some I_BLEZ => t = "blez" ++ tab
  | Some I_BGTZ => t = "bgtz" ++ tab
  | Some I_SPECIAL => t = reg_name (rs i) /\ (Reg s).[rs i] = Some dest
  | _ => t = hex8 dest /\ unhex 0 t = u32 dest
  end.

(** C35: The disassembler shows where the program goes.  Whatever word the
    interpreter executes, if this changes the next program counter, then the
    line of the disassembler ends with that address for J, JAL, BEQ, BNE and the
    branches of opcode 1, with the register that holds it for JR and JALR, and
    with no target at all for BLEZ and BGTZ; no other instruction changes it. *)
Theorem dump_shows_target host i pc s s' :
  execute host i pc s = Ok (None, s') -> npc s' <> npc s ->
  exists front t, dump_ascii true i pc s = Ok (front ++ t, s) /\ tells i s (npc s') t.
Proof.
  intros E Hn. destruct (moves_opcode host i pc s s' E Hn) as (o & Ho & Hcase). unfold tells. rewrite Ho, dump_text_run.
  assert (Hi : o <> I_SPECIAL -> i <> 0) by (intros Hne ->; now injection Ho as <-).
  destruct Hcase as [Hs|[->|[->|[-> Es]]]].
  - destruct (dump_text_target o i pc Ho Hs) as [front Ef]; [apply Hi; now intros ->|].
    exists front, (hex8 (npc s')). rewrite Ef, (execute_moves host o i pc s s' Ho Hs E Hn). split; [reflexivity|].
    pose proof (unhex_hex8 (shown_target o i pc)). destruct o; discriminate || auto.
  - destruct (dump_text_name I_BLEZ i pc Ho) as [front Ef]; [auto|now apply Hi|]. exists front. eexists. now rewrite Ef.
  - destruct (dump_text_name I_BGTZ i pc Ho) as [front Ef]; [auto|now apply Hi|]. exists front. eexists. now rewrite Ef.
  - destruct (special_moves host i pc s s' Es Hn) as [Hj Hr].
    destruct (dump_text_register i pc Ho Hj) as [front Ef]. exists front, (reg_name (rs i)). now rewrite Ef.
Qed.

(** A program that is loaded is listed.  Loading a text section of whole
    instructions at the start of memory, as long as it fits, comes back
    normally, and the disassembler then shows its words in order, each at its
    address. *)
Theorem disasm_lists_program hd words s :
  s_scnptr hd <> 0 -> s_vaddr hd = memoffset -> s_size hd = 4 * Z.of_nat (length words) -> s_size hd <= MEMSIZE ->
  exists s', load_section hd (program_bytes words) s = Ok (None, s') /\
    disasm hd s' = Ok (listing memoffset words, s').
Proof.
  intros Hp Hv Hz Hm. pose proof (program_bytes_length words) as Hl.
  assert (Hb : Forall is_byte (program_bytes words)).
  { apply Forall_concat, Forall_fmap, Forall_forall. intros w _. apply le_split_bytes. }
  destruct (load_section_run hd (program_bytes words) s Hp Hv) as (m & E & Hh); [lia..|exact Hb|].
  exists (set_mem m s). split; [exact E|]. unfold disasm. rewrite Hz.
  replace (divRoundUp (Z.max 0 (4 * Z.of_nat (length words))) 4) with (Z.of_nat (length words)).
  2: { unfold divRoundUp. rewrite Z.max_r, Z.mul_comm, Z.quot_mul, Z.rem_mul by lia. cbn. lia. }
  pose proof (disasm_loop words (program_bytes words) (set_mem m s) Hh ltac:(lia) words [] "" eq_refl eq_refl
    (seqZ 0 (Z.of_nat (length words))) ltac:(rewrite length_seqZ; lia)) as EL.
  change (i32 (memoffset + 4 * Z.of_nat (length []))) with memoffset in EL. rewrite (mthen_step _ _ _ _ _ EL). reflexivity.
Qed.

(** The columns of out.c: printing a section keeps the column in step with the
    text, a tabulator goes to the next of the columns 1, 9, 17, ..., and mytab
    pads with blanks and reports whether the column was still free. *)
Theorem out_columns symbol name hd data relocs n o col :
  triple aligned (print_section symbol name hd data relocs) (fun _ => aligned) /\
  (1 <= col -> let col' := advance col (ascii_of_nat 9) in col < col' <= col + 8 /\ col' mod 8 = 1) /\
  mytab n o = Ok (column o <=? n, mkOut (Z.max n (column o)) (text o ++ blanks (Z.to_nat (n - column o)))).
Proof.
  split; [|split; [|apply mytab_run]].
  - unfold print_section. apply (triple_then aligned (fun _ => aligned)); [apply aligned_print|intros _].
    apply triple_for. intros j. apply (triple_then aligned (fun _ => aligned)); [apply triple_lift; now intros|intros w].
    apply (triple_then aligned (fun _ => aligned)); [apply print_word_aligned|intros _; apply print_reloc_aligned].
  - intros Hc. change (advance col (ascii_of_nat 9)) with (Z.land (col + 7) (Z.lnot 7) + 1). cbv zeta.
    replace (Z.land (col + 7) (Z.lnot 7)) with (8 * ((col + 7) / 8)).
    + pose proof (Z.div_mod (col + 7) 8 ltac:(lia)). pose proof (Z.mod_pos_bound (col + 7) 8 ltac:(lia)). split; [lia|].
      replace (8 * ((col + 7) / 8) + 1) with (1 + (col + 7) / 8 * 8) by lia. now rewrite Z_mod_plus_full.
    + change (Z.lnot 7) with (Z.lnot (Z.ones 3)). rewrite <- Z.ldiff_land, Z.ldiff_ones_r, Z.shiftr_div_pow2, Z.shiftl_mul_pow2 by lia.
      change (2 ^ 3) with 8. lia.
Qed.

(** The names of opstrings.c stand at the numbers of encode.h: an opcode that
    encode.h leaves out has its number, in octal, as its name. *)
Theorem opstrings_numbers :
  length normalops = 64%nat /\ length specialops = 64%nat /\
  (fun o => normalops.[normal_number o]) <$> [I_BEQ; I_LUI; I_COP3; I_LB; I_LWR; I_SB; I_SW; I_SWR; I_SWC3] =
    [Some "beq"; Some "lui"; Some "cop3"; Some "lb"; Some "lwr"; Some "sb"; Some "sw"; Some "swr"; Some "swc3"] /\
  (forall n x, 0 <= n < 64 -> normal_case n = None -> normalops.[n] = Some x ->
     x = "0" ++ dec_digit (n / 8) ++ dec_digit (n mod 8)) /\
  (forall n x, 0 <= n < 64 -> special_case n = None -> specialops.[n] = Some x ->
     x = "0" ++ dec_digit (n / 8) ++ dec_digit (n mod 8)).
Proof.
  do 3 (split; [reflexivity|]). split; intros n x Hn Hc Hx.
  - assert (Hi : n ∈ seqZ 0 64) by (apply elem_of_seqZ; lia). cbn in Hi.
    repeat (apply elem_of_cons in Hi as [->|Hi]; [first [discriminate Hc|now injection Hx]|]). inversion Hi.
  - assert (Hi : n ∈ seqZ 0 64) by (apply elem_of_seqZ; lia). cbn in Hi.
    repeat (apply elem_of_cons in Hi as [->|Hi]; [first [discriminate Hc|now injection Hx]|]). inversion Hi.
Qed.

(** * Concrete runs: a jump, and a listing of two instructions *)
Definition blank_interp : Interp := mkInterp (replicate 32 0) 0 0 ∅ 0 0 0 0.
Definition no_host : nat -> Z -> list Z -> gmap Z Z -> Z * gmap Z Z := fun _ _ _ m => (0, m).

Lemma dump_shows_target_witness : exists s' front t,
  execute no_host 0x08000010 memoffset blank_interp = Ok (None, s') /\ npc s' = 0x10000040 /\
  dump_ascii true 0x08000010 memoffset blank_interp = Ok (front ++ t, blank_interp) /\ t = "10000040".
Proof.
  assert (E : execute no_host 0x08000010 memoffset blank_interp = Ok (None, set_npc 0x10000040 blank_interp)) by reflexivity.
  destruct (dump_shows_target no_host 0x08000010 memoffset blank_interp _ E) as (front & t & Ed & Ht & _); [discriminate|].
  exists (set_npc 0x10000040 blank_interp), front, t. split; [exact E|]. split; [reflexivity|]. split; [exact Ed|exact Ht].
Defined.

Lemma disasm_lists_program_witness : exists s',
  disasm (mkSectionHeader memoffset 8 100) s' =
    Ok (listing memoffset [0; 0x08000010], s').
Proof.
  destruct (disasm_lists_program (mkSectionHeader memoffset 8 100) [0; 0x08000010] blank_interp) as (s' & _ & E);
    [discriminate|reflexivity|reflexivity|discriminate|]. exists s'. exact E.
Defined.
