(* ===== verification/AddrSpace.v ===== *)
(** userprog/addrspace.{h,cc} and bin/noff.h: loading a user program, and the
    part of StartProcess (userprog/progtest.cc) before machine->Run.

    The constructor copies the code and then the initialised data of a NOFF
    file, byte by byte through [mainMemory[0]], to the start of the machine's
    swap file; the paging of Machine.v brings them into memory later.  The
    state of a load is the machine and the open executable, which is another
    file than the swap file.  [junk] is what the stack holds where the header
    is read to: a file shorter than a header leaves its end there. *)
From Stdlib Require Import ZArith Lia.
From stdpp Require Import base option list list_numbers.
From S2P Require Import Prelude Stats BitMap HostFile Machine Paging.

Local Open Scope Z_scope.

Definition NOFFMAGIC : Z := 12246957.
Definition UserStackSize : Z := 1024.

Record Segment := mkSegment {
  virtualAddr : Z;
  inFileAddr  : Z;
  size        : Z
}.

Record NoffHeader := mkNoffHeader {
  noffMagic  : Z;
  code       : Segment;
  initData   : Segment;
  uninitData : Segment
}.

(** The header as it lies in memory: ten ints. *)
Definition sizeof_NoffHeader : Z := 40.
Definition word_at (bs : list Z) (i : Z) : Z := i32 (le_join (slice bs (4 * i) 4)).
Definition segment_at (bs : list Z) (i : Z) : Segment :=
  mkSegment (word_at bs i) (word_at bs (i + 1)) (word_at bs (i + 2)).
Definition header_of (bs : list Z) : NoffHeader :=
  mkNoffHeader (word_at bs 0) (segment_at bs 1) (segment_at bs 4) (segment_at bs 7).

Definition swap_segment (g : Segment) : Segment :=
  mkSegment (WordToHost (virtualAddr g)) (WordToHost (inFileAddr g)) (WordToHost (size g)).
Definition SwapHeader (noffH : NoffHeader) : NoffHeader :=
  mkNoffHeader (WordToHost (noffMagic noffH)) (swap_segment (code noffH))
    (swap_segment (initData noffH)) (swap_segment (uninitData noffH)).

(** The address space; its page table is never allocated. *)
Record AddrSpace := mkAddrSpace {
  numPages : Z
}.

Record Loading := mkLoading {
  ld_machine    : Machine;
  ld_executable : StubOpenFile
}.

Definition on_machine {A} (m : M Machine A) : M Loading A := fun l =>
  match m (ld_machine l) with
  | Ok (a, s) => Ok (a, mkLoading s (ld_executable l))
  | Err f => Err f
  end.
Definition on_executable {A} (m : M StubOpenFile A) : M Loading A := fun l =>
  match m (ld_executable l) with
  | Ok (a, o) => Ok (a, mkLoading (ld_machine l) o)
  | Err f => Err f
  end.

(** One turn of the copy loops; at end of file [mainMemory[0]] keeps its value. *)
Definition copy_byte (pos diskPos : Z) : M Loading unit :=
  let! bs := on_executable (Stub_ReadAt 1 pos) in
  on_machine (
    let! s := mget in
    let! m := mlift (store (mainMemory s) 0 bs) in
    mmodify (set_mainMemory m) >>>
    let! b := mlift (load m 0 1) in
    with_disk (Stub_WriteAt b diskPos)) >>>
  mreturn tt.

(** Copy a segment to the swap file at [diskPos]; the position behind it. *)
Definition copy_segment (g : Segment) (diskPos : Z) : M Loading Z :=
  if 0 <? size g then
    let! p := mfold (seqZ 0 (size g)) (inFileAddr g, diskPos) (fun p _ =>
      let '(pos, diskPos) := p in
      copy_byte pos diskPos >>> mreturn (i32 (pos + 1), i32 (diskPos + 1))) in
    mreturn (snd p)
  else mreturn diskPos.

Definition AddrSpace_AddrSpace (junk : list Z) : M Loading AddrSpace :=
  let! bs := on_executable (Stub_ReadAt sizeof_NoffHeader 0) in
  let noffH := header_of (splice junk 0 bs) in
  let noffH := if negb (noffMagic noffH =? NOFFMAGIC) && (WordToHost (noffMagic noffH) =? NOFFMAGIC)
               then SwapHeader noffH else noffH in
  ASSERT (noffMagic noffH =? NOFFMAGIC) >>>
  let sz := u32 (size (code noffH) + size (initData noffH) + size (uninitData noffH)
                 + UserStackSize) in
  let space := mkAddrSpace (divRoundUp sz PageSize) in
  let! diskPos := copy_segment (code noffH) 0 in
  let! _ := copy_segment (initData noffH) diskPos in
  mreturn space.

Definition InitRegisters (space : AddrSpace) : M Machine unit :=
  mfor (seqZ 0 NumTotalRegs) (fun i => WriteRegister i 0) >>>
  WriteRegister PCReg 0 >>>
  WriteRegister NextPCReg 4 >>>
  WriteRegister StackReg (i32 (u32 (numPages space * PageSize - 16))).

Definition SaveState (space : AddrSpace) : M Machine unit := mreturn tt.
Definition RestoreState (space : AddrSpace) : M Machine unit := mreturn tt.

(** StartProcess up to machine->Run, once the executable is open. *)
Definition StartProcess (junk : list Z) : M Loading AddrSpace :=
  let! space := AddrSpace_AddrSpace junk in
  on_machine (InitRegisters space) >>>
  on_machine (RestoreState space) >>>
  mreturn space.

(** * Specification: the image of a program *)

(** The bytes of a segment in the executable. *)
Definition segment_bytes (file : list Z) (g : Segment) : list Z :=
  slice file (inFileAddr g) (size g).

(** What the loader is given: a file with a header, and segments inside it. *)
Record segment_ok (file : list Z) (g : Segment) : Prop := {
  sg_addr : 0 < size g -> 0 <= inFileAddr g;
  sg_file : 0 < size g -> inFileAddr g + size g <= Z.of_nat (length file);
  sg_size : 0 <= size g
}.
Record noff_ok (file : list Z) (h : NoffHeader) : Prop := {
  no_length : sizeof_NoffHeader <= Z.of_nat (length file) < 2 ^ 31;
  no_header : h = header_of (slice file 0 sizeof_NoffHeader);
  no_magic  : noffMagic h = NOFFMAGIC;
  no_code   : segment_ok file (code h);
  no_data   : segment_ok file (initData h);
  no_bss    : 0 <= size (uninitData h);
  no_bytes  : Forall is_byte file;
  no_space  : size (code h) + size (initData h) + size (uninitData h) + UserStackSize <= 2 ^ 31 - PageSize
}.
Definition image (file : list Z) (h : NoffHeader) : list Z :=
  segment_bytes file (code h) ++ segment_bytes file (initData h).
Definition executable_bytes (l : Loading) : list Z := contents (stub_file (ld_executable l)).

(** The bounce byte: what [mainMemory[0]] holds after the bytes [bs] went
    through it. *)
Definition bounced (m bs : list Z) : list Z :=
  match last bs with Some b => <[0%nat := b]> m | None => m end.

(** A machine that has sent [bs] through the bounce byte to swap position [p]. *)
Record sent (bs : list Z) (p : Z) (l l' : Loading) : Prop := {
  se_file : executable_bytes l' = executable_bytes l;
  se_rest : exists d, ld_machine l' =
              set_disk (Some d) (set_mainMemory (bounced (mainMemory (ld_machine l)) bs) (ld_machine l)) /\
              contents (stub_file d) = written (swap_bytes (ld_machine l)) p bs
}.

Section copy_lemmas.
Implicit Types (l : Loading) (s : Machine).

Lemma written_app c p xs ys :
  0 <= p ->
  written (written c p xs) (p + Z.of_nat (length xs)) ys = written c p (xs ++ ys).
Proof.
  intros Hp. destruct xs as [|x xs]; [cbn [length app written]; now rewrite Z.add_0_r|].
  destruct ys as [|y ys]; [now rewrite app_nil_r|].
  assert (HL : Z.of_nat (length (written (written c p (x :: xs)) (p + Z.of_nat (length (x :: xs))) (y :: ys))) =
               Z.of_nat (length (written c p ((x :: xs) ++ y :: ys)))).
  { rewrite !length_written, length_app by (try discriminate; lia). cbn [length]. lia. }
  apply zlookup_ext; [lia|]. intros i Hi.
  rewrite (zlookup_written _ _ (y :: ys)), (zlookup_written c p ((x :: xs) ++ _)), (zlookup_written c p (x :: xs)),
    length_written, length_app by (try discriminate; lia).
  unfold zlookup. repeat case_decide; try lia; try reflexivity.
  all: repeat match goal with |- context [0 <=? ?a] => destruct (Z.leb_spec 0 a); [|lia] end.
  - rewrite lookup_app_r by lia. f_equal. lia.
  - rewrite lookup_app_l by lia. reflexivity.
Qed.

Lemma bounced_app m xs ys : bounced (bounced m xs) ys = bounced m (xs ++ ys).
Proof.
  unfold bounced. rewrite last_app. destruct (last ys); [|reflexivity].
  destruct (last xs); [|reflexivity]. apply list_insert_insert_eq.
Qed.

Lemma sent_nil p l : is_Some (disk (ld_machine l)) -> sent [] p l l.
Proof.
  intros [d Hd]. split; [reflexivity|]. exists d. unfold bounced, swap_bytes. cbn. rewrite Hd.
  split; [|reflexivity]. destruct (ld_machine l). cbn in *. now subst.
Qed.

Lemma sent_trans xs ys p l1 l2 l3 :
  0 <= p -> sent xs p l1 l2 -> sent ys (p + Z.of_nat (length xs)) l2 l3 -> sent (xs ++ ys) p l1 l3.
Proof.
  intros Hp [F1 (d1 & E1 & W1)] [F2 (d2 & E2 & W2)]. split; [congruence|]. exists d2. split.
  - rewrite E2, E1. cbn [set_disk set_mainMemory mainMemory]. now rewrite bounced_app.
  - rewrite W2, E1. unfold swap_bytes at 1. cbn [disk set_disk]. rewrite W1. now apply written_app.
Qed.

Lemma sent_wf bs p l l' :
  sent bs p l l' -> mainMemory (ld_machine l) <> [] ->
  mainMemory (ld_machine l') <> [] /\ is_Some (disk (ld_machine l')).
Proof.
  intros [_ (d & -> & _)] Hm. cbn. split; [|eauto]. unfold bounced.
  destruct (last bs); [|exact Hm]. destruct (mainMemory _); [contradiction|discriminate].
Qed.

Lemma copy_byte_ok l pos p b :
  (executable_bytes l).[pos] = Some b -> 0 <= p ->
  mainMemory (ld_machine l) <> [] -> is_Some (disk (ld_machine l)) ->
  exists l', copy_byte pos p l = Ok (tt, l') /\ sent [b] p l l'.
Proof.
  intros Hb Hp Hm [d Hd]. destruct l as [s o]. unfold executable_bytes in Hb. cbn [ld_machine ld_executable] in *.
  assert (Hpos : 0 <= pos) by (apply zlookup_Some in Hb; lia).
  destruct (Stub_ReadAt_ok 1 pos o Hpos) as (o' & Er & Ec & _).
  destruct (Stub_WriteAt_ok [b] p d Hp) as (d' & Ew & Ew' & _).
  assert (Hs : slice (contents (stub_file o)) pos 1 = [b]).
  { apply zlookup_Some in Hb as [Hl Hb]. unfold slice. erewrite drop_S by exact Hb. reflexivity. }
  destruct (mainMemory s) as [|m0 m] eqn:Em; [contradiction|].
  exists (mkLoading (set_disk (Some d') (set_mainMemory (b :: m) s)) o'). split.
  - unfold copy_byte, mthen at 1, on_executable. cbn [ld_executable]. rewrite Er, Hs. cbn [ld_machine].
    unfold on_machine, mthen, mget. cbn [ld_machine ld_executable]. rewrite Em, store_ok by (cbn [length]; lia).
    change (splice (m0 :: m) 0 [b]) with (b :: m). unfold mlift, mmodify.
    rewrite load_ok by (cbn [length]; lia). change (slice (b :: m) 0 1) with [b].
    unfold with_disk. cbn [disk set_mainMemory]. rewrite Hd, Ew. reflexivity.
  - split; [exact Ec|]. exists d'. unfold bounced, swap_bytes. cbn [ld_machine last]. rewrite Em, Hd. auto.
Qed.

(** The copy loop sends a block of the executable. *)
Lemma copy_loop_ok n : forall l pos p,
  0 <= pos -> 0 <= p -> pos + Z.of_nat n <= Z.of_nat (length (executable_bytes l)) ->
  pos + Z.of_nat n < 2 ^ 31 -> p + Z.of_nat n < 2 ^ 31 ->
  mainMemory (ld_machine l) <> [] -> is_Some (disk (ld_machine l)) ->
  forall j, exists l',
    mfold (seqZ j (Z.of_nat n)) (pos, p) (fun p _ =>
      let '(pos, diskPos) := p in
      copy_byte pos diskPos >>> mreturn (i32 (pos + 1), i32 (diskPos + 1))) l =
      Ok ((pos + Z.of_nat n, p + Z.of_nat n), l') /\
    sent (slice (executable_bytes l) pos (Z.of_nat n)) p l l'.
Proof.
  induction n as [|n IH]; intros l pos p Hpos Hp Hf H1 H2 Hm Hd j.
  { exists l. rewrite !Z.add_0_r. split; [reflexivity|]. now apply sent_nil. }
  destruct (zlookup_lt (executable_bytes l) pos) as [b Hb]; [lia|].
  destruct (copy_byte_ok l pos p b Hb Hp Hm Hd) as (l1 & E1 & S1).
  destruct (sent_wf _ _ _ _ S1 Hm) as [Hm1 Hd1]. pose proof (se_file _ _ _ _ S1) as Ef.
  destruct (IH l1 (pos + 1) (p + 1)) with (j := Z.succ j) as (l2 & E2 & S2); rewrite ?Ef; try lia; auto.
  exists l2. rewrite seqZ_cons by lia. cbn [mfold]. split.
  - rewrite (mthen_step _ _ _ (pos + 1, p + 1) l1).
    + replace (Z.pred (Z.of_nat (S n))) with (Z.of_nat n) by lia. rewrite E2. do 2 f_equal. f_equal; lia.
    + mstep_by E1. unfold mreturn. now rewrite !i32_id by (unfold is_i32; lia).
  - rewrite Ef in S2.
    replace (slice (executable_bytes l) pos (Z.of_nat (S n)))
      with ([b] ++ slice (executable_bytes l) (pos + 1) (Z.of_nat n)).
    + apply (sent_trans _ _ p l l1 l2 Hp S1). exact S2.
    + unfold slice. rewrite !Nat2Z.id. apply zlookup_Some in Hb as [_ Hb]. rewrite (drop_S _ _ _ Hb).
      cbn [take app]. do 3 f_equal. lia.
Qed.

Lemma length_segment_bytes file g : segment_ok file g -> Z.of_nat (length (segment_bytes file g)) = size g.
Proof.
  intros [H1 H2 H3]. unfold segment_bytes. destruct (Z.ltb_spec 0 (size g)) as [Hs|].
  - apply length_slice; auto.
  - replace (size g) with 0 by lia. reflexivity.
Qed.

Lemma copy_segment_ok l g p :
  segment_ok (executable_bytes l) g -> 0 <= p -> Z.of_nat (length (executable_bytes l)) < 2 ^ 31 ->
  p + size g < 2 ^ 31 -> mainMemory (ld_machine l) <> [] -> is_Some (disk (ld_machine l)) ->
  exists l', copy_segment g p l = Ok (p + size g, l') /\
    sent (segment_bytes (executable_bytes l) g) p l l'.
Proof.
  intros [Ha Hf Hs] Hp Hl Hb Hm Hd. unfold copy_segment, segment_bytes. destruct (Z.ltb_spec 0 (size g)).
  - destruct (copy_loop_ok (Z.to_nat (size g)) l (inFileAddr g) p) with (j := 0) as (l' & E & S);
      rewrite ?Z2Nat.id in * by lia; auto; try lia.
    exists l'. split; [|exact S]. mstep_by E. reflexivity.
  - exists l. replace (size g) with 0 by lia. rewrite Z.add_0_r. split; [reflexivity|]. now apply sent_nil.
Qed.
End copy_lemmas.

(** * The register set of a new program *)
Section register_init.
Implicit Types s : Machine.

Lemma WriteRegister_ok s i v :
  Z.of_nat (length (registers s)) = NumTotalRegs -> 0 <= i < NumTotalRegs ->
  WriteRegister i v s = Ok (tt, set_registers (<[Z.to_nat i := v]> (registers s)) s).
Proof.
  intros Hl Hi. unfold WriteRegister, ASSERT, mthen.
  rewrite (proj2 (Z.leb_le 0 i)), (proj2 (Z.ltb_lt i _)) by lia. cbn [andb].
  unfold set_reg. mstep_to s s. rewrite zupd_lt by lia. reflexivity.
Qed.

Lemma clear_registers s :
  Z.of_nat (length (registers s)) = NumTotalRegs ->
  mfor (seqZ 0 NumTotalRegs) (fun i => WriteRegister i 0) s =
    Ok (tt, set_registers (replicate (Z.to_nat NumTotalRegs) 0) s).
Proof.
  intros Hl.
  destruct (mfor_rule (fun r s1 => exists k, 0 <= k <= NumTotalRegs /\ r = seqZ k (NumTotalRegs - k) /\
      s1 = set_registers (replicate (Z.to_nat k) 0 ++ drop (Z.to_nat k) (registers s)) s)
    (fun i => WriteRegister i 0)) with (l := seqZ 0 NumTotalRegs) (s := s) as (s1 & E & k & Hk & Hr & ->).
  - intros i r s1 (k & Hk & Hr & ->).
    assert (Hlt : k < NumTotalRegs).
    { destruct (Z.eq_dec k NumTotalRegs) as [->|]; [rewrite Z.sub_diag in Hr; discriminate|lia]. }
    rewrite seqZ_cons in Hr by lia. injection Hr as -> ->.
    destruct (zlookup_lt (registers s) k) as [v Hv]; [lia|]. apply zlookup_Some in Hv as [_ Hv].
    eexists. split.
    + apply WriteRegister_ok; cbn [registers set_registers]; [|lia].
      rewrite length_app, length_replicate, length_drop. lia.
    + exists (Z.succ k). repeat split; try lia; [f_equal; lia|].
      cbn [registers set_registers]. unfold set_registers. cbn. f_equal.
      rewrite insert_app_r_alt, length_replicate, Nat.sub_diag, (drop_S _ _ _ Hv)
        by (rewrite length_replicate; lia).
      replace (Z.to_nat (Z.succ k)) with (S (Z.to_nat k)) by lia.
      rewrite replicate_S_end, <- app_assoc. reflexivity.
  - exists 0. split; [unfold NumTotalRegs; lia|]. split; [reflexivity|]. cbn. now destruct s.
  - rewrite E. assert (k = NumTotalRegs) as ->.
    { destruct (Z.eq_dec k NumTotalRegs); [assumption|]. rewrite seqZ_cons in Hr by lia. discriminate. }
    rewrite drop_ge by lia. now rewrite app_nil_r.
Qed.

(** The registers a program starts with. *)
Definition initial_registers (sp : Z) : list Z :=
  <[Z.to_nat StackReg := sp]> (<[Z.to_nat NextPCReg := 4]> (replicate (Z.to_nat NumTotalRegs) 0)).

Lemma InitRegisters_ok s space :
  Z.of_nat (length (registers s)) = NumTotalRegs ->
  InitRegisters space s =
    Ok (tt, set_registers (initial_registers (i32 (u32 (numPages space * PageSize - 16)))) s).
Proof.
  intros Hl. unfold InitRegisters. mstep_by (clear_registers s Hl).
  do 2 (erewrite mthen_step by (apply WriteRegister_ok; [reflexivity|unfold PCReg, NextPCReg, NumTotalRegs; lia])).
  rewrite WriteRegister_ok; [reflexivity|reflexivity|unfold StackReg, NumTotalRegs; lia].
Qed.
End register_init.

(** * Loading *)
Section load_lemmas.
Implicit Types (l : Loading) (s : Machine).

(** Whatever the stack held, a full header is read from the file. *)
Lemma header_of_splice junk bs :
  Z.of_nat (length bs) = sizeof_NoffHeader -> header_of (splice junk 0 bs) = header_of bs.
Proof.
  unfold sizeof_NoffHeader. intros Hl. change (splice junk 0 bs) with (bs ++ drop (0 + length bs) junk).
  assert (Hw : forall t i, 0 <= i < 10 -> word_at (bs ++ t) i = word_at bs i).
  { intros t i Hi. unfold word_at, slice. do 2 f_equal.
    rewrite drop_app_le, take_app_le by (rewrite ?length_drop; lia). reflexivity. }
  unfold header_of, segment_at. now rewrite !Hw by lia.
Qed.

Lemma AddrSpace_loads l file h junk :
  noff_ok file h -> executable_bytes l = file ->
  mainMemory (ld_machine l) <> [] -> is_Some (disk (ld_machine l)) ->
  exists l', AddrSpace_AddrSpace junk l =
      Ok (mkAddrSpace (divRoundUp (size (code h) + size (initData h) + size (uninitData h) + UserStackSize)
                         PageSize), l') /\
    sent (image file h) 0 l l'.
Proof.
  intros [Hlen Hh Hmag Hc Hd Hb _ Hsp] <- Hm Hdisk. unfold PageSize, UserStackSize in Hsp.
  destruct (Stub_ReadAt_ok sizeof_NoffHeader 0 (ld_executable l)) as (o & Er & Ec & _); [lia|].
  set (l0 := mkLoading (ld_machine l) o).
  assert (Ef : executable_bytes l0 = executable_bytes l) by exact Ec.
  pose proof (sg_size _ _ Hc). pose proof (sg_size _ _ Hd).
  destruct (copy_segment_ok l0 (code h) 0) as (l1 & E1 & S1); rewrite ?Ef; auto; try lia.
  destruct (sent_wf _ _ _ _ S1 Hm) as [Hm1 Hd1]. pose proof (se_file _ _ _ _ S1) as Ef1.
  destruct (copy_segment_ok l1 (initData h) (0 + size (code h))) as (l2 & E2 & S2);
    rewrite ?Ef1, ?Ef; auto; try lia.
  exists l2. split.
  - unfold AddrSpace_AddrSpace. rewrite (mthen_step _ _ _ (slice (executable_bytes l) 0 sizeof_NoffHeader) l0)
      by (unfold on_executable; now rewrite Er).
    rewrite header_of_splice, <- Hh by (apply length_slice; unfold sizeof_NoffHeader in *; lia).
    rewrite Hmag. cbn [negb Z.eqb Pos.eqb andb NOFFMAGIC]. rewrite Hmag.
    mstep_to tt l0. mstep_by E1. mstep_by E2. unfold mreturn.
    rewrite u32_id by (unfold UserStackSize; lia). reflexivity.
  - rewrite Ef1, Ef in *. unfold image. assert (S1' : sent (segment_bytes (executable_bytes l) (code h)) 0 l l1).
    { destruct S1 as [F R]. split; [now rewrite F|exact R]. }
    apply (sent_trans _ _ 0 _ _ _ ltac:(lia) S1'). rewrite length_segment_bytes by exact Hc. exact S2.
Qed.

(** Changes of registers, memory and swap file keep the paging invariant while
    no page is mapped. *)
Lemma vm_inv_unmapped s rs m d :
  vm_inv 0 0 s -> regs_wf rs -> length m = length (mainMemory s) -> Forall is_byte m ->
  Forall is_byte (contents (stub_file d)) ->
  vm_inv 0 0 (set_registers rs (set_disk (Some d) (set_mainMemory m s))).
Proof.
  intros [[] ? Hs ? ? ? ? ? ?] Hr Hm Hb Hd. split; try assumption; [| |now exists d].
  - split; try assumption. cbn. now rewrite Hm.
  - intros i e He. now destruct (Hs i e He).
Qed.

Lemma vbyte_unmapped s a : vm_inv 0 0 s -> vbyte s a = (swap_bytes s).[a].
Proof.
  intros Hv. unfold vbyte. replace (lookup_page s (a / PageSize)) with (None (A := Z)); [reflexivity|].
  symmetry. apply lookup_page_None. intros i Hi. unfold maps_at.
  destruct (slot_exists 0 0 s i Hv Hi) as [e He]. rewrite He. unfold maps.
  rewrite (sl_valid _ _ _ _ _ (vm_slots 0 0 s Hv i e He)), (proj2 (Z.ltb_ge i 0)) by lia.
  now rewrite andb_false_r.
Qed.

(** A block written to the start of the swap file is what the program sees. *)
Lemma vbyte_written s s1 bs :
  vm_inv 0 0 s -> vm_inv 0 0 s1 -> swap_bytes s1 = written (swap_bytes s) 0 bs ->
  (forall a b, bs.[a] = Some b -> vbyte s1 a = Some b) /\
  (forall a, Z.of_nat (length bs) <= a -> vbyte s1 a = vbyte s a).
Proof.
  intros Hv Hv1 E. split; intros a.
  - intros b Hb. pose proof (proj1 (zlookup_Some _ _ _) Hb) as [Ha _].
    rewrite vbyte_unmapped, E by exact Hv1. destruct bs as [|x xs]; [cbn in Ha; lia|].
    rewrite zlookup_written, decide_True, Z.sub_0_r by (try discriminate; lia). exact Hb.
  - intros Ha. rewrite !vbyte_unmapped, E by assumption. destruct bs as [|x xs]; [reflexivity|].
    rewrite zlookup_written, decide_False by (try discriminate; lia). case_decide; [reflexivity|].
    rewrite decide_False by lia. symmetry. apply zlookup_ge. lia.
Qed.

Lemma length_bounced m bs : length (bounced m bs) = length m.
Proof. unfold bounced. destruct (last bs); [apply length_insert|reflexivity]. Qed.

Lemma Forall_bounced m bs : Forall is_byte m -> Forall is_byte bs -> Forall is_byte (bounced m bs).
Proof.
  intros Hm Hb. unfold bounced. destruct (last bs) as [b|] eqn:E; [|exact Hm].
  apply Forall_insert_Z; [exact Hm|]. apply last_Some_elem_of in E. now apply (proj1 (Forall_forall _ _) Hb).
Qed.

Lemma initial_registers_wf sp : is_i32 sp -> regs_wf (initial_registers sp).
Proof.
  intros Hsp. split; [reflexivity| |].
  { apply Forall_insert_Z; [|exact Hsp]. apply Forall_insert_Z; [apply Forall_replicate|]; unfold is_i32; lia. }
  intros r Hr. vm_compute in Hr. injection Hr as <-. unfold NumGPRegs. lia.
Qed.

(** The stack pointer lies 16 bytes below the end of the address space. *)
Lemma stack_pointer n :
  UserStackSize <= n <= 2 ^ 31 - PageSize ->
  i32 (u32 (divRoundUp n PageSize * PageSize - 16)) = divRoundUp n PageSize * PageSize - 16 /\
  n - 16 <= divRoundUp n PageSize * PageSize - 16 < 2 ^ 31.
Proof.
  unfold PageSize, UserStackSize. intros Hn. destruct (divRoundUp_spec n 128) as [H|]; [lia..| |lia].
  assert (0 <= divRoundUp n 128 * 128 - 16 < 2 ^ 31) by lia.
  rewrite u32_id by lia. split; [apply i32_id; unfold is_i32|]; lia.
Qed.
(** Loading puts the image at the start of the swap file and starts the registers. *)
Lemma StartProcess_image l file junk h :
  vm_inv 0 0 (ld_machine l) -> executable_bytes l = file -> noff_ok file h ->
  let n := size (code h) + size (initData h) + size (uninitData h) + UserStackSize in
  let pages := divRoundUp n PageSize in
  exists l',
    StartProcess junk l = Ok (mkAddrSpace pages, l') /\
    executable_bytes l' = file /\
    vm_inv 0 0 (ld_machine l') /\
    swap_bytes (ld_machine l') = written (swap_bytes (ld_machine l)) 0 (image file h) /\
    registers (ld_machine l') = initial_registers (pages * PageSize - 16) /\
    UserStackSize <= n <= 2 ^ 31 - PageSize.
Proof.
  intros Hv Hf Hok n pages.
  assert (Hmem : mainMemory (ld_machine l) <> []).
  { intros E. pose proof (wf_memory _ (vm_wf _ _ _ Hv)) as Hm. rewrite E in Hm. discriminate. }
  destruct (AddrSpace_loads l file h junk Hok Hf Hmem (vm_disk _ _ _ Hv)) as (l1 & E1 & [F1 (d & Em & Ed)]).
  fold n pages in E1. pose proof (sg_size _ _ (no_code _ _ Hok)). pose proof (sg_size _ _ (no_data _ _ Hok)).
  pose proof (no_bss _ _ Hok). pose proof (no_space _ _ Hok) as Hsp. fold n in Hsp.
  assert (Hn : UserStackSize <= n) by (unfold n; lia).
  destruct (stack_pointer n (conj Hn Hsp)) as [Esp Hspr]. fold pages in Esp, Hspr.
  assert (Hib : Forall is_byte (image file h)) by (apply Forall_app; split; apply Forall_slice, Hok).
  set (m := bounced _ _) in Em.
  exists (mkLoading (set_registers (initial_registers (pages * PageSize - 16)) (ld_machine l1)) (ld_executable l1)).
  split; [|split; [now rewrite <- Hf|split; [|split; [|auto]]]]; cbn [ld_machine ld_executable].
  - unfold StartProcess. mstep_by E1.
    rewrite (mthen_step _ _ _ tt (mkLoading (set_registers (initial_registers (pages * PageSize - 16)) (ld_machine l1))
                                   (ld_executable l1))); [reflexivity|].
    unfold on_machine. rewrite InitRegisters_ok; [cbn [numPages]; now rewrite Esp|].
    rewrite Em. apply (rw_length _ (wf_regs _ (vm_wf _ _ _ Hv))).
  - rewrite Em. apply vm_inv_unmapped; auto.
    + apply initial_registers_wf. unfold is_i32, UserStackSize in *. lia.
    + apply length_bounced.
    + apply Forall_bounced; [apply Hv|exact Hib].
    + rewrite Ed. apply Forall_written; [unfold is_byte; lia|apply Hv|exact Hib].
  - rewrite Em. exact Ed.
Qed.
End load_lemmas.

(** C18: Loading a program makes its image visible.  On a machine with no page
    mapped, StartProcess on a well-formed NOFF file succeeds: the address
    space is the least number of pages that holds the segments and the stack,
    the program sees its code followed by its initialised data from address 0
    on, every byte behind the image is the one the swap file held before (the
    uninitialised data is not cleared), the registers are those of a program
    about to run at 0 with its stack at the end of the address space, and the
    paging invariant holds. *)
Theorem StartProcess_loads (l : Loading) (file junk : list Z) (h : NoffHeader) :
  vm_inv 0 0 (ld_machine l) -> executable_bytes l = file -> noff_ok file h ->
  let n := size (code h) + size (initData h) + size (uninitData h) + UserStackSize in
  let pages := divRoundUp n PageSize in
  exists l',
    StartProcess junk l = Ok (mkAddrSpace pages, l') /\
    executable_bytes l' = file /\
    vm_inv 0 0 (ld_machine l') /\
    (forall a b, (image file h).[a] = Some b -> vbyte (ld_machine l') a = Some b) /\
    (forall a, Z.of_nat (length (image file h)) <= a ->
       vbyte (ld_machine l') a = vbyte (ld_machine l) a) /\
    registers (ld_machine l') = initial_registers (pages * PageSize - 16) /\
    n - 16 <= pages * PageSize - 16 /\ (forall k, n <= k * PageSize -> pages <= k).
Proof.
  intros Hv Hf Hok n pages. destruct (StartProcess_image l file junk h Hv Hf Hok) as (l' & E & Ef & Hv' & Es & Er & Hn).
  fold n in Er, Hn, E. fold pages in Er, E. exists l'. destruct (vbyte_written _ _ _ Hv Hv' Es) as [Hin Hout].
  destruct (stack_pointer n Hn) as [_ Hsp]. fold pages in Hsp.
  do 6 (split; [assumption|]). split; [lia|].
  intros k Hk. apply divRoundUp_least; unfold UserStackSize, PageSize in *; lia.
Qed.

(** A program with two bytes of code, one of data and three uninitialised. *)
Definition sample_noff : list Z :=
  le_split 4 NOFFMAGIC ++
  le_split 4 0 ++ le_split 4 40 ++ le_split 4 2 ++
  le_split 4 2 ++ le_split 4 42 ++ le_split 4 1 ++
  le_split 4 3 ++ le_split 4 0 ++ le_split 4 3 ++ [17; 18; 19].

Lemma sample_noff_ok : noff_ok sample_noff (header_of (slice sample_noff 0 sizeof_NoffHeader)).
Proof.
  split; try (vm_compute; repeat split; discriminate); try reflexivity.
  repeat (apply Forall_app; split); try apply le_split_bytes.
  repeat constructor; unfold is_byte; lia.
Qed.

Lemma StartProcess_loads_witness :
  exists l', StartProcess [] (mkLoading (start_machine [9; 9; 9; 9; 9]) (Stub_OpenFile (mkUnixFile sample_noff 0)))
               = Ok (mkAddrSpace 9, l') /\
    vbyte (ld_machine l') 2 = Some 19 /\ vbyte (ld_machine l') 3 = Some 9.
Proof.
  destruct (StartProcess_loads (mkLoading (start_machine [9; 9; 9; 9; 9]) (Stub_OpenFile (mkUnixFile sample_noff 0)))
              sample_noff [] _ (start_inv [9; 9; 9; 9; 9] ltac:(repeat constructor; discriminate)) eq_refl sample_noff_ok)
    as (l' & E & _ & _ & Hin & Hout & _).
  exists l'. split; [exact E|]. split; [exact (Hin 2 19 eq_refl)|].
  rewrite (Hout 3) by (vm_compute; discriminate). reflexivity.
Defined.
