(* ===== verification/UserSwitch.v ===== *)
(** Thread::SaveUserState and Thread::RestoreUserState of threads/thread.cc, and
    the context switch of Scheduler::Run between threads that run user programs.

    A thread that runs a program has, besides its kernel registers, the array
    userRegisters in its Thread object; the registers of the simulated machine
    are there only once.  [UserSys] puts the kernel of [Thread], the [Machine]
    and the AddrSpace objects side by side.  SWITCH changes nothing of it: on
    one processor the code behind the SWITCH of the old thread is the code
    behind the SWITCH of the thread that goes on, so one [Run] is seen from
    outside as the first half in the old thread and the second in the new. *)
From Stdlib Require Import ZArith Lia String.
From stdpp Require Import base option list list_numbers gmap.
From S2P Require Import Prelude CList Stats Interrupt HostFile Thread Machine AddrSpace.

Local Open Scope Z_scope.

Record UserSys := mkUserSys {
  us_kernel     : Kernel;
  us_machine    : Machine;
  us_spaces     : gmap Z AddrSpace;
  userRegisters : gmap Z (list Z)       (* by the address of the Thread *)
}.

#[global] Instance user_has_kernel : HasKernel UserSys :=
  { kernel := us_kernel; set_kernel k d := mkUserSys k (us_machine d) (us_spaces d) (userRegisters d) }.
#[global] Instance user_has_kernel_laws : HasKernelLaws UserSys.
Proof. split; try reflexivity. now intros []. Qed.

Section user_state.
Context {H : Type} `{!Hardware UserSys H}.
Implicit Types s : isys UserSys H.

Definition mach s : Machine := us_machine (dev s).
Definition set_mach (m : Machine) s : isys UserSys H :=
  set_dev (mkUserSys (us_kernel (dev s)) m (us_spaces (dev s)) (userRegisters (dev s))) s.
Definition saved s : gmap Z (list Z) := userRegisters (dev s).
Definition set_saved (r : gmap Z (list Z)) s : isys UserSys H :=
  set_dev (mkUserSys (us_kernel (dev s)) (us_machine (dev s)) (us_spaces (dev s)) r) s.

Definition on_mach {A} (m : M Machine A) : M (isys UserSys H) A := fun s =>
  match m (mach s) with Ok (a, x) => Ok (a, set_mach x s) | Err f => Err f end.

(** userRegisters[i] of the thread at [p] *)
Definition user_register (p i : Z) : M (isys UserSys H) Z :=
  let! s := mget in let! r := mlift (saved s !! p) in mlift r.[i].
Definition set_user_register (p i v : Z) : M (isys UserSys H) unit :=
  let! s := mget in
  let! r := mlift (saved s !! p) in
  let! r := mlift (zupd r i v) in
  mput (set_saved (<[p := r]> (saved s)) s).

Definition Thread_SaveUserState (p : Z) : M (isys UserSys H) unit :=
  mfor (seqZ 0 NumTotalRegs) (fun i => let! v := on_mach (ReadRegister i) in set_user_register p i v).
Definition Thread_RestoreUserState (p : Z) : M (isys UserSys H) unit :=
  mfor (seqZ 0 NumTotalRegs) (fun i => let! v := user_register p i in on_mach (WriteRegister i v)).

Definition space_at (sp : Z) : M (isys UserSys H) AddrSpace :=
  let! s := mget in mlift (us_spaces (dev s) !! sp).

(** What Scheduler::Run does for a current thread with a space, before and
    after the switch. *)
Definition Run_save (sp : Z) : M (isys UserSys H) unit :=
  let! k := get_kernel in
  Thread_SaveUserState (currentThread k) >>>
  let! space := space_at sp in on_mach (SaveState space).
Definition Run_restore (sp : Z) : M (isys UserSys H) unit :=
  let! k := get_kernel in
  Thread_RestoreUserState (currentThread k) >>>
  let! space := space_at sp in on_mach (RestoreState space).

#[global] Instance user_switch : ContextSwitch UserSys H :=
  { SWITCH _ _ := mreturn tt; SaveUserState := Run_save; RestoreUserState := Run_restore }.

(** * Specification: every user thread has registers of its own *)
Definition user_thread s (p : Z) : Prop := exists t, threads (ker s) !! p = Some t /\ is_Some (space t).

Definition vregs s (p : Z) : option (list Z) :=
  if p =? currentThread (ker s) then Some (registers (mach s)) else saved s !! p.

Record user_inv s : Prop := {
  ui_registers : Z.of_nat (length (registers (mach s))) = NumTotalRegs;
  ui_current   : is_Some (threads (ker s) !! currentThread (ker s));
  ui_stacks    : forall p t, threads (ker s) !! p = Some t -> stack_ok t;
  ui_destroy   : threadToBeDestroyed (ker s) = None;
  ui_saved     : forall p, user_thread s p -> exists r, saved s !! p = Some r /\ Z.of_nat (length r) = NumTotalRegs;
  ui_spaces    : forall p t sp, threads (ker s) !! p = Some t -> space t = Some sp -> is_Some (us_spaces (dev s) !! sp)
}.

(** User code changes the registers while its thread has the processor; the
    kernel switches to some other thread. *)
Inductive ustep : list Z -> isys UserSys H -> isys UserSys H -> Prop :=
  | us_program s r :
      Z.of_nat (length r) = NumTotalRegs ->
      ustep [currentThread (ker s)] s (set_mach (set_registers r (mach s)) s)
  | us_switch s s' q :
      is_Some (threads (ker s) !! q) -> Run q s = Ok (tt, s') -> ustep [] s s'.

Inductive usteps : list Z -> isys UserSys H -> isys UserSys H -> Prop :=
  | us_done s : usteps [] s s
  | us_more a b s1 s2 s3 : ustep a s1 s2 -> usteps b s2 s3 -> usteps (a ++ b) s1 s3.
End user_state.

(** * Lemmas *)
Lemma copy_one {A} (a b : list A) (k : nat) v :
  a !! k = Some v -> (k < length b)%nat ->
  <[k := v]> (take k a ++ drop k b) = take (S k) a ++ drop (S k) b.
Proof.
  intros Ha Hb. pose proof (lookup_lt_Some _ _ _ Ha).
  destruct (lookup_lt_is_Some_2 b k Hb) as [w Hw].
  rewrite insert_app_r_alt by (rewrite length_take; lia). rewrite length_take, Nat.min_l, Nat.sub_diag by lia.
  rewrite (drop_S _ _ _ Hw), (take_S_r _ _ _ Ha), <- app_assoc. reflexivity.
Qed.

(** A loop over all registers that has done the first [k]. *)
Lemma register_loop {S} (I : nat -> S -> Prop) (body : Z -> M S unit) s :
  (forall k s1, Z.of_nat k < NumTotalRegs -> I k s1 -> exists s2, body (Z.of_nat k) s1 = Ok (tt, s2) /\ I (Datatypes.S k) s2) ->
  I 0%nat s -> exists s', mfor (seqZ 0 NumTotalRegs) body s = Ok (tt, s') /\ I (Z.to_nat NumTotalRegs) s'.
Proof.
  intros Hstep H0.
  destruct (mfor_rule (fun r s1 => exists k, Z.of_nat k <= NumTotalRegs /\ r = seqZ (Z.of_nat k) (NumTotalRegs - Z.of_nat k) /\ I k s1) body)
    with (l := seqZ 0 NumTotalRegs) (s := s) as (s' & E & k & Hk & Hr & HI).
  - intros i r s1 (k & Hk & Hr & HI).
    destruct (Z.eq_dec (Z.of_nat k) NumTotalRegs) as [Ek|Hne]; [rewrite Ek, Z.sub_diag in Hr; discriminate|].
    rewrite seqZ_cons in Hr by lia. injection Hr as -> ->. destruct (Hstep k s1 ltac:(lia) HI) as (s2 & E2 & HI2).
    exists s2. split; [exact E2|]. exists (Datatypes.S k). split; [lia|]. split; [|exact HI2]. f_equal; lia.
  - exists 0%nat. split; [unfold NumTotalRegs; lia|]. split; [reflexivity|exact H0].
  - exists s'. split; [exact E|]. replace (Z.to_nat NumTotalRegs) with k; [exact HI|].
    destruct (Z.eq_dec (Z.of_nat k) NumTotalRegs); [lia|]. rewrite seqZ_cons in Hr by lia. discriminate.
Qed.

Lemma ReadRegister_at (m : Machine) k v :
  registers m !! k = Some v -> Z.of_nat k < NumTotalRegs -> ReadRegister (Z.of_nat k) m = Ok (v, m).
Proof.
  intros Hv Hk. unfold ReadRegister, ASSERT, mthen.
  rewrite (proj2 (Z.leb_le 0 _)), (proj2 (Z.ltb_lt _ NumTotalRegs)) by lia. cbn [andb].
  unfold reg. mstep_to m m. unfold mlift. rewrite zlookup_nat, Hv. reflexivity.
Qed.

Section switch_lemmas.
Context {H : Type} `{!Hardware UserSys H}.
Implicit Types s : isys UserSys H.

Lemma Thread_SaveUserState_run s p r :
  Z.of_nat (length (registers (mach s))) = NumTotalRegs -> saved s !! p = Some r -> Z.of_nat (length r) = NumTotalRegs ->
  Thread_SaveUserState p s = Ok (tt, set_saved (<[p := registers (mach s)]> (saved s)) s).
Proof.
  intros Hl Hr Hlr. set (R := registers (mach s)) in *.
  destruct (register_loop (fun k s1 => s1 = set_saved (<[p := take k R ++ drop k r]> (saved s)) s)
    (fun i => let! v := on_mach (ReadRegister i) in set_user_register p i v) s) as (s' & E & ->).
  - intros k s1 Hk ->. destruct (lookup_lt_is_Some_2 R k ltac:(lia)) as [v Hv].
    rewrite (mthen_step _ _ _ v (set_saved (<[p := take k R ++ drop k r]> (saved s)) s))
      by (unfold on_mach; erewrite ReadRegister_at by eassumption; reflexivity).
    eexists. split.
    + unfold set_user_register. do 1 mstep_to (set_saved (<[p := take k R ++ drop k r]> (saved s)) s) (set_saved (<[p := take k R ++ drop k r]> (saved s)) s).
      cbn [saved set_saved set_dev dev userRegisters]. rewrite lookup_insert_eq. mstep_to (take k R ++ drop k r) (set_saved (<[p := take k R ++ drop k r]> (saved s)) s).
      rewrite zupd_lt by (rewrite length_app, length_take, length_drop; lia). rewrite Nat2Z.id, (copy_one R r k v Hv) by lia. reflexivity.
    + unfold set_saved, set_dev. cbn. now rewrite insert_insert_eq.
  - rewrite take_0, drop_0. cbn [app]. rewrite insert_id by exact Hr. destruct s as [? ? []]. reflexivity.
  - unfold Thread_SaveUserState. rewrite E. rewrite take_ge, drop_ge, app_nil_r by lia. reflexivity.
Qed.

Lemma Thread_RestoreUserState_run s p r :
  Z.of_nat (length (registers (mach s))) = NumTotalRegs -> saved s !! p = Some r -> Z.of_nat (length r) = NumTotalRegs ->
  Thread_RestoreUserState p s = Ok (tt, set_mach (set_registers r (mach s)) s).
Proof.
  intros Hl Hr Hlr. set (R := registers (mach s)) in *.
  destruct (register_loop (fun k s1 => s1 = set_mach (set_registers (take k r ++ drop k R) (mach s)) s)
    (fun i => let! v := user_register p i in on_mach (WriteRegister i v)) s) as (s' & E & ->).
  - intros k s1 Hk ->. destruct (lookup_lt_is_Some_2 r k ltac:(lia)) as [v Hv].
    rewrite (mthen_step _ _ _ v (set_mach (set_registers (take k r ++ drop k R) (mach s)) s)).
    2:{ unfold user_register, mthen, mget, mlift. cbn [saved set_mach set_dev dev userRegisters]. unfold saved in Hr. rewrite Hr, zlookup_nat, Hv. reflexivity. }
    eexists. split.
    + unfold on_mach. cbn [mach set_mach set_dev dev us_machine].
      rewrite WriteRegister_ok; [reflexivity|cbn [registers set_registers]; rewrite length_app, length_take, length_drop; lia|lia].
    + unfold set_mach, set_dev. cbn. rewrite Nat2Z.id, (copy_one r R k v Hv) by lia. reflexivity.
  - rewrite take_0, drop_0. cbn [app]. unfold R. destruct s as [? ? [? [] ? ?]]. reflexivity.
  - unfold Thread_RestoreUserState. rewrite E. rewrite take_ge, drop_ge, app_nil_r by lia. reflexivity.
Qed.

(** The registers of the old thread are in its Thread object. *)
Definition saves s (t : Thread) : gmap Z (list Z) :=
  if space t is Some _ then <[currentThread (ker s) := registers (mach s)]> (saved s) else saved s.

Lemma save_step s t :
  user_inv s -> threads (ker s) !! currentThread (ker s) = Some t ->
  (match space t with Some sp => SaveUserState sp | None => mreturn tt end) s = Ok (tt, set_saved (saves s t) s).
Proof.
  intros [I1 I2 I3 I4 I5 I6] Et. unfold saves. destruct (space t) as [sp|] eqn:Esp.
  - destruct (I5 (currentThread (ker s))) as (r & Hr & Hl); [exists t; rewrite Esp; eauto|].
    destruct (I6 _ _ _ Et Esp) as [a Ha]. cbn [SaveUserState user_switch]. unfold Run_save. mstep_to (ker s) s.
    mstep_by (Thread_SaveUserState_run s _ r I1 Hr Hl).
    set (s1 := set_saved _ s). rewrite (mthen_step _ _ s1 a s1).
    2:{ unfold space_at, mthen, mget, mlift. cbn. now rewrite Ha. }
    unfold on_mach, SaveState, mreturn. destruct s as [? ? []]. reflexivity.
  - destruct s as [? ? []]. reflexivity.
Qed.

(** Those of the new thread go into the machine. *)
Lemma restore_step s t :
  threads (ker s) !! currentThread (ker s) = Some t -> threadToBeDestroyed (ker s) = None ->
  (forall sp, space t = Some sp -> is_Some (us_spaces (dev s) !! sp) /\ Z.of_nat (length (registers (mach s))) = NumTotalRegs /\
     exists r, saved s !! currentThread (ker s) = Some r /\ Z.of_nat (length r) = NumTotalRegs) ->
  Run_return s = Ok (tt, match space t, saved s !! currentThread (ker s) with
                         | Some _, Some r => set_mach (set_registers r (mach s)) s
                         | _, _ => s
                         end).
Proof.
  intros Et Hd Hsp. unfold Run_return. mstep_to (ker s) s. rewrite Hd. mstep_to tt s.
  mstep_to (ker s) s. mstep_by (thread_at_run _ s t Et). destruct (space t) as [sp|] eqn:Esp; [|reflexivity].
  destruct (Hsp sp eq_refl) as ([a Ha] & Hl & r & Hr & Hlr). rewrite Hr. cbn [RestoreUserState user_switch]. unfold Run_restore. mstep_to (ker s) s.
  mstep_by (Thread_RestoreUserState_run s _ r Hl Hr Hlr). set (s1 := set_mach _ s).
  rewrite (mthen_step _ _ s1 a s1).
  2:{ unfold space_at, mthen, mget, mlift. cbn. now rewrite Ha. }
  unfold on_mach, RestoreState, mreturn. reflexivity.
Qed.

Lemma Run_user s q t n :
  user_inv s -> threads (ker s) !! currentThread (ker s) = Some t -> threads (ker s) !! q = Some n ->
  let s1 := set_ker (dispatched q n (ker s)) (set_saved (saves s t) s) in
  Run q s = Ok (tt, match space n, saves s t !! q with
                    | Some _, Some r => set_mach (set_registers r (mach s)) s1
                    | _, _ => s1
                    end).
Proof.
  intros HI Et En s1. pose proof HI as [I1 I2 I3 I4 I5 I6].
  unfold Run. mstep_to (ker s) s. mstep_by (thread_at_run _ s t Et). mstep_by (save_step s t HI Et).
  set (s0 := set_saved (saves s t) s).
  assert (Ek : ker s0 = ker s) by reflexivity. rewrite <- Ek in Et, En |- *.
  mstep_by (CheckOverflow_ok _ s0 t Et (I3 _ _ Et)). mstep_by (mod_kernel_run (k_currentThread q) s0).
  assert (En' : threads (ker (set_ker (k_currentThread q (ker s0)) s0)) !! q = Some n) by now rewrite ker_set_ker.
  unfold Thread_setStatus. mstep_by (mod_thread_run q (th_set_status RUNNING) _ n En').
  rewrite set_ker_twice, ker_set_ker. change (set_ker _ s0) with s1. mstep_to tt s1.
  rewrite (restore_step s1 (th_set_status RUNNING n)).
  - reflexivity.
  - cbn. apply lookup_insert_eq.
  - exact I4.
  - cbn [space th_set_status]. intros sp Hsp. split; [exact (I6 _ _ _ En Hsp)|]. split; [exact I1|].
    cbn. unfold saves. destruct (I5 q) as (r & Hr & Hl); [exists n; rewrite Hsp; eauto|].
    destruct (space t); [|eauto]. destruct (decide (currentThread (ker s) = q)) as [->|Hne].
    + rewrite lookup_insert_eq. eauto.
    + rewrite lookup_insert_ne by exact Hne. eauto.
Qed.

(** A user thread keeps its registers over a switch between any two threads. *)
Lemma Run_keeps_registers s q :
  user_inv s -> is_Some (threads (ker s) !! q) ->
  exists s', Run q s = Ok (tt, s') /\ user_inv s' /\ currentThread (ker s') = q /\
    (forall p, user_thread s' p <-> user_thread s p) /\ (forall p, user_thread s p -> vregs s' p = vregs s p).
Proof.
  intros HI [n En]. pose proof HI as [I1 [t Et] I3 I4 I5 I6].
  rewrite (Run_user s q t n HI Et En). set (k := dispatched q n (ker s)). set (s1 := set_ker k (set_saved (saves s t) s)).
  set (s' := match space n with Some _ => _ | None => _ end).
  assert (Hk : ker s' = k) by (unfold s'; destruct (space n), (saves s t !! q); reflexivity).
  assert (Hsv : saved s' = saves s t) by (unfold s'; destruct (space n), (saves s t !! q); reflexivity).
  assert (Hsp : us_spaces (dev s') = us_spaces (dev s)) by (unfold s'; destruct (space n), (saves s t !! q); reflexivity).
  assert (Hth : forall p u', threads k !! p = Some u' -> exists u, threads (ker s) !! p = Some u /\ space u' = space u /\ (stack_ok u -> stack_ok u')).
  { intros p u'. cbn. destruct (decide (q = p)) as [<-|Hne]; [rewrite lookup_insert_eq; intros [= <-]|rewrite lookup_insert_ne by exact Hne]; eauto. }
  assert (Hth' : forall p u, threads (ker s) !! p = Some u -> exists u', threads k !! p = Some u' /\ space u' = space u).
  { intros p u Hu. cbn. destruct (decide (q = p)) as [<-|Hne].
    - rewrite lookup_insert_eq. replace u with n by congruence. eauto.
    - rewrite lookup_insert_ne by exact Hne. eauto. }
  assert (Hut : forall p, user_thread s' p <-> user_thread s p).
  { intros p. unfold user_thread. rewrite Hk. split.
    - intros (u' & Hu' & Hs). destruct (Hth p u' Hu') as (u & Hu & E & _). exists u. now rewrite <- E.
    - intros (u & Hu & Hs). destruct (Hth' p u Hu) as (u' & Hu' & E). exists u'. now rewrite E. }
  assert (Hsave : forall p, user_thread s p -> exists r, saves s t !! p = Some r /\ Z.of_nat (length r) = NumTotalRegs /\ vregs s p = Some r).
  { intros p Hp. destruct (I5 p Hp) as (r & Hr & Hl). unfold saves, vregs. destruct (Z.eqb_spec p (currentThread (ker s))) as [->|Hne].
    - destruct Hp as (u & Hu & [sp Hs]). replace u with t in Hs by congruence. rewrite Hs, lookup_insert_eq. eauto.
    - exists r. destruct (space t); [rewrite lookup_insert_ne by auto|]; auto. }
  exists s'. split; [reflexivity|]. split; [split|].
  - unfold s'. destruct (space n) as [sp|] eqn:Esp; [|exact I1]. destruct (Hsave q) as (r & Hr & Hl & _); [exists n; rewrite Esp; eauto|].
    rewrite Hr. exact Hl.
  - rewrite Hk. cbn. rewrite lookup_insert_eq. eauto.
  - rewrite Hk. intros p u' Hu'. destruct (Hth p u' Hu') as (u & Hu & _ & Hok). eauto.
  - rewrite Hk. exact I4.
  - intros p Hp. rewrite Hsv. apply Hut in Hp. destruct (Hsave p Hp) as (r & Hr & Hl & _). eauto.
  - rewrite Hk, Hsp. intros p u' sp Hu' Hs. destruct (Hth p u' Hu') as (u & Hu & E & _). rewrite E in Hs. eauto.
  - split; [now rewrite Hk|]. split; [exact Hut|]. intros p Hp. destruct (Hsave p Hp) as (r & Hr & Hl & ->).
    unfold vregs. rewrite Hk, Hsv. change (currentThread k) with q. destruct (Z.eqb_spec p q) as [->|Hne]; [|exact Hr].
    destruct Hp as (u & Hu & [sp Hs]). replace u with n in Hs by congruence. unfold s'. now rewrite Hs, Hr.
Qed.

Lemma program_step_inv s r :
  user_inv s -> Z.of_nat (length r) = NumTotalRegs -> user_inv (set_mach (set_registers r (mach s)) s).
Proof. intros [I1 I2 I3 I4 I5 I6] Hr. split; auto. Qed.

Lemma ustep_inv a s s' :
  ustep a s s' -> user_inv s ->
  user_inv s' /\ (forall p, user_thread s' p <-> user_thread s p) /\
  (forall p, user_thread s p -> p ∉ a -> vregs s' p = vregs s p).
Proof.
  intros [s0 r Hr|s0 s1 q Hq E] HI.
  - split; [now apply program_step_inv|]. split; [reflexivity|]. intros p _ Hp. apply not_elem_of_cons in Hp as [Hne _].
    unfold vregs. change (ker (set_mach _ s0)) with (ker s0). now rewrite (proj2 (Z.eqb_neq _ _) Hne).
  - destruct (Run_keeps_registers s0 q HI Hq) as (s2 & E2 & HI2 & _ & Hu & Hv). replace s1 with s2 by congruence. auto.
Qed.
End switch_lemmas.

(** * Property *)
Section switch_property.
Context {H : Type} `{!Hardware UserSys H}.
Implicit Types s : isys UserSys H.

(** C11: Every user program has the registers to itself.  However user programs
    run and Scheduler::Run switches between threads, user threads or not, the
    registers of a user thread (those of the machine while it has the processor,
    those saved in its Thread object otherwise) change only while it has the
    processor and runs its program; a switch always succeeds and finds them
    complete. *)
Theorem user_registers_private acting s s' p :
  user_inv s -> usteps acting s s' -> user_thread s p -> p ∉ acting ->
  vregs s' p = vregs s p /\ user_inv s' /\
  (forall q, is_Some (threads (ker s') !! q) -> exists s2, Run q s' = Ok (tt, s2)).
Proof.
  intros HI Hs. revert HI. induction Hs as [s|a b s1 s2 s3 H1 H2 IH]; intros HI Hp Hn.
  - split; [reflexivity|]. split; [exact HI|]. intros q Hq. destruct (Run_keeps_registers s q HI Hq) as (s2 & E & _). eauto.
  - apply not_elem_of_app in Hn as [Hna Hnb]. destruct (ustep_inv a s1 s2 H1 HI) as (HI2 & Hu & Hv).
    destruct (IH HI2 (proj2 (Hu p) Hp) Hnb) as (E & HI3 & HR). split; [|auto]. rewrite E. now apply Hv.
Qed.
End switch_property.

(** * Two programs: the registers of the first survive a turn of the second *)
#[local] Instance quiet_hardware : Hardware UserSys unit :=
  { call_handler _ _ := mreturn tt; machine_DelayedLoad _ _ := mreturn tt; thread_Yield := mreturn tt; machine_counters := mreturn (0, 0) }.

Definition program_thread (i : Z) (st : ThreadStatus) : Thread := mkThread None ∅ i 1 1000 0 None st "p"%string (Some (10 + i)).
Definition two_programs : isys UserSys unit :=
  mkIsys Interrupt_Interrupt Statistics_Statistics
    (mkUserSys
       (mkKernel (<[1 := program_thread 0 RUNNING]> (<[2 := program_thread 1 READY]> ∅)) [2] [] 1 None
          (replicate 2 true ++ replicate 126 false))
       (start_machine [])
       (<[10 := mkAddrSpace 4]> (<[11 := mkAddrSpace 5]> ∅))
       (<[1 := replicate 40 0]> (<[2 := replicate 40 2]> ∅))).

Lemma two_programs_inv : user_inv two_programs.
Proof.
  assert (Ht : forall p t, threads (ker two_programs) !! p = Some t ->
    p = 1 /\ t = program_thread 0 RUNNING \/ p = 2 /\ t = program_thread 1 READY).
  { intros p t Hp. cbn in Hp. rewrite !lookup_insert_Some, lookup_empty in Hp. naive_solver. }
  split.
  - reflexivity.
  - eexists. reflexivity.
  - intros p t Hp. destruct (Ht p t Hp) as [[_ ->]|[_ ->]]; exact I.
  - reflexivity.
  - intros p (t & Hp & _). destruct (Ht p t Hp) as [[-> _]|[-> _]]; eexists; split; reflexivity.
  - intros p t sp Hp Hs. destruct (Ht p t Hp) as [[_ ->]|[_ ->]]; injection Hs as <-; eexists; reflexivity.
Defined.

Lemma user_registers_private_witness : exists s, usteps [2] two_programs s /\ vregs s 1 = vregs two_programs 1.
Proof.
  destruct (Run_keeps_registers two_programs 2 two_programs_inv ltac:(eexists; reflexivity)) as (s1 & E1 & HI1 & Hc1 & Hu1 & _).
  set (s2 := set_mach (set_registers (replicate 40 5) (mach s1)) s1).
  assert (Hq : is_Some (threads (ker s2) !! 1)).
  { destruct (proj2 (Hu1 1)) as (t & Ht & _); [eexists; split; [reflexivity|eexists; reflexivity]|]. exists t. exact Ht. }
  destruct (Run_keeps_registers s2 1 (program_step_inv s1 (replicate 40 5) HI1 eq_refl) Hq) as (s3 & E3 & _).
  assert (HS : usteps [2] two_programs s3).
  { apply (us_more [] [2] two_programs s1); [apply (us_switch _ _ 2); [eexists; reflexivity|exact E1]|].
    apply (us_more [2] [] s1 s2); [rewrite <- Hc1; now constructor|].
    apply (us_more [] [] s2 s3); [now apply (us_switch _ _ 1)|constructor]. }
  exists s3. split; [exact HS|].
  apply (user_registers_private [2] two_programs s3 1 two_programs_inv HS).
  - eexists. split; [reflexivity|eexists; reflexivity].
  - intros Hin. apply list_elem_of_singleton in Hin. discriminate.
Defined.
