(* ===== verification/Coff.v ===== *)
(** bin/coff.h, bin/coff2noff.c and bin/coff2flat.c: the converters that make
    a Nachos executable of a linked MIPS COFF file.

    The structures are laid out as the MIPS linker writes them, on a
    little-endian host whose long has 32 bits.  A run is a function of the
    input file, of whether the output can be created, and of what the stack
    holds where the NOFF header is built ([junk]).  The right side of [X] is a
    call of exit(1), with the message printed before it.  malloc of a
    non-negative size succeeds; printing is not modelled. *)
From Stdlib Require Import ZArith Lia.
From stdpp Require Import base option list list_numbers.
From S2P Require Import Prelude Stats BitMap HostFile Machine Paging AddrSpace.

Local Open Scope Z_scope.

(** * coff.h *)
Definition MIPSELMAGIC : Z := 354.
Definition OMAGIC : Z := 263.
Definition sizeof_filehdr : Z := 20.
Definition sizeof_aouthdr : Z := 56.
Definition sizeof_scnhdr : Z := 40.

Record filehdr := mkfilehdr {
  f_magic : Z;
  f_nscns : Z
}.
Record scnhdr := mkscnhdr {
  s_name   : list Z;
  s_paddr  : Z;
  s_vaddr  : Z;
  s_size   : Z;
  s_scnptr : Z
}.

Definition short_at (bs : list Z) (p : Z) : Z := le_join (slice bs p 2).
Definition long_at (bs : list Z) (p : Z) : Z := i32 (le_join (slice bs p 4)).
Definition filehdr_of (bs : list Z) : filehdr := mkfilehdr (short_at bs 0) (short_at bs 2).
(** The field magic of struct aouthdr, a short compared with a positive number. *)
Definition aouthdr_magic (bs : list Z) : Z := short_at bs 0.
Definition scnhdr_of (bs : list Z) : scnhdr :=
  mkscnhdr (slice bs 0 8) (long_at bs 8) (long_at bs 12) (long_at bs 16) (long_at bs 20).
Definition scnhdrs_of (bs : list Z) (n : Z) : list scnhdr :=
  (fun i => scnhdr_of (slice bs (i * sizeof_scnhdr) sizeof_scnhdr)) <$> seqZ 0 n.

(** strcmp(name, literal) == 0; the literals are shorter than s_name. *)
Definition str_eq (name literal : list Z) : bool :=
  bool_decide (take (S (length literal)) name = literal ++ [0]).
Definition dot_text  : list Z := [46; 116; 101; 120; 116].
Definition dot_data  : list Z := [46; 100; 97; 116; 97].
Definition dot_rdata : list Z := [46; 114; 100; 97; 116; 97].
Definition dot_bss   : list Z := [46; 98; 115; 115].
Definition dot_sbss  : list Z := [46; 115; 98; 115; 115].

(** * Processes *)
Inductive message :=
  | Usage | CannotOpen | TooShort | UnableToWrite | NotMipsel | NotOmagic
  | BothData | BothBss | UnknownSegment.

#[global] Instance message_eq_dec : EqDecision message.
Proof. solve_decision. Defined.

(** The open descriptors and the name of the output; [fdOut] is [None] when
    open failed. *)
Record Conv := mkConv {
  fdIn       : UnixFile;
  fdOut      : option UnixFile;
  out_linked : bool
}.

(** A statement of main goes on with a value or has called exit(1). *)
Definition X (A : Type) : Type := Conv -> (A * Conv) + (message * Conv).
Definition xreturn {A} (a : A) : X A := fun c => inl (a, c).
Definition xthen {A B} (m : X A) (k : A -> X B) : X B := fun c =>
  match m c with
  | inl (a, c') => k a c'
  | inr e => inr e
  end.
Definition exit1 {A} (w : message) : X A := fun c => inr (w, c).
Definition unlink : X unit := fun c => inl (tt, mkConv (fdIn c) (fdOut c) false).

Notation "'do!' x ':=' m 'in' k" := (xthen m (fun x => k))
  (at level 10, x name, m at level 100, k at level 200) : nachos_scope.
Notation "m ';!' k" := (xthen m (fun _ => k))
  (at level 199, right associativity) : nachos_scope.

Fixpoint xfold {A B} (l : list A) (b : B) (body : B -> A -> X B) : X B :=
  match l with
  | [] => xreturn b
  | a :: r => do! b' := body b a in xfold r b' body
  end.

(** read, write and lseek on the descriptors: a negative count or a failed
    descriptor gives -1. *)
Definition in_read (n : Z) : X (Z * list Z) := fun c =>
  if n <? 0 then inl ((-1, []), c)
  else let bs := slice (contents (fdIn c)) (position (fdIn c)) n in
       inl ((Z.of_nat (length bs), bs),
            mkConv (mkUnixFile (contents (fdIn c)) (position (fdIn c) + Z.of_nat (length bs)))
              (fdOut c) (out_linked c)).
Definition out_write (n : Z) (bs : list Z) : X Z := fun c =>
  match fdOut c with
  | None => inl (-1, c)
  | Some f =>
      if n <? 0 then inl (-1, c)
      else inl (n, mkConv (fdIn c)
                     (Some (mkUnixFile (written (contents f) (position f) bs) (position f + n)))
                     (out_linked c))
  end.
Definition seek (f : UnixFile) (p : Z) : UnixFile :=
  if p <? 0 then f else mkUnixFile (contents f) p.
Definition in_lseek (p : Z) : X unit := fun c =>
  inl (tt, mkConv (seek (fdIn c) p) (fdOut c) (out_linked c)).
Definition out_lseek (p : Z) : X unit := fun c =>
  inl (tt, mkConv (fdIn c) ((fun f => seek f p) <$> fdOut c) (out_linked c)).

(** * coff2noff.c *)
Definition Read (nBytes : Z) : X (list Z) :=
  do! r := in_read nBytes in
  if negb (fst r =? nBytes) then unlink ;! exit1 TooShort else xreturn (snd r).
Definition Write (nBytes : Z) (buf : list Z) : X unit :=
  do! n := out_write nBytes buf in
  if negb (n =? nBytes) then unlink ;! exit1 UnableToWrite else xreturn tt.

Definition header_bytes (h : NoffHeader) : list Z :=
  let segment g := le_split 4 (virtualAddr g) ++ le_split 4 (inFileAddr g) ++ le_split 4 (size g) in
  le_split 4 (noffMagic h) ++ segment (code h) ++ segment (initData h) ++ segment (uninitData h).

Definition set_code g h := mkNoffHeader (noffMagic h) g (initData h) (uninitData h).
Definition set_initData g h := mkNoffHeader (noffMagic h) (code h) g (uninitData h).
Definition set_uninitData g h := mkNoffHeader (noffMagic h) (code h) (initData h) g.
Definition set_size n g := mkSegment (virtualAddr g) (inFileAddr g) n.

Definition init_header (junk : NoffHeader) : NoffHeader :=
  mkNoffHeader NOFFMAGIC (set_size 0 (code junk)) (set_size 0 (initData junk))
    (set_size 0 (uninitData junk)).

(** Seek to the section's raw data and copy it to the output. *)
Definition copy_section (c : scnhdr) : X unit :=
  in_lseek (s_scnptr c) ;!
  do! buffer := Read (s_size c) in
  Write (s_size c) buffer.

(** One turn of the loop over the sections; the state is noffH and inNoffFile. *)
Definition convert_section (p : NoffHeader * Z) (c : scnhdr) : X (NoffHeader * Z) :=
  let '(noffH, inNoffFile) := p in
  let seg := mkSegment (s_paddr c) inNoffFile (s_size c) in
  if s_size c =? 0 then xreturn p
  else if str_eq (s_name c) dot_text then
    copy_section c ;!
    xreturn (set_code seg noffH, i32 (inNoffFile + s_size c))
  else if str_eq (s_name c) dot_data || str_eq (s_name c) dot_rdata then
    if negb (size (initData noffH) =? 0) then unlink ;! exit1 BothData
    else
      copy_section c ;!
      xreturn (set_initData seg noffH, i32 (inNoffFile + s_size c))
  else if str_eq (s_name c) dot_bss || str_eq (s_name c) dot_sbss then
    let u := uninitData noffH in
    if negb (size u =? 0) then
      if s_paddr c =? i32 (virtualAddr u + size u) then unlink ;! exit1 BothBss
      else xreturn (set_uninitData (set_size (i32 (size u + s_size c)) u) noffH, inNoffFile)
    else
      xreturn (set_uninitData (mkSegment (s_paddr c) (inFileAddr u) (s_size c)) noffH, inNoffFile)
  else unlink ;! exit1 UnknownSegment.

(** The headers, checked, and the section headers. *)
Definition read_sections : X (list scnhdr) :=
  do! fileh := Read sizeof_filehdr in
  if negb (ShortToHost (f_magic (filehdr_of fileh)) =? MIPSELMAGIC) then unlink ;! exit1 NotMipsel
  else
    do! systemh := Read sizeof_aouthdr in
    if negb (ShortToHost (aouthdr_magic systemh) =? OMAGIC) then unlink ;! exit1 NotOmagic
    else
      let numsections := ShortToHost (f_nscns (filehdr_of fileh)) in
      do! sections := Read (numsections * sizeof_scnhdr) in
      xreturn (scnhdrs_of sections numsections).

Definition words_to_host (c : scnhdr) : scnhdr :=
  mkscnhdr (s_name c) (WordToHost (s_paddr c)) (s_vaddr c) (WordToHost (s_size c))
    (WordToHost (s_scnptr c)).

Definition coff2noff (junk : NoffHeader) : X unit :=
  do! sections := read_sections in
  let sections := words_to_host <$> sections in
  let inNoffFile := sizeof_NoffHeader in
  out_lseek inNoffFile ;!
  do! p := xfold sections (init_header junk, inNoffFile) convert_section in
  out_lseek 0 ;!
  Write sizeof_NoffHeader (header_bytes (fst p)).

(** main: the exit code with its message, and the output file if it exists.
    argv[2] is the null pointer when argc is 2. *)
Definition outcome {A} (r : (A * Conv) + (message * Conv)) : option message * option (list Z) :=
  let file c := if out_linked c then contents <$> fdOut c else None in
  match r with
  | inl (_, c) => (None, file c)
  | inr (w, c) => (Some w, file c)
  end.

Definition opened (argc : Z) (coff : list Z) (creatable : bool) : Conv :=
  let created := (3 <=? argc) && creatable in
  mkConv (mkUnixFile coff 0) (if created then Some (mkUnixFile [] 0) else None) created.

Definition coff2noff_main (argc : Z) (coff : option (list Z)) (creatable : bool) (junk : NoffHeader)
    : option message * option (list Z) :=
  if argc <? 2 then (Some Usage, None)
  else match coff with
       | None => (Some CannotOpen, None)
       | Some bs => outcome (coff2noff junk (opened argc bs creatable))
       end.

(** * coff2flat.c *)
Definition FlatStackSize : Z := 1024.

Definition Flat_Read (nBytes : Z) : X (list Z) :=
  do! r := in_read nBytes in
  if negb (fst r =? nBytes) then exit1 TooShort else xreturn (snd r).
Definition Flat_Write (nBytes : Z) (buf : list Z) : X unit :=
  do! n := out_write nBytes buf in
  if negb (n =? nBytes) then exit1 UnableToWrite else xreturn tt.

Definition flat_sections : X (list scnhdr) :=
  do! fileh := Flat_Read sizeof_filehdr in
  if negb (f_magic (filehdr_of fileh) =? MIPSELMAGIC) then exit1 NotMipsel
  else
    do! systemh := Flat_Read sizeof_aouthdr in
    if negb (aouthdr_magic systemh =? OMAGIC) then exit1 NotOmagic
    else
      do! sections := Flat_Read (f_nscns (filehdr_of fileh) * sizeof_scnhdr) in
      xreturn (scnhdrs_of sections (f_nscns (filehdr_of fileh))).

Definition flat_section (top : Z) (c : scnhdr) : X Z :=
  let end_ := i32 (s_paddr c + s_size c) in
  let top := if top <? end_ then end_ else top in
  (if negb (str_eq (s_name c) dot_bss) && negb (str_eq (s_name c) dot_sbss) then
     in_lseek (s_scnptr c) ;!
     do! buffer := Flat_Read (s_size c) in
     Flat_Write (s_size c) buffer
   else xreturn tt) ;!
  xreturn top.

Definition coff2flat : X unit :=
  do! sections := flat_sections in
  do! top := xfold sections 0 flat_section in
  out_lseek (i32 (top + FlatStackSize - 4)) ;!
  Flat_Write 4 (le_split 4 0).

Definition coff2flat_main (argc : Z) (coff : option (list Z)) (creatable : bool)
    : option message * option (list Z) :=
  if argc <? 2 then (Some Usage, None)
  else match coff with
       | None => (Some CannotOpen, None)
       | Some bs => outcome (coff2flat (opened argc bs creatable))
       end.

(** * Specification *)
Inductive kind := Text | Data | Bss | Other.
#[global] Instance kind_eq_dec : EqDecision kind.
Proof. solve_decision. Defined.

Definition kind_of (c : scnhdr) : kind :=
  if str_eq (s_name c) dot_text then Text
  else if str_eq (s_name c) dot_data || str_eq (s_name c) dot_rdata then Data
  else if str_eq (s_name c) dot_bss || str_eq (s_name c) dot_sbss then Bss
  else Other.

(** The non-empty sections of a kind, their bytes and their size. *)
Definition of_kind (k : kind) (cs : list scnhdr) : list scnhdr :=
  filter (fun c => s_size c <> 0 /\ kind_of c = k) cs.
Definition section_bytes (file : list Z) (c : scnhdr) : list Z := slice file (s_scnptr c) (s_size c).
Definition bytes_of (file : list Z) (cs : list scnhdr) : list Z := cs ≫= section_bytes file.
Definition total_size (cs : list scnhdr) : Z := foldr (fun c n => s_size c + n) 0 cs.

(** A section the converter can take: known name and, if it has contents, these
    inside the file. *)
Definition section_ok (file : list Z) (c : scnhdr) : Prop :=
  0 <= s_size c /\
  (s_size c <> 0 -> kind_of c <> Other /\
     (kind_of c <> Bss -> 0 <= s_scnptr c /\ s_scnptr c + s_size c <= Z.of_nat (length file))).

(** The headers of a COFF file with the sections [cs]. *)
Record coff_headers (file : list Z) (cs : list scnhdr) : Prop := {
  co_bytes    : Forall is_byte file;
  co_length   : sizeof_filehdr + sizeof_aouthdr + Z.of_nat (length cs) * sizeof_scnhdr
                  <= Z.of_nat (length file);
  co_magic    : short_at file 0 = MIPSELMAGIC;
  co_nscns    : short_at file 2 = Z.of_nat (length cs);
  co_omagic   : short_at file sizeof_filehdr = OMAGIC;
  co_sections : cs = scnhdrs_of (slice file (sizeof_filehdr + sizeof_aouthdr)
                        (Z.of_nat (length cs) * sizeof_scnhdr)) (Z.of_nat (length cs))
}.

(** Where the loader puts a section of text or data. *)
Definition load_address (cs : list scnhdr) (c : scnhdr) : Z :=
  match kind_of c with Text => 0 | _ => total_size (of_kind Text cs) end.

(** Sections the converter can take: at most one non-empty section of each
    kind, and an address space that fits. *)
Record sections_ok (file : list Z) (cs : list scnhdr) : Prop := {
  co_each     : Forall (section_ok file) cs;
  co_text     : (length (of_kind Text cs) <= 1)%nat;
  co_data     : (length (of_kind Data cs) <= 1)%nat;
  co_bss      : (length (of_kind Bss cs) <= 1)%nat;
  co_space    : sizeof_NoffHeader + total_size (of_kind Text cs) + total_size (of_kind Data cs) +
                  total_size (of_kind Bss cs) + UserStackSize <= 2 ^ 31 - PageSize
}.

(** * Lemmas *)
Section conv_lemmas.
Implicit Types (c : Conv) (file o : list Z).

Lemma xthen_step {A B} (m : X A) (k : A -> X B) c a c' :
  m c = inl (a, c') -> xthen m k c = k a c'.
Proof. unfold xthen. now intros ->. Qed.

Lemma xthen_exit {A B} (m : X A) (k : A -> X B) c e : m c = inr e -> xthen m k c = inr e.
Proof. unfold xthen. now intros ->. Qed.

Lemma xfold_app {A B} (l1 l2 : list A) (body : B -> A -> X B) b c :
  xfold (l1 ++ l2) b body c = xthen (xfold l1 b body) (fun b' => xfold l2 b' body) c.
Proof.
  revert b c. induction l1 as [|a l1 IH]; intros b c; [reflexivity|].
  cbn [app xfold]. unfold xthen at 1 3. unfold xthen at 1. destruct (body b a c) as [[b' c']|e]; [apply IH|reflexivity].
Qed.

Lemma coff_Read_ok n file p out linked :
  0 <= p -> 0 <= n -> p + n <= Z.of_nat (length file) ->
  Read n (mkConv (mkUnixFile file p) out linked) =
    inl (slice file p n, mkConv (mkUnixFile file (p + n)) out linked).
Proof.
  intros Hp Hn Hl. unfold Read, xthen, in_read. destruct (Z.ltb_spec n 0); [lia|].
  cbn [fdIn contents position fst snd fdOut out_linked]. rewrite length_slice by lia.
  now rewrite Z.eqb_refl.
Qed.

Lemma Read_short n file p out linked :
  0 <= p -> 0 < n -> Z.of_nat (length file) < p + n ->
  exists c', Read n (mkConv (mkUnixFile file p) out linked) = inr (TooShort, c') /\ out_linked c' = false.
Proof.
  intros Hp Hn Hl. unfold Read, xthen, in_read. destruct (Z.ltb_spec n 0); [lia|].
  cbn [fdIn contents position fst snd fdOut out_linked].
  destruct (Z.eqb_spec (Z.of_nat (length (slice file p n))) n) as [E|_].
  - unfold slice in E. rewrite length_take, length_drop in E. lia.
  - cbn. eexists. split; reflexivity.
Qed.

Lemma coff_Write_ok bs n fin o p linked :
  Z.of_nat (length bs) = n ->
  Write n bs (mkConv fin (Some (mkUnixFile o p)) linked) =
    inl (tt, mkConv fin (Some (mkUnixFile (written o p bs) (p + n))) linked).
Proof.
  intros Hn. unfold Write, xthen, out_write. cbn [fdOut]. destruct (Z.ltb_spec n 0); [lia|].
  now rewrite Z.eqb_refl.
Qed.

Lemma copy_section_ok s file q o p linked :
  0 <= s_scnptr s -> 0 <= s_size s -> s_scnptr s + s_size s <= Z.of_nat (length file) ->
  copy_section s (mkConv (mkUnixFile file q) (Some (mkUnixFile o p)) linked) =
    inl (tt, mkConv (mkUnixFile file (s_scnptr s + s_size s))
                    (Some (mkUnixFile (written o p (section_bytes file s)) (p + s_size s))) linked).
Proof.
  intros Hp Hs Hl. unfold copy_section, in_lseek, seek, xthen at 1. cbn [fdIn contents fdOut out_linked].
  destruct (Z.ltb_spec (s_scnptr s) 0); [lia|].
  rewrite (xthen_step _ _ _ _ _ (coff_Read_ok _ _ _ _ _ Hp Hs Hl)). apply coff_Write_ok. now apply length_slice.
Qed.
End conv_lemmas.

(** * The loop over the sections *)

(** Segment [g] of the output [o] holds the sections [cs] of the input. *)
Record placed (file o : list Z) (cs : list scnhdr) (g : Segment) : Prop := {
  pl_size  : size g = total_size cs;
  pl_where : cs <> [] -> sizeof_NoffHeader <= inFileAddr g /\
               inFileAddr g + size g <= Z.of_nat (length o);
  pl_bytes : segment_bytes o g = bytes_of file cs;
  pl_addr  : Forall (fun c => virtualAddr g = s_paddr c) cs
}.

Definition segment_wf (g : Segment) : Prop :=
  is_i32 (virtualAddr g) /\ is_i32 (inFileAddr g) /\ is_i32 (size g).
Definition header_wf (h : NoffHeader) : Prop :=
  is_i32 (noffMagic h) /\ segment_wf (code h) /\ segment_wf (initData h) /\ segment_wf (uninitData h).

Lemma header_wf_set h g :
  header_wf h -> segment_wf g ->
  header_wf (set_code g h) /\ header_wf (set_initData g h) /\ header_wf (set_uninitData g h).
Proof. intros (? & ? & ? & ?) ?. unfold header_wf. cbn. tauto. Qed.

Record converted (file : list Z) (cs : list scnhdr) (h : NoffHeader) (pos : Z) (c : Conv) : Prop := {
  cv_pos  : pos = sizeof_NoffHeader + total_size (of_kind Text cs) + total_size (of_kind Data cs);
  cv_wf   : header_wf h;
  cv_mag  : noffMagic h = NOFFMAGIC;
  cv_bss  : size (uninitData h) = total_size (of_kind Bss cs);
  cv_base : Forall (fun s => virtualAddr (uninitData h) = s_paddr s) (of_kind Bss cs);
  cv_in   : exists q, fdIn c = mkUnixFile file q;
  cv_link : out_linked c = true;
  cv_out  : exists o, fdOut c = Some (mkUnixFile o pos) /\ Forall is_byte o /\
              ((o = [] /\ pos = sizeof_NoffHeader) \/ Z.of_nat (length o) = pos) /\
              placed file o (of_kind Text cs) (code h) /\ placed file o (of_kind Data cs) (initData h)
}.

Section loop_lemmas.
Implicit Types (file o : list Z) (c s : scnhdr) (g : Segment).

Lemma of_kind_snoc k cs s :
  of_kind k (cs ++ [s]) =
  of_kind k cs ++ if decide (s_size s <> 0 /\ kind_of s = k) then [s] else [].
Proof.
  unfold of_kind. now rewrite filter_app.
Qed.

Lemma total_size_app l1 l2 : total_size (l1 ++ l2) = total_size l1 + total_size l2.
Proof. induction l1 as [|s l1 IH]; cbn; [reflexivity|]. fold (total_size l1). fold (total_size (l1 ++ l2)). rewrite IH. lia. Qed.

Lemma total_size_nonneg file cs : Forall (section_ok file) cs -> forall k, 0 <= total_size (of_kind k cs).
Proof.
  intros H k. unfold of_kind. induction H as [|s cs [Hs _] _ IH]; [reflexivity|]. rewrite filter_cons.
  case_decide; [|exact IH]. cbn. fold (total_size (filter (fun c => s_size c <> 0 /\ kind_of c = k) cs)). lia.
Qed.

Lemma of_kind_pos file cs k s : Forall (section_ok file) cs -> s ∈ of_kind k cs -> 0 < s_size s.
Proof.
  intros H Hs. apply list_elem_of_filter in Hs as [[Hne _] Hin].
  destruct (proj1 (Forall_forall _ _) H s Hin) as [Hp _]. lia.
Qed.

(** No non-empty section before: the segment still has size 0. *)
Lemma total_size_zero file cs k :
  Forall (section_ok file) cs -> total_size (of_kind k cs) = 0 -> of_kind k cs = [].
Proof.
  intros H E. destruct (of_kind k cs) as [|s r] eqn:Er; [reflexivity|exfalso].
  assert (Hs : 0 < s_size s) by (eapply (of_kind_pos file cs k); [exact H|rewrite Er; left]).
  assert (Hr : forall r', (forall x, x ∈ r' -> x ∈ of_kind k cs) -> 0 <= total_size r').
  { induction r' as [|x r' IH]; intros Hx; [reflexivity|]. cbn. fold (total_size r').
    pose proof (of_kind_pos file cs k x H (Hx x ltac:(left))).
    specialize (IH ltac:(intros y Hy; apply Hx; now right)). lia. }
  specialize (Hr r ltac:(intros x Hx; rewrite Er; now right)). cbn in E. fold (total_size r) in E. lia.
Qed.

Lemma of_kind_two cs k s :
  (length (of_kind k (cs ++ [s])) <= 1)%nat -> s_size s <> 0 -> kind_of s = k -> of_kind k cs = [].
Proof.
  rewrite of_kind_snoc. intros Hl Hs Hk. rewrite decide_True, length_app in Hl by auto. cbn in Hl.
  destruct (of_kind k cs); [reflexivity|cbn in Hl; lia].
Qed.

(** Segments stay when something is written behind them or the header before. *)
Lemma placed_keep file o cs g p bs :
  placed file o cs g -> Forall (fun c => 0 < s_size c) cs -> 0 <= p ->
  Z.of_nat (length o) <= p \/ p + Z.of_nat (length bs) <= sizeof_NoffHeader ->
  placed file (written o p bs) cs g.
Proof.
  intros [Hsz Hw Hb Ha] Hpos Hp Hl. destruct cs as [|s r].
  - split; auto; [intros []; reflexivity|]. rewrite <- Hb. unfold segment_bytes. now rewrite Hsz.
  - destruct (Hw ltac:(discriminate)) as [H1 H2].
    assert (0 <= size g).
    { rewrite Hsz. clear -Hpos. induction Hpos as [|x l Hx _ IH]; cbn; [reflexivity|]. fold (total_size l). lia. }
    unfold sizeof_NoffHeader in *. split; auto.
    + intros _. split; [exact H1|]. destruct bs; [cbn; lia|]. rewrite length_written by (try discriminate; lia). lia.
    + rewrite <- Hb. apply slice_written_other; lia.
Qed.

(** The segment just written. *)
Lemma placed_new file o s p :
  sizeof_NoffHeader <= p -> 0 < s_size s -> 0 <= s_scnptr s ->
  s_scnptr s + s_size s <= Z.of_nat (length file) ->
  placed file (written o p (section_bytes file s)) [s] (mkSegment (s_paddr s) p (s_size s)).
Proof.
  unfold sizeof_NoffHeader. intros Hp Hs H1 H2.
  pose proof (length_slice file (s_scnptr s) (s_size s) H1 ltac:(lia) H2) as Hl. fold (section_bytes file s) in Hl.
  split; cbn [size inFileAddr virtualAddr].
  - cbn. lia.
  - intros _. split; [exact Hp|]. rewrite length_written; [lia|lia|].
    intros E. rewrite E in Hl. cbn in Hl. lia.
  - unfold segment_bytes, bytes_of. cbn. rewrite app_nil_r, <- Hl. apply slice_written. lia.
  - now repeat constructor.
Qed.
End loop_lemmas.

Section step_lemmas.
Context (file : list Z) (cs : list scnhdr) (s : scnhdr) (h : NoffHeader) (pos : Z) (c : Conv).
Context (Hcs : Forall (section_ok file) cs) (Hs : section_ok file s).
Context (Hpa : is_i32 (s_paddr s)).
Context (Hcv : converted file cs h pos c).
Context (Hone : forall k, (length (of_kind k (cs ++ [s])) <= 1)%nat \/ k = Other).
Context (Hspace : sizeof_NoffHeader + total_size (of_kind Text (cs ++ [s])) +
                  total_size (of_kind Data (cs ++ [s])) + total_size (of_kind Bss (cs ++ [s])) < 2 ^ 31).

Lemma kind_skip k : s_size s = 0 \/ kind_of s <> k -> of_kind k (cs ++ [s]) = of_kind k cs.
Proof. intros H. rewrite of_kind_snoc, decide_False by tauto. apply app_nil_r. Qed.

Lemma kind_new k : s_size s <> 0 -> kind_of s = k -> k <> Other ->
  of_kind k cs = [] /\ of_kind k (cs ++ [s]) = [s].
Proof.
  intros Hz Hk Ho. destruct (Hone k) as [H1|]; [|contradiction].
  pose proof (of_kind_two cs k s H1 Hz Hk) as E. split; [exact E|].
  rewrite of_kind_snoc, decide_True, E by auto. reflexivity.
Qed.

Lemma pos_range : sizeof_NoffHeader <= pos.
Proof.
  rewrite (cv_pos _ _ _ _ _ Hcv). pose proof (total_size_nonneg file cs Hcs Text).
  pose proof (total_size_nonneg file cs Hcs Data). lia.
Qed.

Lemma kind_pos k : Forall (fun x => 0 < s_size x) (of_kind k cs).
Proof. apply Forall_forall. intros x. now apply (of_kind_pos file). Qed.

(** A section with contents is copied to the end of the output. *)
Lemma step_copied :
  s_size s <> 0 -> kind_of s = Text \/ kind_of s = Data -> Forall is_byte file ->
  exists o o', fdOut c = Some (mkUnixFile o pos) /\
    copy_section s c = inl (tt, mkConv (mkUnixFile file (s_scnptr s + s_size s))
                                 (Some (mkUnixFile o' (pos + s_size s))) true) /\
    placed file o' [s] (mkSegment (s_paddr s) pos (s_size s)) /\
    placed file o' (of_kind Text cs) (code h) /\ placed file o' (of_kind Data cs) (initData h) /\
    Forall is_byte o' /\ Z.of_nat (length o') = pos + s_size s.
Proof.
  intros Hz Hk Hby. destruct Hs as [Hnn Hf]. destruct (Hf Hz) as [_ Hf']. clear Hf.
  destruct Hf' as [H1 H2]; [destruct Hk as [-> | ->]; discriminate|].
  destruct (cv_in _ _ _ _ _ Hcv) as [q Hin]. destruct (cv_out _ _ _ _ _ Hcv) as (o & Ho & Hob & Hlen & Ht & Hd).
  pose proof pos_range as Hp. unfold sizeof_NoffHeader in Hp.
  assert (Hlo : Z.of_nat (length o) <= pos) by (destruct Hlen as [[-> ->]|]; [discriminate|lia]).
  pose proof (length_slice file (s_scnptr s) (s_size s) H1 ltac:(lia) H2) as Hl. fold (section_bytes file s) in Hl.
  exists o, (written o pos (section_bytes file s)).
  split; [exact Ho|]. split; [|split; [|split; [|split; [|split]]]].
  - pose proof (cv_link _ _ _ _ _ Hcv). destruct c as [fi fo lk]. cbn in Hin, Ho, H. subst fi fo lk.
    now apply copy_section_ok.
  - apply placed_new; unfold sizeof_NoffHeader; lia.
  - apply placed_keep; auto using kind_pos. lia.
  - apply placed_keep; auto using kind_pos. lia.
  - apply Forall_written; [unfold is_byte; lia|exact Hob|]. now apply Forall_slice.
  - rewrite length_written; [lia|lia|]. intros E. rewrite E in Hl. cbn in Hl. lia.
Qed.

Ltac kinds := rewrite ?(kind_skip Text), ?(kind_skip Data), ?(kind_skip Bss) by (auto; right; congruence).

(** A section that writes nothing keeps what was written. *)
Lemma step_kept h' :
  of_kind Text (cs ++ [s]) = of_kind Text cs -> of_kind Data (cs ++ [s]) = of_kind Data cs ->
  code h' = code h -> initData h' = initData h -> header_wf h' -> noffMagic h' = NOFFMAGIC ->
  size (uninitData h') = total_size (of_kind Bss (cs ++ [s])) ->
  Forall (fun s => virtualAddr (uninitData h') = s_paddr s) (of_kind Bss (cs ++ [s])) ->
  converted file (cs ++ [s]) h' pos c.
Proof.
  intros Et Ed Ec Ei Hw Hm Hb Hba. destruct Hcv. split; rewrite ?Et, ?Ed, ?Ec, ?Ei; auto.
Qed.

Lemma total_step k : total_size (of_kind k cs) <= total_size (of_kind k (cs ++ [s])).
Proof. destruct Hs. rewrite of_kind_snoc, total_size_app. case_decide; cbn; lia. Qed.

Lemma convert_section_ok :
  Forall is_byte file ->
  exists h' pos' c', convert_section (h, pos) s c = inl ((h', pos'), c') /\
    converted file (cs ++ [s]) h' pos' c'.
Proof.
  intros Hby. pose proof (cv_wf _ _ _ _ _ Hcv) as (_ & _ & _ & Wb). pose proof pos_range as Hp.
  pose proof (total_size_nonneg file cs Hcs Bss) as Hb0. pose proof (cv_pos _ _ _ _ _ Hcv) as Epos.
  pose proof (total_size_nonneg file cs Hcs Text) as Ht0. pose proof (total_size_nonneg file cs Hcs Data) as Hd0.
  pose proof (total_step Text) as Ht. pose proof (total_step Data) as Hd. pose proof (total_step Bss) as Hb.
  pose proof (proj1 Hs) as Hnn. unfold sizeof_NoffHeader in *.
  unfold convert_section. destruct (Z.eqb_spec (s_size s) 0) as [Hz|Hz].
  { exists h, pos, c. split; [reflexivity|]. apply step_kept; kinds; auto; try apply Hcv. }
  destruct (str_eq (s_name s) dot_text) eqn:E1; [|destruct (str_eq (s_name s) dot_data || _) eqn:E2;
    [|destruct (str_eq (s_name s) dot_bss || _) eqn:E3]].
  - assert (K : kind_of s = Text) by (unfold kind_of; now rewrite E1).
    destruct (kind_new Text Hz K ltac:(discriminate)) as [N1 N2].
    destruct (step_copied Hz (or_introl K) Hby) as (o & o' & Ho & Ec & P & _ & Pd & Ob & Ol).
    rewrite N1, N2 in *. cbn in Epos, Hspace. assert (is_i32 pos /\ is_i32 (s_size s)) as [] by (unfold is_i32; lia).
    eexists _, _, _. split; [rewrite (xthen_step _ _ _ _ _ Ec); reflexivity|].
    rewrite i32_id by (unfold is_i32; lia).
    split; kinds; rewrite ?N2; try apply Hcv; cbn; auto; try (unfold sizeof_NoffHeader; lia).
    + apply header_wf_set; [apply Hcv|]. now split_and!.
    + eauto.
    + exists o'. auto 7.
  - assert (K : kind_of s = Data) by (unfold kind_of; now rewrite E1, E2).
    destruct (kind_new Data Hz K ltac:(discriminate)) as [N1 N2].
    destruct (step_copied Hz (or_intror K) Hby) as (o & o' & Ho & Ec & P & Pt & _ & Ob & Ol).
    assert (Hsz : size (initData h) = 0).
    { destruct (cv_out _ _ _ _ _ Hcv) as (? & _ & _ & _ & _ & [Hsz _ _ _]). now rewrite Hsz, N1. }
    rewrite N1, N2 in *. cbn in Epos, Hspace. assert (is_i32 pos /\ is_i32 (s_size s)) as [] by (unfold is_i32; lia).
    rewrite Hsz. cbn [Z.eqb negb]. eexists _, _, _. split; [rewrite (xthen_step _ _ _ _ _ Ec); reflexivity|].
    rewrite i32_id by (unfold is_i32; lia).
    split; kinds; rewrite ?N2; try apply Hcv; cbn; auto; try (unfold sizeof_NoffHeader; lia).
    + apply header_wf_set; [apply Hcv|]. now split_and!.
    + eauto.
    + exists o'. auto 7.
  - assert (K : kind_of s = Bss) by (unfold kind_of; now rewrite E1, E2, E3).
    destruct (kind_new Bss Hz K ltac:(discriminate)) as [N1 N2].
    rewrite (cv_bss _ _ _ _ _ Hcv), N1. cbn [total_size foldr Z.eqb negb].
    eexists _, _, _. split; [reflexivity|]. rewrite N2 in *. cbn in Hspace.
    apply step_kept; kinds; rewrite ?N2; try reflexivity; try apply Hcv; [|cbn; lia|now repeat constructor].
    apply header_wf_set; [apply Hcv|]. destruct Wb as (_ & ? & _). split_and!; cbn; auto. unfold is_i32. lia.
  - destruct Hs as [_ Hk]. destruct (Hk Hz) as [Hk' _]. destruct Hk'. unfold kind_of. now rewrite E1, E2, E3.
Qed.
End step_lemmas.

Section run_lemmas.
Implicit Types (file o : list Z) (h : NoffHeader).

Lemma of_kind_app k l1 l2 : of_kind k (l1 ++ l2) = of_kind k l1 ++ of_kind k l2.
Proof. apply filter_app. Qed.

Lemma convert_sections_ok file rest : forall cs h pos c,
  Forall is_byte file ->
  Forall (section_ok file) (cs ++ rest) -> Forall (fun s => is_i32 (s_paddr s)) rest ->
  (forall k, (length (of_kind k (cs ++ rest)) <= 1)%nat \/ k = Other) ->
  sizeof_NoffHeader + total_size (of_kind Text (cs ++ rest)) + total_size (of_kind Data (cs ++ rest)) +
    total_size (of_kind Bss (cs ++ rest)) < 2 ^ 31 ->
  converted file cs h pos c ->
  exists h' pos' c', xfold rest (h, pos) convert_section c = inl ((h', pos'), c') /\
    converted file (cs ++ rest) h' pos' c'.
Proof.
  induction rest as [|s rest IH]; intros cs h pos c Hby Hok H32 Hone Hsp Hcv.
  { exists h, pos, c. rewrite app_nil_r. split; [reflexivity|exact Hcv]. }
  assert (E : cs ++ s :: rest = (cs ++ [s]) ++ rest) by now rewrite <- app_assoc.
  rewrite E in *. pose proof (proj1 (Forall_app _ _ _) Hok) as [Hok1 Hok2].
  pose proof (proj1 (Forall_app _ _ _) Hok1) as [Hcs Hs]. inversion H32 as [|? ? Hpa H32']; subst.
  destruct (convert_section_ok file cs s h pos c) as (h1 & p1 & c1 & E1 & Hcv1); auto.
  - now inversion Hs.
  - intros k. destruct (Hone k) as [Hk|]; [left|now right]. rewrite of_kind_app, length_app in Hk. lia.
  - rewrite (of_kind_app Text (cs ++ [s])), (of_kind_app Data (cs ++ [s])), (of_kind_app Bss (cs ++ [s])),
      !(total_size_app (of_kind _ (cs ++ [s]))) in Hsp.
    pose proof (total_size_nonneg file rest Hok2 Text). pose proof (total_size_nonneg file rest Hok2 Data).
    pose proof (total_size_nonneg file rest Hok2 Bss). lia.
  - cbn [xfold]. rewrite (xthen_step _ _ _ _ _ E1). apply IH; auto.
Qed.

(** The header written is the header read. *)
Lemma word_at_words ws : forall (n : nat) v,
  ws !! n = Some v -> is_i32 v -> word_at (ws ≫= le_split 4) (Z.of_nat n) = v.
Proof.
  induction ws as [|w ws IH]; intros n v Hn Hv; [discriminate|]. cbn [mbind list_bind].
  unfold word_at, slice. destruct n as [|n]; cbn [lookup list_lookup] in Hn.
  - injection Hn as ->. change (Z.to_nat (4 * Z.of_nat 0)) with 0%nat. rewrite drop_0.
    rewrite take_app_length' by now rewrite length_le_split.
    rewrite le_join_split. change (256 ^ Z.of_nat 4) with (2 ^ 32). fold (u32 v). rewrite i32_u32. now apply i32_id.
  - transitivity (word_at (ws ≫= le_split 4) (Z.of_nat n)); [|now apply IH]. unfold word_at, slice. do 3 f_equal.
    replace (Z.to_nat (4 * Z.of_nat (S n))) with (length (le_split 4 w) + Z.to_nat (4 * Z.of_nat n))%nat
      by (rewrite length_le_split; lia).
    rewrite <- drop_drop, drop_app_length. reflexivity.
Qed.

Definition header_words h : list Z :=
  [noffMagic h; virtualAddr (code h); inFileAddr (code h); size (code h);
   virtualAddr (initData h); inFileAddr (initData h); size (initData h);
   virtualAddr (uninitData h); inFileAddr (uninitData h); size (uninitData h)].

Lemma header_bytes_words h : header_bytes h = header_words h ≫= le_split 4.
Proof. unfold header_bytes. cbn [mbind list_bind header_words]. now rewrite <- !app_assoc, app_nil_r. Qed.

Lemma length_noff_header h : Z.of_nat (length (header_bytes h)) = sizeof_NoffHeader.
Proof. unfold header_bytes. now rewrite !length_app, !length_le_split. Qed.

Lemma header_of_bytes h : header_wf h -> header_of (header_bytes h) = h.
Proof.
  intros (Hm & (Hc1 & Hc2 & Hc3) & (Hd1 & Hd2 & Hd3) & (Hu1 & Hu2 & Hu3)).
  rewrite header_bytes_words. unfold header_of, segment_at.
  assert (W : forall i v, (header_words h).[i] = Some v -> is_i32 v ->
                word_at (header_words h ≫= le_split 4) i = v).
  { intros i v Hi Hv. apply zlookup_Some in Hi as [Hr Hi].
    rewrite <- (word_at_words _ _ v Hi Hv), Z2Nat.id by lia. reflexivity. }
  change (1 + 1) with 2. change (1 + 2) with 3. change (4 + 1) with 5. change (4 + 2) with 6.
  change (7 + 1) with 8. change (7 + 2) with 9.
  rewrite (W 0 _ eq_refl Hm), (W 1 _ eq_refl Hc1), (W 2 _ eq_refl Hc2), (W 3 _ eq_refl Hc3),
    (W 4 _ eq_refl Hd1), (W 5 _ eq_refl Hd2), (W 6 _ eq_refl Hd3),
    (W 7 _ eq_refl Hu1), (W 8 _ eq_refl Hu2), (W 9 _ eq_refl Hu3).
  destruct h as [m [] [] []]. reflexivity.
Qed.

Lemma Forall_header_bytes h : Forall is_byte (header_bytes h).
Proof. unfold header_bytes. rewrite !Forall_app. auto 9 using le_split_bytes. Qed.

(** Reading the headers. *)
Lemma scnhdrs_i32 bs n : Forall (fun s => is_i32 (s_paddr s)) (scnhdrs_of bs n).
Proof. apply Forall_fmap, Forall_forall. intros i _. apply i32_range. Qed.

Lemma headers_i32 file cs : coff_headers file cs -> Forall (fun s => is_i32 (s_paddr s)) cs.
Proof. intros [_ _ _ _ _ Hc]. rewrite Hc. apply scnhdrs_i32. Qed.

Lemma read_sections_ok file cs out linked :
  coff_headers file cs ->
  exists q, read_sections (mkConv (mkUnixFile file 0) out linked) =
    inl (cs, mkConv (mkUnixFile file q) out linked).
Proof.
  intros [_ Hl Hm Hn Ho Hc]. unfold sizeof_filehdr, sizeof_aouthdr, sizeof_scnhdr in *.
  assert (Hsh : forall p n, 0 <= p -> 2 <= n -> p + n <= Z.of_nat (length file) ->
            forall i, 0 <= i -> i + 2 <= n -> short_at (slice file p n) i = short_at file (p + i)).
  { intros p n H1 H2 H3 i H4 H5. unfold short_at. f_equal. apply zlookup_ext.
    - apply Nat2Z.inj. rewrite !length_slice; rewrite ?length_slice; lia.
    - intros j Hj. rewrite length_slice in Hj by (rewrite ?length_slice; lia).
      rewrite !zlookup_slice, !decide_True by lia. f_equal. lia. }
  exists (76 + Z.of_nat (length cs) * 40). unfold read_sections.
  rewrite (xthen_step _ _ _ _ _ (coff_Read_ok 20 file 0 out linked ltac:(lia) ltac:(lia) ltac:(lia))).
  unfold filehdr_of, aouthdr_magic, ShortToHost. cbn [f_magic f_nscns].
  rewrite !Hsh by lia. change (0 + 0) with 0. change (0 + 2) with 2. rewrite Hm, Hn. change (negb (MIPSELMAGIC =? MIPSELMAGIC)) with false. cbv iota.
  rewrite (xthen_step _ _ _ _ _ (coff_Read_ok 56 file (0 + 20) out linked ltac:(lia) ltac:(lia) ltac:(lia))).
  rewrite Hsh by lia. change (0 + 20 + 0) with 20. rewrite Ho. change (negb (OMAGIC =? OMAGIC)) with false. cbv iota.
  change (0 + 20 + 56) with 76.
  unfold sizeof_scnhdr.
  rewrite (xthen_step _ _ _ _ _ (coff_Read_ok (Z.of_nat (length cs) * 40) file 76 out linked ltac:(lia) ltac:(lia) ltac:(lia))).
  unfold xreturn. repeat f_equal. symmetry. exact Hc.
Qed.
End run_lemmas.

Section correct.
Context (file : list Z) (cs : list scnhdr) (junk : NoffHeader).
Context (Hco : coff_headers file cs) (Hcs : sections_ok file cs) (Hjunk : header_wf junk).

Lemma converted_nil q :
  converted file [] (init_header junk) sizeof_NoffHeader
    (mkConv (mkUnixFile file q) (Some (mkUnixFile [] sizeof_NoffHeader)) true).
Proof.
  destruct Hjunk as (_ & (? & ? & _) & (? & ? & _) & (? & ? & _)).
  split; try reflexivity; cbn.
  - assert (is_i32 0 /\ is_i32 NOFFMAGIC) as [? ?] by (unfold is_i32, NOFFMAGIC; lia).
    unfold header_wf, segment_wf. cbn. tauto.
  - constructor.
  - eauto.
  - exists []. do 2 (split; [constructor|]). split; [now left|].
    split; split; cbn; auto; intros []; reflexivity.
Qed.

Lemma words_to_host_id (l : list scnhdr) : words_to_host <$> l = l.
Proof. induction l as [|[] l IH]; [reflexivity|]. cbn. now rewrite IH. Qed.

Lemma placed_segment_ok o cs' g :
  placed file o cs' g -> Forall (fun x => 0 < s_size x) cs' -> segment_ok o g.
Proof.
  unfold sizeof_NoffHeader. intros [Hsz Hw _ _] Hp. unfold sizeof_NoffHeader in Hw. destruct cs' as [|x r].
  - cbn in Hsz. split; lia.
  - destruct (Hw ltac:(discriminate)). split; try lia. rewrite Hsz. clear -Hp.
    induction Hp as [|y l Hy _ IH]; cbn; [reflexivity|]. fold (total_size l). lia.
Qed.

(** The converter writes a well-formed NOFF file whose segments are the sections. *)
Lemma coff2noff_correct argc :
  3 <= argc ->
  exists noff h, coff2noff_main argc (Some file) true junk = (None, Some noff) /\ noff_ok noff h /\
    placed file noff (of_kind Text cs) (code h) /\ placed file noff (of_kind Data cs) (initData h) /\
    size (uninitData h) = total_size (of_kind Bss cs).
Proof.
  intros Hargc. destruct (read_sections_ok file cs (Some (mkUnixFile [] 0)) true Hco) as [q Er].
  pose proof Hco as [Hby Hlen _ _ _ _]. pose proof Hcs as [Hok Ht Hd Hb Hsp]. unfold UserStackSize, PageSize in Hsp.
  destruct (convert_sections_ok file cs [] (init_header junk) sizeof_NoffHeader
              (mkConv (mkUnixFile file q) (Some (mkUnixFile [] sizeof_NoffHeader)) true))
    as (h & pos & c & Ex & Hcv); auto using converted_nil.
  { now apply (headers_i32 file). }
  { intros [| | |]; auto. }
  { cbn [app]. lia. }
  cbn [app] in Hcv. destruct Hcv as [Epos Hwf Hmag Hbss _ [q' Hin] Hlk (o & Ho & Hob & Hol & Pt & Pd)].
  pose proof (total_size_nonneg file cs Hok) as Hnn.
  pose proof (Hnn Text). pose proof (Hnn Data). pose proof (Hnn Bss).
  assert (Hpos : forall k, Forall (fun x => 0 < s_size x) (of_kind k cs))
    by (intros k; apply Forall_forall; intros x; now apply (of_kind_pos file)).
  pose proof (length_noff_header h) as Hhl.
  assert (Hne : header_bytes h <> []) by (intros E; rewrite E in Hhl; discriminate).
  pose proof (length_written o 0 (header_bytes h) ltac:(lia) Hne) as Hwl.
  assert (Pt' : placed file (written o 0 (header_bytes h)) (of_kind Text cs) (code h))
    by (apply placed_keep; auto; lia).
  assert (Pd' : placed file (written o 0 (header_bytes h)) (of_kind Data cs) (initData h))
    by (apply placed_keep; auto; lia).
  exists (written o 0 (header_bytes h)), h. unfold sizeof_NoffHeader in *.
  split; [|split; [|auto]].
  - unfold coff2noff_main. destruct (Z.ltb_spec argc 2); [lia|].
    unfold opened. rewrite (proj2 (Z.leb_le 3 argc)) by lia. cbn [andb]. unfold coff2noff.
    rewrite (xthen_step _ _ _ _ _ Er).
    replace (words_to_host <$> cs) with cs by (symmetry; apply words_to_host_id).
    rewrite (xthen_step _ _ _ tt (mkConv (mkUnixFile file q) (Some (mkUnixFile [] 40)) true)) by reflexivity.
    rewrite (xthen_step _ _ _ _ _ Ex). destruct c as [fi fo lk]. cbn in Hin, Ho, Hlk. subst.
    rewrite (xthen_step _ _ _ tt (mkConv (mkUnixFile file q') (Some (mkUnixFile o 0)) true)) by reflexivity.
    rewrite coff_Write_ok by exact Hhl. reflexivity.
  - split; auto.
    + unfold sizeof_NoffHeader. destruct Hol as [[-> ->]|]; cbn [length] in *; lia.
    + symmetry. unfold sizeof_NoffHeader. rewrite <- Hhl, slice_written by lia. now apply header_of_bytes.
    + now apply (placed_segment_ok _ (of_kind Text cs)).
    + now apply (placed_segment_ok _ (of_kind Data cs)).
    + lia.
    + apply Forall_written; [unfold is_byte; lia|exact Hob|apply Forall_header_bytes].
    + unfold UserStackSize, PageSize. rewrite (pl_size _ _ _ _ Pt), (pl_size _ _ _ _ Pd), Hbss. lia.
Qed.
End correct.

(** * coff2flat: the flat image *)
Definition flat_copied (c : scnhdr) : bool :=
  negb (str_eq (s_name c) dot_bss) && negb (str_eq (s_name c) dot_sbss).
Definition flat_top (cs : list scnhdr) : Z := foldr (fun c t => Z.max (s_paddr c + s_size c) t) 0 cs.
Definition flat_ok (file : list Z) (c : scnhdr) : Prop :=
  is_i32 (s_paddr c + s_size c) /\
  (flat_copied c = true -> 0 <= s_size c /\ 0 <= s_scnptr c /\
     s_scnptr c + s_size c <= Z.of_nat (length file)).

Section flat.
Implicit Types (file o : list Z).

(** Where coff2noff goes on, coff2flat goes on the same way. *)
Lemma Flat_Read_same n c r : Read n c = inl r -> Flat_Read n c = inl r.
Proof.
  unfold Read, Flat_Read, xthen. destruct (in_read n _) as [[a c']|e]; [|auto].
  destruct (negb _); [discriminate|auto].
Qed.

Lemma Flat_Read_ok n file p out linked :
  0 <= p -> 0 <= n -> p + n <= Z.of_nat (length file) ->
  Flat_Read n (mkConv (mkUnixFile file p) out linked) =
    inl (slice file p n, mkConv (mkUnixFile file (p + n)) out linked).
Proof. intros. now apply Flat_Read_same, coff_Read_ok. Qed.

Lemma flat_headers_same c r : read_sections c = inl r -> flat_sections c = inl r.
Proof.
  unfold read_sections, flat_sections, xthen, ShortToHost.
  destruct (Read sizeof_filehdr c) as [[f c1]|e] eqn:E1; [|discriminate].
  rewrite (Flat_Read_same _ _ _ E1). destruct (negb (f_magic _ =? _)); [discriminate|].
  destruct (Read sizeof_aouthdr c1) as [[g c2]|e] eqn:E2; [|discriminate].
  rewrite (Flat_Read_same _ _ _ E2). destruct (negb (aouthdr_magic _ =? _)); [discriminate|].
  destruct (Read _ c2) as [[l c3]|e] eqn:E3; [|discriminate].
  now rewrite (Flat_Read_same _ _ _ E3).
Qed.

Lemma Flat_Write_ok bs n fin o p linked :
  Z.of_nat (length bs) = n ->
  Flat_Write n bs (mkConv fin (Some (mkUnixFile o p)) linked) =
    inl (tt, mkConv fin (Some (mkUnixFile (written o p bs) (p + n))) linked).
Proof.
  intros Hn. pose proof (coff_Write_ok bs n fin o p linked Hn) as E. revert E.
  unfold Write, Flat_Write, xthen. destruct (out_write n bs _) as [[r c]|e]; [|auto].
  destruct (negb _); [discriminate|auto].
Qed.

(** A write at the end of a file appends. *)
Lemma written_end o bs : written o (Z.of_nat (length o)) bs = o ++ bs.
Proof.
  destruct bs as [|b bs]; [now rewrite app_nil_r|]. unfold written, fill_to, splice.
  rewrite Nat2Z.id, Nat.sub_diag. cbn [replicate]. rewrite app_nil_r, take_ge by lia.
  now rewrite drop_ge, app_nil_r by (cbn; lia).
Qed.

Lemma flat_sections_ok file cs : forall q o top,
  Forall (flat_ok file) cs -> is_i32 top ->
  exists q', xfold cs top flat_section
      (mkConv (mkUnixFile file q) (Some (mkUnixFile o (Z.of_nat (length o)))) true) =
    let o' := o ++ bytes_of file (filter (fun c => flat_copied c = true) cs) in
    inl (Z.max top (foldr (fun c t => Z.max (s_paddr c + s_size c) t) top cs),
         mkConv (mkUnixFile file q') (Some (mkUnixFile o' (Z.of_nat (length o')))) true).
Proof.
  induction cs as [|c cs IH]; intros q o top Hcs Ht.
  { exists q. cbn. now rewrite app_nil_r, Z.max_id. }
  inversion Hcs as [|? ? [H32 Hc] Hcs']; subst. cbn [xfold].
  set (top' := Z.max (s_paddr c + s_size c) top).
  assert (Ht' : is_i32 top') by (unfold is_i32 in *; lia).
  assert (Etop : (if top <? i32 (s_paddr c + s_size c) then i32 (s_paddr c + s_size c) else top) = top').
  { rewrite i32_id by exact H32. unfold top'. destruct (Z.ltb_spec top (s_paddr c + s_size c)); lia. }
  assert (Efold : Z.max top' (foldr (fun c t => Z.max (s_paddr c + s_size c) t) top' cs) =
                  Z.max top (Z.max (s_paddr c + s_size c) (foldr (fun c t => Z.max (s_paddr c + s_size c) t) top cs))).
  { unfold top'. clear. induction cs as [|d cs IHc]; cbn; lia. }
  destruct (flat_copied c) eqn:Ef.
  - destruct (Hc eq_refl) as (Hs & Hp & Hl).
    pose proof (length_slice file (s_scnptr c) (s_size c) Hp Hs Hl) as Hlen.
    destruct (IH (s_scnptr c + s_size c) (o ++ section_bytes file c) top' Hcs' Ht') as [q' E]. exists q'.
    rewrite (xthen_step _ _ _ top' (mkConv (mkUnixFile file (s_scnptr c + s_size c))
      (Some (mkUnixFile (o ++ section_bytes file c) (Z.of_nat (length (o ++ section_bytes file c))))) true)).
    + rewrite E, Efold. rewrite filter_cons_True by exact Ef. cbn [bytes_of mbind list_bind foldr]. now rewrite <- app_assoc.
    + unfold flat_section. rewrite Etop. fold (flat_copied c). rewrite Ef.
      erewrite xthen_step; [reflexivity|]. unfold in_lseek, seek, xthen at 1. cbn [fdIn contents fdOut out_linked].
      destruct (Z.ltb_spec (s_scnptr c) 0); [lia|].
      rewrite (xthen_step _ _ _ _ _ (Flat_Read_ok _ _ _ _ _ Hp Hs Hl)).
      rewrite Flat_Write_ok by exact Hlen. rewrite written_end. unfold section_bytes.
      repeat f_equal. rewrite length_app. lia.
  - destruct (IH q o top' Hcs' Ht') as [q' E]. exists q'.
    rewrite (xthen_step _ _ _ top' (mkConv (mkUnixFile file q) (Some (mkUnixFile o (Z.of_nat (length o)))) true)).
    + rewrite E, Efold. now rewrite filter_cons_False by (rewrite Ef; discriminate).
    + unfold flat_section. rewrite Etop. fold (flat_copied c). now rewrite Ef.
Qed.
End flat.

(** * Theorems *)

(** C14: A converted program is loaded with its text at 0 and its data right
    behind, whatever addresses the linker gave.  For a MIPS COFF file with at
    most one non-empty section of each kind, coff2noff succeeds, the file it
    writes is accepted by StartProcess on any machine with no page mapped and
    its swap file open, and the loaded program sees every byte of its text and
    data sections there.  A program that was linked at other addresses does not
    find its data where it expects them: the loader ignores virtualAddr. *)
Theorem converted_program_visible (file junk' : list Z) (cs : list scnhdr) (junk : NoffHeader)
    (s : Machine) (argc : Z) :
  coff_headers file cs -> sections_ok file cs -> header_wf junk -> 3 <= argc -> vm_inv 0 0 s ->
  exists noff space l',
    coff2noff_main argc (Some file) true junk = (None, Some noff) /\
    StartProcess junk' (mkLoading s (Stub_OpenFile (mkUnixFile noff 0))) = Ok (space, l') /\
    vm_inv 0 0 (ld_machine l') /\
    forall c i b, c ∈ of_kind Text cs ++ of_kind Data cs -> (section_bytes file c).[i] = Some b ->
      vbyte (ld_machine l') (load_address cs c + i) = Some b.
Proof.
  intros Hco Hcs Hj Ha Hv.
  destruct (coff2noff_correct file cs junk Hco Hcs Hj argc Ha) as (noff & h & E & Hok & Pt & Pd & _).
  set (l := mkLoading s (Stub_OpenFile (mkUnixFile noff 0))).
  destruct (StartProcess_image l noff junk' h Hv eq_refl Hok) as (l' & El & _ & Hv' & Es & _).
  destruct (vbyte_written _ _ _ Hv Hv' Es) as [Hin _].
  eexists noff, _, l'. split; [exact E|]. split; [exact El|]. split; [exact Hv'|]. intros c i b Hc Hb.
  apply Hin. unfold image. rewrite (pl_bytes _ _ _ _ Pt), (pl_bytes _ _ _ _ Pd).
  pose proof (co_text _ _ Hcs) as H1. pose proof (co_data _ _ Hcs) as H2.
  pose proof (length_segment_bytes _ _ (no_code _ _ Hok)) as Hl. rewrite (pl_bytes _ _ _ _ Pt), (pl_size _ _ _ _ Pt) in Hl.
  pose proof (proj1 (zlookup_Some _ _ _) Hb) as [Hi _]. unfold load_address.
  apply elem_of_app in Hc as [Hc|Hc]; pose proof Hc as Hk; apply list_elem_of_filter in Hk as [[_ ->] _].
  - destruct (of_kind Text cs) as [|c0 [|]]; [inversion Hc| |cbn in H1; lia].
    apply list_elem_of_singleton in Hc as ->. cbn [bytes_of mbind list_bind]. rewrite app_nil_r, Z.add_0_l.
    rewrite zlookup_app_l by exact Hi. exact Hb.
  - rewrite <- Hl, zlookup_app_r by lia.
    destruct (of_kind Data cs) as [|c0 [|]]; [inversion Hc| |cbn in H2; lia].
    apply list_elem_of_singleton in Hc as ->. unfold bytes_of at 1. cbn [mbind list_bind]. rewrite app_nil_r.
    exact Hb.
Qed.

(** The flat image: the raw data of all sections but .bss and .sbss, one after
    the other in the order of their headers whatever their addresses, and a
    zero word at the end of the stack that lies above the highest address. *)
Theorem coff2flat_layout (file : list Z) (cs : list scnhdr) (argc : Z) :
  coff_headers file cs -> Forall (flat_ok file) cs -> flat_top cs + FlatStackSize < 2 ^ 31 -> 3 <= argc ->
  coff2flat_main argc (Some file) true =
    (None, Some (written (bytes_of file (filter (fun c => flat_copied c = true) cs))
                   (flat_top cs + FlatStackSize - 4) [0; 0; 0; 0])).
Proof.
  intros Hco Hcs Htop Ha. unfold FlatStackSize in *.
  destruct (read_sections_ok file cs (Some (mkUnixFile [] 0)) true Hco) as [q Er].
  destruct (flat_sections_ok file cs q [] 0 Hcs) as [q' Ef]; [unfold is_i32; lia|]. cbn [app length] in Ef.
  assert (Hnn : 0 <= flat_top cs) by (clear; induction cs as [|c cs IH]; cbn; [lia|unfold flat_top in IH; lia]).
  fold (flat_top cs) in Ef. rewrite Z.max_r in Ef by exact Hnn.
  unfold coff2flat_main. destruct (Z.ltb_spec argc 2); [lia|].
  unfold opened. rewrite (proj2 (Z.leb_le 3 argc)) by lia. cbn [andb]. unfold coff2flat.
  rewrite (xthen_step _ _ _ _ _ (flat_headers_same _ _ Er)), (xthen_step _ _ _ _ _ Ef).
  unfold FlatStackSize. rewrite i32_id by (unfold is_i32; lia).
  unfold out_lseek, seek, xthen at 1. cbn [fdIn fdOut out_linked fmap option_fmap option_map contents].
  destruct (Z.ltb_spec (flat_top cs + 1024 - 4) 0); [lia|].
  rewrite Flat_Write_ok by reflexivity. reflexivity.
Qed.

(** A .bss that continues a .sbss (or the other way round) is refused: the
    converter stops with the message that it cannot handle both and removes
    its output, although the comment in the code asks for them to be
    contiguous. *)
Theorem contiguous_bss_rejected (file : list Z) (pre post : list scnhdr) (a b : scnhdr)
    (junk : NoffHeader) (argc : Z) :
  coff_headers file (pre ++ b :: post) -> sections_ok file pre -> header_wf junk -> 3 <= argc ->
  of_kind Bss pre = [a] -> kind_of b = Bss -> s_size b <> 0 ->
  s_paddr b = i32 (s_paddr a + s_size a) ->
  coff2noff_main argc (Some file) true junk = (Some BothBss, None).
Proof.
  intros Hco Hpre Hj Ha Ea Kb Hz Hadj.
  destruct (read_sections_ok file _ (Some (mkUnixFile [] 0)) true Hco) as [q Er].
  pose proof (co_bytes _ _ Hco) as Hby. pose proof Hpre as [Hok Ht Hd Hb Hsp]. unfold UserStackSize, PageSize in Hsp.
  destruct (convert_sections_ok file pre [] (init_header junk) sizeof_NoffHeader
              (mkConv (mkUnixFile file q) (Some (mkUnixFile [] sizeof_NoffHeader)) true))
    as (h & pos & c & Ex & Hcv); auto using converted_nil.
  { pose proof (headers_i32 _ _ Hco) as Hi. now apply Forall_app in Hi as [Hi _]. }
  { intros [| | |]; auto. }
  { cbn [app]. lia. }
  cbn [app] in Hcv. pose proof (cv_bss _ _ _ _ _ Hcv) as Hbs. pose proof (cv_base _ _ _ _ _ Hcv) as Hba.
  assert (Ha0 : 0 < s_size a) by (apply (of_kind_pos file pre Bss); [exact Hok|rewrite Ea; left]).
  rewrite Ea in Hbs, Hba. inversion Hba as [|? ? Hba' _]. subst. clear Hba. rename Hba' into Hba. cbn in Hbs.
  unfold coff2noff_main. destruct (Z.ltb_spec argc 2); [lia|].
  unfold opened. rewrite (proj2 (Z.leb_le 3 argc)) by lia. cbn [andb]. unfold coff2noff.
  rewrite (xthen_step _ _ _ _ _ Er), words_to_host_id.
  rewrite (xthen_step _ _ _ tt (mkConv (mkUnixFile file q) (Some (mkUnixFile [] 40)) true)) by reflexivity.
  rewrite (xthen_exit _ _ _ (BothBss, mkConv (fdIn c) (fdOut c) false)); [reflexivity|].
  rewrite xfold_app, (xthen_step _ _ _ _ _ Ex). cbn [xfold]. apply xthen_exit.
  unfold convert_section. rewrite (proj2 (Z.eqb_neq _ _) Hz).
  revert Kb. unfold kind_of. destruct (str_eq _ dot_text); [discriminate|].
  destruct (_ || _); [discriminate|]. destruct (_ || _); [intros _|discriminate].
  replace (size (uninitData h)) with (s_size a) by lia.
  destruct (Z.eqb_spec (s_size a) 0); [lia|]. rewrite Hba, Hadj, Z.eqb_refl. reflexivity.
Qed.

(** * Concrete programs *)
Definition pad8 (name : list Z) : list Z := take 8 (name ++ replicate 8 0).
Definition scnhdr_bytes (name : list Z) (paddr sz ptr : Z) : list Z :=
  pad8 name ++ le_split 4 paddr ++ le_split 4 paddr ++ le_split 4 sz ++ le_split 4 ptr ++ replicate 16 0.
Definition coff_bytes (headers : list (list Z)) (raw : list Z) : list Z :=
  le_split 2 MIPSELMAGIC ++ le_split 2 (Z.of_nat (length headers)) ++ replicate 16 0 ++
  le_split 2 OMAGIC ++ replicate 54 0 ++ mjoin headers ++ raw.

(** Two bytes of text, one of data, and .bss with .sbss behind it. *)
Definition sample_coff : list Z :=
  coff_bytes [scnhdr_bytes dot_text 0 2 196; scnhdr_bytes dot_data 2 1 198; scnhdr_bytes dot_bss 3 8 0]
    [17; 18; 19].
Definition two_bss_coff : list Z :=
  coff_bytes [scnhdr_bytes dot_bss 3 8 0; scnhdr_bytes dot_sbss 11 4 0] [].
Definition sections_of (file : list Z) : list scnhdr :=
  scnhdrs_of (slice file 76 (short_at file 2 * 40)) (short_at file 2).
Definition blank_header : NoffHeader :=
  mkNoffHeader 0 (mkSegment 0 0 0) (mkSegment 0 0 0) (mkSegment 0 0 0).

Lemma blank_header_wf : header_wf blank_header.
Proof. unfold header_wf, segment_wf, is_i32. cbn. lia. Qed.

Lemma converted_program_visible_witness :
  exists noff space l',
    coff2noff_main 3 (Some sample_coff) true blank_header = (None, Some noff) /\
    StartProcess [] (mkLoading (start_machine []) (Stub_OpenFile (mkUnixFile noff 0))) = Ok (space, l') /\
    vbyte (ld_machine l') 2 = Some 19.
Proof.
  destruct (converted_program_visible sample_coff [] (sections_of sample_coff) blank_header (start_machine []) 3)
    as (noff & space & l' & E1 & E2 & _ & Hb).
  - split; try reflexivity; [|vm_compute; discriminate].
    unfold sample_coff, coff_bytes. apply (bool_decide_unpack _). vm_compute. exact I.
  - split; try (vm_compute; repeat constructor; discriminate).
  - apply blank_header_wf.
  - lia.
  - apply start_inv. constructor.
  - exists noff, space, l'. split; [exact E1|]. split; [exact E2|].
    exact (Hb (nth 1 (sections_of sample_coff) (mkscnhdr [] 0 0 0 0)) 0 19 ltac:(vm_compute; right; left) eq_refl).
Defined.

Lemma contiguous_bss_rejected_witness :
  coff2noff_main 3 (Some two_bss_coff) true blank_header = (Some BothBss, None).
Proof.
  apply (contiguous_bss_rejected two_bss_coff (take 1 (sections_of two_bss_coff)) []
           (nth 0 (sections_of two_bss_coff) (mkscnhdr [] 0 0 0 0))
           (nth 1 (sections_of two_bss_coff) (mkscnhdr [] 0 0 0 0)) blank_header 3);
    try reflexivity; try discriminate.
  - split; try reflexivity.
    unfold two_bss_coff, coff_bytes. apply (bool_decide_unpack _). vm_compute. exact I.
  - split; try (vm_compute; repeat constructor; discriminate).
  - apply blank_header_wf.
Defined.

Example coff2flat_sample :
  coff2flat_main 3 (Some sample_coff) true =
    (None, Some ([17; 18; 19] ++ replicate 1028 0 ++ [0; 0; 0; 0])).
Proof. vm_compute. reflexivity. Qed.
